(* ===== verification/_CoqProject ===== *)
-Q . S2P
Prelude.v
Keeps.v
Pmm.v
Vmm.v
VmmSpec.v
HashTable.v
Bytes.v
ByteMem.v
UserMem.v
AddrSpace.v
Printf.v
Fdt.v
Htif.v
Rfs.v
RfsDisk.v
RfsFile.v
RfsWrite.v
RfsDir.v
RfsUnlink.v
RfsCreate.v
RfsLink.v
RfsMount.v
RfsSpec.v
Vfs.v
RfsTypes.v
VfsSpec.v
ProcFile.v
VfsTypes.v
Process.v
ProcessSpec.v
SpikeFile.v
Console.v
Hostfs.v
HostTypes.v
Mount.v
MountTypes.v
HostfsSpec.v
MountSpec.v
Elf.v
ElfSpec.v
ElfProgram.v
Sched.v
Trap.v
TrapSpec.v
Heap.v
ForkCopy.v
ForkRegions.v
Fork.v
Machine.v
SysFile.v
KernelTypes.v
Kernel.v
KernelSafe.v
Neutral.v
Policy.v
KernelBoot.v
SysFileSpec.v
UserLib.v
HardlinkApp.v
