(* ===== verification/Prelude.v ===== *)
(** * A verification development of the PKE kernel

    PKE is a small RISC-V teaching kernel: one hart, Sv39 paging, round-robin
    scheduling of at most 32 processes, and a virtual file system over the files
    of the host and a RAM disk.  This library translates the kernel's own logic
    from C into executable Rocq definitions and proves what makes it correct.

    ** The parts of the kernel and the files that model them

    - [Prelude]: the outcome type and monad of kernel routines, machine
      integers, the rounding macros of [util/functions.h] and the constants
      shared by the components.  [Keeps]: partial correctness, the predicates a
      routine keeps on every path; it carries the typing proofs.
    - [Pmm] ([kernel/pmm.c]): physical pages.  The state is the memory (a map
      from word addresses to 64-bit words), the bounds of the managed memory and
      the head of the free list, which is threaded through the free pages as in
      the C code.  [alloc_page], [free_page], [create_freepage_list] and
      [pmm_init] are the functions of the same names.  The class
      [PageAllocator] states what the allocator promises; [Pmm] is one instance,
      [ListAlloc] (a list of pages) another one used to run examples.
    - [Vmm], [VmmSpec] ([kernel/vmm.c], the page table macros of
      [kernel/riscv.h]): Sv39 page tables as words of that memory.  [xlate] is
      the translation the tables define.
    - [HashTable] ([util/hash_table.c] and the dentry and vinode caches of
      [kernel/vfs.c]): chained hash tables whose nodes are pages, against the
      classes [HashKey] and [PageAllocator].
    - [Bytes], [ByteMem] ([util/string.c] and the layout of C structures): byte
      ranges of buffers, little-endian integers, NUL-terminated strings, and the
      memory and string functions on the bytes of the word-addressed memory.
      [UserMem]: the bytes of a process through its page table; [AddrSpace]:
      what a step may change in an address space, shared by the loader, [fork]
      and the heap calls.
    - [Printf] ([util/snprintf.c], [atol]): formatted printing.
    - [Fdt] ([spike_interface/dts_parse.c], [spike_memory.c], the device tree
      part of [spike_htif.c]): the scan of the device tree with its callbacks.
    - [Htif] ([spike_interface/spike_htif.c]): requests to the host; the host is
      the class [HtifDevice].
    - [SpikeFile] ([spike_interface/spike_file.c], [atomic.h],
      [frontend_syscall]): the table of host files; the server on the host is
      the class [Frontend], and [SimHost] a small one used to run examples.
    - [Console] ([spike_interface/spike_utils.c]): console output, shutdown.
    - [Rfs] ([kernel/ramdev.c], [kernel/rfs.c]): the RAM disk and its file
      system at the level of the bytes on the disk and of the device's
      [iobuffer]; disk inodes and directory entries are decoded from and encoded
      into blocks.  Vfs inodes and dentries are objects in heaps indexed by
      their page.  [RfsDisk], [RfsFile], [RfsWrite], [RfsDir], [RfsUnlink],
      [RfsCreate], [RfsLink] and [RfsMount] hold the lemmas about inodes, free
      map and contents, writing, directories, unlinking, creating, linking,
      formatting and mounting; [RfsSpec] states the theorems, and [RfsTypes] that
      every operation keeps the sizes and ranges of the data.
    - [Vfs], [VfsSpec], [VfsTypes] ([kernel/vfs.c]): paths, open files, links and
      directories over the caches and a table [vinode_ops] of file system
      operations, the [i_ops] of the C code; [rfs_i_ops] is the table of RFS.
    - [Hostfs], [HostfsSpec], [HostTypes] ([kernel/hostfs.c]): the file system of the host's
      files; [mounted_i_ops] is the table that serves each inode by its own file
      system.
    - [Mount], [MountSpec], [MountTypes] ([vfs_mount], [kernel/ramdev.c] [init_rfs_device], the
      registrations, [fs_init] of [kernel/proc_file.c]): file system types,
      devices and mounting.
    - [ProcFile] ([kernel/proc_file.c]): the file descriptors of a process.
    - [Process] ([kernel/process.c], [kernel/process.h], the return path of
      [kernel/strap_vector.S]): process structures, creation of processes and
      [switch_to]; [ProcessSpec] says what a new process is; [Sched] ([kernel/sched.c]): the ready queue and [schedule];
      [Trap], [TrapSpec] ([kernel/strap.c], [kernel/syscall.c], [do_fork] and
      the trap entry of [kernel/strap_vector.S]): traps, the timer, page faults
      and the process and memory system calls.
    - [Heap]: the specification of the two heap calls of [Trap], blocks with
      contents; [ForkCopy], [ForkRegions], [Fork]: what [Trap.do_fork] makes of
      a process, by pages, by regions and as a whole.
    - [Elf], [ElfSpec], [ElfProgram] ([kernel/elf.c]): the loader, on the state
      of the processes and of the host files; first one segment, then a whole
      program.
    - [SysFile], [SysFileSpec] ([kernel/syscall.c]): the file system calls, with
      the paths and buffers in the memory of the calling process.
    - [Kernel], [KernelTypes], [KernelSafe], [KernelBoot] ([kernel/kernel.c] and
      [kernel/strap.c] with every system call): the whole kernel, its start and
      its traps.  [Neutral], [Policy]: which routines leave the scheduler alone,
      and the scheduling policy of the whole kernel.
    - [UserLib] ([user/user_lib.c]): the wrappers applications call, and
      [printu]; [HardlinkApp] ([user/app_hardlink.c]): the test application.
    - [Machine] ([kernel/machine/minit.c], [mtrap.c], [mtrap_vector.S]): machine
      mode, its control registers and traps.

    [Process], [Sched] and [Trap] share one state: the memory and its allocator,
    the process pool, [current], the ready queue's head, the tick counter and
    the registers of the hart.  A trap is the whole path from the trap entry to
    [return_to_user], which ends a kernel routine with the outcome [ToUser].
    [Elf] adds the host files to that state, [SysFile] the virtual file system,
    whose pages are those of the kernel.  [Kernel] keeps one copy of everything
    and gives each component its view of it.

    ** What the theorems show

    - The whole kernel: from power on [s_start] ends in user mode with the host's
      program loaded in process 0 ([kernel_boots]); its state stays typed through
      later traps ([runs_typed]).
    - Pages: allocator and free list refine a stack of pages for every sequence
      of requests; initialisation puts the right pages on the list.
    - Paging: mapping, unmapping and lookup change and read the translation of
      exactly the pages concerned; the kernel's direct map.
    - Caches: the hash table refines a dictionary for every sequence of
      operations.
    - RFS: what is written is read back, directories are lists of entries,
      creation, linking and unlinking change exactly what they should, blocks
      and inodes are not handed out twice; a hard link keeps the file when the
      old name is removed ([rfs_hard_link]); a formatted disk mounts as an empty
      root.  Two theorems state where the code goes wrong: [rfs_write_loses_tail]
      and [rfs_create_no_inode].
    - VFS and descriptors: path splitting, cached lookup, opening and closing
      with their reference counts, the lowest free descriptor, and the limit on
      opens ([do_open_limit]).
    - Mounting: [fs_init] brings up both file systems ([fs_init_mounts]); a file
      the host does not have is taken for a directory ([hostfs_open_missing]).
    - Scheduling: the queue is a FIFO without duplicates, a timer interrupt
      follows round robin, contexts survive it (but for [t6], which the trap
      entry overwrites).  Every trap of the whole kernel, with all its system
      calls and faults, moves an abstract scheduling policy as its event says
      ([kernel_trap_follows_policy]), so that in every run a queued process gets
      the processor within [2 * (k + 1)] ticks ([round_robin_fair]).
    - Processes and loading: a new process has its address space, trapframe and
      file table ([alloc_process_creates]); the loader puts the segments of the
      file into it and nothing else ([elf_program_loaded]); bad headers are
      refused; the loops end.
    - Heap: the allocation and release of pages refine a heap of blocks for
      every legal sequence of calls and accesses ([heap_refines_blocks]); with
      32 freed pages the next one overflows the table ([free_beyond_table]).
    - Fork: the child is the parent's copy in trapframe, stack, heap (but for the
      pages its filter skips) and the first page of its code segments, and
      nothing else ([fork_copies]); a heap
      made by the heap calls is one that can be copied ([heap_ok_forkable]).
    - File system calls: [write] appends the process's bytes to the file, [read]
      delivers the file's bytes page by page, up to the first NUL of each piece;
      an error of a read is reported as success
      ([sys_user_read_directory]).
    - Library: memory and string functions do what they are for, also where
      source and destination overlap; formatted text is the text the format
      stands for, where a [%c] that is cut off takes no argument
      ([vsnprintf_cut_char]); decimal numbers are read back.
    - Host interface: requests are served when the host answers, the scan of a
      device tree, with NOP tokens anywhere, ends, messages reach the host; entries of the file table are
      never given back ([spike_open_close_exhausts]).
    - Machine mode: the start leads into supervisor mode with the traps
      delegated and the timer armed; a machine timer interrupt is transparent
      but for [t6]; exceptions that are not delegated stop the machine.

    ** Conventions, bounds and fuel

    A routine returns an [outcome]; [returns] is total correctness, so that a
    theorem about a routine excludes panics, undefined accesses and lack of
    fuel.  64-bit quantities are wrapped where the C code can wrap them; the
    [int] fields of the file systems are unbounded integers in memory and are
    truncated to 32 bits when they are stored on the disk ([int_ok] says when
    that loses nothing).  Loops with a bound in the code recurse on that bound;
    the loops of [create_freepage_list], [map_pages] and the heap copy of
    [do_fork] get the number of pages of their range as fuel, the loops over the
    pages of a buffer and of a segment the number of pages they can touch
    ([loop_fuel], [page_fuel]), and the search through the ready queue the size
    of the process pool, which is enough for a queue without duplicates; the
    climb from a dentry to the root gets the number of dentries.  Strings whose
    length is measured have at most [name_fuel] characters.  Loops that wait for
    the host take their fuel as an argument, and the theorems say how much is
    enough.  Contents of uninitialised memory the code reads are arguments
    ([uninit], [garbage], [raw]) and the theorems hold for all of them, and so
    are the addresses of local variables that are passed to the host.

    ** What is not modelled

    The messages the components print are not part of their state (what [sprint]
    does with a message is [Console]); [print_proc_vmspace], which only prints
    and which nothing calls; the macros and accessors of [kernel/riscv.h] and
    [util/functions.h] that nothing uses; the branches of
    [spike_interface/spike_htif.c] for 32-bit machines, which are not compiled;
    function declarations.  The model keeps the contents of one RAM disk, the
    one the kernel creates, and has no translation cache.

    The theorem about [fork] asks for what the code relies on and does not
    check: a heap of at most 32 pages.  A trap that is not the timer's or a yield may
    stop the kernel (the C code panics, or uses memory it should not): runs of
    the kernel end there.  Creating and linking
    files through paths of the mounted file systems is modelled ([Vfs]) and
    typed ([VfsTypes]), but its functional theorems are those of RFS; the test
    application is modelled, and only its verdict is proved. *)

From stdpp Require Import base gmap list numbers strings.
From Stdlib Require Import ZArith Lia.

#[global] Set Default Goal Selector "!".
Local Open Scope Z_scope.

(** ** Outcomes and the kernel monad

    Every kernel routine is a state transformer over the state [S] of its
    component.  Besides returning, a routine can
    - leave supervisor mode for good ([ToUser]: [return_to_user] executes
      [sret], the C call never returns),
    - stop the machine ([Panic], the [panic]/[assert] macros; [Shutdown], the
      [shutdown] call),
    - perform an access C leaves undefined ([Fault]: NULL dereference, array
      index out of bounds),
    - exhaust the fuel given to a loop ([NoFuel]; theorems show it is never
      reached from well-formed states). *)
Inductive outcome (S A : Type) : Type :=
  | Ret (a : A) (s : S)
  | ToUser (s : S)
  | Panic (msg : string)
  | Shutdown (code : Z)
  | Fault (why : string)
  | NoFuel.
Arguments Ret {S A} _ _.
Arguments ToUser {S A} _.
Arguments Panic {S A} _.
Arguments Shutdown {S A} _.
Arguments Fault {S A} _.
Arguments NoFuel {S A}.

Definition M (S A : Type) : Type := S -> outcome S A.

Definition ret {S A} (a : A) : M S A := fun s => Ret a s.

Definition bind {S A B} (m : M S A) (k : A -> M S B) : M S B := fun s =>
  match m s with
  | Ret a s' => k a s'
  | ToUser s' => ToUser s'
  | Panic msg => Panic msg
  | Shutdown c => Shutdown c
  | Fault w => Fault w
  | NoFuel => NoFuel
  end.

Definition panic {S A} (msg : string) : M S A := fun _ => Panic msg.
Definition fault {S A} (why : string) : M S A := fun _ => Fault why.
Definition shutdown {S A} (code : Z) : M S A := fun _ => Shutdown code.
Definition gets {S A} (f : S -> A) : M S A := fun s => Ret (f s) s.
Definition modify {S} (f : S -> S) : M S unit := fun s => Ret tt (f s).

Declare Scope kernel_scope.
Delimit Scope kernel_scope with kernel.
Notation "x <- m ;; k" := (bind m (fun x => k))
  (at level 100, m at next level, k at level 200, right associativity) : kernel_scope.
Notation "'let*' p ':=' m 'in' k" := (bind m (fun x => match x with p => k end))
  (at level 100, p pattern, m at next level, k at level 200, right associativity) : kernel_scope.
Notation "m ;; k" := (bind m (fun _ => k))
  (at level 100, k at level 200, right associativity) : kernel_scope.
Open Scope kernel_scope.

(** [of_option w o] dereferences: a missing object is an undefined access. *)
Definition of_option {S A} (why : string) (o : option A) : M S A :=
  match o with Some a => ret a | None => fault why end.

(** Running a routine of a sub-component on one field of a larger state. *)
Definition zoom {S T A} (get : S -> T) (put : T -> S -> S) (m : M T A) : M S A :=
  fun s =>
    match m (get s) with
    | Ret a t => Ret a (put t s)
    | ToUser t => ToUser (put t s)
    | Panic msg => Panic msg
    | Shutdown c => Shutdown c
    | Fault w => Fault w
    | NoFuel => NoFuel
    end.

(** [returns m s Q]: the routine returns, with a result and state in [Q].  This
    is total correctness: panics, faults and lack of fuel are excluded. *)
Definition returns {S A} (m : M S A) (s : S) (Q : A -> S -> Prop) : Prop :=
  exists a s', m s = Ret a s' /\ Q a s'.

Section monad_laws.
Context {S : Type}.

Lemma bind_ret_l {A B} (a : A) (k : A -> M S B) s : bind (ret a) k s = k a s.
Proof. reflexivity. Qed.

Lemma bind_Ret {A B} (m : M S A) (k : A -> M S B) s a s' :
  m s = Ret a s' -> bind m k s = k a s'.
Proof. intros H. unfold bind. by rewrite H. Qed.

Lemma bind_Panic {A B} (m : M S A) (k : A -> M S B) s msg :
  m s = Panic msg -> bind m k s = Panic msg.
Proof. intros H. unfold bind. by rewrite H. Qed.

Lemma bind_inv_Ret {A B} (m : M S A) (k : A -> M S B) s b s'' :
  bind m k s = Ret b s'' ->
  exists a s', m s = Ret a s' /\ k a s' = Ret b s''.
Proof. unfold bind. destruct (m s) eqn:E; intros H; try discriminate. eauto. Qed.

Lemma bind_gets {A B} (f : S -> A) (k : A -> M S B) s : bind (gets f) k s = k (f s) s.
Proof. reflexivity. Qed.

Lemma bind_modify {B} (f : S -> S) (k : unit -> M S B) s : bind (modify f) k s = k tt (f s).
Proof. reflexivity. Qed.

Lemma returns_ret {A} (a : A) s (Q : A -> S -> Prop) : Q a s -> returns (ret a) s Q.
Proof. intros H. exists a, s. done. Qed.

Lemma returns_bind {A B} (m : M S A) (k : A -> M S B) s (R : A -> S -> Prop) Q :
  returns m s R ->
  (forall a s', R a s' -> returns (k a) s' Q) ->
  returns (bind m k) s Q.
Proof.
  intros (a & s' & Hm & HR) Hk. destruct (Hk a s' HR) as (b & s'' & Hb & HQ).
  exists b, s''. split; [|done]. by rewrite (bind_Ret _ _ _ _ _ Hm).
Qed.

Lemma returns_mono {A} (m : M S A) s (R Q : A -> S -> Prop) :
  returns m s R -> (forall a s', R a s' -> Q a s') -> returns m s Q.
Proof. intros (a & s' & H & HR) Himp. exists a, s'. auto. Qed.

Lemma returns_gets {A} (f : S -> A) s (Q : A -> S -> Prop) :
  Q (f s) s -> returns (gets f) s Q.
Proof. intros H. exists (f s), s. done. Qed.

Lemma returns_modify (f : S -> S) s (Q : unit -> S -> Prop) :
  Q tt (f s) -> returns (modify f) s Q.
Proof. intros H. exists tt, (f s). done. Qed.

Lemma returns_of_option {A} why (o : option A) a s (Q : A -> S -> Prop) :
  o = Some a -> Q a s -> returns (of_option why o) s Q.
Proof. intros -> H. exists a, s. done. Qed.

Lemma returns_of_eq {A} (m : M S A) s a s' (Q : A -> S -> Prop) :
  m s = Ret a s' -> Q a s' -> returns m s Q.
Proof. intros. exists a, s'. auto. Qed.
End monad_laws.

(** The hint database of total-correctness rules. *)
Create HintDb kernel discriminated.
#[export] Hint Resolve returns_ret returns_gets returns_modify : kernel.

(** [mstep] executes the leading bind of a routine whose first action is known
    to return. *)
Ltac mstep H := rewrite (bind_Ret _ _ _ _ _ H).

(** [zlia]: linear arithmetic with division and modulo by constants. *)
Ltac zlia := Z.div_mod_to_equations; lia.

(** ** Machine integers *)
Definition u64 (x : Z) : Z := x mod 2 ^ 64.
Definition u32 (x : Z) : Z := x mod 2 ^ 32.
Definition i32 (x : Z) : Z := (x + 2 ^ 31) mod 2 ^ 32 - 2 ^ 31.
Definition i64 (x : Z) : Z := (x + 2 ^ 63) mod 2 ^ 64 - 2 ^ 63.

Lemma u64_small x : 0 <= x < 2 ^ 64 -> u64 x = x.
Proof. apply Z.mod_small. Qed.
Lemma u64_range x : 0 <= u64 x < 2 ^ 64.
Proof. apply Z.mod_pos_bound. lia. Qed.
Lemma i64_small x : - 2 ^ 63 <= x < 2 ^ 63 -> i64 x = x.
Proof. intros. unfold i64. rewrite Z.mod_small; lia. Qed.
Lemma i32_small x : - 2 ^ 31 <= x < 2 ^ 31 -> i32 x = x.
Proof. intros. unfold i32. rewrite Z.mod_small; lia. Qed.
Lemma i32_range x : - 2 ^ 31 <= i32 x < 2 ^ 31.
Proof. unfold i32. pose proof (Z.mod_pos_bound (x + 2 ^ 31) (2 ^ 32)). lia. Qed.

(** ** [util/functions.h] on [uint64] operands *)
Definition ROUNDUP (a b : Z) : Z := u64 ((u64 (a - 1) / b + 1) * b).
Definition ROUNDDOWN (a b : Z) : Z := a / b * b.
Definition MAX (a b : Z) : Z := if b <? a then a else b.
Definition MIN (a b : Z) : Z := if a <? b then a else b.

(** ** [kernel/riscv.h], [kernel/memlayout.h], [kernel/config.h] constants *)
Definition PGSIZE : Z := 4096.
Definition PGSHIFT : Z := 12.
Definition DRAM_BASE : Z := 0x80000000.
Definition KERN_BASE : Z := 0x80000000.
Definition PKE_MAX_ALLOWABLE_RAM : Z := 128 * 1024 * 1024.
Definition PHYS_TOP : Z := DRAM_BASE + PKE_MAX_ALLOWABLE_RAM.
Definition USER_STACK_TOP : Z := 0x7ffff000.
Definition USER_FREE_ADDRESS_START : Z := 0x00000000 + PGSIZE * 1024.

#[global] Arguments u64 : simpl never.
#[global] Arguments u32 : simpl never.
#[global] Arguments i32 : simpl never.
#[global] Arguments i64 : simpl never.
#[global] Arguments ROUNDUP : simpl never.
#[global] Arguments ROUNDDOWN : simpl never.
#[global] Arguments MIN : simpl never.
#[global] Arguments MAX : simpl never.
#[global] Arguments Z.div : simpl never.
#[global] Arguments Z.modulo : simpl never.
#[global] Arguments Z.to_nat : simpl never.
