(* ===== verification/Keeps.v ===== *)
(** * Invariants of kernel routines

    [keeps I m Q]: from every state in [I] the routine [m] ends in a state of
    [I], whether it returns or leaves for user mode, and returns results in [Q].
    Stopping the machine is allowed: this is the partial counterpart of
    [returns], for properties that hold whatever the arguments and the rest of
    the state are.  The rules follow the operations of the monad, and [keeps_auto]
    applies them along the text of a routine, with the lemmas of the routines it
    calls taken from the hint database [keeps]. *)

From stdpp Require Import base gmap list numbers strings.
From Stdlib Require Import ZArith Lia.
From S2P Require Import Prelude.
Local Open Scope Z_scope.

(** The states in which the routine may leave are [U]: the invariant itself, or
    none for a routine that never leaves. *)
Definition keeps_to {S A} (U I : S -> Prop) (m : M S A) (Q : A -> Prop) : Prop :=
  forall s, I s ->
    match m s with
    | Ret a s' => I s' /\ Q a
    | ToUser s' => U s'
    | _ => True
    end.
Notation keeps I := (keeps_to I I).
Notation stays I := (keeps_to (fun _ => False) I).

(** A result of which nothing is said. *)
Definition anything {A} : A -> Prop := fun _ => True.

Section rules.
Context {S : Type} {U : S -> Prop} (I : S -> Prop).

Lemma keeps_mono {A} (m : M S A) (R Q : A -> Prop) : keeps_to U I m R -> (forall a, R a -> Q a) -> keeps_to U I m Q.
Proof. intros Hm HQ s Hs. specialize (Hm s Hs). destruct (m s); try done. destruct Hm. auto. Qed.

Lemma keeps_any {A} (m : M S A) (R : A -> Prop) : keeps_to U I m R -> keeps_to U I m anything.
Proof. intros Hm. by apply (keeps_mono _ R). Qed.

Lemma keeps_bind {A B} (m : M S A) (k : A -> M S B) (R : A -> Prop) Q :
  keeps_to U I m R -> (forall a, R a -> keeps_to U I (k a) Q) -> keeps_to U I (bind m k) Q.
Proof.
  intros Hm Hk s Hs. specialize (Hm s Hs). unfold bind. destruct (m s); try done.
  destruct Hm as [Hs' HR]. exact (Hk _ HR _ Hs').
Qed.

Lemma keeps_ret {A} (a : A) (Q : A -> Prop) : Q a -> keeps_to U I (ret a) Q.
Proof. intros HQ s Hs. done. Qed.

Lemma keeps_gets {A} (f : S -> A) (Q : A -> Prop) : (forall s, I s -> Q (f s)) -> keeps_to U I (gets f) Q.
Proof. intros HQ s Hs. split; [done|auto]. Qed.

Lemma keeps_modify (f : S -> S) : (forall s, I s -> I (f s)) -> keeps_to U I (modify f) anything.
Proof. intros Hf s Hs. split; [auto|done]. Qed.

Lemma keeps_stop {A} (m : M S A) (Q : A -> Prop) :
  (forall s, match m s with Ret _ _ | ToUser _ => False | _ => True end) -> keeps_to U I m Q.
Proof. intros Hm s Hs. specialize (Hm s). by destruct (m s). Qed.

Lemma keeps_of_option {A} why (o : S -> option A) (Q : A -> Prop) :
  (forall s a, I s -> o s = Some a -> Q a) -> keeps_to U I (fun s => of_option why (o s) s) Q.
Proof. intros HQ s Hs. destruct (o s) as [a|] eqn:E; simpl; [|done]. split; [done|]. by apply (HQ s). Qed.

Lemma keeps_if {A} (b : bool) (m1 m2 : M S A) (Q : A -> Prop) :
  (b = true -> keeps_to U I m1 Q) -> (b = false -> keeps_to U I m2 Q) -> keeps_to U I (if b then m1 else m2) Q.
Proof. destruct b; auto. Qed.

Lemma keeps_zoom_to {T A} (W J : T -> Prop) (get : S -> T) (put : T -> S -> S) (m : M T A) (Q : A -> Prop) :
  keeps_to W J m Q -> (forall s, I s -> J (get s)) -> (forall s t, I s -> J t -> I (put t s)) ->
  (forall s t, I s -> W t -> U (put t s)) -> keeps_to U I (zoom get put m) Q.
Proof.
  intros Hm Hg Hp Hu s Hs. specialize (Hm (get s) (Hg s Hs)). unfold zoom. destruct (m (get s)); try done.
  - destruct Hm. split; [by apply Hp|done].
  - by apply Hu.
Qed.

(** A routine that never leaves keeps the invariant in any case. *)
Lemma keeps_stays {A} (m : M S A) Q : stays I m Q -> keeps_to U I m Q.
Proof. intros Hm s Hs. specialize (Hm s Hs). by destruct (m s). Qed.

(** What an invariant gives about a run that returned. *)
Lemma keeps_Ret {A} (m : M S A) Q s a s' : keeps_to U I m Q -> I s -> m s = Ret a s' -> I s' /\ Q a.
Proof. intros Hm Hs E. specialize (Hm s Hs). by rewrite E in Hm. Qed.

Lemma keeps_ToUser {A} (m : M S A) Q s s' : keeps_to U I m Q -> I s -> m s = ToUser s' -> U s'.
Proof. intros Hm Hs E. specialize (Hm s Hs). by rewrite E in Hm. Qed.
End rules.

Lemma keeps_zoom {S T A} (I : S -> Prop) (J : T -> Prop) (get : S -> T) (put : T -> S -> S) (m : M T A) (Q : A -> Prop) :
  keeps J m Q -> (forall s, I s -> J (get s)) -> (forall s t, I s -> J t -> I (put t s)) ->
  keeps I (zoom get put m) Q.
Proof. intros Hm Hg Hp. by apply (keeps_zoom_to I J J). Qed.

Create HintDb keeps discriminated.
#[export] Hint Constants Opaque : keeps.
#[export] Hint Variables Opaque : keeps.

(** The fact about a routine, or what it says when the result is of no
    interest. *)
Ltac keeps_call := solve [eauto 2 with keeps nocore | eapply keeps_any; eauto 2 with keeps nocore].

Ltac keeps_stop := apply keeps_stop; intros ?; exact Logic.I.

(** What is known of the parts of a result. *)
Ltac keeps_split :=
  repeat match goal with H : _ /\ _ |- _ => destruct H | H : anything _ |- _ => clear H end; cbn [fst snd] in *.

(** One step along the text of a routine. *)
Ltac keeps_step :=
  lazymatch goal with
  | |- keeps_to _ _ (bind _ _) _ =>
      first [ eapply keeps_bind; [solve [eauto 2 with keeps nocore] | intros ? ?; keeps_split]
            | apply (keeps_bind _ _ _ anything); [ | intros ? _] ]
  | |- keeps_to _ _ (ret _) _ => apply keeps_ret; try exact Logic.I
  | |- keeps_to _ _ (gets _) anything => apply keeps_gets; intros ? ?; exact Logic.I
  | |- keeps_to _ _ (panic _) _ => keeps_stop
  | |- keeps_to _ _ (fault _) _ => keeps_stop
  | |- keeps_to _ _ (shutdown _) _ => keeps_stop
  | |- keeps_to _ _ (fun _ => NoFuel) _ => keeps_stop
  | |- keeps_to _ _ (if ?x then _ else _) _ => first [apply keeps_if; intros ? | destruct x]
  | |- keeps_to _ _ (match ?x with _ => _ end) _ => destruct x; keeps_split
  | |- keeps_to _ _ (let _ := _ in _) _ => cbv zeta
  | |- keeps_to _ _ (of_option _ _) anything => apply (keeps_of_option _ _ (fun _ => _)); intros ? ? ? _; exact Logic.I
  | |- keeps_to _ _ (fun s => of_option _ _ s) anything => apply keeps_of_option; intros ? ? ? _; exact Logic.I
  end.

Ltac keeps_auto := repeat (first [keeps_call | progress keeps_step]).
