(* ===== verification/Pmm.v ===== *)
(** * [kernel/pmm.c]: the physical page allocator

    The free pages form a singly linked list threaded through the pages
    themselves: the first word of a free page holds the address of the next
    one.  Memory is modelled at the granularity the allocator uses it, 64-bit
    words.  [rep] relates the linked list to the abstract stack of free pages;
    the class [PageAllocator] is the contract the clients of [pmm.c] rely on. *)

From stdpp Require Import base gmap list numbers strings.
From Stdlib Require Import ZArith Lia.
From S2P Require Import Prelude.
Local Open Scope Z_scope.

(** ** Word memory *)
Abbreviation memory := (gmap Z Z).
Definition ld64 (m : memory) (a : Z) : Z := default 0 (m !! a).
Definition st64 (m : memory) (a v : Z) : memory := <[a := v]> m.

#[global] Arguments ld64 : simpl never.
#[global] Arguments st64 : simpl never.

Lemma ld64_st64_eq m a v : ld64 (st64 m a v) a = v.
Proof. unfold ld64, st64. by rewrite lookup_insert_eq. Qed.
Lemma ld64_st64_ne m a b v : a <> b -> ld64 (st64 m a v) b = ld64 m b.
Proof. intros. unfold ld64, st64. by rewrite lookup_insert_ne. Qed.

(** ** The abstract contract of a page allocator

    [pa_rep a l] states that the free pages of [a] are exactly [l], in the
    order [pa_alloc] hands them out; [pa_page a p] that [p] is one of the pages
    the allocator manages. *)
Class PageAllocator (A : Type) := {
  pa_alloc : M A Z;
  pa_free : Z -> M A unit;
  pa_rep : A -> list Z -> Prop;
  pa_page : A -> Z -> Prop;
  pa_alloc_nil : forall a, pa_rep a [] -> pa_alloc a = Ret 0 a;
  pa_alloc_cons : forall a p l, pa_rep a (p :: l) ->
    exists a', pa_alloc a = Ret p a' /\ pa_rep a' l /\
               (forall q, pa_page a' q <-> pa_page a q);
  pa_free_ok : forall a p l, pa_rep a l -> pa_page a p -> p ∉ l ->
    exists a', pa_free p a = Ret tt a' /\ pa_rep a' (p :: l) /\
               (forall q, pa_page a' q <-> pa_page a q);
  pa_rep_pages : forall a l, pa_rep a l -> NoDup l /\ Forall (pa_page a) l;
  pa_page_nonnull : forall a p, pa_page a p -> 0 < p;
}.

(** ** State and operations of [pmm.c] *)
Module Pmm.

Record state := mk {
  mem : memory;
  free_mem_start_addr : Z;
  free_mem_end_addr : Z;
  g_free_mem_list : Z;      (* g_free_mem_list.next; 0 is NULL *)
}.

Definition set_mem (m : memory) (s : state) : state :=
  mk m (free_mem_start_addr s) (free_mem_end_addr s) (g_free_mem_list s).
Definition set_head (h : Z) (s : state) : state :=
  mk (mem s) (free_mem_start_addr s) (free_mem_end_addr s) h.

Definition free_page (pa : Z) : M state unit := fun s =>
  if negb (pa mod PGSIZE =? 0)
     || (pa <? free_mem_start_addr s)
     || (free_mem_end_addr s <=? pa)
  then Panic "free_page"
  else
    let s1 := set_mem (st64 (mem s) pa (g_free_mem_list s)) s in
    Ret tt (set_head pa s1).

Definition alloc_page : M state Z := fun s =>
  let n := g_free_mem_list s in
  if n =? 0 then Ret n s
  else Ret n (set_head (ld64 (mem s) n) s).

(** The [for] loop of [create_freepage_list]; [fuel] bounds its iterations. *)
Fixpoint free_range (fuel : nat) (p end_ : Z) : M state unit :=
  if u64 (p + PGSIZE) <? end_ then
    match fuel with
    | O => fun _ => NoFuel
    | S fuel => free_page p ;; free_range fuel (u64 (p + PGSIZE)) end_
    end
  else ret tt.

Definition create_freepage_list (start end_ : Z) : M state unit :=
  modify (set_head 0) ;;
  free_range (Z.to_nat (end_ / PGSIZE)) (ROUNDUP start PGSIZE) end_.

(** [kend] is the address of the linker symbol [_end]; [g_mem_size] the
    memory size found by [query_mem].  Returns the clamped [g_mem_size]. *)
Definition pmm_init (kend g_mem_size : Z) : M state Z :=
  let g_kernel_start := KERN_BASE in
  let g_kernel_end := kend in
  let pke_kernel_size := u64 (g_kernel_end - g_kernel_start) in
  modify (fun s => mk (mem s) (ROUNDUP g_kernel_end PGSIZE)
                      (free_mem_end_addr s) (g_free_mem_list s)) ;;
  let g_mem_size' := MIN PKE_MAX_ALLOWABLE_RAM g_mem_size in
  if g_mem_size' <? pke_kernel_size
  then panic "Error when recomputing physical memory size (g_mem_size)."
  else
    modify (fun s => mk (mem s) (free_mem_start_addr s)
                        (u64 (g_mem_size' + DRAM_BASE)) (g_free_mem_list s)) ;;
    s <- gets id ;;
    create_freepage_list (free_mem_start_addr s) (free_mem_end_addr s) ;;
    ret g_mem_size'.

(** ** The representation invariant *)
Definition valid_page (s : state) (p : Z) : Prop :=
  p mod PGSIZE = 0 /\ free_mem_start_addr s <= p < free_mem_end_addr s.

Fixpoint chain (m : memory) (h : Z) (l : list Z) : Prop :=
  match l with
  | [] => h = 0
  | p :: l' => h = p /\ chain m (ld64 m p) l'
  end.

Definition rep (s : state) (l : list Z) : Prop :=
  0 < free_mem_start_addr s /\ chain (mem s) (g_free_mem_list s) l /\
  NoDup l /\ Forall (valid_page s) l.

Lemma chain_frame m h l a v : a ∉ l -> chain m h l -> chain (st64 m a v) h l.
Proof.
  revert h. induction l as [|p l IH]; intros h Hni; simpl; [done|].
  intros [-> Hc]. apply not_elem_of_cons in Hni as [Hne Hni].
  rewrite ld64_st64_ne by done. auto.
Qed.

Lemma chain_ext m m' h l :
  (forall p, p ∈ l -> ld64 m' p = ld64 m p) -> chain m h l -> chain m' h l.
Proof.
  revert h. induction l as [|p l IH]; intros h Heq; simpl; [done|].
  intros [-> Hc]. rewrite Heq by set_solver. split; [done|].
  apply IH; [|done]. intros. apply Heq. set_solver.
Qed.

Lemma valid_page_ext s s' p :
  free_mem_start_addr s' = free_mem_start_addr s ->
  free_mem_end_addr s' = free_mem_end_addr s ->
  valid_page s' p <-> valid_page s p.
Proof. intros H1 H2. unfold valid_page. by rewrite H1, H2. Qed.

(** A memory update outside the free pages keeps the free list. *)
Lemma rep_set_mem s l m :
  rep s l -> (forall p, p ∈ l -> ld64 m p = ld64 (mem s) p) -> rep (set_mem m s) l.
Proof.
  intros (H0 & Hc & Hnd & Hv) Heq. split_and!; [done| |done|done].
  by apply (chain_ext (mem s)).
Qed.

Lemma alloc_page_nil s : rep s [] -> alloc_page s = Ret 0 s.
Proof. intros (_ & Hc & _). simpl in Hc. unfold alloc_page. by rewrite Hc. Qed.

Lemma alloc_page_cons s p l :
  rep s (p :: l) ->
  alloc_page s = Ret p (set_head (ld64 (mem s) p) s) /\
  rep (set_head (ld64 (mem s) p) s) l.
Proof.
  intros (H0 & [Hp Hc] & Hnd & Hv).
  apply NoDup_cons in Hnd as [Hni Hnd]. apply Forall_cons in Hv as [[Ha Hr] Hv].
  unfold alloc_page. rewrite Hp.
  destruct (Z.eqb_spec p 0); [lia|]. split; [done|].
  split_and!; done.
Qed.

Lemma free_page_ok s p l :
  rep s l -> valid_page s p -> p ∉ l ->
  let s' := set_head p (set_mem (st64 (mem s) p (g_free_mem_list s)) s) in
  free_page p s = Ret tt s' /\ rep s' (p :: l).
Proof.
  intros (H0 & Hc & Hnd & Hv) [Ha Hr] Hni s'. subst s'.
  unfold free_page. rewrite Ha, Z.eqb_refl. simpl.
  destruct (Z.ltb_spec p (free_mem_start_addr s)); [lia|].
  destruct (Z.leb_spec (free_mem_end_addr s) p); [lia|]. split; [done|].
  split_and!; simpl.
  - done.
  - split; [done|]. rewrite ld64_st64_eq. by apply chain_frame.
  - by apply NoDup_cons.
  - by constructor.
Qed.

Lemma rep_pages s l : rep s l -> NoDup l /\ Forall (valid_page s) l.
Proof. by intros (_ & _ & ? & ?). Qed.

(** ** Initialisation *)
Fixpoint pages_from (p : Z) (n : nat) : list Z :=
  match n with
  | O => []
  | S n => p :: pages_from (p + PGSIZE) n
  end.

Lemma elem_of_pages_from q p n :
  q ∈ pages_from p n <-> exists k, (k < n)%nat /\ q = p + Z.of_nat k * PGSIZE.
Proof.
  revert p. induction n as [|n IH]; intros p; simpl.
  - rewrite elem_of_nil. split; [done|]. intros (k & ? & _). lia.
  - rewrite elem_of_cons, IH. split.
    + intros [->|(k & Hk & ->)]; [exists O|exists (S k)]; (split; [lia|lia]).
    + intros ([|k] & Hk & ->); [left; lia|right]. exists k. split; lia.
Qed.

Lemma NoDup_pages_from p n : NoDup (pages_from p n).
Proof.
  revert p. induction n as [|n IH]; intros p; simpl; [constructor|].
  apply NoDup_cons. split; [|done]. rewrite elem_of_pages_from. intros (k & _ & Hk).
  unfold PGSIZE in Hk. lia.
Qed.

Lemma length_pages_from p n : length (pages_from p n) = n.
Proof. revert p. induction n as [|n IH]; intros p; simpl; [done|]. by rewrite IH. Qed.

(** A free list built by hand, for concrete states. *)
Fixpoint link_pages (l : list Z) (m : memory) : memory :=
  match l with
  | [] => m
  | p :: l' => st64 (link_pages l' m) p (hd 0 l')
  end.
Definition linked (lo hi : Z) (l : list Z) (m : memory) : state :=
  mk (link_pages l m) lo hi (hd 0 l).

Lemma linked_rep lo hi l m :
  0 < lo -> NoDup l -> Forall (fun p => p mod PGSIZE = 0 /\ lo <= p < hi) l ->
  rep (linked lo hi l m) l.
Proof.
  intros Hlo. induction l as [|p l IH]; intros Hnd Hf.
  - split_and!; try done.
  - pose proof Hnd as Hnd0. pose proof Hf as Hf0.
    apply NoDup_cons in Hnd as [Hni Hnd]. apply Forall_cons in Hf as [Hp Hf].
    destruct (IH Hnd Hf) as (_ & Hc & _ & _). split_and!; try done.
    simpl. split; [done|]. rewrite ld64_st64_eq. by apply chain_frame.
Qed.

Lemma linked_pages_rep lo n m :
  0 < lo -> lo mod PGSIZE = 0 ->
  rep (linked lo (lo + Z.of_nat n * PGSIZE) (pages_from lo n) m) (pages_from lo n).
Proof.
  intros Hlo Ha. apply linked_rep; [done|apply NoDup_pages_from|].
  apply Forall_forall. intros p. rewrite elem_of_pages_from. intros (k & Hk & ->).
  unfold PGSIZE in *. zlia.
Qed.

(** How many pages the loop [p + PGSIZE < end] frees, starting at [p]. *)
Definition npages (p end_ : Z) : nat := Z.to_nat ((end_ - p - 1) / PGSIZE).

Lemma npages_O p end_ : npages p end_ = O -> end_ <= p + PGSIZE.
Proof.
  unfold npages, PGSIZE. intros H.
  assert ((end_ - p - 1) / 4096 <= 0) by lia.
  pose proof (Z.div_mod (end_ - p - 1) 4096). pose proof (Z.mod_pos_bound (end_ - p - 1) 4096). lia.
Qed.

Lemma npages_S p end_ n :
  npages p end_ = S n -> p + PGSIZE < end_ /\ npages (p + PGSIZE) end_ = n.
Proof.
  unfold npages, PGSIZE. intros H.
  assert ((end_ - p - 1) / 4096 = Z.of_nat n + 1) as E by lia.
  assert ((end_ - (p + 4096) - 1) / 4096 = Z.of_nat n) as ->.
  { replace (end_ - (p + 4096) - 1) with (end_ - p - 1 + (-1) * 4096) by lia.
    rewrite Z.div_add; lia. }
  pose proof (Z.div_mod (end_ - p - 1) 4096). pose proof (Z.mod_pos_bound (end_ - p - 1) 4096). lia.
Qed.

Lemma aligned_succ p : p mod PGSIZE = 0 -> (p + PGSIZE) mod PGSIZE = 0.
Proof. unfold PGSIZE. intros. zlia. Qed.

Lemma free_range_rep n fuel p s l :
  let end_ := free_mem_end_addr s in
  rep s l -> p mod PGSIZE = 0 -> free_mem_start_addr s <= p ->
  p + PGSIZE < 2 ^ 64 -> end_ + PGSIZE <= 2 ^ 64 ->
  Forall (fun q => q < p) l -> npages p end_ = n -> (n <= fuel)%nat ->
  returns (free_range fuel p end_) s (fun _ s' =>
    rep s' (rev (pages_from p n) ++ l) /\
    free_mem_start_addr s' = free_mem_start_addr s /\
    free_mem_end_addr s' = free_mem_end_addr s).
Proof.
  revert fuel p s l. induction n as [|n IH]; intros fuel p s l end_ Hrep Ha Hs Hp He Hl Hn Hf.
  - assert ((u64 (p + PGSIZE) <? end_) = false) as E.
    { apply npages_O in Hn. destruct Hrep as [? _]. rewrite u64_small; unfold PGSIZE in *; lia. }
    exists tt, s. split; [|done]. destruct fuel; simpl; by rewrite E.
  - apply npages_S in Hn as [Hlt Hn]. destruct fuel as [|fuel]; [lia|].
    assert (u64 (p + PGSIZE) = p + PGSIZE) as E.
    { destruct Hrep as [? _]. apply u64_small. unfold PGSIZE in *. lia. }
    simpl. rewrite E. destruct (Z.ltb_spec (p + PGSIZE) end_); [|lia].
    assert (valid_page s p) as Hv by (split; [done|subst end_; unfold PGSIZE in *; lia]).
    assert (p ∉ l) as Hni.
    { intros Hin. rewrite Forall_forall in Hl. specialize (Hl p Hin). lia. }
    destruct (free_page_ok s p l Hrep Hv Hni) as [Heq Hrep'].
    unfold returns. mstep Heq.
    destruct (IH fuel (p + PGSIZE) _ (p :: l) Hrep') as (a & s' & Hr & Hq & H1 & H2);
      simpl; try done.
    + by apply aligned_succ.
    + unfold PGSIZE in *; lia.
    + subst end_. unfold PGSIZE in *; lia.
    + constructor; [unfold PGSIZE; lia|]. eapply Forall_impl; [exact Hl|]. simpl. unfold PGSIZE. lia.
    + lia.
    + exists a, s'. split; [exact Hr|]. split_and!; [|done|done].
      by rewrite <- app_assoc.
Qed.

Lemma ROUNDUP_spec a :
  0 < a -> a + PGSIZE <= 2 ^ 64 ->
  ROUNDUP a PGSIZE mod PGSIZE = 0 /\ a <= ROUNDUP a PGSIZE < a + PGSIZE.
Proof.
  intros H1 H2. unfold ROUNDUP, PGSIZE in *. rewrite (u64_small (a - 1)) by lia.
  pose proof (Z.div_mod (a - 1) 4096). pose proof (Z.mod_pos_bound (a - 1) 4096).
  rewrite u64_small by lia. split; [apply Z.mod_mul|]; lia.
Qed.

Lemma ROUNDUP_aligned a :
  0 < a -> a + PGSIZE <= 2 ^ 64 -> a mod PGSIZE = 0 -> ROUNDUP a PGSIZE = a.
Proof.
  intros H1 H2 H3. destruct (ROUNDUP_spec a H1 H2) as [Ha Hr]. unfold PGSIZE in *. zlia.
Qed.

Lemma create_freepage_list_rep s :
  let start := free_mem_start_addr s in
  let end_ := free_mem_end_addr s in
  0 < start -> start mod PGSIZE = 0 -> start <= end_ + PGSIZE -> end_ + 2 * PGSIZE < 2 ^ 64 ->
  returns (create_freepage_list start end_) s (fun _ s' =>
    rep s' (rev (pages_from start (npages start end_))) /\
    free_mem_start_addr s' = start /\ free_mem_end_addr s' = end_).
Proof.
  intros start end_ H0 Ha Hle He. unfold create_freepage_list.
  rewrite ROUNDUP_aligned; [|done|unfold PGSIZE in *; lia|done].
  unfold returns. rewrite (bind_Ret _ _ s tt (set_head 0 s)) by done.
  destruct (free_range_rep (npages start end_) (Z.to_nat (end_ / PGSIZE)) start (set_head 0 s) [])
    as (u & s' & Heq & Hrep & H1 & H2); simpl; try done.
  - split_and!; simpl; [lia|done|constructor|constructor].
  - unfold PGSIZE in *; lia.
  - subst end_. unfold PGSIZE in *. lia.
  - unfold npages, PGSIZE. destruct (Z.le_gt_cases ((end_ - start - 1) / 4096) 0); [lia|].
    apply Z2Nat.inj_le; zlia.
  - exists u, s'. split; [exact Heq|]. rewrite app_nil_r in Hrep. done.
Qed.
End Pmm.

#[export] Program Instance pmm_allocator : PageAllocator Pmm.state := {|
  pa_alloc := Pmm.alloc_page;
  pa_free := Pmm.free_page;
  pa_rep := Pmm.rep;
  pa_page := fun s p => 0 < p /\ Pmm.valid_page s p;
|}.
Next Obligation. apply Pmm.alloc_page_nil. Qed.
Next Obligation.
  intros s p l H. destruct (Pmm.alloc_page_cons s p l H) as [-> H']. eauto.
Qed.
Next Obligation.
  intros s p l H [H0 Hp] Hni. destruct (Pmm.free_page_ok s p l H Hp Hni) as [-> H']. eauto.
Qed.
Next Obligation.
  intros s l H. destruct (Pmm.rep_pages s l H) as [Hnd Hv]. split; [done|].
  eapply Forall_impl; [exact Hv|]. intros p [Ha Hr]. destruct H as [H0 _].
  split; [lia|]. done.
Qed.
Next Obligation. by intros s p [? _]. Qed.

(** The reference allocator: the abstract stack itself, with the set of pages
    it manages. *)
Module ListAlloc.
Record state := mk { pool : list Z; free : list Z }.
Definition alloc : M state Z := fun s =>
  match free s with
  | [] => Ret 0 s
  | p :: l => Ret p (mk (pool s) l)
  end.
Definition release (p : Z) : M state unit := fun s =>
  if bool_decide (p ∈ pool s) then Ret tt (mk (pool s) (p :: free s))
  else Panic "free_page".
End ListAlloc.

#[export] Program Instance list_allocator : PageAllocator ListAlloc.state := {|
  pa_alloc := ListAlloc.alloc;
  pa_free := ListAlloc.release;
  pa_rep := fun s l => ListAlloc.free s = l /\ NoDup l /\
                       Forall (fun p => p ∈ ListAlloc.pool s /\ 0 < p) l;
  pa_page := fun s p => p ∈ ListAlloc.pool s /\ 0 < p;
|}.
Next Obligation. intros s [H _]. unfold ListAlloc.alloc. by rewrite H. Qed.
Next Obligation.
  intros s p l (H & Hnd & Hf). unfold ListAlloc.alloc. rewrite H.
  apply NoDup_cons in Hnd as [_ Hnd]. apply Forall_cons in Hf as [_ Hf].
  eexists. split_and!; try done.
Qed.
Next Obligation.
  intros s p l (H & Hnd & Hf) [Hp H0] Hni. unfold ListAlloc.release.
  rewrite bool_decide_eq_true_2 by done. eexists. split_and!; try done.
  - simpl. by rewrite H.
  - by apply NoDup_cons.
  - by constructor.
Qed.
Next Obligation. by intros s l (_ & ? & ?). Qed.
Next Obligation. by intros s p [_ ?]. Qed.

(** ** Clients: sequences of requests against the abstract stack *)
Inductive request := ReqAlloc | ReqFree (p : Z).

(** The promise of the allocator as a step relation on the pair of the free
    stack and the pages handed out and not yet given back. *)
Inductive spec_step : list Z * list Z -> request -> Z -> list Z * list Z -> Prop :=
  | spec_alloc_none held : spec_step ([], held) ReqAlloc 0 ([], held)
  | spec_alloc_some p free held :
      spec_step (p :: free, held) ReqAlloc p (free, p :: held)
  | spec_free p free held1 held2 :
      spec_step (free, held1 ++ p :: held2) (ReqFree p) 0 (p :: free, held1 ++ held2).

Inductive spec_run : list Z * list Z -> list request -> list Z -> list Z * list Z -> Prop :=
  | spec_run_nil st : spec_run st [] [] st
  | spec_run_cons st r v st' rs vs st'' :
      spec_step st r v st' -> spec_run st' rs vs st'' ->
      spec_run st (r :: rs) (v :: vs) st''.

#[export] Hint Constructors spec_step spec_run : kernel.

Section clients.
Context `{PageAllocator A}.

Definition pa_request (r : request) : M A Z :=
  match r with
  | ReqAlloc => pa_alloc
  | ReqFree p => pa_free p ;; ret 0
  end.

Fixpoint pa_run (rs : list request) : M A (list Z) :=
  match rs with
  | [] => ret []
  | r :: rs => v <- pa_request r ;; vs <- pa_run rs ;; ret (v :: vs)
  end.

Definition pa_inv (a : A) (st : list Z * list Z) : Prop :=
  pa_rep a st.1 /\ NoDup (st.1 ++ st.2) /\ Forall (pa_page a) st.2.

Lemma pa_request_refines a st r v st' :
  pa_inv a st -> spec_step st r v st' ->
  exists a', pa_request r a = Ret v a' /\ pa_inv a' st' /\
             Permutation (st'.1 ++ st'.2) (st.1 ++ st.2).
Proof.
  intros (Hrep & Hnd & Hpg) Hstep. destruct Hstep as [held|p fr held|p fr h1 h2]; simpl in *.
  - rewrite (pa_alloc_nil a) by done. by eexists.
  - destruct (pa_alloc_cons a p fr Hrep) as (a' & -> & Hrep' & Hiff).
    assert (fr ++ p :: held ≡ₚ p :: fr ++ held) as Hperm by (symmetry; apply Permutation_middle).
    exists a'. split_and!; try done. unfold pa_inv. simpl. split_and!; try done.
    + by rewrite Hperm.
    + constructor.
      * apply Hiff. destruct (pa_rep_pages a _ Hrep) as [_ Hf]. by apply Forall_cons in Hf as [? _].
      * eapply Forall_impl; [exact Hpg|]. intros q. apply Hiff.
  - assert ((p :: fr) ++ h1 ++ h2 ≡ₚ fr ++ h1 ++ p :: h2) as Hperm.
    { simpl. rewrite !(app_assoc fr). apply Permutation_middle. }
    assert (p ∉ fr) as Hni.
    { rewrite <- Hperm in Hnd. simpl in Hnd. apply NoDup_cons in Hnd as [Hn _]. set_solver. }
    assert (pa_page a p) as Hp.
    { rewrite Forall_forall in Hpg. apply Hpg. set_solver. }
    destruct (pa_free_ok a p fr Hrep Hp Hni) as (a' & Heq & Hrep' & Hiff).
    exists a'. split; [by mstep Heq|]. split; [|done].
    split_and!; simpl; [done|by rewrite Hperm|].
    rewrite Forall_app in Hpg. rewrite Forall_cons in Hpg. destruct Hpg as (? & ? & ?).
    apply Forall_app. split; (eapply Forall_impl; [eassumption|]; intros q; apply Hiff).
Qed.

Lemma pa_run_refines a st rs vs st' :
  pa_inv a st -> spec_run st rs vs st' ->
  exists a', pa_run rs a = Ret vs a' /\ pa_inv a' st' /\
             Permutation (st'.1 ++ st'.2) (st.1 ++ st.2).
Proof.
  intros Hinv Hrun. revert a Hinv.
  induction Hrun as [st|st r v st1 rs vs st2 Hstep Hrun IH]; intros a Hinv.
  - exists a. split; [done|]. split; [done|]. reflexivity.
  - destruct (pa_request_refines a st r v st1 Hinv Hstep) as (a1 & Heq & Hinv1 & Hp1).
    destruct (IH a1 Hinv1) as (a2 & Heq2 & Hinv2 & Hp2).
    exists a2. simpl. mstep Heq. mstep Heq2. split; [done|]. split; [done|].
    by rewrite Hp2.
Qed.
End clients.

(** ** Properties *)

Lemma pmm_init_ok kend mem_size s :
  KERN_BASE < kend <= KERN_BASE + MIN PKE_MAX_ALLOWABLE_RAM mem_size ->
  returns (Pmm.pmm_init kend mem_size) s (fun sz s' =>
    sz = MIN PKE_MAX_ALLOWABLE_RAM mem_size /\
    let start := ROUNDUP kend PGSIZE in
    let stop := DRAM_BASE + sz in
    Pmm.rep s' (rev (Pmm.pages_from start (Pmm.npages start stop))) /\
    Pmm.free_mem_start_addr s' = start /\ Pmm.free_mem_end_addr s' = stop).
Proof.
  intros Hk. remember (MIN PKE_MAX_ALLOWABLE_RAM mem_size) as sz eqn:Esz.
  assert (0 < sz <= PKE_MAX_ALLOWABLE_RAM) as Hsz.
  { split; [lia|]. subst sz. unfold MIN.
    destruct (Z.ltb_spec PKE_MAX_ALLOWABLE_RAM mem_size); lia. }
  unfold KERN_BASE, PKE_MAX_ALLOWABLE_RAM in Hk, Hsz.
  destruct (Pmm.ROUNDUP_spec kend) as [Ha Hr]; [lia|unfold PGSIZE; lia|].
  set (s0 := Pmm.mk (Pmm.mem s) (ROUNDUP kend PGSIZE) (DRAM_BASE + sz) (Pmm.g_free_mem_list s)).
  destruct (Pmm.create_freepage_list_rep s0) as (u & s' & Heq & Hrep & H1 & H2);
    subst s0; cbn [Pmm.free_mem_start_addr Pmm.free_mem_end_addr] in *;
    [lia|done|unfold PGSIZE, DRAM_BASE in *; lia|unfold PGSIZE, DRAM_BASE in *; lia|].
  exists sz, s'. split; [|done].
  unfold Pmm.pmm_init. rewrite <- Esz, u64_small by (unfold KERN_BASE; lia).
  unfold bind, modify, gets. cbn [Pmm.mem Pmm.free_mem_start_addr Pmm.free_mem_end_addr Pmm.g_free_mem_list id].
  destruct (Z.ltb_spec sz (kend - KERN_BASE)) as [|_]; [unfold KERN_BASE in *; lia|].
  rewrite (u64_small (sz + DRAM_BASE)) by (unfold DRAM_BASE; lia).
  rewrite (Z.add_comm sz). unfold ret. simpl. by rewrite Heq.
Qed.

(** [pmm_init] returns and leaves exactly the pages of
    [\[ROUNDUP(_end), DRAM_BASE + MIN(128MB, mem))] that fit strictly below the
    end on the free list, the highest page first (so that consecutive
    allocations are contiguous and descending). *)
Theorem pmm_init_free_list kend mem_size s :
  KERN_BASE < kend <= KERN_BASE + MIN PKE_MAX_ALLOWABLE_RAM mem_size ->
  returns (Pmm.pmm_init kend mem_size) s (fun sz s' =>
    sz = MIN PKE_MAX_ALLOWABLE_RAM mem_size /\
    let start := ROUNDUP kend PGSIZE in
    let stop := DRAM_BASE + sz in
    Pmm.rep s' (rev (Pmm.pages_from start (Pmm.npages start stop))) /\
    Pmm.free_mem_start_addr s' = start /\ Pmm.free_mem_end_addr s' = stop).
Proof. apply pmm_init_ok. Qed.

Definition boot_state : Pmm.state := Pmm.mk ∅ 0 0 0.

Lemma pmm_init_free_list_witness :
  returns (Pmm.pmm_init 0x80020001 0x25000) boot_state (fun sz s' =>
    sz = 0x25000 /\
    Pmm.rep s' [0x80023000; 0x80022000; 0x80021000] /\
    Pmm.free_mem_start_addr s' = 0x80021000 /\ Pmm.free_mem_end_addr s' = 0x80025000).
Proof.
  destruct (pmm_init_free_list 0x80020001 0x25000 boot_state) as (sz & s' & Heq & Hsz & Hrep).
  - vm_compute. split; congruence.
  - exists sz, s'. split; [exact Heq|]. subst sz. exact (conj eq_refl Hrep).
Defined.

(** C3: the linked list refines the abstract stack of free pages: whatever a
    client that only frees pages it holds asks for, [alloc_page] and
    [free_page] return what the stack returns, never hand out a page twice, and
    the free pages together with the held ones stay the same pages. *)
Theorem pmm_refines_stack s st rs vs st' :
  pa_inv s st -> spec_run st rs vs st' ->
  exists s', pa_run (A := Pmm.state) rs s = Ret vs s' /\ pa_inv s' st' /\
             Permutation (st'.1 ++ st'.2) (st.1 ++ st.2).
Proof. apply pa_run_refines. Qed.

Definition two_pages : Pmm.state :=
  Pmm.linked 0x80001000 0x80003000 (Pmm.pages_from 0x80001000 2) ∅.

Lemma two_pages_inv : pa_inv two_pages (Pmm.pages_from 0x80001000 2, []).
Proof.
  split_and!; [|rewrite app_nil_r; apply Pmm.NoDup_pages_from|constructor].
  by apply (Pmm.linked_pages_rep 0x80001000 2 ∅).
Qed.

Lemma pmm_refines_stack_witness :
  exists s', pa_run (A := Pmm.state) [ReqAlloc; ReqAlloc; ReqAlloc; ReqFree 0x80001000; ReqAlloc] two_pages
    = Ret [0x80001000; 0x80002000; 0; 0; 0x80001000] s' /\
    pa_inv s' ([], [0x80001000; 0x80002000]) /\
    Permutation [0x80001000; 0x80002000] [0x80001000; 0x80002000].
Proof.
  apply (pmm_refines_stack two_pages ([0x80001000; 0x80002000], [])).
  - exact two_pages_inv.
  - repeat econstructor. exact (spec_free 0x80001000 [] [0x80002000] []).
Defined.

(** [free_page] rejects exactly the addresses that are not page aligned or
    lie outside the managed memory. *)
Theorem free_page_panics_iff pa s :
  Pmm.free_page pa s = Panic "free_page" <-> ~ Pmm.valid_page s pa.
Proof.
  unfold Pmm.free_page, Pmm.valid_page.
  destruct (Z.eqb_spec (pa mod PGSIZE) 0); simpl; [|split; [lia|done]].
  destruct (Z.ltb_spec pa (Pmm.free_mem_start_addr s)); simpl; [split; [lia|done]|].
  destruct (Z.leb_spec (Pmm.free_mem_end_addr s) pa); simpl; split; (done || lia).
Qed.
