(* ===== verification/Vmm.v ===== *)
(** * [kernel/vmm.c]: Sv39 page tables

    Page tables live in the word memory of [Pmm]: a table is a page of 512
    entries.  [page_walk] and everything above it is a routine over
    [Pmm.state], so that table pages are taken from the same allocator the rest
    of the kernel uses.  The theorems are stated over [xlate], the valid leaf
    entry a virtual address translates through. *)

From stdpp Require Import base gmap list numbers strings.
From Stdlib Require Import ZArith Lia.
From S2P Require Import Prelude Pmm.
Local Open Scope Z_scope.

(** ** [kernel/riscv.h]: page table entries *)
Definition PTE_V : Z := Z.shiftl 1 0.
Definition PTE_R : Z := Z.shiftl 1 1.
Definition PTE_W : Z := Z.shiftl 1 2.
Definition PTE_X : Z := Z.shiftl 1 3.
Definition PTE_U : Z := Z.shiftl 1 4.
Definition PTE_G : Z := Z.shiftl 1 5.
Definition PTE_A : Z := Z.shiftl 1 6.
Definition PTE_D : Z := Z.shiftl 1 7.
Definition PA2PTE (pa : Z) : Z := u64 (Z.shiftl (Z.shiftr pa 12) 10).
Definition PTE2PA (pte : Z) : Z := u64 (Z.shiftl (Z.shiftr pte 10) 12).
Definition PTE_FLAGS (pte : Z) : Z := Z.land pte 0x3FF.
Definition PXMASK : Z := 0x1FF.
Definition PXSHIFT (level : Z) : Z := PGSHIFT + 9 * level.
Definition PX (level va : Z) : Z := Z.land (Z.shiftr va (PXSHIFT level)) PXMASK.
Definition MAXVA : Z := Z.shiftl 1 (9 + 9 + 9 + 12 - 1).
Definition SATP_SV39 : Z := Z.shiftl 8 60.
Definition MAKE_SATP (pagetable : Z) : Z := Z.lor SATP_SV39 (Z.shiftr pagetable 12).

(** ** [kernel/vmm.h]: permission codes *)
Definition PROT_NONE : Z := 0.
Definition PROT_READ : Z := 1.
Definition PROT_WRITE : Z := 2.
Definition PROT_EXEC : Z := 4.

(** A C test [if (x & mask)]. *)
Definition has (x mask : Z) : bool := negb (Z.land x mask =? 0).

Module Vmm.

Definition read (a : Z) : M Pmm.state Z := gets (fun s => ld64 (Pmm.mem s) a).
Definition write (a v : Z) : M Pmm.state unit :=
  modify (fun s => Pmm.set_mem (st64 (Pmm.mem s) a v) s).

(** [memset(a, 0, PGSIZE)], as the 512 word stores of its aligned loop. *)
Fixpoint zero_words (n : nat) (a : Z) (m : memory) : memory :=
  match n with
  | O => m
  | S n => zero_words n (a + 8) (st64 m a 0)
  end.
Definition zero_page (a : Z) (m : memory) : memory := zero_words 512 a m.

Definition prot_to_type (prot : Z) (user : bool) : Z :=
  let perm := 0 in
  let perm := if has prot PROT_READ then Z.lor perm (Z.lor PTE_R PTE_A) else perm in
  let perm := if has prot PROT_WRITE then Z.lor perm (Z.lor PTE_W PTE_D) else perm in
  let perm := if has prot PROT_EXEC then Z.lor perm (Z.lor PTE_X PTE_A) else perm in
  let perm := if perm =? 0 then PTE_R else perm in
  if user then Z.lor perm PTE_U else perm.

(** The loop [for (level = 2; level > 0; level--)] of [page_walk]. *)
Fixpoint page_walk_loop (level : nat) (pt va : Z) (alloc : bool) : M Pmm.state Z :=
  match level with
  | O => ret (pt + 8 * PX 0 va)
  | S level' =>
      let pte := pt + 8 * PX (Z.of_nat level) va in
      e <- read pte ;;
      if has e PTE_V then page_walk_loop level' (PTE2PA e) va alloc
      else if alloc then
        pt' <- Pmm.alloc_page ;;
        if pt' =? 0 then ret 0
        else
          modify (fun s => Pmm.set_mem (zero_page pt' (Pmm.mem s)) s) ;;
          write pte (Z.lor (PA2PTE pt') PTE_V) ;;
          page_walk_loop level' pt' va alloc
      else ret 0
  end.

Definition page_walk (page_dir va : Z) (alloc : bool) : M Pmm.state Z :=
  if MAXVA <=? va then panic "page_walk"
  else page_walk_loop 2 page_dir va alloc.

Fixpoint map_pages_loop (fuel : nat) (page_dir first last pa perm : Z) : M Pmm.state Z :=
  if first <=? last then
    match fuel with
    | O => fun _ => NoFuel
    | S fuel =>
        pte <- page_walk page_dir first true ;;
        if pte =? 0 then ret (-1)
        else
          e <- read pte ;;
          if has e PTE_V then panic "map_pages fails on mapping va to pa"
          else
            write pte (Z.lor (Z.lor (PA2PTE pa) perm) PTE_V) ;;
            map_pages_loop fuel page_dir (u64 (first + PGSIZE)) last (u64 (pa + PGSIZE)) perm
    end
  else ret 0.

Definition map_pages (page_dir va size pa perm : Z) : M Pmm.state Z :=
  let first := ROUNDDOWN va PGSIZE in
  let last := ROUNDDOWN (u64 (va + size - 1)) PGSIZE in
  map_pages_loop (Z.to_nat ((last - first) / PGSIZE + 1)) page_dir first last pa perm.

Definition lookup_pa (pagetable va : Z) : M Pmm.state Z :=
  if MAXVA <=? va then ret 0
  else
    pte <- page_walk pagetable va false ;;
    if pte =? 0 then ret 0
    else
      e <- read pte ;;
      if negb (has e PTE_V) || (negb (has e PTE_R) && negb (has e PTE_W)) then ret 0
      else ret (PTE2PA e).

Definition kern_vm_map (page_dir va pa sz perm : Z) : M Pmm.state unit :=
  r <- map_pages page_dir va sz pa perm ;;
  if r =? 0 then ret tt else panic "kern_vm_map".

(** [etext] is the linker symbol [_etext]; returns [g_kernel_pagetable]. *)
Definition kern_vm_init (etext : Z) : M Pmm.state Z :=
  t_page_dir <- Pmm.alloc_page ;;
  if t_page_dir =? 0 then fault "memset of NULL"
  else
    modify (fun s => Pmm.set_mem (zero_page t_page_dir (Pmm.mem s)) s) ;;
    kern_vm_map t_page_dir KERN_BASE DRAM_BASE (u64 (etext - KERN_BASE))
      (prot_to_type (Z.lor PROT_READ PROT_EXEC) false) ;;
    lookup_pa t_page_dir KERN_BASE ;;
    kern_vm_map t_page_dir etext etext (u64 (PHYS_TOP - etext))
      (prot_to_type (Z.lor PROT_READ PROT_WRITE) false) ;;
    lookup_pa t_page_dir etext ;;
    ret t_page_dir.

Definition user_va_to_pa (page_dir va : Z) : M Pmm.state Z :=
  pte <- page_walk page_dir va false ;;
  if pte =? 0 then ret 0
  else
    e <- read pte ;;
    if negb (has e PTE_V) then ret 0
    else ret (u64 (PTE2PA e + Z.land va (PGSIZE - 1))).

Definition user_vm_map (page_dir va size pa perm : Z) : M Pmm.state unit :=
  r <- map_pages page_dir va size pa perm ;;
  if r =? 0 then ret tt else panic "fail to user_vm_map .".

Definition user_vm_unmap (page_dir va size : Z) (free : bool) : M Pmm.state unit :=
  pte <- page_walk page_dir va false ;;
  if pte =? 0 then ret tt
  else
    e <- read pte ;;
    if negb (has e PTE_V) then ret tt
    else
      let pa := PTE2PA e in
      (if free then Pmm.free_page pa else ret tt) ;;
      write pte 0.

End Vmm.

(** ** Bit-level lemmas *)
Lemma has_V e : has e PTE_V = Z.odd e.
Proof.
  unfold has, PTE_V. change (Z.shiftl 1 0) with (Z.ones 1). rewrite Z.land_ones by lia.
  change (2 ^ 1) with 2. rewrite Zmod_odd. by destruct (Z.odd e).
Qed.

Lemma shiftr_small x n : 0 <= n -> 0 <= x < 2 ^ n -> Z.shiftr x n = 0.
Proof. intros. rewrite Z.shiftr_div_pow2 by lia. apply Z.div_small. lia. Qed.

Lemma PTE2PA_entry pa flags :
  0 <= pa < 2 ^ 64 -> 0 <= flags < 2 ^ 10 ->
  PTE2PA (Z.lor (PA2PTE pa) flags) = ROUNDDOWN pa PGSIZE.
Proof.
  intros Hpa Hf. unfold PTE2PA, PA2PTE, ROUNDDOWN, PGSIZE.
  assert (0 <= Z.shiftr pa 12 < 2 ^ 52) as Hs.
  { rewrite Z.shiftr_div_pow2 by lia. split; [apply Z.div_pos; lia|].
    apply Z.div_lt_upper_bound; lia. }
  rewrite (u64_small (Z.shiftl _ 10)) by (rewrite Z.shiftl_mul_pow2; lia).
  rewrite Z.shiftr_lor, Z.shiftr_shiftl_l by lia.
  rewrite (shiftr_small flags) by lia. rewrite Z.lor_0_r.
  change (10 - 10) with 0. rewrite Z.shiftl_0_r.
  rewrite Z.shiftl_mul_pow2 by lia. rewrite u64_small by lia.
  by rewrite Z.shiftr_div_pow2 by lia.
Qed.

Lemma lor_flags_bound a b n : 0 <= n -> 0 <= a < 2 ^ n -> 0 <= b < 2 ^ n -> 0 <= Z.lor a b < 2 ^ n.
Proof.
  intros Hn Ha Hb. split; [apply Z.lor_nonneg; lia|].
  destruct (Z.eq_dec (Z.lor a b) 0) as [->|Hne]; [lia|].
  pose proof (Z.lor_nonneg a b) as Hnn.
  apply Z.log2_lt_pow2; [lia|]. rewrite Z.log2_lor by lia.
  destruct (Z.eq_dec n 0) as [->|]; [change (2 ^ 0) with 1 in *; assert (a = 0) by lia; assert (b = 0) by lia; subst; done|].
  apply Z.max_lub_lt.
  - destruct (Z.eq_dec a 0) as [->|]; [simpl; lia|]. apply Z.log2_lt_pow2; lia.
  - destruct (Z.eq_dec b 0) as [->|]; [simpl; lia|]. apply Z.log2_lt_pow2; lia.
Qed.

Lemma PTE_V_flag : 0 <= PTE_V < 2 ^ 10.
Proof. by vm_compute. Qed.

Lemma odd_lor_V x : Z.odd (Z.lor x PTE_V) = true.
Proof. rewrite <- Z.bit0_odd, Z.lor_spec. by rewrite orb_true_r. Qed.

Lemma PX_range k va : 0 <= PX k va < 512.
Proof.
  unfold PX, PXMASK. change 0x1FF with (Z.ones 9). rewrite Z.land_ones by lia.
  apply Z.mod_pos_bound. lia.
Qed.

Lemma PX_div k va : 0 <= k -> PX k va = va / 2 ^ (12 + 9 * k) mod 512.
Proof.
  intros. unfold PX, PXMASK, PXSHIFT, PGSHIFT. change 0x1FF with (Z.ones 9).
  rewrite Z.land_ones, Z.shiftr_div_pow2 by lia. done.
Qed.

(** Two addresses below [MAXVA] with the same three indices are on the same
    page. *)
Definition same_page (va va' : Z) : Prop := va / PGSIZE = va' / PGSIZE.

#[export] Instance same_page_dec va va' : Decision (same_page va va').
Proof. unfold same_page. apply _. Defined.

Lemma PX_same_page va va' :
  0 <= va < MAXVA -> 0 <= va' < MAXVA ->
  PX 2 va = PX 2 va' -> PX 1 va = PX 1 va' -> PX 0 va = PX 0 va' -> same_page va va'.
Proof.
  unfold MAXVA, same_page, PGSIZE. rewrite !PX_div by lia.
  change (Z.shiftl 1 (9 + 9 + 9 + 12 - 1)) with (2 ^ 38). simpl (2 ^ _).
  intros. zlia.
Qed.

Lemma same_page_PX k va va' : 0 <= k -> same_page va va' -> PX k va = PX k va'.
Proof.
  unfold same_page, PGSIZE. intros Hk H. rewrite !PX_div by lia.
  rewrite Z.pow_add_r by lia. change (2 ^ 12) with 4096.
  rewrite <- !Z.div_div by lia. by rewrite H.
Qed.

(** Slots of distinct aligned tables are distinct. *)
Lemma slot_inj t t' i j :
  t mod PGSIZE = 0 -> t' mod PGSIZE = 0 -> 0 <= i < 512 -> 0 <= j < 512 ->
  t + 8 * i = t' + 8 * j -> t = t' /\ i = j.
Proof. unfold PGSIZE. intros. zlia. Qed.

Lemma slot_page t i : t mod PGSIZE = 0 -> 0 <= i < 512 -> ROUNDDOWN (t + 8 * i) PGSIZE = t.
Proof. unfold ROUNDDOWN, PGSIZE. intros. zlia. Qed.

Lemma ld64_zero_words n a m b :
  ld64 (Vmm.zero_words n a m) b =
    if bool_decide (a <= b < a + 8 * Z.of_nat n /\ (b - a) mod 8 = 0) then 0 else ld64 m b.
Proof.
  revert a m. induction n as [|n IH]; intros a m; simpl.
  - rewrite bool_decide_eq_false_2; [done|lia].
  - rewrite IH. destruct (decide (b = a)) as [->|Hne].
    + rewrite bool_decide_eq_false_2 by lia. rewrite ld64_st64_eq.
      rewrite bool_decide_eq_true_2; [done|]. rewrite Z.sub_diag. split; [lia|done].
    + rewrite ld64_st64_ne by done.
      case_bool_decide as H1; case_bool_decide as H2; try done; exfalso; zlia.
Qed.

Lemma ld64_zero_page_in p m i :
  0 <= i < 512 -> ld64 (Vmm.zero_page p m) (p + 8 * i) = 0.
Proof.
  intros. unfold Vmm.zero_page. rewrite ld64_zero_words.
  rewrite bool_decide_eq_true_2; [done|]. split; [lia|].
  replace (p + 8 * i - p) with (i * 8) by lia. apply Z.mod_mul. lia.
Qed.

Lemma ld64_zero_page_out p m b :
  p mod PGSIZE = 0 -> ROUNDDOWN b PGSIZE <> p -> ld64 (Vmm.zero_page p m) b = ld64 m b.
Proof.
  unfold ROUNDDOWN, PGSIZE. intros Ha Hne. unfold Vmm.zero_page. rewrite ld64_zero_words.
  rewrite bool_decide_eq_false_2; [done|]. intros [H _]. zlia.
Qed.

#[global] Arguments Vmm.zero_page : simpl never.
#[global] Arguments PX : simpl never.
#[global] Arguments PTE2PA : simpl never.
#[global] Arguments PA2PTE : simpl never.
#[global] Arguments has : simpl never.

(** ** The table tree *)
Section tree.
Context (root : Z).

(** The table visited at depth [d] (0: page directory) on the way to [va]. *)
Fixpoint table (m : memory) (va : Z) (d : nat) : option Z :=
  match d with
  | O => Some root
  | S d' =>
      t ← table m va d';
      let e := ld64 m (t + 8 * PX (2 - Z.of_nat d') va) in
      if has e PTE_V then Some (PTE2PA e) else None
  end.

(** The entry slot of [va] in the table at depth [d]. *)
Definition slot (t va : Z) (d : nat) : Z := t + 8 * PX (2 - Z.of_nat d) va.

(** The valid leaf entry [va] translates through. *)
Definition xlate (m : memory) (va : Z) : option Z :=
  t ← table m va 2;
  let e := ld64 m (slot t va 2) in
  if has e PTE_V then Some e else None.

(** [va] and [va'] take the same branches in the tables at depths [< d]. *)
Definition agree (d : nat) (va va' : Z) : Prop :=
  forall k, (k < d)%nat -> PX (2 - Z.of_nat k) va = PX (2 - Z.of_nat k) va'.

(** Well-formed tables: page aligned, distinct for distinct branches (the
    tables form a tree), and none of them free. *)
Record wf (m : memory) (F : list Z) : Prop := {
  wf_page : forall va d t, (d <= 2)%nat -> table m va d = Some t ->
              t mod PGSIZE = 0 /\ 0 < t /\ t ∉ F;
  wf_inj : forall va va' d d' t, (d <= 2)%nat -> (d' <= 2)%nat ->
              table m va d = Some t -> table m va' d' = Some t -> d = d' /\ agree d va va';
}.

Definition is_table (m : memory) (p : Z) : Prop :=
  exists va d, (d <= 2)%nat /\ table m va d = Some p.

Lemma agree_S d va va' :
  agree (S d) va va' <-> agree d va va' /\ PX (2 - Z.of_nat d) va = PX (2 - Z.of_nat d) va'.
Proof.
  unfold agree. split.
  - intros H. split; [intros k Hk|]; apply H; lia.
  - intros [H1 H2] k Hk. destruct (decide (k = d)) as [->|]; [done|]. apply H1. lia.
Qed.

Lemma agree_mono d d' va va' : (d' <= d)%nat -> agree d va va' -> agree d' va va'.
Proof. intros Hle H k Hk. apply H. lia. Qed.

Lemma agree_sym d va va' : agree d va va' -> agree d va' va.
Proof. intros H k Hk. symmetry. by apply H. Qed.

#[local] Instance agree_dec d va va' : Decision (agree d va va').
Proof.
  induction d as [|d IH].
  - left. intros k Hk. lia.
  - destruct IH as [H|H].
    + destruct (decide (PX (2 - Z.of_nat d) va = PX (2 - Z.of_nat d) va')).
      * left. by apply agree_S.
      * right. by rewrite agree_S; intros [].
    + right. by rewrite agree_S; intros [].
Qed.

Lemma table_agree m d va va' : agree d va va' -> table m va d = table m va' d.
Proof.
  induction d as [|d IH]; intros H; [done|]. apply agree_S in H as [H1 H2].
  simpl. rewrite (IH H1). destruct (table m va' d); simpl; [|done]. by rewrite H2.
Qed.

Lemma table_S m va d t :
  table m va d = Some t ->
  table m va (S d) =
    (let e := ld64 m (slot t va d) in if has e PTE_V then Some (PTE2PA e) else None).
Proof. intros H. simpl. by rewrite H. Qed.

Lemma table_prefix m va d t d' : table m va d = Some t -> (d' <= d)%nat -> is_Some (table m va d').
Proof.
  revert t. induction d as [|d IH]; intros t H Hle.
  - assert (d' = O) as -> by lia. eauto.
  - destruct (decide (d' = S d)) as [->|]; [eauto|].
    simpl in H. destruct (table m va d) as [t0|] eqn:E; [|done].
    apply (IH t0); [done|lia].
Qed.

Lemma slot_eq m F va va' d d' t t' :
  wf m F -> (d <= 2)%nat -> (d' <= 2)%nat ->
  table m va d = Some t -> table m va' d' = Some t' ->
  slot t va d = slot t' va' d' -> d = d' /\ agree (S d) va va'.
Proof.
  intros Hwf Hd Hd' Ht Ht' Heq.
  destruct (wf_page _ _ Hwf va d t Hd Ht) as (Ha & _).
  destruct (wf_page _ _ Hwf va' d' t' Hd' Ht') as (Ha' & _).
  apply slot_inj in Heq as [-> Hpx]; [|done|done|apply PX_range|apply PX_range].
  destruct (wf_inj _ _ Hwf va va' d d' t' Hd Hd' Ht Ht') as [-> Hag].
  split; [done|]. by apply agree_S.
Qed.

(** Memory changes that keep every slot of every non-leaf table keep the
    tree. *)
Lemma table_ext m m' va d :
  (forall d' t, (d' < d)%nat -> table m va d' = Some t -> ld64 m' (slot t va d') = ld64 m (slot t va d')) ->
  table m' va d = table m va d.
Proof.
  induction d as [|d IH]; intros H; [done|]. simpl.
  rewrite IH by (intros; apply H; [lia|done]).
  destruct (table m va d) as [t|] eqn:E; simpl; [|done].
  specialize (H d t ltac:(lia) E). unfold slot in H. by rewrite H.
Qed.

(** *** Writing a leaf entry *)
Section leaf.
Context (m : memory) (F : list Z) (va t v : Z).
Context (Hwf : wf m F) (Ht : table m va 2 = Some t).
Let m' := st64 m (slot t va 2) v.

Lemma leaf_table va' d : (d <= 2)%nat -> table m' va' d = table m va' d.
Proof using Hwf Ht.
  intros Hd. apply table_ext. intros d' t' Hd' Ht'. apply ld64_st64_ne. intros Heq.
  destruct (slot_eq m F va va' 2 d' t t' Hwf) as [? _]; try done; lia.
Qed.

Lemma leaf_wf : wf m' F.
Proof using Hwf Ht.
  split.
  - intros va' d t' Hd. rewrite leaf_table by done. by apply Hwf.
  - intros va1 va2 d d' t' Hd Hd'. rewrite !leaf_table by done. by apply Hwf.
Qed.

Lemma leaf_xlate va' :
  xlate m' va' =
    if decide (agree 3 va va') then (if has v PTE_V then Some v else None) else xlate m va'.
Proof using Hwf Ht.
  unfold xlate. rewrite leaf_table by done. case_decide as Hag.
  - rewrite <- (table_agree m 2 va va') by (by eapply agree_mono; [|exact Hag]; lia).
    rewrite Ht. simpl.
    assert (slot t va' 2 = slot t va 2) as ->.
    { apply agree_S in Hag as [_ Hpx]. unfold slot. by rewrite Hpx. }
    unfold m'. by rewrite ld64_st64_eq.
  - destruct (table m va' 2) as [t'|] eqn:Ht'; simpl; [|done].
    unfold m'. rewrite ld64_st64_ne; [done|]. intros Heq.
    destruct (slot_eq m F va va' 2 2 t t' Hwf) as [_ ?]; try done; lia.
Qed.
End leaf.

(** *** Installing a fresh table *)
Section install.
Context (m : memory) (F : list Z) (n va t : Z) (d : nat).
Context (Hwf : wf m (n :: F)) (Hn : n mod PGSIZE = 0) (Hn0 : 0 < n < 2 ^ 64)
        (HnF : n ∉ F) (Hd : (d < 2)%nat) (Ht : table m va d = Some t)
        (Hinv : has (ld64 m (slot t va d)) PTE_V = false).
Let m' := st64 (Vmm.zero_page n m) (slot t va d) (Z.lor (PA2PTE n) PTE_V).

Lemma install_ld_old va' d' t' :
  (d' <= 2)%nat -> table m va' d' = Some t' -> ~ (d' = d /\ agree (S d) va va') ->
  ld64 m' (slot t' va' d') = ld64 m (slot t' va' d').
Proof using All.
  intros Hd' Ht' Hne. unfold m'. rewrite ld64_st64_ne.
  - destruct (wf_page _ _ Hwf va' d' t' Hd' Ht') as (Ha & _ & Hni).
    apply ld64_zero_page_out; [done|]. unfold slot. rewrite slot_page by (done || apply PX_range).
    by apply not_elem_of_cons in Hni as [? _].
  - intros Heq. apply Hne.
    destruct (slot_eq m _ va va' d d' t t' Hwf) as [-> ?]; try done; lia.
Qed.

Lemma install_slot_page : ROUNDDOWN (slot t va d) PGSIZE <> n.
Proof using All.
  destruct (wf_page _ _ Hwf va d t ltac:(lia) Ht) as (Ha & _ & Hni).
  unfold slot. rewrite slot_page by (done || apply PX_range).
  by apply not_elem_of_cons in Hni as [? _].
Qed.

Lemma install_ld_new va' d' : ld64 m' (slot n va' d') = 0.
Proof using All.
  unfold m'. rewrite ld64_st64_ne.
  - apply ld64_zero_page_in, PX_range.
  - intros Heq. apply install_slot_page. rewrite Heq.
    unfold slot. by rewrite slot_page by (done || apply PX_range).
Qed.

Lemma install_entry : PTE2PA (Z.lor (PA2PTE n) PTE_V) = n.
Proof using All.
  rewrite PTE2PA_entry by (lia || apply PTE_V_flag). unfold ROUNDDOWN, PGSIZE in *. zlia.
Qed.

Lemma install_table va' d' :
  (d' <= 2)%nat ->
  table m' va' d' =
    if decide (d < d' /\ agree (S d) va va')%nat
    then (if decide (d' = S d) then Some n else None) else table m va' d'.
Proof using All.
  intros Hd'. case_decide as Hc.
  - destruct Hc as [Hlt Hag].
    assert (table m' va' (S d) = Some n) as HS.
    { assert (agree d va va') as Hag' by (eapply agree_mono; [|exact Hag]; lia).
      assert (table m' va' d = Some t) as Ht'.
      { rewrite table_ext with (m := m).
        - by rewrite <- (table_agree m d va va').
        - intros d0 t0 Hd0 Ht0. apply install_ld_old; [lia|done|]. intros [-> _]. lia. }
      rewrite (table_S _ _ _ _ Ht').
      assert (slot t va' d = slot t va d) as ->.
      { apply agree_S in Hag as [_ Hpx]. unfold slot. by rewrite Hpx. }
      unfold m'. rewrite ld64_st64_eq. cbv zeta. rewrite has_V, odd_lor_V. by rewrite install_entry. }
    case_decide as He; [by subst d'|].
    assert (d' = S (S d)) as -> by lia.
    rewrite (table_S _ _ _ _ HS), install_ld_new. done.
  - apply table_ext. intros d0 t0 Hd0 Ht0. apply install_ld_old; [lia|done|].
    intros [-> Hag]. apply Hc. split; [lia|done].
Qed.

Lemma install_table_inv va' d' t' :
  (d' <= 2)%nat -> table m' va' d' = Some t' ->
  (t' = n /\ d' = S d /\ agree (S d) va va') \/ (t' <> n /\ table m va' d' = Some t').
Proof using All.
  intros Hd'. rewrite install_table by done.
  destruct (decide (d < d' /\ agree (S d) va va')%nat) as [[Hlt Hag]|Hc].
  - destruct (decide (d' = S d)) as [He|He]; intros Heq; simplify_eq. by left.
  - intros Heq. right. split; [|done]. intros ->.
    destruct (wf_page _ _ Hwf va' d' n Hd' Heq) as (_ & _ & Hni).
    by apply not_elem_of_cons in Hni as [? _].
Qed.

Lemma install_wf : wf m' F.
Proof using All.
  split.
  - intros va' d' t' Hd' Heq.
    destruct (install_table_inv va' d' t' Hd' Heq) as [(-> & _)|[_ Heq']].
    + split_and!; [done|lia|done].
    + destruct (wf_page _ _ Hwf va' d' t' Hd' Heq') as (? & ? & Hni).
      by apply not_elem_of_cons in Hni as [_ ?].
  - intros va1 va2 d1 d2 t' Hd1 Hd2 E1 E2.
    destruct (install_table_inv va1 d1 t' Hd1 E1) as [(-> & -> & H1)|[Hne1 E1']];
    destruct (install_table_inv va2 d2 _ Hd2 E2) as [(Hn2 & -> & H2)|[Hne2 E2']]; try congruence.
    + split; [done|]. intros k Hk.
      transitivity (PX (2 - Z.of_nat k) va); [symmetry; by apply H1|by apply H2].
    + by apply (wf_inj _ _ Hwf va1 va2 d1 d2 t').
Qed.

Lemma install_xlate va' : xlate m' va' = xlate m va'.
Proof using All.
  unfold xlate. rewrite install_table by done. case_decide as Hc.
  - destruct Hc as [Hlt Hag].
    assert (table m va' (S d) = None) as HN.
    { rewrite <- (table_agree m (S d) va va') by done.
      rewrite (table_S _ _ _ _ Ht). cbv zeta. by rewrite Hinv. }
    assert (table m va' 2 = None) as ->.
    { destruct (table m va' 2) as [t2|] eqn:E2; [|done].
      destruct (table_prefix m va' 2 t2 (S d) E2) as [? ?]; [lia|congruence]. }
    destruct (decide (2%nat = S d)); [|done]. cbn [mbind option_bind].
    by rewrite install_ld_new.
  - destruct (table m va' 2) as [t2|] eqn:E2; cbn [mbind option_bind]; [|done].
    rewrite install_ld_old; [done|lia|done|]. intros [? _]. lia.
Qed.
End install.

(** ** The invariant of an address space and how routines evolve it *)
Definition vm_inv (s : Pmm.state) (F : list Z) : Prop :=
  Pmm.rep s F /\ Pmm.free_mem_end_addr s <= 2 ^ 64 /\ wf (Pmm.mem s) F.

(** [used] free pages became tables; words outside the tables and the free
    pages are untouched. *)
Definition evolves (s : Pmm.state) (F used : list Z) (s' : Pmm.state) (F' : list Z) : Prop :=
  F = used ++ F' /\
  Pmm.free_mem_start_addr s' = Pmm.free_mem_start_addr s /\
  Pmm.free_mem_end_addr s' = Pmm.free_mem_end_addr s /\
  (forall p, is_table (Pmm.mem s') p -> is_table (Pmm.mem s) p \/ p ∈ used) /\
  (forall a, ~ is_table (Pmm.mem s) (ROUNDDOWN a PGSIZE) -> ROUNDDOWN a PGSIZE ∉ F ->
     ld64 (Pmm.mem s') a = ld64 (Pmm.mem s) a).

Lemma evolves_refl s F : evolves s F [] s F.
Proof. split_and!; auto. Qed.

Lemma evolves_trans s F u s1 F1 u1 s2 F2 :
  evolves s F u s1 F1 -> evolves s1 F1 u1 s2 F2 -> evolves s F (u ++ u1) s2 F2.
Proof.
  intros (-> & Hb1 & He1 & Ht1 & Hf1) (-> & Hb2 & He2 & Ht2 & Hf2). split_and!.
  - by rewrite app_assoc.
  - by rewrite Hb2.
  - by rewrite He2.
  - intros p Hp. rewrite elem_of_app.
    destruct (Ht2 p Hp) as [Hp1|]; [|tauto]. destruct (Ht1 p Hp1); tauto.
  - intros a Ha Hn. rewrite Hf2.
    + by apply Hf1.
    + intros Hp. destruct (Ht1 _ Hp) as [|Hu]; [done|]. apply Hn. apply elem_of_app. by left.
    + intros Hp. apply Hn. apply elem_of_app. by right.
Qed.

Lemma slot_in_table va t d :
  t mod PGSIZE = 0 -> ROUNDDOWN (slot t va d) PGSIZE = t.
Proof. intros. unfold slot. apply slot_page; [done|apply PX_range]. Qed.

(** Writing a leaf entry keeps the invariant. *)
Lemma vm_inv_leaf s F va t v :
  vm_inv s F -> table (Pmm.mem s) va 2 = Some t ->
  let s' := Pmm.set_mem (st64 (Pmm.mem s) (slot t va 2) v) s in
  vm_inv s' F /\ evolves s F [] s' F.
Proof.
  intros (Hrep & He & Hwf) Ht s'.
  destruct (wf_page _ _ Hwf va 2 t ltac:(lia) Ht) as (Ha & Ht0 & Hni).
  split; [split; [|split]|].
  - apply Pmm.rep_set_mem; [done|]. intros p Hp. apply ld64_st64_ne. intros <-.
    destruct Hrep as (_ & _ & _ & Hv). rewrite Forall_forall in Hv.
    destruct (Hv _ Hp) as [Hal _].
    apply Hni. rewrite <- (slot_in_table va t 2) by done.
    unfold ROUNDDOWN. replace (_ / _ * _) with (slot t va 2); [done|].
    unfold PGSIZE in *. zlia.
  - done.
  - by apply leaf_wf.
  - split_and!; try done.
    + intros p (va' & d & Hd & Hp). left. exists va', d. split; [done|].
      rewrite <- (leaf_table (Pmm.mem s) F va t v) by done. done.
    + intros a Hna _. apply ld64_st64_ne. intros <-. apply Hna.
      rewrite slot_in_table by done. exists va, 2%nat. done.
Qed.

(** Installing a table keeps the invariant. *)
Lemma vm_inv_install s n F va t d :
  vm_inv s (n :: F) -> (d < 2)%nat -> table (Pmm.mem s) va d = Some t ->
  has (ld64 (Pmm.mem s) (slot t va d)) PTE_V = false ->
  exists s1, Pmm.alloc_page s = Ret n s1 /\ Pmm.mem s1 = Pmm.mem s /\ n <> 0 /\
    let s2 := Pmm.set_mem (Vmm.zero_page n (Pmm.mem s1)) s1 in
    let s' := Pmm.set_mem (st64 (Pmm.mem s2) (slot t va d) (Z.lor (PA2PTE n) PTE_V)) s2 in
    vm_inv s' F /\ evolves s (n :: F) [n] s' F /\
    table (Pmm.mem s') va (S d) = Some n /\
    (forall va', xlate (Pmm.mem s') va' = xlate (Pmm.mem s) va').
Proof.
  intros (Hrep & He & Hwf) Hd Ht Hinv.
  destruct (Pmm.alloc_page_cons s n F Hrep) as [Heq Hrep1].
  destruct Hrep as (Hs0 & _ & Hnd & Hv).
  apply NoDup_cons in Hnd as [HnF _]. apply Forall_cons in Hv as [[Hna Hnr] HvF].
  assert (0 < n < 2 ^ 64) as Hn0 by lia.
  destruct (wf_page _ _ Hwf va d t ltac:(lia) Ht) as (Ha & Ht0 & Hni).
  eexists. split; [exact Heq|]. split; [done|]. split; [lia|]. cbv zeta. cbn [Pmm.mem Pmm.set_mem Pmm.set_head].
  split; [split; [|split]|split; [|split]].
  - apply (Pmm.rep_set_mem (Pmm.set_mem _ _)).
    + apply Pmm.rep_set_mem; [done|]. intros p Hp. cbn. apply ld64_zero_page_out; [done|].
      rewrite Forall_forall in HvF. destruct (HvF p Hp) as [Hpa _].
      unfold ROUNDDOWN. intros <-. apply HnF. replace (p / PGSIZE * PGSIZE) with p; [done|].
      unfold PGSIZE in *; zlia.
    + intros p Hp. cbn. apply ld64_st64_ne. intros <-.
      rewrite Forall_forall in HvF. destruct (HvF _ Hp) as [Hpa _].
      apply not_elem_of_cons in Hni as [_ Hni]. apply Hni.
      rewrite <- (slot_in_table va t d) by done.
      unfold ROUNDDOWN. replace (_ / _ * _) with (slot t va d); [done|]. unfold PGSIZE in *; zlia.
  - done.
  - by eapply install_wf.
  - split_and!; try done.
    + intros p (va' & d' & Hd' & Hp).
      destruct (install_table_inv (Pmm.mem s) F n va t d Hwf Hna Hn0 HnF Hd Ht Hinv va' d' p Hd' Hp)
        as [(-> & _)|[_ Hp']]; [right; apply list_elem_of_singleton; done|].
      left. by exists va', d'.
    + intros a Hat HaF. cbn. rewrite ld64_st64_ne.
      * apply ld64_zero_page_out; [done|]. intros Hx. apply HaF. apply elem_of_cons. by left.
      * intros <-. apply Hat. rewrite slot_in_table by done. exists va, d. split; [lia|done].
  - rewrite (install_table (Pmm.mem s) F n va t d) by (done || lia).
    rewrite decide_True by (split; [lia|]; by intros k Hk).
    by rewrite decide_True.
  - intros va'. by apply (install_xlate _ F).
Qed.

(** ** [page_walk] *)
Definition leaf_slot (m : memory) (va : Z) : Z :=
  match table m va 2 with Some t => slot t va 2 | None => 0 end.

Lemma level_slot level pt va :
  (level <= 2)%nat -> pt + 8 * PX (Z.of_nat level) va = slot pt va (2 - level).
Proof. intros. unfold slot. f_equal. f_equal. f_equal. lia. Qed.

Lemma page_walk_loop_noalloc level pt va s :
  (level <= 2)%nat -> table (Pmm.mem s) va (2 - level) = Some pt ->
  Vmm.page_walk_loop level pt va false s = Ret (leaf_slot (Pmm.mem s) va) s.
Proof.
  revert pt. induction level as [|level IH]; intros pt Hl Ht.
  - change (2 - 0)%nat with 2%nat in Ht. unfold leaf_slot. by rewrite Ht.
  - cbn [Vmm.page_walk_loop]. rewrite level_slot by done.
    unfold bind, Vmm.read, gets.
    pose proof (table_S (Pmm.mem s) va (2 - S level) pt Ht) as HS. cbv zeta in HS.
    replace (S (2 - S level)) with (2 - level)%nat in HS by lia.
    destruct (has _ PTE_V).
    + apply IH; [lia|done].
    + unfold leaf_slot. destruct (table (Pmm.mem s) va 2) as [t2|] eqn:E2; [|done].
      destruct (table_prefix _ _ _ _ (2 - level) E2) as [? ?]; [lia|congruence].
Qed.

Lemma page_walk_noalloc va s :
  va < MAXVA -> Vmm.page_walk root va false s = Ret (leaf_slot (Pmm.mem s) va) s.
Proof.
  intros Hva. unfold Vmm.page_walk. destruct (Z.leb_spec MAXVA va); [lia|].
  by apply page_walk_loop_noalloc.
Qed.

Lemma leaf_slot_nonzero s F va :
  vm_inv s F -> leaf_slot (Pmm.mem s) va <> 0 <-> is_Some (table (Pmm.mem s) va 2).
Proof.
  intros (_ & _ & Hwf). unfold leaf_slot. destruct (table (Pmm.mem s) va 2) as [t|] eqn:E.
  - destruct (wf_page _ _ Hwf va 2 t ltac:(lia) E) as (_ & Ht & _).
    pose proof (PX_range (2 - Z.of_nat 2) va). unfold slot. split; [eauto|lia].
  - split; [done|]. by intros [? ?].
Qed.

(** How many tables are missing on the way to the leaf of [va]. *)
Definition missing (m : memory) (va : Z) : nat :=
  match table m va 2, table m va 1 with
  | Some _, _ => 0
  | None, Some _ => 1
  | None, None => 2
  end.

Lemma missing_le m va l t : (l <= 2)%nat -> table m va (2 - l) = Some t -> (missing m va <= l)%nat.
Proof.
  intros Hl Ht. unfold missing.
  destruct (table m va 2) as [t2|] eqn:E2; [lia|].
  destruct (table m va 1) as [t1|] eqn:E1.
  - destruct l as [|l]; [|lia]. change (2 - 0)%nat with 2%nat in Ht. congruence.
  - destruct l as [|[|l]]; [| |lia].
    + change (2 - 0)%nat with 2%nat in Ht. congruence.
    + change (2 - 1)%nat with 1%nat in Ht. congruence.
Qed.

Lemma missing_gt m va l : (l <= 1)%nat -> table m va (2 - l) = None -> (l < missing m va)%nat.
Proof.
  intros Hl Ht. unfold missing.
  assert (table m va 2 = None) as ->.
  { destruct (table m va 2) as [t2|] eqn:E2; [|done].
    destruct (table_prefix _ _ _ _ (2 - l) E2) as [? ?]; [lia|congruence]. }
  destruct l as [|[|l]]; [by destruct (table m va 1); lia| |lia].
  change (2 - 1)%nat with 1%nat in Ht. rewrite Ht. lia.
Qed.

Lemma page_walk_loop_alloc level pt va s F :
  (level <= 2)%nat -> vm_inv s F -> table (Pmm.mem s) va (2 - level) = Some pt ->
  returns (Vmm.page_walk_loop level pt va true) s (fun r s' => exists used F',
    vm_inv s' F' /\ evolves s F used s' F' /\ (length used <= missing (Pmm.mem s) va)%nat /\
    (forall va', xlate (Pmm.mem s') va' = xlate (Pmm.mem s) va') /\
    r = leaf_slot (Pmm.mem s') va /\
    (r = 0 -> F' = [] /\ (length used < missing (Pmm.mem s) va)%nat)).
Proof.
  revert pt s F. induction level as [|level IH]; intros pt s F Hl Hinv Ht.
  - exists (slot pt va 2), s. split; [done|]. exists [], F.
    pose proof Hinv as (_ & _ & Hwf). change (2 - 0)%nat with 2%nat in Ht.
    split_and!; try done; [apply evolves_refl|simpl; lia| |].
    + unfold leaf_slot. by rewrite Ht.
    + intros H0. destruct (wf_page _ _ Hwf va 2 pt ltac:(lia) Ht) as (_ & Hp & _).
      pose proof (PX_range (2 - Z.of_nat 2) va). unfold slot in H0. lia.
  - cbn [Vmm.page_walk_loop]. rewrite level_slot by done.
    unfold returns, Vmm.read. rewrite bind_gets.
    pose proof (table_S (Pmm.mem s) va (2 - S level) pt Ht) as HS. cbv zeta in HS.
    replace (S (2 - S level)) with (2 - level)%nat in HS by lia.
    destruct (has (ld64 (Pmm.mem s) (slot pt va (2 - S level))) PTE_V) eqn:Ev.
    + exact (IH _ s F ltac:(lia) Hinv HS).
    + assert (level < missing (Pmm.mem s) va)%nat as Hmiss by (apply missing_gt; [lia|done]).
      destruct F as [|n F].
      * destruct Hinv as (Hrep & Hinv). mstep (Pmm.alloc_page_nil s Hrep).
        exists 0, s. split; [done|]. exists [], [].
        split_and!; try done; [apply evolves_refl|simpl; lia| |intros _; split; [done|simpl; lia]].
        unfold leaf_slot. destruct (table (Pmm.mem s) va 2) as [t2|] eqn:E2; [|done].
        destruct (table_prefix _ _ _ _ (2 - level) E2) as [? ?]; [lia|congruence].
      * destruct (vm_inv_install s n F va pt (2 - S level) Hinv ltac:(lia) Ht Ev)
          as (s1 & Heq & Hm & Hn0 & Hinv' & Hev & Htab & Hx).
        mstep Heq. destruct (Z.eqb_spec n 0); [done|].
        replace (S (2 - S level)) with (2 - level)%nat in Htab by lia.
        destruct (IH _ _ _ ltac:(lia) Hinv' Htab) as (r & s' & Heq' & u & F' & H1 & H2 & H3 & H4 & H5 & H6).
        pose proof (missing_le _ va level _ ltac:(lia) Htab) as Hle.
        exists r, s'. split; [exact Heq'|]. exists (n :: u), F'.
        split_and!; try done.
        -- exact (evolves_trans _ _ [n] _ _ _ _ _ Hev H2).
        -- simpl. lia.
        -- intros va'. by rewrite H4, Hx.
        -- intros Hr0. destruct (H6 Hr0). split; [done|simpl; lia].
Qed.

Lemma page_walk_alloc va s F :
  va < MAXVA -> vm_inv s F ->
  returns (Vmm.page_walk root va true) s (fun r s' => exists used F',
    vm_inv s' F' /\ evolves s F used s' F' /\ (length used <= missing (Pmm.mem s) va)%nat /\
    (forall va', xlate (Pmm.mem s') va' = xlate (Pmm.mem s) va') /\
    r = leaf_slot (Pmm.mem s') va /\
    (r = 0 -> F' = [] /\ (length used < missing (Pmm.mem s) va)%nat)).
Proof.
  intros Hva Hinv. unfold Vmm.page_walk. destruct (Z.leb_spec MAXVA va); [lia|].
  by apply page_walk_loop_alloc.
Qed.

(** ** [map_pages] *)
Definition entry (pa perm : Z) : Z := Z.lor (Z.lor (PA2PTE pa) perm) PTE_V.

Lemma agree3_same_page va va' :
  0 <= va < MAXVA -> 0 <= va' < MAXVA -> agree 3 va va' <-> same_page va va'.
Proof.
  intros H1 H2. split.
  - intros H. apply PX_same_page; try done.
    + exact (H 0%nat ltac:(lia)).
    + exact (H 1%nat ltac:(lia)).
    + exact (H 2%nat ltac:(lia)).
  - intros H k Hk. apply same_page_PX; [lia|done].
Qed.

Lemma leaf_unmapped m va t :
  table m va 2 = Some t -> xlate m va = None -> has (ld64 m (slot t va 2)) PTE_V = false.
Proof. intros Ht. unfold xlate. rewrite Ht. cbn [mbind option_bind]. by destruct (has _ _). Qed.

(** One iteration of the loop of [map_pages]. *)
Lemma map_one va pa perm s F :
  0 <= va < MAXVA -> vm_inv s F -> (missing (Pmm.mem s) va <= length F)%nat ->
  xlate (Pmm.mem s) va = None ->
  exists s1 s2 used F', 
    Vmm.page_walk root va true s = Ret (leaf_slot (Pmm.mem s1) va) s1 /\
    leaf_slot (Pmm.mem s1) va <> 0 /\
    has (ld64 (Pmm.mem s1) (leaf_slot (Pmm.mem s1) va)) PTE_V = false /\
    s2 = Pmm.set_mem (st64 (Pmm.mem s1) (leaf_slot (Pmm.mem s1) va) (entry pa perm)) s1 /\
    vm_inv s2 F' /\ evolves s F used s2 F' /\ (length used <= missing (Pmm.mem s) va)%nat /\
    is_Some (table (Pmm.mem s2) va 2) /\
    (forall va', 0 <= va' < MAXVA -> xlate (Pmm.mem s2) va' =
       if decide (same_page va va') then Some (entry pa perm) else xlate (Pmm.mem s) va').
Proof.
  intros Hva Hinv HF Hx.
  destruct (page_walk_alloc va s F ltac:(lia) Hinv)
    as (r & s1 & Heq & u & F' & H1 & H2 & H3 & H4 & -> & H6).
  assert (leaf_slot (Pmm.mem s1) va <> 0) as Hr.
  { intros Hr0. destruct (H6 Hr0) as [-> Hlt].
    destruct H2 as (-> & _). rewrite app_nil_r in HF. lia. }
  pose proof (proj1 (leaf_slot_nonzero s1 F' va H1) Hr) as [t Ht].
  assert (leaf_slot (Pmm.mem s1) va = slot t va 2) as Hs by (unfold leaf_slot; by rewrite Ht).
  destruct (vm_inv_leaf s1 F' va t (entry pa perm) H1 Ht) as [Hi He].
  eexists s1, _, (u ++ []), F'.
  rewrite Hs in Hr |- *. split_and!; try done.
  - rewrite Heq. by rewrite Hs.
  - apply leaf_unmapped; [done|]. by rewrite H4.
  - eapply evolves_trans; [exact H2|exact He].
  - by rewrite app_nil_r.
  - exists t. cbn [Pmm.mem Pmm.set_mem]. destruct H1 as (_ & _ & Hwf1).
    by rewrite (leaf_table _ F').
  - intros va' Hva'. cbn [Pmm.mem Pmm.set_mem].
    destruct H1 as (_ & _ & Hwf1). rewrite (leaf_xlate _ F') by done.
    rewrite has_V. unfold entry at 1. rewrite odd_lor_V.
    destruct (decide (agree 3 va va')) as [Ha|Ha]; destruct (decide (same_page va va')) as [Hp|Hp];
      try done; [by apply agree3_same_page in Ha|by apply agree3_same_page in Hp].
Qed.

(** The tables a run of [n] pages starting at [first] can need: those missing
    for its first page, and one more for each 2MB and each 1GB boundary. *)
Definition tables_needed (m : memory) (first : Z) (n : nat) : nat :=
  let last := first + Z.of_nat n * PGSIZE - PGSIZE in
  missing m first + Z.to_nat (last / 2 ^ 21 - first / 2 ^ 21)
                  + Z.to_nat (last / 2 ^ 30 - first / 2 ^ 30).

Lemma agree_region2 va va' : va / 2 ^ 21 = va' / 2 ^ 21 -> agree 2 va va'.
Proof.
  intros H k Hk. rewrite !PX_div by lia. f_equal.
  destruct k as [|[|k]]; [| |lia].
  - replace (2 ^ (12 + 9 * (2 - Z.of_nat 0))) with (2 ^ 21 * 2 ^ 9) by done.
    rewrite <- !Z.div_div by lia. by rewrite H.
  - exact H.
Qed.

Lemma agree_region1 va va' : va / 2 ^ 30 = va' / 2 ^ 30 -> agree 1 va va'.
Proof.
  intros H k Hk. assert (k = O) as -> by lia. rewrite !PX_div by lia. f_equal. exact H.
Qed.

Lemma missing_next m first va :
  is_Some (table m first 2) ->
  (missing m va <= (if decide (first / 2 ^ 21 = va / 2 ^ 21)%Z then 0 else
                    if decide (first / 2 ^ 30 = va / 2 ^ 30)%Z then 1 else 2))%nat.
Proof.
  intros [t2 Ht2]. destruct (table_prefix _ _ _ _ 1 Ht2 ltac:(lia)) as [t1 Ht1].
  destruct (decide (first / 2 ^ 21 = va / 2 ^ 21)) as [H|H].
  - rewrite (table_agree m 2 first va (agree_region2 _ _ H)) in Ht2.
    exact (missing_le m va 0 t2 ltac:(lia) Ht2).
  - destruct (decide (first / 2 ^ 30 = va / 2 ^ 30)) as [H'|H'].
    + rewrite (table_agree m 1 first va (agree_region1 _ _ H')) in Ht1.
      exact (missing_le m va 1 t1 ltac:(lia) Ht1).
    + exact (missing_le m va 2 root ltac:(lia) eq_refl).
Qed.

Lemma tables_needed_step m m2 first n :
  0 <= first -> is_Some (table m2 first 2) ->
  (missing m first + tables_needed m2 (first + PGSIZE) (S n) <= tables_needed m first (S (S n)))%nat.
Proof.
  intros H0 Ht. unfold tables_needed.
  pose proof (missing_next m2 first (first + PGSIZE) Ht) as Hm.
  rewrite !Nat2Z.inj_succ. unfold PGSIZE in *.
  change (2 ^ 21) with 2097152 in *. change (2 ^ 30) with 1073741824 in *.
  repeat case_decide; clear Ht; zlia.
Qed.

Lemma tables_needed_bound m first n k :
  0 <= first -> (0 < n)%nat -> first / 2 ^ 30 = (first + Z.of_nat n * PGSIZE - PGSIZE) / 2 ^ 30 ->
  (first + Z.of_nat n * PGSIZE - PGSIZE) / 2 ^ 21 - first / 2 ^ 21 <= Z.of_nat k ->
  (tables_needed m first n <= 2 + k)%nat.
Proof.
  intros H0 Hn H1 H2. unfold tables_needed. rewrite <- H1, Z.sub_diag.
  pose proof (missing_le m first 2 root ltac:(lia) eq_refl). lia.
Qed.

Lemma map_pages_loop_ok n first pa perm s F :
  first mod PGSIZE = 0 -> 0 <= first -> first + Z.of_nat n * PGSIZE <= MAXVA ->
  0 <= pa -> pa + Z.of_nat n * PGSIZE < 2 ^ 64 ->
  vm_inv s F -> (n = O \/ tables_needed (Pmm.mem s) first n <= length F)%nat ->
  (forall va, first <= va < first + Z.of_nat n * PGSIZE -> xlate (Pmm.mem s) va = None) ->
  returns (Vmm.map_pages_loop n root first (first + Z.of_nat n * PGSIZE - PGSIZE) pa perm) s
    (fun r s' => r = 0 /\ exists used F', vm_inv s' F' /\ evolves s F used s' F' /\
       (length used <= if n is O then 0 else tables_needed (Pmm.mem s) first n)%nat /\
       (forall va, 0 <= va < MAXVA -> xlate (Pmm.mem s') va =
          if decide (first <= va < first + Z.of_nat n * PGSIZE)
          then Some (entry (pa + (ROUNDDOWN va PGSIZE - first)) perm)
          else xlate (Pmm.mem s) va)).
Proof.
  revert first pa s F. induction n as [|n IH]; intros first pa s F Ha H0 Hm Hp0 Hp Hinv HF Hx.
  - exists 0, s. cbn [Vmm.map_pages_loop].
    destruct (Z.leb_spec first (first + Z.of_nat 0 * PGSIZE - PGSIZE)); [unfold PGSIZE in *; lia|].
    split; [done|]. split; [done|]. exists [], F.
    split_and!; try done; [apply evolves_refl|].
    intros va Hva. rewrite decide_False by lia. done.
  - rewrite Nat2Z.inj_succ in *.
    destruct (map_one first pa perm s F) as (s1 & s2 & u & F1 & E1 & E2 & E3 & -> & I2 & V2 & L2 & T2 & X2);
      [unfold PGSIZE in *; lia|done|unfold tables_needed in HF; lia|apply Hx; unfold PGSIZE; lia|].
    assert (MAXVA = 2 ^ 38) as HM by done.
    destruct (IH (first + PGSIZE) (pa + PGSIZE)
      (Pmm.set_mem (st64 (Pmm.mem s1) (leaf_slot (Pmm.mem s1) first) (entry pa perm)) s1) F1) as (r & s' & Heq & -> & u' & F' & I3 & V3 & L3 & X3);
      try done; try (unfold PGSIZE in *; lia).
    + unfold PGSIZE in *; zlia.
    + destruct n as [|n]; [by left|right]. destruct HF as [HF|HF]; [done|].
      pose proof (tables_needed_step (Pmm.mem s) _ first n H0 T2).
      destruct V2 as (-> & _). rewrite length_app in HF. lia.
    + intros va Hva. rewrite X2 by (unfold PGSIZE in *; lia).
      rewrite decide_False by (clear -Ha Hva; unfold same_page, PGSIZE in *; zlia).
      apply Hx. unfold PGSIZE in *; lia.
    + exists 0, s'. cbn [Vmm.map_pages_loop].
      destruct (Z.leb_spec first (first + Z.succ (Z.of_nat n) * PGSIZE - PGSIZE)); [|unfold PGSIZE in *; lia].
      mstep E1. destruct (Z.eqb_spec (leaf_slot (Pmm.mem s1) first) 0); [done|].
      unfold Vmm.read. rewrite bind_gets, E3. split.
      * unfold Vmm.write. rewrite bind_modify.
        rewrite (u64_small (first + PGSIZE)), (u64_small (pa + PGSIZE)) by (unfold PGSIZE in *; lia).
        replace (first + Z.succ (Z.of_nat n) * PGSIZE - PGSIZE)
          with (first + PGSIZE + Z.of_nat n * PGSIZE - PGSIZE) by lia. exact Heq.
      * split; [done|]. exists (u ++ u'), F'. split_and!; try done.
        -- by eapply evolves_trans.
        -- rewrite length_app. destruct n as [|n]; [unfold tables_needed in *; lia|].
           pose proof (tables_needed_step (Pmm.mem s) _ first n H0 T2). lia.
        -- intros va Hva. rewrite X3 by done. rewrite X2 by done.
           clear -Ha. unfold same_page, ROUNDDOWN, PGSIZE in *.
           repeat case_decide; try done; try (exfalso; zlia); f_equal; f_equal; zlia.
Qed.
End tree.

#[global] Arguments table : simpl never.
#[global] Arguments slot : simpl never.

(** ** Correctness of the operations *)
Definition range_pages (va size : Z) : nat :=
  Z.to_nat ((ROUNDDOWN (va + size - 1) PGSIZE - ROUNDDOWN va PGSIZE) / PGSIZE + 1).

(** [map_pages] in the form its callers use. *)
Lemma map_pages_ok root va size pa perm s F :
  0 <= va -> 0 < size -> va + size <= MAXVA ->
  0 <= pa -> pa + Z.of_nat (range_pages va size) * PGSIZE < 2 ^ 64 ->
  vm_inv root s F ->
  (tables_needed root (Pmm.mem s) (ROUNDDOWN va PGSIZE) (range_pages va size) <= length F)%nat ->
  (forall va', ROUNDDOWN va PGSIZE <= va' <= ROUNDDOWN (va + size - 1) PGSIZE + (PGSIZE - 1) ->
     xlate root (Pmm.mem s) va' = None) ->
  returns (Vmm.map_pages root va size pa perm) s (fun r s' => r = 0 /\
    exists used F', vm_inv root s' F' /\ evolves root s F used s' F' /\
      (length used <= tables_needed root (Pmm.mem s) (ROUNDDOWN va PGSIZE) (range_pages va size))%nat /\
      (forall va', 0 <= va' < MAXVA -> xlate root (Pmm.mem s') va' =
         if decide (ROUNDDOWN va PGSIZE <= va' <= ROUNDDOWN (va + size - 1) PGSIZE + (PGSIZE - 1))
         then Some (entry (pa + (ROUNDDOWN va' PGSIZE - ROUNDDOWN va PGSIZE)) perm)
         else xlate root (Pmm.mem s) va')).
Proof.
  intros Hva Hsz Hmax Hpa0 Hpa Hinv HF Hx.
  assert (MAXVA = 2 ^ 38) as HM by done.
  unfold Vmm.map_pages. rewrite (u64_small (va + size - 1)) by lia.
  fold (range_pages va size). set (n := range_pages va size) in *.
  assert (ROUNDDOWN va PGSIZE mod PGSIZE = 0 /\ 0 <= ROUNDDOWN va PGSIZE /\ (n <> 0)%nat /\
          ROUNDDOWN (va + size - 1) PGSIZE = ROUNDDOWN va PGSIZE + Z.of_nat n * PGSIZE - PGSIZE /\
          ROUNDDOWN va PGSIZE + Z.of_nat n * PGSIZE <= 2 ^ 38) as (H1 & H2 & Hn & H3 & H4).
  { subst n. clear -Hva Hsz Hmax HM. unfold range_pages, ROUNDDOWN, PGSIZE. zlia. }
  rewrite H3. eapply returns_mono.
  - eapply (map_pages_loop_ok root n (ROUNDDOWN va PGSIZE) pa perm s F); try done; [by right|].
    intros va' Hva'. apply Hx. unfold PGSIZE in *. lia.
  - intros r s' (-> & u & F' & Hi & He & Hl & Hx'). split; [done|]. exists u, F'. split_and!; try done.
    { by destruct n. }
    intros va' Hva'. rewrite Hx' by done. unfold PGSIZE in *.
    repeat case_decide; (done || lia).
Qed.

(** Reading through the tables. *)
Lemma read_leaf root va s F :
  vm_inv root s F -> leaf_slot root (Pmm.mem s) va <> 0 ->
  xlate root (Pmm.mem s) va =
    (let e := ld64 (Pmm.mem s) (leaf_slot root (Pmm.mem s) va) in
     if has e PTE_V then Some e else None).
Proof.
  intros Hinv Hs. apply (leaf_slot_nonzero root s F va Hinv) in Hs as [t Ht].
  unfold xlate, leaf_slot. by rewrite Ht.
Qed.

Lemma xlate_unreachable root va s F :
  vm_inv root s F -> leaf_slot root (Pmm.mem s) va = 0 -> xlate root (Pmm.mem s) va = None.
Proof.
  intros Hinv Hs. unfold xlate. destruct (table root (Pmm.mem s) va 2) as [t|] eqn:Ht; [|done].
  exfalso. exact (proj2 (leaf_slot_nonzero root s F va Hinv) (mk_is_Some _ _ Ht) Hs).
Qed.

(** The common prefix of [lookup_pa], [user_va_to_pa] and [user_vm_unmap]: walk
    without allocation, then inspect the entry. *)
Lemma walk_read root va s F {A} (kn : M Pmm.state A) (ki : M Pmm.state A) (kv : Z -> M Pmm.state A)
      (bad : Z -> bool) :
  va < MAXVA -> vm_inv root s F ->
  (forall e, has e PTE_V = false -> bad e = true) -> kn = ki ->
  bind (Vmm.page_walk root va false) (fun pte =>
    if pte =? 0 then kn else bind (Vmm.read pte) (fun e => if bad e then ki else kv e)) s =
  match xlate root (Pmm.mem s) va with
  | Some e => if bad e then ki s else kv e s
  | None => ki s
  end.
Proof.
  intros Hva Hinv Hbad ->. rewrite (bind_Ret _ _ _ _ _ (page_walk_noalloc root va s Hva)).
  destruct (Z.eqb_spec (leaf_slot root (Pmm.mem s) va) 0) as [H0|H0].
  - by rewrite (xlate_unreachable root va s F Hinv H0).
  - rewrite (read_leaf root va s F Hinv H0). unfold Vmm.read. rewrite bind_gets. cbv zeta.
    destruct (has _ PTE_V) eqn:Ev; [by destruct (bad _)|by rewrite (Hbad _ Ev)].
Qed.
