(* ===== verification/VmmSpec.v ===== *)
(** * Properties of [kernel/vmm.c]

    The theorems about [map_pages], the lookups, [user_vm_unmap],
    [prot_to_type] and the kernel's direct map, over the model of [Vmm.v]. *)

From stdpp Require Import base gmap list numbers strings.
From Stdlib Require Import ZArith Lia.
From S2P Require Import Prelude Pmm Vmm.
Local Open Scope Z_scope.

(** C4: [map_pages] maps exactly the pages of [\[va, va+size)]: it returns 0,
    each page of the range translates to its page of [\[pa, pa+size)] with the
    given permissions and the valid bit, and every other address translates as
    before; only table pages are taken from the allocator. *)
Theorem map_pages_translates root va size pa perm s F :
  0 <= va -> 0 < size -> va + size <= MAXVA ->
  0 <= pa -> pa + Z.of_nat (range_pages va size) * PGSIZE < 2 ^ 64 ->
  vm_inv root s F ->
  (tables_needed root (Pmm.mem s) (ROUNDDOWN va PGSIZE) (range_pages va size) <= length F)%nat ->
  (forall va', ROUNDDOWN va PGSIZE <= va' <= ROUNDDOWN (va + size - 1) PGSIZE + (PGSIZE - 1) ->
     xlate root (Pmm.mem s) va' = None) ->
  returns (Vmm.map_pages root va size pa perm) s (fun r s' => r = 0 /\
    exists used F', vm_inv root s' F' /\ evolves root s F used s' F' /\
      (forall va', 0 <= va' < MAXVA -> xlate root (Pmm.mem s') va' =
         if decide (ROUNDDOWN va PGSIZE <= va' <= ROUNDDOWN (va + size - 1) PGSIZE + (PGSIZE - 1))
         then Some (entry (pa + (ROUNDDOWN va' PGSIZE - ROUNDDOWN va PGSIZE)) perm)
         else xlate root (Pmm.mem s) va')).
Proof.
  intros. eapply returns_mono; [by eapply map_pages_ok|].
  intros r s' (-> & u & F' & ? & ? & _ & ?). split; [done|]. by exists u, F'.
Qed.

(** mapping a page that is already mapped stops the kernel. *)
Theorem map_pages_remap_panics root va size pa perm s F :
  0 <= va -> 0 < size -> va + size <= MAXVA ->
  vm_inv root s F -> is_Some (xlate root (Pmm.mem s) va) ->
  Vmm.map_pages root va size pa perm s = Panic "map_pages fails on mapping va to pa".
Proof.
  intros Hva Hsz Hmax Hinv [e He].
  assert (MAXVA = 2 ^ 38) as HM by done.
  set (first := ROUNDDOWN va PGSIZE).
  assert (0 <= first <= va /\ same_page first va) as [Hf Hsp].
  { subst first. clear -Hva. unfold same_page, ROUNDDOWN, PGSIZE. zlia. }
  assert (xlate root (Pmm.mem s) first = Some e) as He'.
  { rewrite <- He. unfold xlate.
    rewrite (table_agree root (Pmm.mem s) 2 first va) by (intros k Hk; apply same_page_PX; [lia|done]).
    unfold slot. by rewrite (same_page_PX _ first va) by (done || lia). }
  destruct (page_walk_alloc root first s F ltac:(lia) Hinv)
    as (r & s1 & Heq & u & F' & Hinv1 & _ & _ & Hx & -> & _).
  assert (leaf_slot root (Pmm.mem s1) first <> 0) as Hr.
  { intros H0. apply (xlate_unreachable root first s1 F' Hinv1) in H0. rewrite Hx in H0. congruence. }
  pose proof (read_leaf root first s1 F' Hinv1 Hr) as Hrl. rewrite Hx, He' in Hrl. cbv zeta in Hrl.
  unfold Vmm.map_pages. fold first. rewrite (u64_small (va + size - 1)) by lia.
  assert (first <= ROUNDDOWN (va + size - 1) PGSIZE) as Hle.
  { subst first. clear -Hva Hsz. unfold ROUNDDOWN, PGSIZE. zlia. }
  set (last := ROUNDDOWN (va + size - 1) PGSIZE) in *.
  assert (Z.to_nat ((last - first) / PGSIZE + 1) <> 0)%nat as Hn by (clear -Hle; unfold PGSIZE; zlia).
  destruct (Z.to_nat ((last - first) / PGSIZE + 1)) as [|n]; [done|]. cbn [Vmm.map_pages_loop].
  destruct (Z.leb_spec first last); [|lia]. rewrite (bind_Ret _ _ _ _ _ Heq).
  destruct (Z.eqb_spec (leaf_slot root (Pmm.mem s1) first) 0); [done|].
  unfold Vmm.read. rewrite bind_gets. by destruct (has _ PTE_V).
Qed.

(** [lookup_pa] on a well-formed tree. *)
Lemma lookup_pa_eq root va s F :
  vm_inv root s F ->
  Vmm.lookup_pa root va s =
    Ret (if MAXVA <=? va then 0
         else match xlate root (Pmm.mem s) va with
              | Some e => if has e PTE_R || has e PTE_W then PTE2PA e else 0
              | None => 0
              end) s.
Proof.
  intros Hinv. unfold Vmm.lookup_pa. destruct (Z.leb_spec MAXVA va); [done|].
  rewrite (walk_read root va s F (ret 0) (ret 0) (fun e => ret (PTE2PA e))
    (fun e => negb (has e PTE_V) || (negb (has e PTE_R) && negb (has e PTE_W)))); try done.
  - destruct (xlate root (Pmm.mem s) va) as [e|] eqn:Ex; [|done].
    assert (has e PTE_V = true) as ->.
    { unfold xlate in Ex. destruct (table root (Pmm.mem s) va 2); [|done].
      cbn [mbind option_bind] in Ex. destruct (has (ld64 _ _) PTE_V) eqn:E; [|done]. by simplify_eq. }
    simpl. destruct (has e PTE_R), (has e PTE_W); done.
  - by intros e ->.
Qed.

(** [lookup_pa] changes nothing and returns the page address of the leaf
    entry when it is readable or writable, 0 when the address is unmapped, not
    accessible as data or at or above [MAXVA]. *)
Theorem lookup_pa_correct root va s F :
  vm_inv root s F ->
  Vmm.lookup_pa root va s =
    Ret (if MAXVA <=? va then 0
         else match xlate root (Pmm.mem s) va with
              | Some e => if has e PTE_R || has e PTE_W then PTE2PA e else 0
              | None => 0
              end) s.
Proof. apply lookup_pa_eq. Qed.

Lemma xlate_valid root m va e : xlate root m va = Some e -> has e PTE_V = true.
Proof.
  unfold xlate. destruct (table root m va 2); [|done]. cbn [mbind option_bind].
  destruct (has (ld64 _ _) PTE_V) eqn:E; [|done]. intros. by simplify_eq.
Qed.

Lemma user_va_to_pa_eq root va s F :
  va < MAXVA -> vm_inv root s F ->
  Vmm.user_va_to_pa root va s =
    Ret (match xlate root (Pmm.mem s) va with
         | Some e => u64 (PTE2PA e + Z.land va (PGSIZE - 1))
         | None => 0
         end) s.
Proof.
  intros Hva Hinv. unfold Vmm.user_va_to_pa.
  rewrite (walk_read root va s F (ret 0) (ret 0)
    (fun e => ret (u64 (PTE2PA e + Z.land va (PGSIZE - 1)))) (fun e => negb (has e PTE_V))); try done.
  - destruct (xlate root (Pmm.mem s) va) as [e|] eqn:Ex; [|done].
    by rewrite (xlate_valid _ _ _ _ Ex).
  - by intros e ->.
Qed.

Lemma page_offset va : Z.land va (PGSIZE - 1) = va mod PGSIZE.
Proof. change (PGSIZE - 1) with (Z.ones 12). by rewrite Z.land_ones by lia. Qed.

Lemma entry_pa pa perm :
  0 <= pa < 2 ^ 64 -> 0 <= perm < 2 ^ 10 -> PTE2PA (entry pa perm) = ROUNDDOWN pa PGSIZE.
Proof.
  intros Hpa Hperm. unfold entry. rewrite <- Z.lor_assoc. apply PTE2PA_entry; [done|].
  apply lor_flags_bound; [lia|done|]. apply PTE_V_flag.
Qed.

(** Mapping one page, the form used by the page-fault handler, the heap and
    the process constructor. *)
Lemma user_vm_map_page root va pa perm s F :
  0 <= va -> va mod PGSIZE = 0 -> va + PGSIZE <= MAXVA ->
  0 <= pa -> pa + PGSIZE < 2 ^ 64 -> vm_inv root s F -> (2 <= length F)%nat ->
  xlate root (Pmm.mem s) va = None ->
  returns (Vmm.user_vm_map root va PGSIZE pa perm) s (fun _ s' =>
    exists used F', vm_inv root s' F' /\ evolves root s F used s' F' /\ (length used <= 2)%nat /\
      (forall va', 0 <= va' < MAXVA -> xlate root (Pmm.mem s') va' =
         if decide (same_page va va') then Some (entry pa perm) else xlate root (Pmm.mem s) va')).
Proof.
  intros Hva Ha Hmax Hp0 Hp Hinv HF Hx.
  assert (MAXVA = 2 ^ 38) as HM by done.
  assert (ROUNDDOWN va PGSIZE = va /\ ROUNDDOWN (va + PGSIZE - 1) PGSIZE = va /\ range_pages va PGSIZE = 1%nat)
    as (R1 & R2 & R3) by (clear -Ha; unfold range_pages, ROUNDDOWN, PGSIZE in *; zlia).
  assert (forall va', va <= va' <= va + (PGSIZE - 1) <-> same_page va va') as Hsp.
  { clear -Ha. intros va'. unfold same_page, PGSIZE in *. zlia. }
  assert (tables_needed root (Pmm.mem s) va 1 <= 2)%nat as Ht.
  { apply (tables_needed_bound root (Pmm.mem s) va 1 0); [done|lia|f_equal; unfold PGSIZE; lia|].
    replace (va + Z.of_nat 1 * PGSIZE - PGSIZE) with va by lia. lia. }
  destruct (map_pages_ok root va PGSIZE pa perm s F) as (r & s' & Heq & -> & u & F' & I & V & L & X);
    rewrite ?R1, ?R2, ?R3 in *; try done; try lia.
  { intros va' Hva'. apply Hsp in Hva'. rewrite <- Hx. unfold xlate.
    rewrite (table_agree root _ 2 va' va) by (intros k Hk; apply same_page_PX; [lia|done]).
    unfold slot. by rewrite (same_page_PX _ va' va) by (done || lia). }
  exists tt, s'. unfold Vmm.user_vm_map. rewrite (bind_Ret _ _ _ _ _ Heq). split; [done|].
  exists u, F'. split_and!; [done|done|lia|]. intros va' Hva'. rewrite X by done.
  destruct (decide (va <= va' <= _)) as [H|H]; destruct (decide (same_page va va')) as [H'|H'];
    try done; try (apply Hsp in H; done); [|by apply Hsp in H'].
  f_equal. f_equal. clear -Ha H. unfold ROUNDDOWN, PGSIZE in *. zlia.
Qed.

(** C16: after [user_vm_map] of a range, of any length and alignment, to physical
    pages that start at [pa], [user_va_to_pa] of every address in the pages of
    the range is the physical address at the same distance from [pa], and of
    every other address what it was before. *)
Theorem user_vm_map_then_va_to_pa root va size pa perm x s F :
  0 <= va -> 0 < size -> va + size <= MAXVA ->
  0 <= pa -> pa mod PGSIZE = 0 -> pa + Z.of_nat (range_pages va size) * PGSIZE < 2 ^ 64 -> 0 <= perm < 2 ^ 10 ->
  vm_inv root s F ->
  (tables_needed root (Pmm.mem s) (ROUNDDOWN va PGSIZE) (range_pages va size) <= length F)%nat ->
  (forall va', ROUNDDOWN va PGSIZE <= va' <= ROUNDDOWN (va + size - 1) PGSIZE + (PGSIZE - 1) ->
     xlate root (Pmm.mem s) va' = None) ->
  0 <= x < MAXVA ->
  returns (Vmm.user_vm_map root va size pa perm ;; Vmm.user_va_to_pa root x) s (fun r _ =>
    if decide (ROUNDDOWN va PGSIZE <= x <= ROUNDDOWN (va + size - 1) PGSIZE + (PGSIZE - 1))
    then r = pa + (x - ROUNDDOWN va PGSIZE)
    else Vmm.user_va_to_pa root x s = Ret r s).
Proof.
  intros Hva Hsz Hmax Hp0 Hpa Hp Hperm Hinv HF Hx Hr.
  destruct (map_pages_ok root va size pa perm s F) as (r & s' & Heq & -> & u & F' & I & _ & _ & X); try done.
  assert (Vmm.user_vm_map root va size pa perm s = Ret tt s') as Hmap by (unfold Vmm.user_vm_map; by mstep Heq).
  eapply returns_of_eq; [mstep Hmap; apply (user_va_to_pa_eq root x s' F'); [lia|done]|].
  rewrite (user_va_to_pa_eq root x s F) by (lia || done). rewrite X by done. case_decide as Hin; [|done].
  unfold range_pages in Hp. rewrite entry_pa, page_offset; [|clear -Hp0 Hp Hin; unfold ROUNDDOWN, PGSIZE in *; zlia|done].
  assert (forall q, pa mod PGSIZE = 0 -> ROUNDDOWN (pa + (ROUNDDOWN x PGSIZE - q * PGSIZE)) PGSIZE + x mod PGSIZE = pa + (x - q * PGSIZE)) as E
    by (clear; intros q Hpa; unfold ROUNDDOWN, PGSIZE in *; zlia).
  replace (ROUNDDOWN va PGSIZE) with (va / PGSIZE * PGSIZE) by (clear; unfold ROUNDDOWN, PGSIZE; zlia).
  rewrite E by done. apply u64_small. clear E X HF Hx. unfold ROUNDDOWN, PGSIZE in *. zlia.
Qed.

Lemma wf_weaken root m p F :
  wf root m F -> ~ is_table root m p -> wf root m (p :: F).
Proof.
  intros Hwf Hp. split; [|apply Hwf].
  intros va d t Hd Ht. destruct (wf_page _ _ _ Hwf va d t Hd Ht) as (? & ? & ?).
  split_and!; try done. apply not_elem_of_cons. split; [|done]. intros ->. apply Hp. by exists va, d.
Qed.

Lemma is_table_leaf root m F va t v p :
  wf root m F -> table root m va 2 = Some t ->
  is_table root (st64 m (slot t va 2) v) p -> is_table root m p.
Proof.
  intros Hwf Ht (va' & d & Hd & Hp). exists va', d. split; [done|].
  by rewrite (leaf_table root m F va t v) in Hp.
Qed.

(** A store into a page that is neither a table nor free keeps the tree. *)
Lemma vm_inv_free_page root s F p :
  vm_inv root s F -> Pmm.valid_page s p -> p ∉ F -> ~ is_table root (Pmm.mem s) p ->
  exists s', Pmm.free_page p s = Ret tt s' /\ vm_inv root s' (p :: F) /\
    Pmm.free_mem_start_addr s' = Pmm.free_mem_start_addr s /\ Pmm.free_mem_end_addr s' = Pmm.free_mem_end_addr s /\
    (forall a, ROUNDDOWN a PGSIZE <> p -> ld64 (Pmm.mem s') a = ld64 (Pmm.mem s) a) /\
    (forall va d, (d <= 2)%nat -> table root (Pmm.mem s') va d = table root (Pmm.mem s) va d) /\
    (forall va, xlate root (Pmm.mem s') va = xlate root (Pmm.mem s) va).
Proof.
  intros (Hrep & He & Hwf) Hv Hni Hnt.
  destruct (Pmm.free_page_ok s p F Hrep Hv Hni) as [Heq Hrep'].
  set (m' := st64 (Pmm.mem s) p (Pmm.g_free_mem_list s)).
  assert (forall va d t, (d <= 2)%nat -> table root (Pmm.mem s) va d = Some t ->
            ld64 m' (slot t va d) = ld64 (Pmm.mem s) (slot t va d)) as Hld.
  { intros va d t Hd Ht. apply ld64_st64_ne. intros Hp. apply Hnt. exists va, d. split; [done|].
    destruct (wf_page _ _ _ Hwf va d t Hd Ht) as (Ha & _).
    rewrite <- (slot_in_table va t d Ha), <- Hp in Ht. destruct Hv as [Hpa _].
    replace (ROUNDDOWN p PGSIZE) with p in Ht by (clear -Hpa; unfold ROUNDDOWN, PGSIZE in *; zlia). done. }
  assert (forall va d, (d <= 2)%nat -> table root m' va d = table root (Pmm.mem s) va d) as Htab.
  { intros va d Hd. apply table_ext. intros d' t Hd' Ht. apply Hld; [lia|done]. }
  eexists. split; [exact Heq|]. split_and!; [split_and!; [done|done|]|done|done| |done|].
  - apply wf_weaken.
    + split.
      * intros va d t Hd. cbn. fold m'. rewrite Htab by done. by apply Hwf.
      * intros va va' d d' t Hd Hd'. cbn. fold m'. rewrite !Htab by done. by apply Hwf.
    + intros (va & d & Hd & Ht). cbn in Ht. fold m' in Ht. rewrite Htab in Ht by done.
      apply Hnt. by exists va, d.
  - intros a Ha. apply ld64_st64_ne. intros <-. apply Ha. destruct Hv as [Hpa _]. clear -Hpa. unfold ROUNDDOWN, PGSIZE in *. zlia.
  - intros va. cbn. fold m'. unfold xlate. rewrite Htab by done.
    destruct (table root (Pmm.mem s) va 2) as [t|] eqn:Ht; [|done]. cbn [mbind option_bind].
    by rewrite Hld.
Qed.

(** A change of memory outside the tables keeps the tree and every
    translation. *)
Lemma tables_frame root s F m' :
  vm_inv root s F -> (forall a, is_table root (Pmm.mem s) (ROUNDDOWN a PGSIZE) -> ld64 m' a = ld64 (Pmm.mem s) a) ->
  (forall va d, (d <= 2)%nat -> table root m' va d = table root (Pmm.mem s) va d) /\
  (forall va, xlate root m' va = xlate root (Pmm.mem s) va).
Proof.
  intros (_ & _ & Hwf) Hm.
  assert (forall va d t, (d <= 2)%nat -> table root (Pmm.mem s) va d = Some t ->
            ld64 m' (slot t va d) = ld64 (Pmm.mem s) (slot t va d)) as Hld.
  { intros va d t Hd Ht. apply Hm. exists va, d. split; [done|].
    destruct (wf_page _ _ _ Hwf va d t Hd Ht) as (Ha & _). by rewrite slot_in_table. }
  assert (forall va d, (d <= 2)%nat -> table root m' va d = table root (Pmm.mem s) va d) as Htab.
  { intros va d Hd. apply table_ext. intros d' t Hd' Ht. apply Hld; [lia|done]. }
  split; [done|]. intros va. unfold xlate. rewrite Htab by done.
  destruct (table root (Pmm.mem s) va 2) as [t|] eqn:Ht; [|done]. cbn [mbind option_bind]. by rewrite Hld.
Qed.

(** When the free pages are left alone too, the free list stays. *)
Lemma vm_inv_frame root s F m' :
  vm_inv root s F ->
  (forall a, is_table root (Pmm.mem s) (ROUNDDOWN a PGSIZE) \/ ROUNDDOWN a PGSIZE ∈ F -> ld64 m' a = ld64 (Pmm.mem s) a) ->
  vm_inv root (Pmm.set_mem m' s) F /\
  (forall va d, (d <= 2)%nat -> table root m' va d = table root (Pmm.mem s) va d) /\
  (forall va, xlate root m' va = xlate root (Pmm.mem s) va).
Proof.
  intros Hinv Hm. destruct (tables_frame root s F m' Hinv) as [Htab Hx]; [by auto|]. destruct Hinv as (Hrep & He & Hwf).
  split_and!; [split_and!; [|done|]|done|done].
  - apply Pmm.rep_set_mem; [done|]. intros p Hp. apply Hm. right.
    destruct (Pmm.rep_pages _ _ Hrep) as [_ Hv]. rewrite Forall_forall in Hv. destruct (Hv p Hp) as [Ha _].
    by replace (ROUNDDOWN p PGSIZE) with p by (clear -Ha; unfold ROUNDDOWN, PGSIZE in *; zlia).
  - split.
    + intros va d t Hd. cbn. rewrite Htab by done. by apply Hwf.
    + intros va va' d d' t Hd Hd'. cbn. rewrite !Htab by done. by apply Hwf.
Qed.

(** A page taken from the allocator is neither a table nor free. *)
Lemma vm_inv_alloc root s p F :
  vm_inv root s (p :: F) ->
  exists s1, Pmm.alloc_page s = Ret p s1 /\ vm_inv root s1 F /\ Pmm.mem s1 = Pmm.mem s /\
    Pmm.free_mem_start_addr s1 = Pmm.free_mem_start_addr s /\ Pmm.free_mem_end_addr s1 = Pmm.free_mem_end_addr s /\
    (p ∉ F) /\ ~ is_table root (Pmm.mem s) p /\ Pmm.valid_page s p /\ 0 < p.
Proof.
  intros (Hrep & He & Hwf). destruct (Pmm.alloc_page_cons s p F Hrep) as [Heq Hrep'].
  destruct Hrep as (H0 & _ & Hnd & Hv). apply NoDup_cons in Hnd as [Hni _]. apply Forall_cons in Hv as [Hp _].
  eexists. split; [exact Heq|]. split_and!; try done.
  - split_and!; [done|done|]. split; [|apply Hwf]. intros va d t Hd Ht.
    destruct (wf_page _ _ _ Hwf va d t Hd Ht) as (? & ? & Hn). split_and!; try done. set_solver.
  - intros (va & d & Hd & Ht). destruct (wf_page _ _ _ Hwf va d p Hd Ht) as (_ & _ & Hn). set_solver.
  - destruct Hp as [_ ?]. lia.
Qed.

(** The whole effect of [user_vm_unmap] on a mapped page. *)
Lemma user_vm_unmap_page root va size (free : bool) s F e :
  0 <= va < MAXVA -> vm_inv root s F -> xlate root (Pmm.mem s) va = Some e ->
  (free = true -> Pmm.valid_page s (PTE2PA e) /\ (PTE2PA e ∉ F) /\
                  ~ is_table root (Pmm.mem s) (PTE2PA e)) ->
  exists s', Vmm.user_vm_unmap root va size free s = Ret tt s' /\
    vm_inv root s' (if free then PTE2PA e :: F else F) /\
    Pmm.free_mem_start_addr s' = Pmm.free_mem_start_addr s /\ Pmm.free_mem_end_addr s' = Pmm.free_mem_end_addr s /\
    (forall q, is_table root (Pmm.mem s') q -> is_table root (Pmm.mem s) q) /\
    (forall a, ~ is_table root (Pmm.mem s) (ROUNDDOWN a PGSIZE) -> (free = true -> ROUNDDOWN a PGSIZE <> PTE2PA e) ->
       ld64 (Pmm.mem s') a = ld64 (Pmm.mem s) a) /\
    (forall va', 0 <= va' < MAXVA -> xlate root (Pmm.mem s') va' =
       if decide (same_page va va') then None else xlate root (Pmm.mem s) va').
Proof.
  intros Hva Hinv Hx Hfree.
  assert (exists s1, (if free then Pmm.free_page (PTE2PA e) else ret tt) s = Ret tt s1 /\
            vm_inv root s1 (if free then PTE2PA e :: F else F) /\
            (Pmm.free_mem_start_addr s1 = Pmm.free_mem_start_addr s /\ Pmm.free_mem_end_addr s1 = Pmm.free_mem_end_addr s) /\
            (forall a, (free = true -> ROUNDDOWN a PGSIZE <> PTE2PA e) -> ld64 (Pmm.mem s1) a = ld64 (Pmm.mem s) a) /\
            (forall va d, (d <= 2)%nat -> table root (Pmm.mem s1) va d = table root (Pmm.mem s) va d) /\
            (forall va, xlate root (Pmm.mem s1) va = xlate root (Pmm.mem s) va))
    as (s1 & Heq & Hinv1 & [Hs1 Hb1] & Hm1 & Htab & Hx1).
  { destruct free; [|by exists s]. destruct (Hfree eq_refl) as (Hv & Hni & Hnt).
    destruct (vm_inv_free_page root s F (PTE2PA e) Hinv Hv Hni Hnt) as (s1 & E & ? & Hs & Hb & Hm & ? & ?).
    exists s1. split_and!; try done. intros a Ha. by apply Hm, Ha. }
  destruct (table root (Pmm.mem s) va 2) as [t|] eqn:Ht; [|unfold xlate in Hx; by rewrite Ht in Hx].
  assert (leaf_slot root (Pmm.mem s) va = slot t va 2) as Hs by (unfold leaf_slot; by rewrite Ht).
  assert (slot t va 2 <> 0) as Hs0.
  { rewrite <- Hs. apply (leaf_slot_nonzero root s F va Hinv). by rewrite Ht. }
  pose proof (Htab va 2%nat ltac:(lia)) as Ht1. rewrite Ht in Ht1.
  destruct (vm_inv_leaf root s1 _ va t 0 Hinv1 Ht1) as [Hinv2 _].
  unfold Vmm.user_vm_unmap.
  rewrite (bind_Ret _ _ _ _ _ (page_walk_noalloc root va s (proj2 Hva))), Hs.
  destruct (Z.eqb_spec (slot t va 2) 0); [done|]. unfold Vmm.read. rewrite bind_gets.
  pose proof (read_leaf root va s F Hinv) as Hrl. rewrite Hs, Hx in Hrl. specialize (Hrl Hs0). cbv zeta in Hrl.
  destruct (has (ld64 (Pmm.mem s) (slot t va 2)) PTE_V); [|done]. simplify_eq. cbn [negb].
  eexists. rewrite (bind_Ret _ _ _ _ _ Heq). split; [done|]. split; [exact Hinv2|].
  destruct Hinv as (_ & _ & Hwf). destruct Hinv1 as (_ & _ & Hwf1).
  cbn [Pmm.mem Pmm.set_mem Pmm.free_mem_start_addr Pmm.free_mem_end_addr]. split_and!; [done|done| | |].
  - intros q Hq. apply (is_table_leaf root _ _ va t 0 q Hwf1 Ht1) in Hq as (x & d & Hd & Hq).
    exists x, d. split; [done|]. by rewrite <- Htab.
  - intros a Hnt Hne. rewrite ld64_st64_ne; [by apply Hm1|]. intros <-. apply Hnt. exists va, 2%nat. split; [done|].
    rewrite slot_in_table; [done|]. apply (wf_page _ _ _ Hwf va 2%nat t); [lia|done].
  - intros va' Hva'. rewrite (leaf_xlate root _ _ va t 0 Hwf1 Ht1), <- Hx1.
    destruct (decide (agree 3 va va')) as [H|H]; destruct (decide (same_page va va')) as [H'|H'];
      try done; [by apply agree3_same_page in H|by apply agree3_same_page in H'].
Qed.

(** C28: [user_vm_unmap] with [free] set removes exactly the mapping of the page
    of [va] and gives its physical page back to the allocator; with [free]
    clear it only removes the mapping. *)
Theorem user_vm_unmap_correct root va size (free : bool) s F e :
  0 <= va < MAXVA -> vm_inv root s F -> xlate root (Pmm.mem s) va = Some e ->
  (free = true -> Pmm.valid_page s (PTE2PA e) /\ (PTE2PA e ∉ F) /\
                  ~ is_table root (Pmm.mem s) (PTE2PA e)) ->
  returns (Vmm.user_vm_unmap root va size free) s (fun _ s' =>
    vm_inv root s' (if free then PTE2PA e :: F else F) /\
    (forall va', 0 <= va' < MAXVA -> xlate root (Pmm.mem s') va' =
       if decide (same_page va va') then None else xlate root (Pmm.mem s) va')).
Proof.
  intros Hva Hinv Hx Hfree.
  destruct (user_vm_unmap_page root va size free s F e Hva Hinv Hx Hfree) as (s' & E & Hinv' & _ & _ & _ & _ & Hx').
  by exists tt, s'.
Qed.

(** the page-table permissions of a protection code: readable exactly when
    reading was asked for or nothing was, writable and executable exactly as
    asked, user-accessible exactly as asked, and never valid or global. *)
Theorem prot_to_type_bits prot user :
  0 <= prot < 8 ->
  let t := Vmm.prot_to_type prot user in
  0 <= t < 2 ^ 10 /\
  has t PTE_R = (has prot PROT_READ || (prot =? 0)) /\ has t PTE_W = has prot PROT_WRITE /\
  has t PTE_X = has prot PROT_EXEC /\ has t PTE_U = user /\
  has t PTE_V = false /\ has t PTE_G = false /\ has t PTE_D = has prot PROT_WRITE.
Proof.
  intros H t. subst t.
  assert (prot = 0 \/ prot = 1 \/ prot = 2 \/ prot = 3 \/ prot = 4 \/ prot = 5 \/ prot = 6 \/ prot = 7)
    as Hc by lia.
  destruct user; (repeat (destruct Hc as [->|Hc]; [by vm_compute|])); subst; by vm_compute.
Qed.

(** ** The kernel's direct map *)
Lemma vm_inv_fresh root s F :
  Pmm.rep s F -> Pmm.free_mem_end_addr s <= 2 ^ 64 ->
  root mod PGSIZE = 0 -> 0 < root -> root ∉ F ->
  (forall i, 0 <= i < 512 -> ld64 (Pmm.mem s) (root + 8 * i) = 0) ->
  vm_inv root s F /\ (forall va, xlate root (Pmm.mem s) va = None).
Proof.
  intros Hrep He Ha H0 Hni Hz.
  assert (forall va d, (d <= 2)%nat -> table root (Pmm.mem s) va d = if d is O then Some root else None) as Htab.
  { intros va. assert (table root (Pmm.mem s) va 1 = None) as H1.
    { rewrite (table_S root _ va 0 root eq_refl). unfold slot. by rewrite Hz by apply PX_range. }
    intros [|[|[|d]]] Hd; [done|done| |lia]. unfold table in *. fold table in *. by rewrite H1. }
  split.
  - split_and!; try done. split.
    + intros va d t Hd. rewrite Htab by done. destruct d; [|done]. by intros [= <-].
    + intros va va' d d' t Hd Hd'. rewrite !Htab by done.
      destruct d, d'; try done. intros _ _. split; [done|]. intros k Hk. lia.
  - intros va. unfold xlate. by rewrite Htab.
Qed.

Definition kernel_perm (etext va : Z) : Z :=
  if va <? etext then Vmm.prot_to_type (Z.lor PROT_READ PROT_EXEC) false
  else Vmm.prot_to_type (Z.lor PROT_READ PROT_WRITE) false.

Lemma kern_vm_map_range root lo hi perm s F :
  DRAM_BASE <= lo < hi -> hi <= PHYS_TOP -> lo mod PGSIZE = 0 -> hi mod PGSIZE = 0 ->
  vm_inv root s F -> (65 <= length F)%nat ->
  (forall va, lo <= va < hi -> xlate root (Pmm.mem s) va = None) ->
  returns (Vmm.kern_vm_map root lo lo (u64 (hi - lo)) perm) s (fun _ s' =>
    exists used F', vm_inv root s' F' /\ evolves root s F used s' F' /\ (length used <= 65)%nat /\
      (forall va, 0 <= va < MAXVA -> xlate root (Pmm.mem s') va =
         if decide (lo <= va < hi) then Some (entry (ROUNDDOWN va PGSIZE) perm)
         else xlate root (Pmm.mem s) va)).
Proof.
  unfold DRAM_BASE, PHYS_TOP, DRAM_BASE, PKE_MAX_ALLOWABLE_RAM.
  intros Hlo Hhi Ha Hb Hinv HF Hx. assert (MAXVA = 2 ^ 38) as HM by done.
  rewrite u64_small by lia.
  set (n := range_pages lo (hi - lo)).
  assert (ROUNDDOWN lo PGSIZE = lo /\ ROUNDDOWN (lo + (hi - lo) - 1) PGSIZE = hi - PGSIZE /\
          lo + Z.of_nat n * PGSIZE - PGSIZE = hi - PGSIZE /\ (0 < n)%nat) as (R1 & R2 & R3 & Rn)
    by (clear -Ha Hb Hlo Hhi; subst n; unfold range_pages, ROUNDDOWN, PGSIZE in *; zlia).
  assert (tables_needed root (Pmm.mem s) lo n <= 65)%nat as Ht.
  { apply (tables_needed_bound root (Pmm.mem s) lo n 63); [lia|done| |]; rewrite R3;
      clear -Hlo Hhi Ha Hb; unfold PGSIZE in *; [change (2 ^ 30) with 1073741824|change (2 ^ 21) with 2097152]; zlia. }
  destruct (map_pages_ok root lo (hi - lo) lo perm s F) as (r & s' & Heq & -> & u & F' & I & V & L & X);
    fold n; rewrite ?R1, ?R2 in *; try done; try (unfold PGSIZE in *; lia).
  { intros va Hva. apply Hx. unfold PGSIZE in *. lia. }
  exists tt, s'. unfold Vmm.kern_vm_map. rewrite (bind_Ret _ _ _ _ _ Heq). split; [done|].
  exists u, F'. fold n in L. split_and!; [done|done|lia|]. intros va Hva. rewrite X by done.
  destruct (decide (lo <= va <= _)), (decide (lo <= va < hi)); try done; try (unfold PGSIZE in *; lia).
  f_equal. f_equal. lia.
Qed.

(** The only table of an empty address space is its root. *)
Lemma fresh_tables root m q : (forall i, 0 <= i < 512 -> ld64 m (root + 8 * i) = 0) -> is_table root m q -> q = root.
Proof.
  intros Hz (va & d & Hd & Ht). destruct d as [|d]; [by injection Ht as <-|]. exfalso.
  destruct (table_prefix _ _ _ _ _ 1 Ht ltac:(lia)) as [t Ht1]. unfold table in Ht1. cbn [mbind option_bind] in Ht1.
  rewrite Z.sub_0_r in Ht1. pose proof (PX_range 2 va) as Hr. by rewrite Hz in Ht1.
Qed.

(** [kern_vm_init]: the root page and [used] become the kernel's page tables. *)
Lemma kern_vm_init_ok etext s root F :
  KERN_BASE < etext < PHYS_TOP -> etext mod PGSIZE = 0 ->
  Pmm.rep s (root :: F) -> Pmm.free_mem_end_addr s <= 2 ^ 64 -> (130 <= length F)%nat ->
  exists s' used F', Vmm.kern_vm_init etext s = Ret root s' /\ F = used ++ F' /\ (length used <= 130)%nat /\ vm_inv root s' F' /\
    (Pmm.free_mem_start_addr s' = Pmm.free_mem_start_addr s /\ Pmm.free_mem_end_addr s' = Pmm.free_mem_end_addr s) /\
    (forall q, is_table root (Pmm.mem s') q -> q = root \/ q ∈ used) /\
    (forall va, 0 <= va < MAXVA -> xlate root (Pmm.mem s') va =
       if decide (KERN_BASE <= va < PHYS_TOP)
       then Some (entry (ROUNDDOWN va PGSIZE) (kernel_perm etext va)) else None).
Proof.
  intros Het Hea Hrep He HF.
  destruct (Pmm.alloc_page_cons s root F Hrep) as [Heq Hrep1].
  pose proof Hrep as (Hs0 & _ & Hnd & Hv).
  apply NoDup_cons in Hnd as [Hni _]. apply Forall_cons in Hv as [[Hra Hrr] HvF].
  set (s1 := Pmm.set_head _ s) in *.
  set (s2 := Pmm.set_mem (Vmm.zero_page root (Pmm.mem s1)) s1).
  assert (Pmm.rep s2 F) as Hrep2.
  { apply Pmm.rep_set_mem; [done|]. intros p Hp. apply ld64_zero_page_out; [done|].
    rewrite Forall_forall in HvF. destruct (HvF p Hp) as [Hpa _]. intros Hpr. apply Hni.
    rewrite <- Hpr. replace (ROUNDDOWN p PGSIZE) with p; [done|].
    clear -Hpa. unfold ROUNDDOWN, PGSIZE in *. zlia. }
  destruct (vm_inv_fresh root s2 F) as [Hinv2 Hnone]; try done; [lia| |].
  { intros i Hi. by apply ld64_zero_page_in. }
  destruct (kern_vm_map_range root KERN_BASE etext (Vmm.prot_to_type (Z.lor PROT_READ PROT_EXEC) false) s2 F)
    as (u1 & s3 & E3 & u & F3 & I3 & V3 & L3 & X3); try done;
    [unfold KERN_BASE, DRAM_BASE in *; lia|lia|lia|].
  destruct (kern_vm_map_range root etext PHYS_TOP (Vmm.prot_to_type (Z.lor PROT_READ PROT_WRITE) false) s3 F3)
    as (u2 & s4 & E4 & u' & F4 & I4 & V4 & L4 & X4); try done;
    [unfold KERN_BASE, DRAM_BASE in *; lia| | |].
  { destruct V3 as (-> & _). rewrite length_app in HF. lia. }
  { intros va Hva. rewrite X3 by (assert (PHYS_TOP < MAXVA) by done; unfold KERN_BASE in *; lia).
    rewrite decide_False by lia. apply Hnone. }
  assert (V := evolves_trans root s2 F u s3 F3 u' s4 F4 V3 V4). destruct V as (VF & VS & VE & VT & _).
  exists s4, (u ++ u'), F4. split_and!; try done.
  - unfold Vmm.kern_vm_init. mstep Heq. destruct (Z.eqb_spec root 0); [lia|].
    rewrite bind_modify. fold s2. change DRAM_BASE with KERN_BASE. mstep E3.
    mstep (lookup_pa_eq root KERN_BASE s3 F3 I3). mstep E4.
    mstep (lookup_pa_eq root etext s4 F4 I4). done.
  - rewrite length_app. lia.
  - intros q Ht. destruct (VT q Ht) as [Ht2|]; [left|by right]. revert Ht2. apply fresh_tables. intros i Hi. by apply ld64_zero_page_in.
  - intros va Hva. rewrite X4, X3, Hnone by done. unfold kernel_perm.
    destruct (Z.ltb_spec va etext); repeat case_decide; try done; lia.
Qed.

(** [kern_vm_init] builds the direct map: every address of
    [\[KERN_BASE, PHYS_TOP)] translates to itself, the kernel text read-execute
    and everything above [_etext] read-write, and nothing else is mapped. *)
Theorem kern_vm_init_direct_map etext s root F :
  KERN_BASE < etext < PHYS_TOP -> etext mod PGSIZE = 0 ->
  Pmm.rep s (root :: F) -> Pmm.free_mem_end_addr s <= 2 ^ 64 -> (130 <= length F)%nat ->
  returns (Vmm.kern_vm_init etext) s (fun r s' => r = root /\
    (exists used F', F = used ++ F' /\ vm_inv root s' F') /\
    (forall va, 0 <= va < MAXVA -> xlate root (Pmm.mem s') va =
       if decide (KERN_BASE <= va < PHYS_TOP)
       then Some (entry (ROUNDDOWN va PGSIZE) (kernel_perm etext va)) else None)).
Proof.
  intros Het Hea Hrep He HF. destruct (kern_vm_init_ok etext s root F Het Hea Hrep He HF) as (s' & used & F' & E & HF' & _ & Hinv & _ & _ & Hx).
  exists root, s'. split; [exact E|]. split_and!; [done|by exists used, F'|exact Hx].
Qed.

(** ** Concrete address spaces *)

(** An empty page directory at [0x80001000] above [n] free pages. *)
Definition demo_root : Z := 0x80001000.
Definition demo_free (n : nat) : list Z := Pmm.pages_from 0x80002000 n.
Definition demo_vm (n : nat) : Pmm.state :=
  Pmm.linked 0x80002000 (0x80002000 + Z.of_nat n * PGSIZE) (demo_free n) ∅.

Lemma ld64_link_pages_out l m a : a ∉ l -> ld64 (Pmm.link_pages l m) a = ld64 m a.
Proof.
  induction l as [|p l IH]; intros Hni; [done|].
  apply not_elem_of_cons in Hni as [Hne Hni]. simpl. rewrite ld64_st64_ne by done. auto.
Qed.

Lemma demo_root_empty n i : 0 <= i < 512 -> ld64 (Pmm.mem (demo_vm n)) (demo_root + 8 * i) = 0.
Proof.
  intros Hi. unfold demo_vm, demo_free. simpl. rewrite ld64_link_pages_out; [done|].
  rewrite Pmm.elem_of_pages_from. intros (k & _ & Hk). unfold demo_root, PGSIZE in Hk. lia.
Qed.

Lemma demo_vm_inv n : Z.of_nat n <= 2 ^ 30 ->
  vm_inv demo_root (demo_vm n) (demo_free n) /\
  (forall va, xlate demo_root (Pmm.mem (demo_vm n)) va = None).
Proof.
  intros Hn. unfold demo_vm, demo_free.
  assert (forall q, 0x80002000 <= q <-> ~ q < 0x80002000) as Hq by lia.
  apply vm_inv_fresh.
  - by apply Pmm.linked_pages_rep.
  - simpl. unfold PGSIZE. lia.
  - done.
  - done.
  - rewrite Pmm.elem_of_pages_from. intros (k & _ & Hk). unfold demo_root, PGSIZE in Hk. lia.
  - intros i Hi. by apply (demo_root_empty n).
Qed.

(** The same space with the page [0x400000] mapped to [0x80003000]. *)
Definition demo_perm : Z := Vmm.prot_to_type (Z.lor PROT_WRITE PROT_READ) true.

Lemma map_pages_translates_witness :
  returns (Vmm.map_pages demo_root 0x400800 0x1000 0x80100000 demo_perm) (demo_vm 8) (fun r s' => r = 0 /\
    exists used F', vm_inv demo_root s' F' /\ evolves demo_root (demo_vm 8) (demo_free 8) used s' F' /\
      (forall va', 0 <= va' < MAXVA -> xlate demo_root (Pmm.mem s') va' =
         if decide (0x400000 <= va' <= 0x401FFF)
         then Some (entry (0x80100000 + (ROUNDDOWN va' PGSIZE - 0x400000)) demo_perm)
         else xlate demo_root (Pmm.mem (demo_vm 8)) va')).
Proof.
  destruct (demo_vm_inv 8) as [Hinv Hx]; [done|].
  apply (map_pages_translates demo_root 0x400800 0x1000 0x80100000 demo_perm (demo_vm 8) (demo_free 8)).
  - lia.
  - lia.
  - vm_compute. congruence.
  - lia.
  - vm_compute. congruence.
  - exact Hinv.
  - vm_compute. lia.
  - intros va' _. apply Hx.
Defined.

Lemma map_pages_remap_panics_witness :
  exists s, xlate demo_root (Pmm.mem s) 0x400000 <> None /\
    Vmm.map_pages demo_root 0x400000 0x1000 0x80100000 demo_perm s
      = Panic "map_pages fails on mapping va to pa".
Proof.
  destruct (demo_vm_inv 8) as [Hinv Hx]; [done|].
  destruct (user_vm_map_page demo_root 0x400000 0x80100000 demo_perm (demo_vm 8) (demo_free 8))
    as (u & s & _ & used & F' & I & _ & _ & X); try done; [unfold demo_free; simpl; lia|].
  exists s. assert (xlate demo_root (Pmm.mem s) 0x400000 = Some (entry 0x80100000 demo_perm)) as E.
  { by rewrite X. }
  split; [by rewrite E|].
  apply (map_pages_remap_panics demo_root 0x400000 0x1000 0x80100000 demo_perm s F'); try done; lia || eauto.
Defined.

Lemma lookup_pa_correct_witness :
  Vmm.lookup_pa demo_root 0x400000 (demo_vm 8) = Ret 0 (demo_vm 8).
Proof.
  destruct (demo_vm_inv 8) as [Hinv Hx]; [done|].
  rewrite (lookup_pa_correct demo_root 0x400000 (demo_vm 8) (demo_free 8) Hinv). by rewrite Hx.
Defined.

(** Three pages from an address inside a page; an address in the last of them. *)
Lemma user_vm_map_then_va_to_pa_witness :
  returns (Vmm.user_vm_map demo_root 0x400800 0x2000 0x80100000 demo_perm ;;
           Vmm.user_va_to_pa demo_root 0x402123) (demo_vm 8)
    (fun r _ => r = 0x80102123).
Proof.
  destruct (demo_vm_inv 8) as [Hinv Hx]; [done|].
  apply (user_vm_map_then_va_to_pa demo_root 0x400800 0x2000 0x80100000 demo_perm 0x402123 (demo_vm 8) (demo_free 8));
    try done; try (by vm_compute); try (vm_compute; lia).
Defined.

Lemma user_vm_unmap_correct_witness :
  exists s F e, xlate demo_root (Pmm.mem s) 0x400000 = Some e /\
    returns (Vmm.user_vm_unmap demo_root 0x400000 PGSIZE false) s (fun _ s' =>
      vm_inv demo_root s' F /\
      (forall va', 0 <= va' < MAXVA -> xlate demo_root (Pmm.mem s') va' =
         if decide (same_page 0x400000 va') then None else xlate demo_root (Pmm.mem s) va')).
Proof.
  destruct (demo_vm_inv 8) as [Hinv Hx]; [done|].
  destruct (user_vm_map_page demo_root 0x400000 0x80100000 demo_perm (demo_vm 8) (demo_free 8))
    as (u & s & _ & used & F' & I & _ & _ & X); try done; [unfold demo_free; simpl; lia|].
  assert (xlate demo_root (Pmm.mem s) 0x400000 = Some (entry 0x80100000 demo_perm)) as E by (by rewrite X).
  exists s, F', (entry 0x80100000 demo_perm). split; [done|].
  apply (user_vm_unmap_correct demo_root 0x400000 PGSIZE false s F' (entry 0x80100000 demo_perm)); done.
Defined.

Lemma prot_to_type_bits_witness :
  has (Vmm.prot_to_type 3 true) PTE_W = true.
Proof. apply (prot_to_type_bits 3 true). lia. Defined.

Lemma kern_vm_init_direct_map_witness :
  returns (Vmm.kern_vm_init 0x80010000) (demo_vm 200) (fun r s' => r = 0x80002000 /\
    (exists used F', Pmm.pages_from 0x80003000 199 = used ++ F' /\ vm_inv 0x80002000 s' F') /\
    (forall va, 0 <= va < MAXVA -> xlate 0x80002000 (Pmm.mem s') va =
       if decide (KERN_BASE <= va < PHYS_TOP)
       then Some (entry (ROUNDDOWN va PGSIZE) (kernel_perm 0x80010000 va)) else None)).
Proof.
  apply (kern_vm_init_direct_map 0x80010000 (demo_vm 200) 0x80002000 (Pmm.pages_from 0x80003000 199)).
  - done.
  - done.
  - exact (Pmm.linked_pages_rep 0x80002000 200 ∅ eq_refl eq_refl).
  - vm_compute. congruence.
  - rewrite Pmm.length_pages_from. lia.
Defined.
