(* ===== verification/HashTable.v ===== *)
(** * [util/hash_table.c]: the generic chained hash table

    The table is an array of [HASH_TABLE_SIZE] chains of nodes; a node is a page
    of the page allocator.  The hash and equality callbacks of a key type are
    the class [HashKey]; [kernel/vfs.c] provides the instances for dentries and
    vinodes.  The theorems are proved against the two interfaces [HashKey] and
    [PageAllocator]. *)

From stdpp Require Import base gmap list numbers strings.
From Stdlib Require Import ZArith Lia.
From S2P Require Import Prelude Pmm.
Local Open Scope Z_scope.

Definition HASH_TABLE_SIZE : Z := 128.

(** The callbacks [virtual_hash_equal] and [virtual_hash_func], and what the
    table relies on. *)
Class HashKey (K : Type) := {
  hk_equal : K -> K -> bool;
  hk_func : K -> Z;
  hk_refl : forall k, hk_equal k k = true;
  hk_sym : forall k k', hk_equal k k' = true -> hk_equal k' k = true;
  hk_trans : forall k1 k2 k3,
    hk_equal k1 k2 = true -> hk_equal k2 k3 = true -> hk_equal k1 k3 = true;
  hk_func_equal : forall k k', hk_equal k k' = true -> hk_func k = hk_func k';
  hk_func_range : forall k, 0 <= hk_func k < HASH_TABLE_SIZE;
}.

Module Hash.
Section ops.
Context {K A : Type} `{HK : HashKey K} `{PA : PageAllocator A}.

(** A [struct hash_node]: its page, its key (the structure the key pointer
    points to) and its value (a pointer, 0 is NULL). *)
Record node := mk_node { n_addr : Z; n_key : K; n_value : Z }.

(** The chains [head\[i\].next] together with the page allocator. *)
Record state := mk { head : list (list node); pages : A }.

Definition set_head (h : list (list node)) (s : state) : state := mk h (pages s).
Definition set_pages (a : A) (s : state) : state := mk (head s) a.

Definition alloc_page : M state Z := zoom pages set_pages pa_alloc.
Definition free_page (p : Z) : M state unit := zoom pages set_pages (pa_free p).

(** The chain [hash_table->head + index]. *)
Definition get_chain (index : Z) : M state (list node) := fun s =>
  of_option "hash index out of range" (head s !! Z.to_nat index) s.
Definition set_chain (index : Z) (c : list node) : M state unit :=
  modify (fun s => set_head (<[Z.to_nat index := c]> (head s)) s).

Fixpoint find_value (c : list node) (key : K) : Z :=
  match c with
  | [] => 0
  | n :: c => if hk_equal (n_key n) key then n_value n else find_value c key
  end.

Definition default_get (key : K) : M state Z :=
  c <- get_chain (hk_func key) ;;
  ret (find_value c key).

Definition default_put (key : K) (value : Z) : M state Z :=
  node <- alloc_page ;;
  v <- default_get key ;;
  if negb (v =? 0) then ret (-1)
  else if node =? 0 then fault "node is NULL"
  else
    let index := hk_func key in
    c <- get_chain index ;;
    set_chain index (mk_node node key value :: c) ;;
    ret 0.

(** The [while] loop of [default_erase]: the nodes before the first one with an
    equal key, that node, and the nodes after it. *)
Fixpoint split_chain (c : list node) (key : K) : option (list node * node * list node) :=
  match c with
  | [] => None
  | n :: c =>
      if hk_equal (n_key n) key then Some ([], n, c)
      else
        match split_chain c key with
        | Some (before, m, after) => Some (n :: before, m, after)
        | None => None
        end
  end.

Definition default_erase (key : K) : M state Z :=
  let index := hk_func key in
  c <- get_chain index ;;
  match split_chain c key with
  | Some (before, n, after) =>
      set_chain index (before ++ after) ;;
      free_page (n_addr n) ;;
      ret 0
  | None => ret (-1)
  end.

(** [hash_table_init]: every chain is emptied, before [func] is checked.  The
    callers pass NULL for put, get and erase, so that the three operations
    above are installed. *)
Definition hash_table_init (func_is_null : bool) : M state Z :=
  modify (set_head (replicate (Z.to_nat HASH_TABLE_SIZE) [])) ;;
  if func_is_null then ret (-1) else ret 0.

(** ** The representation invariant *)
Fixpoint distinct_keys (c : list node) : Prop :=
  match c with
  | [] => True
  | n :: c => Forall (fun m => hk_equal (n_key n) (n_key m) = false) c /\ distinct_keys c
  end.

Definition chain_ok (a : A) (i : nat) (c : list node) : Prop :=
  distinct_keys c /\
  Forall (fun n => hk_func (n_key n) = Z.of_nat i /\ n_value n <> 0 /\ pa_page a (n_addr n)) c.

Definition addrs (h : list (list node)) : list Z := concat (map (map n_addr) h).

Definition inv (s : state) (F : list Z) : Prop :=
  length (head s) = Z.to_nat HASH_TABLE_SIZE /\
  pa_rep (pages s) F /\ NoDup (addrs (head s) ++ F) /\
  (forall i c, head s !! i = Some c -> chain_ok (pages s) i c).

(** The dictionary the table denotes: the value of each key, 0 when absent. *)
Definition denote (s : state) (k : K) : Z :=
  match head s !! Z.to_nat (hk_func k) with
  | Some c => find_value c k
  | None => 0
  end.

(** ** Chains *)
Lemma equal_false_l k1 k2 k : hk_equal k1 k2 = true -> hk_equal k1 k = hk_equal k2 k.
Proof.
  intros H. destruct (hk_equal k1 k) eqn:E1, (hk_equal k2 k) eqn:E2; try done.
  - rewrite <- E2. symmetry. apply (hk_trans _ k1); [by apply hk_sym|done].
  - rewrite <- E1. apply (hk_trans _ k2); done.
Qed.

Lemma equal_comm k1 k2 : hk_equal k1 k2 = hk_equal k2 k1.
Proof.
  destruct (hk_equal k1 k2) eqn:E1, (hk_equal k2 k1) eqn:E2; try done.
  - apply hk_sym in E1. congruence.
  - apply hk_sym in E2. congruence.
Qed.

Lemma find_value_ext c k k' : hk_equal k k' = true -> find_value c k = find_value c k'.
Proof.
  intros H. induction c as [|n c IH]; [done|]. simpl.
  rewrite (equal_comm (n_key n) k), (equal_comm (n_key n) k'), (equal_false_l k k') by done.
  by rewrite IH.
Qed.

#[export] Instance denote_proper :
  Proper ((fun s s' => head s = head s') ==> (fun k k' => hk_equal k k' = true) ==> eq) denote.
Proof.
  intros s s' Hs k k' Hk. unfold denote. rewrite Hs, (hk_func_equal k k' Hk).
  destruct (head s' !! _); [|done]. by apply find_value_ext.
Qed.

Lemma find_value_app c1 c2 k :
  find_value (c1 ++ c2) k =
    if existsb (fun n => hk_equal (n_key n) k) c1 then find_value c1 k else find_value c2 k.
Proof. induction c1 as [|n c1 IH]; [done|]. simpl. by destruct (hk_equal _ _). Qed.

Lemma find_value_absent c k :
  Forall (fun n => hk_equal (n_key n) k = false) c ->
  find_value c k = 0 /\ existsb (fun n => hk_equal (n_key n) k) c = false.
Proof.
  induction 1 as [|n c Hn _ IH]; [done|]. simpl. rewrite Hn. exact IH.
Qed.

Lemma find_value_zero c k :
  Forall (fun n => n_value n <> 0) c -> find_value c k = 0 ->
  Forall (fun n => hk_equal (n_key n) k = false) c.
Proof.
  induction 1 as [|n c Hn _ IH]; [constructor|]. simpl.
  destruct (hk_equal (n_key n) k) eqn:E; intros H; [done|]. constructor; auto.
Qed.

Lemma split_chain_Some c k b n a :
  split_chain c k = Some (b, n, a) ->
  c = b ++ n :: a /\ hk_equal (n_key n) k = true /\
  Forall (fun m => hk_equal (n_key m) k = false) b.
Proof.
  revert b. induction c as [|m c IH]; intros b; [done|]. simpl.
  destruct (hk_equal (n_key m) k) eqn:E.
  - intros [= <- <- <-]. done.
  - destruct (split_chain c k) as [[[b' n'] a']|]; [|done]. intros [= <- <- <-].
    destruct (IH b' eq_refl) as (-> & ? & ?). split_and!; try done. by constructor.
Qed.

Lemma split_chain_None c k :
  split_chain c k = None -> Forall (fun m => hk_equal (n_key m) k = false) c.
Proof.
  induction c as [|m c IH]; [constructor|]. simpl.
  destruct (hk_equal (n_key m) k) eqn:E; [done|].
  destruct (split_chain c k) as [[[b' n'] a']|]; [done|]. intros _. constructor; auto.
Qed.

Lemma distinct_keys_app c1 c2 :
  distinct_keys (c1 ++ c2) <->
  distinct_keys c1 /\ distinct_keys c2 /\
  Forall (fun n => Forall (fun m => hk_equal (n_key n) (n_key m) = false) c2) c1.
Proof.
  induction c1 as [|n c1 IH]; simpl; [by split; [repeat split|tauto]|].
  rewrite Forall_app, Forall_cons, IH. tauto.
Qed.

(** Removing the node of [k] removes exactly the keys equal to [k]. *)
Lemma find_value_remove b n a k k' :
  distinct_keys (b ++ n :: a) -> hk_equal (n_key n) k = true ->
  Forall (fun m => hk_equal (n_key m) k = false) b ->
  find_value (b ++ a) k' = if hk_equal k k' then 0 else find_value (b ++ n :: a) k'.
Proof.
  intros Hd Hn Hb. apply distinct_keys_app in Hd as (_ & [Ha _] & _).
  destruct (hk_equal k k') eqn:E.
  - rewrite <- (find_value_ext _ k k' E). rewrite find_value_app.
    destruct (find_value_absent b k Hb) as [_ ->]. apply find_value_absent.
    eapply Forall_impl; [exact Ha|]. intros m Hm. simpl in Hm.
    by rewrite equal_comm, <- (equal_false_l _ _ (n_key m) Hn).
  - rewrite !find_value_app. destruct (existsb _ b); [done|]. simpl.
    by rewrite (equal_false_l _ _ k' Hn), E.
Qed.

Lemma addrs_insert h i c :
  h !! i = Some c -> exists rest, Permutation (addrs h) (map n_addr c ++ rest) /\
    (forall c', Permutation (addrs (<[i := c']> h)) (map n_addr c' ++ rest)).
Proof.
  intros Hi. exists (addrs (take i h) ++ addrs (drop (S i) h)).
  assert (forall h1 c0 h2, Permutation (addrs (h1 ++ c0 :: h2)) (map n_addr c0 ++ addrs h1 ++ addrs h2)) as Hp.
  { intros h1 c0 h2. unfold addrs. rewrite map_app, concat_app. simpl.
    rewrite !app_assoc. apply Permutation_app_tail. apply Permutation_app_comm. }
  split.
  - rewrite <- (take_drop_middle h i c Hi) at 1. apply Hp.
  - intros c'. rewrite insert_take_drop by (by apply lookup_lt_Some in Hi). apply Hp.
Qed.

(** ** Operations *)
Lemma get_chain_ok s F key :
  inv s F -> exists c, head s !! Z.to_nat (hk_func key) = Some c /\
    get_chain (hk_func key) s = Ret c s.
Proof.
  intros (Hlen & _). pose proof (hk_func_range key) as Hr.
  destruct (lookup_lt_is_Some_2 (head s) (Z.to_nat (hk_func key))) as [c Hc]; [lia|].
  exists c. split; [done|]. unfold get_chain. by rewrite Hc.
Qed.

Lemma default_get_denote s F key : inv s F -> default_get key s = Ret (denote s key) s.
Proof.
  intros Hinv. destruct (get_chain_ok s F key Hinv) as (c & Hc & Heq).
  unfold default_get, denote. mstep Heq. by rewrite Hc.
Qed.

(** Replacing the chain of [key], with the allocator state that goes with it. *)
Lemma inv_set_chain s F key c c' a' F' :
  inv s F -> head s !! Z.to_nat (hk_func key) = Some c ->
  pa_rep a' F' -> (forall q, pa_page a' q <-> pa_page (pages s) q) ->
  (forall rest, NoDup ((map n_addr c ++ rest) ++ F) -> NoDup ((map n_addr c' ++ rest) ++ F')) ->
  chain_ok a' (Z.to_nat (hk_func key)) c' ->
  inv (mk (<[Z.to_nat (hk_func key) := c']> (head s)) a') F'.
Proof.
  intros (Hlen & Hrep & Hnd & Hch) Hc Hrep' Hpg Hnd' Hok.
  destruct (addrs_insert _ _ _ Hc) as (rest & Hp1 & Hp2).
  split_and!; simpl.
  - by rewrite length_insert.
  - done.
  - rewrite Hp2. apply Hnd'. by rewrite <- Hp1.
  - intros i ci Hi. destruct (decide (Z.to_nat (hk_func key) = i)) as [<-|Hne].
    + rewrite list_lookup_insert_eq in Hi by (by apply lookup_lt_Some in Hc). by simplify_eq.
    + rewrite list_lookup_insert_ne in Hi by done. destruct (Hch i ci Hi) as [Hd Hf].
      split; [done|]. eapply Forall_impl; [exact Hf|]. intros n (? & ? & ?). by rewrite Hpg.
Qed.

Lemma denote_set_chain s key c' a' k :
  is_Some (head s !! Z.to_nat (hk_func key)) ->
  denote (mk (<[Z.to_nat (hk_func key) := c']> (head s)) a') k =
    if decide (hk_func key = hk_func k) then find_value c' k else denote s k.
Proof.
  intros [c Hc]. unfold denote. simpl.
  pose proof (hk_func_range key). pose proof (hk_func_range k). case_decide as H1.
  - rewrite H1, list_lookup_insert_eq; [done|]. rewrite <- H1. by apply lookup_lt_Some in Hc.
  - rewrite list_lookup_insert_ne; [done|]. lia.
Qed.

(** The allocator moves under the table. *)
Lemma inv_set_pages s F a' F' :
  inv s F -> pa_rep a' F' -> (forall q, pa_page a' q <-> pa_page (pages s) q) ->
  NoDup (addrs (head s) ++ F') -> inv (set_pages a' s) F'.
Proof.
  intros (Hlen & Hrep & Hnd & Hch) Hrep' Hpg Hnd'. split_and!; simpl; try done.
  intros i c Hc. destruct (Hch i c Hc) as [? Hf]. split; [done|].
  eapply Forall_impl; [exact Hf|]. intros n (? & ? & ?). by rewrite Hpg.
Qed.

Lemma alloc_page_inv s F :
  inv s F -> exists a', alloc_page s = Ret (hd 0 F) (set_pages a' s) /\ inv (set_pages a' s) (tail F) /\
    (forall q, pa_page a' q <-> pa_page (pages s) q).
Proof.
  intros Hinv. pose proof Hinv as (_ & Hrep & Hnd & _). unfold alloc_page, zoom. destruct F as [|p F].
  - exists (pages s). rewrite (pa_alloc_nil _ Hrep). split_and!; done.
  - destruct (pa_alloc_cons _ _ _ Hrep) as (a' & Heq & Hrep' & Hpg). exists a'. rewrite Heq.
    split_and!; try done; [|apply Hpg..]. eapply inv_set_pages; try done. simpl.
    rewrite <- Permutation_middle in Hnd. by apply NoDup_cons in Hnd as [_ ?].
Qed.

Lemma free_page_inv s F p :
  inv s F -> pa_page (pages s) p -> (p ∉ addrs (head s) ++ F) ->
  exists a', free_page p s = Ret tt (set_pages a' s) /\ inv (set_pages a' s) (p :: F).
Proof.
  intros Hinv Hp Hni. pose proof Hinv as (_ & Hrep & Hnd & _).
  destruct (pa_free_ok _ p F Hrep Hp) as (a' & Heq & Hrep' & Hpg).
  { intros H. apply Hni. apply elem_of_app. by right. }
  exists a'. unfold free_page, zoom. rewrite Heq. split; [done|].
  eapply inv_set_pages; try done. rewrite <- Permutation_middle. by apply NoDup_cons.
Qed.

Lemma put_present s F key value :
  inv s F -> denote s key <> 0 ->
  exists a', default_put key value s = Ret (-1) (set_pages a' s) /\ inv (set_pages a' s) (tail F) /\
    (forall q, pa_page a' q <-> pa_page (pages s) q).
Proof.
  intros Hinv Hd. destruct (alloc_page_inv s F Hinv) as (a' & Ha & Hinv' & Hpg).
  exists a'. split; [|done].
  unfold default_put. mstep Ha. mstep (default_get_denote _ _ key Hinv').
  change (denote (set_pages a' s) key) with (denote s key).
  destruct (Z.eqb_spec (denote s key) 0); done.
Qed.

Lemma put_absent s p F key value :
  inv s (p :: F) -> denote s key = 0 -> value <> 0 ->
  returns (default_put key value) s (fun r s' => r = 0 /\ inv s' F /\
    (forall k, denote s' k = if hk_equal key k then value else denote s k) /\
    addrs (head s') ≡ₚ p :: addrs (head s) /\ (forall q, pa_page (pages s') q <-> pa_page (pages s) q)).
Proof.
  intros Hinv Hd Hv. destruct (get_chain_ok s _ key Hinv) as (c & Hc & _).
  pose proof Hinv as (Hlen & Hrep & Hnd & Hch).
  destruct (pa_alloc_cons _ _ _ Hrep) as (a' & Heq & Hrep' & Hpg).
  destruct (pa_rep_pages _ _ Hrep) as [_ Hpp]. apply Forall_cons in Hpp as [Hpp _].
  destruct (Hch _ _ Hc) as [Hdk Hf].
  assert (Forall (fun n => hk_equal (n_key n) key = false) c) as Habs.
  { apply find_value_zero; [eapply Forall_impl; [exact Hf|]; by intros n (? & ? & ?)|].
    unfold denote in Hd. by rewrite Hc in Hd. }
  set (c' := mk_node p key value :: c).
  pose proof (hk_func_range key) as Hr.
  exists 0, (mk (<[Z.to_nat (hk_func key) := c']> (head s)) a'). split; [|split; [done|split; [|split]]].
  - assert (alloc_page s = Ret p (set_pages a' s)) as Ha by (unfold alloc_page, zoom; by rewrite Heq).
    unfold default_put. mstep Ha.
    assert (get_chain (hk_func key) (set_pages a' s) = Ret c (set_pages a' s)) as Hg
      by (unfold get_chain; simpl; by rewrite Hc).
    assert (default_get key (set_pages a' s) = Ret 0 (set_pages a' s)) as Hget.
    { unfold default_get. mstep Hg. unfold denote in Hd. rewrite Hc in Hd. by rewrite Hd. }
    mstep Hget. destruct (Z.eqb_spec p 0) as [->|]; [by apply pa_page_nonnull in Hpp|].
    simpl. mstep Hg. done.
  - apply (inv_set_chain s (p :: F) key c); try done.
    + intros rest. rewrite <- Permutation_middle. intros H. by simpl.
    + split.
      * simpl. split; [|done]. eapply Forall_impl; [exact Habs|]. intros n Hn. by rewrite equal_comm.
      * constructor; [simpl; rewrite Hpg; split_and!; [lia|done|done]|].
        eapply Forall_impl; [exact Hf|]. intros n (? & ? & ?). rewrite Hpg. split_and!; done.
  - intros k. rewrite denote_set_chain by eauto. subst c'. case_decide as H.
    + simpl. unfold denote. rewrite <- H, Hc. done.
    + destruct (hk_equal key k) eqn:E; [|done]. by apply hk_func_equal in E.
  - split; [|done]. destruct (addrs_insert _ _ _ Hc) as (rest & Hp1 & Hp2). cbn [head]. by rewrite Hp1, Hp2.
Qed.

Lemma erase_absent s F key :
  inv s F -> denote s key = 0 -> default_erase key s = Ret (-1) s.
Proof.
  intros Hinv Hd. destruct (get_chain_ok s F key Hinv) as (c & Hc & Heq).
  unfold default_erase. mstep Heq. destruct (split_chain c key) as [[[b n] a]|] eqn:E; [|done].
  apply split_chain_Some in E as (-> & Hn & Hb). unfold denote in Hd. rewrite Hc in Hd.
  rewrite find_value_app in Hd. destruct (find_value_absent b key Hb) as [_ Hx]. rewrite Hx in Hd.
  simpl in Hd. rewrite Hn in Hd. destruct Hinv as (_ & _ & _ & Hch).
  destruct (Hch _ _ Hc) as [_ Hf]. rewrite Forall_app, Forall_cons in Hf. by destruct Hf as (_ & (_ & ? & _) & _).
Qed.

Lemma erase_present s F key :
  inv s F -> denote s key <> 0 ->
  returns (default_erase key) s (fun r s' => r = 0 /\
    (exists p, inv s' (p :: F) /\ addrs (head s) ≡ₚ p :: addrs (head s') /\ (forall q, pa_page (pages s') q <-> pa_page (pages s) q)) /\
    (forall k, denote s' k = if hk_equal key k then 0 else denote s k)).
Proof.
  intros Hinv Hd. destruct (get_chain_ok s F key Hinv) as (c & Hc & Heq).
  unfold returns, default_erase. mstep Heq.
  destruct (split_chain c key) as [[[b n] a]|] eqn:E.
  2: { apply split_chain_None, find_value_absent in E as [E _].
       unfold denote in Hd. rewrite Hc in Hd. done. }
  apply split_chain_Some in E as (-> & Hn & Hb).
  pose proof Hinv as (Hlen & Hrep & Hnd & Hch). destruct (Hch _ _ Hc) as [Hdk Hf].
  assert (Forall (fun n => hk_func (n_key n) = Z.of_nat (Z.to_nat (hk_func key)) /\ n_value n <> 0 /\
            pa_page (pages s) (n_addr n)) (b ++ a) /\ pa_page (pages s) (n_addr n)) as [Hf' Hpg].
  { rewrite Forall_app, Forall_cons in Hf. rewrite Forall_app. tauto. }
  assert (n_addr n ∉ F) as HnF.
  { intros Hin. destruct (addrs_insert _ _ _ Hc) as (rest & Hp & _). rewrite Hp, map_app in Hnd. simpl in Hnd.
    apply NoDup_app in Hnd as (_ & Hx & _). apply (Hx (n_addr n)); [|done].
    apply elem_of_app. left. apply elem_of_app. right. by apply list_elem_of_here. }
  destruct (pa_free_ok _ _ _ Hrep Hpg HnF) as (a' & Hfree & Hrep' & Hpg').
  exists 0, (mk (<[Z.to_nat (hk_func key) := b ++ a]> (head s)) a'). unfold set_chain. rewrite bind_modify.
  split.
  { unfold bind, free_page, zoom. simpl. rewrite Hfree. done. }
  split; [done|]. split.
  - exists (n_addr n). split.
    2: { split; [|done]. destruct (addrs_insert _ _ _ Hc) as (rest & Hp & Hp'). cbn [head]. rewrite Hp, Hp', !map_app. simpl.
         rewrite <- !app_assoc. simpl. symmetry. apply Permutation_middle. }
    apply (inv_set_chain s F key (b ++ n :: a)); try done.
    + intros rest. rewrite !map_app. simpl. intros H.
      assert (Permutation (((map n_addr b ++ map n_addr a) ++ rest) ++ n_addr n :: F)
        (((map n_addr b ++ n_addr n :: map n_addr a) ++ rest) ++ F)) as ->; [|done].
      transitivity (n_addr n :: ((map n_addr b ++ map n_addr a) ++ rest) ++ F).
      { symmetry. apply Permutation_middle. }
      by rewrite <- (Permutation_middle (map n_addr b)).
    + split.
      * apply distinct_keys_app in Hdk as (? & [? ?] & Hx). apply distinct_keys_app. split_and!; try done.
        eapply Forall_impl; [exact Hx|]. intros m Hm. by apply Forall_cons in Hm as [_ ?].
      * eapply Forall_impl; [exact Hf'|]. intros m (? & ? & ?). by rewrite Hpg'.
  - intros k. rewrite denote_set_chain by eauto. case_decide as H.
    + rewrite (find_value_remove b n a key k) by done. unfold denote. by rewrite <- H, Hc.
    + destruct (hk_equal key k) eqn:E; [|done]. by apply hk_func_equal in E.
Qed.

(** ** Sequences of operations against a dictionary *)
Inductive op := OGet (k : K) | OPut (k : K) (v : Z) | OErase (k : K).

Definition run_op (o : op) : M state Z :=
  match o with
  | OGet k => default_get k
  | OPut k v => default_put k v
  | OErase k => default_erase k
  end.

Fixpoint run (os : list op) : M state (list Z) :=
  match os with
  | [] => ret []
  | o :: os => v <- run_op o ;; vs <- run os ;; ret (v :: vs)
  end.

(** The abstract dictionary: a function on keys, 0 where there is no entry. *)
Definition upd (d : K -> Z) (k : K) (v : Z) : K -> Z := fun k' => if hk_equal k k' then v else d k'.

Definition dict_op (d : K -> Z) (o : op) : Z * (K -> Z) :=
  match o with
  | OGet k => (d k, d)
  | OPut k v => if d k =? 0 then (0, upd d k v) else (-1, d)
  | OErase k => if d k =? 0 then (-1, d) else (0, upd d k 0)
  end.

Fixpoint dict_run (d : K -> Z) (os : list op) : list Z * (K -> Z) :=
  match os with
  | [] => ([], d)
  | o :: os => let (v, d1) := dict_op d o in let (vs, d2) := dict_run d1 os in (v :: vs, d2)
  end.

Definition op_ok (o : op) : Prop := match o with OPut _ v => v <> 0 | _ => True end.
Definition cost (o : op) : nat := match o with OPut _ _ => 1 | _ => 0 end.

#[local] Instance dict_op_ext : forall o, Proper (pointwise_relation K eq ==> prod_relation eq (pointwise_relation K eq)) (fun d => dict_op d o).
Proof.
  intros o d d' Hd. destruct o as [k|k v|k]; simpl; rewrite ?(Hd k).
  - split; [done|exact Hd].
  - destruct (d' k =? 0); split; simpl; try done. intros k'. unfold upd. by rewrite Hd.
  - destruct (d' k =? 0); split; simpl; try done. intros k'. unfold upd. by rewrite Hd.
Qed.

Lemma dict_run_ext os d d' :
  (forall k, d k = d' k) -> (dict_run d os).1 = (dict_run d' os).1 /\
  (forall k, (dict_run d os).2 k = (dict_run d' os).2 k).
Proof.
  revert d d'. induction os as [|o os IH]; intros d d' Hd; simpl; [done|].
  pose proof (dict_op_ext o d d' Hd) as [H1 H2].
  destruct (dict_op d o) as [v e], (dict_op d' o) as [v' e']. simpl in H1, H2. subst v'.
  destruct (IH e e' H2) as [H3 H4].
  destruct (dict_run e os) as [vs f], (dict_run e' os) as [vs' f']. simpl in *. by subst.
Qed.

Lemma run_op_refines s F o :
  inv s F -> op_ok o -> (cost o <= length F)%nat ->
  returns (run_op o) s (fun r s' => r = (dict_op (denote s) o).1 /\
    (forall k, denote s' k = (dict_op (denote s) o).2 k) /\
    exists F', inv s' F' /\ (length F <= cost o + length F')%nat).
Proof.
  intros Hinv Hok Hc. destruct o as [k|k v|k]; simpl in *.
  - exists (denote s k), s. rewrite (default_get_denote s F k Hinv). split_and!; try done. by exists F.
  - destruct (Z.eqb_spec (denote s k) 0) as [E|E]; simpl.
    + destruct F as [|p F]; [simpl in Hc; lia|].
      eapply returns_mono; [apply (put_absent s p F k v Hinv E Hok)|]. simpl.
      intros r s' (-> & H1 & H2 & _). split_and!; [done|done|]. exists F. split; [done|lia].
    + destruct (put_present s F k v Hinv E) as (a' & Heq & Hinv' & _).
      exists (-1), (set_pages a' s). split_and!; try done.
      exists (tail F). split; [done|]. destruct F; simpl; lia.
  - destruct (Z.eqb_spec (denote s k) 0) as [E|E]; simpl.
    + exists (-1), s. rewrite (erase_absent s F k Hinv E). split_and!; try done. by exists F.
    + eapply returns_mono; [apply (erase_present s F k Hinv E)|].
      intros r s' (-> & (p & H1 & _) & H2). split_and!; [done|done|]. exists (p :: F). simpl. split; [done|lia].
Qed.

Lemma run_refines os : forall s F,
  inv s F -> Forall op_ok os -> (sum_list_with cost os <= length F)%nat ->
  returns (run os) s (fun vs s' => vs = (dict_run (denote s) os).1 /\
    (forall k, denote s' k = (dict_run (denote s) os).2 k) /\ exists F', inv s' F').
Proof.
  induction os as [|o os IH]; intros s F Hinv Hok Hc; simpl in *.
  - exists [], s. eauto.
  - apply Forall_cons in Hok as [Ho Hok].
    destruct (run_op_refines s F o) as (v & s1 & Heq & Hv & Hd & F1 & Hinv1 & HF1); [done|done|lia|].
    destruct (IH s1 F1) as (vs & s2 & Heq2 & Hvs & Hd2 & HF2); [done|done|lia|].
    exists (v :: vs), s2. mstep Heq. mstep Heq2. split; [done|].
    destruct (dict_run_ext os (denote s1) (dict_op (denote s) o).2 Hd) as [E1 E2].
    destruct (dict_op (denote s) o) as [v' d1]. simpl in *.
    destruct (dict_run d1 os) as [vs' d2]. simpl in *. split_and!; [congruence| |done].
    intros k. by rewrite Hd2, E2.
Qed.

Lemma init_inv s F b :
  pa_rep (pages s) F -> NoDup F ->
  returns (hash_table_init b) s (fun r s' => r = (if b then -1 else 0) /\ inv s' F /\ forall k, denote s' k = 0).
Proof.
  intros Hrep Hnd. exists (if b then -1 else 0), (set_head (replicate (Z.to_nat HASH_TABLE_SIZE) []) s).
  split; [by destruct b|]. split; [done|].
  assert (forall i c, replicate (Z.to_nat HASH_TABLE_SIZE) (@nil node) !! i = Some c -> c = []) as Hrepl
    by (intros i c Hi; by apply lookup_replicate_1 in Hi as [? _]).
  split.
  - split_and!; simpl.
    + done.
    + done.
    + done.
    + intros i c Hi. rewrite (Hrepl i c Hi). split; [done|constructor].
  - intros k. unfold denote, set_head. cbn [head].
    destruct (replicate (Z.to_nat HASH_TABLE_SIZE) (@nil node) !! Z.to_nat (hk_func k)) eqn:E; [|done].
    by rewrite (Hrepl _ _ E).
Qed.
End ops.
Arguments node : clear implicits.
Arguments state : clear implicits.
End Hash.

(** ** The two tables of [kernel/vfs.c] *)
Module VfsHash.

(** [struct dentry_key]: the parent pointer and the characters of the name. *)
Record dentry_key := mk_dkey { dk_parent : Z; dk_name : list Z }.
#[global] Instance dentry_key_eq_dec : EqDecision dentry_key.
Proof. solve_decision. Defined.

(** [struct vinode_key]; the interface functions below let no negative [inum]
    through. *)
Record vinode_key := mk_vkey { vk_inum : N; vk_sb : Z }.
#[global] Instance vinode_key_eq_dec : EqDecision vinode_key.
Proof. solve_decision. Defined.

(** [strcmp(..) == 0] on NUL-terminated names is equality of their characters. *)
Definition dentry_hash_equal (k1 k2 : dentry_key) : bool :=
  bool_decide (dk_name k1 = dk_name k2) && (dk_parent k1 =? dk_parent k2).

Fixpoint hash_name (hash : Z) (name : list Z) : Z :=
  match name with
  | [] => hash
  | c :: name => hash_name (u64 (u64 (u64 (Z.shiftl hash 5) + hash) + c)) name
  end.

Definition dentry_hash_func (k : dentry_key) : Z :=
  let hash := hash_name 5381 (dk_name k) in
  u64 (u64 (u64 (Z.shiftl hash 5) + hash) + dk_parent k) mod HASH_TABLE_SIZE.

Definition vinode_hash_equal (k1 k2 : vinode_key) : bool :=
  (vk_inum k1 =? vk_inum k2)%N && (vk_sb k1 =? vk_sb k2).

Definition vinode_hash_func (k : vinode_key) : Z := Z.of_N (vk_inum k) mod HASH_TABLE_SIZE.

Lemma dentry_hash_equal_spec k1 k2 : dentry_hash_equal k1 k2 = true <-> k1 = k2.
Proof.
  unfold dentry_hash_equal. rewrite andb_true_iff, bool_decide_eq_true, Z.eqb_eq.
  destruct k1, k2; simpl. split; [by intros [-> ->]|by intros [= -> ->]].
Qed.

Lemma vinode_hash_equal_spec k1 k2 : vinode_hash_equal k1 k2 = true <-> k1 = k2.
Proof.
  unfold vinode_hash_equal. rewrite andb_true_iff, N.eqb_eq, Z.eqb_eq.
  destruct k1, k2; simpl. split; [by intros [-> ->]|by intros [= -> ->]].
Qed.

#[global] Program Instance dentry_hash_key : HashKey dentry_key := {|
  hk_equal := dentry_hash_equal; hk_func := dentry_hash_func |}.
Next Obligation. intros k. by apply dentry_hash_equal_spec. Qed.
Next Obligation. intros k k'. rewrite !dentry_hash_equal_spec. congruence. Qed.
Next Obligation. intros k1 k2 k3. rewrite !dentry_hash_equal_spec. congruence. Qed.
Next Obligation. intros k k'. rewrite !dentry_hash_equal_spec. congruence. Qed.
Next Obligation. intros k. apply Z.mod_pos_bound. by vm_compute. Qed.

#[global] Program Instance vinode_hash_key : HashKey vinode_key := {|
  hk_equal := vinode_hash_equal; hk_func := vinode_hash_func |}.
Next Obligation. intros k. by apply vinode_hash_equal_spec. Qed.
Next Obligation. intros k k'. rewrite !vinode_hash_equal_spec. congruence. Qed.
Next Obligation. intros k1 k2 k3. rewrite !vinode_hash_equal_spec. congruence. Qed.
Next Obligation. intros k k'. rewrite !vinode_hash_equal_spec. congruence. Qed.
Next Obligation. intros k. apply Z.mod_pos_bound. by vm_compute. Qed.

Section interface.
Context `{PA : PageAllocator A}.

Definition hash_get_dentry (parent : Z) (name : list Z) : M (Hash.state dentry_key A) Z :=
  Hash.default_get (mk_dkey parent name).

(** The key page is given back when the table refuses the entry. *)
Definition hash_put_dentry (dentry parent : Z) (name : list Z) : M (Hash.state dentry_key A) Z :=
  key <- Hash.alloc_page ;;
  if key =? 0 then fault "key is NULL"
  else
    r <- Hash.default_put (mk_dkey parent name) dentry ;;
    if negb (r =? 0) then Hash.free_page key ;; ret r else ret r.

Definition hash_erase_dentry (parent : Z) (name : list Z) : M (Hash.state dentry_key A) Z :=
  Hash.default_erase (mk_dkey parent name).

Definition hash_get_vinode (sb inum : Z) : M (Hash.state vinode_key A) Z :=
  if inum <? 0 then ret 0 else Hash.default_get (mk_vkey (Z.to_N inum) sb).

Definition hash_put_vinode (vinode sb inum : Z) : M (Hash.state vinode_key A) Z :=
  if inum <? 0 then ret (-1)
  else
    key <- Hash.alloc_page ;;
    if key =? 0 then fault "key is NULL"
    else
      r <- Hash.default_put (mk_vkey (Z.to_N inum) sb) vinode ;;
      if negb (r =? 0) then Hash.free_page key ;; ret r else ret r.

Definition hash_erase_vinode (sb inum : Z) : M (Hash.state vinode_key A) Z :=
  if inum <? 0 then ret (-1) else Hash.default_erase (mk_vkey (Z.to_N inum) sb).

Lemma alloc_key_page {K} `{HK : HashKey K} (s : Hash.state K A) kp F :
  Hash.inv s (kp :: F) ->
  exists a', Hash.alloc_page s = Ret kp (Hash.set_pages a' s) /\ Hash.inv (Hash.set_pages a' s) F /\
    (kp =? 0) = false /\ pa_page a' kp /\ (kp ∉ Hash.addrs (Hash.head s) ++ F) /\
    (forall q, pa_page a' q <-> pa_page (Hash.pages s) q).
Proof.
  intros Hinv. destruct (Hash.alloc_page_inv s _ Hinv) as (a' & Ha & Hinv' & Hpg). simpl in *.
  destruct Hinv as (_ & Hrep & Hnd & _). apply pa_rep_pages in Hrep as [_ Hf].
  apply Forall_cons in Hf as [Hp _]. exists a'. split_and!; try done.
  - apply pa_page_nonnull in Hp. by apply Z.eqb_neq; lia.
  - by apply Hpg.
  - rewrite <- Permutation_middle in Hnd. by apply NoDup_cons in Hnd as [? _].
Qed.

(** Entering an absent key, as both caches do it: the pages of the key and of
    the node are taken. *)
Lemma put_keyed {K} `{HK : HashKey K} (s : Hash.state K A) kp np F key value :
  Hash.inv s (kp :: np :: F) -> Hash.denote s key = 0 -> value <> 0 ->
  exists s', (p <- Hash.alloc_page ;;
       if p =? 0 then fault "key is NULL"
       else
         r <- Hash.default_put key value ;;
         if negb (r =? 0) then Hash.free_page p ;; ret r else ret r) s = Ret 0 s' /\ Hash.inv s' F /\
    (forall k, Hash.denote s' k = if hk_equal key k then value else Hash.denote s k) /\
    Hash.addrs (Hash.head s') ≡ₚ np :: Hash.addrs (Hash.head s) /\
    (forall q, pa_page (Hash.pages s') q <-> pa_page (Hash.pages s) q).
Proof.
  intros Hinv E Hv. destruct (alloc_key_page s kp _ Hinv) as (a1 & Ha & Hinv1 & Hkp & _ & _ & Hpg).
  mstep Ha. rewrite Hkp. destruct (Hash.put_absent _ np F key value Hinv1 E Hv) as (r & s2 & Heq & -> & Hinv2 & Hden & Hp & Hpg2).
  exists s2. mstep Heq. split_and!; try done. intros q. rewrite Hpg2. apply Hpg.
Qed.
End interface.
End VfsHash.

(** ** Properties *)

(** C5: the chained hash table refines a dictionary: for every key type with
    lawful callbacks and every page allocator, a sequence of get, put and erase
    calls returns exactly what the dictionary returns (a put of a present key is
    refused with -1, an erase of an absent one too), the final table denotes the
    final dictionary, and the representation invariant is kept, as long as a
    page is left for each put. *)
Theorem hash_refines_dictionary {K A} `{HK : HashKey K} `{PA : PageAllocator A} (s : Hash.state K A) F os :
  Hash.inv s F -> Forall Hash.op_ok os -> (sum_list_with Hash.cost os <= length F)%nat ->
  returns (Hash.run os) s (fun vs s' =>
    vs = (Hash.dict_run (Hash.denote s) os).1 /\
    (forall k, Hash.denote s' k = (Hash.dict_run (Hash.denote s) os).2 k) /\
    exists F', Hash.inv s' F').
Proof. apply Hash.run_refines. Qed.

Definition empty_table : Hash.state VfsHash.vinode_key ListAlloc.state :=
  Hash.mk (replicate 128 []) (ListAlloc.mk [0x1000; 0x2000; 0x3000] [0x1000; 0x2000; 0x3000]).

Lemma hash_refines_dictionary_witness :
  exists vs s', Hash.run [Hash.OPut (VfsHash.mk_vkey 1 7) 100; Hash.OPut (VfsHash.mk_vkey 129 7) 200;
       Hash.OPut (VfsHash.mk_vkey 1 7) 300; Hash.OErase (VfsHash.mk_vkey 1 7);
       Hash.OGet (VfsHash.mk_vkey 129 7); Hash.OGet (VfsHash.mk_vkey 1 7)] empty_table = Ret vs s' /\
    vs = [0; 0; -1; 0; 200; 0].
Proof.
  edestruct (hash_refines_dictionary empty_table [0x1000; 0x2000; 0x3000]
    [Hash.OPut (VfsHash.mk_vkey 1 7) 100; Hash.OPut (VfsHash.mk_vkey 129 7) 200;
     Hash.OPut (VfsHash.mk_vkey 1 7) 300; Hash.OErase (VfsHash.mk_vkey 1 7);
     Hash.OGet (VfsHash.mk_vkey 129 7); Hash.OGet (VfsHash.mk_vkey 1 7)]) as (vs & s' & Heq & Hvs & _).
  - destruct (Hash.init_inv (K := VfsHash.vinode_key) (Hash.mk [] (Hash.pages empty_table))
      [0x1000; 0x2000; 0x3000] false) as (? & ? & [= <- <-] & _ & H & _).
    + split_and!; [done|apply (bool_decide_unpack _); by vm_compute|].
      repeat constructor; simpl; try lia; apply (bool_decide_unpack _); by vm_compute.
    + apply (bool_decide_unpack _); by vm_compute.
    + exact H.
  - repeat constructor; simpl; lia.
  - vm_compute. lia.
  - exists vs, s'. split; [exact Heq|]. rewrite Hvs. vm_compute. reflexivity.
Defined.

(** The table after [hash_put_dentry]. *)
Lemma put_dentry_ok `{PA : PageAllocator A} (s : Hash.state VfsHash.dentry_key A) kp np F dentry parent name :
  Hash.inv s (kp :: np :: F) -> dentry <> 0 ->
  let key := VfsHash.mk_dkey parent name in
  returns (VfsHash.hash_put_dentry dentry parent name) s (fun r s' =>
    if Hash.denote s key =? 0
    then r = 0 /\ Hash.inv s' F /\
         (forall k, Hash.denote s' k = if bool_decide (k = key) then dentry else Hash.denote s k)
    else r = -1 /\ Hash.head s' = Hash.head s /\ Hash.inv s' (kp :: F)).
Proof.
  intros Hinv Hd key.
  destruct (VfsHash.alloc_key_page s kp _ Hinv) as (a1 & Ha & Hinv1 & Hkp & Hpg & Hni & _).
  unfold VfsHash.hash_put_dentry, returns. mstep Ha. rewrite Hkp. fold key.
  destruct (Z.eqb_spec (Hash.denote s key) 0) as [E|E].
  - destruct (Hash.put_absent _ np F key dentry Hinv1 E Hd) as (r & s2 & Heq & -> & Hinv2 & Hden & _).
    exists 0, s2. mstep Heq. split_and!; try done. intros k. rewrite Hden. simpl.
    destruct (VfsHash.dentry_hash_equal key k) eqn:Ek.
    + apply VfsHash.dentry_hash_equal_spec in Ek as <-. by rewrite bool_decide_eq_true_2.
    + rewrite bool_decide_eq_false_2; [done|]. intros ->.
      by rewrite (proj2 (VfsHash.dentry_hash_equal_spec key key)) in Ek.
  - destruct (Hash.put_present _ _ key dentry Hinv1 E) as (a2 & Heq & Hinv2 & Hpg2).
    destruct (Hash.free_page_inv _ _ kp Hinv2) as (a3 & Hfr & Hinv3).
    + by apply Hpg2.
    + intros H. apply Hni. apply elem_of_app in H as [H|H]; apply elem_of_app; [by left|right; by constructor].
    + exists (-1), (Hash.set_pages a3 s). mstep Heq. simpl. mstep Hfr. done.
Qed.

(** [hash_put_dentry] with two free pages: a new (parent, name) is bound to
    the dentry and no other key changes, the key page and the node page being
    consumed; an existing one is refused with -1, the table is unchanged, the
    key page is given back, and the node page that [default_put] allocated
    before looking is lost. *)
Theorem hash_put_dentry_spec `{PA : PageAllocator A} (s : Hash.state VfsHash.dentry_key A) kp np F dentry parent name :
  Hash.inv s (kp :: np :: F) -> dentry <> 0 ->
  let key := VfsHash.mk_dkey parent name in
  returns (VfsHash.hash_put_dentry dentry parent name) s (fun r s' =>
    if Hash.denote s key =? 0
    then r = 0 /\ Hash.inv s' F /\
         (forall k, Hash.denote s' k = if bool_decide (k = key) then dentry else Hash.denote s k)
    else r = -1 /\ Hash.head s' = Hash.head s /\ Hash.inv s' (kp :: F)).
Proof. apply put_dentry_ok. Qed.

Lemma hash_put_dentry_spec_witness :
  returns (VfsHash.hash_put_dentry 0x9000 0x5000 [97; 98])
    (Hash.mk (replicate 128 []) (ListAlloc.mk [0x1000; 0x2000] [0x1000; 0x2000])) (fun r s' => r = 0).
Proof.
  destruct (Hash.init_inv (K := VfsHash.dentry_key)
      (Hash.mk [] (ListAlloc.mk [0x1000; 0x2000] [0x1000; 0x2000])) [0x1000; 0x2000] false)
    as (? & ? & [= <- <-] & _ & H & _).
  - split_and!; [done|apply (bool_decide_unpack _); by vm_compute|].
    repeat constructor; simpl; try lia; apply (bool_decide_unpack _); by vm_compute.
  - apply (bool_decide_unpack _); by vm_compute.
  - eapply returns_mono; [apply (hash_put_dentry_spec _ 0x1000 0x2000 [] 0x9000 0x5000 [97; 98] H); lia|].
    cbv zeta. intros r s'. replace (Hash.denote _ _ =? 0) with true by (symmetry; by vm_compute). tauto.
Defined.
