(* ===== verification/Bytes.v ===== *)
(** * Bytes: buffers, little-endian integers and C strings

    A buffer is a list of bytes.  A copy into a buffer is [splice], a copy out
    of it [slice]; both are partial, an access outside the buffer is undefined
    behaviour.  A [char *] is the part of its buffer from the pointed-to byte
    on, so that a string function that runs past the end of the buffer has no
    result. *)

From stdpp Require Import base gmap list numbers strings.
From Stdlib Require Import ZArith Lia.
From S2P Require Import Prelude.
Local Open Scope Z_scope.

(** ** Copies *)
Definition slice (off n : Z) (l : list Z) : option (list Z) :=
  if (0 <=? off) && (0 <=? n) && (off + n <=? Z.of_nat (length l))
  then Some (take (Z.to_nat n) (drop (Z.to_nat off) l)) else None.

Definition splice (off : Z) (bs l : list Z) : option (list Z) :=
  if (0 <=? off) && (off + Z.of_nat (length bs) <=? Z.of_nat (length l))
  then Some (take (Z.to_nat off) l ++ bs ++ drop (Z.to_nat off + length bs) l) else None.

(** ** Little-endian 32-bit integers *)
Definition int_bytes (x : Z) : list Z :=
  [u32 x mod 256; u32 x / 256 mod 256; u32 x / 65536 mod 256; u32 x / 16777216 mod 256].

Definition bytes_int (l : list Z) : Z :=
  match l with
  | b0 :: b1 :: b2 :: b3 :: _ => i32 (b0 + 256 * b1 + 65536 * b2 + 16777216 * b3)
  | _ => 0
  end.

(** An [int] array. *)
Definition ints_bytes (l : list Z) : list Z := concat (map int_bytes l).
Fixpoint bytes_ints (n : nat) (l : list Z) : list Z :=
  match n with
  | O => []
  | S n => bytes_int l :: bytes_ints n (drop 4 l)
  end.

#[global] Arguments int_bytes : simpl never.
#[global] Arguments bytes_int : simpl never.
#[global] Arguments slice : simpl never.
#[global] Arguments splice : simpl never.

(** ** C strings *)
(** The characters of the string a pointer points to. *)
Fixpoint cstring (p : list Z) : option (list Z) :=
  match p with
  | [] => None
  | c :: p => if c =? 0 then Some [] else cons c <$> cstring p
  end.

(** [strcmp] of [util/string.c]. *)
Fixpoint strcmp (s1 s2 : list Z) : option Z :=
  match s1, s2 with
  | c1 :: s1, c2 :: s2 => if negb (c1 =? 0) && (c1 =? c2) then strcmp s1 s2 else Some (c1 - c2)
  | _, _ => None
  end.

(** A character string that can be stored: no NUL inside. *)
Definition no_nul (s : list Z) : Prop := Forall (fun c => c <> 0) s.

Lemma cstring_app s rest : no_nul s -> cstring (s ++ 0 :: rest) = Some s.
Proof.
  induction 1 as [|c s Hc _ IH]; [done|]. simpl. destruct (Z.eqb_spec c 0); [done|]. by rewrite IH.
Qed.

Lemma cstring_no_nul p s : cstring p = Some s -> no_nul s.
Proof.
  revert s. induction p as [|c p IH]; intros s; [done|]. simpl. destruct (Z.eqb_spec c 0).
  - intros [= <-]. constructor.
  - destruct (cstring p) as [s'|]; [|done]. intros [= <-]. constructor; [done|]. by apply IH.
Qed.

(** [strcmp] is 0 exactly on equal strings. *)
Lemma strcmp_eq p1 p2 s1 s2 :
  cstring p1 = Some s1 -> cstring p2 = Some s2 ->
  exists r, strcmp p1 p2 = Some r /\ (r = 0 <-> s1 = s2).
Proof.
  revert p2 s1 s2. induction p1 as [|c1 p1 IH]; intros p2 s1 s2; [done|].
  destruct p2 as [|c2 p2]; [done|]. simpl.
  destruct (Z.eqb_spec c1 0) as [->|H1]; simpl.
  - intros [= <-]. destruct (Z.eqb_spec c2 0) as [->|H2].
    + intros [= <-]. by exists 0.
    + destruct (cstring p2); [|done]. intros [= <-]. exists (0 - c2). split; [done|]. split; [lia|done].
  - destruct (cstring p1) as [t1|] eqn:E1; [|done]. intros [= <-].
    destruct (Z.eqb_spec c2 0) as [->|H2].
    + intros [= <-]. destruct (Z.eqb_spec c1 0); [done|]. simpl. exists (c1 - 0). split; [done|]. split; [lia|done].
    + destruct (cstring p2) as [t2|] eqn:E2; [|done]. intros [= <-].
      destruct (Z.eqb_spec c1 c2) as [->|Hne].
      * destruct (IH p2 t1 t2 eq_refl E2) as (r & Hr & Hiff). exists r. split; [done|].
        rewrite Hiff. split; [by intros ->|by intros [= ->]].
      * exists (c1 - c2). split; [done|]. split; [lia|]. by intros [= ? _].
Qed.

(** ** Lemmas on copies *)
Lemma splice_Some off bs l l' :
  splice off bs l = Some l' ->
  0 <= off /\ off + Z.of_nat (length bs) <= Z.of_nat (length l) /\
  l' = take (Z.to_nat off) l ++ bs ++ drop (Z.to_nat off + length bs) l.
Proof.
  unfold splice. destruct (Z.leb_spec 0 off); [|done]. simpl. destruct (Z.leb_spec (off + Z.of_nat (length bs)) (Z.of_nat (length l))); [|done].
  by intros [= <-].
Qed.

Lemma splice_eq off bs l :
  0 <= off -> off + Z.of_nat (length bs) <= Z.of_nat (length l) ->
  splice off bs l = Some (take (Z.to_nat off) l ++ bs ++ drop (Z.to_nat off + length bs) l).
Proof.
  intros. unfold splice. destruct (Z.leb_spec 0 off); [|lia]. simpl.
  by destruct (Z.leb_spec (off + Z.of_nat (length bs)) (Z.of_nat (length l))); [|lia].
Qed.

Lemma slice_eq off n l :
  0 <= off -> 0 <= n -> off + n <= Z.of_nat (length l) ->
  slice off n l = Some (take (Z.to_nat n) (drop (Z.to_nat off) l)).
Proof.
  intros. unfold slice. destruct (Z.leb_spec 0 off); [|lia]. destruct (Z.leb_spec 0 n); [|lia]. simpl.
  by destruct (Z.leb_spec (off + n) (Z.of_nat (length l))); [|lia].
Qed.

Lemma splice_length off bs l l' : splice off bs l = Some l' -> length l' = length l.
Proof.
  intros (H1 & H2 & ->)%splice_Some. rewrite !length_app, length_take, length_drop. lia.
Qed.

Lemma slice_length off n l bs : slice off n l = Some bs -> Z.of_nat (length bs) = n.
Proof.
  unfold slice. destruct (Z.leb_spec 0 off); [|done]. destruct (Z.leb_spec 0 n); [|done]. simpl.
  destruct (Z.leb_spec (off + n) (Z.of_nat (length l))); [|done]. intros [= <-].
  rewrite length_take, length_drop. lia.
Qed.

(** Reading a byte after a splice. *)
Lemma splice_lookup off bs l l' i :
  splice off bs l = Some l' ->
  l' !! i = if decide (Z.to_nat off <= i < Z.to_nat off + length bs)%nat
            then bs !! (i - Z.to_nat off)%nat else l !! i.
Proof.
  intros (H1 & H2 & ->)%splice_Some. case_decide as H.
  - rewrite lookup_app_r by (rewrite length_take; lia).
    rewrite length_take, Nat.min_l by lia. rewrite lookup_app_l by lia. done.
  - destruct (decide (i < Z.to_nat off)%nat) as [Hi|Hi].
    + rewrite lookup_app_l by (rewrite length_take; lia). by rewrite lookup_take_lt.
    + rewrite lookup_app_r by (rewrite length_take; lia). rewrite length_take, Nat.min_l by lia.
      rewrite lookup_app_r by lia. rewrite lookup_drop. f_equal. lia.
Qed.

(** Reading back what was spliced, and what was not. *)
Lemma slice_splice_same off bs l l' :
  splice off bs l = Some l' -> slice off (Z.of_nat (length bs)) l' = Some bs.
Proof.
  intros H. pose proof (splice_length _ _ _ _ H) as Hlen. apply splice_Some in H as (H1 & H2 & ->).
  rewrite slice_eq by lia. f_equal. rewrite Nat2Z.id.
  rewrite drop_app_ge by (rewrite length_take; lia). rewrite length_take, Nat.min_l, Nat.sub_diag, drop_0 by lia.
  rewrite take_app_le by lia. by rewrite take_ge.
Qed.

Lemma slice_splice_other off bs l l' o n :
  splice off bs l = Some l' -> (o + n <= off \/ off + Z.of_nat (length bs) <= o) -> slice o n l' = slice o n l.
Proof.
  intros H Hd. pose proof (splice_length _ _ _ _ H) as Hlen. unfold slice. rewrite Hlen.
  destruct (Z.leb_spec 0 o); [|done]. destruct (Z.leb_spec 0 n); [|done]. simpl.
  destruct (Z.leb_spec (o + n) (Z.of_nat (length l))); [|done]. f_equal.
  apply list_eq. intros i. destruct (decide (i < Z.to_nat n)%nat) as [Hi|Hi].
  - rewrite !lookup_take_lt, !lookup_drop by lia. rewrite (splice_lookup _ _ _ _ _ H).
    apply splice_Some in H as (? & ? & _). by rewrite decide_False by lia.
  - rewrite !lookup_ge_None_2; [done|rewrite length_take; lia..].
Qed.

(** ** Integers *)
Lemma length_int_bytes x : length (int_bytes x) = 4%nat.
Proof. done. Qed.

Lemma i32_u32 x : i32 (u32 x) = i32 x.
Proof. unfold i32, u32. rewrite Zplus_mod_idemp_l. done. Qed.

Lemma bytes_int_bytes x rest : bytes_int (int_bytes x ++ rest) = i32 x.
Proof.
  unfold bytes_int, int_bytes. simpl. rewrite <- (i32_u32 x). f_equal.
  pose proof (Z.mod_pos_bound x (2 ^ 32)) as H. fold (u32 x) in H. clear -H. zlia.
Qed.

Lemma bytes_ints_bytes l rest :
  Forall (fun x => - 2 ^ 31 <= x < 2 ^ 31) l -> bytes_ints (length l) (ints_bytes l ++ rest) = l.
Proof.
  induction 1 as [|x l Hx _ IH]; [done|].
  change (ints_bytes (x :: l)) with (int_bytes x ++ ints_bytes l). cbn [length bytes_ints].
  rewrite <- app_assoc, bytes_int_bytes, i32_small by done. f_equal. exact IH.
Qed.

Lemma length_ints_bytes l : length (ints_bytes l) = (4 * length l)%nat.
Proof.
  induction l as [|x l IH]; [done|]. change (ints_bytes (x :: l)) with (int_bytes x ++ ints_bytes l).
  rewrite length_app, length_int_bytes, IH. simpl. lia.
Qed.

Lemma length_bytes_ints n l : length (bytes_ints n l) = n.
Proof. revert l. induction n as [|n IH]; intros l; [done|]. simpl. by rewrite IH. Qed.
