(* ===== verification/ByteMem.v ===== *)
(** * [util/string.c]: memory and string functions on the bytes of memory

    [ld8] and [st8] are the byte accesses to the word memory of [Pmm].  Two
    memories are equivalent, [m ≡ₘ m'], when all their bytes agree.  The copy
    and string functions are translated with their word-wise fast paths and
    their overlap tests; the theorems say which bytes they change. *)

From stdpp Require Import base gmap list numbers strings.
From Stdlib Require Import ZArith Lia.
From S2P Require Import Prelude Pmm Bytes.
Local Open Scope Z_scope.

(** ** Loops

    [while fuel cond body s]: a C [while] loop on the state [s].  [while_total]
    is the rule for total correctness: an invariant and a decreasing bound. *)
Fixpoint while {S} (fuel : nat) (cond : S -> bool) (body : S -> S) (s : S) : option S :=
  if cond s then
    match fuel with O => None | Datatypes.S fuel => while fuel cond body (body s) end
  else Some s.

Lemma while_total {S} (I : S -> Prop) (bound : S -> Z) cond body fuel : forall s,
  (forall x, I x -> cond x = true -> I (body x) /\ 0 <= bound (body x) < bound x) ->
  I s -> bound s <= Z.of_nat fuel ->
  exists s', while fuel cond body s = Some s' /\ I s' /\ cond s' = false.
Proof.
  induction fuel as [|fuel IH]; intros s Hstep Hs Hb; simpl; destruct (cond s) eqn:E;
    try (exists s; split_and!; done).
  - destruct (Hstep s Hs E) as [_ ?]. lia.
  - destruct (Hstep s Hs E) as [Hs' ?]. apply IH; [done|done|lia].
Qed.

(** ** Bytes of words *)
Definition byte_at (w k : Z) : Z := w / 256 ^ k mod 256.
Definition set_byte (w k b : Z) : Z := w + (b - byte_at w k) * 256 ^ k.

Definition wbase (a : Z) : Z := a - a mod 8.
Definition ld8 (m : memory) (a : Z) : Z := byte_at (ld64 m (wbase a)) (a mod 8).
Definition st8 (m : memory) (a b : Z) : memory :=
  st64 m (wbase a) (set_byte (ld64 m (wbase a)) (a mod 8) (b mod 256)).

#[global] Arguments byte_at : simpl never.
#[global] Arguments set_byte : simpl never.
#[global] Arguments ld8 : simpl never.
#[global] Arguments st8 : simpl never.

Definition mem_eq (m m' : memory) : Prop := forall a, ld8 m a = ld8 m' a.
Infix "≡ₘ" := mem_eq (at level 70) : kernel_scope.

(** ** [util/string.c] *)
Definition word_aligned (x y : Z) : bool := Z.land (Z.lor x y) (8 - 1) =? 0.

Definition memcpy (m : memory) (dest src len : Z) : option memory :=
  let fuel := Z.to_nat len in
  let fast := if word_aligned dest src
    then while fuel (fun '(_, d, _) => d <? dest + len - (8 - 1))
                    (fun '(m, d, s) => (st64 m d (ld64 m s), d + 8, s + 8)) (m, dest, src)
    else Some (m, dest, src) in
  fast ≫= fun st =>
  (fun '(m, _, _) => m) <$>
    while fuel (fun '(_, d, _) => d <? dest + len)
               (fun '(m, d, s) => (st8 m d (ld8 m s), d + 1, s + 1)) st.

(** The word that holds eight copies of a byte. *)
Definition spread (byte : Z) : Z :=
  let word := Z.land byte 0xFF in
  let word := Z.lor word (u64 (Z.shiftl word 8)) in
  let word := Z.lor word (u64 (Z.shiftl word 16)) in
  Z.lor word (u64 (Z.shiftl (u64 (Z.shiftl word 16)) 16)).

Definition memset (m : memory) (dest byte len : Z) : option memory :=
  let fuel := Z.to_nat len in
  if word_aligned dest len then
    fst <$> while fuel (fun '(_, d) => d <? dest + len)
                       (fun '(m, d) => (st64 m d (spread byte), d + 8)) (m, dest)
  else
    fst <$> while fuel (fun '(_, d) => d <? dest + len)
                       (fun '(m, d) => (st8 m d byte, d + 1)) (m, dest).

Definition memmove (m : memory) (dst src n : Z) : option memory :=
  let fuel := Z.to_nat n in
  if (src <? dst) && (dst <? src + n) then
    (fun '(m, _, _, _) => m) <$> while fuel (fun '(_, _, _, n) => 0 <? n)
      (fun '(m, d, s, n) => (st8 m (d - 1) (ld8 m (s - 1)), d - 1, s - 1, n - 1))
      (m, dst + n, src + n, n)
  else
    (fun '(m, _, _, _) => m) <$> while fuel (fun '(_, _, _, n) => 0 <? n)
      (fun '(m, d, s, n) => (st8 m d (ld8 m s), d + 1, s + 1, n - 1)) (m, dst, src, n).

Definition strlen (fuel : nat) (m : memory) (s : Z) : option Z :=
  (fun p => p - s) <$> while fuel (fun p => negb (ld8 m p =? 0)) (fun p => p + 1) s.

(** [while (( *d++ = *src++ ))]. *)
Fixpoint strcpy_loop (fuel : nat) (m : memory) (d src : Z) : option memory :=
  match fuel with
  | O => None
  | S fuel =>
      let c := ld8 m src in
      let m := st8 m d c in
      if c =? 0 then Some m else strcpy_loop fuel m (d + 1) (src + 1)
  end.
Definition strcpy (fuel : nat) (m : memory) (dest src : Z) : option memory := strcpy_loop fuel m dest src.

Definition strcat (fuel : nat) (m : memory) (dst src : Z) : option memory :=
  strlen fuel m dst ≫= fun n => strcpy fuel m (dst + n) src.

(** The loop [while (--n > 0 && ( *s++ = *t++ ) != 0)] and the final store of NUL. *)
Fixpoint safestrcpy_loop (fuel : nat) (m : memory) (s t n : Z) : option memory :=
  match fuel with
  | O => None
  | S fuel =>
      let n := n - 1 in
      if 0 <? n then
        let c := ld8 m t in
        let m := st8 m s c in
        if c =? 0 then Some (st8 m (s + 1) 0) else safestrcpy_loop fuel m (s + 1) (t + 1) n
      else Some (st8 m s 0)
  end.
Definition safestrcpy (m : memory) (s t n : Z) : option memory :=
  if n <=? 0 then Some m else safestrcpy_loop (Z.to_nat n) m s t n.

(** ** Byte lemmas *)
Lemma byte_at_range w k : 0 <= byte_at w k < 256.
Proof. apply Z.mod_pos_bound. lia. Qed.

Lemma ld8_range m a : 0 <= ld8 m a < 256.
Proof. apply byte_at_range. Qed.

Lemma byte_at_set_same w k b : 0 <= k -> 0 <= b < 256 -> byte_at (set_byte w k b) k = b.
Proof.
  intros Hk Hb. unfold byte_at at 1, set_byte. rewrite Z.div_add by lia. unfold byte_at.
  replace (w / 256 ^ k + (b - w / 256 ^ k mod 256)) with (b + (w / 256 ^ k / 256) * 256) by zlia.
  rewrite Z.mod_add by lia. by apply Z.mod_small.
Qed.

Lemma byte_at_set_other w k k' b :
  0 <= k -> 0 <= k' -> k <> k' -> 0 <= b < 256 -> byte_at (set_byte w k b) k' = byte_at w k'.
Proof.
  intros Hk Hk' Hne Hb. unfold set_byte. pose proof (byte_at_range w k) as Hr.
  destruct (Z.lt_trichotomy k' k) as [Hlt|[->|Hlt]]; [|done|].
  - unfold byte_at at 1. replace (256 ^ k) with (256 ^ (k - k' - 1) * 256 * 256 ^ k').
    2:{ rewrite <- Z.mul_assoc, <- Z.pow_succ_r, <- Z.pow_add_r by lia. f_equal. lia. }
    rewrite !Z.mul_assoc, Z.div_add by lia. rewrite Z.mod_add by lia. done.
  - unfold byte_at at 1 3. f_equal.
    replace (256 ^ k') with (256 ^ k * 256 * 256 ^ (k' - k - 1)).
    2:{ rewrite (Z.mul_comm (256 ^ k) 256), <- Z.pow_succ_r, <- Z.pow_add_r by lia. f_equal. lia. }
    rewrite <- !Z.div_div, Z.div_add by lia. f_equal. unfold byte_at. zlia.
Qed.

Lemma ld8_st8 m a b c : ld8 (st8 m a b) c = if c =? a then b mod 256 else ld8 m c.
Proof.
  unfold ld8, st8. destruct (Z.eqb_spec c a) as [->|Hne].
  - rewrite ld64_st64_eq, byte_at_set_same; [done|zlia|zlia].
  - destruct (Z.eq_dec (wbase a) (wbase c)) as [E|E].
    + rewrite E, ld64_st64_eq. apply byte_at_set_other; unfold wbase in E; try zlia.
    + by rewrite ld64_st64_ne.
Qed.

Lemma ld8_st8_eq m a b : 0 <= b < 256 -> ld8 (st8 m a b) a = b.
Proof. intros. rewrite ld8_st8, Z.eqb_refl. by apply Z.mod_small. Qed.
Lemma ld8_st8_ne m a b c : c <> a -> ld8 (st8 m a b) c = ld8 m c.
Proof. intros. rewrite ld8_st8. by destruct (Z.eqb_spec c a). Qed.

Lemma ld8_st64 m d v a : d mod 8 = 0 ->
  ld8 (st64 m d v) a = if (d <=? a) && (a <? d + 8) then byte_at v (a - d) else ld8 m a.
Proof.
  intros Hd. unfold ld8. destruct (Z.leb_spec d a), (Z.ltb_spec a (d + 8)); simpl.
  - replace (wbase a) with d by (unfold wbase; zlia). rewrite ld64_st64_eq. f_equal. zlia.
  - rewrite ld64_st64_ne; [done|unfold wbase; zlia].
  - rewrite ld64_st64_ne; [done|unfold wbase; zlia].
  - rewrite ld64_st64_ne; [done|unfold wbase; zlia].
Qed.

Lemma byte_of_word m s j : s mod 8 = 0 -> 0 <= j < 8 -> byte_at (ld64 m s) j = ld8 m (s + j).
Proof.
  intros Hs Hj. unfold ld8. replace (wbase (s + j)) with s by (unfold wbase; zlia). f_equal. zlia.
Qed.

Lemma word_aligned_spec x y : word_aligned x y = true -> x mod 8 = 0 /\ y mod 8 = 0.
Proof.
  unfold word_aligned. rewrite Z.eqb_eq, Z.land_lor_distr_l, Z.lor_eq_0_iff.
  change (8 - 1) with (Z.ones 3). by rewrite !Z.land_ones by lia.
Qed.

#[global] Instance mem_eq_equivalence : Equivalence mem_eq.
Proof. split; intros ?; repeat intro; congruence. Qed.
#[global] Instance ld8_proper : Proper (mem_eq ==> eq ==> eq) ld8.
Proof. intros m m' H a ? <-. apply H. Qed.
#[global] Instance st8_proper : Proper (mem_eq ==> eq ==> eq ==> mem_eq) st8.
Proof. intros m m' H a ? <- b ? <- c. rewrite !ld8_st8. by rewrite H. Qed.

(** ** What copies and fills do *)
(** [m'] is [m] with the [n] bytes at [dst] replaced by those at [src] in [m]. *)
Definition copied (m m' : memory) (dst src n : Z) : Prop := forall a,
  ld8 m' a = if (dst <=? a) && (a <? dst + n) then ld8 m (a + (src - dst)) else ld8 m a.
(** [m'] is [m] with the [n] bytes at [dst] set to [b]. *)
Definition filled (m m' : memory) (dst b n : Z) : Prop := forall a,
  ld8 m' a = if (dst <=? a) && (a <? dst + n) then b else ld8 m a.

(** Case analysis on the comparisons of a goal about bytes. *)
Ltac zcases := repeat match goal with
  | |- context [?a <=? ?b] => destruct (Z.leb_spec a b); try lia; simpl
  | |- context [?a <? ?b] => destruct (Z.ltb_spec a b); try lia; simpl
  | |- context [?a =? ?b] => destruct (Z.eqb_spec a b); try lia; simpl
  | H : context [?a <=? ?b] |- _ => destruct (Z.leb_spec a b); try lia; simpl in H
  | H : context [?a <? ?b] |- _ => destruct (Z.ltb_spec a b); try lia; simpl in H
  end.

Lemma copied_nil m dst src : copied m m dst src 0.
Proof. intros a. zcases; done. Qed.

(** One more byte at the end of a copied range. *)
Lemma copied_st8 m m1 dst src k :
  copied m m1 dst src k -> 0 <= k -> (dst <= src \/ src + k < dst) ->
  copied m (st8 m1 (dst + k) (ld8 m1 (src + k))) dst src (k + 1).
Proof.
  intros H Hk Hov a. rewrite ld8_st8. destruct (Z.eqb_spec a (dst + k)) as [->|].
  - rewrite Z.mod_small by apply ld8_range. rewrite (H (src + k)). zcases; f_equal; lia.
  - rewrite H. zcases; done.
Qed.

(** One more word. *)
Lemma copied_st64 m m1 dst src k :
  copied m m1 dst src k -> 0 <= k -> (dst <= src \/ src + k + 8 <= dst) ->
  (dst + k) mod 8 = 0 -> (src + k) mod 8 = 0 ->
  copied m (st64 m1 (dst + k) (ld64 m1 (src + k))) dst src (k + 8).
Proof.
  intros H Hk Hov Hd Hs a. rewrite ld8_st64 by done.
  destruct (Z.leb_spec (dst + k) a), (Z.ltb_spec a (dst + k + 8)); simpl.
  - rewrite byte_of_word, H by (done || lia). zcases; f_equal; lia.
  - rewrite H. zcases; done.
  - rewrite H. zcases; done.
  - lia.
Qed.

(** One more byte at the front of a range copied downwards. *)
Lemma copied_down m m1 dst src n k :
  (forall a, ld8 m1 a = if (dst + k <=? a) && (a <? dst + n) then ld8 m (a + (src - dst)) else ld8 m a) ->
  0 < k <= n -> src < dst ->
  forall a, ld8 (st8 m1 (dst + k - 1) (ld8 m1 (src + k - 1))) a =
    if (dst + (k - 1) <=? a) && (a <? dst + n) then ld8 m (a + (src - dst)) else ld8 m a.
Proof.
  intros H Hk Hov a. rewrite ld8_st8. destruct (Z.eqb_spec a (dst + k - 1)) as [->|].
  - rewrite Z.mod_small by apply ld8_range. rewrite (H (src + k - 1)). zcases; f_equal; lia.
  - rewrite H. zcases; done.
Qed.

(** [memcpy], with its word-by-word fast path, copies exactly the [len] bytes
    when the regions do not overlap (or the destination starts first); every
    other byte of memory keeps its value. *)
Theorem memcpy_copies m dest src len :
  0 <= len -> dest <= src \/ src + len <= dest ->
  exists m', memcpy m dest src len = Some m' /\ copied m m' dest src len.
Proof.
  intros Hlen Hov. unfold memcpy.
  set (I := fun '(m1, d, s) => copied m m1 dest src (d - dest) /\ dest <= d <= dest + len /\ s - d = src - dest).
  assert (exists m1 d s, (if word_aligned dest src
    then while (Z.to_nat len) (fun '(_, d, _) => d <? dest + len - (8 - 1))
           (fun '(m, d, s) => (st64 m d (ld64 m s), d + 8, s + 8)) (m, dest, src)
    else Some (m, dest, src)) = Some (m1, d, s) /\ I (m1, d, s)) as (m1 & d & s & -> & HI).
  - assert (I (m, dest, src)) as H0 by (simpl; rewrite Z.sub_diag; split_and!; [apply copied_nil|lia..]).
    destruct (word_aligned dest src) eqn:Ea; [|by exists m, dest, src].
    destruct (word_aligned_spec _ _ Ea) as [Hd Hs].
    destruct (while_total (fun x => I x /\ (let '(_, d, _) := x in d mod 8 = 0)) (fun '(_, d, _) => dest + len - d)
      (fun '(_, d, _) => d <? dest + len - (8 - 1)) (fun '(m, d, s) => (st64 m d (ld64 m s), d + 8, s + 8))
      (Z.to_nat len) (m, dest, src)) as ([[m1 d] s] & E & [HI _] & _); [|done|lia|by exists m1, d, s].
    intros [[m1 d] s] [(Hc & ? & ?) Hm] Hlt%Z.ltb_lt. simpl. split_and!; try lia; [|zlia].
    replace (d + 8 - dest) with (d - dest + 8) by lia.
    replace (st64 m1 d (ld64 m1 s)) with (st64 m1 (dest + (d - dest)) (ld64 m1 (src + (d - dest)))) by (f_equal; [lia|f_equal; lia]).
    apply copied_st64; try done; try lia; zlia.
  - simpl. destruct (while_total I (fun '(_, d, _) => dest + len - d) (fun '(_, d, _) => d <? dest + len)
      (fun '(m, d, s) => (st8 m d (ld8 m s), d + 1, s + 1)) (Z.to_nat len) (m1, d, s)) as ([[m2 d2] s2] & E & (Hc & ? & _) & Hend).
    + intros [[m2 d2] s2] (Hc & ? & ?) Hlt%Z.ltb_lt. simpl. split_and!; try lia.
      replace (d2 + 1 - dest) with (d2 - dest + 1) by lia.
      replace (st8 m2 d2 (ld8 m2 s2)) with (st8 m2 (dest + (d2 - dest)) (ld8 m2 (src + (d2 - dest)))) by (f_equal; [lia|f_equal; lia]).
      apply copied_st8; [done|lia|lia].
    + done.
    + destruct HI as (_ & ? & _). lia.
    + rewrite E. exists m2. split; [done|]. apply Z.ltb_ge in Hend. replace len with (d2 - dest) by lia. done.
Qed.

(** C33: [memmove] copies the source bytes as they were before the call even when
    the regions overlap in either direction, and changes no other byte. *)
Theorem memmove_copies m dst src n :
  0 <= n -> exists m', memmove m dst src n = Some m' /\ copied m m' dst src n.
Proof.
  intros Hn. unfold memmove. destruct ((src <? dst) && (dst <? src + n)) eqn:E.
  - destruct (while_total (fun '(m1, d, s, k) => 0 <= k <= n /\ d = dst + k /\ s = src + k /\ forall a,
        ld8 m1 a = if (dst + k <=? a) && (a <? dst + n) then ld8 m (a + (src - dst)) else ld8 m a)
      (fun '(_, _, _, k) => k) (fun '(_, _, _, n) => 0 <? n)
      (fun '(m, d, s, n) => (st8 m (d - 1) (ld8 m (s - 1)), d - 1, s - 1, n - 1))
      (Z.to_nat n) (m, dst + n, src + n, n)) as ([[[m1 d] s] k] & -> & (? & _ & _ & H) & Hk).
    + intros [[[m1 d] s] k] (? & -> & -> & H) Hk%Z.ltb_lt. split_and!; try lia.
      apply copied_down; [done|lia|]. apply andb_prop in E as [E%Z.ltb_lt _]. lia.
    + split_and!; try lia. intros a. zcases; done.
    + lia.
    + exists m1. split; [done|]. apply Z.ltb_ge in Hk. intros a. rewrite H. zcases; done.
  - assert (dst <= src \/ src + n <= dst).
    { apply andb_false_iff in E. rewrite !Z.ltb_ge in E. lia. }
    destruct (while_total (fun '(m1, d, s, k) => 0 <= k <= n /\ d = dst + (n - k) /\ s = src + (n - k) /\
        copied m m1 dst src (n - k))
      (fun '(_, _, _, k) => k) (fun '(_, _, _, n) => 0 <? n)
      (fun '(m, d, s, n) => (st8 m d (ld8 m s), d + 1, s + 1, n - 1))
      (Z.to_nat n) (m, dst, src, n)) as ([[[m1 d] s] k] & -> & (? & _ & _ & H') & Hk).
    + intros [[[m1 d] s] k] (? & -> & -> & H') Hk%Z.ltb_lt. split_and!; try lia.
      replace (n - (k - 1)) with (n - k + 1) by lia. apply copied_st8; [done|lia|lia].
    + split_and!; try lia. rewrite Z.sub_diag. apply copied_nil.
    + lia.
    + exists m1. split; [done|]. apply Z.ltb_ge in Hk. by replace n with (n - k) by lia.
Qed.

(** Every byte of the word built by [memset] is the byte given. *)
Lemma byte_at_spread b j : 0 <= j < 8 -> byte_at (spread b) j = b mod 256.
Proof.
  intros Hj. assert (spread b = spread (b mod 256)) as ->.
  { unfold spread. change 0xFF with (Z.ones 8). rewrite !Z.land_ones by lia. change (2 ^ 8) with 256.
    by rewrite Z.mod_mod. }
  assert (Forall (fun c => Forall (fun j => byte_at (spread c) j = c) (seqZ 0 8)) (seqZ 0 256)) as H.
  { apply (bool_decide_unpack _). by vm_compute. }
  rewrite Forall_forall in H. specialize (H (b mod 256)). rewrite Forall_forall in H.
  apply H; apply elem_of_seqZ; zlia.
Qed.

(** [memset] sets exactly the [len] bytes at [dest] to the low byte of its
    argument, on the word-wise path as on the byte-wise one. *)
Theorem memset_fills m dest byte len :
  0 <= len -> exists m', memset m dest byte len = Some m' /\ filled m m' dest (byte mod 256) len.
Proof.
  intros Hlen. unfold memset.
  assert (filled m m dest (byte mod 256) (dest - dest)) as H0.
  { intros a. zcases; done. }
  destruct (word_aligned dest len) eqn:Ea.
  - destruct (word_aligned_spec _ _ Ea) as [Hd Hl].
    destruct (while_total (fun '(m1, d) => dest <= d <= dest + len /\ d mod 8 = 0 /\ filled m m1 dest (byte mod 256) (d - dest))
      (fun '(_, d) => dest + len - d) (fun '(_, d) => d <? dest + len) (fun '(m, d) => (st64 m d (spread byte), d + 8))
      (Z.to_nat len) (m, dest)) as ([m1 d] & -> & (? & ? & H) & Hend%Z.ltb_ge).
    + intros [m1 d] (? & ? & H) Hlt%Z.ltb_lt. split_and!; try zlia.
      intros a. rewrite ld8_st64 by done.
      destruct (Z.leb_spec d a), (Z.ltb_spec a (d + 8)); simpl;
        [rewrite byte_at_spread by lia|rewrite H..]; zcases; done.
    + split_and!; [lia..|done].
    + lia.
    + exists m1. split; [done|]. by replace len with (d - dest) by lia.
  - destruct (while_total (fun '(m1, d) => dest <= d <= dest + len /\ filled m m1 dest (byte mod 256) (d - dest))
      (fun '(_, d) => dest + len - d) (fun '(_, d) => d <? dest + len) (fun '(m, d) => (st8 m d byte, d + 1))
      (Z.to_nat len) (m, dest)) as ([m1 d] & -> & (? & H) & Hend%Z.ltb_ge).
    + intros [m1 d] (? & H) Hlt%Z.ltb_lt. split_and!; try lia.
      intros a. rewrite ld8_st8, H. zcases; done.
    + split_and!; [lia..|done].
    + lia.
    + exists m1. split; [done|]. by replace len with (d - dest) by lia.
Qed.

(** Bytes stored one after the other, and read back. *)
Fixpoint store_bytes (m : memory) (a : Z) (l : list Z) : memory :=
  match l with [] => m | c :: l => store_bytes (st8 m a c) (a + 1) l end.
Definition load_bytes (m : memory) (a n : Z) : list Z := map (fun i => ld8 m (a + i)) (seqZ 0 n).

Lemma ld8_store_bytes l : forall m a b,
  ld8 (store_bytes m a l) b = match l !! Z.to_nat (b - a) with
    | Some c => if a <=? b then c mod 256 else ld8 m b | None => ld8 m b end.
Proof.
  induction l as [|c l IH]; intros m a b; simpl; [done|]. rewrite IH, ld8_st8.
  destruct (Z.lt_trichotomy b a) as [Hlt|[->|Hgt]].
  - replace (Z.to_nat (b - (a + 1))) with O by lia. replace (Z.to_nat (b - a)) with O by lia. simpl.
    destruct (l !! 0%nat); zcases; done.
  - rewrite Z.sub_diag. replace (Z.to_nat (a - (a + 1))) with O by lia. simpl. destruct (l !! 0%nat); zcases; done.
  - replace (Z.to_nat (b - a)) with (S (Z.to_nat (b - (a + 1)))) by lia. simpl.
    destruct (l !! Z.to_nat (b - (a + 1))); zcases; done.
Qed.

Lemma store_bytes_words l : forall m a b, b mod 8 <> 0 \/ b + 8 <= a \/ a + Z.of_nat (length l) <= b ->
  store_bytes m a l !! b = m !! b.
Proof.
  induction l as [|c l IH]; intros m a b Hb; simpl; [done|]. simpl in Hb. rewrite IH by lia.
  unfold st8, st64. apply lookup_insert_ne. unfold wbase. zlia.
Qed.

(** An unsigned little-endian number of [n] bytes in memory. *)
Fixpoint le_bytes (n : nat) (m : memory) (a : Z) : Z :=
  match n with O => 0 | S n => ld8 m a + 256 * le_bytes n m (a + 1) end.

(** The value of the first [n] bytes of a list, little-endian. *)
Fixpoint le_value (n : nat) (l : list Z) : Z :=
  match n, l with S n, b :: l => b + 256 * le_value n l | _, _ => 0 end.

Lemma le_bytes_value n : forall m a l,
  (forall k, (k < n)%nat -> ld8 m (a + Z.of_nat k) = default 0 (l !! k)) -> (n <= length l)%nat ->
  le_bytes n m a = le_value n l.
Proof.
  induction n as [|n IH]; intros m a [|b l] Hm Hl; simpl in *; try lia; [done..|].
  pose proof (Hm O ltac:(lia)) as Hb. rewrite Z.add_0_r in Hb. simpl in Hb. rewrite Hb. do 2 f_equal.
  apply IH; [|lia]. intros k Hk. pose proof (Hm (S k) ltac:(lia)) as Hk'. simpl in Hk'. rewrite <- Hk'. f_equal. lia.
Qed.

(** ** Strings in memory *)
(** The C string [l] is at [p]. *)
Definition str_at (m : memory) (p : Z) (l : list Z) : Prop :=
  (forall i c, l !! i = Some c -> ld8 m (p + Z.of_nat i) = c /\ c <> 0) /\ ld8 m (p + Z.of_nat (length l)) = 0.

Lemma str_at_nil m p : str_at m p [] <-> ld8 m p = 0.
Proof. unfold str_at. simpl. rewrite Z.add_0_r. split; [by intros [_ ?]|intros; split; [done|done]]. Qed.

Lemma str_at_cons m p c l : str_at m p (c :: l) <-> ld8 m p = c /\ c <> 0 /\ str_at m (p + 1) l.
Proof.
  unfold str_at. simpl. replace (p + Z.of_nat (S (length l))) with (p + 1 + Z.of_nat (length l)) by lia. split.
  - intros [H H0]. destruct (H 0%nat c eq_refl) as [E ?]. rewrite Z.add_0_r in E. split_and!; [done..| |done].
    intros i x Hx. destruct (H (S i) x Hx) as [Hi ?]. split; [|done]. rewrite <- Hi. f_equal. lia.
  - intros (E & ? & H & H0). split; [|done]. intros [|i] x Hx; simpl in Hx.
    + injection Hx as <-. rewrite Z.add_0_r. done.
    + destruct (H i x Hx) as [Hi ?]. split; [|done]. rewrite <- Hi. f_equal. lia.
Qed.

Lemma str_at_ext m m' p l :
  (forall a, p <= a <= p + Z.of_nat (length l) -> ld8 m' a = ld8 m a) -> str_at m p l -> str_at m' p l.
Proof.
  intros H [H1 H2]. split.
  - intros i c Hi. destruct (H1 i c Hi). split; [|done]. rewrite H; [done|]. apply lookup_lt_Some in Hi. lia.
  - rewrite H; [done|lia].
Qed.

Lemma strlen_str_at m l : forall fuel p, str_at m p l -> (length l <= fuel)%nat ->
  while fuel (fun p => negb (ld8 m p =? 0)) (fun p => p + 1) p = Some (p + Z.of_nat (length l)).
Proof.
  induction l as [|c l IH]; intros fuel p H Hf.
  - apply str_at_nil in H. destruct fuel; simpl; rewrite H; simpl; f_equal; lia.
  - apply str_at_cons in H as (E & Hc & H). destruct fuel as [|fuel]; simpl in Hf; [lia|]. simpl.
    rewrite E. destruct (Z.eqb_spec c 0); [done|]. simpl. rewrite IH by (done || lia). f_equal. lia.
Qed.

Lemma strcpy_loop_spec l : forall fuel m d src,
  str_at m src l -> (length l < fuel)%nat ->
  d <= src \/ src + Z.of_nat (length l) < d ->
  exists m', strcpy_loop fuel m d src = Some m' /\ copied m m' d src (Z.of_nat (length l) + 1).
Proof.
  induction l as [|c l IH]; intros fuel m d src H Hf Hov; (destruct fuel as [|fuel]; [simpl in Hf; lia|]); simpl.
  - apply str_at_nil in H. rewrite H. simpl. eexists. split; [done|]. change (Z.of_nat 0 + 1) with 1.
    intros a. rewrite ld8_st8. destruct (Z.eqb_spec a d) as [->|]; zcases; [|done..].
    replace (d + (src - d)) with src by lia. done.
  - apply str_at_cons in H as (E & Hc & H). rewrite E. destruct (Z.eqb_spec c 0); [done|].
    simpl in Hf, Hov. destruct (IH fuel (st8 m d c) (d + 1) (src + 1)) as (m' & -> & Hm'); [|lia|lia|].
    { eapply str_at_ext; [|exact H]. intros a Ha. rewrite ld8_st8_ne; [done|]. lia. }
    eexists. split; [done|]. intros a. rewrite Hm', !ld8_st8. replace (src + 1 - (d + 1)) with (src - d) by lia.
    pose proof (ld8_range m src). zcases; subst; try done.
    + rewrite Z.mod_small by done. f_equal. lia.
Qed.

Lemma str_at_app m p l1 l2 :
  (forall i c, l1 !! i = Some c -> ld8 m (p + Z.of_nat i) = c /\ c <> 0) ->
  str_at m (p + Z.of_nat (length l1)) l2 -> str_at m p (l1 ++ l2).
Proof.
  revert p. induction l1 as [|c l1 IH]; intros p H1 H2; simpl in *; [by rewrite Z.add_0_r in H2|].
  apply str_at_cons. destruct (H1 0%nat c eq_refl) as [E ?]. rewrite Z.add_0_r in E. split_and!; [done..|].
  apply IH; [|by replace (p + 1 + Z.of_nat (length l1)) with (p + Z.of_nat (S (length l1))) by lia].
  intros i x Hx. destruct (H1 (S i) x Hx) as [Hi ?]. split; [|done]. rewrite <- Hi. f_equal. lia.
Qed.

(** A copied string is a string. *)
Lemma str_at_copied m m' d src l :
  copied m m' d src (Z.of_nat (length l) + 1) -> str_at m src l -> str_at m' d l.
Proof.
  intros Hc [H1 H2]. split.
  - intros i c Hi. destruct (H1 i c Hi) as [E ?]. apply lookup_lt_Some in Hi. split; [|done].
    rewrite Hc. zcases. rewrite <- E. f_equal. lia.
  - rewrite Hc. zcases. rewrite <- H2. f_equal. lia.
Qed.

(** [strcat] appends the source string to the destination string, given
    room for both; the source and all other bytes are unchanged. *)
Theorem strcat_appends m dst src l1 l2 fuel :
  str_at m dst l1 -> str_at m src l2 -> (length l1 <= fuel)%nat -> (length l2 < fuel)%nat ->
  src + Z.of_nat (length l2) < dst \/ dst + Z.of_nat (length l1) + Z.of_nat (length l2) < src ->
  exists m', strcat fuel m dst src = Some m' /\ str_at m' dst (l1 ++ l2) /\ str_at m' src l2 /\
    forall a, ~ (dst + Z.of_nat (length l1) <= a <= dst + Z.of_nat (length l1) + Z.of_nat (length l2)) -> ld8 m' a = ld8 m a.
Proof.
  intros H1 H2 Hf1 Hf2 Hov. unfold strcat, strlen. rewrite (strlen_str_at m l1) by done. simpl.
  replace (dst + (dst + Z.of_nat (length l1) - dst)) with (dst + Z.of_nat (length l1)) by lia.
  destruct (strcpy_loop_spec l2 fuel m (dst + Z.of_nat (length l1)) src) as (m' & E & Hc); [done|done|lia|].
  assert (forall a, ~ (dst + Z.of_nat (length l1) <= a <= dst + Z.of_nat (length l1) + Z.of_nat (length l2)) -> ld8 m' a = ld8 m a) as Hsame.
  { intros a Ha. rewrite Hc. zcases; done. }
  exists m'. split_and!; [done| | |done].
  - apply str_at_app; [|by eapply str_at_copied].
    intros i c Hi. destruct H1 as [H1 _]. destruct (H1 i c Hi) as [<- ?]. split; [|done].
    apply lookup_lt_Some in Hi. apply Hsame. lia.
  - eapply str_at_ext; [|done]. intros a Ha. apply Hsame. lia.
Qed.

Lemma strcat_appends_witness : exists m' : memory,
  strcat 4 (list_to_map [(16, 97); (32, 98)]) 16 32 = Some m' /\ str_at m' 16 [97; 98].
Proof.
  destruct (strcat_appends (list_to_map [(16, 97); (32, 98)]) 16 32 [97] [98] 4) as (m' & E & H & _).
  - rewrite str_at_cons, str_at_nil. split_and!; by vm_compute.
  - rewrite str_at_cons, str_at_nil. split_and!; by vm_compute.
  - simpl. lia.
  - simpl. lia.
  - simpl. lia.
  - exists m'. split; [exact E|exact H].
Defined.

Lemma safestrcpy_loop_spec l : forall fuel m s t n,
  str_at m t l -> 0 < n <= Z.of_nat fuel ->
  s + n <= t \/ t + Z.of_nat (length l) < s ->
  exists m', safestrcpy_loop fuel m s t n = Some m' /\ str_at m' s (take (Z.to_nat (n - 1)) l) /\
    forall a, ~ (s <= a < s + n) -> ld8 m' a = ld8 m a.
Proof.
  induction l as [|c l IH]; intros fuel m s t n H Hn Hov; (destruct fuel as [|fuel]; [lia|]); simpl.
  - apply str_at_nil in H. rewrite H. destruct (Z.ltb_spec 0 (n - 1)); simpl; eexists; (split; [done|]).
    + rewrite take_nil, str_at_nil. split; [rewrite !ld8_st8; zcases; done|].
      intros a Ha. by rewrite !ld8_st8_ne by lia.
    + rewrite take_nil, str_at_nil. split; [rewrite !ld8_st8; zcases; done|].
      intros a Ha. by rewrite !ld8_st8_ne by lia.
  - apply str_at_cons in H as (E & Hc & H). simpl in Hov. destruct (Z.ltb_spec 0 (n - 1)).
    + rewrite E. destruct (Z.eqb_spec c 0); [done|].
      assert (str_at (st8 m s c) (t + 1) l) as H'.
      { eapply str_at_ext; [|exact H]. intros a Ha. rewrite ld8_st8_ne; [done|lia]. }
      destruct (IH fuel (st8 m s c) (s + 1) (t + 1) (n - 1) H') as (m' & -> & Hs & Hsame); [lia|lia|].
      eexists. split; [done|]. split.
      * replace (Z.to_nat (n - 1)) with (S (Z.to_nat (n - 1 - 1))) by lia. simpl. apply str_at_cons.
        split_and!; [|done|done]. rewrite Hsame by lia. apply ld8_st8_eq. rewrite <- E. apply ld8_range.
      * intros a Ha. rewrite Hsame by lia. apply ld8_st8_ne. lia.
    + replace (Z.to_nat (n - 1)) with O by lia. simpl. eexists. split; [done|]. rewrite str_at_nil.
      split; [rewrite ld8_st8; zcases; done|]. intros a Ha. by apply ld8_st8_ne; lia.
Qed.

(** C38: [safestrcpy] leaves a terminated string, the first [n - 1] characters of
    its source at most, and never touches a byte outside the [n] bytes of the
    destination. *)
Theorem safestrcpy_bounded m s t n l :
  str_at m t l -> 0 < n -> s + n <= t \/ t + Z.of_nat (length l) < s ->
  exists m', safestrcpy m s t n = Some m' /\ str_at m' s (take (Z.to_nat (n - 1)) l) /\
    forall a, ~ (s <= a < s + n) -> ld8 m' a = ld8 m a.
Proof.
  intros H Hn Hov. unfold safestrcpy. destruct (Z.leb_spec n 0); [lia|].
  apply safestrcpy_loop_spec; [done|lia|done].
Qed.

Lemma safestrcpy_bounded_witness : exists m' : memory,
  safestrcpy (list_to_map [(32, 97 + 98 * 256 + 99 * 65536)]) 16 32 3 = Some m' /\ str_at m' 16 [97; 98].
Proof.
  destruct (safestrcpy_bounded (list_to_map [(32, 97 + 98 * 256 + 99 * 65536)]) 16 32 3 [97; 98; 99]) as (m' & E & H & _).
  - rewrite !str_at_cons, str_at_nil. split_and!; by vm_compute.
  - lia.
  - lia.
  - exists m'. split; [exact E|exact H].
Defined.

Definition demo_bytes : memory := list_to_map [(64, 0x0807060504030201); (72, 0x100f0e0d0c0b0a09)].

Lemma memcpy_copies_witness : exists m', memcpy demo_bytes 80 64 12 = Some m' /\ copied demo_bytes m' 80 64 12.
Proof. apply (memcpy_copies demo_bytes 80 64 12); lia. Defined.

Lemma memmove_copies_witness : exists m', memmove demo_bytes 67 64 9 = Some m' /\ copied demo_bytes m' 67 64 9.
Proof. apply (memmove_copies demo_bytes 67 64 9); lia. Defined.

Lemma memset_fills_witness : exists m', memset demo_bytes 64 300 8 = Some m' /\ filled demo_bytes m' 64 44 8.
Proof. apply (memset_fills demo_bytes 64 300 8); lia. Defined.
