(* ===== verification/UserMem.v ===== *)
(** * The memory of a process

    What a process sees at its virtual addresses, through its page table, and
    how a buffer of a process lies in physical memory.  [fillable] is a buffer the
    kernel can fill piece by piece with strings. *)

From stdpp Require Import base gmap list numbers strings.
From Stdlib Require Import ZArith Lia.
From S2P Require Import Prelude Pmm Vmm VmmSpec Bytes ByteMem.
Local Open Scope Z_scope.

(** The byte a process sees at a virtual address. *)
Definition vbyte (root : Z) (m : memory) (x : Z) : option Z :=
  (fun e => ld8 m (PTE2PA e + x mod PGSIZE)) <$> xlate root m x.

(** Addresses of one page translate alike. *)
Lemma xlate_same_page root m x y : same_page x y -> xlate root m x = xlate root m y.
Proof.
  intros Hs. unfold xlate. rewrite (table_agree root m 2 x y) by (intros k Hk; apply same_page_PX; [lia|done]).
  unfold slot. by rewrite (same_page_PX _ x y) by (done || lia).
Qed.

(** An address the kernel finds as data of the process. *)
Definition data_at (root : Z) (m : memory) (x : Z) : Prop :=
  0 <= x < MAXVA /\ exists e, xlate root m x = Some e /\ has e PTE_R || has e PTE_W = true /\ PTE2PA e <> 0.

(** The process has the bytes [bs] in a buffer at [va]. *)
Definition user_bytes (root : Z) (m : memory) (va : Z) (bs : list Z) : Prop :=
  forall k b, bs !! k = Some b -> data_at root m (va + Z.of_nat k) /\ vbyte root m (va + Z.of_nat k) = Some b.

Lemma load_bytes_lookup m a n k : load_bytes m a n !! k = if decide (Z.of_nat k < n) then Some (ld8 m (a + Z.of_nat k)) else None.
Proof.
  unfold load_bytes. rewrite list_lookup_fmap. case_decide.
  - rewrite lookup_seqZ_lt by lia. simpl. done.
  - rewrite lookup_seqZ_ge by lia. done.
Qed.
Lemma length_load_bytes m a n : length (load_bytes m a n) = Z.to_nat n.
Proof. unfold load_bytes. by rewrite length_map, length_seqZ. Qed.

(** The bytes of a buffer that lie in one page are contiguous in memory. *)
Lemma user_bytes_page root m va bs i n :
  user_bytes root m va bs -> 0 <= i -> 0 < n -> i + n <= Z.of_nat (length bs) ->
  (va + i) mod PGSIZE + n <= PGSIZE ->
  exists e, xlate root m (va + i) = Some e /\ has e PTE_R || has e PTE_W = true /\ PTE2PA e <> 0 /\
    0 <= va + i < MAXVA /\
    load_bytes m (PTE2PA e + (va + i) mod PGSIZE) n = take (Z.to_nat n) (drop (Z.to_nat i) bs).
Proof.
  intros Hb Hi Hn Hlen Hpg.
  destruct (lookup_lt_is_Some_2 bs (Z.to_nat i)) as [b0 Hb0]; [lia|].
  destruct (Hb _ _ Hb0) as [(Hr & e & He & Hrw & Hnz) _]. rewrite Z2Nat.id in * by lia.
  exists e. split_and!; try done; try lia. apply list_eq. intros k. rewrite load_bytes_lookup.
  case_decide.
  - rewrite lookup_take_lt, lookup_drop by lia.
    destruct (lookup_lt_is_Some_2 bs (Z.to_nat i + k)) as [b Hbk]; [lia|]. rewrite Hbk.
    destruct (Hb _ _ Hbk) as [_ Hv]. rewrite <- Hv. unfold vbyte.
    rewrite (xlate_same_page root m (va + Z.of_nat (Z.to_nat i + k)) (va + i)), He
      by (unfold same_page, PGSIZE in *; zlia).
    simpl. do 2 f_equal. unfold PGSIZE in *. zlia.
  - symmetry. apply lookup_ge_None. rewrite length_take. lia.
Qed.

(** The physical address the kernel uses for a virtual one. *)
Definition user_pa (root : Z) (m : memory) (x : Z) : Z :=
  match xlate root m x with Some e => PTE2PA e + x mod PGSIZE | None => 0 end.

Lemma user_pa_step root m x y : is_Some (xlate root m x) -> same_page x y -> user_pa root m y = user_pa root m x + (y - x).
Proof.
  intros [e He] Hs. unfold user_pa. rewrite <- (xlate_same_page root m x y Hs), He.
  clear He. unfold same_page, PGSIZE in *. zlia.
Qed.

Lemma vbyte_pa root m x : is_Some (xlate root m x) -> vbyte root m x = Some (ld8 m (user_pa root m x)).
Proof. intros [e He]. unfold vbyte, user_pa. by rewrite He. Qed.

(** A buffer of the process that the kernel may fill page by page, with one byte
    more after each piece: its pages are data, no byte of it, and no byte right
    after one, lies in a page table or a free page, and no byte of it lies at or
    right after a later one in physical memory. *)
Record fillable (root : Z) (m : memory) (F : list Z) (va count : Z) : Prop := {
  fl_data : forall k, 0 <= k < count -> data_at root m (va + k);
  fl_quiet : forall k a, 0 <= k < count -> a = user_pa root m (va + k) \/ a = user_pa root m (va + k) + 1 ->
    ~ is_table root m (ROUNDDOWN a PGSIZE) /\ (ROUNDDOWN a PGSIZE ∉ F);
  fl_apart : forall k k', 0 <= k' < k -> k < count ->
    user_pa root m (va + k') <> user_pa root m (va + k) /\ user_pa root m (va + k') <> user_pa root m (va + k) + 1;
}.

(** The bytes stored for a piece of the buffer that lies in one page: at most one
    more than the piece. *)
Lemma fillable_piece root m F va count i n (l : list Z) b :
  fillable root m F va count -> 0 <= i -> i + n <= count -> (va + i) mod PGSIZE + n <= PGSIZE -> 0 < n ->
  Z.of_nat (length l) <= n + 1 ->
  user_pa root m (va + i) <= b < user_pa root m (va + i) + Z.of_nat (length l) ->
  exists k, i <= k < i + n /\ (b = user_pa root m (va + k) \/ b = user_pa root m (va + k) + 1).
Proof.
  intros [Fd _ _] Hi Hn Hpg Hn0 Hl Hb.
  assert (forall k, 0 <= k < n -> user_pa root m (va + (i + k)) = user_pa root m (va + i) + k) as Hpa.
  { intros k Hk. destruct (Fd i ltac:(lia)) as (_ & e & He & _).
    rewrite (user_pa_step root m (va + i) (va + (i + k))); [lia|by eexists|]. clear -Hpg Hk. unfold same_page, PGSIZE in *. zlia. }
  destruct (decide (b < user_pa root m (va + i) + n)).
  - exists (i + (b - user_pa root m (va + i))). split; [lia|]. left. rewrite Hpa by lia. lia.
  - exists (i + (n - 1)). split; [lia|]. right. rewrite Hpa by lia. lia.
Qed.

(** Storing such a piece keeps the address space. *)
Lemma fill_piece root v F va count i n (l : list Z) :
  vm_inv root v F -> fillable root (Pmm.mem v) F va count -> 0 <= i -> i + n <= count ->
  (va + i) mod PGSIZE + n <= PGSIZE -> 0 < n -> 0 < Z.of_nat (length l) <= n + 1 ->
  let m' := store_bytes (Pmm.mem v) (user_pa root (Pmm.mem v) (va + i)) l in
  vm_inv root (Pmm.set_mem m' v) F /\ (forall q, is_table root m' q <-> is_table root (Pmm.mem v) q) /\
  (forall x, xlate root m' x = xlate root (Pmm.mem v) x).
Proof.
  intros Hinv Hf Hi Hn Hpg Hn0 Hl m'. set (p := user_pa root (Pmm.mem v) (va + i)) in *.
  destruct (vm_inv_frame root v F m' Hinv) as (Hinv' & Ht & Hx).
  { intros a Ha. unfold ld64, m'. rewrite store_bytes_words; [done|].
    destruct (decide (a mod 8 <> 0 \/ a + 8 <= p \/ p + Z.of_nat (length l) <= a)) as [|Hne]; [done|]. exfalso.
    destruct (fillable_piece root _ F va count i n l (Z.max a p) Hf Hi Hn Hpg Hn0 (proj2 Hl)) as (k & Hk & Hb); [fold p; lia|].
    destruct (fl_quiet _ _ _ _ _ Hf k (Z.max a p) ltac:(lia) Hb) as [Q1 Q2].
    assert (a mod 8 = 0 /\ a <= Z.max a p < a + 8) as [Ha8 Hax] by (clear -Hne; lia).
    replace (ROUNDDOWN (Z.max a p) PGSIZE) with (ROUNDDOWN a PGSIZE) in Q1, Q2
      by (generalize dependent (Z.max a p); clear -Ha8; intros y ? _ _ Hy; unfold ROUNDDOWN, PGSIZE in *; zlia).
    tauto. }
  split; [done|]. split; [|done]. intros q. unfold is_table.
  split; intros (x & d & Hd & Hq); exists x, d; (split; [done|]); [by rewrite <- Ht|by rewrite Ht].
Qed.

Lemma fillable_ext root m m' F va count :
  (forall q, is_table root m' q <-> is_table root m q) -> (forall x, xlate root m' x = xlate root m x) ->
  fillable root m F va count -> fillable root m' F va count.
Proof.
  intros Ht Hx [F1 F2 F3]. assert (forall x, user_pa root m' x = user_pa root m x) as Hp by (intros x; unfold user_pa; by rewrite Hx).
  split.
  - intros k Hk. destruct (F1 k Hk) as (? & e & ? & ?). split; [done|]. exists e. by rewrite Hx.
  - intros k a Hk. rewrite Hp, Ht. by apply F2.
  - intros k k' Hk Hk'. rewrite !Hp. by apply F3.
Qed.
