(* ===== verification/AddrSpace.v ===== *)
(** * Steps of an address space

    [changes] says what an operation may do to memory and to the translation of
    one page table: the loader, [do_fork] and the heap calls of the user are
    sequences of such steps. [map_own_page] is the step that takes a page, fills
    it and maps it; [other_space] says that it leaves another page table alone. *)

From stdpp Require Import base gmap list numbers strings.
From Stdlib Require Import ZArith Lia.
From S2P Require Import Prelude Pmm Vmm VmmSpec Bytes ByteMem UserMem.
Local Open Scope Z_scope.

(** ** How the address space changes *)
(** From [m] to [m'] only free pages, tables and the words in [out] were written,
    tables were made of free pages, and only addresses in [X] changed their
    translation. *)
Record changes (root : Z) (out X : Z -> Prop) (F : list Z) (m : memory) (F' : list Z) (m' : memory) : Prop := {
  ev_free : forall q, q ∈ F' -> q ∈ F;
  ev_table : forall q, is_table root m' q -> is_table root m q \/ q ∈ F;
  ev_frame : forall a, ~ is_table root m (ROUNDDOWN a PGSIZE) -> ROUNDDOWN a PGSIZE ∉ F -> ~ out a -> ld64 m' a = ld64 m a;
  ev_xlate : forall x, 0 <= x < MAXVA -> ~ X x -> xlate root m' x = xlate root m x;
}.

Section changes.
Context (root : Z).
Implicit Types (out X : Z -> Prop) (m : memory) (F : list Z).

Lemma changes_refl out X F m : changes root out X F m F m.
Proof. split; auto. Qed.

Lemma changes_trans out X1 X2 F1 m1 F2 m2 F3 m3 :
  changes root out X1 F1 m1 F2 m2 -> changes root out X2 F2 m2 F3 m3 -> changes root out (fun x => X1 x \/ X2 x) F1 m1 F3 m3.
Proof.
  intros [A1 A2 A3 A4] [B1 B2 B3 B4]. split; auto.
  - intros q Hq. destruct (B2 q Hq) as [|]; auto.
  - intros a Ht Hf Ho. rewrite B3, A3; auto. intros Ht2. by destruct (A2 _ Ht2).
  - intros x Hx Hn. rewrite B4, A4; tauto.
Qed.

Lemma changes_mono out out' X X' F m F' m' :
  (forall a, out a -> out' a) -> (forall x, X x -> X' x) -> changes root out X F m F' m' -> changes root out' X' F m F' m'.
Proof. intros Ho HX [A1 A2 A3 A4]. split; auto. Qed.

(** A byte of the process at [x], out of reach of what the kernel writes. *)
Record sealed out F m (x b : Z) : Prop := {
  se_byte : vbyte root m x = Some b;
  se_page : forall e, xlate root m x = Some e -> let q := PTE2PA e in
    q mod PGSIZE = 0 /\ (q ∉ F) /\ ~ is_table root m q /\ forall a, ROUNDDOWN a PGSIZE = q -> ~ out a;
}.

Lemma sealed_changes out X F m F' m' x b :
  changes root out X F m F' m' -> 0 <= x < MAXVA -> ~ X x -> sealed out F m x b -> sealed out F' m' x b.
Proof.
  intros [A1 A2 A3 A4] Hx HX [Hb Hp]. unfold vbyte in Hb. destruct (xlate root m x) as [e|] eqn:E; [|done].
  destruct (Hp e eq_refl) as (P1 & P2 & P3 & P4). assert (xlate root m' x = Some e) as E' by (by rewrite A4). split.
  - unfold vbyte. rewrite E'. rewrite <- Hb. simpl. f_equal.
    assert (ROUNDDOWN (wbase (PTE2PA e + x mod PGSIZE)) PGSIZE = PTE2PA e) as Ep by (clear -P1; unfold wbase, ROUNDDOWN, PGSIZE in *; zlia).
    unfold ld8. rewrite A3; [done|..]; rewrite ?Ep; auto.
  - rewrite E'. intros e' [= <-]. split_and!; auto. intros Ht. by destruct (A2 _ Ht).
Qed.

Lemma sealed_mono out out' F m x b : (forall a, out' a -> out a) -> sealed out F m x b -> sealed out' F m x b.
Proof. intros Ho [Hb Hp]. split; [done|]. intros e E. destruct (Hp e E) as (? & ? & ? & Ha). split_and!; try done. intros a Hq Hoa. by apply (Ha a Hq), Ho. Qed.

(** Words outside the tables and the free pages may be written freely. *)
Lemma vm_inv_changes out F v m' : vm_inv root v F ->
  (forall a, out a -> ~ is_table root (Pmm.mem v) (ROUNDDOWN a PGSIZE) /\ ROUNDDOWN a PGSIZE ∉ F) ->
  (forall a, ~ out a -> ld64 m' a = ld64 (Pmm.mem v) a) ->
  vm_inv root (Pmm.set_mem m' v) F /\ changes root out (fun _ => False) F (Pmm.mem v) F m'.
Proof.
  intros Hinv Ho Hm. destruct (vm_inv_frame root v F m' Hinv) as (Hinv' & Ht & Hx).
  { intros a Ha. apply Hm. intros Hoa. destruct (Ho a Hoa). tauto. }
  split; [done|]. split; auto. intros q (x & d & Hd & Hq). left. exists x, d. split; [done|]. by rewrite <- Ht.
Qed.
End changes.

(** A page is taken, filled by [f] and mapped at [va]. *)
Record page_mapped (root : Z) (v : Pmm.state) (q : Z) (F : list Z) (va perm : Z) (f : memory -> memory) (v1 v2 : Pmm.state) (F2 : list Z) : Prop := {
  pm_alloc : Pmm.alloc_page v = Ret q v1 /\ Pmm.mem v1 = Pmm.mem v;
  pm_map : Vmm.user_vm_map root va PGSIZE q perm (Pmm.set_mem (f (Pmm.mem v)) v1) = Ret tt v2;
  pm_inv : vm_inv root v2 F2;
  pm_changes : changes root (fun _ => False) (same_page va) (q :: F) (Pmm.mem v) F2 (Pmm.mem v2);
  pm_room : (length F <= length F2 + 2)%nat;
  pm_bounds : Pmm.free_mem_start_addr v2 = Pmm.free_mem_start_addr v /\ Pmm.free_mem_end_addr v2 = Pmm.free_mem_end_addr v;
  pm_page : q mod PGSIZE = 0 /\ 0 < q < 2 ^ 64 /\ q < Pmm.free_mem_end_addr v /\ (q ∉ F2) /\ ~ is_table root (Pmm.mem v2) q;
  pm_fill : forall a, ROUNDDOWN a PGSIZE = q -> ld64 (Pmm.mem v2) a = ld64 (f (Pmm.mem v)) a;
  pm_xlate : forall x, 0 <= x < MAXVA -> same_page va x -> xlate root (Pmm.mem v2) x = Some (entry q perm);
}.

Lemma map_own_page root v q F va perm f :
  vm_inv root v (q :: F) -> (2 <= length F)%nat -> va mod PGSIZE = 0 -> 0 <= va -> va + PGSIZE <= MAXVA ->
  Pmm.free_mem_end_addr v + PGSIZE < 2 ^ 64 -> xlate root (Pmm.mem v) va = None ->
  (forall a, ROUNDDOWN a PGSIZE <> q -> ld64 (f (Pmm.mem v)) a = ld64 (Pmm.mem v) a) ->
  exists v1 v2 F2, page_mapped root v q F va perm f v1 v2 F2.
Proof.
  intros Hinv HF Ha Hva Hmax Hend Hx Hz.
  destruct (vm_inv_alloc root v q F Hinv) as (v1 & Ealloc & Hinv1 & Hm1 & Hst1 & Hend1 & Hni & Hnt & [Hp Hpr] & Hp0).
  set (mz := f (Pmm.mem v)) in *.
  destruct (vm_inv_frame root v1 F mz Hinv1) as (Hinvz & Htabz & Hxz).
  { intros a Ha'. rewrite Hm1. apply Hz. intros E. rewrite E, Hm1 in Ha'. by destruct Ha'. }
  assert (Hntz : forall p, is_table root mz p <-> is_table root (Pmm.mem v) p).
  { intros p. unfold is_table. rewrite <- Hm1.
    split; intros (va' & d & Hd & Ht); exists va', d; (split; [done|]); by rewrite Htabz in *. }
  destruct (user_vm_map_page root va q perm (Pmm.set_mem mz v1) F) as ([] & v2 & Emap & used & F2 & Hinv2 & Hev & Hlen & Hx2);
    try done; try lia.
  { simpl. rewrite Hxz, Hm1. exact Hx. }
  destruct Hev as (-> & Hst2 & Hend2 & Htab2 & Hfr2). simpl in Htab2, Hfr2, Hst2, Hend2, Hx2.
  assert (~ is_table root mz q) as Hntp by (by rewrite Hntz).
  exists v1, v2, F2. split; try done; try (split; congruence).
  - split.
    + intros p Hp'. apply elem_of_cons. right. apply elem_of_app. by right.
    + intros p Hp'. destruct (Htab2 p Hp') as [Ht|Hu]; [left; by apply Hntz|right; apply elem_of_cons; right; apply elem_of_app; by left].
    + intros a Ht Hf _. apply not_elem_of_cons in Hf as [Hne Hf]. rewrite Hfr2; [by apply Hz|by rewrite Hntz|done].
    + intros x Hxr Hns. rewrite Hx2, decide_False by done. by rewrite Hxz, Hm1.
  - rewrite length_app. lia.
  - split_and!; [done|lia|unfold PGSIZE in Hend; lia|lia| |].
    + intros Hin. apply Hni, elem_of_app. by right.
    + intros Ht. destruct (Htab2 q Ht) as [|Hu]; [done|]. apply Hni, elem_of_app. by left.
  - intros a Hq. apply Hfr2; by rewrite Hq.
  - intros x Hxr Hs. by rewrite Hx2, decide_True.
Qed.

(** Another address space: its tables are neither free nor tables or words that
    change. *)
Lemma other_space root root' v F v' F' :
  vm_inv root v F -> vm_inv root' v' F' -> (forall q, q ∈ F' -> q ∈ F) ->
  (forall a, is_table root (Pmm.mem v) (ROUNDDOWN a PGSIZE) -> ld64 (Pmm.mem v') a = ld64 (Pmm.mem v) a) ->
  vm_inv root v' F' /\ (forall q, is_table root (Pmm.mem v') q <-> is_table root (Pmm.mem v) q) /\
  (forall x, xlate root (Pmm.mem v') x = xlate root (Pmm.mem v) x).
Proof.
  intros Hinv (Hrep' & Hend' & _) HF Hm. destruct (tables_frame root v F (Pmm.mem v') Hinv Hm) as [Htab Hx].
  destruct Hinv as (_ & _ & Hwf). split_and!; [split_and!; [done|done|]| |done].
  - split.
    + intros va d t Hd Ht. rewrite Htab in Ht by done. destruct (wf_page _ _ _ Hwf va d t Hd Ht) as (? & ? & Hn). split_and!; auto.
    + intros va va' d d' t Hd Hd'. rewrite !Htab by done. by apply Hwf.
  - intros q. split; intros (va & d & Hd & Ht); exists va, d; (split; [done|]); [by rewrite <- Htab|by rewrite Htab].
Qed.

Lemma entry_page q perm : q mod PGSIZE = 0 -> 0 <= q < 2 ^ 64 -> 0 <= perm < 2 ^ 10 -> PTE2PA (entry q perm) = q.
Proof. intros Hq Hr Hperm. rewrite entry_pa by done. clear -Hq. unfold ROUNDDOWN, PGSIZE in *. zlia. Qed.
