(* ===== verification/Printf.v ===== *)
(** * [util/snprintf.c]: formatted printing

    [vsnprintf] is translated character by character: the two mode flags, the
    position [pos] that counts every character produced, and the buffer, which
    is written only below [n].  An access outside the buffer, a string without
    its NUL or an argument of another type than the directive asks for has no
    result.  The argument of ["%c"] is fetched inside the test for room in the
    buffer, so once the output is cut it stays for the next directive.  [parse]
    and [render] are the specification: the list of directives of a format, and
    the text they stand for, with stdpp's decimal printer. *)

From stdpp Require Import base gmap list numbers strings pretty.
From Stdlib Require Import ZArith Lia Ascii.
From S2P Require Import Prelude Bytes.
Local Open Scope Z_scope.

(** The characters of the format language. *)
Definition ch (a : ascii) : Z := Z.of_N (N_of_ascii a).

(** A variable argument, as the caller passed it. *)
Inductive va_value := VInt (z : Z) | VLong (z : Z) | VStr (p : list Z).

Module Printf.

(** [va_arg(vl, int)], [va_arg(vl, long)], [va_arg(vl, const char* )]. *)
Definition va_num (longarg : bool) (vl : list va_value) : option (Z * list va_value) :=
  match longarg, vl with
  | true, VLong z :: vl => Some (i64 z, vl)
  | false, VInt z :: vl => Some (i32 z, vl)
  | _, _ => None
  end.
Definition va_string (vl : list va_value) : option (list Z * list va_value) :=
  match vl with VStr p :: vl => Some (p, vl) | _ => None end.

(** [out[i] = c] *)
Definition set_char (out : list Z) (i c : Z) : option (list Z) :=
  if (0 <=? i) && (i <? Z.of_nat (length out)) then Some (<[Z.to_nat i := c mod 256]> out) else None.

(** [if (++pos < n) out[pos - 1] = c;] *)
Definition emit (n c : Z) (st : Z * list Z) : option (Z * list Z) :=
  let '(pos, out) := st in
  let pos := pos + 1 in
  if pos <? n then (fun out => (pos, out)) <$> set_char out (pos - 1) c else Some (pos, out).

(** The loop of ['x'] from digit [i - 1] down to digit 0. *)
Fixpoint emit_hex (n num : Z) (i : nat) (st : Z * list Z) : option (Z * list Z) :=
  match i with
  | O => Some st
  | S i =>
      let d := Z.land (Z.shiftr num (4 * Z.of_nat i)) 0xF in
      emit n (if d <? 10 then ch "0" + d else ch "a" + d - 10) st ≫= emit_hex n num i
  end.

(** [for (long nn = num; nn /= 10; digits++)] *)
Fixpoint count_digits (fuel : nat) (nn digits : Z) : option Z :=
  match fuel with
  | O => None
  | S fuel =>
      let nn := Z.quot nn 10 in
      if nn =? 0 then Some digits else count_digits fuel nn (digits + 1)
  end.

(** The loop of ['d'] from digit [i - 1] down to digit 0. *)
Fixpoint fill_digits (n pos num : Z) (i : nat) (out : list Z) : option (list Z) :=
  match i with
  | O => Some out
  | S i =>
      (if pos + Z.of_nat i + 1 <? n then set_char out (pos + Z.of_nat i) (ch "0" + Z.rem num 10) else Some out)
      ≫= fill_digits n pos (Z.quot num 10) i
  end.

Definition emit_decimal (n num : Z) (st : Z * list Z) : option (Z * list Z) :=
  (if num <? 0 then (fun st => (i64 (- num), st)) <$> emit n (ch "-") st else Some (num, st)) ≫= fun '(num, (pos, out)) =>
  count_digits 20 num 1 ≫= fun digits =>
  (fun out => (pos + digits, out)) <$> fill_digits n pos num (Z.to_nat digits) out.

(** [while ( *s2 ) ...] *)
Fixpoint emit_string (n : Z) (s2 : list Z) (st : Z * list Z) : option (Z * list Z) :=
  match s2 with
  | [] => None
  | c :: s2 => if c =? 0 then Some st else emit n c st ≫= emit_string n s2
  end.

(** The main loop on the rest [s] of the format. *)
Fixpoint format_loop (n : Z) (s : list Z) (format longarg : bool) (vl : list va_value) (st : Z * list Z)
    : option (Z * list Z) :=
  match s with
  | [] => None
  | c :: s =>
      if c =? 0 then Some st
      else if format then
        if c =? ch "l" then format_loop n s true true vl st
        else if c =? ch "p" then
          emit n (ch "0") st ≫= fun st => emit n (ch "x") st ≫= fun st =>
          va_num true vl ≫= fun '(num, vl) => emit_hex n num 16 st ≫= fun st =>
          format_loop n s false false vl st
        else if c =? ch "x" then
          va_num longarg vl ≫= fun '(num, vl) =>
          emit_hex n num (if longarg then 16 else 8)%nat st ≫= fun st => format_loop n s false false vl st
        else if c =? ch "d" then
          va_num longarg vl ≫= fun '(num, vl) => emit_decimal n num st ≫= fun st => format_loop n s false false vl st
        else if c =? ch "s" then
          va_string vl ≫= fun '(s2, vl) => emit_string n s2 st ≫= fun st => format_loop n s false false vl st
        else if c =? ch "c" then
          let '(pos, out) := st in
          let pos := pos + 1 in
          if pos <? n then
            va_num false vl ≫= fun '(x, vl) => set_char out (pos - 1) x ≫= fun out =>
            format_loop n s false false vl (pos, out)
          else format_loop n s false false vl (pos, out)
        else format_loop n s true longarg vl st
      else if c =? ch "%" then format_loop n s true longarg vl st
      else emit n c st ≫= fun st => format_loop n s false longarg vl st
  end.

(** The terminating NUL and the result, an [int32]. *)
Definition vsnprintf (out : list Z) (n : Z) (s : list Z) (vl : list va_value) : option (Z * list Z) :=
  format_loop n s false false vl (0, out) ≫= fun '(pos, out) =>
  (fun out => (i32 pos, out)) <$>
    if pos <? n then set_char out pos 0 else if negb (n =? 0) then set_char out (n - 1) 0 else Some out.
End Printf.

(** ** The specification: directives and their text *)
Inductive directive := Lit (c : Z) | Hex (long : bool) | Ptr | Dec (long : bool) | Str | Chr.
#[export] Instance directive_eq_dec : EqDecision directive.
Proof. solve_decision. Defined.

Fixpoint parse (format long : bool) (s : list Z) : list directive :=
  match s with
  | [] => []
  | c :: s =>
      if format then
        if c =? ch "l" then parse true true s
        else if c =? ch "p" then Ptr :: parse false false s
        else if c =? ch "x" then Hex long :: parse false false s
        else if c =? ch "d" then Dec long :: parse false false s
        else if c =? ch "s" then Str :: parse false false s
        else if c =? ch "c" then Chr :: parse false false s
        else parse true long s
      else if c =? ch "%" then parse true long s
      else Lit c :: parse false long s
  end.

(** The [w] low hexadecimal digits of [x]. *)
Definition hex_digit (d : Z) : Z := if d <? 10 then 48 + d else 87 + d.
Fixpoint hex_fixed (w : nat) (x : Z) : list Z :=
  match w with O => [] | S w => hex_fixed w (x / 16) ++ [hex_digit (x mod 16)] end.

Definition codes (s : string) : list Z := map ch (String.list_ascii_of_string s).

(** The text of one directive and the arguments left; [fetch] says whether a
    [Chr] takes its argument, else one character stands for it. *)
Definition render_one (fetch : bool) (d : directive) (vl : list va_value) : option (list Z * list va_value) :=
  match d, vl with
  | Lit c, _ => Some ([c mod 256], vl)
  | Hex true, VLong z :: vl => Some (hex_fixed 16 (i64 z), vl)
  | Hex false, VInt z :: vl => Some (hex_fixed 8 (i32 z), vl)
  | Ptr, VLong z :: vl => Some (ch "0" :: ch "x" :: hex_fixed 16 (i64 z), vl)
  | Dec true, VLong z :: vl => if i64 z =? - 2 ^ 63 then None else Some (codes (pretty (i64 z)), vl)
  | Dec false, VInt z :: vl => Some (codes (pretty (i32 z)), vl)
  | Str, VStr p :: vl => (fun s => (map (fun c => c mod 256) s, vl)) <$> cstring p
  | Chr, _ =>
      if fetch then match vl with VInt z :: vl => Some ([z mod 256], vl) | _ => None end else Some ([ch "?"], vl)
  | _, _ => None
  end.
Fixpoint render_from (fetch : Z -> bool) (pos : Z) (ds : list directive) (vl : list va_value) : option (list Z) :=
  match ds with
  | [] => Some []
  | d :: ds =>
      render_one (fetch pos) d vl ≫= fun '(t, vl) => app t <$> render_from fetch (pos + Z.of_nat (length t)) ds vl
  end.
(** The text of a format, as [printf] is documented. *)
Definition render : list directive -> list va_value -> option (list Z) := render_from (fun _ => true) 0.
(** The text as a buffer of [n] bytes shows it: ["%c"] takes its argument only
    where its character is written. *)
Definition render_cut (n : Z) : list directive -> list va_value -> option (list Z) :=
  render_from (fun pos => pos + 1 <? n) 0.

(** [t] written over the start of [out]. *)
Definition over (t out : list Z) : list Z := t ++ drop (length t) out.
(** The buffer after [t] has been produced with bound [n]. *)
Definition shown (n : Z) (t out : list Z) : list Z := over (take (Z.to_nat (n - 1)) t) out.

Lemma set_char_eq l i c : 0 <= i < Z.of_nat (length l) -> Printf.set_char l i c = Some (<[Z.to_nat i := c mod 256]> l).
Proof.
  intros. unfold Printf.set_char. destruct (Z.leb_spec 0 i); [|lia]. by destruct (Z.ltb_spec i (Z.of_nat (length l))); [|lia].
Qed.

(** The low [k] decimal digits of a natural number. *)
Fixpoint dec_digits (k : nat) (num : Z) : list Z :=
  match k with O => [] | S k => dec_digits k (num / 10) ++ [48 + num mod 10] end.

Lemma length_dec_digits k num : length (dec_digits k num) = k.
Proof. revert num. induction k as [|k IH]; intros; simpl; [done|]. rewrite length_app, IH. simpl. lia. Qed.

Lemma hex_fixed_S w : forall x, hex_fixed (S w) x = hex_digit (x / 16 ^ Z.of_nat w mod 16) :: hex_fixed w x.
Proof.
  induction w as [|w IH]; intros x.
  - simpl. by rewrite Z.div_1_r.
  - change (hex_fixed (S (S w)) x) with (hex_fixed (S w) (x / 16) ++ [hex_digit (x mod 16)]).
    rewrite IH. simpl. do 3 f_equal. rewrite Z.div_div by lia. f_equal.
    rewrite <- Z.pow_succ_r by lia. f_equal. lia.
Qed.

Section printf_lemmas.
Context (n : Z) (out : list Z) (Hn : 0 <= n <= Z.of_nat (length out)).
Import Printf.

(** Character [i] of the buffer that shows [t]. *)
Lemma shown_lookup t i :
  shown n t out !! i = if decide (Z.of_nat i < n - 1 /\ (i < length t)%nat) then t !! i else out !! i.
Proof.
  unfold shown, over. rewrite lookup_app, lookup_drop, length_take.
  case_decide as E.
  - rewrite lookup_take_lt by lia. destruct (lookup_lt_is_Some_2 t i) as [x ->]; [lia|]. done.
  - rewrite lookup_ge_None_2 by (rewrite length_take; lia). f_equal. lia.
Qed.

Lemma length_shown t : length (shown n t out) = length out.
Proof. unfold shown, over. rewrite length_app, length_drop, length_take. lia. Qed.

Lemma emit_shown c t :
  emit n c (Z.of_nat (length t), shown n t out) =
  Some (Z.of_nat (length (t ++ [c mod 256])), shown n (t ++ [c mod 256]) out).
Proof.
  unfold emit. rewrite length_app. simpl. replace (Z.of_nat (length t + 1)) with (Z.of_nat (length t) + 1) by lia.
  destruct (Z.ltb_spec (Z.of_nat (length t) + 1) n).
  - rewrite set_char_eq by (rewrite length_shown; lia). simpl. do 2 f_equal.
    apply list_eq. intros i. rewrite Z.add_simpl_r, Nat2Z.id.
    destruct (decide (i = length t)) as [->|Hi].
    + rewrite list_lookup_insert_eq by (rewrite length_shown; lia). rewrite shown_lookup, length_app. simpl.
      rewrite decide_True by lia. by rewrite lookup_app_r, Nat.sub_diag by lia.
    + rewrite list_lookup_insert_ne by done. rewrite !shown_lookup, length_app. simpl.
      case_decide as E1; case_decide as E2; try lia; [|done]. by rewrite lookup_app_l by lia.
  - do 2 f_equal. apply list_eq. intros i. rewrite !shown_lookup, length_app. simpl.
    case_decide; case_decide; try lia; [|done]. by rewrite lookup_app_l by lia.
Qed.

Lemma fill_digits_spec k : forall num pos l,
  0 <= num -> 0 <= pos -> n <= Z.of_nat (length l) ->
  exists l', fill_digits n pos num k l = Some l' /\ length l' = length l /\
    forall i, l' !! i = if decide (pos <= Z.of_nat i < pos + Z.of_nat k /\ Z.of_nat i < n - 1)
      then dec_digits k num !! (i - Z.to_nat pos)%nat else l !! i.
Proof.
  induction k as [|k IH]; intros num pos l Hnum Hpos Hl; simpl.
  - exists l. split_and!; [done..|]. intros i. rewrite decide_False by lia. done.
  - set (l1 := if pos + Z.of_nat k + 1 <? n then <[Z.to_nat (pos + Z.of_nat k) := 48 + num mod 10]> l else l).
    assert ((if pos + Z.of_nat k + 1 <? n then set_char l (pos + Z.of_nat k) (ch "0" + Z.rem num 10) else Some l) = Some l1) as ->.
    { unfold l1. destruct (Z.ltb_spec (pos + Z.of_nat k + 1) n); [|done]. rewrite set_char_eq by lia.
      change (ch "0") with 48. rewrite Z.rem_mod_nonneg by lia. do 3 f_equal. zlia. }
    simpl. rewrite Z.quot_div_nonneg by lia.
    assert (length l1 = length l) as Hl1. { unfold l1. case_match; [|done]. by rewrite length_insert. }
    destruct (IH (num / 10) pos l1) as (l' & -> & Hlen & Hl'); [zlia|done|lia|].
    exists l'. split_and!; [done|lia|]. intros i. rewrite Hl'. clear Hl' IH. case_decide as E1.
    + rewrite decide_True by lia. rewrite lookup_app_l; [done|]. rewrite length_dec_digits. lia.
    + unfold l1. destruct (Z.ltb_spec (pos + Z.of_nat k + 1) n).
      * destruct (decide (i = Z.to_nat (pos + Z.of_nat k))) as [->|Hi].
        -- rewrite list_lookup_insert_eq by lia. rewrite decide_True by lia.
           rewrite lookup_app_r by (rewrite length_dec_digits; lia). rewrite length_dec_digits.
           by replace (Z.to_nat (pos + Z.of_nat k) - Z.to_nat pos - k)%nat with O by lia.
        -- rewrite list_lookup_insert_ne by done. rewrite decide_False by lia. done.
      * rewrite decide_False by lia. done.
Qed.

Lemma fill_shown k num t : 0 <= num ->
  fill_digits n (Z.of_nat (length t)) num k (shown n t out) = Some (shown n (t ++ dec_digits k num) out).
Proof.
  intros Hnum. destruct (fill_digits_spec k num (Z.of_nat (length t)) (shown n t out)) as (l' & -> & Hlen & Hl');
    [done|lia|rewrite length_shown; lia|].
  f_equal. apply list_eq. intros i. rewrite Hl', !shown_lookup, length_app, length_dec_digits, Nat2Z.id.
  case_decide as E1.
  - rewrite decide_True by lia. by rewrite lookup_app_r by lia.
  - case_decide as E2.
    + rewrite decide_True by lia. by rewrite lookup_app_l by lia.
    + rewrite decide_False by lia. done.
Qed.

Lemma hex_shown w num : forall t,
  emit_hex n num w (Z.of_nat (length t), shown n t out) =
  Some (Z.of_nat (length (t ++ hex_fixed w num)), shown n (t ++ hex_fixed w num) out).
Proof.
  induction w as [|w IH]; intros t.
  - simpl. by rewrite app_nil_r.
  - rewrite hex_fixed_S. cbn [emit_hex].
    assert (Z.land (Z.shiftr num (4 * Z.of_nat w)) 0xF = num / 16 ^ Z.of_nat w mod 16) as ->.
    { change 0xF with (Z.ones 4). rewrite Z.land_ones, Z.shiftr_div_pow2, Z.pow_mul_r by lia. done. }
    pose proof (Z.mod_pos_bound (num / 16 ^ Z.of_nat w) 16 eq_refl). set (d := num / 16 ^ Z.of_nat w mod 16) in *.
    assert ((if d <? 10 then ch "0" + d else ch "a" + d - 10) mod 256 = hex_digit d) as E.
    { change (ch "0") with 48. change (ch "a") with 97. unfold hex_digit. destruct (Z.ltb_spec d 10); rewrite Z.mod_small; lia. }
    rewrite emit_shown, E. simpl. rewrite IH, <- !app_assoc. done.
Qed.

Lemma string_shown p : forall s t, cstring p = Some s ->
  emit_string n p (Z.of_nat (length t), shown n t out) =
  Some (Z.of_nat (length (t ++ map (fun c => c mod 256) s)), shown n (t ++ map (fun c => c mod 256) s) out).
Proof.
  induction p as [|c p IH]; intros s t H; [done|]. cbn [cstring emit_string] in H |- *. destruct (c =? 0).
  - injection H as <-. simpl. by rewrite app_nil_r.
  - destruct (cstring p) as [s'|]; [|done]. injection H as <-. rewrite emit_shown. simpl.
    rewrite (IH s' _ eq_refl). simpl. by rewrite <- !app_assoc.
Qed.
End printf_lemmas.

(** ** Decimal numbers *)
Lemma codes_app s1 s2 : codes (s1 +:+ s2) = codes s1 ++ codes s2.
Proof. induction s1 as [|c s1 IH]; [done|]. unfold codes in *. simpl. by rewrite IH. Qed.

Lemma ch_digit x : (x < 10)%N -> ch (pretty_N_char x) = 48 + Z.of_N x.
Proof.
  intros H. assert (Forall (fun k => ch (pretty_N_char (Z.to_N k)) = 48 + k) (seqZ 0 10)) as Hall.
  { apply (bool_decide_unpack _). by vm_compute. }
  rewrite Forall_forall in Hall. rewrite <- Hall by (apply elem_of_seqZ; lia). by rewrite N2Z.id.
Qed.

(** The digit count, and the digits, are those of the decimal printer. *)
Lemma digits_pretty fuel : forall num d s,
  0 < num -> num < 10 ^ Z.of_nat fuel ->
  exists k, Printf.count_digits fuel num d = Some (d + Z.of_nat k) /\
    codes (pretty_N_go (Z.to_N num) s) = dec_digits (S k) num ++ codes s.
Proof.
  induction fuel as [|fuel IH]; intros num d s H0 H1; [simpl in H1; lia|].
  cbn [Printf.count_digits]. rewrite Z.quot_div_nonneg by lia.
  rewrite pretty_N_go_step by lia.
  assert (codes (String (pretty_N_char (Z.to_N num `mod` 10)) s) = (48 + num mod 10) :: codes s) as Hc.
  { unfold codes. simpl. rewrite ch_digit by (apply N.mod_lt; lia). f_equal. rewrite N2Z.inj_mod, Z2N.id by lia. done. }
  replace (Z.to_N num `div` 10)%N with (Z.to_N (num / 10)) by (rewrite Z2N.inj_div by lia; done).
  destruct (Z.eqb_spec (num / 10) 0) as [E|E].
  - exists O. split; [f_equal; lia|]. rewrite E. change (Z.to_N 0) with 0%N. rewrite pretty_N_go_0, Hc. done.
  - destruct (IH (num / 10) (d + 1) (String (pretty_N_char (Z.to_N num `mod` 10)) s)) as (k & Hk & Hs).
    + zlia.
    + rewrite Nat2Z.inj_succ, Z.pow_succ_r in H1 by lia. apply Z.div_lt_upper_bound; lia.
    + exists (S k). split; [rewrite Hk; f_equal; lia|]. rewrite Hs, Hc.
      change (dec_digits (S (S k)) num) with (dec_digits (S k) (num / 10) ++ [48 + num mod 10]).
      by rewrite <- app_assoc.
Qed.

Lemma decimal_pretty num : 0 <= num < 2 ^ 63 ->
  exists k, Printf.count_digits 20 num 1 = Some (Z.of_nat k) /\ codes (pretty num) = dec_digits k num.
Proof.
  intros H. destruct (Z.eq_dec num 0) as [->|Hne]; [by exists 1%nat|].
  destruct (digits_pretty 20 num 1 "" ltac:(lia) ltac:(lia)) as (k & Hk & Hs).
  exists (S k). split; [rewrite Hk; f_equal; lia|]. rewrite app_nil_r in Hs. rewrite <- Hs.
  destruct num; [lia| |lia]. unfold pretty, pretty_Z, pretty, pretty_positive, pretty, pretty_N. by rewrite decide_False.
Qed.

Section decimal.
Context (n : Z) (out : list Z) (Hn : 0 <= n <= Z.of_nat (length out)).

Lemma decimal_shown num t : - 2 ^ 63 < num < 2 ^ 63 ->
  Printf.emit_decimal n num (Z.of_nat (length t), shown n t out) =
  Some (Z.of_nat (length (t ++ codes (pretty num))), shown n (t ++ codes (pretty num)) out).
Proof.
  intros Hnum.
  assert (forall num t, 0 <= num < 2 ^ 63 ->
    (Printf.count_digits 20 num 1 ≫= fun digits => (fun o => (Z.of_nat (length t) + digits, o)) <$>
      Printf.fill_digits n (Z.of_nat (length t)) num (Z.to_nat digits) (shown n t out)) =
    Some (Z.of_nat (length (t ++ codes (pretty num))), shown n (t ++ codes (pretty num)) out)) as Hpos.
  { intros x t' Hx. destruct (decimal_pretty x Hx) as (k & -> & ->). simpl. rewrite Nat2Z.id, fill_shown by lia.
    simpl. by rewrite length_app, length_dec_digits, Nat2Z.inj_add. }
  unfold Printf.emit_decimal. destruct (Z.ltb_spec num 0).
  - rewrite emit_shown by done. change (ch "-" mod 256) with (ch "-"). cbn [option_fmap option_map fmap mbind option_bind].
    assert (i64 (- num) = - num) as -> by (unfold i64; rewrite Z.mod_small; lia).
    assert (codes (pretty num) = [ch "-"] ++ codes (pretty (- num))) as -> by (destruct num; [lia|lia|done]).
    rewrite Hpos by lia. by rewrite <- !app_assoc.
  - cbn [mbind option_bind]. by rewrite Hpos by lia.
Qed.
End decimal.

(** ** The main loop *)
Lemma render_cons_inv fetch pos d ds vl text : render_from fetch pos (d :: ds) vl = Some text ->
  exists t1 vl1 t2, render_one (fetch pos) d vl = Some (t1, vl1) /\
    render_from fetch (pos + Z.of_nat (length t1)) ds vl1 = Some t2 /\ text = t1 ++ t2.
Proof.
  cbn [render_from]. destruct (render_one _ d vl) as [[t1 vl1]|]; [|done]. simpl.
  destruct (render_from _ _ ds vl1) as [t2|] eqn:E; [|done]. intros [= <-]. by exists t1, vl1, t2.
Qed.


Lemma i64_range x : - 2 ^ 63 <= i64 x < 2 ^ 63.
Proof. unfold i64. pose proof (Z.mod_pos_bound (x + 2 ^ 63) (2 ^ 64)). lia. Qed.

Lemma render_hex ft b vl t vl1 : render_one ft (Hex b) vl = Some (t, vl1) ->
  exists num, Printf.va_num b vl = Some (num, vl1) /\ t = hex_fixed (if b then 16 else 8)%nat num.
Proof. destruct b, vl as [|[]]; try done; intros [= <- <-]; by eexists. Qed.

Lemma render_ptr ft vl t vl1 : render_one ft Ptr vl = Some (t, vl1) ->
  exists num, Printf.va_num true vl = Some (num, vl1) /\ t = ch "0" :: ch "x" :: hex_fixed 16 num.
Proof. destruct vl as [|[]]; try done; intros [= <- <-]; by eexists. Qed.

Lemma render_dec ft b vl t vl1 : render_one ft (Dec b) vl = Some (t, vl1) ->
  exists num, Printf.va_num b vl = Some (num, vl1) /\ - 2 ^ 63 < num < 2 ^ 63 /\ t = codes (pretty num).
Proof.
  destruct b, vl as [|[z|z|p] vl]; try done; cbn [render_one].
  - pose proof (i64_range z). destruct (Z.eqb_spec (i64 z) (- 2 ^ 63)); [done|]. intros [= <- <-].
    exists (i64 z). split_and!; [done|lia|lia|done].
  - pose proof (i32_range z). intros [= <- <-]. exists (i32 z). split_and!; [done|lia|lia|done].
Qed.

Lemma render_str ft vl t vl1 : render_one ft Str vl = Some (t, vl1) ->
  exists p s, Printf.va_string vl = Some (p, vl1) /\ cstring p = Some s /\ t = map (fun c => c mod 256) s.
Proof.
  destruct vl as [|[z|z|p] vl]; try done. cbn [render_one].
  destruct (cstring p) as [s|] eqn:E; [|done]. intros [= <- <-]. by exists p, s.
Qed.

(** The case ['c']: the character is fetched and written where it fits. *)
Lemma chr_shown n out (Hn : 0 <= n <= Z.of_nat (length out)) t vl t1 vl1 :
  render_one (Z.of_nat (length t) + 1 <? n) Chr vl = Some (t1, vl1) ->
  if Z.of_nat (length t) + 1 <? n then exists x, Printf.va_num false vl = Some (x, vl1) /\
    Printf.set_char (shown n t out) (Z.of_nat (length t) + 1 - 1) x = Some (shown n (t ++ t1) out) /\
    Z.of_nat (length t) + 1 = Z.of_nat (length (t ++ t1))
  else vl1 = vl /\ shown n t out = shown n (t ++ t1) out /\ Z.of_nat (length t) + 1 = Z.of_nat (length (t ++ t1)).
Proof.
  cbn [render_one]. destruct (Z.of_nat (length t) + 1 <? n) eqn:E.
  - destruct vl as [|[z|z|p] vl]; try done. intros [= <- <-]. exists (i32 z).
    pose proof (emit_shown n out Hn (i32 z) t) as H. unfold Printf.emit in H. rewrite E in H.
    replace (i32 z mod 256) with (z mod 256) in H by (unfold i32; zlia).
    destruct (Printf.set_char _ _ _) as [o|]; [|done]. injection H as H ->. done.
  - intros [= <- <-]. pose proof (emit_shown n out Hn (ch "?") t) as H. unfold Printf.emit in H. rewrite E in H.
    by injection H as ? ?.
Qed.

(** The main loop appends the text of the rest of the format. *)
Lemma format_loop_renders n out (Hn : 0 <= n <= Z.of_nat (length out)) p : forall s format longarg vl t text,
  cstring p = Some s ->
  render_from (fun pos => pos + 1 <? n) (Z.of_nat (length t)) (parse format longarg s) vl = Some text ->
  Printf.format_loop n p format longarg vl (Z.of_nat (length t), shown n t out) =
  Some (Z.of_nat (length (t ++ text)), shown n (t ++ text) out).
Proof.
  induction p as [|c p IH]; intros s format longarg vl t text Hs Hr; [done|].
  cbn [cstring] in Hs. cbn [Printf.format_loop]. destruct (c =? 0).
  { injection Hs as <-. injection Hr as <-. by rewrite app_nil_r. }
  destruct (cstring p) as [s'|] eqn:Ep; [|done]. injection Hs as <-.
  assert (forall f l vl t t1 text,
    render_from (fun pos => pos + 1 <? n) (Z.of_nat (length t) + Z.of_nat (length t1)) (parse f l s') vl = Some text ->
    Printf.format_loop n p f l vl (Z.of_nat (length (t ++ t1)), shown n (t ++ t1) out) =
    Some (Z.of_nat (length (t ++ t1 ++ text)), shown n (t ++ t1 ++ text) out)) as IH1.
  { intros f l vl0 t0 t1 text0 H. rewrite app_assoc. apply (IH s'); [done|]. by rewrite length_app, Nat2Z.inj_add. }
  specialize (fun f l vl t text => IH s' f l vl t text eq_refl) as IH0. clear IH.
  cbn [parse] in Hr. destruct format.
  2:{ destruct (c =? ch "%"); [by apply IH0|]. apply render_cons_inv in Hr as (t1 & vl1 & t2 & [= <- <-] & Hr & ->).
      rewrite emit_shown by done. cbn [mbind option_bind]. by apply IH1. }
  destruct (c =? ch "l"); [by apply IH0|].
  destruct (c =? ch "p").
  { apply render_cons_inv in Hr as (t1 & vl1 & t2 & (num & Hv & ->)%render_ptr & Hr & ->).
    rewrite emit_shown by done. cbn [mbind option_bind]. rewrite emit_shown by done. cbn [mbind option_bind].
    rewrite Hv. cbn [mbind option_bind]. rewrite hex_shown by done. cbn [mbind option_bind].
    rewrite <- !(app_assoc t). by apply IH1. }
  destruct (c =? ch "x").
  { apply render_cons_inv in Hr as (t1 & vl1 & t2 & (num & Hv & ->)%render_hex & Hr & ->).
    rewrite Hv. cbn [mbind option_bind]. rewrite hex_shown by done. cbn [mbind option_bind]. by apply IH1. }
  destruct (c =? ch "d").
  { apply render_cons_inv in Hr as (t1 & vl1 & t2 & (num & Hv & Hrange & ->)%render_dec & Hr & ->).
    rewrite Hv. cbn [mbind option_bind]. rewrite decimal_shown by done. cbn [mbind option_bind]. by apply IH1. }
  destruct (c =? ch "s").
  { apply render_cons_inv in Hr as (t1 & vl1 & t2 & (p2 & s2 & Hv & Hp2 & ->)%render_str & Hr & ->).
    rewrite Hv. cbn [mbind option_bind]. rewrite (string_shown n out Hn p2 s2) by done. cbn [mbind option_bind].
    by apply IH1. }
  destruct (c =? ch "c"); [|by apply IH0].
  apply render_cons_inv in Hr as (t1 & vl1 & t2 & H1%(chr_shown n out Hn) & Hr & ->). cbn zeta.
  destruct (Z.of_nat (length t) + 1 <? n).
  - destruct H1 as (x & -> & Hset & Hpos). cbn [mbind option_bind]. rewrite Hset, Hpos. by apply IH1.
  - destruct H1 as (-> & -> & ->). by apply IH1.
Qed.

Lemma vsnprintf_text out n p s vl text :
  0 <= n <= Z.of_nat (length out) -> cstring p = Some s -> render_cut n (parse false false s) vl = Some text ->
  Printf.vsnprintf out n p vl =
  Some (i32 (Z.of_nat (length text)),
        if n =? 0 then out else over (take (Z.to_nat (n - 1)) text ++ [0]) out).
Proof.
  intros Hn Hp Hr. unfold Printf.vsnprintf.
  pose proof (format_loop_renders n out Hn p s false false vl [] text Hp Hr) as H.
  replace (shown n [] out) with out in H by (unfold shown, over; rewrite take_nil; done).
  change (Z.of_nat (length [])) with 0 in H. change ([] ++ text) with text in H.
  rewrite H. cbn [mbind option_bind].
  assert (forall k, k = length (take (Z.to_nat (n - 1)) text) -> (k < length out)%nat ->
    Printf.set_char (shown n text out) (Z.of_nat k) 0 = Some (over (take (Z.to_nat (n - 1)) text ++ [0]) out)) as Hset.
  { intros k -> Hk. rewrite set_char_eq by (rewrite length_shown; lia). f_equal. rewrite Nat2Z.id.
    unfold shown, over. rewrite insert_app_r_alt, Nat.sub_diag, length_app by lia. simpl.
    destruct (lookup_lt_is_Some_2 out _ Hk) as [x Hx]. rewrite (drop_S _ _ _ Hx). simpl.
    rewrite <- app_assoc. do 2 f_equal. simpl. f_equal. lia. }
  destruct (Z.ltb_spec (Z.of_nat (length text)) n) as [Hlt|Hge].
  - destruct (Z.eqb_spec n 0); [lia|]. rewrite Hset; [done|rewrite length_take; lia|lia].
  - destruct (Z.eqb_spec n 0) as [->|Hn0]; simpl.
    + unfold shown, over. simpl. done.
    + replace (n - 1) with (Z.of_nat (Z.to_nat (n - 1))) at 1 by lia.
      rewrite Hset; [done|rewrite length_take; lia|lia].
Qed.

(** ** [util/string.c]: [atol] *)
(** The loop [while ( *str ) res = res * 10 + ( *str++ - '0')], on [long]. *)
Fixpoint atol_digits (str : list Z) (res : Z) : option Z :=
  match str with
  | [] => None
  | c :: str => if c =? 0 then Some res else atol_digits str (i64 (i64 (res * 10) + (c - ch "0")))
  end.
Fixpoint skip_spaces (str : list Z) : list Z :=
  match str with
  | c :: str' => if c =? ch " " then skip_spaces str' else str
  | [] => []
  end.
Definition atol (str : list Z) : option Z :=
  match skip_spaces str with
  | [] => None
  | c :: str' =>
      let signed := (c =? ch "-") || (c =? ch "+") in
      let sign := signed && (c =? ch "-") in
      (fun res => if sign then i64 (- res) else res) <$> atol_digits (if signed then str' else c :: str') 0
  end.

(** Reading the digits of a number appends them to what has been read. *)
Lemma atol_dec_digits k : forall num res rest,
  0 <= num < 10 ^ Z.of_nat k -> 0 <= res -> res * 10 ^ Z.of_nat k + num < 2 ^ 63 ->
  atol_digits (dec_digits k num ++ rest) res = atol_digits rest (res * 10 ^ Z.of_nat k + num).
Proof.
  induction k as [|k IH]; intros num res rest Hnum Hres Hb.
  - simpl in *. f_equal. lia.
  - rewrite Nat2Z.inj_succ, Z.pow_succ_r in * by lia. cbn [dec_digits]. rewrite <- app_assoc.
    rewrite IH; [|split; [zlia|apply Z.div_lt_upper_bound; lia]|lia|].
    2:{ pose proof (Z.div_mod num 10). pose proof (Z.mod_pos_bound num 10). nia. }
    cbn [app atol_digits]. destruct (Z.eqb_spec (48 + num mod 10) 0); [zlia|]. f_equal. change (ch "0") with 48.
    set (q := 10 ^ Z.of_nat k) in *. assert (0 < q) by (unfold q; lia).
    pose proof (Z.div_mod num 10). pose proof (Z.mod_pos_bound num 10).
    rewrite (i64_small ((res * q + num / 10) * 10)) by nia. rewrite i64_small by nia. nia.
Qed.

Lemma dec_digits_head k : forall num, 0 < Z.of_nat k -> exists c r, dec_digits k num = c :: r /\ 48 <= c < 58.
Proof.
  induction k as [|[|k] IH]; intros num Hk; [lia| |].
  - simpl. exists (48 + num mod 10), []. split; [done|zlia].
  - destruct (IH (num / 10) ltac:(lia)) as (c & r & E & ?).
    change (dec_digits (S (S k)) num) with (dec_digits (S k) (num / 10) ++ [48 + num mod 10]).
    rewrite E. by exists c, (r ++ [48 + num mod 10]).
Qed.

Lemma digits_bound fuel : forall num d k, 0 <= num -> Printf.count_digits fuel num d = Some (d + Z.of_nat k) ->
  num < 10 ^ (Z.of_nat k + 1).
Proof.
  induction fuel as [|fuel IH]; intros num d k Hnum; [done|]. cbn [Printf.count_digits].
  rewrite Z.quot_div_nonneg by lia. destruct (Z.eqb_spec (num / 10) 0) as [E|E].
  - intros [= Hd]. assert (k = O) as -> by lia. simpl. zlia.
  - intros H. destruct k as [|k].
    + exfalso. assert (forall f x e r, Printf.count_digits f x e = Some r -> e <= r) as Hmono.
      { clear. induction f as [|f IH]; intros x e r; [done|]. cbn [Printf.count_digits]. destruct (_ =? 0).
        - intros [= <-]. lia.
        - intros H%IH. lia. }
      apply Hmono in H. lia.
    + replace (d + Z.of_nat (S k)) with (d + 1 + Z.of_nat k) in H by lia. apply IH in H; [|zlia].
      replace (Z.of_nat (S k) + 1) with (Z.succ (Z.of_nat k + 1)) by lia. rewrite Z.pow_succ_r by lia.
      pose proof (Z.div_mod num 10). pose proof (Z.mod_pos_bound num 10). nia.
Qed.

Lemma atol_nonneg num rest : 0 <= num < 2 ^ 63 ->
  exists c r, codes (pretty num) ++ rest = c :: r /\ 48 <= c < 58 /\ atol_digits (c :: r) 0 = atol_digits rest num.
Proof.
  intros H. destruct (decimal_pretty num H) as (k & Hk & ->).
  destruct k as [|k].
  - exfalso. destruct (Z.eq_dec num 0) as [->|Hne]; [done|].
    destruct (digits_pretty 20 num 1 "" ltac:(lia) ltac:(lia)) as (k & Hk' & _). rewrite Hk in Hk'. injection Hk'. lia.
  - destruct (dec_digits_head (S k) num ltac:(lia)) as (c & r & E & Hc).
    exists c, (r ++ rest). rewrite E. split_and!; [done|lia|lia|].
    change (c :: r ++ rest) with ((c :: r) ++ rest). rewrite <- E, atol_dec_digits; [done| |lia|lia].
    split; [lia|]. replace (Z.of_nat (S k)) with (1 + Z.of_nat k) in * by lia.
    rewrite Z.add_comm. by eapply digits_bound; [lia|].
Qed.


(** C34: round trip of decimal numbers: [atol] of what ["%ld"] prints for a number
    into a buffer with room for it is that number, for every [long] but the
    smallest one. *)
Theorem printf_atol_roundtrip z out n :
  - 2 ^ 63 < z < 2 ^ 63 -> Z.of_nat (length (codes (pretty z))) < n <= Z.of_nat (length out) ->
  exists pos text, Printf.vsnprintf out n (codes "%ld" ++ [0]) [VLong z] = Some (pos, text) /\ atol text = Some z.
Proof.
  intros Hz Hn. assert (i64 z = z) as Ez by (apply i64_small; lia).
  assert (render_cut n (parse false false (codes "%ld")) [VLong z] = Some (codes (pretty z))) as Hr.
  { change (parse false false (codes "%ld")) with [Dec true]. unfold render_cut. cbn [render_from render_one]. rewrite Ez.
    destruct (Z.eqb_spec z (- 2 ^ 63)); [lia|]. simpl. by rewrite app_nil_r. }
  rewrite (vsnprintf_text out n (codes "%ld" ++ [0]) (codes "%ld") [VLong z] _ ltac:(lia) eq_refl Hr). destruct (Z.eqb_spec n 0); [lia|].
  rewrite take_ge by lia. eexists _, _. split; [done|]. unfold over. rewrite <- app_assoc.
  set (rest := [0] ++ _). assert (forall x, atol_digits rest x = Some x) as Hrest by done.
  destruct (Z.ltb_spec z 0) as [Hneg|Hpos].
  - assert (codes (pretty z) = [ch "-"] ++ codes (pretty (- z))) as -> by (destruct z; [lia|lia|done]).
    destruct (atol_nonneg (- z) rest ltac:(lia)) as (c & r & E & _ & Ha).
    rewrite <- app_assoc, E. unfold atol. cbn [app skip_spaces].
    change (ch "-" =? ch " ") with false. cbn iota. change (ch "-" =? ch "-") with true. cbn [orb andb].
    rewrite Ha, Hrest. simpl. f_equal. rewrite i64_small; lia.
  - destruct (atol_nonneg z rest ltac:(lia)) as (c & r & E & Hc & Ha). rewrite E. unfold atol, skip_spaces.
    change (ch " ") with 32. change (ch "-") with 45. change (ch "+") with 43.
    destruct (Z.eqb_spec c 32); [lia|]. destruct (Z.eqb_spec c 45); [lia|]. destruct (Z.eqb_spec c 43); [lia|].
    simpl orb. cbn [andb]. rewrite Ha, Hrest. done.
Qed.

(** The smallest [long] has no negation: ["%ld"] prints characters that are not
    digits. *)
Lemma vsnprintf_long_min : exists c text,
  Printf.vsnprintf (replicate 32 0) 32 (codes "%ld" ++ [0]) [VLong (- 2 ^ 63)] = Some (20, ch "-" :: c :: text) /\
  c < ch "0".
Proof. eexists _, _. split; [by vm_compute|by vm_compute]. Qed.

(** ["%%"] is not an escape: both characters disappear and the next letter is
    taken as a directive. *)
Lemma percent_is_dropped vl : render (parse false false (codes "100%% done")) vl = render (map Lit (codes "100") ++ [Dec false] ++ map Lit (codes "one")) vl.
Proof. done. Qed.

(** A ["%c"] beyond the room of the buffer leaves its argument to the next
    directive: the returned length, 3, is that of [A65], not that of [A5]. *)
Lemma vsnprintf_cut_char :
  Printf.vsnprintf [7] 1 (codes "%c%d" ++ [0]) [VInt (ch "A"); VInt 5] = Some (3, [0]) /\
  (length <$> render (parse false false (codes "%c%d")) [VInt (ch "A"); VInt 5]) = Some 2%nat.
Proof. split; by vm_compute. Qed.


Lemma printf_atol_roundtrip_witness : exists pos text,
  Printf.vsnprintf (replicate 32 7) 32 (codes "%ld" ++ [0]) [VLong (-9876543210)] = Some (pos, text) /\
  atol text = Some (-9876543210).
Proof. apply (printf_atol_roundtrip (-9876543210) (replicate 32 7) 32); [lia|split; by vm_compute]. Defined.
