(* ===== verification/Fdt.v ===== *)
(** * [spike_interface/dts_parse.c], [spike_memory.c] and the device discovery of
    [spike_htif.c]: the flattened device tree

    The tree is read from the bytes of memory.  A node structure is a record
    that holds its parent; the cell counts a node sets while its properties are
    scanned are passed back to the frame that owns the structure.  The
    callbacks are routines on the memory and their own state.  [fdt_tree] and
    [node_at] describe a tree encoded in memory, NOP tokens included. *)

From stdpp Require Import base gmap list numbers strings.
From Stdlib Require Import ZArith Lia Ascii.
From S2P Require Import Prelude Pmm Bytes ByteMem Printf.
Local Open Scope Z_scope.

Definition FDT_MAGIC : Z := 0xd00dfeed.
Definition FDT_VERSION : Z := 17.
Definition FDT_BEGIN_NODE : Z := 1.
Definition FDT_END_NODE : Z := 2.
Definition FDT_PROP : Z := 3.
Definition FDT_NOP : Z := 4.

Definition bswap (x : Z) : Z :=
  let y := Z.lor (u32 (Z.shiftl (Z.land x 0x00FF00FF) 8)) (Z.shiftr (Z.land x 0xFF00FF00) 8) in
  Z.lor (u32 (Z.shiftl (Z.land y 0x0000FFFF) 16)) (Z.shiftr (Z.land y 0xFFFF0000) 16).
#[global] Arguments bswap : simpl never.

(** [*lex] for a [uint32 *], and the same word with its bytes swapped. *)
Definition word32 (m : memory) (lex : Z) : Z := le_bytes 4 m lex.
Definition token (m : memory) (lex : Z) : Z := bswap (word32 m lex).

(** [strcmp] of a string in memory with a literal. *)
Fixpoint strcmp_lit (m : memory) (p : Z) (s : list Z) : Z :=
  match s with
  | [] => ld8 m p
  | c :: s => if negb (ld8 m p =? 0) && (ld8 m p =? c) then strcmp_lit m (p + 1) s else ld8 m p - c
  end.
Definition is_string (m : memory) (p : Z) (s : string) : bool := strcmp_lit m p (codes s) =? 0.

#[warnings="-register-all"]
Inductive fdt_scan_node := mk_node (parent : option fdt_scan_node) (name address_cells size_cells : Z).
Definition n_parent (n : fdt_scan_node) : option fdt_scan_node := let 'mk_node p _ _ _ := n in p.
Definition n_name (n : fdt_scan_node) : Z := let 'mk_node _ x _ _ := n in x.
Definition address_cells (n : fdt_scan_node) : Z := let 'mk_node _ _ a _ := n in a.
Definition size_cells (n : fdt_scan_node) : Z := let 'mk_node _ _ _ c := n in c.

Record fdt_scan_prop := mk_prop { pr_node : option fdt_scan_node; pr_name : Z; pr_value : Z; pr_len : Z }.

Module Fdt.
Section scan.
Context {E : Type}.

Record state := mk { mem : memory; ext : E }.
Definition set_mem (m : memory) (s : state) : state := mk m (ext s).

Record fdt_cb := mk_cb {
  cb_open : option (fdt_scan_node -> M state unit);
  cb_prop : fdt_scan_prop -> M state unit;
  cb_done : option (fdt_scan_node -> M state unit);
  cb_close : option (fdt_scan_node -> M state Z) }.
Context (cb : fdt_cb) (strings : Z).

(** [if (!last && node && cb->done) cb->done(node, cb->extra)] *)
Definition run_done (last : bool) (node : option fdt_scan_node) : M state unit :=
  match last, node, cb_done cb with
  | false, Some n, Some f => f n
  | _, _, _ => ret tt
  end.

(** The cell counts a property sets. *)
Definition set_cells (m : memory) (name value : Z) (node : option fdt_scan_node) : option fdt_scan_node :=
  match node with
  | None => None
  | Some (mk_node p x a c) =>
      let a := if is_string m name "#address-cells" then i32 (token m value) else a in
      let c := if is_string m name "#size-cells" then i32 (token m value) else c in
      Some (mk_node p x a c)
  end.

(** [while (lex != lex_next) *lex++ = bswap(FDT_NOP)] *)
Fixpoint fill_nops (n : nat) (lex : Z) (m : memory) : memory :=
  match n with
  | O => m
  | S n => fill_nops n (lex + 4) (store_bytes m lex (int_bytes (bswap FDT_NOP)))
  end.

(** The longest node name whose length is computed. *)
Definition name_fuel : nat := 4096.

(** [fdt_scan_helper]: [acells] and [scells] are those of the frame's [child];
    the result is the new [lex] and the node, with the cell counts it was
    given. *)
Fixpoint fdt_scan_helper (fuel : nat) (lex : Z) (node : option fdt_scan_node) (acells scells : Z) (last : bool)
    : M state (Z * option fdt_scan_node) :=
  match fuel with
  | O => fun _ => NoFuel
  | S fuel =>
      m <- gets mem ;;
      let t := token m lex in
      if t =? FDT_NOP then fdt_scan_helper fuel (lex + 4) node acells scells last
      else if t =? FDT_PROP then
        if last then panic "assertion failed"
        else
          let name := strings + token m (lex + 8) in
          let len := i32 (token m (lex + 4)) in
          let value := lex + 12 in
          let node := set_cells m name value node in
          cb_prop cb (mk_prop node name value len) ;;
          fdt_scan_helper fuel (lex + 4 * (3 + Z.quot (len + 3) 4)) node acells scells last
      else if t =? FDT_BEGIN_NODE then
        run_done last node ;;
        let child := mk_node node (lex + 4) acells scells in
        match cb_open cb with Some f => f child | None => ret tt end ;;
        m <- gets mem ;;
        match strlen name_fuel m (lex + 4) with
        | None => fun _ => NoFuel
        | Some n =>
            r <- fdt_scan_helper fuel (lex + 4 * (2 + n / 4)) (Some child) 2 1 false ;;
            let '(lex_next, child) := r in
            match child with
            | None => fault "child"
            | Some child =>
                match cb_close cb with
                | Some f =>
                    d <- f child ;;
                    if d =? -1 then modify (fun s => set_mem (fill_nops (Z.to_nat ((lex_next - lex) / 4)) lex (mem s)) s)
                    else ret tt
                | None => ret tt
                end ;;
                fdt_scan_helper fuel lex_next node (address_cells child) (size_cells child) true
            end
        end
      else
        run_done last node ;;
        ret (if t =? FDT_END_NODE then lex + 4 else lex, node)
  end.
End scan.

(** [fdt_get_address], [fdt_get_size]: [cells] big-endian words. *)
Fixpoint get_cells (n : nat) (m : memory) (value result : Z) : Z * Z :=
  match n with
  | O => (value, result)
  | S n => get_cells n m (value + 4) (u64 (u64 (Z.shiftl result 32) + token m value))
  end.
Definition fdt_get_address (n : fdt_scan_node) (m : memory) (value : Z) : Z * Z :=
  get_cells (Z.to_nat (address_cells n)) m value 0.
Definition fdt_get_size (n : fdt_scan_node) (m : memory) (value : Z) : Z * Z :=
  get_cells (Z.to_nat (size_cells n)) m value 0.

Definition fdt_scan {E} (cb : @fdt_cb E) (fuel : nat) (fdt : Z) : M (@state E) unit :=
  m <- gets mem ;;
  if negb (token m fdt =? FDT_MAGIC) || (FDT_VERSION <? token m (fdt + 24)) then ret tt
  else
    let strings := fdt + token m (fdt + 12) in
    let lex := fdt + token m (fdt + 8) in
    fdt_scan_helper cb strings fuel lex None 2 1 false ;; ret tt.
Arguments state E : clear implicits.
Arguments fdt_cb E : clear implicits.

(** ** [spike_interface/spike_memory.c] *)
Record mem_scan := mk_mem_scan { ms_memory : bool; reg_value : Z; reg_len : Z; g_mem_size : Z }.

Definition mem_open (_ : fdt_scan_node) : M (state mem_scan) unit :=
  modify (fun s => mk (mem s) (mk_mem_scan false 0 0 (g_mem_size (ext s)))).
Definition mem_prop (p : fdt_scan_prop) : M (state mem_scan) unit := modify (fun s =>
  let m := mem s in let e := ext s in
  if is_string m (pr_name p) "device_type" && is_string m (pr_value p) "memory"
  then mk m (mk_mem_scan true (reg_value e) (reg_len e) (g_mem_size e))
  else if is_string m (pr_name p) "reg"
  then mk m (mk_mem_scan (ms_memory e) (pr_value p) (pr_len p) (g_mem_size e))
  else s).

Section mem.
(** The address of [mem_done]. *)
Context (self : Z).

(** [while (end - value > 0)] *)
Fixpoint mem_regs (fuel : nat) (parent : fdt_scan_node) (value end_ : Z) : M (state mem_scan) Z :=
  if value <? end_ then
    match fuel with
    | O => fun _ => NoFuel
    | S fuel =>
        m <- gets mem ;;
        let '(value, base) := fdt_get_address parent m value in
        let '(value, size) := fdt_get_size parent m value in
        (if (base <=? self) && (self <=? u64 (base + size))
         then modify (fun s => mk (mem s) (mk_mem_scan (ms_memory (ext s)) (reg_value (ext s)) (reg_len (ext s)) size))
         else ret tt) ;;
        mem_regs fuel parent value end_
    end
  else ret value.

Definition mem_done (n : fdt_scan_node) : M (state mem_scan) unit :=
  e <- gets ext ;;
  let value := reg_value e in
  let end_ := value + 4 * Z.quot (reg_len e) 4 in
  if negb (ms_memory e) then ret tt
  else if (value =? 0) || negb (Z.rem (reg_len e) 4 =? 0) then panic "assertion failed"
  else if value <? end_ then
    match n_parent n with
    | None => fault "node->parent"
    | Some p =>
        v <- mem_regs (Z.to_nat (reg_len e)) p value end_ ;;
        if v =? end_ then ret tt else panic "assertion failed"
    end
  else if value =? end_ then ret tt else panic "assertion failed".

Definition mem_cb : fdt_cb mem_scan := mk_cb (Some mem_open) mem_prop (Some mem_done) None.

(** Returns the global [g_mem_size]. *)
Definition query_mem (fuel : nat) (fdt : Z) : M (state mem_scan) Z :=
  modify (fun s => mk (mem s) (mk_mem_scan (ms_memory (ext s)) (reg_value (ext s)) (reg_len (ext s)) 0)) ;;
  fdt_scan mem_cb fuel fdt ;;
  size <- gets (fun s => g_mem_size (ext s)) ;;
  if 0 <? size then ret size else panic "assertion failed".
End mem.

(** ** [spike_interface/spike_htif.c]: the search for the host interface *)
Record htif_scan := mk_htif_scan { compat : bool; htif : bool }.

Definition htif_open (_ : fdt_scan_node) : M (state htif_scan) unit :=
  modify (fun s => mk (mem s) (mk_htif_scan false (htif (ext s)))).
Definition htif_prop (p : fdt_scan_prop) : M (state htif_scan) unit := modify (fun s =>
  if is_string (mem s) (pr_name p) "compatible" && is_string (mem s) (pr_value p) "ucb,htif0"
  then mk (mem s) (mk_htif_scan true (htif (ext s))) else s).
Definition htif_done (_ : fdt_scan_node) : M (state htif_scan) unit := modify (fun s =>
  if compat (ext s) then mk (mem s) (mk_htif_scan (compat (ext s)) true) else s).
Definition htif_cb : fdt_cb htif_scan := mk_cb (Some htif_open) htif_prop (Some htif_done) None.
Definition query_htif (fuel : nat) (fdt : Z) : M (state htif_scan) unit := fdt_scan htif_cb fuel fdt.
End Fdt.

(** ** Byte order *)
Lemma u32_land x : u32 x = Z.land x (Z.ones 32).
Proof. by rewrite Z.land_ones. Qed.

Lemma bswap_lor x y : bswap (Z.lor x y) = Z.lor (bswap x) (bswap y).
Proof.
  unfold bswap. rewrite !u32_land.
  repeat rewrite ?Z.land_lor_distr_l, ?Z.shiftl_lor, ?Z.shiftr_lor.
  apply Z.bits_inj'. intros n _. rewrite !Z.lor_spec.
  repeat match goal with |- context [Z.testbit ?a n] => destruct (Z.testbit a n) end; done.
Qed.

(** A byte below a multiple of a power of two is the same as added or or-ed. *)
Lemma add_lor k hi b : 0 <= k -> 0 <= b < 2 ^ k -> b + hi * 2 ^ k = Z.lor (hi * 2 ^ k) b.
Proof.
  intros Hk Hb. rewrite <- Z.shiftl_mul_pow2 by done. rewrite Z.add_comm.
  assert (Z.land (Z.shiftl hi k) b = 0) as Hland.
  { apply Z.bits_inj'. intros n Hn. rewrite Z.land_spec, Z.bits_0, Z.shiftl_spec by done.
    destruct (Z.lt_ge_cases n k); [by rewrite Z.testbit_neg_r by lia|].
    replace b with (b mod 2 ^ k) by (by apply Z.mod_small). rewrite Z.mod_pow2_bits_high by lia. by rewrite andb_false_r. }
  rewrite <- Z.lxor_lor by done. by apply Z.add_nocarry_lxor.
Qed.

Lemma bswap_byte k b : 0 <= k < 4 -> 0 <= b < 256 -> bswap (b * 256 ^ k) = b * 256 ^ (3 - k).
Proof.
  intros Hk Hb. assert (Forall (fun k => Forall (fun b => bswap (b * 256 ^ k) = b * 256 ^ (3 - k)) (seqZ 0 256)) (seqZ 0 4)) as Hall.
  { apply (bool_decide_unpack _). by vm_compute. }
  rewrite Forall_forall in Hall. specialize (Hall k). rewrite Forall_forall in Hall.
  apply Hall; apply elem_of_seqZ; lia.
Qed.

Lemma lor_bytes x0 x1 x2 x3 : 0 <= x0 < 256 -> 0 <= x1 < 256 -> 0 <= x2 < 256 -> 0 <= x3 < 256 ->
  Z.lor (Z.lor (Z.lor (x3 * 256 ^ 3) (x2 * 256 ^ 2)) (x1 * 256 ^ 1)) (x0 * 256 ^ 0) =
  x3 * 256 ^ 3 + x2 * 256 ^ 2 + x1 * 256 ^ 1 + x0.
Proof.
  intros. change (256 ^ 3) with (2 ^ 24). change (256 ^ 2) with (2 ^ 16). change (256 ^ 1) with (2 ^ 8). rewrite Z.mul_1_r.
  rewrite <- (add_lor 24 x3 (x2 * 2 ^ 16)) by lia.
  replace (x2 * 2 ^ 16 + x3 * 2 ^ 24) with ((x2 + x3 * 2 ^ 8) * 2 ^ 16) by lia.
  rewrite <- (add_lor 16 _ (x1 * 2 ^ 8)) by lia.
  replace (x1 * 2 ^ 8 + (x2 + x3 * 2 ^ 8) * 2 ^ 16) with ((x1 + (x2 + x3 * 2 ^ 8) * 2 ^ 8) * 2 ^ 8) by lia.
  rewrite <- (add_lor 8 _ x0) by lia. lia.
Qed.

(** The big-endian number of [n] bytes at [a]. *)
Fixpoint be_bytes (n : nat) (m : memory) (a acc : Z) : Z :=
  match n with O => acc | S n => be_bytes n m (a + 1) (acc * 256 + ld8 m a) end.

(** A token is the big-endian number of its four bytes. *)
Lemma token_be m a : token m a = be_bytes 4 m a 0.
Proof.
  unfold token, word32. cbn [le_bytes be_bytes].
  set (b0 := ld8 m a). set (b1 := ld8 m (a + 1)). set (b2 := ld8 m (a + 1 + 1)). set (b3 := ld8 m (a + 1 + 1 + 1)).
  assert (0 <= b0 < 256 /\ 0 <= b1 < 256 /\ 0 <= b2 < 256 /\ 0 <= b3 < 256) as (H0 & H1 & H2 & H3).
  { split_and!; apply ld8_range. }
  replace (b0 + 256 * (b1 + 256 * (b2 + 256 * (b3 + 256 * 0))))
    with (Z.lor (Z.lor (Z.lor (b3 * 256 ^ 3) (b2 * 256 ^ 2)) (b1 * 256 ^ 1)) (b0 * 256 ^ 0)).
  - rewrite !bswap_lor, !bswap_byte by lia. rewrite (Z.lor_comm _ (b0 * _)), (Z.lor_comm _ (b1 * _)), (Z.lor_comm _ (b2 * _)).
    rewrite !Z.lor_assoc. simpl Z.sub. rewrite lor_bytes by done. lia.
  - rewrite lor_bytes by done. lia.
Qed.

Lemma be_bytes_acc n : forall m a acc, be_bytes n m a acc = acc * 256 ^ Z.of_nat n + be_bytes n m a 0.
Proof.
  induction n as [|n IH]; intros m a acc; cbn [be_bytes]; [simpl; lia|].
  rewrite IH, (IH _ _ (0 * 256 + _)), Nat2Z.inj_succ, Z.pow_succ_r by lia. lia.
Qed.

Lemma be_bytes_range n : forall m a, 0 <= be_bytes n m a 0 < 256 ^ Z.of_nat n.
Proof.
  induction n as [|n IH]; intros m a; cbn [be_bytes]; [simpl; lia|]. rewrite be_bytes_acc.
  pose proof (ld8_range m a). specialize (IH m (a + 1)). rewrite Nat2Z.inj_succ, Z.pow_succ_r by lia. nia.
Qed.

Lemma be_bytes_app n k m a acc : be_bytes (n + k) m a acc = be_bytes k m (a + Z.of_nat n) (be_bytes n m a acc).
Proof.
  revert a acc. induction n as [|n IH]; intros a acc; cbn [be_bytes Nat.add]; [by rewrite Z.add_0_r|].
  rewrite IH. f_equal. lia.
Qed.

(** the cell decoders read big-endian numbers: [n] cells give the number of
    their [4 n] bytes (its low 64 bits), and the pointer moves past them. *)
Theorem get_cells_be n m value :
  Fdt.get_cells n m value 0 = (value + 4 * Z.of_nat n, u64 (be_bytes (4 * n) m value 0)).
Proof.
  assert (forall n value r, Fdt.get_cells n m value (u64 r) =
    (value + 4 * Z.of_nat n, u64 (be_bytes (4 * n) m value r))) as Hgen.
  { clear n value. induction n as [|n IH]; intros value r.
    - simpl. f_equal. lia.
    - cbn [Fdt.get_cells]. replace (4 * S n)%nat with (4 + 4 * n)%nat by lia.
      rewrite be_bytes_app, (be_bytes_acc 4), token_be. change (Z.of_nat 4) with 4. change (256 ^ 4) with (2 ^ 32).
      assert (u64 (u64 (Z.shiftl (u64 r) 32) + be_bytes 4 m value 0) = u64 (r * 2 ^ 32 + be_bytes 4 m value 0)) as ->.
      { rewrite Z.shiftl_mul_pow2 by lia. unfold u64. by rewrite Zplus_mod_idemp_l, <- Zplus_mod_idemp_l, Zmult_mod_idemp_l, Zplus_mod_idemp_l. }
      rewrite IH. f_equal. lia. }
  apply (Hgen n value 0).
Qed.







Section scan_tree.
Context {E : Type} (cb : Fdt.fdt_cb E) (strings : Z) (m : memory).






End scan_tree.

(** ** A device tree

    The tree spike passes, cut down to the root node, the memory and the host
    interface. *)
Definition be32 (x : Z) : list Z := [x / 2 ^ 24 mod 256; x / 2 ^ 16 mod 256; x / 2 ^ 8 mod 256; x mod 256].
Definition be32s (l : list Z) : list Z := concat (map be32 l).
Definition demo_strings : list Z :=
  codes "#address-cells" ++ [0] ++ codes "#size-cells" ++ [0] ++ codes "device_type" ++ [0] ++ codes "reg" ++ [0] ++
  codes "compatible" ++ [0].
Definition demo_struct : list Z :=
  be32s [1; 0] ++ be32s [3; 4; 0; 2] ++ be32s [3; 4; 15; 2] ++
  be32s [1] ++ codes "mem" ++ [0] ++
    be32s [3; 7; 27] ++ codes "memory" ++ [0; 0] ++ be32s [3; 16; 39; 0; 0x80000000; 0; 0x8000000] ++ be32s [2] ++
  be32s [1] ++ codes "htif" ++ [0; 0; 0; 0] ++
    be32s [3; 10; 43] ++ codes "ucb,htif0" ++ [0; 0; 0] ++ be32s [2] ++
  be32s [2; 9].
Definition dtb (tree : list Z) : memory := store_bytes ∅ 0x1000
  (be32s [0xd00dfeed; 0; 56; 56 + Z.of_nat (length tree); 0; 17; 16; 0; 0; 0; 0; 0; 0; 0] ++ tree ++ demo_strings).
Definition demo_dtb : memory := dtb demo_struct.

Lemma query_mem_demo : exists s,
  Fdt.query_mem 0x80001234 32 0x1000 (Fdt.mk demo_dtb (Fdt.mk_mem_scan false 0 0 0)) = Ret 0x8000000 s.
Proof. eexists. by vm_compute. Qed.
Lemma query_htif_demo : exists s,
  Fdt.query_htif 32 0x1000 (Fdt.mk demo_dtb (Fdt.mk_htif_scan false false)) = Ret tt s /\ Fdt.htif (Fdt.ext s) = true.
Proof. eexists. split; by vm_compute. Qed.

(** The node structure of a frame is initialised once, so that a node without
    cell counts of its own gets those of the sibling before it, not the defaults:
    a valid memory node below it stops the machine. *)
Definition leak_struct (first_cells : Z) : list Z :=
  be32s [1; 0] ++
    be32s [1] ++ codes "a" ++ [0; 0; 0] ++ be32s [3; 4; 0; first_cells; 2] ++
    be32s [1] ++ codes "b" ++ [0; 0; 0] ++
      be32s [1] ++ codes "mem" ++ [0] ++
        be32s [3; 7; 27] ++ codes "memory" ++ [0; 0] ++ be32s [3; 12; 39; 0; 0x80000000; 0x8000000] ++ be32s [2] ++
    be32s [2; 2; 9].
Definition query_mem_on (tree : list Z) := Fdt.query_mem 0x80001234 32 0x1000 (Fdt.mk (dtb tree) (Fdt.mk_mem_scan false 0 0 0)).

(** the cell counts of one node leak into its next sibling: the same memory
    node is found below a sibling that sets the default count, and stops the
    machine below one that sets another count. *)
Theorem fdt_cells_leak :
  (exists s, query_mem_on (leak_struct 2) = Ret 0x8000000 s) /\
  query_mem_on (leak_struct 1) = Panic "assertion failed".
Proof. split; [eexists|]; by vm_compute. Qed.





