(* ===== verification/Htif.v ===== *)
(** * [spike_interface/spike_htif.c], [spike_htif.h]: the host-target interface

    The kernel and the host talk through the registers [tohost] and [fromhost],
    which the host changes on its own: every volatile read of the kernel is
    preceded by a step of the device, the parameter [HtifDevice].  The loops
    that wait for the host get fuel; the relation [served] describes how a
    device serves a request, with console input arriving in between. *)

From stdpp Require Import base gmap list numbers strings.
From Stdlib Require Import ZArith Lia.
From S2P Require Import Prelude Pmm.
Local Open Scope Z_scope.

Definition TOHOST_CMD (dev cmd payload : Z) : Z :=
  Z.lor (Z.lor (u64 (Z.shiftl dev 56)) (u64 (Z.shiftl cmd 48))) (u64 payload).
Definition FROMHOST_DEV (x : Z) : Z := Z.shiftr x 56.
Definition FROMHOST_CMD (x : Z) : Z := Z.shiftr (u64 (Z.shiftl x 8)) 56.
Definition FROMHOST_DATA (x : Z) : Z := Z.shiftr (u64 (Z.shiftl x 16)) 16.

(** One step of the host on [tohost], [fromhost], the memory and its own state. *)
Class HtifDevice (D : Type) := dev_step : Z -> Z -> memory -> D -> Z * Z * memory * D.

Module Htif.
Section ops.
Context {D : Type} `{HtifDevice D}.

Record state := mk {
  tohost : Z; fromhost : Z; htif_console_buf : Z; htif_lock : Z; mem : memory; device : D }.
Definition set_tohost (x : Z) (s : state) : state :=
  mk x (fromhost s) (htif_console_buf s) (htif_lock s) (mem s) (device s).
Definition set_fromhost (x : Z) (s : state) : state :=
  mk (tohost s) x (htif_console_buf s) (htif_lock s) (mem s) (device s).
Definition set_console (x : Z) (s : state) : state :=
  mk (tohost s) (fromhost s) x (htif_lock s) (mem s) (device s).
Definition set_lock (x : Z) (s : state) : state :=
  mk (tohost s) (fromhost s) (htif_console_buf s) x (mem s) (device s).

(** Volatile reads: the host moves first. *)
Definition poll : M state unit := modify (fun s =>
  let '(th, fh, m, d) := dev_step (tohost s) (fromhost s) (mem s) (device s) in
  mk th fh (htif_console_buf s) (htif_lock s) m d).
Definition read_tohost : M state Z := poll ;; gets tohost.
Definition read_fromhost : M state Z := poll ;; gets fromhost.

Definition spinlock_lock : M state unit := fun s =>
  if htif_lock s =? 0 then Ret tt (set_lock (-1) s) else NoFuel.
Definition spinlock_unlock : M state unit := modify (set_lock 0).

Definition check_fromhost : M state unit :=
  fh <- read_fromhost ;;
  if fh =? 0 then ret tt
  else
    modify (set_fromhost 0) ;;
    if negb (FROMHOST_DEV fh =? 1) then panic "assertion failed"
    else if FROMHOST_CMD fh =? 0 then modify (set_console (1 + FROMHOST_DATA fh mod 256))
    else if FROMHOST_CMD fh =? 1 then ret tt
    else panic "assertion failed".

Fixpoint set_tohost_loop (fuel : nat) (dev cmd data : Z) : M state unit :=
  match fuel with
  | O => fun _ => NoFuel
  | S fuel =>
      th <- read_tohost ;;
      if th =? 0 then modify (set_tohost (TOHOST_CMD dev cmd data))
      else check_fromhost ;; set_tohost_loop fuel dev cmd data
  end.

Fixpoint wait_fromhost (fuel : nat) (dev cmd : Z) : M state unit :=
  match fuel with
  | O => fun _ => NoFuel
  | S fuel =>
      fh <- read_fromhost ;;
      if fh =? 0 then wait_fromhost fuel dev cmd
      else if (FROMHOST_DEV fh =? dev) && (FROMHOST_CMD fh =? cmd) then modify (set_fromhost 0)
      else check_fromhost ;; wait_fromhost fuel dev cmd
  end.

Definition do_tohost_fromhost (fuel : nat) (dev cmd data : Z) : M state unit :=
  spinlock_lock ;;
  set_tohost_loop fuel dev cmd data ;;
  wait_fromhost fuel dev cmd ;;
  spinlock_unlock.

Definition htif_syscall (fuel : nat) (arg : Z) : M state unit := do_tohost_fromhost fuel 0 0 arg.

Definition htif_console_putchar (fuel : nat) (ch : Z) : M state unit :=
  spinlock_lock ;;
  set_tohost_loop fuel 1 1 (ch mod 256) ;;
  spinlock_unlock.

Definition htif_console_getchar (fuel : nat) : M state Z :=
  spinlock_lock ;;
  check_fromhost ;;
  ch <- gets htif_console_buf ;;
  (if 0 <=? ch then modify (set_console (-1)) ;; set_tohost_loop fuel 1 0 0 else ret tt) ;;
  spinlock_unlock ;;
  ret (ch - 1).

(** [htif_poweroff] never returns: the host stops the machine when it sees the
    request. *)
Fixpoint htif_poweroff (fuel : nat) : M state unit :=
  match fuel with
  | O => fun _ => NoFuel
  | S fuel => modify (set_fromhost 0) ;; modify (set_tohost 1) ;; htif_poweroff fuel
  end.
End ops.
Arguments state D : clear implicits.
End Htif.

(** ** Words of the interface *)
Lemma lor_shift hi lo k : 0 <= k -> 0 <= lo < 2 ^ k -> Z.lor (Z.shiftl hi k) lo = hi * 2 ^ k + lo.
Proof.
  intros Hk Hlo. rewrite Z.shiftl_mul_pow2 by done.
  assert (Z.land (hi * 2 ^ k) lo = 0) as Hland.
  { apply Z.bits_inj'. intros n Hn. rewrite Z.land_spec, Z.bits_0, <- Z.shiftl_mul_pow2, Z.shiftl_spec by done.
    destruct (Z.lt_ge_cases n k); [by rewrite Z.testbit_neg_r by lia|].
    replace lo with (lo mod 2 ^ k) by (by apply Z.mod_small). rewrite Z.mod_pow2_bits_high by lia. by rewrite andb_false_r. }
  rewrite <- Z.lxor_lor by done. symmetry. by apply Z.add_nocarry_lxor.
Qed.

Lemma TOHOST_CMD_eq dev cmd data : 0 <= dev < 256 -> 0 <= cmd < 256 -> 0 <= data < 2 ^ 48 ->
  TOHOST_CMD dev cmd data = dev * 2 ^ 56 + cmd * 2 ^ 48 + data.
Proof.
  intros Hd Hc Hdata. unfold TOHOST_CMD. rewrite !Z.shiftl_mul_pow2 by lia. rewrite !u64_small by lia.
  rewrite <- (Z.shiftl_mul_pow2 dev 56), (lor_shift dev) by lia.
  replace (dev * 2 ^ 56 + cmd * 2 ^ 48) with ((dev * 256 + cmd) * 2 ^ 48) by lia.
  rewrite <- (Z.shiftl_mul_pow2 (dev * 256 + cmd) 48), lor_shift, ?Z.shiftl_mul_pow2 by lia. lia.
Qed.

(** device, command and payload of a host request are read back unchanged
    from its word, for payloads of 48 bits. *)
Theorem htif_word_roundtrip dev cmd data :
  0 <= dev < 256 -> 0 <= cmd < 256 -> 0 <= data < 2 ^ 48 ->
  let w := TOHOST_CMD dev cmd data in
  FROMHOST_DEV w = dev /\ FROMHOST_CMD w = cmd /\ FROMHOST_DATA w = data.
Proof.
  intros Hd Hc Hdata. cbv zeta. rewrite TOHOST_CMD_eq by done.
  unfold FROMHOST_DEV, FROMHOST_CMD, FROMHOST_DATA. rewrite !Z.shiftl_mul_pow2, !Z.shiftr_div_pow2 by lia. unfold u64.
  split_and!.
  - symmetry. apply Z.div_unique with (cmd * 2 ^ 48 + data); lia.
  - replace ((dev * 2 ^ 56 + cmd * 2 ^ 48 + data) * 2 ^ 8) with (cmd * 2 ^ 56 + data * 2 ^ 8 + dev * 2 ^ 64) by lia.
    rewrite Z.mod_add, Z.mod_small by lia. symmetry. apply Z.div_unique with (data * 2 ^ 8); lia.
  - replace ((dev * 2 ^ 56 + cmd * 2 ^ 48 + data) * 2 ^ 16) with (data * 2 ^ 16 + (dev * 256 + cmd) * 2 ^ 64) by lia.
    rewrite Z.mod_add, Z.mod_small by lia. by rewrite Z.div_mul by lia.
Qed.

Lemma htif_word_roundtrip_witness :
  FROMHOST_DEV (TOHOST_CMD 1 0 0x41) = 1 /\ FROMHOST_CMD (TOHOST_CMD 1 0 0x41) = 0 /\ FROMHOST_DATA (TOHOST_CMD 1 0 0x41) = 0x41.
Proof. apply (htif_word_roundtrip 1 0 0x41); lia. Defined.

(** ** Serving a request *)
Section serve.
Context {D : Type} `{HtifDevice D}.

(** [served dev cmd th d m b n d' m' b']: with the request [th] posted, the
    device [d] answers it in [n] rounds, leaving [d'] and [m'], while console
    input turns the console buffer from [b] into [b']. *)
Inductive served (dev cmd : Z) : Z -> D -> memory -> Z -> nat -> D -> memory -> Z -> Prop :=
  | served_answer th d m b r d' m' :
      dev_step th 0 m d = (0, r, m', d') -> r <> 0 -> FROMHOST_DEV r = dev -> FROMHOST_CMD r = cmd ->
      served dev cmd th d m b 1 d' m' b
  | served_wait th d m b th1 m1 d1 n d' m' b' :
      dev_step th 0 m d = (th1, 0, m1, d1) ->
      served dev cmd th1 d1 m1 b n d' m' b' ->
      served dev cmd th d m b (S n) d' m' b'
  | served_console th d m b th1 fh m1 d1 n d' m' b' :
      dev_step th 0 m d = (th1, fh, m1, d1) -> fh <> 0 -> FROMHOST_DEV fh = 1 -> FROMHOST_CMD fh = 0 ->
      dev_step th1 fh m1 d1 = (th1, fh, m1, d1) ->
      served dev cmd th1 d1 m1 (1 + FROMHOST_DATA fh mod 256) n d' m' b' ->
      served dev cmd th d m b (S n) d' m' b'.

Lemma read_fromhost_eq th fh b l m d th1 fh1 m1 d1 : dev_step th fh m d = (th1, fh1, m1, d1) ->
  Htif.read_fromhost (Htif.mk th fh b l m d) = Ret fh1 (Htif.mk th1 fh1 b l m1 d1).
Proof. intros E. unfold Htif.read_fromhost, Htif.poll, bind, modify, gets. simpl. by rewrite E. Qed.

(** The wait ends with the answer, and console input is kept. *)
Lemma wait_served dev cmd th d m b n d' m' b' fuel l :
  dev <> 1 -> served dev cmd th d m b n d' m' b' -> (n <= fuel)%nat ->
  Htif.wait_fromhost fuel dev cmd (Htif.mk th 0 b l m d) = Ret tt (Htif.mk 0 0 b' l m' d').
Proof.
  intros Hdev Hs. revert fuel. induction Hs as [th d m b r d' m' E Hr Hd Hc|th d m b th1 m1 d1 n d' m' b' E Hs IH|
    th d m b th1 fh m1 d1 n d' m' b' E Hfh Hd Hc E2 Hs IH]; intros [|fuel] Hf; try lia; cbn [Htif.wait_fromhost].
  - mstep (read_fromhost_eq th 0 b l m d _ _ _ _ E). destruct (Z.eqb_spec r 0); [done|].
    rewrite Hd, Hc, !Z.eqb_refl. done.
  - mstep (read_fromhost_eq th 0 b l m d _ _ _ _ E). rewrite Z.eqb_refl. apply IH. lia.
  - mstep (read_fromhost_eq th 0 b l m d _ _ _ _ E). destruct (Z.eqb_spec fh 0); [done|].
    rewrite Hd. destruct (Z.eqb_spec 1 dev); [by subst|]. cbn [andb].
    assert (Htif.check_fromhost (Htif.mk th1 fh b l m1 d1) = Ret tt (Htif.mk th1 0 (1 + FROMHOST_DATA fh mod 256) l m1 d1)) as Ec.
    { unfold Htif.check_fromhost. mstep (read_fromhost_eq th1 fh b l m1 d1 _ _ _ _ E2).
      destruct (Z.eqb_spec fh 0); [done|]. rewrite bind_modify, Hd, Hc. done. }
    mstep Ec. apply IH. lia.
Qed.

(** C22: a system call to the host returns when the host answers it: whatever
    number of rounds the host takes and whatever console input arrives in the
    meantime, the call ends with the host's effect on the memory, both registers
    clear, the lock free and the last input character buffered. *)
Theorem htif_syscall_served arg s d1 m1 n d' m' b' fuel :
  Htif.htif_lock s = 0 -> Htif.tohost s = 0 -> Htif.fromhost s = 0 ->
  dev_step 0 0 (Htif.mem s) (Htif.device s) = (0, 0, m1, d1) ->
  served 0 0 (TOHOST_CMD 0 0 arg) d1 m1 (Htif.htif_console_buf s) n d' m' b' ->
  (n <= fuel)%nat ->
  Htif.htif_syscall fuel arg s = Ret tt (Htif.mk 0 0 b' 0 m' d').
Proof.
  intros Hl Ht Hfr Hidle Hs Hf. destruct s as [th fh b l m d]. simpl in *. subst th fh l.
  assert (1 <= n)%nat by (destruct Hs; lia). destruct fuel as [|fuel]; [lia|].
  unfold Htif.htif_syscall, Htif.do_tohost_fromhost.
  assert (Htif.set_tohost_loop (S fuel) 0 0 arg (Htif.mk 0 0 b (-1) m d) = Ret tt (Htif.mk (TOHOST_CMD 0 0 arg) 0 b (-1) m1 d1)) as E1.
  { cbn [Htif.set_tohost_loop]. unfold Htif.read_tohost, Htif.poll, bind, modify, gets. simpl. by rewrite Hidle. }
  rewrite (bind_Ret _ _ _ tt (Htif.mk 0 0 b (-1) m d)) by done. mstep E1.
  mstep (wait_served 0 0 _ _ _ _ _ _ _ _ (S fuel) (-1) ltac:(done) Hs Hf). done.
Qed.
End serve.

(** A device that types a character before it serves a call: it counts down,
    then types ['A'], then answers, storing its answer at the address given. *)
Definition demo_device : HtifDevice nat := fun th fh m n =>
  if fh =? 0 then
    match n with
    | O => if th =? 0 then (0, 0, m, O) else (0, 1, st64 m th 42, O)
    | S O => if th =? 0 then (0, 0, m, 1%nat) else (th, TOHOST_CMD 1 0 0x41, m, O)
    | S n => if th =? 0 then (0, 0, m, S n) else (th, 0, m, n)
    end
  else (th, fh, m, n).

Lemma htif_syscall_served_witness :
  Htif.htif_syscall (H := demo_device) 5 0x1000 (Htif.mk 0 0 (-1) 0 ∅ 2%nat)
    = Ret tt (Htif.mk 0 0 (1 + 0x41) 0 (st64 ∅ 0x1000 42) O).
Proof.
  apply (htif_syscall_served (H := demo_device) 0x1000 (Htif.mk 0 0 (-1) 0 ∅ 2%nat) 2%nat ∅ 3 O (st64 ∅ 0x1000 42) (1 + 0x41) 5).
  - reflexivity.
  - reflexivity.
  - reflexivity.
  - reflexivity.
  - eapply served_wait; [reflexivity|]. eapply served_console; [reflexivity|done|reflexivity|reflexivity|reflexivity|].
    eapply served_answer; [reflexivity|done|reflexivity|reflexivity].
  - lia.
Defined.
