(* ===== verification/Rfs.v ===== *)
(** * [kernel/ramdev.c], [kernel/rfs.c]: the RAM disk file system

    One RAM disk of 128 blocks of 4096 bytes with its [iobuffer], at the level
    of bytes: disk inodes and directory entries are decoded from and encoded
    into the blocks the way the C structures are laid out.  Vfs inodes are
    objects in a heap indexed by their page, so that the vinode a caller passes
    and the one an operation updates are the same object.  Pages come from any
    [PageAllocator].  An access outside a buffer or an array is a [Fault]. *)

From stdpp Require Import base gmap list numbers strings.
From Stdlib Require Import ZArith Lia.
From S2P Require Import Prelude Pmm Bytes.
Local Open Scope Z_scope.

(** ** Constants of [kernel/rfs.h], [kernel/ramdev.h], [kernel/vfs.h], [util/types.h] *)
Definition RAMDISK_BLOCK_COUNT : Z := 128.
Definition RAMDISK_BLOCK_SIZE : Z := PGSIZE.
Definition RFS_MAGIC : Z := 0xBEAF.
Definition RFS_BLKSIZE : Z := PGSIZE.
Definition RFS_INODESIZE : Z := 128.
Definition RFS_MAX_INODE_BLKNUM : Z := 10.
Definition RFS_MAX_FILE_NAME_LEN : Z := 28.
Definition RFS_DIRECT_BLKNUM : Z := 10.
Definition RFS_BLK_OFFSET_SUPER : Z := 0.
Definition RFS_BLK_OFFSET_INODE : Z := 1.
Definition RFS_BLK_OFFSET_BITMAP : Z := 11.
Definition RFS_BLK_OFFSET_FREE : Z := 12.
Definition FILE_I : Z := 0.
Definition DIR_I : Z := 1.
Definition R_FILE : Z := FILE_I.
Definition R_DIR : Z := DIR_I.
Definition R_FREE : Z := 2.
Definition LSEEK_SET : Z := 0.
Definition LSEEK_CUR : Z := 1.
Definition sizeof_direntry : Z := 32.
Definition sizeof_dinode : Z := 56.

(** ** Data *)
Record rfs_dinode := mk_dinode {
  d_size : Z; d_type : Z; d_nlinks : Z; d_blocks : Z; d_addrs : list Z }.

Record vinode := mk_vinode {
  inum : Z; ref : Z; size : Z; type : Z; nlinks : Z; blocks : Z; addrs : list Z; i_fs_info : Z;
  v_sb : Z }.

Record dentry := mk_dentry { d_name : list Z; d_inode : Z; d_parent : Z; d_ref : Z }.

Record istat := mk_istat { st_inum : Z; st_size : Z; st_type : Z; st_nlinks : Z; st_blocks : Z }.

Definition set_size (x : Z) (v : vinode) : vinode :=
  mk_vinode (inum v) (ref v) x (type v) (nlinks v) (blocks v) (addrs v) (i_fs_info v) (v_sb v).
Definition set_nlinks (x : Z) (v : vinode) : vinode :=
  mk_vinode (inum v) (ref v) (size v) (type v) x (blocks v) (addrs v) (i_fs_info v) (v_sb v).
Definition set_blocks (x : Z) (v : vinode) : vinode :=
  mk_vinode (inum v) (ref v) (size v) (type v) (nlinks v) x (addrs v) (i_fs_info v) (v_sb v).
Definition set_addrs (l : list Z) (v : vinode) : vinode :=
  mk_vinode (inum v) (ref v) (size v) (type v) (nlinks v) (blocks v) l (i_fs_info v) (v_sb v).
Definition set_inum (x : Z) (v : vinode) : vinode :=
  mk_vinode x (ref v) (size v) (type v) (nlinks v) (blocks v) (addrs v) (i_fs_info v) (v_sb v).
Definition set_ref (x : Z) (v : vinode) : vinode :=
  mk_vinode (inum v) x (size v) (type v) (nlinks v) (blocks v) (addrs v) (i_fs_info v) (v_sb v).
Definition set_fs_info (x : Z) (v : vinode) : vinode :=
  mk_vinode (inum v) (ref v) (size v) (type v) (nlinks v) (blocks v) (addrs v) x (v_sb v).

(** The bytes of a [struct rfs_dinode] and back. *)
Definition dinode_ints (d : rfs_dinode) : list Z :=
  d_size d :: d_type d :: d_nlinks d :: d_blocks d :: d_addrs d.
Definition dinode_bytes (d : rfs_dinode) : list Z := ints_bytes (dinode_ints d).
Definition bytes_dinode (l : list Z) : rfs_dinode :=
  match bytes_ints 14 l with
  | a :: b :: c :: d :: r => mk_dinode a b c d r
  | _ => mk_dinode 0 0 0 0 []
  end.

(** A page holding a [struct rfs_dir_cache]: [block_count], [dir_base_addr]. *)
Record dir_cache := mk_cache { block_count : Z; dir_base_addr : Z }.

Module Rfs.
Section ops.
Context {A : Type} `{PA : PageAllocator A}.

Record state := mk {
  disk : list (list Z);          (* d_address: the blocks of the RAM disk *)
  iobuffer : list Z;
  nblocks : Z;                   (* sb->nblocks *)
  freemap : list Z;              (* sb->s_fs_info *)
  vinodes : gmap Z vinode;
  dentries : gmap Z dentry;
  caches : gmap Z dir_cache;
  dir_pages : gmap Z (list Z);   (* pages of directory blocks read by opendir *)
  pages : A;
}.

Definition set_disk (d : list (list Z)) (s : state) : state :=
  mk d (iobuffer s) (nblocks s) (freemap s) (vinodes s) (dentries s) (caches s) (dir_pages s) (pages s).
Definition set_iobuffer (b : list Z) (s : state) : state :=
  mk (disk s) b (nblocks s) (freemap s) (vinodes s) (dentries s) (caches s) (dir_pages s) (pages s).
Definition set_super (n : Z) (f : list Z) (s : state) : state :=
  mk (disk s) (iobuffer s) n f (vinodes s) (dentries s) (caches s) (dir_pages s) (pages s).
Definition set_vinodes (v : gmap Z vinode) (s : state) : state :=
  mk (disk s) (iobuffer s) (nblocks s) (freemap s) v (dentries s) (caches s) (dir_pages s) (pages s).
Definition set_dentries (v : gmap Z dentry) (s : state) : state :=
  mk (disk s) (iobuffer s) (nblocks s) (freemap s) (vinodes s) v (caches s) (dir_pages s) (pages s).
Definition set_caches (v : gmap Z dir_cache) (s : state) : state :=
  mk (disk s) (iobuffer s) (nblocks s) (freemap s) (vinodes s) (dentries s) v (dir_pages s) (pages s).
Definition set_dir_pages (v : gmap Z (list Z)) (s : state) : state :=
  mk (disk s) (iobuffer s) (nblocks s) (freemap s) (vinodes s) (dentries s) (caches s) v (pages s).
Definition set_pages (a : A) (s : state) : state :=
  mk (disk s) (iobuffer s) (nblocks s) (freemap s) (vinodes s) (dentries s) (caches s) (dir_pages s) a.

Definition alloc_page : M state Z := zoom pages set_pages pa_alloc.
Definition free_page (p : Z) : M state unit := zoom pages set_pages (pa_free p).
(** [alloc_page] whose result is dereferenced at once. *)
Definition alloc_object : M state Z :=
  p <- alloc_page ;; if p =? 0 then fault "NULL page" else ret p.

Definition get_vinode (v : Z) : M state vinode := fun s => of_option "no vinode" (vinodes s !! v) s.
Definition upd_vinode (v : Z) (f : vinode -> vinode) : M state unit :=
  modify (fun s => set_vinodes (alter f v (vinodes s)) s).
(** [vinode->addrs\[i\]]. *)
Definition addr_at (n : vinode) (i : Z) : M state Z :=
  if i <? 0 then fault "addrs index" else of_option "addrs index" (addrs n !! Z.to_nat i).

(** Copies into and out of the [iobuffer]. *)
Definition to_iobuffer (off : Z) (bs : list Z) : M state unit :=
  b <- gets iobuffer ;;
  b' <- of_option "iobuffer overflow" (splice off bs b) ;;
  modify (set_iobuffer b').
Definition from_iobuffer (off n : Z) : M state (list Z) :=
  b <- gets iobuffer ;;
  of_option "iobuffer overflow" (slice off n b).
(** The [char *] at an offset of the [iobuffer]. *)
Definition iobuffer_ptr (off : Z) : M state (list Z) := gets (fun s => drop (Z.to_nat off) (iobuffer s)).

(** ** [kernel/ramdev.c] *)
Definition ramdisk_write (blkno : Z) : M state Z :=
  if (blkno <? 0) || (RAMDISK_BLOCK_COUNT <=? blkno) then panic "ramdisk_write: write block No out of range!"
  else modify (fun s => set_disk (<[Z.to_nat blkno := iobuffer s]> (disk s)) s) ;; ret 0.

Definition ramdisk_read (blkno : Z) : M state Z :=
  if (blkno <? 0) || (RAMDISK_BLOCK_COUNT <=? blkno) then panic "ramdisk_read: read block No out of range!"
  else
    b <- (fun s => of_option "disk" (disk s !! Z.to_nat blkno) s) ;;
    modify (set_iobuffer b) ;; ret 0.

(** ** Utility functions of [kernel/rfs.c] *)
Definition rfs_r1block (n_block : Z) : M state Z := ramdisk_read n_block.
Definition rfs_w1block (n_block : Z) : M state Z := ramdisk_write n_block.

Definition dinode_block (n_inode : Z) : Z := Z.quot n_inode (RFS_BLKSIZE / RFS_INODESIZE) + RFS_BLK_OFFSET_INODE.
Definition dinode_offset (n_inode : Z) : Z := Z.rem n_inode (RFS_BLKSIZE / RFS_INODESIZE).

(** The page the disk inode is copied into, and its content. *)
Definition rfs_read_dinode (n_inode : Z) : M state (Z * rfs_dinode) :=
  ramdisk_read (dinode_block n_inode) ;;
  p <- alloc_object ;;
  bs <- from_iobuffer (dinode_offset n_inode * RFS_INODESIZE) sizeof_dinode ;;
  ret (p, bytes_dinode bs).

Definition rfs_write_dinode (d : rfs_dinode) (n_inode : Z) : M state Z :=
  ramdisk_read (dinode_block n_inode) ;;
  to_iobuffer (dinode_offset n_inode * RFS_INODESIZE) (dinode_bytes d) ;;
  ramdisk_write (dinode_block n_inode).

(** The loop of [rfs_alloc_block]: the first free block at or after [block]. *)
Fixpoint find_free (fm : list Z) (block : Z) : option Z :=
  match fm with
  | [] => None
  | x :: fm => if x =? 0 then Some block else find_free fm (block + 1)
  end.

Definition rfs_alloc_block : M state Z :=
  n <- gets nblocks ;;
  fm <- gets freemap ;;
  if Z.of_nat (length fm) <? n then fault "freemap index"
  else
    match find_free (take (Z.to_nat n) fm) 0 with
    | Some block =>
        modify (set_super n (<[Z.to_nat block := 1]> fm)) ;;
        ret (RFS_BLK_OFFSET_FREE + block)
    | None => panic "rfs_alloc_block: no more free block!"
    end.

Definition rfs_free_block (block_num : Z) : M state Z :=
  n <- gets nblocks ;;
  fm <- gets freemap ;;
  let i := block_num - RFS_BLK_OFFSET_FREE in
  if (i <? 0) || (Z.of_nat (length fm) <=? i) then fault "freemap index"
  else modify (set_super n (<[Z.to_nat i := 0]> fm)) ;; ret 0.

Definition vinode_dinode (v : vinode) : rfs_dinode :=
  mk_dinode (size v) (type v) (nlinks v) (blocks v) (addrs v).

Definition rfs_write_back_vinode (v : Z) : M state Z :=
  n <- get_vinode v ;;
  r <- rfs_write_dinode (vinode_dinode n) (inum n) ;;
  if negb (r =? 0) then ret (-1) else ret 0.

Definition load_dinode (d : rfs_dinode) (v : vinode) : vinode :=
  mk_vinode (inum v) (ref v) (d_size d) (d_type d) (d_nlinks d) (d_blocks d) (d_addrs d) (i_fs_info v) (v_sb v).

Definition rfs_update_vinode (v : Z) : M state Z :=
  n <- get_vinode v ;;
  let* (p, d) := rfs_read_dinode (inum n) in
  upd_vinode v (load_dinode d) ;;
  free_page p ;;
  ret 0.

(** [default_alloc_vinode] of [kernel/vfs.c]: [type], [addrs] and [i_fs_info]
    are left as the page has them. *)
Context (garbage : Z -> vinode).

Definition default_alloc_vinode (sb : Z) : M state Z :=
  p <- alloc_object ;;
  let g := garbage p in
  modify (fun s => set_vinodes (<[p := mk_vinode 0 0 0 (type g) 0 0 (addrs g) (i_fs_info g) sb]> (vinodes s)) s) ;;
  ret p.
(** Which operations serve a vinode is seen from its superblock. *)
Definition rfs_alloc_vinode (sb : Z) : M state Z := default_alloc_vinode sb.

Definition rfs_add_direntry (dir : Z) (name : list Z) (inum : Z) : M state Z :=
  d <- get_vinode dir ;;
  if negb (type d =? DIR_I) then ret (-1)
  else
    n_block <- addr_at d (Z.quot (size d) RFS_BLKSIZE) ;;
    rfs_r1block n_block ;;
    let off := Z.rem (size d) RFS_BLKSIZE in
    to_iobuffer off (int_bytes inum) ;;
    to_iobuffer (off + 4) (name ++ [0]) ;;
    rfs_w1block n_block ;;
    upd_vinode dir (set_size (size d + sizeof_direntry)) ;;
    r <- rfs_write_back_vinode dir ;;
    if negb (r =? 0) then ret (-1) else ret 0.

(** ** File interface *)

(** The loop over complete blocks of [rfs_read]. *)
Fixpoint read_blocks (n : nat) (f : vinode) (block_offset : Z) (buffer : list Z) : M state (Z * list Z) :=
  match n with
  | O => ret (block_offset, buffer)
  | S n =>
      a <- addr_at f block_offset ;;
      rfs_r1block a ;;
      bs <- from_iobuffer 0 RFS_BLKSIZE ;;
      read_blocks n f (block_offset + 1) (buffer ++ bs)
  end.

(** The result, the bytes stored through [r_buf], and the new [*offset]. *)
Definition rfs_read (f_inode : Z) (len offset : Z) : M state (Z * list Z * Z) :=
  f <- get_vinode f_inode ;;
  if size f <? offset then panic "rfs_read:offset should less than file size!"
  else
    let len := if size f <? offset + len then size f - offset else len in
    if len <? 0 then fault "buffer of negative length"
    else
      let align := Z.rem offset RFS_BLKSIZE in
      let block_offset := Z.quot offset RFS_BLKSIZE in
      let readtimes := Z.quot (align + len) RFS_BLKSIZE in
      let remain := Z.rem (align + len) RFS_BLKSIZE in
      a <- addr_at f block_offset ;;
      rfs_r1block a ;;
      let first_block_len := if readtimes =? 0 then len else RFS_BLKSIZE - align in
      buffer <- from_iobuffer align first_block_len ;;
      let block_offset := block_offset + 1 in
      let readtimes := readtimes - 1 in
      buffer <-
        (if 0 <=? readtimes then
           let* (block_offset, buffer) := read_blocks (Z.to_nat readtimes) f block_offset buffer in
           if 0 <? remain then
             a <- addr_at f block_offset ;;
             rfs_r1block a ;;
             bs <- from_iobuffer 0 remain ;;
             ret (buffer ++ bs)
           else ret buffer
         else ret buffer) ;;
      str <- of_option "strcpy" (cstring (buffer ++ [0])) ;;
      ret (len, str ++ [0], offset + len).

(** The bytes [w_buf + off, w_buf + off + n). *)
Definition from_user (w_buf : list Z) (off n : Z) : M state (list Z) :=
  of_option "w_buf overflow" (slice off n w_buf).

(** [f_inode->addrs\[block_offset\]], after a block was appended if the file has
    none there. *)
Definition block_for_write (f_inode block_offset : Z) : M state Z :=
  f <- get_vinode f_inode ;;
  (if block_offset =? blocks f then
     b <- rfs_alloc_block ;;
     if (block_offset <? 0) || (Z.of_nat (length (addrs f)) <=? block_offset) then fault "addrs index"
     else upd_vinode f_inode (fun v => set_blocks (blocks v + 1) (set_addrs (<[Z.to_nat block_offset := b]> (addrs v)) v))
   else ret tt) ;;
  f <- get_vinode f_inode ;;
  addr_at f block_offset.

Definition write_block (f_inode : Z) (w_buf : list Z) (buf_offset block_offset n : Z) : M state unit :=
  a <- block_for_write f_inode block_offset ;;
  bs <- from_user w_buf buf_offset n ;;
  to_iobuffer 0 bs ;;
  rfs_w1block a ;;
  ret tt.

Fixpoint write_blocks (n : nat) (f_inode : Z) (w_buf : list Z) (buf_offset block_offset : Z) : M state (Z * Z) :=
  match n with
  | O => ret (buf_offset, block_offset)
  | S n =>
      write_block f_inode w_buf buf_offset block_offset RFS_BLKSIZE ;;
      write_blocks n f_inode w_buf (buf_offset + RFS_BLKSIZE) (block_offset + 1)
  end.

(** The first block, written when the offset is not block aligned. *)
Definition write_first (f_inode : Z) (w_buf : list Z) (len align block_offset writetimes : Z) : M state (Z * Z * Z) :=
  if negb (align =? 0) then
    f <- get_vinode f_inode ;;
    a <- addr_at f block_offset ;;
    rfs_r1block a ;;
    let first_block_len := if writetimes =? 0 then len else RFS_BLKSIZE - align in
    bs <- from_user w_buf 0 first_block_len ;;
    to_iobuffer align bs ;;
    rfs_w1block a ;;
    ret (first_block_len, block_offset + 1, writetimes - 1)
  else ret (0, block_offset, writetimes).

(** The result and the new [*offset]. *)
Definition rfs_write (f_inode : Z) (w_buf : list Z) (len offset : Z) : M state (Z * Z) :=
  f <- get_vinode f_inode ;;
  if size f <? offset then panic "rfs_write:offset should less than file size!"
  else
    let align := Z.rem offset RFS_BLKSIZE in
    let writetimes := Z.quot (len + align) RFS_BLKSIZE in
    let remain := Z.rem (len + align) RFS_BLKSIZE in
    let block_offset := Z.quot offset RFS_BLKSIZE in
    let* (buf_offset, block_offset, writetimes) := write_first f_inode w_buf len align block_offset writetimes in
    (if 0 <=? writetimes then
       let* (buf_offset, block_offset) := write_blocks (Z.to_nat writetimes) f_inode w_buf buf_offset block_offset in
       if 0 <? remain then write_block f_inode w_buf buf_offset block_offset remain else ret tt
     else ret tt) ;;
    upd_vinode f_inode (fun v => set_size (if size v <? offset + len then offset + len else size v) v) ;;
    ret (len, offset + len).

(** ** Directories *)
Definition one_block_direntrys : Z := RFS_BLKSIZE / sizeof_direntry.

(** The search loop of [rfs_lookup] and [rfs_unlink]: from entry [i] on, the
    index of the first entry with the name; the block of the entry is in the
    [iobuffer] then. *)
Fixpoint find_direntry (n : nat) (dir : vinode) (name : list Z) (i : Z) : M state (option Z) :=
  match n with
  | O => ret None
  | S n =>
      (if Z.rem i one_block_direntrys =? 0 then
         a <- addr_at dir (Z.quot i one_block_direntrys) ;; rfs_r1block a
       else ret 0) ;;
      p <- iobuffer_ptr (Z.rem i one_block_direntrys * sizeof_direntry + 4) ;;
      c <- of_option "strcmp" (strcmp p (name ++ [0])) ;;
      if c =? 0 then ret (Some i) else find_direntry n dir name (i + 1)
  end.

(** [p_direntry->inum] of entry [i] of the block in the [iobuffer]. *)
Definition direntry_inum (i : Z) : M state Z :=
  bs <- from_iobuffer (i * sizeof_direntry) 4 ;; ret (bytes_int bs).

Definition total_direntrys (d : vinode) : Z := Z.quot (size d) sizeof_direntry.

(** The vinode pointer, 0 when there is no such entry. *)
Definition rfs_lookup (parent : Z) (name : list Z) : M state Z :=
  d <- get_vinode parent ;;
  r <- find_direntry (Z.to_nat (total_direntrys d)) d name 0 ;;
  match r with
  | None => ret 0
  | Some i =>
      child_vinode <- rfs_alloc_vinode (v_sb d) ;;
      n <- direntry_inum (Z.rem i one_block_direntrys) ;;
      upd_vinode child_vinode (set_inum n) ;;
      r <- rfs_update_vinode child_vinode ;;
      if negb (r =? 0) then panic "rfs_lookup: read inode failed!" else ret child_vinode
  end.

(** The loop of [rfs_create] and [rfs_mkdir] over the disk inodes: the pointer
    [free_dinode] when the loop ends, with the inode it points to and
    [free_inum], or with [None] when the page it points to has been given back. *)
Fixpoint find_free_dinode (n : nat) (i free_dinode : Z) : M state (Z * option (rfs_dinode * Z)) :=
  match n with
  | O => ret (free_dinode, None)
  | S n =>
      let* (free_dinode, d) := rfs_read_dinode i in
      if d_type d =? R_FREE then ret (free_dinode, Some (d, i))
      else free_page free_dinode ;; find_free_dinode n (i + 1) free_dinode
  end.

Definition MAX_INODES : Z := RFS_BLKSIZE / RFS_INODESIZE * RFS_MAX_INODE_BLKNUM.

(** [free_dinode->size = 0; ... free_page(free_dinode);]: the pointer is NULL, or
    its page is live and holds the inode, or its page is back with the allocator
    and the accesses are undefined. *)
Definition use_dinode (free_dinode : Z) (found : option (rfs_dinode * Z)) (ty : Z) : M state Z :=
  match found with
  | None => fault (if free_dinode =? 0 then "NULL free_dinode" else "use of free_dinode after free_page")
  | Some (d, free_inum) =>
      b <- rfs_alloc_block ;;
      let d' := mk_dinode 0 ty 1 1 (<[0%nat := b]> (d_addrs d)) in
      rfs_write_dinode d' free_inum ;;
      free_page free_dinode ;;
      ret free_inum
  end.

(** The part [rfs_create] and [rfs_mkdir] share: a disk inode of the given type
    with one block; [msg] is what they panic with when the pointer is NULL. *)
Definition new_dinode (msg : string) (ty : Z) : M state Z :=
  let* (free_dinode, found) := find_free_dinode (Z.to_nat MAX_INODES) 0 0 in
  if free_dinode =? 0 then panic msg else use_dinode free_dinode found ty.

Definition rfs_create (parent : Z) (name : list Z) : M state Z :=
  d <- get_vinode parent ;;
  free_inum <- new_dinode "rfs_create: no more free disk inode, we cannot create file." R_FILE ;;
  new_vinode <- rfs_alloc_vinode (v_sb d) ;;
  upd_vinode new_vinode (set_inum free_inum) ;;
  rfs_update_vinode new_vinode ;;
  result <- rfs_add_direntry parent name free_inum ;;
  if result =? -1 then ret 0 else ret new_vinode.

Definition rfs_mkdir (parent : Z) (name : list Z) : M state Z :=
  d <- get_vinode parent ;;
  free_inum <- new_dinode "rfs_mkdir: no more free disk inode, we cannot create directory." R_DIR ;;
  result <- rfs_add_direntry parent name free_inum ;;
  if result =? -1 then ret 0
  else
    sub_vinode <- rfs_alloc_vinode (v_sb d) ;;
    upd_vinode sub_vinode (set_inum free_inum) ;;
    rfs_update_vinode sub_vinode ;;
    ret sub_vinode.

(** The result and the new [*offset]. *)
Definition rfs_lseek (f_inode new_offset whence offset : Z) : M state (Z * Z) :=
  f <- get_vinode f_inode ;;
  let file_size := size f in
  if whence =? LSEEK_SET then
    if (new_offset <? 0) || (file_size <? new_offset) then ret (-1, offset) else ret (0, new_offset)
  else if whence =? LSEEK_CUR then
    if (offset + new_offset <? 0) || (file_size <? offset + new_offset) then ret (-1, offset)
    else ret (0, offset + new_offset)
  else ret (-1, offset).

Definition rfs_disk_stat (v : Z) : M state (Z * istat) :=
  n <- get_vinode v ;;
  let* (p, d) := rfs_read_dinode (inum n) in
  free_page p ;;
  ret (0, mk_istat (inum n) (d_size d) (d_type d) (d_nlinks d) (d_blocks d)).

Definition rfs_link (parent : Z) (name : list Z) (link_node : Z) : M state Z :=
  l <- get_vinode link_node ;;
  upd_vinode link_node (set_nlinks (nlinks l + 1)) ;;
  r <- rfs_add_direntry parent name (inum l) ;;
  if negb (r =? 0) then
    upd_vinode link_node (fun v => set_nlinks (nlinks v - 1) v) ;; ret (-1)
  else
    r <- rfs_write_back_vinode link_node ;;
    if negb (r =? 0) then ret (-1) else ret 0.

Fixpoint free_blocks (l : list Z) : M state unit :=
  match l with
  | [] => ret tt
  | b :: l => rfs_free_block b ;; free_blocks l
  end.

(** [memmove] of [n] bytes inside a buffer. *)
Definition move (dst src n : Z) (l : list Z) : option (list Z) :=
  bs ← slice src n l; splice dst bs l.

(** The loop of [rfs_unlink] over the blocks after the one of the entry, with
    the page and the content of [previous_block]. *)
Fixpoint shift_blocks (n : nat) (parent : vinode) (i page : Z) (previous_block : list Z)
    : M state (Z * list Z) :=
  match n with
  | O => ret (page, previous_block)
  | S n =>
      a <- addr_at parent i ;;
      rfs_r1block a ;;
      this_page <- alloc_object ;;
      this_block <- gets iobuffer ;;
      first <- from_iobuffer 0 sizeof_direntry ;;
      previous_block <- of_option "previous_block"
        (splice ((one_block_direntrys - 1) * sizeof_direntry) first previous_block) ;;
      this_block <- of_option "this_block"
        (move 0 sizeof_direntry ((one_block_direntrys - 1) * sizeof_direntry) this_block) ;;
      modify (set_iobuffer previous_block) ;;
      a <- addr_at parent (i - 1) ;;
      rfs_w1block a ;;
      free_page page ;;
      shift_blocks n parent (i + 1) this_page this_block
  end.

(** The part of [rfs_unlink] on the disk inode [n] of the file: one link less,
    and with the last link its blocks and the inode are freed. *)
Definition unlink_inode (n unlink_vinode : Z) : M state unit :=
  let* (p, u) := rfs_read_dinode n in
  v <- get_vinode unlink_vinode ;;
  (if nlinks v =? d_nlinks u then ret tt else panic "assertion failed: unlink_vinode->nlinks == unlink_dinode->nlinks") ;;
  upd_vinode unlink_vinode (set_nlinks (nlinks v - 1)) ;;
  let u := mk_dinode (d_size u) (d_type u) (nlinks v - 1) (d_blocks u) (d_addrs u) in
  u <-
    (if d_nlinks u =? 0 then
       if Z.of_nat (length (d_addrs u)) <? d_blocks u then fault "addrs index"
       else
         free_blocks (take (Z.to_nat (d_blocks u)) (d_addrs u)) ;;
         ret (mk_dinode (d_size u) R_FREE (d_nlinks u) (d_blocks u) (d_addrs u))
     else ret u) ;;
  rfs_write_dinode u n ;;
  free_page p.

(** The part of [rfs_unlink] that removes entry [delete_index] from the blocks
    of the directory. *)
Definition unlink_direntry (parent delete_index : Z) : M state unit :=
  let delete_block_index := Z.quot delete_index one_block_direntrys in
  d <- get_vinode parent ;;
  a <- addr_at d delete_block_index ;;
  rfs_r1block a ;;
  let offset := Z.rem delete_index one_block_direntrys in
  b <- gets iobuffer ;;
  b <- of_option "memmove" (move (offset * sizeof_direntry) ((offset + 1) * sizeof_direntry)
         ((one_block_direntrys - offset - 1) * sizeof_direntry) b) ;;
  modify (set_iobuffer b) ;;
  page <- alloc_object ;;
  let* (page, last_block) := shift_blocks (Z.to_nat (blocks d - (delete_block_index + 1))) d
                               (delete_block_index + 1) page b in
  modify (set_iobuffer last_block) ;;
  a <- addr_at d (blocks d - 1) ;;
  rfs_w1block a ;;
  free_page page.

Definition rfs_unlink (parent : Z) (name : list Z) (unlink_vinode : Z) : M state Z :=
  d <- get_vinode parent ;;
  let total := total_direntrys d in
  r <- find_direntry (Z.to_nat total) d name 0 ;;
  match r with
  | None =>
      (if total <=? 0 then fault "p_direntry is NULL" else direntry_inum (Z.rem (total - 1) one_block_direntrys + 1)) ;;
      ret (-1)
  | Some delete_index =>
      n <- direntry_inum (Z.rem delete_index one_block_direntrys) ;;
      unlink_inode n unlink_vinode ;;
      unlink_direntry parent delete_index ;;
      d <- get_vinode parent ;;
      (if (Z.rem (total - 1) one_block_direntrys =? 0) && (1 <? blocks d) then
         a <- addr_at d (blocks d - 1) ;;
         rfs_free_block a ;;
         upd_vinode parent (fun v => set_blocks (blocks v - 1) v)
       else ret tt) ;;
      upd_vinode parent (fun v => set_size (size v - sizeof_direntry) v) ;;
      r <- rfs_write_back_vinode parent ;;
      if negb (r =? 0) then ret (-1) else ret 0
  end.

(** [for (i = blocks - 1; i >= 0; i--)] of [rfs_hook_opendir]. *)
Fixpoint read_dir_blocks (n : nat) (dir : vinode) (pdire : Z) : M state Z :=
  match n with
  | O => ret pdire
  | S n =>
      p <- alloc_page ;;
      if negb (pdire =? 0) && negb (pdire - p =? RFS_BLKSIZE) then panic "rfs_hook_opendir: memory discontinuity"
      else
        a <- addr_at dir (Z.of_nat n) ;;
        rfs_r1block a ;;
        if p =? 0 then fault "NULL page"
        else
          modify (fun s => set_dir_pages (<[p := iobuffer s]> (dir_pages s)) s) ;;
          read_dir_blocks n dir p
  end.

Definition rfs_hook_opendir (dir : Z) : M state Z :=
  d <- get_vinode dir ;;
  pdire <- read_dir_blocks (Z.to_nat (blocks d)) d 0 ;;
  c <- alloc_object ;;
  modify (fun s => set_caches (<[c := mk_cache (blocks d) pdire]> (caches s)) s) ;;
  upd_vinode dir (set_fs_info c) ;;
  ret 0.

Fixpoint free_dir_blocks (n : nat) (p : Z) : M state unit :=
  match n with
  | O => ret tt
  | S n => free_page p ;; free_dir_blocks n (p + RFS_BLKSIZE)
  end.

Definition get_cache (c : Z) : M state dir_cache := fun s => of_option "no directory cache" (caches s !! c) s.

Definition rfs_hook_closedir (dir : Z) : M state Z :=
  d <- get_vinode dir ;;
  c <- get_cache (i_fs_info d) ;;
  free_dir_blocks (Z.to_nat (block_count c)) (dir_base_addr c) ;;
  ret 0.

(** The result, the entry stored in [dir] (its name and inum) if any, and the
    new [*offset]. *)
Definition rfs_readdir (dir offset : Z) : M state (Z * option (list Z * Z) * Z) :=
  d <- get_vinode dir ;;
  if total_direntrys d <=? offset then ret (-1, None, offset)
  else
    c <- get_cache (i_fs_info d) ;;
    let a := dir_base_addr c + offset * sizeof_direntry in
    page <- (fun s => of_option "directory page" (dir_pages s !! ROUNDDOWN a PGSIZE) s) ;;
    let off := a mod PGSIZE in
    name <- of_option "strcpy" (cstring (drop (Z.to_nat (off + 4)) page)) ;;
    bs <- of_option "direntry" (slice off 4 page) ;;
    ret (0, Some (name, bytes_int bs), offset + 1).

(** ** Format and mount *)
Fixpoint empty_inodes (n : nat) (off : Z) : M state unit :=
  match n with
  | O => ret tt
  | S n =>
      to_iobuffer off (ints_bytes [0; R_FREE; 0; 0]) ;;
      empty_inodes n (off + RFS_INODESIZE)
  end.

Fixpoint write_inode_blocks (n : nat) (inode_block : Z) : M state unit :=
  match n with
  | O => ret tt
  | S n =>
      r <- rfs_w1block (RFS_BLK_OFFSET_INODE + inode_block) ;;
      if negb (r =? 0) then panic "RFS: failed to initialize empty inodes!"
      else write_inode_blocks n (inode_block + 1)
  end.

(** [uninit]: what the stack holds in the nine entries of [root_dinode.addrs]
    that are not set. *)
Definition rfs_format_dev (uninit : list Z) : M state Z :=
  to_iobuffer 0 (ints_bytes [RFS_MAGIC; 1 + RFS_MAX_INODE_BLKNUM + 1 + RFS_MAX_INODE_BLKNUM * RFS_DIRECT_BLKNUM;
    RFS_MAX_INODE_BLKNUM * RFS_DIRECT_BLKNUM; RFS_BLKSIZE / RFS_INODESIZE * RFS_MAX_INODE_BLKNUM]) ;;
  rfs_w1block RFS_BLK_OFFSET_SUPER ;;
  empty_inodes (Z.to_nat (RFS_BLKSIZE / RFS_INODESIZE)) 0 ;;
  write_inode_blocks (Z.to_nat RFS_MAX_INODE_BLKNUM) 0 ;;
  r <- rfs_write_dinode (mk_dinode 0 R_DIR 1 1 (RFS_BLK_OFFSET_FREE :: uninit)) 0 ;;
  if negb (r =? 0) then ret (-1)
  else
    modify (set_iobuffer (int_bytes 1 ++ replicate (Z.to_nat (RFS_BLKSIZE - 4)) 0)) ;;
    r <- rfs_w1block RFS_BLK_OFFSET_BITMAP ;;
    if negb (r =? 0) then ret (-1) else ret 0.

(** [alloc_vfs_dentry] of [kernel/vfs.c]. *)
Definition alloc_vfs_dentry (name : list Z) (inode parent : Z) : M state Z :=
  p <- alloc_object ;;
  modify (fun s => set_dentries (<[p := mk_dentry name inode parent 0]> (dentries s)) s) ;;
  (if negb (inode =? 0) then upd_vinode inode (fun v => set_ref (ref v + 1) v) else ret tt) ;;
  ret p.

(** The pages of the super block and of the root dentry. *)
Definition rfs_get_superblock : M state (Z * Z) :=
  rfs_r1block RFS_BLK_OFFSET_SUPER ;;
  bs <- from_iobuffer 0 16 ;;
  sb <- alloc_object ;;
  let magic := bytes_int bs in
  let n := bytes_int (drop 8 bs) in
  fm <- gets freemap ;;
  modify (set_super n fm) ;;
  if negb (magic =? RFS_MAGIC) then panic "rfs_get_superblock: wrong ramdisk device!"
  else
    root_inode <- rfs_alloc_vinode sb ;;
    upd_vinode root_inode (set_inum 0) ;;
    rfs_update_vinode root_inode ;;
    root_dentry <- alloc_vfs_dentry [47] root_inode 0 ;;
    rfs_r1block RFS_BLK_OFFSET_BITMAP ;;
    bitmap <- alloc_object ;;
    bs <- gets iobuffer ;;
    modify (set_super n (bytes_ints (Z.to_nat (RFS_BLKSIZE / 4)) bs)) ;;
    ret (sb, root_dentry).
End ops.
Arguments state : clear implicits.
End Rfs.
