(* ===== verification/RfsDisk.v ===== *)
(** * RFS: blocks, disk inodes and the free map

    The lemmas on block reads and writes, the round trip of disk inodes through
    their blocks, and the free map as a set of blocks. *)

From stdpp Require Import base gmap list numbers strings.
From Stdlib Require Import ZArith Lia.
From S2P Require Import Prelude Pmm Bytes Rfs.
Local Open Scope Z_scope.

Section disk.
Context {A : Type} `{PA : PageAllocator A}.
Implicit Types s : Rfs.state A.

(** The device: 128 blocks of 4096 bytes and a buffer of one block. *)
Definition disk_ok s : Prop :=
  length (Rfs.disk s) = 128%nat /\ Forall (fun b => length b = 4096%nat) (Rfs.disk s) /\
  length (Rfs.iobuffer s) = 4096%nat.

Definition block s (b : Z) : list Z := nth (Z.to_nat b) (Rfs.disk s) [].
Definition valid_block (b : Z) : Prop := 0 <= b < RAMDISK_BLOCK_COUNT.

(** Everything but the disk and the buffer is the same. *)
Definition same_but_disk s s' : Prop :=
  Rfs.nblocks s' = Rfs.nblocks s /\ Rfs.freemap s' = Rfs.freemap s /\ Rfs.vinodes s' = Rfs.vinodes s /\
  Rfs.dentries s' = Rfs.dentries s /\ Rfs.caches s' = Rfs.caches s /\ Rfs.dir_pages s' = Rfs.dir_pages s /\
  Rfs.pages s' = Rfs.pages s.

Lemma same_but_disk_refl s : same_but_disk s s.
Proof. split_and!; done. Qed.

Lemma same_but_disk_trans s1 s2 s3 : same_but_disk s1 s2 -> same_but_disk s2 s3 -> same_but_disk s1 s3.
Proof.
  intros (a1 & a2 & a3 & a4 & a5 & a6 & a7) (b1 & b2 & b3 & b4 & b5 & b6 & b7). split_and!; congruence.
Qed.

Lemma block_length s b : disk_ok s -> valid_block b -> length (block s b) = 4096%nat.
Proof.
  intros (Hl & Hf & _) Hb. unfold valid_block, RAMDISK_BLOCK_COUNT in Hb. unfold block.
  rewrite Forall_forall in Hf. apply Hf, list_elem_of_In, nth_In. lia.
Qed.

Lemma block_lookup s b : disk_ok s -> valid_block b -> Rfs.disk s !! Z.to_nat b = Some (block s b).
Proof.
  intros (Hl & _) Hb. unfold valid_block, RAMDISK_BLOCK_COUNT in Hb. unfold block.
  destruct (lookup_lt_is_Some_2 (Rfs.disk s) (Z.to_nat b)) as [x Hx]; [lia|].
  by rewrite (nth_lookup_Some _ _ _ _ Hx).
Qed.

Lemma valid_block_test b : valid_block b -> (b <? 0) || (RAMDISK_BLOCK_COUNT <=? b) = false.
Proof.
  intros [H1 H2]. destruct (Z.ltb_spec b 0); [lia|]. simpl. destruct (Z.leb_spec RAMDISK_BLOCK_COUNT b); [lia|done].
Qed.

Lemma ramdisk_read_eq s b :
  disk_ok s -> valid_block b -> Rfs.ramdisk_read b s = Ret 0 (Rfs.set_iobuffer (block s b) s).
Proof.
  intros Hd Hb. unfold Rfs.ramdisk_read. rewrite (valid_block_test b Hb).
  unfold bind at 1. rewrite (block_lookup s b Hd Hb). done.
Qed.

Lemma ramdisk_write_eq s b :
  valid_block b -> Rfs.ramdisk_write b s = Ret 0 (Rfs.set_disk (<[Z.to_nat b := Rfs.iobuffer s]> (Rfs.disk s)) s).
Proof. intros Hb. unfold Rfs.ramdisk_write. by rewrite (valid_block_test b Hb). Qed.

(** The two invalid block numbers stop the kernel. *)
Lemma ramdisk_invalid s b : ~ valid_block b ->
  (exists m, Rfs.ramdisk_read b s = Panic m) /\ (exists m, Rfs.ramdisk_write b s = Panic m).
Proof.
  intros Hb. unfold Rfs.ramdisk_read, Rfs.ramdisk_write, valid_block in *.
  destruct (Z.ltb_spec b 0); simpl; [by split; eexists|].
  destruct (Z.leb_spec RAMDISK_BLOCK_COUNT b); simpl; [by split; eexists|lia].
Qed.

Lemma disk_ok_iobuffer s b : disk_ok s -> length b = 4096%nat -> disk_ok (Rfs.set_iobuffer b s).
Proof. intros (? & ? & ?) ?. split_and!; done. Qed.

Lemma disk_ok_write s b bs :
  disk_ok s -> length bs = 4096%nat -> disk_ok (Rfs.set_disk (<[Z.to_nat b := bs]> (Rfs.disk s)) s).
Proof.
  intros (Hl & Hf & Hi) Hb. split_and!; simpl; [by rewrite length_insert| |done].
  by apply Forall_insert.
Qed.

Lemma block_set_disk s b bs b' :
  disk_ok s -> valid_block b -> valid_block b' ->
  block (Rfs.set_disk (<[Z.to_nat b := bs]> (Rfs.disk s)) s) b' = if decide (b' = b) then bs else block s b'.
Proof.
  intros (Hl & _) Hb Hb'. unfold valid_block, RAMDISK_BLOCK_COUNT in *. unfold block. simpl.
  rewrite !nth_lookup. destruct (decide (b' = b)) as [->|Hne].
  - rewrite list_lookup_insert_eq by lia. done.
  - rewrite list_lookup_insert_ne by lia. done.
Qed.

(** ** Copies through the buffer *)
Lemma to_iobuffer_eq s off bs :
  0 <= off -> off + Z.of_nat (length bs) <= Z.of_nat (length (Rfs.iobuffer s)) ->
  exists b', splice off bs (Rfs.iobuffer s) = Some b' /\ Rfs.to_iobuffer off bs s = Ret tt (Rfs.set_iobuffer b' s).
Proof.
  intros H1 H2. eexists. rewrite (splice_eq _ _ _ H1 H2). split; [done|].
  unfold Rfs.to_iobuffer. rewrite bind_gets, (splice_eq _ _ _ H1 H2). done.
Qed.

Lemma from_iobuffer_eq s off n :
  0 <= off -> 0 <= n -> off + n <= Z.of_nat (length (Rfs.iobuffer s)) ->
  Rfs.from_iobuffer off n s = Ret (take (Z.to_nat n) (drop (Z.to_nat off) (Rfs.iobuffer s))) s.
Proof. intros. unfold Rfs.from_iobuffer. rewrite bind_gets, slice_eq by done. done. Qed.

(** ** Pages *)
Lemma alloc_object_eq s p F :
  pa_rep (Rfs.pages s) (p :: F) ->
  exists a', Rfs.alloc_object s = Ret p (Rfs.set_pages a' s) /\ pa_rep a' F /\ pa_page a' p /\
    (forall q, pa_page a' q <-> pa_page (Rfs.pages s) q).
Proof.
  intros Hrep. destruct (pa_alloc_cons _ _ _ Hrep) as (a' & Heq & Hrep' & Hpg).
  destruct (pa_rep_pages _ _ Hrep) as [_ Hf]. apply Forall_cons in Hf as [Hp _].
  exists a'. split_and!; [|done|by apply Hpg|done].
  unfold Rfs.alloc_object, bind, Rfs.alloc_page, zoom. rewrite Heq.
  apply pa_page_nonnull in Hp. destruct (Z.eqb_spec p 0); [lia|done].
Qed.

Lemma free_page_eq s p F :
  pa_rep (Rfs.pages s) F -> pa_page (Rfs.pages s) p -> p ∉ F ->
  exists a', Rfs.free_page p s = Ret tt (Rfs.set_pages a' s) /\ pa_rep a' (p :: F) /\
    (forall q, pa_page a' q <-> pa_page (Rfs.pages s) q).
Proof.
  intros Hrep Hp Hni. destruct (pa_free_ok _ _ _ Hrep Hp Hni) as (a' & Heq & Hrep' & Hpg).
  exists a'. split_and!; try done. unfold Rfs.free_page, zoom. by rewrite Heq.
Qed.

(** ** Disk inodes *)
Definition valid_inode (n : Z) : Prop := 0 <= n < Rfs.MAX_INODES.
Definition int_ok (x : Z) : Prop := - 2 ^ 31 <= x < 2 ^ 31.
Definition dinode_ok (d : rfs_dinode) : Prop := Forall int_ok (dinode_ints d) /\ length (d_addrs d) = 10%nat.

(** The disk inode stored on the device. *)
Definition dinode_at s (n : Z) : rfs_dinode :=
  bytes_dinode (take 56 (drop (Z.to_nat (Rfs.dinode_offset n * RFS_INODESIZE)) (block s (Rfs.dinode_block n)))).

Lemma dinode_place n : valid_inode n ->
  Rfs.dinode_block n = n / 32 + 1 /\ Rfs.dinode_offset n = n mod 32 /\
  valid_block (n / 32 + 1) /\ 0 < n / 32 + 1 < 11 /\ 0 <= n mod 32 < 32.
Proof.
  unfold valid_inode, Rfs.dinode_block, Rfs.dinode_offset, valid_block.
  change Rfs.MAX_INODES with 320. change RAMDISK_BLOCK_COUNT with 128. change RFS_BLK_OFFSET_INODE with 1.
  change (RFS_BLKSIZE / RFS_INODESIZE) with 32. intros H.
  rewrite Z.quot_div_nonneg, Z.rem_mod_nonneg by lia. clear -H. zlia.
Qed.

Lemma dinode_bytes_round_trip d rest : dinode_ok d -> bytes_dinode (dinode_bytes d ++ rest) = d.
Proof.
  intros [Hf Hlen]. pose proof (bytes_ints_bytes (dinode_ints d) rest Hf) as E.
  replace (length (dinode_ints d)) with 14%nat in E by (simpl; lia).
  unfold bytes_dinode, dinode_bytes. rewrite E. by destruct d.
Qed.

Lemma length_dinode_bytes d : dinode_ok d -> length (dinode_bytes d) = 56%nat.
Proof. intros [_ Hlen]. unfold dinode_bytes. rewrite length_ints_bytes. simpl. lia. Qed.

(** Writing a disk inode: it reads back, no other inode and no block outside
    the inode area changes. *)
Lemma write_dinode_spec s d n :
  disk_ok s -> valid_inode n -> dinode_ok d ->
  returns (Rfs.rfs_write_dinode d n) s (fun r s' => r = 0 /\ disk_ok s' /\ same_but_disk s s' /\
    dinode_at s' n = d /\
    (forall m, valid_inode m -> m <> n -> dinode_at s' m = dinode_at s m) /\
    (forall b, valid_block b -> (b < 1 \/ 11 <= b) -> block s' b = block s b)).
Proof.
  intros Hd Hn Hok. destruct (dinode_place n Hn) as (Eb & Eo & Hb & Hb' & Ho).
  pose proof (block_length s _ Hd Hb) as Hbl. pose proof (length_dinode_bytes d Hok) as Hdl.
  set (b := n / 32 + 1) in *. set (o := n mod 32 * 128).
  assert (0 <= o /\ o + 56 <= 4096) as Hoo by lia.
  set (s1 := Rfs.set_iobuffer (block s b) s).
  assert (disk_ok s1) as Hd1 by (by apply disk_ok_iobuffer).
  destruct (to_iobuffer_eq s1 o (dinode_bytes d)) as (bf & Hsp & Hto);
    [lia|change (Rfs.iobuffer s1) with (block s b); lia|].
  assert (length bf = 4096%nat) as Hbf by (rewrite (splice_length _ _ _ _ Hsp); done).
  set (s2 := Rfs.set_iobuffer bf s1). assert (disk_ok s2) as Hd2 by (by apply disk_ok_iobuffer).
  exists 0. eexists. split.
  { unfold Rfs.rfs_write_dinode. rewrite Eb, Eo. mstep (ramdisk_read_eq s b Hd Hb). fold s1.
    change (n mod 32 * RFS_INODESIZE) with o. mstep Hto. fold s2. by apply ramdisk_write_eq. }
  assert (forall b', valid_block b' -> block (Rfs.set_disk (<[Z.to_nat b := bf]> (Rfs.disk s)) s2) b' =
            if decide (b' = b) then bf else block s b') as Hblk.
  { intros b' Hb''. apply (block_set_disk s2 b bf b' Hd2 Hb Hb''). }
  split_and!; try done.
  - by apply (disk_ok_write s2).
  - unfold dinode_at. rewrite Eb, Eo, Hblk, decide_True by done. change (n mod 32 * RFS_INODESIZE) with o.
    pose proof (slice_splice_same _ _ _ _ Hsp) as Hss. rewrite Hdl in Hss. rewrite slice_eq in Hss by lia.
    injection Hss as Hss. change (Z.to_nat (Z.of_nat 56)) with 56%nat in Hss. rewrite Hss.
    rewrite <- (app_nil_r (dinode_bytes d)). by apply dinode_bytes_round_trip.
  - intros m Hm Hne. destruct (dinode_place m Hm) as (Mb & Mo & Hmb & _ & Hmo). unfold dinode_at.
    rewrite Mb, Mo, Hblk by done. destruct (decide (m / 32 + 1 = b)) as [Heq|]; [|done]. rewrite Heq.
    f_equal. assert (m mod 32 <> n mod 32) as Hmn by (clear -Heq Hne; subst b; zlia).
    pose proof (slice_splice_other _ _ _ _ (m mod 32 * 128) 56 Hsp) as Hso. rewrite Hdl in Hso.
    change RFS_INODESIZE with 128. change (Rfs.iobuffer s1) with (block s b) in Hso. rewrite !slice_eq in Hso by lia.
    change (Z.to_nat 56) with 56%nat in Hso. cut (Some (take 56 (drop (Z.to_nat (m mod 32 * 128)) bf)) = Some (take 56 (drop (Z.to_nat (m mod 32 * 128)) (block s b)))); [congruence|].
    apply Hso. subst o. lia.
  - intros b' Hb'' Hout. rewrite Hblk, decide_False by (done || lia). done.
Qed.

(** Reading a disk inode into a fresh page. *)
Lemma read_dinode_spec s n p F :
  disk_ok s -> valid_inode n -> pa_rep (Rfs.pages s) (p :: F) ->
  exists a' b, Rfs.rfs_read_dinode n s = Ret (p, dinode_at s n) (Rfs.set_pages a' (Rfs.set_iobuffer b s)) /\
    length b = 4096%nat /\ pa_rep a' F /\ pa_page a' p /\ (forall q, pa_page a' q <-> pa_page (Rfs.pages s) q).
Proof.
  intros Hd Hn Hrep. destruct (dinode_place n Hn) as (Eb & Eo & Hb & _ & Ho).
  pose proof (block_length s _ Hd Hb) as Hbl.
  set (s1 := Rfs.set_iobuffer (block s (n / 32 + 1)) s).
  destruct (alloc_object_eq s1 p F Hrep) as (a' & Heq & H1 & H2 & H3).
  exists a', (block s (n / 32 + 1)). split; [|done].
  unfold Rfs.rfs_read_dinode. rewrite Eb, Eo. mstep (ramdisk_read_eq s _ Hd Hb). fold s1. mstep Heq.
  assert (Rfs.from_iobuffer (n mod 32 * RFS_INODESIZE) sizeof_dinode (Rfs.set_pages a' s1) =
    Ret (take 56 (drop (Z.to_nat (n mod 32 * RFS_INODESIZE)) (block s (n / 32 + 1)))) (Rfs.set_pages a' s1)) as Hfr.
  { rewrite from_iobuffer_eq; [done|unfold RFS_INODESIZE; lia|done|]. simpl. rewrite Hbl.
    unfold RFS_INODESIZE, sizeof_dinode. lia. }
  mstep Hfr. unfold dinode_at. rewrite Eb, Eo. done.
Qed.
End disk.
