(* ===== verification/RfsFile.v ===== *)
(** * RFS: the free map and the content of files

    The content of a file is the concatenation of its blocks, cut at its size.
    [rfs_read] returns a part of it, [rfs_write] replaces its end. *)

From stdpp Require Import base gmap list numbers strings.
From Stdlib Require Import ZArith Lia.
From S2P Require Import Prelude Pmm Bytes Rfs RfsDisk.
Local Open Scope Z_scope.

Section files.
Context {A : Type} `{PA : PageAllocator A}.
Implicit Types s : Rfs.state A.

(** ** The free map *)
Definition map_ok s : Prop :=
  0 <= Rfs.nblocks s <= Z.of_nat (length (Rfs.freemap s)) /\ RFS_BLK_OFFSET_FREE + Rfs.nblocks s <= RAMDISK_BLOCK_COUNT.

(** A data block, and one that is taken. *)
Definition data_block s (b : Z) : Prop := RFS_BLK_OFFSET_FREE <= b < RFS_BLK_OFFSET_FREE + Rfs.nblocks s.
Definition map_at s (b : Z) : Z := nth (Z.to_nat (b - RFS_BLK_OFFSET_FREE)) (Rfs.freemap s) 0.
Definition used s (b : Z) : Prop := data_block s b /\ map_at s b <> 0.

Definition free_count s : nat :=
  length (filter (fun x => x = 0%Z) (take (Z.to_nat (Rfs.nblocks s)) (Rfs.freemap s))).

Lemma data_block_valid s b : map_ok s -> data_block s b -> valid_block b.
Proof. unfold map_ok, data_block, valid_block. change RFS_BLK_OFFSET_FREE with 12. lia. Qed.

Lemma find_free_Some fm k b :
  Rfs.find_free fm k = Some b ->
  exists i, b = k + Z.of_nat i /\ fm !! i = Some 0 /\ Forall (fun x => x <> 0) (take i fm).
Proof.
  revert k. induction fm as [|x fm IH]; intros k; [done|]. simpl. destruct (Z.eqb_spec x 0) as [->|Hx].
  - intros [= <-]. exists 0%nat. split_and!; [lia|done|constructor].
  - intros H. apply IH in H as (i & -> & Hi & Hf). exists (S i). split_and!; [lia|done|]. simpl. by constructor.
Qed.

Lemma find_free_None fm k : Rfs.find_free fm k = None <-> Forall (fun x => x <> 0) fm.
Proof.
  revert k. induction fm as [|x fm IH]; intros k; simpl; [by split; constructor|].
  rewrite Forall_cons. destruct (Z.eqb_spec x 0); [split; [done|tauto]|]. rewrite IH. tauto.
Qed.

Lemma filter_insert_nonzero (l : list Z) (i : nat) (x : Z) :
  l !! i = Some 0 -> x <> 0 ->
  (length (filter (fun y => y = 0%Z) (<[i := x]> l)) = pred (length (filter (fun y => y = 0%Z) l)))%nat.
Proof.
  revert i. induction l as [|y l IH]; intros [|i]; simpl; [done|done| |].
  - intros [= ->] Hx. rewrite !filter_cons, decide_False, decide_True by done. done.
  - intros Hi Hx. rewrite !filter_cons. destruct (decide (y = 0)); simpl; rewrite (IH i Hi Hx).
    + assert (length (filter (fun y => y = 0%Z) l) <> 0)%nat; [|lia].
      intros H0%nil_length_inv. assert (0 ∈ filter (fun y => y = 0%Z) l) as Hin.
      { apply list_elem_of_filter. split; [done|]. by eapply list_elem_of_lookup_2. }
      rewrite H0 in Hin. by apply elem_of_nil in Hin.
    + done.
Qed.

(** A successful allocation: a data block that was free is taken, nothing else
    changes. *)
Lemma alloc_block_spec s :
  map_ok s -> (0 < free_count s)%nat ->
  exists b s', Rfs.rfs_alloc_block s = Ret b s' /\ s' = Rfs.set_super (Rfs.nblocks s) (<[Z.to_nat (b - RFS_BLK_OFFSET_FREE) := 1]> (Rfs.freemap s)) s /\
    data_block s b /\ ~ used s b /\ map_ok s' /\ free_count s' = pred (free_count s) /\
    (forall b', used s' b' <-> used s b' \/ b' = b).
Proof.
  intros [Hn Hm] Hc. unfold Rfs.rfs_alloc_block. rewrite !bind_gets.
  destruct (Z.ltb_spec (Z.of_nat (length (Rfs.freemap s))) (Rfs.nblocks s)); [lia|].
  destruct (Rfs.find_free _ 0) as [k|] eqn:E.
  2: { apply find_free_None in E. unfold free_count in Hc. exfalso.
       destruct (filter _ _) as [|x l] eqn:Ef; [simpl in Hc; lia|].
       assert (x ∈ filter (fun x => x = 0%Z) (take (Z.to_nat (Rfs.nblocks s)) (Rfs.freemap s))) as Hx by (rewrite Ef; by constructor).
       apply list_elem_of_filter in Hx as [-> Hx]. rewrite Forall_forall in E. by apply E in Hx. }
  apply find_free_Some in E as (i & -> & Hi & _). apply lookup_take_Some in Hi as [Hi Hlt].
  change RFS_BLK_OFFSET_FREE with 12 in *. eexists. eexists. split; [done|].
  replace (0 + Z.of_nat i) with (Z.of_nat i) by lia.
  replace (12 + Z.of_nat i - 12) with (Z.of_nat i) by lia. rewrite Nat2Z.id.
  pose proof (lookup_lt_Some _ _ _ Hi) as Hil. split_and!; try done.
  - unfold data_block. change RFS_BLK_OFFSET_FREE with 12. lia.
  - unfold used, map_at. change RFS_BLK_OFFSET_FREE with 12.
    replace (12 + Z.of_nat i - 12) with (Z.of_nat i) by lia. rewrite Nat2Z.id, (nth_lookup_Some _ _ _ _ Hi). tauto.
  - split; simpl; rewrite ?length_insert; change RFS_BLK_OFFSET_FREE with 12; lia.
  - unfold free_count. simpl. rewrite take_insert_lt by lia. apply filter_insert_nonzero; [|done].
    by rewrite lookup_take_lt.
  - intros b'. unfold used, data_block, map_at. simpl. change RFS_BLK_OFFSET_FREE with 12. rewrite !nth_lookup.
    destruct (decide (b' = 12 + Z.of_nat i)) as [->|Hne].
    + replace (12 + Z.of_nat i - 12) with (Z.of_nat i) by lia. rewrite Nat2Z.id, list_lookup_insert_eq by done.
      simpl. split; [by right|]. intros _. split; [lia|done].
    + destruct (decide (12 <= b' < 12 + Rfs.nblocks s)) as [Hb|Hb]; [|tauto].
      rewrite list_lookup_insert_ne by lia. tauto.
Qed.

(** With no free block left the kernel panics. *)
Lemma alloc_block_full s :
  map_ok s -> free_count s = 0%nat -> Rfs.rfs_alloc_block s = Panic "rfs_alloc_block: no more free block!".
Proof.
  intros [Hn Hm] Hc. unfold Rfs.rfs_alloc_block. rewrite !bind_gets.
  destruct (Z.ltb_spec (Z.of_nat (length (Rfs.freemap s))) (Rfs.nblocks s)); [lia|].
  destruct (Rfs.find_free _ 0) as [k|] eqn:E; [|done].
  apply find_free_Some in E as (i & _ & Hi & _). unfold free_count in Hc. apply nil_length_inv in Hc.
  assert (0 ∈ filter (fun x => x = 0%Z) (take (Z.to_nat (Rfs.nblocks s)) (Rfs.freemap s))) as Hx.
  { apply list_elem_of_filter. split; [done|]. by eapply list_elem_of_lookup_2. }
  rewrite Hc in Hx. by apply elem_of_nil in Hx.
Qed.

Lemma free_block_spec s b :
  map_ok s -> data_block s b ->
  exists s', Rfs.rfs_free_block b s = Ret 0 s' /\
    s' = Rfs.set_super (Rfs.nblocks s) (<[Z.to_nat (b - RFS_BLK_OFFSET_FREE) := 0]> (Rfs.freemap s)) s /\ map_ok s' /\
    (forall b', used s' b' <-> used s b' /\ b' <> b).
Proof.
  intros [Hn Hm] Hb. unfold data_block in Hb. change RFS_BLK_OFFSET_FREE with 12 in *.
  unfold Rfs.rfs_free_block. rewrite !bind_gets. change RFS_BLK_OFFSET_FREE with 12.
  destruct (Z.ltb_spec (b - 12) 0); [lia|]. simpl.
  destruct (Z.leb_spec (Z.of_nat (length (Rfs.freemap s))) (b - 12)); [lia|].
  eexists. split; [done|]. split_and!; try done.
  - split; simpl; rewrite ?length_insert; change RFS_BLK_OFFSET_FREE with 12; lia.
  - intros b'. unfold used, data_block, map_at. simpl. change RFS_BLK_OFFSET_FREE with 12. rewrite !nth_lookup.
    destruct (decide (b' = b)) as [->|Hne].
    + rewrite list_lookup_insert_eq by lia. simpl. tauto.
    + destruct (decide (12 <= b' < 12 + Rfs.nblocks s)) as [Hb'|Hb']; [|tauto].
      rewrite list_lookup_insert_ne by lia. tauto.
Qed.

(** ** Files *)
Definition file_blocks (v : vinode) : list Z := take (Z.to_nat (blocks v)) (addrs v).

(** The concatenated blocks of a file, and its content. *)
Definition data s (v : vinode) : list Z := concat (map (block s) (file_blocks v)).
Definition content s (v : vinode) : list Z := take (Z.to_nat (size v)) (data s v).

Record file_ok s (v : vinode) : Prop := {
  fo_addrs : length (addrs v) = 10%nat;
  fo_blocks : 0 <= blocks v <= 10;
  fo_size : 0 <= size v <= blocks v * 4096;
  fo_used : Forall (used s) (file_blocks v);
  fo_distinct : NoDup (file_blocks v);
}.

Lemma length_file_blocks s v : file_ok s v -> length (file_blocks v) = Z.to_nat (blocks v).
Proof. intros [H1 H2 _ _ _]. unfold file_blocks. rewrite length_take. lia. Qed.

Lemma concat_blocks_length s l :
  disk_ok s -> Forall valid_block l -> length (concat (map (block s) l)) = (length l * 4096)%nat.
Proof.
  intros Hd. induction 1 as [|b l Hb _ IH]; [done|]. simpl. rewrite length_app, IH, (block_length s b Hd Hb). lia.
Qed.

Lemma used_valid s l : map_ok s -> Forall (used s) l -> Forall valid_block l.
Proof. intros Hm Hf. eapply Forall_impl; [exact Hf|]. intros b [Hb _]. by eapply data_block_valid. Qed.

Lemma data_length s v : disk_ok s -> map_ok s -> file_ok s v -> length (data s v) = Z.to_nat (blocks v * 4096).
Proof.
  intros Hd Hm Hf. unfold data. rewrite (concat_blocks_length s _ Hd).
  - rewrite (length_file_blocks s v Hf). destruct Hf. lia.
  - eapply used_valid; [done|]. apply Hf.
Qed.

(** The [k]-th block is the [k]-th part of the data. *)
Lemma concat_blocks_part s l k b :
  disk_ok s -> Forall valid_block l -> l !! k = Some b ->
  take 4096 (drop (k * 4096) (concat (map (block s) l))) = block s b.
Proof.
  intros Hd Hv. revert k. induction Hv as [|x l Hx _ IH]; intros [|k]; [done|done| |].
  - intros [= ->]. cbn [map concat Nat.mul]. rewrite drop_0, take_app_le by (rewrite (block_length s b Hd Hx); lia).
    rewrite take_ge; [done|]. rewrite (block_length s b Hd Hx). lia.
  - simpl lookup. intros Hk. cbn [map concat]. rewrite drop_app_ge by (rewrite (block_length s x Hd Hx); lia).
    rewrite (block_length s x Hd Hx). replace (S k * 4096 - 4096)%nat with (k * 4096)%nat by lia. by apply IH.
Qed.

(** A block as seen through [addr_at] and a block read. *)
Lemma file_block_read s v k :
  disk_ok s -> map_ok s -> file_ok s v -> 0 <= k < blocks v ->
  exists a, Rfs.addr_at v k s = Ret a s /\ valid_block a /\ used s a /\ file_blocks v !! Z.to_nat k = Some a /\
    block s a = take 4096 (drop (Z.to_nat (k * 4096)) (data s v)).
Proof.
  intros Hd Hm Hf Hk. pose proof Hf as [H1 H2 H3 H4 H5].
  destruct (lookup_lt_is_Some_2 (addrs v) (Z.to_nat k)) as [a Ha]; [lia|]. exists a.
  assert (file_blocks v !! Z.to_nat k = Some a) as Hfb.
  { unfold file_blocks. by rewrite lookup_take_lt by lia. }
  assert (used s a) as Hu by (rewrite Forall_forall in H4; apply H4; by eapply list_elem_of_lookup_2).
  split_and!; try done.
  - unfold Rfs.addr_at. destruct (Z.ltb_spec k 0); [lia|]. by rewrite Ha.
  - destruct Hu. by eapply data_block_valid.
  - unfold data. rewrite <- (concat_blocks_part s (file_blocks v) (Z.to_nat k) a); [|done| |done].
    + do 2 f_equal. lia.
    + by eapply used_valid.
Qed.

(** ** [rfs_read] *)
Lemma file_ok_ext s s' v :
  Rfs.nblocks s' = Rfs.nblocks s -> Rfs.freemap s' = Rfs.freemap s -> file_ok s v -> file_ok s' v.
Proof.
  intros H1 H2 [F1 F2 F3 F4 F5]. split; try done. eapply Forall_impl; [exact F4|].
  intros b. unfold used, data_block, map_at. by rewrite H1, H2.
Qed.

(** What a routine that only reads the file may rely on. *)
Definition readable s v : Prop := disk_ok s /\ map_ok s /\ file_ok s v.

Lemma readable_iobuffer s v b : readable s v -> length b = 4096%nat -> readable (Rfs.set_iobuffer b s) v.
Proof. intros (H1 & H2 & H3) Hb. split; [by apply disk_ok_iobuffer|split; [exact H2|by apply (file_ok_ext s)]]. Qed.

Lemma read_file_block {B} (K : M (Rfs.state A) B) s v k :
  readable s v -> 0 <= k < blocks v ->
  exists b, length b = 4096%nat /\ b = take 4096 (drop (Z.to_nat (k * 4096)) (data s v)) /\
    (bind (Rfs.addr_at v k) (fun a => bind (Rfs.rfs_r1block a) (fun _ => K))) s = K (Rfs.set_iobuffer b s).
Proof.
  intros (Hd & Hm & Hf) Hk. destruct (file_block_read s v k Hd Hm Hf Hk) as (a & Ha & Hv & _ & _ & Hb).
  exists (block s a). split_and!; [by apply block_length|done|].
  mstep Ha. unfold Rfs.rfs_r1block. mstep (ramdisk_read_eq s a Hd Hv). done.
Qed.

Lemma take_more {X} (l : list X) o n m :
  take n (drop o l) ++ take m (drop (o + n) l) = take (n + m) (drop o l).
Proof. rewrite <- drop_drop. apply take_take_drop. Qed.

Lemma read_blocks_spec n : forall s v k o N,
  readable s v -> 0 <= k -> k + Z.of_nat n <= blocks v -> Z.of_nat (o + N) = k * 4096 ->
  exists b, length b = 4096%nat /\
    Rfs.read_blocks n v k (take N (drop o (data s v))) s =
      Ret (k + Z.of_nat n, take (N + n * 4096) (drop o (data s v))) (Rfs.set_iobuffer b s).
Proof.
  induction n as [|n IH]; intros s v k o N Hr Hk Hle Hpos; cbn [Rfs.read_blocks].
  - exists (Rfs.iobuffer s). split; [apply Hr|]. rewrite Z.add_0_r, Nat.add_0_r. by destruct s.
  - destruct (read_file_block (bind (Rfs.from_iobuffer 0 RFS_BLKSIZE) (fun bs =>
        Rfs.read_blocks n v (k + 1) (take N (drop o (data s v)) ++ bs))) s v k Hr) as (b & Hb & Eb & ->); [lia|].
    pose proof (readable_iobuffer s v b Hr Hb) as Hr1. set (s1 := Rfs.set_iobuffer b s) in *.
    assert (Rfs.from_iobuffer 0 RFS_BLKSIZE s1 = Ret b s1) as Hfr.
    { rewrite from_iobuffer_eq; [|done|done|simpl; rewrite Hb; done].
      change (Z.to_nat RFS_BLKSIZE) with 4096%nat. change (Z.to_nat 0) with 0%nat. rewrite drop_0.
      rewrite take_ge; [done|]. simpl. lia. }
    mstep Hfr. replace b with (take 4096 (drop (o + N) (data s v))) by (rewrite Eb; do 2 f_equal; lia).
    rewrite take_more. destruct (IH s1 v (k + 1) o (N + 4096)%nat Hr1) as (b' & Hb' & Heq); [lia|lia|lia|].
    exists b'. split; [done|]. change (data s1 v) with (data s v) in Heq. rewrite Heq.
    f_equal. f_equal; [lia|]. f_equal. lia.
Qed.

Lemma vinode_eq s v n : Rfs.vinodes s !! v = Some n -> Rfs.get_vinode v s = Ret n s.
Proof. intros H. unfold Rfs.get_vinode. by rewrite H. Qed.

(** The bytes up to the first NUL. *)
Fixpoint before_nul (l : list Z) : list Z :=
  match l with
  | [] => []
  | c :: l => if c =? 0 then [] else c :: before_nul l
  end.

Lemma cstring_terminated l : cstring (l ++ [0]) = Some (before_nul l).
Proof. induction l as [|c l IH]; [done|]. simpl. destruct (c =? 0); [done|]. by rewrite IH. Qed.

(** The part of [rfs_read] after the first block. *)
Definition read_rest (f : vinode) (readtimes remain block_offset : Z) (buffer : list Z) : M (Rfs.state A) (list Z) :=
  if 0 <=? readtimes then
    let* (block_offset, buffer) := Rfs.read_blocks (Z.to_nat readtimes) f block_offset buffer in
    if 0 <? remain then
      a <- Rfs.addr_at f block_offset ;;
      Rfs.rfs_r1block a ;;
      bs <- Rfs.from_iobuffer 0 remain ;;
      ret (buffer ++ bs)
    else ret buffer
  else ret buffer.

Lemma read_rest_spec s v k o N readtimes remain :
  readable s v -> 0 <= readtimes -> 0 <= k -> 0 <= remain < 4096 ->
  k + readtimes + (if 0 <? remain then 1 else 0) <= blocks v -> Z.of_nat (o + N) = k * 4096 ->
  exists b, length b = 4096%nat /\
    read_rest v readtimes remain k (take N (drop o (data s v))) s =
      Ret (take (N + Z.to_nat (readtimes * 4096 + remain)) (drop o (data s v))) (Rfs.set_iobuffer b s).
Proof.
  intros Hr Hrt Hk Hrem Hle Hpos. unfold read_rest. destruct (Z.leb_spec 0 readtimes); [|lia].
  destruct (read_blocks_spec (Z.to_nat readtimes) s v k o N Hr) as (b & Hb & Heq); [lia| |done|].
  { destruct (0 <? remain); lia. }
  mstep Heq. set (s1 := Rfs.set_iobuffer b s). pose proof (readable_iobuffer s v b Hr Hb) as Hr1. fold s1 in Hr1.
  destruct (Z.ltb_spec 0 remain) as [Hpos'|Hz].
  - destruct (read_file_block (bind (Rfs.from_iobuffer 0 remain) (fun bs =>
        ret (take (N + Z.to_nat readtimes * 4096) (drop o (data s v)) ++ bs))) s1 v (k + Z.of_nat (Z.to_nat readtimes)) Hr1)
      as (b' & Hb' & Eb & ->); [lia|].
    exists b'. split; [done|]. set (s2 := Rfs.set_iobuffer b' s1).
    assert (Rfs.from_iobuffer 0 remain s2 = Ret (take (Z.to_nat remain) b') s2) as Hfr.
    { rewrite from_iobuffer_eq; [done|lia|lia|simpl; lia]. }
    mstep Hfr. unfold ret. f_equal. change (data s1 v) with (data s v) in Eb.
    replace (take (Z.to_nat remain) b') with
      (take (Z.to_nat remain) (drop (o + (N + Z.to_nat readtimes * 4096)) (data s v))).
    2: { rewrite Eb, take_take. f_equal; [lia|]. f_equal. lia. }
    rewrite take_more. f_equal. lia.
  - exists b. split; [done|]. unfold ret. f_equal. f_equal. lia.
Qed.

Lemma rfs_read_spec s f v len offset :
  readable s v -> Rfs.vinodes s !! f = Some v -> 0 <= len -> 0 <= offset <= size v -> offset < blocks v * 4096 ->
  let n := Z.min len (size v - offset) in
  exists b, length b = 4096%nat /\
    Rfs.rfs_read f len offset s =
      Ret (n, before_nul (take (Z.to_nat n) (drop (Z.to_nat offset) (content s v))) ++ [0], offset + n)
          (Rfs.set_iobuffer b s).
Proof.
  intros Hr Hv Hlen Hoff Hblk n. pose proof Hr as (Hd & Hm & Hf). pose proof Hf as [F1 F2 F3 _ _].
  assert (take (Z.to_nat n) (drop (Z.to_nat offset) (content s v)) = take (Z.to_nat n) (drop (Z.to_nat offset) (data s v))) as Hc.
  { unfold content. rewrite skipn_firstn_comm, take_take. f_equal. lia. }
  unfold Rfs.rfs_read. mstep (vinode_eq s f v Hv).
  destruct (Z.ltb_spec (size v) offset); [lia|].
  replace (if size v <? offset + len then size v - offset else len) with n.
  2: { unfold n. destruct (Z.ltb_spec (size v) (offset + len)); lia. }
  destruct (Z.ltb_spec n 0); [lia|].
  change RFS_BLKSIZE with 4096. rewrite (Z.rem_mod_nonneg offset), (Z.quot_div_nonneg offset) by lia.
  set (align := offset mod 4096). set (k := offset / 4096).
  assert (offset = k * 4096 + align /\ 0 <= align < 4096 /\ 0 <= k) as (Ho & Ha & Hk0)
    by (subst align k; clear -Hoff; zlia).
  rewrite Z.quot_div_nonneg, Z.rem_mod_nonneg by lia.
  set (rt := (align + n) / 4096). set (remain := (align + n) mod 4096).
  assert (align + n = rt * 4096 + remain /\ 0 <= remain < 4096 /\ 0 <= rt) as (Hrt & Hrem & Hrt0)
    by (subst rt remain; clear -Ha n H0; zlia).
  set (fl := if rt =? 0 then n else 4096 - align).
  assert (0 <= fl /\ align + fl <= 4096) as Hfl by (subst fl; destruct (Z.eqb_spec rt 0); lia).
  destruct (read_file_block (bind (Rfs.from_iobuffer align fl) (fun buffer =>
      bind (read_rest v (rt - 1) remain (k + 1) buffer) (fun buffer =>
      bind (of_option "strcpy" (cstring (buffer ++ [0]))) (fun str =>
      ret (n, str ++ [0], offset + n))))) s v k Hr) as (b & Hb & Eb & Heq); [lia|].
  set (s1 := Rfs.set_iobuffer b s). pose proof (readable_iobuffer s v b Hr Hb) as Hr1. fold s1 in Hr1.
  assert (Rfs.from_iobuffer align fl s1 = Ret (take (Z.to_nat fl) (drop (Z.to_nat offset) (data s1 v))) s1) as Hfr.
  { rewrite from_iobuffer_eq by (simpl; lia). f_equal. simpl. change (data s1 v) with (data s v).
    rewrite Eb, skipn_firstn_comm, take_take, drop_drop. f_equal; [lia|]. f_equal. lia. }
  assert (exists b', length b' = 4096%nat /\
    read_rest v (rt - 1) remain (k + 1) (take (Z.to_nat fl) (drop (Z.to_nat offset) (data s1 v))) s1 =
      Ret (take (Z.to_nat n) (drop (Z.to_nat offset) (data s v))) (Rfs.set_iobuffer b' s)) as (b' & Hb' & Hrest).
  { destruct (Z.eqb_spec rt 0) as [E|E].
    - exists b. split; [done|]. unfold read_rest. destruct (Z.leb_spec 0 (rt - 1)); [lia|]. done.
    - destruct (read_rest_spec s1 v (k + 1) (Z.to_nat offset) (Z.to_nat fl) (rt - 1) remain Hr1)
        as (b' & Hb' & Hrest); [lia|lia|done| |subst fl; lia|].
      + destruct (Z.ltb_spec 0 remain); lia.
      + exists b'. split; [done|]. rewrite Hrest. f_equal. change (data s1 v) with (data s v). f_equal. subst fl. lia. }
  exists b'. split; [done|]. rewrite Hc. etransitivity; [exact Heq|]. fold s1. mstep Hfr. mstep Hrest.
  by rewrite cstring_terminated.
Qed.
End files.
