(* ===== verification/RfsWrite.v ===== *)
(** * RFS: [rfs_write]

    A write that reaches the end of the file, at any offset and of any length:
    the content up to the offset is kept, the rest is what was written, and the
    blocks of other files do not change; and the write inside a block that loses
    what follows. *)

From stdpp Require Import base gmap list numbers strings.
From Stdlib Require Import ZArith Lia.
From S2P Require Import Prelude Pmm Bytes Rfs RfsDisk RfsFile.
Local Open Scope Z_scope.

Section write.
Context {A : Type} `{PA : PageAllocator A}.
Implicit Types s : Rfs.state A.

(** ** One block of the data is replaced *)
Lemma block_set_disk' s a nb ib b :
  disk_ok s -> valid_block a -> valid_block b ->
  block (Rfs.set_disk (<[Z.to_nat a := nb]> (Rfs.disk s)) (Rfs.set_iobuffer ib s)) b = if decide (b = a) then nb else block s b.
Proof. intros Hd Ha Hb. exact (block_set_disk s a nb b Hd Ha Hb). Qed.

Lemma concat_blocks_other s s' l :
  (forall b, b ∈ l -> block s' b = block s b) -> concat (map (block s') l) = concat (map (block s) l).
Proof.
  induction l as [|b l IH]; intros Hb; [done|]. simpl. rewrite Hb by (by constructor). f_equal.
  apply IH. intros b' Hb'. apply Hb. by constructor.
Qed.

Lemma concat_blocks_write s s' l k a nb :
  disk_ok s -> Forall valid_block l -> NoDup l -> l !! k = Some a -> length nb = 4096%nat ->
  (forall b, valid_block b -> block s' b = if decide (b = a) then nb else block s b) ->
  concat (map (block s') l) =
    take (k * 4096) (concat (map (block s) l)) ++ nb ++ drop (S k * 4096) (concat (map (block s) l)).
Proof.
  intros Hd Hv. revert k. induction Hv as [|x l Hx Hv IH]; intros k Hnd Hk Hnb Hblk; [done|].
  apply NoDup_cons in Hnd as [Hni Hnd]. pose proof (block_length s x Hd Hx) as Hxl. destruct k as [|k]; simpl in Hk.
  - injection Hk as ->. cbn [map concat Nat.mul]. rewrite take_0, Hblk, decide_True by done. simpl. f_equal.
    rewrite drop_app_ge by lia. rewrite Hxl. rewrite drop_0. apply concat_blocks_other.
    intros b Hb. rewrite Forall_forall in Hv. rewrite Hblk by (by apply Hv). rewrite decide_False; [done|]. by intros ->.
  - cbn [map concat]. rewrite (Hblk x Hx), decide_False.
    2: { intros ->. apply Hni. by eapply list_elem_of_lookup_2. }
    rewrite (IH k Hnd Hk Hnb Hblk). rewrite take_app_ge by lia. rewrite drop_app_ge by lia. rewrite Hxl.
    replace (S k * 4096 - 4096)%nat with (k * 4096)%nat by lia.
    replace (S (S k) * 4096 - 4096)%nat with (S k * 4096)%nat by lia. by rewrite <- app_assoc.
Qed.

(** Writing block [k] of a file: the effect on the file and on the others. *)
Lemma store_block s v k a nb ib :
  readable s v -> file_blocks v !! Z.to_nat k = Some a -> 0 <= k -> length nb = 4096%nat -> length ib = 4096%nat ->
  let s' := Rfs.set_disk (<[Z.to_nat a := nb]> (Rfs.disk s)) (Rfs.set_iobuffer ib s) in
  readable s' v /\ (forall b, valid_block b -> b <> a -> block s' b = block s b) /\
  (forall m, (m <= 4096)%nat -> take (Z.to_nat (k * 4096) + m) (data s' v) = take (Z.to_nat (k * 4096)) (data s v) ++ take m nb).
Proof.
  intros (Hd & Hm & Hf) Hk Hk0 Hnb Hib s'. pose proof Hf as [F1 F2 F3 F4 F5].
  pose proof (used_valid s _ Hm F4) as Hv.
  assert (valid_block a) as Ha by (rewrite Forall_forall in Hv; apply Hv; by eapply list_elem_of_lookup_2).
  assert (forall b, valid_block b -> block s' b = if decide (b = a) then nb else block s b) as Hblk
    by (intros b Hb; by apply block_set_disk').
  split_and!.
  - split; [|split; [exact Hm|by apply (file_ok_ext s)]].
    apply (disk_ok_write (Rfs.set_iobuffer ib s)); [by apply disk_ok_iobuffer|done].
  - intros b Hb Hne. by rewrite Hblk, decide_False.
  - intros m Hmm. unfold data at 1. rewrite (concat_blocks_write s s' _ _ a nb Hd Hv F5 Hk Hnb Hblk). fold (data s v).
    pose proof (data_length s v Hd Hm Hf) as Hdl.
    pose proof (lookup_lt_Some _ _ _ Hk) as Hlt. rewrite (length_file_blocks s v Hf) in Hlt.
    replace (Z.to_nat k * 4096)%nat with (Z.to_nat (k * 4096)) by lia.
    rewrite take_app_ge by (rewrite length_take; lia). rewrite length_take, Nat.min_l by lia.
    rewrite Nat.add_comm, Nat.add_sub. rewrite take_app_le by lia. done.
Qed.

(** A write into block [k] from its start leaves the rest of the block as the
    buffer of the device is. *)
Lemma overwrite_block s f v w_buf k len :
  readable s v -> Rfs.vinodes s !! f = Some v -> 0 <= k < blocks v -> 0 <= len <= 4096 -> len <= Z.of_nat (length w_buf) ->
  exists a s', Rfs.write_block f w_buf 0 k len s = Ret tt s' /\
    (let nb := take (Z.to_nat len) w_buf ++ drop (Z.to_nat len) (Rfs.iobuffer s) in
     s' = Rfs.set_disk (<[Z.to_nat a := nb]> (Rfs.disk s)) (Rfs.set_iobuffer nb s) /\
     data s' v = take (Z.to_nat (k * 4096)) (data s v) ++ nb ++ drop (Z.to_nat (k * 4096 + 4096)) (data s v)).
Proof.
  intros Hr Hv Hk Hlen Hbuf. pose proof Hr as (Hd & Hm & Hf). pose proof Hf as [F1 F2 F3 F4 F5].
  destruct (file_block_read s v k Hd Hm Hf Hk) as (a & Ha & Hva & _ & Hlk & _).
  assert (length (Rfs.iobuffer s) = 4096%nat) as Hil by apply Hd. set (w := take (Z.to_nat len) w_buf).
  assert (length w = Z.to_nat len) as Hw by (subst w; rewrite length_take; lia).
  destruct (to_iobuffer_eq s 0 w) as (nb & Hsp & Hto); [lia|lia|].
  pose proof (splice_length _ _ _ _ Hsp) as Hbl. apply splice_Some in Hsp as (_ & _ & Enb).
  change (Z.to_nat 0) with 0%nat in Enb. rewrite take_0, Hw in Enb. cbn [app Nat.add] in Enb.
  exists a. eexists. cbv zeta. rewrite <- Enb. split; [|split; [done|]].
  - unfold Rfs.write_block. assert (Rfs.block_for_write f k s = Ret a s) as Hbw.
    { unfold Rfs.block_for_write. mstep (vinode_eq s f v Hv). rewrite (proj2 (Z.eqb_neq _ _)), bind_ret_l by lia.
      mstep (vinode_eq s f v Hv). exact Ha. }
    mstep Hbw. unfold Rfs.from_user. rewrite slice_eq by lia. change (Z.to_nat 0) with 0%nat. rewrite drop_0. fold w.
    change (of_option _ (Some w)) with (ret (S := Rfs.state A) w). rewrite bind_ret_l. mstep Hto.
    unfold Rfs.rfs_w1block. by mstep (ramdisk_write_eq (Rfs.set_iobuffer nb s) a Hva).
  - unfold data. rewrite (concat_blocks_write s _ (file_blocks v) (Z.to_nat k) a nb); try done.
    + f_equal; [f_equal; lia|]. do 2 f_equal. lia.
    + by apply (used_valid s).
    + lia.
    + intros b Hb. by apply block_set_disk'.
Qed.

(** ** A block is appended to a file *)
Definition grow (v : vinode) (b : Z) : vinode :=
  set_blocks (blocks v + 1) (set_addrs (<[Z.to_nat (blocks v) := b]> (addrs v)) v).

Lemma file_blocks_grow s v b : file_ok s v -> blocks v < 10 -> file_blocks (grow v b) = file_blocks v ++ [b].
Proof.
  intros [F1 F2 _ _ _] Hlt. unfold file_blocks, grow. simpl.
  replace (Z.to_nat (blocks v + 1)) with (S (Z.to_nat (blocks v))) by lia.
  rewrite (take_S_r _ _ b) by (apply list_lookup_insert_eq; lia). by rewrite take_insert_ge by lia.
Qed.

Lemma grow_ok s s' v b :
  readable s v -> blocks v < 10 -> disk_ok s' -> map_ok s' -> data_block s b -> ~ used s b ->
  (forall b', used s' b' <-> used s b' \/ b' = b) -> (forall b', block s' b' = block s b') ->
  readable s' (grow v b) /\ data s' (grow v b) = data s v ++ block s b.
Proof.
  intros (Hd & Hm & Hf) Hlt Hd' Hm' Hb Hnu Hu Hblk. pose proof Hf as [F1 F2 F3 F4 F5].
  pose proof (file_blocks_grow s v b Hf Hlt) as Hfb. split.
  - split; [done|]. split; [done|]. split.
    + simpl. by rewrite length_insert.
    + simpl. lia.
    + simpl. lia.
    + rewrite Hfb. apply Forall_app. split.
      * eapply Forall_impl; [exact F4|]. intros b' Hb'. apply Hu. by left.
      * constructor; [|constructor]. apply Hu. by right.
    + rewrite Hfb. apply NoDup_app. split_and!; [done| |apply NoDup_singleton].
      intros b' Hb' ->%list_elem_of_singleton. rewrite Forall_forall in F4. by apply F4 in Hb'.
  - unfold data. rewrite Hfb, map_app, concat_app. simpl. rewrite app_nil_r, Hblk. f_equal.
    apply concat_blocks_other. intros b' _. apply Hblk.
Qed.

(** ** The invariant of the write loops

    [s0], [v0] are the state and the vinode before the write of file [f]; [pos]
    bytes of the data are final and equal to [prefix]. *)
Record writing (s0 : Rfs.state A) (f : Z) (v0 : vinode) (prefix : list Z) s (v : vinode) : Prop := {
  w_readable : readable s v;
  w_vinodes : Rfs.vinodes s = <[f := v]> (Rfs.vinodes s0);
  w_same : inum v = inum v0 /\ ref v = ref v0 /\ size v = size v0 /\ type v = type v0 /\
           nlinks v = nlinks v0 /\ i_fs_info v = i_fs_info v0;
  w_rest : Rfs.nblocks s = Rfs.nblocks s0 /\ Rfs.dentries s = Rfs.dentries s0 /\ Rfs.caches s = Rfs.caches s0 /\
           Rfs.dir_pages s = Rfs.dir_pages s0 /\ Rfs.pages s = Rfs.pages s0;
  w_prefix : take (length prefix) (data s v) = prefix;
  w_count : Z.of_nat (free_count s) + blocks v = Z.of_nat (free_count s0) + blocks v0;
  w_blocks : blocks v0 <= blocks v;
  w_frame : forall b, used s0 b -> b ∉ file_blocks v0 ->
              block s b = block s0 b /\ used s b /\ (b ∉ file_blocks v);
}.

Lemma writing_start s f v n :
  readable s v -> Rfs.vinodes s !! f = Some v -> writing s f v (take n (data s v)) s v.
Proof.
  intros Hr Hv. split; try done.
  - by rewrite insert_id.
  - rewrite length_take. destruct (decide (n <= length (data s v))%nat).
    + by rewrite Nat.min_l.
    + rewrite Nat.min_r by lia. rewrite !take_ge by lia. done.
Qed.

(** The block to write at index [k]: an existing one, or a new one at the end. *)
Lemma block_for_write_spec s0 f v0 prefix s v k :
  writing s0 f v0 prefix s v -> 0 <= k <= blocks v -> k < 10 -> Z.of_nat (length prefix) <= blocks v * 4096 ->
  (k = blocks v -> (0 < free_count s)%nat) ->
  exists a s1 v1, Rfs.block_for_write f k s = Ret a s1 /\ writing s0 f v0 prefix s1 v1 /\
    blocks v1 = Z.max (blocks v) (k + 1) /\ file_blocks v1 !! Z.to_nat k = Some a /\ valid_block a /\
    (used s0 a -> a ∈ file_blocks v0).
Proof.
  intros [Hr Hv Hsame Hrest Hpre Hcnt Hblk Hfr] Hk Hk10 Hlen Hfree.
  pose proof Hr as (Hd & Hm & Hf). pose proof Hf as [F1 F2 F3 F4 F5].
  assert (Rfs.get_vinode f s = Ret v s) as Hget by (apply vinode_eq; by rewrite Hv, lookup_insert_eq).
  unfold Rfs.block_for_write. mstep Hget. destruct (Z.eqb_spec k (blocks v)) as [->|Hne].
  - destruct (alloc_block_spec s Hm (Hfree eq_refl)) as (b & s1 & Heq & Es1 & Hb & Hnu & Hm1 & Hc1 & Hu1).
    assert (disk_ok s1) as Hd1 by (rewrite Es1; exact Hd).
    assert (forall b', block s1 b' = block s b') as Hblk1 by (intros b'; by rewrite Es1).
    destruct (grow_ok s s1 v b Hr ltac:(lia) Hd1 Hm1 Hb Hnu Hu1 Hblk1) as [Hr1 Hd1'].
    set (s2 := Rfs.set_vinodes (<[f := grow v b]> (Rfs.vinodes s)) s1).
    assert (file_blocks (grow v b) !! Z.to_nat (blocks v) = Some b) as Hlk.
    { rewrite (file_blocks_grow s v b Hf) by lia. rewrite lookup_app_r by (rewrite (length_file_blocks s v Hf); lia).
      by rewrite (length_file_blocks s v Hf), Nat.sub_diag. }
    exists b, s2, (grow v b). split_and!.
    + unfold bind at 1. unfold bind at 1. rewrite Heq.
      destruct (Z.ltb_spec (blocks v) 0); [lia|]. simpl.
      destruct (Z.leb_spec (Z.of_nat (length (addrs v))) (blocks v)); [lia|].
      unfold Rfs.upd_vinode, modify.
      replace (alter _ f (Rfs.vinodes s1)) with (<[f := grow v b]> (Rfs.vinodes s)).
      2: { rewrite Es1. simpl. rewrite Hv. rewrite alter_insert_eq, insert_insert_eq. done. }
      fold s2. assert (Rfs.get_vinode f s2 = Ret (grow v b) s2) as Hg2 by (apply vinode_eq; simpl; by rewrite lookup_insert_eq).
      mstep Hg2. unfold Rfs.addr_at. destruct (Z.ltb_spec (blocks v) 0); [lia|]. simpl.
      rewrite list_lookup_insert_eq by lia. done.
    + destruct Hr1 as (R1 & R2 & R3). split.
      * split; [exact R1|]. split; [exact R2|]. by apply (file_ok_ext s1).
      * simpl. rewrite Hv. by rewrite insert_insert_eq.
      * done.
      * unfold s2. rewrite Es1. exact Hrest.
      * change (data s2 (grow v b)) with (data s1 (grow v b)). rewrite Hd1'.
        rewrite take_app_le by (rewrite (data_length s v Hd Hm Hf); lia). done.
      * change (free_count s2) with (free_count s1). simpl. specialize (Hfree eq_refl). lia.
      * simpl. lia.
      * intros b' Hub' Hnb'. destruct (Hfr b' Hub' Hnb') as (G1 & G2 & G3).
        change (block s2 b') with (block s1 b'). rewrite Hblk1, G1. split_and!; [done| |].
        -- apply (proj2 (Hu1 b')). by left.
        -- rewrite (file_blocks_grow s v b Hf) by lia. rewrite not_elem_of_app, list_elem_of_singleton.
           split; [done|]. intros ->. done.
    + simpl. lia.
    + done.
    + by apply (data_block_valid s).
    + intros Hub. destruct (decide (b ∈ file_blocks v0)) as [|Hn]; [done|].
      destruct (Hfr b Hub Hn) as (_ & G2 & _). done.
  - destruct (file_block_read s v k Hd Hm Hf ltac:(lia)) as (a & Ha & Hva & Hua & Hlk & _).
    exists a, s, v. split_and!; try done.
    + rewrite bind_ret_l. by mstep Hget.
    + lia.
    + intros Hu0. destruct (decide (a ∈ file_blocks v0)) as [|Hn]; [done|].
      destruct (Hfr a Hu0 Hn) as (_ & _ & G3). exfalso. apply G3. by eapply list_elem_of_lookup_2.
Qed.

(** Storing into a block that is not one of the others keeps the invariant. *)
Lemma writing_store s0 f v0 prefix s v k a nb ib prefix' :
  writing s0 f v0 prefix s v -> 0 <= k -> file_blocks v !! Z.to_nat k = Some a -> valid_block a ->
  (used s0 a -> a ∈ file_blocks v0) -> map_ok s0 -> length nb = 4096%nat -> length ib = 4096%nat ->
  (exists m, (m <= 4096)%nat /\ prefix' = take (Z.to_nat (k * 4096)) (data s v) ++ take m nb /\
             length prefix' = (Z.to_nat (k * 4096) + m)%nat) ->
  writing s0 f v0 prefix' (Rfs.set_disk (<[Z.to_nat a := nb]> (Rfs.disk s)) (Rfs.set_iobuffer ib s)) v.
Proof.
  intros [Hr Hv Hsame Hrest Hpre Hcnt Hblk Hfr] Hk Hlk Ha Hu0 Hm0 Hnb Hib (m & Hm & Ep & El).
  destruct (store_block s v k a nb ib Hr Hlk Hk Hnb Hib) as (R1 & R2 & R3). split; try done.
  - by rewrite El, Ep, R3.
  - intros b Hub Hnb'. destruct (Hfr b Hub Hnb') as (G1 & G2 & G3). split_and!; [|exact G2|done].
    rewrite R2; [done| |].
    + destruct Hub as [Hub _]. by apply (data_block_valid s0).
    + intros ->. by apply Hnb', Hu0.
Qed.

Lemma from_user_eq w_buf off n s :
  0 <= off -> 0 <= n -> off + n <= Z.of_nat (length w_buf) ->
  Rfs.from_user w_buf off n s = Ret (take (Z.to_nat n) (drop (Z.to_nat off) w_buf)) s.
Proof. intros. unfold Rfs.from_user. by rewrite slice_eq. Qed.

Lemma write_block_spec s0 f v0 prefix s v w_buf bo k n :
  writing s0 f v0 prefix s v -> map_ok s0 -> Z.of_nat (length prefix) = k * 4096 -> 0 <= k <= blocks v -> k < 10 ->
  k + 1 <= Z.of_nat (free_count s0) + blocks v0 ->
  0 <= bo -> 0 <= n <= 4096 -> bo + n <= Z.of_nat (length w_buf) ->
  exists s' v', Rfs.write_block f w_buf bo k n s = Ret tt s' /\
    writing s0 f v0 (prefix ++ take (Z.to_nat n) (drop (Z.to_nat bo) w_buf)) s' v' /\
    blocks v' = Z.max (blocks v) (k + 1).
Proof.
  intros Hw Hm0 Hlen Hk Hk10 Hfree Hbo Hn Hbuf.
  destruct (block_for_write_spec s0 f v0 prefix s v k Hw Hk Hk10) as (a & s1 & v1 & Heq & Hw1 & Hb1 & Hlk & Ha & Hu).
  { lia. }
  { intros ->. pose proof (w_count _ _ _ _ _ _ Hw). lia. }
  set (bs := take (Z.to_nat n) (drop (Z.to_nat bo) w_buf)) in *.
  assert (length bs = Z.to_nat n) as Hbs by (subst bs; rewrite length_take, length_drop; lia).
  pose proof (w_readable _ _ _ _ _ _ Hw1) as (Hd1 & _ & _). pose proof Hd1 as (_ & _ & Hib).
  destruct (to_iobuffer_eq s1 0 bs) as (nb & Hsp & Hto); [lia|lia|].
  pose proof (splice_length _ _ _ _ Hsp) as Hnb. rewrite Hib in Hnb.
  eexists. exists v1. split; [|split].
  - unfold Rfs.write_block. mstep Heq. mstep (from_user_eq w_buf bo n s1 Hbo ltac:(lia) Hbuf). fold bs.
    mstep Hto. unfold Rfs.rfs_w1block. mstep (ramdisk_write_eq (Rfs.set_iobuffer nb s1) a Ha). done.
  - apply (writing_store s0 f v0 prefix s1 v1 k a nb nb); try done; [lia|].
    exists (Z.to_nat n). assert (take (Z.to_nat n) nb = bs) as ->.
    { apply splice_Some in Hsp as (_ & _ & ->). change (Z.to_nat 0) with 0%nat. rewrite take_0. simpl.
      rewrite take_app_le by lia. apply take_ge. lia. }
    split; [lia|]. split; [|rewrite length_app; lia].
    f_equal. rewrite <- (w_prefix _ _ _ _ _ _ Hw1) at 1. f_equal. lia.
  - lia.
Qed.

Lemma write_blocks_spec n : forall s0 f v0 prefix s v w_buf bo k,
  writing s0 f v0 prefix s v -> map_ok s0 -> Z.of_nat (length prefix) = k * 4096 -> 0 <= k <= blocks v ->
  k + Z.of_nat n <= 10 -> k + Z.of_nat n <= Z.of_nat (free_count s0) + blocks v0 ->
  0 <= bo -> bo + Z.of_nat n * 4096 <= Z.of_nat (length w_buf) ->
  exists s' v', Rfs.write_blocks n f w_buf bo k s = Ret (bo + Z.of_nat n * 4096, k + Z.of_nat n) s' /\
    writing s0 f v0 (prefix ++ take (n * 4096) (drop (Z.to_nat bo) w_buf)) s' v' /\
    blocks v' = Z.max (blocks v) (k + Z.of_nat n).
Proof.
  induction n as [|n IH]; intros s0 f v0 prefix s v w_buf bo k Hw Hm0 Hlen Hk Hk10 Hfree Hbo Hbuf.
  - exists s, v. cbn [Rfs.write_blocks Nat.mul]. rewrite take_0, app_nil_r. split_and!; [|done|lia].
    unfold ret. f_equal. f_equal; lia.
  - destruct (write_block_spec s0 f v0 prefix s v w_buf bo k 4096) as (s1 & v1 & Heq & Hw1 & Hb1); try done; try lia.
    change (Z.to_nat 4096) with 4096%nat in Hw1.
    destruct (IH s0 f v0 _ s1 v1 w_buf (bo + 4096) (k + 1) Hw1 Hm0) as (s2 & v2 & Heq2 & Hw2 & Hb2); try lia.
    { rewrite length_app, length_take, length_drop. lia. }
    exists s2, v2. cbn [Rfs.write_blocks]. change RFS_BLKSIZE with 4096. mstep Heq. rewrite Heq2. split_and!.
    + f_equal. f_equal; lia.
    + replace (Z.to_nat (bo + 4096)) with (Z.to_nat bo + 4096)%nat in Hw2 by lia.
      rewrite <- app_assoc, take_more in Hw2. exact Hw2.
    + lia.
Qed.

Lemma write_first_spec s f v w_buf len offset :
  readable s v -> Rfs.vinodes s !! f = Some v -> 0 <= offset <= size v -> 0 <= len <= Z.of_nat (length w_buf) ->
  let align := offset mod 4096 in let k := offset / 4096 in
  let wt := (len + align) / 4096 in
  let fl := if align =? 0 then 0 else if wt =? 0 then len else 4096 - align in
  exists s1 v1, Rfs.write_first f w_buf len align k wt s =
      Ret (fl, if align =? 0 then k else k + 1, if align =? 0 then wt else wt - 1) s1 /\
    writing s f v (take (Z.to_nat offset) (data s v) ++ take (Z.to_nat fl) w_buf) s1 v1 /\ blocks v1 = blocks v.
Proof.
  intros Hr Hv Hoff Hlen align k wt fl. pose proof Hr as (Hd & Hm & Hf). pose proof Hf as [F1 F2 F3 F4 F5].
  assert (offset = k * 4096 + align /\ 0 <= align < 4096 /\ 0 <= k) as (Ho & Ha & Hk0)
    by (subst align k; clear -Hoff; zlia).
  unfold Rfs.write_first. destruct (Z.eqb_spec align 0) as [E|E]; simpl.
  { exists s, v. split; [done|]. split; [|done]. subst fl. change (Z.to_nat 0) with 0%nat. rewrite take_0, app_nil_r.
    by apply writing_start. }
  assert (0 <= len + align) as Hla by lia.
  assert (0 <= wt /\ len + align = wt * 4096 + (len + align) mod 4096 /\ 0 <= (len + align) mod 4096 < 4096) as Hwt
    by (subst wt; clear -Hla; zlia).
  assert (0 <= fl <= len /\ align + fl <= 4096) as [Hfl Hfl'].
  { subst fl. destruct (Z.eqb_spec wt 0); lia. }
  mstep (vinode_eq s f v Hv). change RFS_BLKSIZE with 4096. fold fl.
  assert (0 <= k < blocks v) as Hkb by lia.
  destruct (file_block_read s v k Hd Hm Hf Hkb) as (a & Haa & Hva & Hua & Hlk & Hblk).
  mstep Haa. unfold Rfs.rfs_r1block. mstep (ramdisk_read_eq s a Hd Hva).
  set (s1 := Rfs.set_iobuffer (block s a) s). pose proof (block_length s a Hd Hva) as Hbl.
  assert (Rfs.from_user w_buf 0 fl s1 = Ret (take (Z.to_nat fl) w_buf) s1) as Hfu by (rewrite from_user_eq by lia; done).
  mstep Hfu. set (bs := take (Z.to_nat fl) w_buf).
  assert (length bs = Z.to_nat fl) as Hbs by (subst bs; rewrite length_take; lia).
  destruct (to_iobuffer_eq s1 align bs) as (nb & Hsp & Hto); [lia|change (Rfs.iobuffer s1) with (block s a); lia|].
  pose proof (splice_length _ _ _ _ Hsp) as Hnb. change (Rfs.iobuffer s1) with (block s a) in Hnb. rewrite Hbl in Hnb.
  mstep Hto. unfold Rfs.rfs_w1block. mstep (ramdisk_write_eq (Rfs.set_iobuffer nb s1) a Hva).
  eexists. exists v. split; [done|]. split; [|done].
  apply (writing_store s f v _ s v k a nb nb _ (writing_start s f v 0 Hr Hv)); try done.
  { intros _. by eapply list_elem_of_lookup_2. }
  exists (Z.to_nat (align + fl)). split; [lia|].
  pose proof (data_length s v Hd Hm Hf) as Hdl. split; [|rewrite length_app, length_take; lia].
  assert (take (Z.to_nat (align + fl)) nb = take (Z.to_nat align) (block s a) ++ bs) as ->.
  { apply splice_Some in Hsp as (_ & _ & ->). change (Rfs.iobuffer s1) with (block s a).
    rewrite take_app_ge by (rewrite length_take; lia). rewrite length_take, Nat.min_l by lia.
    f_equal. rewrite take_app_le by lia. apply take_ge. lia. }
  rewrite app_assoc. f_equal. rewrite Hblk, take_take, Nat.min_l by lia.
  pose proof (take_more (data s v) 0 (Z.to_nat (k * 4096)) (Z.to_nat align)) as Htm. rewrite !drop_0 in Htm.
  rewrite Nat.add_0_l in Htm. rewrite Htm. f_equal. lia.
Qed.

Lemma take_more0 {X} (l : list X) n m : take n l ++ take m (drop n l) = take (n + m) l.
Proof. pose proof (take_more l 0 n m) as H. by rewrite !drop_0 in H. Qed.

(** The blocks after the first: all of [\[pos, pos + wt * 4096 + remain)]. *)
Definition write_rest (f : Z) (w_buf : list Z) (writetimes remain buf_offset block_offset : Z) : M (Rfs.state A) unit :=
  if 0 <=? writetimes then
    let* (buf_offset, block_offset) := Rfs.write_blocks (Z.to_nat writetimes) f w_buf buf_offset block_offset in
    if 0 <? remain then Rfs.write_block f w_buf buf_offset block_offset remain else ret tt
  else ret tt.

Lemma write_rest_spec s0 f v0 p s v w_buf wt remain bo k :
  writing s0 f v0 (p ++ take (Z.to_nat bo) w_buf) s v -> map_ok s0 ->
  Z.of_nat (length p) + bo = k * 4096 -> 0 <= k <= blocks v -> 0 <= wt -> 0 <= remain < 4096 -> 0 <= bo ->
  bo + wt * 4096 + remain <= Z.of_nat (length w_buf) ->
  (forall K, K = k + wt + (if 0 <? remain then 1 else 0) -> K <= 10 /\ K <= Z.of_nat (free_count s0) + blocks v0) ->
  exists s' v', write_rest f w_buf wt remain bo k s = Ret tt s' /\
    writing s0 f v0 (p ++ take (Z.to_nat (bo + wt * 4096 + remain)) w_buf) s' v' /\
    k + wt + (if 0 <? remain then 1 else 0) <= blocks v'.
Proof.
  intros Hw Hm0 Hpos Hk Hwt Hrem Hbo Hbuf HK. destruct (HK _ eq_refl) as [HK1 HK2]. clear HK.
  assert (length (take (Z.to_nat bo) w_buf) = Z.to_nat bo) as Hlb by (rewrite length_take; lia).
  destruct (write_blocks_spec (Z.to_nat wt) s0 f v0 _ s v w_buf bo k Hw Hm0) as (s1 & v1 & Heq & Hw1 & Hb1);
    try (rewrite ?length_app; destruct (0 <? remain); lia).
  rewrite <- app_assoc, take_more0 in Hw1. replace (Z.of_nat (Z.to_nat wt)) with wt in * by lia.
  unfold write_rest. destruct (Z.leb_spec 0 wt); [|lia]. mstep Heq.
  destruct (Z.ltb_spec 0 remain) as [Hr|Hr].
  - destruct (write_block_spec s0 f v0 _ s1 v1 w_buf (bo + wt * 4096) (k + wt) remain Hw1 Hm0)
      as (s2 & v2 & Heq2 & Hw2 & Hb2); try lia.
    { rewrite length_app, length_take. lia. }
    exists s2, v2. split; [exact Heq2|]. split; [|lia].
    replace (Z.to_nat (bo + wt * 4096)) with (Z.to_nat bo + Z.to_nat wt * 4096)%nat in Hw2 by lia.
    rewrite <- app_assoc, take_more0 in Hw2.
    replace (Z.to_nat (bo + wt * 4096 + remain)) with (Z.to_nat bo + Z.to_nat wt * 4096 + Z.to_nat remain)%nat by lia.
    exact Hw2.
  - exists s1, v1. split; [done|]. split; [|lia].
    replace (Z.to_nat (bo + wt * 4096 + remain)) with (Z.to_nat bo + Z.to_nat wt * 4096)%nat by lia. exact Hw1.
Qed.

(** The state after the blocks were written, before the size is updated. *)
Lemma write_all s f v w_buf len offset :
  readable s v -> Rfs.vinodes s !! f = Some v -> 0 <= offset <= size v -> 0 <= len <= Z.of_nat (length w_buf) ->
  (offset + len + 4095) / 4096 <= 10 -> (offset + len + 4095) / 4096 <= Z.of_nat (free_count s) + blocks v ->
  let align := offset mod 4096 in let wt := (len + align) / 4096 in let remain := (len + align) mod 4096 in
  exists s' v', bind (Rfs.write_first f w_buf len align (offset / 4096) wt)
      (fun x => let '(bo, k, wt) := x in write_rest f w_buf wt remain bo k) s = Ret tt s' /\
    writing s f v (take (Z.to_nat offset) (data s v) ++ take (Z.to_nat len) w_buf) s' v' /\
    offset + len <= blocks v' * 4096.
Proof.
  intros Hr Hv Hoff Hlen Hn1 Hn2 align wt remain. pose proof Hr as (Hd & Hm & Hf). pose proof Hf as [F1 F2 F3 F4 F5].
  set (k := offset / 4096).
  assert (offset = k * 4096 + align /\ 0 <= align < 4096 /\ 0 <= k) as (Ho & Ha & Hk0)
    by (subst align k; clear -Hoff; zlia).
  assert (0 <= len + align) as Hla by lia.
  assert (len + align = wt * 4096 + remain /\ 0 <= remain < 4096 /\ 0 <= wt) as (Hwt & Hrem & Hwt0)
    by (subst wt remain; clear -Hla; zlia).
  assert ((offset + len + 4095) / 4096 = k + wt + (if 0 <? remain then 1 else 0)) as Hneed.
  { replace (offset + len + 4095) with ((k + wt) * 4096 + (remain + 4095)) by lia. clear -Hrem.
    destruct (Z.ltb_spec 0 remain); zlia. }
  rewrite Hneed in Hn1, Hn2.
  destruct (write_first_spec s f v w_buf len offset Hr Hv Hoff Hlen) as (s1 & v1 & Heq & Hw1 & Hb1).
  fold align k wt in Heq, Hw1. mstep Heq.
  pose proof (data_length s v Hd Hm Hf) as Hdl.
  set (fl := if align =? 0 then 0 else if wt =? 0 then len else 4096 - align) in *.
  destruct (decide (align <> 0 /\ wt = 0)) as [[Ea Ew]|Hcase].
  - assert (fl = len) as Hfl by (subst fl; rewrite (proj2 (Z.eqb_neq align 0) Ea), Ew; done).
    exists s1, v1. rewrite (proj2 (Z.eqb_neq align 0) Ea). unfold write_rest.
    destruct (Z.leb_spec 0 (wt - 1)); [lia|]. split; [done|]. rewrite Hfl in Hw1. split; [done|]. lia.
  - set (k' := if align =? 0 then k else k + 1). set (wt' := if align =? 0 then wt else wt - 1).
    assert (0 <= wt' /\ offset + fl = k' * 4096 /\ fl + wt' * 4096 + remain = len /\ 0 <= fl <= len /\ k' <= blocks v /\
            k' + wt' = k + wt /\ 0 <= k') as (W0 & W1 & W2 & W3 & W4 & W5 & W6).
    { subst fl k' wt'. destruct (Z.eqb_spec align 0); [lia|]. destruct (Z.eqb_spec wt 0); lia. }
    destruct (write_rest_spec s f v (take (Z.to_nat offset) (data s v)) s1 v1 w_buf wt' remain fl k' Hw1 Hm)
      as (s2 & v2 & Heq2 & Hw2 & Hb2); try (rewrite ?length_take; lia).
    exists s2, v2. rewrite W2 in Hw2. split; [exact Heq2|]. split; [exact Hw2|].
    rewrite W5 in Hb2. destruct (Z.ltb_spec 0 remain); lia.
Qed.

(** The effect of a write on the file system. *)
Record wrote s (f : Z) (v : vinode) s' (v' : vinode) : Prop := {
  wr_readable : readable s' v';
  wr_vinodes : Rfs.vinodes s' = <[f := v']> (Rfs.vinodes s);
  wr_same : inum v' = inum v /\ ref v' = ref v /\ type v' = type v /\ nlinks v' = nlinks v /\ i_fs_info v' = i_fs_info v;
  wr_rest : Rfs.dentries s' = Rfs.dentries s /\ Rfs.caches s' = Rfs.caches s /\
            Rfs.dir_pages s' = Rfs.dir_pages s /\ Rfs.pages s' = Rfs.pages s;
  wr_frame : forall b, used s b -> b ∉ file_blocks v -> block s' b = block s b /\ used s' b /\ (b ∉ file_blocks v');
  wr_count : Z.of_nat (free_count s') + blocks v' = Z.of_nat (free_count s) + blocks v;
}.

Lemma rfs_write_spec s f v w_buf len offset :
  readable s v -> Rfs.vinodes s !! f = Some v -> 0 <= offset <= size v -> 0 <= len <= Z.of_nat (length w_buf) ->
  size v <= offset + len ->
  (offset + len + 4095) / 4096 <= 10 -> (offset + len + 4095) / 4096 <= Z.of_nat (free_count s) + blocks v ->
  exists s' v', Rfs.rfs_write f w_buf len offset s = Ret (len, offset + len) s' /\
    size v' = offset + len /\
    content s' v' = take (Z.to_nat offset) (content s v) ++ take (Z.to_nat len) w_buf /\ wrote s f v s' v'.
Proof.
  intros Hr Hv Hoff Hlen Hend Hn1 Hn2. pose proof Hr as (Hd & Hm & Hf).
  destruct (write_all s f v w_buf len offset Hr Hv Hoff Hlen Hn1 Hn2) as (s1 & v1 & Heq & Hw & Hb).
  destruct Hw as [[Hd1 [Hm1 Hf1]] Hvs (S1 & S2 & S3 & S4 & S5 & S6) (R1 & R2 & R3 & R4 & R5) Hpre Hcnt Hbl Hfr].
  set (v2 := set_size (offset + len) v1).
  set (s2 := Rfs.set_vinodes (<[f := v2]> (Rfs.vinodes s)) s1).
  exists s2, v2. split_and!.
  - unfold Rfs.rfs_write. mstep (vinode_eq s f v Hv). destruct (Z.ltb_spec (size v) offset); [lia|].
    change RFS_BLKSIZE with 4096.
    rewrite (Z.rem_mod_nonneg offset), (Z.quot_div_nonneg offset) by lia.
    assert (0 <= len + offset mod 4096) by (pose proof (Z.mod_pos_bound offset 4096); lia).
    rewrite Z.quot_div_nonneg, Z.rem_mod_nonneg by lia.
    unfold bind at 1 in Heq. unfold bind at 1.
    destruct (Rfs.write_first _ _ _ _ _ _ s) as [[[bo k] wt] sx| | | | | ]; try discriminate.
    unfold write_rest in Heq. mstep Heq. unfold Rfs.upd_vinode. rewrite bind_modify. unfold ret. f_equal.
    unfold s2. f_equal. rewrite Hvs, alter_insert_eq, S3. f_equal. unfold v2. f_equal.
    destruct (Z.ltb_spec (size v) (offset + len)); lia.
  - done.
  - unfold content. change (data s2 v2) with (data s1 v1). simpl size.
    pose proof (data_length s v Hd Hm Hf) as Hdl. pose proof Hf as [F1 F2 F3 _ _].
    rewrite take_take, Nat.min_l by lia. rewrite <- Hpre. f_equal.
    rewrite length_app, !length_take. lia.
  - split; try done.
    + split; [exact Hd1|]. split; [exact Hm1|]. destruct Hf1 as [G1 G2 G3 G4 G5]. split; try done. simpl. lia.
Qed.
End write.
