(* ===== verification/RfsDir.v ===== *)
(** * RFS: directories

    A directory is the list of its entries, names with inode numbers, stored in
    the 32-byte slots of its block ([rfs_mkdir] and [rfs_format_dev] give a
    directory one block, and no operation adds another).  [dir_rep] relates the
    block to the list; the operations are stated on the list. *)

From stdpp Require Import base gmap list numbers strings.
From Stdlib Require Import ZArith Lia.
From S2P Require Import Prelude Pmm Bytes Rfs RfsDisk RfsFile.
Local Open Scope Z_scope.

(** ** Slots of a directory block *)
Definition slot_name (blk : list Z) (i : nat) : option (list Z) := cstring (take 28 (drop (32 * i + 4) blk)).
Definition slot_inum (blk : list Z) (i : nat) : Z := bytes_int (take 4 (drop (32 * i) blk)).

Lemma cstring_take p n s : cstring (take n p) = Some s -> cstring p = Some s.
Proof.
  revert n s. induction p as [|c p IH]; intros [|n] s; try done. simpl.
  destruct (c =? 0); [done|]. destruct (cstring (take n p)) as [s'|] eqn:E; [|done]. intros [= <-]. by rewrite (IH n s').
Qed.

Lemma bytes_int_take l : bytes_int (take 4 l) = bytes_int l \/ (length l < 4)%nat.
Proof. destruct l as [|a [|b [|c [|d l]]]]; simpl; try (right; lia). by left. Qed.

(** A splice that touches slot [i] only. *)
Lemma slots_splice_other blk blk' off bs i j :
  splice off bs blk = Some blk' -> length blk = 4096%nat -> (j < 128)%nat -> i <> j ->
  32 * Z.of_nat i <= off -> off + Z.of_nat (length bs) <= 32 * Z.of_nat i + 32 ->
  slot_name blk' j = slot_name blk j /\ slot_inum blk' j = slot_inum blk j.
Proof.
  intros Hsp Hlen Hj Hij H1 H2. pose proof (splice_length _ _ _ _ Hsp) as Hlen'.
  unfold slot_name, slot_inum. split; f_equal.
  - pose proof (slice_splice_other off bs blk blk' (32 * Z.of_nat j + 4) 28 Hsp ltac:(lia)) as Hs.
    rewrite !slice_eq in Hs by lia. injection Hs as Hs. change (Z.to_nat 28) with 28%nat in Hs.
    by replace (Z.to_nat (32 * Z.of_nat j + 4)) with (32 * j + 4)%nat in Hs by lia.
  - pose proof (slice_splice_other off bs blk blk' (32 * Z.of_nat j) 4 Hsp ltac:(lia)) as Hs.
    rewrite !slice_eq in Hs by lia. injection Hs as Hs. change (Z.to_nat 4) with 4%nat in Hs.
    by replace (Z.to_nat (32 * Z.of_nat j)) with (32 * j)%nat in Hs by lia.
Qed.

(** Writing an entry: the two stores of [rfs_add_direntry]. *)
Lemma slot_write blk b1 b2 i name ino :
  splice (32 * Z.of_nat i) (int_bytes ino) blk = Some b1 ->
  splice (32 * Z.of_nat i + 4) (name ++ [0]) b1 = Some b2 ->
  length blk = 4096%nat -> (i < 128)%nat -> no_nul name -> (length name <= 27)%nat ->
  slot_name b2 i = Some name /\ slot_inum b2 i = i32 ino /\
  (forall j, (j < 128)%nat -> i <> j -> slot_name b2 j = slot_name blk j /\ slot_inum b2 j = slot_inum blk j).
Proof.
  intros H1 H2 Hlen Hi Hn Hl. pose proof (splice_length _ _ _ _ H1) as L1. pose proof (splice_length _ _ _ _ H2) as L2.
  assert (length (name ++ [0]) = S (length name)) as Hnl by (rewrite length_app; simpl; lia).
  split_and!.
  - pose proof (slice_splice_same _ _ _ _ H2) as Hs. rewrite slice_eq in Hs by lia. injection Hs as Hs.
    rewrite Nat2Z.id in Hs. replace (Z.to_nat (32 * Z.of_nat i + 4)) with (32 * i + 4)%nat in Hs by lia.
    unfold slot_name. rewrite <- (take_drop (length (name ++ [0])) (take 28 (drop (32 * i + 4) b2))).
    rewrite take_take, Nat.min_l, Hs by lia. rewrite <- app_assoc. by apply cstring_app.
  - pose proof (slice_splice_same _ _ _ _ H1) as Hs1.
    pose proof (slice_splice_other _ _ _ _ (32 * Z.of_nat i) 4 H2 ltac:(lia)) as Hs2.
    change (Z.of_nat (length (int_bytes ino))) with 4 in Hs1. rewrite Hs1 in Hs2. rewrite slice_eq in Hs2 by lia.
    injection Hs2 as Hs2. change (Z.to_nat 4) with 4%nat in Hs2.
    replace (Z.to_nat (32 * Z.of_nat i)) with (32 * i)%nat in Hs2 by lia.
    unfold slot_inum. rewrite Hs2. rewrite <- (app_nil_r (int_bytes ino)). apply bytes_int_bytes.
  - intros j Hj Hij.
    destruct (slots_splice_other blk b1 _ _ i j H1 Hlen Hj Hij) as [A1 A2]; [lia|simpl; lia|].
    destruct (slots_splice_other b1 b2 _ _ i j H2 ltac:(lia) Hj Hij) as [B1 B2]; [lia|lia|].
    by rewrite B1, B2, A1, A2.
Qed.

Section dirs.
Context {A : Type} `{PA : PageAllocator A}.
Implicit Types s : Rfs.state A.

Definition dir_block s (d : vinode) : list Z := block s (nth 0 (addrs d) 0).

Record dir_rep s (d : vinode) (es : list (list Z * Z)) : Prop := {
  dr_readable : readable s d;
  dr_blocks : blocks d = 1;
  dr_type : type d = DIR_I;
  dr_size : size d = 32 * Z.of_nat (length es);
  dr_entries : forall i e, es !! i = Some e ->
    slot_name (dir_block s d) i = Some e.1 /\ slot_inum (dir_block s d) i = e.2;
}.

Lemma dir_addr s d es : dir_rep s d es ->
  exists a, nth 0 (addrs d) 0 = a /\ Rfs.addr_at d 0 s = Ret a s /\ valid_block a /\ used s a /\ file_blocks d = [a].
Proof.
  intros [(Hd & Hm & Hf) Hb _ _ _]. destruct (file_block_read s d 0 Hd Hm Hf ltac:(lia)) as (a & Ha & Hv & Hu & Hlk & _).
  pose proof Hf as [F1 F2 _ _ _]. exists a. unfold Rfs.addr_at in Ha. simpl in Ha.
  destruct (addrs d) as [|x l] eqn:E; [simpl in F1; lia|]. split_and!; try done.
  - unfold file_blocks in Hlk. rewrite Hb, E in Hlk. simpl in Hlk. by injection Hlk.
  - unfold Rfs.addr_at. simpl. rewrite E in *. unfold file_blocks in Hlk. rewrite Hb, E in Hlk. simpl in Hlk. injection Hlk as <-. done.
  - unfold file_blocks in *. rewrite Hb, E in *. simpl in *. injection Hlk as <-. done.
Qed.

Lemma dir_length s d es : dir_rep s d es -> (length es <= 128)%nat /\ length (dir_block s d) = 4096%nat.
Proof.
  intros Hr. destruct (dir_addr s d es Hr) as (a & Ea & _ & Hv & _). destruct Hr as [(Hd & Hm & [_ _ F3 _ _]) Hb _ Hs _].
  split; [lia|]. unfold dir_block. rewrite Ea. by apply block_length.
Qed.

(** The abstract search. *)
Definition find_entry (name : list Z) (es : list (list Z * Z)) : option nat :=
  fst <$> list_find (fun e => e.1 = name) es.

Lemma find_entry_cons name e es :
  find_entry name (e :: es) = if decide (e.1 = name) then Some 0%nat else S <$> find_entry name es.
Proof.
  unfold find_entry. simpl. destruct (decide (e.1 = name)); [done|].
  by destruct (list_find _ es) as [[i x]|].
Qed.

(** ** The search loop *)
Lemma strcmp_slot blk i nm name :
  slot_name blk i = Some nm -> no_nul name ->
  exists r, strcmp (drop (32 * i + 4) blk) (name ++ [0]) = Some r /\ (r =? 0) = bool_decide (nm = name).
Proof.
  intros Hs Hn. apply cstring_take in Hs.
  destruct (strcmp_eq (drop (32 * i + 4) blk) (name ++ [0]) nm name Hs (cstring_app name [] Hn)) as (r & Hr & Hiff).
  exists r. split; [done|]. destruct (Z.eqb_spec r 0), (bool_decide_reflect (nm = name)); tauto.
Qed.

Lemma find_direntry_loop n : forall s d name es i,
  no_nul name -> (n = length es)%nat -> (0 < i)%nat -> (i + n <= 128)%nat ->
  (forall j e, es !! j = Some e -> slot_name (Rfs.iobuffer s) (i + j) = Some e.1) ->
  Rfs.find_direntry n d name (Z.of_nat i) s = Ret ((fun j => Z.of_nat (i + j)) <$> find_entry name es) s.
Proof.
  induction n as [|n IH]; intros s d name es i Hn Hlen Hi Hle Hes.
  - destruct es; [done|simpl in Hlen; lia].
  - destruct es as [|e es]; [simpl in Hlen; lia|]. cbn [Rfs.find_direntry].
    change Rfs.one_block_direntrys with 128. change sizeof_direntry with 32.
    rewrite Z.rem_small by lia. destruct (Z.eqb_spec (Z.of_nat i) 0); [lia|]. rewrite bind_ret_l.
    unfold Rfs.iobuffer_ptr. rewrite bind_gets.
    replace (Z.to_nat (Z.of_nat i * 32 + 4)) with (32 * i + 4)%nat by lia.
    specialize (Hes 0%nat e eq_refl) as He. rewrite Nat.add_0_r in He.
    destruct (strcmp_slot _ _ _ _ He Hn) as (r & -> & Hr). unfold of_option. rewrite bind_ret_l, Hr, find_entry_cons.
    case_bool_decide as E.
    + rewrite decide_True by done. unfold ret. simpl. do 2 f_equal. lia.
    + rewrite decide_False by done. replace (Z.of_nat i + 1) with (Z.of_nat (S i)) by lia.
      rewrite (IH s d name es (S i)); try done; [|simpl in Hlen; lia|lia|lia|].
      * rewrite <- option_fmap_compose. destruct (find_entry name es); [|done]. simpl. do 2 f_equal. lia.
      * intros j e' Hj. replace (S i + j)%nat with (i + S j)%nat by lia. by apply Hes.
Qed.

Lemma find_direntry_spec s d es name :
  dir_rep s d es -> no_nul name ->
  exists b, (es <> [] -> b = dir_block s d) /\ length b = 4096%nat /\
    Rfs.find_direntry (Z.to_nat (Rfs.total_direntrys d)) d name 0 s =
      Ret (Z.of_nat <$> find_entry name es) (Rfs.set_iobuffer b s).
Proof.
  intros Hr Hn. destruct (dir_addr s d es Hr) as (a & Ea & Ha & Hv & _). destruct (dir_length s d es Hr) as [Hle Hbl].
  pose proof Hr as [(Hd & Hm & Hf) Hb Ht Hs Hes].
  assert (Z.to_nat (Rfs.total_direntrys d) = length es) as ->.
  { unfold Rfs.total_direntrys. rewrite Hs. change sizeof_direntry with 32.
    rewrite Z.quot_div_nonneg, Z.mul_comm, Z.div_mul by lia. lia. }
  destruct es as [|e es].
  { exists (Rfs.iobuffer s). split_and!; [done|apply Hd|]. by destruct s. }
  exists (dir_block s d). split_and!; [done|done|]. cbn [length Rfs.find_direntry].
  change Rfs.one_block_direntrys with 128. change sizeof_direntry with 32.
  change (Z.rem 0 128) with 0. change (Z.quot 0 128) with 0. cbn [Z.eqb].
  set (s1 := Rfs.set_iobuffer (dir_block s d) s).
  assert ((a0 <- Rfs.addr_at d 0;; Rfs.rfs_r1block a0) s = Ret 0 s1) as Hrd.
  { mstep Ha. unfold Rfs.rfs_r1block. rewrite (ramdisk_read_eq s a Hd Hv). unfold s1, dir_block. by rewrite Ea. }
  mstep Hrd. unfold Rfs.iobuffer_ptr. rewrite bind_gets. change (Z.to_nat (0 * 32 + 4)) with (32 * 0 + 4)%nat.
  destruct (Hes 0%nat e eq_refl) as [He _]. change (dir_block s d) with (Rfs.iobuffer s1) in He.
  destruct (strcmp_slot _ _ _ _ He Hn) as (r & -> & Hr'). unfold of_option. rewrite bind_ret_l, Hr', find_entry_cons.
  case_bool_decide as E; [by rewrite decide_True|]. rewrite decide_False by done. change (0 + 1) with (Z.of_nat 1).
  rewrite (find_direntry_loop (length es) s1 d name es 1); try done; [|simpl in Hle; lia|].
  - by destruct (find_entry name es).
  - intros j e' Hj. by apply (Hes (S j)).
Qed.

(** ** [rfs_write_back_vinode] *)
Lemma write_back_spec s vp v :
  disk_ok s -> Rfs.vinodes s !! vp = Some v -> valid_inode (inum v) -> dinode_ok (Rfs.vinode_dinode v) ->
  exists s', Rfs.rfs_write_back_vinode vp s = Ret 0 s' /\ disk_ok s' /\ same_but_disk s s' /\
    dinode_at s' (inum v) = Rfs.vinode_dinode v /\
    (forall m, valid_inode m -> m <> inum v -> dinode_at s' m = dinode_at s m) /\
    (forall b, valid_block b -> (b < 1 \/ 11 <= b) -> block s' b = block s b).
Proof.
  intros Hd Hv Hi Hok. destruct (write_dinode_spec s _ _ Hd Hi Hok) as (r & s' & Heq & -> & H).
  exists s'. split; [|done]. unfold Rfs.rfs_write_back_vinode. mstep (vinode_eq s vp v Hv). by mstep Heq.
Qed.

(** Changes of the disk outside the file keep it. *)
Lemma readable_frame s s' v :
  readable s v -> disk_ok s' -> Rfs.nblocks s' = Rfs.nblocks s -> Rfs.freemap s' = Rfs.freemap s -> readable s' v.
Proof.
  intros (_ & Hm & Hf) Hd' E1 E2. split; [done|]. split; [|by apply (file_ok_ext s)].
  unfold map_ok. by rewrite E1, E2.
Qed.

Lemma set_size_readable s v n : readable s v -> 0 <= n <= blocks v * 4096 -> readable s (set_size n v).
Proof. intros (Hd & Hm & [F1 F2 F3 F4 F5]) Hn. split; [done|]. split; [done|]. by split. Qed.

(** Adding an entry appends it to the list, in the directory block and in the
    disk inode of the directory. *)
Lemma add_direntry_spec s dp d es name ino :
  dir_rep s d es -> Rfs.vinodes s !! dp = Some d -> valid_inode (inum d) -> (length es < 128)%nat ->
  no_nul name -> (length name <= 27)%nat -> int_ok ino ->
  let d' := set_size (size d + 32) d in dinode_ok (Rfs.vinode_dinode d') ->
  exists s', Rfs.rfs_add_direntry dp name ino s = Ret 0 s' /\ disk_ok s' /\
    Rfs.vinodes s' = <[dp := d']> (Rfs.vinodes s) /\ same_but_disk (Rfs.set_vinodes (Rfs.vinodes s') s) s' /\
    dir_rep s' d' (es ++ [(name, ino)]) /\ dinode_at s' (inum d) = Rfs.vinode_dinode d' /\
    (forall m, valid_inode m -> m <> inum d -> dinode_at s' m = dinode_at s m) /\
    (forall b, valid_block b -> 12 <= b -> b ∉ file_blocks d -> block s' b = block s b).
Proof.
  intros Hr Hv Hi Hlt Hn Hl Hino d' Hok. destruct (dir_addr s d es Hr) as (a & Ea & Ha & Hva & Hua & Hfb).
  destruct (dir_length s d es Hr) as [_ Hbl]. pose proof Hr as [Hrd Hb Ht Hs Hes]. pose proof Hrd as (Hd & Hm & Hf).
  unfold dir_block in Hbl, Hes. rewrite Ea in Hbl, Hes. set (n := length es) in *.
  assert (12 <= a) as Ha12 by (destruct Hua as [[? _] _]; done).
  set (s1 := Rfs.set_iobuffer (block s a) s).
  destruct (to_iobuffer_eq s1 (32 * Z.of_nat n) (int_bytes ino)) as (b1 & Hsp1 & Hto1);
    [lia|change (Rfs.iobuffer s1) with (block s a); rewrite length_int_bytes; lia|].
  pose proof (splice_length _ _ _ _ Hsp1) as L1. change (Rfs.iobuffer s1) with (block s a) in L1, Hsp1.
  set (s2 := Rfs.set_iobuffer b1 s1).
  assert (length (name ++ [0]) = S (length name)) as Hnl by (rewrite length_app; simpl; lia).
  destruct (to_iobuffer_eq s2 (32 * Z.of_nat n + 4) (name ++ [0])) as (b2 & Hsp2 & Hto2);
    [lia|change (Rfs.iobuffer s2) with b1; lia|].
  pose proof (splice_length _ _ _ _ Hsp2) as L2. change (Rfs.iobuffer s2) with b1 in L2, Hsp2.
  set (s3 := Rfs.set_iobuffer b2 s2).
  set (s4 := Rfs.set_disk (<[Z.to_nat a := b2]> (Rfs.disk s)) s3).
  set (s5 := Rfs.set_vinodes (<[dp := d']> (Rfs.vinodes s)) s4).
  assert (disk_ok s3) as Hd3 by (apply (disk_ok_iobuffer s); [done|lia]).
  assert (disk_ok s5) as Hd5 by (apply (disk_ok_write s3); [done|lia]).
  assert (forall b, valid_block b -> block s5 b = if decide (b = a) then b2 else block s b) as Hblk.
  { intros b Hvb. exact (block_set_disk s3 a b2 b Hd3 Hva Hvb). }
  destruct (write_back_spec s5 dp d') as (s6 & Heq6 & Hd6 & Hsame6 & Hdn & Hdo & Hb6); try done.
  { simpl. by rewrite lookup_insert_eq. }
  pose proof Hsame6 as (E1 & E2 & E3 & E4).
  assert (block s6 a = b2) as Hba by (rewrite Hb6 by (done || lia); rewrite Hblk, decide_True; done).
  destruct (slot_write (block s a) b1 b2 n name ino Hsp1 Hsp2 Hbl Hlt Hn Hl) as (W1 & W2 & W3).
  exists s6. split_and!; try done.
  - unfold Rfs.rfs_add_direntry. mstep (vinode_eq s dp d Hv). rewrite Ht. cbn [Z.eqb negb DIR_I Pos.eqb].
    change RFS_BLKSIZE with 4096. rewrite Z.quot_div_nonneg, Z.rem_mod_nonneg by lia.
    rewrite Z.div_small, Z.mod_small by lia. mstep Ha. unfold Rfs.rfs_r1block. mstep (ramdisk_read_eq s a Hd Hva).
    fold s1. rewrite Hs. mstep Hto1. fold s2. mstep Hto2. fold s3. unfold Rfs.rfs_w1block.
    mstep (ramdisk_write_eq s3 a Hva). unfold Rfs.upd_vinode. rewrite bind_modify.
    replace (Rfs.set_vinodes _ _) with s5; [by mstep Heq6|]. unfold s5, s4. f_equal. simpl.
    apply map_eq. intros k. destruct (decide (k = dp)) as [->|Hne].
    + rewrite lookup_insert_eq, lookup_alter_eq, Hv. unfold d'. by rewrite Hs.
    + by rewrite lookup_insert_ne, lookup_alter_ne by done.
  - assert (readable s6 d') as Hrd6.
    { apply (readable_frame s5); [|done|done|done]. apply set_size_readable; [|lia].
      by apply (readable_frame s). }
    split; try done.
    + simpl. rewrite Hs, length_app. simpl. fold n. lia.
    + intros i e Hie. unfold dir_block. simpl addrs. rewrite Ea, Hba. destruct (decide (i = n)) as [->|Hne].
      * rewrite lookup_app_r in Hie by (subst n; lia). subst n. rewrite Nat.sub_diag in Hie. injection Hie as <-. simpl.
        by rewrite W1, W2, i32_small.
      * rewrite lookup_app_l in Hie.
        2: { apply lookup_lt_Some in Hie. rewrite length_app in Hie. simpl in Hie. fold n in Hie. lia. }
        pose proof (lookup_lt_Some _ _ _ Hie) as Hil. fold n in Hil.
        destruct (W3 i ltac:(lia) ltac:(lia)) as [-> ->]. by apply Hes.
  - intros m Hm' Hne. rewrite Hdo by done. unfold dinode_at. destruct (dinode_place m Hm') as (Mb & _ & Hmb & Hmb' & _).
    rewrite Mb, Hblk, decide_False by (done || lia). done.
  - intros b Hvb Hb12 Hni. rewrite Hb6 by (done || lia). rewrite Hblk by done. rewrite decide_False; [done|].
    intros ->. apply Hni. rewrite Hfb. by constructor.
Qed.

(** ** [rfs_update_vinode] and [rfs_lookup] *)
Lemma vinode_dinode_load d v : Rfs.vinode_dinode (Rfs.load_dinode d v) = d.
Proof. by destruct d. Qed.

Lemma update_vinode_spec s vp v p F :
  disk_ok s -> Rfs.vinodes s !! vp = Some v -> valid_inode (inum v) -> pa_rep (Rfs.pages s) (p :: F) ->
  exists a b, Rfs.rfs_update_vinode vp s =
      Ret 0 (Rfs.set_pages a (Rfs.set_iobuffer b (Rfs.set_vinodes (<[vp := Rfs.load_dinode (dinode_at s (inum v)) v]> (Rfs.vinodes s)) s))) /\
    length b = 4096%nat /\ pa_rep a (p :: F) /\ (forall q, pa_page a q <-> pa_page (Rfs.pages s) q).
Proof.
  intros Hd Hv Hi Hrep. destruct (read_dinode_spec s _ p F Hd Hi Hrep) as (a & b & Heq & Hb & Hrep' & Hp & Hpg).
  pose proof (pa_rep_pages _ _ Hrep) as [Hnd _]. apply NoDup_cons in Hnd as [Hni _].
  set (s1 := Rfs.set_pages a (Rfs.set_iobuffer b s)) in *.
  set (s2 := Rfs.set_vinodes (<[vp := Rfs.load_dinode (dinode_at s (inum v)) v]> (Rfs.vinodes s)) s1).
  destruct (free_page_eq s2 p F Hrep' Hp Hni) as (a' & Hfr & Hrep'' & Hpg').
  exists a', b. split_and!; [|done|done|].
  - unfold Rfs.rfs_update_vinode. mstep (vinode_eq s vp v Hv). mstep Heq. unfold Rfs.upd_vinode. rewrite bind_modify.
    replace (Rfs.set_vinodes _ s1) with s2; [by mstep Hfr|]. unfold s2. f_equal. simpl.
    apply map_eq. intros k. destruct (decide (k = vp)) as [->|Hne].
    + by rewrite lookup_insert_eq, lookup_alter_eq, Hv.
    + by rewrite lookup_insert_ne, lookup_alter_ne by done.
  - intros q. rewrite Hpg'. apply Hpg.
Qed.

Lemma alloc_vinode_spec garbage s sb p F :
  pa_rep (Rfs.pages s) (p :: F) ->
  exists a v, Rfs.rfs_alloc_vinode garbage sb s = Ret p (Rfs.set_vinodes (<[p := v]> (Rfs.vinodes s)) (Rfs.set_pages a s)) /\
    inum v = 0 /\ ref v = 0 /\ v_sb v = sb /\ pa_rep a F /\ (forall q, pa_page a q <-> pa_page (Rfs.pages s) q).
Proof.
  intros Hrep. destruct (alloc_object_eq s p F Hrep) as (a & Heq & Hrep' & _ & Hpg). exists a. eexists. split.
  - unfold Rfs.rfs_alloc_vinode, Rfs.default_alloc_vinode. mstep Heq. done.
  - split_and!; done.
Qed.

(** The vinode of a disk inode: the fields of the inode, no references. *)
Definition vinode_of s (n : Z) (v : vinode) : Prop :=
  inum v = n /\ ref v = 0 /\ Rfs.vinode_dinode v = dinode_at s n.

(** Allocating a vinode for inode [n] and filling it from the disk. *)
Lemma fresh_vinode_spec garbage s sb p p2 F n :
  disk_ok s -> valid_inode n -> pa_rep (Rfs.pages s) (p :: p2 :: F) ->
  exists a s', (forall B (K : Z -> M (Rfs.state A) B),
      bind (Rfs.rfs_alloc_vinode garbage sb) (fun v => bind (Rfs.upd_vinode v (set_inum n))
        (fun _ => bind (Rfs.rfs_update_vinode v) (fun _ => K v))) s = K p s') /\
    (exists v b, vinode_of s n v /\ v_sb v = sb /\ length b = 4096%nat /\
       s' = Rfs.set_pages a (Rfs.set_iobuffer b (Rfs.set_vinodes (<[p := v]> (Rfs.vinodes s)) s))) /\
    pa_rep a (p2 :: F) /\ (forall q, pa_page a q <-> pa_page (Rfs.pages s) q).
Proof.
  intros Hd Hn Hrep. destruct (alloc_vinode_spec garbage s sb p _ Hrep) as (a1 & v & Heq & V1 & V2 & V3 & Hrep1 & Hpg1).
  set (s1 := Rfs.set_vinodes _ _) in Heq. set (s2 := Rfs.set_vinodes (<[p := set_inum n v]> (Rfs.vinodes s)) s1).
  destruct (update_vinode_spec s2 p (set_inum n v) p2 F) as (a2 & b & Heq2 & Hb & Hrep2 & Hpg2); try done.
  { simpl. by rewrite lookup_insert_eq. }
  exists a2. eexists. split; [|split; [|split; [done|]]].
  - intros B K. mstep Heq. unfold Rfs.upd_vinode. rewrite bind_modify.
    replace (Rfs.set_vinodes _ s1) with s2; [by mstep Heq2|]. unfold s2. f_equal. simpl.
    by rewrite alter_insert_eq.
  - exists (Rfs.load_dinode (dinode_at s n) (set_inum n v)), b.
    split; [split; [done|split; [done|apply vinode_dinode_load]]|]. split; [exact V3|]. split; [done|].
    unfold s2, s1, Rfs.set_pages, Rfs.set_iobuffer, Rfs.set_vinodes. simpl. by rewrite insert_insert_eq.
  - intros q. rewrite Hpg2. apply Hpg1.
Qed.

(** The entry's inode number, from the block in the [iobuffer]. *)
Lemma direntry_inum_eq s i :
  (i < 128)%nat -> length (Rfs.iobuffer s) = 4096%nat ->
  Rfs.direntry_inum (Z.of_nat i) s = Ret (slot_inum (Rfs.iobuffer s) i) s.
Proof.
  intros Hi Hl. unfold Rfs.direntry_inum, sizeof_direntry.
  rewrite (bind_Ret _ _ _ _ _ (from_iobuffer_eq s (Z.of_nat i * 32) 4 ltac:(lia) ltac:(lia) ltac:(lia))).
  unfold slot_inum, ret. do 4 f_equal. lia.
Qed.

Lemma find_entry_Some name es i :
  find_entry name es = Some i -> exists ino, es !! i = Some (name, ino) /\
    (forall j e, (j < i)%nat -> es !! j = Some e -> e.1 <> name).
Proof.
  unfold find_entry. destruct (list_find _ es) as [[j [nm ino]]|] eqn:E; [|done]. intros [= <-].
  apply list_find_Some in E as (Hl & Hn & Hb). simpl in Hn. subst nm. exists ino. split; [done|].
  intros k e Hk He. by apply (Hb k e).
Qed.

Lemma lookup_spec garbage s dp d es name p p2 F :
  dir_rep s d es -> Rfs.vinodes s !! dp = Some d -> no_nul name -> pa_rep (Rfs.pages s) (p :: p2 :: F) ->
  (forall i e, es !! i = Some e -> valid_inode e.2) ->
  exists s', (Rfs.disk s' = Rfs.disk s /\ Rfs.freemap s' = Rfs.freemap s /\ Rfs.nblocks s' = Rfs.nblocks s /\ disk_ok s') /\
    match find_entry name es with
    | None => Rfs.rfs_lookup garbage dp name s = Ret 0 s' /\ Rfs.vinodes s' = Rfs.vinodes s
    | Some i => exists v, Rfs.rfs_lookup garbage dp name s = Ret p s' /\
        Rfs.vinodes s' = <[p := v]> (Rfs.vinodes s) /\ pa_rep (Rfs.pages s') (p2 :: F) /\
        (exists ino, es !! i = Some (name, ino) /\ vinode_of s ino v)
    end.
Proof.
  intros Hr Hv Hn Hrep Hvi. destruct (find_direntry_spec s d es name Hr Hn) as (b & Hbe & Hb & Heq).
  destruct (dir_length s d es Hr) as [Hle Hbl]. pose proof Hr as [(Hd & Hm & Hf) _ _ _ Hes].
  destruct (find_entry name es) as [i|] eqn:E.
  - destruct (find_entry_Some _ _ _ E) as (ino & Hi & _). pose proof (lookup_lt_Some _ _ _ Hi) as Hlt.
    assert (es <> []) as Hne by (intros ->; done). specialize (Hbe Hne). subst b.
    set (s1 := Rfs.set_iobuffer (dir_block s d) s) in *.
    destruct (alloc_vinode_spec garbage s1 (v_sb d) p _ Hrep) as (a1 & v & Ha & V1 & V2 & V3 & Hrep1 & Hpg1).
    set (s2 := Rfs.set_vinodes _ _) in Ha.
    assert (Rfs.direntry_inum (Z.rem (Z.of_nat i) Rfs.one_block_direntrys) s2 = Ret ino s2) as Hin.
    { change Rfs.one_block_direntrys with 128. rewrite Z.rem_small by lia. rewrite direntry_inum_eq by (done || lia).
      f_equal. change (Rfs.iobuffer s2) with (dir_block s d). by destruct (Hes i _ Hi). }
    set (s3 := Rfs.set_vinodes (<[p := set_inum ino v]> (Rfs.vinodes s)) s2).
    destruct (update_vinode_spec s3 p (set_inum ino v) p2 F) as (a2 & b2 & Heq2 & Hb2 & Hrep2 & Hpg2).
    { apply (disk_ok_iobuffer s); [done|exact Hbl]. }
    { simpl. by rewrite lookup_insert_eq. }
    { exact (Hvi i _ Hi). }
    { done. }
    eexists. split; [shelve|]. eexists. split.
    + unfold Rfs.rfs_lookup. mstep (vinode_eq s dp d Hv). change (Z.of_nat <$> Some i) with (Some (Z.of_nat i)) in Heq.
      mstep Heq. mstep Ha. mstep Hin.
      unfold Rfs.upd_vinode. rewrite bind_modify.
      replace (Rfs.set_vinodes _ s2) with s3; [mstep Heq2; reflexivity|]. unfold s3. f_equal. simpl. by rewrite alter_insert_eq.
    + split; [simpl; by rewrite insert_insert_eq|]. split; [done|]. exists ino. split; [done|]. split; [done|]. split; [done|].
      apply vinode_dinode_load.
    Unshelve. split_and!; try done. exact (disk_ok_iobuffer s b2 Hd Hb2).
  - exists (Rfs.set_iobuffer b s). split; [split_and!; try done; by apply (disk_ok_iobuffer s)|]. split; [|done].
    unfold Rfs.rfs_lookup. mstep (vinode_eq s dp d Hv). by mstep Heq.
Qed.
End dirs.
