(* ===== verification/RfsUnlink.v ===== *)
(** * RFS: [rfs_unlink]

    The entry disappears from the directory, the file loses a link, and with its
    last link its blocks and its disk inode become free. *)

From stdpp Require Import base gmap list numbers strings.
From Stdlib Require Import ZArith Lia.
From S2P Require Import Prelude Pmm Bytes Rfs RfsDisk RfsFile RfsDir.
Local Open Scope Z_scope.

(** ** The [memmove] over the slots *)
Lemma move_lookup dst src n l l' i :
  Rfs.move dst src n l = Some l' ->
  length l' = length l /\
  l' !! i = if decide (Z.to_nat dst <= i < Z.to_nat dst + Z.to_nat n)%nat
            then l !! (Z.to_nat src + (i - Z.to_nat dst))%nat else l !! i.
Proof.
  unfold Rfs.move. destruct (slice src n l) as [bs|] eqn:E; [|done]. cbn [mbind option_bind]. intros H.
  split; [by apply splice_length in H|]. rewrite (splice_lookup _ _ _ _ _ H).
  pose proof (slice_length _ _ _ _ E) as Hlen. replace (length bs) with (Z.to_nat n) by lia.
  case_decide as Hi; [|done]. unfold slice in E. destruct (Z.leb_spec 0 src); [|done].
  destruct (Z.leb_spec 0 n); [|done]. simpl in E. destruct (src + n <=? _); [|done]. injection E as <-.
  rewrite lookup_take_lt by lia. by rewrite lookup_drop.
Qed.

Lemma slot_shift blk blk' (j k : nat) :
  (j < 128)%nat -> (k < 128)%nat -> length blk = 4096%nat -> length blk' = 4096%nat ->
  (forall i, (i < 32)%nat -> blk' !! (32 * j + i)%nat = blk !! (32 * k + i)%nat) ->
  slot_name blk' j = slot_name blk k /\ slot_inum blk' j = slot_inum blk k.
Proof.
  intros Hj Hk L L' Hi. unfold slot_name, slot_inum. split; f_equal; apply list_eq; intros i.
  - destruct (decide (i < 28)%nat) as [H|H].
    + rewrite !lookup_take_lt, !lookup_drop by done. rewrite <- !Nat.add_assoc. apply Hi. lia.
    + rewrite !lookup_ge_None_2; [done|rewrite length_take; lia..].
  - destruct (decide (i < 4)%nat) as [H|H].
    + rewrite !lookup_take_lt, !lookup_drop by done. apply Hi. lia.
    + rewrite !lookup_ge_None_2; [done|rewrite length_take; lia..].
Qed.

(** Removing slot [i]: the later slots move down by one. *)
Lemma move_slots blk i :
  length blk = 4096%nat -> (i < 128)%nat ->
  exists blk', Rfs.move (Z.of_nat i * 32) ((Z.of_nat i + 1) * 32) ((128 - Z.of_nat i - 1) * 32) blk = Some blk' /\
    length blk' = 4096%nat /\
    (forall j, (j < 127)%nat -> let k := if decide (j < i)%nat then j else S j in
       slot_name blk' j = slot_name blk k /\ slot_inum blk' j = slot_inum blk k).
Proof.
  intros Hl Hi.
  assert (exists blk', Rfs.move (Z.of_nat i * 32) ((Z.of_nat i + 1) * 32) ((128 - Z.of_nat i - 1) * 32) blk = Some blk') as [blk' Hm].
  { unfold Rfs.move. rewrite slice_eq by lia. cbn [mbind option_bind]. rewrite splice_eq; [by eexists|lia|].
    rewrite length_take, length_drop. lia. }
  exists blk'. split; [done|]. destruct (move_lookup _ _ _ _ _ 0%nat Hm) as [Hl' _]. split; [lia|].
  intros j Hj k. apply slot_shift; try lia.
  { subst k. destruct (decide (j < i)%nat); lia. }
  intros o Ho. destruct (move_lookup _ _ _ _ _ (32 * j + o)%nat Hm) as [_ ->]. subst k.
  destruct (decide (j < i)%nat).
  - rewrite decide_False by lia. done.
  - rewrite decide_True by lia. f_equal. lia.
Qed.

Section unlink.
Context {A : Type} `{PA : PageAllocator A}.
Implicit Types s : Rfs.state A.

(** ** The disk inode *)
Lemma free_blocks_spec l : forall s,
  map_ok s -> Forall (data_block s) l ->
  exists fm, Rfs.free_blocks l s = Ret tt (Rfs.set_super (Rfs.nblocks s) fm s) /\
    map_ok (Rfs.set_super (Rfs.nblocks s) fm s) /\
    (forall b, used (Rfs.set_super (Rfs.nblocks s) fm s) b <-> used s b /\ (b ∉ l)).
Proof.
  induction l as [|b l IH]; intros s Hm Hl.
  - exists (Rfs.freemap s). destruct s. split_and!; [done|done|]. intros b. rewrite elem_of_nil. simpl. tauto.
  - apply Forall_cons in Hl as [Hb Hl]. destruct (free_block_spec s b Hm Hb) as (s1 & Heq & Es1 & Hm1 & Hu1).
    destruct (IH s1 Hm1) as (fm & Heq2 & Hm2 & Hu2).
    { eapply Forall_impl; [exact Hl|]. intros b'. unfold data_block. by rewrite Es1. }
    exists fm. cbn [Rfs.free_blocks]. mstep Heq. rewrite Es1 in *. split_and!; [exact Heq2|exact Hm2|].
    intros b'. etransitivity; [exact (Hu2 b')|]. rewrite Hu1, not_elem_of_cons. tauto.
Qed.

(** The disk inode after the removal of a link. *)
Definition unlinked (e : rfs_dinode) : rfs_dinode :=
  mk_dinode (d_size e) (if d_nlinks e - 1 =? 0 then R_FREE else d_type e) (d_nlinks e - 1) (d_blocks e) (d_addrs e).

(** The blocks that become free with it. *)
Definition released (e : rfs_dinode) : list Z :=
  if d_nlinks e - 1 =? 0 then take (Z.to_nat (d_blocks e)) (d_addrs e) else [].

Record inode_unlinked s (n up : Z) (u : vinode) (e : rfs_dinode) s' : Prop := {
  iu_disk : disk_ok s';
  iu_map : map_ok s' /\ Rfs.nblocks s' = Rfs.nblocks s;
  iu_vinodes : Rfs.vinodes s' = <[up := set_nlinks (nlinks u - 1) u]> (Rfs.vinodes s);
  iu_dinode : dinode_at s' n = unlinked e;
  iu_others : forall m, valid_inode m -> m <> n -> dinode_at s' m = dinode_at s m;
  iu_blocks : forall b, valid_block b -> (b < 1 \/ 11 <= b) -> block s' b = block s b;
  iu_used : forall b, used s' b <-> used s b /\ (b ∉ released e);
}.

Lemma unlink_inode_spec s n up u p F :
  disk_ok s -> map_ok s -> valid_inode n -> pa_rep (Rfs.pages s) (p :: F) -> Rfs.vinodes s !! up = Some u ->
  let e := dinode_at s n in
  nlinks u = d_nlinks e -> dinode_ok (unlinked e) -> d_blocks e <= 10 -> Forall (data_block s) (released e) ->
  exists s', Rfs.unlink_inode n up s = Ret tt s' /\ pa_rep (Rfs.pages s') (p :: F) /\ inode_unlinked s n up u e s'.
Proof.
  intros Hd Hm Hn Hrep Hu e Hnl Hok Hblk Hrel. pose proof (pa_rep_pages _ _ Hrep) as [Hnd _].
  apply NoDup_cons in Hnd as [Hni _].
  destruct (read_dinode_spec s n p F Hd Hn Hrep) as (a & b & Heq & Hb & Hrep' & Hp & _). fold e in Heq.
  set (s1 := Rfs.set_pages a (Rfs.set_iobuffer b s)) in *.
  set (s2 := Rfs.set_vinodes (<[up := set_nlinks (nlinks u - 1) u]> (Rfs.vinodes s)) s1).
  assert (exists fm, (if d_nlinks e - 1 =? 0
      then if Z.of_nat (length (d_addrs e)) <? d_blocks e then fault "addrs index"
           else Rfs.free_blocks (take (Z.to_nat (d_blocks e)) (d_addrs e)) ;;
                ret (mk_dinode (d_size e) R_FREE (d_nlinks e - 1) (d_blocks e) (d_addrs e))
      else ret (mk_dinode (d_size e) (d_type e) (d_nlinks e - 1) (d_blocks e) (d_addrs e))) s2 =
        Ret (unlinked e) (Rfs.set_super (Rfs.nblocks s) fm s2) /\ map_ok (Rfs.set_super (Rfs.nblocks s) fm s2) /\
      (forall b, used (Rfs.set_super (Rfs.nblocks s) fm s2) b <-> used s b /\ (b ∉ released e))) as (fm & Hfree & Hm3 & Hu3).
  { assert (length (d_addrs e) = 10%nat) as Hla by (exact (proj2 Hok)).
    unfold unlinked, released in *. clearbody e. destruct (d_nlinks e - 1 =? 0).
    - destruct (Z.ltb_spec (Z.of_nat (length (d_addrs e))) (d_blocks e)); [lia|].
      destruct (free_blocks_spec (take (Z.to_nat (d_blocks e)) (d_addrs e)) s2 Hm Hrel) as (fm & Hf & Hmf & Huf).
      exists fm. mstep Hf. split_and!; [done|exact Hmf|exact Huf].
    - exists (Rfs.freemap s). split_and!; [done|exact Hm|]. intros b'. rewrite elem_of_nil. unfold used, data_block, map_at. simpl. tauto. }
  set (s3 := Rfs.set_super (Rfs.nblocks s) fm s2) in *.
  assert (disk_ok s3) as Hd3 by (apply (disk_ok_iobuffer s b Hd Hb)).
  destruct (write_dinode_spec s3 (unlinked e) n Hd3 Hn Hok) as (r & s4 & Hw & -> & Hd4 & Hs4 & Hdn & Hdo & Hbo).
  destruct Hs4 as (E1 & E2 & E3 & _ & _ & _ & E7).
  assert (pa_rep (Rfs.pages s4) F /\ pa_page (Rfs.pages s4) p) as [Hrep4 Hp4] by (rewrite E7; done).
  destruct (free_page_eq s4 p F Hrep4 Hp4 Hni) as (a' & Hfr & Hrep5 & _).
  exists (Rfs.set_pages a' s4). split_and!; [|done|].
  - unfold Rfs.unlink_inode. mstep Heq.
    rewrite (bind_Ret _ _ _ _ _ (vinode_eq s1 up u Hu)). rewrite Hnl, Z.eqb_refl, bind_ret_l.
    unfold Rfs.upd_vinode. rewrite bind_modify.
    replace (Rfs.set_vinodes _ s1) with s2.
    2: { unfold s2. f_equal. simpl. apply map_eq. intros k. destruct (decide (k = up)) as [->|Hne].
         - rewrite lookup_insert_eq, lookup_alter_eq, Hu. simpl. by rewrite Hnl.
         - by rewrite lookup_insert_ne, lookup_alter_ne. }
    cbn [d_nlinks d_size d_type d_blocks d_addrs]. mstep Hfree. fold s3. by mstep Hw.
  - split; try done.
    + split; [|done]. unfold map_ok. simpl. rewrite E1, E2. exact Hm3.
    + intros b'. rewrite <- Hu3. unfold used, data_block, map_at. simpl. by rewrite E1, E2.
Qed.

(** ** The directory block *)
Lemma addr_at_any s s' v k a : Rfs.addr_at v k s = Ret a s -> Rfs.addr_at v k s' = Ret a s'.
Proof.
  unfold Rfs.addr_at. destruct (k <? 0); [done|]. destruct (addrs v !! Z.to_nat k); [|done]. by intros [= ->].
Qed.

Lemma unlink_direntry_spec s dp d es i p F :
  dir_rep s d es -> Rfs.vinodes s !! dp = Some d -> pa_rep (Rfs.pages s) (p :: F) -> (i < length es)%nat ->
  exists s', Rfs.unlink_direntry dp (Z.of_nat i) s = Ret tt s' /\ pa_rep (Rfs.pages s') (p :: F) /\
    disk_ok s' /\ Rfs.vinodes s' = Rfs.vinodes s /\ Rfs.nblocks s' = Rfs.nblocks s /\ Rfs.freemap s' = Rfs.freemap s /\
    (forall b, valid_block b -> b ∉ file_blocks d -> block s' b = block s b) /\
    (forall j e, delete i es !! j = Some e ->
       slot_name (dir_block s' d) j = Some e.1 /\ slot_inum (dir_block s' d) j = e.2).
Proof.
  intros Hr Hv Hrep Hi. destruct (dir_addr s d es Hr) as (a & Ea & Ha & Hva & Hua & Hfb).
  destruct (dir_length s d es Hr) as [Hle Hbl]. pose proof Hr as [(Hd & Hm & Hf) Hb Ht Hs Hes].
  unfold dir_block in Hbl, Hes. rewrite Ea in Hbl, Hes.
  pose proof (pa_rep_pages _ _ Hrep) as [Hnd _]. apply NoDup_cons in Hnd as [Hni _].
  destruct (move_slots (block s a) i Hbl ltac:(lia)) as (nb & Hmv & Hnb & Hsl).
  set (s1 := Rfs.set_iobuffer nb (Rfs.set_iobuffer (block s a) s)).
  destruct (alloc_object_eq s1 p F Hrep) as (a1 & Hal & Hrep1 & Hp1 & _).
  set (s2 := Rfs.set_pages a1 s1) in *. set (s3 := Rfs.set_iobuffer nb s2).
  set (s4 := Rfs.set_disk (<[Z.to_nat a := nb]> (Rfs.disk s)) s3).
  destruct (free_page_eq s4 p F Hrep1 Hp1 Hni) as (a2 & Hfr & Hrep2 & _).
  assert (disk_ok s3) as Hd3 by (apply (disk_ok_iobuffer s); done).
  assert (forall b, valid_block b -> block s4 b = if decide (b = a) then nb else block s b) as Hblk
    by (intros b Hvb; exact (block_set_disk s3 a nb b Hd3 Hva Hvb)).
  exists (Rfs.set_pages a2 s4). split_and!; try done.
  - unfold Rfs.unlink_direntry. change Rfs.one_block_direntrys with 128. change sizeof_direntry with 32.
    rewrite Z.quot_small, Z.rem_small by lia.
    mstep (vinode_eq s dp d Hv). mstep Ha. unfold Rfs.rfs_r1block. mstep (ramdisk_read_eq s a Hd Hva).
    rewrite bind_gets. cbn [Rfs.iobuffer Rfs.set_iobuffer]. rewrite Hmv. unfold of_option. rewrite bind_ret_l, bind_modify.
    fold s1. mstep Hal. fold s2. rewrite Hb. change (Z.to_nat (1 - (0 + 1))) with 0%nat.
    change (1 - 1) with 0. cbn [Rfs.shift_blocks]. rewrite bind_ret_l, bind_modify. fold s3.
    assert (Rfs.addr_at d 0 s3 = Ret a s3) as Ha3.
    { by apply (addr_at_any s). }
    mstep Ha3. unfold Rfs.rfs_w1block. mstep (ramdisk_write_eq s3 a Hva). exact Hfr.
  - by apply (disk_ok_write s3).
  - intros b Hvb Hbn. change (block (Rfs.set_pages a2 s4) b) with (block s4 b). rewrite Hblk by done.
    rewrite decide_False; [done|]. intros ->. apply Hbn. rewrite Hfb. by constructor.
  - intros j e Hj. unfold dir_block. rewrite Ea. change (block (Rfs.set_pages a2 s4) a) with (block s4 a).
    rewrite Hblk, decide_True by done. rewrite list_lookup_delete in Hj.
    assert (j < 127)%nat as Hj127.
    { destruct (decide (j < i)%nat) as [Hlt|Hge]; [lia|].
      apply lookup_lt_Some in Hj. lia. }
    specialize (Hsl j Hj127). cbv zeta in Hsl. destruct (decide (j < i)%nat); destruct Hsl as [-> ->]; by apply Hes.
Qed.

(** ** [rfs_unlink] *)
Record unlink_post s (dp : Z) (d : vinode) (es : list (list Z * Z)) (i : nat) (ino up : Z) (u : vinode) s' : Prop := {
  up_dir : dir_rep s' (set_size (size d - 32) d) (delete i es);
  up_vinodes : Rfs.vinodes s' = <[dp := set_size (size d - 32) d]> (<[up := set_nlinks (nlinks u - 1) u]> (Rfs.vinodes s));
  up_dir_inode : dinode_at s' (inum d) = Rfs.vinode_dinode (set_size (size d - 32) d);
  up_inode : dinode_at s' ino = unlinked (dinode_at s ino);
  up_others : forall m, valid_inode m -> m <> ino -> m <> inum d -> dinode_at s' m = dinode_at s m;
  up_used : forall b, used s' b <-> used s b /\ (b ∉ released (dinode_at s ino));
  up_blocks : forall b, valid_block b -> 12 <= b -> b ∉ file_blocks d -> block s' b = block s b;
}.

(** What unlinking an entry relies on: the vinode agrees with its disk inode,
    and the file and the directory are different. *)
Record can_unlink s (dp : Z) (d : vinode) (ino up : Z) (u : vinode) : Prop := {
  cu_parent : Rfs.vinodes s !! dp = Some d;
  cu_vinode : Rfs.vinodes s !! up = Some u;
  cu_ne : up <> dp;
  cu_inum : valid_inode ino /\ valid_inode (inum d) /\ ino <> inum d;
  cu_nlinks : nlinks u = d_nlinks (dinode_at s ino);
  cu_dinode : dinode_ok (unlinked (dinode_at s ino)) /\ d_blocks (dinode_at s ino) <= 10;
  cu_released : Forall (data_block s) (released (dinode_at s ino)) /\
                Forall (fun b => b ∉ file_blocks d) (released (dinode_at s ino));
  cu_dir : dinode_ok (Rfs.vinode_dinode (set_size (size d - 32) d));
}.

Lemma dir_rep_unlink_inode s n up u e s' d es :
  inode_unlinked s n up u e s' -> dir_rep s d es -> Forall (fun b => b ∉ file_blocks d) (released e) -> dir_rep s' d es.
Proof.
  intros [I1 [I2 I2'] I3 I4 I5 I6 I7] Hr Hdis. destruct (dir_addr s d es Hr) as (a & Ea & _ & Hva & Hua & Hfb).
  destruct Hr as [(Hd & Hm & [F1 F2 F3 F4 F5]) Hb Ht Hs Hes]. split; try done.
  - split; [done|]. split; [done|]. split; try done. rewrite Forall_forall in *. intros b Hbf. apply I7.
    split; [by apply F4|]. intros Hbr. by apply (Hdis b Hbr).
  - unfold dir_block in *. rewrite Ea in *. rewrite I6; [done|done|]. destruct Hua as [[Ha12 _] _].
    change RFS_BLK_OFFSET_FREE with 12 in Ha12. lia.
Qed.

Lemma unlink_spec s dp d es i name ino up u p F :
  dir_rep s d es -> no_nul name -> find_entry name es = Some i -> es !! i = Some (name, ino) ->
  pa_rep (Rfs.pages s) (p :: F) -> can_unlink s dp d ino up u ->
  exists s', Rfs.rfs_unlink dp name up s = Ret 0 s' /\ pa_rep (Rfs.pages s') (p :: F) /\
    unlink_post s dp d es i ino up u s'.
Proof.
  intros Hr Hn Hfind Hei Hrep [C1 C2 C3 (C4 & C4' & C4'') C5 (C6 & C6') (C7 & C7') C8].
  destruct (find_direntry_spec s d es name Hr Hn) as (b & Hbe & Hb & Heq).
  assert (b = dir_block s d) as -> by (apply Hbe; by intros ->). rewrite Hfind in Heq.
  change (Z.of_nat <$> Some i) with (Some (Z.of_nat i)) in Heq.
  destruct (dir_length s d es Hr) as [Hle Hbl]. pose proof (lookup_lt_Some _ _ _ Hei) as Hlt.
  set (s1 := Rfs.set_iobuffer (dir_block s d) s) in *.
  assert (dir_rep s1 d es) as Hr1.
  { destruct Hr as [R1 R2 R3 R4 R5]. split; try done. by apply readable_iobuffer. }
  pose proof Hr1 as [(Hd1 & Hm1 & _) Hb1 Ht1 Hs1 Hes1].
  destruct (unlink_inode_spec s1 ino up u p F) as (s2 & Heq2 & Hrep2 & Hiu); try done.
  assert (dir_rep s2 d es) as Hr2 by (by eapply dir_rep_unlink_inode).
  assert (Rfs.vinodes s2 !! dp = Some d) as Hdp2 by (rewrite (iu_vinodes _ _ _ _ _ _ Hiu), lookup_insert_ne; done).
  destruct (unlink_direntry_spec s2 dp d es i p F Hr2 Hdp2 Hrep2 Hlt) as (s3 & Heq3 & Hrep3 & D1 & D2 & D3 & D4 & D5 & D6).
  set (d' := set_size (size d - 32) d).
  set (s4 := Rfs.set_vinodes (<[dp := d']> (Rfs.vinodes s2)) s3).
  destruct (write_back_spec s4 dp d') as (s5 & Heq5 & G1 & (S1 & S2 & S3 & _ & _ & _ & S7) & G2 & G3 & G4); try done.
  { simpl. by rewrite lookup_insert_eq. }
  destruct Hiu as [I1 [I2 I2'] I3 I4 I5 I6 I7].
  destruct (dir_addr s2 d es Hr2) as (a & Ea & _ & Hva & Hua & Hfb).
  assert (12 <= a) as Ha12 by (destruct Hua as [[Hx _] _]; exact Hx).
  assert (forall m, valid_inode m -> dinode_at s4 m = dinode_at s2 m) as Hdn4.
  { intros m Hm. destruct (dinode_place m Hm) as (Mb & _ & Hmb & Hmb' & _). unfold dinode_at. rewrite Mb.
    change (block s4 (m / 32 + 1)) with (block s3 (m / 32 + 1)). rewrite D5; [done|done|].
    rewrite Hfb. rewrite list_elem_of_singleton. lia. }
  exists s5. split_and!.
  - unfold Rfs.rfs_unlink. mstep (vinode_eq s dp d C1). mstep Heq.
    assert (Rfs.direntry_inum (Z.rem (Z.of_nat i) Rfs.one_block_direntrys) s1 = Ret ino s1) as Hin.
    { change Rfs.one_block_direntrys with 128. rewrite Z.rem_small by lia. rewrite direntry_inum_eq by (done || lia).
      f_equal. by destruct (Hes1 i _ Hei). }
    mstep Hin. mstep Heq2. mstep Heq3. rewrite <- D2 in Hdp2. mstep (vinode_eq s3 dp d Hdp2).
    rewrite Hb1. change (1 <? 1) with false. rewrite andb_false_r, bind_ret_l.
    unfold Rfs.upd_vinode. rewrite bind_modify.
    replace (Rfs.set_vinodes _ s3) with s4; [by mstep Heq5|]. unfold s4. f_equal. rewrite D2. apply map_eq. intros k.
    rewrite D2 in Hdp2. destruct (decide (k = dp)) as [->|Hne].
    + by rewrite lookup_insert_eq, lookup_alter_eq, Hdp2.
    + by rewrite lookup_insert_ne, lookup_alter_ne by done.
  - by rewrite S7.
  - assert (length (delete i es) = pred (length es)) as Hdl by (rewrite length_delete; [lia|by eexists]).
    split.
    + split; try done.
      * apply set_size_readable; [|lia]. apply (readable_frame s2); [apply Hr2|done|by rewrite S1, <- D3|by rewrite S2, <- D4].
      * cbn [size set_size]. rewrite Hdl. lia.
      * intros j e Hj. unfold dir_block. simpl addrs. rewrite Ea, G4 by (done || lia).
        specialize (D6 j e Hj). unfold dir_block in D6. by rewrite Ea in D6.
    + rewrite S3. simpl. by rewrite I3.
    + done.
    + rewrite G3, Hdn4 by done. exact I4.
    + intros m Hm Hm1' Hm2. rewrite G3, Hdn4 by done. by apply I5.
    + intros b'. unfold used, data_block, map_at in *. rewrite S1, S2. simpl. rewrite D3, D4. apply I7.
    + intros b' Hvb Hb12 Hnb. rewrite G4 by (done || lia). change (block s4 b') with (block s3 b').
      rewrite D5 by done. apply I6; [done|lia].
Qed.
End unlink.
