(* ===== verification/RfsCreate.v ===== *)
(** * RFS: creating files, formatting and mounting

    [rfs_create] gives the first free disk inode one block and the directory a
    new entry; with no inode left the
    pointer it tests is that of a freed page, not NULL.  A formatted and
    mounted disk has an empty root directory. *)

From stdpp Require Import base gmap list numbers strings.
From Stdlib Require Import ZArith Lia.
From S2P Require Import Prelude Pmm Bytes Rfs RfsDisk RfsFile RfsDir.
Local Open Scope Z_scope.

Section create.
Context {A : Type} `{PA : PageAllocator A}.
Implicit Types s : Rfs.state A.

(** Everything is the same but the buffer and the allocator. *)
Definition scratched s s' : Prop := exists a b, length b = 4096%nat /\ s' = Rfs.set_pages a (Rfs.set_iobuffer b s).

Lemma scratched_trans s1 s2 s3 : scratched s1 s2 -> scratched s2 s3 -> scratched s1 s3.
Proof. intros (a & b & Hb & ->) (a' & b' & Hb' & ->). by exists a', b'. Qed.

Lemma scratched_disk_ok s s' : scratched s s' -> disk_ok s -> disk_ok s'.
Proof. intros (a & b & Hb & ->) Hd. by apply (disk_ok_iobuffer s). Qed.

Definition is_free s (n : Z) : Prop := d_type (dinode_at s n) = R_FREE.
#[export] Instance is_free_dec s n : Decision (is_free s n).
Proof. unfold is_free. apply _. Defined.

(** One disk inode is looked at: the page is taken and, unless it is free,
    given back. *)
Lemma look_at_dinode s n p F :
  disk_ok s -> valid_inode n -> pa_rep (Rfs.pages s) (p :: F) ->
  exists s1, scratched s s1 /\ Rfs.rfs_read_dinode n s = Ret (p, dinode_at s n) s1 /\ pa_rep (Rfs.pages s1) F /\
    pa_page (Rfs.pages s1) p /\ (p ∉ F) /\
    exists s2, scratched s s2 /\ Rfs.free_page p s1 = Ret tt s2 /\ pa_rep (Rfs.pages s2) (p :: F).
Proof.
  intros Hd Hn Hrep. pose proof (pa_rep_pages _ _ Hrep) as [Hnd _]. apply NoDup_cons in Hnd as [Hni _].
  destruct (read_dinode_spec s n p F Hd Hn Hrep) as (a & b & Heq & Hb & Hrep1 & Hp & _).
  eexists. split; [by exists a, b|]. split_and!; try done.
  destruct (free_page_eq (Rfs.set_pages a (Rfs.set_iobuffer b s)) p F Hrep1 Hp Hni) as (a' & Hfr & Hrep2 & _).
  eexists. split; [|by split]. by exists a', b.
Qed.

(** The search: the first free inode from [i] on, in the page [p]; without one
    the page [p] is given back in every round and stays the pointer ([q] when
    there was no round). *)
Lemma find_free_dinode_spec n : forall s i p F q,
  disk_ok s -> 0 <= i -> i + Z.of_nat n <= Rfs.MAX_INODES -> pa_rep (Rfs.pages s) (p :: F) ->
  (exists j s', i <= j < i + Z.of_nat n /\ is_free s j /\ (forall k, i <= k < j -> ~ is_free s k) /\
     Rfs.find_free_dinode n i q s = Ret (p, Some (dinode_at s j, j)) s' /\ scratched s s' /\
     pa_rep (Rfs.pages s') F /\ pa_page (Rfs.pages s') p) \/
  (exists s', (forall k, i <= k < i + Z.of_nat n -> ~ is_free s k) /\
     Rfs.find_free_dinode n i q s = Ret (if decide (n = 0%nat) then q else p, None) s' /\ (n = 0%nat \/ scratched s s') /\ pa_rep (Rfs.pages s') (p :: F)).
Proof.
  induction n as [|n IH]; intros s i p F q Hd Hi Hle Hrep.
  - right. exists s. split_and!; [intros; lia|done|by left|done].
  - destruct (look_at_dinode s i p F Hd) as (s1 & Hs1 & Heq & Hrep1 & Hp & Hni & s2 & Hs2 & Hfr & Hrep2);
      [split; lia|done|].
    cbn [Rfs.find_free_dinode]. destruct (Z.eqb_spec (d_type (dinode_at s i)) R_FREE) as [E|E].
    + left. exists i, s1. split_and!; try done; try lia. mstep Heq. by rewrite E.
    + assert (forall j, dinode_at s2 j = dinode_at s j) as Hdn by (intros j; destruct Hs2 as (? & ? & _ & ->); done).
      destruct (IH s2 (i + 1) p F p) as [(j & s' & Hj & Hfj & Hbefore & Heq' & Hs' & Hr)|(s' & Hall & Heq' & Hs' & Hr)];
        [by eapply scratched_disk_ok|lia|lia|done| |].
      * left. exists j, s'. unfold is_free in *. rewrite Hdn in *. split_and!; try lia; try done.
        -- intros k Hk. destruct (decide (k = i)) as [->|]; [done|]. rewrite <- Hdn. apply Hbefore. lia.
        -- mstep Heq. rewrite (proj2 (Z.eqb_neq _ _) E). by mstep Hfr.
        -- by eapply scratched_trans.
        -- apply Hr.
        -- apply Hr.
      * right. exists s'. split_and!; try done.
        -- intros k Hk. destruct (decide (k = i)) as [->|]; [done|]. unfold is_free. rewrite <- Hdn. apply Hall. lia.
        -- mstep Heq. rewrite (proj2 (Z.eqb_neq _ _) E). mstep Hfr. rewrite Heq'. by destruct (decide (n = 0%nat)).
        -- right. destruct Hs' as [->|Hs']; [|by eapply scratched_trans].
           cbn [Rfs.find_free_dinode] in Heq'. by injection Heq' as <-.
Qed.

(** No inode is free: the search ends with the pointer to the page it has used
    for every inode and given back. *)
Lemma find_free_dinode_none s p F :
  disk_ok s -> pa_rep (Rfs.pages s) (p :: F) -> (forall n, valid_inode n -> ~ is_free s n) ->
  exists s', Rfs.find_free_dinode (Z.to_nat Rfs.MAX_INODES) 0 0 s = Ret (p, None) s' /\ p <> 0 /\
    scratched s s' /\ pa_rep (Rfs.pages s') (p :: F).
Proof.
  intros Hd Hrep Hall. change (Z.to_nat Rfs.MAX_INODES) with 320%nat.
  destruct (find_free_dinode_spec 320 s 0 p F 0 Hd) as [(j & s' & Hj & Hfj & _)|(s' & _ & Heq & [|Hs'] & Hr)]; try done.
  { exfalso. apply (Hall j); [split; [lia|change Rfs.MAX_INODES with 320; lia]|done]. }
  exists s'. split_and!; [done| |done|done]. pose proof (pa_rep_pages _ _ Hrep) as [_ Hp].
  apply Forall_cons in Hp as [Hp%pa_page_nonnull _]. lia.
Qed.

(** The test for NULL passes, and the page is used. *)
Lemma new_dinode_none s msg ty p F :
  disk_ok s -> pa_rep (Rfs.pages s) (p :: F) -> (forall n, valid_inode n -> ~ is_free s n) ->
  Rfs.new_dinode msg ty s = Fault "use of free_dinode after free_page".
Proof.
  intros Hd Hrep Hall. destruct (find_free_dinode_none s p F Hd Hrep Hall) as (s' & Heq & Hp & _).
  unfold Rfs.new_dinode. mstep Heq. apply Z.eqb_neq in Hp. rewrite Hp. unfold Rfs.use_dinode. by rewrite Hp.
Qed.

(** ** A new disk inode *)
Lemma bytes_int_ok l : int_ok (bytes_int l).
Proof.
  unfold bytes_int. destruct l as [|? [|? [|? [|? ?]]]]; try (unfold int_ok; lia). apply i32_range.
Qed.

Lemma dinode_at_ok s n : dinode_ok (dinode_at s n).
Proof.
  unfold dinode_at, bytes_dinode. set (l := take 56 _). clearbody l. simpl. split.
  - unfold dinode_ints. simpl. repeat constructor; apply bytes_int_ok.
  - done.
Qed.

Lemma dir_rep_ext s s' d es :
  dir_rep s d es -> disk_ok s' -> map_ok s' -> (forall b, used s b -> used s' b) ->
  (forall b, used s b -> b ∈ file_blocks d -> block s' b = block s b) -> dir_rep s' d es.
Proof.
  intros Hr Hd' Hm' Hu Hb. destruct (dir_addr s d es Hr) as (a & Ea & _ & _ & Hua & Hfb).
  destruct Hr as [(Hd & Hm & [F1 F2 F3 F4 F5]) R2 R3 R4 R5]. split; try done.
  - split; [done|]. split; [done|]. split; try done. eapply Forall_impl; [exact F4|]. exact Hu.
  - unfold dir_block in *. rewrite Ea in *. rewrite Hb; [done|done|]. rewrite Hfb. by constructor.
Qed.

Record dinode_created s (ty n b : Z) s' : Prop := {
  dc_block : data_block s b /\ ~ used s b;
  dc_disk : disk_ok s' /\ map_ok s' /\ Rfs.nblocks s' = Rfs.nblocks s;
  dc_used : forall b', used s' b' <-> used s b' \/ b' = b;
  dc_dinode : dinode_at s' n = mk_dinode 0 ty 1 1 (<[0%nat := b]> (d_addrs (dinode_at s n)));
  dc_others : forall m, valid_inode m -> m <> n -> dinode_at s' m = dinode_at s m;
  dc_blocks : forall b', valid_block b' -> 11 <= b' -> block s' b' = block s b';
  dc_vinodes : Rfs.vinodes s' = Rfs.vinodes s;
}.

Lemma new_dinode_spec s msg ty n p F :
  disk_ok s -> map_ok s -> (0 < free_count s)%nat -> pa_rep (Rfs.pages s) (p :: F) -> int_ok ty ->
  valid_inode n -> is_free s n -> (forall k, 0 <= k < n -> ~ is_free s k) ->
  exists b s', Rfs.new_dinode msg ty s = Ret n s' /\ pa_rep (Rfs.pages s') (p :: F) /\ dinode_created s ty n b s'.
Proof.
  intros Hd Hm Hc Hrep Hty Hn Hfn Hbefore. unfold valid_inode in Hn. change Rfs.MAX_INODES with 320 in Hn.
  destruct (find_free_dinode_spec 320 s 0 p F 0 Hd) as [(j & s1 & Hj & Hfj & Hb & Heq & Hs1 & Hrep1 & Hp1)|(s' & Hall & _)];
    try done; [|exfalso; apply (Hall n); [lia|done]].
  assert (j = n) as ->.
  { destruct (Z.lt_trichotomy j n) as [H|[H|H]]; [|done|].
    - exfalso. apply (Hbefore j); [lia|done].
    - exfalso. apply (Hb n); [lia|done]. }
  destruct Hs1 as (a1 & b1 & Hb1 & Es1).
  assert (map_ok s1) as Hm1 by (rewrite Es1; exact Hm).
  assert ((0 < free_count s1)%nat) as Hc1 by (rewrite Es1; exact Hc).
  destruct (alloc_block_spec s1 Hm1 Hc1) as (b & s2 & Heq2 & Es2 & Hdb & Hnu & Hm2 & _ & Hu2).
  assert (disk_ok s2) as Hd2 by (rewrite Es2, Es1; by apply (disk_ok_iobuffer s)).
  set (dn := mk_dinode 0 ty 1 1 (<[0%nat := b]> (d_addrs (dinode_at s n)))).
  assert (valid_block b) as Hvb by (by apply (data_block_valid s1)).
  assert (dinode_ok dn) as Hdn.
  { destruct (dinode_at_ok s n) as [H1 H2]. unfold dn. unfold dinode_ints in H1. set (al := d_addrs (dinode_at s n)) in *.
    clearbody al. split; [|cbn [d_addrs]; by rewrite length_insert].
    unfold dinode_ints. cbn [d_size d_type d_nlinks d_blocks d_addrs]. do 4 apply Forall_cons in H1 as [_ H1].
    repeat (apply Forall_cons; split); try done; try (unfold int_ok; lia). apply Forall_insert; [done|].
    destruct Hvb. unfold int_ok, RAMDISK_BLOCK_COUNT in *. lia. }
  assert (valid_inode n) as Hvn by (split; [lia|change Rfs.MAX_INODES with 320; lia]).
  destruct (write_dinode_spec s2 dn n Hd2 Hvn Hdn) as (r & s3 & Heq3 & -> & Hd3 & (E1 & E2 & E3 & _ & _ & _ & E7) & D1 & D2 & D3).
  pose proof (pa_rep_pages _ _ Hrep) as [Hnd _]. apply NoDup_cons in Hnd as [Hni _].
  assert (pa_rep (Rfs.pages s3) F /\ pa_page (Rfs.pages s3) p) as [Hrep3 Hp3] by (rewrite E7, Es2; done).
  destruct (free_page_eq s3 p F Hrep3 Hp3 Hni) as (a4 & Hfr & Hrep4 & _).
  exists b, (Rfs.set_pages a4 s3). split_and!; [|done|].
  - assert (0 < p) as Hpos by (by apply (pa_page_nonnull (Rfs.pages s1))).
    unfold Rfs.new_dinode. change (Z.to_nat Rfs.MAX_INODES) with 320%nat. mstep Heq.
    rewrite (proj2 (Z.eqb_neq p 0)) by lia. unfold Rfs.use_dinode. mstep Heq2. fold dn. mstep Heq3. by mstep Hfr.
  - split.
    + rewrite Es1 in Hdb, Hnu. done.
    + split; [done|]. split; [unfold map_ok; simpl; rewrite E1, E2; exact Hm2|]. simpl. rewrite E1, Es2, Es1. done.
    + intros b'. rewrite Es1 in Hu2. etransitivity; [|exact (Hu2 b')].
      unfold used, data_block, map_at. simpl. by rewrite E1, E2.
    + exact D1.
    + intros m Hvm Hne. etransitivity; [exact (D2 m Hvm Hne)|]. by rewrite Es2, Es1.
    + intros b' Hvb' Hb'. etransitivity; [apply (D3 b' Hvb'); by right|]. by rewrite Es2, Es1.
    + simpl. by rewrite E3, Es2, Es1.
Qed.

(** ** [rfs_create] *)
Record created s (dp : Z) (d : vinode) (es : list (list Z * Z)) (name : list Z) (n p : Z) s' : Prop := {
  cr_file : exists v b, Rfs.vinodes s' = <[dp := set_size (size d + 32) d]> (<[p := v]> (Rfs.vinodes s)) /\
              readable s' v /\ content s' v = [] /\ inum v = n /\ type v = R_FILE /\ nlinks v = 1 /\
              file_blocks v = [b] /\ ~ used s b /\ (forall b', used s' b' <-> used s b' \/ b' = b) /\
              dinode_at s' n = Rfs.vinode_dinode v /\ v_sb v = v_sb d;
  cr_dir : dir_rep s' (set_size (size d + 32) d) (es ++ [(name, n)]);
  cr_others : forall m, valid_inode m -> m <> n -> m <> inum d -> dinode_at s' m = dinode_at s m;
  cr_blocks : forall b, used s b -> used s' b /\ (b ∉ file_blocks d -> block s' b = block s b);
}.

Lemma create_spec garbage s dp d es name n p p2 F :
  dir_rep s d es -> Rfs.vinodes s !! dp = Some d -> valid_inode (inum d) -> (length es < 128)%nat ->
  no_nul name -> (length name <= 27)%nat -> dinode_ok (Rfs.vinode_dinode (set_size (size d + 32) d)) ->
  valid_inode n -> is_free s n -> (forall k, 0 <= k < n -> ~ is_free s k) -> n <> inum d ->
  (0 < free_count s)%nat -> pa_rep (Rfs.pages s) (p :: p2 :: F) -> dp <> p ->
  exists s', Rfs.rfs_create garbage dp name s = Ret p s' /\ pa_rep (Rfs.pages s') (p2 :: F) /\
    created s dp d es name n p s'.
Proof.
  intros Hr Hv Hid Hlt Hn Hl Hok Hvn Hfn Hbefore Hne Hc Hrep Hdp. pose proof Hr as [(Hd & Hm & Hf) _ _ _ _].
  destruct (new_dinode_spec s "rfs_create: no more free disk inode, we cannot create file." R_FILE n p (p2 :: F) Hd Hm Hc Hrep) as (b & s1 & Heq1 & Hrep1 & Hdc); try done.
  destruct Hdc as [[B1 B2] (D1 & D2 & D2') D3 D4 D5 D6 D7].
  destruct (fresh_vinode_spec garbage s1 (v_sb d) p p2 F n D1 Hvn Hrep1) as (a2 & s2 & Heq2 & (v & bf & (V1 & V2 & V3) & V4 & Hbf & Es2) & Hrep2 & _).
  assert (dir_rep s2 d es) as Hr2.
  { apply (dir_rep_ext s).
    - done.
    - rewrite Es2. by apply (disk_ok_iobuffer s1).
    - rewrite Es2. exact D2.
    - intros b' Hb'. rewrite Es2. apply (proj2 (D3 b')). by left.
    - intros b' Hb' _. rewrite Es2. apply (D6 b'); destruct Hb' as [Hdb _].
      + by apply (data_block_valid s).
      + unfold data_block in Hdb. change RFS_BLK_OFFSET_FREE with 12 in Hdb. lia. }
  assert (Rfs.vinodes s2 !! dp = Some d) as Hv2 by (rewrite Es2; simpl; rewrite lookup_insert_ne, D7; done).
  assert (int_ok n) as Hin by (destruct Hvn; change Rfs.MAX_INODES with 320 in *; unfold int_ok; lia).
  destruct (add_direntry_spec s2 dp d es name n) as (s3 & Heq3 & Hd3 & Hvs3 & (E1 & E2 & _ & _ & _ & _ & E7) & Hr3 & A1 & A2 & A3);
    try done.
  change (Rfs.nblocks s3 = Rfs.nblocks s2) in E1. change (Rfs.freemap s3 = Rfs.freemap s2) in E2.
  assert (valid_block b) as Hvb by (by apply (data_block_valid s)).
  assert (12 <= b) as Hb12 by (destruct B1 as [Hx _]; exact Hx).
  assert (forall b', used s3 b' <-> used s1 b') as Hu3.
  { intros b'. unfold used, data_block, map_at. rewrite E1, E2, Es2. done. }
  pose proof (dinode_at_ok s n) as [_ Hal]. remember (d_addrs (dinode_at s n)) as al eqn:Eal. clear Eal.
  assert (Rfs.vinode_dinode v = mk_dinode 0 R_FILE 1 1 (<[0%nat := b]> al)) as Hvd by (by rewrite V3, D4).
  destruct v as [vi vr vsz vt vn vb va vf vs]. unfold Rfs.vinode_dinode in Hvd.
  cbn [inum ref size type nlinks blocks addrs i_fs_info] in Hvd. injection Hvd as -> -> -> -> ->.
  simpl in V1, V2. subst vi vr. set (v := mk_vinode _ _ _ _ _ _ _ _ _) in *.
  assert (file_blocks v = [b]) as Hfb.
  { unfold file_blocks, v. cbn [blocks addrs]. change (Z.to_nat 1) with 1%nat.
    destruct al; done. }
  exists s3. split_and!.
  - unfold Rfs.rfs_create. mstep (vinode_eq s dp d Hv). mstep Heq1. rewrite Heq2. by mstep Heq3.
  - rewrite E7. change (Rfs.pages (Rfs.set_vinodes (Rfs.vinodes s3) s2)) with (Rfs.pages s2). rewrite Es2. exact Hrep2.
  - split.
    + exists v, b. split_and!; try done.
      * rewrite Hvs3, Es2. simpl. by rewrite D7.
      * split; [done|]. split; [unfold map_ok; rewrite E1, E2, Es2; exact D2|]. split.
        -- unfold v. cbn [addrs]. by rewrite length_insert.
        -- done.
        -- unfold v. cbn [size blocks]. lia.
        -- rewrite Hfb. constructor; [|constructor]. apply Hu3, D3. by right.
        -- rewrite Hfb. apply NoDup_singleton.
      * intros b'. by rewrite Hu3, D3.
      * rewrite A2 by done. etransitivity; [|symmetry; exact V3]. by rewrite Es2.
    + done.
    + intros m Hvm H1 H2. rewrite A2 by done. transitivity (dinode_at s1 m); [by rewrite Es2|by apply D5].
    + intros b' Hub'. split; [apply Hu3, D3; by left|]. intros Hnb. destruct Hub' as [Hdb _].
      assert (valid_block b') by (by apply (data_block_valid s)).
      unfold data_block in Hdb. change RFS_BLK_OFFSET_FREE with 12 in Hdb.
      rewrite A3 by (done || lia). transitivity (block s1 b'); [by rewrite Es2|]. apply D6; [done|lia].
Qed.
End create.
