(* ===== verification/RfsLink.v ===== *)
(** * RFS: links, sub-directories and directory streams

    [rfs_link] and [rfs_mkdir] add an entry; [rfs_hook_opendir] copies a
    directory into memory, [rfs_readdir] walks the copy, and
    [rfs_hook_closedir] gives its pages back. *)

From stdpp Require Import base gmap list numbers strings.
From Stdlib Require Import ZArith Lia.
From S2P Require Import Prelude Pmm Bytes Rfs RfsDisk RfsFile RfsDir RfsCreate.
Local Open Scope Z_scope.

Section links.
Context {A : Type} `{PA : PageAllocator A}.
Implicit Types s : Rfs.state A.

(** ** [rfs_link] *)
Record linked s (dp : Z) (d : vinode) (es : list (list Z * Z)) (name : list Z) (lp : Z) (l : vinode) s' : Prop := {
  ln_dir : dir_rep s' (set_size (size d + 32) d) (es ++ [(name, inum l)]);
  ln_vinodes : Rfs.vinodes s' = <[dp := set_size (size d + 32) d]> (<[lp := set_nlinks (nlinks l + 1) l]> (Rfs.vinodes s));
  ln_dir_inode : dinode_at s' (inum d) = Rfs.vinode_dinode (set_size (size d + 32) d);
  ln_inode : dinode_at s' (inum l) = Rfs.vinode_dinode (set_nlinks (nlinks l + 1) l);
  ln_others : forall m, valid_inode m -> m <> inum l -> m <> inum d -> dinode_at s' m = dinode_at s m;
  ln_blocks : forall b, valid_block b -> 12 <= b -> b ∉ file_blocks d -> block s' b = block s b;
  ln_used : forall b, used s' b <-> used s b;
}.

Lemma dir_rep_disk s s' d es :
  dir_rep s d es -> disk_ok s' -> Rfs.nblocks s' = Rfs.nblocks s -> Rfs.freemap s' = Rfs.freemap s ->
  (forall b, valid_block b -> 12 <= b -> block s' b = block s b) -> dir_rep s' d es.
Proof.
  intros Hr Hd E1 E2 Hb. assert (forall b, used s b -> used s' b) as Hu
    by (intros b; unfold used, data_block, map_at; by rewrite E1, E2).
  apply (dir_rep_ext s); try done.
  - pose proof Hr as [(_ & Hm & _) _ _ _ _]. unfold map_ok. by rewrite E1, E2.
  - intros b [Hub _] _. apply Hb; [|exact (proj1 Hub)].
    pose proof Hr as [(_ & Hm & _) _ _ _ _]. by apply (data_block_valid s).
Qed.

Lemma link_spec s dp d es name lp l :
  dir_rep s d es -> Rfs.vinodes s !! dp = Some d -> valid_inode (inum d) -> (length es < 128)%nat ->
  no_nul name -> (length name <= 27)%nat -> dinode_ok (Rfs.vinode_dinode (set_size (size d + 32) d)) ->
  Rfs.vinodes s !! lp = Some l -> lp <> dp -> valid_inode (inum l) -> inum l <> inum d ->
  dinode_ok (Rfs.vinode_dinode (set_nlinks (nlinks l + 1) l)) ->
  exists s', Rfs.rfs_link dp name lp s = Ret 0 s' /\ Rfs.pages s' = Rfs.pages s /\ linked s dp d es name lp l s'.
Proof.
  intros Hr Hv Hid Hlt Hn Hl Hok Hlv Hne Hil Hine Hlok. set (l' := set_nlinks (nlinks l + 1) l) in *.
  set (s1 := Rfs.set_vinodes (<[lp := l']> (Rfs.vinodes s)) s).
  assert (dir_rep s1 d es) as Hr1 by (apply (dir_rep_disk s); try done; apply Hr).
  assert (int_ok (inum l)) as Hin by (destruct Hil; change Rfs.MAX_INODES with 320 in *; unfold int_ok; lia).
  destruct (add_direntry_spec s1 dp d es name (inum l)) as (s2 & Heq2 & Hd2 & Hvs2 & (E1 & E2 & _ & _ & _ & _ & E7) & Hr2 & A1 & A2 & A3);
    try done.
  { simpl. by rewrite lookup_insert_ne. }
  destruct (write_back_spec s2 lp l') as (s3 & Heq3 & Hd3 & (G1 & G2 & G3 & _ & _ & _ & G7) & W1 & W2 & W3); try done.
  { rewrite Hvs2. simpl. by rewrite lookup_insert_ne, lookup_insert_eq. }
  change (inum l') with (inum l) in *.
  exists s3. split_and!.
  - unfold Rfs.rfs_link. mstep (vinode_eq s lp l Hlv). unfold Rfs.upd_vinode. rewrite bind_modify.
    replace (Rfs.set_vinodes _ _) with s1; [mstep Heq2; cbn [Z.eqb negb]; by mstep Heq3|]. unfold s1. f_equal.
    apply map_eq. intros k. destruct (decide (k = lp)) as [->|Hk].
    + by rewrite lookup_insert_eq, lookup_alter_eq, Hlv.
    + by rewrite lookup_insert_ne, lookup_alter_ne by done.
  - by rewrite G7, E7.
  - split.
    + apply (dir_rep_disk s2); try done. intros b Hvb Hb. apply W3; [done|lia].
    + by rewrite G3, Hvs2.
    + by rewrite W2.
    + done.
    + intros m Hm H1 H2. rewrite W2, A2 by done. done.
    + intros b Hvb Hb Hnb. rewrite W3, A3 by (done || lia). done.
    + intros b. unfold used, data_block, map_at. by rewrite G1, G2, E1, E2.
Qed.

(** ** [rfs_mkdir] *)
Record made_dir s (dp : Z) (d : vinode) (es : list (list Z * Z)) (name : list Z) (n p : Z) s' : Prop := {
  md_sub : exists v b, Rfs.vinodes s' = <[p := v]> (<[dp := set_size (size d + 32) d]> (Rfs.vinodes s)) /\
             dir_rep s' v [] /\ inum v = n /\ file_blocks v = [b] /\ ~ used s b /\
             dinode_at s' n = Rfs.vinode_dinode v /\ v_sb v = v_sb d;
  md_dir : dir_rep s' (set_size (size d + 32) d) (es ++ [(name, n)]);
  md_others : forall m, valid_inode m -> m <> n -> m <> inum d -> dinode_at s' m = dinode_at s m;
  md_blocks : forall b, used s b -> used s' b /\ (b ∉ file_blocks d -> block s' b = block s b);
}.

Lemma vinode_of_fields s n v d : vinode_of s n v -> dinode_at s n = d ->
  inum v = n /\ size v = d_size d /\ type v = d_type d /\ nlinks v = d_nlinks d /\ blocks v = d_blocks d /\ addrs v = d_addrs d.
Proof. intros (H1 & _ & H3) H. rewrite H in H3. by destruct d; injection H3. Qed.

Lemma mkdir_spec garbage s dp d es name n p p2 F :
  dir_rep s d es -> Rfs.vinodes s !! dp = Some d -> valid_inode (inum d) -> (length es < 128)%nat ->
  no_nul name -> (length name <= 27)%nat -> dinode_ok (Rfs.vinode_dinode (set_size (size d + 32) d)) ->
  valid_inode n -> is_free s n -> (forall k, 0 <= k < n -> ~ is_free s k) -> n <> inum d ->
  (0 < free_count s)%nat -> pa_rep (Rfs.pages s) (p :: p2 :: F) -> dp <> p ->
  exists s', Rfs.rfs_mkdir garbage dp name s = Ret p s' /\ pa_rep (Rfs.pages s') (p2 :: F) /\
    made_dir s dp d es name n p s'.
Proof.
  intros Hr Hv Hid Hlt Hn Hl Hok Hvn Hfn Hbefore Hne Hc Hrep Hdp. pose proof Hr as [(Hd & Hm & Hf) _ _ _ _].
  destruct (new_dinode_spec s "rfs_mkdir: no more free disk inode, we cannot create directory." R_DIR n p (p2 :: F) Hd Hm Hc Hrep) as (b & s1 & Heq1 & Hrep1 & Hdc); try done.
  destruct Hdc as [[B1 B2] (D1 & D2 & D2') D3 D4 D5 D6 D7].
  assert (forall b', used s b' -> valid_block b' /\ 12 <= b') as Hused.
  { intros b' [Hb' _]. split; [by apply (data_block_valid s)|exact (proj1 Hb')]. }
  assert (dir_rep s1 d es) as Hr1.
  { apply (dir_rep_ext s); try done; [intros b' Hb'; apply D3; by left|].
    intros b' Hb' _. destruct (Hused b' Hb'). apply D6; [done|lia]. }
  assert (int_ok n) as Hin by (destruct Hvn; change Rfs.MAX_INODES with 320 in *; unfold int_ok; lia).
  destruct (add_direntry_spec s1 dp d es name n) as (s2 & Heq2 & Hd2 & Hvs2 & (E1 & E2 & _ & _ & _ & _ & E7) & Hr2 & A1 & A2 & A3);
    try done; [by rewrite D7|].
  assert (pa_rep (Rfs.pages s2) (p :: p2 :: F)) as Hrep2 by (rewrite E7; exact Hrep1).
  destruct (fresh_vinode_spec garbage s2 (v_sb d) p p2 F n Hd2 Hvn Hrep2) as (a3 & s3 & Heq3 & (v & bf & Hvo & V0 & Hbf & Es3) & Hrep3 & _).
  assert (forall b', used s3 b' <-> used s1 b') as Hu3.
  { intros b'. unfold used, data_block, map_at. rewrite Es3. cbn. by rewrite E1, E2. }
  pose proof (dinode_at_ok s n) as [_ Hal].
  assert (disk_ok s3) as Hd3 by (rewrite Es3; by apply (disk_ok_iobuffer s2)).
  assert (dinode_at s2 n = mk_dinode 0 R_DIR 1 1 (<[0%nat := b]> (d_addrs (dinode_at s n)))) as Hdn by (by rewrite A2).
  destruct (vinode_of_fields _ _ _ _ Hvo Hdn) as (V1 & V2 & V3 & V4 & V5 & V6).
  cbn [d_size d_type d_nlinks d_blocks d_addrs] in V2, V3, V4, V5, V6. remember (d_addrs (dinode_at s n)) as al eqn:Eal. clear Eal Hdn.
  assert (file_blocks v = [b]) as Hfb.
  { unfold file_blocks. rewrite V5, V6. destruct al; done. }
  exists s3. split_and!.
  - unfold Rfs.rfs_mkdir. mstep (vinode_eq s dp d Hv). mstep Heq1. mstep Heq2. change (0 =? -1) with false. cbv iota. by rewrite Heq3.
  - by rewrite Es3.
  - assert (map_ok s3) as Hm3 by (rewrite Es3; unfold map_ok; cbn; rewrite E1, E2; exact D2). split.
    + exists v, b. split_and!; try done.
      * rewrite Es3. cbn. by rewrite Hvs2, D7.
      * split; try done. split; [done|]. split; [done|]. split.
        -- rewrite V6. by rewrite length_insert.
        -- rewrite V5. lia.
        -- rewrite V2, V5. lia.
        -- rewrite Hfb. constructor; [|constructor]. apply Hu3, D3. by right.
        -- rewrite Hfb. apply NoDup_singleton.
      * destruct Hvo as (_ & _ & ->). by rewrite Es3.
    + apply (dir_rep_disk s2); try done; by rewrite Es3.
    + intros m Hvm H1 H2. transitivity (dinode_at s2 m); [by rewrite Es3|]. rewrite A2 by done. by apply D5.
    + intros b' Hub'. split; [apply Hu3, D3; by left|]. intros Hnb. destruct (Hused b' Hub').
      transitivity (block s2 b'); [by rewrite Es3|]. rewrite A3 by (done || lia). apply D6; [done|lia].
Qed.
End links.
