(* ===== verification/RfsMount.v ===== *)
(** * RFS: formatting and mounting

    [rfs_format_dev] followed by [rfs_get_superblock], from any content of the
    RAM disk: an empty root directory, every other inode free, and one block in
    use. *)

From stdpp Require Import base gmap list numbers strings.
From Stdlib Require Import ZArith Lia.
From S2P Require Import Prelude Pmm Bytes Rfs RfsDisk RfsFile RfsDir RfsCreate.
Local Open Scope Z_scope.

Section mount.
Context {A : Type} `{PA : PageAllocator A}.
Implicit Types s : Rfs.state A.

Definition empty_inode : list Z := ints_bytes [0; R_FREE; 0; 0].

Lemma empty_inodes_spec n : forall s off,
  length (Rfs.iobuffer s) = 4096%nat -> 0 <= off -> off + Z.of_nat n * 128 <= 4096 ->
  exists b, Rfs.empty_inodes n off s = Ret tt (Rfs.set_iobuffer b s) /\ length b = 4096%nat /\
    (forall o m, 0 <= o -> o + m <= off -> slice o m b = slice o m (Rfs.iobuffer s)) /\
    (forall i, 0 <= i < Z.of_nat n -> slice (off + 128 * i) 16 b = Some empty_inode).
Proof.
  induction n as [|n IH]; intros s off Hl Hoff Hle.
  - exists (Rfs.iobuffer s). split_and!; [by destruct s|done|done|intros; lia].
  - destruct (to_iobuffer_eq s off empty_inode Hoff) as (b1 & Hsp & Hto); [rewrite Hl; simpl; lia|].
    pose proof (splice_length _ _ _ _ Hsp) as Hl1.
    destruct (IH (Rfs.set_iobuffer b1 s) (off + 128)) as (b & Heq & Hb & Hbefore & Hin); [simpl; lia|lia|lia|].
    exists b. cbn [Rfs.empty_inodes]. change RFS_INODESIZE with 128. change (ints_bytes _) with empty_inode. mstep Hto.
    rewrite Heq. split_and!; [done|done| |].
    + intros o m Ho Hm. rewrite Hbefore by lia. cbn [Rfs.iobuffer Rfs.set_iobuffer].
      apply (slice_splice_other _ _ _ _ _ _ Hsp). by left.
    + intros i Hi. destruct (decide (i = 0)) as [->|].
      * rewrite Z.mul_0_r, Z.add_0_r, Hbefore by lia. apply (slice_splice_same _ _ _ _ Hsp).
      * replace (off + 128 * i) with (off + 128 + 128 * (i - 1)) by lia. apply Hin. lia.
Qed.

Lemma write_inode_blocks_spec n : forall s k,
  disk_ok s -> 0 <= k -> 1 + k + Z.of_nat n <= 128 ->
  exists s', Rfs.write_inode_blocks n k s = Ret tt s' /\ disk_ok s' /\ same_but_disk s s' /\
    Rfs.iobuffer s' = Rfs.iobuffer s /\
    (forall b, valid_block b -> block s' b = if decide (1 + k <= b < 1 + k + Z.of_nat n) then Rfs.iobuffer s else block s b).
Proof.
  induction n as [|n IH]; intros s k Hd Hk Hle.
  - exists s. split_and!; try done. intros b _. by rewrite decide_False by lia.
  - assert (valid_block (1 + k)) as Hv by (split; unfold RAMDISK_BLOCK_COUNT; lia).
    pose proof Hd as (_ & _ & Hib). pose proof (ramdisk_write_eq s (1 + k) Hv) as Hw. set (s1 := Rfs.set_disk _ s) in Hw.
    assert (disk_ok s1) as Hd1 by (by apply disk_ok_write).
    destruct (IH s1 (k + 1) Hd1) as (s2 & Heq & Hd2 & Hsame & Hi2 & Hb2); [lia|lia|].
    exists s2. cbn [Rfs.write_inode_blocks]. change RFS_BLK_OFFSET_INODE with 1. unfold Rfs.rfs_w1block. mstep Hw.
    split; [exact Heq|]. split; [done|]. split; [exact Hsame|]. split; [exact Hi2|].
    { intros b Hb. rewrite (Hb2 b Hb). change (Rfs.iobuffer s1) with (Rfs.iobuffer s). unfold s1 at 1.
      rewrite block_set_disk by done. repeat case_decide; subst; try done; lia. }
Qed.

Lemma bytes_dinode_type l : take 16 l = empty_inode -> d_type (bytes_dinode l) = R_FREE.
Proof.
  intros H. rewrite <- (take_drop 16 l), H. unfold empty_inode.
  assert (forall rest, bytes_int (drop 4 (ints_bytes [0; R_FREE; 0; 0] ++ rest)) = R_FREE) as Hi by (intros; by vm_compute).
  unfold bytes_dinode. cbn [bytes_ints d_type]. apply Hi.
Qed.

Record formatted s' : Prop := {
  fm_disk : disk_ok s';
  fm_super : slice 0 16 (block s' 0) = Some (ints_bytes [RFS_MAGIC; 112; 100; 320]);
  fm_root : exists r, dinode_at s' 0 = mk_dinode 0 R_DIR 1 1 (12 :: r) /\ length r = 9%nat;
  fm_free : forall n, valid_inode n -> n <> 0 -> is_free s' n;
  fm_bitmap : block s' 11 = int_bytes 1 ++ replicate 4092 0;
}.

Lemma format_spec s uninit :
  disk_ok s -> length uninit = 9%nat -> Forall int_ok uninit ->
  exists s', Rfs.rfs_format_dev uninit s = Ret 0 s' /\ same_but_disk s s' /\ formatted s'.
Proof.
  intros Hd Hul Hui. pose proof Hd as (_ & _ & Hib).
  set (sb := ints_bytes [RFS_MAGIC; 112; 100; 320]).
  destruct (to_iobuffer_eq s 0 sb) as (b1 & Hsp & Hto); [lia|rewrite Hib; simpl; lia|].
  pose proof (splice_length _ _ _ _ Hsp) as Hl1. set (s1 := Rfs.set_iobuffer b1 s).
  assert (disk_ok s1) as Hd1 by (apply disk_ok_iobuffer; [done|lia]).
  assert (valid_block 0) as Hv0 by done. assert (valid_block 11) as Hv11 by done.
  pose proof (ramdisk_write_eq s1 0 Hv0) as Hw1. set (s2 := Rfs.set_disk _ s1) in Hw1.
  assert (disk_ok s2) as Hd2 by (apply disk_ok_write; [done|simpl; lia]).
  destruct (empty_inodes_spec 32 s2 0) as (b3 & Heq3 & Hl3 & _ & Hin3); [simpl; lia|lia|lia|].
  set (s3 := Rfs.set_iobuffer b3 s2) in *. assert (disk_ok s3) as Hd3 by (by apply disk_ok_iobuffer).
  destruct (write_inode_blocks_spec 10 s3 0 Hd3) as (s4 & Heq4 & Hd4 & Hsame4 & _ & Hb4); [lia|lia|].
  set (root := mk_dinode 0 R_DIR 1 1 (12 :: uninit)).
  assert (dinode_ok root) as Hroot.
  { split; [|simpl; lia]. unfold root, dinode_ints. cbn [d_size d_type d_nlinks d_blocks d_addrs].
    repeat (apply Forall_cons; split); try done; unfold int_ok; lia. }
  destruct (write_dinode_spec s4 root 0 Hd4) as (r5 & s5 & Heq5 & -> & Hd5 & Hsame5 & D1 & D2 & D3); [done|done|].
  set (bm := int_bytes 1 ++ replicate 4092 0). assert (length bm = 4096%nat) as Hbm by done.
  set (s6 := Rfs.set_iobuffer bm s5). assert (disk_ok s6) as Hd6 by (by apply disk_ok_iobuffer).
  pose proof (ramdisk_write_eq s6 11 Hv11) as Hw6. set (s7 := Rfs.set_disk _ s6) in Hw6.
  assert (disk_ok s7) as Hd7 by (by apply disk_ok_write).
  assert (forall b, valid_block b -> block s7 b = if decide (b = 11) then bm else block s5 b) as Hb7.
  { intros b Hb. exact (block_set_disk s6 11 bm b Hd6 Hv11 Hb). }
  assert (forall n, valid_inode n -> dinode_at s7 n = dinode_at s5 n) as Hdn7.
  { intros n Hn. destruct (dinode_place n Hn) as (Nb & _ & Hnb & Hnb' & _). unfold dinode_at. rewrite Nb.
    rewrite Hb7, decide_False by (done || lia). done. }
  exists s7. split_and!.
  - unfold Rfs.rfs_format_dev. change (ints_bytes _) with sb. mstep Hto. fold s1.
    unfold Rfs.rfs_w1block. change RFS_BLK_OFFSET_SUPER with 0. mstep Hw1.
    change (Z.to_nat (RFS_BLKSIZE / RFS_INODESIZE)) with 32%nat. mstep Heq3.
    change (Z.to_nat RFS_MAX_INODE_BLKNUM) with 10%nat. mstep Heq4. change RFS_BLK_OFFSET_FREE with 12. fold root.
    mstep Heq5. cbn [Z.eqb negb]. rewrite bind_modify. change (Z.to_nat (RFS_BLKSIZE - 4)) with 4092%nat.
    fold bm s6. change RFS_BLK_OFFSET_BITMAP with 11. by mstep Hw6.
  - apply (same_but_disk_trans _ s4); [|apply Hsame5]. apply (same_but_disk_trans _ s3); [done|apply Hsame4].
  - split; try done.
    + rewrite Hb7, decide_False by done. rewrite D3 by (done || lia). rewrite Hb4, decide_False by (done || lia).
      change (block s3 0) with (block s2 0). unfold s2. rewrite block_set_disk, decide_True by done.
      apply (slice_splice_same _ _ _ _ Hsp).
    + exists uninit. split; [|done]. by rewrite Hdn7, D1.
    + intros n Hn Hne. unfold is_free. rewrite Hdn7, D2 by done.
      destruct (dinode_place n Hn) as (Nb & No & Hnb & Hnb' & Hno). unfold dinode_at. rewrite Nb, No.
      rewrite Hb4, decide_True by (done || lia). change (Rfs.iobuffer s3) with b3. apply bytes_dinode_type.
      rewrite take_take. change (Nat.min 16 56) with 16%nat.
      specialize (Hin3 (n mod 32) ltac:(lia)). rewrite slice_eq in Hin3 by lia. injection Hin3 as Hin3.
      rewrite <- Hin3. change (Z.to_nat 16) with 16%nat. do 2 f_equal. change RFS_INODESIZE with 128. lia.
    + by rewrite Hb7, decide_True.
Qed.

(** ** Mounting *)
Lemma bitmap_ints : bytes_ints 1024 (int_bytes 1 ++ replicate 4092 0) = 1 :: replicate 1023 0.
Proof. by vm_compute. Qed.

(** The file system right after mounting. *)
Record mounted (root : Z) s : Prop := {
  mt_map : map_ok s /\ free_count s = 99%nat /\ (forall b, used s b <-> b = 12);
  mt_root : exists v, Rfs.vinodes s !! root = Some v /\ dir_rep s v [] /\ inum v = 0 /\ ref v = 1 /\
              dinode_at s 0 = Rfs.vinode_dinode v;
  mt_freemap : Rfs.nblocks s = 100 /\ Rfs.freemap s = 1 :: replicate 1023 0;
  mt_free : forall n, valid_inode n -> n <> 0 -> is_free s n;
}.

Lemma nth_repeat_zero i n : nth i (replicate n 0) 0 = 0.
Proof. revert i. induction n as [|n IH]; intros [|i]; simpl; auto. Qed.

Lemma fresh_map s fm :
  let s' := Rfs.set_super 100 (1 :: replicate 1023 0) s in
  fm = 1 :: replicate 1023 0 -> map_ok s' /\ free_count s' = 99%nat /\ (forall b, used s' b <-> b = 12).
Proof.
  intros s' _. split_and!; [done..|]. intros b. unfold used, data_block, map_at, s'. cbn [Rfs.nblocks Rfs.freemap Rfs.set_super].
  change RFS_BLK_OFFSET_FREE with 12. split.
  - intros [Hb Hm]. destruct (decide (b = 12)) as [|Hne]; [done|]. exfalso. apply Hm.
    replace (Z.to_nat (b - 12)) with (S (Z.to_nat (b - 13))) by lia.
    change (nth (S (Z.to_nat (b - 13))) (1 :: replicate 1023 0) 0) with (nth (Z.to_nat (b - 13)) (replicate 1023 0) 0).
    apply nth_repeat_zero.
  - intros ->. split; [lia|]. done.
Qed.

Lemma mount_spec garbage s p1 p2 p3 p4 F :
  formatted s -> pa_rep (Rfs.pages s) (p1 :: p2 :: p3 :: p4 :: F) ->
  exists s', Rfs.rfs_get_superblock garbage s = Ret (p1, p3) s' /\ pa_rep (Rfs.pages s') F /\ mounted p2 s' /\
    Rfs.disk s' = Rfs.disk s /\ Rfs.dentries s' = <[p3 := mk_dentry [47] p2 0 0]> (Rfs.dentries s) /\
    (forall q, pa_page (Rfs.pages s') q <-> pa_page (Rfs.pages s) q) /\
    (forall q, q <> p2 -> Rfs.vinodes s' !! q = Rfs.vinodes s !! q) /\ (v_sb <$> Rfs.vinodes s' !! p2) = Some p1.
Proof.
  intros [Hd Hsb (r & Hroot & Hrl) Hfree Hbm] Hrep.
  assert (valid_block 0) as Hv0 by done. assert (valid_block 11) as Hv11 by done.
  pose proof (block_length s 0 Hd Hv0) as Hl0. pose proof (block_length s 11 Hd Hv11) as Hl11.
  set (s1 := Rfs.set_iobuffer (block s 0) s). set (bs := ints_bytes [RFS_MAGIC; 112; 100; 320]) in *.
  assert (Rfs.from_iobuffer 0 16 s1 = Ret bs s1) as Hfr.
  { unfold Rfs.from_iobuffer. rewrite bind_gets. change (Rfs.iobuffer s1) with (block s 0). by rewrite Hsb. }
  destruct (alloc_object_eq s1 p1 _ Hrep) as (a1 & Ha1 & Hrep1 & _ & Pg1).
  set (s2 := Rfs.set_super 100 (Rfs.freemap s) (Rfs.set_pages a1 s1)).
  assert (disk_ok s2) as Hd2 by (apply (disk_ok_iobuffer s); done).
  destruct (fresh_vinode_spec garbage s2 p1 p2 p3 (p4 :: F) 0 Hd2) as (a3 & s3 & Heq3 & (v & b3 & (V1 & V2 & V3) & V4 & Hb3 & Es3) & Hrep3 & Pg3); [done|done|].
  assert (pa_rep (Rfs.pages s3) (p3 :: p4 :: F)) as Hrep3' by (rewrite Es3; exact Hrep3).
  destruct (alloc_object_eq s3 p3 _ Hrep3') as (a4 & Ha4 & Hrep4 & _ & Pg4).
  set (v' := set_ref (ref v + 1) v).
  set (s4 := Rfs.set_vinodes (<[p2 := v']> (Rfs.vinodes s3)) (Rfs.set_dentries (<[p3 := mk_dentry [47] p2 0 0]> (Rfs.dentries s3)) (Rfs.set_pages a4 s3))).
  assert (Rfs.disk s4 = Rfs.disk s) as Hds4 by (unfold s4; rewrite Es3; done).
  assert (block s4 11 = block s 11) as Hb11 by (unfold block; by rewrite Hds4).
  assert (disk_ok s4) as Hd4.
  { unfold s4. rewrite Es3. destruct Hd as (? & ? & ?). split_and!; done. }
  set (s5 := Rfs.set_iobuffer (block s 11) s4).
  destruct (alloc_object_eq s5 p4 F) as (a6 & Ha6 & Hrep6 & _ & Pg6); [exact Hrep4|].
  set (s6 := Rfs.set_super 100 (1 :: replicate 1023 0) (Rfs.set_pages a6 s5)).
  pose proof (pa_rep_pages _ _ Hrep1) as [Hnd1 Hpg1]. apply Forall_cons in Hpg1 as [Hp2 _]. apply pa_page_nonnull in Hp2.
  assert (Rfs.alloc_vfs_dentry [47] p2 0 s3 = Ret p3 s4) as Hdent.
  { unfold Rfs.alloc_vfs_dentry. mstep Ha4. rewrite bind_modify. destruct (Z.eqb_spec p2 0); [lia|]. cbn [negb].
    unfold Rfs.upd_vinode. rewrite bind_modify. unfold ret. f_equal. unfold s4. f_equal. cbn [Rfs.vinodes Rfs.set_dentries Rfs.set_pages].
    rewrite Es3. cbn [Rfs.vinodes Rfs.set_vinodes Rfs.set_iobuffer Rfs.set_pages]. by rewrite alter_insert_eq, insert_insert_eq. }
  exists s6. split_and!; try done.
  - unfold Rfs.rfs_get_superblock, Rfs.rfs_r1block. change RFS_BLK_OFFSET_SUPER with 0. mstep (ramdisk_read_eq s 0 Hd Hv0). fold s1.
    mstep Hfr. mstep Ha1. cbv zeta. rewrite bind_gets, bind_modify.
    change (bytes_int (drop 8 bs)) with 100. change (bytes_int bs =? RFS_MAGIC) with true. cbn [negb].
    change (Rfs.set_super 100 _ _) with s2. rewrite Heq3. mstep Hdent.
    change RFS_BLK_OFFSET_BITMAP with 11. mstep (ramdisk_read_eq s4 11 Hd4 Hv11). rewrite Hb11. fold s5. mstep Ha6.
    rewrite bind_gets, bind_modify. change (Rfs.iobuffer (Rfs.set_pages a6 s5)) with (block s 11). rewrite Hbm.
    change (Z.to_nat (RFS_BLKSIZE / 4)) with 1024%nat. rewrite bitmap_ints. done.
  - destruct (fresh_map (Rfs.set_pages a6 s5) _ eq_refl) as (M1 & M2 & M3). fold s6 in M1, M2, M3.
    assert (Rfs.vinode_dinode v = mk_dinode 0 R_DIR 1 1 (12 :: r)) as Hvd by (by rewrite V3, <- Hroot).
    split; [done| |done|].
    + exists v'. split; [unfold s6, s5, s4; cbn [Rfs.vinodes Rfs.set_super Rfs.set_pages Rfs.set_iobuffer Rfs.set_vinodes]; by rewrite lookup_insert_eq|].
      destruct v as [vi vr vsz vt vn vb va vf vs]. unfold Rfs.vinode_dinode in Hvd. simpl in Hvd. injection Hvd as -> -> -> -> ->.
      simpl in V1, V2. subst vi vr. split_and!; try done.
      * split; try done. split; [|split; [done|]].
        -- destruct Hd4 as (? & ? & ?). split_and!; try done.
        -- split; try done; try (simpl; lia).
           ++ unfold v', file_blocks. simpl. constructor; [|constructor]. by apply M3.
           ++ unfold v', file_blocks. simpl. apply NoDup_singleton.
      * etransitivity; [|exact Hroot]. unfold dinode_at, block. unfold s6, s5. cbn [Rfs.disk Rfs.set_super Rfs.set_pages Rfs.set_iobuffer]. by rewrite Hds4.
    + intros n Hn Hne. unfold is_free. replace (dinode_at s6 n) with (dinode_at s n); [by apply Hfree|].
      unfold dinode_at, block. unfold s6, s5. cbn [Rfs.disk Rfs.set_super Rfs.set_pages Rfs.set_iobuffer]. by rewrite Hds4.
  - unfold s6, s5, s4. cbn [Rfs.dentries Rfs.set_super Rfs.set_pages Rfs.set_iobuffer Rfs.set_vinodes Rfs.set_dentries]. by rewrite Es3.
  - intros q. etransitivity; [exact (Pg6 q)|]. etransitivity; [exact (Pg4 q)|]. rewrite Es3. etransitivity; [exact (Pg3 q)|]. exact (Pg1 q).
  - intros q Hq. unfold s6, s5, s4. cbn [Rfs.vinodes Rfs.set_super Rfs.set_pages Rfs.set_iobuffer Rfs.set_vinodes].
    rewrite lookup_insert_ne by done. rewrite Es3. cbn. by rewrite lookup_insert_ne.
  - unfold s6, s5, s4. cbn [Rfs.vinodes Rfs.set_super Rfs.set_pages Rfs.set_iobuffer Rfs.set_vinodes]. rewrite lookup_insert_eq. cbn. by rewrite V4.
Qed.
End mount.
