(* ===== verification/RfsSpec.v ===== *)
(** * RFS: what the file system promises

    The theorems about [kernel/rfs.c] as a client of the file system sees them:
    disk inodes and file contents can be read back, directories behave as
    lists of entries, blocks and inodes are handed out once, and the mounted
    image of a formatted disk is an empty root directory. *)

From stdpp Require Import base gmap list numbers strings.
From Stdlib Require Import ZArith Lia.
From S2P Require Import Prelude Pmm Bytes Rfs RfsDisk RfsFile RfsWrite RfsDir RfsUnlink RfsCreate RfsLink RfsMount.
Local Open Scope Z_scope.

Section spec.
Context {A : Type} `{PA : PageAllocator A}.
Implicit Types s : Rfs.state A.

(** The directory [d] behind [dp] has the entries [es], room for one more, and
    [name] fits into an entry. *)
Record can_add s (dp : Z) (d : vinode) (es : list (list Z * Z)) (name : list Z) : Prop := {
  ca_dir : dir_rep s d es;
  ca_vinode : Rfs.vinodes s !! dp = Some d;
  ca_inum : valid_inode (inum d);
  ca_room : (length es < 128)%nat;
  ca_name : no_nul name /\ (length name <= 27)%nat;
  ca_dinode : dinode_ok (Rfs.vinode_dinode (set_size (size d + 32) d));
}.

(** The first free disk inode is [n], and there is a free block. *)
Record can_create s (d : vinode) (n : Z) : Prop := {
  cc_inode : valid_inode n /\ is_free s n;
  cc_first : forall k, 0 <= k < n -> ~ is_free s k;
  cc_ne : n <> inum d;
  cc_block : (0 < free_count s)%nat;
}.

Lemma content_length s v : readable s v -> Z.of_nat (length (content s v)) = size v.
Proof.
  intros (Hd & Hm & Hf). unfold content. rewrite length_take, (data_length s v Hd Hm Hf).
  destruct Hf as [_ _ F3 _ _]. lia.
Qed.

Lemma before_nul_id l : no_nul l -> before_nul l = l.
Proof. induction 1 as [|c l Hc _ IH]; [done|]. simpl. destruct (Z.eqb_spec c 0); [done|]. by rewrite IH. Qed.

(** ** Disk inodes and blocks *)

(** A disk inode written with [rfs_write_dinode] is what [rfs_read_dinode]
    of the same number returns afterwards; every other disk inode and every
    block outside the inode area is unchanged. *)
Theorem rfs_dinode_roundtrip s d n p F :
  disk_ok s -> valid_inode n -> dinode_ok d -> pa_rep (Rfs.pages s) (p :: F) ->
  exists s1 s2, Rfs.rfs_write_dinode d n s = Ret 0 s1 /\ Rfs.rfs_read_dinode n s1 = Ret (p, d) s2 /\
    (forall m, valid_inode m -> m <> n -> dinode_at s2 m = dinode_at s m) /\
    (forall b, valid_block b -> (b < 1 \/ 11 <= b) -> block s2 b = block s b).
Proof.
  intros Hd Hn Hok Hrep. destruct (write_dinode_spec s d n Hd Hn Hok) as (r & s1 & Heq & -> & Hd1 & Hsame & D1 & D2 & D3).
  destruct Hsame as (_ & _ & _ & _ & _ & _ & E7). rewrite <- E7 in Hrep.
  destruct (read_dinode_spec s1 n p F Hd1 Hn Hrep) as (a & b & Heq2 & _). rewrite D1 in Heq2.
  exists s1, (Rfs.set_pages a (Rfs.set_iobuffer b s1)). split_and!; done.
Qed.

(** [rfs_alloc_block] returns a block of the data area that was free, marks
    it and only it, and stops the kernel exactly when no block is free;
    [rfs_free_block] of that block makes the free map what it was. *)
Theorem rfs_alloc_block_fresh s :
  map_ok s ->
  if decide (free_count s = 0%nat) then Rfs.rfs_alloc_block s = Panic "rfs_alloc_block: no more free block!"
  else exists b s1 s2, Rfs.rfs_alloc_block s = Ret b s1 /\ data_block s b /\ ~ used s b /\
    (forall b', used s1 b' <-> used s b' \/ b' = b) /\ free_count s1 = pred (free_count s) /\
    Rfs.rfs_free_block b s1 = Ret 0 s2 /\ (forall b', used s2 b' <-> used s b').
Proof.
  intros Hm. destruct (decide (free_count s = 0%nat)) as [E|E]; [by apply alloc_block_full|].
  destruct (alloc_block_spec s Hm ltac:(lia)) as (b & s1 & Heq & Es1 & Hdb & Hnu & Hm1 & Hc & Hu).
  destruct (free_block_spec s1 b Hm1) as (s2 & Heq2 & _ & _ & Hu2); [by rewrite Es1|].
  exists b, s1, s2. split_and!; try done. intros b'. rewrite Hu2, Hu. destruct (decide (b' = b)) as [->|]; tauto.
Qed.

(** ** Files *)

(** [rfs_read] returns the number of bytes there are, at most [len], and
    stores the bytes of the file from the offset on, up to the first NUL byte
    (the copy to the caller is a [strcpy]); the file system is unchanged and
    the offset advances. *)
Theorem rfs_read_content s f v len offset :
  readable s v -> Rfs.vinodes s !! f = Some v -> 0 <= len -> 0 <= offset <= size v -> offset < blocks v * 4096 ->
  let n := Z.min len (size v - offset) in
  returns (Rfs.rfs_read f len offset) s (fun r s' =>
    r = (n, before_nul (take (Z.to_nat n) (drop (Z.to_nat offset) (content s v))) ++ [0], offset + n) /\
    exists b, s' = Rfs.set_iobuffer b s).
Proof.
  intros Hr Hv Hlen Hoff Hb n. destruct (rfs_read_spec s f v len offset Hr Hv Hlen Hoff Hb) as (b & _ & Heq).
  apply (returns_of_eq _ _ _ _ _ Heq). split; [done|by exists b].
Qed.

(** C13: [rfs_write] of [len] bytes at an offset inside the file, when it reaches
    the end of the file and the blocks suffice: the content is the old one up to
    the offset followed by the bytes written, blocks are appended as needed, and
    no block of another file changes or becomes part of this one. *)
Theorem rfs_write_content s f v w_buf len offset :
  readable s v -> Rfs.vinodes s !! f = Some v -> 0 <= offset <= size v -> 0 <= len <= Z.of_nat (length w_buf) ->
  size v <= offset + len ->
  (offset + len + 4095) / 4096 <= 10 -> (offset + len + 4095) / 4096 <= Z.of_nat (free_count s) + blocks v ->
  returns (Rfs.rfs_write f w_buf len offset) s (fun r s' => r = (len, offset + len) /\
    exists v', Rfs.vinodes s' = <[f := v']> (Rfs.vinodes s) /\ readable s' v' /\ size v' = offset + len /\
      content s' v' = take (Z.to_nat offset) (content s v) ++ take (Z.to_nat len) w_buf /\
      (forall b, used s b -> b ∉ file_blocks v -> block s' b = block s b /\ used s' b /\ (b ∉ file_blocks v'))).
Proof.
  intros Hr Hv Hoff Hlen Hsz Hn1 Hn2.
  destruct (rfs_write_spec s f v w_buf len offset Hr Hv Hoff Hlen Hsz Hn1 Hn2) as (s' & v' & Heq & Hs & Hc & [W1 W2 _ _ W5]).
  apply (returns_of_eq _ _ _ _ _ Heq). split; [done|]. by exists v'.
Qed.

(** C18: What [rfs_write] appends, [rfs_read] at the same offset gives back: all the
    bytes when none of them is NUL, and otherwise, since the copy to the caller
    is a [strcpy], those before the first NUL, while the length returned counts
    them all. *)
Theorem rfs_write_read_roundtrip s f v w_buf len offset :
  readable s v -> Rfs.vinodes s !! f = Some v -> 0 <= offset <= size v -> 0 < len <= Z.of_nat (length w_buf) ->
  size v <= offset + len ->
  (offset + len + 4095) / 4096 <= 10 -> (offset + len + 4095) / 4096 <= Z.of_nat (free_count s) + blocks v ->
  exists s1 s2 bs, Rfs.rfs_write f w_buf len offset s = Ret (len, offset + len) s1 /\
    Rfs.rfs_read f len offset s1 = Ret (len, bs ++ [0], offset + len) s2 /\
    bs = before_nul (take (Z.to_nat len) w_buf) /\
    (no_nul (take (Z.to_nat len) w_buf) -> bs = take (Z.to_nat len) w_buf).
Proof.
  intros Hr Hv Hoff Hlen Hsz Hn1 Hn2.
  destruct (rfs_write_spec s f v w_buf len offset Hr Hv Hoff ltac:(lia) Hsz Hn1 Hn2) as (s1 & v1 & Heq & Hs & Hc & [W1 W2 _ _ _]).
  pose proof W1 as (_ & _ & [_ _ F3 _ _]). pose proof Hr as (Hd & Hm & Hf).
  destruct (rfs_read_spec s1 f v1 len offset W1) as (b & _ & Heq2); [by rewrite W2, lookup_insert_eq|lia..|].
  exists s1, (Rfs.set_iobuffer b s1), (before_nul (take (Z.to_nat len) w_buf)).
  split; [done|]. split; [|split; [done|apply before_nul_id]]. rewrite Heq2, Hc, Hs.
  replace (Z.min len (offset + len - offset)) with len by lia. do 3 f_equal.
  pose proof (content_length s v Hr).
  rewrite drop_app_length' by (rewrite length_take; lia). by rewrite take_take, Nat.min_id.
Qed.

(** C40: A write of less than a block at a block boundary, when the file goes on
    after the bytes written, does not read the block first: the bytes of the
    file from there to the end of the block (or of the file) are replaced by
    whatever the buffer of the device held; the other blocks and the size stay. *)
Theorem rfs_write_loses_tail s f v w_buf len k :
  readable s v -> Rfs.vinodes s !! f = Some v -> 0 <= k ->
  0 < len < 4096 -> len <= Z.of_nat (length w_buf) -> k * 4096 + len < size v ->
  returns (Rfs.rfs_write f w_buf len (k * 4096)) s (fun r s' => r = (len, k * 4096 + len) /\ Rfs.vinodes s' !! f = Some v /\
    content s' v = take (Z.to_nat (k * 4096)) (content s v) ++ take (Z.to_nat len) w_buf ++
      take (Z.to_nat (size v - k * 4096 - len)) (drop (Z.to_nat len) (Rfs.iobuffer s)) ++
      drop (Z.to_nat (k * 4096 + 4096)) (content s v)).
Proof.
  intros Hr Hv Hk Hlen Hbuf Hsz. pose proof Hr as (Hd & Hm & Hf). pose proof Hf as [F1 F2 F3 F4 F5].
  destruct (overwrite_block s f v w_buf k len Hr Hv) as (a & s2 & Hwb & Es2 & Hdata); [lia|lia|lia|].
  assert (alter (fun x => set_size (if size x <? k * 4096 + len then k * 4096 + len else size x) x) f (Rfs.vinodes s)
          = Rfs.vinodes s) as Halt.
  { apply map_eq. intros q. destruct (decide (q = f)) as [->|Hq].
    - rewrite lookup_alter_eq, Hv. simpl. destruct (Z.ltb_spec (size v) (k * 4096 + len)); [lia|]. by destruct v.
    - by rewrite lookup_alter_ne. }
  eapply (returns_of_eq _ _ (len, k * 4096 + len) s2).
  - unfold Rfs.rfs_write. mstep (vinode_eq s f v Hv). destruct (Z.ltb_spec (size v) (k * 4096)); [lia|]. cbv zeta.
    change RFS_BLKSIZE with 4096. rewrite Z.rem_mul, Z.quot_mul, Z.add_0_r, Z.quot_small, Z.rem_small by lia.
    unfold Rfs.write_first. cbn [Z.eqb negb]. rewrite bind_ret_l.
    cbn [Z.leb Z.compare]. change (Z.to_nat 0) with 0%nat. cbn [Rfs.write_blocks].
    rewrite (bind_Ret _ _ s tt s2).
    2: { rewrite bind_ret_l. by destruct (Z.ltb_spec 0 len); [|lia]. }
    unfold Rfs.upd_vinode. rewrite bind_modify. unfold ret. f_equal. rewrite Es2.
    change (Rfs.vinodes (Rfs.set_disk _ _)) with (Rfs.vinodes s). rewrite Halt. by destruct s.
  - split; [done|]. split; [by rewrite Es2|]. pose proof (data_length s v Hd Hm Hf) as Hdl.
    assert (length (Rfs.iobuffer s) = 4096%nat) as Hil by apply Hd.
    unfold content. rewrite Hdata. rewrite take_take, Nat.min_l by lia.
    rewrite skipn_firstn_comm. rewrite take_app_ge by (rewrite length_take; lia). f_equal.
    rewrite length_take, Nat.min_l by lia. rewrite <- !app_assoc.
    rewrite take_app_ge by (rewrite length_take; lia). f_equal. rewrite length_take, Nat.min_l by lia.
    rewrite take_app, length_drop, Hil. f_equal; f_equal; lia.
Qed.

(** [rfs_lseek] accepts exactly the offsets from 0 to the size of the file,
    absolute or relative, and leaves the offset alone when it fails. *)
Theorem rfs_lseek_bounds s f v new_offset whence offset :
  Rfs.vinodes s !! f = Some v ->
  let target := if whence =? LSEEK_SET then Some new_offset
                else if whence =? LSEEK_CUR then Some (offset + new_offset) else None in
  Rfs.rfs_lseek f new_offset whence offset s =
    match target with
    | Some t => if decide (0 <= t <= size v) then Ret (0, t) s else Ret (-1, offset) s
    | None => Ret (-1, offset) s
    end.
Proof.
  intros Hv. unfold Rfs.rfs_lseek. mstep (vinode_eq s f v Hv). cbv zeta.
  destruct (whence =? LSEEK_SET).
  - destruct (Z.ltb_spec new_offset 0), (Z.ltb_spec (size v) new_offset), (decide (0 <= new_offset <= size v));
      simpl; try done; lia.
  - destruct (whence =? LSEEK_CUR); [|done].
    destruct (Z.ltb_spec (offset + new_offset) 0), (Z.ltb_spec (size v) (offset + new_offset)),
      (decide (0 <= offset + new_offset <= size v)); simpl; try done; lia.
Qed.

(** ** Directories *)

(** [rfs_lookup] finds the first entry with the name and returns a new
    vinode that holds its disk inode; without such an entry it returns NULL.
    The disk is not changed. *)
Theorem rfs_lookup_correct garbage s dp d es name p p2 F :
  dir_rep s d es -> Rfs.vinodes s !! dp = Some d -> no_nul name -> pa_rep (Rfs.pages s) (p :: p2 :: F) ->
  (forall i e, es !! i = Some e -> valid_inode e.2) ->
  exists s', (Rfs.disk s' = Rfs.disk s /\ Rfs.freemap s' = Rfs.freemap s /\ Rfs.nblocks s' = Rfs.nblocks s /\ disk_ok s') /\
    match find_entry name es with
    | None => Rfs.rfs_lookup garbage dp name s = Ret 0 s' /\ Rfs.vinodes s' = Rfs.vinodes s
    | Some i => exists v, Rfs.rfs_lookup garbage dp name s = Ret p s' /\
        Rfs.vinodes s' = <[p := v]> (Rfs.vinodes s) /\ pa_rep (Rfs.pages s') (p2 :: F) /\
        (exists ino, es !! i = Some (name, ino) /\ vinode_of s ino v)
    end.
Proof. apply lookup_spec. Qed.

(** [rfs_create] takes the first free disk inode, gives it one free block,
    appends an entry for it to the directory and returns an empty file; the
    other disk inodes and the blocks of the other files are unchanged. *)
Theorem rfs_create_correct garbage s dp d es name n p p2 F :
  can_add s dp d es name -> can_create s d n -> pa_rep (Rfs.pages s) (p :: p2 :: F) -> dp <> p ->
  exists s', Rfs.rfs_create garbage dp name s = Ret p s' /\ pa_rep (Rfs.pages s') (p2 :: F) /\
    created s dp d es name n p s'.
Proof. intros [A1 A2 A3 A4 [A5 A6] A7] [[C1 C2] C3 C4 C5] Hrep Hne. by apply create_spec. Qed.

(** [rfs_mkdir] does the same for an empty sub-directory. *)
Theorem rfs_mkdir_correct garbage s dp d es name n p p2 F :
  can_add s dp d es name -> can_create s d n -> pa_rep (Rfs.pages s) (p :: p2 :: F) -> dp <> p ->
  exists s', Rfs.rfs_mkdir garbage dp name s = Ret p s' /\ pa_rep (Rfs.pages s') (p2 :: F) /\
    made_dir s dp d es name n p s'.
Proof. intros [A1 A2 A3 A4 [A5 A6] A7] [[C1 C2] C3 C4 C5] Hrep Hne. by apply mkdir_spec. Qed.

(** C39: When all disk inodes are taken, the search of [rfs_create] and [rfs_mkdir]
    ends with a pointer that is not NULL, to the page it allocated for every
    inode and has given back: the panic meant for that case is not reached, and
    the page on the free list is used. *)
Theorem rfs_create_no_inode garbage s dp d name p F :
  Rfs.vinodes s !! dp = Some d -> disk_ok s -> pa_rep (Rfs.pages s) (p :: F) -> (forall n, valid_inode n -> ~ is_free s n) ->
  (exists s', Rfs.find_free_dinode (Z.to_nat Rfs.MAX_INODES) 0 0 s = Ret (p, None) s' /\ p <> 0 /\
     pa_rep (Rfs.pages s') (p :: F)) /\
  Rfs.rfs_create garbage dp name s = Fault "use of free_dinode after free_page" /\
  Rfs.rfs_mkdir garbage dp name s = Fault "use of free_dinode after free_page".
Proof.
  intros Hv Hd Hrep Hall. split.
  { destruct (find_free_dinode_none s p F Hd Hrep Hall) as (s' & ? & ? & _ & ?). by exists s'. }
  unfold Rfs.rfs_create, Rfs.rfs_mkdir.
  split; mstep (vinode_eq s dp d Hv); unfold bind at 1; by rewrite (new_dinode_none s _ _ p F Hd Hrep Hall).
Qed.

(** C24: [rfs_unlink] removes the entry with the name and keeps the others in
    order, decrements the link count of the file on the disk, and with the last
    link frees the disk inode and exactly the blocks of the file. *)
Theorem rfs_unlink_correct s dp d es i name ino up u p F :
  dir_rep s d es -> no_nul name -> find_entry name es = Some i -> es !! i = Some (name, ino) ->
  pa_rep (Rfs.pages s) (p :: F) -> can_unlink s dp d ino up u ->
  exists s', Rfs.rfs_unlink dp name up s = Ret 0 s' /\ pa_rep (Rfs.pages s') (p :: F) /\
    unlink_post s dp d es i ino up u s'.
Proof. apply unlink_spec. Qed.

Lemma dinode_ok_size v x : dinode_ok (Rfs.vinode_dinode v) -> int_ok x -> dinode_ok (Rfs.vinode_dinode (set_size x v)).
Proof.
  intros [H1 H2] Hx. split; [|done]. apply Forall_cons in H1 as [_ H1]. by apply Forall_cons.
Qed.

Lemma find_entry_last name n es : name ∉ es.*1 -> find_entry name (es ++ [(name, n)]) = Some (length es).
Proof.
  induction es as [|e es IH]; intros Hn.
  - cbn [app]. rewrite find_entry_cons. by rewrite decide_True.
  - cbn [app]. rewrite find_entry_cons, decide_False; [|intros <-; apply Hn; by left].
    rewrite IH; [done|]. intros H. apply Hn. by right.
Qed.

(** ** Hard links *)
(** What a file must satisfy to be linked: its vinode, its blocks and its disk
    inode. *)
Record linkable s (dp : Z) (d : vinode) (lp : Z) (l : vinode) : Prop := {
  lk_vinode : Rfs.vinodes s !! lp = Some l /\ lp <> dp;
  lk_inum : valid_inode (inum l) /\ inum l <> inum d;
  lk_readable : readable s l /\ Forall (fun b => b ∉ file_blocks d) (file_blocks l);
  lk_nlinks : 1 <= nlinks l;
  lk_dinode : dinode_ok (Rfs.vinode_dinode l) /\ dinode_ok (Rfs.vinode_dinode (set_nlinks (nlinks l + 1) l));
}.

Lemma unlinked_link l : nlinks l <> 0 -> unlinked (Rfs.vinode_dinode (set_nlinks (nlinks l + 1) l)) = Rfs.vinode_dinode l /\
  released (Rfs.vinode_dinode (set_nlinks (nlinks l + 1) l)) = [].
Proof.
  intros Hn. unfold unlinked, released, Rfs.vinode_dinode. cbn [d_size d_type d_nlinks d_blocks d_addrs set_nlinks size type nlinks blocks addrs].
  replace (nlinks l + 1 - 1) with (nlinks l) by lia. by destruct (Z.eqb_spec (nlinks l) 0).
Qed.

Lemma resize_back d : set_size (size (set_size (size d + 32) d) - 32) (set_size (size d + 32) d) = d.
Proof. destruct d. unfold set_size. cbn. f_equal. lia. Qed.

(** The linked file can be unlinked under its old name. *)
Lemma linked_can_unlink s dp d es name' lp l s1 : can_add s dp d es name' -> linkable s dp d lp l -> linked s dp d es name' lp l s1 ->
  can_unlink s1 dp (set_size (size d + 32) d) (inum l) lp (set_nlinks (nlinks l + 1) l).
Proof.
  intros [[_ _ _ Hsz _] _ A3 A4 _ A6] [[L1 L1'] [L2 L2'] [(_ & _ & [_ F2 _ _ _]) _] L4 [L5 _]] [N1 N2 _ N4 _ _ _].
  destruct (unlinked_link l) as [Hu Hr]; [lia|]. split; rewrite ?N2, ?N4, ?Hu, ?Hr; try done.
  - by rewrite lookup_insert_eq.
  - by rewrite lookup_insert_ne, lookup_insert_eq by done.
  - split; [done|]. cbn. lia.
  - apply (dinode_ok_size (set_size (size d + 32) d)); [done|]. cbn [size set_size] in *. unfold int_ok. lia.
Qed.

(** The file as a lookup finds it after the unlinking. *)
Lemma content_kept s s' l v : readable s l -> file_blocks v = file_blocks l -> size v = size l ->
  (forall b, b ∈ file_blocks l -> block s' b = block s b) -> content s' v = content s l.
Proof.
  intros Hr Hf Hs Hb. unfold content, data. rewrite Hf, Hs. do 2 f_equal. apply map_ext_in. intros b Hin. apply Hb. by apply list_elem_of_In.
Qed.

Lemma delete_app_lt (es1 es2 : list (list Z * Z)) i : (i < length es1)%nat -> delete i (es1 ++ es2) = delete i es1 ++ es2.
Proof. revert i. induction es1 as [|e es1 IH]; intros [|i] Hi; cbn in *; try lia; [done|]. f_equal. apply IH. lia. Qed.

Lemma elem_of_delete (es : list (list Z * Z)) i x : x ∈ delete i es -> x ∈ es.
Proof. intros Hx. eapply elem_of_submseteq; [exact Hx|]. apply sublist_submseteq, sublist_delete. Qed.

Lemma find_entry_app name es x i : find_entry name es = Some i -> find_entry name (es ++ [x]) = Some i.
Proof.
  unfold find_entry. intros E. destruct (list_find _ es) as [[j e]|] eqn:Hf; [|done]. by rewrite (list_find_app_l _ _ _ _ _ Hf).
Qed.

(** C12: a hard link survives the unlinking of the old name: [rfs_link] makes a
    second entry and a lookup of it finds the same inode with one more link;
    [rfs_unlink] of the first name removes that entry and gives no block back;
    and the file found under the second name afterwards has its old link count,
    and [rfs_read] delivers from it the bytes the file had at the start. *)
Theorem rfs_hard_link garbage s dp d es i name name' lp l p p2 F :
  can_add s dp d es name' -> linkable s dp d lp l -> no_nul name -> find_entry name es = Some i -> es !! i = Some (name, inum l) ->
  name' ∉ es.*1 -> (forall i e, es !! i = Some e -> valid_inode e.2) -> pa_rep (Rfs.pages s) (p :: p2 :: F) -> dp <> p -> lp <> p ->
  exists s1 s2 s3 s4 v1 v2,
    Rfs.rfs_link dp name' lp s = Ret 0 s1 /\
    (Rfs.rfs_lookup garbage dp name' s1 = Ret p s2 /\ Rfs.vinodes s2 !! p = Some v1 /\ inum v1 = inum l /\ nlinks v1 = nlinks l + 1) /\
    Rfs.rfs_unlink dp name lp s1 = Ret 0 s3 /\
    (dir_rep s3 d (delete i es ++ [(name', inum l)]) /\ forall b, used s3 b <-> used s b) /\
    (Rfs.rfs_lookup garbage dp name' s3 = Ret p s4 /\ Rfs.vinodes s4 !! p = Some v2 /\ inum v2 = inum l /\ nlinks v2 = nlinks l) /\
    (forall len offset, 0 <= len -> 0 <= offset <= size l -> offset < blocks l * 4096 ->
       let n := Z.min len (size l - offset) in exists s5,
       Rfs.rfs_read p len offset s4 = Ret (n, before_nul (take (Z.to_nat n) (drop (Z.to_nat offset) (content s l))) ++ [0], offset + n) s5).
Proof.
  intros Ha Hk Hnn Hfi Hi Hnew Hval Hrep Hdp Hlp. pose proof Ha as [A1 A2 A3 A4 [A5 A6] A7].
  pose proof Hk as [[L1 L1'] [L2 L2'] [Lr Lb] L4 [L5 L5']].
  destruct (link_spec s dp d es name' lp l) as (s1 & E1 & Hp1 & Hln); try done.
  pose proof (linked_can_unlink _ _ _ _ _ _ _ _ Ha Hk Hln) as Hcan. pose proof Hln as [N1 N2 N3 N4 N5 N6 N7].
  destruct (unlinked_link l) as [Hu Hrel]; [lia|].
  assert (forall (es' : list (list Z * Z)) j e, (forall x, x ∈ es' -> x ∈ es ++ [(name', inum l)]) -> es' !! j = Some e -> valid_inode e.2) as Hval'.
  { intros es' j e Hsub He. apply list_elem_of_lookup_2, Hsub, elem_of_app in He as [He| ->%list_elem_of_singleton]; [|done].
    apply list_elem_of_lookup in He as [k Hk']. by apply (Hval k). }
  rewrite <- Hp1 in Hrep.
  destruct (lookup_spec garbage s1 dp _ _ name' p p2 F N1 (cu_parent _ _ _ _ _ _ Hcan) A5 Hrep) as (s2 & _ & Hlk); [by intros j e; apply Hval'|].
  rewrite find_entry_last in Hlk by done. destruct Hlk as (v1 & E2 & V1 & _ & n1 & Hn1 & Hv1).
  rewrite lookup_app_r, Nat.sub_diag in Hn1 by lia. injection Hn1 as <-.
  pose proof (lookup_lt_Some _ _ _ Hi) as Hlt.
  destruct (unlink_spec s1 dp _ _ i name (inum l) lp (set_nlinks (nlinks l + 1) l) p (p2 :: F) N1 Hnn (find_entry_app _ _ _ _ Hfi)
    ltac:(by rewrite lookup_app_l) Hrep Hcan) as (s3 & E3 & Hrep3 & [P1 P2 P3 P4 P5 P6 P7]).
  rewrite N4, Hu in P4. rewrite N4, Hrel in P6. rewrite resize_back in P1, P2. rewrite delete_app_lt in P1 by done.
  destruct (lookup_spec garbage s3 dp d _ name' p p2 F P1 ltac:(by rewrite P2, lookup_insert_eq) A5 Hrep3) as (s4 & (Q1 & Q2 & Q3 & Q4) & Hlk).
  { intros j e. apply Hval'. intros x [Hx|Hx]%elem_of_app; apply elem_of_app; [left; by eapply elem_of_delete|by right]. }
  rewrite find_entry_last in Hlk by (intros ([nm k] & -> & Hx)%list_elem_of_fmap; apply Hnew, list_elem_of_fmap; exists (nm, k); split; [done|by eapply elem_of_delete]).
  destruct Hlk as (v2 & E4 & V2 & _ & n2 & Hn2 & Hv2). rewrite lookup_app_r, Nat.sub_diag in Hn2 by lia. injection Hn2 as <-.
  destruct (vinode_of_fields _ _ _ _ Hv1 N4) as (_ & _ & _ & K1 & _).
  destruct (vinode_of_fields _ _ _ _ Hv2 P4) as (I2 & S2 & _ & K2 & B2 & D2). cbn in S2, K2, B2, D2.
  assert (forall b, used s3 b <-> used s b) as Hused by (intros b; rewrite P6, <- N7; set_solver).
  assert (file_blocks v2 = file_blocks l) as Hfb by (unfold file_blocks; by rewrite B2, D2).
  pose proof Lr as (Hd & Hm & [F1 F2 F3 F4 F5]).
  assert (forall b, b ∈ file_blocks l -> block s4 b = block s b) as Hb.
  { intros b Hb. rewrite Forall_forall in Lb, F4. pose proof (F4 b Hb) as [Hdb Hub]. pose proof (data_block_valid s b Hm Hdb) as Hvb.
    assert (12 <= b) as Hb12 by exact (proj1 Hdb). unfold block. rewrite Q1. fold (block s3 b). rewrite P7, N6; [done|done|done|by apply Lb|done|done|by apply Lb]. }
  assert (readable s4 v2) as Hr2.
  { split; [done|]. destruct P1 as [(_ & Hm3 & _) _ _ _ _]. split; [unfold map_ok in *; by rewrite Q2, Q3|].
    split; rewrite ?D2, ?B2, ?S2, ?Hfb; try done. eapply Forall_impl; [exact F4|]. intros b Hub. apply Hused in Hub.
    unfold used, data_block, map_at in *. by rewrite Q2, Q3. }
  exists s1, s2, s3, s4, v1, v2. split; [done|]. split; [|split; [done|split; [by split|split]]].
  - split_and!; [done|by rewrite V1, lookup_insert_eq|apply Hv1|done].
  - split_and!; [done|by rewrite V2, lookup_insert_eq|done|done].
  - intros len offset Hlen Hoff Hoff2 n. destruct (rfs_read_spec s4 p v2 len offset Hr2) as (b & _ & E5);
      [by rewrite V2, lookup_insert_eq|done|by rewrite S2|by rewrite B2|].
    rewrite (content_kept s s4 l v2 Lr Hfb S2 Hb), S2 in E5. eexists. exact E5.
Qed.

(** A file just created can be unlinked. *)
Lemma created_can_unlink s dp d es name n p s' :
  can_add s dp d es name -> can_create s d n -> dp <> p -> created s dp d es name n p s' ->
  exists v b, Rfs.vinodes s' !! p = Some v /\ file_blocks v = [b] /\ released (dinode_at s' n) = [b] /\
    ~ used s b /\ (forall b', used s' b' <-> used s b' \/ b' = b) /\
    can_unlink s' dp (set_size (size d + 32) d) n p v.
Proof.
  intros [A1 A2 A3 A4 [A5 A6] A7] [[C1 C2] C3 C4 C5] Hne [(v & b & V1 & V2 & V3 & V4 & V5 & V6 & V7 & V8 & V9 & V10 & _) D1 D2 D3].
  assert (released (dinode_at s' n) = [b]) as Hrel.
  { rewrite V10. unfold released. cbn [d_nlinks Rfs.vinode_dinode]. rewrite V6. exact V7. }
  exists v, b. split_and!; try done.
  { by rewrite V1, lookup_insert_ne, lookup_insert_eq. }
  pose proof A1 as [(Hd & Hm & [G1 G2 G3 G4 G5]) _ _ Hsz _]. pose proof V2 as (_ & _ & [F1 F2 F3 _ _]).
  split; try done.
  - by rewrite V1, lookup_insert_eq.
  - by rewrite V1, lookup_insert_ne, lookup_insert_eq.
  - by rewrite V10.
  - rewrite V10. split; [|cbn [d_blocks Rfs.vinode_dinode]; lia].
    destruct (dinode_at_ok s' n) as [H1 H2]. rewrite V10 in H1, H2. unfold dinode_ints in H1.
    cbn [d_size d_type d_nlinks d_blocks d_addrs Rfs.vinode_dinode] in H1, H2.
    do 4 (apply Forall_cons in H1 as [? H1]). split; [|done].
    unfold unlinked, dinode_ints. cbn [d_size d_type d_nlinks d_blocks d_addrs Rfs.vinode_dinode]. rewrite V6.
    repeat (apply Forall_cons; split); done.
  - rewrite Hrel. split; apply Forall_singleton.
    + apply V9. by right.
    + change (file_blocks (set_size _ d)) with (file_blocks d). intros Hb. apply V8. rewrite Forall_forall in G4. by apply G4.
  - apply (dinode_ok_size (set_size (size d + 32) d)); [done|]. cbn [size set_size]. unfold int_ok. lia.
Qed.

(** C15: The life of a file: after [rfs_create] a lookup of the name finds the new
    inode, and after [rfs_unlink] of it the directory has its old entries, the
    disk inode is free again and the blocks in use are those before the
    creation. *)
Theorem rfs_create_lookup_unlink garbage s dp d es name n p p2 p3 F :
  can_add s dp d es name -> can_create s d n -> pa_rep (Rfs.pages s) (p :: p2 :: p3 :: F) -> dp <> p ->
  name ∉ es.*1 -> (forall i e, es !! i = Some e -> valid_inode e.2) ->
  exists s1 s2 s3 v, Rfs.rfs_create garbage dp name s = Ret p s1 /\
    (Rfs.rfs_lookup garbage dp name s1 = Ret p2 s2 /\ Rfs.vinodes s2 !! p2 = Some v /\ inum v = n) /\
    Rfs.rfs_unlink dp name p s1 = Ret 0 s3 /\ dir_rep s3 d es /\ is_free s3 n /\
    (forall b, used s3 b <-> used s b).
Proof.
  intros Ha Hc Hrep Hne Hnm Hval. pose proof Ha as [A1 A2 A3 A4 [A5 A6] A7]. pose proof Hc as [[C1 C2] C3 C4 C5].
  destruct (create_spec garbage s dp d es name n p p2 (p3 :: F)) as (s1 & Heq1 & Hrep1 & Hcr); try done.
  destruct (created_can_unlink s dp d es name n p s1 Ha Hc Hne Hcr) as (v & b & Hv & Hfb & Hrel & Hnu & Hu & Hcan).
  pose proof Hcr as [_ D1 _ _]. pose proof Hcan as [U1 U2 U3 U4 U5 _ _ _].
  assert ((es ++ [(name, n)]) !! length es = Some (name, n)) as Hlast by (rewrite lookup_app_r, Nat.sub_diag by lia; done).
  destruct (lookup_spec garbage s1 dp _ _ name p2 p3 F D1 U1 A5 Hrep1) as (s2 & _ & Hlk).
  { intros i e Hi. apply lookup_app_Some in Hi as [Hi|[_ Hi]]; [by apply (Hval i)|].
    destruct (i - length es)%nat; [by injection Hi as <-|done]. }
  rewrite find_entry_last in Hlk by done. destruct Hlk as (v2 & Heq2 & Hvs2 & _ & ino & Hino & Hvo & _).
  rewrite Hlast in Hino. injection Hino as <-.
  destruct (unlink_spec s1 dp _ _ (length es) name n p v p2 (p3 :: F) D1 A5 (find_entry_last _ _ _ Hnm) Hlast Hrep1 Hcan)
    as (s3 & Heq3 & _ & [P1 _ _ P4 _ P6 _]).
  exists s1, s2, s3, v2. split; [done|]. split; [|split_and!].
  - split; [done|]. split; [by rewrite Hvs2, lookup_insert_eq|done].
  - done.
  - rewrite delete_middle, app_nil_r in P1. replace (set_size (size (set_size (size d + 32) d) - 32) (set_size (size d + 32) d))
      with d in P1; [done|].
    destruct d. unfold set_size. cbn. f_equal. lia.
  - unfold is_free. rewrite P4. unfold unlinked. cbn [d_type]. rewrite <- U5.
    destruct Hcr as [(v' & b' & V1 & _ & _ & _ & _ & V6 & _) _ _ _].
    rewrite V1, lookup_insert_ne, lookup_insert_eq in Hv by done. injection Hv as <-. by rewrite V6.
  - intros b'. rewrite P6, Hrel, Hu. rewrite list_elem_of_singleton. destruct (decide (b' = b)) as [->|]; tauto.
Qed.

(** ** Directory streams *)
Lemma opendir_eq s dp d es p1 p2 F :
  dir_rep s d es -> Rfs.vinodes s !! dp = Some d -> pa_rep (Rfs.pages s) (p1 :: p2 :: F) ->
  exists a b, Rfs.rfs_hook_opendir dp s = Ret 0 (Rfs.mk (Rfs.disk s) b (Rfs.nblocks s) (Rfs.freemap s)
      (<[dp := set_fs_info p2 d]> (Rfs.vinodes s)) (Rfs.dentries s) (<[p2 := mk_cache 1 p1]> (Rfs.caches s))
      (<[p1 := dir_block s d]> (Rfs.dir_pages s)) a) /\ pa_rep a F /\ pa_page a p1.
Proof.
  intros Hr Hv Hrep. destruct (dir_addr s d es Hr) as (a & Ea & Ha & Hva & _). pose proof Hr as [(Hd & _) Hb _ _ _].
  destruct (pa_alloc_cons _ _ _ Hrep) as (a1 & Heq1 & Hrep1 & Hpg1).
  pose proof (pa_rep_pages _ _ Hrep) as [_ Hf]. apply Forall_cons in Hf as [Hp1 _]. pose proof (pa_page_nonnull _ _ Hp1).
  set (s1 := Rfs.set_pages a1 s). set (s2 := Rfs.set_iobuffer (block s a) s1).
  set (s3 := Rfs.set_dir_pages (<[p1 := block s a]> (Rfs.dir_pages s)) s2).
  assert (Rfs.read_dir_blocks 1 d 0 s = Ret p1 s3) as Hread.
  { cbn [Rfs.read_dir_blocks]. assert (Rfs.alloc_page s = Ret p1 s1) as Hal by (unfold Rfs.alloc_page, zoom; by rewrite Heq1).
    mstep Hal. cbn [Z.eqb negb andb]. assert (Rfs.addr_at d (Z.of_nat 0) s1 = Ret a s1) as Ha1.
    { unfold Rfs.addr_at in *. change (Z.of_nat 0) with 0. cbn [Z.ltb Z.compare] in *.
      destruct (addrs d !! Z.to_nat 0); [|done]. cbn in Ha |- *. unfold ret in *. by injection Ha as ->. }
    mstep Ha1. unfold Rfs.rfs_r1block. mstep (ramdisk_read_eq s1 a Hd Hva). fold s2.
    destruct (Z.eqb_spec p1 0); [lia|]. by rewrite bind_modify. }
  destruct (alloc_object_eq s3 p2 F Hrep1) as (a2 & Heq2 & Hrep2 & _ & Hpg2).
  exists a2, (block s a). split_and!; [|done|by apply Hpg2, Hpg1].
  unfold Rfs.rfs_hook_opendir. mstep (vinode_eq s dp d Hv). rewrite Hb. change (Z.to_nat 1) with 1%nat.
  mstep Hread. mstep Heq2. rewrite bind_modify. unfold Rfs.upd_vinode. rewrite bind_modify. unfold ret, dir_block. rewrite Ea.
  f_equal. cbn. unfold Rfs.set_vinodes. cbn. f_equal. apply map_eq. intros k. destruct (decide (k = dp)) as [->|Hk].
  - by rewrite lookup_insert_eq, lookup_alter_eq, Hv.
  - by rewrite lookup_insert_ne, lookup_alter_ne by done.
Qed.

Lemma readdir_entry s dp d c pg es i e :
  Rfs.vinodes s !! dp = Some d -> Rfs.caches s !! i_fs_info d = Some c -> Rfs.dir_pages s !! dir_base_addr c = Some pg ->
  dir_base_addr c mod PGSIZE = 0 -> size d = 32 * Z.of_nat (length es) -> length pg = 4096%nat -> (length es <= 128)%nat ->
  (forall j x, es !! j = Some x -> slot_name pg j = Some x.1 /\ slot_inum pg j = x.2) ->
  es !! i = Some e -> Rfs.rfs_readdir dp (Z.of_nat i) s = Ret (0, Some e, Z.of_nat i + 1) s.
Proof.
  intros Hv Hc Hp Hal Hs Hpl Hle Hes Hi. pose proof (lookup_lt_Some _ _ _ Hi) as Hlt.
  unfold Rfs.rfs_readdir. mstep (vinode_eq s dp d Hv). unfold Rfs.total_direntrys, sizeof_direntry. rewrite Hs.
  replace (32 * Z.of_nat (length es)) with (Z.of_nat (length es) * 32) by lia. rewrite Z.quot_mul by lia.
  destruct (Z.leb_spec (Z.of_nat (length es)) (Z.of_nat i)); [lia|].
  unfold Rfs.get_cache, bind at 1. rewrite Hc. change (of_option _ (Some c) s) with (Ret c s). cbv beta iota zeta.
  change PGSIZE with 4096 in *. assert ((dir_base_addr c + Z.of_nat i * 32) mod 4096 = Z.of_nat i * 32) as Hmod by zlia.
  assert (ROUNDDOWN (dir_base_addr c + Z.of_nat i * 32) 4096 = dir_base_addr c) as -> by (unfold ROUNDDOWN; zlia).
  unfold bind at 1. rewrite Hp. change (of_option _ (Some pg) s) with (Ret pg s). cbv beta iota. rewrite Hmod.
  destruct (Hes i e Hi) as [E1 E2]. unfold slot_name in E1. apply cstring_take in E1.
  replace (Z.to_nat (Z.of_nat i * 32 + 4)) with (32 * i + 4)%nat by lia. rewrite E1.
  change (of_option _ (Some e.1)) with (ret (S := Rfs.state A) e.1). rewrite bind_ret_l, slice_eq by lia.
  change (of_option _ (Some ?x)) with (ret (S := Rfs.state A) x). rewrite bind_ret_l. unfold ret. do 4 f_equal.
  destruct e as [nm ino]. cbn [fst snd] in *. f_equal. rewrite <- E2. unfold slot_inum. do 3 f_equal. lia.
Qed.

(** C35: After [rfs_hook_opendir], [rfs_readdir] at offset [i] delivers the [i]-th
    entry of the directory and advances, and fails at the end without
    delivering one; [rfs_hook_closedir] gives the page of the directory block
    back, but not the page of the cache itself. *)
Theorem rfs_readdir_enumerates s dp d es p1 p2 F :
  dir_rep s d es -> Rfs.vinodes s !! dp = Some d -> pa_rep (Rfs.pages s) (p1 :: p2 :: F) -> p1 mod PGSIZE = 0 ->
  exists s1 s2, Rfs.rfs_hook_opendir dp s = Ret 0 s1 /\
    (forall i e, es !! i = Some e -> Rfs.rfs_readdir dp (Z.of_nat i) s1 = Ret (0, Some e, Z.of_nat i + 1) s1) /\
    (forall i, Z.of_nat (length es) <= i -> Rfs.rfs_readdir dp i s1 = Ret (-1, None, i) s1) /\
    Rfs.rfs_hook_closedir dp s1 = Ret 0 s2 /\ pa_rep (Rfs.pages s2) (p1 :: F) /\ Rfs.disk s2 = Rfs.disk s.
Proof.
  intros Hr Hv Hrep Hal. destruct (opendir_eq s dp d es p1 p2 F Hr Hv Hrep) as (a & b & Heq & Hrep1 & Hp1).
  set (s1 := Rfs.mk _ _ _ _ _ _ _ _ _) in Heq. destruct (dir_length s d es Hr) as [Hle Hbl].
  pose proof Hr as [_ _ _ Hs Hes].
  assert (Rfs.vinodes s1 !! dp = Some (set_fs_info p2 d)) as Hv1 by apply lookup_insert_eq.
  assert (Rfs.caches s1 !! p2 = Some (mk_cache 1 p1)) as Hc1 by apply lookup_insert_eq.
  assert (p1 ∉ F) as Hni.
  { pose proof (pa_rep_pages _ _ Hrep) as [Hnd _]. apply NoDup_cons in Hnd as [Hni _]. intros H. apply Hni. by right. }
  destruct (free_page_eq s1 p1 F Hrep1 Hp1 Hni) as (a' & Hfr & Hrep2 & _).
  exists s1, (Rfs.set_pages a' s1). split_and!; try done.
  - intros i e. apply (readdir_entry s1 dp (set_fs_info p2 d) (mk_cache 1 p1) (dir_block s d)); try done. apply lookup_insert_eq.
  - intros i Hi. unfold Rfs.rfs_readdir. mstep (vinode_eq s1 dp _ Hv1). unfold Rfs.total_direntrys, sizeof_direntry.
    cbn [size set_fs_info]. rewrite Hs. replace (32 * Z.of_nat (length es)) with (Z.of_nat (length es) * 32) by lia.
    rewrite Z.quot_mul by lia. destruct (Z.leb_spec (Z.of_nat (length es)) i); [done|lia].
  - unfold Rfs.rfs_hook_closedir. mstep (vinode_eq s1 dp _ Hv1). unfold Rfs.get_cache. cbn [i_fs_info set_fs_info].
    unfold bind at 1. rewrite Hc1. change (of_option _ (Some ?c) s1) with (Ret c s1). cbn [block_count dir_base_addr].
    change (Z.to_nat 1) with 1%nat. cbn [Rfs.free_dir_blocks]. assert ((Rfs.free_page p1;; ret ()) s1 = Ret tt (Rfs.set_pages a' s1)) as Hf1
      by (by mstep Hfr). by mstep Hf1.
Qed.

(** ** Format and mount *)

(** Formatting a disk and mounting it gives a root directory without entries
    whose block is the only one in use, 99 free blocks, and disk inodes that
    are all free but the root's. *)
Theorem rfs_format_mount garbage s uninit p1 p2 p3 p4 F :
  disk_ok s -> length uninit = 9%nat -> Forall int_ok uninit -> pa_rep (Rfs.pages s) (p1 :: p2 :: p3 :: p4 :: F) ->
  exists s1 s2, Rfs.rfs_format_dev uninit s = Ret 0 s1 /\ Rfs.rfs_get_superblock garbage s1 = Ret (p1, p3) s2 /\
    pa_rep (Rfs.pages s2) F /\ mounted p2 s2 /\ Rfs.dentries s2 !! p3 = Some (mk_dentry [47] p2 0 0).
Proof.
  intros Hd Hl Hu Hrep. destruct (format_spec s uninit Hd Hl Hu) as (s1 & Heq1 & Hsame & Hfm).
  assert (pa_rep (Rfs.pages s1) (p1 :: p2 :: p3 :: p4 :: F)) as Hrep1 by (destruct Hsame as (_ & _ & _ & _ & _ & _ & ->); done).
  destruct (mount_spec garbage s1 p1 p2 p3 p4 F Hfm Hrep1) as (s2 & Heq2 & Hrep2 & Hmt & _ & Hdn & _).
  exists s1, s2. split_and!; try done. by rewrite Hdn, lookup_insert_eq.
Qed.
End spec.

(** ** A concrete file system *)
Definition demo_garbage (p : Z) : vinode := mk_vinode 0 0 0 0 0 0 [] 0 0.
Definition demo_pool : list Z := [0x80004000; 0x80005000; 0x80006000; 0x80007000; 0x80008000; 0x80009000; 0x8000a000; 0x8000b000].
Definition demo_disk : Rfs.state ListAlloc.state :=
  Rfs.mk (replicate 128 (replicate 4096 0)) (replicate 4096 0) 0 [] ∅ ∅ ∅ ∅ (ListAlloc.mk demo_pool demo_pool).
Definition demo_root : Z := 0x80005000.
Definition demo_name : list Z := [97; 46; 116; 120; 116].

Definition run {S R} (m : M S R) (s : S) : S := match m s with Ret _ s' => s' | _ => s end.
Lemma run_eq {S R} (m : M S R) s a s' : m s = Ret a s' -> run m s = s'.
Proof. unfold run. by intros ->. Qed.

(** Formatted and mounted; with a file [a.txt]; with three bytes in it. *)
Definition demo_fs : Rfs.state ListAlloc.state :=
  run (Rfs.rfs_format_dev (replicate 9 0) ;; Rfs.rfs_get_superblock demo_garbage) demo_disk.
Definition demo_fs1 : Rfs.state ListAlloc.state := run (Rfs.rfs_create demo_garbage demo_root demo_name) demo_fs.
Definition demo_fs2 : Rfs.state ListAlloc.state := run (Rfs.rfs_write 0x80008000 [104; 105; 33] 3 0) demo_fs1.

Definition demo_root_v : vinode := mk_vinode 0 1 0 1 1 1 (12 :: replicate 9 0) 0 0x80004000.
Definition demo_root_v1 : vinode := set_size 32 demo_root_v.
Definition demo_file_v : vinode := mk_vinode 1 0 0 0 1 1 (13 :: replicate 9 0) 0 0x80004000.

Lemma demo_disk_ok : disk_ok demo_disk.
Proof. split_and!; [done| |done]. apply Forall_replicate. done. Qed.



Lemma demo_fs_eq : demo_fs = run (Rfs.rfs_format_dev (replicate 9 0) ;; Rfs.rfs_get_superblock demo_garbage) demo_disk.
Proof. reflexivity. Qed.
Lemma demo_fs1_eq : demo_fs1 = run (Rfs.rfs_create demo_garbage demo_root demo_name) demo_fs.
Proof. reflexivity. Qed.
Lemma demo_fs2_eq : demo_fs2 = run (Rfs.rfs_write 0x80008000 [104; 105; 33] 3 0) demo_fs1.
Proof. reflexivity. Qed.
#[local] Opaque demo_fs demo_fs1 demo_fs2.

(** The pages of a concrete allocator. *)
Ltac demo_pages := split; [by vm_compute|split; apply (bool_decide_unpack _); by vm_compute].

Lemma demo_mounted : mounted demo_root demo_fs.
Proof.
  destruct (format_spec demo_disk (replicate 9 0) demo_disk_ok eq_refl) as (s1 & Heq1 & Hsame & Hfm).
  { by apply Forall_replicate. }
  destruct (mount_spec demo_garbage s1 0x80004000 demo_root 0x80006000 0x80007000 [0x80008000; 0x80009000; 0x8000a000; 0x8000b000] Hfm)
    as (s2 & Heq2 & _ & Hmt & _).
  { destruct Hsame as (_ & _ & _ & _ & _ & _ & ->). demo_pages. }
  rewrite demo_fs_eq. rewrite (run_eq _ _ _ _ (eq_trans (bind_Ret _ (fun _ => Rfs.rfs_get_superblock demo_garbage) _ _ _ Heq1) Heq2)). exact Hmt.
Qed.

Lemma demo_root_lookup : Rfs.vinodes demo_fs !! demo_root = Some demo_root_v.
Proof. by vm_compute. Qed.

Lemma demo_dir : dir_rep demo_fs demo_root_v [].
Proof.
  destruct demo_mounted as [_ (v & Hv & Hr & _) _ _]. rewrite demo_root_lookup in Hv. by injection Hv as <-.
Qed.

Lemma demo_can_add : can_add demo_fs demo_root demo_root_v [] demo_name.
Proof.
  split; [apply demo_dir|apply demo_root_lookup|done|simpl; lia| |].
  - split; [|simpl; lia]. by repeat constructor.
  - split; [|done]. by repeat constructor.
Qed.

Lemma demo_root_taken : ~ is_free demo_fs 0.
Proof. apply (bool_decide_unpack (~ is_free demo_fs 0)). by vm_compute. Qed.

Lemma demo_can_create : can_create demo_fs demo_root_v 1.
Proof.
  assert (valid_inode 1) as Hv1 by done. assert (1 <> 0) as Hne by done.
  destruct demo_mounted as [(_ & Hc & _) _ _ Hfree]. specialize (Hfree 1 Hv1 Hne). apply Build_can_create.
  - exact (conj Hv1 Hfree).
  - intros k Hk. replace k with 0 by lia. exact demo_root_taken.
  - exact Hne.
  - rewrite Hc. apply Nat.lt_0_succ.
Qed.

Lemma demo_fs_pages : pa_rep (Rfs.pages demo_fs) [0x80008000; 0x80009000; 0x8000a000; 0x8000b000].
Proof. demo_pages. Qed.
Lemma demo_fs1_pages : pa_rep (Rfs.pages demo_fs1) [0x80009000; 0x8000a000; 0x8000b000].
Proof. demo_pages. Qed.

Lemma demo_created : created demo_fs demo_root demo_root_v [] demo_name 1 0x80008000 demo_fs1.
Proof.
  assert (demo_root <> 0x80008000) as Hne by done.
  pose proof demo_can_add as [A1 A2 A3 A4 [A5 A6] A7]. pose proof demo_can_create as [[C1 C2] C3 C4 C5].
  destruct (create_spec demo_garbage demo_fs demo_root demo_root_v [] demo_name 1 _ _ _
    A1 A2 A3 A4 A5 A6 A7 C1 C2 C3 C4 C5 demo_fs_pages Hne) as (s' & Heq & _ & Hcr).
  rewrite demo_fs1_eq, (run_eq _ _ _ _ Heq). exact Hcr.
Qed.

Lemma demo_file_lookup : Rfs.vinodes demo_fs1 !! 0x80008000 = Some demo_file_v.
Proof. by vm_compute. Qed.

Lemma demo_readable : readable demo_fs1 demo_file_v.
Proof.
  destruct demo_created as [(v & b & V1 & V2 & _) _ _ _]. pose proof demo_file_lookup as H. rewrite V1 in H.
  rewrite lookup_insert_ne, lookup_insert_eq in H by done. by injection H as <-.
Qed.

Lemma demo_dir1 : dir_rep demo_fs1 demo_root_v1 [(demo_name, 1)].
Proof. destruct demo_created as [_ H _ _]. exact H. Qed.

Lemma demo_root_lookup1 : Rfs.vinodes demo_fs1 !! demo_root = Some demo_root_v1.
Proof. by vm_compute. Qed.

Lemma demo_can_add1 name : no_nul name -> (length name <= 27)%nat -> can_add demo_fs1 demo_root demo_root_v1 [(demo_name, 1)] name.
Proof.
  intros Hn Hl. assert (valid_inode (inum demo_root_v1)) as Hi by done.
  assert (length [(demo_name, 1)] < 128)%nat as Hlt by (cbn; lia).
  assert (dinode_ok (Rfs.vinode_dinode (set_size (size demo_root_v1 + 32) demo_root_v1))) as Hok.
  { split; [|done]. by repeat constructor. }
  apply Build_can_add; [exact demo_dir1|exact demo_root_lookup1|exact Hi|exact Hlt|exact (conj Hn Hl)|exact Hok].
Qed.

Lemma demo_free_count1 : free_count demo_fs1 = 98%nat.
Proof. by vm_compute. Qed.

(** The file with three bytes. *)
Definition demo_file_v2 : vinode := set_size 3 demo_file_v.

Lemma demo_file2 : readable demo_fs2 demo_file_v2 /\ Rfs.vinodes demo_fs2 !! 0x80008000 = Some demo_file_v2 /\
  content demo_fs2 demo_file_v2 = [104; 105; 33].
Proof.
  assert (0 <= 0 <= size demo_file_v /\ 0 <= 3 <= Z.of_nat (length [104; 105; 33]) /\ size demo_file_v <= 0 + 3 /\
    (0 + 3 + 4095) / 4096 <= 10 /\ (0 + 3 + 4095) / 4096 <= Z.of_nat 98 + blocks demo_file_v) as (H1 & H2 & H3 & H4 & H5).
  { by vm_compute. }
  rewrite <- demo_free_count1 in H5.
  destruct (rfs_write_spec demo_fs1 0x80008000 demo_file_v [104; 105; 33] 3 0 demo_readable demo_file_lookup H1 H2 H3 H4 H5)
    as (s' & v' & Heq & Hs & Hc & [W1 W2 _ _ _]).
  assert (Rfs.vinodes demo_fs2 !! 0x80008000 = Some demo_file_v2) as Hl by (by vm_compute).
  rewrite demo_fs2_eq, (run_eq _ _ _ _ Heq) in Hl |- *. split_and!; [|exact Hl|].
  - rewrite W2, lookup_insert_eq in Hl. by injection Hl as <-.
  - rewrite W2, lookup_insert_eq in Hl. injection Hl as <-. rewrite Hc. by vm_compute.
Qed.

(** ** The theorems on the concrete file system *)
Lemma rfs_dinode_roundtrip_witness :
  exists s1 s2, Rfs.rfs_write_dinode (mk_dinode 7 0 1 1 (20 :: replicate 9 0)) 37 demo_fs = Ret 0 s1 /\
    Rfs.rfs_read_dinode 37 s1 = Ret (0x80008000, mk_dinode 7 0 1 1 (20 :: replicate 9 0)) s2 /\
    (forall m, valid_inode m -> m <> 37 -> dinode_at s2 m = dinode_at demo_fs m) /\
    (forall b, valid_block b -> (b < 1 \/ 11 <= b) -> block s2 b = block demo_fs b).
Proof.
  apply (rfs_dinode_roundtrip demo_fs _ 37 _ [0x80009000; 0x8000a000; 0x8000b000] (proj1 (dr_readable _ _ _ demo_dir))).
  - split; [discriminate|reflexivity].
  - split; [|reflexivity]. repeat (apply Forall_cons; split; [split; [discriminate|reflexivity]|]). apply Forall_nil_2.
  - exact demo_fs_pages.
Defined.

Lemma demo_map_ok : map_ok demo_fs.
Proof. exact (proj1 (proj2 (dr_readable _ _ _ demo_dir))). Qed.

Lemma rfs_alloc_block_fresh_witness :
  if decide (free_count demo_fs = 0%nat) then Rfs.rfs_alloc_block demo_fs = Panic "rfs_alloc_block: no more free block!"
  else exists b s1 s2, Rfs.rfs_alloc_block demo_fs = Ret b s1 /\ data_block demo_fs b /\ ~ used demo_fs b /\
    (forall b', used s1 b' <-> used demo_fs b' \/ b' = b) /\ free_count s1 = pred (free_count demo_fs) /\
    Rfs.rfs_free_block b s1 = Ret 0 s2 /\ (forall b', used s2 b' <-> used demo_fs b').
Proof. exact (rfs_alloc_block_fresh demo_fs demo_map_ok). Defined.

Lemma rfs_read_content_witness :
  returns (Rfs.rfs_read 0x80008000 10 1) demo_fs2 (fun r s' =>
    r = (2, before_nul (take 2 (drop 1 (content demo_fs2 demo_file_v2))) ++ [0], 3) /\ exists b, s' = Rfs.set_iobuffer b demo_fs2).
Proof.
  exact (rfs_read_content demo_fs2 0x80008000 demo_file_v2 10 1 (proj1 demo_file2) (proj1 (proj2 demo_file2))
    (bool_decide_unpack (0 <= 10) I) (bool_decide_unpack (0 <= 1 <= 3) I) (bool_decide_unpack (1 < 4096) I)).
Defined.

Lemma rfs_write_content_witness :
  returns (Rfs.rfs_write 0x80008000 [33; 10] 2 2) demo_fs2 (fun r s' => r = (2, 4) /\
    exists v', Rfs.vinodes s' = <[0x80008000 := v']> (Rfs.vinodes demo_fs2) /\ readable s' v' /\ size v' = 4 /\
      content s' v' = take 2 (content demo_fs2 demo_file_v2) ++ [33; 10] /\
      (forall b, used demo_fs2 b -> b ∉ file_blocks demo_file_v2 -> block s' b = block demo_fs2 b /\ used s' b /\ (b ∉ file_blocks v'))).
Proof.
  apply (rfs_write_content demo_fs2 0x80008000 demo_file_v2 [33; 10] 2 2 (proj1 demo_file2) (proj1 (proj2 demo_file2)));
    apply (bool_decide_unpack _); by vm_compute.
Defined.

Lemma rfs_write_read_roundtrip_witness :
  exists s1 s2 bs, Rfs.rfs_write 0x80008000 [33; 0; 10] 3 2 demo_fs2 = Ret (3, 5) s1 /\
    Rfs.rfs_read 0x80008000 3 2 s1 = Ret (3, bs ++ [0], 5) s2 /\
    bs = [33] /\ (no_nul [33; 0; 10] -> bs = [33; 0; 10]).
Proof.
  apply (rfs_write_read_roundtrip demo_fs2 0x80008000 demo_file_v2 [33; 0; 10] 3 2 (proj1 demo_file2) (proj1 (proj2 demo_file2)));
    apply (bool_decide_unpack _); by vm_compute.
Defined.

Lemma demo_stale : readable (Rfs.set_iobuffer (replicate 4096 7) demo_fs2) demo_file_v2.
Proof. apply readable_iobuffer; [exact (proj1 demo_file2)|by vm_compute]. Qed.

Lemma demo_stale_lookup : Rfs.vinodes (Rfs.set_iobuffer (replicate 4096 7) demo_fs2) !! 0x80008000 = Some demo_file_v2.
Proof. by vm_compute. Qed.

(** The file holds [hi!]; one byte is overwritten while the buffer holds sevens. *)
Lemma rfs_write_loses_tail_witness :
  returns (Rfs.rfs_write 0x80008000 [72] 1 0) (Rfs.set_iobuffer (replicate 4096 7) demo_fs2) (fun r s' => r = (1, 1) /\
    Rfs.vinodes s' !! 0x80008000 = Some demo_file_v2 /\ content s' demo_file_v2 = [72; 7; 7]).
Proof.
  assert (take 0 (content (Rfs.set_iobuffer (replicate 4096 7) demo_fs2) demo_file_v2) ++ [72] ++ [7; 7] ++
    drop 4096 (content (Rfs.set_iobuffer (replicate 4096 7) demo_fs2) demo_file_v2) = [72; 7; 7]) as <- by (by vm_compute).
  apply (rfs_write_loses_tail (Rfs.set_iobuffer (replicate 4096 7) demo_fs2) 0x80008000 demo_file_v2 [72] 1 0
    demo_stale demo_stale_lookup);
    apply (bool_decide_unpack _); by vm_compute.
Defined.

Lemma rfs_lseek_bounds_witness :
  Rfs.rfs_lseek 0x80008000 (-1) LSEEK_CUR 3 demo_fs2 = Ret (0, 2) demo_fs2.
Proof. exact (rfs_lseek_bounds demo_fs2 0x80008000 demo_file_v2 (-1) LSEEK_CUR 3 (proj1 (proj2 demo_file2))). Defined.

Lemma rfs_lookup_correct_witness :
  exists s', (Rfs.disk s' = Rfs.disk demo_fs1 /\ Rfs.freemap s' = Rfs.freemap demo_fs1 /\ Rfs.nblocks s' = Rfs.nblocks demo_fs1 /\ disk_ok s') /\
    exists v, Rfs.rfs_lookup demo_garbage demo_root demo_name demo_fs1 = Ret 0x80009000 s' /\
        Rfs.vinodes s' = <[0x80009000 := v]> (Rfs.vinodes demo_fs1) /\
        pa_rep (Rfs.pages s') [0x8000a000; 0x8000b000] /\
        (exists ino, [(demo_name, 1)] !! 0%nat = Some (demo_name, ino) /\ vinode_of demo_fs1 ino v).
Proof.
  apply (rfs_lookup_correct demo_garbage demo_fs1 demo_root demo_root_v1 [(demo_name, 1)] demo_name _ _ _
    demo_dir1 demo_root_lookup1 (proj1 (ca_name _ _ _ _ _ demo_can_add)) demo_fs1_pages).
  intros [|i] e Hi; [|discriminate]. injection Hi as <-. split; [discriminate|reflexivity].
Defined.

Lemma rfs_create_correct_witness :
  exists s', Rfs.rfs_create demo_garbage demo_root demo_name demo_fs = Ret 0x80008000 s' /\
    pa_rep (Rfs.pages s') [0x80009000; 0x8000a000; 0x8000b000] /\
    created demo_fs demo_root demo_root_v [] demo_name 1 0x80008000 s'.
Proof. apply (rfs_create_correct _ _ _ _ _ _ _ _ _ _ demo_can_add demo_can_create demo_fs_pages). discriminate. Defined.

Lemma rfs_mkdir_correct_witness :
  exists s', Rfs.rfs_mkdir demo_garbage demo_root demo_name demo_fs = Ret 0x80008000 s' /\
    pa_rep (Rfs.pages s') [0x80009000; 0x8000a000; 0x8000b000] /\
    made_dir demo_fs demo_root demo_root_v [] demo_name 1 0x80008000 s'.
Proof. apply (rfs_mkdir_correct _ _ _ _ _ _ _ _ _ _ demo_can_add demo_can_create demo_fs_pages). discriminate. Defined.

(** A disk full of zeros: every inode is a file. *)
Lemma demo_disk_full n : valid_inode n -> ~ is_free demo_disk n.
Proof.
  intros Hn. destruct (dinode_place n Hn) as (Nb & No & Hv & _ & Hno). unfold is_free, dinode_at. rewrite Nb, No.
  assert (block demo_disk (n / 32 + 1) = replicate 4096 0) as ->.
  { unfold block, demo_disk. cbn [Rfs.disk]. rewrite nth_lookup, lookup_replicate_2; [done|]. destruct Hv. change RAMDISK_BLOCK_COUNT with 128 in *. lia. }
  change RFS_INODESIZE with 128. rewrite drop_replicate, take_replicate. replace (_ `min` _)%nat with 56%nat by lia. done.
Qed.

(** The unformatted disk, where every inode looks like a file. *)
Definition demo_full : Rfs.state ListAlloc.state := Rfs.set_vinodes {[demo_root := demo_root_v]} demo_disk.

Lemma rfs_create_no_inode_witness :
  (exists s', Rfs.find_free_dinode (Z.to_nat Rfs.MAX_INODES) 0 0 demo_full = Ret (0x80004000, None) s' /\ 0x80004000 <> 0 /\
     pa_rep (Rfs.pages s') (0x80004000 :: tail demo_pool)) /\
  Rfs.rfs_create demo_garbage demo_root demo_name demo_full = Fault "use of free_dinode after free_page" /\
  Rfs.rfs_mkdir demo_garbage demo_root demo_name demo_full = Fault "use of free_dinode after free_page".
Proof.
  apply (rfs_create_no_inode demo_garbage demo_full demo_root demo_root_v demo_name 0x80004000 (tail demo_pool)
    (lookup_singleton_eq _ _) demo_disk_ok).
  - demo_pages.
  - exact demo_disk_full.
Defined.

Lemma demo_linkable : linkable demo_fs1 demo_root demo_root_v1 0x80008000 demo_file_v.
Proof.
  split.
  - split; [exact demo_file_lookup|discriminate].
  - split; [split; [discriminate|reflexivity]|discriminate].
  - split; [exact demo_readable|]. apply (bool_decide_unpack _). by vm_compute.
  - discriminate.
  - split; (split; [|reflexivity]); repeat (apply Forall_cons; split; [split; [discriminate|reflexivity]|]); apply Forall_nil_2.
Qed.

Lemma rfs_hard_link_witness : exists s1 s2 s3 s4 v1 v2,
  Rfs.rfs_link demo_root [98] 0x80008000 demo_fs1 = Ret 0 s1 /\
  (Rfs.rfs_lookup demo_garbage demo_root [98] s1 = Ret 0x80009000 s2 /\ Rfs.vinodes s2 !! 0x80009000 = Some v1 /\ inum v1 = 1 /\ nlinks v1 = 2) /\
  Rfs.rfs_unlink demo_root demo_name 0x80008000 s1 = Ret 0 s3 /\
  (dir_rep s3 demo_root_v1 [([98], 1)] /\ forall b, used s3 b <-> used demo_fs1 b) /\
  (Rfs.rfs_lookup demo_garbage demo_root [98] s3 = Ret 0x80009000 s4 /\ Rfs.vinodes s4 !! 0x80009000 = Some v2 /\ inum v2 = 1 /\ nlinks v2 = 1).
Proof.
  destruct (rfs_hard_link demo_garbage demo_fs1 demo_root demo_root_v1 [(demo_name, 1)] 0 demo_name [98] 0x80008000 demo_file_v
    0x80009000 0x8000a000 [0x8000b000]) as (s1 & s2 & s3 & s4 & v1 & v2 & H1 & H2 & H3 & H4 & H5 & _).
  - apply demo_can_add1; apply (bool_decide_unpack _); by vm_compute.
  - exact demo_linkable.
  - exact (proj1 (ca_name _ _ _ _ _ demo_can_add)).
  - reflexivity.
  - reflexivity.
  - apply (bool_decide_unpack _). by vm_compute.
  - intros [|j] e Hj; [|discriminate]. injection Hj as <-. split; [discriminate|reflexivity].
  - exact demo_fs1_pages.
  - discriminate.
  - discriminate.
  - exists s1, s2, s3, s4, v1, v2. exact (conj H1 (conj H2 (conj H3 (conj H4 H5)))).
Defined.

Lemma demo_can_unlink : can_unlink demo_fs1 demo_root demo_root_v1 1 0x80008000 demo_file_v.
Proof.
  destruct (created_can_unlink _ _ _ _ _ _ 0x80008000 _ demo_can_add demo_can_create ltac:(discriminate) demo_created)
    as (v & b & Hv & _ & _ & _ & _ & Hc).
  rewrite demo_file_lookup in Hv. by injection Hv as <-.
Qed.

Lemma rfs_unlink_correct_witness :
  exists s', Rfs.rfs_unlink demo_root demo_name 0x80008000 demo_fs1 = Ret 0 s' /\
    pa_rep (Rfs.pages s') [0x80009000; 0x8000a000; 0x8000b000] /\
    unlink_post demo_fs1 demo_root demo_root_v1 [(demo_name, 1)] 0 1 0x80008000 demo_file_v s'.
Proof.
  exact (rfs_unlink_correct demo_fs1 demo_root demo_root_v1 [(demo_name, 1)] 0 demo_name 1 0x80008000 demo_file_v _ _
    demo_dir1 (proj1 (ca_name _ _ _ _ _ demo_can_add)) eq_refl eq_refl demo_fs1_pages demo_can_unlink).
Defined.

Lemma rfs_create_lookup_unlink_witness :
  exists s1 s2 s3 v, Rfs.rfs_create demo_garbage demo_root demo_name demo_fs = Ret 0x80008000 s1 /\
    (Rfs.rfs_lookup demo_garbage demo_root demo_name s1 = Ret 0x80009000 s2 /\ Rfs.vinodes s2 !! 0x80009000 = Some v /\ inum v = 1) /\
    Rfs.rfs_unlink demo_root demo_name 0x80008000 s1 = Ret 0 s3 /\ dir_rep s3 demo_root_v [] /\ is_free s3 1 /\
    (forall b, used s3 b <-> used demo_fs b).
Proof.
  apply (rfs_create_lookup_unlink _ _ _ _ _ _ _ _ _ _ _ demo_can_add demo_can_create demo_fs_pages).
  - discriminate.
  - intros H. inversion H.
  - intros i e Hi. discriminate.
Defined.

Lemma rfs_readdir_enumerates_witness :
  exists s1 s2, Rfs.rfs_hook_opendir demo_root demo_fs1 = Ret 0 s1 /\
    (forall i e, [(demo_name, 1)] !! i = Some e -> Rfs.rfs_readdir demo_root (Z.of_nat i) s1 = Ret (0, Some e, Z.of_nat i + 1) s1) /\
    (forall i, 1 <= i -> Rfs.rfs_readdir demo_root i s1 = Ret (-1, None, i) s1) /\
    Rfs.rfs_hook_closedir demo_root s1 = Ret 0 s2 /\ pa_rep (Rfs.pages s2) [0x80009000; 0x8000b000] /\ Rfs.disk s2 = Rfs.disk demo_fs1.
Proof.
  exact (rfs_readdir_enumerates demo_fs1 demo_root demo_root_v1 [(demo_name, 1)] _ _ _ demo_dir1 demo_root_lookup1 demo_fs1_pages eq_refl).
Defined.

Lemma rfs_format_mount_witness :
  exists s1 s2, Rfs.rfs_format_dev (replicate 9 0) demo_disk = Ret 0 s1 /\
    Rfs.rfs_get_superblock demo_garbage s1 = Ret (0x80004000, 0x80006000) s2 /\
    pa_rep (Rfs.pages s2) [0x80008000; 0x80009000; 0x8000a000; 0x8000b000] /\ mounted demo_root s2 /\
    Rfs.dentries s2 !! 0x80006000 = Some (mk_dentry [47] demo_root 0 0).
Proof.
  apply (rfs_format_mount demo_garbage demo_disk (replicate 9 0) 0x80004000 demo_root 0x80006000 0x80007000 _ demo_disk_ok eq_refl).
  - by apply Forall_replicate.
  - demo_pages.
Defined.
