(* ===== verification/Vfs.v ===== *)
(** * [kernel/vfs.c]: the virtual file system

    Path walking through the dentry and vinode caches, files, links and
    directories, against a table [vinode_ops] of file system operations, as the
    C code calls them through [i_ops]; [rfs_i_ops] is the table of RFS, and the
    table of [Hostfs.mounted_i_ops] calls for each inode the operations of its
    own file system.  Dentries, vinodes and open files are
    objects in heaps indexed by their page, and an object whose page is freed
    is removed, so that a use after free is a [Fault].  [strtok] keeps its
    position in a static variable; between the first and the last token of a
    path nothing else calls it. *)

From stdpp Require Import base gmap list numbers strings.
From Stdlib Require Import ZArith Lia.
From S2P Require Import Prelude Pmm HashTable Bytes Rfs.
Local Open Scope Z_scope.

(** ** Constants of [kernel/vfs.h], [util/types.h] *)
Definition MAX_PATH_LEN : Z := 30.
Definition MASK_FILEMODE : Z := 0x003.
Definition O_RDONLY : Z := 0.
Definition O_WRONLY : Z := 1.
Definition O_RDWR : Z := 2.
Definition O_CREAT : Z := 64.
Definition FILE_CLOSED : Z := 0.
Definition FD_OPENED : Z := 1.
Definition SLASH : Z := 47.

(** ** [util/string.c]: [strchr] and [strtok] on the characters of a string *)
Fixpoint strchr (p : list Z) (ch : Z) : bool :=
  match p with
  | [] => ch =? 0
  | c :: p => if c =? ch then true else strchr p ch
  end.

(** The first loop: skip delimiters. *)
Fixpoint skip_delims (delim start : list Z) : list Z :=
  match start with
  | [] => []
  | c :: rest => if strchr delim c then skip_delims delim rest else start
  end.

(** The second loop: the characters up to the next delimiter, and what follows
    the delimiter; [None] when the string ended. *)
Fixpoint token_end (delim start : list Z) : list Z * option (list Z) :=
  match start with
  | [] => ([], None)
  | c :: rest =>
      if strchr delim c then ([], Some rest)
      else let (t, cur) := token_end delim rest in (c :: t, cur)
  end.

(** One call with the static [current]: the token, or NULL, and the new
    [current]. *)
Definition strtok (current : option (list Z)) (delim : list Z) : option (list Z) * option (list Z) :=
  match current with
  | None => (None, None)
  | Some str =>
      match skip_delims delim str with
      | [] => (None, None)
      | start => let (t, cur) := token_end delim start in (Some t, cur)
      end
  end.

(** The tokens of successive calls. *)
Fixpoint strtok_all (fuel : nat) (current : option (list Z)) (delim : list Z) : list (list Z) :=
  match fuel with
  | O => []
  | S fuel =>
      match strtok current delim with
      | (Some t, cur) => t :: strtok_all fuel cur delim
      | (None, _) => []
      end
  end.

Definition tokens (path : list Z) : list (list Z) := strtok_all (S (length path)) (Some path) [SLASH].

(** An open file. *)
Record file := mk_file { f_status : Z; f_readable : Z; f_writable : Z; f_offset : Z; f_dentry : Z }.

(** [struct vinode_ops]; a hook that is NULL is [None].  [viop_create],
    [viop_lookup] and [viop_mkdir] get the parent's inode, and the dentry of the
    child with its name. *)
Record vinode_ops (A : Type) := mk_ops {
  viop_read : Z -> Z -> Z -> M (Rfs.state A) (Z * list Z * Z);
  viop_write : Z -> list Z -> Z -> Z -> M (Rfs.state A) (Z * Z);
  viop_create : Z -> Z -> list Z -> M (Rfs.state A) Z;
  viop_lseek : Z -> Z -> Z -> Z -> M (Rfs.state A) (Z * Z);
  viop_disk_stat : Z -> M (Rfs.state A) (Z * istat);
  viop_link : Z -> list Z -> Z -> M (Rfs.state A) Z;
  viop_unlink : Z -> list Z -> Z -> M (Rfs.state A) Z;
  viop_lookup : Z -> Z -> list Z -> M (Rfs.state A) Z;
  viop_readdir : Z -> Z -> M (Rfs.state A) (Z * option (list Z * Z) * Z);
  viop_mkdir : Z -> Z -> list Z -> M (Rfs.state A) Z;
  viop_write_back_vinode : Z -> M (Rfs.state A) Z;
  viop_hook_open : option (Z -> Z -> M (Rfs.state A) Z);
  viop_hook_close : option (Z -> Z -> M (Rfs.state A) Z);
  viop_hook_opendir : option (Z -> Z -> M (Rfs.state A) Z);
  viop_hook_closedir : option (Z -> Z -> M (Rfs.state A) Z);
}.
Arguments mk_ops {A}.
Arguments viop_read {A}.
Arguments viop_write {A}.
Arguments viop_create {A}.
Arguments viop_lseek {A}.
Arguments viop_disk_stat {A}.
Arguments viop_link {A}.
Arguments viop_unlink {A}.
Arguments viop_lookup {A}.
Arguments viop_readdir {A}.
Arguments viop_mkdir {A}.
Arguments viop_write_back_vinode {A}.
Arguments viop_hook_open {A}.
Arguments viop_hook_close {A}.
Arguments viop_hook_opendir {A}.
Arguments viop_hook_closedir {A}.

(** The table of RFS. *)
Definition rfs_i_ops {A} `{PA : PageAllocator A} (garbage : Z -> vinode) : vinode_ops A := mk_ops
  Rfs.rfs_read Rfs.rfs_write (fun parent _ name => Rfs.rfs_create garbage parent name) Rfs.rfs_lseek Rfs.rfs_disk_stat
  Rfs.rfs_link Rfs.rfs_unlink (fun parent _ name => Rfs.rfs_lookup garbage parent name) Rfs.rfs_readdir
  (fun parent _ name => Rfs.rfs_mkdir garbage parent name) Rfs.rfs_write_back_vinode
  None None (Some (fun v _ => Rfs.rfs_hook_opendir v)) (Some (fun v _ => Rfs.rfs_hook_closedir v)).

Module Vfs.
Section ops.
Context {A : Type} `{PA : PageAllocator A}.

Record state := mk {
  fs : Rfs.state A;                                               (* file system, vinodes, dentries, pages *)
  dentry_hash_table : list (list (Hash.node VfsHash.dentry_key));
  vinode_hash_table : list (list (Hash.node VfsHash.vinode_key));
  files : gmap Z file;
  vfs_root_dentry : Z;
}.

Definition set_fs (f : Rfs.state A) (s : state) : state :=
  mk f (dentry_hash_table s) (vinode_hash_table s) (files s) (vfs_root_dentry s).
Definition set_files (f : gmap Z file) (s : state) : state :=
  mk (fs s) (dentry_hash_table s) (vinode_hash_table s) f (vfs_root_dentry s).

(** Operations of the file system, of the two caches and of the pages. *)
Definition on_fs {R} (m : M (Rfs.state A) R) : M state R := zoom fs set_fs m.

Definition dentry_table (s : state) : Hash.state VfsHash.dentry_key A :=
  Hash.mk (dentry_hash_table s) (Rfs.pages (fs s)).
Definition set_dentry_table (t : Hash.state VfsHash.dentry_key A) (s : state) : state :=
  mk (Rfs.set_pages (Hash.pages t) (fs s)) (Hash.head t) (vinode_hash_table s) (files s) (vfs_root_dentry s).
Definition on_dentry_table {R} (m : M (Hash.state VfsHash.dentry_key A) R) : M state R :=
  zoom dentry_table set_dentry_table m.

Definition vinode_table (s : state) : Hash.state VfsHash.vinode_key A :=
  Hash.mk (vinode_hash_table s) (Rfs.pages (fs s)).
Definition set_vinode_table (t : Hash.state VfsHash.vinode_key A) (s : state) : state :=
  mk (Rfs.set_pages (Hash.pages t) (fs s)) (dentry_hash_table s) (Hash.head t) (files s) (vfs_root_dentry s).
Definition on_vinode_table {R} (m : M (Hash.state VfsHash.vinode_key A) R) : M state R :=
  zoom vinode_table set_vinode_table m.

(** ** Objects *)
Definition get_dentry (d : Z) : M state dentry := fun s => of_option "no dentry" (Rfs.dentries (fs s) !! d) s.
Definition upd_dentry (d : Z) (f : dentry -> dentry) : M state unit :=
  modify (fun s => set_fs (Rfs.set_dentries (alter f d (Rfs.dentries (fs s))) (fs s)) s).
Definition set_d_inode (v : Z) (d : dentry) : dentry := mk_dentry (d_name d) v (d_parent d) (d_ref d).
Definition set_d_ref (n : Z) (d : dentry) : dentry := mk_dentry (d_name d) (d_inode d) (d_parent d) n.

Definition get_vinode (v : Z) : M state vinode := on_fs (Rfs.get_vinode v).
Definition upd_vinode (v : Z) (f : vinode -> vinode) : M state unit := on_fs (Rfs.upd_vinode v f).
Definition get_file (f : Z) : M state file := fun s => of_option "no file" (files s !! f) s.
Definition upd_file (f : Z) (g : file -> file) : M state unit :=
  modify (fun s => set_files (alter g f (files s)) s).
Definition set_offset (n : Z) (f : file) : file :=
  mk_file (f_status f) (f_readable f) (f_writable f) n (f_dentry f).
Definition set_f_status (n : Z) (f : file) : file :=
  mk_file n (f_readable f) (f_writable f) (f_offset f) (f_dentry f).

(** [free_page] of a dentry or a vinode. *)
Definition free_dentry_page (d : Z) : M state unit :=
  on_fs (Rfs.free_page d) ;;
  modify (fun s => set_fs (Rfs.set_dentries (delete d (Rfs.dentries (fs s))) (fs s)) s).
Definition free_vinode_page (v : Z) : M state unit :=
  on_fs (Rfs.free_page v) ;;
  modify (fun s => set_fs (Rfs.set_vinodes (delete v (Rfs.vinodes (fs s))) (fs s)) s).

Definition alloc_vfs_dentry (name : list Z) (inode parent : Z) : M state Z :=
  on_fs (Rfs.alloc_vfs_dentry name inode parent).

Definition free_vfs_dentry (d : Z) : M state Z :=
  x <- get_dentry d ;;
  if 0 <? d_ref x then ret (-1) else free_dentry_page d ;; ret 0.

(** The argument [offset] is not used. *)
Definition alloc_vfs_file (file_dentry readable writable offset : Z) : M state Z :=
  p <- on_fs Rfs.alloc_object ;;
  d <- get_dentry file_dentry ;;
  upd_dentry file_dentry (set_d_ref (d_ref d + 1)) ;;
  modify (fun s => set_files (<[p := mk_file FD_OPENED readable writable 0 file_dentry]> (files s)) s) ;;
  ret p.

(** The cache interface, with the fields of the objects. *)
Definition hash_get_dentry (parent : Z) (name : list Z) : M state Z :=
  on_dentry_table (VfsHash.hash_get_dentry parent name).
Definition hash_put_dentry (d : Z) : M state Z :=
  x <- get_dentry d ;; on_dentry_table (VfsHash.hash_put_dentry d (d_parent x) (d_name x)).
Definition hash_erase_dentry (d : Z) : M state Z :=
  x <- get_dentry d ;; on_dentry_table (VfsHash.hash_erase_dentry (d_parent x) (d_name x)).
Definition hash_get_vinode (sb inum : Z) : M state Z := on_vinode_table (VfsHash.hash_get_vinode sb inum).
Definition hash_put_vinode (v : Z) : M state Z :=
  x <- get_vinode v ;; on_vinode_table (VfsHash.hash_put_vinode v (v_sb x) (inum x)).
Definition hash_erase_vinode (v : Z) : M state Z :=
  x <- get_vinode v ;; on_vinode_table (VfsHash.hash_erase_vinode (v_sb x) (inum x)).

(** [dentry->dentry_inode] of a dentry. *)
Definition dentry_inode (d : Z) : M state Z := x <- get_dentry d ;; ret (d_inode x).
(** [dentry->dentry_inode->type]. *)
Definition dentry_type (d : Z) : M state Z := v <- dentry_inode d ;; x <- get_vinode v ;; ret (type x).
Definition file_type (f : Z) : M state Z := x <- get_file f ;; dentry_type (f_dentry x).

(** [char path_copy\[MAX_PATH_LEN\]; strcpy(path_copy, path)]. *)
Definition path_tokens (path : list Z) : M state (list (list Z)) :=
  if MAX_PATH_LEN <=? Z.of_nat (length path) then fault "path_copy overflow" else ret (tokens path).

Definition get_base_name (path : list Z) : M state (list Z) :=
  ts <- path_tokens path ;; of_option "last_token is NULL" (last ts).

Definition vfs_init : M state Z :=
  r <- on_dentry_table (Hash.hash_table_init false) ;;
  if negb (r =? 0) then ret r
  else
    r <- on_vinode_table (Hash.hash_table_init false) ;;
    if negb (r =? 0) then ret r else ret 0.

(** ** Operations, through the table of the file system *)
Context (i_ops : vinode_ops A).

(** The loop of [lookup_final_dentry] from token to token: the final dentry (0
    when a component is missing), the last [parent], and [miss_name]. *)
Fixpoint walk (ts : list (list Z)) (parent this : Z) : M state (Z * Z * list Z) :=
  match ts with
  | [] => ret (this, parent, [])
  | token :: ts =>
      let parent := this in
      this <- hash_get_dentry parent token ;;
      if negb (this =? 0) then walk ts parent this
      else
        this <- alloc_vfs_dentry token 0 parent ;;
        parent_inode <- dentry_inode parent ;;
        found_vinode <- on_fs (viop_lookup i_ops parent_inode this token) ;;
        if found_vinode =? 0 then free_dentry_page this ;; ret (0, parent, token)
        else
          x <- get_vinode found_vinode ;;
          same_inode <- hash_get_vinode (v_sb x) (inum x) ;;
          (if negb (same_inode =? 0) then
             upd_dentry this (set_d_inode same_inode) ;;
             upd_vinode same_inode (fun v => set_ref (ref v + 1) v) ;;
             free_vinode_page found_vinode
           else
             upd_dentry this (set_d_inode found_vinode) ;;
             upd_vinode found_vinode (fun v => set_ref (ref v + 1) v) ;;
             hash_put_vinode found_vinode ;;
             ret tt) ;;
          hash_put_dentry this ;;
          walk ts parent this
  end.

Definition lookup_final_dentry (path : list Z) (parent : Z) : M state (Z * Z * list Z) :=
  ts <- path_tokens path ;; walk ts parent parent.

(** A hook, when it is defined; its result is only reported. *)
Definition run_hook (h : option (Z -> Z -> M (Rfs.state A) Z)) (v d : Z) : M state unit :=
  match h with Some h => on_fs (h v d) ;; ret tt | None => ret tt end.

(** [writable] and [readable] of the open flags. *)
Definition open_mode (flags : Z) : M state (Z * Z) :=
  let m := Z.land flags MASK_FILEMODE in
  if m =? O_RDONLY then ret (0, 1)
  else if m =? O_WRONLY then ret (1, 0)
  else if m =? O_RDWR then ret (1, 1)
  else panic "fs_open: invalid open flags!".

(** The part of [vfs_open] for an existing dentry. *)
Definition open_dentry (file_dentry flags : Z) : M state Z :=
  ty <- dentry_type file_dentry ;;
  if negb (ty =? FILE_I) then ret 0
  else
    let* (writable, readable) := open_mode flags in
    file <- alloc_vfs_file file_dentry readable writable 0 ;;
    v <- dentry_inode file_dentry ;;
    run_hook (viop_hook_open i_ops) v file_dentry ;;
    ret file.

(** The file pointer, 0 for NULL. *)
Definition vfs_open (path : list Z) (flags : Z) : M state Z :=
  root <- gets vfs_root_dentry ;;
  let* (file_dentry, parent, miss_name) := lookup_final_dentry path root in
  if file_dentry =? 0 then
    if Z.land flags O_CREAT =? 0 then ret 0
    else
      basename <- get_base_name path ;;
      if negb (bool_decide (miss_name = basename)) then ret 0
      else
        file_dentry <- alloc_vfs_dentry basename 0 parent ;;
        parent_inode <- dentry_inode parent ;;
        new_inode <- on_fs (viop_create i_ops parent_inode file_dentry basename) ;;
        if new_inode =? 0 then panic "vfs_open: cannot create file!"
        else
          upd_dentry file_dentry (set_d_inode new_inode) ;;
          upd_vinode new_inode (fun v => set_ref (ref v + 1) v) ;;
          hash_put_dentry file_dentry ;;
          hash_put_vinode new_inode ;;
          open_dentry file_dentry flags
  else open_dentry file_dentry flags.

(** The result and the bytes stored in [buf]. *)
Definition vfs_read (f count : Z) : M state (Z * list Z) :=
  x <- get_file f ;;
  if f_readable x =? 0 then ret (-1, [])
  else
    ty <- file_type f ;;
    if negb (ty =? FILE_I) then ret (-1, [])
    else
      v <- dentry_inode (f_dentry x) ;;
      let* (r, bs, off) := on_fs (viop_read i_ops v count (f_offset x)) in
      upd_file f (set_offset off) ;;
      ret (r, bs).

Definition vfs_write (f : Z) (buf : list Z) (count : Z) : M state Z :=
  x <- get_file f ;;
  if f_writable x =? 0 then ret (-1)
  else
    ty <- file_type f ;;
    if negb (ty =? FILE_I) then ret (-1)
    else
      v <- dentry_inode (f_dentry x) ;;
      let* (r, off) := on_fs (viop_write i_ops v buf count (f_offset x)) in
      upd_file f (set_offset off) ;;
      ret r.

Definition vfs_lseek (f offset whence : Z) : M state Z :=
  ty <- file_type f ;;
  if negb (ty =? FILE_I) then ret (-1)
  else
    x <- get_file f ;;
    v <- dentry_inode (f_dentry x) ;;
    let* (r, off) := on_fs (viop_lseek i_ops v offset whence (f_offset x)) in
    upd_file f (set_offset off) ;;
    if negb (r =? 0) then ret (-1) else ret off.

Definition vfs_stat (f : Z) : M state (Z * istat) :=
  x <- get_file f ;;
  v <- dentry_inode (f_dentry x) ;;
  n <- get_vinode v ;;
  ret (0, mk_istat (inum n) (size n) (type n) (nlinks n) (blocks n)).

Definition vfs_disk_stat (f : Z) : M state (Z * istat) :=
  x <- get_file f ;;
  v <- dentry_inode (f_dentry x) ;;
  on_fs (viop_disk_stat i_ops v).

Definition vfs_link (oldpath newpath : list Z) : M state Z :=
  root <- gets vfs_root_dentry ;;
  let* (old_file_dentry, _, _) := lookup_final_dentry oldpath root in
  if old_file_dentry =? 0 then ret (-1)
  else
    ty <- dentry_type old_file_dentry ;;
    if negb (ty =? FILE_I) then ret (-1)
    else
      let* (new_file_dentry, parent, miss_name) := lookup_final_dentry newpath root in
      if negb (new_file_dentry =? 0) then ret (-1)
      else
        basename <- get_base_name newpath ;;
        if negb (bool_decide (miss_name = basename)) then ret (-1)
        else
          old_inode <- dentry_inode old_file_dentry ;;
          new_file_dentry <- alloc_vfs_dentry basename old_inode parent ;;
          parent_inode <- dentry_inode parent ;;
          err <- on_fs (viop_link i_ops parent_inode basename old_inode) ;;
          if negb (err =? 0) then ret (-1)
          else hash_put_dentry new_file_dentry ;; ret 0.

Definition vfs_unlink (path : list Z) : M state Z :=
  root <- gets vfs_root_dentry ;;
  let* (file_dentry, parent, _) := lookup_final_dentry path root in
  if file_dentry =? 0 then ret (-1)
  else
    ty <- dentry_type file_dentry ;;
    if negb (ty =? FILE_I) then ret (-1)
    else
      d <- get_dentry file_dentry ;;
      if 0 <? d_ref d then ret (-1)
      else
        let unlinked_vinode := d_inode d in
        parent_inode <- dentry_inode parent ;;
        err <- on_fs (viop_unlink i_ops parent_inode (d_name d) unlinked_vinode) ;;
        if negb (err =? 0) then ret (-1)
        else
          hash_erase_dentry file_dentry ;;
          free_vfs_dentry file_dentry ;;
          upd_vinode unlinked_vinode (fun v => set_ref (ref v - 1) v) ;;
          u <- get_vinode unlinked_vinode ;;
          if nlinks u =? 0 then
            if negb (ref u =? 0) then panic "assertion failed: unlinked_vinode->ref == 0"
            else
              hash_erase_vinode unlinked_vinode ;;
              free_vinode_page unlinked_vinode ;;
              ret 0
          else ret 0.

(** The dentry is not referred to by an open file any more: it is freed, and
    with the last dentry of the inode the inode is written back and freed. *)
Definition release_dentry (dentry inode : Z) : M state unit :=
  hash_erase_dentry dentry ;;
  free_vfs_dentry dentry ;;
  upd_vinode inode (fun v => set_ref (ref v - 1) v) ;;
  n <- get_vinode inode ;;
  if ref n =? 0 then
    r <- on_fs (viop_write_back_vinode i_ops inode) ;;
    if negb (r =? 0) then panic "vfs_close: free inode failed!"
    else hash_erase_vinode inode ;; free_vinode_page inode
  else ret tt.

Definition vfs_close (f : Z) : M state Z :=
  ty <- file_type f ;;
  if negb (ty =? FILE_I) then ret (-1)
  else
    x <- get_file f ;;
    let dentry := f_dentry x in
    inode <- dentry_inode dentry ;;
    run_hook (viop_hook_close i_ops) inode dentry ;;
    upd_dentry dentry (fun d => set_d_ref (d_ref d - 1) d) ;;
    d <- get_dentry dentry ;;
    (if d_ref d =? 0 then release_dentry dentry inode else ret tt) ;;
    upd_file f (set_f_status FILE_CLOSED) ;;
    ret 0.

Definition vfs_opendir (path : list Z) : M state Z :=
  root <- gets vfs_root_dentry ;;
  let* (file_dentry, _, _) := lookup_final_dentry path root in
  if file_dentry =? 0 then ret 0
  else
    ty <- dentry_type file_dentry ;;
    if negb (ty =? DIR_I) then ret 0
    else
      file <- alloc_vfs_file file_dentry 1 0 0 ;;
      v <- dentry_inode file_dentry ;;
      run_hook (viop_hook_opendir i_ops) v file_dentry ;;
      ret file.

(** The result and the entry stored in [dir]. *)
Definition vfs_readdir (f : Z) : M state (Z * option (list Z * Z)) :=
  ty <- file_type f ;;
  if negb (ty =? DIR_I) then ret (-1, None)
  else
    x <- get_file f ;;
    v <- dentry_inode (f_dentry x) ;;
    let* (r, e, off) := on_fs (viop_readdir i_ops v (f_offset x)) in
    upd_file f (set_offset off) ;;
    ret (r, e).

Definition vfs_mkdir (path : list Z) : M state Z :=
  root <- gets vfs_root_dentry ;;
  let* (file_dentry, parent, miss_name) := lookup_final_dentry path root in
  if negb (file_dentry =? 0) then ret (-1)
  else
    basename <- get_base_name path ;;
    if negb (bool_decide (miss_name = basename)) then ret (-1)
    else
      new_dentry <- alloc_vfs_dentry basename 0 parent ;;
      parent_inode <- dentry_inode parent ;;
      new_dir_inode <- on_fs (viop_mkdir i_ops parent_inode new_dentry basename) ;;
      if new_dir_inode =? 0 then free_dentry_page new_dentry ;; ret (-1)
      else
        upd_dentry new_dentry (set_d_inode new_dir_inode) ;;
        upd_vinode new_dir_inode (fun v => set_ref (ref v + 1) v) ;;
        hash_put_dentry new_dentry ;;
        hash_put_vinode new_dir_inode ;;
        ret 0.

Definition vfs_closedir (f : Z) : M state Z :=
  ty <- file_type f ;;
  if negb (ty =? DIR_I) then ret (-1)
  else
    x <- get_file f ;;
    upd_dentry (f_dentry x) (fun d => set_d_ref (d_ref d - 1) d) ;;
    upd_file f (set_f_status FILE_CLOSED) ;;
    v <- dentry_inode (f_dentry x) ;;
    run_hook (viop_hook_closedir i_ops) v (f_dentry x) ;;
    ret 0.
End ops.
Arguments state : clear implicits.
End Vfs.
