(* ===== verification/RfsTypes.v ===== *)
(** * Invariants of the RAM disk file system

    [RfsInvariant] lists what a predicate on the file system's state has to
    satisfy for the primitive steps of [kernel/rfs.c] and [kernel/ramdev.c]:
    block transfers, the [iobuffer], the free map, the heaps of vinodes and
    dentries and the pages.  Every operation of the file system keeps such a
    predicate, from every state in it and for all arguments.

    [fs_typed] is one instance, what the declarations of the C code say: the disk
    has 128 blocks of 4096 bytes, the [iobuffer] and the pages of a directory
    4096 bytes, [addrs] of an inode 10 entries, the free map holds flags and
    covers the blocks of the disk. *)

From stdpp Require Import base gmap list numbers strings.
From Stdlib Require Import ZArith Lia.
From S2P Require Import Prelude Keeps Pmm Bytes Rfs RfsDisk Vfs.
Local Open Scope Z_scope.

(** A page the allocator handed out, or NULL. *)
Definition page_or_null (owned : Z -> Prop) (p : Z) : Prop := p = 0 \/ owned p.

(** [P] holds of the allocator, [owned] are the pages that may be given back, [vt]
    and [buf] what is known of vinodes and of the contents of block buffers. *)
Class RfsInvariant {A : Type} `{PA : PageAllocator A} (I : Rfs.state A -> Prop)
    (P : A -> Prop) (owned : Z -> Prop) (vt : vinode -> Prop) (buf : list Z -> Prop) := {
  ri_pages : forall s, I s -> P (Rfs.pages s);
  ri_set_pages : forall s a, I s -> P a -> I (Rfs.set_pages a s);
  ri_pa_alloc : keeps P pa_alloc (page_or_null owned);
  ri_pa_free : forall p, owned p -> keeps P (pa_free p) anything;
  ri_get_vinode : forall v, keeps I (Rfs.get_vinode v) vt;
  ri_upd_vinode : forall v f, (forall x, vt x -> vt (f x)) -> keeps I (Rfs.upd_vinode v f) anything;
  ri_new_vinode : forall p x, vt x -> keeps I (modify (fun s => Rfs.set_vinodes (<[p := x]> (Rfs.vinodes s)) s)) anything;
  ri_vinode_addrs : forall x y, length (addrs y) = 10%nat \/ length (addrs y) = length (addrs x) -> vt x -> vt y;
  ri_set_iobuffer : forall b, buf b -> keeps I (modify (Rfs.set_iobuffer b)) anything;
  ri_iobuffer : keeps I (gets Rfs.iobuffer) buf;
  ri_buffer : forall b b', length b' = length b -> buf b -> buf b';
  ri_block : forall b, length b = 4096%nat -> buf b;
  ri_read : forall b, keeps I (Rfs.ramdisk_read b) anything;
  ri_write : forall b, keeps I (Rfs.ramdisk_write b) anything;
  ri_alloc_block : keeps I Rfs.rfs_alloc_block anything;
  ri_free_block : forall b, keeps I (Rfs.rfs_free_block b) anything;
  ri_del_vinode : forall p s, I s -> I (Rfs.set_vinodes (delete p (Rfs.vinodes s)) s);
  ri_dentries : forall ds s, I s -> I (Rfs.set_dentries ds s);
  ri_new_cache : forall p c, keeps I (modify (fun s => Rfs.set_caches (<[p := c]> (Rfs.caches s)) s)) anything;
  ri_new_dir_page : forall p, keeps I (modify (fun s => Rfs.set_dir_pages (<[p := Rfs.iobuffer s]> (Rfs.dir_pages s)) s)) anything;
}.

Section invariant.
Context {A : Type} `{PA : PageAllocator A} (I : Rfs.state A -> Prop) (P : A -> Prop) (owned : Z -> Prop).
Context (vt : vinode -> Prop) (buf : list Z -> Prop) `{RI : !RfsInvariant I P owned vt buf} (garbage : Z -> vinode) (Hgarbage : forall p, vt (garbage p)).
Implicit Types s : Rfs.state A.

Lemma ri_alloc : keeps I Rfs.alloc_page (page_or_null owned).
Proof. apply (keeps_zoom _ P); [apply ri_pa_alloc|apply ri_pages|intros ? ?; apply ri_set_pages]. Qed.
Lemma ri_free p : owned p -> keeps I (Rfs.free_page p) anything.
Proof. intros Hp. apply (keeps_zoom _ P); [by apply ri_pa_free|apply ri_pages|intros ? ?; apply ri_set_pages]. Qed.
Lemma ri_new_dentry p d : keeps I (modify (fun s => Rfs.set_dentries (<[p := d]> (Rfs.dentries s)) s)) anything.
Proof. apply keeps_modify. intros s. apply ri_dentries. Qed.
Hint Resolve ri_alloc ri_free ri_get_vinode ri_set_iobuffer ri_iobuffer ri_read ri_write ri_alloc_block ri_free_block
  ri_new_vinode ri_new_dentry ri_new_cache ri_new_dir_page : keeps.
(** Updates that do not change [addrs]. *)
Hint Extern 1 (keeps _ (Rfs.upd_vinode _ _) _) => apply ri_upd_vinode; let x := fresh in intros x Hv; apply (ri_vinode_addrs x); [first [by right | by left]|exact Hv] : keeps.

(** ** Pages and buffers *)
Lemma alloc_object_keeps : keeps I Rfs.alloc_object owned.
Proof.
  unfold Rfs.alloc_object. keeps_step. keeps_step; [keeps_auto|]. apply keeps_ret.
  destruct H as [->|]; done.
Qed.

Lemma addr_at_keeps n i : keeps I (Rfs.addr_at n i) anything.
Proof. unfold Rfs.addr_at. keeps_auto. Qed.

Lemma to_iobuffer_keeps off bs : keeps I (Rfs.to_iobuffer off bs) anything.
Proof.
  unfold Rfs.to_iobuffer. keeps_step. destruct (splice off bs a) as [b|] eqn:E; [|by apply keeps_stop].
  apply (keeps_bind _ _ _ (fun x => x = b)); [by apply keeps_ret|]. intros ? ->. apply ri_set_iobuffer. apply (ri_buffer a); [|done]. by apply splice_length in E.
Qed.

Lemma from_iobuffer_keeps off n : keeps I (Rfs.from_iobuffer off n) anything.
Proof. unfold Rfs.from_iobuffer. keeps_auto. Qed.

Lemma iobuffer_ptr_keeps off : keeps I (Rfs.iobuffer_ptr off) anything.
Proof. unfold Rfs.iobuffer_ptr. keeps_auto. Qed.
Hint Resolve alloc_object_keeps addr_at_keeps to_iobuffer_keeps from_iobuffer_keeps iobuffer_ptr_keeps : keeps.

(** ** Inodes *)
Lemma bytes_dinode_addrs l : length (d_addrs (bytes_dinode l)) = 10%nat.
Proof.
  unfold bytes_dinode. pose proof (length_bytes_ints 14 l) as Hl.
  destruct (bytes_ints 14 l) as [|? [|? [|? [|? r]]]]; simpl in *; lia.
Qed.

Lemma rfs_read_dinode_keeps n :
  keeps I (Rfs.rfs_read_dinode n) (fun x => owned (fst x) /\ length (d_addrs (snd x)) = 10%nat).
Proof. unfold Rfs.rfs_read_dinode. keeps_auto. split; [done|apply bytes_dinode_addrs]. Qed.
Hint Resolve rfs_read_dinode_keeps : keeps.

Lemma rfs_write_dinode_keeps d n : keeps I (Rfs.rfs_write_dinode d n) anything.
Proof. unfold Rfs.rfs_write_dinode. keeps_auto. Qed.
Hint Resolve rfs_write_dinode_keeps : keeps.

Lemma rfs_write_back_vinode_keeps v : keeps I (Rfs.rfs_write_back_vinode v) anything.
Proof. unfold Rfs.rfs_write_back_vinode. keeps_auto. Qed.

Lemma rfs_update_vinode_keeps v : keeps I (Rfs.rfs_update_vinode v) anything.
Proof.
  unfold Rfs.rfs_update_vinode. keeps_auto.
Qed.

Lemma rfs_alloc_vinode_keeps sb : keeps I (Rfs.rfs_alloc_vinode garbage sb) owned.
Proof.
  unfold Rfs.rfs_alloc_vinode, Rfs.default_alloc_vinode. keeps_step. keeps_step; [|by keeps_step]. apply ri_new_vinode.
  apply (ri_vinode_addrs (garbage a)); [by right|done].
Qed.
Hint Resolve rfs_write_back_vinode_keeps rfs_update_vinode_keeps rfs_alloc_vinode_keeps : keeps.


Lemma rfs_add_direntry_keeps dir name n : keeps I (Rfs.rfs_add_direntry dir name n) anything.
Proof. unfold Rfs.rfs_add_direntry, Rfs.rfs_r1block, Rfs.rfs_w1block. keeps_auto. Qed.
Hint Resolve rfs_add_direntry_keeps : keeps.

(** ** Files *)
Lemma read_blocks_keeps n : forall f off w, keeps I (Rfs.read_blocks n f off w) anything.
Proof. induction n as [|n IH]; intros; cbn [Rfs.read_blocks]; unfold Rfs.rfs_r1block; keeps_auto. Qed.
Hint Resolve read_blocks_keeps : keeps.

Lemma rfs_read_keeps f len off : keeps I (Rfs.rfs_read f len off) anything.
Proof. unfold Rfs.rfs_read, Rfs.rfs_r1block. keeps_auto. Qed.

Lemma block_for_write_keeps f off : keeps I (Rfs.block_for_write f off) anything.
Proof.
  unfold Rfs.block_for_write. keeps_auto. apply ri_upd_vinode. intros x. apply ri_vinode_addrs. right. simpl. by rewrite length_insert.
Qed.
Hint Resolve block_for_write_keeps : keeps.

Lemma write_block_keeps f w o b n : keeps I (Rfs.write_block f w o b n) anything.
Proof. unfold Rfs.write_block, Rfs.from_user, Rfs.rfs_w1block. keeps_auto. Qed.
Hint Resolve write_block_keeps : keeps.

Lemma write_blocks_keeps n : forall f w o b, keeps I (Rfs.write_blocks n f w o b) anything.
Proof. induction n as [|n IH]; intros; cbn [Rfs.write_blocks]; keeps_auto. Qed.
Hint Resolve write_blocks_keeps : keeps.

Lemma write_first_keeps f w len al b k : keeps I (Rfs.write_first f w len al b k) anything.
Proof. unfold Rfs.write_first, Rfs.from_user, Rfs.rfs_r1block, Rfs.rfs_w1block. keeps_auto. Qed.
Hint Resolve write_first_keeps : keeps.

Lemma rfs_write_keeps f w len off : keeps I (Rfs.rfs_write f w len off) anything.
Proof. unfold Rfs.rfs_write. keeps_auto. Qed.

Lemma rfs_lseek_keeps f n w o : keeps I (Rfs.rfs_lseek f n w o) anything.
Proof. unfold Rfs.rfs_lseek. keeps_auto. Qed.

Lemma rfs_disk_stat_keeps v : keeps I (Rfs.rfs_disk_stat v) anything.
Proof. unfold Rfs.rfs_disk_stat. keeps_auto. Qed.

(** ** Directories *)
Lemma find_direntry_keeps n : forall d name i, keeps I (Rfs.find_direntry n d name i) anything.
Proof. induction n as [|n IH]; intros; cbn [Rfs.find_direntry]; unfold Rfs.rfs_r1block; keeps_auto. Qed.
Lemma direntry_inum_keeps i : keeps I (Rfs.direntry_inum i) anything.
Proof. unfold Rfs.direntry_inum. keeps_auto. Qed.
Hint Resolve find_direntry_keeps direntry_inum_keeps : keeps.

Lemma rfs_lookup_keeps d name : keeps I (Rfs.rfs_lookup garbage d name) anything.
Proof. unfold Rfs.rfs_lookup. keeps_auto. Qed.

Lemma find_free_dinode_keeps n : forall i p, keeps I (Rfs.find_free_dinode n i p)
  (fun r => match r with (p, Some _) => owned p | (_, None) => True end).
Proof.
  induction n as [|n IH]; intros i p; cbn [Rfs.find_free_dinode]; [keeps_auto|]. keeps_auto.
Qed.

Lemma new_dinode_keeps msg ty : keeps I (Rfs.new_dinode msg ty) anything.
Proof.
  unfold Rfs.new_dinode, Rfs.use_dinode. eapply keeps_bind; [apply find_free_dinode_keeps|].
  intros [p [[d i]|]] Hp; keeps_auto.
Qed.
Hint Resolve new_dinode_keeps : keeps.

Lemma rfs_create_keeps d name : keeps I (Rfs.rfs_create garbage d name) anything.
Proof. unfold Rfs.rfs_create. keeps_auto. Qed.
Lemma rfs_mkdir_keeps d name : keeps I (Rfs.rfs_mkdir garbage d name) anything.
Proof. unfold Rfs.rfs_mkdir. keeps_auto. Qed.
Lemma rfs_link_keeps d name l : keeps I (Rfs.rfs_link d name l) anything.
Proof. unfold Rfs.rfs_link. keeps_auto. Qed.

Lemma free_blocks_keeps l : keeps I (Rfs.free_blocks l) anything.
Proof. induction l as [|x l IH]; cbn [Rfs.free_blocks]; keeps_auto. Qed.
Hint Resolve free_blocks_keeps : keeps.

Lemma move_length dst src n l l' : Rfs.move dst src n l = Some l' -> length l' = length l.
Proof.
  unfold Rfs.move. destruct (slice src n l) as [bs|]; [|done]. simpl. apply splice_length.
Qed.

Lemma of_option_splice_keeps why off bs l : buf l -> keeps I (of_option why (splice off bs l)) buf.
Proof.
  intros Hl. apply (keeps_of_option _ _ (fun _ => _)). intros s l' _ E. apply (ri_buffer l); [|done]. by apply splice_length in E.
Qed.
Lemma of_option_move_keeps why dst src n l : buf l -> keeps I (of_option why (Rfs.move dst src n l)) buf.
Proof.
  intros Hl. apply (keeps_of_option _ _ (fun _ => _)). intros s l' _ E. apply (ri_buffer l); [|done]. by apply move_length in E.
Qed.
Hint Resolve of_option_splice_keeps of_option_move_keeps : keeps.

Lemma shift_blocks_keeps n : forall d i p b, owned p -> buf b ->
  keeps I (Rfs.shift_blocks n d i p b) (fun r => owned (fst r) /\ buf (snd r)).
Proof.
  induction n as [|n IH]; intros d i p b Hp Hb; cbn [Rfs.shift_blocks]; unfold Rfs.rfs_r1block, Rfs.rfs_w1block; [by apply keeps_ret|].
  keeps_auto.
Qed.
Hint Resolve shift_blocks_keeps : keeps.

Lemma unlink_inode_keeps n u : keeps I (Rfs.unlink_inode n u) anything.
Proof. unfold Rfs.unlink_inode. keeps_auto. Qed.

Lemma unlink_direntry_keeps d i : keeps I (Rfs.unlink_direntry d i) anything.
Proof.
  unfold Rfs.unlink_direntry, Rfs.rfs_r1block, Rfs.rfs_w1block. keeps_auto.
Qed.
Hint Resolve unlink_inode_keeps unlink_direntry_keeps : keeps.

Lemma rfs_unlink_keeps d name u : keeps I (Rfs.rfs_unlink d name u) anything.
Proof. unfold Rfs.rfs_unlink. keeps_auto. Qed.

Lemma read_dir_blocks_keeps n : forall d p, keeps I (Rfs.read_dir_blocks n d p) anything.
Proof. induction n as [|n IH]; intros; cbn [Rfs.read_dir_blocks]; unfold Rfs.rfs_r1block; keeps_auto. Qed.
Hint Resolve read_dir_blocks_keeps : keeps.

Lemma rfs_hook_opendir_keeps d : keeps I (Rfs.rfs_hook_opendir d) anything.
Proof. unfold Rfs.rfs_hook_opendir. keeps_auto. Qed.

Lemma rfs_readdir_keeps d off : keeps I (Rfs.rfs_readdir d off) anything.
Proof. unfold Rfs.rfs_readdir, Rfs.get_cache. keeps_auto. Qed.

(** ** Format and mount *)
Lemma empty_inodes_keeps n : forall off, keeps I (Rfs.empty_inodes n off) anything.
Proof. induction n as [|n IH]; intros; cbn [Rfs.empty_inodes]; keeps_auto. Qed.
Lemma write_inode_blocks_keeps n : forall b, keeps I (Rfs.write_inode_blocks n b) anything.
Proof. induction n as [|n IH]; intros; cbn [Rfs.write_inode_blocks]; unfold Rfs.rfs_w1block; keeps_auto. Qed.
Hint Resolve empty_inodes_keeps write_inode_blocks_keeps : keeps.

Lemma rfs_format_dev_keeps uninit : keeps I (Rfs.rfs_format_dev uninit) anything.
Proof. unfold Rfs.rfs_format_dev, Rfs.rfs_w1block. keeps_auto. by apply ri_set_iobuffer, ri_block. Qed.

Lemma alloc_vfs_dentry_keeps name v d : keeps I (Rfs.alloc_vfs_dentry name v d) owned.
Proof. unfold Rfs.alloc_vfs_dentry. keeps_auto. Qed.

(** Closing a directory gives back the pages its cache names. *)
Lemma free_dir_blocks_keeps n : (forall p, owned p) -> forall p, keeps I (Rfs.free_dir_blocks n p) anything.
Proof. intros Hall. induction n as [|n IH]; intros; cbn [Rfs.free_dir_blocks]; keeps_auto. Qed.

Lemma rfs_hook_closedir_keeps d : (forall p, owned p) -> keeps I (Rfs.rfs_hook_closedir d) anything.
Proof.
  intros Hall. unfold Rfs.rfs_hook_closedir, Rfs.get_cache. keeps_step. keeps_step; [keeps_auto|]. keeps_step; [|keeps_auto].
  by apply free_dir_blocks_keeps.
Qed.
End invariant.

(** ** Tables of file system operations *)
Record ops_keep {A : Type} (I : Rfs.state A -> Prop) (o : vinode_ops A) : Prop := {
  ok_read : forall v n off, keeps I (viop_read o v n off) anything;
  ok_write : forall v w n off, keeps I (viop_write o v w n off) anything;
  ok_create : forall v d name, keeps I (viop_create o v d name) anything;
  ok_lseek : forall v n w off, keeps I (viop_lseek o v n w off) anything;
  ok_disk_stat : forall v, keeps I (viop_disk_stat o v) anything;
  ok_link : forall v name l, keeps I (viop_link o v name l) anything;
  ok_unlink : forall v name l, keeps I (viop_unlink o v name l) anything;
  ok_lookup : forall v d name, keeps I (viop_lookup o v d name) anything;
  ok_readdir : forall v off, keeps I (viop_readdir o v off) anything;
  ok_mkdir : forall v d name, keeps I (viop_mkdir o v d name) anything;
  ok_write_back : forall v, keeps I (viop_write_back_vinode o v) anything;
  ok_hooks : forall h, h = viop_hook_open o \/ h = viop_hook_close o \/ h = viop_hook_opendir o \/ h = viop_hook_closedir o ->
    forall f v d, h = Some f -> keeps I (f v d) anything;
}.

Section rfs_table.
Context {A : Type} `{PA : PageAllocator A} (I : Rfs.state A -> Prop) (P : A -> Prop).
Context (vt : vinode -> Prop) (buf : list Z -> Prop) `{RI : !RfsInvariant I P anything vt buf}.
Context (garbage : Z -> vinode) (Hgarbage : forall p, vt (garbage p)).

Lemma rfs_i_ops_keep : ops_keep I (rfs_i_ops garbage).
Proof.
  split; intros; simpl in *.
  - by eapply rfs_read_keeps.
  - by eapply rfs_write_keeps.
  - by eapply rfs_create_keeps.
  - by eapply rfs_lseek_keeps.
  - by eapply rfs_disk_stat_keeps.
  - by eapply rfs_link_keeps.
  - by eapply rfs_unlink_keeps.
  - by eapply rfs_lookup_keeps.
  - by eapply rfs_readdir_keeps.
  - by eapply rfs_mkdir_keeps.
  - by eapply rfs_write_back_vinode_keeps.
  - destruct H as [->|[->|[->| ->]]]; try done; injection H0 as <-.
    + by eapply rfs_hook_opendir_keeps.
    + eapply rfs_hook_closedir_keeps; [exact RI|]. intros ?. exact Logic.I.
Qed.
End rfs_table.

(** ** The shapes the declarations give *)
Definition vinode_typed (v : vinode) : Prop := length (addrs v) = 10%nat.
Definition block_typed (b : list Z) : Prop := length b = 4096%nat.
Definition flag (x : Z) : Prop := x = 0 \/ x = 1.

Section typed.
(** [fm] is what is known of the number of blocks and the free map. *)
Context {A : Type} `{PA : PageAllocator A} (fm : Z -> list Z -> Prop) (P : A -> Prop).

Record fs_shape (s : Rfs.state A) : Prop := {
  ft_disk : disk_ok s;
  ft_freemap : fm (Rfs.nblocks s) (Rfs.freemap s);
  ft_vinodes : map_Forall (fun _ v => vinode_typed v) (Rfs.vinodes s);
  ft_dir_pages : map_Forall (fun _ l => block_typed l) (Rfs.dir_pages s);
  ft_pages : P (Rfs.pages s);
}.

Context (Hfm : forall n l i b, flag b -> fm n l -> fm n (<[i := b]> l)).
Context (Halloc : keeps P pa_alloc anything) (Hfree : forall p, keeps P (pa_free p) anything).

Lemma ramdisk_read_typed b : keeps fs_shape (Rfs.ramdisk_read b) anything.
Proof.
  intros s [(? & Hf & ?)]. unfold Rfs.ramdisk_read. destruct (_ || _); [done|]. unfold bind.
  destruct (Rfs.disk s !! Z.to_nat b) as [l|] eqn:E; [|done]. simpl. split; [|done].
  split; try done. split_and!; try done. simpl. by eapply (Forall_lookup_1 _ _ _ _ Hf).
Qed.

Lemma ramdisk_write_typed b : keeps fs_shape (Rfs.ramdisk_write b) anything.
Proof.
  intros s [(? & Hf & ?)]. unfold Rfs.ramdisk_write. destruct (_ || _); [done|]. simpl. split; [|done].
  split; try done. split_and!; simpl; [by rewrite length_insert|by apply Forall_insert|done].
Qed.

Lemma rfs_alloc_block_typed : keeps fs_shape Rfs.rfs_alloc_block anything.
Proof.
  intros s Hs. unfold Rfs.rfs_alloc_block. rewrite !bind_gets. destruct (_ <? _); [done|]. destruct (Rfs.find_free _ _); [|done].
  destruct Hs. split; [|done]. split; try done. apply Hfm; [by right|done].
Qed.

Lemma rfs_free_block_typed b : keeps fs_shape (Rfs.rfs_free_block b) anything.
Proof.
  intros s Hs. unfold Rfs.rfs_free_block. rewrite !bind_gets. cbv zeta. destruct (_ || _); [done|].
  destruct Hs. split; [|done]. split; try done. apply Hfm; [by left|done].
Qed.

#[export] Instance fs_shape_invariant : RfsInvariant fs_shape P anything vinode_typed block_typed.
Proof.
  split.
  - by intros s [].
  - intros s a [] Ha. by split.
  - apply (keeps_mono _ _ anything); [done|by right].
  - intros p _. apply Hfree.
  - intros v. apply keeps_of_option. intros s x [] E. by eapply ft_vinodes0.
  - intros v f Hf. apply keeps_modify. intros s []. split; try done. intros k x. simpl. rewrite lookup_alter_Some.
    intros [(-> & y & Hy & ->)|[_ Hk]]; [apply Hf; by eapply ft_vinodes0|by eapply ft_vinodes0].
  - intros p x Hx. apply keeps_modify. intros s []. split; try done. by apply map_Forall_insert_2.
  - unfold vinode_typed. intros x y [?|?] ?; congruence.
  - intros b Hb. apply keeps_modify. by intros s [(? & ? & _)].
  - apply keeps_gets. by intros s [(? & ? & ?)].
  - unfold block_typed. intros b b' ? ?. congruence.
  - done.
  - apply ramdisk_read_typed.
  - apply ramdisk_write_typed.
  - apply rfs_alloc_block_typed.
  - apply rfs_free_block_typed.
  - intros p s []. split; try done. by apply map_Forall_delete.
  - by intros ds s [].
  - intros p c. apply keeps_modify. by intros s [].
  - intros p. apply keeps_modify. intros s [(? & ? & ?)]. split; try done. by apply map_Forall_insert_2.
Qed.
End typed.

(** A free map of flags that covers the blocks: the shape of a mounted disk. *)
Definition map_typed (n : Z) (l : list Z) : Prop := n <= Z.of_nat (length l) /\ Forall flag l.
Notation fs_typed := (fs_shape map_typed).

Lemma map_typed_set n l i b : flag b -> map_typed n l -> map_typed n (<[i := b]> l).
Proof. intros Hb [Hn Hl]. split; [by rewrite length_insert|by apply Forall_insert]. Qed.
