(* ===== verification/VfsSpec.v ===== *)
(** * What the virtual file system promises

    Paths are split at slashes; a path whose components are cached is resolved
    without touching the file system; opening and closing keep the reference
    counts of dentry and inode, also of inodes with several hard links, and
    write the inode back with the last one. *)

From stdpp Require Import base gmap list numbers strings.
From Stdlib Require Import ZArith Lia.
From S2P Require Import Prelude Pmm HashTable Bytes Rfs RfsDisk RfsFile RfsDir RfsSpec Vfs.
Local Open Scope Z_scope.

(** ** Paths *)
Definition is_name (t : list Z) : Prop := t <> [] /\ SLASH ∉ t.

Lemma strchr_slash c : strchr [SLASH] c = (SLASH =? c) || (c =? 0).
Proof. simpl. destruct (SLASH =? c), (c =? 0); done. Qed.

Lemma strchr_name t c : is_name t -> no_nul t -> c ∈ t -> strchr [SLASH] c = false.
Proof.
  intros [_ Hs] Hn Hc. rewrite strchr_slash. unfold no_nul in Hn. rewrite Forall_forall in Hn. specialize (Hn c Hc).
  destruct (Z.eqb_spec SLASH c) as [<-|]; [done|]. by destruct (Z.eqb_spec c 0).
Qed.

Lemma token_end_name t rest : (forall c, c ∈ t -> strchr [SLASH] c = false) ->
  (rest = [] \/ exists r, rest = SLASH :: r) ->
  token_end [SLASH] (t ++ rest) = (t, match rest with [] => None | _ :: r => Some r end).
Proof.
  intros Ht Hr. induction t as [|c t IH].
  - by destruct Hr as [->|[r ->]].
  - cbn [app token_end]. rewrite Ht by apply list_elem_of_here. rewrite IH; [done|].
    intros c' Hc'. apply Ht. by apply list_elem_of_further.
Qed.

Definition path_of (ts : list (list Z)) : list Z := concat (map (cons SLASH) ts).

(** The string that remains after some tokens: the rest of the path, with or
    without its leading slash. *)
Lemma strtok_all_path ts : forall fuel, Forall is_name ts -> Forall no_nul ts -> (length ts < fuel)%nat ->
  strtok_all fuel (Some (path_of ts)) [SLASH] = ts /\
  strtok_all fuel (match path_of ts with [] => None | _ :: r => Some r end) [SLASH] = ts.
Proof.
  induction ts as [|t ts IH]; intros fuel Hn Hz Hf.
  - destruct fuel; [lia|]. done.
  - destruct fuel as [|fuel]; [lia|]. apply Forall_cons in Hn as [Ht Hn]. apply Forall_cons in Hz as [Htz Hz].
    simpl in Hf. destruct (IH fuel Hn Hz ltac:(lia)) as [_ IH2].
    change (path_of (t :: ts)) with (SLASH :: t ++ path_of ts).
    assert (token_end [SLASH] (t ++ path_of ts) = (t, match path_of ts with [] => None | _ :: r => Some r end)) as Hte.
    { apply token_end_name; [intros c; by apply strchr_name|]. destruct ts as [|t' ts]; [by left|right].
      by exists (t' ++ path_of ts). }
    assert (skip_delims [SLASH] (t ++ path_of ts) = t ++ path_of ts) as Hsk.
    { pose proof Ht as [Hne _]. destruct t as [|c t]; [done|]. cbn [app skip_delims].
      rewrite (strchr_name (c :: t) c); [done|done|done|apply list_elem_of_here]. }
    assert (strtok (Some (t ++ path_of ts)) [SLASH] = (Some t, match path_of ts with [] => None | _ :: r => Some r end)) as Hst.
    { unfold strtok. rewrite Hsk. pose proof Ht as [Hne _]. destruct t as [|c t]; [done|]. cbn [app] in *. by rewrite Hte. }
    split; cbn [strtok_all].
    + replace (strtok (Some (SLASH :: t ++ path_of ts)) [SLASH]) with (strtok (Some (t ++ path_of ts)) [SLASH]) by done.
      by rewrite Hst, IH2.
    + by rewrite Hst, IH2.
Qed.

Lemma tokens_path ts : Forall is_name ts -> Forall no_nul ts -> tokens (path_of ts) = ts.
Proof.
  intros Hn Hz. apply strtok_all_path; [done|done|]. clear Hz. induction Hn as [|t ts [Ht _] _ IH]; [simpl; lia|].
  change (path_of (t :: ts)) with (SLASH :: t ++ path_of ts). simpl. rewrite length_app. lia.
Qed.

Section vfs.
Context {A : Type} `{PA : PageAllocator A}.
Implicit Types s : Vfs.state A.
Context (i_ops : vinode_ops A).

(** The dentry cache as a function. *)
Definition cached s (parent : Z) (name : list Z) : Z := Hash.denote (Vfs.dentry_table s) (VfsHash.mk_dkey parent name).
Definition table_ok s : Prop := length (Vfs.dentry_hash_table s) = Z.to_nat HASH_TABLE_SIZE.

Lemma hash_get_dentry_eq s parent name :
  table_ok s -> Vfs.hash_get_dentry parent name s = Ret (cached s parent name) s.
Proof.
  intros Hok. unfold Vfs.hash_get_dentry, Vfs.on_dentry_table, zoom, VfsHash.hash_get_dentry, Hash.default_get, bind, cached, Hash.denote, Hash.get_chain.
  pose proof (hk_func_range (VfsHash.mk_dkey parent name)) as Hr.
  destruct (lookup_lt_is_Some_2 (Hash.head (Vfs.dentry_table s)) (Z.to_nat (hk_func (VfsHash.mk_dkey parent name)))) as [c Hc].
  { change (Hash.head (Vfs.dentry_table s)) with (Vfs.dentry_hash_table s). unfold table_ok in Hok. lia. }
  rewrite Hc. cbn. f_equal. unfold Vfs.set_dentry_table, Vfs.dentry_table. cbn. destruct s as [f]. cbn. f_equal. by destruct f.
Qed.

(** [resolves s d ts p d']: from dentry [d] the names lead to [d'] through the
    cache; [p] is the dentry before the last name. *)
Inductive resolves s : Z -> list (list Z) -> Z -> Z -> Prop :=
  | resolves_one d t d' : cached s d t = d' -> d' <> 0 -> resolves s d [t] d d'
  | resolves_step d t d1 ts p d' : cached s d t = d1 -> d1 <> 0 -> resolves s d1 ts p d' -> resolves s d (t :: ts) p d'.


Lemma walk_cached s d ts p d' parent : table_ok s -> resolves s d ts p d' -> Vfs.walk i_ops ts parent d s = Ret (d', p, []) s.
Proof.
  intros Hok Hr. revert parent. induction Hr as [d t d' Hc Hne|d t d1 ts p d' Hc Hne Hr IH]; intros parent; cbn [Vfs.walk];
    mstep (hash_get_dentry_eq s d t Hok); rewrite Hc.
  - by destruct (Z.eqb_spec d' 0).
  - destruct (Z.eqb_spec d1 0); [done|]. apply IH.
Qed.

Lemma lookup_cached s d ts p d' :
  table_ok s -> Forall is_name ts -> Forall no_nul ts -> Z.of_nat (length (path_of ts)) < MAX_PATH_LEN ->
  resolves s d ts p d' -> Vfs.lookup_final_dentry i_ops (path_of ts) d s = Ret (d', p, []) s.
Proof.
  intros Hok Hn Hz Hl Hr. unfold Vfs.lookup_final_dentry, Vfs.path_tokens.
  destruct (Z.leb_spec MAX_PATH_LEN (Z.of_nat (length (path_of ts)))); [lia|]. rewrite bind_ret_l, tokens_path by done.
  by apply walk_cached.
Qed.

(** ** The two caches over one allocator *)
Record caches_ok (dt : list (list (Hash.node VfsHash.dentry_key))) (vt : list (list (Hash.node VfsHash.vinode_key)))
    (a : A) (F : list Z) : Prop := {
  co_dentries : Hash.inv (Hash.mk dt a) F;
  co_vinodes : Hash.inv (Hash.mk vt a) F;
  co_distinct : NoDup (Hash.addrs dt ++ Hash.addrs vt ++ F);
}.

Lemma nodup_part {T} (l1 l2 l3 l4 : list T) : l1 ++ l2 ≡ₚ l3 ++ l4 -> NoDup (l1 ++ l2) -> NoDup l3.
Proof. intros Hp Hn. rewrite Hp in Hn. by apply NoDup_app in Hn as [? _]. Qed.

Lemma caches_free dt vt a F p :
  caches_ok dt vt a F -> pa_page a p -> (p ∉ Hash.addrs dt ++ Hash.addrs vt ++ F) ->
  exists a', pa_free p a = Ret tt a' /\ caches_ok dt vt a' (p :: F) /\ (forall q, pa_page a' q <-> pa_page a q).
Proof.
  intros [H1 H2 H3] Hp Hni. pose proof H1 as (_ & Hrep & _). cbn [Hash.pages] in Hrep.
  destruct (pa_free_ok _ p F Hrep Hp) as (a' & Heq & Hrep' & Hpg); [intros H; apply Hni; rewrite !elem_of_app; tauto|].
  exists a'. split_and!; try done.
  assert (NoDup (Hash.addrs dt ++ Hash.addrs vt ++ p :: F)) as Hnd.
  { rewrite <- (Permutation_middle (Hash.addrs vt)), <- (Permutation_middle (Hash.addrs dt)). by apply NoDup_cons. }
  split; [| |done].
  - apply (Hash.inv_set_pages (Hash.mk dt a) F); try done. cbn [Hash.head].
    apply (nodup_part (Hash.addrs dt ++ Hash.addrs vt) (p :: F) _ (Hash.addrs vt)); [|by rewrite <- app_assoc].
    rewrite <- !app_assoc. apply Permutation_app_head, Permutation_app_comm.
  - apply (Hash.inv_set_pages (Hash.mk vt a) F); try done. cbn [Hash.head]. by apply NoDup_app in Hnd as (_ & _ & ?).
Qed.

(** The allocator hands out pages. *)
Lemma caches_take dt vt a F0 a' F :
  caches_ok dt vt a F0 -> pa_rep a' F -> (forall q, pa_page a' q <-> pa_page a q) -> F ⊆+ F0 -> caches_ok dt vt a' F.
Proof.
  intros [H1 H2 H3] Hrep Hpg (R & HR)%submseteq_Permutation. rewrite HR in H3.
  rewrite (app_assoc (Hash.addrs vt)), app_assoc in H3. apply NoDup_app in H3 as [H3 _].
  split; [| |done].
  - apply (Hash.inv_set_pages (Hash.mk dt a) F0); try done. cbn [Hash.head].
    apply (nodup_part (Hash.addrs dt ++ Hash.addrs vt) F _ (Hash.addrs vt)); [|by rewrite <- app_assoc].
    rewrite <- !app_assoc. apply Permutation_app_head, Permutation_app_comm.
  - apply (Hash.inv_set_pages (Hash.mk vt a) F0); try done. cbn [Hash.head]. by apply NoDup_app in H3 as (_ & _ & ?).
Qed.

Lemma caches_erase_dentry dt vt a F k :
  caches_ok dt vt a F -> Hash.denote (Hash.mk dt a) k <> 0 ->
  exists q dt' a', Hash.default_erase k (Hash.mk dt a) = Ret 0 (Hash.mk dt' a') /\ caches_ok dt' vt a' (q :: F) /\
    Hash.addrs dt ≡ₚ q :: Hash.addrs dt' /\ (forall p, pa_page a' p <-> pa_page a p) /\
    (forall k', Hash.denote (Hash.mk dt' a') k' = if hk_equal k k' then 0 else Hash.denote (Hash.mk dt a) k').
Proof.
  intros [H1 H2 H3] Hd. destruct (Hash.erase_present _ F k H1 Hd) as (r & [dt' a'] & Heq & -> & (q & Hinv & Hp & Hpg) & Hden).
  cbn [Hash.head Hash.pages] in *. exists q, dt', a'. split_and!; try done.
  assert (NoDup (Hash.addrs dt' ++ Hash.addrs vt ++ q :: F)) as Hnd.
  { rewrite <- (Permutation_middle (Hash.addrs vt)), <- (Permutation_middle (Hash.addrs dt')). rewrite Hp in H3. done. }
  split; [done| |done].
  pose proof Hinv as (_ & Hrep' & _). cbn [Hash.pages] in Hrep'.
  apply (Hash.inv_set_pages (Hash.mk vt a) F); try done. by apply NoDup_app in Hnd as (_ & _ & ?).
Qed.

Lemma caches_erase_vinode dt vt a F k :
  caches_ok dt vt a F -> Hash.denote (Hash.mk vt a) k <> 0 ->
  exists q vt' a', Hash.default_erase k (Hash.mk vt a) = Ret 0 (Hash.mk vt' a') /\ caches_ok dt vt' a' (q :: F) /\
    Hash.addrs vt ≡ₚ q :: Hash.addrs vt' /\ (forall p, pa_page a' p <-> pa_page a p) /\
    (forall k', Hash.denote (Hash.mk vt' a') k' = if hk_equal k k' then 0 else Hash.denote (Hash.mk vt a) k').
Proof.
  intros [H1 H2 H3] Hd. destruct (Hash.erase_present _ F k H2 Hd) as (r & [vt' a'] & Heq & -> & (q & Hinv & Hp & Hpg) & Hden).
  cbn [Hash.head Hash.pages] in *. exists q, vt', a'. split_and!; try done.
  assert (NoDup (Hash.addrs dt ++ Hash.addrs vt' ++ q :: F)) as Hnd.
  { rewrite <- (Permutation_middle (Hash.addrs vt')). rewrite Hp in H3. done. }
  split; [|done|done].
  pose proof Hinv as (_ & Hrep' & _). cbn [Hash.pages] in Hrep'.
  apply (Hash.inv_set_pages (Hash.mk dt a) F); try done. cbn [Hash.head].
  apply (nodup_part (Hash.addrs dt ++ Hash.addrs vt') (q :: F) _ (Hash.addrs vt')); [|by rewrite <- app_assoc].
  rewrite <- !app_assoc. apply Permutation_app_head, Permutation_app_comm.
Qed.

(** ** Reading the objects *)
Lemma get_dentry_eq s d x : Rfs.dentries (Vfs.fs s) !! d = Some x -> Vfs.get_dentry d s = Ret x s.
Proof. unfold Vfs.get_dentry. by intros ->. Qed.
Lemma get_file_eq s f x : Vfs.files s !! f = Some x -> Vfs.get_file f s = Ret x s.
Proof. unfold Vfs.get_file. by intros ->. Qed.
Lemma set_fs_id s : Vfs.set_fs (Vfs.fs s) s = s.
Proof. by destruct s. Qed.
Lemma get_vinode_eq s v x : Rfs.vinodes (Vfs.fs s) !! v = Some x -> Vfs.get_vinode v s = Ret x s.
Proof. intros H. unfold Vfs.get_vinode, Vfs.on_fs, zoom. rewrite (vinode_eq _ _ _ H). by rewrite set_fs_id. Qed.
Lemma dentry_inode_eq s d x : Rfs.dentries (Vfs.fs s) !! d = Some x -> Vfs.dentry_inode d s = Ret (d_inode x) s.
Proof. intros H. unfold Vfs.dentry_inode. by mstep (get_dentry_eq s d x H). Qed.
Lemma dentry_type_eq s d x v : Rfs.dentries (Vfs.fs s) !! d = Some x -> Rfs.vinodes (Vfs.fs s) !! d_inode x = Some v ->
  Vfs.dentry_type d s = Ret (type v) s.
Proof. intros H1 H2. unfold Vfs.dentry_type. mstep (dentry_inode_eq s d x H1). by mstep (get_vinode_eq s _ v H2). Qed.
Lemma file_type_eq s f y x v : Vfs.files s !! f = Some y -> Rfs.dentries (Vfs.fs s) !! f_dentry y = Some x ->
  Rfs.vinodes (Vfs.fs s) !! d_inode x = Some v -> Vfs.file_type f s = Ret (type v) s.
Proof. intros H0 H1 H2. unfold Vfs.file_type. mstep (get_file_eq s f y H0). by apply (dentry_type_eq s _ x). Qed.

Lemma alter_insert_map {T} (m : gmap Z T) k x g : m !! k = Some x -> alter g k m = <[k := g x]> m.
Proof.
  intros H. apply map_eq. intros j. destruct (decide (j = k)) as [->|Hne].
  - by rewrite lookup_alter_eq, lookup_insert_eq, H.
  - by rewrite lookup_alter_ne, lookup_insert_ne.
Qed.






(** A path of at most 29 characters made of names, each preceded by a slash,
    is split into exactly these names; a longer path overflows the copy that
    [lookup_final_dentry] and [get_base_name] make of it. *)
Theorem path_tokens_correct s ts :
  Forall is_name ts -> Forall no_nul ts ->
  Vfs.path_tokens (path_of ts) s =
    if decide (length (path_of ts) < 30)%nat then Ret ts s else Fault "path_copy overflow".
Proof.
  intros Hn Hz. unfold Vfs.path_tokens. rewrite tokens_path by done. change MAX_PATH_LEN with 30.
  destruct (Z.leb_spec 30 (Z.of_nat (length (path_of ts)))), (decide (length (path_of ts) < 30)%nat); try done; lia.
Qed.

(** Resolving a path all of whose components are cached gives the dentry the
    cache has for it and its parent, and changes nothing. *)
Theorem lookup_cached_path s d ts p d' :
  table_ok s -> Forall is_name ts -> Forall no_nul ts -> Z.of_nat (length (path_of ts)) < MAX_PATH_LEN ->
  resolves s d ts p d' -> Vfs.lookup_final_dentry i_ops (path_of ts) d s = Ret (d', p, []) s.
Proof. apply lookup_cached. Qed.

(** A dentry is given an inode that is not hashed. *)
Lemma bind_inode_unhashed s d x i v :
  Rfs.dentries (Vfs.fs s) !! d = Some x -> Rfs.vinodes (Vfs.fs s) !! i = Some v -> inum v < 0 ->
  (Vfs.upd_dentry d (Vfs.set_d_inode i) ;; Vfs.upd_vinode i (fun u => set_ref (ref u + 1) u) ;; Vfs.hash_put_vinode i ;; ret tt) s =
    Ret tt (Vfs.set_fs (Rfs.set_vinodes (<[i := set_ref (ref v + 1) v]> (Rfs.vinodes (Vfs.fs s)))
      (Rfs.set_dentries (<[d := Vfs.set_d_inode i x]> (Rfs.dentries (Vfs.fs s))) (Vfs.fs s))) s).
Proof.
  intros Hd Hv Hi. unfold Vfs.upd_dentry. rewrite bind_modify. rewrite (alter_insert_map _ _ _ _ Hd).
  set (s1 := Vfs.set_fs _ _). set (s2 := Vfs.set_fs (Rfs.set_vinodes _ _) _).
  rewrite (bind_Ret _ _ _ tt s2).
  - rewrite (bind_Ret _ _ _ (-1) s2); [done|]. unfold Vfs.hash_put_vinode.
    mstep (get_vinode_eq s2 i _ (lookup_insert_eq _ _ _)).
    unfold Vfs.on_vinode_table, zoom, VfsHash.hash_put_vinode. cbn [inum set_ref].
    destruct (Z.ltb_spec (inum v) 0); [done|lia].
  - unfold Vfs.upd_vinode, Vfs.on_fs, zoom, Rfs.upd_vinode, modify. unfold s2, s1, Vfs.set_fs.
    cbn [Vfs.fs Rfs.vinodes Rfs.set_dentries]. by rewrite (alter_insert_map _ _ _ _ Hv).
Qed.

(** ** Entering a dentry into the cache *)
Lemma put_dentry_eq s d x kp np F :
  Rfs.dentries (Vfs.fs s) !! d = Some x -> d <> 0 -> Hash.inv (Vfs.dentry_table s) (kp :: np :: F) ->
  cached s (d_parent x) (d_name x) = 0 ->
  exists dt a, Vfs.hash_put_dentry d s = Ret 0 (Vfs.set_dentry_table (Hash.mk dt a) s) /\ Hash.inv (Hash.mk dt a) F /\
    (forall k, Hash.denote (Hash.mk dt a) k =
       if bool_decide (k = VfsHash.mk_dkey (d_parent x) (d_name x)) then d else Hash.denote (Vfs.dentry_table s) k).
Proof.
  intros Hd Hne Hinv Hc. destruct (put_dentry_ok _ kp np F d (d_parent x) (d_name x) Hinv Hne) as (r & [dt a] & Heq & Hr).
  unfold cached in Hc. rewrite Hc in Hr. cbn [Z.eqb] in Hr. destruct Hr as (-> & Hinv' & Hden).
  exists dt, a. split; [|done]. unfold Vfs.hash_put_dentry. mstep (get_dentry_eq s d x Hd).
  unfold Vfs.on_dentry_table, zoom. by rewrite Heq.
Qed.

(** The same, and for a vinode, with both caches. *)
Lemma caches_put_dentry s d x kp np F :
  Rfs.dentries (Vfs.fs s) !! d = Some x -> d <> 0 ->
  caches_ok (Vfs.dentry_hash_table s) (Vfs.vinode_hash_table s) (Rfs.pages (Vfs.fs s)) (kp :: np :: F) ->
  cached s (d_parent x) (d_name x) = 0 ->
  exists dt a, Vfs.hash_put_dentry d s = Ret 0 (Vfs.set_dentry_table (Hash.mk dt a) s) /\
    caches_ok dt (Vfs.vinode_hash_table s) a F /\
    (forall k, Hash.denote (Hash.mk dt a) k =
       if hk_equal (VfsHash.mk_dkey (d_parent x) (d_name x)) k then d else Hash.denote (Vfs.dentry_table s) k) /\
    (forall q, pa_page a q <-> pa_page (Rfs.pages (Vfs.fs s)) q).
Proof.
  intros Hd Hne [H1 H2 H3] Hc. destruct (VfsHash.put_keyed _ kp np F _ d H1 Hc Hne) as ([dt a] & Heq & Hinv & Hden & Hp & Hpg).
  cbn [Hash.head Hash.pages] in *. exists dt, a. split_and!; try done.
  - unfold Vfs.hash_put_dentry. mstep (get_dentry_eq s d x Hd). unfold Vfs.on_dentry_table, zoom, VfsHash.hash_put_dentry.
    change (Vfs.dentry_table s) with (Hash.mk (Vfs.dentry_hash_table s) (Rfs.pages (Vfs.fs s))). by rewrite Heq.
  - pose proof Hinv as (_ & Hrep & _). cbn [Hash.pages] in Hrep.
    rewrite <- !Permutation_middle in H3. apply NoDup_cons in H3 as [_ H3]. apply NoDup_cons in H3 as [Hnp H3].
    split; [done| |rewrite Hp; by apply NoDup_cons].
    apply (Hash.inv_set_pages (Hash.mk (Vfs.vinode_hash_table s) (Rfs.pages (Vfs.fs s))) (kp :: np :: F)); try done.
    by apply NoDup_app in H3 as (_ & _ & ?).
Qed.

Lemma caches_put_vinode s v x kp np F :
  Rfs.vinodes (Vfs.fs s) !! v = Some x -> v <> 0 -> 0 <= inum x ->
  caches_ok (Vfs.dentry_hash_table s) (Vfs.vinode_hash_table s) (Rfs.pages (Vfs.fs s)) (kp :: np :: F) ->
  Hash.denote (Vfs.vinode_table s) (VfsHash.mk_vkey (Z.to_N (inum x)) (v_sb x)) = 0 ->
  exists vt a, Vfs.hash_put_vinode v s = Ret 0 (Vfs.set_vinode_table (Hash.mk vt a) s) /\
    caches_ok (Vfs.dentry_hash_table s) vt a F /\
    (forall k, Hash.denote (Hash.mk vt a) k =
       if hk_equal (VfsHash.mk_vkey (Z.to_N (inum x)) (v_sb x)) k then v else Hash.denote (Vfs.vinode_table s) k) /\
    (forall q, pa_page a q <-> pa_page (Rfs.pages (Vfs.fs s)) q).
Proof.
  intros Hd Hne Hi [H1 H2 H3] Hc. destruct (VfsHash.put_keyed _ kp np F _ v H2 Hc Hne) as ([vt a] & Heq & Hinv & Hden & Hp & Hpg).
  cbn [Hash.head Hash.pages] in *. exists vt, a. split_and!; try done.
  - unfold Vfs.hash_put_vinode. mstep (get_vinode_eq s v x Hd). unfold Vfs.on_vinode_table, zoom, VfsHash.hash_put_vinode.
    destruct (Z.ltb_spec (inum x) 0); [lia|].
    change (Vfs.vinode_table s) with (Hash.mk (Vfs.vinode_hash_table s) (Rfs.pages (Vfs.fs s))). by rewrite Heq.
  - pose proof Hinv as (_ & Hrep & _). cbn [Hash.pages] in Hrep.
    rewrite <- !Permutation_middle in H3. apply NoDup_cons in H3 as [_ H3]. pose proof H3 as H3'. apply NoDup_cons in H3' as [_ H3'].
    split; [|done|].
    + apply (Hash.inv_set_pages (Hash.mk (Vfs.dentry_hash_table s) (Rfs.pages (Vfs.fs s))) (kp :: np :: F)); try done.
      cbn [Hash.head]. apply (nodup_part (Hash.addrs (Vfs.dentry_hash_table s) ++ Hash.addrs (Vfs.vinode_hash_table s)) F _ (Hash.addrs (Vfs.vinode_hash_table s)));
        [|by rewrite <- app_assoc]. rewrite <- !app_assoc. apply Permutation_app_head, Permutation_app_comm.
    + rewrite Hp. cbn [app]. by rewrite <- Permutation_middle.
Qed.

(** ** Closing *)

(** The dentry [dp] and its vinode [d_inode x], which has [ref v] dentries in the
    cache: both are cached under their keys, and their pages are none of the
    free pages or of the nodes of the caches. *)
Record cached_file s (F : list Z) (dp : Z) (x : dentry) (v : vinode) : Prop := {
  sd_dentry : Rfs.dentries (Vfs.fs s) !! dp = Some x;
  sd_vinode : Rfs.vinodes (Vfs.fs s) !! d_inode x = Some v;
  sd_ref : 1 <= ref v;
  sd_caches : caches_ok (Vfs.dentry_hash_table s) (Vfs.vinode_hash_table s) (Rfs.pages (Vfs.fs s)) F;
  sd_cached : Hash.denote (Vfs.dentry_table s) (VfsHash.mk_dkey (d_parent x) (d_name x)) <> 0;
  sd_vcached : Hash.denote (Vfs.vinode_table s) (VfsHash.mk_vkey (Z.to_N (inum v)) (v_sb v)) <> 0;
  sd_pages : pa_page (Rfs.pages (Vfs.fs s)) dp /\ pa_page (Rfs.pages (Vfs.fs s)) (d_inode x);
  sd_distinct : NoDup (dp :: d_inode x :: Hash.addrs (Vfs.dentry_hash_table s) ++ Hash.addrs (Vfs.vinode_hash_table s) ++ F);
}.

Lemma erase_dentry_eq s d x F :
  Rfs.dentries (Vfs.fs s) !! d = Some x ->
  caches_ok (Vfs.dentry_hash_table s) (Vfs.vinode_hash_table s) (Rfs.pages (Vfs.fs s)) F ->
  Hash.denote (Vfs.dentry_table s) (VfsHash.mk_dkey (d_parent x) (d_name x)) <> 0 ->
  exists q dt a, Vfs.hash_erase_dentry d s =
      Ret 0 (Vfs.mk (Rfs.set_pages a (Vfs.fs s)) dt (Vfs.vinode_hash_table s) (Vfs.files s) (Vfs.vfs_root_dentry s)) /\
    caches_ok dt (Vfs.vinode_hash_table s) a (q :: F) /\ Hash.addrs (Vfs.dentry_hash_table s) ≡ₚ q :: Hash.addrs dt /\
    (forall p, pa_page a p <-> pa_page (Rfs.pages (Vfs.fs s)) p) /\
    (forall k, Hash.denote (Hash.mk dt a) k = if hk_equal (VfsHash.mk_dkey (d_parent x) (d_name x)) k then 0 else Hash.denote (Vfs.dentry_table s) k).
Proof.
  intros Hd Hc Hden. destruct (caches_erase_dentry _ _ _ _ _ Hc Hden) as (q & dt & a & Heq & Hc' & Hp & Hpg & Hd').
  exists q, dt, a. split_and!; try done. unfold Vfs.hash_erase_dentry. mstep (get_dentry_eq s d x Hd).
  unfold Vfs.on_dentry_table, zoom, VfsHash.hash_erase_dentry, Vfs.dentry_table. by rewrite Heq.
Qed.

Lemma erase_vinode_eq s vi v F :
  Rfs.vinodes (Vfs.fs s) !! vi = Some v -> 0 <= inum v ->
  caches_ok (Vfs.dentry_hash_table s) (Vfs.vinode_hash_table s) (Rfs.pages (Vfs.fs s)) F ->
  Hash.denote (Vfs.vinode_table s) (VfsHash.mk_vkey (Z.to_N (inum v)) (v_sb v)) <> 0 ->
  exists q vt a, Vfs.hash_erase_vinode vi s =
      Ret 0 (Vfs.mk (Rfs.set_pages a (Vfs.fs s)) (Vfs.dentry_hash_table s) vt (Vfs.files s) (Vfs.vfs_root_dentry s)) /\
    caches_ok (Vfs.dentry_hash_table s) vt a (q :: F) /\ Hash.addrs (Vfs.vinode_hash_table s) ≡ₚ q :: Hash.addrs vt /\
    (forall p, pa_page a p <-> pa_page (Rfs.pages (Vfs.fs s)) p) /\
    (forall k, Hash.denote (Hash.mk vt a) k = if hk_equal (VfsHash.mk_vkey (Z.to_N (inum v)) (v_sb v)) k then 0 else Hash.denote (Vfs.vinode_table s) k).
Proof.
  intros Hv Hi Hc Hden. destruct (caches_erase_vinode _ _ _ _ _ Hc Hden) as (q & vt & a & Heq & Hc' & Hp & Hpg & Hd').
  exists q, vt, a. split_and!; try done. unfold Vfs.hash_erase_vinode. mstep (get_vinode_eq s vi v Hv).
  unfold Vfs.on_vinode_table, zoom, VfsHash.hash_erase_vinode, Vfs.vinode_table. destruct (Z.ltb_spec (inum v) 0); [lia|]. by rewrite Heq.
Qed.

Lemma free_dentry_page_eq s d F :
  caches_ok (Vfs.dentry_hash_table s) (Vfs.vinode_hash_table s) (Rfs.pages (Vfs.fs s)) F ->
  pa_page (Rfs.pages (Vfs.fs s)) d -> (d ∉ Hash.addrs (Vfs.dentry_hash_table s) ++ Hash.addrs (Vfs.vinode_hash_table s) ++ F) ->
  exists a, Vfs.free_dentry_page d s =
      Ret tt (Vfs.set_fs (Rfs.set_dentries (delete d (Rfs.dentries (Vfs.fs s))) (Rfs.set_pages a (Vfs.fs s))) s) /\
    caches_ok (Vfs.dentry_hash_table s) (Vfs.vinode_hash_table s) a (d :: F) /\ (forall p, pa_page a p <-> pa_page (Rfs.pages (Vfs.fs s)) p).
Proof.
  intros Hc Hp Hni. destruct (caches_free _ _ _ _ d Hc Hp Hni) as (a & Heq & Hc' & Hpg). exists a. split_and!; try done.
  unfold Vfs.free_dentry_page. assert (Vfs.on_fs (Rfs.free_page d) s = Ret tt (Vfs.set_fs (Rfs.set_pages a (Vfs.fs s)) s)) as Hf
    by (unfold Vfs.on_fs, zoom, Rfs.free_page, zoom; by rewrite Heq).
  by mstep Hf.
Qed.

Lemma free_vinode_page_eq s vi F :
  caches_ok (Vfs.dentry_hash_table s) (Vfs.vinode_hash_table s) (Rfs.pages (Vfs.fs s)) F ->
  pa_page (Rfs.pages (Vfs.fs s)) vi -> (vi ∉ Hash.addrs (Vfs.dentry_hash_table s) ++ Hash.addrs (Vfs.vinode_hash_table s) ++ F) ->
  exists a, Vfs.free_vinode_page vi s =
      Ret tt (Vfs.set_fs (Rfs.set_vinodes (delete vi (Rfs.vinodes (Vfs.fs s))) (Rfs.set_pages a (Vfs.fs s))) s) /\
    caches_ok (Vfs.dentry_hash_table s) (Vfs.vinode_hash_table s) a (vi :: F) /\ (forall p, pa_page a p <-> pa_page (Rfs.pages (Vfs.fs s)) p).
Proof.
  intros Hc Hp Hni. destruct (caches_free _ _ _ _ vi Hc Hp Hni) as (a & Heq & Hc' & Hpg). exists a. split_and!; try done.
  unfold Vfs.free_vinode_page. assert (Vfs.on_fs (Rfs.free_page vi) s = Ret tt (Vfs.set_fs (Rfs.set_pages a (Vfs.fs s)) s)) as Hf
    by (unfold Vfs.on_fs, zoom, Rfs.free_page, zoom; by rewrite Heq).
  by mstep Hf.
Qed.
End vfs.

(** ** Closing files of RFS *)
Section rfs.
Context {A : Type} `{PA : PageAllocator A} (garbage : Z -> vinode).
Implicit Types s : Vfs.state A.

(** What the last close of the only dentry leaves: neither object is cached or in
    the heaps, the disk holds the inode, and four pages are free again. *)
Record released s (F : list Z) (dp : Z) (x : dentry) (v : vinode) s' : Prop := {
  rl_dentries : Rfs.dentries (Vfs.fs s') = delete dp (Rfs.dentries (Vfs.fs s));
  rl_vinodes : Rfs.vinodes (Vfs.fs s') = delete (d_inode x) (Rfs.vinodes (Vfs.fs s));
  rl_inode : dinode_at (Vfs.fs s') (inum v) = Rfs.vinode_dinode v;
  rl_others : forall m, valid_inode m -> m <> inum v -> dinode_at (Vfs.fs s') m = dinode_at (Vfs.fs s) m;
  rl_data : forall b, valid_block b -> 11 <= b -> block (Vfs.fs s') b = block (Vfs.fs s) b;
  rl_cache : forall k, Hash.denote (Vfs.dentry_table s') k =
    if hk_equal (VfsHash.mk_dkey (d_parent x) (d_name x)) k then 0 else Hash.denote (Vfs.dentry_table s) k;
  rl_vcache : forall k, Hash.denote (Vfs.vinode_table s') k =
    if hk_equal (VfsHash.mk_vkey (Z.to_N (inum v)) (v_sb v)) k then 0 else Hash.denote (Vfs.vinode_table s) k;
  rl_files : Vfs.files s' = Vfs.files s;
  rl_pages : exists q1 q2, caches_ok (Vfs.dentry_hash_table s') (Vfs.vinode_hash_table s') (Rfs.pages (Vfs.fs s'))
    (d_inode x :: q2 :: dp :: q1 :: F);
}.

(** What the last close of one of several dentries (hard links) leaves: the dentry
    is gone, the inode stays cached with one dentry less, and the disk is
    untouched. *)
Record detached s (F : list Z) (dp : Z) (x : dentry) (v : vinode) s' : Prop := {
  dt_dentries : Rfs.dentries (Vfs.fs s') = delete dp (Rfs.dentries (Vfs.fs s));
  dt_vinodes : Rfs.vinodes (Vfs.fs s') = <[d_inode x := set_ref (ref v - 1) v]> (Rfs.vinodes (Vfs.fs s));
  dt_disk : Rfs.disk (Vfs.fs s') = Rfs.disk (Vfs.fs s);
  dt_cache : forall k, Hash.denote (Vfs.dentry_table s') k =
    if hk_equal (VfsHash.mk_dkey (d_parent x) (d_name x)) k then 0 else Hash.denote (Vfs.dentry_table s) k;
  dt_vcache : Vfs.vinode_hash_table s' = Vfs.vinode_hash_table s;
  dt_files : Vfs.files s' = Vfs.files s;
  dt_pages : exists q, caches_ok (Vfs.dentry_hash_table s') (Vfs.vinode_hash_table s') (Rfs.pages (Vfs.fs s'))
    (dp :: q :: F);
}.

(** The first half of the last close: the dentry leaves the cache and is freed. *)
Lemma drop_dentry s F dp x v :
  cached_file s F dp x v -> d_ref x = 0 ->
  exists q dt a, let s2 := Vfs.mk (Rfs.set_dentries (delete dp (Rfs.dentries (Vfs.fs s))) (Rfs.set_pages a (Vfs.fs s)))
                     dt (Vfs.vinode_hash_table s) (Vfs.files s) (Vfs.vfs_root_dentry s) in
    (forall K : M (Vfs.state A) unit, (bind (Vfs.hash_erase_dentry dp) (fun _ => bind (Vfs.free_vfs_dentry dp) (fun _ => K))) s = K s2) /\
    caches_ok dt (Vfs.vinode_hash_table s) a (dp :: q :: F) /\
    Hash.addrs (Vfs.dentry_hash_table s) ≡ₚ q :: Hash.addrs dt /\
    (forall p, pa_page a p <-> pa_page (Rfs.pages (Vfs.fs s)) p) /\
    (forall k, Hash.denote (Hash.mk dt a) k =
       if hk_equal (VfsHash.mk_dkey (d_parent x) (d_name x)) k then 0 else Hash.denote (Vfs.dentry_table s) k).
Proof.
  intros [S1 S2 S3 S4 S5 S6 [S7 S8] S9] Hr0.
  apply NoDup_cons in S9 as [N1 _]. apply not_elem_of_cons in N1 as [_ N1].
  destruct (erase_dentry_eq s dp x F S1 S4 S5) as (q & dt & a1 & Heq1 & C1 & P1 & G1 & D1).
  set (s1 := Vfs.mk _ dt _ _ _) in Heq1.
  assert (dp ∉ Hash.addrs dt ++ Hash.addrs (Vfs.vinode_hash_table s) ++ q :: F) as Hni.
  { intros Hin. apply N1. rewrite P1. rewrite !elem_of_app, !elem_of_cons in *. tauto. }
  destruct (free_dentry_page_eq s1 dp (q :: F) C1 (proj2 (G1 dp) S7) Hni) as (a2 & Heq2 & C2 & G2).
  exists q, dt, a2. split_and!; try done.
  - intros K. mstep Heq1. set (s2 := Vfs.set_fs _ s1) in Heq2. assert (Vfs.free_vfs_dentry dp s1 = Ret 0 s2) as Heq2'.
    { unfold Vfs.free_vfs_dentry. mstep (get_dentry_eq s1 dp x S1). rewrite Hr0. cbn [Z.ltb Z.compare]. by mstep Heq2. }
    by mstep Heq2'.
  - intros p. etransitivity; [apply G2|apply G1].
Qed.

(** The inode is one dentry short then. *)
Lemma unref_vinode_eq s vi v :
  Rfs.vinodes (Vfs.fs s) !! vi = Some v ->
  Vfs.upd_vinode vi (fun u => set_ref (ref u - 1) u) s =
    Ret tt (Vfs.set_fs (Rfs.set_vinodes (<[vi := set_ref (ref v - 1) v]> (Rfs.vinodes (Vfs.fs s))) (Vfs.fs s)) s).
Proof.
  intros Hv. unfold Vfs.upd_vinode, Vfs.on_fs, zoom, Rfs.upd_vinode, modify. by rewrite (alter_insert_map _ _ v).
Qed.

Lemma release_dentry_shared s F dp x v :
  cached_file s F dp x v -> d_ref x = 0 -> ref v <> 1 ->
  exists s', Vfs.release_dentry (rfs_i_ops garbage) dp (d_inode x) s = Ret tt s' /\ detached s F dp x v s'.
Proof.
  intros Hs Hr0 Hne. pose proof Hs as [S1 S2 S3 _ _ _ _ _].
  destruct (drop_dentry s F dp x v Hs Hr0) as (q & dt & a & Hrun & C & P & G & D). set (s2 := Vfs.mk _ dt _ _ _) in Hrun.
  eexists. split.
  - unfold Vfs.release_dentry. rewrite Hrun. mstep (unref_vinode_eq s2 (d_inode x) v S2). set (s3 := Vfs.set_fs _ s2).
    assert (Rfs.vinodes (Vfs.fs s3) !! d_inode x = Some (set_ref (ref v - 1) v)) as Hv3 by apply lookup_insert_eq.
    mstep (get_vinode_eq s3 _ _ Hv3). change (ref (set_ref (ref v - 1) v)) with (ref v - 1).
    rewrite (proj2 (Z.eqb_neq _ _)) by lia. done.
  - split; try done. by exists q.
Qed.

Lemma release_dentry_last s F dp x v :
  cached_file s F dp x v -> d_ref x = 0 -> ref v = 1 ->
  disk_ok (Vfs.fs s) -> valid_inode (inum v) -> dinode_ok (Rfs.vinode_dinode v) ->
  exists s', Vfs.release_dentry (rfs_i_ops garbage) dp (d_inode x) s = Ret tt s' /\ released s F dp x v s'.
Proof.
  intros Hs Hr0 Hr1 Hdk Hvi Hok. pose proof Hs as [S1 S2 _ _ _ S6 [S7 S8] S9]. set (vi := d_inode x) in *.
  apply NoDup_cons in S9 as [N1 N2]. apply NoDup_cons in N2 as [N2 _]. apply not_elem_of_cons in N1 as [Nne _].
  destruct (drop_dentry s F dp x v Hs Hr0) as (q1 & dt & a2 & Hrun & C2 & P1 & G2 & D1). set (s2 := Vfs.mk _ dt _ _ _) in Hrun.
  set (v' := set_ref 0 v).
  set (s3 := Vfs.set_fs (Rfs.set_vinodes (<[vi := v']> (Rfs.vinodes (Vfs.fs s))) (Vfs.fs s2)) s2).
  assert (Vfs.upd_vinode vi (fun u => set_ref (ref u - 1) u) s2 = Ret tt s3) as Heq3
    by (rewrite (unref_vinode_eq s2 vi v S2); by rewrite Hr1).
  assert (Rfs.vinodes (Vfs.fs s3) !! vi = Some v') as Hv3 by apply lookup_insert_eq.
  destruct (write_back_spec (Vfs.fs s3) vi v') as (f4 & Heq4 & Hd4 & (E1 & E2 & E3 & E4 & _ & _ & E7) & W1 & W2 & W3); try done.
  set (s4 := Vfs.set_fs f4 s3).
  assert (Vfs.on_fs (Rfs.rfs_write_back_vinode vi) s3 = Ret 0 s4) as Heq4' by (unfold Vfs.on_fs, zoom; by rewrite Heq4).
  assert (Rfs.vinodes (Vfs.fs s4) !! vi = Some v') as Hv4 by (etransitivity; [|exact Hv3]; cbn; by rewrite E3).
  assert (Rfs.pages (Vfs.fs s4) = a2) as Ep4 by (cbn; by rewrite E7).
  destruct (erase_vinode_eq s4 vi v' (dp :: q1 :: F)) as (q2 & vt & a5 & Heq5 & C5 & P5 & G5 & D5); try done.
  { by destruct Hvi. }
  { rewrite Ep4. exact C2. }
  set (s5 := Vfs.mk _ _ vt _ _) in Heq5.
  destruct (free_vinode_page_eq s5 vi (q2 :: dp :: q1 :: F) C5) as (a6 & Heq6 & C6 & G6).
  { apply G5. rewrite Ep4. by apply G2. }
  { intros Hin. apply N2. change (Vfs.vinode_hash_table s4) with (Vfs.vinode_hash_table s) in P5. rewrite P1, P5.
    change (Vfs.dentry_hash_table s5) with dt in Hin. change (Vfs.vinode_hash_table s5) with vt in Hin.
    rewrite !elem_of_app, !elem_of_cons in *. destruct Hin as [?|[?|[?|[?|?]]]]; try tauto. by subst vi. }
  eexists. split.
  - unfold Vfs.release_dentry. rewrite Hrun. mstep Heq3. mstep (get_vinode_eq s3 vi v' Hv3).
    change (ref v') with 0. cbn [Z.eqb]. change (viop_write_back_vinode (rfs_i_ops garbage)) with (@Rfs.rfs_write_back_vinode A).
    mstep Heq4'. cbn [Z.eqb negb]. mstep Heq5. exact Heq6.
  - split; try done.
    + change (delete vi (Rfs.vinodes f4) = delete vi (Rfs.vinodes (Vfs.fs s))). rewrite E3. apply delete_insert_eq.
    + intros b Hb Hb'. etransitivity; [|apply (W3 b Hb); lia]. done.
    + by exists q1, q2.
Qed.

(** C25: Closing a file of RFS.  When other open files use the dentry, only its
    reference count goes down and the file is marked closed.  With the last one
    the dentry leaves the cache and is freed, and its inode has one dentry less:
    while another hard link of it is cached the inode stays and the disk is not
    touched; otherwise it is written to the disk, leaves the cache and is freed.
    Nothing else on the disk and in the caches changes. *)
Theorem vfs_close_correct s F f y x v :
  Vfs.files s !! f = Some y -> cached_file s F (f_dentry y) x v -> type v = FILE_I ->
  disk_ok (Vfs.fs s) -> valid_inode (inum v) -> dinode_ok (Rfs.vinode_dinode v) ->
  exists s', Vfs.vfs_close (rfs_i_ops garbage) f s = Ret 0 s' /\
    Vfs.files s' = <[f := Vfs.set_f_status FILE_CLOSED y]> (Vfs.files s) /\
    if decide (d_ref x = 1)
    then if decide (ref v = 1) then released s F (f_dentry y) x v (Vfs.set_files (Vfs.files s) s')
         else detached s F (f_dentry y) x v (Vfs.set_files (Vfs.files s) s')
    else s' = Vfs.set_files (<[f := Vfs.set_f_status FILE_CLOSED y]> (Vfs.files s))
                (Vfs.set_fs (Rfs.set_dentries (<[f_dentry y := Vfs.set_d_ref (d_ref x - 1) x]> (Rfs.dentries (Vfs.fs s))) (Vfs.fs s)) s).
Proof.
  intros Hf Hs Hty Hdk Hvi Hok. pose proof Hs as [S1 S2 S3 S4 S5 S6 S7 S8]. set (dp := f_dentry y) in *.
  set (x' := Vfs.set_d_ref (d_ref x - 1) x).
  set (s1 := Vfs.set_fs (Rfs.set_dentries (<[dp := x']> (Rfs.dentries (Vfs.fs s))) (Vfs.fs s)) s).
  assert (Vfs.upd_dentry dp (fun d => Vfs.set_d_ref (d_ref d - 1) d) s = Ret tt s1) as Heq1.
  { unfold Vfs.upd_dentry, modify. by rewrite (alter_insert_map _ _ x). }
  assert (Rfs.dentries (Vfs.fs s1) !! dp = Some x') as Hd1 by apply lookup_insert_eq.
  assert (forall s2, Vfs.files s2 = Vfs.files s -> Vfs.upd_file f (Vfs.set_f_status FILE_CLOSED) s2 =
    Ret tt (Vfs.set_files (<[f := Vfs.set_f_status FILE_CLOSED y]> (Vfs.files s)) s2)) as Hcl.
  { intros s2 E. unfold Vfs.upd_file, modify. by rewrite E, (alter_insert_map _ _ y). }
  assert (forall s2, (if d_ref x' =? 0 then Vfs.release_dentry (rfs_i_ops garbage) dp (d_inode x) else ret tt) s1 = Ret tt s2 ->
    Vfs.files s2 = Vfs.files s ->
    Vfs.vfs_close (rfs_i_ops garbage) f s = Ret 0 (Vfs.set_files (<[f := Vfs.set_f_status FILE_CLOSED y]> (Vfs.files s)) s2)) as Hrun.
  { intros s2 Hrel E. unfold Vfs.vfs_close. mstep (file_type_eq s f y x v Hf S1 S2). rewrite Hty. change (negb (FILE_I =? FILE_I)) with false. cbv iota.
    mstep (get_file_eq s f y Hf). cbv zeta. fold dp. mstep (dentry_inode_eq s dp x S1). unfold Vfs.run_hook. cbn [viop_hook_close rfs_i_ops].
    rewrite bind_ret_l. mstep Heq1. mstep (get_dentry_eq s1 dp x' Hd1). mstep Hrel. by mstep (Hcl s2 E). }
  destruct (decide (d_ref x = 1)) as [E|E].
  - assert (d_ref x' = 0) as E' by (cbn; lia).
    assert (cached_file s1 F dp x' v) as Hs1 by (by split). destruct (decide (ref v = 1)) as [E1|E1].
    + destruct (release_dentry_last s1 F dp x' v Hs1 E' E1 Hdk Hvi Hok) as (s2 & Heq2 & [R1 R2 R3 R4 R5 R6 R7 R8 R9]).
      eexists. split; [apply Hrun; [by rewrite E'|exact R8]|]. split; [done|].
      split; try done. cbn in R1 |- *. rewrite R1. apply delete_insert_eq.
    + destruct (release_dentry_shared s1 F dp x' v Hs1 E' E1) as (s2 & Heq2 & [R1 R2 R3 R4 R5 R6 R7]).
      eexists. split; [apply Hrun; [by rewrite E'|exact R6]|]. split; [done|].
      split; try done. cbn in R1 |- *. rewrite R1. apply delete_insert_eq.
  - assert ((d_ref x' =? 0) = false) as E' by (apply Z.eqb_neq; cbn; lia).
    exists (Vfs.set_files (<[f := Vfs.set_f_status FILE_CLOSED y]> (Vfs.files s)) s1).
    split; [apply Hrun; [by rewrite E'|done]|]. split; reflexivity.
Qed.
End rfs.

(** ** A concrete cache *)
#[local] Instance distinct_keys_dec {K} `{HashKey K} (c : list (Hash.node K)) : Decision (Hash.distinct_keys c).
Proof. induction c as [|n c IH]; cbn [Hash.distinct_keys]; apply _. Defined.
#[local] Instance chain_ok_dec {K} `{HashKey K} (a : ListAlloc.state) i (c : list (Hash.node K)) : Decision (Hash.chain_ok a i c).
Proof. unfold Hash.chain_ok. apply _. Defined.

Lemma inv_decide {K} `{HashKey K} (h : list (list (Hash.node K))) (a : ListAlloc.state) F :
  length h = Z.to_nat HASH_TABLE_SIZE -> pa_rep a F -> NoDup (Hash.addrs h ++ F) ->
  Forall (fun ic => Hash.chain_ok a ic.1 ic.2) (imap pair h) -> Hash.inv (Hash.mk h a) F.
Proof.
  intros H1 H2 H3 H4. split_and!; try done. intros i c Hi. rewrite Forall_lookup in H4. apply (H4 i (i, c)).
  rewrite list_lookup_imap. cbn [Hash.head] in Hi. by rewrite Hi.
Qed.

(** A disk with an empty root directory mounted, and then the file [/a.txt]
    created and open. *)
Definition demo_pages : list Z := map (fun i => 0x80010000 + 4096 * Z.of_nat i) (seq 0 24).
Definition demo_ops : vinode_ops ListAlloc.state := rfs_i_ops demo_garbage.
Definition demo_vfs : Vfs.state ListAlloc.state :=
  run (Vfs.vfs_init ;; Vfs.hash_put_vinode 0x80011000 ;; Vfs.hash_put_dentry 0x80012000)
    (Vfs.mk (run (Rfs.rfs_format_dev (replicate 9 0) ;; Rfs.rfs_get_superblock demo_garbage)
               (Rfs.set_pages (ListAlloc.mk demo_pages demo_pages) demo_disk))
       [] [] ∅ 0x80012000).
Definition demo_path : list Z := SLASH :: demo_name.
Definition demo_vfs1 : Vfs.state ListAlloc.state := run (Vfs.vfs_open demo_ops demo_path (Z.lor O_RDWR O_CREAT)) demo_vfs.
Definition demo_dentry : dentry := mk_dentry demo_name 0x80019000 0x80012000 1.
Definition demo_vinode : vinode := mk_vinode 1 1 0 0 1 1 (13 :: replicate 9 0) 0 0x80010000.
Definition demo_file : file := mk_file 1 1 1 0 0x80018000.
Definition demo_free : list Z := map (fun i => 0x8001f000 + 4096 * Z.of_nat i) (seq 0 9).

Lemma demo_vfs1_eq : demo_vfs1 = run (Vfs.vfs_open demo_ops demo_path (Z.lor O_RDWR O_CREAT)) demo_vfs.
Proof. reflexivity. Qed.
#[local] Opaque demo_vfs demo_vfs1.

Ltac decide_it := apply (bool_decide_unpack _); by vm_compute.

Lemma demo_table_ok : table_ok demo_vfs1.
Proof. by vm_compute. Qed.
Lemma demo_names : Forall is_name [demo_name] /\ Forall no_nul [demo_name] /\ Z.of_nat (length (path_of [demo_name])) < MAX_PATH_LEN.
Proof. split_and!; [|decide_it|by vm_compute]. apply Forall_singleton. split; [done|decide_it]. Qed.
Lemma demo_resolves : resolves demo_vfs1 (Vfs.vfs_root_dentry demo_vfs1) [demo_name] 0x80012000 0x80018000.
Proof.
  replace (Vfs.vfs_root_dentry demo_vfs1) with 0x80012000 by (by vm_compute). apply resolves_one; [by vm_compute|done].
Qed.
Lemma demo_dentry_lookup : Rfs.dentries (Vfs.fs demo_vfs1) !! 0x80018000 = Some demo_dentry.
Proof. by vm_compute. Qed.
Lemma demo_vinode_lookup : Rfs.vinodes (Vfs.fs demo_vfs1) !! 0x80019000 = Some demo_vinode.
Proof. by vm_compute. Qed.
Lemma demo_file_lookup1 : Vfs.files demo_vfs1 !! 0x8001e000 = Some demo_file.
Proof. by vm_compute. Qed.
Lemma demo_rep : pa_rep (Rfs.pages (Vfs.fs demo_vfs1)) demo_free.
Proof. split; [by vm_compute|split; decide_it]. Qed.
Lemma demo_caches_ok :
  caches_ok (Vfs.dentry_hash_table demo_vfs1) (Vfs.vinode_hash_table demo_vfs1) (Rfs.pages (Vfs.fs demo_vfs1)) demo_free.
Proof.
  split; [apply inv_decide; [by vm_compute|exact demo_rep|decide_it..]|apply inv_decide; [by vm_compute|exact demo_rep|decide_it..]|decide_it].
Qed.
Lemma demo_sole : cached_file demo_vfs1 demo_free (f_dentry demo_file) demo_dentry demo_vinode.
Proof.
  apply Build_cached_file; [exact demo_dentry_lookup|exact demo_vinode_lookup|decide_it|exact demo_caches_ok|decide_it..].
Qed.
Lemma demo_fs_ok : disk_ok (Vfs.fs demo_vfs1).
Proof. split_and!; [by vm_compute| |by vm_compute]. decide_it. Qed.

(** ** The theorems on the concrete caches *)
Lemma path_tokens_correct_witness : Vfs.path_tokens (path_of [demo_name]) demo_vfs1 = Ret [demo_name] demo_vfs1.
Proof. exact (path_tokens_correct demo_vfs1 [demo_name] (proj1 demo_names) (proj1 (proj2 demo_names))). Defined.

Lemma lookup_cached_path_witness :
  Vfs.lookup_final_dentry demo_ops (path_of [demo_name]) (Vfs.vfs_root_dentry demo_vfs1) demo_vfs1 =
    Ret (0x80018000, 0x80012000, []) demo_vfs1.
Proof.
  exact (lookup_cached_path demo_ops demo_vfs1 _ _ _ _ demo_table_ok (proj1 demo_names) (proj1 (proj2 demo_names)) (proj2 (proj2 demo_names)) demo_resolves).
Defined.


Lemma vfs_close_correct_witness :
  exists s', Vfs.vfs_close demo_ops 0x8001e000 demo_vfs1 = Ret 0 s' /\
    Vfs.files s' = <[0x8001e000 := Vfs.set_f_status FILE_CLOSED demo_file]> (Vfs.files demo_vfs1) /\
    released demo_vfs1 demo_free 0x80018000 demo_dentry demo_vinode (Vfs.set_files (Vfs.files demo_vfs1) s').
Proof.
  apply (vfs_close_correct demo_garbage demo_vfs1 demo_free 0x8001e000 demo_file demo_dentry demo_vinode demo_file_lookup1
    demo_sole eq_refl demo_fs_ok).
  - split; [discriminate|reflexivity].
  - split; [|reflexivity]. repeat (apply Forall_cons; split; [split; [discriminate|reflexivity]|]). apply Forall_nil_2.
Defined.
