(* ===== verification/ProcFile.v ===== *)
(** * [kernel/proc_file.c]: the open files of a process

    File descriptors index the array [opened_files] of the current process,
    which lives at the address [pfiles]; an opened file is copied into the first
    free entry.  The entries are objects of the heap of files of [Vfs]. *)

From stdpp Require Import base gmap list numbers strings.
From Stdlib Require Import ZArith Lia.
From S2P Require Import Prelude Pmm HashTable Bytes Rfs RfsSpec Vfs VfsSpec.
Local Open Scope Z_scope.

Definition NFILES : Z := 128.

Module ProcFile.
Section ops.
Context {A : Type} `{PA : PageAllocator A}.
Context (i_ops : vinode_ops A).

(** [current->pfiles]: its address and [nfiles]. *)
Record state := mk { vfs : Vfs.state A; nfiles : Z }.
Context (pfiles : Z).

Definition set_vfs (v : Vfs.state A) (s : state) : state := mk v (nfiles s).
Definition on_vfs {R} (m : M (Vfs.state A) R) : M state R := zoom vfs set_vfs m.

(** [&(current->pfiles->opened_files\[fd\])]. *)
Definition opened_file (fd : Z) : Z := pfiles + 8 + 24 * fd.

Definition entry_status (fd : Z) (s : state) : option Z := f_status <$> Vfs.files (vfs s) !! opened_file fd.

(** The loop visits every entry until the descriptor is met; for a descriptor
    that is none it ends at the last entry. *)
Definition get_opened_file (fd : Z) : M state Z :=
  if (0 <=? fd) && (fd <? NFILES) then ret (opened_file fd) else ret (opened_file (NFILES - 1)).

(** The search for a free entry from [fd] on: [NFILES] when there is none. *)
Fixpoint free_fd (n : nat) (fd : Z) : M state Z :=
  match n with
  | O => ret fd
  | S n =>
      st <- (fun s => of_option "no entry" (entry_status fd s) s) ;;
      if st =? FILE_CLOSED then ret fd else free_fd n (fd + 1)
  end.

(** [memcpy(pfile, opened_file, sizeof(struct file))]. *)
Definition copy_file (dst src : Z) : M state unit :=
  x <- on_vfs (Vfs.get_file src) ;;
  on_vfs (modify (fun v => Vfs.set_files (<[dst := x]> (Vfs.files v)) v)).

(** When all entries are taken, [pfile] is the last one. *)
Definition install (fd file : Z) : M state Z :=
  copy_file (if fd =? NFILES then opened_file (NFILES - 1) else opened_file fd) file ;;
  modify (fun s => mk (vfs s) (nfiles s + 1)) ;;
  ret fd.

Definition do_open (pathname : list Z) (flags : Z) : M state Z :=
  file <- on_vfs (Vfs.vfs_open i_ops pathname flags) ;;
  if file =? 0 then ret (-1)
  else
    n <- gets nfiles ;;
    if NFILES <=? n then panic "do_open: no file entry for current process!"
    else
      fd <- free_fd (Z.to_nat NFILES) 0 ;;
      install fd file.

(** The result and the string stored in [buf]; [uninit] is what the stack holds
    in [buffer]. *)
Definition do_read (uninit : list Z) (fd count : Z) : M state (Z * list Z) :=
  pfile <- get_opened_file fd ;;
  x <- on_vfs (Vfs.get_file pfile) ;;
  if f_readable x =? 0 then panic "do_read: no readable file!"
  else
    let* (len, bs) := on_vfs (Vfs.vfs_read i_ops pfile count) in
    let buffer := take (Z.to_nat count) (bs ++ drop (length bs) uninit) ++ [0] in
    str <- of_option "strcpy" (cstring buffer) ;;
    ret (len, str ++ [0]).

Definition do_write (fd : Z) (buf : list Z) (count : Z) : M state Z :=
  pfile <- get_opened_file fd ;;
  x <- on_vfs (Vfs.get_file pfile) ;;
  if f_writable x =? 0 then panic "do_write: cannot write file!"
  else on_vfs (Vfs.vfs_write i_ops pfile buf count).

Definition do_lseek (fd offset whence : Z) : M state Z :=
  pfile <- get_opened_file fd ;; on_vfs (Vfs.vfs_lseek i_ops pfile offset whence).
Definition do_stat (fd : Z) : M state (Z * istat) :=
  pfile <- get_opened_file fd ;; on_vfs (Vfs.vfs_stat pfile).
Definition do_disk_stat (fd : Z) : M state (Z * istat) :=
  pfile <- get_opened_file fd ;; on_vfs (Vfs.vfs_disk_stat i_ops pfile).
Definition do_close (fd : Z) : M state Z :=
  pfile <- get_opened_file fd ;; on_vfs (Vfs.vfs_close i_ops pfile).

Definition do_opendir (pathname : list Z) : M state Z :=
  file <- on_vfs (Vfs.vfs_opendir i_ops pathname) ;;
  if file =? 0 then ret (-1)
  else
    fd <- free_fd (Z.to_nat NFILES) 0 ;;
    if fd =? NFILES then panic "do_opendir: no file entry for current process!"
    else install fd file.

Definition do_readdir (fd : Z) : M state (Z * option (list Z * Z)) :=
  pfile <- get_opened_file fd ;; on_vfs (Vfs.vfs_readdir i_ops pfile).
Definition do_mkdir (pathname : list Z) : M state Z := on_vfs (Vfs.vfs_mkdir i_ops pathname).
Definition do_closedir (fd : Z) : M state Z :=
  pfile <- get_opened_file fd ;; on_vfs (Vfs.vfs_closedir i_ops pfile).
Definition do_link (oldpath newpath : list Z) : M state Z := on_vfs (Vfs.vfs_link i_ops oldpath newpath).
Definition do_unlink (path : list Z) : M state Z := on_vfs (Vfs.vfs_unlink i_ops path).
End ops.
Arguments state : clear implicits.
End ProcFile.

Section spec.
Context {A : Type} `{PA : PageAllocator A} (i_ops : vinode_ops A) (pfiles : Z).
Implicit Types s : ProcFile.state A.

Lemma on_vfs_Ret {R} (m : M (Vfs.state A) R) s r v' :
  m (ProcFile.vfs s) = Ret r v' -> ProcFile.on_vfs m s = Ret r (ProcFile.set_vfs v' s).
Proof. intros H. unfold ProcFile.on_vfs, zoom. by rewrite H. Qed.

(** The search finds the first closed entry. *)
Lemma free_fd_first n : forall s fd k,
  (forall j, fd <= j < fd + Z.of_nat k -> exists st, ProcFile.entry_status pfiles j s = Some st /\ st <> FILE_CLOSED) ->
  ((k < n)%nat /\ ProcFile.entry_status pfiles (fd + Z.of_nat k) s = Some FILE_CLOSED \/ k = n) ->
  ProcFile.free_fd pfiles n fd s = Ret (fd + Z.of_nat k) s.
Proof.
  induction n as [|n IH]; intros s fd k Hopen Hend.
  - destruct Hend as [[? _]| ->]; [lia|]. cbn. by rewrite Z.add_0_r.
  - cbn [ProcFile.free_fd]. destruct k as [|k].
    + destruct Hend as [[_ Hc]|?]; [|lia]. rewrite Z.add_0_r in Hc |- *. unfold bind at 1. rewrite Hc. done.
    + destruct (Hopen fd ltac:(lia)) as (st & Hst & Hne). unfold bind at 1. rewrite Hst. cbn.
      destruct (Z.eqb_spec st FILE_CLOSED); [done|]. rewrite (IH s (fd + 1) k).
      * f_equal. lia.
      * intros j Hj. apply Hopen. lia.
      * destruct Hend as [[? Hc]|?]; [left|right; lia]. split; [lia|]. by replace (fd + 1 + Z.of_nat k) with (fd + Z.of_nat (S k)) by lia.
Qed.

(** C30: [do_open] copies the opened file into the entry of the lowest free
    descriptor and returns that descriptor.  When all 128 entries are open but
    the counter has not reached 128, it returns the descriptor 128, which is
    none, and overwrites the last entry. *)
Theorem do_open_lowest_fd s path flags file v' y k :
  Vfs.vfs_open i_ops path flags (ProcFile.vfs s) = Ret file v' -> file <> 0 -> Vfs.files v' !! file = Some y ->
  ProcFile.nfiles s < NFILES ->
  (forall j, 0 <= j < Z.of_nat k -> exists st, ProcFile.entry_status pfiles j (ProcFile.set_vfs v' s) = Some st /\ st <> FILE_CLOSED) ->
  ((k < 128)%nat /\ ProcFile.entry_status pfiles (Z.of_nat k) (ProcFile.set_vfs v' s) = Some FILE_CLOSED \/ k = 128%nat) ->
  ProcFile.do_open i_ops pfiles path flags s =
    Ret (Z.of_nat k) (ProcFile.mk
      (Vfs.set_files (<[ProcFile.opened_file pfiles (Z.min (Z.of_nat k) 127) := y]> (Vfs.files v')) v') (ProcFile.nfiles s + 1)).
Proof.
  intros Hop Hne Hy Hn Hopen Hend. set (s1 := ProcFile.set_vfs v' s) in *.
  unfold ProcFile.do_open. mstep (on_vfs_Ret _ s _ _ Hop). destruct (Z.eqb_spec file 0); [done|]. rewrite bind_gets. fold s1.
  change (ProcFile.nfiles s1) with (ProcFile.nfiles s). destruct (Z.leb_spec NFILES (ProcFile.nfiles s)); [lia|].
  mstep (free_fd_first 128 s1 0 k Hopen Hend). change (0 + Z.of_nat k) with (Z.of_nat k).
  unfold ProcFile.install, ProcFile.copy_file.
  assert (ProcFile.on_vfs (Vfs.get_file file) s1 = Ret y s1) as Hg.
  { unfold ProcFile.on_vfs, zoom, Vfs.get_file. change (ProcFile.vfs s1) with v'. by rewrite Hy. }
  assert ((if Z.of_nat k =? NFILES then ProcFile.opened_file pfiles (NFILES - 1) else ProcFile.opened_file pfiles (Z.of_nat k)) =
    ProcFile.opened_file pfiles (Z.min (Z.of_nat k) 127)) as ->.
  { change NFILES with 128. destruct (Z.eqb_spec (Z.of_nat k) 128) as [->|]; [done|]. by rewrite Z.min_l by lia. }
  rewrite (bind_Ret _ _ s1 tt (ProcFile.set_vfs (Vfs.set_files (<[ProcFile.opened_file pfiles (Z.min (Z.of_nat k) 127) := y]> (Vfs.files v')) v') s1)).
  - done.
  - mstep Hg. done.
Qed.

(** Closing does not lower the counter that [do_open] tests, so that a
    process can open at most 128 files in its life: once the counter is 128
    every successful open stops the kernel, however many entries are closed. *)
Theorem do_open_limit s path flags file v' :
  (forall fd r s', ProcFile.do_close i_ops pfiles fd s = Ret r s' -> ProcFile.nfiles s' = ProcFile.nfiles s) /\
  (Vfs.vfs_open i_ops path flags (ProcFile.vfs s) = Ret file v' -> file <> 0 -> NFILES <= ProcFile.nfiles s ->
   ProcFile.do_open i_ops pfiles path flags s = Panic "do_open: no file entry for current process!").
Proof.
  split.
  - intros fd r s'. unfold ProcFile.do_close, ProcFile.get_opened_file.
    destruct ((0 <=? fd) && (fd <? NFILES)); rewrite bind_ret_l; unfold ProcFile.on_vfs, zoom;
      destruct (Vfs.vfs_close i_ops _ _) as [r' v1| | | | |]; intros [= <- <-]; done.
  - intros Hop Hne Hn. unfold ProcFile.do_open. mstep (on_vfs_Ret _ s _ _ Hop).
    destruct (Z.eqb_spec file 0); [done|]. rewrite bind_gets. change (ProcFile.nfiles (ProcFile.set_vfs v' s)) with (ProcFile.nfiles s).
    by destruct (Z.leb_spec NFILES (ProcFile.nfiles s)); [|lia].
Qed.
End spec.

(** ** A concrete process with two open files *)
Definition demo_pfiles : Z := 0x90000000.
Definition demo_entries : gmap Z file :=
  list_to_map (map (fun i => (ProcFile.opened_file demo_pfiles (Z.of_nat i),
    mk_file (if bool_decide (i < 2)%nat then FD_OPENED else FILE_CLOSED) 1 0 0 0x80018000)) (seq 0 128)).
Definition demo_proc (n : Z) : ProcFile.state ListAlloc.state :=
  ProcFile.mk (Vfs.set_files (demo_entries ∪ Vfs.files demo_vfs1) demo_vfs1) n.
Definition demo_opened (n : Z) : Vfs.state ListAlloc.state :=
  run (Vfs.vfs_open demo_ops demo_path O_RDONLY) (ProcFile.vfs (demo_proc n)).

Lemma run_Ret {S R} (m : M S R) s r : (match m s with Ret a _ => a = r | _ => False end) -> m s = Ret r (run m s).
Proof. unfold run. destruct (m s); try done. by intros ->. Qed.

Lemma demo_open_eq n : n = 2 \/ n = 128 ->
  Vfs.vfs_open demo_ops demo_path O_RDONLY (ProcFile.vfs (demo_proc n)) = Ret 0x8001f000 (demo_opened n).
Proof.
  intros Hn. unfold demo_opened. apply (run_Ret (Vfs.vfs_open demo_ops demo_path O_RDONLY) (ProcFile.vfs (demo_proc n))).
  destruct Hn as [->| ->]; by vm_compute.
Qed.

Lemma do_open_lowest_fd_witness :
  ProcFile.do_open demo_ops demo_pfiles demo_path O_RDONLY (demo_proc 2) =
    Ret 2 (ProcFile.mk (Vfs.set_files (<[ProcFile.opened_file demo_pfiles 2 := mk_file FD_OPENED 1 0 0 0x80018000]>
      (Vfs.files (demo_opened 2))) (demo_opened 2)) 3).
Proof.
  apply (do_open_lowest_fd demo_ops demo_pfiles (demo_proc 2) demo_path O_RDONLY 0x8001f000 (demo_opened 2)
    (mk_file FD_OPENED 1 0 0 0x80018000) 2 (demo_open_eq 2 (or_introl eq_refl))).
  - discriminate.
  - by vm_compute.
  - reflexivity.
  - intros j Hj. exists FD_OPENED. split; [|discriminate].
    assert (j = 0 \/ j = 1) as [->| ->] by lia; by vm_compute.
  - left. split; [lia|]. by vm_compute.
Defined.

Lemma do_open_limit_witness :
  ProcFile.do_open demo_ops demo_pfiles demo_path O_RDONLY (demo_proc 128) = Panic "do_open: no file entry for current process!".
Proof.
  apply (proj2 (do_open_limit demo_ops demo_pfiles (demo_proc 128) demo_path O_RDONLY 0x8001f000 (demo_opened 128)) (demo_open_eq 128 (or_intror eq_refl))).
  - discriminate.
  - discriminate.
Defined.
