(* ===== verification/VfsTypes.v ===== *)
(** * Invariants of the virtual file system and of the file descriptors

    An invariant of the file system's state, together with the number of chains
    of the two hash tables, is kept by every operation of [kernel/vfs.c] and
    [kernel/proc_file.c], for every table of file system operations that keeps
    it. *)

From stdpp Require Import base gmap list numbers strings.
From Stdlib Require Import ZArith Lia.
From S2P Require Import Prelude Keeps Pmm HashTable Bytes Rfs Vfs ProcFile RfsTypes.
Local Open Scope Z_scope.

(** ** Hash tables *)
Section hash.
Context {K A : Type} `{HK : HashKey K} `{PA : PageAllocator A} (P : A -> Prop) (owned : Z -> Prop).

Definition table_typed (s : Hash.state K A) : Prop :=
  length (Hash.head s) = Z.to_nat HASH_TABLE_SIZE /\ P (Hash.pages s).

Context (Halloc : keeps P pa_alloc (page_or_null owned)) (Hfree : forall p, owned p -> keeps P (pa_free p) anything).

Lemma hash_alloc_page_typed : keeps table_typed (Hash.alloc_page (A := A)) (page_or_null owned).
Proof. apply (keeps_zoom _ P); [done|by intros s []|by intros s a []]. Qed.
Lemma hash_free_page_typed p : owned p -> keeps table_typed (Hash.free_page (A := A) p) anything.
Proof. intros Hp. apply (keeps_zoom _ P); [by apply Hfree|by intros s []|by intros s a []]. Qed.
Lemma get_chain_typed i : keeps table_typed (Hash.get_chain i) anything.
Proof. apply keeps_of_option. done. Qed.
Lemma set_chain_typed i c : keeps table_typed (Hash.set_chain i c) anything.
Proof. apply keeps_modify. intros s []. split; [|done]. simpl. by rewrite length_insert. Qed.
Hint Resolve hash_alloc_page_typed hash_free_page_typed get_chain_typed set_chain_typed : keeps.

Lemma default_get_typed k : keeps table_typed (Hash.default_get k) anything.
Proof. unfold Hash.default_get. keeps_auto. Qed.
Hint Resolve default_get_typed : keeps.

Lemma default_put_typed k v : keeps table_typed (Hash.default_put k v) anything.
Proof. unfold Hash.default_put. keeps_auto. Qed.
Hint Resolve default_put_typed : keeps.

Lemma default_erase_typed k : (forall p, owned p) -> keeps table_typed (Hash.default_erase k) anything.
Proof. intros Hall. unfold Hash.default_erase. keeps_auto. Qed.

(** A key page, which is given back when the table refuses the entry. *)
Lemma put_with_key_typed k v :
  keeps table_typed (key <- Hash.alloc_page ;;
    if key =? 0 then fault "key is NULL"
    else r <- Hash.default_put k v ;; if negb (r =? 0) then Hash.free_page key ;; ret r else ret r) anything.
Proof.
  keeps_step. apply keeps_if; [intros _; keeps_auto|]. intros Hne. destruct H as [->|Ho]; [done|]. keeps_auto.
Qed.
End hash.

(** What the file operations need of the virtual file system. *)
Record vfs_keeps {A : Type} `{PA : PageAllocator A} (J : Vfs.state A -> Prop) (i_ops : vinode_ops A) : Prop := {
  vk_open : forall path flags, keeps J (Vfs.vfs_open i_ops path flags) anything;
  vk_read : forall f n, keeps J (Vfs.vfs_read i_ops f n) anything;
  vk_write : forall f w n, keeps J (Vfs.vfs_write i_ops f w n) anything;
  vk_lseek : forall f n w, keeps J (Vfs.vfs_lseek i_ops f n w) anything;
  vk_stat : forall f, keeps J (Vfs.vfs_stat f) anything;
  vk_disk_stat : forall f, keeps J (Vfs.vfs_disk_stat i_ops f) anything;
  vk_close : forall f, keeps J (Vfs.vfs_close i_ops f) anything;
  vk_opendir : forall p, keeps J (Vfs.vfs_opendir i_ops p) anything;
  vk_readdir : forall f, keeps J (Vfs.vfs_readdir i_ops f) anything;
  vk_mkdir : forall p, keeps J (Vfs.vfs_mkdir i_ops p) anything;
  vk_closedir : forall f, keeps J (Vfs.vfs_closedir i_ops f) anything;
  vk_link : forall p q, keeps J (Vfs.vfs_link i_ops p q) anything;
  vk_unlink : forall p, keeps J (Vfs.vfs_unlink i_ops p) anything;
}.

(** ** The state of the virtual file system *)
Section vfs.
Context {A : Type} `{PA : PageAllocator A} (I : Rfs.state A -> Prop) (P : A -> Prop) (owned : Z -> Prop).
Context (vt : vinode -> Prop) (buf : list Z -> Prop) `{RI : !RfsInvariant I P owned vt buf}.

Record vfs_typed (s : Vfs.state A) : Prop := {
  vt_fs : I (Vfs.fs s);
  vt_dentries : length (Vfs.dentry_hash_table s) = Z.to_nat HASH_TABLE_SIZE;
  vt_vinodes : length (Vfs.vinode_hash_table s) = Z.to_nat HASH_TABLE_SIZE;
}.

Lemma on_fs_typed {R} (m : M (Rfs.state A) R) Q : keeps I m Q -> keeps vfs_typed (Vfs.on_fs m) Q.
Proof. intros Hm. apply (keeps_zoom _ I); [done|by intros s []|]. intros s f [] Hf. by split. Qed.

Lemma on_dentry_table_typed {R} (m : M (Hash.state VfsHash.dentry_key A) R) Q :
  keeps (table_typed P) m Q -> keeps vfs_typed (Vfs.on_dentry_table m) Q.
Proof.
  intros Hm. apply (keeps_zoom _ (table_typed P)); [done| |].
  - intros s []. split; [done|]. by apply ri_pages.
  - intros s t [] []. split; try done. by apply ri_set_pages.
Qed.

Lemma on_vinode_table_typed {R} (m : M (Hash.state VfsHash.vinode_key A) R) Q :
  keeps (table_typed P) m Q -> keeps vfs_typed (Vfs.on_vinode_table m) Q.
Proof.
  intros Hm. apply (keeps_zoom _ (table_typed P)); [done| |].
  - intros s []. split; [done|]. by apply ri_pages.
  - intros s t [] []. split; try done. by apply ri_set_pages.
Qed.
Hint Extern 1 (keeps _ (Vfs.on_fs _) _) => apply on_fs_typed : keeps.

(** ** Objects *)
Lemma vfs_get_dentry_typed d : keeps vfs_typed (Vfs.get_dentry d) anything.
Proof. apply keeps_of_option. done. Qed.
Lemma vfs_upd_dentry_typed d f : keeps vfs_typed (Vfs.upd_dentry d f) anything.
Proof. apply keeps_modify. intros s []. split; try done. by apply ri_dentries. Qed.
Lemma vfs_get_vinode_typed v : keeps vfs_typed (Vfs.get_vinode v) vt.
Proof. apply on_fs_typed, ri_get_vinode. Qed.
Lemma vfs_upd_vinode_typed v f : (forall x, addrs (f x) = addrs x) -> keeps vfs_typed (Vfs.upd_vinode v f) anything.
Proof.
  intros Hf. apply on_fs_typed, ri_upd_vinode. intros x. apply ri_vinode_addrs. right. by rewrite Hf.
Qed.
Lemma vfs_get_file_typed f : keeps vfs_typed (Vfs.get_file f) anything.
Proof. apply keeps_of_option. done. Qed.
Lemma vfs_upd_file_typed f g : keeps vfs_typed (Vfs.upd_file f g) anything.
Proof. apply keeps_modify. by intros s []. Qed.
Lemma vfs_alloc_object_typed : keeps vfs_typed (Vfs.on_fs Rfs.alloc_object) owned.
Proof. apply on_fs_typed. by eapply alloc_object_keeps. Qed.
Lemma vfs_alloc_dentry_typed name v d : keeps vfs_typed (Vfs.alloc_vfs_dentry name v d) owned.
Proof. apply on_fs_typed. by eapply alloc_vfs_dentry_keeps. Qed.
Lemma new_file_typed p f : keeps vfs_typed (modify (fun s => Vfs.set_files (<[p := f]> (Vfs.files s)) s)) anything.
Proof. apply keeps_modify. by intros s []. Qed.
Hint Resolve vfs_get_dentry_typed vfs_upd_dentry_typed vfs_get_vinode_typed vfs_get_file_typed vfs_upd_file_typed
  vfs_alloc_object_typed vfs_alloc_dentry_typed new_file_typed : keeps.
Hint Extern 1 (keeps _ (Vfs.upd_vinode _ _) _) => apply vfs_upd_vinode_typed; done : keeps.

Lemma dentry_inode_typed d : keeps vfs_typed (Vfs.dentry_inode d) anything.
Proof. unfold Vfs.dentry_inode. keeps_auto. Qed.
Hint Resolve dentry_inode_typed : keeps.
Lemma dentry_type_typed d : keeps vfs_typed (Vfs.dentry_type d) anything.
Proof. unfold Vfs.dentry_type. keeps_auto. Qed.
Hint Resolve dentry_type_typed : keeps.
Lemma file_type_typed f : keeps vfs_typed (Vfs.file_type f) anything.
Proof. unfold Vfs.file_type. keeps_auto. Qed.
Lemma path_tokens_typed p : keeps vfs_typed (Vfs.path_tokens p) anything.
Proof. unfold Vfs.path_tokens. keeps_auto. Qed.
Hint Resolve file_type_typed path_tokens_typed : keeps.
Lemma get_base_name_typed p : keeps vfs_typed (Vfs.get_base_name p) anything.
Proof. unfold Vfs.get_base_name. keeps_auto. Qed.

(** ** The caches *)
Lemma hash_get_dentry_typed d name : keeps vfs_typed (Vfs.hash_get_dentry d name) anything.
Proof. apply on_dentry_table_typed. eapply default_get_typed. Qed.
Lemma hash_put_dentry_typed d : keeps vfs_typed (Vfs.hash_put_dentry d) anything.
Proof.
  unfold Vfs.hash_put_dentry. keeps_step. apply on_dentry_table_typed.
  eapply put_with_key_typed; [apply ri_pa_alloc|apply ri_pa_free].
Qed.
Lemma hash_get_vinode_typed sb n : keeps vfs_typed (Vfs.hash_get_vinode sb n) anything.
Proof. apply on_vinode_table_typed. unfold VfsHash.hash_get_vinode. keeps_step; [keeps_auto|]. eapply default_get_typed. Qed.
Lemma hash_put_vinode_typed v : keeps vfs_typed (Vfs.hash_put_vinode v) anything.
Proof.
  unfold Vfs.hash_put_vinode. keeps_step. apply on_vinode_table_typed. unfold VfsHash.hash_put_vinode. keeps_step; [keeps_auto|].
  eapply put_with_key_typed; [apply ri_pa_alloc|apply ri_pa_free].
Qed.
Hint Resolve get_base_name_typed hash_get_dentry_typed hash_put_dentry_typed hash_get_vinode_typed hash_put_vinode_typed : keeps.

(** ** Operations, when every page may be given back *)
Context (Hall : forall p, owned p) (i_ops : vinode_ops A) (Hops : ops_keep I i_ops).

Lemma hash_erase_dentry_typed d : keeps vfs_typed (Vfs.hash_erase_dentry d) anything.
Proof.
  unfold Vfs.hash_erase_dentry. keeps_step. apply on_dentry_table_typed.
  eapply default_erase_typed; [apply ri_pa_free|done].
Qed.
Lemma hash_erase_vinode_typed v : keeps vfs_typed (Vfs.hash_erase_vinode v) anything.
Proof.
  unfold Vfs.hash_erase_vinode. keeps_step. apply on_vinode_table_typed. unfold VfsHash.hash_erase_vinode. keeps_step; [keeps_auto|].
  eapply default_erase_typed; [apply ri_pa_free|done].
Qed.
Lemma vfs_free_page_typed p : keeps vfs_typed (Vfs.on_fs (Rfs.free_page p)) anything.
Proof. apply on_fs_typed. by eapply ri_free. Qed.
Hint Resolve hash_erase_dentry_typed hash_erase_vinode_typed vfs_free_page_typed : keeps.

Lemma free_dentry_page_typed d : keeps vfs_typed (Vfs.free_dentry_page d) anything.
Proof.
  unfold Vfs.free_dentry_page. keeps_step. apply keeps_modify. intros s []. split; try done. by apply ri_dentries.
Qed.
Lemma free_vinode_page_typed v : keeps vfs_typed (Vfs.free_vinode_page v) anything.
Proof.
  unfold Vfs.free_vinode_page. keeps_step. apply keeps_modify. intros s []. split; try done. by apply ri_del_vinode.
Qed.
Hint Resolve free_dentry_page_typed free_vinode_page_typed : keeps.
Lemma free_vfs_dentry_typed d : keeps vfs_typed (Vfs.free_vfs_dentry d) anything.
Proof. unfold Vfs.free_vfs_dentry. keeps_auto. Qed.
Lemma alloc_vfs_file_typed d r w o : keeps vfs_typed (Vfs.alloc_vfs_file d r w o) anything.
Proof. unfold Vfs.alloc_vfs_file. keeps_auto. Qed.
Hint Resolve free_vfs_dentry_typed alloc_vfs_file_typed : keeps.

Let ok_read' := ok_read I i_ops Hops.
Let ok_write' := ok_write I i_ops Hops.
Let ok_create' := ok_create I i_ops Hops.
Let ok_lseek' := ok_lseek I i_ops Hops.
Let ok_disk_stat' := ok_disk_stat I i_ops Hops.
Let ok_link' := ok_link I i_ops Hops.
Let ok_unlink' := ok_unlink I i_ops Hops.
Let ok_lookup' := ok_lookup I i_ops Hops.
Let ok_readdir' := ok_readdir I i_ops Hops.
Let ok_mkdir' := ok_mkdir I i_ops Hops.
Let ok_write_back' := ok_write_back I i_ops Hops.
Hint Resolve ok_read' ok_write' ok_create' ok_lseek' ok_disk_stat' ok_link' ok_unlink' ok_lookup' ok_readdir' ok_mkdir'
  ok_write_back' : keeps.

Lemma walk_typed ts : forall p d, keeps vfs_typed (Vfs.walk i_ops ts p d) anything.
Proof. induction ts as [|t ts IH]; intros; cbn [Vfs.walk]; keeps_auto. Qed.
Hint Resolve walk_typed : keeps.
Lemma lookup_final_dentry_typed path d : keeps vfs_typed (Vfs.lookup_final_dentry i_ops path d) anything.
Proof. unfold Vfs.lookup_final_dentry. keeps_auto. Qed.
Hint Resolve lookup_final_dentry_typed : keeps.

Lemma run_hook_typed h v d :
  h = viop_hook_open i_ops \/ h = viop_hook_close i_ops \/ h = viop_hook_opendir i_ops \/ h = viop_hook_closedir i_ops ->
  keeps vfs_typed (Vfs.run_hook h v d) anything.
Proof.
  intros Hh. unfold Vfs.run_hook. destruct h as [f|]; [|keeps_auto]. keeps_step; [|keeps_auto].
  apply on_fs_typed. by eapply (ok_hooks I i_ops Hops).
Qed.
Hint Extern 1 (keeps _ (Vfs.run_hook _ _ _) _) => apply run_hook_typed; tauto : keeps.

Lemma open_mode_typed flags : keeps vfs_typed (Vfs.open_mode flags) anything.
Proof. unfold Vfs.open_mode. keeps_auto. Qed.
Hint Resolve open_mode_typed : keeps.
Lemma open_dentry_typed d flags : keeps vfs_typed (Vfs.open_dentry i_ops d flags) anything.
Proof. unfold Vfs.open_dentry. keeps_auto. Qed.
Hint Resolve open_dentry_typed : keeps.

Lemma vfs_open_typed path flags : keeps vfs_typed (Vfs.vfs_open i_ops path flags) anything.
Proof. unfold Vfs.vfs_open. keeps_auto. Qed.
Lemma vfs_read_typed f n : keeps vfs_typed (Vfs.vfs_read i_ops f n) anything.
Proof. unfold Vfs.vfs_read. keeps_auto. Qed.
Lemma vfs_write_typed f w n : keeps vfs_typed (Vfs.vfs_write i_ops f w n) anything.
Proof. unfold Vfs.vfs_write. keeps_auto. Qed.
Lemma vfs_lseek_typed f n w : keeps vfs_typed (Vfs.vfs_lseek i_ops f n w) anything.
Proof. unfold Vfs.vfs_lseek. keeps_auto. Qed.
Lemma vfs_stat_typed f : keeps vfs_typed (Vfs.vfs_stat f) anything.
Proof. unfold Vfs.vfs_stat. keeps_auto. Qed.
Lemma vfs_disk_stat_typed f : keeps vfs_typed (Vfs.vfs_disk_stat i_ops f) anything.
Proof. unfold Vfs.vfs_disk_stat. keeps_auto. Qed.
Lemma vfs_link_typed p q : keeps vfs_typed (Vfs.vfs_link i_ops p q) anything.
Proof. unfold Vfs.vfs_link. keeps_auto. Qed.
Lemma vfs_unlink_typed p : keeps vfs_typed (Vfs.vfs_unlink i_ops p) anything.
Proof. unfold Vfs.vfs_unlink. keeps_auto. Qed.
Lemma release_dentry_typed d v : keeps vfs_typed (Vfs.release_dentry i_ops d v) anything.
Proof. unfold Vfs.release_dentry. keeps_auto. Qed.
Hint Resolve release_dentry_typed : keeps.
Lemma vfs_close_typed f : keeps vfs_typed (Vfs.vfs_close i_ops f) anything.
Proof. unfold Vfs.vfs_close. keeps_auto. Qed.
Lemma vfs_opendir_typed p : keeps vfs_typed (Vfs.vfs_opendir i_ops p) anything.
Proof. unfold Vfs.vfs_opendir. keeps_auto. Qed.
Lemma vfs_readdir_typed f : keeps vfs_typed (Vfs.vfs_readdir i_ops f) anything.
Proof. unfold Vfs.vfs_readdir. keeps_auto. Qed.
Lemma vfs_mkdir_typed p : keeps vfs_typed (Vfs.vfs_mkdir i_ops p) anything.
Proof. unfold Vfs.vfs_mkdir. keeps_auto. Qed.
Lemma vfs_closedir_typed f : keeps vfs_typed (Vfs.vfs_closedir i_ops f) anything.
Proof. unfold Vfs.vfs_closedir. keeps_auto. Qed.

Lemma vfs_all_typed : vfs_keeps vfs_typed i_ops.
Proof.
  split; auto using vfs_open_typed, vfs_read_typed, vfs_write_typed, vfs_lseek_typed, vfs_stat_typed, vfs_disk_stat_typed,
    vfs_close_typed, vfs_opendir_typed, vfs_readdir_typed, vfs_mkdir_typed, vfs_closedir_typed, vfs_link_typed, vfs_unlink_typed.
Qed.
End vfs.

(** ** File descriptors *)
Section files.
Context {A : Type} `{PA : PageAllocator A} (J : Vfs.state A -> Prop) (i_ops : vinode_ops A) (pfiles : Z).
Context (Hset : forall fs s, J s -> J (Vfs.set_files fs s)).

Context (VK : vfs_keeps J i_ops).

Definition files_typed (s : ProcFile.state A) : Prop := J (ProcFile.vfs s).

Lemma on_vfs_typed {R} (m : M (Vfs.state A) R) Q : keeps J m Q -> keeps files_typed (ProcFile.on_vfs m) Q.
Proof. intros Hm. by apply (keeps_zoom _ J). Qed.
Lemma get_opened_file_typed fd : keeps files_typed (ProcFile.get_opened_file pfiles fd) anything.
Proof. unfold ProcFile.get_opened_file. keeps_auto. Qed.
Lemma pf_get_file_typed f : keeps files_typed (ProcFile.on_vfs (Vfs.get_file f)) anything.
Proof. apply on_vfs_typed, keeps_of_option. done. Qed.
Lemma free_fd_typed n : forall fd, keeps files_typed (ProcFile.free_fd pfiles n fd) anything.
Proof.
  induction n as [|n IH]; intros; cbn [ProcFile.free_fd]; [keeps_auto|]. apply (keeps_bind _ _ _ anything).
  - apply keeps_of_option. done.
  - intros st _. keeps_auto.
Qed.
Hint Resolve get_opened_file_typed pf_get_file_typed free_fd_typed : keeps.

Lemma install_typed fd f : keeps files_typed (ProcFile.install pfiles fd f) anything.
Proof.
  unfold ProcFile.install, ProcFile.copy_file. keeps_step; [|keeps_step; [by apply keeps_modify|keeps_auto]].
  keeps_step. apply on_vfs_typed, keeps_modify. intros s. apply Hset.
Qed.
Hint Resolve install_typed : keeps.

Hint Extern 1 (keeps _ (ProcFile.on_vfs _) _) => apply on_vfs_typed; first
  [by apply vk_open|by apply vk_read|by apply vk_write|by apply vk_lseek|by eapply vk_stat|by apply vk_disk_stat|by apply vk_close
  |by apply vk_opendir|by apply vk_readdir|by apply vk_mkdir|by apply vk_closedir|by apply vk_link|by apply vk_unlink] : keeps.

Lemma do_open_typed path flags : keeps files_typed (ProcFile.do_open i_ops pfiles path flags) anything.
Proof. unfold ProcFile.do_open. keeps_auto. Qed.
Lemma do_read_typed u fd n : keeps files_typed (ProcFile.do_read i_ops pfiles u fd n) anything.
Proof. unfold ProcFile.do_read. keeps_auto. Qed.
Lemma do_write_typed fd w n : keeps files_typed (ProcFile.do_write i_ops pfiles fd w n) anything.
Proof. unfold ProcFile.do_write. keeps_auto. Qed.
Lemma do_lseek_typed fd n w : keeps files_typed (ProcFile.do_lseek i_ops pfiles fd n w) anything.
Proof. unfold ProcFile.do_lseek. keeps_auto. Qed.
Lemma do_stat_typed fd : keeps files_typed (ProcFile.do_stat pfiles fd) anything.
Proof. unfold ProcFile.do_stat. keeps_auto. Qed.
Lemma do_disk_stat_typed fd : keeps files_typed (ProcFile.do_disk_stat i_ops pfiles fd) anything.
Proof. unfold ProcFile.do_disk_stat. keeps_auto. Qed.
Lemma do_close_typed fd : keeps files_typed (ProcFile.do_close i_ops pfiles fd) anything.
Proof. unfold ProcFile.do_close. keeps_auto. Qed.
Lemma do_opendir_typed path : keeps files_typed (ProcFile.do_opendir i_ops pfiles path) anything.
Proof. unfold ProcFile.do_opendir. keeps_auto. Qed.
Lemma do_readdir_typed fd : keeps files_typed (ProcFile.do_readdir i_ops pfiles fd) anything.
Proof. unfold ProcFile.do_readdir. keeps_auto. Qed.
Lemma do_mkdir_typed path : keeps files_typed (ProcFile.do_mkdir i_ops path) anything.
Proof. unfold ProcFile.do_mkdir. keeps_auto. Qed.
Lemma do_closedir_typed fd : keeps files_typed (ProcFile.do_closedir i_ops pfiles fd) anything.
Proof. unfold ProcFile.do_closedir. keeps_auto. Qed.
Lemma do_link_typed p q : keeps files_typed (ProcFile.do_link i_ops p q) anything.
Proof. unfold ProcFile.do_link. keeps_auto. Qed.
Lemma do_unlink_typed p : keeps files_typed (ProcFile.do_unlink i_ops p) anything.
Proof. unfold ProcFile.do_unlink. keeps_auto. Qed.
End files.
