(* ===== verification/Process.v ===== *)
(** * [kernel/process.h], [kernel/process.c]: the process pool

    The pool [procs] is a list of records indexed like the C array; a process
    pointer is an index.  Everything a process keeps in pages of its own (the
    trapframe, the [mapped_info] array, the page tables, the open-file table)
    lives in the word memory of [Pmm], at the offsets of the C structures.  The
    two assembly routines of [kernel/strap_vector.S] that enter and leave user
    mode are modelled as they read and write the trapframe. *)

From stdpp Require Import base gmap list numbers strings.
From Stdlib Require Import ZArith Lia.
From S2P Require Import Prelude Pmm Vmm.
Local Open Scope Z_scope.

(** ** 32-bit fields of word memory *)
Definition ld32 (m : memory) (a : Z) : Z :=
  if a mod 8 =? 0 then u32 (ld64 m a) else u32 (ld64 m (a - 4) / 2 ^ 32).
Definition st32 (m : memory) (a v : Z) : memory :=
  if a mod 8 =? 0 then st64 m a (ld64 m a / 2 ^ 32 * 2 ^ 32 + u32 v)
  else st64 m (a - 4) (u32 (ld64 m (a - 4)) + u32 v * 2 ^ 32).

#[global] Arguments ld32 : simpl never.
#[global] Arguments st32 : simpl never.

(** ** Constants of [kernel/process.h], [kernel/sched.h], [kernel/riscv.h] *)
Definition NPROC : Z := 32.
Definition MAX_HEAP_PAGES : Z := 32.
Definition TIME_SLICE_LEN : Z := 2.
Definition SSTATUS_SPP : Z := Z.shiftl 1 8.
Definition SSTATUS_SPIE : Z := Z.shiftl 1 5.
Definition SIP_SSIP : Z := Z.shiftl 1 1.
Definition CAUSE_USER_ECALL : Z := 0x8.
Definition CAUSE_LOAD_PAGE_FAULT : Z := 0xd.
Definition CAUSE_STORE_PAGE_FAULT : Z := 0xf.
Definition CAUSE_MTIMER_S_TRAP : Z := 0x8000000000000001.
Definition MAX_FILES : Z := 128.
Definition FD_NONE : Z := 0.

(** [enum proc_status], [enum segment_type] *)
Inductive proc_status := FREE | READY | RUNNING | BLOCKED | ZOMBIE.
#[global] Instance proc_status_eq_dec : EqDecision proc_status.
Proof. solve_decision. Defined.

Definition STACK_SEGMENT : Z := 0.
Definition CONTEXT_SEGMENT : Z := 1.
Definition SYSTEM_SEGMENT : Z := 2.
Definition HEAP_SEGMENT : Z := 3.
Definition CODE_SEGMENT : Z := 4.
Definition DATA_SEGMENT : Z := 5.

(** Addresses the linker provides. *)
Class KernelSymbols := {
  trap_sec_start : Z;
  smode_trap_vector_addr : Z;
  smode_trap_handler_addr : Z;
}.

(** ** Layout of [trapframe], [mapped_region], [proc_file_management] *)
Definition tf_sp : Z := 8.
Definition tf_a0 : Z := 72.
Definition tf_t6 : Z := 240.
Definition tf_kernel_sp : Z := 248.
Definition tf_kernel_trap : Z := 256.
Definition tf_epc : Z := 264.
Definition tf_kernel_satp : Z := 272.
Definition trapframe_words : nat := 35.

Definition mr_va (mapped_info i : Z) : Z := mapped_info + 16 * i.
Definition mr_npages (mapped_info i : Z) : Z := mapped_info + 16 * i + 8.
Definition mr_seg_type (mapped_info i : Z) : Z := mapped_info + 16 * i + 12.

Definition pf_status (pfiles fd : Z) : Z := pfiles + 8 + 24 * fd.
Definition pf_nfiles (pfiles : Z) : Z := pfiles + 8 + 24 * MAX_FILES.

(** [memcpy] of whole words between non-overlapping aligned regions. *)
Fixpoint copy_words (n : nat) (dst src : Z) (m : memory) : memory :=
  match n with
  | O => m
  | S n => copy_words n (dst + 8) (src + 8) (st64 m dst (ld64 m src))
  end.

(** ** State *)
Record process := mk_process {
  kstack : Z;
  pagetable : Z;
  trapframe : Z;
  mapped_info : Z;
  total_mapped_region : Z;
  heap_top : Z;
  heap_bottom : Z;
  free_pages_address : list Z;
  free_pages_count : Z;
  pid : Z;
  status : proc_status;
  parent : option nat;
  queue_next : option nat;
  tick_count : Z;
  pfiles : Z;
}.

(** The process structure after [memset(.., 0, ..)]. *)
Definition zero_process : process :=
  mk_process 0 0 0 0 0 0 0 (replicate (Z.to_nat MAX_HEAP_PAGES) 0) 0 0 FREE None None 0 0.

Definition set_status (st : proc_status) (p : process) : process :=
  mk_process (kstack p) (pagetable p) (trapframe p) (mapped_info p) (total_mapped_region p)
    (heap_top p) (heap_bottom p) (free_pages_address p) (free_pages_count p)
    (pid p) st (parent p) (queue_next p) (tick_count p) (pfiles p).
Definition set_queue_next (n : option nat) (p : process) : process :=
  mk_process (kstack p) (pagetable p) (trapframe p) (mapped_info p) (total_mapped_region p)
    (heap_top p) (heap_bottom p) (free_pages_address p) (free_pages_count p)
    (pid p) (status p) (parent p) n (tick_count p) (pfiles p).
Definition set_parent (q : option nat) (p : process) : process :=
  mk_process (kstack p) (pagetable p) (trapframe p) (mapped_info p) (total_mapped_region p)
    (heap_top p) (heap_bottom p) (free_pages_address p) (free_pages_count p)
    (pid p) (status p) q (queue_next p) (tick_count p) (pfiles p).
Definition set_tick_count (t : Z) (p : process) : process :=
  mk_process (kstack p) (pagetable p) (trapframe p) (mapped_info p) (total_mapped_region p)
    (heap_top p) (heap_bottom p) (free_pages_address p) (free_pages_count p)
    (pid p) (status p) (parent p) (queue_next p) t (pfiles p).
Definition set_heap (top bottom : Z) (free : list Z) (count : Z) (p : process) : process :=
  mk_process (kstack p) (pagetable p) (trapframe p) (mapped_info p) (total_mapped_region p)
    top bottom free count
    (pid p) (status p) (parent p) (queue_next p) (tick_count p) (pfiles p).
Definition set_regions (n : Z) (p : process) : process :=
  mk_process (kstack p) (pagetable p) (trapframe p) (mapped_info p) n
    (heap_top p) (heap_bottom p) (free_pages_address p) (free_pages_count p)
    (pid p) (status p) (parent p) (queue_next p) (tick_count p) (pfiles p).
Definition set_space (ks pt tf mi : Z) (p : process) : process :=
  mk_process ks pt tf mi (total_mapped_region p)
    (heap_top p) (heap_bottom p) (free_pages_address p) (free_pages_count p)
    (pid p) (status p) (parent p) (queue_next p) (tick_count p) (pfiles p).
Definition set_pfiles (f : Z) (p : process) : process :=
  mk_process (kstack p) (pagetable p) (trapframe p) (mapped_info p) (total_mapped_region p)
    (heap_top p) (heap_bottom p) (free_pages_address p) (free_pages_count p)
    (pid p) (status p) (parent p) (queue_next p) (tick_count p) f.

(** Control and status registers, and the general purpose registers and program
    counter of the user program. *)
Record cpu := mk_cpu {
  stvec : Z; satp : Z; sstatus : Z; sepc : Z; scause : Z; stval : Z; sip : Z; sscratch : Z;
  regs : list Z;
}.

Record state := mk_state {
  pmm : Pmm.state;
  procs : list process;
  current : option nat;
  ready_queue_head : option nat;
  hart : cpu;
  g_ticks : Z;
  vfs_root_dentry : Z;
}.

Definition with_pmm (p : Pmm.state) (s : state) : state :=
  mk_state p (procs s) (current s) (ready_queue_head s) (hart s) (g_ticks s) (vfs_root_dentry s).
Definition with_procs (l : list process) (s : state) : state :=
  mk_state (pmm s) l (current s) (ready_queue_head s) (hart s) (g_ticks s) (vfs_root_dentry s).
Definition with_current (c : option nat) (s : state) : state :=
  mk_state (pmm s) (procs s) c (ready_queue_head s) (hart s) (g_ticks s) (vfs_root_dentry s).
Definition with_head (h : option nat) (s : state) : state :=
  mk_state (pmm s) (procs s) (current s) h (hart s) (g_ticks s) (vfs_root_dentry s).
Definition with_hart (c : cpu) (s : state) : state :=
  mk_state (pmm s) (procs s) (current s) (ready_queue_head s) c (g_ticks s) (vfs_root_dentry s).
Definition with_ticks (t : Z) (s : state) : state :=
  mk_state (pmm s) (procs s) (current s) (ready_queue_head s) (hart s) t (vfs_root_dentry s).

Definition mem (s : state) : memory := Pmm.mem (pmm s).
Definition lift {A} (m : M Pmm.state A) : M state A := zoom pmm with_pmm m.
Definition update_mem (f : memory -> memory) : M state unit :=
  modify (fun s => with_pmm (Pmm.set_mem (f (mem s)) (pmm s)) s).
Definition load (a : Z) : M state Z := gets (fun s => ld64 (mem s) a).
Definition store (a v : Z) : M state unit := update_mem (fun m => st64 m a v).
Definition load32 (a : Z) : M state Z := gets (fun s => ld32 (mem s) a).
Definition store32 (a v : Z) : M state unit := update_mem (fun m => st32 m a v).

(** A process pointer dereferenced for reading and for writing. *)
Definition get_proc (i : nat) : M state process := fun s =>
  of_option "process pointer out of the pool" (procs s !! i) s.
Definition upd_proc (i : nat) (f : process -> process) : M state unit :=
  modify (fun s => with_procs (alter f i (procs s)) s).

Definition assert (b : bool) (msg : string) : M state unit := if b then ret tt else panic msg.
(** [current] dereferenced. *)
Definition the_current : M state nat := fun s => of_option "current is NULL" (current s) s.
(** A pointer returned by [alloc_page] and dereferenced at once. *)
Definition nonnull (p : Z) (what : string) : M state unit := if p =? 0 then fault what else ret tt.

Module Process.
Section ops.
Context `{KernelSymbols}.

(** The 31 general purpose registers saved in a trapframe. *)
Definition saved_regs (m : memory) (tf : Z) : list Z :=
  map (fun i => ld64 m (tf + 8 * Z.of_nat i)) (seq 0 31).

(** [return_to_user] of [kernel/strap_vector.S]: the user page table, the
    trapframe pointer in [sscratch] and the 31 registers of the trapframe, then
    [sret] to [sepc]. *)
Definition return_to_user {A} (tf user_satp : Z) : M state A := fun s =>
  let c := hart s in
  ToUser (with_hart (mk_cpu (stvec c) user_satp (sstatus c) (sepc c) (scause c) (stval c) (sip c) tf
    (saved_regs (mem s) tf)) s).

Definition write_stvec (v : Z) : M state unit := modify (fun s =>
  let c := hart s in
  with_hart (mk_cpu v (satp c) (sstatus c) (sepc c) (scause c) (stval c) (sip c) (sscratch c) (regs c)) s).
Definition write_sstatus (v : Z) : M state unit := modify (fun s =>
  let c := hart s in
  with_hart (mk_cpu (stvec c) (satp c) v (sepc c) (scause c) (stval c) (sip c) (sscratch c) (regs c)) s).
Definition write_sepc (v : Z) : M state unit := modify (fun s =>
  let c := hart s in
  with_hart (mk_cpu (stvec c) (satp c) (sstatus c) v (scause c) (stval c) (sip c) (sscratch c) (regs c)) s).
Definition write_sip (v : Z) : M state unit := modify (fun s =>
  let c := hart s in
  with_hart (mk_cpu (stvec c) (satp c) (sstatus c) (sepc c) (scause c) (stval c) v (sscratch c) (regs c)) s).

Definition switch_to {A} (proc : option nat) : M state A :=
  match proc with
  | None => panic "assertion failed: proc"
  | Some i =>
      modify (with_current (Some i)) ;;
      write_stvec smode_trap_vector_addr ;;
      p <- get_proc i ;;
      nonnull (trapframe p) "trapframe is NULL" ;;
      store (trapframe p + tf_kernel_sp) (kstack p) ;;
      k <- gets (fun s => satp (hart s)) ;;
      store (trapframe p + tf_kernel_satp) k ;;
      store (trapframe p + tf_kernel_trap) smode_trap_handler_addr ;;
      x <- gets (fun s => sstatus (hart s)) ;;
      let x := Z.land x (Z.lnot SSTATUS_SPP) in
      let x := Z.lor x SSTATUS_SPIE in
      write_sstatus x ;;
      epc <- load (trapframe p + tf_epc) ;;
      write_sepc epc ;;
      let user_satp := MAKE_SATP (pagetable p) in
      return_to_user (trapframe p) user_satp
  end.

Definition set_pid (i : Z) (p : process) : process :=
  mk_process (kstack p) (pagetable p) (trapframe p) (mapped_info p) (total_mapped_region p)
    (heap_top p) (heap_bottom p) (free_pages_address p) (free_pages_count p)
    i (status p) (parent p) (queue_next p) (tick_count p) (pfiles p).

Definition init_proc_pool : M state unit :=
  modify (with_procs (replicate (Z.to_nat NPROC) zero_process)) ;;
  modify (fun s => with_procs (imap (fun i p => set_pid (Z.of_nat i) (set_status FREE p)) (procs s)) s).

(** [init_proc_file_management] of [kernel/proc_file.c]. *)
Fixpoint close_all (n : nat) (pf fd : Z) (m : memory) : memory :=
  match n with
  | O => m
  | S n => close_all n pf (fd + 1) (st32 m (pf_status pf fd) FD_NONE)
  end.

Definition init_proc_file_management : M state Z :=
  pf <- lift Pmm.alloc_page ;;
  nonnull pf "pfiles is NULL" ;;
  root <- gets vfs_root_dentry ;;
  store pf root ;;
  store32 (pf_nfiles pf) 0 ;;
  update_mem (close_all (Z.to_nat MAX_FILES) pf 0) ;;
  ret pf.

Definition reclaim_proc_file_management (pf : Z) : M state unit := lift (Pmm.free_page pf).

(** The first slot of the pool with status [FREE]. *)
Definition first_free (l : list process) : option nat :=
  fst <$> list_find (fun p => status p = FREE) l.

Definition register_region (mi i va npages seg_type : Z) : M state unit :=
  store (mr_va mi i) va ;;
  store32 (mr_npages mi i) npages ;;
  store32 (mr_seg_type mi i) seg_type.

Definition alloc_process : M state nat :=
  slot <- gets (fun s => first_free (procs s)) ;;
  match slot with
  | None => panic "cannot find any free process structure."
  | Some i =>
      tf <- lift Pmm.alloc_page ;;
      nonnull tf "trapframe is NULL" ;;
      update_mem (Vmm.zero_words trapframe_words tf) ;;
      pt <- lift Pmm.alloc_page ;;
      nonnull pt "pagetable is NULL" ;;
      update_mem (Vmm.zero_page pt) ;;
      ks <- lift Pmm.alloc_page ;;
      let ks := ks + PGSIZE in
      user_stack <- lift Pmm.alloc_page ;;
      store (tf + tf_sp) USER_STACK_TOP ;;
      mi <- lift Pmm.alloc_page ;;
      nonnull mi "mapped_info is NULL" ;;
      update_mem (Vmm.zero_page mi) ;;
      upd_proc i (set_space ks pt tf mi) ;;
      lift (Vmm.user_vm_map pt (USER_STACK_TOP - PGSIZE) PGSIZE user_stack
              (Vmm.prot_to_type (Z.lor PROT_WRITE PROT_READ) true)) ;;
      register_region mi STACK_SEGMENT (USER_STACK_TOP - PGSIZE) 1 STACK_SEGMENT ;;
      lift (Vmm.user_vm_map pt tf PGSIZE tf (Vmm.prot_to_type (Z.lor PROT_WRITE PROT_READ) false)) ;;
      register_region mi CONTEXT_SEGMENT tf 1 CONTEXT_SEGMENT ;;
      lift (Vmm.user_vm_map pt trap_sec_start PGSIZE trap_sec_start
              (Vmm.prot_to_type (Z.lor PROT_READ PROT_EXEC) false)) ;;
      register_region mi SYSTEM_SEGMENT trap_sec_start 1 SYSTEM_SEGMENT ;;
      upd_proc i (fun p => set_heap USER_FREE_ADDRESS_START USER_FREE_ADDRESS_START
                             (free_pages_address p) 0 p) ;;
      register_region mi HEAP_SEGMENT USER_FREE_ADDRESS_START 0 HEAP_SEGMENT ;;
      upd_proc i (set_regions 4) ;;
      pf <- init_proc_file_management ;;
      upd_proc i (set_pfiles pf) ;;
      ret i
  end.

Definition free_process (i : nat) : M state Z :=
  upd_proc i (set_status ZOMBIE) ;; ret 0.

End ops.
End Process.
#[global] Arguments Process.saved_regs : simpl never.

Lemma saved_regs_ext m m' tf :
  (forall k, (k < 31)%nat -> ld64 m' (tf + 8 * Z.of_nat k) = ld64 m (tf + 8 * Z.of_nat k)) ->
  Process.saved_regs m' tf = Process.saved_regs m tf.
Proof. intros Hm. apply map_ext_in. intros k Hk%in_seq. apply Hm. lia. Qed.
