(* ===== verification/ProcessSpec.v ===== *)
(** * Creation of a process

    [alloc_process] builds a process from free pages: an address space with the
    stack, the trapframe and the trap section mapped and nothing else, a cleared
    trapframe with the stack pointer set, the four regions recorded, an empty
    heap and a table of closed files.  Everything else in memory stays as it
    was. *)

From stdpp Require Import base gmap list numbers strings.
From Stdlib Require Import ZArith Lia.
From S2P Require Import Prelude Pmm Vmm VmmSpec Process.
Local Open Scope Z_scope.

(** ** Recording a region *)
Definition region_mem (mi j va npages seg : Z) (m : memory) : memory :=
  st32 (st32 (st64 m (mr_va mi j) va) (mr_npages mi j) npages) (mr_seg_type mi j) seg.

Lemma register_region_eq mi j va npages seg k :
  Process.register_region mi j va npages seg k =
  Ret tt (with_pmm (Pmm.set_mem (region_mem mi j va npages seg (Process.mem k)) (pmm k)) k).
Proof. done. Qed.

Lemma region_mem_words mi j va npages seg m a :
  mi mod 8 = 0 -> a <> mi + 16 * j -> a <> mi + 16 * j + 8 -> region_mem mi j va npages seg m !! a = m !! a.
Proof.
  intros Hmi H1 H2. unfold region_mem, st32, mr_va, mr_npages, mr_seg_type, st64.
  destruct (Z.eqb_spec ((mi + 16 * j + 8) mod 8) 0); [|zlia].
  destruct (Z.eqb_spec ((mi + 16 * j + 12) mod 8) 0); [zlia|].
  replace (mi + 16 * j + 12 - 4) with (mi + 16 * j + 8) by lia. by rewrite !lookup_insert_ne by lia.
Qed.

Lemma region_mem_read mi j va npages seg m :
  mi mod 8 = 0 -> 0 <= npages < 2 ^ 32 -> 0 <= seg < 2 ^ 32 ->
  let m' := region_mem mi j va npages seg m in
  ld64 m' (mr_va mi j) = va /\ ld32 m' (mr_npages mi j) = npages /\ ld32 m' (mr_seg_type mi j) = seg.
Proof.
  intros Hmi Hn Hs. unfold region_mem, st32, ld32, mr_va, mr_npages, mr_seg_type.
  destruct (Z.eqb_spec ((mi + 16 * j + 8) mod 8) 0); [|zlia].
  destruct (Z.eqb_spec ((mi + 16 * j + 12) mod 8) 0); [zlia|].
  replace (mi + 16 * j + 12 - 4) with (mi + 16 * j + 8) by lia.
  rewrite !ld64_st64_eq, (ld64_st64_ne _ (mi + 16 * j + 8) (mi + 16 * j)), (ld64_st64_ne _ (mi + 16 * j + 8) (mi + 16 * j)), ld64_st64_eq by lia.
  unfold u32. split_and!; [done|zlia|zlia].
Qed.

(** What a region of a process is recorded as. *)
Definition region (m : memory) (mi j : Z) : Z * Z * Z :=
  (ld64 m (mr_va mi j), ld32 m (mr_npages mi j), ld32 m (mr_seg_type mi j)).

Lemma ld32_words m m' a : (forall b, b = a \/ b = a - 4 -> ld64 m' b = ld64 m b) -> ld32 m' a = ld32 m a.
Proof. intros Hm. unfold ld32. by destruct (a mod 8 =? 0); rewrite Hm by tauto. Qed.

Lemma region_words m m' mi j : mi mod 8 = 0 ->
  (forall a, a = mi + 16 * j \/ a = mi + 16 * j + 8 -> ld64 m' a = ld64 m a) -> region m' mi j = region m mi j.
Proof.
  intros Hmi Hm. unfold region, mr_va, mr_npages, mr_seg_type, ld32.
  destruct (Z.eqb_spec ((mi + 16 * j + 8) mod 8) 0); [|zlia].
  destruct (Z.eqb_spec ((mi + 16 * j + 12) mod 8) 0); [zlia|].
  replace (mi + 16 * j + 12 - 4) with (mi + 16 * j + 8) by lia. by rewrite !Hm by tauto.
Qed.

(** ** Steps that change the pages only, and the processes only *)
Section steps.
Implicit Types s : state.

Lemma with_pmm_pmm v s : pmm (with_pmm v s) = v.
Proof. done. Qed.

Lemma lift_with {A} (m : M Pmm.state A) v l s r v' :
  m v = Ret r v' -> lift m (with_pmm v (with_procs l s)) = Ret r (with_pmm v' (with_procs l s)).
Proof. intros E. unfold lift, zoom. simpl. by rewrite E. Qed.

Lemma update_mem_with f v l s :
  update_mem f (with_pmm v (with_procs l s)) = Ret tt (with_pmm (Pmm.set_mem (f (Pmm.mem v)) v) (with_procs l s)).
Proof. done. Qed.

Lemma upd_proc_with i f v l s :
  upd_proc i f (with_pmm v (with_procs l s)) = Ret tt (with_pmm v (with_procs (alter f i l) s)).
Proof. done. Qed.

Lemma alter_insert_list {X} (f : X -> X) (i : nat) (x : X) (l : list X) : alter f i (<[i := x]> l) = <[i := f x]> l.
Proof. revert i. induction l as [|y l IH]; intros [|i]; try done. csimpl. by rewrite IH. Qed.

Lemma get_proc_with {B} i q v l s (k : process -> M state B) : l !! i = Some q ->
  bind (get_proc i) k (with_pmm v (with_procs l s)) = k q (with_pmm v (with_procs l s)).
Proof. intros Hi. unfold bind, get_proc. simpl. by rewrite Hi. Qed.
Lemma load_with {B} a v l s (k : Z -> M state B) : bind (load a) k (with_pmm v (with_procs l s)) = k (ld64 (Pmm.mem v) a) (with_pmm v (with_procs l s)).
Proof. done. Qed.
Lemma load32_with {B} a v l s (k : Z -> M state B) : bind (load32 a) k (with_pmm v (with_procs l s)) = k (ld32 (Pmm.mem v) a) (with_pmm v (with_procs l s)).
Proof. done. Qed.

Lemma region_npages m mi j n : mi mod 8 = 0 -> 0 <= n < 2 ^ 32 ->
  region (st32 m (mr_npages mi j) n) mi j = ((region m mi j).1.1, n, (region m mi j).2).
Proof.
  intros Hmi Hn. unfold region, st32, ld32, mr_va, mr_npages, mr_seg_type.
  destruct (Z.eqb_spec ((mi + 16 * j + 8) mod 8) 0); [|zlia]. destruct (Z.eqb_spec ((mi + 16 * j + 12) mod 8) 0); [zlia|].
  replace (mi + 16 * j + 12 - 4) with (mi + 16 * j + 8) by lia. rewrite ld64_st64_ne, ld64_st64_eq by lia. cbn [fst snd]. unfold u32.
  set (w := ld64 m (mi + 16 * j + 8)). rewrite (Z.mod_small n) by lia.
  rewrite Z.div_add_l, (Z.div_small n), Z.add_0_r by lia. rewrite (Z.add_comm _ n), Z.mod_add, (Z.mod_small n) by lia. done.
Qed.

Lemma register_region_with mi j va n seg v l s :
  Process.register_region mi j va n seg (with_pmm v (with_procs l s)) =
    Ret tt (with_pmm (Pmm.set_mem (region_mem mi j va n seg (Pmm.mem v)) v) (with_procs l s)).
Proof. done. Qed.

Lemma nonnull_bind {B} p what (k : unit -> M state B) s : p <> 0 -> bind (nonnull p what) k s = k tt s.
Proof. intros Hp. unfold nonnull. by destruct (Z.eqb_spec p 0). Qed.

Lemma with_self s : with_pmm (pmm s) (with_procs (procs s) s) = s.
Proof. by destruct s. Qed.
End steps.

(** A page of free memory, and the words in it. *)
Lemma page_word p k : p mod PGSIZE = 0 -> 0 <= k < PGSIZE -> ROUNDDOWN (p + k) PGSIZE = p.
Proof. unfold ROUNDDOWN, PGSIZE. intros. zlia. Qed.

(** Taking a page: nothing in memory changes. *)
Lemma rep_take v p F : Pmm.rep v (p :: F) ->
  exists v', Pmm.alloc_page v = Ret p v' /\ Pmm.rep v' F /\ Pmm.mem v' = Pmm.mem v /\
    Pmm.free_mem_start_addr v' = Pmm.free_mem_start_addr v /\ Pmm.free_mem_end_addr v' = Pmm.free_mem_end_addr v /\
    (p ∉ F) /\ p mod PGSIZE = 0 /\ 0 < p /\ Pmm.free_mem_start_addr v <= p < Pmm.free_mem_end_addr v.
Proof.
  intros Hrep. destruct (Pmm.alloc_page_cons v p F Hrep) as [E Hrep']. destruct Hrep as (H0 & _ & Hnd & Hv).
  apply NoDup_cons in Hnd as [Hni _]. apply Forall_cons in Hv as [[Ha Hr] _].
  eexists. split; [exact E|]. split_and!; try done; lia.
Qed.

(** Changing a page that is not free. *)
Lemma rep_page v F p m : Pmm.rep v F -> (p ∉ F) -> (forall a, ROUNDDOWN a PGSIZE <> p -> ld64 m a = ld64 (Pmm.mem v) a) ->
  Pmm.rep (Pmm.set_mem m v) F.
Proof.
  intros Hrep Hp Hm. apply Pmm.rep_set_mem; [done|]. intros q Hq. apply Hm. destruct (Pmm.rep_pages _ _ Hrep) as [_ Hv].
  rewrite Forall_forall in Hv. destruct (Hv q Hq) as [Ha _].
  replace (ROUNDDOWN q PGSIZE) with q by (clear -Ha; unfold ROUNDDOWN, PGSIZE in *; zlia). by intros ->.
Qed.

(** ** Mapping a page and recording it as a region *)
Section map_record.
Context (root mi : Z) (Hmi : mi mod PGSIZE = 0).
Implicit Types v : Pmm.state.

(** What changed: [used] free pages became tables, region [j] was recorded, and
    [va] is mapped. *)
Record recorded v (F : list Z) (va pa perm j va' n seg : Z) v' (used F' : list Z) : Prop := {
  rc_inv : vm_inv root v' F';
  rc_split : F = used ++ F';
  rc_used : (length used <= 2)%nat;
  rc_bounds : Pmm.free_mem_start_addr v' = Pmm.free_mem_start_addr v /\ Pmm.free_mem_end_addr v' = Pmm.free_mem_end_addr v;
  rc_table : forall q, is_table root (Pmm.mem v') q -> is_table root (Pmm.mem v) q \/ q ∈ used;
  rc_region : region (Pmm.mem v') mi j = (va', n, seg);
  rc_frame : forall a, ~ is_table root (Pmm.mem v) (ROUNDDOWN a PGSIZE) -> ROUNDDOWN a PGSIZE ∉ F ->
    a <> mi + 16 * j -> a <> mi + 16 * j + 8 -> ld64 (Pmm.mem v') a = ld64 (Pmm.mem v) a;
  rc_xlate : forall x, 0 <= x < MAXVA -> xlate root (Pmm.mem v') x =
    if decide (same_page va x) then Some (entry pa perm) else xlate root (Pmm.mem v) x;
}.

Lemma map_record v F va pa perm j va' n seg l s :
  0 <= va -> va mod PGSIZE = 0 -> va + PGSIZE <= MAXVA -> 0 <= pa -> pa + PGSIZE < 2 ^ 64 ->
  vm_inv root v F -> (2 <= length F)%nat -> xlate root (Pmm.mem v) va = None ->
  (mi ∉ F) -> ~ is_table root (Pmm.mem v) mi -> 0 <= j < 256 -> 0 <= n < 2 ^ 32 -> 0 <= seg < 2 ^ 32 ->
  exists v' used F', bind (lift (Vmm.user_vm_map root va PGSIZE pa perm)) (fun _ => Process.register_region mi j va' n seg)
      (with_pmm v (with_procs l s)) = Ret tt (with_pmm v' (with_procs l s)) /\
    recorded v F va pa perm j va' n seg v' used F'.
Proof.
  intros Hva Ha Hmax Hp0 Hp Hinv HF Hx Hni Hnt Hj Hn Hseg. assert (mi mod 8 = 0) as Hmi8 by (clear -Hmi; unfold PGSIZE in *; zlia).
  destruct (user_vm_map_page root va pa perm v F) as ([] & v1 & E & used & F' & Hinv1 & Hev & Hlen & Hx1); try done.
  destruct Hev as (HFs & Hb1 & He1 & Ht1 & Hf1).
  set (m' := region_mem mi j va' n seg (Pmm.mem v1)).
  assert (forall a, ROUNDDOWN a PGSIZE <> mi -> m' !! a = Pmm.mem v1 !! a) as Hw.
  { intros a Hne. apply region_mem_words; [done|..]; intros ->; apply Hne; [|rewrite <- Z.add_assoc]; apply page_word; try done;
      unfold PGSIZE; lia. }
  assert (mi ∉ F') as Hni' by (intros ?; apply Hni; rewrite HFs; apply elem_of_app; by right).
  assert (~ is_table root (Pmm.mem v1) mi) as Hnt' by (intros Ht; destruct (Ht1 _ Ht); [done|]; apply Hni; rewrite HFs; apply elem_of_app; by left).
  destruct (vm_inv_frame root v1 F' m' Hinv1) as (Hinv' & Htab & Hxl).
  { intros a Ht. unfold ld64. rewrite Hw; [done|]. intros E'. rewrite E' in Ht. by destruct Ht. }
  exists (Pmm.set_mem m' v1), used, F'. split.
  - mstep (lift_with _ v l s _ _ E). apply register_region_with.
  - split; try done.
    + intros q (x & d & Hd & Ht). apply Ht1. exists x, d. split; [done|]. by rewrite <- Htab.
    + destruct (region_mem_read mi j va' n seg (Pmm.mem v1)) as (R1 & R2 & R3); try done. fold m' in R1, R2, R3.
      unfold region. cbn [Pmm.mem Pmm.set_mem]. by rewrite R1, R2, R3.
    + intros a Hnt'' Hni'' H1 H2. cbn [Pmm.mem Pmm.set_mem]. unfold ld64 at 1. unfold m'. rewrite region_mem_words by done.
      fold (ld64 (Pmm.mem v1) a). by apply Hf1.
    + intros x Hxr. cbn [Pmm.mem Pmm.set_mem]. by rewrite Hxl, Hx1.
Qed.
End map_record.

(** ** The table of files *)
Lemma close_all_words n pf : forall fd m a, 0 <= fd -> (forall k, fd <= k < fd + Z.of_nat n -> a <> pf_status pf k) -> pf mod 8 = 0 ->
  ld64 (Process.close_all n pf fd m) a = ld64 m a.
Proof.
  induction n as [|n IH]; intros fd m a Hfd Ha Hpf; cbn [Process.close_all]; [done|]. rewrite IH; [|lia| |done].
  - unfold st32, pf_status. destruct (Z.eqb_spec ((pf + 8 + 24 * fd) mod 8) 0); [|zlia].
    apply ld64_st64_ne. intros E. apply (Ha fd); [lia|]. unfold pf_status. lia.
  - intros k Hk. apply Ha. lia.
Qed.

Lemma close_all_status n pf : forall fd m k, 0 <= fd -> fd <= k < fd + Z.of_nat n -> pf mod 8 = 0 ->
  ld32 (Process.close_all n pf fd m) (pf_status pf k) = 0.
Proof.
  induction n as [|n IH]; intros fd m k Hfd Hk Hpf; cbn [Process.close_all]; [lia|].
  destruct (decide (k = fd)) as [->|Hne]; [|apply IH; lia].
  unfold ld32, st32, pf_status. destruct (Z.eqb_spec ((pf + 8 + 24 * fd) mod 8) 0); [|zlia].
  rewrite close_all_words; [|lia|intros k' Hk'; unfold pf_status; lia|done]. rewrite ld64_st64_eq.
  unfold u32, FD_NONE. zlia.
Qed.

(** ** The new process *)
Section create.
Context `{KS : KernelSymbols}.
Implicit Types s : state.

Definition stack_va : Z := USER_STACK_TOP - PGSIZE.
Definition stack_perm : Z := Vmm.prot_to_type (Z.lor PROT_WRITE PROT_READ) true.
Definition frame_perm : Z := Vmm.prot_to_type (Z.lor PROT_WRITE PROT_READ) false.
Definition trap_perm : Z := Vmm.prot_to_type (Z.lor PROT_READ PROT_EXEC) false.

(** The kernel's text, with the trap section, lies below the managed memory, and
    that above the user's stack. *)
Record layout (v : Pmm.state) : Prop := {
  ly_trap : trap_sec_start mod PGSIZE = 0;
  ly_low : USER_STACK_TOP <= trap_sec_start;
  ly_start : trap_sec_start + PGSIZE <= Pmm.free_mem_start_addr v;
  ly_end : Pmm.free_mem_end_addr v <= MAXVA;
}.

(** What memory says about a process that was just created, with the stack page
    [st]. *)
Record fresh_process (cwd : Z) (m : memory) (p : process) (st : Z) : Prop := {
  fp_frame : forall k, 0 <= k < 35 -> ld64 m (trapframe p + 8 * k) = if k =? 1 then USER_STACK_TOP else 0;
  fp_regions : map (region m (mapped_info p)) [0; 1; 2; 3] =
    [(stack_va, 1, STACK_SEGMENT); (trapframe p, 1, CONTEXT_SEGMENT); (trap_sec_start, 1, SYSTEM_SEGMENT);
     (USER_FREE_ADDRESS_START, 0, HEAP_SEGMENT)];
  fp_unused : forall j, 4 <= j < 256 -> ld64 m (mr_va (mapped_info p) j) = 0;
  fp_cwd : ld64 m (pfiles p) = cwd;
  fp_nfiles : ld32 m (pf_nfiles (pfiles p)) = 0;
  fp_closed : forall fd, 0 <= fd < MAX_FILES -> ld32 m (pf_status (pfiles p) fd) = FD_NONE;
  fp_xlate : forall x, 0 <= x < MAXVA -> xlate (pagetable p) m x =
    if decide (same_page stack_va x) then Some (entry st stack_perm)
    else if decide (same_page (trapframe p) x) then Some (entry (trapframe p) frame_perm)
    else if decide (same_page trap_sec_start x) then Some (entry trap_sec_start trap_perm) else None;
}.

(** The pages a process is made of, besides its page tables. *)
Definition own_pages (p : process) (st : Z) : list Z :=
  [trapframe p; pagetable p; kstack p - PGSIZE; st; mapped_info p; pfiles p].

Record created s (F : list Z) (p0 : process) (v' : Pmm.state) (F' : list Z) (p : process) (st : Z) : Prop := {
  cr_inv : vm_inv (pagetable p) v' F';
  cr_bounds : Pmm.free_mem_start_addr v' = Pmm.free_mem_start_addr (pmm s) /\ Pmm.free_mem_end_addr v' = Pmm.free_mem_end_addr (pmm s);
  cr_used : exists used, F = used ++ F' /\ (length used <= 12)%nat /\ own_pages p st ⊆ used /\
    (forall q, is_table (pagetable p) (Pmm.mem v') q -> q ∈ used);
  cr_own : NoDup (own_pages p st) /\ forall q, q ∈ own_pages p st -> q = pagetable p \/ ~ is_table (pagetable p) (Pmm.mem v') q;
  cr_mem : forall a, ROUNDDOWN a PGSIZE ∉ F -> ld64 (Pmm.mem v') a = ld64 (mem s) a;
  cr_fresh : fresh_process (vfs_root_dentry s) (Pmm.mem v') p st;
  cr_fields : p = mk_process (kstack p) (pagetable p) (trapframe p) (mapped_info p) 4 USER_FREE_ADDRESS_START USER_FREE_ADDRESS_START
    (free_pages_address p0) 0 (pid p0) (status p0) (parent p0) (queue_next p0) (tick_count p0) (pfiles p);
}.

(** The first five pages: cleared where the code clears them. *)
Definition space_mem (tf pt mi : Z) (m : memory) : memory :=
  Vmm.zero_page mi (st64 (Vmm.zero_page pt (Vmm.zero_words trapframe_words tf m)) (tf + tf_sp) USER_STACK_TOP).

Record taken v (v1 v2 v3 v4 v5 v' : Pmm.state) (tf pt ks st mi : Z) (F : list Z) : Prop := {
  tk_1 : Pmm.alloc_page v = Ret tf v1;
  tk_2 : Pmm.alloc_page (Pmm.set_mem (Vmm.zero_words trapframe_words tf (Pmm.mem v1)) v1) = Ret pt v2;
  tk_3 : Pmm.alloc_page (Pmm.set_mem (Vmm.zero_page pt (Pmm.mem v2)) v2) = Ret ks v3;
  tk_4 : Pmm.alloc_page v3 = Ret st v4;
  tk_5 : Pmm.alloc_page (Pmm.set_mem (st64 (Pmm.mem v4) (tf + tf_sp) USER_STACK_TOP) v4) = Ret mi v5;
  tk_end : v' = Pmm.set_mem (Vmm.zero_page mi (Pmm.mem v5)) v5;
  tk_mem : Pmm.mem v' = space_mem tf pt mi (Pmm.mem v);
  tk_rep : Pmm.rep v' F;
  tk_bounds : Pmm.free_mem_start_addr v' = Pmm.free_mem_start_addr v /\ Pmm.free_mem_end_addr v' = Pmm.free_mem_end_addr v;
}.

Lemma zero_frame_out tf m a : tf mod PGSIZE = 0 -> ROUNDDOWN a PGSIZE <> tf -> ld64 (Vmm.zero_words trapframe_words tf m) a = ld64 m a.
Proof.
  intros Ha Hne. rewrite ld64_zero_words, bool_decide_eq_false_2; [done|]. intros [H _]. apply Hne.
  clear -H Ha. unfold trapframe_words, ROUNDDOWN, PGSIZE in *. zlia.
Qed.

Lemma store_page_out p k x m a : p mod PGSIZE = 0 -> 0 <= k < PGSIZE -> ROUNDDOWN a PGSIZE <> p -> ld64 (st64 m (p + k) x) a = ld64 m a.
Proof. intros Hp Hk Hne. apply ld64_st64_ne. intros <-. by apply Hne, page_word. Qed.

Lemma take_pages v tf pt ks st mi F : Pmm.rep v (tf :: pt :: ks :: st :: mi :: F) ->
  exists v1 v2 v3 v4 v5 v', taken v v1 v2 v3 v4 v5 v' tf pt ks st mi F.
Proof.
  intros R. destruct (rep_take _ _ _ R) as (v1 & E1 & R1 & M1 & B1 & D1 & N1 & A1 & _).
  apply (rep_page _ _ tf (Vmm.zero_words trapframe_words tf (Pmm.mem v1))) in R1; [|done|by intros a Ha; apply zero_frame_out].
  destruct (rep_take _ _ _ R1) as (v2 & E2 & R2 & M2 & B2 & D2 & N2 & A2 & _).
  apply (rep_page _ _ pt (Vmm.zero_page pt (Pmm.mem v2))) in R2; [|done|by intros a Ha; apply ld64_zero_page_out].
  destruct (rep_take _ _ _ R2) as (v3 & E3 & R3 & M3 & B3 & D3 & N3 & A3 & _).
  destruct (rep_take _ _ _ R3) as (v4 & E4 & R4 & M4 & B4 & D4 & N4 & A4 & _).
  apply (rep_page _ _ tf (st64 (Pmm.mem v4) (tf + tf_sp) USER_STACK_TOP)) in R4.
  2:{ apply not_elem_of_cons. apply not_elem_of_cons in N1 as [_ N1]. apply not_elem_of_cons in N1 as [_ N1].
      apply not_elem_of_cons in N1 as [_ N1]. apply not_elem_of_cons in N1 as [N1 N1']. done. }
  2:{ intros a Ha. by apply store_page_out. }
  destruct (rep_take _ _ _ R4) as (v5 & E5 & R5 & M5 & B5 & D5 & N5 & A5 & _).
  apply (rep_page _ _ mi (Vmm.zero_page mi (Pmm.mem v5))) in R5; [|done|by intros a Ha; apply ld64_zero_page_out].
  exists v1, v2, v3, v4, v5, (Pmm.set_mem (Vmm.zero_page mi (Pmm.mem v5)) v5). cbn [Pmm.mem Pmm.set_mem Pmm.free_mem_start_addr Pmm.free_mem_end_addr] in *.
  split; cbn [Pmm.mem Pmm.set_mem Pmm.free_mem_start_addr Pmm.free_mem_end_addr]; eauto; clear E1 E2 E3 E4 E5.
  - unfold space_mem. by rewrite M5, M4, M3, M2, M1.
  - split; congruence.
Qed.

Lemma bind2_Ret {S A B C} (m : M S A) (r : A -> M S B) (k : B -> M S C) (t : S) b t' :
  bind m r t = Ret b t' -> bind m (fun a => bind (r a) k) t = k b t'.
Proof. unfold bind. destruct (m t); try discriminate. by intros ->. Qed.

Lemma space_mem_out tf pt mi m a : tf mod PGSIZE = 0 -> pt mod PGSIZE = 0 -> mi mod PGSIZE = 0 ->
  ROUNDDOWN a PGSIZE <> tf -> ROUNDDOWN a PGSIZE <> pt -> ROUNDDOWN a PGSIZE <> mi -> ld64 (space_mem tf pt mi m) a = ld64 m a.
Proof.
  intros. unfold space_mem. rewrite ld64_zero_page_out by done. rewrite store_page_out by done.
  rewrite ld64_zero_page_out by done. by rewrite zero_frame_out.
Qed.

Lemma space_mem_frame tf pt mi m k : tf mod PGSIZE = 0 -> pt mod PGSIZE = 0 -> mi mod PGSIZE = 0 -> tf <> pt -> tf <> mi ->
  0 <= k < 35 -> ld64 (space_mem tf pt mi m) (tf + 8 * k) = if k =? 1 then USER_STACK_TOP else 0.
Proof.
  intros Ht Hp Hm H1 H2 Hk. assert (ROUNDDOWN (tf + 8 * k) PGSIZE = tf) as E by (apply page_word; [done|unfold PGSIZE; lia]).
  unfold space_mem. rewrite ld64_zero_page_out by congruence. destruct (Z.eqb_spec k 1) as [->|Hne].
  - apply ld64_st64_eq.
  - rewrite ld64_st64_ne by (unfold tf_sp; lia). rewrite ld64_zero_page_out by congruence.
    rewrite ld64_zero_words, bool_decide_eq_true_2; [done|]. unfold trapframe_words. zlia.
Qed.

Lemma space_mem_tables tf pt mi m k : tf mod PGSIZE = 0 -> pt mod PGSIZE = 0 -> mi mod PGSIZE = 0 -> tf <> pt -> pt <> mi ->
  0 <= k < 512 -> ld64 (space_mem tf pt mi m) (pt + 8 * k) = 0 /\ ld64 (space_mem tf pt mi m) (mi + 8 * k) = 0.
Proof.
  intros Ht Hp Hm H1 H2 Hk. split; [|by apply ld64_zero_page_in].
  assert (ROUNDDOWN (pt + 8 * k) PGSIZE = pt) as E by (apply page_word; [done|unfold PGSIZE; lia]).
  unfold space_mem. rewrite ld64_zero_page_out by congruence. rewrite store_page_out by (done || congruence). by apply ld64_zero_page_in.
Qed.

(** The three mappings of a new address space. *)
Record space_mapped (v : Pmm.state) (F : list Z) (tf pt st mi : Z) (v' : Pmm.state) (used F' : list Z) : Prop := {
  sp_inv : vm_inv pt v' F';
  sp_split : F = used ++ F';
  sp_used : (length used <= 6)%nat;
  sp_bounds : Pmm.free_mem_start_addr v' = Pmm.free_mem_start_addr v /\ Pmm.free_mem_end_addr v' = Pmm.free_mem_end_addr v;
  sp_table : forall q, is_table pt (Pmm.mem v') q -> q = pt \/ q ∈ used;
  sp_regions : map (region (Pmm.mem v') mi) [0; 1; 2] =
    [(stack_va, 1, STACK_SEGMENT); (tf, 1, CONTEXT_SEGMENT); (trap_sec_start, 1, SYSTEM_SEGMENT)];
  sp_frame : forall a, ROUNDDOWN a PGSIZE <> pt -> ROUNDDOWN a PGSIZE ∉ F -> ~ (mi <= a < mi + 48) ->
    ld64 (Pmm.mem v') a = ld64 (Pmm.mem v) a;
  sp_xlate : forall x, 0 <= x < MAXVA -> xlate pt (Pmm.mem v') x =
    if decide (same_page stack_va x) then Some (entry st stack_perm)
    else if decide (same_page tf x) then Some (entry tf frame_perm)
    else if decide (same_page trap_sec_start x) then Some (entry trap_sec_start trap_perm) else None;
}.

Lemma pages_apart p q : p mod PGSIZE = 0 -> q mod PGSIZE = 0 -> p <> q -> ~ same_page p q.
Proof. unfold same_page, PGSIZE. intros. zlia. Qed.

Lemma map_space v F tf pt st mi l s :
  layout v -> vm_inv pt v F -> (forall x, xlate pt (Pmm.mem v) x = None) -> (forall q, is_table pt (Pmm.mem v) q -> q = pt) ->
  tf mod PGSIZE = 0 -> Pmm.free_mem_start_addr v <= tf < Pmm.free_mem_end_addr v ->
  0 <= st < Pmm.free_mem_end_addr v -> mi mod PGSIZE = 0 -> mi <> pt -> (mi ∉ F) -> (6 <= length F)%nat ->
  let st_ v := with_pmm v (with_procs l s) in
  exists v3 used F', (exists v1 v2,
    bind (lift (Vmm.user_vm_map pt stack_va PGSIZE st stack_perm)) (fun _ => Process.register_region mi STACK_SEGMENT stack_va 1 STACK_SEGMENT) (st_ v)
      = Ret tt (st_ v1) /\
    bind (lift (Vmm.user_vm_map pt tf PGSIZE tf frame_perm)) (fun _ => Process.register_region mi CONTEXT_SEGMENT tf 1 CONTEXT_SEGMENT) (st_ v1)
      = Ret tt (st_ v2) /\
    bind (lift (Vmm.user_vm_map pt trap_sec_start PGSIZE trap_sec_start trap_perm))
      (fun _ => Process.register_region mi SYSTEM_SEGMENT trap_sec_start 1 SYSTEM_SEGMENT) (st_ v2) = Ret tt (st_ v3)) /\
    space_mapped v F tf pt st mi v3 used F'.
Proof.
  intros [Lt Ll Ls Le] Hinv Hx Htab Htf Htfr Hst Hmi Hmp HmF HF st_.
  assert (mi mod 8 = 0) as Hmi8 by (clear -Hmi; unfold PGSIZE in *; zlia).
  assert (MAXVA = 2 ^ 38) as HM by done. rewrite HM in Le. unfold USER_STACK_TOP in Ll. unfold PGSIZE in Ls.
  assert (stack_va mod PGSIZE = 0) as Hsv by done.
  assert (tf + PGSIZE <= MAXVA) as Htm by (rewrite HM; clear -Htf Htfr Le; unfold PGSIZE in *; zlia).
  assert (trap_sec_start + PGSIZE <= MAXVA) as Hsm by (rewrite HM; unfold PGSIZE; lia).
  destruct (map_record pt mi Hmi v F stack_va st stack_perm STACK_SEGMENT stack_va 1 STACK_SEGMENT l s) as (v1 & u1 & F1 & E1 & [I1 S1 L1 B1 T1 R1 D1 X1]);
    try done; try (unfold PGSIZE; lia).
  { intros Ht. by apply Hmp, Htab. }
  rewrite S1, length_app in HF. rewrite S1 in HmF. apply not_elem_of_app in HmF as [Hmu1 HmF1].
  assert (~ is_table pt (Pmm.mem v1) mi) as Hn1 by (intros Ht; destruct (T1 _ Ht) as [Ht'|]; [by apply Hmp, Htab|done]).
  destruct (map_record pt mi Hmi v1 F1 tf tf frame_perm CONTEXT_SEGMENT tf 1 CONTEXT_SEGMENT l s) as (v2 & u2 & F2 & E2 & [I2 S2 L2 B2 T2 R2 D2 X2]);
    try done; try (unfold PGSIZE; lia).
  { rewrite X1, decide_False, Hx; [done| |lia]. apply pages_apart; try done. unfold stack_va, USER_STACK_TOP, PGSIZE. lia. }
  rewrite S2, length_app in HF. rewrite S2 in HmF1. apply not_elem_of_app in HmF1 as [Hmu2 HmF2].
  assert (~ is_table pt (Pmm.mem v2) mi) as Hn2 by (intros Ht; by destruct (T2 _ Ht)).
  destruct (map_record pt mi Hmi v2 F2 trap_sec_start trap_sec_start trap_perm SYSTEM_SEGMENT trap_sec_start 1 SYSTEM_SEGMENT l s)
    as (v3 & u3 & F3 & E3 & [I3 S3 L3 B3 T3 R3 D3 X3]); try done; try (unfold PGSIZE; lia).
  { rewrite X2, decide_False, X1, decide_False, Hx; [done|..]; try lia; apply pages_apart; try done; unfold stack_va, USER_STACK_TOP, PGSIZE; lia. }
  exists v3, (u1 ++ u2 ++ u3), F3. split; [exists v1, v2; auto|]. clear E1 E2 E3.
  assert (forall a v F v' F' u j, 0 <= j < 3 -> mi <= a < mi + 48 -> a <> mi + 16 * j -> a <> mi + 16 * j + 8 ->
    (mi ∉ F) -> ~ is_table pt (Pmm.mem v) mi -> 
    (forall a, ~ is_table pt (Pmm.mem v) (ROUNDDOWN a PGSIZE) -> ROUNDDOWN a PGSIZE ∉ F ->
       a <> mi + 16 * j -> a <> mi + 16 * j + 8 -> ld64 (Pmm.mem v') a = ld64 (Pmm.mem v) a) -> F = u ++ F' ->
    ld64 (Pmm.mem v') a = ld64 (Pmm.mem v) a) as Hkeep.
  { intros a w G w' G' u j Hj Ha N1 N2 Hmg Hmt HD _.
    assert (ROUNDDOWN a PGSIZE = mi) as Ea by (replace a with (mi + (a - mi)) by lia; apply page_word; [done|unfold PGSIZE; lia]).
    apply HD; congruence. }
  split; try done.
  - by rewrite S1, S2, S3, !app_assoc.
  - rewrite !length_app. lia.
  - destruct B1, B2, B3. split; congruence.
  - intros q Ht. rewrite !elem_of_app. destruct (T3 _ Ht) as [Ht2|]; [|tauto]. destruct (T2 _ Ht2) as [Ht1|]; [|tauto].
    destruct (T1 _ Ht1) as [Ht0|]; [left; by apply Htab|tauto].
  - cbn [map]. f_equal; [|f_equal; [|f_equal]].
    + rewrite <- R1. change STACK_SEGMENT with 0. transitivity (region (Pmm.mem v2) mi 0).
      * apply region_words; [done|]. intros a Ha. apply (Hkeep a v2 F2 v3 F3 u3 SYSTEM_SEGMENT); try done; unfold SYSTEM_SEGMENT; lia.
      * apply region_words; [done|]. intros a Ha.
        apply (Hkeep a v1 F1 v2 F2 u2 CONTEXT_SEGMENT); try done; try (unfold CONTEXT_SEGMENT; lia). rewrite S2. by apply not_elem_of_app.
    + rewrite <- R2. apply region_words; [done|]. intros a Ha. unfold CONTEXT_SEGMENT in Ha.
      apply (Hkeep a v2 F2 v3 F3 u3 SYSTEM_SEGMENT); try done; unfold SYSTEM_SEGMENT; lia.
    + exact R3.
  - intros a Hp Hn Hm. rewrite S1, !not_elem_of_app in Hn. rewrite S2, !not_elem_of_app in Hn. destruct Hn as (N1 & N2 & N3).
    rewrite D3, D2, D1; try done; unfold SYSTEM_SEGMENT, CONTEXT_SEGMENT, STACK_SEGMENT; try lia.
    + intros Ht. by apply Hp, Htab.
    + rewrite S1, S2, !not_elem_of_app. done.
    + intros Ht. destruct (T1 _ Ht) as [Ht'|]; [by apply Hp, Htab|done].
    + rewrite S2. by apply not_elem_of_app.
    + intros Ht. destruct (T2 _ Ht) as [Ht'|]; [|done]. destruct (T1 _ Ht') as [Ht''|]; [by apply Hp, Htab|done].
  - intros x Hxr. rewrite X3, X2, X1, Hx by done. repeat case_decide; try done; exfalso.
    all: match goal with
         | H1 : same_page ?a ?x, H2 : same_page ?b ?x |- _ =>
             apply (pages_apart a b); [done|done|unfold stack_va, USER_STACK_TOP, PGSIZE; lia|unfold same_page in *; congruence]
         end.
Qed.

(** The page of the file table. *)
Definition files_mem (pf cwd : Z) (m : memory) : memory :=
  Process.close_all (Z.to_nat MAX_FILES) pf 0 (st32 (st64 m pf cwd) (pf_nfiles pf) 0).

Lemma files_mem_out pf cwd m a : pf mod PGSIZE = 0 -> ROUNDDOWN a PGSIZE <> pf -> ld64 (files_mem pf cwd m) a = ld64 m a.
Proof.
  intros Hpf Hne. assert (pf mod 8 = 0) as Hpf8 by (clear -Hpf; unfold PGSIZE in *; zlia).
  assert (forall k, 0 <= k < PGSIZE -> a <> pf + k) as Hk by (intros k Hk ->; by apply Hne, page_word).
  unfold files_mem. rewrite close_all_words; try done.
  - unfold st32, pf_nfiles. destruct (Z.eqb_spec ((pf + 8 + 24 * MAX_FILES) mod 8) 0); [|unfold MAX_FILES in *; zlia].
    rewrite !ld64_st64_ne; try done; intros E.
    + apply (Hk 0); [done|lia].
    + apply (Hk (8 + 24 * MAX_FILES)); [done|lia].
  - intros k Hk' E. apply (Hk (8 + 24 * k)); [|unfold pf_status in E; lia].
    change (Z.of_nat (Z.to_nat MAX_FILES)) with 128 in Hk'. unfold PGSIZE. lia.
Qed.

Lemma files_mem_read pf cwd m : pf mod PGSIZE = 0 ->
  ld64 (files_mem pf cwd m) pf = cwd /\ ld32 (files_mem pf cwd m) (pf_nfiles pf) = 0 /\
  (forall fd, 0 <= fd < MAX_FILES -> ld32 (files_mem pf cwd m) (pf_status pf fd) = FD_NONE).
Proof.
  intros Hpf. assert (pf mod 8 = 0) as Hpf8 by (clear -Hpf; unfold PGSIZE in *; zlia).
  change (Z.of_nat (Z.to_nat MAX_FILES)) with 128. unfold files_mem. split_and!.
  - rewrite close_all_words; [|done|intros k _; unfold pf_status; lia|done]. unfold st32, pf_nfiles.
    destruct (Z.eqb_spec ((pf + 8 + 24 * MAX_FILES) mod 8) 0); [|unfold MAX_FILES in *; zlia].
    rewrite ld64_st64_ne by (unfold MAX_FILES; lia). apply ld64_st64_eq.
  - unfold ld32, st32, pf_nfiles. destruct (Z.eqb_spec ((pf + 8 + 24 * MAX_FILES) mod 8) 0); [|unfold MAX_FILES in *; zlia].
    rewrite close_all_words; [|done|intros k Hk; change (Z.of_nat (Z.to_nat MAX_FILES)) with 128 in Hk; unfold pf_status, MAX_FILES; lia|done].
    rewrite ld64_st64_eq. unfold u32. zlia.
  - intros fd Hfd. apply close_all_status; [done| |done]. change (Z.of_nat (Z.to_nat MAX_FILES)) with 128. exact Hfd.
Qed.

Lemma init_files root v pf F s : vm_inv root v (pf :: F) ->
  exists v', (forall l, Process.init_proc_file_management (with_pmm v (with_procs l s)) = Ret pf (with_pmm v' (with_procs l s))) /\
    vm_inv root v' F /\ Pmm.mem v' = files_mem pf (vfs_root_dentry s) (Pmm.mem v) /\
    Pmm.free_mem_start_addr v' = Pmm.free_mem_start_addr v /\ Pmm.free_mem_end_addr v' = Pmm.free_mem_end_addr v /\
    pf mod PGSIZE = 0 /\ 0 < pf /\ (pf ∉ F) /\ ~ is_table root (Pmm.mem v) pf /\
    (forall x d, (d <= 2)%nat -> table root (Pmm.mem v') x d = table root (Pmm.mem v) x d) /\
    (forall x, xlate root (Pmm.mem v') x = xlate root (Pmm.mem v) x).
Proof.
  intros Hinv. destruct (vm_inv_alloc root v pf F Hinv) as (v1 & E & Hinv1 & M1 & B1 & D1 & Hni & Hnt & [Ha _] & H0).
  set (m' := files_mem pf (vfs_root_dentry s) (Pmm.mem v)).
  destruct (vm_inv_frame root v1 F m' Hinv1) as (Hinv' & Htab & Hx).
  { rewrite M1. intros a Ht. apply files_mem_out; [done|]. intros Ep. rewrite Ep in Ht. by destruct Ht. }
  rewrite M1 in Htab, Hx. exists (Pmm.set_mem m' v1). split_and!; try done.
  intros l. unfold Process.init_proc_file_management. mstep (lift_with _ _ l s _ _ E). unfold nonnull. destruct (Z.eqb_spec pf 0); [lia|].
  unfold m'. rewrite <- M1. reflexivity.
Qed.

(** Recording a region changes no table and no free page. *)
Lemma record_only root v F mi j va n seg : vm_inv root v F -> mi mod PGSIZE = 0 -> 0 <= j < 256 -> (mi ∉ F) ->
  ~ is_table root (Pmm.mem v) mi -> 
  let v' := Pmm.set_mem (region_mem mi j va n seg (Pmm.mem v)) v in
  vm_inv root v' F /\ (forall q, is_table root (Pmm.mem v') q -> is_table root (Pmm.mem v) q) /\
  (forall x, xlate root (Pmm.mem v') x = xlate root (Pmm.mem v) x) /\
  (forall a, a <> mi + 16 * j -> a <> mi + 16 * j + 8 -> ld64 (Pmm.mem v') a = ld64 (Pmm.mem v) a).
Proof.
  intros Hinv Hmi Hj HF Ht v'. assert (mi mod 8 = 0) as Hmi8 by (clear -Hmi; unfold PGSIZE in *; zlia).
  assert (forall a, a <> mi + 16 * j -> a <> mi + 16 * j + 8 -> ld64 (Pmm.mem v') a = ld64 (Pmm.mem v) a) as Hf.
  { intros a H1 H2. unfold v', ld64. cbn [Pmm.mem Pmm.set_mem]. by rewrite region_mem_words. }
  destruct (vm_inv_frame root v F (Pmm.mem v') Hinv) as (Hinv' & Htab & Hx).
  { intros a Ha. apply Hf; intros ->; [|rewrite <- Z.add_assoc in Ha]; rewrite page_word in Ha by (done || unfold PGSIZE; lia); by destruct Ha. }
  split_and!; try done. intros q (x & d & Hd & Hq). exists x, d. split; [done|]. by rewrite <- Htab.
Qed.

(** The operations of [alloc_process] after the pages of the process are taken. *)
Lemma alloc_process_taken s i v1 v2 v3 v4 v5 v tf pt ks st mi F vs v6 v7 pf p0 :
  Process.first_free (procs s) = Some i -> procs s !! i = Some p0 -> tf <> 0 -> pt <> 0 -> mi <> 0 ->
  taken (pmm s) v1 v2 v3 v4 v5 v tf pt ks st mi F ->
  let l := alter (set_space (ks + PGSIZE) pt tf mi) i (procs s) in
  let st_ v := with_pmm v (with_procs l s) in
  (exists w1 w2,
    bind (lift (Vmm.user_vm_map pt stack_va PGSIZE st stack_perm)) (fun _ => Process.register_region mi STACK_SEGMENT stack_va 1 STACK_SEGMENT) (st_ v)
      = Ret tt (st_ w1) /\
    bind (lift (Vmm.user_vm_map pt tf PGSIZE tf frame_perm)) (fun _ => Process.register_region mi CONTEXT_SEGMENT tf 1 CONTEXT_SEGMENT) (st_ w1)
      = Ret tt (st_ w2) /\
    bind (lift (Vmm.user_vm_map pt trap_sec_start PGSIZE trap_sec_start trap_perm))
      (fun _ => Process.register_region mi SYSTEM_SEGMENT trap_sec_start 1 SYSTEM_SEGMENT) (st_ w2) = Ret tt (st_ vs)) ->
  v6 = Pmm.set_mem (region_mem mi HEAP_SEGMENT USER_FREE_ADDRESS_START 0 HEAP_SEGMENT (Pmm.mem vs)) vs ->
  (forall l, Process.init_proc_file_management (with_pmm v6 (with_procs l s)) = Ret pf (with_pmm v7 (with_procs l s))) ->
  Process.alloc_process s = Ret i (with_pmm v7 (with_procs (<[i := mk_process (ks + PGSIZE) pt tf mi 4 USER_FREE_ADDRESS_START USER_FREE_ADDRESS_START
    (free_pages_address p0) 0 (pid p0) (status p0) (parent p0) (queue_next p0) (tick_count p0) pf]> (procs s)) s)).
Proof.
  intros Hff Hi Htf Hpt Hmi Htk l st_ (w1 & w2 & E1 & E2 & E3) Hv6 E4. destruct Htk as [K1 K2 K3 K4 K5 K6 _ _ _].
  unfold Process.alloc_process. unfold bind at 1. cbn [gets]. rewrite Hff.
  rewrite <- (with_self s) at 1.
  mstep (lift_with _ _ (procs s) s _ _ K1). rewrite (nonnull_bind _ _ _ _ Htf).
  mstep (update_mem_with (Vmm.zero_words trapframe_words tf) v1 (procs s) s).
  mstep (lift_with _ _ (procs s) s _ _ K2). rewrite (nonnull_bind _ _ _ _ Hpt).
  mstep (update_mem_with (Vmm.zero_page pt) v2 (procs s) s).
  mstep (lift_with _ _ (procs s) s _ _ K3). mstep (lift_with _ _ (procs s) s _ _ K4).
  unfold store. mstep (update_mem_with (fun m => st64 m (tf + tf_sp) USER_STACK_TOP) v4 (procs s) s).
  mstep (lift_with _ _ (procs s) s _ _ K5). rewrite (nonnull_bind _ _ _ _ Hmi).
  mstep (update_mem_with (Vmm.zero_page mi) v5 (procs s) s). rewrite <- K6.
  mstep (upd_proc_with i (set_space (ks + PGSIZE) pt tf mi) v (procs s) s). fold l. fold (st_ v).
  rewrite (bind2_Ret _ _ _ _ _ _ E1), (bind2_Ret _ _ _ _ _ _ E2), (bind2_Ret _ _ _ _ _ _ E3). unfold st_.
  mstep (upd_proc_with i (fun p => set_heap USER_FREE_ADDRESS_START USER_FREE_ADDRESS_START (free_pages_address p) 0 p) vs l s).
  match goal with |- context [alter ?f i l] => set (l1 := alter f i l) end.
  mstep (register_region_with mi HEAP_SEGMENT USER_FREE_ADDRESS_START 0 HEAP_SEGMENT vs l1 s). rewrite <- Hv6.
  mstep (upd_proc_with i (set_regions 4) v6 l1 s). set (l2 := alter (set_regions 4) i l1).
  mstep (E4 l2). mstep (upd_proc_with i (set_pfiles pf) v7 l2 s). unfold ret. do 3 f_equal.
  unfold l2, l1, l. apply list_eq. intros j. destruct (decide (j = i)) as [->|Hne].
  - rewrite !list_lookup_alter_eq, Hi, list_lookup_insert_eq by (by apply lookup_lt_Some in Hi). done.
  - by rewrite !list_lookup_alter_ne, list_lookup_insert_ne by done.
Qed.

(** What the pages of a new process hold once its regions and its files are
    recorded. *)
Lemma fresh_contents cwd m ms m6 m7 tf pt ks st mi pf F u F2 p :
  tf mod PGSIZE = 0 -> pt mod PGSIZE = 0 -> mi mod PGSIZE = 0 -> pf mod PGSIZE = 0 ->
  F = u ++ pf :: F2 -> tf ∉ F -> mi ∉ F -> tf <> pt -> tf <> mi -> pt <> mi ->
  (forall a, ROUNDDOWN a PGSIZE <> pt -> ROUNDDOWN a PGSIZE ∉ F -> ~ (mi <= a < mi + 48) -> ld64 ms a = ld64 (space_mem tf pt mi m) a) ->
  map (region ms mi) [0; 1; 2] = [(stack_va, 1, STACK_SEGMENT); (tf, 1, CONTEXT_SEGMENT); (trap_sec_start, 1, SYSTEM_SEGMENT)] ->
  m6 = region_mem mi HEAP_SEGMENT USER_FREE_ADDRESS_START 0 HEAP_SEGMENT ms -> m7 = files_mem pf cwd m6 ->
  p = mk_process (ks + PGSIZE) pt tf mi 4 USER_FREE_ADDRESS_START USER_FREE_ADDRESS_START
    (free_pages_address p) 0 (pid p) (status p) (parent p) (queue_next p) (tick_count p) pf ->
  (forall x, 0 <= x < MAXVA -> xlate pt m7 x =
    if decide (same_page stack_va x) then Some (entry st stack_perm)
    else if decide (same_page tf x) then Some (entry tf frame_perm)
    else if decide (same_page trap_sec_start x) then Some (entry trap_sec_start trap_perm) else None) ->
  fresh_process cwd m7 p st.
Proof.
  intros Htf Hpt Hmi Hpf HF Ntf Nmi D1 D2 D3 Hms Hreg H6 H7 -> Hx.
  assert (mi mod 8 = 0) as Hmi8 by (clear -Hmi; unfold PGSIZE in *; zlia).
  assert (pf ∈ F) as Ipf by (rewrite HF; apply elem_of_app; right; apply elem_of_cons; by left).
  assert (forall a, ROUNDDOWN a PGSIZE <> pf -> a <> mi + 48 -> a <> mi + 56 -> ld64 m7 a = ld64 ms a) as Hm7.
  { intros a Na N1 N2. rewrite H7, files_mem_out by done. rewrite H6. unfold ld64. rewrite region_mem_words; [done|done|..]; unfold HEAP_SEGMENT; lia. }
  assert (forall k, 0 <= k < PGSIZE -> ROUNDDOWN (mi + k) PGSIZE = mi) as Wmi by (intros; by apply page_word).
  destruct (files_mem_read pf cwd m6 Hpf) as (C1 & C2 & C3). rewrite <- H7 in C1, C2, C3.
  split; cbn [trapframe pagetable mapped_info pfiles]; try done.
  - intros k Hk. assert (ROUNDDOWN (tf + 8 * k) PGSIZE = tf) as E by (apply page_word; [done|unfold PGSIZE; lia]).
    rewrite Hm7, Hms; rewrite ?E; try congruence.
    + by apply space_mem_frame.
    + intros Hr. apply D2. rewrite <- E. replace (tf + 8 * k) with (mi + (tf + 8 * k - mi)) by lia. apply Wmi. unfold PGSIZE. lia.
    + intros Ea. apply D2. rewrite <- E, Ea. by apply Wmi.
    + intros Ea. apply D2. rewrite <- E, Ea. by apply Wmi.
  - change [0; 1; 2; 3] with ([0; 1; 2] ++ [3]). rewrite map_app.
    match goal with |- _ = [?a; ?b; ?c; ?d] => change (map (region m7 mi) [0; 1; 2] ++ map (region m7 mi) [3] = [a; b; c] ++ [d]) end. f_equal.
    + rewrite <- Hreg. apply map_ext_in. intros j Hj. apply region_words; [done|]. intros a Ha.
      assert (exists k, a = mi + k /\ 0 <= k < 48) as (k & -> & Hk) by (exists (a - mi); cbn [In] in Hj; lia).
      apply Hm7; [|lia|lia]. rewrite Wmi by (unfold PGSIZE; lia). congruence.
    + cbn [map]. f_equal. destruct (region_mem_read mi HEAP_SEGMENT USER_FREE_ADDRESS_START 0 HEAP_SEGMENT ms) as (R1 & R2 & R3); try done.
      rewrite <- H6 in R1, R2, R3. transitivity (region m6 mi HEAP_SEGMENT).
      * apply region_words; [done|]. intros a Ha. rewrite H7. apply files_mem_out; [done|]. unfold HEAP_SEGMENT in Ha.
        replace a with (mi + (a - mi)) by lia. rewrite Wmi by (unfold PGSIZE; lia). congruence.
      * unfold region. by rewrite R1, R2, R3.
  - intros j Hj. unfold mr_va. assert (ROUNDDOWN (mi + 16 * j) PGSIZE = mi) as E by (apply Wmi; unfold PGSIZE; lia).
    rewrite Hm7, Hms; rewrite ?E; try congruence; try lia.
    replace (mi + 16 * j) with (mi + 8 * (2 * j)) by lia. apply (space_mem_tables tf pt mi); try done. lia.
Qed.

Lemma rep_pages_in v F q : Pmm.rep v F -> q ∈ F ->
  q mod PGSIZE = 0 /\ 0 < q /\ Pmm.free_mem_start_addr v <= q < Pmm.free_mem_end_addr v.
Proof.
  intros Hrep Hq. assert (0 < Pmm.free_mem_start_addr v) as H0 by apply Hrep. destruct (Pmm.rep_pages _ _ Hrep) as [_ Hv].
  rewrite Forall_forall in Hv. destruct (Hv q Hq). split_and!; try done; lia.
Qed.

(** The pages taken, one after the other, are those of the process and of its
    page tables. *)
Lemma taken_pages (tf pt ks st mi pf : Z) (F0 u F2 : list Z) (table : Z -> Prop) :
  NoDup (tf :: pt :: ks :: st :: mi :: F0) -> F0 = u ++ pf :: F2 -> (length u <= 6)%nat -> (forall q, table q -> q = pt \/ q ∈ u) ->
  let own := [tf; pt; ks; st; mi; pf] in
  (exists used, tf :: pt :: ks :: st :: mi :: F0 = used ++ F2 /\ (length used <= 12)%nat /\ own ⊆ used /\ forall q, table q -> q ∈ used) /\
  NoDup own /\ forall q, q ∈ own -> q = pt \/ ~ table q.
Proof.
  intros Hnd Ss Su Htab own. rewrite !NoDup_cons, !not_elem_of_cons in Hnd.
  destruct Hnd as ((N12 & N13 & N14 & N15 & N1) & (N23 & N24 & N25 & N2) & (N34 & N35 & N3) & (N45 & N4) & N5 & Hnd).
  assert (pf ∈ F0) as Ipf by (rewrite Ss; apply elem_of_app; right; apply elem_of_cons; by left).
  assert (u ⊆ F0) as Hu by (intros q ?; rewrite Ss; apply elem_of_app; by left).
  rewrite Ss in Hnd. apply NoDup_app in Hnd as (_ & Nd & _).
  assert (pf ∉ u) as Nup by (intros Hin; apply (Nd _ Hin), elem_of_cons; by left).
  assert (tf <> pf /\ pt <> pf /\ ks <> pf /\ st <> pf /\ mi <> pf) as Hpf by (split_and!; intros <-; done).
  split_and!.
  - exists ([tf; pt; ks; st; mi] ++ u ++ [pf]). split_and!.
    + rewrite Ss, <- !app_assoc. done.
    + rewrite !length_app. cbn [length]. lia.
    + intros q. unfold own. cbn [app]. rewrite !elem_of_cons, elem_of_app, elem_of_cons. tauto.
    + intros q Ht. destruct (Htab q Ht) as [->|]; rewrite !elem_of_app, !elem_of_cons; tauto.
  - unfold own. rewrite !NoDup_cons, !not_elem_of_cons. split_and!; try tauto; try apply not_elem_of_nil. apply NoDup_nil_2.
  - intros q Hq. destruct (decide (q = pt)) as [|Hne]; [by left|right]. intros Ht. destruct (Htab q Ht) as [|Hqu]; [done|].
    assert (q ∈ F0) by (by apply Hu). unfold own in Hq. rewrite !elem_of_cons in Hq.
    destruct Hq as [->|[->|[->|[->|[->|[->|Hn]]]]]]; try done. by apply not_elem_of_nil in Hn.
Qed.

(** Every branch of [alloc_process] is decided by the pool and the free pages:
    with a free slot and twelve free pages it creates a process. *)
Lemma alloc_process_ok s F i p0 :
  layout (pmm s) -> Pmm.rep (pmm s) F -> (12 <= length F)%nat ->
  Process.first_free (procs s) = Some i -> procs s !! i = Some p0 ->
  exists v' F' p st, Process.alloc_process s = Ret i (with_pmm v' (with_procs (<[i := p]> (procs s)) s)) /\ created s F p0 v' F' p st.
Proof.
  intros Hly Hrep HF Hff Hi. destruct F as [|tf [|pt [|ks [|st [|mi F0]]]]]; cbn [length] in HF; try lia.
  assert (forall q, q ∈ tf :: pt :: ks :: st :: mi :: F0 -> q mod PGSIZE = 0 /\ 0 < q /\
    Pmm.free_mem_start_addr (pmm s) <= q < Pmm.free_mem_end_addr (pmm s)) as Hq by (intros q Hq; by apply (rep_pages_in _ _ q Hrep)).
  assert (NoDup (tf :: pt :: ks :: st :: mi :: F0)) as Hnd by apply Hrep.
  destruct (Hq tf) as (Atf & Ptf & Rtf); [rewrite !elem_of_cons; tauto|]. destruct (Hq pt) as (Apt & Ppt & Rpt); [rewrite !elem_of_cons; tauto|].
  destruct (Hq st) as (Ast & Pst & Rst); [rewrite !elem_of_cons; tauto|]. destruct (Hq mi) as (Ami & Pmi & Rmi); [rewrite !elem_of_cons; tauto|].
  assert (Hnd0 := Hnd). rewrite !NoDup_cons, !not_elem_of_cons in Hnd.
  destruct Hnd as ((N12 & N13 & N14 & N15 & N1) & (N23 & N24 & N25 & N2) & (N34 & N35 & N3) & (N45 & N4) & N5 & Hnd).
  destruct (take_pages _ _ _ _ _ _ _ Hrep) as (v1 & v2 & v3 & v4 & v5 & v & Htk).
  assert (forall a, ld64 (Pmm.mem v) a = ld64 (space_mem tf pt mi (mem s)) a) as Hm by (intros a; by rewrite (tk_mem _ _ _ _ _ _ _ _ _ _ _ _ _ Htk)). assert (Hr := tk_rep _ _ _ _ _ _ _ _ _ _ _ _ _ Htk).
  destruct (tk_bounds _ _ _ _ _ _ _ _ _ _ _ _ _ Htk) as [Bs Be].
  assert (forall k, 0 <= k < 512 -> ld64 (Pmm.mem v) (pt + 8 * k) = 0) as Hz
    by (intros k Hk; rewrite Hm; by apply (space_mem_tables tf pt mi)).
  assert (Hly' := Hly). destruct Hly as [L1 L2 L3 L4].
  destruct (vm_inv_fresh pt v F0) as [Hinv Hnone]; try done; [rewrite Be; assert (MAXVA <= 2 ^ 64) by done; lia|].
  destruct (map_space v F0 tf pt st mi (alter (set_space (ks + PGSIZE) pt tf mi) i (procs s)) s)
    as (vs & u & F1 & HE & [Si Ss Su [Sb1 Sb2] St Sr Sf Sx]); try done; try lia.
  { split; rewrite ?Bs, ?Be; done. }
  { intros q. by apply fresh_tables. }
  assert (F1 <> []) as HF1 by (intros ->; rewrite Ss, app_nil_r in HF; lia).
  destruct F1 as [|pf F2]; [done|]. clear HF1.
  assert (mi ∉ pf :: F2) as Nmi by (rewrite Ss in N5; apply not_elem_of_app in N5; tauto).
  assert (mi ∉ u) as Nmu by (rewrite Ss in N5; apply not_elem_of_app in N5; tauto).
  destruct (record_only pt vs (pf :: F2) mi HEAP_SEGMENT USER_FREE_ADDRESS_START 0 HEAP_SEGMENT) as (I6 & T6 & X6 & M6); try done.
  { intros Ht. by destruct (St _ Ht). }
  remember (Pmm.set_mem _ vs) as v6 eqn:Hv6. cbn zeta in I6, T6, X6, M6.
  destruct (init_files pt v6 pf F2 s I6) as (v7 & E7 & I7 & M7 & B7 & D7 & Apf & Ppf & Npf & Tpf & T7 & X7).
  set (p := mk_process (ks + PGSIZE) pt tf mi 4 USER_FREE_ADDRESS_START USER_FREE_ADDRESS_START
    (free_pages_address p0) 0 (pid p0) (status p0) (parent p0) (queue_next p0) (tick_count p0) pf).
  exists v7, F2, p, st. split.
  { eapply (alloc_process_taken s i v1 v2 v3 v4 v5 v tf pt ks st mi F0 vs v6); eauto; lia. }
  assert (Pmm.mem v6 = region_mem mi HEAP_SEGMENT USER_FREE_ADDRESS_START 0 HEAP_SEGMENT (Pmm.mem vs) /\
    Pmm.free_mem_start_addr v6 = Pmm.free_mem_start_addr vs /\ Pmm.free_mem_end_addr v6 = Pmm.free_mem_end_addr vs) as (Hm6 & B6 & D6)
    by (rewrite Hv6; auto). assert (fresh_process (vfs_root_dentry s) (Pmm.mem v7) p st) as Hfresh.
  { eapply (fresh_contents _ (mem s) (Pmm.mem vs) (Pmm.mem v6) _ tf pt ks st mi pf F0 u F2); eauto.
    - intros a A1 A2 A3. rewrite <- Hm. by apply Sf.
    - intros x Hx. rewrite X7, X6. by apply Sx. }
  assert (forall a, ROUNDDOWN a PGSIZE <> pf -> ld64 (Pmm.mem v7) a = ld64 (Pmm.mem v6) a) as Hm7 by (intros a Ha; rewrite M7; by apply files_mem_out).
  clear HE E7 Hv6 Hm6 M7.
  assert (forall a, ROUNDDOWN a PGSIZE ∉ tf :: pt :: ks :: st :: mi :: F0 -> ld64 (Pmm.mem v7) a = ld64 (mem s) a) as Hout.
  { intros a Ha. rewrite !not_elem_of_cons in Ha. destruct Ha as (A1 & A2 & A3 & A4 & A5 & A6).
    assert (forall k, 0 <= k < PGSIZE -> a <> mi + k) as Hk by (intros k Hk ->; by rewrite page_word in A5).
    rewrite Hm7, M6, Sf, Hm, space_mem_out; try done.
    - intros Hr0. apply (Hk (a - mi)); [unfold PGSIZE|]; lia.
    - apply (Hk 48). done.
    - rewrite <- Z.add_assoc. by apply (Hk 56).
    - intros E. rewrite E in A6. apply A6. rewrite Ss. apply elem_of_app. right. apply elem_of_cons. by left. }
  assert (forall q, is_table pt (Pmm.mem v7) q -> q = pt \/ q ∈ u) as Htab.
  { intros q (x & d & Hd & Ht). rewrite T7 in Ht by done. apply St, T6. exists x, d. done. }
  destruct (taken_pages tf pt ks st mi pf F0 u F2 (is_table pt (Pmm.mem v7)) Hnd0 Ss Su Htab) as (Hused & Hown).
  split; cbn [pagetable trapframe mapped_info pfiles kstack p]; try done.
  - split; congruence.
  - unfold own_pages. cbn. by replace (ks + PGSIZE - PGSIZE) with ks by lia.
  - unfold own_pages. cbn. by replace (ks + PGSIZE - PGSIZE) with ks by lia.
Qed.
(** C9: a new process: with a free slot in the pool and twelve free pages,
    [alloc_process] returns the first free slot with a process in it whose
    trapframe is zero but for the stack pointer, whose file table is closed and in
    the root directory, whose address space holds the stack, the trapframe and the
    trap code with their permissions and nothing else, and whose four regions are
    recorded; its pages are six different free pages, none of them a page of a
    page table, at most twelve pages are taken, and memory outside of the free
    pages stays as it was. *)
Theorem alloc_process_creates s F i p0 :
  layout (pmm s) -> Pmm.rep (pmm s) F -> (12 <= length F)%nat ->
  Process.first_free (procs s) = Some i -> procs s !! i = Some p0 ->
  exists v' F' p st, Process.alloc_process s = Ret i (with_pmm v' (with_procs (<[i := p]> (procs s)) s)) /\ created s F p0 v' F' p st.
Proof. apply alloc_process_ok. Qed.
End create.

(** ** The pages of a created process *)
Section pages.
Context `{KS : KernelSymbols}.

(** Pages of the process lie above the kernel. *)
Lemma created_pages k F p0 v F' p st : created k F p0 v F' p st -> Pmm.rep (pmm k) F ->
  forall q, q ∈ own_pages p st -> q mod PGSIZE = 0 /\ 0 < q /\ Pmm.free_mem_start_addr (pmm k) <= q < Pmm.free_mem_end_addr (pmm k) /\
    (q ∈ F) /\ (q ∉ F').
Proof.
  intros [_ _ (used & HF & _ & Hown & _) _ _ _ _] Hrep q Hq. assert (q ∈ F) as HqF by (rewrite HF; apply elem_of_app; left; by apply Hown).
  destruct (rep_pages_in _ _ q Hrep HqF) as (? & ? & ?). split_and!; try done; try lia. destruct Hrep as (_ & _ & Hnd & _).
  rewrite HF in Hnd. apply NoDup_app in Hnd as (_ & Hd & _). by apply Hd, Hown.
Qed.

Lemma created_not_table k F p0 v F' p st q : created k F p0 v F' p st -> q ∈ own_pages p st -> q <> pagetable p ->
  ~ is_table (pagetable p) (Pmm.mem v) q.
Proof. intros [_ _ _ [_ Ht] _ _ _] Hq Hne. by destruct (Ht q Hq). Qed.

Lemma created_table k F p0 v F' p st q : created k F p0 v F' p st -> is_table (pagetable p) (Pmm.mem v) q -> q ∈ F.
Proof. intros [_ _ (used & HF & _ & _ & Ht) _ _ _ _] Hq. rewrite HF. apply elem_of_app. left. by apply Ht. Qed.

Lemma pages_apart_below p x : p mod PGSIZE = 0 -> x < p -> ~ same_page p x.
Proof. unfold same_page, PGSIZE. intros. zlia. Qed.

(** Nothing is mapped below the stack. *)
Lemma created_unmapped s F p0 v F' p st x : created s F p0 v F' p st -> Pmm.rep (pmm s) F -> layout (pmm s) ->
  0 <= x < stack_va -> xlate (pagetable p) (Pmm.mem v) x = None.
Proof.
  intros Hc Hrep [L1 L2 L3 L4] Hx. change stack_va with 0x7fffe000 in *. unfold USER_STACK_TOP, PGSIZE in *.
  destruct (created_pages _ _ _ _ _ _ _ Hc Hrep (trapframe p)) as (Htfa & _ & Htf & _); [apply elem_of_cons; by left|].
  rewrite (fp_xlate _ _ _ _ (cr_fresh _ _ _ _ _ _ _ Hc)) by (change MAXVA with (2 ^ 38); lia).
  rewrite !decide_False; [done|..]; apply pages_apart_below; try done; change stack_va with 0x7fffe000; lia.
Qed.
End pages.

(** ** A concrete process
    The first process of an empty pool, in memory that was just taken over. *)
Definition fresh_symbols : KernelSymbols := {|
  trap_sec_start := 0x80004000; smode_trap_vector_addr := 0x80004000; smode_trap_handler_addr := 0x80000800 |}.
#[local] Existing Instance fresh_symbols.
Definition empty_pool : list process := imap (fun i p => Process.set_pid (Z.of_nat i) (set_status FREE p)) (replicate 32 zero_process).
Definition fresh_kernel (v : Pmm.state) : state := mk_state v empty_pool None None (mk_cpu 0 0 0 0 0 0 0 0 []) 0 0.

Lemma fresh_memory : exists v F, Pmm.rep v F /\ layout v /\ length F = 111%nat /\
  Pmm.free_mem_start_addr v = 0x80010000 /\ Pmm.free_mem_end_addr v = 0x80080000.
Proof.
  destruct (Pmm.pmm_init_ok 0x80010000 0x80000 (Pmm.mk ∅ 0 0 0)) as (sz & v & _ & -> & Hrep & Hs & He); [split; [done|by apply Z.leb_le]|].
  eexists v, _. split; [exact Hrep|]. split; [|split; [reflexivity|split; [exact Hs|exact He]]].
  split; [reflexivity|by apply Z.leb_le|rewrite Hs; by apply Z.leb_le|rewrite He; by apply Z.leb_le].
Qed.

Lemma alloc_process_creates_witness : exists v F v' F' p st,
  Process.alloc_process (fresh_kernel v) = Ret O (with_pmm v' (with_procs (<[O := p]> empty_pool) (fresh_kernel v))) /\
  created (fresh_kernel v) F (set_status FREE zero_process) v' F' p st.
Proof.
  destruct fresh_memory as (v & F & Hrep & Hly & HF & _). exists v, F.
  apply (alloc_process_creates (fresh_kernel v) F 0 (set_status FREE zero_process)).
  - exact Hly.
  - exact Hrep.
  - rewrite HF. by apply Nat.leb_le.
  - reflexivity.
  - reflexivity.
Defined.
