(* ===== verification/SpikeFile.v ===== *)
(** * [spike_interface/spike_file.c], [spike_interface/atomic.h] and the
    front-end call of [spike_interface/spike_utils.c]: host files

    The server at the other end of the host interface is not part of the
    kernel: it is the parameter [frontend] of the class [Frontend], a function
    that gets the eight words of [magic_mem] and may read and write the memory
    of the machine.  The tables [spike_fds] and [spike_files] are lists; a
    [spike_file_t] pointer is NULL, an error value or an entry of the table.
    Interrupts do not reach this code in machine mode and there is one hart, so
    the atomic operations are reads and writes of their cell. *)

From stdpp Require Import base gmap list numbers strings.
From Stdlib Require Import ZArith Lia.
From S2P Require Import Prelude Pmm Bytes ByteMem Process.
Local Open Scope Z_scope.

(** ** [spike_interface/atomic.h]: the value read and the new contents *)
Definition atomic_add (res inc : Z) : Z * Z := (res, res + inc).
Definition atomic_or (res inc : Z) : Z * Z := (res, Z.lor res inc).
Definition atomic_swap (res inc : Z) : Z * Z := (res, inc).
Definition atomic_cas {A} `{EqDecision A} (res cmp swp : A) : A * A := (res, if decide (res = cmp) then swp else res).

(** ** Constants of [spike_htif.h] and [spike_file.h] *)
Definition HTIFSYS_exit : Z := 93.
Definition HTIFSYS_read : Z := 63.
Definition HTIFSYS_write : Z := 64.
Definition HTIFSYS_openat : Z := 56.
Definition HTIFSYS_close : Z := 57.
Definition HTIFSYS_lseek : Z := 62.
Definition HTIFSYS_fstat : Z := 80.
Definition HTIFSYS_pread : Z := 67.
Definition HTIFSYS_getmainvars : Z := 2011.
Definition AT_FDCWD : Z := -100.
Definition MAX_FDS : Z := 128.
Definition ENOMEM : Z := 12.
Definition INIT_FILE_REF : Z := 3.

(** [spike_file_t] and pointers to it: NULL, [ERR_PTR(e)], [spike_files + i]. *)
Record spike_file := mk_spike_file { kfd : Z; refcnt : Z }.
Inductive file_ptr := FNull | ERR_PTR (e : Z) | FPtr (i : nat).
#[global] Instance file_ptr_eq_dec : EqDecision file_ptr.
Proof. solve_decision. Defined.

(** [IS_ERR_VALUE(x)], and [(int64)x < 0]. *)
Definition IS_ERR_VALUE (p : file_ptr) : bool :=
  match p with ERR_PTR e => u64 (-4096) <=? u64 e | _ => false end.
Definition negative (p : file_ptr) : bool :=
  match p with ERR_PTR e => e <? 0 | _ => false end.

(** [struct stat] *)
Record stat := mk_stat {
  st_dev : Z; st_ino : Z; st_mode : Z; st_nlink : Z; st_uid : Z; st_gid : Z; st_rdev : Z;
  st_size : Z; st_blksize : Z; st_blocks : Z; st_atime : Z; st_mtime : Z; st_ctime : Z }.

(** The host's server for front-end calls: the words of [magic_mem], the memory
    of the machine and the host's own state; the result is the word it leaves in
    [magic_mem[0]]. *)
Class Frontend (H : Type) := frontend : list Z -> memory -> H -> Z * memory * H.

Module Spike.
Section ops.
Context {H : Type} `{Frontend H}.

Record state := mk {
  mem : memory; host : H;
  spike_fds : list file_ptr; spike_files : list spike_file;
  lock : Z                                        (** the lock of [frontend_syscall] *) }.

Definition set_mem (m : memory) (s : state) : state := mk m (host s) (spike_fds s) (spike_files s) (lock s).
Definition set_host (h : H) (s : state) : state := mk (mem s) h (spike_fds s) (spike_files s) (lock s).
Definition set_fds (l : list file_ptr) (s : state) : state := mk (mem s) (host s) l (spike_files s) (lock s).
Definition set_files (l : list spike_file) (s : state) : state := mk (mem s) (host s) (spike_fds s) l (lock s).
Definition set_lock (l : Z) (s : state) : state := mk (mem s) (host s) (spike_fds s) (spike_files s) l.

(** [spinlock_trylock], [spinlock_lock], [spinlock_unlock]: a held lock is never
    released while one hart spins on it. *)
Definition spinlock_trylock : M state Z := fun s =>
  let '(res, new) := atomic_swap (lock s) (-1) in Ret res (set_lock new s).
Definition spinlock_lock : M state unit := fun s =>
  if negb (lock s =? 0) then NoFuel
  else bind spinlock_trylock (fun res => if res =? 0 then ret tt else fun _ => NoFuel) s.
Definition spinlock_unlock : M state unit := modify (set_lock 0).
(** Interrupts are not switched: [disable_irqsave] is 0. *)
Definition disable_irqsave : Z := 0.
Definition enable_irqrestore (flags : Z) : M state unit := ret tt.
Definition spinlock_lock_irqsave : M state Z := let flags := disable_irqsave in spinlock_lock ;; ret flags.
Definition spinlock_unlock_irqrestore (flags : Z) : M state unit := spinlock_unlock ;; enable_irqrestore flags.

(** [frontend_syscall(n, a0, ..., a6)] *)
Definition frontend_syscall (magic_mem : list Z) : M state Z :=
  spinlock_lock ;;
  r <- (fun s => let '(r, m, h) := frontend magic_mem (mem s) (host s) in Ret r (set_host h (set_mem m s))) ;;
  spinlock_unlock ;;
  ret r.
Definition call (n a0 a1 a2 a3 a4 : Z) : M state Z := frontend_syscall [n; a0; a1; a2; a3; a4; 0; 0].

Definition get_file (i : nat) : M state spike_file := fun s => of_option "spike_files" (spike_files s !! i) s.
Definition upd_file (i : nat) (f : spike_file -> spike_file) : M state unit :=
  modify (fun s => set_files (alter f i (spike_files s)) s).
Definition set_refcnt (n : Z) (f : spike_file) : spike_file := mk_spike_file (kfd f) (u32 n).
Definition set_kfd (n : Z) (f : spike_file) : spike_file := mk_spike_file n (refcnt f).

(** A pointer that is dereferenced. *)
Definition deref (p : file_ptr) : M state nat :=
  match p with FPtr i => ret i | _ => fault "spike file pointer" end.

Definition spike_file_decref (i : nat) : M state unit :=
  f <- get_file i ;;
  let '(old, new) := atomic_add (refcnt f) (-1) in
  upd_file i (set_refcnt new) ;;
  if old =? 2 then
    upd_file i (set_refcnt 0) ;;
    call HTIFSYS_close (kfd f) 0 0 0 0 ;;
    ret tt
  else ret tt.

Definition spike_file_incref (i : nat) : M state unit :=
  f <- get_file i ;;
  let '(prev, new) := atomic_add (refcnt f) 1 in
  upd_file i (set_refcnt new) ;;
  if 0 <? prev then ret tt else panic "assertion failed".

(** The first entry that is not referenced. *)
Definition free_entry (l : list spike_file) : option nat :=
  fst <$> list_find (fun f => refcnt f = 0) l.
Definition spike_file_get_free : M state file_ptr := fun s =>
  match free_entry (spike_files s) with
  | Some i => bind (upd_file i (set_refcnt INIT_FILE_REF)) (fun _ => ret (FPtr i)) s
  | None => Ret FNull s
  end.

Definition spike_file_dup (i : nat) : M state Z := fun s =>
  match list_find (fun p => p = FNull) (spike_fds s) with
  | Some (fd, _) =>
      bind (modify (set_fds (<[fd := FPtr i]> (spike_fds s))))
        (fun _ => bind (spike_file_incref i) (fun _ => ret (Z.of_nat fd))) s
  | None => Ret (-1) s
  end.

Fixpoint spike_file_init_loop (n : nat) (i : Z) : M state unit :=
  match n with
  | O => ret tt
  | S n =>
      p <- spike_file_get_free ;;
      f <- deref p ;;
      upd_file f (set_kfd i) ;;
      spike_file_dup f ;;
      spike_file_init_loop n (i + 1)
  end.
Definition spike_file_init : M state unit := spike_file_init_loop 3 0.

(** The longest file name whose length is computed. *)
Definition name_fuel : nat := 4096.

Definition spike_file_openat (dirfd fn flags mode : Z) : M state file_ptr :=
  p <- spike_file_get_free ;;
  match p with
  | FPtr i =>
      len <- (fun s => match strlen name_fuel (mem s) fn with Some n => Ret n s | None => NoFuel end) ;;
      r <- call HTIFSYS_openat dirfd fn (len + 1) flags mode ;;
      if 0 <=? r then upd_file i (set_kfd (i32 r)) ;; ret (FPtr i)
      else spike_file_decref i ;; ret (ERR_PTR r)
  | _ => ret (ERR_PTR (- ENOMEM))
  end.
Definition spike_file_open (fn flags mode : Z) : M state file_ptr := spike_file_openat AT_FDCWD fn flags mode.

Definition spike_file_close (p : file_ptr) : M state Z :=
  match p with
  | FNull => ret (-1)
  | _ =>
      i <- deref p ;;
      f <- get_file i ;;
      fds <- gets spike_fds ;;
      cell <- of_option "spike_fds" (if 0 <=? kfd f then fds !! Z.to_nat (kfd f) else None) ;;
      let '(old, new) := atomic_cas cell p FNull in
      modify (set_fds (<[Z.to_nat (kfd f) := new]> fds)) ;;
      spike_file_decref i ;;
      if decide (old = p) then spike_file_decref i ;; ret 0 else ret (-1)
  end.

Definition spike_file_write (p : file_ptr) (buf size : Z) : M state Z :=
  i <- deref p ;; f <- get_file i ;; call HTIFSYS_write (kfd f) buf size 0 0.
Definition spike_file_pread (p : file_ptr) (buf size offset : Z) : M state Z :=
  i <- deref p ;; f <- get_file i ;; call HTIFSYS_pread (kfd f) buf size offset 0.
Definition spike_file_read (p : file_ptr) (buf size : Z) : M state Z :=
  i <- deref p ;; f <- get_file i ;; call HTIFSYS_read (kfd f) buf size 0 0.
Definition spike_file_lseek (p : file_ptr) (ptr dir : Z) : M state Z :=
  i <- deref p ;; f <- get_file i ;; call HTIFSYS_lseek (kfd f) ptr dir 0 0.

(** [copy_stat] from the [frontend_stat] at [buf]. *)
Definition copy_stat (m : memory) (buf : Z) : stat :=
  mk_stat (ld64 m buf) (ld64 m (buf + 8)) (ld32 m (buf + 16)) (ld32 m (buf + 20)) (ld32 m (buf + 24))
    (ld32 m (buf + 28)) (ld64 m (buf + 32)) (ld64 m (buf + 48)) (ld32 m (buf + 56)) (ld64 m (buf + 64))
    (ld64 m (buf + 72)) (ld64 m (buf + 88)) (ld64 m (buf + 104)).
(** [buf] is the local variable of [spike_file_stat]. *)
Definition spike_file_stat (buf : Z) (p : file_ptr) : M state (Z * stat) :=
  i <- deref p ;; f <- get_file i ;;
  r <- call HTIFSYS_fstat (kfd f) buf 0 0 0 ;;
  s <- gets (fun s => copy_stat (mem s) buf) ;;
  ret (i32 r, s).

Definition spike_file_get (fd : Z) : M state file_ptr :=
  fds <- gets spike_fds ;;
  if (fd <? 0) || (MAX_FDS <=? fd) then ret FNull
  else
    match fds !! Z.to_nat fd with
    | Some (FPtr i) =>
        f <- get_file i ;;
        if refcnt f =? 0 then ret FNull
        else
          let '(_, new) := atomic_cas (refcnt f) (refcnt f) (refcnt f + 1) in
          upd_file i (set_refcnt new) ;; ret (FPtr i)
    | _ => ret FNull
    end.
End ops.
Arguments state H : clear implicits.
End Spike.

(** ** The table of host files *)
Definition free_count (l : list spike_file) : nat := length (filter (fun f => refcnt f = 0) l).

Lemma free_entry_Some l i : Spike.free_entry l = Some i -> exists f, l !! i = Some f /\ refcnt f = 0.
Proof.
  unfold Spike.free_entry. destruct (list_find _ l) as [[j f]|] eqn:E; [|done]. intros [= <-].
  apply list_find_Some in E as (? & ? & _). eauto.
Qed.

Lemma free_entry_None l : Spike.free_entry l = None <-> free_count l = O.
Proof.
  unfold Spike.free_entry, free_count. rewrite length_zero_iff_nil. destruct (list_find _ l) as [[j f]|] eqn:E; simpl.
  - split; [done|]. apply list_find_Some in E as (? & ? & _). intros Hnil.
    assert (f ∈ filter (fun f => refcnt f = 0) l) as Hin.
    { apply list_elem_of_filter. split; [done|]. by eapply list_elem_of_lookup_2. }
    rewrite Hnil in Hin. by apply not_elem_of_nil in Hin.
  - split; [|done]. intros _. apply list_find_None in E. induction E as [|f l Hf _ IH]; [done|].
    by rewrite filter_cons_False.
Qed.

(** Giving a free entry a reference takes it away; changing an entry that stays
    in use takes nothing. *)
Lemma free_count_take l i f f' :
  l !! i = Some f -> refcnt f = 0 -> refcnt f' <> 0 -> free_count l = S (free_count (<[i := f']> l)).
Proof.
  intros Hl Hf Hf'. rewrite <- (take_drop_middle l i f Hl) at 1. rewrite (insert_take_drop l i f') by (by eapply lookup_lt_Some).
  unfold free_count. rewrite !filter_app, filter_cons_True, filter_cons_False, !length_app by done. simpl. lia.
Qed.
Lemma free_count_keep l i f f' :
  l !! i = Some f -> refcnt f <> 0 -> refcnt f' <> 0 -> free_count (<[i := f']> l) = free_count l.
Proof.
  intros Hl Hf Hf'. rewrite <- (take_drop_middle l i f Hl) at 2. rewrite (insert_take_drop l i f') by (by eapply lookup_lt_Some).
  unfold free_count. rewrite !filter_app, !filter_cons_False by done. done.
Qed.

Section leak.
Context {H : Type} `{Frontend H}.
Implicit Types s : Spike.state H.

(** Opening and closing a file, as [load_bincode_from_host_elf] does. *)
Definition open_close (fn flags mode : Z) : M (Spike.state H) Z :=
  p <- Spike.spike_file_open fn flags mode ;;
  match p with FPtr _ => Spike.spike_file_close p | _ => ret (-1) end.
Fixpoint open_closes (n : nat) (fn flags mode : Z) : M (Spike.state H) unit :=
  match n with O => ret tt | S n => open_close fn flags mode ;; open_closes n fn flags mode end.

(** What the host promises about [openat]: it does not write to memory and
    returns an error or a descriptor small enough for the kernel's table. *)
Definition openat_ok : Prop := forall args m (h : H),
  exists r h', frontend (HTIFSYS_openat :: args) m h = (r, m, h') /\ r < MAX_FDS.

(** Descriptors refer to entries that are in use. *)
Definition fds_in_use s : Prop := forall fd i f,
  Spike.spike_fds s !! fd = Some (FPtr i) -> Spike.spike_files s !! i = Some f -> refcnt f <> 0.
Record table_inv s (fn : Z) (name : list Z) : Prop := {
  ti_lock : Spike.lock s = 0;
  ti_fds : Z.of_nat (length (Spike.spike_fds s)) = MAX_FDS;
  ti_used : fds_in_use s;
  ti_name : str_at (Spike.mem s) fn name;
}.

Lemma list_alter_insert_eq {A} (f : A -> A) i (l : list A) x : l !! i = Some x -> alter f i l = <[i := f x]> l.
Proof.
  revert i. induction l as [|y l IH]; intros [|i]; try done; simpl.
  - by intros [= ->].
  - intros E. f_equal. by apply IH.
Qed.

Lemma upd_file_eq s i f g : Spike.spike_files s !! i = Some f ->
  Spike.upd_file i g s = Ret tt (Spike.set_files (<[i := g f]> (Spike.spike_files s)) s).
Proof. intros E. unfold Spike.upd_file, modify. by rewrite (list_alter_insert_eq _ _ _ _ E). Qed.

Lemma spike_get_file_eq s i f : Spike.spike_files s !! i = Some f -> Spike.get_file i s = Ret f s.
Proof. intros E. unfold Spike.get_file. by rewrite E. Qed.

(** A front-end call made with the lock free. *)
Lemma call_eq s n a0 a1 a2 a3 a4 r m h : Spike.lock s = 0 ->
  frontend [n; a0; a1; a2; a3; a4; 0; 0] (Spike.mem s) (Spike.host s) = (r, m, h) ->
  Spike.call n a0 a1 a2 a3 a4 s = Ret r (Spike.mk m h (Spike.spike_fds s) (Spike.spike_files s) 0).
Proof.
  intros Hl Hf. destruct s as [m0 h0 fds fs l]. simpl in *. subst l.
  unfold Spike.call, Spike.frontend_syscall, Spike.spinlock_lock, Spike.spinlock_unlock, bind. simpl. by rewrite Hf.
Qed.

(** A reference that is neither the last nor the last but one. *)
Lemma decref_eq s i f : Spike.spike_files s !! i = Some f -> refcnt f = 3 ->
  Spike.spike_file_decref i s = Ret tt (Spike.set_files (<[i := mk_spike_file (kfd f) 2]> (Spike.spike_files s)) s).
Proof.
  intros E Hr. unfold Spike.spike_file_decref. mstep (spike_get_file_eq s i f E). cbn [atomic_add]. 
  mstep (upd_file_eq s i f (Spike.set_refcnt (refcnt f + -1)) E). rewrite Hr. simpl.
  unfold Spike.set_refcnt. done.
Qed.

(** Opening takes the first free entry; a failed open leaves it with two
    references. *)
Lemma open_eq fn name flags mode s i f r h' :
  Spike.lock s = 0 -> str_at (Spike.mem s) fn name -> (length name <= Spike.name_fuel)%nat ->
  Spike.free_entry (Spike.spike_files s) = Some i -> Spike.spike_files s !! i = Some f ->
  frontend [HTIFSYS_openat; AT_FDCWD; fn; Z.of_nat (length name) + 1; flags; mode; 0; 0] (Spike.mem s) (Spike.host s)
    = (r, Spike.mem s, h') -> r < MAX_FDS ->
  Spike.spike_file_open fn flags mode s =
    Ret (if 0 <=? r then FPtr i else ERR_PTR r)
        (Spike.mk (Spike.mem s) h' (Spike.spike_fds s)
          (<[i := if 0 <=? r then mk_spike_file r 3 else mk_spike_file (kfd f) 2]> (Spike.spike_files s)) 0).
Proof.
  intros Hl Hname Hlen Hfree Hf Hopen Hr.
  assert (i < length (Spike.spike_files s))%nat as Hi by (by eapply lookup_lt_Some).
  destruct s as [m h fds fs l]. simpl in *. subst l.
  assert (Spike.spike_file_get_free (Spike.mk m h fds fs 0) = Ret (FPtr i) (Spike.mk m h fds (<[i := mk_spike_file (kfd f) 3]> fs) 0)) as Eg.
  { unfold Spike.spike_file_get_free. simpl. rewrite Hfree. unfold bind. by rewrite (upd_file_eq (Spike.mk m h fds fs 0) i f _ Hf). }
  set (s1 := Spike.mk m h fds (<[i := mk_spike_file (kfd f) 3]> fs) 0) in *.
  assert (Es : (fun s : Spike.state H => match strlen Spike.name_fuel (Spike.mem s) fn with Some n => Ret n s | None => NoFuel end) s1
    = Ret (Z.of_nat (length name)) s1).
  { simpl. unfold strlen. rewrite (strlen_str_at m name) by done. simpl. f_equal. lia. }
  pose proof (call_eq s1 HTIFSYS_openat AT_FDCWD fn (Z.of_nat (length name) + 1) flags mode r m h' eq_refl Hopen) as Ec.
  set (s2 := Spike.mk m h' fds (<[i := mk_spike_file (kfd f) 3]> fs) 0) in *.
  assert (Spike.spike_files s2 !! i = Some (mk_spike_file (kfd f) 3)) as E2 by (simpl; by apply list_lookup_insert_eq).
  unfold Spike.spike_file_open, Spike.spike_file_openat. mstep Eg. mstep Es. mstep Ec. destruct (Z.leb_spec 0 r).
  - mstep (upd_file_eq s2 i _ (Spike.set_kfd (i32 r)) E2). unfold MAX_FDS in Hr. rewrite i32_small by lia.
    unfold ret, Spike.set_files. simpl. by rewrite list_insert_insert_eq.
  - mstep (decref_eq s2 i _ E2 eq_refl). unfold ret, Spike.set_files. simpl. by rewrite list_insert_insert_eq.
Qed.

(** Closing a file that [spike_fds] does not hold drops one reference only, and
    asks nothing of the host. *)
Lemma close_eq s i f p :
  Spike.spike_files s !! i = Some f -> refcnt f = 3 -> 0 <= kfd f ->
  Spike.spike_fds s !! Z.to_nat (kfd f) = Some p -> p <> FPtr i ->
  Spike.spike_file_close (FPtr i) s =
    Ret (-1) (Spike.set_files (<[i := mk_spike_file (kfd f) 2]> (Spike.spike_files s)) s).
Proof.
  intros Hf Hr Hk Hp Hne. unfold Spike.spike_file_close, Spike.deref. rewrite bind_ret_l.
  mstep (spike_get_file_eq s i f Hf). rewrite bind_gets. destruct (Z.leb_spec 0 (kfd f)); [|lia]. rewrite Hp.
  cbn [of_option]. rewrite bind_ret_l. unfold atomic_cas. rewrite decide_False by done. rewrite bind_modify.
  assert (Spike.set_fds (<[Z.to_nat (kfd f) := p]> (Spike.spike_fds s)) s = s) as ->.
  { destruct s. unfold Spike.set_fds. simpl in *. by rewrite list_insert_id. }
  mstep (decref_eq s i f Hf Hr). by rewrite decide_False.
Qed.

(** Opening and closing a file costs an entry of the table. *)
Lemma open_close_takes fn name flags mode s :
  openat_ok -> table_inv s fn name -> (length name <= Spike.name_fuel)%nat ->
  free_count (Spike.spike_files s) <> O ->
  exists s', open_close fn flags mode s = Ret (-1) s' /\ table_inv s' fn name /\
    free_count (Spike.spike_files s) = S (free_count (Spike.spike_files s')).
Proof.
  intros Hok [Hl Hfds Hused Hname] Hlen Hfc.
  destruct (Spike.free_entry (Spike.spike_files s)) as [i|] eqn:Hfree.
  2:{ by apply free_entry_None in Hfree. }
  destruct (free_entry_Some _ _ Hfree) as (f & Hf & Hr0).
  destruct (Hok [AT_FDCWD; fn; Z.of_nat (length name) + 1; flags; mode; 0; 0] (Spike.mem s) (Spike.host s)) as (r & h' & Hopen & Hr).
  pose proof (open_eq fn name flags mode s i f r h' Hl Hname Hlen Hfree Hf Hopen Hr) as Eo.
  assert (i < length (Spike.spike_files s))%nat as Hi by (by eapply lookup_lt_Some).
  exists (Spike.mk (Spike.mem s) h' (Spike.spike_fds s)
    (<[i := mk_spike_file (if 0 <=? r then r else kfd f) 2]> (Spike.spike_files s)) 0).
  split; [|split; [split; try done; simpl|by apply (free_count_take _ _ f)]].
  - unfold open_close. mstep Eo. destruct (Z.leb_spec 0 r); [|done].
    destruct (lookup_lt_is_Some_2 (Spike.spike_fds s) (Z.to_nat r)) as [p Hp]; [unfold MAX_FDS in *; lia|].
    rewrite (close_eq _ i (mk_spike_file r 3) p); try done; simpl.
    + unfold Spike.set_files. simpl. by rewrite list_insert_insert_eq.
    + by apply list_lookup_insert_eq.
    + intros ->. by apply (Hused _ _ _ Hp Hf).
  - intros fd j g Hfd Hg. destruct (decide (i = j)) as [->|Hne].
    + simpl in Hg. rewrite list_lookup_insert_eq in Hg by done. by injection Hg as <-.
    + simpl in Hg. rewrite list_lookup_insert_ne in Hg by done. by eapply Hused.
Qed.

Lemma open_exhausted fn flags mode s : free_count (Spike.spike_files s) = O ->
  Spike.spike_file_open fn flags mode s = Ret (ERR_PTR (- ENOMEM)) s.
Proof.
  intros E%free_entry_None. unfold Spike.spike_file_open, Spike.spike_file_openat, Spike.spike_file_get_free.
  unfold bind. by rewrite E.
Qed.

(** entries of the table of host files are never given back: opening and
    closing a file as many times as there are free entries succeeds, leaves no
    free entry, and every open after that fails with [ENOMEM]. *)
Theorem spike_open_close_exhausts n fn name flags mode s :
  openat_ok -> table_inv s fn name -> (length name <= Spike.name_fuel)%nat ->
  free_count (Spike.spike_files s) = n ->
  exists s', open_closes n fn flags mode s = Ret tt s' /\
    forall fn' flags' mode', Spike.spike_file_open fn' flags' mode' s' = Ret (ERR_PTR (- ENOMEM)) s'.
Proof.
  intros Hok Hinv Hlen. revert s Hinv. induction n as [|n IH]; intros s Hinv Hn.
  - exists s. split; [done|]. intros. by apply open_exhausted.
  - destruct (open_close_takes fn name flags mode s Hok Hinv Hlen ltac:(lia)) as (s1 & E & Hinv1 & Hc).
    destruct (IH s1 Hinv1 ltac:(lia)) as (s' & E' & H'). exists s'. split; [|done]. simpl. by mstep E.
Qed.
End leak.

(** ** A host

    A small host that serves the calls the kernel makes, to run the theorems on:
    named files, and a table of open descriptors with contents and offset. *)
Module SimHost.
Record host := mk { named : list (list Z * list Z); opened : gmap Z (list Z * Z); output : list Z }.

Definition lookup_name (name : list Z) (h : host) : option (list Z) :=
  (fun '(_, (_, contents)) => contents) <$> list_find (fun p => fst p = name) (named h).
Definition next_fd (h : host) : Z := 3 + Z.of_nat (size (opened h)).

Definition serve (magic : list Z) (m : memory) (h : host) : Z * memory * host :=
  match magic with
  | n :: a0 :: a1 :: a2 :: a3 :: _ =>
      if n =? HTIFSYS_openat then
        match lookup_name (load_bytes m a1 (a2 - 1)) h with
        | Some c => if next_fd h <? 128
                    then (next_fd h, m, mk (named h) (<[next_fd h := (c, 0)]> (opened h)) (output h)) else (-24, m, h)
        | None => (-2, m, h)
        end
      else if n =? HTIFSYS_close then (0, m, mk (named h) (delete a0 (opened h)) (output h))
      else if n =? HTIFSYS_pread then
        match opened h !! a0 with
        | Some (c, _) =>
            let bs := take (Z.to_nat a2) (drop (Z.to_nat a3) c) in
            (Z.of_nat (length bs), store_bytes m a1 bs, h)
        | None => (-9, m, h)
        end
      else if n =? HTIFSYS_write then (a2, m, mk (named h) (opened h) (output h ++ load_bytes m a1 a2))
      else (-38, m, h)
  | _ => (-38, m, h)
  end.
End SimHost.
#[global] Instance sim_frontend : Frontend SimHost.host := SimHost.serve.

Lemma sim_openat_ok : openat_ok (H := SimHost.host).
Proof.
  intros args m h. unfold frontend, sim_frontend, SimHost.serve. destruct args as [|a0 [|a1 [|a2 [|a3 args]]]];
    try (eexists _, _; split; [done|by vm_compute]).
  change (HTIFSYS_openat =? HTIFSYS_openat) with true. cbn iota.
  destruct (SimHost.lookup_name _ h) as [c|]; [|eexists _, _; split; [done|by vm_compute]].
  destruct (Z.ltb_spec (SimHost.next_fd h) 128); eexists _, _; (split; [done|]); [done|by vm_compute].
Qed.

(** The tables as the program starts, and after [spike_file_init]. *)
Definition demo_memory : memory := list_to_map [(4096, 97)].
Definition boot_files : Spike.state SimHost.host :=
  Spike.mk demo_memory (SimHost.mk [([97], [1; 2; 3])] ∅ []) (replicate 128 FNull) (replicate 128 (mk_spike_file (-1) 0)) 0.
Definition demo_files : Spike.state SimHost.host :=
  match Spike.spike_file_init boot_files with Ret _ s => s | _ => boot_files end.

(** [spike_file_init] registers the three standard files. *)
Lemma spike_file_init_boot :
  Spike.spike_file_init boot_files = Ret tt demo_files /\
  take 3 (Spike.spike_files demo_files) = [mk_spike_file 0 4; mk_spike_file 1 4; mk_spike_file 2 4] /\
  take 4 (Spike.spike_fds demo_files) = [FPtr 0; FPtr 1; FPtr 2; FNull].
Proof. split_and!; by vm_compute. Qed.

Lemma demo_table_inv : table_inv demo_files 4096 [97].
Proof.
  split.
  - by vm_compute.
  - by vm_compute.
  - assert (forallb (fun p => match p with FPtr i => match Spike.spike_files demo_files !! i with
        Some f => negb (refcnt f =? 0) | None => true end | _ => true end) (Spike.spike_fds demo_files) = true) as Hall
      by (by vm_compute).
    intros fd i f Hfd Hf H0. rewrite List.forallb_forall in Hall.
    specialize (Hall (FPtr i)). cbn beta iota in Hall. rewrite Hf, H0 in Hall.
    enough (List.In (FPtr i) (Spike.spike_fds demo_files)) as Hin by discriminate (Hall Hin).
    apply list_elem_of_In. by eapply list_elem_of_lookup_2.
  - rewrite str_at_cons, str_at_nil. split_and!; by vm_compute.
Qed.

Lemma spike_open_close_exhausts_witness : exists s',
  open_closes 125 4096 0 0 demo_files = Ret tt s' /\
  Spike.spike_file_open 4096 0 0 s' = Ret (ERR_PTR (-12)) s'.
Proof.
  destruct (spike_open_close_exhausts 125 4096 [97] 0 0 demo_files sim_openat_ok demo_table_inv) as (s' & E & H').
  - apply Nat.leb_le. by vm_compute.
  - by vm_compute.
  - exists s'. split; [exact E|exact (H' 4096 0 0)].
Defined.
