(* ===== verification/Console.v ===== *)
(** * [spike_interface/spike_utils.c]: console output and the end of the machine

    [sprint] formats into a buffer on the stack and writes it to the host's
    standard error through the spike file interface; [putstring] sends
    characters through the HTIF.  The address of the buffer and what the stack
    holds in it are parameters.  [shutdown] ends in the outcome [Shutdown]. *)

From stdpp Require Import base gmap list numbers strings.
From Stdlib Require Import ZArith Lia Ascii.
From S2P Require Import Prelude Pmm Bytes ByteMem UserMem Printf Htif SpikeFile.
Local Open Scope Z_scope.

Definition OUT_SIZE : Z := 256.
(** [spike_files + 2] *)
Definition stderr : file_ptr := FPtr 2.

Module Console.
Section ops.
Context {H D : Type} `{FE : Frontend H} `{HD : HtifDevice D}.
Context (out_addr : Z) (uninit : list Z).

Record state := mk { spike : Spike.state H; dev : Htif.state D; htif : bool }.
Definition on_spike {A} (m : M (Spike.state H) A) : M state A := zoom spike (fun t s => mk t (dev s) (htif s)) m.
Definition on_dev {A} (m : M (Htif.state D) A) : M state A := zoom dev (fun t s => mk (spike s) t (htif s)) m.

Definition mcall_console_putchar (fuel : nat) (ch : Z) : M state Z :=
  h <- gets htif ;;
  (if h then on_dev (Htif.htif_console_putchar fuel ch) else ret tt) ;;
  ret 0.

(** [res < sizeof(out)] compares a [size_t]. *)
Definition vprintk (s : list Z) (vl : list va_value) : M state unit :=
  match Printf.vsnprintf uninit OUT_SIZE s vl with
  | None => fault "va_arg"
  | Some (res, out) =>
      on_spike (modify (fun t => Spike.set_mem (store_bytes (Spike.mem t) out_addr out) t)) ;;
      on_spike (Spike.spike_file_write stderr out_addr (if u64 res <? OUT_SIZE then res else OUT_SIZE)) ;;
      ret tt
  end.
Definition printk (s : list Z) (vl : list va_value) : M state unit := vprintk s vl.
Definition sprint (s : list Z) (vl : list va_value) : M state unit := vprintk s vl.

Fixpoint putstring (fuel : nat) (s : list Z) : M state unit :=
  match s with
  | [] => fault "unterminated string"
  | c :: s => if c =? 0 then ret tt else mcall_console_putchar fuel c ;; putstring fuel s
  end.

Definition vprintm (fuel : nat) (s : list Z) (vl : list va_value) : M state unit :=
  match Printf.vsnprintf uninit OUT_SIZE s vl with
  | None => fault "va_arg"
  | Some (_, buf) => putstring fuel buf
  end.

(** The host stops a machine that asks for it; a failed assertion calls
    [poweroff] again. *)
Definition poweroff (fuel : nat) : M state unit :=
  h <- gets htif ;;
  if h then sprint (codes "Power off" ++ [13; 10; 0]) [] ;; on_dev (Htif.htif_poweroff fuel)
  else fun _ => NoFuel.

(** The loop at the end is reached only if the host does not stop. *)
Definition shutdown (code : Z) : M state unit :=
  sprint (codes "System is shutting down with exit code %d." ++ [10; 0]) [VInt code] ;;
  on_spike (Spike.call HTIFSYS_exit code 0 0 0 0) ;;
  fun _ => Shutdown code.

(** [sprint(s, vl)] passes the [va_list] itself as the only argument: [args] is
    what [vsnprintf] finds, not the arguments of the caller. *)
Definition do_panic (s : list Z) (args : list va_value) : M state unit :=
  sprint s args ;; shutdown (-1).

Definition kassert_fail (s : list Z) (args : list va_value) : M state unit :=
  do_panic (codes "assertion failed @ %p: %s" ++ [10; 0]) args ;; shutdown (-1).
End ops.
Arguments state H D : clear implicits.
End Console.

(** ** Characters of a text *)
Lemma codes_bytes s : Forall (fun c => 0 <= c < 256) (codes s).
Proof.
  unfold codes. apply Forall_forall. intros c Hc. apply list_elem_of_fmap in Hc as (a & -> & _).
  unfold ch. pose proof (N_ascii_bounded a). lia.
Qed.

Lemma hex_fixed_bytes w : forall x, Forall (fun c => 0 <= c < 256) (hex_fixed w x).
Proof.
  induction w as [|w IH]; intros x; simpl; [constructor|]. apply Forall_app. split; [apply IH|].
  apply Forall_singleton. unfold hex_digit. pose proof (Z.mod_pos_bound x 16). destruct (Z.ltb_spec (x mod 16) 10); lia.
Qed.

Lemma render_bytes fetch ds : forall pos vl text,
  render_from fetch pos ds vl = Some text -> Forall (fun c => 0 <= c < 256) text.
Proof.
  assert (forall c, 0 <= c mod 256 < 256) as Hm by (intros c; apply Z.mod_pos_bound; lia).
  induction ds as [|d ds IH]; intros pos vl text Hr; [injection Hr as <-; constructor|].
  apply render_cons_inv in Hr as (t & vl' & r & H1 & H2 & ->). apply Forall_app. split; [|by eapply IH].
  destruct d as [c|b| |b| |].
  - injection H1 as <- <-. by apply Forall_singleton.
  - apply render_hex in H1 as (num & _ & ->). apply hex_fixed_bytes.
  - apply render_ptr in H1 as (num & _ & ->). do 2 (apply Forall_cons; split; [split; by vm_compute|]). apply hex_fixed_bytes.
  - apply render_dec in H1 as (num & _ & _ & ->). apply codes_bytes.
  - apply render_str in H1 as (p & q & _ & _ & ->). apply Forall_forall. intros x Hx. apply list_elem_of_fmap in Hx as (y & -> & _). apply Hm.
  - cbn [render_one] in H1. destruct (fetch pos); [destruct vl as [|[z|z|p] vl]; try done|]; injection H1 as <- <-;
      by apply Forall_singleton.
Qed.

Section sprint.
Context {H D : Type} `{FE : Frontend H} `{HD : HtifDevice D} (out_addr : Z) (uninit : list Z).
Implicit Types s : Console.state H D.

(** What the host is given for a text: the text if it has less than 256
    characters, otherwise 255 characters and a NUL. *)
Definition delivered (text : list Z) : list Z :=
  if decide (length text < 256)%nat then text else take 255 text ++ [0].

Lemma load_store_prefix l m a n : Forall (fun c => 0 <= c < 256) (take n l) -> (n <= length l)%nat ->
  load_bytes (store_bytes m a l) a (Z.of_nat n) = take n l.
Proof.
  intros Hb Hn. apply list_eq. intros i. rewrite load_bytes_lookup. case_decide as Hi.
  - rewrite ld8_store_bytes. rewrite lookup_take_lt by lia. replace (Z.to_nat (a + Z.of_nat i - a)) with i by lia. destruct (lookup_lt_is_Some_2 l i) as [x Hx]; [lia|]. rewrite Hx.
    assert (0 <= x < 256) as Hxb.
    { rewrite Forall_forall in Hb. apply Hb. apply list_elem_of_lookup_2 with i. by rewrite lookup_take_lt by lia. }
    destruct (Z.leb_spec a (a + Z.of_nat i)); [|lia]. f_equal. rewrite Z.mod_small; lia.
  - symmetry. apply lookup_take_ge. lia.
Qed.

(** [sprint] of a format and its arguments makes one write call to the host,
    on the descriptor of standard error, for the bytes of the text they stand
    for; a text of 256 characters or more is cut to 255 and the terminating NUL
    is sent too.  Memory outside the buffer is as before when the host reads it,
    and nothing but the host and memory changes. *)
Theorem sprint_delivers s p str vl text f :
  length uninit = 256%nat -> cstring p = Some str -> render_cut OUT_SIZE (parse false false str) vl = Some text ->
  Z.of_nat (length text) < 2 ^ 31 -> Spike.spike_files (Console.spike s) !! 2%nat = Some f -> Spike.lock (Console.spike s) = 0 ->
  let t := Console.spike s in
  let bs := delivered text in
  exists m, load_bytes m out_addr (Z.of_nat (length bs)) = bs /\
    (forall a, a < out_addr \/ out_addr + 256 <= a -> ld8 m a = ld8 (Spike.mem t) a) /\
    forall r m' h', frontend [HTIFSYS_write; kfd f; out_addr; Z.of_nat (length bs); 0; 0; 0; 0] m (Spike.host t) = (r, m', h') ->
    Console.sprint out_addr uninit p vl s =
      Ret tt (Console.mk (Spike.mk m' h' (Spike.spike_fds t) (Spike.spike_files t) 0) (Console.dev s) (Console.htif s)).
Proof.
  intros Hu Hp Hr Hlen Hf Hl t bs. unfold Console.sprint, Console.vprintk.
  rewrite (vsnprintf_text uninit OUT_SIZE p str vl text) by (done || (unfold OUT_SIZE; lia)).
  change (OUT_SIZE =? 0) with false. cbn iota. change (Z.to_nat (OUT_SIZE - 1)) with 255%nat.
  set (out := over (take 255 text ++ [0]) uninit).
  assert (length out = 256%nat) as Hout by 
    (unfold out, over; rewrite length_app, length_drop, Hu, !length_app, !length_take; cbn [length]; lia).
  assert (take (length bs) out = bs /\ (length bs <= 256)%nat) as [Htk Hle].
  { unfold bs, delivered, out, over. case_decide.
    - rewrite (take_ge text 255) by lia. rewrite <- app_assoc, take_app_length. split; [done|lia].
    - rewrite take_app_length, length_app, length_take. cbn [length]. split; [done|lia]. }
  assert (Forall (fun c => 0 <= c < 256) bs) as Hb.
  { pose proof (render_bytes _ _ _ _ _ Hr) as Hb. unfold bs, delivered. case_decide; [done|]. apply Forall_app.
    split; [by apply Forall_take|]. apply Forall_singleton. lia. }
  set (m := store_bytes (Spike.mem t) out_addr out). exists m. split_and!.
  - unfold m. rewrite load_store_prefix; [done|by rewrite Htk|lia].
  - intros a Ha. unfold m. rewrite ld8_store_bytes. destruct (out !! Z.to_nat (a - out_addr)) eqn:E; [|done].
    apply lookup_lt_Some in E. destruct (Z.leb_spec out_addr a); [lia|done].
  - intros r m' h' Hfe.
    set (s1 := Console.mk (Spike.set_mem m t) (Console.dev s) (Console.htif s)).
    rewrite (bind_Ret _ _ _ tt s1) by done.
    replace (if u64 (i32 (Z.of_nat (length text))) <? OUT_SIZE then i32 (Z.of_nat (length text)) else OUT_SIZE) with (Z.of_nat (length bs)).
    2:{ rewrite i32_small by lia. rewrite u64_small by lia. unfold OUT_SIZE, bs, delivered. case_decide; destruct (Z.ltb_spec (Z.of_nat (length text)) 256); try lia.
        rewrite length_app, length_take. cbn [length]. lia. }
    rewrite (bind_Ret _ _ _ r (Console.mk (Spike.mk m' h' (Spike.spike_fds t) (Spike.spike_files t) 0) (Console.dev s) (Console.htif s))); [done|].
    unfold Console.on_spike, zoom, Spike.spike_file_write, stderr. cbn [Console.spike s1].
    rewrite (bind_Ret _ _ _ 2%nat (Spike.set_mem m t)) by done. mstep (spike_get_file_eq (Spike.set_mem m t) 2 f Hf).
    by rewrite (call_eq (Spike.set_mem m t) HTIFSYS_write (kfd f) out_addr (Z.of_nat (length bs)) 0 0 r m' h' Hl Hfe).
Qed.
End sprint.

(** The message arrives at the demonstration host. *)
#[local] Instance no_device : HtifDevice unit := fun th fh m d => (th, fh, m, d).
Definition demo_console : Console.state SimHost.host unit :=
  Console.mk demo_files (Htif.mk 0 0 0 0 ∅ tt) true.

Lemma sim_write fd a n m h : frontend [HTIFSYS_write; fd; a; n; 0; 0; 0; 0] m h =
  (n, m, SimHost.mk (SimHost.named h) (SimHost.opened h) (SimHost.output h ++ load_bytes m a n)).
Proof. reflexivity. Qed.
#[local] Opaque demo_files frontend.

Lemma sprint_delivers_witness : exists m' h',
  Console.sprint 0x2000 (replicate 256 7) (codes "pid %d" ++ [10; 0]) [VInt 42] demo_console =
    Ret tt (Console.mk (Spike.mk m' h' (Spike.spike_fds demo_files) (Spike.spike_files demo_files) 0) (Htif.mk 0 0 0 0 ∅ tt) true) /\
  SimHost.output h' = codes "pid 42" ++ [10].
Proof.
  destruct (sprint_delivers 0x2000 (replicate 256 7) demo_console (codes "pid %d" ++ [10; 0]) (codes "pid %d" ++ [10]) [VInt 42]
    (codes "pid 42" ++ [10]) (mk_spike_file 2 4)) as (m & Hm & _ & Heq); try (by vm_compute).
  eexists _, _. split; [exact (Heq _ _ _ (sim_write _ _ _ _ _))|]. cbn [SimHost.output]. rewrite Hm. by vm_compute.
Defined.
