(* ===== verification/Hostfs.v ===== *)
(** * [kernel/hostfs.c]: the host file system

    The file system that is mounted as the root: its files are files of the
    host, reached through the spike file interface.  Its inodes and dentries lie
    in the heaps of [Rfs]; [i_fs_info] holds the pointer to the spike file.  The
    pages of the kernel and the state of the spike interface form the allocator
    state [HostPages.state]; the memory of the spike state is the kernel's stack
    with the buffers that are passed to the host, whose addresses are
    parameters. *)

From stdpp Require Import base gmap list numbers strings.
From Stdlib Require Import ZArith Lia.
From S2P Require Import Prelude Pmm HashTable Bytes ByteMem Printf Rfs Vfs SpikeFile.
Local Open Scope Z_scope.

Definition HOSTFS_TYPE : Z := 1.
Definition H_FILE : Z := FILE_I.
Definition H_DIR : Z := DIR_I.
Definition H_ROOT_DIR : list Z := codes "./hostfs_root".
(** The mode bits of [<sys/stat.h>]. *)
Definition S_IFMT : Z := 0xf000.
Definition S_ISDIR (mode : Z) : bool := Z.land mode S_IFMT =? 0x4000.
Definition S_ISREG (mode : Z) : bool := Z.land mode S_IFMT =? 0x8000.
Definition S_IRUSR : Z := 256.
Definition S_IWUSR : Z := 128.

(** ** Pages and spike files *)
Module HostPages.
Section pages.
Context (B H : Type).
Record state := mk { alloc : B; spike : Spike.state H }.
End pages.
Arguments mk {B H}.
Arguments alloc {B H}.
Arguments spike {B H}.
Definition set_alloc {B H} (a : B) (s : state B H) : state B H := mk a (spike s).
End HostPages.

#[export] Program Instance host_allocator {B H} `{PA : PageAllocator B} : PageAllocator (HostPages.state B H) := {|
  pa_alloc := zoom HostPages.alloc HostPages.set_alloc pa_alloc;
  pa_free := fun p => zoom HostPages.alloc HostPages.set_alloc (pa_free p);
  pa_rep := fun s l => pa_rep (HostPages.alloc s) l;
  pa_page := fun s p => pa_page (HostPages.alloc s) p;
|}.
Next Obligation. intros B H PA s Hs. unfold zoom. rewrite (pa_alloc_nil _ Hs). by destruct s. Qed.
Next Obligation.
  intros B H PA s p l Hs. destruct (pa_alloc_cons _ _ _ Hs) as (a & Heq & Ha & Hp).
  exists (HostPages.set_alloc a s). unfold zoom. by rewrite Heq.
Qed.
Next Obligation.
  intros B H PA s p l Hs Hp Hni. destruct (pa_free_ok _ _ _ Hs Hp Hni) as (a & Heq & Ha & Hpg).
  exists (HostPages.set_alloc a s). unfold zoom. by rewrite Heq.
Qed.
Next Obligation. intros B H PA s l. apply pa_rep_pages. Qed.
Next Obligation. intros B H PA s p. apply pa_page_nonnull. Qed.

Module Hostfs.
Section ops.
Context {B H : Type} `{PA : PageAllocator B} `{FE : Frontend H}.
(** The addresses of [spike_files] and of the local variables [path], [buf] of
    [spike_file_stat], and of the buffer of a read or write. *)
Context (spike_files_addr path_addr stat_addr buf_addr : Z).
Context (garbage : Z -> vinode).

Notation state := (Rfs.state (HostPages.state B H)).

Definition on_spike {A} (m : M (Spike.state H) A) : M state A :=
  zoom (fun s => HostPages.spike (Rfs.pages s))
       (fun t s => Rfs.set_pages (HostPages.mk (HostPages.alloc (Rfs.pages s)) t) s) m.

(** A [spike_file_t *] stored in [i_fs_info]. *)
Definition ptr_of (p : file_ptr) : Z :=
  match p with FNull => 0 | ERR_PTR e => e | FPtr i => spike_files_addr + 8 * Z.of_nat i end.
Definition of_ptr (z : Z) : file_ptr :=
  if z =? 0 then FNull else if z <? 0 then ERR_PTR z else FPtr (Z.to_nat ((z - spike_files_addr) / 8)).

(** [strcat] and [strcpy] into a buffer of [MAX_PATH_LEN] characters. *)
Definition append (path s : list Z) : M state (list Z) :=
  if MAX_PATH_LEN <=? Z.of_nat (length (path ++ s)) then fault "path overflow" else ret (path ++ s).

Definition get_dentry (d : Z) : M state dentry := fun s => of_option "no dentry" (Rfs.dentries s !! d) s.

(** The recursion goes up the chain of parents, which is at most as long as
    there are dentries. *)
Fixpoint path_backtrack (fuel : nat) (path : list Z) (d : Z) : M state (list Z) :=
  match fuel with
  | O => fun _ => NoFuel
  | S fuel =>
      x <- get_dentry d ;;
      if d_parent x =? 0 then ret path
      else
        path <- path_backtrack fuel path (d_parent x) ;;
        path <- append path [SLASH] ;;
        append path (d_name x)
  end.

Definition get_path_string (d : Z) : M state (list Z) :=
  fuel <- gets (fun s => S (base.size (Rfs.dentries s))) ;;
  path <- append [] H_ROOT_DIR ;;
  path_backtrack fuel path d.

(** [spike_file_open] of the path in the local variable [path]. *)
Definition open_path (d flags mode : Z) : M state file_ptr :=
  path <- get_path_string d ;;
  on_spike (modify (fun t => Spike.set_mem (store_bytes (Spike.mem t) path_addr (path ++ [0])) t)) ;;
  on_spike (Spike.spike_file_open path_addr flags mode).

Definition hostfs_alloc_vinode (sb : Z) : M state Z :=
  p <- Rfs.default_alloc_vinode garbage sb ;;
  Rfs.upd_vinode p (set_inum (-1)) ;;
  Rfs.upd_vinode p (set_fs_info 0) ;;
  ret p.

Definition hostfs_write_back_vinode (v : Z) : M state Z := ret 0.

Definition set_type (x : Z) (v : vinode) : vinode :=
  mk_vinode (inum v) (ref v) (size v) x (nlinks v) (blocks v) (addrs v) (i_fs_info v) (v_sb v).

(** The fields of [struct stat] are truncated to [int]. *)
Definition load_stat (st : stat) (v : vinode) : vinode :=
  mk_vinode (i32 (st_ino st)) (ref v) (i32 (st_size st)) (type v) (i32 (st_nlink st)) (i32 (st_blocks st))
    (addrs v) (i_fs_info v) (v_sb v).

Definition hostfs_update_vinode (v : Z) : M state Z :=
  x <- Rfs.get_vinode v ;;
  let f := of_ptr (i_fs_info x) in
  if negative f then Rfs.upd_vinode v (set_type H_DIR) ;; ret (-1)
  else
    let* (_, st) := on_spike (Spike.spike_file_stat stat_addr f) in
    Rfs.upd_vinode v (load_stat st) ;;
    if S_ISDIR (st_mode st) then Rfs.upd_vinode v (set_type H_DIR) ;; ret 0
    else if S_ISREG (st_mode st) then Rfs.upd_vinode v (set_type H_FILE) ;; ret 0
    else ret (-1).

(** [pf < 0] compares a pointer and is never true.  The result, the bytes stored
    through [r_buf] and the new offset. *)
Definition hostfs_read (f_inode len offset : Z) : M state (Z * list Z * Z) :=
  x <- Rfs.get_vinode f_inode ;;
  let pf := of_ptr (i_fs_info x) in
  r <- on_spike (Spike.spike_file_read pf buf_addr len) ;;
  bs <- on_spike (gets (fun t => load_bytes (Spike.mem t) buf_addr (i32 r))) ;;
  o <- on_spike (Spike.spike_file_lseek pf 0 1) ;;
  ret (i32 r, bs, i32 o).

Definition hostfs_write (f_inode : Z) (w_buf : list Z) (len offset : Z) : M state (Z * Z) :=
  x <- Rfs.get_vinode f_inode ;;
  let pf := of_ptr (i_fs_info x) in
  on_spike (modify (fun t => Spike.set_mem (store_bytes (Spike.mem t) buf_addr w_buf) t)) ;;
  r <- on_spike (Spike.spike_file_write pf buf_addr len) ;;
  o <- on_spike (Spike.spike_file_lseek pf 0 1) ;;
  ret (i32 r, i32 o).

Definition hostfs_lookup (parent sub_dentry : Z) (name : list Z) : M state Z :=
  f <- open_path sub_dentry O_RDWR 0 ;;
  x <- Rfs.get_vinode parent ;;
  child_inode <- hostfs_alloc_vinode (v_sb x) ;;
  Rfs.upd_vinode child_inode (set_fs_info (ptr_of f)) ;;
  hostfs_update_vinode child_inode ;;
  Rfs.upd_vinode child_inode (set_ref 0) ;;
  ret child_inode.

Definition hostfs_create (parent sub_dentry : Z) (name : list Z) : M state Z :=
  f <- open_path sub_dentry (Z.lor O_RDWR O_CREAT) (Z.lor S_IRUSR S_IWUSR) ;;
  if negative f then ret 0
  else
    x <- Rfs.get_vinode parent ;;
    new_inode <- hostfs_alloc_vinode (v_sb x) ;;
    Rfs.upd_vinode new_inode (set_fs_info (ptr_of f)) ;;
    r <- hostfs_update_vinode new_inode ;;
    if negb (r =? 0) then ret 0
    else Rfs.upd_vinode new_inode (set_ref 0) ;; ret new_inode.

Definition hostfs_lseek (f_inode new_offset whence offset : Z) : M state (Z * Z) :=
  x <- Rfs.get_vinode f_inode ;;
  o <- on_spike (Spike.spike_file_lseek (of_ptr (i_fs_info x)) new_offset whence) ;;
  ret (if 0 <=? i32 o then 0 else -1, i32 o).

Definition hostfs_link (parent : Z) (name : list Z) (link_node : Z) : M state Z := panic "hostfs_link not implemented!".
Definition hostfs_unlink (parent : Z) (name : list Z) (unlink_node : Z) : M state Z := panic "hostfs_unlink not implemented!".
Definition hostfs_readdir (dir_vinode offset : Z) : M state (Z * option (list Z * Z) * Z) :=
  panic "hostfs_readdir not implemented!".
Definition hostfs_mkdir (parent sub_dentry : Z) (name : list Z) : M state Z := panic "hostfs_mkdir not implemented!".

Definition hostfs_hook_open (f_inode f_dentry : Z) : M state Z :=
  x <- Rfs.get_vinode f_inode ;;
  if negb (i_fs_info x =? 0) then ret 0
  else
    f <- open_path f_dentry O_RDWR 0 ;;
    if negative f then ret (-1)
    else Rfs.upd_vinode f_inode (set_fs_info (ptr_of f)) ;; ret 0.

Definition hostfs_hook_close (f_inode d : Z) : M state Z :=
  x <- Rfs.get_vinode f_inode ;;
  on_spike (Spike.spike_file_close (of_ptr (i_fs_info x))) ;;
  ret 0.

(** The pages of the super block and of the root dentry. *)
Definition hostfs_get_superblock : M state (Z * Z) :=
  sb <- Rfs.alloc_object ;;
  root_inode <- hostfs_alloc_vinode sb ;;
  Rfs.upd_vinode root_inode (set_type H_DIR) ;;
  root_dentry <- Rfs.alloc_vfs_dentry [SLASH] root_inode 0 ;;
  ret (sb, root_dentry).

(** [hostfs_i_ops]; [viop_disk_stat] is not set, and a call of it jumps to NULL. *)
Definition hostfs_i_ops : vinode_ops (HostPages.state B H) := mk_ops
  hostfs_read hostfs_write hostfs_create hostfs_lseek (fun _ => fault "viop_disk_stat is NULL")
  hostfs_link hostfs_unlink hostfs_lookup hostfs_readdir hostfs_mkdir hostfs_write_back_vinode
  (Some hostfs_hook_open) (Some hostfs_hook_close) None None.

(** ** [node->i_ops]

    The operations of the inode's own file system: [hostfs_i_ops] for the inodes
    of the super block [host_sb], [rfs_i_ops] for the others. *)
Section dispatch.
Context (host_sb : Z).
Definition i_ops_of (v : Z) : M state (vinode_ops (HostPages.state B H)) :=
  x <- Rfs.get_vinode v ;;
  ret (if v_sb x =? host_sb then hostfs_i_ops else rfs_i_ops garbage).
Definition hook (h : vinode_ops (HostPages.state B H) -> option (Z -> Z -> M state Z)) (v d : Z) : M state Z :=
  o <- i_ops_of v ;; match h o with Some f => f v d | None => ret 0 end.

Definition mounted_i_ops : vinode_ops (HostPages.state B H) := mk_ops
  (fun v len off => o <- i_ops_of v ;; viop_read o v len off)
  (fun v buf len off => o <- i_ops_of v ;; viop_write o v buf len off)
  (fun v d name => o <- i_ops_of v ;; viop_create o v d name)
  (fun v n w off => o <- i_ops_of v ;; viop_lseek o v n w off)
  (fun v => o <- i_ops_of v ;; viop_disk_stat o v)
  (fun v name l => o <- i_ops_of v ;; viop_link o v name l)
  (fun v name l => o <- i_ops_of v ;; viop_unlink o v name l)
  (fun v d name => o <- i_ops_of v ;; viop_lookup o v d name)
  (fun v off => o <- i_ops_of v ;; viop_readdir o v off)
  (fun v d name => o <- i_ops_of v ;; viop_mkdir o v d name)
  (fun v => o <- i_ops_of v ;; viop_write_back_vinode o v)
  (Some (hook viop_hook_open)) (Some (hook viop_hook_close))
  (Some (hook viop_hook_opendir)) (Some (hook viop_hook_closedir)).
End dispatch.
End ops.
End Hostfs.
