(* ===== verification/HostTypes.v ===== *)
(** * Invariants of the host's files and of the mounted file systems

    The two tables of [spike_interface/spike_file.c] keep their 128 entries,
    whatever the host answers, and the operations of [kernel/hostfs.c] keep every
    invariant of the file systems' state that does not depend on the host.  So
    does the table of operations that serves each inode by its own file
    system. *)

From stdpp Require Import base gmap list numbers strings.
From Stdlib Require Import ZArith Lia.
From S2P Require Import Prelude Keeps Pmm HashTable Bytes ByteMem Printf Rfs RfsDisk Vfs RfsTypes SpikeFile Hostfs.
Local Open Scope Z_scope.

Section spike.
Context {H : Type} `{FE : Frontend H}.

Definition spike_typed (s : Spike.state H) : Prop :=
  length (Spike.spike_fds s) = 128%nat /\ length (Spike.spike_files s) = 128%nat.

Lemma spike_call_typed n a0 a1 a2 a3 a4 : keeps spike_typed (Spike.call n a0 a1 a2 a3 a4) anything.
Proof.
  intros s Hs. unfold Spike.call, Spike.frontend_syscall, Spike.spinlock_lock, Spike.spinlock_trylock, Spike.spinlock_unlock, bind.
  destruct (negb _); [done|]. simpl. destruct (Spike.lock s =? 0); [|done]. simpl. by destruct (frontend _ _ _) as [[r m] h].
Qed.
Lemma spike_get_file_typed i : keeps spike_typed (Spike.get_file i) anything.
Proof. apply keeps_of_option. done. Qed.
Lemma spike_upd_file_typed i f : keeps spike_typed (Spike.upd_file i f) anything.
Proof. apply keeps_modify. intros s []. split; [done|]. simpl. by rewrite length_alter. Qed.
Lemma spike_deref_typed p : keeps spike_typed (Spike.deref p) anything.
Proof. unfold Spike.deref. keeps_auto. Qed.
Lemma spike_get_free_typed : keeps spike_typed Spike.spike_file_get_free anything.
Proof.
  intros s Hs. unfold Spike.spike_file_get_free. destruct (Spike.free_entry _) as [i|]; [|done]. revert s Hs.
  change (keeps spike_typed (bind (Spike.upd_file i (Spike.set_refcnt INIT_FILE_REF)) (fun _ => ret (FPtr i))) anything).
  eapply keeps_bind; [apply spike_upd_file_typed|]. intros. keeps_auto.
Qed.
Lemma spike_set_fds_typed i p l : length l = 128%nat -> keeps spike_typed (modify (Spike.set_fds (<[i := p]> l))) anything.
Proof. intros Hl. apply keeps_modify. intros s []. split; [|done]. simpl. by rewrite length_insert. Qed.
Lemma spike_fds_typed : keeps spike_typed (gets Spike.spike_fds) (fun l => length l = 128%nat).
Proof. apply keeps_gets. by intros s []. Qed.
Lemma spike_name_typed fn :
  keeps spike_typed (fun s => match strlen Spike.name_fuel (Spike.mem s) fn with Some n => Ret n s | None => NoFuel end) anything.
Proof. intros s Hs. by destruct (strlen _ _ _). Qed.
Hint Resolve spike_call_typed spike_get_file_typed spike_upd_file_typed spike_deref_typed spike_get_free_typed
  spike_set_fds_typed spike_fds_typed spike_name_typed : keeps.

Lemma spike_decref_typed i : keeps spike_typed (Spike.spike_file_decref i) anything.
Proof. unfold Spike.spike_file_decref. keeps_step. keeps_auto. Qed.
Hint Resolve spike_decref_typed : keeps.
Lemma spike_open_typed fn flags mode : keeps spike_typed (Spike.spike_file_open fn flags mode) anything.
Proof. unfold Spike.spike_file_open, Spike.spike_file_openat. keeps_auto. Qed.
Lemma spike_close_typed p : keeps spike_typed (Spike.spike_file_close p) anything.
Proof. unfold Spike.spike_file_close. destruct p; keeps_auto. Qed.
Lemma spike_write_typed p b n : keeps spike_typed (Spike.spike_file_write p b n) anything.
Proof. unfold Spike.spike_file_write. keeps_auto. Qed.
Lemma spike_read_typed p b n : keeps spike_typed (Spike.spike_file_read p b n) anything.
Proof. unfold Spike.spike_file_read. keeps_auto. Qed.
Lemma spike_lseek_typed p n w : keeps spike_typed (Spike.spike_file_lseek p n w) anything.
Proof. unfold Spike.spike_file_lseek. keeps_auto. Qed.
Lemma spike_stat_typed b p : keeps spike_typed (Spike.spike_file_stat b p) anything.
Proof. unfold Spike.spike_file_stat. keeps_auto. Qed.
Lemma spike_store_typed a bs : keeps spike_typed (modify (fun t => Spike.set_mem (store_bytes (Spike.mem t) a bs) t)) anything.
Proof. by apply keeps_modify. Qed.
Lemma spike_load_typed (f : Spike.state H -> list Z) : keeps spike_typed (gets f) anything.
Proof. keeps_auto. Qed.
End spike.

(** ** The host file system *)
Section hostfs.
Context {B H : Type} `{PA : PageAllocator B} `{FE : Frontend H}.
Notation pages := (HostPages.state B H).
Context (I : Rfs.state pages -> Prop) (P : pages -> Prop) (vt : vinode -> Prop) (buf : list Z -> Prop).
Context `{RI : !RfsInvariant I P anything vt buf}.
(** The invariant says no more of the host's files than their number. *)
Context (Hspike : forall a, P a -> spike_typed (HostPages.spike a)).
Context (Hset : forall a t, P a -> spike_typed t -> P (HostPages.mk (HostPages.alloc a) t)).
Context (spike_files_addr path_addr stat_addr buf_addr : Z) (garbage : Z -> vinode) (Hgarbage : forall p, vt (garbage p)).

Lemma on_spike_keeps {R} (m : M (Spike.state H) R) Q : keeps spike_typed m Q -> keeps I (Hostfs.on_spike (B := B) m) Q.
Proof.
  intros Hm. apply (keeps_zoom _ spike_typed); [done|..].
  - intros s Hs. apply Hspike. by eapply ri_pages.
  - intros s t Hs Ht. eapply ri_set_pages; [done|]. apply Hset; [by eapply ri_pages|done].
Qed.
Hint Extern 1 (keeps _ (Hostfs.on_spike _) _) => apply on_spike_keeps; eauto 2 using spike_open_typed, spike_close_typed,
  spike_write_typed, spike_read_typed, spike_lseek_typed, spike_stat_typed, spike_store_typed, spike_load_typed with nocore : keeps.
Hint Resolve ri_get_vinode : keeps.
Hint Extern 1 (keeps _ (Rfs.upd_vinode _ _) _) =>
  apply ri_upd_vinode; let x := fresh in intros x Hv; apply (ri_vinode_addrs x); [by right|exact Hv] : keeps.

Lemma host_append_keeps p q : keeps I (Hostfs.append (B := B) (H := H) p q) anything.
Proof. unfold Hostfs.append. keeps_auto. Qed.
Lemma host_get_dentry_keeps d : keeps I (Hostfs.get_dentry (B := B) (H := H) d) anything.
Proof. apply keeps_of_option. done. Qed.
Hint Resolve host_append_keeps host_get_dentry_keeps : keeps.
Lemma path_backtrack_keeps n : forall p d, keeps I (Hostfs.path_backtrack (B := B) (H := H) n p d) anything.
Proof. induction n as [|n IH]; intros; cbn [Hostfs.path_backtrack]; keeps_auto. Qed.
Hint Resolve path_backtrack_keeps : keeps.
Lemma get_path_string_keeps d : keeps I (Hostfs.get_path_string (B := B) (H := H) d) anything.
Proof. unfold Hostfs.get_path_string. keeps_auto. Qed.
Hint Resolve get_path_string_keeps : keeps.
Lemma open_path_keeps d flags mode : keeps I (Hostfs.open_path (B := B) path_addr d flags mode) anything.
Proof. unfold Hostfs.open_path. keeps_auto. Qed.
Hint Resolve open_path_keeps : keeps.

Lemma host_alloc_vinode_keeps sb : keeps I (Rfs.default_alloc_vinode garbage sb) anything.
Proof. eapply (rfs_alloc_vinode_keeps I P anything); eauto. Qed.
Hint Resolve host_alloc_vinode_keeps : keeps.
Lemma hostfs_alloc_vinode_keeps sb : keeps I (Hostfs.hostfs_alloc_vinode garbage sb) anything.
Proof. unfold Hostfs.hostfs_alloc_vinode. keeps_auto. Qed.
Lemma hostfs_update_vinode_keeps v : keeps I (Hostfs.hostfs_update_vinode (B := B) spike_files_addr stat_addr v) anything.
Proof. unfold Hostfs.hostfs_update_vinode. keeps_auto. Qed.
Hint Resolve hostfs_alloc_vinode_keeps hostfs_update_vinode_keeps : keeps.

Lemma hostfs_i_ops_keep : ops_keep I (Hostfs.hostfs_i_ops spike_files_addr path_addr stat_addr buf_addr garbage).
Proof.
  split; intros; simpl in *.
  - unfold Hostfs.hostfs_read. keeps_auto.
  - unfold Hostfs.hostfs_write. keeps_auto.
  - unfold Hostfs.hostfs_create. keeps_auto.
  - unfold Hostfs.hostfs_lseek. keeps_auto.
  - keeps_auto.
  - unfold Hostfs.hostfs_link. keeps_auto.
  - unfold Hostfs.hostfs_unlink. keeps_auto.
  - unfold Hostfs.hostfs_lookup. keeps_auto.
  - unfold Hostfs.hostfs_readdir. keeps_auto.
  - unfold Hostfs.hostfs_mkdir. keeps_auto.
  - unfold Hostfs.hostfs_write_back_vinode. keeps_auto.
  - destruct H0 as [->|[->|[->| ->]]]; try done; injection H1 as <-.
    + unfold Hostfs.hostfs_hook_open. keeps_auto.
    + unfold Hostfs.hostfs_hook_close. keeps_auto.
Qed.

(** ** The table of both file systems *)
Context (host_sb : Z).

Lemma i_ops_of_keeps v :
  keeps I (Hostfs.i_ops_of spike_files_addr path_addr stat_addr buf_addr garbage host_sb v) (ops_keep I).
Proof.
  unfold Hostfs.i_ops_of. keeps_step. apply keeps_ret. destruct (_ =? _); [apply hostfs_i_ops_keep|].
  by apply (rfs_i_ops_keep I P vt buf).
Qed.

Lemma hook_keeps (h : vinode_ops pages -> option (Z -> Z -> M (Rfs.state pages) Z)) v d :
  (forall o, h o = viop_hook_open o \/ h o = viop_hook_close o \/ h o = viop_hook_opendir o \/ h o = viop_hook_closedir o) ->
  keeps I (Hostfs.hook spike_files_addr path_addr stat_addr buf_addr garbage host_sb h v d) anything.
Proof.
  intros Hh. unfold Hostfs.hook. eapply keeps_bind; [apply i_ops_of_keeps|]. intros o Ho.
  destruct (h o) as [f|] eqn:E; [|keeps_auto]. exact (ok_hooks I o Ho (h o) (Hh o) f v d E).
Qed.

Lemma mounted_i_ops_keep : ops_keep I (Hostfs.mounted_i_ops spike_files_addr path_addr stat_addr buf_addr garbage host_sb).
Proof.
  split; intros; simpl in *; try (eapply keeps_bind; [apply i_ops_of_keeps|]; intros o [] ; auto).
  destruct H0 as [->|[->|[->| ->]]]; injection H1 as <-; apply hook_keeps; auto.
Qed.
End hostfs.
