(* ===== verification/Mount.v ===== *)
(** * Devices and mounting: [kernel/vfs.c] [vfs_mount], [kernel/ramdev.c]
    [init_rfs_device], [kernel/hostfs.c], [kernel/rfs.c] registration and
    [kernel/proc_file.c] [fs_init]

    The lists of file system types, devices and super blocks are arrays of
    pointers (0 is NULL) to objects in heaps indexed by their page.  [Rfs] holds
    the contents of RAM disk 0, the only one the kernel creates; an access to
    another one is a [Fault]. *)

From stdpp Require Import base gmap list numbers strings.
From Stdlib Require Import ZArith Lia.
From S2P Require Import Prelude Pmm HashTable Bytes ByteMem Printf Rfs Vfs SpikeFile Hostfs.
Local Open Scope Z_scope.

(** ** Constants of [kernel/vfs.h], [kernel/ramdev.h], [kernel/rfs.h] *)
Definition MAX_VFS_DEV : nat := 10.
Definition MAX_DEVICE_NAME_LEN : Z := 30.
Definition MAX_MOUNTS : nat := 10.
Definition MAX_SUPPORTED_FS : nat := 10.
Definition MAX_RAMDISK_COUNT : nat := 10.
Definition RFS_TYPE : Z := 0.
Definition MOUNT_DEFAULT : Z := 0.
Definition MOUNT_AS_ROOT : Z := 1.

(** [struct device] and [struct rfs_device]; [iobuffer] is the page of the
    buffer. *)
Record device := mk_device { dev_name : list Z; dev_id : Z; fs_type : Z }.
Record rfs_device := mk_rfs_device { d_blocks_count : Z; d_blocksize : Z; d_address : Z; d_iobuffer : Z }.

Definition set_d_name (n : list Z) (d : dentry) : dentry := mk_dentry n (d_inode d) (d_parent d) (d_ref d).
Definition set_d_parent (p : Z) (d : dentry) : dentry := mk_dentry (d_name d) (d_inode d) p (d_ref d).

(** The first free entry of an array of pointers. *)
Definition first_null (l : list Z) : option nat := fst <$> list_find (fun p => p = 0) l.

Module Mount.
Section ops.
Context {B H : Type} `{PA : PageAllocator B} `{FE : Frontend H}.
Notation pages := (HostPages.state B H).

(** [struct file_system_type]; [get_superblock] gives the pages of the super
    block and of the root dentry. *)
Record file_system_type := mk_fs_type {
  type_num : Z; get_superblock : device -> M (Rfs.state pages) (Z * Z) }.

Record state := mk {
  vfs : Vfs.state pages;
  fs_list : list Z; fs_types : gmap Z file_system_type;
  vfs_dev_list : list Z; devices : gmap Z device;
  vfs_sb_list : list Z;
  rfs_device_list : list Z; rfs_devices : gmap Z rfs_device }.

Definition set_vfs (v : Vfs.state pages) (s : state) : state :=
  mk v (fs_list s) (fs_types s) (vfs_dev_list s) (devices s) (vfs_sb_list s) (rfs_device_list s) (rfs_devices s).
Definition set_fs_list (l : list Z) (s : state) : state :=
  mk (vfs s) l (fs_types s) (vfs_dev_list s) (devices s) (vfs_sb_list s) (rfs_device_list s) (rfs_devices s).
Definition set_fs_types (m : gmap Z file_system_type) (s : state) : state :=
  mk (vfs s) (fs_list s) m (vfs_dev_list s) (devices s) (vfs_sb_list s) (rfs_device_list s) (rfs_devices s).
Definition set_dev_list (l : list Z) (s : state) : state :=
  mk (vfs s) (fs_list s) (fs_types s) l (devices s) (vfs_sb_list s) (rfs_device_list s) (rfs_devices s).
Definition set_devices (m : gmap Z device) (s : state) : state :=
  mk (vfs s) (fs_list s) (fs_types s) (vfs_dev_list s) m (vfs_sb_list s) (rfs_device_list s) (rfs_devices s).
Definition set_sb_list (l : list Z) (s : state) : state :=
  mk (vfs s) (fs_list s) (fs_types s) (vfs_dev_list s) (devices s) l (rfs_device_list s) (rfs_devices s).
Definition set_rfs_device_list (l : list Z) (s : state) : state :=
  mk (vfs s) (fs_list s) (fs_types s) (vfs_dev_list s) (devices s) (vfs_sb_list s) l (rfs_devices s).
Definition set_rfs_devices (m : gmap Z rfs_device) (s : state) : state :=
  mk (vfs s) (fs_list s) (fs_types s) (vfs_dev_list s) (devices s) (vfs_sb_list s) (rfs_device_list s) m.

Definition on_vfs {R} (m : M (Vfs.state pages) R) : M state R := zoom vfs set_vfs m.
Definition on_fs {R} (m : M (Rfs.state pages) R) : M state R := on_vfs (Vfs.on_fs m).

(** The contents of fresh vinodes and of fresh pages, and of the part of
    [root_dinode.addrs] that is not set. *)
Context (garbage : Z -> vinode) (raw : Z -> list Z) (uninit : list Z).

(** ** File system types *)
Definition register (t : file_system_type) : M state Z :=
  fs_type <- on_fs Rfs.alloc_object ;;
  modify (fun s => set_fs_types (<[fs_type := t]> (fs_types s)) s) ;;
  l <- gets fs_list ;;
  match first_null l with
  | Some i => modify (set_fs_list (<[i := fs_type]> l)) ;; ret 0
  | None => ret (-1)
  end.

Definition host_fs_type : file_system_type := mk_fs_type HOSTFS_TYPE (fun _ => Hostfs.hostfs_get_superblock garbage).
Definition register_hostfs : M state Z := register host_fs_type.

(** [rfs_device_list\[dev->dev_id\]] is RAM disk 0. *)
Definition on_ramdisk {R} (dev : device) (m : M (Rfs.state pages) R) : M (Rfs.state pages) R :=
  if dev_id dev =? 0 then m else fault "no RAM disk".
Definition rfs_fs_type : file_system_type := mk_fs_type RFS_TYPE (fun dev => on_ramdisk dev (Rfs.rfs_get_superblock garbage)).
Definition register_rfs : M state Z := register rfs_fs_type.

(** The first registered type with the number [n], 0 when there is none. *)
Fixpoint find_type (types : gmap Z file_system_type) (l : list Z) (n : Z) : Z :=
  match l with
  | [] => 0
  | p :: l =>
      match types !! p with
      | Some t => if negb (p =? 0) && (type_num t =? n) then p else find_type types l n
      | None => find_type types l n
      end
  end.

(** ** Devices *)
(** [alloc_page] for a [struct device], its fields, and its entry in
    [vfs_dev_list]: a full list is not reported. *)
Definition add_device (name : list Z) (id type : Z) : M state Z :=
  device <- on_fs Rfs.alloc_object ;;
  if MAX_DEVICE_NAME_LEN <=? Z.of_nat (length name) then fault "dev_name overflow"
  else
    modify (fun s => set_devices (<[device := mk_device name id type]> (devices s)) s) ;;
    l <- gets vfs_dev_list ;;
    match first_null l with
    | Some i => modify (set_dev_list (<[i := device]> l)) ;; ret device
    | None => ret device
    end.

Definition init_host_device (name : list Z) : M state Z :=
  fs_type <- gets (fun s => find_type (fs_types s) (fs_list s) HOSTFS_TYPE) ;;
  if fs_type =? 0 then panic "init_host_device: No HOSTFS file system found!"
  else add_device name 0 fs_type.

(** The loop of [init_rfs_device] over the blocks of the disk: pages come in
    descending order. *)
Fixpoint alloc_blocks (n : nat) (curr_addr : Z) : M state Z :=
  match n with
  | O => ret curr_addr
  | S n =>
      let last_addr := curr_addr in
      curr_addr <- on_fs Rfs.alloc_page ;;
      if negb (last_addr =? 0) && negb (last_addr - curr_addr =? PGSIZE)
      then panic "RAM Disk0: address is discontinuous!"
      else alloc_blocks n curr_addr
  end.

(** The bytes of the pages at the start of the disk. *)
Definition raw_disk (addr : Z) : list (list Z) :=
  map (fun i => raw (addr + PGSIZE * Z.of_nat i)) (seq 0 (Z.to_nat RAMDISK_BLOCK_COUNT)).

Definition init_rfs_device (name : list Z) : M state Z :=
  fs_type <- gets (fun s => find_type (fs_types s) (fs_list s) RFS_TYPE) ;;
  if fs_type =? 0 then panic "No RFS file system found!"
  else
    ramdisk_addr <- alloc_blocks (Z.to_nat RAMDISK_BLOCK_COUNT) 0 ;;
    l <- gets rfs_device_list ;;
    match first_null l with
    | None => panic "RAM Disk0: no free device!"
    | Some device_id =>
        rdev <- on_fs Rfs.alloc_object ;;
        modify (set_rfs_device_list (<[device_id := rdev]> l)) ;;
        iobuffer <- on_fs Rfs.alloc_page ;;
        modify (fun s => set_rfs_devices
          (<[rdev := mk_rfs_device RAMDISK_BLOCK_COUNT RAMDISK_BLOCK_SIZE ramdisk_addr iobuffer]> (rfs_devices s)) s) ;;
        (if Nat.eqb device_id 0
         then on_fs (modify (fun f => Rfs.set_disk (raw_disk ramdisk_addr) (Rfs.set_iobuffer (raw iobuffer) f)))
         else ret tt) ;;
        add_device name (Z.of_nat device_id) fs_type
    end.

Definition get_device (d : Z) : M state device := fun s => of_option "no device" (devices s !! d) s.
Definition get_fs_type (t : Z) : M state file_system_type := fun s => of_option "no file system type" (fs_types s !! t) s.

Definition rfs_format_dev (dev : Z) : M state Z :=
  d <- get_device dev ;; on_fs (on_ramdisk d (Rfs.rfs_format_dev uninit)).

(** ** Mounting *)
(** The loop over [vfs_dev_list]: [p_device] keeps the last entry when no name
    is equal. *)
Fixpoint find_device (devs : gmap Z device) (l : list Z) (name : list Z) (p_device : Z) : Z :=
  match l with
  | [] => p_device
  | p :: l =>
      match devs !! p with
      | Some d => if negb (p =? 0) && bool_decide (dev_name d = name) then p else find_device devs l name p
      | None => find_device devs l name p
      end
  end.

Definition set_root (d : Z) (s : Vfs.state pages) : Vfs.state pages :=
  Vfs.mk (Vfs.fs s) (Vfs.dentry_hash_table s) (Vfs.vinode_hash_table s) (Vfs.files s) d.

(** The root dentry of the file system is put into its place. *)
Definition place_root (mnt_type s_root : Z) (dev : device) : M state unit :=
  if mnt_type =? MOUNT_AS_ROOT then
    on_vfs (modify (set_root s_root)) ;;
    on_vfs (Vfs.hash_put_dentry s_root) ;;
    ret tt
  else if mnt_type =? MOUNT_DEFAULT then
    root <- gets (fun s => Vfs.vfs_root_dentry (vfs s)) ;;
    if root =? 0 then panic "vfs_mount: root dentry not found, please mount the root device first!"
    else
      on_vfs (Vfs.upd_dentry s_root (set_d_name (dev_name dev))) ;;
      on_vfs (Vfs.upd_dentry s_root (set_d_parent root)) ;;
      on_vfs (Vfs.hash_put_dentry s_root) ;;
      ret tt
  else panic "vfs_mount: unknown mount type!".

Definition vfs_mount (name : list Z) (mnt_type : Z) : M state Z :=
  p_device <- gets (fun s => find_device (devices s) (vfs_dev_list s) name 0) ;;
  if p_device =? 0 then panic "vfs_mount: cannot find the device entry!"
  else
    dev <- get_device p_device ;;
    t <- get_fs_type (fs_type dev) ;;
    let* (sb, s_root) := on_fs (get_superblock t dev) in
    root_inode <- on_vfs (Vfs.dentry_inode s_root) ;;
    on_vfs (Vfs.hash_put_vinode root_inode) ;;
    l <- gets vfs_sb_list ;;
    match first_null l with
    | None => panic "vfs_mount: too many mounts!"
    | Some i =>
        modify (set_sb_list (<[i := sb]> l)) ;;
        place_root mnt_type s_root dev ;;
        ret sb
    end.

(** ** [fs_init] *)
Definition HOSTDEV : list Z := codes "HOSTDEV".
Definition RAMDISK0 : list Z := codes "RAMDISK0".

Definition fs_init : M state unit :=
  on_vfs Vfs.vfs_init ;;
  r <- register_hostfs ;;
  if r <? 0 then panic "fs_init: cannot register hostfs."
  else
    init_host_device HOSTDEV ;;
    vfs_mount HOSTDEV MOUNT_AS_ROOT ;;
    r <- register_rfs ;;
    if r <? 0 then panic "fs_init: cannot register rfs."
    else
      ramdisk0 <- init_rfs_device RAMDISK0 ;;
      rfs_format_dev ramdisk0 ;;
      vfs_mount RAMDISK0 MOUNT_DEFAULT ;;
      ret tt.
End ops.
Arguments state : clear implicits.
Arguments file_system_type : clear implicits.
End Mount.
