(* ===== verification/MountTypes.v ===== *)
(** * Invariants of mounting

    [fs_init] keeps every invariant of the file systems' state that holds
    whatever the super block says, since the two [get_superblock] routines, which
    are found through the list of file system types, do.  Formatting and mounting
    then give the free map its shape. *)

From stdpp Require Import base gmap list numbers strings.
From Stdlib Require Import ZArith Lia.
From S2P Require Import Prelude Keeps Pmm HashTable Bytes ByteMem Printf Rfs RfsDisk Vfs RfsTypes VfsTypes SpikeFile Hostfs HostTypes Mount.
Local Open Scope Z_scope.

Section mount.
Context {B H : Type} `{PA : PageAllocator B} `{FE : Frontend H}.
Notation pages := (HostPages.state B H).
Context (I : Rfs.state pages -> Prop) (P : pages -> Prop).
Context `{RI : !RfsInvariant I P anything vinode_typed block_typed}.
Context (garbage : Z -> vinode) (raw : Z -> list Z) (uninit : list Z).
Context (Hgarbage : forall p, vinode_typed (garbage p)) (Hraw : forall p, block_typed (raw p)).
Context (Hsuper : forall n fm, keeps I (modify (Rfs.set_super n fm)) anything).
Context (Hdisk : forall d b, length d = 128%nat -> Forall block_typed d -> block_typed b ->
  keeps I (modify (fun f => Rfs.set_disk d (Rfs.set_iobuffer b f))) anything).

(** Every registered file system keeps the invariant when it is mounted. *)
Record mount_typed (s : Mount.state B H) : Prop := {
  mo_vfs : vfs_typed I (Mount.vfs s);
  mo_types : map_Forall (fun _ t => forall dev, keeps I (Mount.get_superblock t dev) anything) (Mount.fs_types s);
}.

Lemma mount_on_vfs_typed {R} (m : M (Vfs.state pages) R) Q : keeps (vfs_typed I) m Q -> keeps mount_typed (Mount.on_vfs m) Q.
Proof. intros Hm. apply (keeps_zoom _ (vfs_typed I)); [done|by intros s []|]. intros s v [] Hv. by split. Qed.
Lemma mount_on_fs_typed {R} (m : M (Rfs.state pages) R) Q : keeps I m Q -> keeps mount_typed (Mount.on_fs m) Q.
Proof. intros Hm. by apply mount_on_vfs_typed, on_fs_typed. Qed.

(** Updates of the lists and of the heaps of devices. *)
Lemma lists_typed (f : Mount.state B H -> Mount.state B H) :
  (forall s, Mount.vfs (f s) = Mount.vfs s /\ Mount.fs_types (f s) = Mount.fs_types s) -> keeps mount_typed (modify f) anything.
Proof. intros Hf. apply keeps_modify. intros s []. destruct (Hf s) as [E1 E2]. split; by rewrite ?E1, ?E2. Qed.
Hint Extern 2 (keeps _ (modify _) _) => apply lists_typed; by intros [] : keeps.
Hint Extern 1 (keeps _ (Mount.on_fs _) _) => apply mount_on_fs_typed : keeps.
Hint Extern 1 (keeps _ (Mount.on_vfs _) _) => apply mount_on_vfs_typed : keeps.

Lemma mount_alloc_object_typed : keeps I Rfs.alloc_object anything.
Proof. eapply keeps_any, (alloc_object_keeps I P anything vinode_typed block_typed). Qed.
Lemma mount_alloc_page_typed : keeps I Rfs.alloc_page anything.
Proof. eapply keeps_any, (ri_alloc I P anything vinode_typed block_typed). Qed.
Hint Resolve mount_alloc_object_typed mount_alloc_page_typed : keeps.

Lemma register_typed t : (forall dev, keeps I (Mount.get_superblock t dev) anything) -> keeps mount_typed (Mount.register t) anything.
Proof.
  intros Ht. unfold Mount.register. keeps_step. apply (keeps_bind _ _ _ anything); [|intros _ _; keeps_auto].
  apply keeps_modify. intros s []. split; [done|]. by apply map_Forall_insert_2.
Qed.

Lemma alloc_vfs_dentry_any name v d : keeps I (Rfs.alloc_vfs_dentry name v d) anything.
Proof. eapply keeps_any, (alloc_vfs_dentry_keeps I P anything vinode_typed block_typed); eauto. Qed.
Lemma host_superblock_typed : keeps I (Hostfs.hostfs_get_superblock garbage) anything.
Proof.
  unfold Hostfs.hostfs_get_superblock. keeps_step. keeps_step; [eapply (hostfs_alloc_vinode_keeps I P vinode_typed block_typed); eauto|].
  keeps_step; [apply ri_upd_vinode; intros x; apply ri_vinode_addrs; by right|]. keeps_step; [apply alloc_vfs_dentry_any|]. keeps_auto.
Qed.

Lemma rfs_superblock_typed : keeps I (Rfs.rfs_get_superblock garbage) anything.
Proof.
  unfold Rfs.rfs_get_superblock, Rfs.rfs_r1block. keeps_step; [apply ri_read|]. keeps_step; [unfold Rfs.from_iobuffer; keeps_auto|]. keeps_step.
  cbv zeta. keeps_step; [keeps_auto|]. keeps_step. keeps_step; [keeps_auto|].
  keeps_step; [eapply keeps_any, (rfs_alloc_vinode_keeps I P anything vinode_typed block_typed); eauto|].
  keeps_step; [apply ri_upd_vinode; intros x; apply ri_vinode_addrs; by right|].
  keeps_step; [eapply (rfs_update_vinode_keeps I P anything vinode_typed block_typed)|]. keeps_step; [apply alloc_vfs_dentry_any|].
  keeps_step; [apply ri_read|]. keeps_step. keeps_step; [keeps_auto|]. keeps_step. keeps_auto.
Qed.

Lemma add_device_typed name id ty : keeps mount_typed (Mount.add_device name id ty) anything.
Proof. unfold Mount.add_device. keeps_auto. Qed.
Lemma mount_get_device_typed d : keeps mount_typed (Mount.get_device d) anything.
Proof. by apply keeps_of_option. Qed.
Lemma get_fs_type_typed t : keeps mount_typed (Mount.get_fs_type t) (fun t => forall dev, keeps I (Mount.get_superblock t dev) anything).
Proof. apply keeps_of_option. intros s x [] E. by eapply mo_types0. Qed.
Lemma alloc_blocks_typed n : forall a, keeps mount_typed (Mount.alloc_blocks n a) anything.
Proof. induction n as [|n IH]; intros a; cbn [Mount.alloc_blocks]; keeps_auto. Qed.
Hint Resolve add_device_typed mount_get_device_typed alloc_blocks_typed : keeps.

Lemma init_host_device_typed name : keeps mount_typed (Mount.init_host_device name) anything.
Proof. unfold Mount.init_host_device. keeps_auto. Qed.

Lemma raw_disk_typed a : length (Mount.raw_disk raw a) = 128%nat /\ Forall block_typed (Mount.raw_disk raw a).
Proof. split; [done|]. unfold Mount.raw_disk. apply Forall_fmap, Forall_forall. intros k _. apply Hraw. Qed.

Lemma init_rfs_device_typed name : keeps mount_typed (Mount.init_rfs_device raw name) anything.
Proof.
  unfold Mount.init_rfs_device. keeps_auto. apply mount_on_fs_typed. destruct (raw_disk_typed a0). by apply Hdisk.
Qed.

Lemma mount_format_typed dev : keeps mount_typed (Mount.rfs_format_dev uninit dev) anything.
Proof.
  unfold Mount.rfs_format_dev. keeps_step. apply mount_on_fs_typed. unfold Mount.on_ramdisk. keeps_step; [|keeps_auto].
  by eapply (rfs_format_dev_keeps I P anything vinode_typed block_typed).
Qed.

Lemma mount_dentry_inode_typed d : keeps mount_typed (Mount.on_vfs (Vfs.dentry_inode d)) anything.
Proof. apply mount_on_vfs_typed. eapply dentry_inode_typed; eauto. Qed.
Lemma mount_put_vinode_typed v : keeps mount_typed (Mount.on_vfs (Vfs.hash_put_vinode v)) anything.
Proof. apply mount_on_vfs_typed. eapply hash_put_vinode_typed; eauto. Qed.
Lemma mount_put_dentry_typed d : keeps mount_typed (Mount.on_vfs (Vfs.hash_put_dentry d)) anything.
Proof. apply mount_on_vfs_typed. eapply hash_put_dentry_typed; eauto. Qed.
Lemma mount_upd_dentry_typed d f : keeps mount_typed (Mount.on_vfs (Vfs.upd_dentry d f)) anything.
Proof. apply mount_on_vfs_typed. eapply vfs_upd_dentry_typed; eauto. Qed.
Lemma mount_set_root_typed d : keeps mount_typed (Mount.on_vfs (modify (Mount.set_root d))) anything.
Proof. apply mount_on_vfs_typed, keeps_modify. by intros s []. Qed.
Hint Resolve mount_dentry_inode_typed mount_put_vinode_typed mount_put_dentry_typed mount_upd_dentry_typed mount_set_root_typed : keeps.

Lemma vfs_mount_typed name ty : keeps mount_typed (Mount.vfs_mount name ty) anything.
Proof.
  unfold Mount.vfs_mount, Mount.place_root. keeps_step; [keeps_auto|]. keeps_step; [keeps_auto|]. keeps_step.
  eapply keeps_bind; [apply get_fs_type_typed|]. intros t Ht. keeps_auto.
Qed.
Hint Resolve init_host_device_typed init_rfs_device_typed mount_format_typed vfs_mount_typed : keeps.

Lemma hash_table_init_typed {K} (lf : bool) : keeps (table_typed (K := K) P) (Hash.hash_table_init lf) anything.
Proof. intros s [Hl Hp]. unfold Hash.hash_table_init. by destruct lf. Qed.

Lemma vfs_init_typed : keeps mount_typed (Mount.on_vfs Vfs.vfs_init) anything.
Proof.
  apply mount_on_vfs_typed. unfold Vfs.vfs_init. keeps_step; [eapply on_dentry_table_typed, hash_table_init_typed; eauto|]. keeps_step; [keeps_auto|].
  keeps_step; [eapply on_vinode_table_typed, hash_table_init_typed; eauto|]. keeps_auto.
Qed.
Hint Resolve vfs_init_typed : keeps.

Lemma fs_init_typed : keeps mount_typed (Mount.fs_init garbage raw uninit) anything.
Proof.
  unfold Mount.fs_init. keeps_step. keeps_step; [apply register_typed; intros; apply host_superblock_typed|]. keeps_step; [keeps_auto|].
  keeps_step. keeps_step. keeps_step; [apply register_typed; intros; simpl; unfold Mount.on_ramdisk; keeps_step; [apply rfs_superblock_typed|keeps_auto]|].
  keeps_auto.
Qed.
End mount.
