(* ===== verification/HostfsSpec.v ===== *)
(** * Properties of the host file system

    The path a dentry stands for on the host, and what the virtual file system
    makes of a file that the host does not have. *)

From stdpp Require Import base gmap list numbers strings.
From Stdlib Require Import ZArith Lia.
From S2P Require Import Prelude Pmm HashTable Bytes ByteMem Printf Rfs RfsDisk RfsFile RfsDir RfsSpec Vfs VfsSpec SpikeFile Hostfs.
Local Open Scope Z_scope.

Section hostfs.
Context {B H : Type} `{PA : PageAllocator B} `{FE : Frontend H}.
Implicit Types s : Rfs.state (HostPages.state B H).
Context (spike_files_addr path_addr stat_addr buf_addr : Z) (garbage : Z -> vinode).

(** ** Paths *)
(** [chain s d names]: from the root, the names lead to the dentry [d]. *)
Inductive chain s : Z -> list (list Z) -> Prop :=
  | chain_root d x : Rfs.dentries s !! d = Some x -> d_parent x = 0 -> chain s d []
  | chain_child d x names : Rfs.dentries s !! d = Some x -> d_parent x <> 0 -> chain s (d_parent x) names ->
      chain s d (names ++ [d_name x]).

Definition host_path (names : list (list Z)) : list Z := H_ROOT_DIR ++ path_of names.

Lemma path_of_snoc names name : path_of (names ++ [name]) = path_of names ++ SLASH :: name.
Proof. unfold path_of. rewrite map_app, concat_app. simpl. by rewrite app_nil_r. Qed.

Lemma append_eq s path t :
  Hostfs.append path t s =
    if decide (Z.of_nat (length (path ++ t)) < MAX_PATH_LEN) then Ret (path ++ t) s else Fault "path overflow".
Proof.
  unfold Hostfs.append. case_decide; destruct (Z.leb_spec MAX_PATH_LEN (Z.of_nat (length (path ++ t)))); (done || lia).
Qed.

Lemma path_backtrack_eq s d names : chain s d names -> forall fuel, (length names < fuel)%nat ->
  Hostfs.path_backtrack fuel H_ROOT_DIR d s =
    if decide (Z.of_nat (length (host_path names)) < MAX_PATH_LEN) then Ret (host_path names) s else Fault "path overflow".
Proof.
  induction 1 as [d x Hx Hp|d x names Hx Hp Hch IH]; intros [|fuel] Hf; try (simpl in Hf; lia); cbn [Hostfs.path_backtrack];
    (rewrite (bind_Ret _ _ _ x s) by (unfold Hostfs.get_dentry; by rewrite Hx)).
  - rewrite Hp. cbn [Z.eqb]. done.
  - destruct (Z.eqb_spec (d_parent x) 0); [done|]. rewrite length_app in Hf. simpl in Hf.
    unfold bind at 1. rewrite (IH fuel) by lia.
    assert (host_path (names ++ [d_name x]) = (host_path names ++ [SLASH]) ++ d_name x) as E
      by (unfold host_path; rewrite path_of_snoc, <- !app_assoc; done).
    rewrite E. case_decide as Hl.
    + unfold bind. rewrite append_eq. case_decide as Hl2.
      * by rewrite append_eq.
      * rewrite decide_False; [done|]. intros Hl3. apply Hl2. rewrite length_app in Hl3. lia.
    + rewrite decide_False; [done|]. intros Hl3. apply Hl. rewrite !length_app in Hl3. lia.
Qed.

(** The dentries of a chain are different from each other. *)
Lemma chain_functional s d names : chain s d names -> forall names', chain s d names' -> names = names'.
Proof.
  induction 1 as [d x Hx Hp|d x names Hx Hp Hch IH]; intros names' Hc; inversion Hc as [? y Hy Hq|? y ns Hy Hq Hc']; simplify_eq; try done.
  f_equal. by apply IH.
Qed.

Lemma chain_dentries s d names : chain s d names ->
  exists l, length l = S (length names) /\ NoDup l /\ (forall e, e ∈ l -> is_Some (Rfs.dentries s !! e)) /\
    (forall e, e ∈ l -> exists ns, chain s e ns /\ (length ns <= length names)%nat).
Proof.
  induction 1 as [d x Hx Hp|d x names Hx Hp Hch (l & Hl & Hnd & Hin & Hlen)].
  - exists [d]. split_and!; [done|apply NoDup_singleton| |]; intros e He%list_elem_of_singleton; subst e; [by eexists|].
    exists []. split; [by eapply chain_root|simpl; lia].
  - assert (chain s d (names ++ [d_name x])) as Hd by (by apply chain_child).
    exists (d :: l). split_and!.
    + simpl. rewrite Hl, length_app. simpl. lia.
    + apply NoDup_cons. split; [|done]. intros Hdl. destruct (Hlen d Hdl) as (ns & Hns & Hle).
      rewrite (chain_functional _ _ _ Hns _ Hd), length_app in Hle. simpl in Hle. lia.
    + intros e [->|He]%elem_of_cons; [by eexists|by apply Hin].
    + intros e [->|He]%elem_of_cons; [by exists (names ++ [d_name x])|]. destruct (Hlen e He) as (ns & ? & ?).
      exists ns. split; [done|]. rewrite length_app. lia.
Qed.

Lemma chain_length s d names : chain s d names -> (length names < base.size (Rfs.dentries s))%nat.
Proof.
  intros (l & Hl & Hnd & Hin & _)%chain_dentries. change (S (length names) <= base.size (Rfs.dentries s))%nat. rewrite <- Hl.
  rewrite <- (size_list_to_set (C := gset Z)) by done. rewrite <- size_dom. apply subseteq_size.
  intros e He%elem_of_list_to_set. apply elem_of_dom. by apply Hin.
Qed.

(** The path of a dentry on the host, which the buffers of the callers can hold
    when it has less than [MAX_PATH_LEN] characters. *)
Lemma get_path_string_eq s d names : chain s d names ->
  Hostfs.get_path_string d s =
    if decide (Z.of_nat (length (host_path names)) < MAX_PATH_LEN) then Ret (host_path names) s else Fault "path overflow".
Proof.
  intros Hc. unfold Hostfs.get_path_string. rewrite bind_gets.
  rewrite (bind_Ret _ _ _ H_ROOT_DIR s) by (by rewrite append_eq). apply path_backtrack_eq; [done|].
  pose proof (chain_length _ _ _ Hc). lia.
Qed.

(** ** Files the host does not have *)
(** The state of the spike interface with the path in its buffer. *)
Definition with_path s (path : list Z) : Spike.state H :=
  let t := HostPages.spike (Rfs.pages s) in
  Spike.set_mem (store_bytes (Spike.mem t) path_addr (path ++ [0])) t.
Definition with_spike (t : Spike.state H) s : Rfs.state (HostPages.state B H) :=
  Rfs.set_pages (HostPages.mk (HostPages.alloc (Rfs.pages s)) t) s.

Lemma open_path_eq s d names flags mode f t :
  chain s d names -> Z.of_nat (length (host_path names)) < MAX_PATH_LEN ->
  Spike.spike_file_open path_addr flags mode (with_path s (host_path names)) = Ret f t ->
  Hostfs.open_path path_addr d flags mode s = Ret f (with_spike t s).
Proof.
  intros Hc Hl Ho. unfold Hostfs.open_path. rewrite (bind_Ret _ _ _ (host_path names) s).
  - rewrite (bind_Ret _ _ _ tt (with_spike (with_path s (host_path names)) s)) by done.
    unfold Hostfs.on_spike, zoom.
    change (HostPages.spike (Rfs.pages (with_spike (with_path s (host_path names)) s))) with (with_path s (host_path names)).
    by rewrite Ho.
  - rewrite (get_path_string_eq s d names Hc). by rewrite decide_True.
Qed.

Lemma of_ptr_err e : e < 0 -> Hostfs.of_ptr spike_files_addr (Hostfs.ptr_of spike_files_addr (ERR_PTR e)) = ERR_PTR e.
Proof.
  intros. unfold Hostfs.of_ptr, Hostfs.ptr_of. destruct (Z.eqb_spec e 0); [lia|]. destruct (Z.ltb_spec e 0); [done|lia].
Qed.

(** Allocation of an inode of the host file system. *)
Lemma hostfs_alloc_vinode_eq s sb p F :
  pa_rep (Rfs.pages s) (p :: F) ->
  exists a v, Hostfs.hostfs_alloc_vinode garbage sb s = Ret p (Rfs.set_vinodes (<[p := v]> (Rfs.vinodes s)) (Rfs.set_pages a s)) /\
    inum v = -1 /\ i_fs_info v = 0 /\ ref v = 0 /\ v_sb v = sb /\ pa_rep a F /\
    (forall q, pa_page a q <-> pa_page (Rfs.pages s) q).
Proof.
  intros Hrep. pose proof Hrep as Hrep0. cbn in Hrep0. destruct (pa_alloc_cons _ _ _ Hrep0) as (b & Ha & Hb & Hq).
  set (a := HostPages.set_alloc b (Rfs.pages s)).
  set (g := mk_vinode 0 0 0 (type (garbage p)) 0 0 (addrs (garbage p)) (i_fs_info (garbage p)) sb).
  pose proof (pa_rep_pages _ _ Hrep0) as [_ Hpg]. apply Forall_cons in Hpg as [Hp _]. apply pa_page_nonnull in Hp.
  assert (Rfs.default_alloc_vinode garbage sb s = Ret p (Rfs.set_vinodes (<[p := g]> (Rfs.vinodes s)) (Rfs.set_pages a s))) as Heq.
  { unfold Rfs.default_alloc_vinode, Rfs.alloc_object, Rfs.alloc_page, bind, zoom. cbn. unfold zoom. rewrite Ha. cbn.
    destruct (Z.eqb_spec p 0); [lia|]. done. }
  exists a, (set_fs_info 0 (set_inum (-1) g)). split; [|split_and!; done].
  unfold Hostfs.hostfs_alloc_vinode. mstep Heq. unfold Rfs.upd_vinode. rewrite !bind_modify. unfold ret. f_equal.
  cbn [Rfs.vinodes Rfs.set_vinodes Rfs.set_pages]. rewrite !alter_insert_eq. reflexivity.
Qed.

(** A name the host refuses gives an inode all the same: a directory. *)
Lemma hostfs_lookup_missing s ri rv d names name e t p F :
  chain s d names -> Z.of_nat (length (host_path names)) < MAX_PATH_LEN ->
  Spike.spike_file_open path_addr O_RDWR 0 (with_path s (host_path names)) = Ret (ERR_PTR e) t -> e < 0 ->
  Rfs.vinodes s !! ri = Some rv -> pa_rep (Rfs.pages s) (p :: F) ->
  exists a v, Hostfs.hostfs_lookup spike_files_addr path_addr stat_addr garbage ri d name s =
      Ret p (Rfs.set_vinodes (<[p := v]> (Rfs.vinodes s)) (Rfs.set_pages a s)) /\
    inum v = -1 /\ type v = H_DIR /\ ref v = 0 /\ v_sb v = v_sb rv /\ pa_rep a F /\
    (forall q, pa_page a q <-> pa_page (Rfs.pages s) q).
Proof.
  intros Hc Hl Ho He Hv Hrep. unfold Hostfs.hostfs_lookup. mstep (open_path_eq s d names _ _ _ _ Hc Hl Ho).
  mstep (vinode_eq (with_spike t s) ri rv Hv).
  destruct (hostfs_alloc_vinode_eq (with_spike t s) (v_sb rv) p F Hrep) as (a & v & Heq & V1 & V2 & V3 & V4 & Hrep' & Hpg).
  mstep Heq. unfold Rfs.upd_vinode at 1. rewrite bind_modify. cbn [Rfs.vinodes Rfs.set_vinodes with_spike Rfs.set_pages].
  rewrite alter_insert_eq. set (s1 := Rfs.set_vinodes _ _).
  set (v1 := set_fs_info (Hostfs.ptr_of spike_files_addr (ERR_PTR e)) v).
  exists a, (set_ref 0 (Hostfs.set_type H_DIR v1)). split; [|split_and!; done].
  set (s2 := Rfs.set_vinodes (<[p := Hostfs.set_type H_DIR v1]> (Rfs.vinodes s)) s1).
  rewrite (bind_Ret _ _ _ (-1) s2).
  - unfold Rfs.upd_vinode. rewrite bind_modify. unfold ret. f_equal. unfold s2, s1. cbn [Rfs.vinodes Rfs.set_vinodes Rfs.set_pages].
    rewrite alter_insert_eq. reflexivity.
  - unfold Hostfs.hostfs_update_vinode. rewrite (bind_Ret _ _ _ v1 s1) by (apply vinode_eq, lookup_insert_eq).
    unfold v1 at 1. cbn [i_fs_info set_fs_info]. rewrite of_ptr_err by done. cbn [negative].
    destruct (Z.ltb_spec e 0); [|lia]. unfold Rfs.upd_vinode. rewrite bind_modify. unfold ret. f_equal.
    unfold s2, s1. cbn [Rfs.vinodes Rfs.set_vinodes Rfs.set_pages]. rewrite alter_insert_eq. reflexivity.
Qed.
End hostfs.

(** ** A missing file, seen through the virtual file system *)
Section missing.
Context {B H : Type} `{PA : PageAllocator B} `{FE : Frontend H}.
Implicit Types s : Vfs.state (HostPages.state B H).
Context (spike_files_addr path_addr stat_addr buf_addr : Z) (garbage : Z -> vinode).

Lemma alloc_vfs_dentry_eq s name parent p F :
  pa_rep (Rfs.pages (Vfs.fs s)) (p :: F) ->
  exists a, Vfs.alloc_vfs_dentry name 0 parent s =
      Ret p (Vfs.set_fs (Rfs.set_dentries (<[p := mk_dentry name 0 parent 0]> (Rfs.dentries (Vfs.fs s)))
        (Rfs.set_pages a (Vfs.fs s))) s) /\
    pa_rep a F /\ (forall q, pa_page a q <-> pa_page (Rfs.pages (Vfs.fs s)) q) /\ 0 < p /\
    HostPages.spike a = HostPages.spike (Rfs.pages (Vfs.fs s)).
Proof.
  intros Hrep. pose proof Hrep as Hrep0. cbn in Hrep0. destruct (pa_alloc_cons _ _ _ Hrep0) as (b & Ha & Hb & Hq).
  pose proof (pa_rep_pages _ _ Hrep0) as [_ Hpg]. apply Forall_cons in Hpg as [Hp _]. apply pa_page_nonnull in Hp.
  exists (HostPages.set_alloc b (Rfs.pages (Vfs.fs s))). split_and!; try done.
  unfold Vfs.alloc_vfs_dentry, Vfs.on_fs, zoom, Rfs.alloc_vfs_dentry, Rfs.alloc_object, Rfs.alloc_page, bind, zoom. cbn.
  unfold zoom. rewrite Ha. cbn. destruct (Z.eqb_spec p 0); [lia|]. done.
Qed.

(** The lookup of a name below the root of the host file system, for which the
    host has no file, enters a directory under that name. *)
Lemma walk_missing s root rd rv name e t p1 p2 p3 p4 F :
  Rfs.dentries (Vfs.fs s) !! root = Some rd -> d_parent rd = 0 -> root <> p1 -> root <> 0 ->
  Rfs.vinodes (Vfs.fs s) !! d_inode rd = Some rv -> d_inode rd <> p2 ->
  Z.of_nat (length (host_path [name])) < MAX_PATH_LEN -> cached s root name = 0 ->
  Hash.inv (Vfs.dentry_table s) (p1 :: p2 :: p3 :: p4 :: F) ->
  Spike.spike_file_open path_addr O_RDWR 0 (with_path path_addr (Vfs.fs s) (host_path [name])) = Ret (ERR_PTR e) t -> e < 0 ->
  exists s' v,
    Vfs.walk (Hostfs.mounted_i_ops spike_files_addr path_addr stat_addr buf_addr garbage (v_sb rv)) [name] root root s
      = Ret (p1, root, []) s' /\
    Rfs.dentries (Vfs.fs s') !! p1 = Some (mk_dentry name p2 root 0) /\ Rfs.vinodes (Vfs.fs s') !! p2 = Some v /\
    type v = H_DIR /\ cached s' root name = p1 /\ p1 <> 0.
Proof.
  intros Hroot Hpar Hne1 Hne0 Hrv Hne2 Hlen Hcache Hinv Hopen He.
  assert (table_ok s) as Hok by apply Hinv. pose proof Hinv as (_ & Hrep & Hnd & _).
  cbn [Hash.pages Vfs.dentry_table Hash.head] in Hrep, Hnd.
  cbn [Vfs.walk]. mstep (hash_get_dentry_eq s root name Hok). rewrite Hcache. cbn [Z.eqb negb].
  destruct (alloc_vfs_dentry_eq s name root p1 _ Hrep) as (a1 & Heq1 & Hrep1 & Hpg1 & Hp1 & Hsp1). mstep Heq1.
  set (s1 := Vfs.set_fs _ s).
  assert (Rfs.dentries (Vfs.fs s1) !! root = Some rd) as Hroot1 by (cbn; by rewrite lookup_insert_ne).
  mstep (dentry_inode_eq s1 root rd Hroot1).
  assert (chain (Vfs.fs s1) p1 [name]) as Hch.
  { apply (chain_child _ p1 (mk_dentry name 0 root 0) []); [apply lookup_insert_eq|done|]. by apply (chain_root _ root rd). }
  assert (with_path path_addr (Vfs.fs s1) (host_path [name]) = with_path path_addr (Vfs.fs s) (host_path [name])) as Hwp
    by (unfold with_path; cbn; by rewrite Hsp1).
  destruct (hostfs_lookup_missing spike_files_addr path_addr stat_addr garbage (Vfs.fs s1) (d_inode rd) rv p1 [name] name e t p2 (p3 :: p4 :: F) Hch Hlen)
    as (a2 & v & Heq2 & V1 & V2 & V3 & V4 & Hrep2 & Hpg2); [by rewrite Hwp|done|done|done|].
  set (f2 := Rfs.set_vinodes _ _) in Heq2. set (s2 := Vfs.set_fs f2 s1).
  rewrite (bind_Ret _ _ _ p2 s2).
  2:{ unfold Vfs.on_fs, zoom, Hostfs.mounted_i_ops, Hostfs.i_ops_of. cbn [viop_lookup].
      rewrite (bind_Ret _ _ _ (Hostfs.hostfs_i_ops spike_files_addr path_addr stat_addr buf_addr garbage) (Vfs.fs s1)).
      - change (viop_lookup (Hostfs.hostfs_i_ops spike_files_addr path_addr stat_addr buf_addr garbage))
          with (Hostfs.hostfs_lookup spike_files_addr path_addr stat_addr (PA := PA) garbage). by rewrite Heq2.
      - mstep (vinode_eq (Vfs.fs s1) (d_inode rd) rv Hrv). by rewrite Z.eqb_refl. }
  apply pa_rep_pages in Hrep1 as Hpp. destruct Hpp as [_ Hpp]. apply Forall_cons in Hpp as [Hp2 _]. apply pa_page_nonnull in Hp2.
  destruct (Z.eqb_spec p2 0); [lia|].
  mstep (get_vinode_eq s2 p2 v (lookup_insert_eq _ _ _)). rewrite V1.
  rewrite (bind_Ret _ _ _ 0 s2) by (unfold Vfs.hash_get_vinode, Vfs.on_vinode_table, zoom; cbn; by destruct f2).
  cbn [Z.eqb negb].
  set (d3 := mk_dentry name p2 root 0). set (v3 := set_ref (ref v + 1) v).
  set (s3 := Vfs.set_fs (Rfs.set_vinodes (<[p2 := v3]> (Rfs.vinodes (Vfs.fs s)))
               (Rfs.set_dentries (<[p1 := d3]> (Rfs.dentries (Vfs.fs s))) (Rfs.set_pages a2 (Vfs.fs s)))) s).
  rewrite (bind_Ret _ _ _ tt s3).
  2:{ rewrite (bind_inode_unhashed s2 p1 (mk_dentry name 0 root 0) p2 v (lookup_insert_eq _ _ _) (lookup_insert_eq _ _ _)) by lia.
      unfold s3, s2, f2, s1. cbn [Vfs.fs Vfs.set_fs Rfs.vinodes Rfs.dentries Rfs.set_vinodes Rfs.set_dentries Rfs.set_pages].
      by rewrite !insert_insert_eq. }
  assert (Hash.inv (Vfs.dentry_table s3) (p3 :: p4 :: F)) as Hinv3.
  { apply (Hash.inv_set_pages (Vfs.dentry_table s) (p1 :: p2 :: p3 :: p4 :: F)); [done|exact Hrep2| |].
    - intros q. etransitivity; [exact (Hpg2 q)|exact (Hpg1 q)].
    - cbn [Hash.head Vfs.dentry_table]. rewrite <- !Permutation_middle in Hnd. apply NoDup_cons in Hnd as [_ Hnd].
      apply NoDup_cons in Hnd as [_ Hnd]. by rewrite <- !Permutation_middle. }
  destruct (put_dentry_eq s3 p1 d3 p3 p4 F) as (dt & a4 & Heq4 & _ & Hden);
    [apply lookup_insert_eq|lia|done|exact Hcache|].
  mstep Heq4. eexists _, v3. split; [done|]. split_and!.
  - apply lookup_insert_eq.
  - apply lookup_insert_eq.
  - exact V2.
  - unfold cached. change (Vfs.dentry_table (Vfs.set_dentry_table (Hash.mk dt a4) s3)) with (Hash.mk dt a4).
    rewrite Hden. by rewrite bool_decide_eq_true_2.
  - lia.
Qed.

(** C37: a file of the host file system that does not exist cannot be created:
    [vfs_open] of such a name below the root returns NULL whatever the flags,
    [O_CREAT] included, because [hostfs_lookup] answers with a new directory
    inode instead of NULL; the name is then cached as a directory. *)
Theorem hostfs_open_missing s rd rv name flags e t p1 p2 p3 p4 F :
  let root := Vfs.vfs_root_dentry s in
  Rfs.dentries (Vfs.fs s) !! root = Some rd -> d_parent rd = 0 -> root <> 0 -> root <> p1 ->
  Rfs.vinodes (Vfs.fs s) !! d_inode rd = Some rv -> d_inode rd <> p2 ->
  is_name name -> no_nul name -> Z.of_nat (length (host_path [name])) < MAX_PATH_LEN -> cached s root name = 0 ->
  Hash.inv (Vfs.dentry_table s) (p1 :: p2 :: p3 :: p4 :: F) ->
  Spike.spike_file_open path_addr O_RDWR 0 (with_path path_addr (Vfs.fs s) (host_path [name])) = Ret (ERR_PTR e) t -> e < 0 ->
  exists s', Vfs.vfs_open (Hostfs.mounted_i_ops spike_files_addr path_addr stat_addr buf_addr garbage (v_sb rv))
      (path_of [name]) flags s = Ret 0 s' /\
    cached s' root name = p1 /\
    exists v, Rfs.dentries (Vfs.fs s') !! p1 = Some (mk_dentry name p2 root 0) /\
      Rfs.vinodes (Vfs.fs s') !! p2 = Some v /\ type v = DIR_I.
Proof.
  intros root Hroot Hpar Hne0 Hne1 Hrv Hne2 Hn Hz Hlen Hc Hinv Hopen He.
  destruct (walk_missing s root rd rv name e t p1 p2 p3 p4 F) as (s' & v & Hw & Hd & Hv & Hty & Hc' & Hp1); try done.
  exists s'. split; [|split; [done|by exists v]]. unfold Vfs.vfs_open. rewrite bind_gets. fold root.
  rewrite (bind_Ret _ _ _ (p1, root, []) s').
  - destruct (Z.eqb_spec p1 0); [done|]. unfold Vfs.open_dentry. mstep (dentry_type_eq s' p1 _ v Hd Hv). by rewrite Hty.
  - unfold Vfs.lookup_final_dentry, Vfs.path_tokens.
    destruct (Z.leb_spec MAX_PATH_LEN (Z.of_nat (length (path_of [name])))) as [Hl|].
    { unfold host_path in Hlen. rewrite length_app in Hlen. lia. }
    rewrite bind_ret_l, tokens_path by (by constructor). exact Hw.
Qed.
End missing.
