(* ===== verification/MountSpec.v ===== *)
(** * What [fs_init] sets up

    The kernel comes up with the host file system as the root and the formatted
    RAM disk below it, under the name of its device. *)

From stdpp Require Import base gmap list numbers strings.
From Stdlib Require Import ZArith Lia.
From S2P Require Import Prelude Pmm HashTable Bytes ByteMem Printf Rfs RfsDisk RfsFile RfsDir RfsMount RfsSpec Vfs VfsSpec SpikeFile Hostfs Mount HostfsSpec.
Local Open Scope Z_scope.

Lemma alter_insert_at {A} (f : A -> A) (m : gmap Z A) i x y : m !! i = Some x -> f x = y -> alter f i m = <[i := y]> m.
Proof.
  intros Hi <-. apply map_eq. intros j. destruct (decide (i = j)) as [<-|].
  - by rewrite lookup_alter_eq, lookup_insert_eq, Hi.
  - by rewrite lookup_alter_ne, lookup_insert_ne.
Qed.

Section mount.
Context {B H : Type} `{PA : PageAllocator B} `{FE : Frontend H}.
Implicit Types s : Mount.state B H.
Context (garbage : Z -> vinode) (raw : Z -> list Z) (uninit : list Z).

(** ** Pages *)
Definition pages_of s : HostPages.state B H := Rfs.pages (Vfs.fs (Mount.vfs s)).
Definition with_pages (a : HostPages.state B H) s : Mount.state B H :=
  Mount.set_vfs (Vfs.set_fs (Rfs.set_pages a (Vfs.fs (Mount.vfs s))) (Mount.vfs s)) s.
(** The two caches, with the free pages [F]. *)
Definition caches s (F : list Z) : Prop :=
  caches_ok (Vfs.dentry_hash_table (Mount.vfs s)) (Vfs.vinode_hash_table (Mount.vfs s)) (pages_of s) F.

Lemma on_fs_Ret {R} s (m : M (Rfs.state (HostPages.state B H)) R) r f :
  m (Vfs.fs (Mount.vfs s)) = Ret r f ->
  Mount.on_fs m s = Ret r (Mount.set_vfs (Vfs.set_fs f (Mount.vfs s)) s).
Proof. intros E. unfold Mount.on_fs, Mount.on_vfs, Vfs.on_fs, zoom. by rewrite E. Qed.

Lemma mount_on_vfs_Ret {R} s (m : M (Vfs.state (HostPages.state B H)) R) r f :
  m (Mount.vfs s) = Ret r f -> Mount.on_vfs m s = Ret r (Mount.set_vfs f s).
Proof. intros E. unfold Mount.on_vfs, zoom. by rewrite E. Qed.

Lemma caches_rep s F : caches s F -> pa_rep (pages_of s) F.
Proof. intros [(_ & Hrep & _) _ _]. exact Hrep. Qed.

Lemma alloc_page_eq s p F : caches s (p :: F) ->
  exists a, Mount.on_fs Rfs.alloc_page s = Ret p (with_pages a s) /\ caches (with_pages a s) F /\ p <> 0.
Proof.
  intros Hc. pose proof (caches_rep _ _ Hc) as Hrep. destruct (pa_alloc_cons _ _ _ Hrep) as (a & Heq & Hrep' & Hpg).
  apply pa_rep_pages in Hrep as [_ Hf]. apply Forall_cons in Hf as [Hp _]. apply pa_page_nonnull in Hp.
  exists a. split; [|split; [|lia]].
  - apply on_fs_Ret. unfold Rfs.alloc_page, zoom. fold (pages_of s). by rewrite Heq.
  - apply (caches_take _ _ (pages_of s) (p :: F)); try done. by apply submseteq_cons.
Qed.

Lemma alloc_object_ok s p F : caches s (p :: F) ->
  exists a, Mount.on_fs Rfs.alloc_object s = Ret p (with_pages a s) /\ caches (with_pages a s) F /\ p <> 0.
Proof.
  intros Hc. destruct (alloc_page_eq s p F Hc) as (a & Heq & Hc' & Hp). exists a. split; [|done].
  pose proof (caches_rep _ _ Hc) as Hrep. destruct (alloc_object_eq _ _ _ Hrep) as (a' & Ha & _).
  rewrite (on_fs_Ret _ _ _ _ Ha). unfold Mount.on_fs, Mount.on_vfs, Vfs.on_fs, zoom in Heq.
  unfold Rfs.alloc_object, bind in Ha. destruct (Rfs.alloc_page (Vfs.fs (Mount.vfs s))) as [q f| | | | |] eqn:E; try done.
  injection Heq as -> Heq. destruct (p =? 0); [done|]. injection Ha as Ha. rewrite <- Ha. by rewrite Heq.
Qed.

(** The loop over the blocks of the RAM disk, when the pages descend. *)
Fixpoint descending (n : nat) (base : Z) : list Z :=
  match n with O => [] | S n => base + PGSIZE * Z.of_nat n :: descending n base end.

Lemma with_pages_with a a' s : with_pages a (with_pages a' s) = with_pages a s.
Proof. reflexivity. Qed.

Lemma alloc_blocks_eq n : forall s base F curr,
  caches s (descending n base ++ F) -> (curr = 0 \/ curr = base + PGSIZE * Z.of_nat n) ->
  exists a, Mount.alloc_blocks n curr s = Ret (if decide (n = O) then curr else base) (with_pages a s) /\ caches (with_pages a s) F.
Proof.
  induction n as [|n IH]; intros s base F curr Hc Hcurr.
  - exists (pages_of s). split; [|done]. cbn [Mount.alloc_blocks]. unfold ret, with_pages, pages_of. do 2 f_equal.
    destruct s as [v]; cbn. unfold Mount.set_vfs. cbn. f_equal. destruct v as [f]; cbn. unfold Vfs.set_fs. cbn. f_equal. by destruct f.
  - cbn [Mount.alloc_blocks descending app] in *. destruct (alloc_page_eq _ _ _ Hc) as (a & Heq & Hc' & Hp). mstep Heq.
    replace (negb (curr =? 0) && negb (curr - (base + PGSIZE * Z.of_nat n) =? PGSIZE)) with false.
    2:{ destruct Hcurr as [->| ->]; [done|]. replace (_ - _) with PGSIZE by lia. by rewrite Z.eqb_refl, andb_false_r. }
    destruct (IH (with_pages a s) base F (base + PGSIZE * Z.of_nat n) Hc') as (a' & Heq' & Hc''); [by right|].
    exists a'. rewrite Heq', with_pages_with. split; [|exact Hc'']. f_equal.
    repeat case_decide; try done. subst n. lia.
Qed.

(** ** Registration and devices *)
Lemma register_eq s t p F i : caches s (p :: F) -> first_null (Mount.fs_list s) = Some i ->
  exists a, Mount.register t s = Ret 0 (Mount.set_fs_list (<[i := p]> (Mount.fs_list s))
      (Mount.set_fs_types (<[p := t]> (Mount.fs_types s)) (with_pages a s))) /\ caches (with_pages a s) F /\ p <> 0.
Proof.
  intros Hc Hi. destruct (alloc_object_ok _ _ _ Hc) as (a & Heq & Hc' & Hp). exists a. split; [|done].
  unfold Mount.register. mstep Heq. rewrite bind_modify, bind_gets. cbn [Mount.fs_list Mount.set_fs_types with_pages Mount.set_vfs].
  by rewrite Hi.
Qed.

Lemma add_device_eq s name id ty p F i :
  caches s (p :: F) -> first_null (Mount.vfs_dev_list s) = Some i -> Z.of_nat (length name) < MAX_DEVICE_NAME_LEN ->
  exists a, Mount.add_device name id ty s = Ret p (Mount.set_dev_list (<[i := p]> (Mount.vfs_dev_list s))
      (Mount.set_devices (<[p := mk_device name id ty]> (Mount.devices s)) (with_pages a s))) /\ caches (with_pages a s) F /\ p <> 0.
Proof.
  intros Hc Hi Hl. destruct (alloc_object_ok _ _ _ Hc) as (a & Heq & Hc' & Hp). exists a. split; [|done].
  unfold Mount.add_device. mstep Heq. destruct (Z.leb_spec MAX_DEVICE_NAME_LEN (Z.of_nat (length name))); [lia|].
  rewrite bind_modify, bind_gets. cbn [Mount.vfs_dev_list Mount.set_devices with_pages Mount.set_vfs]. by rewrite Hi.
Qed.

(** ** Super blocks *)
Lemma hostfs_superblock_eq (f : Rfs.state (HostPages.state B H)) p1 p2 p3 F :
  pa_rep (Rfs.pages f) (p1 :: p2 :: p3 :: F) ->
  exists a v, Hostfs.hostfs_get_superblock garbage f = Ret (p1, p3)
      (Rfs.set_vinodes (<[p2 := v]> (Rfs.vinodes f)) (Rfs.set_dentries (<[p3 := mk_dentry [SLASH] p2 0 0]> (Rfs.dentries f)) (Rfs.set_pages a f))) /\
    inum v = -1 /\ type v = H_DIR /\ v_sb v = p1 /\ pa_rep a F /\ (forall q, pa_page a q <-> pa_page (Rfs.pages f) q).
Proof.
  intros Hrep. destruct (alloc_object_eq f p1 _ Hrep) as (a1 & Ha1 & Hrep1 & _ & Hpg1). set (f1 := Rfs.set_pages a1 f) in *.
  destruct (hostfs_alloc_vinode_eq garbage f1 p1 p2 (p3 :: F) Hrep1) as (a2 & v & Heq2 & V1 & V2 & V3 & V4 & Hrep2 & Hpg2).
  set (f2 := Rfs.set_vinodes _ _) in Heq2. set (v2 := Hostfs.set_type H_DIR v).
  set (f3 := Rfs.set_vinodes (<[p2 := v2]> (Rfs.vinodes f)) f2).
  destruct (alloc_object_eq f3 p3 F Hrep2) as (a4 & Ha4 & Hrep4 & _ & Hpg4).
  pose proof (pa_rep_pages _ _ Hrep1) as [_ Hpp]. apply Forall_cons in Hpp as [Hp2 _]. apply pa_page_nonnull in Hp2.
  exists a4, (set_ref (ref v2 + 1) v2). split.
  - unfold Hostfs.hostfs_get_superblock. mstep Ha1. mstep Heq2. unfold Rfs.upd_vinode at 1. rewrite bind_modify.
    replace (Rfs.set_vinodes (alter _ p2 _) f2) with f3
      by (unfold f3, f2; cbn [Rfs.vinodes Rfs.set_vinodes Rfs.set_pages]; by rewrite alter_insert_eq).
    unfold Rfs.alloc_vfs_dentry. rewrite (bind_Ret _ _ _ p3 (Rfs.set_vinodes (<[p2 := set_ref (ref v2 + 1) v2]> (Rfs.vinodes f))
      (Rfs.set_dentries (<[p3 := mk_dentry [SLASH] p2 0 0]> (Rfs.dentries f)) (Rfs.set_pages a4 f)))); [done|].
    mstep Ha4. rewrite bind_modify. destruct (Z.eqb_spec p2 0); [lia|]. cbn [negb]. unfold Rfs.upd_vinode. rewrite bind_modify.
    unfold ret, f3, f2, f1. cbn [Rfs.vinodes Rfs.dentries Rfs.set_dentries Rfs.set_vinodes Rfs.set_pages].
    by rewrite alter_insert_eq.
  - split_and!; try done. intros q. etransitivity; [exact (Hpg4 q)|]. etransitivity; [exact (Hpg2 q)|]. exact (Hpg1 q).
Qed.

(** ** Mounting *)
(** The device [name] is in the list, and its file system answers with the super
    block [sb] and the root dentry [rd] of the inode [ino]. *)
Record mountable s (name : list Z) (dev : device) (f : Rfs.state (HostPages.state B H)) (sb rd ino : Z) (v : vinode) : Prop := {
  mb_device : exists p, Mount.find_device (Mount.devices s) (Mount.vfs_dev_list s) name 0 = p /\ p <> 0 /\
                Mount.devices s !! p = Some dev;
  mb_super : exists t, Mount.fs_types s !! fs_type dev = Some t /\
                Mount.get_superblock t dev (Vfs.fs (Mount.vfs s)) = Ret (sb, rd) f;
  mb_root : Rfs.dentries f !! rd = Some (mk_dentry [SLASH] ino 0 0) /\ rd <> 0;
  mb_inode : Rfs.vinodes f !! ino = Some v;
}.

Lemma put_vinode_unhashed (s0 : Vfs.state (HostPages.state B H)) v x : Rfs.vinodes (Vfs.fs s0) !! v = Some x -> inum x < 0 ->
  Vfs.hash_put_vinode v s0 = Ret (-1) s0.
Proof.
  intros Hv Hi. unfold Vfs.hash_put_vinode. mstep (get_vinode_eq s0 v x Hv). unfold Vfs.on_vinode_table, zoom, VfsHash.hash_put_vinode.
  destruct (Z.ltb_spec (inum x) 0); [|lia]. cbn. unfold Vfs.set_vinode_table. cbn. do 2 f_equal. destruct s0 as [f]. cbn. f_equal. by destruct f.
Qed.

(** The part before the root dentry is put into its place. *)
Lemma vfs_mount_start s name mnt dev f sb rd ino v i w r :
  mountable s name dev f sb rd ino v -> first_null (Mount.vfs_sb_list s) = Some i ->
  Vfs.hash_put_vinode ino (Vfs.set_fs f (Mount.vfs s)) = Ret r w ->
  Mount.vfs_mount name mnt s =
    (Mount.place_root mnt rd dev ;; ret sb) (Mount.set_sb_list (<[i := sb]> (Mount.vfs_sb_list s)) (Mount.set_vfs w s)).
Proof.
  intros [(p & Hp & Hp0 & Hdev) (t & Ht & Hsb) [Hrd Hrd0] Hv] Hi Hput.
  unfold Mount.vfs_mount. rewrite bind_gets, Hp. destruct (Z.eqb_spec p 0); [done|].
  rewrite (bind_Ret _ _ _ dev s) by (unfold Mount.get_device; by rewrite Hdev).
  rewrite (bind_Ret _ _ _ t s) by (unfold Mount.get_fs_type; by rewrite Ht).
  mstep (on_fs_Ret s _ _ _ Hsb). set (s2 := Mount.set_vfs _ s).
  rewrite (bind_Ret _ _ _ ino s2).
  2:{ unfold Mount.on_vfs, zoom. by rewrite (dentry_inode_eq (Mount.vfs s2) rd _ Hrd). }
  rewrite (bind_Ret _ _ _ r (Mount.set_vfs w s)).
  2:{ apply (mount_on_vfs_Ret s2) in Hput. exact Hput. }
  rewrite bind_gets. change (Mount.vfs_sb_list (Mount.set_vfs w s)) with (Mount.vfs_sb_list s). rewrite Hi. by rewrite bind_modify.
Qed.

(** Mounting as the root: the root inode has no number and is not cached. *)
Lemma mount_as_root_eq s name dev f sb rd ino v i kp np F :
  mountable s name dev f sb rd ino v -> first_null (Mount.vfs_sb_list s) = Some i -> inum v < 0 ->
  caches (Mount.set_vfs (Vfs.set_fs f (Mount.vfs s)) s) (kp :: np :: F) -> cached (Mount.vfs s) 0 [SLASH] = 0 ->
  exists dt a, let s' := Mount.set_sb_list (<[i := sb]> (Mount.vfs_sb_list s)) (Mount.set_vfs
        (Vfs.mk (Rfs.set_pages a f) dt (Vfs.vinode_hash_table (Mount.vfs s)) (Vfs.files (Mount.vfs s)) rd) s) in
    Mount.vfs_mount name MOUNT_AS_ROOT s = Ret sb s' /\ caches s' F /\
    (forall k, Hash.denote (Hash.mk dt a) k =
       if hk_equal (VfsHash.mk_dkey 0 [SLASH]) k then rd else Hash.denote (Vfs.dentry_table (Mount.vfs s)) k) /\
    (forall q, pa_page a q <-> pa_page (Rfs.pages f) q).
Proof.
  intros Hm Hi Hin Hc H0. pose proof Hm as [_ _ [Hrd Hrd0] Hv].
  pose proof (put_vinode_unhashed (Vfs.set_fs f (Mount.vfs s)) ino v Hv Hin) as Hput.
  rewrite (vfs_mount_start _ _ MOUNT_AS_ROOT _ _ _ _ _ _ _ _ _ Hm Hi Hput). set (s1 := Mount.set_sb_list _ _).
  set (w := Mount.set_root rd (Vfs.set_fs f (Mount.vfs s))).
  destruct (caches_put_dentry w rd (mk_dentry [SLASH] ino 0 0) kp np F Hrd Hrd0 Hc H0) as (dt & a & Heq & Hc' & Hden & Hpg).
  exists dt, a. split_and!; try done. unfold Mount.place_root. change (MOUNT_AS_ROOT =? MOUNT_AS_ROOT) with true. cbn iota.
  rewrite (bind_Ret _ _ _ tt (Mount.set_vfs (Vfs.set_dentry_table (Hash.mk dt a) w) s1)); [done|].
  rewrite (bind_Ret _ _ _ tt (Mount.set_vfs w s1)) by done.
  mstep (mount_on_vfs_Ret (Mount.set_vfs w s1) _ _ _ Heq). done.
Qed.

(** Mounting below the root: the dentry gets the name of the device. *)
Lemma mount_default_eq s name dev f sb rd ino v i kp np kp' np' F :
  mountable s name dev f sb rd ino v -> first_null (Mount.vfs_sb_list s) = Some i -> 0 <= inum v -> ino <> 0 ->
  caches (Mount.set_vfs (Vfs.set_fs f (Mount.vfs s)) s) (kp :: np :: kp' :: np' :: F) ->
  Hash.denote (Vfs.vinode_table (Mount.vfs s)) (VfsHash.mk_vkey (Z.to_N (inum v)) (v_sb v)) = 0 ->
  let root := Vfs.vfs_root_dentry (Mount.vfs s) in
  root <> 0 -> cached (Mount.vfs s) root (dev_name dev) = 0 ->
  exists dt vt a, let s' := Mount.set_sb_list (<[i := sb]> (Mount.vfs_sb_list s)) (Mount.set_vfs
        (Vfs.mk (Rfs.set_pages a (Rfs.set_dentries (<[rd := mk_dentry (dev_name dev) ino root 0]> (Rfs.dentries f)) f))
           dt vt (Vfs.files (Mount.vfs s)) root) s) in
    Mount.vfs_mount name MOUNT_DEFAULT s = Ret sb s' /\ caches s' F /\
    (forall k, Hash.denote (Hash.mk dt a) k =
       if hk_equal (VfsHash.mk_dkey root (dev_name dev)) k then rd else Hash.denote (Vfs.dentry_table (Mount.vfs s)) k) /\
    (forall k, Hash.denote (Hash.mk vt a) k =
       if hk_equal (VfsHash.mk_vkey (Z.to_N (inum v)) (v_sb v)) k then ino else Hash.denote (Vfs.vinode_table (Mount.vfs s)) k).
Proof.
  intros Hm Hi Hin Hino Hc Hv0 root Hr0 Hd0. pose proof Hm as [_ _ [Hrd Hrd0] Hv].
  destruct (caches_put_vinode (Vfs.set_fs f (Mount.vfs s)) ino v kp np (kp' :: np' :: F) Hv Hino Hin Hc Hv0)
    as (vt & a & Hput & Hc1 & Hden1 & Hpg1).
  set (w1 := Vfs.set_vinode_table (Hash.mk vt a) (Vfs.set_fs f (Mount.vfs s))) in Hput.
  rewrite (vfs_mount_start _ _ MOUNT_DEFAULT _ _ _ _ _ _ _ _ _ Hm Hi Hput). set (s1 := Mount.set_sb_list _ _).
  set (x := mk_dentry (dev_name dev) ino root 0).
  set (w2 := Vfs.set_fs (Rfs.set_dentries (<[rd := x]> (Rfs.dentries f)) (Vfs.fs w1)) w1).
  destruct (caches_put_dentry w2 rd x kp' np' F (lookup_insert_eq _ _ _) Hrd0 Hc1 Hd0) as (dt & a' & Heq & Hc' & Hden & Hpg).
  exists dt, vt, a'. split_and!; try done. unfold Mount.place_root. change (MOUNT_DEFAULT =? MOUNT_AS_ROOT) with false.
  change (MOUNT_DEFAULT =? MOUNT_DEFAULT) with true. cbn iota.
  rewrite (bind_Ret _ _ _ tt (Mount.set_vfs (Vfs.set_dentry_table (Hash.mk dt a') w2) s1)); [done|].
  rewrite bind_gets. change (Vfs.vfs_root_dentry (Mount.vfs s1)) with root. destruct (Z.eqb_spec root 0); [done|].
  set (x1 := mk_dentry (dev_name dev) ino 0 0).
  set (w3 := Vfs.set_fs (Rfs.set_dentries (<[rd := x1]> (Rfs.dentries f)) (Vfs.fs w1)) w1).
  rewrite (bind_Ret _ _ _ tt (Mount.set_vfs w3 s1)).
  2:{ apply mount_on_vfs_Ret. unfold Vfs.upd_dentry, modify, w3. do 4 f_equal. cbn. by apply (alter_insert_at _ _ _ (mk_dentry [SLASH] ino 0 0)). }
  rewrite (bind_Ret _ _ _ tt (Mount.set_vfs w2 s1)).
  2:{ apply (mount_on_vfs_Ret (Mount.set_vfs w3 s1)). unfold Vfs.upd_dentry, modify.
      cbn [Mount.vfs Mount.set_vfs Vfs.fs Vfs.set_fs w3 Rfs.dentries Rfs.set_dentries]. by rewrite alter_insert_eq. }
  mstep (mount_on_vfs_Ret (Mount.set_vfs w2 s1) _ _ _ Heq). done.
Qed.

(** ** The start of the kernel *)
Definition nulls s : Prop :=
  Mount.fs_list s = replicate MAX_SUPPORTED_FS 0 /\ Mount.vfs_dev_list s = replicate MAX_VFS_DEV 0 /\
  Mount.vfs_sb_list s = replicate MAX_MOUNTS 0 /\ Mount.rfs_device_list s = replicate MAX_RAMDISK_COUNT 0.

Lemma first_null_second p n : p <> 0 -> first_null (p :: replicate (S n) 0) = Some 1%nat.
Proof. intros Hp. unfold first_null. cbn. by rewrite decide_False. Qed.

Definition no_nodes {K} : list (list (Hash.node K)) := replicate (Z.to_nat HASH_TABLE_SIZE) [].

Lemma addrs_no_nodes {K} : Hash.addrs (@no_nodes K) = [].
Proof. done. Qed.

Lemma no_nodes_denote {K} `{HK : HashKey K} (a : HostPages.state B H) (k : K) : Hash.denote (Hash.mk no_nodes a) k = 0.
Proof.
  unfold Hash.denote. cbn [Hash.head]. destruct (no_nodes !! _) as [c|] eqn:E; [|done]. by apply lookup_replicate in E as [-> _].
Qed.

Lemma vfs_init_eq (w : Vfs.state (HostPages.state B H)) F : pa_rep (Rfs.pages (Vfs.fs w)) F ->
  let w' := Vfs.mk (Vfs.fs w) no_nodes no_nodes (Vfs.files w) (Vfs.vfs_root_dentry w) in
  Vfs.vfs_init w = Ret 0 w' /\ caches_ok no_nodes no_nodes (Rfs.pages (Vfs.fs w)) F.
Proof.
  intros Hrep w'. split.
  - unfold w'. destruct w as [f dt vt fl r]. by destruct f.
  - pose proof (pa_rep_pages _ _ Hrep) as [Hnd _].
    assert (forall i K (c : list (Hash.node K)), no_nodes !! i = Some c -> c = []) as Hnil.
    { intros i K c Hc. by apply lookup_replicate in Hc as [-> _]. }
    split; [split_and!; try done|split_and!; try done|done]; intros i c Hc; rewrite (Hnil _ _ _ Hc); split; constructor.
Qed.

(** The host file system is mounted as the root. *)
Record host_up s (F : list Z) (ft hd hsb hino hrd : Z) : Prop := {
  hu_types : Mount.fs_list s = ft :: replicate 9 0 /\ ft <> 0 /\ Mount.fs_types s !! ft = Some (Mount.host_fs_type garbage);
  hu_devices : Mount.vfs_dev_list s = hd :: replicate 9 0 /\ hd <> 0 /\ Mount.devices s !! hd = Some (mk_device Mount.HOSTDEV 0 ft);
  hu_supers : Mount.vfs_sb_list s = hsb :: replicate 9 0 /\ hsb <> 0;
  hu_ramdisks : Mount.rfs_device_list s = replicate MAX_RAMDISK_COUNT 0;
  hu_caches : caches s F;
  hu_root : Vfs.vfs_root_dentry (Mount.vfs s) = hrd /\ hrd <> 0 /\
              Rfs.dentries (Vfs.fs (Mount.vfs s)) !! hrd = Some (mk_dentry [SLASH] hino 0 0);
  hu_inode : exists v, Rfs.vinodes (Vfs.fs (Mount.vfs s)) !! hino = Some v /\ type v = H_DIR /\ v_sb v = hsb;
  hu_dentries : forall k, Hash.denote (Vfs.dentry_table (Mount.vfs s)) k = if hk_equal (VfsHash.mk_dkey 0 [SLASH]) k then hrd else 0;
  hu_vinodes : forall k, Hash.denote (Vfs.vinode_table (Mount.vfs s)) k = 0;
}.

Definition host_part : M (Mount.state B H) Z :=
  Mount.on_vfs Vfs.vfs_init ;;
  r <- Mount.register_hostfs garbage ;;
  if r <? 0 then panic "fs_init: cannot register hostfs."
  else Mount.init_host_device Mount.HOSTDEV ;; Mount.vfs_mount Mount.HOSTDEV MOUNT_AS_ROOT.

Lemma host_part_ok s ft hd hsb hino hrd k1 n1 F :
  nulls s -> pa_rep (pages_of s) (ft :: hd :: hsb :: hino :: hrd :: k1 :: n1 :: F) ->
  exists s', host_part s = Ret hsb s' /\ host_up s' F ft hd hsb hino hrd.
Proof.
  intros (N1 & N2 & N3 & N4) Hrep. destruct (vfs_init_eq _ _ Hrep) as [Hvi Hc0].
  set (w0 := Vfs.mk _ _ _ _ _) in Hvi. set (s0 := Mount.set_vfs w0 s).
  destruct (register_eq s0 (Mount.host_fs_type garbage) ft (hd :: hsb :: hino :: hrd :: k1 :: n1 :: F) 0 Hc0) as (a1 & Heq1 & Hc1 & Hft);
    [by (cbn; rewrite N1)|].
  set (s1 := Mount.set_fs_list _ _) in Heq1.
  destruct (add_device_eq s1 Mount.HOSTDEV 0 ft hd (hsb :: hino :: hrd :: k1 :: n1 :: F) 0 Hc1) as (a2 & Heq2 & Hc2 & Hhd);
    [by (cbn; rewrite N2)|done|].
  set (s2 := Mount.set_dev_list _ _) in Heq2.
  destruct (hostfs_superblock_eq (Vfs.fs (Mount.vfs s2)) hsb hino hrd (k1 :: n1 :: F)) as (a3 & v & Heq3 & V1 & V2 & V3 & Hrep3 & Hpg3);
    [apply (caches_rep _ _ Hc2)|].
  set (f3 := Rfs.set_vinodes _ _) in Heq3.
  pose proof (caches_rep _ _ Hc2) as Hrep2. pose proof (pa_rep_pages _ _ Hrep2) as [_ Hpp].
  apply Forall_cons in Hpp as [Hp1 Hpp]. apply Forall_cons in Hpp as [_ Hpp]. apply Forall_cons in Hpp as [Hp3 _].
  apply pa_page_nonnull in Hp1, Hp3.
  assert (mountable s2 Mount.HOSTDEV (mk_device Mount.HOSTDEV 0 ft) f3 hsb hrd hino v) as Hm.
  { split.
    - exists hd. split_and!; [|done|apply lookup_insert_eq]. cbn [Mount.devices Mount.vfs_dev_list s2 Mount.set_dev_list Mount.set_devices].
      change (Mount.vfs_dev_list s1) with (Mount.vfs_dev_list s). rewrite N2. cbn. rewrite lookup_insert_eq.
      destruct (Z.eqb_spec hd 0); done.
    - exists (Mount.host_fs_type garbage). split; [apply lookup_insert_eq|exact Heq3].
    - split; [apply lookup_insert_eq|lia].
    - apply lookup_insert_eq. }
  destruct (mount_as_root_eq s2 _ _ _ _ _ _ _ 0 k1 n1 F Hm) as (dt & a4 & Heq4 & Hc4 & Hden4 & Hpg4);
    [by (cbn; rewrite N3)|lia| |apply no_nodes_denote|].
  { apply (caches_take _ _ _ _ a3 _ Hc2); [done|exact Hpg3|]. by do 3 apply submseteq_cons. }
  eexists. split.
  - unfold host_part. mstep (mount_on_vfs_Ret s _ _ _ Hvi). mstep Heq1. change (0 <? 0) with false. cbn iota.
    assert (Mount.init_host_device Mount.HOSTDEV s1 = Ret hd s2) as Hih.
    { unfold Mount.init_host_device. rewrite bind_gets. cbn [Mount.fs_types Mount.fs_list s1 Mount.set_fs_list Mount.set_fs_types].
      change (Mount.fs_list s0) with (Mount.fs_list s). rewrite N1. cbn. rewrite lookup_insert_eq. cbn.
      destruct (Z.eqb_spec ft 0); [done|]. cbn. destruct (Z.eqb_spec ft 0); [done|]. exact Heq2. }
    mstep Hih. exact Heq4.
  - split.
    + split_and!; [by (cbn; rewrite N1)|done|apply lookup_insert_eq].
    + split_and!; [by (cbn; rewrite N2)|done|apply lookup_insert_eq].
    + split; [by (cbn; rewrite N3)|lia].
    + exact N4.
    + exact Hc4.
    + split_and!; [done|lia|apply lookup_insert_eq].
    + exists v. split_and!; [apply lookup_insert_eq|done|done].
    + intros k. etransitivity; [exact (Hden4 k)|]. destruct (hk_equal _ k); [done|]. apply no_nodes_denote.
    + intros k. apply no_nodes_denote.
Qed.

(** ** The RAM disk below the root *)
Lemma mounted_frame root (f : Rfs.state (HostPages.state B H)) a ds :
  mounted root f -> mounted root (Rfs.set_pages a (Rfs.set_dentries ds f)).
Proof.
  intros [Hmap (v & Hv & [(Hd & Hm & [F1 F2 F3 F4 F5]) R2 R3 R4 R5] & Hrest) Hfm Hfree]. split; [exact Hmap| |exact Hfm|exact Hfree].
  exists v. split; [exact Hv|]. split; [|exact Hrest]. split; [|done..]. split_and!; [exact Hd|exact Hm|]. split; done.
Qed.

Lemma raw_disk_ok (f : Rfs.state (HostPages.state B H)) base iob :
  (forall p, length (raw p) = 4096%nat) -> disk_ok (Rfs.set_disk (Mount.raw_disk raw base) (Rfs.set_iobuffer (raw iob) f)).
Proof.
  intros Hraw. split_and!; cbn [Rfs.disk Rfs.iobuffer Rfs.set_disk Rfs.set_iobuffer]; [| |done].
  - unfold Mount.raw_disk. by rewrite length_map, length_seq.
  - unfold Mount.raw_disk. apply Forall_forall. intros b Hb. apply list_elem_of_fmap in Hb as (i & -> & _). apply Hraw.
Qed.

(** The state of the devices after [init_rfs_device]. *)
Lemma init_rfs_device_eq s name rft l base rdev iob dev F i :
  Mount.find_type (Mount.fs_types s) (Mount.fs_list s) RFS_TYPE = rft -> rft <> 0 ->
  Mount.rfs_device_list s = replicate MAX_RAMDISK_COUNT 0 ->
  Mount.vfs_dev_list s = l -> first_null l = Some i -> Z.of_nat (length name) < MAX_DEVICE_NAME_LEN ->
  caches s (descending 128 base ++ rdev :: iob :: dev :: F) ->
  exists a, let f := Vfs.fs (Mount.vfs s) in
    let s' := Mount.set_dev_list (<[i := dev]> l) (Mount.set_devices (<[dev := mk_device name 0 rft]> (Mount.devices s))
      (Mount.set_rfs_devices (<[rdev := mk_rfs_device RAMDISK_BLOCK_COUNT RAMDISK_BLOCK_SIZE base iob]> (Mount.rfs_devices s))
        (Mount.set_rfs_device_list (<[0%nat := rdev]> (replicate MAX_RAMDISK_COUNT 0))
          (Mount.set_vfs (Vfs.set_fs (Rfs.set_pages a (Rfs.set_disk (Mount.raw_disk raw base) (Rfs.set_iobuffer (raw iob) f))) (Mount.vfs s)) s)))) in
    Mount.init_rfs_device raw name s = Ret dev s' /\ caches s' F /\ dev <> 0.
Proof.
  intros Ht Ht0 Hrl Hl Hi Hn Hc. destruct (alloc_blocks_eq 128 s base _ 0 Hc) as (a1 & Heq1 & Hc1); [by left|].
  destruct (alloc_object_ok _ _ _ Hc1) as (a2 & Heq2 & Hc2 & _). rewrite with_pages_with in Heq2, Hc2.
  set (s2 := Mount.set_rfs_device_list (<[0%nat := rdev]> (replicate MAX_RAMDISK_COUNT 0)) (with_pages a2 s)).
  destruct (alloc_page_eq s2 iob (dev :: F) Hc2) as (a3 & Heq3 & Hc3 & _).
  set (s3 := Mount.set_rfs_devices (<[rdev := mk_rfs_device RAMDISK_BLOCK_COUNT RAMDISK_BLOCK_SIZE base iob]> (Mount.rfs_devices s)) (with_pages a3 s2)).
  set (f4 := Rfs.set_disk (Mount.raw_disk raw base) (Rfs.set_iobuffer (raw iob) (Vfs.fs (Mount.vfs s3)))).
  set (s4 := Mount.set_vfs (Vfs.set_fs f4 (Mount.vfs s3)) s3).
  destruct (add_device_eq s4 name 0 rft dev F i Hc3) as (a5 & Heq5 & Hc5 & Hdev); [by rewrite <- Hi, <- Hl|done|].
  exists a5. split_and!; [|exact Hc5|done].
  unfold Mount.init_rfs_device. rewrite bind_gets, Ht. destruct (Z.eqb_spec rft 0); [done|].
  change (Z.to_nat RAMDISK_BLOCK_COUNT) with 128%nat. mstep Heq1. cbn [decide]. rewrite bind_gets.
  change (Mount.rfs_device_list (with_pages a1 s)) with (Mount.rfs_device_list s). rewrite Hrl.
  change (first_null (replicate MAX_RAMDISK_COUNT 0)) with (Some 0%nat). cbn iota. mstep Heq2. rewrite bind_modify. mstep Heq3.
  rewrite bind_modify. rewrite (bind_Ret _ _ _ tt s4) by done. rewrite <- Hl. exact Heq5.
Qed.

(** The kernel's file systems: [root] is the root dentry, of the host file
    system with the super block [hsb]; the formatted RAM disk with the super
    block [sb] hangs below it under the name of its device, with the root
    directory [ino]. *)
Record fs_ready s (F : list Z) (hsb root sb ino rd : Z) : Prop := {
  fr_root : Vfs.vfs_root_dentry (Mount.vfs s) = root /\ exists hino v,
      Rfs.dentries (Vfs.fs (Mount.vfs s)) !! root = Some (mk_dentry [SLASH] hino 0 0) /\
      Rfs.vinodes (Vfs.fs (Mount.vfs s)) !! hino = Some v /\ type v = H_DIR /\ v_sb v = hsb;
  fr_ramdisk : cached (Mount.vfs s) root Mount.RAMDISK0 = rd /\
      Rfs.dentries (Vfs.fs (Mount.vfs s)) !! rd = Some (mk_dentry Mount.RAMDISK0 ino root 0);
  fr_mounted : mounted ino (Vfs.fs (Mount.vfs s)) /\ (v_sb <$> Rfs.vinodes (Vfs.fs (Mount.vfs s)) !! ino) = Some sb;
  fr_vinode : Hash.denote (Vfs.vinode_table (Mount.vfs s)) (VfsHash.mk_vkey 0 sb) = ino;
  fr_supers : Mount.vfs_sb_list s = hsb :: sb :: replicate 8 0;
  fr_pages : caches s F;
}.

Definition ramdisk_part : M (Mount.state B H) unit :=
  r <- Mount.register_rfs garbage ;;
  if r <? 0 then panic "fs_init: cannot register rfs."
  else
    ramdisk0 <- Mount.init_rfs_device raw Mount.RAMDISK0 ;;
    Mount.rfs_format_dev uninit ramdisk0 ;;
    Mount.vfs_mount Mount.RAMDISK0 MOUNT_DEFAULT ;;
    ret tt.

(** Formatting touches the contents of the disk only. *)
Lemma format_dev_eq s d name ty :
  length uninit = 9%nat -> Forall int_ok uninit -> Mount.devices s !! d = Some (mk_device name 0 ty) ->
  disk_ok (Vfs.fs (Mount.vfs s)) ->
  exists f, Mount.rfs_format_dev uninit d s = Ret 0 (Mount.set_vfs (Vfs.set_fs f (Mount.vfs s)) s) /\
    same_but_disk (Vfs.fs (Mount.vfs s)) f /\ formatted f.
Proof.
  intros Hl Hu Hd Hok. destruct (format_spec _ uninit Hok Hl Hu) as (f & Heq & Hsame & Hfm). exists f. split; [|done].
  unfold Mount.rfs_format_dev. rewrite (bind_Ret _ _ _ (mk_device name 0 ty) s) by (unfold Mount.get_device; by rewrite Hd).
  apply on_fs_Ret. exact Heq.
Qed.

Lemma ramdisk_part_ok s ft hd hsb hino root rft base rdev iob dev sb ino rd bm k2 n2 k3 n3 F :
  length uninit = 9%nat -> Forall int_ok uninit -> (forall p, length (raw p) = 4096%nat) ->
  host_up s (rft :: descending 128 base ++ rdev :: iob :: dev :: sb :: ino :: rd :: bm :: k2 :: n2 :: k3 :: n3 :: F) ft hd hsb hino root ->
  rft <> ft -> dev <> hd -> ino <> hino -> rd <> root ->
  exists s', ramdisk_part s = Ret tt s' /\ fs_ready s' F hsb root sb ino rd.
Proof.
  intros Hul Hui Hraw [(T1 & T2 & T3) (D1 & D2 & D3) [S1 S2] HR Hc (R1 & R2 & R3) (hv & I1 & I2 & I3) HD HV] Hn1 Hn2 Hn3 Hn4.
  destruct (register_eq s (Mount.rfs_fs_type garbage) rft _ 1 Hc) as (a1 & Heq1 & Hc1 & Hrft).
  { rewrite T1. by apply first_null_second. }
  set (s1 := Mount.set_fs_list _ _) in Heq1.
  destruct (init_rfs_device_eq s1 Mount.RAMDISK0 rft (hd :: replicate 9 0) base rdev iob dev (sb :: ino :: rd :: bm :: k2 :: n2 :: k3 :: n3 :: F) 1)
    as (a2 & Heq2 & Hc2 & Hdev); try done.
  { cbn [Mount.fs_types Mount.fs_list s1 Mount.set_fs_list Mount.set_fs_types]. rewrite T1. cbn. rewrite lookup_insert_ne, T3 by done.
    cbn. rewrite andb_false_r, lookup_insert_eq. cbn. by destruct (Z.eqb_spec rft 0). }
  { by apply first_null_second. }
  set (s2 := Mount.set_dev_list _ _) in Heq2, Hc2.
  destruct (format_dev_eq s2 dev Mount.RAMDISK0 rft Hul Hui (lookup_insert_eq _ _ _)) as (f3 & Heq3 & Hsame & Hfm).
  { by apply raw_disk_ok. }
  destruct Hsame as (_ & _ & Q3 & Q4 & _ & _ & Q7). set (s3 := Mount.set_vfs _ s2) in Heq3.
  assert (pa_rep (Rfs.pages f3) (sb :: ino :: rd :: bm :: k2 :: n2 :: k3 :: n3 :: F)) as Hrep3
    by (rewrite Q7; apply (caches_rep _ _ Hc2)).
  destruct (mount_spec garbage f3 sb ino rd bm _ Hfm Hrep3) as (f4 & Heq4 & Hrep4 & Hmt & _ & Hden4 & Hpg4 & Hvin4 & Hsb4).
  pose proof Hmt as [_ (v & Hv & _ & Hin & _) _ _].
  assert (v_sb v = sb) as Hvsb by (rewrite Hv in Hsb4; by injection Hsb4).
  pose proof (pa_rep_pages _ _ Hrep3) as [_ Hpp]. apply Forall_cons in Hpp as [Hp1 Hpp]. apply Forall_cons in Hpp as [Hp2 Hpp].
  apply Forall_cons in Hpp as [Hp3 _]. apply pa_page_nonnull in Hp1, Hp2, Hp3.
  assert (mountable s3 Mount.RAMDISK0 (mk_device Mount.RAMDISK0 0 rft) f4 sb rd ino v) as Hm.
  { split.
    - exists dev. split_and!; [|done|apply lookup_insert_eq]. cbn. rewrite lookup_insert_ne, D3, lookup_insert_eq by done. cbn.
      rewrite andb_false_r. by destruct (Z.eqb_spec dev 0).
    - exists (Mount.rfs_fs_type garbage). split; [apply lookup_insert_eq|exact Heq4].
    - split; [by rewrite Hden4, lookup_insert_eq|lia].
    - done. }
  destruct (mount_default_eq s3 _ _ _ _ _ _ _ 1 k2 n2 k3 n3 F Hm) as (dt & vt & a5 & Heq5 & Hc5 & Hden5 & Hvin5).
  - cbn. rewrite S1. by apply first_null_second.
  - lia.
  - lia.
  - apply (caches_take _ _ _ _ (Rfs.pages f4) _ Hc2); [done| |by do 4 apply submseteq_cons]. intros q.
    etransitivity; [exact (Hpg4 q)|]. by rewrite Q7.
  - etransitivity; [exact (HV _)|done].
  - cbn. by rewrite R1.
  - etransitivity; [exact (HD _)|]. cbn [Vfs.vfs_root_dentry Mount.vfs s3]. done.
  - change (Vfs.vfs_root_dentry (Mount.vfs s3)) with (Vfs.vfs_root_dentry (Mount.vfs s)) in *. rewrite R1 in *. cbn [dev_name] in *.
    eexists. split.
    + unfold ramdisk_part. mstep Heq1. change (0 <? 0) with false. cbn iota. mstep Heq2. mstep Heq3. mstep Heq5. done.
    + split.
      * split; [done|]. exists hino, hv.
        cbn [Mount.vfs Mount.set_sb_list Mount.set_vfs Vfs.fs Rfs.dentries Rfs.vinodes Rfs.set_pages Rfs.set_dentries].
        rewrite lookup_insert_ne, Hden4, lookup_insert_ne, Hvin4, Q3, Q4 by done. done.
      * split; [|apply lookup_insert_eq]. unfold cached. etransitivity; [exact (Hden5 _)|]. by rewrite hk_refl.
      * split; [by apply mounted_frame|exact Hsb4].
      * etransitivity; [exact (Hvin5 _)|]. rewrite Hin, Hvsb. by rewrite hk_refl.
      * cbn. by rewrite S1.
      * exact Hc5.
Qed.

Lemma fs_init_parts s : Mount.fs_init garbage raw uninit s = bind host_part (fun _ => ramdisk_part) s.
Proof.
  unfold Mount.fs_init, host_part, bind. destruct (Mount.on_vfs _ s) as [r0 s0| | | | |]; try done.
  destruct (Mount.register_hostfs garbage s0) as [r1 s1| | | | |]; try done. destruct (r1 <? 0); [done|].
  by destruct (Mount.init_host_device Mount.HOSTDEV s1).
Qed.

(** The 147 pages that [fs_init] takes, in the order in which the allocator
    hands them out: those of the host file system, the descending blocks of the
    disk, and those of the RAM disk file system. *)
Record boot_pages := mk_boot {
  b_ft : Z; b_hd : Z; b_hsb : Z; b_hino : Z; b_root : Z; b_k1 : Z; b_n1 : Z; b_rft : Z; b_base : Z;
  b_rdev : Z; b_iob : Z; b_dev : Z; b_sb : Z; b_ino : Z; b_rd : Z; b_bm : Z; b_k2 : Z; b_n2 : Z; b_k3 : Z; b_n3 : Z }.
Definition boot_list (b : boot_pages) : list Z :=
  [b_ft b; b_hd b; b_hsb b; b_hino b; b_root b; b_k1 b; b_n1 b; b_rft b] ++ descending 128 (b_base b) ++
  [b_rdev b; b_iob b; b_dev b; b_sb b; b_ino b; b_rd b; b_bm b; b_k2 b; b_n2 b; b_k3 b; b_n3 b].

Lemma fs_init_ok s b F :
  length uninit = 9%nat -> Forall int_ok uninit -> (forall p, length (raw p) = 4096%nat) ->
  nulls s -> pa_rep (pages_of s) (boot_list b ++ F) ->
  exists s', Mount.fs_init garbage raw uninit s = Ret tt s' /\ fs_ready s' F (b_hsb b) (b_root b) (b_sb b) (b_ino b) (b_rd b).
Proof.
  intros Hul Hui Hraw Hn Hrep. pose proof (pa_rep_pages _ _ Hrep) as [Hnd _].
  unfold boot_list in Hrep, Hnd. rewrite <- !app_assoc in Hrep, Hnd. cbn [app] in Hrep, Hnd.
  destruct (host_part_ok s _ _ _ _ _ _ _ _ Hn Hrep) as (s1 & Heq1 & Hup).
  assert (forall (x y : Z) l1 l, NoDup (l1 ++ x :: l) -> y ∈ l -> y <> x) as Hne.
  { intros x y l1 l Hd Hy ->. apply NoDup_app in Hd as (_ & _ & Hd). by apply NoDup_cons in Hd as [Hd _]. }
  destruct (ramdisk_part_ok s1 _ _ _ _ _ _ _ _ _ _ _ _ _ _ _ _ _ _ F Hul Hui Hraw Hup) as (s2 & Heq2 & Hready).
  - eapply (Hne _ _ []); [exact Hnd|]. rewrite !elem_of_cons. tauto.
  - eapply (Hne _ _ [_]); [exact Hnd|]. rewrite !elem_of_cons, elem_of_app, !elem_of_cons. tauto.
  - eapply (Hne _ _ [_; _; _]); [exact Hnd|]. rewrite !elem_of_cons, elem_of_app, !elem_of_cons. tauto.
  - eapply (Hne _ _ [_; _; _; _]); [exact Hnd|]. rewrite !elem_of_cons, elem_of_app, !elem_of_cons. tauto.
  - exists s2. split; [|exact Hready]. rewrite fs_init_parts. mstep Heq1. exact Heq2.
Qed.

(** C7: [fs_init], from any contents of memory, with at least 147 free pages of
    which those for the RAM disk are adjacent and descending: it returns, the
    root is the host file system, the name RAMDISK0 below the root leads through
    the dentry cache to the root directory of the freshly formatted RAM disk,
    which is empty and cached as inode 0 of its super block, and exactly these
    pages are taken. *)
Theorem fs_init_mounts s b F :
  length uninit = 9%nat -> Forall int_ok uninit -> (forall p, length (raw p) = 4096%nat) ->
  nulls s -> pa_rep (pages_of s) (boot_list b ++ F) ->
  exists s', Mount.fs_init garbage raw uninit s = Ret tt s' /\ fs_ready s' F (b_hsb b) (b_root b) (b_sb b) (b_ino b) (b_rd b).
Proof. apply fs_init_ok. Qed.
End mount.

(** ** A concrete start *)
(** 160 pages of zeros, handed out in descending order, and a host with one
    file. *)
Definition demo_boot_pages : list Z := descending 160 0x81000000.
Definition demo_boot : Mount.state ListAlloc.state SimHost.host :=
  Mount.mk
    (Vfs.mk (Rfs.mk [] [] 0 [] ∅ ∅ ∅ ∅ (HostPages.mk (ListAlloc.mk demo_boot_pages demo_boot_pages) demo_files)) [] [] ∅ 0)
    (replicate 10 0) ∅ (replicate 10 0) ∅ (replicate 10 0) (replicate 10 0) ∅.
Definition demo_raw (p : Z) : list Z := replicate 4096 0.
Definition demo_b : boot_pages :=
  let p i := 0x81000000 + 4096 * i in
  mk_boot (p 159) (p 158) (p 157) (p 156) (p 155) (p 154) (p 153) (p 152) (p 24)
    (p 23) (p 22) (p 21) (p 20) (p 19) (p 18) (p 17) (p 16) (p 15) (p 14) (p 13).

Lemma fs_init_mounts_witness : exists s',
  Mount.fs_init demo_garbage demo_raw (replicate 9 0) demo_boot = Ret tt s' /\
  fs_ready s' (descending 13 0x81000000) 0x8109d000 0x8109b000 0x81014000 0x81013000 0x81012000.
Proof.
  apply (fs_init_mounts demo_garbage demo_raw (replicate 9 0) demo_boot demo_b (descending 13 0x81000000)).
  - reflexivity.
  - by apply Forall_replicate.
  - intros p. reflexivity.
  - split_and!; reflexivity.
  - split; [by vm_compute|split; apply (bool_decide_unpack _); by vm_compute].
Defined.

(** The host file system alone, mounted as the root. *)
Definition demo_host : Mount.state ListAlloc.state SimHost.host := run (host_part demo_garbage) demo_boot.
Definition demo_missing : Spike.state SimHost.host :=
  run (Spike.spike_file_open 0x1000 O_RDWR 0) (with_path 0x1000 (Vfs.fs (Mount.vfs demo_host)) (host_path [[98]])).

Lemma demo_host_up : host_up demo_garbage demo_host (descending 153 0x81000000) 0x8109f000 0x8109e000 0x8109d000 0x8109c000 0x8109b000.
Proof.
  destruct (host_part_ok demo_garbage demo_boot 0x8109f000 0x8109e000 0x8109d000 0x8109c000 0x8109b000 0x8109a000 0x81099000
    (descending 153 0x81000000)) as (s' & Heq & Hup).
  - split_and!; reflexivity.
  - split; [by vm_compute|split; apply (bool_decide_unpack _); by vm_compute].
  - unfold demo_host. by rewrite (run_eq _ _ _ _ Heq).
Qed.
#[local] Opaque demo_host.

Lemma hostfs_open_missing_witness : exists s',
  Vfs.vfs_open (Hostfs.mounted_i_ops 0x2000 0x1000 0x3000 0x4000 demo_garbage 0x8109d000) (path_of [[98]]) (Z.lor O_RDWR O_CREAT)
    (Mount.vfs demo_host) = Ret 0 s' /\ cached s' 0x8109b000 [98] = 0x81098000.
Proof.
  pose proof demo_host_up as [_ _ _ _ [Hinv _ _] (R1 & R2 & R3) (v & V1 & V2 & V3) Hden _].
  pose proof (hostfs_open_missing 0x2000 0x1000 0x3000 0x4000 demo_garbage (Mount.vfs demo_host) (mk_dentry [SLASH] 0x8109c000 0 0) v [98]
    (Z.lor O_RDWR O_CREAT) (-2) demo_missing 0x81098000 0x81097000 0x81096000 0x81095000 (descending 149 0x81000000)) as Hopen.
  cbv zeta in Hopen. rewrite R1, V3 in Hopen.
  destruct Hopen as (s' & Heq & Hc & _); [exact R3|done|done|done|exact V1|done| | |by vm_compute| |exact Hinv|by vm_compute|done|].
  - split; [done|]. apply (bool_decide_unpack _). by vm_compute.
  - by repeat constructor.
  - etransitivity; [exact (Hden _)|]. by vm_compute.
  - exists s'. split; [exact Heq|exact Hc].
Defined.
