(* ===== verification/Elf.v ===== *)
(** * [kernel/elf.c], [kernel/elf.h]: the ELF loader

    The loader runs on the state of the kernel and of the host file interface,
    which share the memory.  The structures the host fills ([ehdr], [ph_addr],
    [arg_bug_msg]) are local variables of the kernel; their addresses are
    parameters, and their fields are read back from memory. *)

From stdpp Require Import base gmap list numbers strings.
From Stdlib Require Import ZArith Lia.
From S2P Require Import Prelude Pmm Vmm Bytes ByteMem Process SpikeFile.
Local Open Scope Z_scope.

Definition MAX_CMDLINE_ARGS : Z := 64.
Definition SEGMENT_READABLE : Z := 0x4.
Definition SEGMENT_EXECUTABLE : Z := 0x1.
Definition SEGMENT_WRITABLE : Z := 0x2.
Definition ELF_MAGIC : Z := 0x464C457F.
Definition ELF_PROG_LOAD : Z := 1.
Inductive elf_status := EL_OK | EL_EIO | EL_ENOMEM | EL_NOTELF | EL_ERR.

(** [struct elf_header_t] *)
Record elf_header := mk_header {
  magic : Z; h_type : Z; machine : Z; version : Z; h_entry : Z; phoff : Z; shoff : Z; h_flags : Z;
  ehsize : Z; phentsize : Z; phnum : Z; shentsize : Z; shnum : Z; shstrndx : Z }.
Definition sizeof_header : Z := 64.
Definition read_header (m : memory) (a : Z) : elf_header :=
  mk_header (le_bytes 4 m a) (le_bytes 2 m (a + 16)) (le_bytes 2 m (a + 18)) (le_bytes 4 m (a + 20))
    (le_bytes 8 m (a + 24)) (le_bytes 8 m (a + 32)) (le_bytes 8 m (a + 40)) (le_bytes 4 m (a + 48))
    (le_bytes 2 m (a + 52)) (le_bytes 2 m (a + 54)) (le_bytes 2 m (a + 56)) (le_bytes 2 m (a + 58))
    (le_bytes 2 m (a + 60)) (le_bytes 2 m (a + 62)).

(** [struct elf_prog_header_t] *)
Record elf_prog_header := mk_prog {
  p_type : Z; p_flags : Z; p_off : Z; p_vaddr : Z; p_paddr : Z; p_filesz : Z; p_memsz : Z; p_align : Z }.
Definition sizeof_prog_header : Z := 56.
Definition read_prog_header (m : memory) (a : Z) : elf_prog_header :=
  mk_prog (le_bytes 4 m a) (le_bytes 4 m (a + 4)) (le_bytes 8 m (a + 8)) (le_bytes 8 m (a + 16))
    (le_bytes 8 m (a + 24)) (le_bytes 8 m (a + 32)) (le_bytes 8 m (a + 40)) (le_bytes 8 m (a + 48)).

Module Elf.
Section ops.
Context {H : Type} `{Frontend H}.
(** The addresses of [ctx->ehdr], [ph_addr] and [arg_bug_msg]. *)
Context (ehdr_addr ph_addr arg_addr : Z).

Record state := mk {
  kernel : Process.state;
  host : H; spike_fds : list file_ptr; spike_files : list spike_file; lock : Z }.

Definition set_kernel (k : Process.state) (s : state) : state :=
  mk k (host s) (spike_fds s) (spike_files s) (lock s).
Definition memory_of (s : state) : memory := Process.mem (kernel s).
Definition to_spike (s : state) : Spike.state H :=
  Spike.mk (memory_of s) (host s) (spike_fds s) (spike_files s) (lock s).
Definition of_spike (t : Spike.state H) (s : state) : state :=
  mk (with_pmm (Pmm.set_mem (Spike.mem t) (pmm (kernel s))) (kernel s))
     (Spike.host t) (Spike.spike_fds t) (Spike.spike_files t) (Spike.lock t).
Definition on_spike {A} (m : M (Spike.state H) A) : M state A := zoom to_spike of_spike m.
Definition on_kernel {A} (m : M Process.state A) : M state A := zoom kernel set_kernel m.
Definition on_pmm {A} (m : M Pmm.state A) : M state A := on_kernel (lift m).
Definition update_memory (f : memory -> memory) : M state unit := on_kernel (update_mem f).

(** The pages of a segment: the loop [for (i = 0; i < npages; i++)]. *)
Fixpoint alloc_segment (n : nat) (pagetable va perm : Z) : M state unit :=
  match n with
  | O => ret tt
  | S n =>
      pa <- on_pmm Pmm.alloc_page ;;
      if pa =? 0 then panic "uvmalloc mem alloc falied"
      else
        update_memory (Vmm.zero_page pa) ;;
        on_pmm (Vmm.user_vm_map pagetable va PGSIZE pa perm) ;;
        alloc_segment n pagetable (u64 (va + PGSIZE)) perm
  end.

Definition segment_prot (flags : Z) : Z :=
  let prot := 0 in
  let prot := if has flags SEGMENT_READABLE then Z.lor prot PROT_READ else prot in
  let prot := if has flags SEGMENT_WRITABLE then Z.lor prot PROT_WRITE else prot in
  if has flags SEGMENT_EXECUTABLE then Z.lor prot PROT_EXEC else prot.

Definition elf_alloc_mb (p : process) (elf_va size flags : Z) : M state Z :=
  let segment_start := ROUNDDOWN elf_va PGSIZE in
  let segment_end := ROUNDUP (u64 (elf_va + size)) PGSIZE in
  let npages := u64 (segment_end - segment_start) / PGSIZE in
  alloc_segment (Z.to_nat npages) (pagetable p) segment_start (Vmm.prot_to_type (segment_prot flags) true) ;;
  ret npages.

Definition elf_fpread (f : file_ptr) (dest nb offset : Z) : M state Z :=
  r <- on_spike (Spike.spike_file_pread f dest nb offset) ;; ret (u64 r).

Definition elf_init (f : file_ptr) : M state elf_status :=
  r <- elf_fpread f ehdr_addr sizeof_header 0 ;;
  if negb (r =? sizeof_header) then ret EL_EIO
  else
    h <- gets (fun s => read_header (memory_of s) ehdr_addr) ;;
    ret (if negb (magic h =? ELF_MAGIC) then EL_NOTELF else EL_OK).

(** [while (loaded < ph_addr.filesz)] *)
Fixpoint load_pages (fuel : nat) (f : file_ptr) (pagetable : Z) (ph : elf_prog_header) (loaded : Z) : M state elf_status :=
  if loaded <? p_filesz ph then
    match fuel with
    | O => fun _ => NoFuel
    | S fuel =>
        let va := u64 (p_vaddr ph + loaded) in
        let page_va := ROUNDDOWN va PGSIZE in
        let page_offset := va - page_va in
        pa <- on_pmm (Vmm.lookup_pa pagetable page_va) ;;
        let bytes := MIN (p_filesz ph - loaded) (PGSIZE - page_offset) in
        if pa =? 0 then ret EL_EIO
        else
          r <- elf_fpread f (pa + page_offset) bytes (u64 (p_off ph + loaded)) ;;
          if negb (r =? bytes) then ret EL_EIO
          else load_pages fuel f pagetable ph (loaded + bytes)
    end
  else ret EL_OK.
Definition page_fuel (ph : elf_prog_header) : nat := Z.to_nat (p_filesz ph / PGSIZE + 2).

(** The search for the first unused mapped region. *)
Fixpoint last_region (n : nat) (m : memory) (mapped_info j : Z) : Z :=
  match n with
  | O => j
  | S n => if ld64 m (mr_va mapped_info j) =? 0 then j else last_region n m mapped_info (j + 1)
  end.

Definition segment_type (flags : Z) : option Z :=
  if flags =? Z.lor SEGMENT_READABLE SEGMENT_EXECUTABLE then Some CODE_SEGMENT
  else if flags =? Z.lor SEGMENT_READABLE SEGMENT_WRITABLE then Some DATA_SEGMENT
  else None.

(** One iteration of [elf_load] on a loadable segment. *)
Definition load_segment (f : file_ptr) (p : nat) (ph : elf_prog_header) : M state elf_status :=
  if p_memsz ph <? p_filesz ph then ret EL_ERR
  else if u64 (p_vaddr ph + p_memsz ph) <? p_vaddr ph then ret EL_ERR
  else
    proc <- on_kernel (get_proc p) ;;
    npages <- elf_alloc_mb proc (p_vaddr ph) (p_memsz ph) (p_flags ph) ;;
    r <- load_pages (page_fuel ph) f (pagetable proc) ph 0 ;;
    match r with
    | EL_OK =>
        j <- gets (fun s => last_region (Z.to_nat (PGSIZE / 16)) (memory_of s) (mapped_info proc) 0) ;;
        match segment_type (p_flags ph) with
        | Some seg =>
            on_kernel (Process.register_region (mapped_info proc) j (p_vaddr ph) npages seg) ;;
            on_kernel (upd_proc p (fun q => set_regions (total_mapped_region q + 1) q)) ;;
            ret EL_OK
        | None => panic "unknown program segment encountered"
        end
    | _ => ret r
    end.

(** The loop over the program headers; [off] is an [int]. *)
Fixpoint load_headers (n : nat) (f : file_ptr) (p : nat) (off : Z) : M state elf_status :=
  match n with
  | O => ret EL_OK
  | S n =>
      r <- elf_fpread f ph_addr sizeof_prog_header (u64 off) ;;
      if negb (r =? sizeof_prog_header) then ret EL_EIO
      else
        ph <- gets (fun s => read_prog_header (memory_of s) ph_addr) ;;
        if negb (p_type ph =? ELF_PROG_LOAD) then load_headers n f p (i32 (off + sizeof_prog_header))
        else
          r <- load_segment f p ph ;;
          match r with
          | EL_OK => load_headers n f p (i32 (off + sizeof_prog_header))
          | _ => ret r
          end
  end.

Definition elf_load (f : file_ptr) (p : nat) : M state elf_status :=
  h <- gets (fun s => read_header (memory_of s) ehdr_addr) ;;
  load_headers (Z.to_nat (phnum h)) f p (i32 (phoff h)).

(** [for (i = 0; arg + i < pk_argc; i++) argv[i] = pk_argv[arg + i]] on the words
    of [arg_bug_msg]. *)
Fixpoint shift_args (n : nat) (i : Z) : M state unit :=
  match n with
  | O => ret tt
  | S n =>
      if MAX_CMDLINE_ARGS <=? 2 + i then fault "arg_bug_msg"
      else
        update_memory (fun m => st64 m (arg_addr + 8 * i) (ld64 m (arg_addr + 8 * (2 + i)))) ;;
        shift_args n (i + 1)
  end.

Definition parse_args : M state Z :=
  r <- on_spike (Spike.call HTIFSYS_getmainvars arg_addr (8 * MAX_CMDLINE_ARGS) 0 0 0) ;;
  if negb (r =? 0) then panic "assertion failed"
  else
    pk_argc <- gets (fun s => ld64 (memory_of s) arg_addr) ;;
    shift_args (Z.to_nat (pk_argc - 1)) 0 ;;
    ret (u64 (pk_argc - 1)).

Definition load_bincode_from_host_elf (p : nat) : M state unit :=
  argc <- parse_args ;;
  if argc =? 0 then panic "You need to specify the application program!"
  else
    name <- gets (fun s => ld64 (memory_of s) arg_addr) ;;
    f <- on_spike (Spike.spike_file_open name 0 0) ;;
    if IS_ERR_VALUE f then panic "Fail on openning the input application program."
    else
      r <- elf_init f ;;
      match r with
      | EL_OK =>
          r <- elf_load f p ;;
          match r with
          | EL_OK =>
              proc <- on_kernel (get_proc p) ;;
              h <- gets (fun s => read_header (memory_of s) ehdr_addr) ;;
              on_kernel (store (trapframe proc + tf_epc) (h_entry h)) ;;
              on_spike (Spike.spike_file_close f) ;;
              ret tt
          | _ => panic "Fail on loading elf."
          end
      | _ => panic "fail to init elfloader."
      end.
End ops.
Arguments state H : clear implicits.
End Elf.
