(* ===== verification/ElfSpec.v ===== *)
(** * Properties of the ELF loader

    [HostFiles] states what the loader relies on from the host: reading an open
    file at an offset delivers its bytes.  With it, loading a segment puts the
    bytes of the file, and zeros after them, at the virtual addresses of the
    segment. *)

From stdpp Require Import base gmap list numbers strings.
From Stdlib Require Import ZArith Lia.
From S2P Require Import Prelude Pmm Vmm VmmSpec Bytes ByteMem UserMem Process ProcessSpec SpikeFile Elf.
Local Open Scope Z_scope.

(** The bytes a read of [n] bytes at [off] delivers. *)
Definition file_bytes (c : list Z) (off n : Z) : list Z := take (Z.to_nat n) (drop (Z.to_nat off) c).

(** ** What the host promises about [pread] *)
Class HostFiles (H : Type) `{Frontend H} := {
  contents : H -> Z -> option (list Z);
  contents_bytes : forall h fd c, contents h fd = Some c -> Forall (fun b => 0 <= b < 256) c;
  pread_ok : forall h fd c buf n off m, contents h fd = Some c -> 0 <= n -> 0 <= off ->
    let bs := file_bytes c off n in
    exists m', frontend [HTIFSYS_pread; fd; buf; n; off; 0; 0; 0] m h = (Z.of_nat (length bs), m', h) /\
      (forall a, ld8 m' a = if (buf <=? a) && (a <? buf + Z.of_nat (length bs))
                            then default 0 (bs !! Z.to_nat (a - buf)) else ld8 m a) /\
      (forall a, a mod 8 <> 0 \/ a + 8 <= buf \/ buf + Z.of_nat (length bs) <= a -> m' !! a = m !! a);
}.

Lemma length_file_bytes c off n :
  0 <= off -> 0 <= n -> off + n <= Z.of_nat (length c) -> Z.of_nat (length (file_bytes c off n)) = n.
Proof. intros. unfold file_bytes. rewrite length_take, length_drop. lia. Qed.

Lemma file_bytes_lookup c off n k :
  0 <= off -> 0 <= k < n -> file_bytes c off n !! Z.to_nat k = c !! Z.to_nat (off + k).
Proof.
  intros. unfold file_bytes. rewrite lookup_take_lt, lookup_drop by lia. f_equal. lia.
Qed.

(** ** Memory of the loader's state *)
Section state.
Context {H : Type} `{Frontend H}.
Implicit Types s : Elf.state H.

Definition vm s : Pmm.state := pmm (Elf.kernel s).
Definition with_memory (m : memory) s : Elf.state H :=
  Elf.set_kernel (with_pmm (Pmm.set_mem m (vm s)) (Elf.kernel s)) s.

Lemma with_memory_with_memory m m' s : with_memory m (with_memory m' s) = with_memory m s.
Proof. done. Qed.
Lemma memory_of_with_memory m s : Elf.memory_of (with_memory m s) = m.
Proof. done. Qed.

Lemma on_pmm_Ret {A} (f : M Pmm.state A) s r v : f (vm s) = Ret r v ->
  Elf.on_pmm f s = Ret r (Elf.set_kernel (with_pmm v (Elf.kernel s)) s).
Proof. intros E. unfold Elf.on_pmm, Elf.on_kernel, lift, zoom. fold (vm s). by rewrite E. Qed.

Lemma elf_on_kernel_Ret {A} (f : M Process.state A) s r k : f (Elf.kernel s) = Ret r k ->
  Elf.on_kernel f s = Ret r (Elf.set_kernel k s).
Proof. intros E. unfold Elf.on_kernel, zoom. by rewrite E. Qed.

(** Reading from an open host file. *)
Lemma elf_fpread_eq `{!HostFiles H} s i fd rc c dest nb off :
  Elf.lock s = 0 -> Elf.spike_files s !! i = Some (mk_spike_file fd rc) -> contents (Elf.host s) fd = Some c ->
  0 <= off -> 0 <= nb < 2 ^ 64 -> off + nb <= Z.of_nat (length c) ->
  exists m', Elf.elf_fpread (FPtr i) dest nb off s = Ret nb (with_memory m' s) /\
    (forall a, ld8 m' a = if (dest <=? a) && (a <? dest + nb)
       then default 0 (c !! Z.to_nat (off + (a - dest))) else ld8 (Elf.memory_of s) a) /\
    (forall a, a mod 8 <> 0 \/ a + 8 <= dest \/ dest + nb <= a -> m' !! a = Elf.memory_of s !! a).
Proof.
  intros Hl Hi Hc Hoff Hnb Hlen.
  destruct (pread_ok (Elf.host s) fd c dest nb off (Elf.memory_of s) Hc ltac:(lia) Hoff) as (m' & Hcall & Hb & Hw).
  rewrite length_file_bytes in * by lia.
  exists m'. split_and!; [|intros a; rewrite Hb|done].
  - unfold Elf.elf_fpread, bind, Elf.on_spike, zoom, Spike.spike_file_pread, Spike.deref, bind, ret.
    rewrite (spike_get_file_eq (Elf.to_spike s) i (mk_spike_file fd rc) Hi). cbn [kfd].
    rewrite (call_eq (Elf.to_spike s) _ _ _ _ _ _ nb m' (Elf.host s) Hl Hcall).
    rewrite u64_small by lia. f_equal. destruct s as [k h fds fs l]. simpl in *. by subst l.
  - zcases; try done. rewrite file_bytes_lookup by lia. done.
Qed.
End state.

(** ** The pages of a segment *)
(** The pages [P] back the virtual pages from [first] on. *)
Record seg_mapped (root : Z) (m : memory) (F : list Z) (first : Z) (P : list Z) (perm : Z) : Prop := {
  sm_nodup : NoDup P;
  sm_page : forall k pa, P !! k = Some pa ->
    pa mod PGSIZE = 0 /\ 0 < pa < 2 ^ 64 /\ (pa ∉ F) /\ ~ is_table root m pa /\
    xlate root m (first + Z.of_nat k * PGSIZE) = Some (entry pa perm);
}.

(** The physical address of a virtual address of the segment. *)
Definition seg_addr (first : Z) (P : list Z) (va : Z) : Z :=
  default 0 (P !! Z.to_nat ((va - first) / PGSIZE)) + va mod PGSIZE.

Lemma seg_addr_page first P k pa o :
  first mod PGSIZE = 0 -> P !! k = Some pa -> 0 <= o < PGSIZE ->
  seg_addr first P (first + Z.of_nat k * PGSIZE + o) = pa + o.
Proof.
  intros Hf Hk Ho. unfold seg_addr.
  replace ((first + Z.of_nat k * PGSIZE + o - first) / PGSIZE) with (Z.of_nat k) by (unfold PGSIZE in *; zlia).
  rewrite Nat2Z.id, Hk. simpl. f_equal. unfold PGSIZE in *. zlia.
Qed.

(** Virtual addresses of the segment split into page and offset. *)
Lemma seg_split first (P : list Z) va :
  first mod PGSIZE = 0 -> first <= va < first + Z.of_nat (length P) * PGSIZE ->
  exists k pa o, P !! k = Some pa /\ 0 <= o < PGSIZE /\ va = first + Z.of_nat k * PGSIZE + o /\ o = va mod PGSIZE.
Proof.
  intros Hf Hva. destruct (lookup_lt_is_Some_2 P (Z.to_nat ((va - first) / PGSIZE))) as [pa Hpa].
  { unfold PGSIZE in *. zlia. }
  exists (Z.to_nat ((va - first) / PGSIZE)), pa, (va mod PGSIZE). split_and!; try done; unfold PGSIZE in *; zlia.
Qed.

(** A change inside a page of the segment keeps tables, free pages and
    translations. *)
Lemma seg_frame root s F first P perm k pa m' :
  vm_inv root s F -> seg_mapped root (Pmm.mem s) F first P perm -> P !! k = Some pa ->
  (forall a, ROUNDDOWN a PGSIZE <> pa -> m' !! a = Pmm.mem s !! a) ->
  vm_inv root (Pmm.set_mem m' s) F /\ seg_mapped root m' F first P perm /\
  (forall va, xlate root m' va = xlate root (Pmm.mem s) va).
Proof.
  intros Hinv [Hnd Hp] Hk Hm. destruct (Hp k pa Hk) as (_ & _ & Hni & Hnt & _).
  destruct (vm_inv_frame root s F m' Hinv) as (Hinv' & Htab & Hx).
  { intros a Ha. unfold ld64. rewrite Hm; [done|]. intros E. rewrite E in Ha. by destruct Ha. }
  split_and!; [done| |done]. split; [done|]. intros k' pa' Hk'. destruct (Hp k' pa' Hk') as (? & ? & ? & Hnt' & ?).
  split_and!; try done; try lia; [|by rewrite Hx].
  intros (va & d & Hd & Ht). apply Hnt'. exists va, d. split; [done|]. by rewrite <- Htab.
Qed.

Lemma has_lor a b mask : has (Z.lor a b) mask = has a mask || has b mask.
Proof.
  unfold has. rewrite Z.land_lor_distr_l. set (x := Z.land a mask). set (y := Z.land b mask).
  destruct (Z.eqb_spec (Z.lor x y) 0) as [E|E].
  - apply Z.lor_eq_0_iff in E as [-> ->]. done.
  - destruct (Z.eqb_spec x 0) as [Ex|], (Z.eqb_spec y 0) as [Ey|]; try done. by rewrite Ex, Ey in E.
Qed.

Lemma entry_readable pa perm : has perm PTE_R = true -> has (entry pa perm) PTE_R = true.
Proof. intros Hp. unfold entry. by rewrite !has_lor, Hp, orb_true_r. Qed.

(** Where the segment is looked up, and what it finds. *)
Lemma lookup_seg root s F first P perm va :
  vm_inv root s F -> seg_mapped root (Pmm.mem s) F first P perm ->
  0 <= perm < 2 ^ 10 -> has perm PTE_R = true -> first mod PGSIZE = 0 -> 0 <= first ->
  first + Z.of_nat (length P) * PGSIZE <= MAXVA -> first <= va < first + Z.of_nat (length P) * PGSIZE ->
  exists k pa, P !! k = Some pa /\ ROUNDDOWN va PGSIZE = first + Z.of_nat k * PGSIZE /\
    Vmm.lookup_pa root (ROUNDDOWN va PGSIZE) s = Ret pa s.
Proof.
  intros Hinv [_ Hp] Hperm HR Hf H0 Hmax Hva. destruct (seg_split first P va Hf Hva) as (k & pa & o & Hk & Ho & E & _).
  destruct (Hp k pa Hk) as (Hpa & ? & _ & _ & Hx).
  assert (ROUNDDOWN va PGSIZE = first + Z.of_nat k * PGSIZE) as Er by (unfold ROUNDDOWN, PGSIZE in *; zlia).
  exists k, pa. split_and!; try done. rewrite (lookup_pa_eq root _ s F Hinv), Er.
  destruct (Z.leb_spec MAXVA (first + Z.of_nat k * PGSIZE)); [lia|]. rewrite Hx, entry_readable by done. simpl.
  rewrite entry_pa by (done || lia). f_equal. clear -Hpa. unfold ROUNDDOWN, PGSIZE in *. zlia.
Qed.

Section load.
Context {H : Type} `{!Frontend H} `{!HostFiles H}.
Implicit Types s : Elf.state H.
Context (root first : Z) (P F : list Z) (perm : Z) (ph : elf_prog_header) (i : nat) (fd rc : Z) (c : list Z).
Context (Hperm : 0 <= perm < 2 ^ 10) (HR : has perm PTE_R = true).
Context (Hfirst : first mod PGSIZE = 0) (H0 : 0 <= first <= p_vaddr ph).
Context (Hmax : first + Z.of_nat (length P) * PGSIZE <= MAXVA).
Context (Hfit : p_vaddr ph + p_filesz ph <= first + Z.of_nat (length P) * PGSIZE).
Context (Hoff : 0 <= p_off ph) (Hc : p_off ph + p_filesz ph <= Z.of_nat (length c)) (Hc64 : Z.of_nat (length c) < 2 ^ 64).

(** The open file the segment is read from. *)
Definition file_open s : Prop :=
  Elf.lock s = 0 /\ Elf.spike_files s !! i = Some (mk_spike_file fd rc) /\ contents (Elf.host s) fd = Some c.

(** One round of the loop: the bytes of one page. *)
Lemma load_page_step s loaded k pa :
  vm_inv root (vm s) F -> seg_mapped root (Elf.memory_of s) F first P perm -> file_open s ->
  0 <= loaded < p_filesz ph -> P !! k = Some pa ->
  let va := p_vaddr ph + loaded in
  ROUNDDOWN va PGSIZE = first + Z.of_nat k * PGSIZE ->
  let bytes := MIN (p_filesz ph - loaded) (PGSIZE - (va - ROUNDDOWN va PGSIZE)) in
  exists m', Elf.elf_fpread (FPtr i) (pa + (va - ROUNDDOWN va PGSIZE)) bytes (p_off ph + loaded) s = Ret bytes (with_memory m' s) /\
    vm_inv root (Pmm.set_mem m' (vm s)) F /\ seg_mapped root m' F first P perm /\
    (forall x, xlate root m' x = xlate root (Elf.memory_of s) x) /\
    (forall a, ROUNDDOWN a PGSIZE ∉ P -> m' !! a = Elf.memory_of s !! a) /\
    (forall x, first <= x < first + Z.of_nat (length P) * PGSIZE ->
       ld8 m' (seg_addr first P x) = if (va <=? x) && (x <? va + bytes)
         then default 0 (c !! Z.to_nat (p_off ph + (x - p_vaddr ph))) else ld8 (Elf.memory_of s) (seg_addr first P x)).
Proof.
  intros Hinv Hseg (Hl & Hi & Hcont) Hloaded Hk va Hva bytes. pose proof Hseg as [Hnd Hp]. destruct (Hp k pa Hk) as (Hpa & Hpa0 & _).
  assert (0 < bytes /\ bytes <= p_filesz ph - loaded /\ va mod PGSIZE + bytes <= PGSIZE /\ va - ROUNDDOWN va PGSIZE = va mod PGSIZE)
    as (Hb0 & Hb1 & Hb2 & Ho).
  { subst bytes. unfold MIN, ROUNDDOWN, PGSIZE. destruct (Z.ltb_spec (p_filesz ph - loaded) (4096 - (va - va / 4096 * 4096))); zlia. }
  clearbody bytes. rewrite Ho.
  destruct (elf_fpread_eq s i fd rc c (pa + va mod PGSIZE) bytes (p_off ph + loaded)) as (m' & E & Hbytes & Hwords); try done; try lia.
  assert (forall a, ROUNDDOWN a PGSIZE <> pa -> m' !! a = Elf.memory_of s !! a) as Hframe.
  { intros a Ha. apply Hwords. destruct (decide (a mod 8 = 0)) as [Ha8|]; [right|by left].
    clear -Ha Ha8 Hpa Hb2 Hb0. unfold ROUNDDOWN, PGSIZE in *. zlia. }
  destruct (seg_frame root (vm s) F first P perm k pa m' Hinv Hseg Hk Hframe) as (Hinv' & Hseg' & Hx).
  exists m'. split_and!; try done.
  - intros a Ha. apply Hframe. intros E'. apply Ha. rewrite E'. by eapply list_elem_of_lookup_2.
  - intros x Hx'. rewrite Hbytes. destruct (seg_split first P x Hfirst Hx') as (k' & pa' & o & Hk' & Ho' & Ex & Eo).
    rewrite Ex, (seg_addr_page first P k' pa' o Hfirst Hk' Ho').
    assert (va = first + Z.of_nat k * PGSIZE + va mod PGSIZE) as Eva by lia.
    destruct (Hp k' pa' Hk') as (Hpa' & _). destruct (decide (k = k')) as [<-|Hne].
    + assert (pa' = pa) as -> by congruence. zcases; try done. do 2 f_equal. f_equal. lia.
    + assert (pa <> pa') as Hpp by (intros ->; apply Hne; by eapply NoDup_lookup).
      assert (~ (pa + va mod PGSIZE <= pa' + o < pa + va mod PGSIZE + bytes)) as Hn1.
      { clear -Hpp Hpa Hpa' Hb2 Ho'. unfold PGSIZE in *. zlia. }
      assert (~ (va <= first + Z.of_nat k' * PGSIZE + o < va + bytes)) as Hn2.
      { rewrite Eva. clear -Hne Hb2 Ho'. unfold PGSIZE in *. zlia. }
      clear Eva Ho. zcases; done.
Qed.

Lemma with_memory_same s : with_memory (Elf.memory_of s) s = s.
Proof. by destruct s as [[[] ? ? ? ? ? ?] ? ? ? ?]. Qed.

(** What loading the bytes from [loaded] on does to the memory. *)
Definition loaded_from s loaded (m' : memory) : Prop :=
  vm_inv root (Pmm.set_mem m' (vm s)) F /\ seg_mapped root m' F first P perm /\
  (forall x, xlate root m' x = xlate root (Elf.memory_of s) x) /\
  (forall a, ROUNDDOWN a PGSIZE ∉ P -> m' !! a = Elf.memory_of s !! a) /\
  (forall x, first <= x < first + Z.of_nat (length P) * PGSIZE ->
     ld8 m' (seg_addr first P x) = if (p_vaddr ph + loaded <=? x) && (x <? p_vaddr ph + p_filesz ph)
       then default 0 (c !! Z.to_nat (p_off ph + (x - p_vaddr ph))) else ld8 (Elf.memory_of s) (seg_addr first P x)).

Lemma load_done s loaded :
  vm_inv root (vm s) F -> seg_mapped root (Elf.memory_of s) F first P perm -> p_filesz ph <= loaded ->
  exists m', ret EL_OK s = Ret EL_OK (with_memory m' s) /\ loaded_from s loaded m'.
Proof.
  intros Hinv Hseg Hge. exists (Elf.memory_of s). rewrite with_memory_same. split; [done|]. split_and!; try done.
  intros x Hx. zcases; done.
Qed.

Lemma load_pages_ok fuel : forall s loaded,
  vm_inv root (vm s) F -> seg_mapped root (Elf.memory_of s) F first P perm -> file_open s ->
  0 <= loaded <= p_filesz ph ->
  (loaded < p_filesz ph -> p_filesz ph - loaded + (p_vaddr ph + loaded) mod PGSIZE <= Z.of_nat fuel * PGSIZE) ->
  exists m', Elf.load_pages fuel (FPtr i) root ph loaded s = Ret EL_OK (with_memory m' s) /\ loaded_from s loaded m'.
Proof.
  assert (MAXVA = 2 ^ 38) as HM by done.
  induction fuel as [|fuel IH]; intros s loaded Hinv Hseg Hopen Hloaded Hfuel; cbn [Elf.load_pages];
    destruct (Z.ltb_spec loaded (p_filesz ph)) as [Hlt|Hge].
  - specialize (Hfuel Hlt). unfold PGSIZE in Hfuel. zlia.
  - by apply load_done.
  - rewrite (u64_small (p_vaddr ph + loaded)), (u64_small (p_off ph + loaded)) by lia.
    set (va := p_vaddr ph + loaded) in *.
    destruct (lookup_seg root (vm s) F first P perm va) as (k & pa & Hk & Er & El); try done; try lia.
    destruct (load_page_step s loaded k pa Hinv Hseg Hopen ltac:(lia) Hk Er) as (m1 & E1 & Hinv1 & Hseg1 & Hx1 & Hf1 & Hb1).
    fold va in E1, Hb1. set (bytes := MIN (p_filesz ph - loaded) (PGSIZE - (va - ROUNDDOWN va PGSIZE))) in *.
    assert (0 < bytes /\ bytes <= p_filesz ph - loaded /\ (bytes = p_filesz ph - loaded \/ bytes = PGSIZE - va mod PGSIZE))
      as (Hb0 & Hble & Hbeq).
    { subst bytes. unfold MIN, ROUNDDOWN, PGSIZE. destruct (Z.ltb_spec (p_filesz ph - loaded) (4096 - (va - va / 4096 * 4096))); zlia. }
    clearbody bytes. destruct Hseg as [Hnd Hp]. destruct (Hp k pa Hk) as (_ & Hpa0 & _).
    destruct (IH (with_memory m1 s) (loaded + bytes)) as (m' & E' & Hinv' & Hseg' & Hx' & Hf' & Hb'); try done; try lia.
    + intros Hlt'. specialize (Hfuel Hlt). destruct Hbeq as [->|Hbeq]; [lia|].
      replace (p_vaddr ph + (loaded + bytes)) with (va + bytes) by (unfold va; lia).
      replace ((va + bytes) mod PGSIZE) with 0; [|rewrite Hbeq; clear; unfold PGSIZE; zlia].
      fold va in Hfuel. unfold PGSIZE in *. lia.
    + exists m'. split; [|split_and!; [done|done|..]].
      * mstep (on_pmm_Ret _ s _ _ El).
        replace (Elf.set_kernel (with_pmm (vm s) (Elf.kernel s)) s) with s by (by destruct s as [[] ? ? ? ?]).
        destruct (Z.eqb_spec pa 0); [lia|]. mstep E1. rewrite Z.eqb_refl. exact E'.
      * intros x. by rewrite Hx', memory_of_with_memory.
      * intros a Ha. by rewrite Hf', memory_of_with_memory, Hf1.
      * intros x Hx. rewrite Hb', memory_of_with_memory, Hb1 by done. zcases; done.
  - by apply load_done.
Qed.
End load.

(** ** Allocation of a segment *)
Section alloc.
Context {H : Type} `{!Frontend H}.
Implicit Types s : Elf.state H.
Context (root perm : Z).

Lemma ld8_zero_page p m o : p mod PGSIZE = 0 -> 0 <= o < PGSIZE -> ld8 (Vmm.zero_page p m) (p + o) = 0.
Proof.
  intros Hp Ho. unfold ld8. assert (wbase (p + o) = p + 8 * (o / 8)) as -> by (unfold wbase, PGSIZE in *; zlia).
  rewrite ld64_zero_page_in by (unfold PGSIZE in *; zlia). unfold byte_at. by rewrite Zdiv_0_l.
Qed.

(** One page: taken, cleared and mapped. *)
Lemma alloc_page_step s p F va :
  vm_inv root (vm s) (p :: F) -> (2 <= length F)%nat -> va mod PGSIZE = 0 -> 0 <= va -> va + PGSIZE <= MAXVA ->
  Pmm.free_mem_end_addr (vm s) + PGSIZE < 2 ^ 64 -> xlate root (Elf.memory_of s) va = None ->
  exists s1 v2 used F2,
    Elf.on_pmm Pmm.alloc_page s = Ret p s1 /\ p <> 0 /\
    bind (Elf.update_memory (Vmm.zero_page p)) (fun _ => Elf.on_pmm (Vmm.user_vm_map root va PGSIZE p perm)) s1
      = Ret tt (Elf.set_kernel (with_pmm v2 (Elf.kernel s)) s) /\
    vm_inv root v2 F2 /\ F = used ++ F2 /\ (length used <= 2)%nat /\
    Pmm.free_mem_end_addr v2 = Pmm.free_mem_end_addr (vm s) /\ Pmm.free_mem_start_addr v2 = Pmm.free_mem_start_addr (vm s) /\
    p mod PGSIZE = 0 /\ 0 < p < 2 ^ 64 /\ (p ∉ F) /\ ~ is_table root (Pmm.mem v2) p /\
    (forall o, 0 <= o < PGSIZE -> ld8 (Pmm.mem v2) (p + o) = 0) /\
    (forall q, is_table root (Pmm.mem v2) q -> is_table root (Elf.memory_of s) q \/ q ∈ used) /\
    (forall a, ~ is_table root (Elf.memory_of s) (ROUNDDOWN a PGSIZE) -> ROUNDDOWN a PGSIZE ∉ p :: F ->
       ld64 (Pmm.mem v2) a = ld64 (Elf.memory_of s) a) /\
    (forall x, 0 <= x < MAXVA -> xlate root (Pmm.mem v2) x =
       if decide (same_page va x) then Some (entry p perm) else xlate root (Elf.memory_of s) x).
Proof.
  intros Hinv HF Ha Hva Hmax Hend Hx.
  destruct (vm_inv_alloc root (vm s) p F Hinv) as (v1 & Ealloc & Hinv1 & Hm1 & Hst1 & Hend1 & Hni & Hnt & [Hp Hpr] & Hp0).
  set (mz := Vmm.zero_page p (Pmm.mem v1)).
  assert (forall a, ROUNDDOWN a PGSIZE <> p -> ld64 mz a = ld64 (Pmm.mem v1) a) as Hz by (intros a Ha'; by apply ld64_zero_page_out).
  destruct (vm_inv_frame root v1 F mz Hinv1) as (Hinvz & Htabz & Hxz).
  { intros a Ha'. apply Hz. intros E. rewrite E, Hm1 in Ha'. by destruct Ha'. }
  assert (Hntz : forall q, is_table root mz q <-> is_table root (Elf.memory_of s) q).
  { intros q. unfold is_table. change (Elf.memory_of s) with (Pmm.mem (vm s)). rewrite <- Hm1.
    split; intros (va' & d & Hd & Ht); exists va', d; (split; [done|]); by rewrite Htabz in *. }
  destruct (user_vm_map_page root va p perm (Pmm.set_mem mz v1) F) as ([] & v2 & Emap & used & F2 & Hinv2 & Hev & Hlen & Hx2);
    try done; try lia.
  { simpl. rewrite Hxz, Hm1. exact Hx. }
  destruct Hev as (-> & Hst2 & Hend2 & Htab2 & Hfr2). simpl in Htab2, Hfr2, Hst2, Hend2.
  exists (Elf.set_kernel (with_pmm v1 (Elf.kernel s)) s), v2, used, F2.
  assert (~ is_table root mz p) as Hntp by (by rewrite Hntz).
  assert (p < 2 ^ 64) by (unfold PGSIZE in Hend; lia).
  split_and!; try done; try lia.
  - by apply on_pmm_Ret.
  - unfold Elf.update_memory, Elf.on_kernel, update_mem, modify, bind, zoom. simpl.
    rewrite (on_pmm_Ret _ _ tt v2); [done|]. exact Emap.
  - intros Hp2. destruct (Htab2 p Hp2) as [|Hu]; [done|]. apply Hni, elem_of_app. by left.
  - intros o Ho. unfold ld8. rewrite Hfr2.
    + fold (ld8 mz (p + o)). by apply ld8_zero_page.
    + replace (ROUNDDOWN (wbase (p + o)) PGSIZE) with p; [done|]. clear -Hp Ho. unfold ROUNDDOWN, wbase, PGSIZE in *. zlia.
    + replace (ROUNDDOWN (wbase (p + o)) PGSIZE) with p; [done|]. clear -Hp Ho. unfold ROUNDDOWN, wbase, PGSIZE in *. zlia.
  - intros q Hq. destruct (Htab2 q Hq) as [Hq'|]; [left; by apply Hntz|by right].
  - intros a Hnt' Hni'. apply not_elem_of_cons in Hni' as [Hne Hni']. rewrite Hfr2; [|by rewrite Hntz|done].
    rewrite Hz by done. by rewrite Hm1.
  - intros x Hx'. rewrite Hx2 by done. case_decide; [done|]. simpl. by rewrite Hxz, Hm1.
Qed.

(** What the allocation of [n] pages at [va] does. *)
Record segment_allocated s (F : list Z) (va : Z) (n : nat) (v' : Pmm.state) (F' P : list Z) : Prop := {
  sa_inv : vm_inv root v' F';
  sa_seg : seg_mapped root (Pmm.mem v') F' va P perm;
  sa_len : length P = n;
  sa_from : forall q, q ∈ P \/ q ∈ F' -> q ∈ F;
  sa_room : (length F <= length F' + 3 * n)%nat;
  sa_bounds : Pmm.free_mem_start_addr v' = Pmm.free_mem_start_addr (vm s) /\ Pmm.free_mem_end_addr v' = Pmm.free_mem_end_addr (vm s);
  sa_zero : forall k pa o, P !! k = Some pa -> 0 <= o < PGSIZE -> ld8 (Pmm.mem v') (pa + o) = 0;
  sa_table : forall q, is_table root (Pmm.mem v') q -> is_table root (Elf.memory_of s) q \/ q ∈ F;
  sa_frame : forall a, ~ is_table root (Elf.memory_of s) (ROUNDDOWN a PGSIZE) -> ROUNDDOWN a PGSIZE ∉ F ->
    ld64 (Pmm.mem v') a = ld64 (Elf.memory_of s) a;
  sa_xlate : forall x, 0 <= x < MAXVA -> ~ (va <= x < va + Z.of_nat n * PGSIZE) ->
    xlate root (Pmm.mem v') x = xlate root (Elf.memory_of s) x;
}.

Lemma alloc_segment_ok n : forall s F va,
  vm_inv root (vm s) F -> (3 * n <= length F)%nat -> va mod PGSIZE = 0 -> 0 <= va -> va + Z.of_nat n * PGSIZE <= MAXVA ->
  Pmm.free_mem_end_addr (vm s) + PGSIZE < 2 ^ 64 ->
  (forall x, va <= x < va + Z.of_nat n * PGSIZE -> xlate root (Elf.memory_of s) x = None) ->
  exists v' F' P, Elf.alloc_segment n root va perm s = Ret tt (Elf.set_kernel (with_pmm v' (Elf.kernel s)) s) /\
    segment_allocated s F va n v' F' P.
Proof.
  assert (MAXVA = 2 ^ 38) as HM by done.
  induction n as [|n IH]; intros s F va Hinv HF Ha Hva Hmax Hend Hx.
  - exists (vm s), F, []. split; [by destruct s as [[] ? ? ? ?]|].
    split; try done; [split; [constructor|done]|intros q [Hq|]; [by apply not_elem_of_nil in Hq|done]|lia|by left].
  - destruct F as [|p F]; [simpl in HF; lia|]. simpl in HF.
    destruct (alloc_page_step s p F va) as (s1 & v2 & used & F2 & E1 & Hp0 & E2 & Hinv2 & -> & Hlen & Hend2 & Hst2 & Hp & Hp64 & Hni & Hnt & Hz & Htab & Hfr & Hx2);
      try done; try (unfold PGSIZE in *; lia).
    { apply Hx. unfold PGSIZE. lia. }
    rewrite length_app in HF.
    destruct (IH (Elf.set_kernel (with_pmm v2 (Elf.kernel s)) s) F2 (va + PGSIZE)) as (v' & F' & P & E' & [Iv Is Il If Ir [Ib1 Ib2] Iz It Ifr Ix]);
      try done; try (unfold PGSIZE in *; simpl; lia).
    { clear -Ha. unfold PGSIZE in *. zlia. }
    { change (vm _) with v2. lia. }
    { intros x Hx'. change (Elf.memory_of _) with (Pmm.mem v2). rewrite Hx2 by (unfold PGSIZE in *; lia).
      rewrite decide_False by (clear -Ha Hx'; unfold same_page, PGSIZE in *; zlia). apply Hx. unfold PGSIZE in *. lia. }
    change (Elf.memory_of _) with (Pmm.mem v2) in It, Ifr, Ix.
    assert (p ∉ F2) as Hp2 by (intros ?; apply Hni, elem_of_app; by right).
    assert (forall o, 0 <= o < PGSIZE -> ROUNDDOWN (wbase (p + o)) PGSIZE = p) as Hpage.
    { intros o Ho. clear -Hp Ho. unfold ROUNDDOWN, wbase, PGSIZE in *. zlia. }
    exists v', F', (p :: P). split.
    + cbn [Elf.alloc_segment]. mstep E1. destruct (Z.eqb_spec p 0); [done|].
      unfold bind in E2 |- *. destruct (Elf.update_memory (Vmm.zero_page p) s1) as [[] s1'|?|?|?|?|]; try discriminate E2.
      rewrite E2, u64_small by (unfold PGSIZE in *; lia). exact E'.
    + split; try done.
      * split.
        -- apply NoDup_cons. split; [intros Hin; apply Hp2, If; by left|apply Is].
        -- intros [|k] pa Hk; simpl in Hk.
           ++ injection Hk as <-. split_and!; try done; try lia.
              ** intros Hin. apply Hp2, If. by right.
              ** intros Ht. destruct (It p Ht); done.
              ** rewrite Z.mul_0_l, Z.add_0_r. rewrite Ix by (unfold PGSIZE in *; lia).
                 rewrite Hx2 by (unfold PGSIZE in *; lia). by rewrite decide_True.
           ++ destruct Is as [_ Is]. destruct (Is k pa Hk) as (? & ? & ? & ? & E). split_and!; try done; try lia.
              rewrite <- E. f_equal. lia.
      * simpl. lia.
      * intros q Hq. rewrite elem_of_cons, elem_of_app in *. destruct Hq as [[->|Hq]|Hq]; [by left| |]; right; right; apply If; [by left|by right].
      * rewrite length_cons, length_app. lia.
      * change (vm _) with v2 in Ib1, Ib2. split; congruence.
      * intros [|k] pa o Hk Ho; simpl in Hk; [|by apply (Iz k)]. injection Hk as <-.
        unfold ld8. rewrite Ifr by (by rewrite Hpage). by apply Hz.
      * intros q Hq. rewrite elem_of_cons, elem_of_app. destruct (It q Hq) as [Hq'|]; [|by right; right; right].
        destruct (Htab q Hq'); [by left|by right; right; left].
      * intros a Hnt' Hni'. rewrite Ifr.
        -- by apply Hfr.
        -- intros Ht. destruct (Htab _ Ht) as [|Hu]; [done|]. apply Hni'. rewrite elem_of_cons, elem_of_app. tauto.
        -- intros Hin. apply Hni'. rewrite elem_of_cons, elem_of_app. tauto.
      * intros x Hx' Hout. rewrite Ix by (unfold PGSIZE in *; lia). rewrite Hx2 by done.
        rewrite decide_False; [done|]. intros Hs. apply Hout. clear -Ha Hs. unfold same_page, PGSIZE in *. zlia.
Qed.
End alloc.

(** ** Recording the region *)
Lemma last_region_found n : forall m mi j, (exists i, (i < n)%nat /\ ld64 m (mr_va mi (j + Z.of_nat i)) = 0) ->
  j <= Elf.last_region n m mi j < j + Z.of_nat n /\ ld64 m (mr_va mi (Elf.last_region n m mi j)) = 0.
Proof.
  induction n as [|n IH]; intros m mi j (i & Hi & E); [lia|]. cbn [Elf.last_region].
  destruct (Z.eqb_spec (ld64 m (mr_va mi j)) 0); [split; [lia|done]|].
  destruct i as [|i]; [by rewrite Z.add_0_r in E|].
  destruct (IH m mi (j + 1)) as [? ?]; [exists i; split; [lia|]; rewrite <- E; do 2 f_equal; lia|]. split; [lia|done].
Qed.

(** ** Loading a segment *)
(** The pages a segment occupies, as [elf_alloc_mb] counts them. *)
Definition seg_first (ph : elf_prog_header) : Z := ROUNDDOWN (p_vaddr ph) PGSIZE.
Definition seg_pages (ph : elf_prog_header) : Z :=
  u64 (ROUNDUP (u64 (p_vaddr ph + p_memsz ph)) PGSIZE - ROUNDDOWN (p_vaddr ph) PGSIZE) / PGSIZE.

Lemma seg_pages_eq ph :
  0 <= p_vaddr ph -> 0 < p_memsz ph -> p_vaddr ph + p_memsz ph <= MAXVA ->
  seg_first ph mod PGSIZE = 0 /\ 0 <= seg_first ph <= p_vaddr ph /\ 0 < seg_pages ph < 2 ^ 32 /\
  seg_first ph + seg_pages ph * PGSIZE <= MAXVA /\ p_vaddr ph + p_memsz ph <= seg_first ph + seg_pages ph * PGSIZE.
Proof.
  intros Hv Hm Hmax. assert (MAXVA = 2 ^ 38) as HM by done. rewrite HM in *.
  unfold seg_pages, seg_first, ROUNDUP. rewrite (u64_small (p_vaddr ph + p_memsz ph)) by lia.
  rewrite (u64_small (p_vaddr ph + p_memsz ph - 1)) by lia. set (e := p_vaddr ph + p_memsz ph) in *.
  assert (0 <= ((e - 1) / PGSIZE + 1) * PGSIZE <= 2 ^ 38) by (unfold PGSIZE; zlia).
  rewrite (u64_small (((e - 1) / PGSIZE + 1) * PGSIZE)) by lia.
  rewrite u64_small by (unfold ROUNDDOWN, PGSIZE in *; zlia).
  unfold ROUNDDOWN, PGSIZE in *. zlia.
Qed.

(** The two kinds of segments the loader accepts are readable. *)
Lemma segment_type_perm flags seg : Elf.segment_type flags = Some seg ->
  let perm := Vmm.prot_to_type (Elf.segment_prot flags) true in
  0 <= perm < 2 ^ 10 /\ has perm PTE_R = true /\ 0 <= seg < 2 ^ 32.
Proof.
  unfold Elf.segment_type. destruct (Z.eqb_spec flags (Z.lor SEGMENT_READABLE SEGMENT_EXECUTABLE)) as [->|].
  - intros [= <-]. split_and!; by vm_compute.
  - destruct (Z.eqb_spec flags (Z.lor SEGMENT_READABLE SEGMENT_WRITABLE)) as [->|]; [|done].
    intros [= <-]. split_and!; by vm_compute.
Qed.

Section segment.
Context {H : Type} `{!Frontend H} `{!HostFiles H}.
Implicit Types s : Elf.state H.

(** A segment that can be loaded into process [p] from entry [i] of the table of
    host files: its sizes fit the file and the address space, its pages are not
    mapped yet, there is memory, and the process has a free region. *)
Record loadable s (F : list Z) (p : nat) (proc : process) (i : nat) (c : list Z) (ph : elf_prog_header) (seg : Z) : Prop := {
  l_proc : procs (Elf.kernel s) !! p = Some proc;
  l_inv : vm_inv (pagetable proc) (vm s) F;
  l_end : Pmm.free_mem_end_addr (vm s) + PGSIZE < 2 ^ 64;
  l_file : exists fd rc, file_open i fd rc c s;
  l_vaddr : 0 <= p_vaddr ph /\ p_vaddr ph + p_memsz ph <= MAXVA;
  l_size : 0 <= p_filesz ph <= p_memsz ph /\ 0 < p_memsz ph;
  l_off : 0 <= p_off ph /\ p_off ph + p_filesz ph <= Z.of_nat (length c) < 2 ^ 64;
  l_flags : Elf.segment_type (p_flags ph) = Some seg;
  l_room : 3 * seg_pages ph <= Z.of_nat (length F);
  l_unmapped : forall x, seg_first ph <= x < seg_first ph + seg_pages ph * PGSIZE ->
    xlate (pagetable proc) (Elf.memory_of s) x = None;
  l_info : mapped_info proc mod PGSIZE = 0 /\ (mapped_info proc ∉ F) /\ ~ is_table (pagetable proc) (Elf.memory_of s) (mapped_info proc);
  l_slot : exists j, (j < 256)%nat /\ ld64 (Elf.memory_of s) (mr_va (mapped_info proc) (Z.of_nat j)) = 0;
}.

Lemma vbyte_seg root m F first P perm x :
  seg_mapped root m F first P perm -> 0 <= perm < 2 ^ 10 -> first mod PGSIZE = 0 ->
  first <= x < first + Z.of_nat (length P) * PGSIZE -> vbyte root m x = Some (ld8 m (seg_addr first P x)).
Proof.
  intros [_ Hp] Hperm Hf Hx. destruct (seg_split first P x Hf Hx) as (k & pa & o & Hk & Ho & E & Eo).
  destruct (Hp k pa Hk) as (Hpa & ? & _ & _ & Hxl). unfold vbyte.
  rewrite (xlate_same_page root m x (first + Z.of_nat k * PGSIZE)) by (unfold same_page, PGSIZE in *; zlia).
  rewrite Hxl. simpl. do 2 f_equal. rewrite entry_pa by (done || lia).
  rewrite E at 2. rewrite (seg_addr_page first P k pa o Hf Hk Ho). rewrite <- Eo. f_equal.
  clear -Hpa. unfold ROUNDDOWN, PGSIZE in *. zlia.
Qed.

(** Memory after the pages have been mapped and filled, before the region is
    recorded. *)
Lemma segment_filled s F p proc i c ph seg :
  loadable s F p proc i c ph seg ->
  let root := pagetable proc in
  exists v' F' m2, 
    Elf.elf_alloc_mb proc (p_vaddr ph) (p_memsz ph) (p_flags ph) s
      = Ret (seg_pages ph) (Elf.set_kernel (with_pmm v' (Elf.kernel s)) s) /\
    Elf.load_pages (Elf.page_fuel ph) (FPtr i) root ph 0 (Elf.set_kernel (with_pmm v' (Elf.kernel s)) s)
      = Ret EL_OK (Elf.set_kernel (with_pmm (Pmm.set_mem m2 v') (Elf.kernel s)) s) /\
    vm_inv root (Pmm.set_mem m2 v') F' /\
    (length F <= length F' + 3 * Z.to_nat (seg_pages ph))%nat /\ (forall q, q ∈ F' -> q ∈ F) /\
    (Pmm.free_mem_start_addr v' = Pmm.free_mem_start_addr (vm s) /\ Pmm.free_mem_end_addr v' = Pmm.free_mem_end_addr (vm s)) /\
    (forall q, is_table root m2 q -> is_table root (Elf.memory_of s) q \/ q ∈ F) /\
    (forall a, ~ is_table root (Elf.memory_of s) (ROUNDDOWN a PGSIZE) -> ROUNDDOWN a PGSIZE ∉ F -> ld64 m2 a = ld64 (Elf.memory_of s) a) /\
    (forall x, 0 <= x < MAXVA -> ~ (seg_first ph <= x < seg_first ph + seg_pages ph * PGSIZE) ->
       xlate root m2 x = xlate root (Elf.memory_of s) x) /\
    exists P perm, seg_mapped root m2 F' (seg_first ph) P perm /\
      (0 <= perm < 2 ^ 10 /\ perm = Vmm.prot_to_type (Elf.segment_prot (p_flags ph)) true) /\ Z.of_nat (length P) = seg_pages ph /\ (forall q, q ∈ P -> q ∈ F) /\
      forall x, p_vaddr ph <= x < p_vaddr ph + p_memsz ph ->
        ld8 m2 (seg_addr (seg_first ph) P x) =
          if x <? p_vaddr ph + p_filesz ph then default 0 (c !! Z.to_nat (p_off ph + (x - p_vaddr ph))) else 0.
Proof.
  intros [Hproc Hinv Hend (fd & rc & Hopen) Hv Hsz Hoff Hflags Hroom Hun Hmi _] root.
  destruct (seg_pages_eq ph) as (Hf & Hf0 & Hn & Hmax & Hfit); [lia..|].
  destruct (segment_type_perm _ _ Hflags) as (Hperm & HR & _). set (perm := Vmm.prot_to_type (Elf.segment_prot (p_flags ph)) true) in *.
  destruct (alloc_segment_ok root perm (Z.to_nat (seg_pages ph)) s F (seg_first ph)) as (v' & F' & P & E & [Iv Is Il If Ir Ib Iz It Ifr Ix]);
    try done; try lia; try (rewrite Z2Nat.id by lia; done).
  rewrite Z2Nat.id in Ix by lia. assert (Z.of_nat (length P) = seg_pages ph) as HP by lia.
  destruct (load_pages_ok root (seg_first ph) P F' perm ph i fd rc c) with (fuel := Elf.page_fuel ph)
    (s := Elf.set_kernel (with_pmm v' (Elf.kernel s)) s) (loaded := 0) as (m2 & E2 & Hinv2 & Hseg2 & Hx2 & Hf2 & Hb2);
    try done; try lia; try (rewrite HP; lia).
  { intros _. unfold Elf.page_fuel, PGSIZE. clear. zlia. }
  change (Elf.memory_of _) with (Pmm.mem v') in Hx2, Hf2, Hb2.
  exists v', F', m2. split_and!; try apply Ib; try exact Ir; try (intros q Hq; apply If; by right).
  - unfold Elf.elf_alloc_mb. fold (seg_pages ph) (seg_first ph) perm. by mstep E.
  - exact E2.
  - exact Hinv2.
  - intros q (va & d & Hd & Ht). apply It. exists va, d. split; [done|].
    rewrite <- Ht. symmetry. apply (vm_inv_frame root v' F' m2 Iv); [|done]. intros a Ha. unfold ld64. rewrite Hf2; [done|].
    intros [k Hk]%list_elem_of_lookup_1. destruct Is as [_ Is]. destruct (Is k _ Hk) as (_ & _ & ? & ? & _). by destruct Ha.
  - intros a Hnt Hni. unfold ld64 at 1. rewrite Hf2; [by apply Ifr|]. intros Hin. apply Hni, If. by left.
  - intros x Hx Hout. by rewrite Hx2, Ix.
  - exists P, perm. split_and!; try done; try lia; [intros q Hq; apply If; by left|].
    intros x Hx. rewrite Hb2 by (rewrite HP; lia).
    destruct (seg_split (seg_first ph) P x Hf) as (k & pa & o & Hk & Ho & Ex & Eo); [rewrite HP; lia|].
    rewrite Ex at 4. rewrite (seg_addr_page _ P k pa o Hf Hk Ho), (Iz k pa o Hk Ho). zcases; done.
Qed.

(** The bytes the process sees at the addresses of a segment: those of the file,
    and zeros beyond them. *)
Definition segment_byte (c : list Z) (ph : elf_prog_header) (x : Z) : Z :=
  if x <? p_vaddr ph + p_filesz ph then default 0 (c !! Z.to_nat (p_off ph + (x - p_vaddr ph))) else 0.
Definition in_segment (ph : elf_prog_header) (x : Z) : Prop := p_vaddr ph <= x < p_vaddr ph + p_memsz ph.
Definition in_pages (ph : elf_prog_header) (x : Z) : Prop := seg_first ph <= x < seg_first ph + seg_pages ph * PGSIZE.

(** A loaded segment: the state, the free pages left, the pages of the segment,
    and the region that is recorded. *)
Record segment_loaded s (F : list Z) (p : nat) (proc : process) (c : list Z) (ph : elf_prog_header) (seg : Z)
    (v' : Pmm.state) (F' : list Z) (P : list Z) (perm j : Z) : Prop := {
  sl_inv : vm_inv (pagetable proc) v' F';
  sl_free : forall q, q ∈ F' -> q ∈ F;
  sl_room : (length F <= length F' + 3 * Z.to_nat (seg_pages ph))%nat;
  sl_bounds : Pmm.free_mem_start_addr v' = Pmm.free_mem_start_addr (vm s) /\ Pmm.free_mem_end_addr v' = Pmm.free_mem_end_addr (vm s);
  sl_table : forall q, is_table (pagetable proc) (Pmm.mem v') q -> is_table (pagetable proc) (Elf.memory_of s) q \/ q ∈ F;
  sl_frame : forall a, ~ is_table (pagetable proc) (Elf.memory_of s) (ROUNDDOWN a PGSIZE) -> ROUNDDOWN a PGSIZE ∉ F ->
    a <> mapped_info proc + 16 * j -> a <> mapped_info proc + 16 * j + 8 -> ld64 (Pmm.mem v') a = ld64 (Elf.memory_of s) a;
  sl_xlate : forall x, 0 <= x < MAXVA -> ~ in_pages ph x ->
    xlate (pagetable proc) (Pmm.mem v') x = xlate (pagetable proc) (Elf.memory_of s) x;
  sl_pages : seg_mapped (pagetable proc) (Pmm.mem v') F' (seg_first ph) P perm;
  sl_perm : 0 <= perm < 2 ^ 10 /\ perm = Vmm.prot_to_type (Elf.segment_prot (p_flags ph)) true;
  sl_length : Z.of_nat (length P) = seg_pages ph;
  sl_from : forall q, q ∈ P -> q ∈ F;
  sl_bytes : forall x, in_segment ph x -> ld8 (Pmm.mem v') (seg_addr (seg_first ph) P x) = segment_byte c ph x;
  sl_slot : j = Elf.last_region 256 (Elf.memory_of s) (mapped_info proc) 0 /\ 0 <= j < 256 /\
    ld64 (Elf.memory_of s) (mr_va (mapped_info proc) j) = 0;
  sl_region : region (Pmm.mem v') (mapped_info proc) j = (p_vaddr ph, seg_pages ph, seg);
}.

Lemma last_region_ext n m m' mi : forall j, (forall k, j <= k < j + Z.of_nat n -> ld64 m' (mr_va mi k) = ld64 m (mr_va mi k)) ->
  Elf.last_region n m' mi j = Elf.last_region n m mi j.
Proof.
  induction n as [|n IH]; intros j Hm; cbn [Elf.last_region]; [done|]. rewrite Hm by lia. destruct (_ =? 0); [done|].
  apply IH. intros k Hk. apply Hm. lia.
Qed.

Lemma load_segment_ok s F p proc i c ph seg :
  loadable s F p proc i c ph seg ->
  exists v' F' P perm j, Elf.load_segment (FPtr i) p ph s = Ret EL_OK (Elf.set_kernel (with_pmm v'
      (with_procs (alter (fun q => set_regions (total_mapped_region q + 1) q) p (procs (Elf.kernel s))) (Elf.kernel s))) s) /\
    segment_loaded s F p proc c ph seg v' F' P perm j.
Proof.
  intros Hl. destruct (segment_filled s F p proc i c ph seg Hl)
    as (v' & F' & m2 & Ea & El & Hinv & Hroom & HF & Hbnd & Htab & Hfr & Hx & P & perm & Hseg & (Hperm & Hpeq) & HP & HPF & Hb).
  destruct Hl as [Hproc Hinv0 _ _ Hv Hsz _ Hflags _ _ (Hmi & Hni & Hnt) (j0 & Hj0 & Hslot)].
  destruct (seg_pages_eq ph) as (Hf & Hf0 & Hn & Hmax & Hfit); [lia..|].
  destruct (segment_type_perm _ _ Hflags) as (_ & _ & Hsegr).
  set (root := pagetable proc) in *. set (mi := mapped_info proc) in *.
  assert (mi mod 8 = 0) as Hmi8 by (clear -Hmi; unfold PGSIZE in *; zlia).
  assert (forall k, 0 <= k < 256 -> ROUNDDOWN (mr_va mi k) PGSIZE = mi /\ ROUNDDOWN (mi + 16 * k + 8) PGSIZE = mi) as Hpage.
  { intros k Hk. clear -Hmi Hk. unfold mr_va, ROUNDDOWN, PGSIZE in *. zlia. }
  assert (forall k, 0 <= k < 256 -> ld64 m2 (mr_va mi k) = ld64 (Elf.memory_of s) (mr_va mi k)) as Hmi2.
  { intros k Hk. destruct (Hpage k Hk) as [E _]. apply Hfr; by rewrite E. }
  destruct (last_region_found 256 m2 mi 0) as [Hj Hj'].
  { exists j0. split; [done|]. rewrite Z.add_0_l, Hmi2 by lia. done. }
  assert (Elf.last_region 256 m2 mi 0 = Elf.last_region 256 (Elf.memory_of s) mi 0) as Hjeq by (apply last_region_ext; intros k Hk; apply Hmi2; lia).
  set (j := Elf.last_region 256 m2 mi 0) in *. change (0 + Z.of_nat 256) with 256 in Hj.
  set (m3 := region_mem mi j (p_vaddr ph) (seg_pages ph) seg m2).
  assert (forall a, a <> mi + 16 * j -> a <> mi + 16 * j + 8 -> m3 !! a = m2 !! a) as Hw by (intros a ? ?; by apply region_mem_words).
  assert (forall a, ROUNDDOWN a PGSIZE <> mi -> m3 !! a = m2 !! a) as Hw3.
  { intros a Ha. apply Hw; intros ->; by apply Ha, Hpage. }
  destruct (vm_inv_frame root (Pmm.set_mem m2 v') F' m3 Hinv) as (Hinv3 & Htab3 & Hx3).
  { intros a Ha. simpl in *. unfold ld64. rewrite Hw3; [done|]. intros E. rewrite E in Ha. destruct Ha as [Ha|Ha]; [by destruct (Htab mi Ha)|by apply Hni, HF]. }
  destruct (region_mem_read mi j (p_vaddr ph) (seg_pages ph) seg m2) as (R1 & R2 & R3); [done|lia|done|]. fold m3 in R1, R2, R3.
  cbn [Pmm.mem Pmm.set_mem] in Hx3, Htab3.
  exists (Pmm.set_mem m3 v'), F', P, perm, j. split.
  - unfold Elf.load_segment. destruct (Z.ltb_spec (p_memsz ph) (p_filesz ph)); [lia|].
    assert (MAXVA = 2 ^ 38) as HM by done. rewrite u64_small by lia.
    destruct (Z.ltb_spec (p_vaddr ph + p_memsz ph) (p_vaddr ph)); [lia|].
    assert (Elf.on_kernel (get_proc p) s = Ret proc s) as Eg.
    { unfold Elf.on_kernel, zoom, get_proc. rewrite Hproc. simpl. by destruct s. }
    mstep Eg. mstep Ea. mstep El. rewrite bind_gets. change (Z.to_nat (PGSIZE / 16)) with 256%nat.
    change (Elf.memory_of _) with m2. fold mi j. rewrite Hflags.
    mstep (elf_on_kernel_Ret _ (Elf.set_kernel (with_pmm (Pmm.set_mem m2 v') (Elf.kernel s)) s) tt _ (register_region_eq mi j (p_vaddr ph) (seg_pages ph) seg _)).
    reflexivity.
  - assert (forall q, is_table root m3 q -> is_table root m2 q) as Ht3.
    { intros q (va & d & Hd & Ht). exists va, d. split; [done|]. by rewrite <- Htab3. }
    split; cbn [Pmm.mem Pmm.set_mem]; fold root mi; try done.
    + intros q Hq. by apply Htab, Ht3.
    + intros a N1 N2 N3 N4. unfold ld64 at 1. rewrite Hw by done. by apply Hfr.
    + intros x Hx' Hout. rewrite Hx3. by apply Hx.
    + destruct Hseg as [S1 S2]. split; [done|]. intros k pa Hk. destruct (S2 k pa Hk) as (A1 & A2 & A3 & A4 & A5).
      split_and!; try done; try lia; [|by rewrite Hx3]. intros Ht. by apply A4, Ht3.
    + intros x Hx'. unfold segment_byte. rewrite <- Hb by done. unfold in_segment in Hx'. destruct (seg_split (seg_first ph) P x Hf) as (k & pa & o & Hk & Ho & Ex & Eo);
        [rewrite HP; lia|]. rewrite Ex, (seg_addr_page _ P k pa o Hf Hk Ho). unfold ld8, ld64. rewrite Hw3; [done|].
      destruct Hseg as [_ S2]. destruct (S2 k pa Hk) as (Hpa & _). intros E. apply Hni, HPF. rewrite <- E.
      replace (ROUNDDOWN (wbase (pa + o)) PGSIZE) with pa; [by eapply list_elem_of_lookup_2|].
      clear -Hpa Ho. unfold wbase, ROUNDDOWN, PGSIZE in *. zlia.
    + split_and!; try done; try lia. rewrite <- Hmi2 by lia. done.
    + unfold region. by rewrite R1, R2, R3.
Qed.
End segment.

(** ** Termination and errors *)
Section errors.
Context {H : Type} `{!Frontend H}.
Implicit Types s : Elf.state H.

(** Whatever the host answers, a read returns when the lock is free, and leaves
    the lock free. *)
Lemma elf_fpread_returns s i f dest nb off :
  Elf.lock s = 0 -> Elf.spike_files s !! i = Some f ->
  exists r m h, Elf.elf_fpread (FPtr i) dest nb off s =
    Ret (u64 r) (Elf.mk (with_pmm (Pmm.set_mem m (vm s)) (Elf.kernel s)) h (Elf.spike_fds s) (Elf.spike_files s) 0).
Proof.
  intros Hl Hi.
  destruct (frontend [HTIFSYS_pread; kfd f; dest; nb; off; 0; 0; 0] (Elf.memory_of s) (Elf.host s)) as [[r m] h] eqn:E.
  exists r, m, h. unfold Elf.elf_fpread, bind, Elf.on_spike, zoom, Spike.spike_file_pread, Spike.deref, bind, ret.
  rewrite (spike_get_file_eq (Elf.to_spike s) i f Hi). by rewrite (call_eq (Elf.to_spike s) _ _ _ _ _ _ r m h Hl E).
Qed.

(** [lookup_pa] returns on every state and changes nothing. *)
Lemma lookup_pa_total root va v : exists r, Vmm.lookup_pa root va v = Ret r v.
Proof.
  unfold Vmm.lookup_pa. destruct (Z.leb_spec MAXVA va); [by eexists|].
  mstep (page_walk_noalloc root va v ltac:(lia)). destruct (_ =? 0); [by eexists|].
  unfold Vmm.read. rewrite bind_gets. destruct (_ || _); by eexists.
Qed.

Lemma load_pages_fuel fuel : forall s i f root ph loaded,
  Elf.lock s = 0 -> Elf.spike_files s !! i = Some f -> 0 <= loaded ->
  (loaded < p_filesz ph -> p_filesz ph - loaded + (p_vaddr ph + loaded) mod PGSIZE <= Z.of_nat fuel * PGSIZE) ->
  Elf.load_pages fuel (FPtr i) root ph loaded s <> NoFuel.
Proof.
  induction fuel as [|fuel IH]; intros s i f root ph loaded Hl Hi H0 Hfuel; cbn [Elf.load_pages];
    destruct (Z.ltb_spec loaded (p_filesz ph)) as [Hlt|Hge]; try done.
  - specialize (Hfuel Hlt). unfold PGSIZE in Hfuel. zlia.
  - specialize (Hfuel Hlt). set (va := u64 (p_vaddr ph + loaded)).
    assert (va mod PGSIZE = (p_vaddr ph + loaded) mod PGSIZE) as Hva.
    { subst va. unfold u64, PGSIZE. change (2 ^ 64) with (4096 * 2 ^ 52). clear. zlia. }
    assert (va - ROUNDDOWN va PGSIZE = va mod PGSIZE) as Eo by (clear; unfold ROUNDDOWN, PGSIZE; zlia). rewrite Eo.
    set (bytes := MIN (p_filesz ph - loaded) (PGSIZE - va mod PGSIZE)).
    assert (0 < bytes /\ (bytes = p_filesz ph - loaded \/ bytes = PGSIZE - va mod PGSIZE)) as [Hb0 Hb].
    { subst bytes. clear -Hlt. unfold MIN, PGSIZE. destruct (Z.ltb_spec (p_filesz ph - loaded) (4096 - va mod 4096)); zlia. }
    clearbody bytes. destruct (lookup_pa_total root (ROUNDDOWN va PGSIZE) (vm s)) as [pa El].
    mstep (on_pmm_Ret _ s _ _ El).
    replace (Elf.set_kernel (with_pmm (vm s) (Elf.kernel s)) s) with s by (by destruct s as [[] ? ? ? ?]).
    destruct (pa =? 0); [done|].
    destruct (elf_fpread_returns s i f (pa + va mod PGSIZE) bytes (u64 (p_off ph + loaded)) Hl Hi) as (r & m & h & E).
    mstep E. destruct (negb _); [done|]. apply (IH _ i f); try done; [lia|]. intros Hlt'. rewrite Hva in Hb.
    destruct Hb as [->|Hb]; [lia|]. replace (p_vaddr ph + (loaded + bytes)) with (p_vaddr ph + loaded + bytes) by lia.
    replace ((p_vaddr ph + loaded + bytes) mod PGSIZE) with 0; [unfold PGSIZE in *; lia|].
    rewrite Hb. clear. unfold PGSIZE. zlia.
Qed.

(** C27: the loop that fills the pages of a segment terminates, for every program
    header, every state of the kernel and every behaviour of the host. *)
Theorem elf_load_pages_terminates s i f root ph :
  Elf.lock s = 0 -> Elf.spike_files s !! i = Some f ->
  Elf.load_pages (Elf.page_fuel ph) (FPtr i) root ph 0 s <> NoFuel.
Proof.
  intros Hl Hi. apply (load_pages_fuel _ s i f); try done. intros Hlt. rewrite Z.add_0_r, Z.sub_0_r.
  unfold Elf.page_fuel, PGSIZE in *. zlia.
Qed.

(** malformed program headers are refused before anything is mapped: a
    segment larger in the file than in memory, or one that wraps around the
    address space, gives [EL_ERR] and leaves the state as it was. *)
Theorem elf_segment_refused s f p ph :
  0 <= p_vaddr ph < 2 ^ 64 -> 0 <= p_memsz ph < 2 ^ 64 ->
  p_memsz ph < p_filesz ph \/ 2 ^ 64 <= p_vaddr ph + p_memsz ph ->
  Elf.load_segment f p ph s = Ret EL_ERR s.
Proof.
  intros Hv Hm Hbad. unfold Elf.load_segment. destruct (Z.ltb_spec (p_memsz ph) (p_filesz ph)); [done|].
  destruct (Z.ltb_spec (u64 (p_vaddr ph + p_memsz ph)) (p_vaddr ph)); [done|].
  exfalso. unfold u64 in *. destruct Hbad as [|Hbad]; [lia|].
  rewrite <- (Z.mod_add _ (-1) (2 ^ 64)), Z.mod_small in * by lia. lia.
Qed.

(** [elf_init] reports exactly what is wrong with a file: [EL_EIO] when it is
    shorter than an ELF header, [EL_NOTELF] when the header does not start with
    the magic number, and [EL_OK] otherwise. *)
Theorem elf_init_status `{!HostFiles H} s i fd rc c ehdr_addr :
  file_open i fd rc c s ->
  returns (Elf.elf_init ehdr_addr (FPtr i)) s (fun r s' =>
    r = (if Z.of_nat (length c) <? 64 then EL_EIO else if le_value 4 c =? 0x464C457F then EL_OK else EL_NOTELF) /\
    file_open i fd rc c s').
Proof.
  intros (Hl & Hi & Hc).
  destruct (pread_ok (Elf.host s) fd c ehdr_addr 64 0 (Elf.memory_of s) Hc ltac:(lia) ltac:(lia)) as (m' & Hcall & Hb & _).
  set (bs := file_bytes c 0 64) in *.
  assert (Elf.elf_fpread (FPtr i) ehdr_addr sizeof_header 0 s = Ret (Z.of_nat (length bs)) (with_memory m' s)) as E.
  { unfold Elf.elf_fpread, bind, Elf.on_spike, zoom, Spike.spike_file_pread, Spike.deref, bind, ret.
    rewrite (spike_get_file_eq (Elf.to_spike s) i (mk_spike_file fd rc) Hi). cbn [kfd]. change sizeof_header with 64.
    rewrite (call_eq (Elf.to_spike s) _ _ _ _ _ _ _ m' (Elf.host s) Hl Hcall).
    rewrite u64_small by (unfold bs, file_bytes; rewrite length_take; lia).
    f_equal. destruct s as [k h fds fs l]. simpl in *. by subst l. }
  eexists _, (with_memory m' s). split; [|split; [reflexivity|done]].
  unfold Elf.elf_init. mstep E. unfold bs, file_bytes in *. rewrite length_take, length_drop in *. unfold sizeof_header.
  destruct (Z.ltb_spec (Z.of_nat (length c)) 64).
  - destruct (Z.eqb_spec (Z.of_nat (Z.to_nat 64 `min` (length c - Z.to_nat 0))) 64); [lia|done].
  - destruct (Z.eqb_spec (Z.of_nat (Z.to_nat 64 `min` (length c - Z.to_nat 0))) 64); [|lia]. cbn [negb].
    rewrite bind_gets. change (Elf.memory_of (with_memory m' s)) with m'. unfold read_header, magic.
    rewrite (le_bytes_value 4 m' ehdr_addr c); [unfold ret, ELF_MAGIC; by destruct (le_value 4 c =? 0x464C457F)| |lia].
    intros k Hk. rewrite Hb. change (Z.to_nat 0) with O. rewrite drop_0.
    rewrite Nat.sub_0_r. replace (Z.to_nat 64 `min` length c)%nat with 64%nat by lia.
    destruct (Z.leb_spec ehdr_addr (ehdr_addr + Z.of_nat k)); [|lia].
    destruct (Z.ltb_spec (ehdr_addr + Z.of_nat k) (ehdr_addr + Z.of_nat 64)); [|lia]. simpl andb. cbn iota.
    replace (Z.to_nat (ehdr_addr + Z.of_nat k - ehdr_addr)) with k by lia. by rewrite lookup_take_lt by lia.
Qed.
End errors.

(** ** The host of [SpikeFile] and concrete files *)
Definition sim_contents (h : SimHost.host) (fd : Z) : option (list Z) :=
  match SimHost.opened h !! fd with Some (c, _) => Some (map (fun b => b mod 256) c) | None => None end.

Lemma sim_contents_bytes h fd c : sim_contents h fd = Some c -> Forall (fun b => 0 <= b < 256) c.
Proof.
  unfold sim_contents. destruct (SimHost.opened h !! fd) as [[c' ?]|]; [|done]. intros [= <-].
  apply Forall_fmap, Forall_forall. intros b _. simpl. apply Z.mod_pos_bound. lia.
Qed.

Lemma sim_pread_ok h fd c buf n off m : sim_contents h fd = Some c -> 0 <= n -> 0 <= off ->
  let bs := file_bytes c off n in
  exists m', frontend [HTIFSYS_pread; fd; buf; n; off; 0; 0; 0] m h = (Z.of_nat (length bs), m', h) /\
    (forall a, ld8 m' a = if (buf <=? a) && (a <? buf + Z.of_nat (length bs))
                          then default 0 (bs !! Z.to_nat (a - buf)) else ld8 m a) /\
    (forall a, a mod 8 <> 0 \/ a + 8 <= buf \/ buf + Z.of_nat (length bs) <= a -> m' !! a = m !! a).
Proof.
  intros Hc Hn Hoff bs. unfold sim_contents in Hc.
  unfold frontend, sim_frontend, SimHost.serve. change (HTIFSYS_pread =? HTIFSYS_openat) with false.
  change (HTIFSYS_pread =? HTIFSYS_close) with false. change (HTIFSYS_pread =? HTIFSYS_pread) with true. cbn iota.
  destruct (SimHost.opened h !! fd) as [[c' k]|]; [|done]. injection Hc as <-.
  set (bs' := take (Z.to_nat n) (drop (Z.to_nat off) c')).
  assert (bs = (fun b => b mod 256) <$> bs') as Hbs by (unfold bs, file_bytes, bs'; by rewrite fmap_take, fmap_drop).
  assert (length bs = length bs') as Hlen by (rewrite Hbs; apply length_fmap).
  eexists. split; [rewrite Hlen; reflexivity|]. split.
  - intros a. rewrite ld8_store_bytes, Hlen, Hbs, list_lookup_fmap.
    destruct (bs' !! Z.to_nat (a - buf)) as [b|] eqn:E; simpl.
    + apply lookup_lt_Some in E. zcases; done.
    + apply lookup_ge_None_1 in E. zcases; done.
  - intros a Ha. apply store_bytes_words. by rewrite <- Hlen.
Qed.

#[global] Instance sim_host_files : HostFiles SimHost.host :=
  {| contents := sim_contents; contents_bytes := sim_contents_bytes; pread_ok := sim_pread_ok |}.

(** A process with an empty address space, and an open program of 5000 bytes
    whose segment starts in the middle of a page and has a zero-filled part. *)
Definition demo_file : list Z := map (fun i => (i * 7 + 3) mod 256) (seqZ 0 5000).
Definition demo_ph : elf_prog_header := mk_prog 1 (Z.lor SEGMENT_READABLE SEGMENT_WRITABLE) 200 0x10800 0 4700 9000 4096.
Definition demo_elf_proc : process :=
  mk_process 0 demo_root 0 0x80000000 4 0 0 [] 0 0 READY None None 0 0.
Definition demo_elf : Elf.state SimHost.host :=
  Elf.mk (mk_state (demo_vm 12) [demo_elf_proc] None None (mk_cpu 0 0 0 0 0 0 0 0 []) 0 0)
    (SimHost.mk [] {[ 5 := (demo_file, 0) ]} []) (replicate 128 FNull) [mk_spike_file 5 3] 0.

Lemma demo_file_open : file_open 0 5 3 demo_file demo_elf.
Proof. split_and!; [done|done|]. unfold contents, sim_host_files. by vm_compute. Qed.

Lemma elf_load_pages_terminates_witness :
  Elf.load_pages (Elf.page_fuel demo_ph) (FPtr 0) demo_root demo_ph 0 demo_elf <> NoFuel.
Proof. apply (elf_load_pages_terminates demo_elf 0 (mk_spike_file 5 3)); reflexivity. Defined.

Lemma elf_segment_refused_witness :
  Elf.load_segment (FPtr 0) 0 (mk_prog 1 6 0 0x10000 0 5000 100 4096) demo_elf = Ret EL_ERR demo_elf.
Proof. apply (elf_segment_refused demo_elf (FPtr 0) 0 (mk_prog 1 6 0 0x10000 0 5000 100 4096)); simpl; lia. Defined.

Lemma elf_init_status_witness : exists s',
  Elf.elf_init 0x80000100 (FPtr 0) demo_elf = Ret EL_NOTELF s'.
Proof.
  destruct (elf_init_status demo_elf 0 5 3 demo_file 0x80000100 demo_file_open) as (r & s' & E & Hr & _).
  exists s'. refine (eq_trans E _). rewrite Hr. clear. by vm_compute.
Defined.
