(* ===== verification/ElfProgram.v ===== *)
(** * Loading a whole program

    The loader reads the ELF header and the program headers into buffers of the
    kernel and loads the segments one after the other.  The reference is the
    parse of the file: [elf_header_at] and [prog_headers].  The theorem says that
    the process sees exactly the segments that the file describes, each with its
    bytes, and that its regions are recorded in order. *)

From stdpp Require Import base gmap list numbers strings.
From Stdlib Require Import ZArith Lia.
From S2P Require Import Prelude Pmm Vmm VmmSpec Bytes ByteMem UserMem AddrSpace Process ProcessSpec SpikeFile Elf ElfSpec.
Local Open Scope Z_scope.

(** ** The file as the loader should read it *)
Definition field (c : list Z) (off : Z) (n : nat) : Z := le_value n (drop (Z.to_nat off) c).
Definition elf_header_at (c : list Z) : elf_header :=
  mk_header (field c 0 4) (field c 16 2) (field c 18 2) (field c 20 4) (field c 24 8) (field c 32 8) (field c 40 8) (field c 48 4)
    (field c 52 2) (field c 54 2) (field c 56 2) (field c 58 2) (field c 60 2) (field c 62 2).
Definition prog_header_at (c : list Z) (off : Z) : elf_prog_header :=
  mk_prog (field c off 4) (field c (off + 4) 4) (field c (off + 8) 8) (field c (off + 16) 8) (field c (off + 24) 8)
    (field c (off + 32) 8) (field c (off + 40) 8) (field c (off + 48) 8).
Definition prog_headers (c : list Z) : list elf_prog_header :=
  map (fun k => prog_header_at c (phoff (elf_header_at c) + sizeof_prog_header * Z.of_nat k)) (seq 0 (Z.to_nat (phnum (elf_header_at c)))).
Definition is_load (ph : elf_prog_header) : Prop := p_type ph = ELF_PROG_LOAD.
#[export] Instance is_load_dec ph : Decision (is_load ph).
Proof. unfold is_load. apply _. Defined.
(** The segments to load, in the order of the file. *)
Definition load_segments (c : list Z) : list elf_prog_header := filter is_load (prog_headers c).

(** A buffer in memory that holds bytes of the file. *)
Definition holds (m : memory) (a : Z) (c : list Z) (off n : Z) : Prop :=
  forall k, 0 <= k < n -> ld8 m (a + k) = default 0 (c !! Z.to_nat (off + k)).

Lemma holds_field m a c off n k w : holds m a c off n -> 0 <= off -> 0 <= k -> k + Z.of_nat w <= n -> off + n <= Z.of_nat (length c) ->
  le_bytes w m (a + k) = field c (off + k) w.
Proof.
  intros Hm Hoff Hk Hn Hc. apply le_bytes_value; [|rewrite length_drop; lia]. intros j Hj.
  replace (a + k + Z.of_nat j) with (a + (k + Z.of_nat j)) by lia. rewrite Hm by lia. rewrite lookup_drop. do 2 f_equal. lia.
Qed.

Lemma read_header_eq m a c : holds m a c 0 sizeof_header -> sizeof_header <= Z.of_nat (length c) -> read_header m a = elf_header_at c.
Proof.
  unfold sizeof_header. intros Hm Hc. unfold read_header, elf_header_at.
  f_equal; [rewrite <- (Z.add_0_r a)|..]; apply (holds_field m a c 0 64); simpl; (done || lia).
Qed.

Lemma read_prog_header_eq m a c off : holds m a c off sizeof_prog_header -> 0 <= off -> off + sizeof_prog_header <= Z.of_nat (length c) ->
  read_prog_header m a = prog_header_at c off.
Proof.
  unfold sizeof_prog_header. intros Hm Hoff Hc. unfold read_prog_header, prog_header_at.
  f_equal; [rewrite <- (Z.add_0_r a), <- (Z.add_0_r off) at 1|..]; apply (holds_field m a c off 56); simpl; (done || lia).
Qed.

(** ** The loop over the program headers *)
(** The words that overlap a buffer. *)
Definition in_buffer (b n a : Z) : Prop := a mod 8 = 0 /\ b < a + 8 /\ a < b + n.

(** A program header that describes a segment of the file and of the address
    space. *)
Definition seg_type_of (ph : elf_prog_header) : Z := default 0 (Elf.segment_type (p_flags ph)).
Definition seg_perm (ph : elf_prog_header) : Z := Vmm.prot_to_type (Elf.segment_prot (p_flags ph)) true.
Record fits (c : list Z) (ph : elf_prog_header) : Prop := {
  ft_vaddr : 0 < p_vaddr ph /\ p_vaddr ph + p_memsz ph <= MAXVA;
  ft_size : 0 <= p_filesz ph <= p_memsz ph /\ 0 < p_memsz ph;
  ft_off : 0 <= p_off ph /\ p_off ph + p_filesz ph <= Z.of_nat (length c) < 2 ^ 64;
  ft_flags : Elf.segment_type (p_flags ph) = Some (seg_type_of ph);
}.

(** No page is shared by two segments. *)
Definition apart_pages (ph ph' : elf_prog_header) : Prop :=
  seg_first ph + seg_pages ph * PGSIZE <= seg_first ph' \/ seg_first ph' + seg_pages ph' * PGSIZE <= seg_first ph.
Definition pages_needed (l : list elf_prog_header) : nat := sum_list (map (fun ph => 3 * Z.to_nat (seg_pages ph))%nat l).

Lemma last_region_at n : forall m mi j r, j <= r < j + Z.of_nat n -> (forall k, j <= k < r -> ld64 m (mr_va mi k) <> 0) ->
  ld64 m (mr_va mi r) = 0 -> Elf.last_region n m mi j = r.
Proof.
  induction n as [|n IH]; intros m mi j r Hr Hn Hz; [lia|]. cbn [Elf.last_region]. destruct (decide (r = j)) as [->|Hne].
  - by rewrite Hz.
  - destruct (Z.eqb_spec (ld64 m (mr_va mi j)) 0) as [E|]; [by apply Hn in E; [|lia]|]. apply IH; [lia| |done]. intros k Hk. apply Hn. lia.
Qed.

Section program.
Context {H : Type} `{!Frontend H} `{!HostFiles H}.
Implicit Types s : Elf.state H.
Context (ph_addr : Z) (p : nat) (proc : process) (i : nat) (fd rc : Z) (c : list Z).
(** Other words of the kernel that are written before or after the loop. *)
Context (extra : Z -> Prop).
Notation root := (pagetable proc).
Notation mi := (mapped_info proc).
Notation r0 := (total_mapped_region proc).

(** What the loop writes besides tables and free pages: its buffer and the
    regions of the process. *)
Definition loader_words (a : Z) : Prop := in_buffer ph_addr sizeof_prog_header a \/ ROUNDDOWN a PGSIZE = mi.
Definition kernel_words (a : Z) : Prop := loader_words a \/ extra a.

(** The state between two rounds, with [segs] loaded. *)
Record loading s (F : list Z) (segs : list elf_prog_header) : Prop := {
  lg_proc : procs (Elf.kernel s) !! p = Some (set_regions (r0 + Z.of_nat (length segs)) proc);
  lg_inv : vm_inv root (vm s) F;
  lg_end : Pmm.free_mem_end_addr (vm s) + PGSIZE < 2 ^ 64;
  lg_open : file_open i fd rc c s;
  lg_info : mi mod PGSIZE = 0 /\ (mi ∉ F) /\ ~ is_table root (Elf.memory_of s) mi;
  lg_buffer : forall a, in_buffer ph_addr sizeof_prog_header a ->
    ~ is_table root (Elf.memory_of s) (ROUNDDOWN a PGSIZE) /\ ROUNDDOWN a PGSIZE ∉ F /\ ROUNDDOWN a PGSIZE <> mi;
  lg_extra : forall a, extra a -> ~ is_table root (Elf.memory_of s) (ROUNDDOWN a PGSIZE) /\ ROUNDDOWN a PGSIZE ∉ F;
  lg_used : forall j, 0 <= j < r0 + Z.of_nat (length segs) -> ld64 (Elf.memory_of s) (mr_va mi j) <> 0;
  lg_unused : forall j, r0 + Z.of_nat (length segs) <= j < 256 -> ld64 (Elf.memory_of s) (mr_va mi j) = 0;
  lg_segs : forall ph, ph ∈ segs -> forall x, in_segment ph x -> sealed root kernel_words F (Elf.memory_of s) x (segment_byte c ph x);
  lg_perms : forall ph, ph ∈ segs -> forall x, in_segment ph x -> exists pa, xlate root (Elf.memory_of s) x = Some (entry pa (seg_perm ph));
  lg_regions : forall k ph, segs !! k = Some ph ->
    region (Elf.memory_of s) mi (r0 + Z.of_nat k) = (p_vaddr ph, seg_pages ph, seg_type_of ph);
}.

(** Reading into the buffer keeps all of this. *)
Lemma fpread_buffer s F b n off : 
  vm_inv root (vm s) F -> file_open i fd rc c s -> 0 <= off -> 0 <= n < 2 ^ 64 -> off + n <= Z.of_nat (length c) ->
  (forall a, in_buffer b n a -> ~ is_table root (Elf.memory_of s) (ROUNDDOWN a PGSIZE) /\ ROUNDDOWN a PGSIZE ∉ F) ->
  exists m', Elf.elf_fpread (FPtr i) b n off s = Ret n (with_memory m' s) /\ holds m' b c off n /\
    vm_inv root (Pmm.set_mem m' (vm s)) F /\ changes root (in_buffer b n) (fun _ => False) F (Elf.memory_of s) F m' /\
    (forall a, ~ in_buffer b n a -> ld64 m' a = ld64 (Elf.memory_of s) a).
Proof.
  intros Hinv (Hl & Hi & Hc) Hoff Hn Hlen Hb.
  destruct (elf_fpread_eq s i fd rc c b n off Hl Hi Hc Hoff Hn Hlen) as (m' & E & Hbytes & Hwords).
  assert (forall a, ~ in_buffer b n a -> ld64 m' a = ld64 (Elf.memory_of s) a) as Hout.
  { intros a Ha. unfold ld64. rewrite Hwords; [done|]. unfold in_buffer in Ha. destruct (decide (a mod 8 = 0)); [|by left]. right. lia. }
  destruct (vm_inv_changes root (in_buffer b n) F (vm s) m' Hinv Hb Hout) as [Hinv' Hev].
  exists m'. split_and!; try done. intros k Hk. rewrite Hbytes.
  destruct (Z.leb_spec b (b + k)); [|lia]. destruct (Z.ltb_spec (b + k) (b + n)); [|lia]. simpl. do 3 f_equal. lia.
Qed.

Lemma region_word_page j : mi mod PGSIZE = 0 -> 0 <= j < 256 ->
  ROUNDDOWN (mi + 16 * j) PGSIZE = mi /\ ROUNDDOWN (mi + 16 * j + 8) PGSIZE = mi.
Proof. intros Hmi Hj. rewrite <- Z.add_assoc. split; apply page_word; try done; unfold PGSIZE; lia. Qed.

(** What was loaded stays when no region is written. *)
Lemma loading_changes s F segs m' :
  loading s F segs -> r0 + Z.of_nat (length segs) <= 256 -> 0 <= r0 ->
  vm_inv root (Pmm.set_mem m' (vm s)) F -> changes root (in_buffer ph_addr sizeof_prog_header) (fun _ => False) F (Elf.memory_of s) F m' ->
  (forall a, ~ in_buffer ph_addr sizeof_prog_header a -> ld64 m' a = ld64 (Elf.memory_of s) a) ->
  (forall ph, ph ∈ segs -> fits c ph) -> loading (with_memory m' s) F segs.
Proof.
  intros [L1 L2 L3 L4 L5 L6 LE L7 L8 L9 LP L10] Hr Hr0 Hinv Hev Hw Hfit.
  assert (forall j, 0 <= j < 256 -> ld64 m' (mi + 16 * j) = ld64 (Elf.memory_of s) (mi + 16 * j) /\
    ld64 m' (mi + 16 * j + 8) = ld64 (Elf.memory_of s) (mi + 16 * j + 8)) as Hmi.
  { intros j Hj. destruct (region_word_page j) as [P1 P2]; [apply L5|done|]. split; apply Hw; intros Hb; destruct (L6 _ Hb) as (_ & _ & ?); congruence. }
  destruct Hev as [E1 E2 E3 E4].
  split; try done; change (Elf.memory_of (with_memory m' s)) with m'.
  - destruct L5 as (A1 & A2 & A3). split_and!; try done. intros Ht. by destruct (E2 _ Ht).
  - intros a Ha. destruct (L6 a Ha) as (A1 & A2 & A3). split_and!; try done. intros Ht. by destruct (E2 _ Ht).
  - intros a Ha. destruct (LE a Ha) as (A1 & A2). split; [|done]. intros Ht. by destruct (E2 _ Ht).
  - intros j Hj. unfold mr_va. rewrite (proj1 (Hmi j ltac:(lia))). by apply L7.
  - intros j Hj. unfold mr_va. rewrite (proj1 (Hmi j ltac:(lia))). by apply L8.
  - intros ph Hph x Hx. eapply (sealed_changes root kernel_words (fun _ => False)); [| |tauto|by apply L9].
    + apply (changes_mono root (in_buffer ph_addr sizeof_prog_header) _ (fun _ => False)); [intros a; by left; left|done|by split].
    + destruct (Hfit ph Hph) as [F1 F2 _ _]. unfold in_segment in Hx. lia.
  - intros ph Hph x Hx. destruct (Hfit ph Hph) as [F1 F2 _ _]. rewrite E4; [by apply LP|unfold in_segment in Hx; lia|tauto].
  - intros k ph Hk. rewrite <- (L10 k ph Hk). apply lookup_lt_Some in Hk.
    apply region_words; [destruct L5 as [A _]; clear -A; unfold PGSIZE in *; zlia|].
    destruct (Hmi (r0 + Z.of_nat k)) as [H1 H2]; [lia|]. intros a [->| ->]; done.
Qed.

(** A segment is loaded next. *)
Lemma loading_segment s F segs ph :
  loading s F segs -> 0 <= r0 -> r0 + Z.of_nat (length segs) < 256 -> (forall ph, ph ∈ segs -> fits c ph) -> fits c ph ->
  3 * seg_pages ph <= Z.of_nat (length F) -> (forall x, in_pages ph x -> xlate root (Elf.memory_of s) x = None) ->
  exists v' F', let s' := Elf.set_kernel (with_pmm v' (with_procs
      (<[p := set_regions (r0 + Z.of_nat (length (segs ++ [ph]))) proc]> (procs (Elf.kernel s))) (Elf.kernel s))) s in
    Elf.load_segment (FPtr i) p ph s = Ret EL_OK s' /\ loading s' F' (segs ++ [ph]) /\
    (length F <= length F' + 3 * Z.to_nat (seg_pages ph))%nat /\
    (Pmm.free_mem_start_addr v' = Pmm.free_mem_start_addr (vm s) /\ Pmm.free_mem_end_addr v' = Pmm.free_mem_end_addr (vm s)) /\
    changes root loader_words (in_pages ph) F (Elf.memory_of s) F' (Pmm.mem v').
Proof.
  intros [L1 L2 L3 L4 (Mi1 & Mi2 & Mi3) L6 LE L7 L8 L9 LP L10] Hr0 Hr Hfit [F1 F2 F3 F4] Hroom Hun.
  set (r := r0 + Z.of_nat (length segs)) in *. set (q := set_regions r proc) in *.
  assert (0 <= r) as Hr' by (unfold r; lia).
  destruct (load_segment_ok s F p q i c ph (seg_type_of ph)) as (v' & F' & P & perm & j & E & [S1 S2 S3 S4 S5 S6 S7 S8 S9 S10 S11 S12 S13 S14]).
  { split; try done; try lia; [by exists fd, rc|]. exists (Z.to_nat r). split; [lia|]. apply L8. lia. }
  change (pagetable q) with root in *. change (mapped_info q) with mi in *.
  assert (j = r) as -> by (destruct S13 as (-> & _ & _); apply last_region_at; [lia|exact L7|apply L8; lia]).
  destruct (seg_pages_eq ph) as (G1 & G2 & G3 & G4 & G5); [lia..|].
  exists v', F'. cbv zeta. set (s' := Elf.set_kernel _ s).
  assert (Elf.memory_of s' = Pmm.mem v') as Em by done.
  assert (changes root loader_words (in_pages ph) F (Elf.memory_of s) F' (Pmm.mem v')) as Hev.
  { split; try done. intros a Ht Hf Ho. destruct (region_word_page r) as [P1 P2]; [done|lia|]. apply S6; try done; intros ->; apply Ho; by right. }
  assert (forall k, 0 <= k < 256 -> k <> r -> ld64 (Pmm.mem v') (mi + 16 * k) = ld64 (Elf.memory_of s) (mi + 16 * k) /\
    ld64 (Pmm.mem v') (mi + 16 * k + 8) = ld64 (Elf.memory_of s) (mi + 16 * k + 8)) as Hmi.
  { intros k Hk Hne. destruct (region_word_page k) as [P1 P2]; [done..|]. split; apply S6; rewrite ?P1, ?P2; try done; lia. }
  split_and!; try done; try apply S4.
  - rewrite E. unfold s'. do 4 f_equal. rewrite (list_alter_insert_eq _ p _ q) by done. f_equal.
    rewrite length_app. unfold q, set_regions. simpl. f_equal. unfold r. lia.
  - split; rewrite ?Em; try done.
    + simpl. apply list_lookup_insert_eq. by apply lookup_lt_Some in L1.
    + change (vm s') with v'. destruct S4 as [_ ->]. done.
    + split_and!; [done|by intros ?%S2|intros Ht; by destruct (S5 _ Ht)].
    + intros a Ha. destruct (L6 a Ha) as (A1 & A2 & A3). split_and!; [intros Ht; by destruct (S5 _ Ht)|by intros ?%S2|done].
    + intros a Ha. destruct (LE a Ha) as (A1 & A2). split; [intros Ht; by destruct (S5 _ Ht)|by intros ?%S2].
    + intros k Hk. rewrite length_app in Hk. simpl in Hk. destruct (decide (k = r)) as [->|Hne].
      * unfold region in S14. injection S14 as -> _ _. lia.
      * unfold mr_va. rewrite (proj1 (Hmi k ltac:(lia) Hne)). apply L7. lia.
    + intros k Hk. rewrite length_app in Hk. simpl in Hk. unfold mr_va. rewrite (proj1 (Hmi k ltac:(lia) ltac:(lia))). apply L8. lia.
    + intros ph' Hph x Hx. apply elem_of_app in Hph as [Hph|Hph%list_elem_of_singleton].
      * pose proof (L9 ph' Hph x Hx) as Hs. destruct (Hfit ph' Hph) as [A1 A2 _ _].
        apply (sealed_changes root kernel_words (in_pages ph) F (Elf.memory_of s));
          [by eapply changes_mono; [intros a; by left|by intros ? HX; exact HX|]|unfold in_segment in Hx; lia| |done].
        intros Hin. apply Hun in Hin. destruct Hs as [Hs _]. unfold vbyte in Hs. by rewrite Hin in Hs.
      * subst ph'. unfold in_segment in Hx. assert (seg_first ph <= x < seg_first ph + Z.of_nat (length P) * PGSIZE) as Hx' by (rewrite S10; lia).
        split; [rewrite (vbyte_seg root _ F' (seg_first ph) P perm x) by (done || tauto); f_equal; by apply S12|].
        destruct (seg_split (seg_first ph) P x G1 Hx') as (k & pa & o & Hk & Ho & Ex & Eo).
        destruct S8 as [_ S8]. destruct (S8 k pa Hk) as (B1 & B2 & B3 & B4 & B5). intros e.
        rewrite (xlate_same_page root _ x (seg_first ph + Z.of_nat k * PGSIZE)) by (clear -G1 Ho Ex; unfold same_page, PGSIZE in *; zlia).
        rewrite B5. intros [= <-]. rewrite entry_pa by (done || lia || tauto).
        replace (ROUNDDOWN pa PGSIZE) with pa by (clear -B1; unfold ROUNDDOWN, PGSIZE in *; zlia).
        assert (pa ∈ F) as HpF by (apply S11; by eapply list_elem_of_lookup_2). split_and!; try done.
        intros a <- [[Ha|Ha]|Ha]; [by destruct (L6 a Ha) as (_ & ? & _)|by rewrite Ha in HpF|by destruct (LE a Ha)].
    + intros ph' Hph x Hx. apply elem_of_app in Hph as [Hph|Hph%list_elem_of_singleton].
      * destruct (Hfit ph' Hph) as [A1 A2 _ _]. destruct (LP ph' Hph x Hx) as [pa Hpa]. exists pa.
        rewrite S7; [done|unfold in_segment in Hx; lia|]. intros Hin. by rewrite (Hun x Hin) in Hpa.
      * subst ph'. unfold in_segment in Hx. destruct (seg_split (seg_first ph) P x G1) as (k & pa & o & Hk & Ho & Ex & Eo); [rewrite S10; lia|].
        pose proof (sm_page _ _ _ _ _ _ S8 k pa Hk) as (B1 & B2 & B3 & B4 & B5). exists pa.
        rewrite (xlate_same_page root _ x (seg_first ph + Z.of_nat k * PGSIZE)) by (clear -G1 Ho Ex; unfold same_page, PGSIZE in *; zlia).
        destruct S9 as [_ ->]. exact B5.
    + intros k ph' Hk. apply lookup_app_Some in Hk as [Hk|[Hle Hk]].
      * rewrite <- (L10 k ph' Hk). apply lookup_lt_Some in Hk. apply region_words; [clear -Mi1; unfold PGSIZE in *; zlia|].
        destruct (Hmi (r0 + Z.of_nat k)) as [A B]; [lia|lia|]. intros a [->| ->]; done.
      * apply list_lookup_singleton_Some in Hk as [Hk <-]. replace (r0 + Z.of_nat k) with r by (unfold r; lia). done.
Qed.

Lemma set_procs_kernel v l s : Elf.set_kernel (with_pmm v (with_procs l (Elf.kernel s))) s =
  Elf.mk (with_pmm v (with_procs l (Elf.kernel s))) (Elf.host s) (Elf.spike_fds s) (Elf.spike_files s) (Elf.lock s).
Proof. done. Qed.

(** What the loop leaves: the process with all its segments. *)
Record loaded_all s F segs loads s' F' : Prop := {
  la_loading : loading s' F' (segs ++ loads);
  la_changes : changes root loader_words (fun x => exists ph, ph ∈ loads /\ in_pages ph x) F (Elf.memory_of s) F' (Elf.memory_of s');
  la_bounds : Pmm.free_mem_start_addr (vm s') = Pmm.free_mem_start_addr (vm s) /\ Pmm.free_mem_end_addr (vm s') = Pmm.free_mem_end_addr (vm s);
  la_state : s' = Elf.set_kernel (with_pmm (vm s') (with_procs
    (<[p := set_regions (r0 + Z.of_nat (length (segs ++ loads))) proc]> (procs (Elf.kernel s))) (Elf.kernel s))) s;
}.

Lemma load_headers_ok hs : forall off s F segs,
  loading s F segs -> 0 <= r0 -> (forall ph, ph ∈ segs -> fits c ph) ->
  (forall k ph, hs !! k = Some ph -> ph = prog_header_at c (off + sizeof_prog_header * Z.of_nat k)) ->
  0 <= off -> off + sizeof_prog_header * Z.of_nat (length hs) <= Z.of_nat (length c) -> 
  off + sizeof_prog_header * Z.of_nat (length hs) < 2 ^ 31 ->
  let loads := filter is_load hs in
  (forall ph, ph ∈ loads -> fits c ph) -> r0 + Z.of_nat (length segs) + Z.of_nat (length loads) <= 256 ->
  (pages_needed loads <= length F)%nat -> ForallOrdPairs apart_pages loads ->
  (forall ph x, ph ∈ loads -> in_pages ph x -> xlate root (Elf.memory_of s) x = None) ->
  exists s' F', Elf.load_headers ph_addr (length hs) (FPtr i) p off s = Ret EL_OK s' /\ loaded_all s F segs loads s' F'.
Proof.
  induction hs as [|h hs IH]; intros off s F segs Hld Hr0 Hfs Hhs Hoff Hlen Hint loads Hfit Hr Hroom Hap Hun.
  - exists s, F. split; [done|]. unfold loads. change (filter is_load []) with (@nil elf_prog_header). split; rewrite ?app_nil_r; try done.
    + apply changes_refl.
    + rewrite list_insert_id by apply Hld. by destruct s as [[] ? ? ? ?].
  - rewrite length_cons in *. unfold sizeof_prog_header in Hlen, Hint.
    assert (h = prog_header_at c off) as Hh by (rewrite (Hhs O h eq_refl); f_equal; lia).
    destruct (fpread_buffer s F ph_addr sizeof_prog_header off) as (m1 & E1 & Hm1 & Hinv1 & Hev1 & Hw1);
      [apply Hld|apply Hld|lia|unfold sizeof_prog_header; lia|unfold sizeof_prog_header; lia|intros a Ha; destruct (lg_buffer _ _ _ Hld a Ha) as (? & ? & _); done|].
    pose proof (loading_changes s F segs m1 Hld ltac:(lia) Hr0 Hinv1 Hev1 Hw1 Hfs) as Hld1.
    assert (read_prog_header m1 ph_addr = h) as Eh by (rewrite Hh; apply read_prog_header_eq; [done|lia|unfold sizeof_prog_header; lia]).
    assert (forall k ph, hs !! k = Some ph -> ph = prog_header_at c (off + 56 + 56 * Z.of_nat k)) as Hhs'.
    { intros k ph Hk. rewrite (Hhs (S k) ph Hk). f_equal. unfold sizeof_prog_header. lia. }
    cbn [Elf.load_headers]. rewrite u64_small by lia. mstep E1. rewrite Z.eqb_refl. cbn [negb]. rewrite bind_gets.
    change (Elf.memory_of (with_memory m1 s)) with m1. rewrite Eh. replace (i32 (off + sizeof_prog_header)) with (off + 56)
      by (unfold sizeof_prog_header; symmetry; apply i32_small; lia).
    assert (Hev1' : changes root loader_words (fun _ => False) F (Elf.memory_of s) F m1)
      by (apply (changes_mono root (in_buffer ph_addr sizeof_prog_header) _ (fun _ => False)); [intros a; by left|done|done]).
    assert (forall x, 0 <= x < MAXVA -> xlate root m1 x = xlate root (Elf.memory_of s) x) as Hx1 by (intros x Hx; apply (ev_xlate _ _ _ _ _ _ _ Hev1); [done|tauto]).
    unfold loads in *. destruct (decide (is_load h)) as [Hl|Hl].
    + rewrite filter_cons_True in * by done. unfold is_load in Hl. rewrite Hl. cbn [negb Z.eqb Pos.eqb ELF_PROG_LOAD].
      assert (forall ph, ph ∈ filter is_load hs -> ph ∈ h :: filter is_load hs) as Hin by (intros ph; rewrite elem_of_cons; tauto).
      assert (fits c h) as Hfh by (apply Hfit; rewrite elem_of_cons; by left).
      assert (forall ph, fits c ph -> forall x, in_pages ph x -> 0 <= x < MAXVA) as Hrange.
      { intros ph [B1 B2 _ _] x Hx. destruct (seg_pages_eq ph) as (G1 & G2 & G3 & G4 & G5); [lia..|]. unfold in_pages in Hx. lia. }
      rewrite length_cons in Hr. change (pages_needed (h :: filter is_load hs)) with (3 * Z.to_nat (seg_pages h) + pages_needed (filter is_load hs))%nat in Hroom.
      destruct (loading_segment (with_memory m1 s) F segs h) as (v2 & F2 & E2 & Hld2 & Hroom2 & Hb2 & Hev2); try done; try lia.
      { intros x Hx. change (Elf.memory_of (with_memory m1 s)) with m1. rewrite Hx1 by (by apply (Hrange h)). apply (Hun h); [apply elem_of_cons; by left|done]. }
      mstep E2. set (s2 := Elf.set_kernel _ _) in *. assert (List.Forall (apart_pages h) (filter is_load hs) /\ ForallOrdPairs apart_pages (filter is_load hs)) as [Hap1 Hap2] by (clear -Hap; by inversion Hap).
      change (Elf.memory_of (with_memory m1 s)) with m1 in Hev2. change (Pmm.mem v2) with (Elf.memory_of s2) in Hev2.
      destruct (IH (off + 56) s2 F2 (segs ++ [h])) as (s' & F' & E' & [A1 A2 A3 A4]); try done; try (rewrite length_app; simpl; lia); try (unfold sizeof_prog_header; lia).
      { intros ph Hph. apply elem_of_app in Hph as [|Hph%list_elem_of_singleton]; [auto|by subst]. }
      { auto. }
      { intros ph x Hph Hx. assert (0 <= x < MAXVA) as Hxr by (apply (Hrange ph); auto).
        rewrite (ev_xlate _ _ _ _ _ _ _ Hev2 x Hxr); [rewrite Hx1 by done; apply (Hun ph); auto|].
        intros Hx'. rewrite List.Forall_forall in Hap1. specialize (Hap1 ph ltac:(by apply list_elem_of_In)). unfold apart_pages, in_pages in *. lia. }
      exists s', F'. split; [exact E'|]. rewrite <- app_assoc in A1, A4. split; try done.
      * eapply changes_mono; [by intros a Ha; exact Ha| |exact (changes_trans _ _ _ _ _ _ _ _ _ _ Hev1' (changes_trans _ _ _ _ _ _ _ _ _ _ Hev2 A2))].
        intros x [[]|[Hx|(ph & Hph & Hx)]]; [exists h|exists ph]; (split; [rewrite elem_of_cons; auto|done]).
      * destruct A3 as [-> ->]. exact Hb2.
      * rewrite A4 at 1. unfold s2. simpl. by rewrite list_insert_insert_eq.
    + rewrite filter_cons_False in * by done. unfold is_load in Hl. destruct (Z.eqb_spec (p_type h) ELF_PROG_LOAD); [done|]. cbn [negb].
      destruct (IH (off + 56) (with_memory m1 s) F segs) as (s' & F' & E' & [A1 A2 A3 A4]); try done; try lia; try (unfold sizeof_prog_header; lia).
      { intros ph x Hph Hx. change (Elf.memory_of (with_memory m1 s)) with m1. rewrite Hx1; [by apply (Hun ph)|].
        destruct (Hfit ph Hph) as [B1 B2 _ _]. destruct (seg_pages_eq ph) as (G1 & G2 & G3 & G4 & G5); [lia..|]. unfold in_pages in Hx. lia. }
      exists s', F'. split; [exact E'|]. split; try done.
      eapply changes_mono; [by intros a Ha; exact Ha| |exact (changes_trans _ _ _ _ _ _ _ _ _ _ Hev1' A2)]. by intros x [[]|].
Qed.
End program.

(** ** Starting a program *)
(** A program that the loader accepts. *)
Record valid_program (c : list Z) : Prop := {
  vp_header : sizeof_header <= Z.of_nat (length c) < 2 ^ 64 /\ magic (elf_header_at c) = ELF_MAGIC;
  vp_table : 0 <= phoff (elf_header_at c) /\ 0 <= phnum (elf_header_at c) /\
    let last := phoff (elf_header_at c) + sizeof_prog_header * phnum (elf_header_at c) in last <= Z.of_nat (length c) /\ last < 2 ^ 31;
  vp_fits : forall ph, ph ∈ load_segments c -> fits c ph;
  vp_apart : ForallOrdPairs apart_pages (load_segments c);
}.

(** What the host promises when the kernel was started with the program [name]
    as its argument: [getmainvars] fills the buffer with the number of arguments,
    the pointers to them and, after those, their text; and the file opens and has
    the contents [c]. *)
Record boot_host {H} `{HF : HostFiles H} (h : H) (name c : list Z) : Prop := {
  bh_args : forall m buf, buf mod 8 = 0 -> exists m' argc,
    let ptr := ld64 m' (buf + 16) in
    frontend [HTIFSYS_getmainvars; buf; 8 * MAX_CMDLINE_ARGS; 0; 0; 0; 0; 0] m h = (0, m', h) /\
    2 <= argc < MAX_CMDLINE_ARGS - 2 /\ ld64 m' buf = argc /\
    str_at m' ptr name /\ buf + 8 * (argc + 1) <= ptr /\
    (forall a, ~ in_buffer buf (8 * MAX_CMDLINE_ARGS) a -> m' !! a = m !! a);
  bh_open : forall m fn, str_at m fn name -> exists fd h',
    frontend [HTIFSYS_openat; AT_FDCWD; fn; Z.of_nat (length name) + 1; 0; 0; 0; 0] m h = (fd, m, h') /\
    0 <= fd < MAX_FDS /\ contents h' fd = Some c;
  bh_name : (length name <= Spike.name_fuel)%nat;
}.

Section bincode.
Context {H : Type} `{HFiles : HostFiles H}.
Implicit Types s : Elf.state H.
Context (ehdr_addr ph_addr arg_addr : Z).

(** Words of the table of arguments are moved down by two. *)
Lemma shift_args_ok n : forall j s, 0 <= j -> 2 + j + Z.of_nat n <= MAX_CMDLINE_ARGS ->
  exists m', Elf.shift_args arg_addr n j s = Ret tt (with_memory m' s) /\
    (forall k, j <= k < j + Z.of_nat n -> ld64 m' (arg_addr + 8 * k) = ld64 (Elf.memory_of s) (arg_addr + 8 * (2 + k))) /\
    (forall a, (forall k, j <= k < j + Z.of_nat n -> a <> arg_addr + 8 * k) -> m' !! a = Elf.memory_of s !! a).
Proof.
  induction n as [|n IH]; intros j s Hj Hmax.
  - exists (Elf.memory_of s). rewrite with_memory_same. split_and!; try done. lia.
  - cbn [Elf.shift_args]. destruct (Z.leb_spec MAX_CMDLINE_ARGS (2 + j)); [unfold MAX_CMDLINE_ARGS in *; lia|].
    set (m1 := st64 (Elf.memory_of s) (arg_addr + 8 * j) (ld64 (Elf.memory_of s) (arg_addr + 8 * (2 + j)))).
    destruct (IH (j + 1) (with_memory m1 s)) as (m' & E & Hr & Hf); [lia|lia|].
    change (Elf.memory_of (with_memory m1 s)) with m1 in Hr, Hf. exists m'. split_and!.
    + etransitivity; [|exact E]. done.
    + intros k Hk. destruct (decide (k = j)) as [->|Hne].
      * unfold ld64 at 1. rewrite Hf by lia. unfold m1. fold (ld64 m1 (arg_addr + 8 * j)). apply ld64_st64_eq.
      * rewrite Hr by lia. apply ld64_st64_ne. lia.
    + intros a Ha. rewrite Hf by (intros k Hk; apply Ha; lia). unfold m1, st64. rewrite lookup_insert_ne; [done|]. intros <-. by apply (Ha j); [lia|].
Qed.

(** A string is not changed by what is written elsewhere. *)
Lemma str_at_frame m m' q l : (forall a, q <= a < q + Z.of_nat (length l) + 1 -> m' !! wbase a = m !! wbase a) -> str_at m q l -> str_at m' q l.
Proof.
  intros Hm [H1 H2]. split.
  - intros k b Hk. pose proof (lookup_lt_Some _ _ _ Hk). destruct (H1 k b Hk) as [<- ?]. split; [|done]. unfold ld8, ld64. by rewrite Hm by lia.
  - rewrite <- H2. unfold ld8, ld64. by rewrite Hm by lia.
Qed.


Lemma parse_args_ok s name c : boot_host (Elf.host s) name c -> Elf.lock s = 0 -> arg_addr mod 8 = 0 ->
  exists m' argc, Elf.parse_args arg_addr s = Ret argc (with_memory m' s) /\ argc <> 0 /\
    str_at m' (ld64 m' arg_addr) name /\
    (forall a, ~ in_buffer arg_addr (8 * MAX_CMDLINE_ARGS) a -> ld64 m' a = ld64 (Elf.memory_of s) a).
Proof.
  intros [Hargs _ _] Hl Ha. destruct (Hargs (Elf.memory_of s) arg_addr Ha) as (m1 & argc & E & Hc & Hargc & Hstr & Hptr & Hf).
  set (s1 := with_memory m1 s). unfold MAX_CMDLINE_ARGS in Hc.
  destruct (shift_args_ok (Z.to_nat (argc - 1)) 0 s1) as (m2 & E2 & Hr & Hf2); [lia|unfold MAX_CMDLINE_ARGS; lia|].
  change (Elf.memory_of s1) with m1 in Hr, Hf2.
  exists m2, (argc - 1). split_and!.
  - unfold Elf.parse_args.
    assert (Elf.on_spike (Spike.call HTIFSYS_getmainvars arg_addr (8 * MAX_CMDLINE_ARGS) 0 0 0) s = Ret 0 s1) as E1.
    { unfold Elf.on_spike, zoom. rewrite (call_eq (Elf.to_spike s) _ _ _ _ _ _ 0 m1 (Elf.host s) Hl E).
      f_equal. destruct s as [k h fds fs l]. simpl in *. by subst l. }
    mstep E1. change (negb (0 =? 0)) with false. cbn iota. rewrite bind_gets. change (Elf.memory_of s1) with m1. rewrite Hargc.
    mstep E2. unfold ret. rewrite u64_small by lia. done.
  - lia.
  - specialize (Hr 0 ltac:(lia)). rewrite Z.mul_0_r, Z.add_0_r in Hr. rewrite Hr. replace (arg_addr + 8 * (2 + 0)) with (arg_addr + 16) by lia.
    refine (str_at_frame m1 m2 _ _ _ Hstr). intros a Haddr. apply Hf2. intros k Hk. unfold wbase. clear -Haddr Hptr Hk Ha. zlia.
  - intros a Hb. unfold ld64. rewrite Hf2, Hf; [done|done|]. intros k Hk ->. apply Hb. unfold in_buffer, MAX_CMDLINE_ARGS. clear -Hk Hc Ha. zlia.
Qed.

(** ** A process ready to get its program *)
Section start.
Context (p : nat) (proc : process).
Notation root := (pagetable proc).
Notation mi := (mapped_info proc).
Notation tf := (trapframe proc).

(** A page or a buffer of the kernel: no table, not free. *)
Definition owned_page (m : memory) (F : list Z) (q : Z) : Prop := ~ is_table root m q /\ q ∉ F.
Definition kernel_buffer (m : memory) (F : list Z) (b n : Z) : Prop :=
  forall a, in_buffer b n a -> let q := ROUNDDOWN a PGSIZE in owned_page m F q /\ q <> mi /\ q <> tf.

Record ready_process s (F : list Z) : Prop := {
  rp_proc : procs (Elf.kernel s) !! p = Some proc;
  rp_inv : vm_inv root (vm s) F;
  rp_end : Pmm.free_mem_end_addr (vm s) + PGSIZE < 2 ^ 64;
  rp_info : mi mod PGSIZE = 0 /\ owned_page (Elf.memory_of s) F mi;
  rp_frame : tf mod PGSIZE = 0 /\ tf <> 0 /\ tf <> mi /\ owned_page (Elf.memory_of s) F tf;
  rp_regions : 0 <= total_mapped_region proc /\
    (forall j, 0 <= j < total_mapped_region proc -> ld64 (Elf.memory_of s) (mr_va mi j) <> 0) /\
    (forall j, total_mapped_region proc <= j < 256 -> ld64 (Elf.memory_of s) (mr_va mi j) = 0);
  rp_ehdr : kernel_buffer (Elf.memory_of s) F ehdr_addr sizeof_header;
  rp_ph : kernel_buffer (Elf.memory_of s) F ph_addr sizeof_prog_header;
  rp_arg : kernel_buffer (Elf.memory_of s) F arg_addr (8 * MAX_CMDLINE_ARGS) /\ arg_addr mod 8 = 0;
  rp_apart : forall a, in_buffer ehdr_addr sizeof_header a -> ~ in_buffer ph_addr sizeof_prog_header a;
}.

(** Writing into buffers of the kernel keeps the process ready. *)
Lemma ready_write s F (out : Z -> Prop) m' t : ready_process s F ->
  (forall a, out a -> let q := ROUNDDOWN a PGSIZE in owned_page (Elf.memory_of s) F q /\ q <> mi) ->
  (forall a, ~ out a -> ld64 m' a = ld64 (Elf.memory_of s) a) ->
  Elf.kernel t = Elf.kernel (with_memory m' s) ->
  total_mapped_region proc <= 256 ->
  ready_process t F /\ changes root out (fun _ => False) F (Elf.memory_of s) F m'.
Proof.
  intros [R1 R2 R3 R4 R5 R6 R7 R8 R9 R10] Ho Hm Ht H256.
  destruct (vm_inv_changes root out F (vm s) m' R2) as [Hinv Hev]; [intros a Ha; apply (Ho a Ha)|done|].
  split; [|exact Hev]. assert (Elf.memory_of t = m') as Em by (unfold Elf.memory_of, Process.mem; by rewrite Ht).
  assert (forall q, owned_page (Elf.memory_of s) F q -> owned_page m' F q) as Hq.
  { intros q [Q1 Q2]. split; [|done]. intros Hq. by destruct (ev_table _ _ _ _ _ _ _ Hev q Hq). }
  assert (forall b n, kernel_buffer (Elf.memory_of s) F b n -> kernel_buffer m' F b n) as Hb by (intros b n Hb a Ha; destruct (Hb a Ha); auto).
  assert (forall j, 0 <= j < 256 -> ld64 m' (mr_va mi j) = ld64 (Elf.memory_of s) (mr_va mi j)) as Hj.
  { intros j Hj. apply Hm. intros Hoj. destruct (Ho _ Hoj) as [_ Hne]. apply Hne. unfold mr_va. by apply region_word_page; [apply R4|]. }
  split; rewrite ?Em; auto; try (unfold vm; rewrite Ht; auto; fail).
  - destruct R4; auto.
  - destruct R5 as (? & ? & ? & ?); auto.
  - destruct R6 as (? & A & B). split_and!; [done|..]; intros j Hj'; rewrite Hj by lia; auto.
  - destruct R9; auto.
Qed.

(** What the loader writes in the kernel's own memory around the loop. *)
Definition frame_words (a : Z) : Prop := ROUNDDOWN a PGSIZE = tf.
Definition around (a : Z) : Prop := in_buffer ehdr_addr sizeof_header a \/ frame_words a.

(** The program is opened: the first free entry of the table of host files. *)
Lemma open_program s F name c i f :
  ready_process s F -> total_mapped_region proc <= 256 -> boot_host (Elf.host s) name c -> Elf.lock s = 0 ->
  Spike.free_entry (Elf.spike_files s) = Some i -> Elf.spike_files s !! i = Some f ->
  exists m1 h' fd, let s2 := Elf.mk (with_pmm (Pmm.set_mem m1 (vm s)) (Elf.kernel s)) h' (Elf.spike_fds s)
      (<[i := mk_spike_file fd 3]> (Elf.spike_files s)) 0 in
    (forall A (k : Z -> M (Elf.state H) A) (k' : file_ptr -> M (Elf.state H) A),
      (forall argc, argc <> 0 -> k argc = bind (gets (fun s => ld64 (Elf.memory_of s) arg_addr)) (fun name =>
         bind (Elf.on_spike (Spike.spike_file_open name 0 0)) k')) ->
      bind (Elf.parse_args arg_addr) k s = k' (FPtr i) s2) /\
    ready_process s2 F /\ file_open i fd 3 c s2 /\ 0 <= fd < MAX_FDS /\
    changes root (in_buffer arg_addr (8 * MAX_CMDLINE_ARGS)) (fun _ => False) F (Elf.memory_of s) F m1.
Proof.
  intros Hr H256 Hh Hl Hi Hf. destruct (parse_args_ok s name c Hh Hl ltac:(apply Hr)) as (m1 & argc & E1 & Hargc & Hstr & Hm1).
  destruct Hh as [_ Hopen Hname]. destruct (Hopen m1 _ Hstr) as (fd & h' & E2 & Hfd & Hcont).
  exists m1, h', fd. cbv zeta. set (s2 := Elf.mk _ _ _ _ _).
  destruct (ready_write s F (in_buffer arg_addr (8 * MAX_CMDLINE_ARGS)) m1 s2 Hr) as [Hr2 Hev]; try done.
  { intros a Ha. destruct (rp_arg _ _ Hr) as [Hb _]. destruct (Hb a Ha) as (? & ? & ?). done. }
  split_and!; try done; try lia.
  - intros A k k' Hk. mstep E1. rewrite Hk by done. rewrite bind_gets. change (Elf.memory_of (with_memory m1 s)) with m1.
    assert (Elf.on_spike (Spike.spike_file_open (ld64 m1 arg_addr) 0 0) (with_memory m1 s) = Ret (FPtr i) s2) as E3.
    { unfold Elf.on_spike, zoom. rewrite (open_eq _ name 0 0 (Elf.to_spike (with_memory m1 s)) i f fd h'); try done; try lia.
      destruct (Z.leb_spec 0 fd); [|lia]. done. }
    by mstep E3.
  - unfold file_open. simpl. split_and!; try done. apply list_lookup_insert_eq. by eapply lookup_lt_Some.
Qed.

Lemma holds_words m m' b c off n : (forall a, in_buffer b n a -> ld64 m' a = ld64 m a) -> holds m b c off n -> holds m' b c off n.
Proof.
  intros Hm Hh k Hk. rewrite <- Hh by done. unfold ld8. rewrite Hm; [done|]. unfold in_buffer, wbase. clear -Hk. zlia.
Qed.

Lemma length_prog_headers c : length (prog_headers c) = Z.to_nat (phnum (elf_header_at c)).
Proof. unfold prog_headers. by rewrite length_map, length_seq. Qed.

(** The words the loader writes in the kernel's own memory. *)
Definition load_words (a : Z) : Prop := in_buffer ehdr_addr sizeof_header a \/ loader_words ph_addr proc a.
Definition in_program (c : list Z) (x : Z) : Prop := exists ph, ph ∈ load_segments c /\ in_pages ph x.

(** The opened program is loaded. *)
Record program_read s (F : list Z) (c : list Z) (i : nat) (fd : Z) s' (F' : list Z) : Prop := {
  pr_loading : loading ph_addr p proc i fd 3 c around s' F' (load_segments c);
  pr_header : read_header (Elf.memory_of s') ehdr_addr = elf_header_at c;
  pr_changes : changes root load_words (in_program c) F (Elf.memory_of s) F' (Elf.memory_of s');
  pr_bounds : Pmm.free_mem_start_addr (vm s') = Pmm.free_mem_start_addr (vm s) /\ Pmm.free_mem_end_addr (vm s') = Pmm.free_mem_end_addr (vm s);
  pr_state : s' = Elf.set_kernel (with_pmm (vm s') (with_procs
    (<[p := set_regions (total_mapped_region proc + Z.of_nat (length (load_segments c))) proc]> (procs (Elf.kernel s))) (Elf.kernel s))) s;
}.

Lemma read_program s F c i fd :
  ready_process s F -> file_open i fd 3 c s -> valid_program c ->
  total_mapped_region proc + Z.of_nat (length (load_segments c)) <= 256 -> (pages_needed (load_segments c) <= length F)%nat ->
  (forall x, in_program c x -> xlate root (Elf.memory_of s) x = None) ->
  exists s1 s' F', Elf.elf_init ehdr_addr (FPtr i) s = Ret EL_OK s1 /\ Elf.elf_load ehdr_addr ph_addr (FPtr i) p s1 = Ret EL_OK s' /\
    program_read s F c i fd s' F'.
Proof.
  intros Hr Hopen [[[V1 V1'] V2] (V3 & V4 & V5 & V6) V7 V8] H256 Hroom Hun.
  destruct (fpread_buffer proc i fd 3 c s F ehdr_addr sizeof_header 0) as (m1 & E1 & Hm1 & Hinv1 & Hev1 & Hw1);
    [apply Hr|done|lia|unfold sizeof_header; lia|unfold sizeof_header in *; lia|intros a Ha; destruct (rp_ehdr _ _ Hr a Ha) as (? & _); done|].
  destruct (ready_write s F (in_buffer ehdr_addr sizeof_header) m1 (with_memory m1 s) Hr) as [Hr1 _]; try done; try lia.
  { intros a Ha. destruct (rp_ehdr _ _ Hr a Ha) as (? & ? & _). done. }
  assert (read_header m1 ehdr_addr = elf_header_at c) as Eh by (apply read_header_eq; [done|unfold sizeof_header in *; lia]).
  destruct Hr1 as [R1 R2 R3 (R4 & R4') (R5 & R5' & R5'' & R5o) (R6 & R6' & R6'') R7 R8 R9 R10].
  assert (loading ph_addr p proc i fd 3 c around (with_memory m1 s) F []) as Hld.
  { split; try done; rewrite ?Z.add_0_r; try done.
    - rewrite R1. f_equal. by destruct proc.
    - destruct R4'. done.
    - intros a Ha. destruct (R8 a Ha) as ([? ?] & ? & _). done.
    - intros a [Ha|Ha]; [destruct (R7 a Ha) as (? & _); done|]. by rewrite Ha.
    - intros ph Hph. by apply not_elem_of_nil in Hph.
    - intros ph Hph. by apply not_elem_of_nil in Hph. }
  destruct (load_headers_ok ph_addr p proc i fd 3 c around (prog_headers c) (phoff (elf_header_at c)) (with_memory m1 s) F [])
    as (s' & F' & E' & [A1 A2 A3 A4]); try done; try (rewrite length_prog_headers, Z2Nat.id by done; done).
  { intros ph Hph. by apply not_elem_of_nil in Hph. }
  { unfold prog_headers. intros k ph. rewrite list_lookup_fmap, fmap_Some. intros (k' & Hk & ->). apply lookup_seq in Hk as [-> _]. done. }
  { fold (load_segments c). simpl. lia. }
  { fold (load_segments c). intros ph x Hph Hx. change (Elf.memory_of (with_memory m1 s)) with m1. rewrite (ev_xlate _ _ _ _ _ _ _ Hev1); [by apply Hun; exists ph| |tauto].
    destruct (V7 ph Hph) as [B1 B2 _ _]. destruct (seg_pages_eq ph) as (G1 & G2 & G3 & G4 & G5); [lia..|]. unfold in_pages in Hx. lia. }
  fold (load_segments c) in A1, A2, A4. change (Elf.memory_of (with_memory m1 s)) with m1 in A2. simpl app in A1, A4.
  exists (with_memory m1 s), s', F'. split_and!.
  - unfold Elf.elf_init. mstep E1. rewrite Z.eqb_refl. cbn [negb]. rewrite bind_gets. change (Elf.memory_of (with_memory m1 s)) with m1.
    rewrite Eh, V2. done.
  - unfold Elf.elf_load. rewrite bind_gets. change (Elf.memory_of (with_memory m1 s)) with m1. rewrite Eh.
    rewrite i32_small by (unfold sizeof_prog_header in V6; lia). rewrite <- length_prog_headers. exact E'.
  - split; try done.
    + apply read_header_eq; [|unfold sizeof_header in *; lia]. refine (holds_words m1 _ _ _ _ _ _ Hm1). intros a Ha.
      destruct (R7 a Ha) as ([Q1 Q2] & Q3 & _). apply (ev_frame _ _ _ _ _ _ _ A2); try done. intros [Hb|Hb]; [by apply (R10 a Ha)|done].
    + assert (changes root load_words (fun _ => False) F (Elf.memory_of s) F m1) as B1
        by (apply (changes_mono root (in_buffer ehdr_addr sizeof_header) _ (fun _ => False)); [by left|done|done]).
      assert (changes root load_words (in_program c) F m1 F' (Elf.memory_of s')) as B2
        by (apply (changes_mono root (loader_words ph_addr proc) _ (in_program c)); [by right|done|done]).
      apply (changes_mono root load_words load_words (fun x => False \/ in_program c x)); [done|by intros x [[]|?]|].
      exact (changes_trans _ _ _ _ _ _ _ _ _ _ B1 B2).
Qed.

(** Everything the loader writes in the kernel's own memory. *)
Definition start_words (a : Z) : Prop := in_buffer arg_addr (8 * MAX_CMDLINE_ARGS) a \/ load_words a \/ a = tf + tf_epc.

(** The process with its program, ready to run at the entry point. *)
Record program_started s (F : list Z) (c : list Z) (i : nat) s' (F' : list Z) (h' : H) (fd : Z) : Prop := {
  ps_inv : vm_inv root (vm s') F';
  ps_changes : changes root start_words (in_program c) F (Elf.memory_of s) F' (Elf.memory_of s');
  ps_bounds : Pmm.free_mem_start_addr (vm s') = Pmm.free_mem_start_addr (vm s) /\ Pmm.free_mem_end_addr (vm s') = Pmm.free_mem_end_addr (vm s);
  ps_bytes : forall ph x, ph ∈ load_segments c -> in_segment ph x -> sealed root frame_words F' (Elf.memory_of s') x (segment_byte c ph x);
  ps_perms : forall ph x, ph ∈ load_segments c -> in_segment ph x -> exists pa, xlate root (Elf.memory_of s') x = Some (entry pa (seg_perm ph));
  ps_entry : ld64 (Elf.memory_of s') (tf + tf_epc) = h_entry (elf_header_at c);
  ps_regions : forall k ph, load_segments c !! k = Some ph ->
    region (Elf.memory_of s') mi (total_mapped_region proc + Z.of_nat k) = (p_vaddr ph, seg_pages ph, seg_type_of ph);
  ps_state : s' = Elf.mk (with_pmm (vm s') (with_procs
      (<[p := set_regions (total_mapped_region proc + Z.of_nat (length (load_segments c))) proc]> (procs (Elf.kernel s))) (Elf.kernel s)))
    h' (Elf.spike_fds s) (<[i := mk_spike_file fd 2]> (Elf.spike_files s)) 0;
}.

(** The last word: where the process starts. *)
Lemma store_entry s F segs c i fd x :
  loading ph_addr p proc i fd 3 c around s F segs -> tf mod PGSIZE = 0 -> tf <> mi -> total_mapped_region proc + Z.of_nat (length segs) <= 256 ->
  0 <= total_mapped_region proc -> (forall ph, ph ∈ segs -> fits c ph) ->
  let m' := st64 (Elf.memory_of s) (tf + tf_epc) x in
  vm_inv root (Pmm.set_mem m' (vm s)) F /\ changes root (fun a => a = tf + tf_epc) (fun _ => False) F (Elf.memory_of s) F m' /\
  (forall ph y, ph ∈ segs -> in_segment ph y -> sealed root frame_words F m' y (segment_byte c ph y) /\ exists pa, xlate root m' y = Some (entry pa (seg_perm ph))) /\
  (forall k ph, segs !! k = Some ph -> region m' mi (total_mapped_region proc + Z.of_nat k) = (p_vaddr ph, seg_pages ph, seg_type_of ph)).
Proof.
  intros Hld Htf Hne Hr Hr0 Hfit m'.
  destruct (vm_inv_changes root (fun a => a = tf + tf_epc) F (vm s) m') as [Hinv Hev].
  { apply Hld. }
  { intros a ->. apply (lg_extra _ _ _ _ _ _ _ _ _ _ _ Hld). right. by apply page_word. }
  { intros a Ha. apply ld64_st64_ne. congruence. }
  split_and!; try done.
  - intros ph y Hph Hy. destruct (Hfit ph Hph) as [B1 B2 _ _]. assert (0 <= y < MAXVA) as Hyr by (unfold in_segment in Hy; lia). split.
    + apply (sealed_mono root (kernel_words ph_addr proc around)); [intros a Ha; right; by right|].
      apply (sealed_changes root (kernel_words ph_addr proc around) (fun _ => False) F (Elf.memory_of s) F m'); [|done|tauto|by apply Hld].
      apply (changes_mono root (fun a => a = tf + tf_epc) _ (fun _ => False)); [intros a ->; right; right; by apply page_word|done|done].
    + rewrite (ev_xlate _ _ _ _ _ _ _ Hev) by (done || tauto). by apply Hld.
  - intros k ph Hk. rewrite <- (lg_regions _ _ _ _ _ _ _ _ _ _ _ Hld k ph Hk). apply lookup_lt_Some in Hk.
    destruct (lg_info _ _ _ _ _ _ _ _ _ _ _ Hld) as (Hmi & _). apply region_words; [clear -Hmi; unfold PGSIZE in *; zlia|].
    destruct (region_word_page proc (total_mapped_region proc + Z.of_nat k) Hmi) as [P1 P2]; [lia|].
    assert (ROUNDDOWN (tf + tf_epc) PGSIZE = tf) as Pt by (by apply page_word).
    intros a [->| ->]; apply ld64_st64_ne; intros E; apply Hne; rewrite <- Pt; congruence.
Qed.

Lemma load_bincode_ok s F c name i f :
  ready_process s F -> valid_program c -> boot_host (Elf.host s) name c -> Elf.lock s = 0 ->
  Spike.free_entry (Elf.spike_files s) = Some i -> Elf.spike_files s !! i = Some f ->
  Z.of_nat (length (Elf.spike_fds s)) = MAX_FDS -> (FPtr i ∉ Elf.spike_fds s) ->
  total_mapped_region proc + Z.of_nat (length (load_segments c)) <= 256 -> (pages_needed (load_segments c) <= length F)%nat ->
  (forall x, in_program c x -> xlate root (Elf.memory_of s) x = None) ->
  exists s' F' h' fd, Elf.load_bincode_from_host_elf ehdr_addr ph_addr arg_addr p s = Ret tt s' /\ program_started s F c i s' F' h' fd.
Proof.
  intros Hr Hv Hh Hl Hi Hf Hfds Hnot H256 Hroom Hun.
  destruct (open_program s F name c i f Hr ltac:(lia) Hh Hl Hi Hf) as (m1 & h' & fd & E1 & Hr2 & Hopen & Hfd & Hev1).
  set (s2 := Elf.mk _ h' _ _ _) in *. change (Elf.memory_of s2) with m1 in *.
  assert (forall x, 0 <= x < MAXVA -> xlate root m1 x = xlate root (Elf.memory_of s) x) as Hx1 by (intros x Hx; apply (ev_xlate _ _ _ _ _ _ _ Hev1); [done|tauto]).
  destruct (read_program s2 F c i fd Hr2 Hopen Hv H256 Hroom) as (s3 & s4 & F' & E3 & E4 & [A1 A2 A3 A4 A5]).
  { intros x (ph & Hph & Hx). rewrite Hx1; [apply Hun; by exists ph|]. destruct (vp_fits _ Hv ph Hph) as [B1 B2 _ _].
    destruct (seg_pages_eq ph) as (G1 & G2 & G3 & G4 & G5); [lia..|]. unfold in_pages in Hx. lia. }
  destruct (rp_frame _ _ Hr) as (T1 & T2 & T3 & _). destruct (rp_regions _ _ Hr) as (R0 & _).
  destruct (store_entry s4 F' (load_segments c) c i fd (h_entry (elf_header_at c)) A1 T1 T3 H256 R0 (vp_fits _ Hv)) as (Hinv & Hev & Hb & Hreg).
  set (m5 := st64 _ _ _) in *. set (s5 := with_memory m5 s4).
  assert (Elf.spike_files s4 = <[i := mk_spike_file fd 3]> (Elf.spike_files s) /\ Elf.spike_fds s4 = Elf.spike_fds s /\ Elf.host s4 = h' /\ Elf.lock s4 = 0)
    as (S1 & S2 & S3 & S4) by (rewrite A5; done).
  assert (i < length (Elf.spike_files s))%nat as Hlt by (by eapply lookup_lt_Some).
  destruct (lookup_lt_is_Some_2 (Elf.spike_fds s) (Z.to_nat fd)) as [q Hq]; [unfold MAX_FDS in *; lia|].
  assert (Elf.on_spike (Spike.spike_file_close (FPtr i)) s5 =
    Ret (-1) (Elf.mk (Elf.kernel s5) h' (Elf.spike_fds s) (<[i := mk_spike_file fd 2]> (Elf.spike_files s)) 0)) as E6.
  { unfold Elf.on_spike, zoom. rewrite (close_eq (Elf.to_spike s5) i (mk_spike_file fd 3) q).
    - unfold Elf.of_spike, Spike.set_files. simpl. rewrite S1, S2, S3, S4, list_insert_insert_eq. done.
    - simpl. rewrite S1. by apply list_lookup_insert_eq.
    - done.
    - simpl. lia.
    - simpl. by rewrite S2.
    - intros ->. apply Hnot. by eapply list_elem_of_lookup_2. }
  eexists _, F', h', fd. split.
  - unfold Elf.load_bincode_from_host_elf. erewrite (E1 _ _ (fun f => _)).
    2:{ intros argc Hargc. destruct (Z.eqb_spec argc 0); [done|]. reflexivity. }
    simpl. mstep E3. mstep E4.
    assert (Elf.on_kernel (get_proc p) s4 = Ret (set_regions (total_mapped_region proc + Z.of_nat (length (load_segments c))) proc) s4) as Eg.
    { unfold Elf.on_kernel, zoom, get_proc. rewrite (lg_proc _ _ _ _ _ _ _ _ _ _ _ A1). simpl. by destruct s4. }
    mstep Eg. rewrite bind_gets, A2. cbn [trapframe set_regions].
    assert (Elf.on_kernel (store (tf + tf_epc) (h_entry (elf_header_at c))) s4 = Ret tt s5) as Es by done.
    mstep Es. mstep E6. reflexivity.
  - assert (changes root start_words (fun _ => False) F (Elf.memory_of s) F m1) as B1
      by (apply (changes_mono root (in_buffer arg_addr (8 * MAX_CMDLINE_ARGS)) _ (fun _ => False)); [by left|done|done]).
    assert (changes root start_words (in_program c) F m1 F' (Elf.memory_of s4)) as B2
      by (apply (changes_mono root load_words _ (in_program c)); [by right; left|done|done]).
    assert (changes root start_words (fun _ => False) F' (Elf.memory_of s4) F' m5) as B3
      by (apply (changes_mono root (fun a => a = tf + tf_epc) _ (fun _ => False)); [by right; right|done|done]).
    split; try done.
    + apply (changes_mono root start_words start_words (fun x => False \/ in_program c x \/ False)); [done|by intros x [[]|[?|[]]]|].
      exact (changes_trans _ _ _ _ _ _ _ _ _ _ B1 (changes_trans _ _ _ _ _ _ _ _ _ _ B2 B3)).
    + intros ph x Hph Hx. by apply Hb.
    + intros ph x Hph Hx. by apply Hb.
    + apply ld64_st64_eq.
    + change (Elf.kernel s5) with (with_pmm (Pmm.set_mem m5 (vm s4)) (Elf.kernel s4)). rewrite A5 at 2. done.
Qed.
End start.

(** ** A new process is ready *)
Section created.
Context `{KS : KernelSymbols}.

Lemma below_page a b n lo : in_buffer b n a -> b + n <= lo -> ROUNDDOWN a PGSIZE < lo.
Proof. intros (_ & _ & Ha) Hb. unfold ROUNDDOWN, PGSIZE. clear -Ha Hb. zlia. Qed.

Lemma ready_created k F p0 v F' p st j (e : Elf.state H) :
  created k F p0 v F' p st -> Pmm.rep (pmm k) F -> layout (pmm k) -> (j < length (procs k))%nat ->
  Pmm.free_mem_end_addr (pmm k) + PGSIZE < 2 ^ 64 ->
  (forall b n, (b, n) ∈ [(ehdr_addr, sizeof_header); (ph_addr, sizeof_prog_header); (arg_addr, 8 * MAX_CMDLINE_ARGS)] ->
    b + n <= Pmm.free_mem_start_addr (pmm k)) ->
  arg_addr mod 8 = 0 -> (forall a, in_buffer ehdr_addr sizeof_header a -> ~ in_buffer ph_addr sizeof_prog_header a) ->
  Elf.kernel e = with_pmm v (with_procs (<[j := p]> (procs k)) k) ->
  ready_process j p e F'.
Proof.
  intros Hc Hrep Hly Hj Hend Hbuf Harg Hap Ee. assert (Elf.memory_of e = Pmm.mem v) as Em by (unfold Elf.memory_of, Process.mem; by rewrite Ee).
  assert (vm e = v) as Ev by (unfold vm; by rewrite Ee).
  pose proof (created_pages _ _ _ _ _ _ _ Hc Hrep) as Hpg. pose proof (created_not_table _ _ _ _ _ _ _ (mapped_info p) Hc) as Tmi.
  pose proof (created_not_table _ _ _ _ _ _ _ (trapframe p) Hc) as Ttf.
  pose proof Hc as [C1 [C2 C2'] _ [C4 _] _ [D1 D2 D3 _ _ _ _] C6].
  unfold own_pages in *. rewrite !NoDup_cons, !not_elem_of_cons in C4. destruct C4 as ((N1 & _ & _ & N4 & _) & (_ & _ & N5 & _) & _).
  destruct (Hpg (trapframe p)) as (A1 & A2 & A3 & A4 & A5); [apply elem_of_cons; by left|].
  destruct (Hpg (mapped_info p)) as (B1 & B2 & B3 & B4 & B5); [rewrite !elem_of_cons; tauto|].
  assert (~ is_table (pagetable p) (Pmm.mem v) (mapped_info p)) as Tmi' by (apply Tmi; [rewrite !elem_of_cons; tauto|congruence]).
  assert (~ is_table (pagetable p) (Pmm.mem v) (trapframe p)) as Ttf' by (apply Ttf; [rewrite !elem_of_cons; tauto|congruence]).
  assert (forall b n, (b, n) ∈ [(ehdr_addr, sizeof_header); (ph_addr, sizeof_prog_header); (arg_addr, 8 * MAX_CMDLINE_ARGS)] ->
    kernel_buffer p (Pmm.mem v) F' b n) as Hb.
  { intros b n Hin a Ha. pose proof (below_page a b n _ Ha (Hbuf b n Hin)) as Hlow. split_and!; [|lia|lia]. split.
    - intros Ht%(created_table _ _ _ _ _ _ _ _ Hc). destruct (rep_pages_in _ _ _ Hrep Ht). lia.
    - intros Hf. pose proof C1 as (Hr' & _ & _). destruct (rep_pages_in _ _ _ Hr' Hf) as (_ & _ & ?). lia. }
  split; rewrite ?Em, ?Ev; try done; try (apply Hb; rewrite !elem_of_cons; tauto).
  - rewrite Ee. simpl. by apply list_lookup_insert_eq.
  - lia.
  - split_and!; try done; lia.
  - assert (total_mapped_region p = 4) as -> by (rewrite C6; done). split_and!; [lia| |exact D3]. intros j' Hj'.
    injection D2 as R0 R0' R0'' R1 R1' R1'' R2 R2' R2'' R3 R3' R3''. destruct Hly as [L1 L2 L3 L4]. unfold USER_STACK_TOP in *.
    assert (j' = 0 \/ j' = 1 \/ j' = 2 \/ j' = 3) as [->|[->|[->| ->]]] by lia;
      [rewrite R0|rewrite R1|rewrite R2|rewrite R3]; try lia; by vm_compute.
  - split; [apply Hb; rewrite !elem_of_cons; tauto|done].
Qed.
End created.

(** C8: the loader is correct: for a process with its address space, a valid ELF
    program that the host names and opens, room for its pages and no page of it
    mapped yet, [load_bincode_from_host_elf] returns; afterwards every address of
    every loadable segment is mapped with the permissions of the segment and
    holds the byte of the file or, past its end, zero; the segments are recorded
    as regions in the order of the file; the process starts at the entry point of
    the header; page tables stay well formed; and no other memory has changed
    than the pages taken, the loader's own buffers, the table of regions and the
    saved program counter. *)
Theorem elf_program_loaded p proc s F c name i f :
  ready_process p proc s F -> valid_program c -> boot_host (Elf.host s) name c -> Elf.lock s = 0 ->
  Spike.free_entry (Elf.spike_files s) = Some i -> Elf.spike_files s !! i = Some f ->
  Z.of_nat (length (Elf.spike_fds s)) = MAX_FDS -> (FPtr i ∉ Elf.spike_fds s) ->
  total_mapped_region proc + Z.of_nat (length (load_segments c)) <= 256 -> (pages_needed (load_segments c) <= length F)%nat ->
  (forall x, in_program c x -> xlate (pagetable proc) (Elf.memory_of s) x = None) ->
  exists s' F' h' fd, Elf.load_bincode_from_host_elf ehdr_addr ph_addr arg_addr p s = Ret tt s' /\
    program_started p proc s F c i s' F' h' fd.
Proof. apply load_bincode_ok. Qed.
End bincode.

(** ** A concrete program
    A host that was started with the kernel and the program [a] as arguments, on
    top of the host of [SpikeFile]. *)
Module BootHost.
Record host := mk { sim : SimHost.host; arg : list Z }.

(** The block that [getmainvars] writes: the number of arguments, a pointer for
    each, two null pointers, and the text. *)
Definition mainvars (buf : Z) (arg : list Z) (m : memory) : memory :=
  let m := st64 (st64 (st64 m buf 2) (buf + 8) (buf + 40)) (buf + 16) (buf + 44) in
  store_bytes (st64 (st64 m (buf + 24) 0) (buf + 32) 0) (buf + 40) ([112; 107; 101; 0] ++ arg ++ [0]).

Definition serve (magic : list Z) (m : memory) (h : host) : Z * memory * host :=
  match magic with
  | n :: buf :: _ =>
      if n =? HTIFSYS_getmainvars then (0, mainvars buf (arg h) m, h)
      else let '(r, m, h') := SimHost.serve magic m (sim h) in (r, m, mk h' (arg h))
  | _ => (-38, m, h)
  end.
End BootHost.
#[global] Instance boot_frontend : Frontend BootHost.host := BootHost.serve.

Lemma boot_pread_ok (h : BootHost.host) fd c buf n off m : sim_contents (BootHost.sim h) fd = Some c -> 0 <= n -> 0 <= off ->
  let bs := file_bytes c off n in
  exists m', frontend [HTIFSYS_pread; fd; buf; n; off; 0; 0; 0] m h = (Z.of_nat (length bs), m', h) /\
    (forall a, ld8 m' a = if (buf <=? a) && (a <? buf + Z.of_nat (length bs))
                          then default 0 (bs !! Z.to_nat (a - buf)) else ld8 m a) /\
    (forall a, a mod 8 <> 0 \/ a + 8 <= buf \/ buf + Z.of_nat (length bs) <= a -> m' !! a = m !! a).
Proof.
  intros Hc Hn Hoff bs. destruct (sim_pread_ok (BootHost.sim h) fd c buf n off m Hc Hn Hoff) as (m' & E & Hr).
  exists m'. split; [|exact Hr]. unfold frontend, boot_frontend, BootHost.serve. change (HTIFSYS_pread =? HTIFSYS_getmainvars) with false. cbn iota.
  unfold frontend, sim_frontend in E. rewrite E. by destruct h.
Qed.
#[global] Instance boot_host_files : HostFiles BootHost.host :=
  {| contents h := sim_contents (BootHost.sim h); contents_bytes h := sim_contents_bytes (BootHost.sim h); pread_ok := boot_pread_ok |}.

(** An ELF file with a code segment, a note, and a data segment of two pages. *)
Fixpoint le_list (n : nat) (x : Z) : list Z := match n with O => [] | S n => x mod 256 :: le_list n (x / 256) end.
Definition ph_bytes (type flags off vaddr filesz memsz : Z) : list Z :=
  le_list 4 type ++ le_list 4 flags ++ concat (map (le_list 8) [off; vaddr; vaddr; filesz; memsz; 4096]).
Definition boot_program : list Z :=
  le_list 4 ELF_MAGIC ++ replicate 12 0 ++ le_list 2 2 ++ le_list 2 243 ++ le_list 4 1 ++ concat (map (le_list 8) [0x10004; 64; 0]) ++ le_list 4 0 ++
  concat (map (le_list 2) [64; 56; 3; 0; 0; 0]) ++
  ph_bytes 1 5 232 0x10000 8 8 ++ ph_bytes 4 4 0 0 0 0 ++ ph_bytes 1 6 240 0x11000 4 5000 ++
  [19; 0; 0; 0; 115; 0; 0; 0] ++ [1; 2; 3; 4].
Definition boot_code : elf_prog_header := mk_prog 1 5 232 0x10000 0x10000 8 8 4096.
Definition boot_data : elf_prog_header := mk_prog 1 6 240 0x11000 0x11000 4 5000 4096.

Lemma boot_program_segments : load_segments boot_program = [boot_code; boot_data].
Proof. by vm_compute. Qed.

Lemma boot_program_valid : valid_program boot_program.
Proof.
  split.
  - split; [split|]; by vm_compute.
  - split_and!; by vm_compute.
  - rewrite boot_program_segments. intros ph [->|[->|Hn%not_elem_of_nil]%elem_of_cons]%elem_of_cons; try done;
      (split; [split; by vm_compute|split; [split|]; by vm_compute|split; [by vm_compute|split; by vm_compute]|by vm_compute]).
  - rewrite boot_program_segments. constructor; [|constructor; constructor]. constructor; [|constructor]. left. by vm_compute.
Qed.

Lemma boot_program_range x : in_program boot_program x -> 0 <= x < stack_va.
Proof.
  intros (ph & Hph & Hx). rewrite boot_program_segments in Hph. unfold in_pages in Hx.
  assert (0 <= seg_first ph /\ seg_first ph + seg_pages ph * PGSIZE <= stack_va) as He; [|lia].
  apply elem_of_cons in Hph as [->|Hph]; [split; by apply Z.leb_le|]. apply list_elem_of_singleton in Hph as ->. split; by apply Z.leb_le.
Qed.

Definition boot_disk_host : BootHost.host := BootHost.mk (SimHost.mk [([97], boot_program)] ∅ []) [97].

Lemma boot_disk_host_ok : boot_host boot_disk_host [97] boot_program.
Proof.
  split; [|intros m fn [Hs _]; exists 3|by apply Nat.leb_le].
  - intros m buf Hbuf. set (m1 := st64 (st64 (st64 (st64 (st64 m buf 2) (buf + 8) (buf + 40)) (buf + 16) (buf + 44)) (buf + 24) 0) (buf + 32) 0).
    exists (store_bytes m1 (buf + 40) [112; 107; 101; 0; 97; 0]), 2.
    assert (forall a, a + 8 <= buf + 40 -> ld64 (store_bytes m1 (buf + 40) [112; 107; 101; 0; 97; 0]) a = ld64 m1 a) as Hw.
    { intros a Ha. unfold ld64. rewrite store_bytes_words; [done|lia]. }
    assert (ld64 m1 (buf + 16) = buf + 44) as H16 by (unfold m1; rewrite !ld64_st64_ne, ld64_st64_eq by lia; done).
    rewrite !Hw, H16 by lia. unfold MAX_CMDLINE_ARGS. split_and!; try done; try lia.
    + unfold m1. rewrite !ld64_st64_ne, ld64_st64_eq by lia. done.
    + split.
      * intros [|k] x Hx; [|by rewrite lookup_cons_ne_0 in Hx]. injection Hx as <-. split; [|done].
        rewrite ld8_store_bytes. replace (Z.to_nat (buf + 44 + Z.of_nat 0 - (buf + 40))) with 4%nat by lia. cbn [lookup list_lookup].
        destruct (Z.leb_spec (buf + 40) (buf + 44 + Z.of_nat 0)); [done|lia].
      * cbn [length]. rewrite ld8_store_bytes. replace (Z.to_nat (buf + 44 + Z.of_nat 1 - (buf + 40))) with 5%nat by lia. cbn [lookup list_lookup].
        destruct (Z.leb_spec (buf + 40) (buf + 44 + Z.of_nat 1)); [done|lia].
    + intros a Ha. unfold in_buffer in Ha. rewrite store_bytes_words; [|cbn [length]; destruct (decide (a mod 8 = 0)); [right|by left]; clear -Ha Hbuf e; zlia].
      unfold m1, st64. rewrite !lookup_insert_ne; [done|..]; intros <-; apply Ha; clear -Hbuf; zlia.
  - eexists. split; [|split; [done|]].
    + unfold frontend, boot_frontend, BootHost.serve. change (HTIFSYS_openat =? HTIFSYS_getmainvars) with false. cbn iota.
      unfold SimHost.serve. change (HTIFSYS_openat =? HTIFSYS_openat) with true. cbn iota.
      change (load_bytes m fn (Z.of_nat (length [97]) + 1 - 1)) with [ld8 m (fn + 0)].
      destruct (Hs O 97 eq_refl) as [Hb _]. change (fn + Z.of_nat 0) with (fn + 0) in Hb. rewrite Hb. reflexivity.
    + unfold contents, boot_host_files. by vm_compute.
Qed.

(** The process of [ProcessSpec], with that program on the host. *)
#[local] Existing Instance fresh_symbols.
Lemma program_process : exists (e : Elf.state BootHost.host) F proc,
  e = Elf.mk (Elf.kernel e) boot_disk_host (replicate 128 FNull) (replicate 128 (mk_spike_file 0 0)) 0 /\
  ready_process 0x80008000 0x80008100 0x80009000 0 proc e F /\ total_mapped_region proc = 4 /\ (30 <= length F)%nat /\
  forall x, 0 <= x < stack_va -> xlate (pagetable proc) (Elf.memory_of e) x = None.
Proof.
  destruct fresh_memory as (v & F & Hrep & Hly & HF & Hs & He).
  destruct (alloc_process_ok (fresh_kernel v) F 0 (set_status FREE zero_process)) as (v' & F' & p & st & _ & Hc); [done|done|rewrite HF; lia|done|done|].
  set (k := with_pmm v' (with_procs (<[0%nat := p]> empty_pool) (fresh_kernel v))).
  exists (Elf.mk k boot_disk_host (replicate 128 FNull) (replicate 128 (mk_spike_file 0 0)) 0), F', p.
  pose proof Hc as [_ _ (used & Hu & Hlen & _) _ _ _ Hp].
  split; [done|]. split_and!.
  - apply (ready_created 0x80008000 0x80008100 0x80009000 (fresh_kernel v) F (set_status FREE zero_process) v' F' p st); try done.
    + cbn. lia.
    + change (pmm (fresh_kernel v)) with v. by rewrite He.
    + change (pmm (fresh_kernel v)) with v. rewrite Hs. intros b n. rewrite !elem_of_cons, elem_of_nil.
      intros [[= -> ->]|[[= -> ->]|[[= -> ->]|[]]]]; by apply Z.leb_le.
    + intros a. unfold in_buffer. change sizeof_header with 64. change sizeof_prog_header with 56. lia.
  - rewrite Hp. done.
  - apply (f_equal length) in Hu. rewrite length_app, HF in Hu. lia.
  - intros x Hxr. change (Elf.memory_of _) with (Pmm.mem v'). by apply (created_unmapped _ _ _ _ _ _ _ x Hc).
Qed.

Lemma elf_program_loaded_witness : exists (s s' : Elf.state BootHost.host) F F' proc h' fd,
  Elf.load_bincode_from_host_elf 0x80008000 0x80008100 0x80009000 0 s = Ret tt s' /\
  program_started 0x80008000 0x80008100 0x80009000 0 proc s F boot_program 0 s' F' h' fd.
Proof.
  destruct program_process as (s & F & proc & Es & Hr & Ht & HF & Hx).
  destruct (elf_program_loaded 0x80008000 0x80008100 0x80009000 0 proc s F boot_program [97] 0 (mk_spike_file 0 0)) as (s' & F' & h' & fd & E & Hs).
  - exact Hr.
  - exact boot_program_valid.
  - rewrite Es. exact boot_disk_host_ok.
  - rewrite Es. reflexivity.
  - rewrite Es. reflexivity.
  - rewrite Es. reflexivity.
  - rewrite Es. reflexivity.
  - rewrite Es. intros Hin. apply elem_of_replicate_inv in Hin. discriminate Hin.
  - rewrite Ht, boot_program_segments. by apply Z.leb_le.
  - rewrite boot_program_segments. etransitivity; [|exact HF]. by apply Nat.leb_le.
  - intros x Hx'. apply Hx. by apply boot_program_range.
  - exists s, s', F, F', proc, h', fd. split; [exact E|exact Hs].
Defined.
