(* ===== verification/Sched.v ===== *)
(** * [kernel/sched.c]: the ready queue and [schedule]

    The ready queue is threaded through the [queue_next] pointers of the pool.
    [queue] relates it to the abstract queue, a list of indices without
    duplicates; [sched_inv] adds what ties the queue to the process status. *)

From stdpp Require Import base gmap list numbers strings.
From Stdlib Require Import ZArith Lia.
From S2P Require Import Prelude Pmm Vmm Process.
Local Open Scope Z_scope.

Module Sched.
Section ops.
Context `{KernelSymbols}.

(** The [for] loop: [None] when [proc] is met before the last element,
    otherwise the last element. *)
Fixpoint browse (fuel : nat) (p proc : nat) : M state (option nat) :=
  match fuel with
  | O => fun _ => NoFuel
  | S fuel =>
      r <- get_proc p ;;
      match queue_next r with
      | Some n => if bool_decide (p = proc) then ret None else browse fuel n proc
      | None => ret (Some p)
      end
  end.

Definition insert_to_ready_queue (proc : nat) : M state unit :=
  head <- gets ready_queue_head ;;
  match head with
  | None =>
      upd_proc proc (set_status READY) ;;
      upd_proc proc (set_queue_next None) ;;
      modify (with_head (Some proc))
  | Some h =>
      n <- gets (fun s => length (procs s)) ;;
      last <- browse n h proc ;;
      match last with
      | None => ret tt
      | Some p =>
          if bool_decide (p = proc) then ret tt
          else
            upd_proc p (set_queue_next (Some proc)) ;;
            upd_proc proc (set_status READY) ;;
            upd_proc proc (set_queue_next None)
      end
  end.

Definition idle (p : process) : bool :=
  bool_decide (status p = FREE) || bool_decide (status p = ZOMBIE).

Definition schedule {A} : M state A :=
  head <- gets ready_queue_head ;;
  match head with
  | None =>
      should_shutdown <- gets (fun s => forallb idle (procs s)) ;;
      if should_shutdown then shutdown 0
      else panic "Not handled: we should let system wait for unfinished processes."
  | Some h =>
      modify (with_current (Some h)) ;;
      p <- get_proc h ;;
      assert (bool_decide (status p = READY)) "assertion failed: current->status == READY" ;;
      modify (with_head (queue_next p)) ;;
      upd_proc h (set_status RUNNING) ;;
      Process.switch_to (Some h)
  end.
End ops.

(** ** The queue as a list *)
Fixpoint linked (ps : list process) (h : option nat) (q : list nat) : Prop :=
  match q with
  | [] => h = None
  | i :: q => h = Some i /\ exists p, ps !! i = Some p /\ linked ps (queue_next p) q
  end.

Definition queue (s : state) (q : list nat) : Prop :=
  linked (procs s) (ready_queue_head s) q /\ NoDup q.

(** The abstract queue: insertion at the end of a process that is not queued. *)
Definition enqueue (i : nat) (q : list nat) : list nat :=
  if bool_decide (i ∈ q) then q else q ++ [i].

Lemma linked_ext ps ps' h q :
  (forall i, i ∈ q -> queue_next <$> ps' !! i = queue_next <$> ps !! i) ->
  linked ps h q -> linked ps' h q.
Proof.
  revert h. induction q as [|i q IH]; intros h Hext; simpl; [done|].
  intros (-> & p & Hp & Hl). split; [done|].
  specialize (Hext i) as Hi. rewrite Hp in Hi. specialize (Hi ltac:(by constructor)).
  destruct (ps' !! i) as [p'|] eqn:E; [|done]. simpl in Hi. injection Hi as Hi.
  exists p'. split; [done|]. rewrite Hi. apply IH; [|done].
  intros j Hj. apply Hext. by constructor.
Qed.

Lemma linked_lookup ps h q i : linked ps h q -> i ∈ q -> is_Some (ps !! i).
Proof.
  revert h. induction q as [|j q IH]; intros h; simpl; [intros _ Hi; by apply elem_of_nil in Hi|].
  intros (_ & p & Hp & Hl) Hi. apply elem_of_cons in Hi as [->|Hi]; [by rewrite Hp|eauto].
Qed.

(** Appending at the end: the [queue_next] of the last element is redirected. *)
Lemma linked_snoc ps h q l i :
  linked ps h (q ++ [l]) -> NoDup (q ++ [l]) -> i ∉ q ++ [l] -> is_Some (ps !! i) ->
  linked (alter (set_queue_next None) i (alter (set_queue_next (Some i)) l ps)) h ((q ++ [l]) ++ [i]).
Proof.
  revert h. induction q as [|j q IH]; intros h; simpl.
  - intros (-> & p & Hp & Hl) _ Hni [pi Hi]. apply not_elem_of_cons in Hni as [Hne _].
    split; [done|]. exists (set_queue_next (Some i) p). split.
    + rewrite list_lookup_alter_ne by done. by rewrite list_lookup_alter_eq, Hp.
    + split; [done|]. exists (set_queue_next None pi). split; [|done].
      rewrite list_lookup_alter_eq, list_lookup_alter_ne by done. by rewrite Hi.
  - intros (-> & p & Hp & Hl) Hnd Hni Hi. apply NoDup_cons in Hnd as [Hj Hnd].
    apply not_elem_of_cons in Hni as [Hne Hni]. split; [done|]. exists p. split.
    + rewrite list_lookup_alter_ne by done. rewrite list_lookup_alter_ne; [done|].
      intros ->. apply Hj. apply elem_of_app. right. by constructor.
    + by apply IH.
Qed.

Lemma browse_spec s q proc h fuel :
  linked (procs s) (Some h) q -> NoDup q -> (length q <= fuel)%nat ->
  exists l, last q = Some l /\
    browse fuel h proc s = Ret (if bool_decide (proc ∈ q /\ proc <> l) then None else Some l) s.
Proof.
  revert q h. induction fuel as [|fuel IH]; intros q h Hl Hnd Hlen.
  - destruct q; [done|simpl in Hlen; lia].
  - destruct q as [|i q]; [done|]. simpl in Hl. destruct Hl as ([= ->] & p & Hp & Hl).
    assert (get_proc i s = Ret p s) as Hg by (unfold get_proc; by rewrite Hp).
    simpl browse. apply NoDup_cons in Hnd as [Hi Hnd]. destruct q as [|j q].
    + exists i. split; [done|]. mstep Hg. simpl in Hl. rewrite Hl.
      rewrite bool_decide_eq_false_2; [done|]. intros [Hin Hne]. by apply list_elem_of_singleton in Hin.
    + destruct (IH (j :: q) j) as (l & Hlast & Heq); [|done|simpl in Hlen; simpl; lia|].
      { destruct Hl as (_ & Hl). by split. }
      exists l. split; [done|]. mstep Hg. simpl in Hl. destruct Hl as (-> & _).
      assert (l ∈ j :: q) as Hlq.
      { apply last_Some in Hlast as [l' ->]. apply elem_of_app. right. by constructor. }
      destruct (bool_decide (i = proc)) eqn:E.
      * apply bool_decide_eq_true in E as <-. rewrite bool_decide_eq_true_2; [done|].
        split; [by constructor|]. by intros ->.
      * apply bool_decide_eq_false in E. rewrite Heq.
        rewrite (bool_decide_ext (proc ∈ i :: j :: q /\ proc <> l) (proc ∈ j :: q /\ proc <> l)); [done|].
        rewrite (elem_of_cons (j :: q)). split; [|tauto]. intros [[->|?] ?]; [done|tauto].
Qed.

Lemma linked_length ps h q : linked ps h q -> NoDup q -> (length q <= length ps)%nat.
Proof.
  intros Hl Hnd. rewrite <- (length_seq (length ps) 0).
  apply submseteq_length, NoDup_submseteq; [done|].
  intros i Hi. apply elem_of_seq. destruct (linked_lookup _ _ _ _ Hl Hi) as [p Hp].
  apply lookup_lt_Some in Hp. lia.
Qed.

(** What the insertion does to the pool: only [status] and [queue_next] move. *)
Definition same_but_queue (p p' : process) : Prop :=
  p' = set_queue_next (queue_next p') (set_status (status p') p).

Definition frame (s s' : state) : Prop :=
  pmm s' = pmm s /\ current s' = current s /\ hart s' = hart s /\ g_ticks s' = g_ticks s /\
  vfs_root_dentry s' = vfs_root_dentry s /\ Forall2 same_but_queue (procs s) (procs s').

Lemma same_refl l : Forall2 same_but_queue l l.
Proof. induction l as [|[] l IH]; by constructor. Qed.

Lemma same_alter l i f :
  (forall p, same_but_queue p (f p)) -> Forall2 same_but_queue l (alter f i l).
Proof.
  intros Hf. revert i. induction l as [|p l IH]; intros [|i]; simpl; [constructor..| |].
  - constructor; [apply Hf|apply same_refl].
  - constructor; [by destruct p|apply IH].
Qed.

Lemma same_trans1 p1 p2 p3 : same_but_queue p1 p2 -> same_but_queue p2 p3 -> same_but_queue p1 p3.
Proof.
  destruct p1, p2, p3. unfold same_but_queue, set_queue_next, set_status. simpl. intros [=] [=]. by subst.
Qed.

Lemma same_trans l1 l2 l3 :
  Forall2 same_but_queue l1 l2 -> Forall2 same_but_queue l2 l3 -> Forall2 same_but_queue l1 l3.
Proof.
  intros H1. revert l3. induction H1 as [|p1 p2 l1 l2 Hp _ IH]; intros l3 H2; inversion H2; subst; [constructor|].
  constructor; [by eapply same_trans1|by apply IH].
Qed.

Definition status_at (s : state) (i : nat) : option proc_status := status <$> procs s !! i.

Lemma status_alter_next (ps : list process) (i j : nat) n :
  status <$> alter (set_queue_next n) j ps !! i = status <$> ps !! i.
Proof.
  destruct (decide (j = i)) as [->|]; [|by rewrite list_lookup_alter_ne].
  rewrite list_lookup_alter_eq. by destruct (ps !! i).
Qed.

Lemma status_alter_status (ps : list process) (i j : nat) st :
  is_Some (ps !! j) ->
  status <$> alter (set_status st) j ps !! i = if decide (i = j) then Some st else status <$> ps !! i.
Proof.
  intros [p Hp]. destruct (decide (i = j)) as [->|]; [|by rewrite list_lookup_alter_ne].
  by rewrite list_lookup_alter_eq, Hp.
Qed.

Lemma next_alter_status (ps : list process) (i j : nat) st : queue_next <$> alter (set_status st) j ps !! i = queue_next <$> ps !! i.
Proof.
  destruct (decide (j = i)) as [->|]; [|by rewrite list_lookup_alter_ne].
  rewrite list_lookup_alter_eq. by destruct (ps !! i).
Qed.

Lemma alter_status_next (ps : list process) (i j : nat) st n :
  alter (set_queue_next n) j (alter (set_status st) i ps) = alter (set_status st) i (alter (set_queue_next n) j ps).
Proof.
  apply list_eq. intros k. destruct (decide (i = k)) as [->|Hi], (decide (j = k)) as [->|Hj];
    rewrite ?list_lookup_alter_eq, ?list_lookup_alter_ne, ?list_lookup_alter_eq, ?list_lookup_alter_ne by done;
    try done. by destruct (ps !! k).
Qed.

Lemma insert_spec s q i :
  queue s q -> is_Some (procs s !! i) ->
  returns (insert_to_ready_queue i) s (fun _ s' =>
    queue s' (enqueue i q) /\ frame s s' /\
    (forall j, status_at s' j = if decide (j = i /\ (i ∉ q)) then Some READY else status_at s j)).
Proof.
  intros [Hl Hnd] Hi. unfold returns, insert_to_ready_queue. rewrite bind_gets.
  destruct q as [|h q].
  - simpl in Hl. rewrite Hl. exists tt. eexists. split; [done|]. unfold upd_proc, queue, enqueue, frame, status_at. simpl.
    split_and!; try done.
    + destruct Hi as [p Hp]. exists (set_queue_next None (set_status READY p)). split; [|done].
      by rewrite !list_lookup_alter_eq, Hp.
    + apply NoDup_singleton.
    + eapply same_trans; apply same_alter; by intros [].
    + intros j. rewrite status_alter_next, status_alter_status by done.
      destruct (decide (j = i)) as [->|Hne].
      * by rewrite decide_True by (split; [done|by intros ?%elem_of_nil]).
      * by rewrite decide_False by tauto.
  - pose proof (linked_length _ _ _ Hl Hnd) as Hlen.
    assert (ready_queue_head s = Some h) as Hh by (by destruct Hl). rewrite Hh, bind_gets. rewrite Hh in Hl.
    destruct (browse_spec s (h :: q) i h (length (procs s)) Hl Hnd Hlen) as (l & Hlast & Heq).
    apply last_Some in Hlast as [q' Hq']. rewrite Hq' in *. clear Hq' q.
    assert (l ∈ q' ++ [l]) as Hlq by (apply elem_of_app; right; by constructor).
    mstep Heq. unfold enqueue. destruct (decide (i ∈ q' ++ [l])) as [Hin|Hni].
    + rewrite (bool_decide_eq_true_2 (i ∈ _)) by done.
      exists tt, s. split.
      * destruct (decide (i = l)) as [->|]; [|rewrite bool_decide_eq_true_2; done].
        rewrite bool_decide_eq_false_2 by tauto. by rewrite bool_decide_eq_true_2.
      * unfold queue. rewrite Hh. split_and!; try done; [|].
        { unfold frame. split_and!; try done. apply same_refl. }
        intros j. by rewrite decide_False by tauto.
    + rewrite !(bool_decide_eq_false_2 (i ∈ _)) by done.
      rewrite bool_decide_eq_false_2 by tauto. rewrite bool_decide_eq_false_2 by (by intros ->).
      exists tt. eexists. split; [done|]. unfold upd_proc, queue, frame, status_at. simpl. rewrite Hh.
      split_and!; try done.
      * rewrite alter_status_next.
        eapply linked_ext; [|by apply (linked_snoc (procs s) (Some h) q' l i)].
        intros j Hj. by rewrite next_alter_status.
      * apply NoDup_app. split_and!; [done| |apply NoDup_singleton].
        intros j Hj Hji. apply list_elem_of_singleton in Hji as ->. done.
      * eapply same_trans; [|eapply same_trans]; apply same_alter; by intros [].
      * intros j. rewrite status_alter_next, status_alter_status, status_alter_next.
        -- destruct (decide (j = i)) as [->|Hne].
           ++ by rewrite decide_True.
           ++ by rewrite decide_False by tauto.
        -- rewrite list_lookup_alter_ne; [done|]. by intros ->.
Qed.

(** ** [switch_to] and [schedule] *)
Section switch.
Context `{KernelSymbols}.

(** The state in which [switch_to] of process [i] hands over to user mode. *)
Record resumed (i : nat) (p : process) (s s' : state) : Prop := {
  rs_current : current s' = Some i;
  rs_satp : satp (hart s') = MAKE_SATP (pagetable p);
  rs_sscratch : sscratch (hart s') = trapframe p;
  rs_stvec : stvec (hart s') = smode_trap_vector_addr;
  rs_sepc : sepc (hart s') = ld64 (mem s) (trapframe p + tf_epc);
  rs_spp : has (sstatus (hart s')) SSTATUS_SPP = false;
  rs_spie : has (sstatus (hart s')) SSTATUS_SPIE = true;
  rs_regs : regs (hart s') = Process.saved_regs (mem s) (trapframe p);
  rs_pmm : pmm s' = Pmm.set_mem (st64 (st64 (st64 (mem s) (trapframe p + tf_kernel_sp) (kstack p))
             (trapframe p + tf_kernel_satp) (satp (hart s)))
             (trapframe p + tf_kernel_trap) smode_trap_handler_addr) (pmm s);
  rs_ticks : g_ticks s' = g_ticks s;
}.

Lemma has_mask_bit x n : 0 <= n -> has x (Z.shiftl 1 n) = Z.testbit x n.
Proof.
  intros Hn. unfold has. rewrite Z.shiftl_1_l. destruct (Z.testbit x n) eqn:E.
  - apply negb_true_iff, Z.eqb_neq. intros H0.
    assert (Z.testbit (Z.land x (2 ^ n)) n = true) as H1 by (rewrite Z.land_spec, E, Z.pow2_bits_true by lia; done).
    rewrite H0, Z.bits_0 in H1. done.
  - apply negb_false_iff, Z.eqb_eq. apply Z.bits_inj'. intros k Hk. rewrite Z.land_spec, Z.bits_0.
    destruct (decide (k = n)) as [->|Hne]; [by rewrite E|].
    rewrite Z.pow2_bits_false by lia. apply andb_false_r.
Qed.

Lemma sstatus_bits x :
  let y := Z.lor (Z.land x (Z.lnot SSTATUS_SPP)) SSTATUS_SPIE in
  has y SSTATUS_SPP = false /\ has y SSTATUS_SPIE = true.
Proof.
  cbv zeta. unfold SSTATUS_SPP, SSTATUS_SPIE. rewrite !has_mask_bit by lia.
  rewrite !Z.shiftl_1_l, !Z.lor_spec, !Z.land_spec, !Z.lnot_spec, !Z.pow2_bits_eqb by lia.
  simpl. rewrite ?andb_false_r, ?orb_true_r. done.
Qed.

Lemma switch_to_spec i p s :
  procs s !! i = Some p -> trapframe p <> 0 ->
  exists s', (forall A, Process.switch_to (A := A) (Some i) s = ToUser s') /\ resumed i p s s' /\
    procs s' = procs s /\ ready_queue_head s' = ready_queue_head s.
Proof.
  intros Hp Htf. destruct (sstatus_bits (sstatus (hart s))) as [B1 B2]. eexists. split; [|split].
  - intros A. unfold Process.switch_to. rewrite bind_modify. unfold Process.write_stvec. rewrite bind_modify.
    unfold get_proc. unfold bind at 1. cbn [procs with_current with_hart]. rewrite Hp.
    cbn [of_option ret]. unfold nonnull. rewrite (proj2 (Z.eqb_neq _ _) Htf). reflexivity.
  - split; try done.
    + cbn. rewrite !ld64_st64_ne; [done|unfold tf_epc, tf_kernel_sp, tf_kernel_satp, tf_kernel_trap; lia..].
    + cbn. apply saved_regs_ext. intros k Hk.
      rewrite !ld64_st64_ne; [done|unfold tf_epc, tf_kernel_sp, tf_kernel_satp, tf_kernel_trap; lia..].
  - done.
Qed.

Lemma schedule_spec i q s :
  queue s (i :: q) -> status_at s i = Some READY -> (forall p, procs s !! i = Some p -> trapframe p <> 0) ->
  exists p s', (forall A, schedule (A := A) s = ToUser s') /\ procs s !! i = Some p /\ resumed i p s s' /\
    procs s' = alter (set_status RUNNING) i (procs s) /\ queue s' q.
Proof.
  intros [Hl Hnd] Hst Htf. destruct Hl as (Hh & p & Hp & Hl). exists p.
  set (s1 := with_procs (alter (set_status RUNNING) i (procs s)) (with_head (queue_next p) (with_current (Some i) s))).
  destruct (switch_to_spec i (set_status RUNNING p) s1) as (s' & Heq & Hres & Hps & Hrq).
  { unfold s1. cbn. by rewrite list_lookup_alter_eq, Hp. }
  { exact (Htf p Hp). }
  exists s'. unfold status_at in Hst. rewrite Hp in Hst. injection Hst as Hst.
  apply NoDup_cons in Hnd as [Hi Hnd]. split_and!.
  - intros A. unfold schedule. rewrite bind_gets, Hh, bind_modify.
    unfold get_proc. unfold bind at 1. cbn [procs with_current]. rewrite Hp.
    cbn [of_option ret]. rewrite Hst, bool_decide_eq_true_2 by done. exact (Heq A).
  - done.
  - destruct Hres. by split.
  - by rewrite Hps.
  - split; [|done]. rewrite Hps, Hrq. eapply linked_ext; [|exact Hl].
    intros j Hj. apply next_alter_status.
Qed.
End switch.

(** ** The scheduler's view of the pool

    The process [c] is running, [q] is the ready queue, and nothing else is
    ready or running. *)
Record view (s : state) (c : nat) (q : list nat) : Prop := {
  v_queue : queue s q;
  v_current : current s = Some c;
  v_ready : forall i, status_at s i = Some READY <-> i ∈ q;
  v_running : forall i, status_at s i = Some RUNNING <-> i = c;
  v_tf : forall i p, procs s !! i = Some p -> i = c \/ i ∈ q -> trapframe p <> 0;
}.

(** Preemption of the running process: it goes to the end of the queue. *)
Definition preempt (c : nat) (q : list nat) : nat * list nat :=
  match q with
  | [] => (c, [])
  | i :: q => (i, q ++ [c])
  end.

Lemma view_current_lookup s c q : view s c q -> exists p, procs s !! c = Some p /\ status p = RUNNING /\ c ∉ q.
Proof.
  intros [_ _ Hr Hu _]. pose proof (proj2 (Hu c) eq_refl) as H. unfold status_at in H.
  destruct (procs s !! c) as [p|] eqn:E; [|done]. exists p. split_and!; [done|by injection H|].
  intros Hc. apply Hr in Hc. unfold status_at in Hc. rewrite E in Hc. simpl in *. congruence.
Qed.

Lemma status_at_upd s i st j :
  is_Some (procs s !! i) ->
  status_at (with_procs (alter (set_status st) i (procs s)) s) j = if decide (j = i) then Some st else status_at s j.
Proof. intros Hi. unfold status_at. cbn. by apply status_alter_status. Qed.

Lemma queue_upd_status s i st q :
  queue s q -> queue (with_procs (alter (set_status st) i (procs s)) s) q.
Proof. intros [Hl Hnd]. split; [|done]. cbn. eapply linked_ext; [|exact Hl]. intros j _. apply next_alter_status. Qed.

Lemma same_trapframe s s' i p' :
  Forall2 same_but_queue (procs s) (procs s') -> procs s' !! i = Some p' ->
  exists p, procs s !! i = Some p /\ trapframe p' = trapframe p.
Proof.
  intros Hf Hp'. destruct (Forall2_lookup_r _ _ _ _ _ Hf Hp') as (p & Hp & Hpp). exists p. split; [done|].
  unfold same_but_queue in Hpp. by rewrite Hpp.
Qed.

Section policy.
Context `{KernelSymbols}.

Definition give_up_cpu {A} (c : nat) : M state A :=
  upd_proc c (set_status READY) ;; insert_to_ready_queue c ;; schedule.

Lemma give_up_cpu_spec s c q :
  view s c q ->
  let (c', q') := preempt c q in
  exists p s', (forall A, give_up_cpu (A := A) c s = ToUser s') /\ procs s !! c' = Some p /\
    view s' c' q' /\ resumed c' p s s' /\ Forall2 same_but_queue (procs s) (procs s').
Proof.
  intros Hv. destruct (view_current_lookup s c q Hv) as (pc & Hpc & Hst & Hc). destruct Hv as [Hq Hcur Hr Hu Htf].
  set (s1 := with_procs (alter (set_status READY) c (procs s)) s).
  assert (queue s1 q) as Hq1 by (by apply queue_upd_status).
  assert (forall j, status_at s1 j = if decide (j = c) then Some READY else status_at s j) as Hs1
    by (intros j; apply status_at_upd; by rewrite Hpc).
  destruct (insert_spec s1 q c Hq1) as ([] & s2 & Hins & Hq2 & Hf & Hs2).
  { unfold s1. cbn. by rewrite list_lookup_alter_eq, Hpc. }
  unfold enqueue in Hq2. rewrite bool_decide_eq_false_2 in Hq2 by done.
  destruct (preempt c q) as [c' q'] eqn:Epre.
  assert (q ++ [c] = c' :: q') as Hqq by (destruct q; simpl in *; by simplify_eq). rewrite Hqq in Hq2.
  assert (forall j, status_at s2 j = if decide (j = c) then Some READY else status_at s j) as Hst2.
  { intros j. rewrite Hs2, Hs1. destruct (decide (j = c)) as [->|]; [by rewrite decide_True|].
    by rewrite decide_False by tauto. }
  assert (forall j, j ∈ c' :: q' <-> j = c \/ j ∈ q) as Hmem.
  { intros j. rewrite <- Hqq, elem_of_app, list_elem_of_singleton. tauto. }
  destruct Hf as (F1 & F2 & F3 & F4 & F5 & F6).
  assert (Forall2 same_but_queue (procs s) (procs s2)) as Hsame.
  { eapply same_trans; [|exact F6]. apply same_alter. by intros []. }
  destruct (schedule_spec c' q' s2 Hq2) as (p & s' & Heq & Hp & Hres & Hps & Hq').
  { rewrite Hst2. destruct (decide (c' = c)) as [->|Hne]; [done|].
    apply Hr. destruct (proj1 (Hmem c') ltac:(by constructor)); done. }
  { intros p Hp. destruct (same_trapframe s s2 c' p Hsame Hp) as (p0 & Hp0 & ->).
    apply (Htf c' p0 Hp0), Hmem. by constructor. }
  assert (Forall2 same_but_queue (procs s) (procs s')) as Hsame'.
  { eapply same_trans; [exact Hsame|]. rewrite Hps. apply same_alter. by intros []. }
  destruct (Forall2_lookup_r _ _ _ _ _ Hsame Hp) as (p0 & Hp0 & Hpp).
  exists p0, s'. split_and!.
  - intros A. unfold give_up_cpu, upd_proc. rewrite bind_modify. fold s1. mstep Hins. apply Heq.
  - done.
  - split; [done|by apply rs_current with (1 := Hres)| | |].
    + intros j. unfold status_at. rewrite Hps, status_alter_status by (by rewrite Hp). fold (status_at s2 j).
      destruct Hq2 as [_ Hnd]. apply NoDup_cons in Hnd as [Hnd _]. rewrite Hst2. specialize (Hmem j).
      rewrite elem_of_cons in Hmem. specialize (Hr j).
      destruct (decide (j = c')) as [->|]; [split; [done|by intros ?%Hnd]|].
      destruct (decide (j = c)) as [->|]; [split; [intros _|done]; tauto|]. tauto.
    + intros j. unfold status_at. rewrite Hps, status_alter_status by (by rewrite Hp). fold (status_at s2 j).
      rewrite Hst2. destruct (decide (j = c')); [done|]. destruct (decide (j = c)) as [->|]; [by split; intros|].
      specialize (Hu j). split; [tauto|done].
    + intros j pj Hpj Hj. destruct (same_trapframe s s' j pj Hsame' Hpj) as (p1 & Hp1 & ->).
      apply (Htf j p1 Hp1), Hmem. rewrite elem_of_cons. done.
  - unfold same_but_queue in Hpp. rewrite Hpp in Hres. unfold s1, mem in *. destruct Hres as [R1 R2 R3 R4 R5 R6 R7 R8 R9 R10].
    cbn in F1, F2, F3, F4, F5. unfold mem in R5, R8, R9. rewrite F1 in R5, R8, R9. rewrite F3 in R9. split; try done. by rewrite R10.
  - done.
Qed.

Lemma exit_spec s c i q :
  view s c (i :: q) ->
  exists p s', (forall A, bind (Process.free_process c) (fun _ => schedule (A := A)) s = ToUser s') /\
    procs s !! i = Some p /\ view s' i q /\ resumed i p s s' /\ status_at s' c = Some ZOMBIE /\
    Forall2 same_but_queue (procs s) (procs s').
Proof.
  intros Hv. destruct (view_current_lookup s c _ Hv) as (pc & Hpc & Hst & Hc). destruct Hv as [Hq Hcur Hr Hu Htf].
  set (s1 := with_procs (alter (set_status ZOMBIE) c (procs s)) s).
  assert (queue s1 (i :: q)) as Hq1 by (by apply queue_upd_status).
  assert (forall j, status_at s1 j = if decide (j = c) then Some ZOMBIE else status_at s j) as Hs1
    by (intros j; apply status_at_upd; by rewrite Hpc).
  apply not_elem_of_cons in Hc as [Hci Hc].
  destruct (schedule_spec i q s1 Hq1) as (p & s' & Heq & Hp & Hres & Hps & Hq').
  { rewrite Hs1, decide_False by done. apply Hr. by constructor. }
  { intros p Hp. unfold s1 in Hp. cbn in Hp. rewrite list_lookup_alter_ne in Hp by done.
    apply (Htf i p Hp). right. by constructor. }
  assert (Forall2 same_but_queue (procs s) (procs s1)) as Hsame by (apply same_alter; by intros []).
  assert (procs s !! i = Some p) as Hp0 by (unfold s1 in Hp; cbn in Hp; by rewrite list_lookup_alter_ne in Hp).
  assert (forall j, status_at s' j = if decide (j = i) then Some RUNNING else if decide (j = c) then Some ZOMBIE else status_at s j) as Hs'.
  { intros j. unfold status_at. rewrite Hps, status_alter_status by (by rewrite Hp). fold (status_at s1 j). by rewrite Hs1. }
  destruct Hq1 as [_ Hnd]. apply NoDup_cons in Hnd as [Hnd _].
  exists p, s'. split_and!; try done.
  - assert (Forall2 same_but_queue (procs s) (procs s')) as Hsame'.
    { eapply same_trans; [exact Hsame|]. rewrite Hps. apply same_alter. by intros []. }
    split; [done|by apply rs_current with (1 := Hres)| | |
      intros j pj Hpj Hj; destruct (same_trapframe s s' j pj Hsame' Hpj) as (p1 & Hp1 & ->);
      apply (Htf j p1 Hp1); rewrite elem_of_cons; tauto];
      intros j; rewrite Hs'; specialize (Hr j); specialize (Hu j); rewrite elem_of_cons in Hr.
    + destruct (decide (j = i)) as [->|]; [split; [done|by intros ?%Hnd]|].
      destruct (decide (j = c)) as [->|]; [by split|]. tauto.
    + destruct (decide (j = i)) as [->|]; [done|]. destruct (decide (j = c)) as [->|]; [by split; intros|]. tauto.
  - by destruct Hres; split.
  - by rewrite Hs', decide_False, decide_True.
  - eapply same_trans; [exact Hsame|]. rewrite Hps. apply same_alter. by intros [].
Qed.

(** The last runnable process exits: the machine is shut down. *)
Lemma exit_last s c :
  view s c [] ->
  forall A, bind (Process.free_process c) (fun _ => schedule (A := A)) s =
    if forallb (fun i => bool_decide (i = c) || match procs s !! i with Some p => idle p | None => true end)
         (seq 0 (length (procs s)))
    then Shutdown 0
    else Panic "Not handled: we should let system wait for unfinished processes.".
Proof.
  intros Hv A. destruct (view_current_lookup s c _ Hv) as (pc & Hpc & Hst & Hc). destruct Hv as [[Hq _] Hcur Hr Hu _].
  simpl in Hq. unfold Process.free_process, upd_proc, schedule, bind, modify, gets, ret.
  cbn [with_procs ready_queue_head procs]. rewrite Hq. cbn [with_procs procs].
  assert (forallb idle (alter (set_status ZOMBIE) c (procs s)) =
    forallb (fun i => bool_decide (i = c) || match procs s !! i with Some p => idle p | None => true end)
         (seq 0 (length (procs s)))) as ->; [|by destruct (forallb _ _)].
  apply eq_true_iff_eq. rewrite !forallb_forall. setoid_rewrite in_seq. split.
  - intros Hall i [_ Hi]. destruct (lookup_lt_is_Some_2 (procs s) i ltac:(simpl in Hi; lia)) as [p Hp].
    destruct (decide (i = c)) as [->|Hne]; [by rewrite bool_decide_eq_true_2|].
    rewrite bool_decide_eq_false_2, Hp by done. apply Hall, list_elem_of_In.
    apply list_elem_of_lookup. exists i. by rewrite list_lookup_alter_ne.
  - intros Hall p Hp%list_elem_of_In%list_elem_of_lookup. destruct Hp as [i Hp].
    destruct (decide (c = i)) as [->|Hne].
    + rewrite list_lookup_alter_eq, Hpc in Hp. simpl in Hp. by simplify_eq.
    + rewrite list_lookup_alter_ne in Hp by done. specialize (Hall i).
      rewrite bool_decide_eq_false_2, Hp in Hall by done. apply Hall. apply lookup_lt_Some in Hp. lia.
Qed.
End policy.
End Sched.
