(* ===== verification/Trap.v ===== *)
(** * [kernel/strap.c], [do_fork] and the process syscalls of [kernel/syscall.c]

    The trap entry of [kernel/strap_vector.S], the S-mode trap handler with its
    timer, page-fault and syscall branches, the round-robin policy, [do_fork],
    and the heap, fork, yield and exit syscalls.  The syscalls on files are an
    argument of [do_syscall] here and are defined in [SysFile]. *)

From stdpp Require Import base gmap list numbers strings.
From Stdlib Require Import ZArith Lia.
From S2P Require Import Prelude Pmm Vmm Process Sched.
Local Open Scope Z_scope.

(** ** [kernel/syscall.h] *)
Definition SYS_user_base : Z := 64.
Definition SYS_user_print : Z := SYS_user_base + 0.
Definition SYS_user_exit : Z := SYS_user_base + 1.
Definition SYS_user_allocate_page : Z := SYS_user_base + 2.
Definition SYS_user_free_page : Z := SYS_user_base + 3.
Definition SYS_user_fork : Z := SYS_user_base + 4.
Definition SYS_user_yield : Z := SYS_user_base + 5.

Module Trap.
Section ops.
Context `{KernelSymbols}.

(** The entry [smode_trap_vector]: [a0] is exchanged with [sscratch], which
    points to the trapframe; [t6] is then overwritten with that pointer before
    the registers are stored, so that the pointer is stored in its place; last
    the user's [a0] is stored from [sscratch], and the kernel page table
    loaded. *)
Fixpoint store_regs (tf : Z) (i : nat) (l : list Z) (m : memory) : memory :=
  match l with
  | [] => m
  | r :: l => store_regs tf (S i) l (st64 m (tf + 8 * Z.of_nat i) r)
  end.

Definition A0 : nat := 9.
Definition T6 : nat := 30.

Definition smode_trap_vector : M state unit := fun s =>
  let c := hart s in
  let tf := sscratch c in
  let user_a0 := nth A0 (regs c) 0 in
  let kregs := <[T6 := tf]> (<[A0 := tf]> (regs c)) in
  let m := store_regs tf 0 kregs (mem s) in
  let m := st64 m (tf + tf_a0) user_a0 in
  let c' := mk_cpu (stvec c) (ld64 m (tf + tf_kernel_satp)) (sstatus c) (sepc c) (scause c) (stval c)
              (sip c) user_a0 (regs c) in
  Ret tt (with_hart c' (with_pmm (Pmm.set_mem m (pmm s)) s)).

(** ** [do_fork] *)
Definition set_filter (index : Z) (filter : list Z) : M state (list Z) :=
  if (0 <=? index) && (index <? MAX_HEAP_PAGES) then ret (<[Z.to_nat index := 1]> filter)
  else fault "free_block_filter index out of range".

Fixpoint mark_free (heap_bottom : Z) (free : list Z) (filter : list Z) : M state (list Z) :=
  match free with
  | [] => ret filter
  | va :: free =>
      filter <- set_filter (i32 (u64 (va - heap_bottom) / PGSIZE)) filter ;;
      mark_free heap_bottom free filter
  end.

(** [memcpy] of a page through two pointers. *)
Definition copy_page (dst src : Z) : M state unit :=
  if (dst =? 0) || (src =? 0) then fault "memcpy through NULL"
  else update_mem (copy_words 512 dst src).

Fixpoint copy_heap (fuel : nat) (child parent : process) (filter : list Z) (heap_bottom heap_block top : Z)
    : M state unit :=
  if heap_block <? top then
    match fuel with
    | O => fun _ => NoFuel
    | S fuel =>
        f <- of_option "free_block_filter index out of range"
               (filter !! Z.to_nat (u64 (heap_block - heap_bottom) / PGSIZE)) ;;
        (if negb (f =? 0) then ret tt
         else
           child_pa <- lift Pmm.alloc_page ;;
           pa <- lift (Vmm.lookup_pa (pagetable parent) heap_block) ;;
           copy_page child_pa pa ;;
           lift (Vmm.user_vm_map (pagetable child) heap_block PGSIZE child_pa
                   (Vmm.prot_to_type (Z.lor PROT_WRITE PROT_READ) true))) ;;
        copy_heap fuel child parent filter heap_bottom (u64 (heap_block + PGSIZE)) top
    end
  else ret tt.

(** The body of the region loop.  [uninit] is what the stack holds where
    [free_block_filter] is allocated; [memset(.., 0, MAX_HEAP_PAGES)] clears
    its first [MAX_HEAP_PAGES] bytes, that is 8 of its 32 [int]s. *)
Definition fork_region (uninit : list Z) (child parent : nat) (i : Z) : M state unit :=
  c <- get_proc child ;;
  p <- get_proc parent ;;
  seg_type <- load32 (mr_seg_type (mapped_info p) i) ;;
  if seg_type =? CONTEXT_SEGMENT then
    update_mem (copy_words trapframe_words (trapframe c) (trapframe p))
  else if seg_type =? STACK_SEGMENT then
    cva <- load (mr_va (mapped_info c) STACK_SEGMENT) ;;
    cpa <- lift (Vmm.lookup_pa (pagetable c) cva) ;;
    pva <- load (mr_va (mapped_info p) i) ;;
    ppa <- lift (Vmm.lookup_pa (pagetable p) pva) ;;
    copy_page cpa ppa
  else if seg_type =? HEAP_SEGMENT then
    let filter := replicate (Z.to_nat (MAX_HEAP_PAGES / 4)) 0 ++ drop (Z.to_nat (MAX_HEAP_PAGES / 4)) uninit in
    if MAX_HEAP_PAGES <? free_pages_count p then fault "free_pages_address index out of range"
    else
      filter <- mark_free (heap_bottom p) (take (Z.to_nat (free_pages_count p)) (free_pages_address p)) filter ;;
      cur <- the_current ;;
      r <- get_proc cur ;;
      copy_heap (Z.to_nat ((heap_top r - heap_bottom r + (PGSIZE - 1)) / PGSIZE)) c p filter (heap_bottom p) (heap_bottom r) (heap_top r) ;;
      n <- load32 (mr_npages (mapped_info p) HEAP_SEGMENT) ;;
      store32 (mr_npages (mapped_info c) HEAP_SEGMENT) n ;;
      upd_proc child (set_heap (heap_top p) (heap_bottom p) (free_pages_address p) (free_pages_count p))
  else if seg_type =? CODE_SEGMENT then
    code_va <- load (mr_va (mapped_info p) i) ;;
    code_pa <- lift (Vmm.lookup_pa (pagetable p) code_va) ;;
    if code_pa =? 0 then panic "cannot find the physical page of parent's code segment."
    else
      lift (Vmm.user_vm_map (pagetable c) code_va PGSIZE code_pa
              (Vmm.prot_to_type (Z.lor PROT_READ PROT_EXEC) true)) ;;
      n <- load32 (mr_npages (mapped_info p) i) ;;
      Process.register_region (mapped_info c) (total_mapped_region c) code_va n CODE_SEGMENT ;;
      upd_proc child (fun q => set_regions (total_mapped_region q + 1) q)
  else ret tt.

Fixpoint fork_regions (uninit : list Z) (child parent : nat) (n : nat) (i : Z) : M state unit :=
  match n with
  | O => ret tt
  | S n => fork_region uninit child parent i ;; fork_regions uninit child parent n (i + 1)
  end.

Definition do_fork (uninit : list Z) (parent : nat) : M state Z :=
  child <- Process.alloc_process ;;
  p <- get_proc parent ;;
  fork_regions uninit child parent (Z.to_nat (total_mapped_region p)) 0 ;;
  upd_proc child (set_status READY) ;;
  c <- get_proc child ;;
  store (trapframe c + tf_a0) 0 ;;
  upd_proc child (set_parent (Some parent)) ;;
  Sched.insert_to_ready_queue child ;;
  ret (i32 (pid c)).

(** ** Syscalls *)
Definition sys_user_print (buf n : Z) : M state Z :=
  c <- gets current ;;
  match c with
  | None => panic "assertion failed: current"
  | Some i => p <- get_proc i ;; lift (Vmm.user_va_to_pa (pagetable p) buf) ;; ret 0
  end.

Definition sys_user_exit (code : Z) : M state Z :=
  i <- the_current ;;
  Process.free_process i ;;
  Sched.schedule.

Definition sys_user_allocate_page : M state Z :=
  pa <- lift Pmm.alloc_page ;;
  i <- the_current ;;
  p <- get_proc i ;;
  va <-
    (if 0 <? free_pages_count p then
       let n := free_pages_count p - 1 in
       va <- of_option "free_pages_address index out of range" (free_pages_address p !! Z.to_nat n) ;;
       upd_proc i (set_heap (heap_top p) (heap_bottom p) (free_pages_address p) n) ;;
       assert (va <? heap_top p) "assertion failed: va < current->user_heap.heap_top" ;;
       ret va
     else
       upd_proc i (set_heap (u64 (heap_top p + PGSIZE)) (heap_bottom p) (free_pages_address p) (free_pages_count p)) ;;
       n <- load32 (mr_npages (mapped_info p) HEAP_SEGMENT) ;;
       store32 (mr_npages (mapped_info p) HEAP_SEGMENT) (u32 (n + 1)) ;;
       ret (heap_top p)) ;;
  lift (Vmm.user_vm_map (pagetable p) va PGSIZE pa (Vmm.prot_to_type (Z.lor PROT_WRITE PROT_READ) true)) ;;
  ret va.

Definition sys_user_free_page (va : Z) : M state Z :=
  i <- the_current ;;
  p <- get_proc i ;;
  lift (Vmm.user_vm_unmap (pagetable p) va PGSIZE true) ;;
  if MAX_HEAP_PAGES <=? free_pages_count p then fault "free_pages_address index out of range"
  else
    upd_proc i (set_heap (heap_top p) (heap_bottom p)
      (<[Z.to_nat (free_pages_count p) := va]> (free_pages_address p)) (free_pages_count p + 1)) ;;
    ret 0.

Definition sys_user_fork (uninit : list Z) : M state Z :=
  i <- the_current ;;
  do_fork uninit i.

Definition sys_user_yield : M state Z :=
  i <- the_current ;;
  upd_proc i (set_status READY) ;;
  Sched.insert_to_ready_queue i ;;
  Sched.schedule.

(** The file syscalls, by number and arguments, and the content of the stack. *)
Context (file_syscall : Z -> list Z -> M state Z) (uninit : list Z).

Definition do_syscall (a0 a1 a2 a3 a4 a5 a6 a7 : Z) : M state Z :=
  if a0 =? SYS_user_print then sys_user_print a1 a2
  else if a0 =? SYS_user_exit then sys_user_exit a1
  else if a0 =? SYS_user_allocate_page then sys_user_allocate_page
  else if a0 =? SYS_user_free_page then sys_user_free_page a1
  else if a0 =? SYS_user_fork then sys_user_fork uninit
  else if a0 =? SYS_user_yield then sys_user_yield
  else if (SYS_user_base + 17 <=? a0) && (a0 <=? SYS_user_base + 29) then file_syscall a0 [a1; a2; a3]
  else panic "Unknown syscall".

(** ** [kernel/strap.c] *)
Definition handle_syscall (tf : Z) : M state unit :=
  epc <- load (tf + tf_epc) ;;
  store (tf + tf_epc) (u64 (epc + 4)) ;;
  a0 <- load (tf + tf_a0) ;;
  a1 <- load (tf + tf_a0 + 8) ;;
  a2 <- load (tf + tf_a0 + 16) ;;
  a3 <- load (tf + tf_a0 + 24) ;;
  a4 <- load (tf + tf_a0 + 32) ;;
  a5 <- load (tf + tf_a0 + 40) ;;
  a6 <- load (tf + tf_a0 + 48) ;;
  a7 <- load (tf + tf_a0 + 56) ;;
  r <- do_syscall a0 a1 a2 a3 a4 a5 a6 a7 ;;
  store (tf + tf_a0) (u64 r).

Definition handle_mtimer_trap : M state unit :=
  modify (fun s => with_ticks (u64 (g_ticks s + 1)) s) ;;
  x <- gets (fun s => sip (hart s)) ;;
  Process.write_sip (Z.land x (Z.lnot SIP_SSIP)).

Definition handle_user_page_fault (mcause sepc stval : Z) : M state unit :=
  if mcause =? CAUSE_STORE_PAGE_FAULT then
    pa <- lift Pmm.alloc_page ;;
    if pa =? 0 then panic "cannot allocate a physical page for user stack."
    else
      i <- the_current ;;
      p <- get_proc i ;;
      lift (Vmm.user_vm_map (pagetable p) (ROUNDDOWN stval PGSIZE) PGSIZE pa
              (Vmm.prot_to_type (Z.lor PROT_READ PROT_WRITE) true))
  else ret tt.

Definition rrsched : M state unit :=
  i <- the_current ;;
  p <- get_proc i ;;
  let t := tick_count p + 1 in
  upd_proc i (set_tick_count t) ;;
  if TIME_SLICE_LEN <=? t then
    upd_proc i (set_tick_count 0) ;;
    upd_proc i (set_status READY) ;;
    Sched.insert_to_ready_queue i ;;
    Sched.schedule
  else ret tt.

Definition smode_trap_handler : M state unit :=
  x <- gets (fun s => sstatus (hart s)) ;;
  if has x SSTATUS_SPP then panic "usertrap: not from user mode"
  else
    c <- gets current ;;
    match c with
    | None => panic "assertion failed: current"
    | Some i =>
        p <- get_proc i ;;
        pc <- gets (fun s => sepc (hart s)) ;;
        store (trapframe p + tf_epc) pc ;;
        cause <- gets (fun s => scause (hart s)) ;;
        (if cause =? CAUSE_USER_ECALL then handle_syscall (trapframe p)
         else if cause =? CAUSE_MTIMER_S_TRAP then handle_mtimer_trap ;; rrsched
         else if (cause =? CAUSE_STORE_PAGE_FAULT) || (cause =? CAUSE_LOAD_PAGE_FAULT) then
           tv <- gets (fun s => stval (hart s)) ;;
           handle_user_page_fault cause pc tv
         else panic "unexpected exception happened.") ;;
        cur <- gets current ;;
        Process.switch_to cur
    end.

(** A trap from user mode: the entry code, then the handler. *)
Definition trap : M state unit := smode_trap_vector ;; smode_trap_handler.
End ops.
End Trap.
