(* ===== verification/TrapSpec.v ===== *)
(** * Properties of the scheduler, traps and process syscalls

    The ready queue against the abstract FIFO, one timer interrupt under round
    robin, the exit and yield syscalls, and the save and restore of user contexts
    across traps.  The policy of the whole kernel and its fairness are in
    [Policy]. *)

From stdpp Require Import base gmap list numbers strings.
From Stdlib Require Import ZArith Lia.
From S2P Require Import Prelude Pmm Vmm VmmSpec Process Sched Trap.
Local Open Scope Z_scope.

(** ** User contexts *)

(** The context of a process saved in its trapframe: registers and pc. *)
Definition context (m : memory) (tf : Z) : list Z * Z := (Process.saved_regs m tf, ld64 m (tf + tf_epc)).

Definition tf_words (tf a : Z) : Prop := tf <= a < tf + 8 * Z.of_nat trapframe_words.

(** The trapframes of distinct processes do not overlap (a slot of the pool
    that was never used has none). *)
Definition tf_disjoint (s : state) : Prop :=
  forall i j p q, procs s !! i = Some p -> procs s !! j = Some q -> i <> j ->
    trapframe p <> 0 -> trapframe q <> 0 -> forall a, tf_words (trapframe p) a -> ~ tf_words (trapframe q) a.

Lemma context_ext m m' tf : (forall a, tf_words tf a -> ld64 m' a = ld64 m a) -> context m' tf = context m tf.
Proof.
  unfold tf_words, trapframe_words, context. intros Hm. f_equal.
  - apply saved_regs_ext. intros k Hk. apply Hm. lia.
  - apply Hm. unfold tf_epc. lia.
Qed.

Lemma ld64_store_regs tf l : forall i m a,
  ld64 (Trap.store_regs tf i l m) a =
    if bool_decide (tf + 8 * Z.of_nat i <= a < tf + 8 * Z.of_nat (i + length l) /\ (a - tf) mod 8 = 0)
    then nth (Z.to_nat ((a - tf) / 8) - i) l 0 else ld64 m a.
Proof.
  induction l as [|r l IH]; intros i m a; simpl.
  - rewrite bool_decide_eq_false_2; [done|lia].
  - rewrite IH. replace (S i + length l)%nat with (i + S (length l))%nat by lia.
    destruct (decide (a = tf + 8 * Z.of_nat i)) as [->|Hne].
    + rewrite bool_decide_eq_false_2 by lia. rewrite ld64_st64_eq.
      replace (tf + 8 * Z.of_nat i - tf) with (Z.of_nat i * 8) by lia.
      rewrite Z.mod_mul, Z.div_mul by lia. rewrite bool_decide_eq_true_2 by (split; [lia|done]).
      rewrite Nat2Z.id, Nat.sub_diag. done.
    + rewrite ld64_st64_ne by done.
      case_bool_decide as H1; case_bool_decide as H2; try done; try (exfalso; zlia).
      destruct (Z.to_nat ((a - tf) / 8) - i)%nat eqn:E1; [exfalso; zlia|].
      f_equal. lia.
Qed.

(** What [smode_trap_vector] saves: every register but [t6]. *)
Definition saved_by_entry (c : cpu) : list Z := <[Trap.T6 := sscratch c]> (regs c).

Lemma ld64_entry_out s a :
  length (regs (hart s)) = 31%nat -> ~ tf_words (sscratch (hart s)) a ->
  exists s', Trap.smode_trap_vector s = Ret tt s' /\ ld64 (mem s') a = ld64 (mem s) a.
Proof.
  intros Hlen Ha. unfold tf_words, trapframe_words in Ha. eexists. split; [done|]. cbn.
  rewrite ld64_st64_ne by (unfold tf_a0; lia). rewrite ld64_store_regs, !length_insert, Hlen.
  rewrite bool_decide_eq_false_2 by lia. done.
Qed.

Lemma saved_regs_list m tf l :
  length l = 31%nat -> (forall k, (k < 31)%nat -> ld64 m (tf + 8 * Z.of_nat k) = nth k l 0) ->
  Process.saved_regs m tf = l.
Proof.
  intros Hlen Hk. unfold Process.saved_regs. apply (nth_ext _ _ (ld64 m (tf + 8 * Z.of_nat 0)) 0).
  - by rewrite length_map, length_seq.
  - rewrite length_map, length_seq. intros n Hn.
    rewrite (map_nth (fun i => ld64 m (tf + 8 * Z.of_nat i)) (seq 0 31) 0%nat n), seq_nth by done. by apply Hk.
Qed.

Lemma nth_insert (l : list Z) i k v :
  (k < length l)%nat -> nth k (<[i := v]> l) 0 = if decide (k = i) then v else nth k l 0.
Proof.
  intros Hk. rewrite !nth_lookup. destruct (decide (k = i)) as [->|Hne].
  - by rewrite list_lookup_insert_eq.
  - by rewrite list_lookup_insert_ne.
Qed.

(** The frame the entry code leaves: every register but [t6], which holds the
    address of the frame. *)
Lemma saved_frame m tf l : length l = 31%nat ->
  Process.saved_regs (st64 (Trap.store_regs tf 0 (<[Trap.T6 := tf]> (<[Trap.A0 := tf]> l)) m) (tf + tf_a0) (nth Trap.A0 l 0)) tf
  = <[Trap.T6 := tf]> l.
Proof.
  intros Hlen. apply saved_regs_list; [by rewrite length_insert|].
  intros k Hk. rewrite nth_insert by lia. unfold tf_a0. destruct (decide (k = 9%nat)) as [->|Hne].
  - replace (tf + 8 * Z.of_nat 9) with (tf + 72) by lia. by rewrite ld64_st64_eq.
  - rewrite ld64_st64_ne by lia. rewrite ld64_store_regs, !length_insert, Hlen.
    replace (tf + 8 * Z.of_nat k - tf) with (Z.of_nat k * 8) by lia. rewrite Z.mod_mul, Z.div_mul by lia.
    rewrite bool_decide_eq_true_2 by (split; [lia|done]). rewrite Nat2Z.id, Nat.sub_0_r.
    rewrite !nth_insert by (rewrite ?length_insert; lia).
    change 30%nat with Trap.T6. destruct (decide (k = Trap.T6)); [done|].
    by rewrite (decide_False (P := k = Trap.A0)) by exact Hne.
Qed.

Lemma entry_saves s :
  length (regs (hart s)) = 31%nat ->
  exists s', Trap.smode_trap_vector s = Ret tt s' /\
    procs s' = procs s /\ current s' = current s /\ ready_queue_head s' = ready_queue_head s /\
    sstatus (hart s') = sstatus (hart s) /\ sepc (hart s') = sepc (hart s) /\
    scause (hart s') = scause (hart s) /\ stval (hart s') = stval (hart s) /\
    g_ticks s' = g_ticks s /\
    Process.saved_regs (mem s') (sscratch (hart s)) = saved_by_entry (hart s) /\
    (forall a, ~ tf_words (sscratch (hart s)) a -> ld64 (mem s') a = ld64 (mem s) a).
Proof.
  intros Hlen. set (tf := sscratch (hart s)). eexists. split; [done|]. split_and!; try done.
  - cbn. fold tf. unfold saved_by_entry. by apply saved_frame.
  - intros a Ha. destruct (ld64_entry_out s a Hlen Ha) as (s' & [= <-] & H). exact H.
Qed.

(** ** Timer interrupts *)

(** A state of user mode in which the interrupt [cause] arrives: process [c] is
    running with its trapframe in [sscratch], [q] is the ready queue. *)
Record user_state (cause : Z) (s : state) (c : nat) (q : list nat) : Prop := {
  us_view : Sched.view s c q;
  us_user : has (sstatus (hart s)) SSTATUS_SPP = false;
  us_cause : scause (hart s) = cause;
  us_regs : length (regs (hart s)) = 31%nat;
  us_tf : forall p, procs s !! c = Some p -> sscratch (hart s) = trapframe p;
}.

Section timer.
Context `{KernelSymbols} (files : Z -> list Z -> M state Z) (uninit : list Z).

Definition ticks (s : state) (i : nat) : Z := match procs s !! i with Some p => tick_count p | None => 0 end.

Lemma view_ext s s' c q :
  Sched.view s c q -> procs s' = procs s -> current s' = current s -> ready_queue_head s' = ready_queue_head s ->
  Sched.view s' c q.
Proof.
  intros [[Hl Hnd] Hc Hr Hu Htf] Hp Hc' Hh. unfold Sched.status_at in *. split.
  - split; [by rewrite Hp, Hh|done].
  - by rewrite Hc'.
  - intros i. unfold Sched.status_at. by rewrite Hp.
  - intros i. unfold Sched.status_at. by rewrite Hp.
  - intros i. rewrite Hp. apply Htf.
Qed.

(** The tick counter is not seen by the scheduler. *)
Lemma view_tick s c q i t :
  Sched.view s c q -> Sched.view (with_procs (alter (set_tick_count t) i (procs s)) s) c q.
Proof.
  intros [[Hl Hnd] Hc Hr Hu Htf].
  assert (forall j, Sched.status_at (with_procs (alter (set_tick_count t) i (procs s)) s) j = Sched.status_at s j) as Hst.
  { intros j. unfold Sched.status_at. cbn. destruct (decide (i = j)) as [->|]; [|by rewrite list_lookup_alter_ne].
    rewrite list_lookup_alter_eq. by destruct (procs s !! j). }
  split; [|done| | |].
  - split; [|done]. cbn. eapply Sched.linked_ext; [|exact Hl]. intros j _.
    destruct (decide (i = j)) as [->|]; [|by rewrite list_lookup_alter_ne].
    rewrite list_lookup_alter_eq. by destruct (procs s !! j).
  - intros j. by rewrite Hst.
  - intros j. by rewrite Hst.
  - intros j p. cbn. destruct (decide (i = j)) as [->|].
    + rewrite list_lookup_alter_eq. destruct (procs s !! j) as [p0|] eqn:E; [|done]. intros [= <-]. exact (Htf j p0 E).
    + rewrite list_lookup_alter_ne by done. apply Htf.
Qed.

(** The processes before and after a trap: same trapframes. *)
Definition same_frames (s s' : state) : Prop :=
  length (procs s') = length (procs s) /\
  forall i p', procs s' !! i = Some p' -> exists p, procs s !! i = Some p /\ trapframe p' = trapframe p.

Lemma same_frames_disjoint s s' : same_frames s s' -> tf_disjoint s -> tf_disjoint s'.
Proof.
  intros [_ Hs] Hd i j p q Hp Hq Hij Hp0 Hq0 a.
  destruct (Hs _ _ Hp) as (p1 & Hp1 & Ep), (Hs _ _ Hq) as (q1 & Hq1 & Eq).
  rewrite Ep, Eq in *. by apply (Hd i j).
Qed.

(** The state the timer branch reaches before [rrsched]. *)
Lemma timer_prefix s c q p :
  user_state CAUSE_MTIMER_S_TRAP s c q -> procs s !! c = Some p ->
  exists s1, Trap.trap files uninit s =
      (Trap.rrsched ;; cur <- gets current ;; Process.switch_to cur) s1 /\
    Sched.view s1 c q /\ procs s1 = procs s /\ context (mem s1) (trapframe p) = (saved_by_entry (hart s), sepc (hart s)) /\
    (forall a, ~ tf_words (trapframe p) a -> ld64 (mem s1) a = ld64 (mem s) a) /\
    g_ticks s1 = u64 (g_ticks s + 1).
Proof.
  intros [Hv Hspp Hcause Hlen Htf] Hp. specialize (Htf p Hp).
  destruct (entry_saves s Hlen) as (s0 & Heq & E1 & E2 & E3 & E4 & E5 & E6 & E7 & E8 & E9 & E10).
  assert (get_proc c s0 = Ret p s0) as Hg by (unfold get_proc; by rewrite E1, Hp).
  pose proof (Sched.v_current _ _ _ Hv) as Hcur.
  eexists. split.
  - unfold Trap.trap. mstep Heq. unfold Trap.smode_trap_handler.
    rewrite bind_gets, E4, Hspp, bind_gets, E2, Hcur. mstep Hg. rewrite bind_gets.
    unfold store, update_mem. rewrite bind_modify, bind_gets. cbn [hart with_pmm]. rewrite E6, Hcause.
    cbn [Z.eqb CAUSE_MTIMER_S_TRAP CAUSE_USER_ECALL Pos.eqb].
    unfold Trap.handle_mtimer_trap, Process.write_sip.
    rewrite E5. reflexivity.
  - split_and!; try done.
    + by eapply view_ext; [exact Hv|..].
    + unfold context. f_equal.
      * rewrite <- E9, Htf. apply saved_regs_ext. intros k Hk. apply ld64_st64_ne. unfold tf_epc. lia.
      * apply ld64_st64_eq.
    + intros a Ha. cbn. unfold tf_words, trapframe_words in Ha. rewrite ld64_st64_ne by (unfold tf_epc; lia).
      apply E10. by rewrite Htf.
    + cbn. by rewrite E8.
Qed.

Lemma resumed_context i p s s' tf :
  Sched.resumed i p s s' -> (tf = trapframe p \/ forall a, tf_words tf a -> ~ tf_words (trapframe p) a) ->
  context (mem s') tf = context (mem s) tf.
Proof.
  intros Hres Htf. unfold mem at 1. rewrite (Sched.rs_pmm _ _ _ _ Hres). cbn [Pmm.set_mem Pmm.mem].
  destruct Htf as [->|Hd].
  - unfold context. f_equal.
    + apply saved_regs_ext. intros k Hk. unfold tf_kernel_sp, tf_kernel_satp, tf_kernel_trap.
      rewrite !ld64_st64_ne by lia. done.
    + unfold tf_kernel_sp, tf_kernel_satp, tf_kernel_trap, tf_epc. rewrite !ld64_st64_ne by lia. done.
  - apply context_ext. intros a Ha. specialize (Hd a Ha). unfold tf_words, trapframe_words in Hd.
    unfold tf_kernel_sp, tf_kernel_satp, tf_kernel_trap. rewrite !ld64_st64_ne by lia. done.
Qed.

Lemma same_frames_of_queue s s' :
  Forall2 Sched.same_but_queue (procs s) (procs s') -> same_frames s s' /\ forall i, ticks s' i = ticks s i.
Proof.
  intros Hf. split; [split|].
  - symmetry. by eapply Forall2_length.
  - intros i p' Hp'. destruct (Forall2_lookup_r _ _ _ _ _ Hf Hp') as (p & Hp & Hpp). exists p. split; [done|].
    unfold Sched.same_but_queue in Hpp. by rewrite Hpp.
  - intros i. unfold ticks. destruct (procs s' !! i) as [p'|] eqn:E.
    + destruct (Forall2_lookup_r _ _ _ _ _ Hf E) as (p & -> & Hpp). unfold Sched.same_but_queue in Hpp. by rewrite Hpp.
    + destruct (procs s !! i) as [p|] eqn:E'; [|done].
      destruct (Forall2_lookup_l _ _ _ _ _ Hf E') as (p' & Hp' & _). congruence.
Qed.

Lemma same_frames_trans s1 s2 s3 : same_frames s1 s2 -> same_frames s2 s3 -> same_frames s1 s3.
Proof.
  intros [L1 H1] [L2 H2]. split; [congruence|]. intros i p3 Hp3.
  destruct (H2 i p3 Hp3) as (p2 & Hp2 & ->). by apply H1.
Qed.

Lemma tick_update s i p t :
  procs s !! i = Some p ->
  let s' := with_procs (alter (set_tick_count t) i (procs s)) s in
  same_frames s s' /\ (forall j, ticks s' j = if decide (j = i) then t else ticks s j).
Proof.
  intros Hp s'. split; [split|].
  - apply length_alter.
  - intros j p' Hp'. unfold s' in Hp'. cbn in Hp'. destruct (decide (i = j)) as [->|].
    + rewrite list_lookup_alter_eq, Hp in Hp'. simpl in Hp'. simplify_eq. by exists p.
    + rewrite list_lookup_alter_ne in Hp' by done. by exists p'.
  - intros j. unfold ticks, s'. cbn. destruct (decide (j = i)) as [->|].
    + by rewrite list_lookup_alter_eq, Hp.
    + by rewrite list_lookup_alter_ne.
Qed.

(** What a timer interrupt of the running process [c] does, as one record. *)
Record timer_post (s s' : state) (c c' : nat) (p : process) (q' : list nat) (t : Z) : Prop := {
  tp_view : Sched.view s' c' q';
  tp_user : has (sstatus (hart s')) SSTATUS_SPP = false;
  tp_tf : forall p', procs s' !! c' = Some p' -> sscratch (hart s') = trapframe p' /\
            context (mem s') (trapframe p') = (regs (hart s'), sepc (hart s'));
  tp_frames : same_frames s s';
  tp_ticks : forall i, ticks s' i = if decide (i = c) then t else ticks s i;
  tp_saved : context (mem s') (trapframe p) = (saved_by_entry (hart s), sepc (hart s));
  tp_others : forall i pi, i <> c -> procs s !! i = Some pi -> trapframe pi <> 0 ->
                context (mem s') (trapframe pi) = context (mem s) (trapframe pi);
}.

Lemma timer_post_resumed s s1 s' c c' p p' q' t :
  tf_disjoint s -> procs s !! c = Some p -> same_frames s s1 ->
  context (mem s1) (trapframe p) = (saved_by_entry (hart s), sepc (hart s)) ->
  (forall a, ~ tf_words (trapframe p) a -> ld64 (mem s1) a = ld64 (mem s) a) ->
  (forall i, ticks s1 i = if decide (i = c) then t else ticks s i) ->
  trapframe p <> 0 -> trapframe p' <> 0 ->
  procs s1 !! c' = Some p' -> Sched.resumed c' p' s1 s' -> Sched.view s' c' q' ->
  Forall2 Sched.same_but_queue (procs s1) (procs s') ->
  timer_post s s' c c' p q' t.
Proof.
  intros Hd Hp Hsf Hctx Hmem Htk Hz Hz' Hp' Hres Hv Hq.
  destruct (same_frames_of_queue s1 s' Hq) as [Hsf' Htk'].
  destruct (proj2 Hsf c' p' Hp') as (p0 & Hp0 & Htf0).
  assert (forall i pi, procs s !! i = Some pi -> trapframe pi <> 0 -> context (mem s') (trapframe pi) = context (mem s1) (trapframe pi)) as Hc.
  { intros i pi Hpi Hi0. apply (resumed_context c' p' s1 s' _ Hres). destruct (decide (i = c')) as [->|Hne].
    - left. congruence.
    - right. rewrite Htf0. apply (Hd i c'); congruence. }
  split.
  - done.
  - by apply (Sched.rs_spp _ _ _ _ Hres).
  - intros r Hr. destruct (Forall2_lookup_r _ _ _ _ _ Hq Hr) as (r0 & Hr0 & Hrr).
    assert (r0 = p') as -> by congruence.
    assert (trapframe r = trapframe p') as -> by (unfold Sched.same_but_queue in Hrr; by rewrite Hrr).
    split; [by apply (Sched.rs_sscratch _ _ _ _ Hres)|].
    rewrite (Sched.rs_regs _ _ _ _ Hres), (Sched.rs_sepc _ _ _ _ Hres).
    apply (resumed_context c' p' s1 s' _ Hres). by left.
  - by eapply same_frames_trans.
  - intros i. by rewrite Htk', Htk.
  - by rewrite (Hc c p Hp Hz).
  - intros i pi Hne Hpi Hi0. rewrite (Hc i pi Hpi Hi0). apply context_ext. intros a Ha. apply Hmem.
    by apply (Hd i c pi p Hpi Hp Hne Hi0 Hz).
Qed.

Lemma timer_step s c q p :
  user_state CAUSE_MTIMER_S_TRAP s c q -> tf_disjoint s -> procs s !! c = Some p ->
  let expired := TIME_SLICE_LEN <=? tick_count p + 1 in
  let next := if expired then Sched.preempt c q else (c, q) in
  exists s', Trap.trap files uninit s = ToUser s' /\
    timer_post s s' c next.1 p next.2 (if expired then 0 else tick_count p + 1).
Proof.
  intros Hus Hd Hp expired next.
  destruct (timer_prefix s c q p Hus Hp) as (s1 & Heq & Hv1 & Hps1 & Hctx & Hmem & _).
  assert (procs s1 !! c = Some p) as Hp1 by congruence.
  assert (trapframe p <> 0) as Hz by (apply (Sched.v_tf _ _ _ Hv1 c p Hp1); by left).
  assert (same_frames s s1) as Hsf1 by (unfold same_frames; rewrite Hps1; eauto).
  assert (forall i, ticks s1 i = ticks s i) as Ht1 by (intros i; unfold ticks; by rewrite Hps1).
  set (t := tick_count p + 1) in *.
  set (s2 := with_procs (alter (set_tick_count t) c (procs s1)) s1).
  destruct (tick_update s1 c p t Hp1) as [Hsf2 Ht2]. fold s2 in Hsf2, Ht2.
  pose proof (view_tick s1 c q c t Hv1) as Hv2. fold s2 in Hv2.
  assert (forall B (k : unit -> M state B), bind Trap.rrsched k s1 =
      bind (if expired then upd_proc c (set_tick_count 0) ;; Sched.give_up_cpu c else ret tt) k s2) as Hrr.
  { intros B k. unfold Trap.rrsched, bind at 1 2 3 4, the_current, get_proc.
    rewrite (Sched.v_current _ _ _ Hv1). cbn [of_option ret]. rewrite Hp1. reflexivity. }
  rewrite Heq, Hrr. clear Hrr. assert (procs s2 !! c = Some (set_tick_count t p)) as Hp2.
  { unfold s2. cbn. by rewrite list_lookup_alter_eq, Hp1. }
  destruct expired.
  - set (s3 := with_procs (alter (set_tick_count 0) c (procs s2)) s2).
    destruct (tick_update s2 c _ 0 Hp2) as [Hsf3 Ht3]. fold s3 in Hsf3, Ht3.
    pose proof (view_tick s2 c q c 0 Hv2) as Hv3. fold s3 in Hv3.
    pose proof (Sched.give_up_cpu_spec s3 c q Hv3) as Hg. subst next.
    destruct (Sched.preempt c q) as [c' q']. destruct Hg as (p' & s' & Hgeq & Hp' & Hv' & Hres & Hq').
    assert (trapframe p' <> 0) as Hz'.
    { destruct (Forall2_lookup_l _ _ _ _ _ Hq' Hp') as (r & Hr & Hrr).
      replace (trapframe p') with (trapframe r) by (unfold Sched.same_but_queue in Hrr; by rewrite Hrr).
      apply (Sched.v_tf _ _ _ Hv' c' r Hr). by left. }
    exists s'. split.
    + unfold bind at 1, upd_proc. rewrite bind_modify. fold s3. by rewrite Hgeq.
    + apply (timer_post_resumed s s3 s' c c' p p'); try done.
      * by do 2 (eapply same_frames_trans; [|eassumption]).
      * intros i. rewrite Ht3, Ht2, Ht1. by destruct (decide (i = c)).
  - destruct (Sched.switch_to_spec c (set_tick_count t p) s2 Hp2 Hz) as (s' & Hgeq & Hres & Hps' & Hrq).
    exists s'. split.
    + rewrite bind_ret_l, bind_gets, (Sched.v_current _ _ _ Hv2). by rewrite Hgeq.
    + apply (timer_post_resumed s s2 s' c c p (set_tick_count t p)); try done.
      * by eapply same_frames_trans.
      * intros i. rewrite Ht2, Ht1. done.
      * eapply view_ext; [exact Hv2|done| |done]. rewrite (Sched.rs_current _ _ _ _ Hres).
        by rewrite (Sched.v_current _ _ _ Hv2).
      * rewrite Hps'. apply Sched.same_refl.
Qed.
End timer.

(** ** Properties *)

(** [insert_to_ready_queue] refines the insertion into an abstract FIFO
    queue without duplicates: it returns, a queued process leaves the queue as
    it is, any other is appended at the end and becomes [READY], and nothing
    but [status] and [queue_next] fields and the head changes. *)
Theorem insert_to_ready_queue_fifo s q i :
  Sched.queue s q -> is_Some (procs s !! i) ->
  returns (Sched.insert_to_ready_queue i) s (fun _ s' =>
    Sched.queue s' (Sched.enqueue i q) /\ Sched.frame s s' /\
    (forall j, Sched.status_at s' j =
       if decide (j = i /\ (i ∉ q)) then Some READY else Sched.status_at s j)).
Proof. apply Sched.insert_spec. Qed.

(** C14: one timer interrupt under round robin.  While the slice of the running
    process lasts, its tick is counted and it goes on running; when it is used
    up, the process goes to the end of the queue, its count restarts, and the
    head of the queue runs.  The status fields keep describing the queue: ready
    are exactly the queued processes, running exactly the current one. *)
Theorem timer_round_robin `{KernelSymbols} files uninit s c q p :
  user_state CAUSE_MTIMER_S_TRAP s c q -> tf_disjoint s -> procs s !! c = Some p ->
  let expired := TIME_SLICE_LEN <=? tick_count p + 1 in
  let next := if expired then Sched.preempt c q else (c, q) in
  exists s', Trap.trap files uninit s = ToUser s' /\ Sched.view s' next.1 next.2 /\
    (forall i, ticks s' i = if decide (i = c) then (if expired then 0 else tick_count p + 1) else ticks s i).
Proof.
  intros Hus Hd Hp expired next. destruct (timer_step files uninit s c q p Hus Hd Hp) as (s' & Heq & Hpost).
  exists s'. split; [exact Heq|]. split; apply Hpost.
Qed.

(** C31: contexts survive timer interrupts: the registers (but [t6]) and the pc
    of the interrupted process are saved in its trapframe, the saved contexts of
    all other processes are untouched, and the process that runs next runs with
    exactly the context saved in its trapframe, in user mode.  The [t6] that is
    saved is not the user's: it is the trapframe pointer. *)
Theorem timer_preserves_contexts `{KernelSymbols} files uninit s c q p :
  user_state CAUSE_MTIMER_S_TRAP s c q -> tf_disjoint s -> procs s !! c = Some p ->
  exists s' c', Trap.trap files uninit s = ToUser s' /\ current s' = Some c' /\
    context (mem s') (trapframe p) = (<[Trap.T6 := trapframe p]> (regs (hart s)), sepc (hart s)) /\
    (forall i pi, i <> c -> procs s !! i = Some pi -> trapframe pi <> 0 ->
       context (mem s') (trapframe pi) = context (mem s) (trapframe pi)) /\
    (forall p', procs s' !! c' = Some p' ->
       (regs (hart s'), sepc (hart s')) = context (mem s') (trapframe p')) /\
    has (sstatus (hart s')) SSTATUS_SPP = false.
Proof.
  intros Hus Hd Hp. destruct (timer_step files uninit s c q p Hus Hd Hp) as (s' & Heq & Hpost).
  cbv zeta in Hpost. destruct (if TIME_SLICE_LEN <=? _ then Sched.preempt c q else (c, q)) as [c' q']. destruct Hpost as [P1 P2 P3 P4 P5 P6 P7].
  exists s', c'. split_and!; try done.
  - apply P1.
  - rewrite P6. unfold saved_by_entry. by rewrite (us_tf _ _ _ _ Hus p Hp).
  - intros p' Hp'. symmetry. by apply P3.
Qed.

(** C36: [sys_user_yield] never returns to its caller: the process goes to the
    end of the ready queue and the head of the queue runs, with the page table,
    registers and pc of its own. *)
Theorem sys_user_yield_preempts `{KernelSymbols} s c q :
  Sched.view s c q ->
  let next := Sched.preempt c q in
  exists p s', Trap.sys_user_yield s = ToUser s' /\ procs s !! next.1 = Some p /\
    Sched.view s' next.1 next.2 /\ satp (hart s') = MAKE_SATP (pagetable p) /\
    (regs (hart s'), sepc (hart s')) = context (mem s) (trapframe p).
Proof.
  intros Hv next. pose proof (Sched.give_up_cpu_spec s c q Hv) as Hg. subst next.
  destruct (Sched.preempt c q) as [c' q']. destruct Hg as (p & s' & Heq & Hp & Hv' & Hres & _).
  exists p, s'. split_and!; try done.
  - unfold Trap.sys_user_yield, the_current. unfold bind at 1. rewrite (Sched.v_current _ _ _ Hv). apply Heq.
  - apply (Sched.rs_satp _ _ _ _ Hres).
  - by rewrite (Sched.rs_regs _ _ _ _ Hres), (Sched.rs_sepc _ _ _ _ Hres).
Qed.

(** [sys_user_exit] makes the process a zombie and runs the head of the
    ready queue; with no ready process left it shuts the machine down with code
    0 when every other process is free or a zombie, and panics otherwise. *)
Theorem sys_user_exit_spec `{KernelSymbols} s c q code :
  Sched.view s c q ->
  match q with
  | i :: q' => exists s', Trap.sys_user_exit code s = ToUser s' /\ Sched.view s' i q' /\
                 Sched.status_at s' c = Some ZOMBIE
  | [] => Trap.sys_user_exit code s =
            if forallb (fun i => bool_decide (i = c) || match procs s !! i with Some p => Sched.idle p | None => true end)
                 (seq 0 (length (procs s)))
            then Shutdown 0
            else Panic "Not handled: we should let system wait for unfinished processes."
  end.
Proof.
  intros Hv. unfold Trap.sys_user_exit, the_current. destruct q as [|i q'].
  - unfold bind at 1. rewrite (Sched.v_current _ _ _ Hv). apply (Sched.exit_last s c Hv).
  - destruct (Sched.exit_spec s c i q' Hv) as (p & s' & Heq & _ & Hv' & _ & Hz & _).
    exists s'. split_and!; try done. unfold bind at 1. rewrite (Sched.v_current _ _ _ Hv). apply Heq.
Qed.

(** ** A concrete pool: process 0 running, 1 and 2 ready *)
#[local] Instance demo_symbols : KernelSymbols := {|
  trap_sec_start := 0x80004000; smode_trap_vector_addr := 0x80004000; smode_trap_handler_addr := 0x80000800 |}.

Definition demo_process (i : Z) (st : proc_status) (next : option nat) : process :=
  mk_process (0x80020000 + i * 0x1000) (0x80030000 + i * 0x1000) (0x80010000 + i * 0x1000) 0x80040000 4
    USER_FREE_ADDRESS_START USER_FREE_ADDRESS_START (replicate 32 0) 0 i st None next 0 0x80050000.

Definition demo_cpu (cause : Z) : cpu :=
  mk_cpu 0x80004000 0 0 0x10000 cause 0 2 0x80010000 (map Z.of_nat (seq 0 31)).

Definition demo_pool (cause : Z) : state :=
  mk_state (Pmm.mk ∅ 0x80100000 0x80200000 0)
    ([demo_process 0 RUNNING None; demo_process 1 READY (Some 2%nat); demo_process 2 READY None]
       ++ replicate 29 zero_process)
    (Some 0%nat) (Some 1%nat) (demo_cpu cause) 0 0.

Lemma demo_lookup cause i p :
  procs (demo_pool cause) !! i = Some p ->
  (i = 0%nat /\ p = demo_process 0 RUNNING None) \/ (i = 1%nat /\ p = demo_process 1 READY (Some 2%nat)) \/
  (i = 2%nat /\ p = demo_process 2 READY None) \/ ((2 < i)%nat /\ p = zero_process).
Proof.
  unfold demo_pool. cbn [procs app]. destruct i as [|[|[|i]]]; simpl lookup.
  - intros [= <-]. by left.
  - intros [= <-]. right. by left.
  - intros [= <-]. right. right. by left.
  - intros Hp. do 3 right. split; [lia|]. cbn in Hp. change (replicate 29 zero_process !! i = Some p) in Hp.
    by apply lookup_replicate in Hp as [? _].
Qed.

Lemma demo_view cause : Sched.view (demo_pool cause) 0 [1%nat; 2%nat].
Proof.
  split.
  - split.
    + split; [done|]. eexists. split; [done|]. split; [done|]. by eexists.
    + apply (bool_decide_unpack _). by vm_compute.
  - done.
  - intros i. unfold Sched.status_at. rewrite !elem_of_cons, elem_of_nil.
    destruct (procs (demo_pool cause) !! i) as [p|] eqn:E.
    + apply demo_lookup in E as [[-> ->]|[[-> ->]|[[-> ->]|[Hi ->]]]]; simpl;
        (split; [intros [=]; lia|intros Hx; first [done|exfalso; lia]]).
    + split; [done|]. intros [->|[->|[]]]; done.
  - intros i. unfold Sched.status_at. destruct (procs (demo_pool cause) !! i) as [p|] eqn:E.
    + apply demo_lookup in E as [[-> ->]|[[-> ->]|[[-> ->]|[Hi ->]]]]; simpl;
        (split; [intros [=]; lia|intros Hx; first [done|exfalso; lia]]).
    + split; [done|]. by intros ->.
  - intros i p E Hi. rewrite !elem_of_cons, elem_of_nil in Hi.
    apply demo_lookup in E as [[-> ->]|[[-> ->]|[[-> ->]|[Hi' ->]]]]; simpl; lia.
Qed.

Lemma demo_disjoint cause : tf_disjoint (demo_pool cause).
Proof.
  intros i j p q Hp Hq Hij H0 H1 a. unfold tf_words, trapframe_words.
  apply demo_lookup in Hp as [[-> ->]|[[-> ->]|[[-> ->]|[Hi ->]]]];
    apply demo_lookup in Hq as [[-> ->]|[[-> ->]|[[-> ->]|[Hj ->]]]]; simpl in *; lia.
Qed.

Lemma demo_user_state cause : user_state cause (demo_pool cause) 0 [1%nat; 2%nat].
Proof. split; [apply demo_view|done|done|done|]. by intros p [= <-]. Qed.

Definition no_files (n : Z) (args : list Z) : M state Z := panic "no file system".

Lemma insert_to_ready_queue_fifo_witness :
  returns (Sched.insert_to_ready_queue 0) (demo_pool 0) (fun _ s' =>
    Sched.queue s' [1%nat; 2%nat; 0%nat] /\ Sched.frame (demo_pool 0) s' /\
    (forall j, Sched.status_at s' j =
       if decide (j = 0%nat /\ (0%nat ∉ [1%nat; 2%nat])) then Some READY else Sched.status_at (demo_pool 0) j)).
Proof.
  apply (insert_to_ready_queue_fifo (demo_pool 0) [1%nat; 2%nat] 0).
  - apply demo_view.
  - by eexists.
Defined.

Lemma timer_round_robin_witness :
  exists s', Trap.trap no_files [] (demo_pool CAUSE_MTIMER_S_TRAP) = ToUser s' /\
    Sched.view s' 0 [1%nat; 2%nat].
Proof.
  destruct (timer_round_robin no_files [] (demo_pool CAUSE_MTIMER_S_TRAP) 0 [1%nat; 2%nat] _
    (demo_user_state _) (demo_disjoint _) eq_refl) as (s' & Heq & Hv & _).
  exists s'. split; [exact Heq|exact Hv].
Defined.

Lemma timer_preserves_contexts_witness :
  exists s' c', Trap.trap no_files [] (demo_pool CAUSE_MTIMER_S_TRAP) = ToUser s' /\ current s' = Some c' /\
    context (mem s') 0x80010000 = (map Z.of_nat (seq 0 30) ++ [0x80010000], 0x10000).
Proof.
  destruct (timer_preserves_contexts no_files [] (demo_pool CAUSE_MTIMER_S_TRAP) 0 [1%nat; 2%nat] _
    (demo_user_state _) (demo_disjoint _) eq_refl) as (s' & c' & Heq & Hc & Hctx & _).
  exists s', c'. split; [exact Heq|]. split; [exact Hc|exact Hctx].
Defined.

Lemma sys_user_yield_preempts_witness :
  exists p s', Trap.sys_user_yield (demo_pool 0) = ToUser s' /\ procs (demo_pool 0) !! 1%nat = Some p /\
    Sched.view s' 1 [2%nat; 0%nat] /\ satp (hart s') = MAKE_SATP (pagetable p) /\
    (regs (hart s'), sepc (hart s')) = context (mem (demo_pool 0)) (trapframe p).
Proof. apply (sys_user_yield_preempts (demo_pool 0) 0 [1%nat; 2%nat]). apply demo_view. Defined.

Lemma sys_user_exit_spec_witness :
  exists s', Trap.sys_user_exit 0 (demo_pool 0) = ToUser s' /\ Sched.view s' 1 [2%nat] /\
    Sched.status_at s' 0 = Some ZOMBIE.
Proof. apply (sys_user_exit_spec (demo_pool 0) 0 [1%nat; 2%nat] 0). apply demo_view. Defined.
