(* ===== verification/Heap.v ===== *)
(** * The heap calls: [sys_user_allocate_page] and [sys_user_free_page] (kernel/syscall.c)

    The specification is an abstract heap: blocks with a known part of their
    contents, and the stack of the blocks that were freed. A program allocates
    and frees blocks and reads and writes words in them; [heap_refines_blocks]
    says that on the kernel's state, its page tables and its memory it gets the
    answers of the abstract heap. *)

From stdpp Require Import base gmap list numbers strings.
From Stdlib Require Import ZArith Lia.
From S2P Require Import Prelude Pmm Vmm VmmSpec Bytes ByteMem UserMem AddrSpace Process ProcessSpec ElfSpec Sched Trap.
Local Open Scope Z_scope.

Definition block_va (j : nat) : Z := USER_FREE_ADDRESS_START + PGSIZE * Z.of_nat j.

(** ** The abstract heap *)
Record heap := mk_heap {
  size : nat;
  free_stack : list nat;
  blocks : gmap nat (gmap Z Z);
}.

Inductive request :=
  | Allocate
  | Free (j : nat)
  | Write (j : nat) (k w : Z)
  | Read (j : nat) (k : Z).

#[export] Instance request_eq_dec : EqDecision request.
Proof. solve_decision. Defined.

Definition next_block (h : heap) : nat := default (size h) (head (free_stack h)).

Definition next (h : heap) (r : request) : heap :=
  match r with
  | Allocate => mk_heap (match free_stack h with [] => S (size h) | _ => size h end) (tail (free_stack h)) (<[next_block h := ∅]> (blocks h))
  | Free j => mk_heap (size h) (j :: free_stack h) (delete j (blocks h))
  | Write j k w => mk_heap (size h) (free_stack h) (alter (insert k w) j (blocks h))
  | Read _ _ => h
  end.

(** What a call may answer: a read gives the word written last, if any. *)
Definition answers (h : heap) (r : request) (v : Z) : Prop :=
  match r with
  | Allocate => v = block_va (next_block h)
  | Free _ | Write _ _ _ => v = 0
  | Read j k => forall w, blocks h !! j ≫= lookup k = Some w -> v = w
  end.

(** Blocks are used while they are allocated, at most 32 are free, and the heap
    ends below [limit]. *)
Definition legal (limit : Z) (h : heap) (r : request) : Prop :=
  match r with
  | Allocate => block_va (S (next_block h)) <= limit
  | Free j => is_Some (blocks h !! j) /\ Z.of_nat (length (free_stack h)) < MAX_HEAP_PAGES
  | Write j k w => is_Some (blocks h !! j) /\ 0 <= k < 512 /\ 0 <= w < 2 ^ 64
  | Read j k => is_Some (blocks h !! j) /\ 0 <= k < 512
  end.

Fixpoint legal_run (limit : Z) (h : heap) (rs : list request) : Prop :=
  match rs with [] => True | r :: rs => legal limit h r /\ legal_run limit (next h r) rs end.
Fixpoint answers_run (h : heap) (rs : list request) (vs : list Z) : Prop :=
  match rs, vs with
  | [], [] => True
  | r :: rs, v :: vs => answers h r v /\ answers_run (next h r) rs vs
  | _, _ => False
  end.
Definition end_heap (h : heap) (rs : list request) : heap := fold_left next rs h.
Definition allocations (rs : list request) : nat := length (filter (fun r => r = Allocate) rs).

(** ** The program on the kernel *)
(** A word access of the running program, translated by its page table. *)
Definition user_address (flag va : Z) : M state Z :=
  i <- the_current ;;
  p <- get_proc i ;;
  m <- gets mem ;;
  match xlate (pagetable p) m va with
  | Some e => if has e PTE_U && has e flag then ret (PTE2PA e + va mod PGSIZE) else fault "page fault"
  | None => fault "page fault"
  end.
Definition user_write (va w : Z) : M state Z := a <- user_address PTE_W va ;; store a w ;; ret 0.
Definition user_read (va : Z) : M state Z := a <- user_address PTE_R va ;; load a.

Definition serve `{KernelSymbols} (r : request) : M state Z :=
  match r with
  | Allocate => Trap.sys_user_allocate_page
  | Free j => Trap.sys_user_free_page (block_va j)
  | Write j k w => user_write (block_va j + 8 * k) w
  | Read j k => user_read (block_va j + 8 * k)
  end.
Fixpoint serve_all `{KernelSymbols} (rs : list request) : M state (list Z) :=
  match rs with
  | [] => ret []
  | r :: rs => v <- serve r ;; vs <- serve_all rs ;; ret (v :: vs)
  end.

(** ** The representation *)
(** Block [j], with the contents [c], on the page [q]. *)
Record live (root mi : Z) (v : Pmm.state) (F : list Z) (j : nat) (q : Z) (c : gmap Z Z) : Prop := {
  lv_page : Pmm.valid_page v q /\ (q ∉ F) /\ ~ is_table root (Pmm.mem v) q /\ q <> mi /\ 0 < q;
  lv_xlate : forall x, same_page (block_va j) x -> xlate root (Pmm.mem v) x = Some (entry q stack_perm);
  lv_words : forall k w, c !! k = Some w -> 0 <= k < 512 /\ ld64 (Pmm.mem v) (q + 8 * k) = w;
}.

Record heap_ok (v : Pmm.state) (F : list Z) (p : process) (fr : nat -> Z) (limit : Z) (h : heap) : Prop := {
  hp_space : vm_inv (pagetable p) v F /\ Pmm.free_mem_end_addr v + PGSIZE < 2 ^ 64;
  hp_info : mapped_info p mod PGSIZE = 0 /\ (mapped_info p ∉ F) /\ ~ is_table (pagetable p) (Pmm.mem v) (mapped_info p);
  hp_bounds : heap_bottom p = USER_FREE_ADDRESS_START /\ heap_top p = block_va (size h) /\ block_va (size h) <= limit <= MAXVA;
  hp_npages : ld32 (Pmm.mem v) (mr_npages (mapped_info p) HEAP_SEGMENT) = Z.of_nat (size h);
  hp_stack : length (free_pages_address p) = 32%nat /\ free_pages_count p = Z.of_nat (length (free_stack h)) /\
    take (length (free_stack h)) (free_pages_address p) = rev (map block_va (free_stack h)) /\ (length (free_stack h) <= 32)%nat;
  hp_free : NoDup (free_stack h) /\ forall j, blocks h !! j = None <-> (size h <= j)%nat \/ j ∈ free_stack h;
  hp_range : forall j, j ∈ free_stack h -> (j < size h)%nat;
  hp_live : forall j c, blocks h !! j = Some c -> live (pagetable p) (mapped_info p) v F j (fr j) c;
  hp_apart : forall j j', is_Some (blocks h !! j) -> is_Some (blocks h !! j') -> fr j = fr j' -> j = j';
  hp_dead : forall j x, blocks h !! j = None -> block_va (S j) <= limit -> same_page (block_va j) x -> xlate (pagetable p) (Pmm.mem v) x = None;
}.

(** The pages that the heap may use. *)
Definition heap_pages (v : Pmm.state) (F : list Z) (p : process) (fr : nat -> Z) (h : heap) (q : Z) : Prop :=
  q ∈ F \/ is_table (pagetable p) (Pmm.mem v) q \/ exists j, is_Some (blocks h !! j) /\ q = fr j.

(** What the heap calls leave alone. *)
Record kept (limit : Z) (s : state) (F : list Z) (i : nat) (p : process) (fr : nat -> Z) (h : heap)
    (s' : state) (F' : list Z) (p' : process) (fr' : nat -> Z) (h' : heap) : Prop := {
  kp_state : s' = with_pmm (pmm s') (with_procs (<[i := p']> (procs s)) s);
  kp_process : p' = set_heap (heap_top p') (heap_bottom p) (free_pages_address p') (free_pages_count p') p;
  kp_pages : forall q, heap_pages (pmm s') F' p' fr' h' q -> heap_pages (pmm s) F p fr h q;
  kp_mem : forall a, ~ heap_pages (pmm s) F p fr h (ROUNDDOWN a PGSIZE) -> a <> mr_npages (mapped_info p) HEAP_SEGMENT ->
    ld64 (mem s') a = ld64 (mem s) a;
  kp_xlate : forall x, 0 <= x < MAXVA -> ~ (USER_FREE_ADDRESS_START <= x < limit) ->
    xlate (pagetable p) (mem s') x = xlate (pagetable p) (mem s) x;
  kp_bounds : Pmm.free_mem_start_addr (pmm s') = Pmm.free_mem_start_addr (pmm s) /\ Pmm.free_mem_end_addr (pmm s') = Pmm.free_mem_end_addr (pmm s);
}.

(** ** Blocks *)
Lemma block_va_mod j : block_va j mod PGSIZE = 0 /\ 0 <= block_va j /\ block_va (S j) = block_va j + PGSIZE.
Proof. unfold block_va, USER_FREE_ADDRESS_START, PGSIZE. split_and!; [zlia|lia|lia]. Qed.

Lemma block_page_apart j j' x : same_page (block_va j) x -> same_page (block_va j') x -> j = j'.
Proof. unfold same_page, block_va, USER_FREE_ADDRESS_START, PGSIZE. intros. zlia. Qed.

Lemma block_page_range j x : same_page (block_va j) x <-> block_va j <= x < block_va (S j).
Proof. unfold same_page, block_va, USER_FREE_ADDRESS_START, PGSIZE. split; intros; zlia. Qed.

Lemma live_step root mi v F v' F' j q c c' : live root mi v F j q c ->
  Pmm.free_mem_start_addr v' = Pmm.free_mem_start_addr v -> Pmm.free_mem_end_addr v' = Pmm.free_mem_end_addr v ->
  (q ∉ F') -> ~ is_table root (Pmm.mem v') q ->
  (forall x, same_page (block_va j) x -> xlate root (Pmm.mem v') x = xlate root (Pmm.mem v) x) ->
  (forall k w, c' !! k = Some w -> 0 <= k < 512 /\ ld64 (Pmm.mem v') (q + 8 * k) = w) -> live root mi v' F' j q c'.
Proof.
  intros [(P1 & P2 & P3 & P4 & P5) X W] Hs He HF Ht Hx Hw. split; [|by intros x Hj; rewrite Hx; auto|done].
  split_and!; try done. unfold Pmm.valid_page in *. by rewrite Hs, He.
Qed.

(** ** Mapping a page for a block
    [m'] is the memory after the count of pages was written. *)
Lemma alloc_page_write root v q F v1 m' : vm_inv root v (q :: F) -> Pmm.alloc_page v = Ret q v1 ->
  ld64 m' q = ld64 (Pmm.mem v) q -> Pmm.alloc_page (Pmm.set_mem m' v) = Ret q (Pmm.set_mem m' v1).
Proof.
  intros (Hrep & _) E Hm. destruct (Pmm.alloc_page_cons v q F Hrep) as [E' _]. rewrite E' in E. injection E as <-.
  unfold Pmm.alloc_page in *. cbn [Pmm.mem Pmm.set_mem Pmm.g_free_mem_list] in *.
  destruct Hrep as (Hs & [-> _] & _ & [[_ Hr] _]%Forall_cons). destruct (Z.eqb_spec q 0); [lia|]. by rewrite Hm.
Qed.

Record block_mapped (root mi : Z) (v : Pmm.state) (q : Z) (F : list Z) (va : Z) (m' : memory) (v1 v2 : Pmm.state) (F2 : list Z) : Prop := {
  bm_alloc : Pmm.alloc_page v = Ret q v1;
  bm_mem : Pmm.mem v1 = Pmm.mem v;
  bm_map : Vmm.user_vm_map root va PGSIZE q stack_perm (Pmm.set_mem m' v1) = Ret tt v2;
  bm_inv : vm_inv root v2 F2;
  bm_changes : changes root (fun a => ld64 m' a <> ld64 (Pmm.mem v) a) (same_page va) (q :: F) (Pmm.mem v) F2 (Pmm.mem v2);
  bm_room : (length F <= length F2 + 2)%nat;
  bm_bounds : Pmm.free_mem_start_addr v2 = Pmm.free_mem_start_addr v /\ Pmm.free_mem_end_addr v2 = Pmm.free_mem_end_addr v;
  bm_page : Pmm.valid_page v q /\ (q ∉ F2) /\ ~ is_table root (Pmm.mem v2) q /\ q <> mi /\ 0 < q;
  bm_xlate : forall x, 0 <= x < MAXVA -> same_page va x -> xlate root (Pmm.mem v2) x = Some (entry q stack_perm);
  bm_info : forall a, ROUNDDOWN a PGSIZE = mi -> ld64 (Pmm.mem v2) a = ld64 m' a;
}.

Lemma map_block root mi v q F va m' :
  vm_inv root v (q :: F) -> (2 <= length F)%nat -> va mod PGSIZE = 0 -> 0 <= va -> va + PGSIZE <= MAXVA ->
  Pmm.free_mem_end_addr v + PGSIZE < 2 ^ 64 -> xlate root (Pmm.mem v) va = None ->
  (mi ∉ q :: F) -> ~ is_table root (Pmm.mem v) mi -> (forall a, ROUNDDOWN a PGSIZE <> mi -> ld64 m' a = ld64 (Pmm.mem v) a) ->
  exists v1 v2 F2, block_mapped root mi v q F va m' v1 v2 F2.
Proof.
  intros Hinv HF Ha Hva Hmax Hend Hx HmF Hmt Hm.
  destruct (vm_inv_alloc root v q F Hinv) as (v1 & E1 & _ & M1 & _ & _ & _ & _ & Hvp & Hq0).
  set (out := fun a => ld64 m' a <> ld64 (Pmm.mem v) a).
  assert (forall a, out a -> ROUNDDOWN a PGSIZE = mi) as Hout by (intros a Hoa; destruct (decide (ROUNDDOWN a PGSIZE = mi)); [done|by destruct Hoa; apply Hm]).
  destruct (vm_inv_changes root out (q :: F) v m' Hinv) as [Hinv' Hc'].
  { intros a Hoa. by rewrite (Hout a Hoa). }
  { intros a Hoa. unfold out in Hoa. lia. }
  assert (xlate root m' va = None) as Hx' by (rewrite (ev_xlate _ _ _ _ _ _ _ Hc'); [done|change MAXVA with (2 ^ 38) in *; unfold PGSIZE in *; lia|tauto]).
  destruct (map_own_page root (Pmm.set_mem m' v) q F va stack_perm id Hinv' HF Ha Hva Hmax Hend Hx' ltac:(done))
    as (w1 & v2 & F2 & [[A1 A1'] A2 A3 A4 A5 A6 A7 A8 A9]).
  assert (q mod PGSIZE = 0) as Hqa by apply Hvp. assert (q <> mi) as Hqm by (intros ->; apply HmF; left).
  assert (ld64 m' q = ld64 (Pmm.mem v) q) as Hmq.
  { apply Hm. replace (ROUNDDOWN q PGSIZE) with q; [done|]. clear -Hqa. unfold ROUNDDOWN, PGSIZE in *. zlia. }
  rewrite (alloc_page_write root v q F v1 m' Hinv E1 Hmq) in A1. injection A1 as <-.
  exists v1, v2, F2. split; try done.
  - apply (changes_mono root out out (fun x => False \/ same_page va x)); [done|tauto|].
    apply (changes_trans root out _ _ (q :: F) (Pmm.mem v) (q :: F) m'); [done|].
    apply (changes_mono root (fun _ => False) out (same_page va)); [tauto|done|exact A4].
  - split_and!; try done; apply A7.
  - intros a Haq. apply (ev_frame _ _ _ _ _ _ _ A4); [|by rewrite Haq|tauto]. rewrite Haq. intros Ht.
    destruct (ev_table _ _ _ _ _ _ _ Hc' _ Ht); done.
Qed.

(** ** Allocation *)
Lemma npages_word mi : mi mod PGSIZE = 0 ->
  ROUNDDOWN (mr_npages mi HEAP_SEGMENT) PGSIZE = mi /\ ROUNDDOWN (mr_npages mi HEAP_SEGMENT - 4) PGSIZE = mi.
Proof.
  intros Ha. unfold mr_npages. change HEAP_SEGMENT with 3. split.
  - replace (mi + 16 * 3 + 8) with (mi + 56) by lia. apply page_word; [done|unfold PGSIZE; lia].
  - replace (mi + 16 * 3 + 8 - 4) with (mi + 52) by lia. apply page_word; [done|unfold PGSIZE; lia].
Qed.

Section allocate.
Context (v : Pmm.state) (q : Z) (F : list Z) (p : process) (fr : nat -> Z) (limit : Z) (h : heap).
Context (Hok : heap_ok v (q :: F) p fr limit h).
Notation root := (pagetable p).
Notation mi := (mapped_info p).
Notation j := (next_block h).

Lemma next_block_dead : blocks h !! j = None.
Proof.
  apply (hp_free _ _ _ _ _ _ Hok). unfold next_block. destruct (free_stack h) as [|k fl]; cbn; [by left|right; left].
Qed.

Lemma next_blocks k : blocks (next h Allocate) !! k = None <-> (size (next h Allocate) <= k)%nat \/ k ∈ free_stack (next h Allocate).
Proof.
  destruct (hp_free _ _ _ _ _ _ Hok) as [Hnd Hd]. pose proof (hp_range _ _ _ _ _ _ Hok) as Hr. specialize (Hd k).
  unfold next, next_block in *. cbn [blocks size free_stack]. destruct (free_stack h) as [|k0 fl]; cbn [default head tail] in *.
  - destruct (decide (size h = k)) as [->|Hk].
    + rewrite lookup_insert_eq. split; [done|]. intros [|Hin]; [lia|]. by apply elem_of_nil in Hin.
    + rewrite lookup_insert_ne, Hd by done. rewrite !elem_of_nil. split; intros [|]; try done; left; lia.
  - apply NoDup_cons in Hnd as [Hni Hnd]. destruct (decide (k0 = k)) as [->|Hk].
    + rewrite lookup_insert_eq. split; [done|]. specialize (Hr k ltac:(left)). intros [|Hin]; [lia|done].
    + rewrite lookup_insert_ne, Hd, elem_of_cons by done. naive_solver.
Qed.

(** The stack of freed pages without its top. *)
Lemma next_stack : take (length (free_stack (next h Allocate))) (free_pages_address p) = rev (map block_va (free_stack (next h Allocate))).
Proof.
  destruct (hp_stack _ _ _ _ _ _ Hok) as (_ & _ & Hs & _). cbn [next free_stack]. destruct (free_stack h) as [|k fl]; [done|].
  cbn [tail length map rev] in *. apply (f_equal (take (length fl))) in Hs. rewrite take_take, Nat.min_l in Hs by lia.
  rewrite Hs, take_app_le by (rewrite length_rev, length_map; lia). apply take_ge. rewrite length_rev, length_map. lia.
Qed.

Lemma top_of_stack k fl : free_stack h = k :: fl -> free_pages_address p !! length fl = Some (block_va k).
Proof.
  destruct (hp_stack _ _ _ _ _ _ Hok) as (_ & _ & Hs & _). intros E. rewrite E in Hs. cbn [length map rev] in Hs.
  rewrite <- (lookup_take_lt _ (S (length fl))) by lia. rewrite Hs, lookup_app_r, length_rev, length_map, Nat.sub_diag by (rewrite length_rev, length_map; lia). done.
Qed.

Context (m' : memory) (v1 v2 : Pmm.state) (F2 : list Z) (Hmap : block_mapped root mi v q F (block_va j) m' v1 v2 F2).
Context (Hm' : forall a, ld64 m' a <> ld64 (Pmm.mem v) a -> a = mr_npages mi HEAP_SEGMENT).
Context (Hn : ld32 m' (mr_npages mi HEAP_SEGMENT) = Z.of_nat (size (next h Allocate))).
Context (Hlegal : legal limit h Allocate).
Definition new_frame (k : nat) : Z := if decide (k = j) then q else fr k.

Lemma live_kept k c : blocks h !! k = Some c -> live root mi v2 F2 k (fr k) c.
Proof.
  intros Hk. pose proof (hp_live _ _ _ _ _ _ Hok k c Hk) as Hl. pose proof Hl as [(P1 & P2 & P3 & P4 & P5) X W].
  destruct Hmap as [_ _ _ I C _ [B1 B2] (Q1 & Q2 & Q3 & Q4 & Q5) _ _]. assert (fr k mod PGSIZE = 0) as Ha by apply P1.
  apply (live_step root mi v (q :: F) v2 F2 k (fr k) c c Hl); try done.
  - intros Hin. by apply P2, (ev_free _ _ _ _ _ _ _ C).
  - intros Ht. by destruct (ev_table _ _ _ _ _ _ _ C _ Ht).
  - intros x Hx. apply (ev_xlate _ _ _ _ _ _ _ C).
    + destruct (hp_bounds _ _ _ _ _ _ Hok) as (_ & _ & Hs & Hl'). apply block_page_range in Hx.
      assert (k < size h)%nat as Hks by (destruct (decide (k < size h)%nat); [done|]; destruct (hp_free _ _ _ _ _ _ Hok) as [_ Hd]; assert (blocks h !! k = None) by (apply Hd; left; lia); congruence).
      unfold block_va, USER_FREE_ADDRESS_START, PGSIZE in *. lia.
    + intros Hj. pose proof (block_page_apart _ _ _ Hx Hj) as ->. by rewrite next_block_dead in Hk.
  - intros i w Hi. destruct (W i w Hi) as [Hi' <-]. split; [done|].
    assert (ROUNDDOWN (fr k + 8 * i) PGSIZE = fr k) as Er by (apply page_word; [done|unfold PGSIZE; lia]).
    apply (ev_frame _ _ _ _ _ _ _ C); rewrite ?Er; try done.
    intros Hne. apply Hm' in Hne. apply P4. destruct (npages_word mi (proj1 (hp_info _ _ _ _ _ _ Hok))) as [<- _]. by rewrite <- Hne.
Qed.

Definition grown_process : process :=
  set_heap (block_va (size (next h Allocate))) (heap_bottom p) (free_pages_address p) (Z.of_nat (length (free_stack (next h Allocate)))) p.

Lemma heap_allocated : heap_ok v2 F2 grown_process new_frame limit (next h Allocate).
Proof.
  pose proof Hok as [[Hinv Hend] (I1 & I2 & I3) (B1 & B2 & B3) Hnp (S1 & S2 & S3 & S4) [D1 D2] R L A X].
  pose proof Hmap as [_ _ _ MI MC _ [MB1 MB2] (Q1 & Q2 & Q3 & Q4 & Q5) MX MW].
  destruct (block_va_mod j) as (V1 & V2 & V3). cbn [legal] in Hlegal.
  assert (forall k, k <> j -> blocks (next h Allocate) !! k = blocks h !! k) as Hother by (intros k Hk; by apply lookup_insert_ne).
  assert (forall k, is_Some (blocks h !! k) -> fr k <> q) as Hfr.
  { intros k [c Hc] <-. destruct (L k c Hc) as [(_ & P & _) _ _]. apply P. left. }
  assert (blocks (next h Allocate) !! j = Some ∅) as Hj by apply lookup_insert_eq.
  split; cbn [grown_process pagetable mapped_info heap_top heap_bottom free_pages_address free_pages_count set_heap].
  - split; [done|]. by rewrite MB2.
  - split_and!; [done| |].
    + intros Hin. by apply I2, (ev_free _ _ _ _ _ _ _ MC).
    + intros Ht. by destruct (ev_table _ _ _ _ _ _ _ MC _ Ht).
  - split_and!; [done|done| |apply B3]. cbn [next size]. unfold next_block in *. destruct (free_stack h); [done|apply B3].
  - rewrite <- Hn. destruct (npages_word mi I1) as [W1 W2]. apply ld32_words. intros b [->| ->]; by apply MW.
  - split_and!; [done|done|exact next_stack|]. cbn [next free_stack]. destruct (free_stack h); cbn in *; lia.
  - split; [|exact next_blocks]. cbn [next free_stack]. destruct (free_stack h); [done|]. by apply NoDup_cons in D1 as [_ ?].
  - cbn [next free_stack size]. destruct (free_stack h) as [|k0 fl]; [by intros k ?%elem_of_nil|]. intros k Hk. apply R. by right.
  - intros k c Hk. unfold new_frame. destruct (decide (k = j)) as [->|Hkj].
    + rewrite Hj in Hk. injection Hk as <-. split.
      * split_and!; try done. unfold Pmm.valid_page in *. by rewrite MB1, MB2.
      * intros x Hx. apply MX; [|done]. apply block_page_range in Hx. lia.
      * intros i w Hi. by rewrite lookup_empty in Hi.
    + rewrite Hother in Hk by done. by apply live_kept.
  - intros k k' Hk Hk'. unfold new_frame. destruct (decide (k = j)) as [->|Hkj], (decide (k' = j)) as [->|Hkj']; try done.
    + rewrite Hother in Hk' by done. intros E. by destruct (Hfr k' Hk').
    + rewrite Hother in Hk by done. intros E. by destruct (Hfr k Hk).
    + rewrite Hother in Hk, Hk' by done. by apply A.
  - intros k x Hk Hlim Hx. destruct (decide (k = j)) as [->|Hkj]; [congruence|]. rewrite Hother in Hk by done.
    rewrite (ev_xlate _ _ _ _ _ _ _ MC); [by apply (X k)| |].
    + destruct (block_va_mod k). apply block_page_range in Hx. lia.
    + intros Hxj. by apply Hkj, (block_page_apart _ _ x).
Qed.

Lemma allocate_pages a : heap_pages v2 F2 grown_process new_frame (next h Allocate) a -> heap_pages v (q :: F) p fr h a.
Proof.
  destruct Hmap as [_ _ _ _ MC _ _ _ _ _]. intros [Hin|[Ht|(k & Hk & ->)]].
  - left. by apply (ev_free _ _ _ _ _ _ _ MC).
  - destruct (ev_table _ _ _ _ _ _ _ MC _ Ht); [by right; left|by left].
  - unfold new_frame. destruct (decide (k = j)) as [->|Hkj]; [left; left|]. right. right. exists k. split; [|done].
    cbn [next blocks] in Hk. by rewrite lookup_insert_ne in Hk.
Qed.
End allocate.

(** ** The calls *)
(** The running process and its heap. *)
Definition heap_state (s : state) (F : list Z) (i : nat) (p : process) (fr : nat -> Z) (limit : Z) (h : heap) : Prop :=
  current s = Some i /\ procs s !! i = Some p /\ heap_ok (pmm s) F p fr limit h.

Definition served (limit : Z) (m : M state Z) (s : state) (F : list Z) (i : nat) (p : process) (fr : nat -> Z) (h : heap) (r : request) (n : nat) : Prop :=
  exists a s' F' p' fr', m s = Ret a s' /\ answers h r a /\ heap_state s' F' i p' fr' limit (next h r) /\
    kept limit s F i p fr h s' F' p' fr' (next h r) /\ (length F <= length F' + n)%nat.

Lemma block_size k limit : block_va (S k) <= limit -> limit <= MAXVA -> Z.of_nat (S k) < 2 ^ 32 /\ block_va (S k) < 2 ^ 64.
Proof. change MAXVA with (2 ^ 38). unfold block_va, USER_FREE_ADDRESS_START, PGSIZE. lia. Qed.

(** The count of the pages of the heap, written. *)
Lemma st32_npages m mi n : mi mod PGSIZE = 0 -> 0 <= n < 2 ^ 32 ->
  ld32 (st32 m (mr_npages mi HEAP_SEGMENT) n) (mr_npages mi HEAP_SEGMENT) = n /\
  (forall a, ld64 (st32 m (mr_npages mi HEAP_SEGMENT) n) a <> ld64 m a -> a = mr_npages mi HEAP_SEGMENT).
Proof.
  intros Ha Hn. assert (mi mod 8 = 0) as H8 by (clear -Ha; unfold PGSIZE in *; zlia). split.
  - pose proof (region_npages m mi HEAP_SEGMENT n H8 Hn) as E. by apply (f_equal (fun g => g.1.2)) in E.
  - intros a Hne. destruct (decide (a = mr_npages mi HEAP_SEGMENT)) as [|Hna]; [done|]. destruct Hne. unfold st32.
    replace (mr_npages mi HEAP_SEGMENT mod 8 =? 0) with true by (symmetry; apply Z.eqb_eq; unfold mr_npages; change HEAP_SEGMENT with 3; clear -H8; zlia).
    by rewrite ld64_st64_ne.
Qed.

Lemma mapped_block s F i p fr limit h q m' v1 v2 F2 `{KernelSymbols} :
  heap_state s (q :: F) i p fr limit h -> legal limit h Allocate ->
  block_mapped (pagetable p) (mapped_info p) (pmm s) q F (block_va (next_block h)) m' v1 v2 F2 ->
  (forall a, ld64 m' a <> ld64 (mem s) a -> a = mr_npages (mapped_info p) HEAP_SEGMENT) ->
  ld32 m' (mr_npages (mapped_info p) HEAP_SEGMENT) = Z.of_nat (size (next h Allocate)) ->
  let s' := with_pmm v2 (with_procs (<[i := grown_process p h]> (procs s)) s) in
  heap_state s' F2 i (grown_process p h) (new_frame q fr h) limit (next h Allocate) /\
  kept limit s (q :: F) i p fr h s' F2 (grown_process p h) (new_frame q fr h) (next h Allocate) /\ (length (q :: F) <= length F2 + 3)%nat.
Proof.
  intros (Hc & Hp & Hok) Hl Hm Hw Hn s'. split; [|split].
  - split; [done|]. split; [apply list_lookup_insert_eq; by eapply lookup_lt_Some|].
    by apply (heap_allocated (pmm s) q F p fr limit h Hok m' v1 v2 F2).
  - pose proof Hm as [_ _ _ _ MC _ MB _ _ _]. split; try done.
    + intros a Ha. by apply (allocate_pages (pmm s) q F p fr h m' v1 v2 F2).
    + intros a Ha Hne. apply (ev_frame _ _ _ _ _ _ _ MC).
      * intros Ht. apply Ha. by right; left.
      * intros Hin. apply Ha. by left.
      * intros Hd. by apply Hne, Hw.
    + intros x Hx Hout. apply (ev_xlate _ _ _ _ _ _ _ MC x Hx). intros Hs%block_page_range. apply Hout.
      cbn [legal] in Hl. unfold block_va in *. unfold PGSIZE in *. lia.
  - pose proof (bm_room _ _ _ _ _ _ _ _ _ _ Hm). cbn [length]. lia.
Qed.

Lemma allocate_ok s F i p fr limit h `{KernelSymbols} :
  heap_state s F i p fr limit h -> legal limit h Allocate -> (3 <= length F)%nat ->
  served limit Trap.sys_user_allocate_page s F i p fr h Allocate 3.
Proof.
  intros Hs Hl HF. pose proof Hs as (Hc & Hp & Hok). destruct F as [|q F]; [cbn in HF; lia|].
  pose proof Hok as [[Hinv Hend] (I1 & I2 & I3) (B1 & B2 & B3 & B4) Hnp (S1 & S2 & S3 & S4) _ R _ _ X].
  destruct (block_va_mod (next_block h)) as (V1 & V2 & V3). cbn [legal] in Hl. pose proof (block_size _ _ Hl B4) as [Hsz H64].
  set (m' := match free_stack h with [] => st32 (mem s) (mr_npages (mapped_info p) HEAP_SEGMENT) (Z.of_nat (S (size h))) | _ => mem s end).
  assert (ld32 m' (mr_npages (mapped_info p) HEAP_SEGMENT) = Z.of_nat (size (next h Allocate)) /\
    forall a, ld64 m' a <> ld64 (mem s) a -> a = mr_npages (mapped_info p) HEAP_SEGMENT) as [Hn Hw].
  { unfold m', next, next_block in *. cbn [size]. destruct (free_stack h); cbn [default head] in *; [apply st32_npages; [done|lia]|done]. }
  assert (forall x, same_page (block_va (next_block h)) x -> xlate (pagetable p) (mem s) x = None) as Hx0
    by (intros x; by apply X; [by eapply next_block_dead|]).
  destruct (map_block (pagetable p) (mapped_info p) (pmm s) q F (block_va (next_block h)) m') as (v1 & v2 & F2 & Hm); try done; [cbn in HF; lia|lia|by apply Hx0| |].
  { intros a Ha. destruct (decide (ld64 m' a = ld64 (mem s) a)) as [|Hne]; [done|]. exfalso. apply Ha. rewrite (Hw a Hne).
    by apply npages_word. }
  destruct (mapped_block s F i p fr limit h q m' v1 v2 F2 Hs Hl Hm Hw Hn) as (Hs' & Hk & Hr).
  exists (block_va (next_block h)). do 4 eexists. split; [|split; [done|split; [exact Hs'|split; [exact Hk|exact Hr]]]].
  destruct Hm as [E1 M1 E2 _ _ _ _ _ _ _]. unfold Trap.sys_user_allocate_page. rewrite <- (with_self s) at 1.
  mstep (lift_with _ _ (procs s) s _ _ E1).
  assert (the_current (with_pmm v1 (with_procs (procs s) s)) = Ret i (with_pmm v1 (with_procs (procs s) s))) as Ec by (unfold the_current; cbn; by rewrite Hc).
  mstep Ec. rewrite (get_proc_with i p) by done.
  match goal with |- bind ?b _ _ = _ => assert (b (with_pmm v1 (with_procs (procs s) s)) =
    Ret (block_va (next_block h)) (with_pmm (Pmm.set_mem m' v1) (with_procs (<[i := grown_process p h]> (procs s)) s))) as Eb end.
  { rewrite S2. unfold m', grown_process, next, next_block in *.
    destruct (free_stack h) as [|k fl] eqn:Efl; cbn [default head tail size free_stack length] in *.
    - change (0 <? Z.of_nat 0) with false. cbn iota. rewrite B1, B2.
      mstep (upd_proc_with i (set_heap (u64 (block_va (size h) + PGSIZE)) USER_FREE_ADDRESS_START (free_pages_address p) (Z.of_nat 0)) v1 (procs s) s).
      rewrite load32_with, M1, Hnp. unfold u32. rewrite Z.mod_small by lia. replace (Z.of_nat (size h) + 1) with (Z.of_nat (S (size h))) by lia.
      unfold store32. rewrite <- V3, u64_small by (destruct (block_va_mod (S (size h))) as (_ & ? & _); lia). mstep (update_mem_with (fun m => st32 m (mr_npages (mapped_info p) HEAP_SEGMENT) (Z.of_nat (S (size h)))) v1 (alter (set_heap (block_va (S (size h))) USER_FREE_ADDRESS_START (free_pages_address p) (Z.of_nat 0)) i (procs s)) s).
      rewrite M1, <- (list_insert_id (procs s) i p) at 1 by done. rewrite alter_insert_list. done.
    - destruct (Z.ltb_spec 0 (Z.of_nat (S (length fl)))); [|lia]. replace (Z.of_nat (S (length fl)) - 1) with (Z.of_nat (length fl)) by lia.
      rewrite Nat2Z.id, (top_of_stack _ _ _ _ _ _ _ Hok k fl Efl).
      mstep (eq_refl : of_option "free_pages_address index out of range" (Some (block_va k)) (with_pmm v1 (with_procs (procs s) s)) = Ret (block_va k) _).
      mstep (upd_proc_with i (set_heap (heap_top p) (heap_bottom p) (free_pages_address p) (Z.of_nat (length fl))) v1 (procs s) s).
      rewrite B2. destruct (Z.ltb_spec (block_va k) (block_va (size h))).
      + cbn. change (mem s) with (Pmm.mem (pmm s)). rewrite <- M1. replace (Pmm.set_mem (Pmm.mem v1) v1) with v1 by (by destruct v1).
        rewrite <- (list_insert_id (procs s) i p) at 1 by done. by rewrite alter_insert_list.
      + specialize (R k ltac:(left)). unfold block_va in *. unfold PGSIZE in *. lia. }
  mstep Eb. mstep (lift_with _ _ (<[i := grown_process p h]> (procs s)) s _ _ E2). done.
Qed.

Lemma live_entry v F p fr limit h j c : heap_ok v F p fr limit h -> blocks h !! j = Some c ->
  live (pagetable p) (mapped_info p) v F j (fr j) c /\ (j < size h)%nat /\ PTE2PA (entry (fr j) stack_perm) = fr j /\
  fr j mod PGSIZE = 0 /\ block_va j < block_va (S j) <= limit /\ 0 <= block_va j /\ limit <= MAXVA.
Proof.
  intros Hok Hj. pose proof Hok as [[(_ & He & _) Hend] _ (_ & _ & Hl1 & Hl2) _ _ [_ Hd] _ L _ _]. pose proof (L j c Hj) as Hl.
  pose proof Hl as [([P1 P1'] & _ & _ & _ & P2) _ _].
  assert (j < size h)%nat as Hs. { destruct (decide (j < size h)%nat); [done|]. assert (blocks h !! j = None) by (apply Hd; left; lia). congruence. }
  destruct (block_va_mod j) as (_ & ? & ?). unfold block_va, PGSIZE in Hl1. unfold PGSIZE in *. split_and!; try done; try (unfold block_va, PGSIZE in *; lia).
  apply entry_page; [done|lia|by vm_compute].
Qed.

Definition freed_process (p : process) (h : heap) (j : nat) : process :=
  set_heap (heap_top p) (heap_bottom p) (<[length (free_stack h) := block_va j]> (free_pages_address p)) (Z.of_nat (S (length (free_stack h)))) p.

Section free.
Context (v : Pmm.state) (F : list Z) (p : process) (fr : nat -> Z) (limit : Z) (h : heap) (j : nat) (c : gmap Z Z).
Context (Hok : heap_ok v F p fr limit h) (Hj : blocks h !! j = Some c) (Hroom : (length (free_stack h) < 32)%nat).
Context (v' : Pmm.state) (Hinv' : vm_inv (pagetable p) v' (fr j :: F)).
Context (Hb : Pmm.free_mem_start_addr v' = Pmm.free_mem_start_addr v /\ Pmm.free_mem_end_addr v' = Pmm.free_mem_end_addr v).
Context (Ht : forall q, is_table (pagetable p) (Pmm.mem v') q -> is_table (pagetable p) (Pmm.mem v) q).
Context (Hm : forall a, ~ is_table (pagetable p) (Pmm.mem v) (ROUNDDOWN a PGSIZE) -> ROUNDDOWN a PGSIZE <> fr j -> ld64 (Pmm.mem v') a = ld64 (Pmm.mem v) a).
Context (Hx : forall x, 0 <= x < MAXVA -> xlate (pagetable p) (Pmm.mem v') x = if decide (same_page (block_va j) x) then None else xlate (pagetable p) (Pmm.mem v) x).
Notation h' := (next h (Free j)).

Lemma freed_stack : take (length (free_stack h')) (free_pages_address (freed_process p h j)) = rev (map block_va (free_stack h')).
Proof.
  destruct (hp_stack _ _ _ _ _ _ Hok) as (S1 & _ & S3 & _). cbn [next free_stack length map rev freed_process set_heap free_pages_address].
  rewrite (take_S_r _ _ (block_va j)) by (apply list_lookup_insert_eq; lia). by rewrite take_insert_ge, S3 by lia.
Qed.

Lemma live_freed k c' : blocks h' !! k = Some c' -> live (pagetable p) (mapped_info p) v' (fr j :: F) k (fr k) c'.
Proof.
  cbn [next blocks]. intros [Hkj Hk]%lookup_delete_Some. destruct (live_entry v F p fr limit h k c' Hok Hk) as (Hl & _ & _ & Ha & Hr & Hr0 & Hr').
  pose proof Hl as [(P1 & P2 & P3 & P4 & P5) X W].
  assert (fr k <> fr j) as Hne by (intros E; apply Hkj; symmetry; apply (hp_apart _ _ _ _ _ _ Hok); eauto).
  apply (live_step _ _ v F v' (fr j :: F) k (fr k) c' c' Hl); try apply Hb.
  - intros [|]%elem_of_cons; done.
  - intros Ht'. by apply P3, Ht.
  - intros x Hs. pose proof Hs as Hs'. apply block_page_range in Hs'. rewrite Hx, decide_False by (try lia; intros Hs2; by apply Hkj, (block_page_apart _ _ x)). done.
  - intros i w Hi. destruct (W i w Hi) as [Hi' <-]. split; [done|].
    assert (ROUNDDOWN (fr k + 8 * i) PGSIZE = fr k) as Er by (apply page_word; [done|unfold PGSIZE; lia]).
    apply Hm; by rewrite Er.
Qed.

Lemma heap_freed : heap_ok v' (fr j :: F) (freed_process p h j) fr limit h'.
Proof.
  pose proof Hok as [[Hinv Hend] (I1 & I2 & I3) (B1 & B2 & B3) Hnp (S1 & S2 & S3 & S4) [D1 D2] R L A X]. destruct Hb as [Hb1 Hb2].
  destruct (live_entry v F p fr limit h j c Hok Hj) as (Hl & Hjs & _ & Ha & Hr & _ & Hr'). pose proof Hl as [(P1 & P2 & P3 & P4 & P5) LX LW].
  assert (j ∉ free_stack h) as Hjf by (intros Hin; assert (blocks h !! j = None) by (apply D2; by right); congruence).
  split; cbn [pagetable mapped_info heap_top heap_bottom freed_process set_heap].
  - split; [done|]. by rewrite Hb2.
  - split_and!; [done|intros [|]%elem_of_cons; congruence|auto].
  - done.
  - cbn [next size]. rewrite <- Hnp. destruct (npages_word (mapped_info p) I1) as [W1 W2].
    apply ld32_words. intros b [->| ->]; apply Hm; congruence.
  - split_and!; [cbn; by rewrite length_insert|done|exact freed_stack|cbn; lia].
  - cbn [next free_stack blocks size]. split; [by apply NoDup_cons|]. intros k. rewrite elem_of_cons. destruct (decide (j = k)) as [->|Hk].
    + rewrite lookup_delete_eq. tauto.
    + rewrite lookup_delete_ne by done. rewrite D2. naive_solver.
  - cbn [next free_stack size]. intros k [->|Hk]%elem_of_cons; auto.
  - exact live_freed.
  - cbn [next blocks]. intros k k' [? [_ Hk]%lookup_delete_Some] [? [_ Hk']%lookup_delete_Some]. apply A; eauto.
  - cbn [next blocks]. intros k x Hk Hlim Hs. pose proof Hs as Hs'. apply block_page_range in Hs'. destruct (block_va_mod k) as (_ & ? & _).
    rewrite Hx by lia. destruct (decide _) as [|Hnj]; [done|]. apply (X k); try done.
    destruct (decide (j = k)) as [->|Hne]; [done|]. by rewrite lookup_delete_ne in Hk.
Qed.
End free.

Lemma free_ok s F i p fr limit h j `{KernelSymbols} :
  heap_state s F i p fr limit h -> legal limit h (Free j) -> served limit (Trap.sys_user_free_page (block_va j)) s F i p fr h (Free j) 0.
Proof.
  intros (Hc & Hp & Hok) [[c Hj] Hroom]. change MAX_HEAP_PAGES with 32 in Hroom.
  destruct (live_entry _ F p fr limit h j c Hok Hj) as ([(P1 & P2 & P3 & P4 & P5) LX LW] & Hjs & Epa & Ha & Hr & Hr0 & Hr').
  pose proof Hok as [[Hinv Hend] _ _ _ (S1 & S2 & S3 & S4) _ _ _ _ _].
  assert (xlate (pagetable p) (mem s) (block_va j) = Some (entry (fr j) stack_perm)) as Hxj by (apply LX; done).
  destruct (user_vm_unmap_page (pagetable p) (block_va j) PGSIZE true (pmm s) F (entry (fr j) stack_perm)) as (v' & E & Hinv' & B1 & B2 & Ht & Hm & Hx);
    [lia|done|done|by rewrite Epa|]. rewrite Epa in Hinv', Hm.
  assert (forall a, ~ is_table (pagetable p) (mem s) (ROUNDDOWN a PGSIZE) -> ROUNDDOWN a PGSIZE <> fr j -> ld64 (Pmm.mem v') a = ld64 (mem s) a) as Hm' by auto.
  exists 0, (with_pmm v' (with_procs (<[i := freed_process p h j]> (procs s)) s)), (fr j :: F), (freed_process p h j), fr.
  split; [|split; [done|split; [|split]]].
  - unfold Trap.sys_user_free_page. assert (the_current s = Ret i s) as Ec by (unfold the_current; by rewrite Hc). mstep Ec.
    rewrite <- (with_self s) at 1. rewrite (get_proc_with i p) by done. mstep (lift_with _ _ (procs s) s _ _ E). rewrite S2.
    change MAX_HEAP_PAGES with 32. destruct (Z.leb_spec 32 (Z.of_nat (length (free_stack h)))); [lia|]. rewrite Nat2Z.id.
    replace (Z.of_nat (length (free_stack h)) + 1) with (Z.of_nat (S (length (free_stack h)))) by lia.
    rewrite (bind_Ret _ _ _ _ _ (upd_proc_with i _ v' (procs s) s)). unfold ret. do 2 f_equal.
    rewrite <- (list_insert_id (procs s) i p) at 1 by done. by rewrite alter_insert_list.
  - split; [done|]. split; [apply list_lookup_insert_eq; by eapply lookup_lt_Some|].
    apply (heap_freed (pmm s) F p fr limit h j c); try done. lia.
  - split; try done.
    + intros q [[->|Hin]%elem_of_cons|[Hq|(k & Hk & ->)]]; [right; right; eauto|by left|right; left; by apply Ht|].
      right. right. exists k. split; [|done]. destruct Hk as [x Hk]. cbn [next blocks] in Hk. apply lookup_delete_Some in Hk as [_ Hk]. eauto.
    + intros a Hn _. apply Hm'; [intros Hq; apply Hn; right; by left|intros Hq; apply Hn; right; right; eauto].
    + intros x Hxr Hout. rewrite Hx, decide_False; [done| |done]. intros Hs%block_page_range. apply Hout. unfold block_va in *. unfold PGSIZE in *. lia.
  - cbn. lia.
Qed.

(** ** The accesses of the program *)
Lemma entry_has q perm f : has perm f = true -> has (entry q perm) f = true.
Proof. intros Hp. unfold entry. by rewrite !has_lor, Hp, orb_true_r. Qed.

Lemma block_address s F i p fr limit h j c k flag : heap_state s F i p fr limit h -> blocks h !! j = Some c -> 0 <= k < 512 ->
  has stack_perm flag = true -> user_address flag (block_va j + 8 * k) s = Ret (fr j + 8 * k) s.
Proof.
  intros (Hc & Hp & Hok) Hj Hk Hflag. destruct (live_entry _ F p fr limit h j c Hok Hj) as ([_ LX _] & _ & Epa & _ & _ & Hr & _).
  destruct (block_va_mod j) as (Hm & _ & _). unfold user_address.
  assert (the_current s = Ret i s) as Ec by (unfold the_current; by rewrite Hc). mstep Ec.
  rewrite <- (with_self s) at 1. rewrite (get_proc_with i p) by done. rewrite with_self, bind_gets.
  change (mem s) with (Pmm.mem (pmm s)). rewrite LX by (clear -Hm Hk; unfold same_page, PGSIZE in *; zlia).
  rewrite !entry_has by (done || by vm_compute). cbn [andb]. rewrite Epa. unfold ret. f_equal. clear -Hm Hk. unfold PGSIZE in *. zlia.
Qed.

Lemma write_ok s F i p fr limit h j k w :
  heap_state s F i p fr limit h -> legal limit h (Write j k w) -> served limit (user_write (block_va j + 8 * k) w) s F i p fr h (Write j k w) 0.
Proof.
  intros Hs ([c Hj] & Hk & Hw). pose proof Hs as (Hc & Hp & Hok).
  destruct (live_entry _ F p fr limit h j c Hok Hj) as ([(P1 & P2 & P3 & P4 & P5) LX LW] & _ & _ & Ha & _).
  pose proof Hok as [[Hinv Hend] (I1 & I2 & I3) B Hnp S [D1 D2] R L A X]. set (a := fr j + 8 * k).
  assert (ROUNDDOWN a PGSIZE = fr j) as Er by (apply page_word; [done|unfold PGSIZE; lia]).
  destruct (vm_inv_changes (pagetable p) (eq a) F (pmm s) (st64 (mem s) a w) Hinv) as [Hinv' Hch].
  { intros ? <-. by rewrite Er. }
  { intros b Hb. by apply ld64_st64_ne. }
  set (v' := Pmm.set_mem (st64 (mem s) a w) (pmm s)) in *.
  assert (forall q, is_table (pagetable p) (st64 (mem s) a w) q -> is_table (pagetable p) (mem s) q) as Ht.
  { intros q Hq. destruct (ev_table _ _ _ _ _ _ _ Hch q Hq) as [|Hin]; [done|].
    destruct Hinv' as (_ & _ & Hwf). destruct Hq as (x & d & Hd & Hq). by destruct (wf_page _ _ _ Hwf x d q Hd Hq) as (_ & _ & ?). }
  assert (forall x, 0 <= x < MAXVA -> xlate (pagetable p) (st64 (mem s) a w) x = xlate (pagetable p) (mem s) x) as Hx
    by (intros x Hxr; apply (ev_xlate _ _ _ _ _ _ _ Hch); [done|tauto]).
  assert (blocks (next h (Write j k w)) = alter (insert k w) j (blocks h)) as Eb by done.
  exists 0, (with_pmm v' s), F, p, fr. split; [|split; [done|split; [|split]]].
  - unfold user_write. mstep (block_address s F i p fr limit h j c k PTE_W Hs Hj Hk ltac:(by vm_compute)). done.
  - split; [done|]. split; [done|]. split; try done.
    + split_and!; [done|done|]. intros Hq. by apply I3, Ht.
    + cbn [next size]. rewrite <- Hnp. destruct (npages_word _ I1) as [W1 W2]. apply ld32_words. intros b [->| ->]; apply ld64_st64_ne; congruence.
    + split; [done|]. intros k'. rewrite Eb, lookup_alter_None. apply D2.
    + intros k' c' Hk'. rewrite Eb in Hk'.
      assert (exists c0, blocks h !! k' = Some c0) as [c0 Hc0].
      { apply lookup_alter_Some in Hk' as [(<- & c0 & ? & _)|[_ ?]]; eauto. }
      destruct (live_entry _ F p fr limit h k' c0 Hok Hc0) as (Hl & _ & _ & Ha' & Hr' & Hr0' & Hlim). pose proof Hl as [(Q1 & Q2 & Q3 & Q4 & Q5) QX QW].
      apply (live_step _ _ (pmm s) F v' F k' (fr k') c0 c' Hl); try done.
      * intros Hq. by apply Q3, Ht.
      * intros x Hs'%block_page_range. apply Hx. lia.
      * intros i' w' Hi'. apply lookup_alter_Some in Hk' as [(<- & c1 & Hc1 & ->)|[Hne Hk']].
        -- assert (c1 = c0) as -> by congruence. destruct (decide (i' = k)) as [->|Hik].
           { rewrite lookup_insert_eq in Hi'. injection Hi' as <-. split; [done|]. apply ld64_st64_eq. }
           rewrite lookup_insert_ne in Hi' by done. destruct (QW i' w' Hi') as [? <-]. split; [done|]. apply ld64_st64_ne. unfold a. lia.
        -- assert (c' = c0) as -> by congruence. destruct (QW i' w' Hi') as [Hir <-]. split; [done|]. apply ld64_st64_ne. intros E.
           apply Hne, (A j k'); [by eauto|by eauto|]. rewrite <- Er, E. apply page_word; [done|unfold PGSIZE; lia].
    + intros k1 k2. rewrite Eb, !lookup_alter_is_Some. apply A.
    + intros k' x Hk' Hlim Hs'. rewrite Eb, lookup_alter_None in Hk'. pose proof Hs' as Hs2. apply block_page_range in Hs2.
      destruct (block_va_mod k') as (_ & ? & _). rewrite Hx by (destruct B as (_ & _ & _ & ?); lia). by apply (X k').
  - split; try done.
    + simpl. by rewrite list_insert_id.
    + by destruct p.
    + intros q [Hq|[Hq|(k' & Hk' & ->)]]; [by left|right; left; by apply Ht|right; right]. exists k'. rewrite Eb, lookup_alter_is_Some in Hk'. done.
    + intros b Hb _. apply ld64_st64_ne. intros <-. apply Hb. right. right. rewrite Er. eauto.
    + intros x Hxr _. by apply Hx.
  - lia.
Qed.

Lemma kept_refl limit s F i p fr h : procs s !! i = Some p -> kept limit s F i p fr h s F p fr h.
Proof. intros Hp. split; try done; [|by destruct p]. rewrite list_insert_id by done. by rewrite with_self. Qed.

Lemma kept_trans limit s1 F1 i p1 fr1 h1 s2 F2 p2 fr2 h2 s3 F3 p3 fr3 h3 :
  kept limit s1 F1 i p1 fr1 h1 s2 F2 p2 fr2 h2 -> kept limit s2 F2 i p2 fr2 h2 s3 F3 p3 fr3 h3 ->
  kept limit s1 F1 i p1 fr1 h1 s3 F3 p3 fr3 h3.
Proof.
  intros [A1 A2 A3 A4 A5 [A6 A7]] [B1 B2 B3 B4 B5 [B6 B7]].
  assert (mapped_info p2 = mapped_info p1 /\ pagetable p2 = pagetable p1 /\ heap_bottom p2 = heap_bottom p1) as (Em & Er & Eb) by (by rewrite A2).
  rewrite Em in *. rewrite Er in *. split; [| |auto| | |split; congruence].
  - rewrite B1 at 1. rewrite A1. simpl. by rewrite list_insert_insert_eq.
  - rewrite B2, A2. done.
  - intros a Ha Hne. rewrite B4 by auto. by apply A4.
  - intros x Hx Hout. rewrite B5 by done. by apply A5.
Qed.

Lemma read_ok s F i p fr limit h j k :
  heap_state s F i p fr limit h -> legal limit h (Read j k) -> served limit (user_read (block_va j + 8 * k)) s F i p fr h (Read j k) 0.
Proof.
  intros Hs ([c Hj] & Hk). pose proof Hs as (Hc & Hp & Hok).
  destruct (live_entry _ F p fr limit h j c Hok Hj) as ([_ _ LW] & _).
  exists (ld64 (mem s) (fr j + 8 * k)), s, F, p, fr. split; [|split; [|split; [done|split; [by apply kept_refl|lia]]]].
  - unfold user_read. mstep (block_address s F i p fr limit h j c k PTE_R Hs Hj Hk ltac:(by vm_compute)). done.
  - intros w. rewrite Hj. simpl. intros Hw. by destruct (LW k w Hw).
Qed.

Lemma serve_ok s F i p fr limit h r `{KernelSymbols} : heap_state s F i p fr limit h -> legal limit h r ->
  (3 * allocations [r] <= length F)%nat -> served limit (serve r) s F i p fr h r (3 * allocations [r]).
Proof.
  intros Hs Hl HF. destruct r; cbn [serve].
  - by apply allocate_ok.
  - by apply free_ok.
  - by apply write_ok.
  - by apply read_ok.
Qed.

Lemma allocations_cons r rs : allocations (r :: rs) = (allocations [r] + allocations rs)%nat.
Proof. unfold allocations. rewrite !filter_cons, filter_nil. by case_decide. Qed.

(** C11: a program that allocates, frees, reads and writes pages of its heap
    within the bounds gets the answers of the abstract heap: an allocation
    returns the block freed last, or else the next one at the top; a read gives
    the word written last to that place since its block was allocated; and a
    block in use never shares its page with another block, with a page table or
    with a free page. Everything else stays as it was: the other processes, the
    other fields of this one, the translations outside the heap and the memory
    outside its pages. *)
Theorem heap_refines_blocks rs s F i p fr limit h `{KernelSymbols} :
  heap_state s F i p fr limit h -> legal_run limit h rs -> (3 * allocations rs <= length F)%nat ->
  exists vs s' F' p' fr', serve_all rs s = Ret vs s' /\ answers_run h rs vs /\
    heap_state s' F' i p' fr' limit (end_heap h rs) /\ kept limit s F i p fr h s' F' p' fr' (end_heap h rs).
Proof.
  revert s F p fr h. induction rs as [|r rs IH]; intros s F p fr h Hs Hl HF.
  { exists [], s, F, p, fr. split_and!; try done; apply Hs || by apply kept_refl, Hs. }
  destruct Hl as [Hl Hls]. rewrite allocations_cons in HF.
  destruct (serve_ok s F i p fr limit h r Hs Hl ltac:(lia)) as (v & s1 & F1 & p1 & fr1 & E & Hv & Hs1 & Hk1 & HF1).
  destruct (IH s1 F1 p1 fr1 (next h r) Hs1 Hls ltac:(lia)) as (vs & s' & F' & p' & fr' & E' & Hvs & Hs' & Hk').
  exists (v :: vs), s', F', p', fr'. cbn [serve_all]. mstep E. mstep E'. split_and!; try done; try apply Hs'.
  by eapply kept_trans.
Qed.

(** With 32 freed blocks the next free writes outside the table: in memory the
    word after it is the counter. *)
Lemma free_beyond_table s F i p fr limit h j `{KernelSymbols} : heap_state s F i p fr limit h -> is_Some (blocks h !! j) ->
  length (free_stack h) = 32%nat -> exists msg, Trap.sys_user_free_page (block_va j) s = Fault msg.
Proof.
  intros (Hc & Hp & Hok) [c Hj] Hlen. pose proof Hok as [[Hinv _] _ _ _ (_ & S2 & _) _ _ _ _ _].
  destruct (live_entry _ F p fr limit h j c Hok Hj) as ([(P1 & P2 & P3 & _) LX _] & _ & Epa & _ & Hr & Hr0 & Hr').
  destruct (user_vm_unmap_page (pagetable p) (block_va j) PGSIZE true (pmm s) F (entry (fr j) stack_perm)) as (v' & E & _);
    [lia|done|by apply LX|by rewrite Epa|].
  eexists. unfold Trap.sys_user_free_page. assert (the_current s = Ret i s) as Ec by (unfold the_current; by rewrite Hc). mstep Ec.
  rewrite <- (with_self s) at 1. rewrite (get_proc_with i p) by done. mstep (lift_with _ _ (procs s) s _ _ E). by rewrite S2, Hlen.
Qed.

(** ** A new process has an empty heap *)
Section new.
Context `{KS : KernelSymbols}.
Lemma new_heap s F p0 v F' p st fr : created s F p0 v F' p st -> Pmm.rep (pmm s) F -> layout (pmm s) ->
  Pmm.free_mem_end_addr (pmm s) + PGSIZE < 2 ^ 64 -> length (free_pages_address p0) = 32%nat ->
  heap_ok v F' p fr stack_va (mk_heap 0 [] ∅).
Proof.
  intros Hc Hrep Hly Hend Hfree. pose proof (created_pages _ _ _ _ _ _ _ Hc Hrep (mapped_info p)) as Hmi.
  pose proof (created_not_table _ _ _ _ _ _ _ (mapped_info p) Hc) as Htmi.
  pose proof Hc as [C1 [C2 C3] _ [C4 _] _ [_ R _ _ _ _ _] C5]. assert (mapped_info p ∈ own_pages p st) as Hin by (unfold own_pages; rewrite !elem_of_cons; tauto).
  destruct (Hmi Hin) as (M1 & _ & _ & _ & M2).
  unfold own_pages in C4. rewrite !NoDup_cons, !not_elem_of_cons in C4. destruct C4 as (_ & (_ & _ & N & _) & _).
  split; cbn [size free_stack blocks length map rev].
  - split; [done|]. by rewrite C3.
  - split_and!; [done|done|]. apply Htmi; [done|congruence].
  - rewrite C5. split_and!; [done|done|by apply Z.leb_le|by apply Z.leb_le].
  - injection R as _ _ _ _ _ _ _ _ _ _ R _. exact R.
  - rewrite C5. cbn [free_pages_address free_pages_count]. split_and!; [done|done|done|lia].
  - split; [constructor|]. intros j. rewrite lookup_empty. split; [intros _; left; lia|done].
  - intros j Hj. by apply elem_of_nil in Hj.
  - intros j c Hj. by rewrite lookup_empty in Hj.
  - intros j j' [? Hj]. by rewrite lookup_empty in Hj.
  - intros j x _ Hlim Hs%block_page_range. apply (created_unmapped _ _ _ _ _ _ _ x Hc Hrep Hly). destruct (block_va_mod j) as (_ & ? & _). lia.
Qed.
End new.

(** ** A concrete program
    It allocates two blocks, frees the first, gets it back and reads what it wrote. *)
#[local] Existing Instance fresh_symbols.
Definition demo_requests : list request :=
  [Allocate; Write 0 3 7; Allocate; Write 1 511 9; Free 0; Allocate; Write 0 3 8; Read 1 511; Read 0 3].

Lemma heap_refines_blocks_witness : exists s s' vs,
  serve_all demo_requests s = Ret vs s' /\ answers_run (mk_heap 0 [] ∅) demo_requests vs.
Proof.
  destruct fresh_memory as (v0 & F0 & Hrep & Hly & HF & Hs & He).
  destruct (alloc_process_ok (fresh_kernel v0) F0 0 (set_status FREE zero_process)) as (v & F & p & st & _ & Hc); [done|done|rewrite HF; lia|done|done|].
  set (s := with_current (Some 0%nat) (with_pmm v (with_procs (<[0%nat := p]> empty_pool) (fresh_kernel v0)))).
  destruct (heap_refines_blocks demo_requests s F 0 p (fun _ => 0) stack_va (mk_heap 0 [] ∅)) as (vs & s' & _ & _ & _ & E & Ha & _).
  - split; [done|]. split; [done|]. apply (new_heap _ _ _ _ _ _ _ _ Hc); try done. change (pmm (fresh_kernel v0)) with v0. by rewrite He.
  - repeat split; try (by apply Z.leb_le); try lia; by eexists.
  - destruct Hc as [_ _ (used & Hu & Hul & _) _ _ _ _]. apply (f_equal length) in Hu. rewrite length_app, HF in Hu.
    change (allocations demo_requests) with 3%nat. lia.
  - exists s, s', vs. split; [exact E|exact Ha].
Defined.
