(* ===== verification/ForkCopy.v ===== *)
(** * The pages that [do_fork] (kernel/process.c) copies

    The parent and the child at once: [family] is the invariant of the two
    address spaces while the child's is being built, [family_changes] shows that
    a step in the child's leaves the parent's as it was, and [inherits] says
    that the child reads at an address the byte the parent read before the
    call. [copy_heap_ok] is the loop over the heap segment. *)
From stdpp Require Import base gmap list numbers strings.
From Stdlib Require Import ZArith Lia.
From S2P Require Import Prelude Pmm Vmm VmmSpec Bytes ByteMem UserMem AddrSpace Process ProcessSpec ElfSpec ElfProgram Sched Trap.
Local Open Scope Z_scope.

(** ** Copies of words *)
Lemma ld64_copy_words n : forall dst src m a,
  dst + 8 * Z.of_nat n <= src \/ src + 8 * Z.of_nat n <= dst ->
  ld64 (copy_words n dst src m) a =
  if bool_decide (dst <= a < dst + 8 * Z.of_nat n /\ (a - dst) mod 8 = 0) then ld64 m (src + (a - dst)) else ld64 m a.
Proof.
  induction n as [|n IH]; intros dst src m a Hd; cbn [copy_words].
  { rewrite bool_decide_eq_false_2; [done|lia]. }
  rewrite IH by lia. repeat case_bool_decide; try zlia.
  - rewrite ld64_st64_ne by lia. f_equal. lia.
  - destruct (decide (a = dst)) as [->|Hne]; [|zlia]. rewrite ld64_st64_eq. f_equal. lia.
  - apply ld64_st64_ne. intros ->. zlia.
Qed.

(** A whole page. *)
Lemma copy_page_word q r m a : q mod PGSIZE = 0 -> r mod PGSIZE = 0 -> q <> r ->
  ld64 (copy_words 512 q r m) a =
  if bool_decide (ROUNDDOWN a PGSIZE = q /\ a mod 8 = 0) then ld64 m (r + (a - q)) else ld64 m a.
Proof.
  intros Hq Hr Hne. rewrite ld64_copy_words by (unfold PGSIZE in *; zlia).
  repeat case_bool_decide; try done; exfalso; unfold ROUNDDOWN, PGSIZE in *; zlia.
Qed.

Lemma copy_page_out q r m a : q mod PGSIZE = 0 -> r mod PGSIZE = 0 -> q <> r -> ROUNDDOWN a PGSIZE <> q ->
  ld64 (copy_words 512 q r m) a = ld64 m a.
Proof. intros Hq Hr Hne Ha. rewrite copy_page_word, bool_decide_eq_false_2; [done|tauto|done..]. Qed.

(** Bytes of a copied page. *)
Lemma copy_page_byte q r m m' o : q mod PGSIZE = 0 -> r mod PGSIZE = 0 -> q <> r -> 0 <= o < PGSIZE ->
  (forall a, ROUNDDOWN a PGSIZE = q -> ld64 m' a = ld64 (copy_words 512 q r m) a) -> ld8 m' (q + o) = ld8 m (r + o).
Proof.
  intros Hq Hr Hne Ho Hm. unfold ld8.
  assert (ROUNDDOWN (wbase (q + o)) PGSIZE = q /\ wbase (q + o) mod 8 = 0 /\ r + (wbase (q + o) - q) = wbase (r + o) /\ (q + o) mod 8 = (r + o) mod 8)
    as (E1 & E2 & E3 & E4) by (clear -Hq Hr Ho; unfold wbase, ROUNDDOWN, PGSIZE in *; zlia).
  rewrite (Hm _ E1), copy_page_word, bool_decide_eq_true_2, E3, E4 by done. done.
Qed.

Lemma PTE2PA_aligned e : PTE2PA e mod PGSIZE = 0.
Proof.
  unfold PTE2PA, PGSIZE, u64. rewrite Z.shiftl_mul_pow2 by lia. generalize (Z.shiftr e 10). intros x.
  change (2 ^ 64) with (4096 * 2 ^ 52). change (2 ^ 12) with 4096. rewrite (Z.mul_comm x), Z.mul_mod_distr_l by lia. rewrite Z.mul_comm. apply Z_mod_mult.
Qed.

(** ** The filter of freed heap pages *)
Lemma mark_free_eq bottom : 0 <= bottom < 2 ^ 32 -> forall free filter, length filter = 32%nat ->
  Forall (fun va => exists j, 0 <= j < 32 /\ va = bottom + PGSIZE * j) free ->
  exists filter', (forall s, Trap.mark_free bottom free filter s = Ret filter' s) /\ length filter' = 32%nat /\
    forall j, (j < 32)%nat -> filter' !! j = if decide (bottom + PGSIZE * Z.of_nat j ∈ free) then Some 1 else filter !! j.
Proof.
  intros Hb. induction free as [|va free IH]; intros filter Hlen Hf.
  - exists filter. split; [done|]. split; [done|]. intros j Hj. rewrite decide_False; [done|]. apply not_elem_of_nil.
  - apply Forall_cons in Hf as [(j & Hj & ->) Hf]. cbn [Trap.mark_free].
    replace (i32 (u64 (bottom + PGSIZE * j - bottom) / PGSIZE)) with j.
    2:{ rewrite u64_small by (unfold PGSIZE; lia). replace (bottom + PGSIZE * j - bottom) with (j * PGSIZE) by lia.
        rewrite Z.div_mul by done. rewrite i32_small; lia. }
    unfold Trap.set_filter. destruct (Z.leb_spec 0 j); [|lia]. unfold MAX_HEAP_PAGES. destruct (Z.ltb_spec j 32); [|lia]. cbn [andb].
    destruct (IH (<[Z.to_nat j := 1]> filter)) as (filter' & E & Hl & Hk); [by rewrite length_insert|done|].
    exists filter'. split_and!; [exact E|done|]. intros k Hk'. rewrite Hk by done.
    destruct (decide (k = Z.to_nat j)) as [->|Hne].
    + rewrite list_lookup_insert_eq by lia. rewrite (decide_True (P := _ ∈ _ :: _)) by (apply elem_of_cons; left; by rewrite Z2Nat.id by lia). by case_decide.
    + rewrite list_lookup_insert_ne by done. apply decide_ext. rewrite elem_of_cons. split; [tauto|]. intros [Heq|]; [|done].
      exfalso. apply Hne. unfold PGSIZE in Heq. lia.
Qed.

(** ** Two address spaces *)
Section family.
Context (P C : Z) (F0 : list Z) (v0 : Pmm.state).

(** The space of the child, at [C], grows out of the pages that were free when
    the process at [P] called fork. *)
Record family (v : Pmm.state) (F : list Z) : Prop := {
  fa_inv : vm_inv C v F;
  fa_free : forall q, q ∈ F -> q ∈ F0;
  fa_tables : forall q, is_table C (Pmm.mem v) q -> q ∈ F0;
  fa_mem : forall a, ROUNDDOWN a PGSIZE ∉ F0 -> ld64 (Pmm.mem v) a = ld64 (Pmm.mem v0) a;
  fa_bounds : Pmm.free_mem_start_addr v = Pmm.free_mem_start_addr v0 /\ Pmm.free_mem_end_addr v = Pmm.free_mem_end_addr v0;
}.

Context (Hparent : vm_inv P v0 F0).

Lemma family_parent v F : family v F -> vm_inv P v F /\ forall x, xlate P (Pmm.mem v) x = xlate P (Pmm.mem v0) x.
Proof.
  intros [A1 A2 A3 A4 _]. destruct (other_space P C v0 F0 v F Hparent A1 A2) as (? & _ & ?); [|done].
  intros a (x & d & Hd & Ht). apply A4. destruct Hparent as (_ & _ & Hwf). by destruct (wf_page _ _ _ Hwf x d _ Hd Ht) as (_ & _ & Hn).
Qed.

Lemma family_changes out X v F v' F' : family v F -> vm_inv C v' F' -> changes C out X F (Pmm.mem v) F' (Pmm.mem v') ->
  (forall a, out a -> ROUNDDOWN a PGSIZE ∈ F0) ->
  Pmm.free_mem_start_addr v' = Pmm.free_mem_start_addr v /\ Pmm.free_mem_end_addr v' = Pmm.free_mem_end_addr v -> family v' F'.
Proof.
  intros [A1 A2 A3 A4 [A5 A6]] Hinv [B1 B2 B3 B4] Ho [H1 H2]. split; auto; try (split; congruence).
  - intros q Hq. destruct (B2 q Hq); auto.
  - intros a Ha. rewrite B3; auto.
Qed.

(** What the child sees at [x] is what the parent saw there, with [perm], in a
    page of which [Q] holds. *)
Definition inherits (out : Z -> Prop) (perm : Z) (Q : Z -> Prop) (F : list Z) (m : memory) (x : Z) : Prop :=
  exists b q, vbyte P (Pmm.mem v0) x = Some b /\ sealed C out F m x b /\ xlate C m x = Some (entry q perm) /\ Q q.

Lemma inherits_changes out perm Q X F m F' m' x : changes C out X F m F' m' -> 0 <= x < MAXVA -> ~ X x ->
  inherits out perm Q F m x -> inherits out perm Q F' m' x.
Proof.
  intros Hc Hx HX (b & q & Hb & Hs & Hq & HQ). exists b, q. split_and!; try done.
  - by apply (sealed_changes C out X F m F' m').
  - by rewrite (ev_xlate _ _ _ _ _ _ _ Hc).
Qed.

Lemma ld8_outside m m' a q : q mod PGSIZE = 0 -> q <= a < q + PGSIZE -> (forall b, ROUNDDOWN b PGSIZE = q -> ld64 m' b = ld64 m b) -> ld8 m' a = ld8 m a.
Proof. intros Hq Ha Hm. unfold ld8. rewrite Hm; [done|]. clear -Hq Ha. unfold wbase, ROUNDDOWN, PGSIZE in *. zlia. Qed.

(** A byte of the parent found by way of the page of another address. *)
Lemma parent_byte x y e : xlate P (Pmm.mem v0) y = Some e -> same_page y x -> vbyte P (Pmm.mem v0) x = Some (ld8 (Pmm.mem v0) (PTE2PA e + x mod PGSIZE)).
Proof. intros He Hs. unfold vbyte. by rewrite <- (xlate_same_page P _ y x Hs), He. Qed.

(** A copied page of the child. *)
Lemma copied_inherits out v F v' F' q perm hb e x :
  family v F -> q mod PGSIZE = 0 -> 0 < q < 2 ^ 64 -> (q ∉ F') -> ~ is_table C (Pmm.mem v') q -> (q ∈ F0) -> 0 <= perm < 2 ^ 10 ->
  (forall a, ROUNDDOWN a PGSIZE = q -> ~ out a) ->
  (forall a, ROUNDDOWN a PGSIZE = q -> ld64 (Pmm.mem v') a = ld64 (copy_words 512 q (PTE2PA e) (Pmm.mem v)) a) ->
  xlate P (Pmm.mem v0) hb = Some e -> (PTE2PA e ∉ F0) ->
  xlate C (Pmm.mem v') x = Some (entry q perm) -> same_page hb x -> inherits out perm (.∈ F0) F' (Pmm.mem v') x.
Proof.
  intros Hf Hq Hq0 HqF Hqt Hq0' Hperm Hout Hm He HeF Hx Hs.
  assert (PTE2PA (entry q perm) = q) as Eq by (rewrite entry_pa by lia; unfold ROUNDDOWN, PGSIZE in *; zlia).
  exists (ld8 (Pmm.mem v0) (PTE2PA e + x mod PGSIZE)), q. split_and!; try done.
  - by apply (parent_byte x hb e).
  - split.
    + unfold vbyte. rewrite Hx. cbn [fmap option_fmap option_map]. rewrite Eq. f_equal.
      pose proof (PTE2PA_aligned e). assert (0 <= x mod PGSIZE < PGSIZE) by (apply Z.mod_pos_bound; done).
      rewrite (copy_page_byte q (PTE2PA e) (Pmm.mem v)) by (done || (intros E; apply HeF; by rewrite <- E)).
      apply (ld8_outside _ _ _ (PTE2PA e)); [done|lia|]. intros b Hb. apply (fa_mem _ _ Hf). by rewrite Hb.
    + rewrite Hx. intros e' [= <-]. cbv zeta. rewrite Eq. done.
Qed.

Lemma heap_page_step l s v q F hb e out :
  let st v := with_pmm v (with_procs l s) in
  family v (q :: F) -> (2 <= length F)%nat -> Pmm.free_mem_end_addr v0 + PGSIZE < 2 ^ 64 ->
  hb mod PGSIZE = 0 -> 0 <= hb -> hb + PGSIZE <= MAXVA -> xlate C (Pmm.mem v) hb = None ->
  xlate P (Pmm.mem v0) hb = Some e -> has e PTE_R || has e PTE_W = true -> PTE2PA e <> 0 -> (PTE2PA e ∉ F0) ->
  (forall a, ROUNDDOWN a PGSIZE = q -> ~ out a) ->
  exists v' F', bind (lift Pmm.alloc_page) (fun child_pa => bind (lift (Vmm.lookup_pa P hb)) (fun pa => bind (Trap.copy_page child_pa pa) (fun _ =>
      lift (Vmm.user_vm_map C hb PGSIZE child_pa stack_perm)))) (st v) = Ret tt (st v') /\
    family v' F' /\ changes C (fun _ => False) (same_page hb) (q :: F) (Pmm.mem v) F' (Pmm.mem v') /\ (length F <= length F' + 2)%nat /\
    forall x, 0 <= x < MAXVA -> same_page hb x -> inherits out stack_perm (.∈ F0) F' (Pmm.mem v') x.
Proof.
  intros st Hf HF Hend Ha Hhb Hmax Hx He Hrw Hnz HeF Hout. pose proof Hf as [A1 A2 A3 A4 [A5 A6]].
  pose proof (PTE2PA_aligned e) as Hal. assert (q ∈ F0) as HqF by (apply A2, elem_of_cons; by left).
  assert (q <> PTE2PA e) as Hne by (intros E; apply HeF; by rewrite <- E).
  destruct (vm_inv_alloc C v q F A1) as (_ & _ & _ & _ & _ & _ & _ & _ & [Hq _] & _).
  destruct (map_own_page C v q F hb stack_perm (copy_words 512 q (PTE2PA e))) as (v1 & v2 & F2 & [[M1 M1'] M2 M3 M4 M5 M6 M7 M8 M9]); try done.
  { by rewrite A6. }
  { intros a Hna. by apply copy_page_out. }
  destruct (family_parent v (q :: F) Hf) as [HP HxP].
  destruct (vm_inv_alloc P v q F HP) as (v1' & E1 & HP1 & Hm1 & _). rewrite M1 in E1. injection E1 as <-.
  exists v2, F2.
  split_and!; try done.
  - mstep (lift_with _ v l s _ _ M1). assert (Vmm.lookup_pa P hb v1 = Ret (PTE2PA e) v1) as E2.
    { rewrite (lookup_pa_eq P hb v1 F HP1), M1', HxP, He, Hrw. destruct (Z.leb_spec MAXVA hb); [unfold PGSIZE in *; lia|done]. }
    mstep (lift_with _ v1 l s _ _ E2). unfold Trap.copy_page. destruct (Z.eqb_spec q 0); [lia|]. destruct (Z.eqb_spec (PTE2PA e) 0); [done|]. cbn [orb].
    mstep (update_mem_with (copy_words 512 q (PTE2PA e)) v1 l s). rewrite M1'. exact (lift_with _ _ l s _ _ M2).
  - apply (family_changes (fun _ => False) (same_page hb) v (q :: F)); try done.
  - intros x Hxr Hs. destruct M7 as (? & ? & _ & ? & ?). apply (copied_inherits out v (q :: F) v2 F2 q stack_perm hb e x); try done. by apply M9.
Qed.
End family.

(** ** The loop over the heap *)
Section heap.
Context (p c : process) (F0 : list Z) (v0 : Pmm.state) (Hparent : vm_inv (pagetable p) v0 F0).
Notation P := (pagetable p).
Notation C := (pagetable c).
Context (bottom : Z) (n : nat) (skip : nat -> bool) (filter : list Z) (out : Z -> Prop).
Context (Hbottom : bottom mod PGSIZE = 0 /\ 0 <= bottom /\ bottom + PGSIZE * Z.of_nat n <= MAXVA).
Context (Hend : Pmm.free_mem_end_addr v0 + PGSIZE < 2 ^ 64).
(** The blocks whose word of the filter is not zero are skipped. *)
Context (Hfilter : forall j, (j < n)%nat -> exists w, filter !! j = Some w /\ skip j = negb (w =? 0)).
Definition heap_va (j : nat) : Z := bottom + PGSIZE * Z.of_nat j.
Context (Hheap : forall j, (j < n)%nat -> skip j = false ->
  exists e, xlate P (Pmm.mem v0) (heap_va j) = Some e /\ has e PTE_R || has e PTE_W = true /\ PTE2PA e <> 0 /\ (PTE2PA e ∉ F0)).

(** The heap from block [j] on, and what becomes of a block. *)
Definition above (j : nat) (x : Z) : Prop := heap_va j <= x < heap_va n.
Definition block_done (F : list Z) (m : memory) (j : nat) : Prop :=
  forall x, same_page (heap_va j) x -> if skip j then xlate C m x = None else inherits P C v0 out stack_perm (.∈ F0) F m x.

Lemma block_page j x : same_page (heap_va j) x <-> heap_va j <= x < heap_va j + PGSIZE.
Proof. destruct Hbottom as (Hb & _). unfold same_page, heap_va, PGSIZE in *. clear -Hb. zlia. Qed.
Lemma block_range j x : (j < n)%nat -> same_page (heap_va j) x -> 0 <= x < MAXVA /\ above j x.
Proof.
  intros Hj Hs%block_page. destruct Hbottom as (_ & ? & ?). unfold above, heap_va, PGSIZE in *. lia.
Qed.
Lemma block_aligned j : heap_va j mod PGSIZE = 0.
Proof. destruct Hbottom as (Hb & _). unfold heap_va, PGSIZE in *. clear -Hb. zlia. Qed.

Lemma block_done_changes X F m F' m' j : changes C out X F m F' m' -> (j < n)%nat -> (forall x, same_page (heap_va j) x -> ~ X x) ->
  block_done F m j -> block_done F' m' j.
Proof.
  intros Hc Hj HX Hd x Hx. destruct (block_range j x Hj Hx) as [Hr _]. specialize (Hd x Hx). destruct (skip j).
  - rewrite (ev_xlate _ _ _ _ _ _ _ Hc); auto.
  - apply (inherits_changes P C v0 out stack_perm _ X F m); auto.
Qed.

Lemma copy_heap_ok l s k : forall j v F, (j + k = n)%nat -> family C F0 v0 v F -> (3 * k <= length F)%nat ->
  (forall x, above j x -> xlate C (Pmm.mem v) x = None) -> (forall a, out a -> ROUNDDOWN a PGSIZE ∉ F) ->
  exists v' F', Trap.copy_heap k c p filter bottom (heap_va j) (heap_va n) (with_pmm v (with_procs l s)) = Ret tt (with_pmm v' (with_procs l s)) /\
    family C F0 v0 v' F' /\ changes C (fun _ => False) (above j) F (Pmm.mem v) F' (Pmm.mem v') /\ (length F <= length F' + 3 * k)%nat /\
    forall j', (j <= j' < n)%nat -> block_done F' (Pmm.mem v') j'.
Proof.
  induction k as [|k IH]; intros j v F Hn Hf HF Hx Hout.
  - replace j with n by lia. exists v, F. cbn [Trap.copy_heap]. destruct (Z.ltb_spec (heap_va n) (heap_va n)); [lia|]. split_and!; try done; try lia.
    apply changes_refl.
  - destruct (Hbottom) as (Hb1 & Hb2 & Hb3). pose proof (block_aligned j) as Hal.
    assert (heap_va j + PGSIZE = heap_va (S j) /\ heap_va (S j) <= heap_va n /\ 0 <= heap_va j /\ heap_va n <= MAXVA /\ heap_va n < 2 ^ 64) as (Hs & Hle & H0 & Hmx & H64).
    { change MAXVA with (2 ^ 38) in *. unfold heap_va, PGSIZE in *. lia. }
    cbn [Trap.copy_heap]. destruct (Z.ltb_spec (heap_va j) (heap_va n)) as [_|]; [|unfold PGSIZE in *; lia].
    assert (u64 (heap_va j - bottom) / PGSIZE = Z.of_nat j) as ->.
    { unfold heap_va in *. rewrite u64_small by (unfold PGSIZE in *; lia). replace (bottom + PGSIZE * Z.of_nat j - bottom) with (Z.of_nat j * PGSIZE) by lia. by apply Z.div_mul. }
    destruct (Hfilter j) as (w & Hw & Hskip); [lia|]. rewrite Nat2Z.id, Hw. rewrite (u64_small (heap_va j + PGSIZE)), Hs by (unfold PGSIZE in *; lia).
    assert (forall x, above (S j) x -> above j x /\ ~ same_page (heap_va j) x) as Hup.
    { intros x Hx'. rewrite block_page. unfold above in *. unfold PGSIZE in *. lia. }
    assert (exists v1 F1, (forall A (m : unit -> M state A), bind (if skip j then ret tt else
          bind (lift Pmm.alloc_page) (fun child_pa => bind (lift (Vmm.lookup_pa P (heap_va j))) (fun pa => bind (Trap.copy_page child_pa pa) (fun _ =>
            lift (Vmm.user_vm_map C (heap_va j) PGSIZE child_pa stack_perm))))) m (with_pmm v (with_procs l s)) = m tt (with_pmm v1 (with_procs l s))) /\
        family C F0 v0 v1 F1 /\ changes C (fun _ => False) (same_page (heap_va j)) F (Pmm.mem v) F1 (Pmm.mem v1) /\ (length F <= length F1 + 3)%nat /\
        block_done F1 (Pmm.mem v1) j) as (v1 & F1 & E1 & Hf1 & Hc1 & HF1 & Hd1).
    { unfold block_done. destruct (skip j) eqn:Hfr.
      - exists v, F. split_and!; try done; [apply changes_refl|lia|]. intros x Hs'. apply Hx. apply block_range; [lia|done].
      - destruct (Hheap j) as (e & He & Hrw & Hnz & HeF); [lia|done|]. destruct F as [|q F]; [simpl in HF; lia|].
        destruct (heap_page_step P C F0 v0 Hparent l s v q F (heap_va j) e out) as (v1 & F1 & E & Hf1 & Hc1 & HF1 & Hi); try done.
        + simpl in HF. lia.
        + lia.
        + apply Hx. unfold above. unfold PGSIZE in *. lia.
        + intros a <- Ha. apply (Hout a Ha), elem_of_cons. by left.
        + exists v1, F1. split_and!; try done; [|simpl; lia|].
          * intros A m. by mstep E.
          * intros x Hs'. apply Hi; [|done]. apply (block_range j); [lia|done]. }
    destruct (IH (S j) v1 F1) as (v' & F' & E' & Hf' & Hc' & HF' & Hd'); try done; try lia.
    { intros x Hx'. destruct (Hup x Hx') as [Hx1 Hns]. rewrite (ev_xlate _ _ _ _ _ _ _ Hc1); [by apply Hx| |done].
      unfold above in *. change MAXVA with (2 ^ 38) in *. unfold heap_va, PGSIZE in *. lia. }
    { intros a Ha Hin. apply (Hout a Ha). by apply (ev_free _ _ _ _ _ _ _ Hc1). }
    exists v', F'. split_and!; try done; try lia.
    + rewrite <- E'. rewrite Hskip in E1. exact (E1 _ _).
    + apply (changes_mono C (fun _ => False) (fun _ => False) (fun x => same_page (heap_va j) x \/ above (S j) x)); [done| |by eapply changes_trans].
      intros x [Hx'|Hx']; [by apply block_range; [lia|]|by apply Hup].
    + intros j' Hj'. destruct (decide (j' = j)) as [->|Hne]; [|apply Hd'; lia].
      apply (block_done_changes (above (S j)) F1 (Pmm.mem v1)); [by apply (changes_mono C (fun _ => False) out (above (S j)))|lia| |done]. intros x Hx1 Hx2. by apply (Hup x Hx2).
Qed.
End heap.
