(* ===== verification/ForkRegions.v ===== *)
(** * The segments of the program that [do_fork] (kernel/process.c) shares

    The part of the loop over [mapped_info] that concerns the program:
    the first page of each code segment is mapped into the child and
    recorded in its table of regions; data segments are passed over. *)
From stdpp Require Import base gmap list numbers strings.
From Stdlib Require Import ZArith Lia.
From S2P Require Import Prelude Pmm Vmm VmmSpec Bytes ByteMem UserMem AddrSpace Process ProcessSpec ElfSpec ElfProgram Sched Trap ForkCopy.
Local Open Scope Z_scope.

Definition code_perm : Z := Vmm.prot_to_type (Z.lor PROT_READ PROT_EXEC) true.

(** ** The loop over the segments of the program *)
Notation segment := (Z * Z * Z)%type.
Definition seg_va (g : segment) : Z := g.1.1.
Definition is_code (g : segment) : Prop := g.2 = CODE_SEGMENT.
#[export] Instance is_code_dec g : Decision (is_code g).
Proof. unfold is_code. apply _. Defined.

Section code.
Context `{KS : KernelSymbols}.
Context (p c : process) (F0 : list Z) (v0 : Pmm.state) (Hparent : vm_inv (pagetable p) v0 F0).
Notation P := (pagetable p).
Notation C := (pagetable c).
Notation mi := (mapped_info c).
Context (uninit : list Z) (par ci : nat) (l0 : list process) (s : state).
Context (Hpar : l0 !! par = Some p) (Hne : par <> ci) (Hci : (ci < length l0)%nat).
Context (Hpinfo : mapped_info p mod PGSIZE = 0 /\ mapped_info p ∉ F0).
Context (Hend : Pmm.free_mem_end_addr v0 + PGSIZE < 2 ^ 64).
(** Words of the child that are written: its regions, in [mi]. *)
Context (out : Z -> Prop).
Context (Hmi : mi mod PGSIZE = 0) (Hm0 : mi ∈ F0).
Definition info_words (a : Z) : Prop := ROUNDDOWN a PGSIZE = mi.
Context (Hout : forall a, info_words a -> out a) (Ho0 : forall a, out a -> ROUNDDOWN a PGSIZE ∈ F0).

Definition st (v : Pmm.state) (t : Z) : state := with_pmm v (with_procs (<[ci := set_regions t c]> l0) s).

(** A segment of the parent whose first page can be shared. *)
Record shareable (g : segment) : Prop := {
  sh_va : seg_va g mod PGSIZE = 0 /\ 0 <= seg_va g /\ seg_va g + PGSIZE <= MAXVA;
  sh_npages : 0 <= g.1.2 < 2 ^ 32;
  sh_data : exists e, xlate P (Pmm.mem v0) (seg_va g) = Some e /\ has e PTE_R || has e PTE_W = true /\ PTE2PA e <> 0 /\ (PTE2PA e ∉ F0) /\ PTE2PA e + PGSIZE < 2 ^ 64;
}.

(** The first page of [g] is the parent's. *)
Definition shared (F : list Z) (m : memory) (g : segment) : Prop := forall x, same_page (seg_va g) x ->
  inherits P C v0 out code_perm (fun q => exists e, xlate P (Pmm.mem v0) (seg_va g) = Some e /\ q = PTE2PA e) F m x.

Lemma seg_page_range g x : shareable g -> same_page (seg_va g) x -> 0 <= x < MAXVA.
Proof. intros [(Ha & H0 & Hm) _ _] Hs. change MAXVA with (2 ^ 38) in *. unfold same_page, PGSIZE in *. zlia. Qed.

Lemma shared_changes X F m F' m' g : changes C info_words X F m F' m' -> shareable g -> (forall x, same_page (seg_va g) x -> ~ X x) ->
  shared F m g -> shared F' m' g.
Proof.
  intros Hc Hg HX Hs x Hx. pose proof (seg_page_range g x Hg Hx). apply (inherits_changes P C v0 out code_perm _ X F m); auto.
  by apply (changes_mono C info_words out X).
Qed.

Lemma parent_region v F j g : family C F0 v0 v F -> 0 <= j < 256 -> region (Pmm.mem v0) (mapped_info p) j = g -> region (Pmm.mem v) (mapped_info p) j = g.
Proof.
  intros Hf Hj <-. destruct Hpinfo as [Ha HF]. apply region_words; [clear -Ha; unfold PGSIZE in *; zlia|].
  destruct (region_word_page p j Ha Hj) as [E1 E2]. intros a [->| ->]; apply (fa_mem _ _ _ _ _ Hf); [by rewrite E1|by rewrite E2].
Qed.

Lemma code_region_step v F t j g :
  family C F0 v0 v F -> (2 <= length F)%nat -> 0 <= t < 256 -> 0 <= j < 256 -> region (Pmm.mem v0) (mapped_info p) j = g -> is_code g -> shareable g ->
  xlate C (Pmm.mem v) (seg_va g) = None -> (mi ∉ F) -> ~ is_table C (Pmm.mem v) mi ->
  exists v' F', Trap.fork_region uninit ci par j (st v t) = Ret tt (st v' (t + 1)) /\
    family C F0 v0 v' F' /\ changes C info_words (same_page (seg_va g)) F (Pmm.mem v) F' (Pmm.mem v') /\ (length F <= length F' + 2)%nat /\
    shared F' (Pmm.mem v') g /\ region (Pmm.mem v') mi t = g /\
    (forall k, 0 <= k < t -> region (Pmm.mem v') mi k = region (Pmm.mem v) mi k).
Proof.
  intros Hf HF Ht Hj Hg Hcode [(Hva & H0 & Hmax) Hnp (e & He & Hrw & Hnz & HeF & He64)] Hx HmF Hmt.
  assert (mi mod 8 = 0) as Hmi8 by (clear -Hmi; unfold PGSIZE in *; zlia). pose proof (PTE2PA_aligned e) as Hea.
  pose proof (parent_region v F j g Hf Hj Hg) as Hr. destruct g as [[va np] ty]. unfold is_code in Hcode. cbn in *. subst ty. injection Hr as R1 R2 R3.
  assert (0 <= PTE2PA e) as Hpe by (unfold PTE2PA, u64; apply Z.mod_pos_bound; lia).
  destruct (map_record C mi Hmi v F va (PTE2PA e) code_perm t va np CODE_SEGMENT (<[ci := set_regions t c]> l0) s)
    as (v' & used & F' & E & [I1 I2 I3 I4 I5 I6 I7 I8]); try done; [apply Hf|].
  assert (changes C info_words (same_page va) F (Pmm.mem v) F' (Pmm.mem v')) as Hc.
  { split.
    - intros q Hq. rewrite I2. apply elem_of_app. by right.
    - intros q Hq. destruct (I5 q Hq); [by left|]. right. rewrite I2. apply elem_of_app. by left.
    - intros a Hnt Hnf Hno. destruct (region_word_page c t Hmi ltac:(lia)) as [E1 E2]. apply I7; try done; intros ->; by apply Hno.
    - intros x Hxr Hs. by rewrite I8, decide_False. }
  assert (forall q, q ∈ F' -> q ∈ F) as HFF by apply Hc.
  assert (family C F0 v0 v' F') as Hf' by (apply (family_changes C F0 v0 info_words (same_page va) v F); auto).
  exists v', F'. split_and!; try done.
  - unfold Trap.fork_region, st. rewrite (get_proc_with ci (set_regions t c)), (get_proc_with par p), load32_with, R3
      by (rewrite ?list_lookup_insert_eq, ?list_lookup_insert_ne by done; done).
    change (CODE_SEGMENT =? CONTEXT_SEGMENT) with false. change (CODE_SEGMENT =? STACK_SEGMENT) with false.
    change (CODE_SEGMENT =? HEAP_SEGMENT) with false. change (CODE_SEGMENT =? CODE_SEGMENT) with true. cbn iota. rewrite load_with, R1.
    destruct (family_parent P C F0 v0 Hparent v F Hf) as [HP HxP].
    assert (Vmm.lookup_pa P va v = Ret (PTE2PA e) v) as E2.
    { rewrite (lookup_pa_eq P va v F HP), HxP, He, Hrw. destruct (Z.leb_spec MAXVA va); [unfold PGSIZE in *; lia|done]. }
    mstep (lift_with _ v (<[ci := set_regions t c]> l0) s _ _ E2). destruct (Z.eqb_spec (PTE2PA e) 0); [done|].
    pose proof E as (u1 & s1 & E3 & E4)%bind_inv_Ret. mstep E3.
    unfold lift, zoom in E3. destruct (Vmm.user_vm_map C va PGSIZE (PTE2PA e) code_perm _) as [u2 v1| | | | |]; try discriminate E3. injection E3 as <- <-.
    change (with_pmm v1 (with_pmm _ ?x)) with (with_pmm v1 x) in *. rewrite load32_with.
    rewrite register_region_with in E4. injection E4 as E4.
    assert (ld32 (Pmm.mem v1) (mr_npages (mapped_info p) j) = np) as ->.
    { pose proof (parent_region v' F' j _ Hf' Hj Hg) as Hr'. injection Hr' as _ R2' _. rewrite <- R2', <- E4. cbn [Pmm.mem Pmm.set_mem].
      symmetry. apply ld32_words. intros b Hb. destruct Hpinfo as [Hpa HpF]. destruct (region_word_page p j Hpa Hj) as [_ W2].
      unfold ld64. rewrite region_mem_words; [done|done|..].
      all: intros Eb; apply HpF; replace (mapped_info p) with mi; [done|].
      all: transitivity (ROUNDDOWN b PGSIZE); [subst b|]; [symmetry; rewrite <- ?Z.add_assoc; apply page_word; [done|unfold PGSIZE; lia]|].
      all: unfold mr_npages in Hb; clear -Hb Hj Hpa; unfold ROUNDDOWN, PGSIZE in *; zlia. }
    change (mapped_info (set_regions t c)) with mi. change (total_mapped_region (set_regions t c)) with t. mstep (register_region_with mi t va np CODE_SEGMENT v1 (<[ci := set_regions t c]> l0) s).
    rewrite E4, upd_proc_with. unfold st. do 3 f_equal. by rewrite alter_insert_list.
  - rewrite I2, length_app. lia.
  - intros x Hs. assert (0 <= x < MAXVA) as Hxr by (apply (seg_page_range (va, np, CODE_SEGMENT)); [|done]; split; cbn; eauto 10).
    assert (xlate C (Pmm.mem v') x = Some (entry (PTE2PA e) code_perm)) as Ex by (by rewrite I8, decide_True).
    assert (PTE2PA (entry (PTE2PA e) code_perm) = PTE2PA e) as Ee.
    { rewrite entry_pa by (done || (unfold PGSIZE in *; lia)). clear -Hea. unfold ROUNDDOWN, PGSIZE in *. zlia. }
    exists (ld8 (Pmm.mem v0) (PTE2PA e + x mod PGSIZE)), (PTE2PA e). split_and!; [by apply (parent_byte P v0 x va e)| |done|eauto].
    split.
    + unfold vbyte. rewrite Ex. cbn [fmap option_fmap option_map]. rewrite Ee. f_equal.
      assert (0 <= x mod PGSIZE < PGSIZE) by (apply Z.mod_pos_bound; done).
      apply (ld8_outside _ _ _ (PTE2PA e)); [done|lia|]. intros b Hb. apply (fa_mem _ _ _ _ _ Hf'). by rewrite Hb.
    + rewrite Ex. intros e' [= <-]. cbv zeta. rewrite Ee. split_and!; [done|..].
      * intros Hin. by apply HeF, (fa_free _ _ _ _ _ Hf').
      * intros Hin. by apply HeF, (fa_tables _ _ _ _ _ Hf').
      * intros a Ha Hoa. apply HeF. rewrite <- Ha. by apply Ho0.
  - intros k Hk. apply region_words; [done|]. destruct (region_word_page c k Hmi ltac:(lia)) as [E1 E2].
    intros a [->| ->]; apply I7; rewrite ?E1, ?E2; (done || lia).
Qed.

(** A segment that fork does not look at. *)
Lemma data_region_step v F t j : family C F0 v0 v F -> 0 <= j < 256 -> (region (Pmm.mem v0) (mapped_info p) j).2 = DATA_SEGMENT ->
  Trap.fork_region uninit ci par j (st v t) = Ret tt (st v t).
Proof.
  intros Hf Hj Hg. pose proof (parent_region v F j _ Hf Hj eq_refl) as Hr. assert (ld32 (Pmm.mem v) (mr_seg_type (mapped_info p) j) = DATA_SEGMENT) as R3 by (rewrite <- Hg, <- Hr; done).
  unfold Trap.fork_region, st. rewrite (get_proc_with ci (set_regions t c)), (get_proc_with par p), load32_with, R3
    by (rewrite ?list_lookup_insert_eq, ?list_lookup_insert_ne by done; done). done.
Qed.

Definition in_code (segs : list segment) (x : Z) : Prop := exists g, g ∈ filter is_code segs /\ same_page (seg_va g) x.

Record segments_done (t : Z) (segs : list segment) (F : list Z) (v : Pmm.state) (F' : list Z) (v' : Pmm.state) : Prop := {
  sd_family : family C F0 v0 v' F';
  sd_changes : changes C info_words (in_code segs) F (Pmm.mem v) F' (Pmm.mem v');
  sd_room : (length F <= length F' + 2 * length (filter is_code segs))%nat;
  sd_shared : forall g, g ∈ filter is_code segs -> shared F' (Pmm.mem v') g;
  sd_regions : forall i g, filter is_code segs !! i = Some g -> region (Pmm.mem v') mi (t + Z.of_nat i) = g;
  sd_below : forall k, 0 <= k < t -> region (Pmm.mem v') mi k = region (Pmm.mem v) mi k;
}.

Lemma code_loop segs : forall k v F t, family C F0 v0 v F -> 0 <= k -> k + Z.of_nat (length segs) <= 256 -> 0 <= t ->
  t + Z.of_nat (length (filter is_code segs)) <= 256 ->
  (forall i g, segs !! i = Some g -> region (Pmm.mem v0) (mapped_info p) (k + Z.of_nat i) = g) ->
  (forall g, g ∈ segs -> is_code g /\ shareable g \/ g.2 = DATA_SEGMENT) -> NoDup (map seg_va (filter is_code segs)) ->
  (2 * length (filter is_code segs) <= length F)%nat -> (forall g, g ∈ filter is_code segs -> xlate C (Pmm.mem v) (seg_va g) = None) ->
  (mi ∉ F) -> ~ is_table C (Pmm.mem v) mi ->
  exists v' F', Trap.fork_regions uninit ci par (length segs) k (st v t) = Ret tt (st v' (t + Z.of_nat (length (filter is_code segs)))) /\
    segments_done t segs F v F' v'.
Proof.
  induction segs as [|g segs IH]; intros k v F t Hf Hk Hk256 Ht Ht256 Hreg Hsegs Hnd HF Hun HmF Hmt.
  { exists v, F. cbn. rewrite Z.add_0_r. split; [done|]. split; try done; [apply changes_refl|cbn; lia|by intros g ?%not_elem_of_nil]. }
  cbn [length] in Hk256. cbn [Trap.fork_regions length].
  assert (region (Pmm.mem v0) (mapped_info p) k = g) as Hg by (specialize (Hreg O g eq_refl); by rewrite Z.add_0_r in Hreg).
  assert (forall i g', segs !! i = Some g' -> region (Pmm.mem v0) (mapped_info p) (k + 1 + Z.of_nat i) = g') as Hreg'.
  { intros i g' Hi. rewrite <- (Hreg (S i) g' Hi). f_equal. lia. }
  assert (forall g', g' ∈ segs -> is_code g' /\ shareable g' \/ g'.2 = DATA_SEGMENT) as Hsegs' by (intros g' Hg'; apply Hsegs, elem_of_cons; by right).
  destruct (Hsegs g) as [[Hcode Hsh]|Hdata]; [apply elem_of_cons; by left|..].
  - assert (filter is_code (g :: segs) = g :: filter is_code segs) as Ef by (by rewrite filter_cons_True). rewrite Ef in *. cbn [length] in *.
    cbn [map] in Hnd. apply NoDup_cons in Hnd as [Hgn Hnd].
    destruct (code_region_step v F t k g) as (v1 & F1 & E1 & Hf1 & Hc1 & HF1 & Hs1 & Hr1 & Hb1); try done; try lia.
    { apply Hun, elem_of_cons. by left. }
    assert (forall g', g' ∈ filter is_code segs -> forall x, same_page (seg_va g') x -> ~ same_page (seg_va g) x) as Hap.
    { intros g' Hg' x Hx Hx'. apply Hgn. replace (seg_va g) with (seg_va g'); [by apply list_elem_of_fmap_2|].
      apply list_elem_of_filter in Hg' as [Hc' Hg']. destruct (Hsegs' g' Hg') as [[_ [(A1 & _) _ _]]|Hd']; [|by unfold is_code in Hc'; rewrite Hd' in Hc'].
      destruct Hsh as [(A2 & _) _ _]. clear -A1 A2 Hx Hx'. unfold same_page, PGSIZE in *. zlia. }
    assert (forall g', g' ∈ filter is_code segs -> shareable g') as Hsh'.
    { intros g' Hg'. apply list_elem_of_filter in Hg' as [Hc' Hg']. destruct (Hsegs' g' Hg') as [[_ ?]|Hd']; [done|by unfold is_code in Hc'; rewrite Hd' in Hc']. }
    destruct (IH (k + 1) v1 F1 (t + 1)) as (v' & F' & E' & [D1 D2 D3 D4 D5 D6]); try done; try lia.
    { intros g' Hg'. rewrite (ev_xlate _ _ _ _ _ _ _ Hc1); [by apply Hun, elem_of_cons; right|by apply (seg_page_range g' _ (Hsh' g' Hg'))|by apply (Hap g' Hg')]. }
    { intros Hin. by apply HmF, (ev_free _ _ _ _ _ _ _ Hc1). }
    { intros Hin. by destruct (ev_table _ _ _ _ _ _ _ Hc1 _ Hin). }
    exists v', F'. split.
    + mstep E1. rewrite E'. do 2 f_equal. lia.
    + split; try done; rewrite ?Ef.
      * apply (changes_mono C info_words info_words (fun x => same_page (seg_va g) x \/ in_code segs x)); [done| |by eapply changes_trans].
        unfold in_code. rewrite Ef. intros x [Hx|(g' & Hg' & Hx)]; [exists g; split; [apply elem_of_cons; by left|done]|exists g'; split; [apply elem_of_cons; by right|done]].
      * cbn [length]. lia.
      * intros g' [->|Hg']%elem_of_cons; [|by apply D4]. apply (shared_changes (in_code segs) F1 (Pmm.mem v1)); try done.
        intros x Hx (g'' & Hg'' & Hx''). by apply (Hap g'' Hg'' x Hx'').
      * intros [|i] g' Hi; [injection Hi as <-; rewrite Z.add_0_r, D6 by lia; done|]. rewrite <- (D5 i g' Hi). f_equal. lia.
      * intros k' Hk'. rewrite D6 by lia. by apply Hb1.
  - assert (filter is_code (g :: segs) = filter is_code segs) as Ef.
    { apply filter_cons_False. unfold is_code. rewrite Hdata. done. }
    assert (in_code (g :: segs) = in_code segs) as Ec by (unfold in_code; by rewrite Ef). rewrite Ef in *.
    mstep (data_region_step v F t k Hf ltac:(lia) ltac:(by rewrite Hg)).
    destruct (IH (k + 1) v F t) as (v' & F' & E' & [D1 D2 D3 D4 D5 D6]); try done; try lia.
    exists v', F'. split; [done|]. split; rewrite ?Ef, ?Ec; done.
Qed.
End code.
