(* ===== verification/Fork.v ===== *)
(** * What [do_fork] (kernel/process.c) makes

    [forkable] describes the process that calls fork, [forked] the kernel
    after the call; [fork_copies] relates them through [Trap.do_fork]. The
    steps of the call ([stack_region], [context_region], [system_region],
    [heap_region], [code_loop] of ForkRegions) are lemmas on
    [Trap.fork_region]; [demo_forkable] builds a parent on which the theorem
    is used. [skipped] are the heap pages the child does not get. *)
From stdpp Require Import base gmap list numbers strings.
From Stdlib Require Import ZArith Lia.
From S2P Require Import Prelude Pmm Vmm VmmSpec Bytes ByteMem UserMem AddrSpace Process ProcessSpec ElfSpec ElfProgram Sched Trap Heap ForkCopy ForkRegions.
Local Open Scope Z_scope.

(** ** The parent *)
Definition heap_block (p : process) (j : nat) : Z := heap_bottom p + PGSIZE * Z.of_nat j.
Definition freed_list (p : process) : list Z := take (Z.to_nat (free_pages_count p)) (free_pages_address p).
Definition freed (p : process) (j : nat) : bool := bool_decide (heap_block p j ∈ freed_list p).

(** The heap pages [do_fork] does not copy: the freed ones, and those whose word
    of [free_block_filter] it neither clears nor sets, when the stack held
    something else than zero there.  [memset] clears 8 of the 32 words. *)
Definition skipped (uninit : list Z) (p : process) (j : nat) : bool :=
  freed p j || bool_decide (8 <= j)%nat && negb (nth j uninit 0 =? 0).

(** With at most 8 pages of heap, or zeros on the stack, only freed pages are
    skipped. *)
Lemma skipped_freed uninit p j : (j < 8)%nat \/ nth j uninit 0 = 0 -> skipped uninit p j = freed p j.
Proof.
  unfold skipped. intros [Hj| ->].
  - rewrite bool_decide_eq_false_2 by lia. by rewrite orb_false_r.
  - by rewrite andb_false_r, orb_false_r.
Qed.

(** A running process as the loader and the heap calls leave it: [n] pages of
    heap, freed ones among them, and the segments [segs] of its program. *)
Record forkable (s : state) (F : list Z) (i : nat) (p : process) (n : nat) (hn : Z) (segs : list segment) `{KernelSymbols} : Prop := {
  fo_current : current s = Some i /\ procs s !! i = Some p /\ status p = RUNNING;
  fo_inv : vm_inv (pagetable p) (pmm s) F;
  fo_pages : forall x e, 0 <= x < MAXVA -> xlate (pagetable p) (mem s) x = Some e -> (PTE2PA e ∉ F) /\ PTE2PA e + PGSIZE < 2 ^ 64;
  fo_frame : trapframe p mod PGSIZE = 0 /\ (trapframe p ∉ F);
  fo_info : mapped_info p mod PGSIZE = 0 /\ (mapped_info p ∉ F);
  fo_total : total_mapped_region p = 4 + Z.of_nat (length segs) /\ 4 + Z.of_nat (length segs) <= 256;
  fo_regions : forall j g, ([(stack_va, 1, STACK_SEGMENT); (trapframe p, 1, CONTEXT_SEGMENT); (trap_sec_start, 1, SYSTEM_SEGMENT);
     (heap_bottom p, hn, HEAP_SEGMENT)] ++ segs) !! j = Some g -> region (mem s) (mapped_info p) (Z.of_nat j) = g;
  fo_stack : data_at (pagetable p) (mem s) stack_va;
  fo_heap : heap_bottom p = USER_FREE_ADDRESS_START /\ heap_top p = heap_block p n /\ (n <= 32)%nat;
  fo_freed : length (free_pages_address p) = 32%nat /\ 0 <= free_pages_count p <= 32 /\
    Forall (fun va => exists j, 0 <= j < 32 /\ va = heap_bottom p + PGSIZE * j) (freed_list p);
  fo_blocks : forall j, (j < n)%nat -> freed p j = false -> data_at (pagetable p) (mem s) (heap_block p j);
  fo_segs : forall g, g ∈ segs -> g.2 = DATA_SEGMENT \/ is_code g /\ seg_va g mod PGSIZE = 0 /\
    0 <= seg_va g /\ seg_va g + PGSIZE <= stack_va /\ (seg_va g + PGSIZE <= heap_bottom p \/ heap_block p n <= seg_va g) /\
    data_at (pagetable p) (mem s) (seg_va g);
  fo_apart : NoDup (map seg_va (filter is_code segs));
}.

(** A heap that the heap calls of the process made is one that fork can copy. *)
Lemma heap_ok_forkable v F p fr limit h : heap_ok v F p fr limit h -> (size h <= 32)%nat ->
  (heap_bottom p = USER_FREE_ADDRESS_START /\ heap_top p = heap_block p (size h) /\ (size h <= 32)%nat) /\
  (length (free_pages_address p) = 32%nat /\ 0 <= free_pages_count p <= 32 /\
    Forall (fun va => exists j, 0 <= j < 32 /\ va = heap_bottom p + PGSIZE * j) (freed_list p)) /\
  (forall j, (j < size h)%nat -> freed p j = false -> data_at (pagetable p) (Pmm.mem v) (heap_block p j)).
Proof.
  intros Hok Hn. pose proof Hok as [_ _ (B1 & B2 & _) _ (S1 & S2 & S3 & S4) [_ D] R _ _ _].
  assert (forall j, heap_block p j = block_va j) as Hb by (intros j; unfold heap_block; by rewrite B1).
  assert (freed_list p = rev (map block_va (free_stack h))) as Hfl by (unfold freed_list; by rewrite S2, Nat2Z.id).
  split; [by rewrite Hb|split].
  - split_and!; [done|lia|lia|]. rewrite Hfl. apply Forall_rev, Forall_map, Forall_forall. intros k Hk. exists (Z.of_nat k).
    specialize (R k Hk). split; [lia|]. by rewrite B1.
  - intros j Hj Hfr. rewrite Hb. unfold freed in Hfr. apply bool_decide_eq_false in Hfr. rewrite Hb, Hfl in Hfr.
    destruct (blocks h !! j) as [c|] eqn:Hc.
    + destruct (live_entry v F p fr limit h j c Hok Hc) as ([(_ & _ & _ & _ & P5) LX _] & _ & Epa & _ & Hr & Hr0 & Hl). split; [lia|].
      exists (entry (fr j) stack_perm). rewrite Epa, LX by done. split_and!; [done| |lia]. rewrite entry_has; [done|by vm_compute].
    + apply D in Hc as [|Hin]; [lia|]. destruct Hfr. apply list_elem_of_In, in_rev. rewrite rev_involutive. apply in_map. by apply list_elem_of_In.
Qed.

Lemma region_range m mi j : 0 <= (region m mi j).1.2 < 2 ^ 32.
Proof. unfold region, ld32. cbn. destruct (_ =? 0); apply Z.mod_pos_bound; lia. Qed.

Lemma stack_page_range x : same_page stack_va x -> 0 <= x < MAXVA.
Proof. change MAXVA with (2 ^ 38). change stack_va with 0x7fffe000. unfold same_page, PGSIZE. intros. zlia. Qed.

(** ** The steps of fork *)
Section steps.
Context `{KS : KernelSymbols} (uninit : list Z).
Context (s : state) (F : list Z) (i ci : nat) (p c0 c : process) (n : nat) (hn : Z) (segs : list segment).
Context (v5 : Pmm.state) (F5 : list Z) (st : Z).
Context (Hp : forkable s F i p n hn segs) (Hc : created s F c0 v5 F5 c st).
Context (Hly : layout (pmm s)) (Hrep : Pmm.rep (pmm s) F) (Hci : (ci < length (procs s))%nat) (Hne : i <> ci).
Context (Hend : Pmm.free_mem_end_addr (pmm s) + PGSIZE < 2 ^ 64).
Notation P := (pagetable p).
Notation C := (pagetable c).
Notation kst v l := (with_pmm v (with_procs l s)).

(** The pages of the child that are written after its stack. *)
Definition child_words (a : Z) : Prop := ROUNDDOWN a PGSIZE = trapframe c \/ ROUNDDOWN a PGSIZE = mapped_info c.

Lemma child_pages q : q ∈ own_pages c st -> q mod PGSIZE = 0 /\ 0 < q < 2 ^ 64 /\ (q ∈ F) /\ (q ∉ F5).
Proof.
  intros Hq. destruct (created_pages _ _ _ _ _ _ _ Hc Hrep q Hq) as (? & ? & ? & ? & ?). unfold PGSIZE in Hend. split_and!; try done; lia.
Qed.
Lemma child_own : (trapframe c ∈ own_pages c st) /\ (mapped_info c ∈ own_pages c st) /\ (st ∈ own_pages c st) /\
  st <> trapframe c /\ st <> mapped_info c /\ trapframe c <> mapped_info c /\
  ~ is_table C (Pmm.mem v5) st /\ ~ is_table C (Pmm.mem v5) (trapframe c) /\ ~ is_table C (Pmm.mem v5) (mapped_info c).
Proof.
  pose proof (cr_own _ _ _ _ _ _ _ Hc) as [Hnd _]. unfold own_pages in Hnd. rewrite !NoDup_cons, !not_elem_of_cons in Hnd.
  destruct Hnd as ((N1 & _ & N3 & N4 & _) & (_ & N5 & N6 & _) & _ & (N7 & _) & _).
  assert ((trapframe c ∈ own_pages c st) /\ (mapped_info c ∈ own_pages c st) /\ (st ∈ own_pages c st)) as (A1 & A2 & A3)
    by (unfold own_pages; rewrite !elem_of_cons; tauto).
  split_and!; try done; try congruence; apply (created_not_table _ _ _ _ _ _ _ _ Hc); congruence || done.
Qed.

Lemma child_files : pfiles c <> st /\ pfiles c <> trapframe c /\ pfiles c <> mapped_info c /\ ~ is_table C (Pmm.mem v5) (pfiles c) /\
  pfiles c mod PGSIZE = 0 /\ (pfiles c ∉ F5).
Proof.
  pose proof (cr_own _ _ _ _ _ _ _ Hc) as [Hnd _]. unfold own_pages in Hnd. rewrite !NoDup_cons, !not_elem_of_cons in Hnd.
  destruct Hnd as ((_ & _ & _ & _ & N1 & _) & (_ & _ & _ & N2 & _) & _ & (_ & N3 & _) & (N4 & _) & _).
  assert (pfiles c ∈ own_pages c st) as A by (unfold own_pages; rewrite !elem_of_cons; tauto). destruct (child_pages _ A) as (? & _ & _ & ?).
  split_and!; try done; try congruence. apply (created_not_table _ _ _ _ _ _ _ _ Hc); congruence || done.
Qed.

Lemma child_words_free a : child_words a -> ROUNDDOWN a PGSIZE ∈ F.
Proof. destruct child_own as (A1 & A2 & _). intros [->| ->]; by apply child_pages. Qed.

Lemma family_created : family C F (pmm s) v5 F5.
Proof.
  pose proof Hc as [C1 C2 (used & HF & _ & _ & Ht) _ C5 _ _]. split; try done.
  - intros q Hq. rewrite HF. apply elem_of_app. by right.
  - intros q Hq. rewrite HF. apply elem_of_app. left. by apply Ht.
Qed.

(** Writing to the child's own pages. *)
Lemma family_write (out : Z -> Prop) v G m' : family C F (pmm s) v G -> (forall q, is_table C (Pmm.mem v) q -> is_table C (Pmm.mem v5) q \/ q ∈ F5) ->
  (forall q, q ∈ G -> q ∈ F5) ->
  (forall a, out a -> ROUNDDOWN a PGSIZE ∈ own_pages c st /\ ~ is_table C (Pmm.mem v5) (ROUNDDOWN a PGSIZE)) ->
  (forall a, ~ out a -> ld64 m' a = ld64 (Pmm.mem v) a) ->
  family C F (pmm s) (Pmm.set_mem m' v) G /\ changes C out (fun _ => False) G (Pmm.mem v) G m'.
Proof.
  intros Hf Ht HG Ho Hm. destruct (vm_inv_changes C out G v m') as [Hinv Hch]; [apply Hf| |done|].
  { intros a Ha. destruct (Ho a Ha) as [Hq Hn]. destruct (child_pages _ Hq) as (_ & _ & _ & HnF). split; [|auto].
    intros Hin. by destruct (Ht _ Hin). }
  split; [|done]. apply (family_changes C F (pmm s) out (fun _ => False) v G); try done.
  intros a Ha. destruct (Ho a Ha) as [Hq _]. by apply child_pages.
Qed.

Lemma stack_region : exists m6, (forall l, l !! ci = Some c -> l !! i = Some p -> Trap.fork_region uninit ci i 0 (kst v5 l) = Ret tt (kst (Pmm.set_mem m6 v5) l)) /\
  family C F (pmm s) (Pmm.set_mem m6 v5) F5 /\ changes C (fun a => ROUNDDOWN a PGSIZE = st) (fun _ => False) F5 (Pmm.mem v5) F5 m6 /\
  forall x, same_page stack_va x -> inherits P C (pmm s) child_words stack_perm (.∈ F) F5 m6 x.
Proof.
  destruct child_own as (A1 & A2 & A3 & N1 & N2 & N3 & T1 & T2 & T3). destruct (child_pages st A3) as (S1 & S2 & S3 & S4).
  destruct (fo_stack _ _ _ _ _ _ _ Hp) as (Hsv & e & He & Hrw & Hnz). destruct (fo_pages _ _ _ _ _ _ _ Hp _ e Hsv He) as [HeF _].
  pose proof (PTE2PA_aligned e) as Hea. assert (st <> PTE2PA e) as Hse by (intros E; apply HeF; by rewrite <- E).
  pose proof family_created as Hf. destruct (family_parent P C F (pmm s) (fo_inv _ _ _ _ _ _ _ Hp) v5 F5 Hf) as [HP HxP]. change (Pmm.mem (pmm s)) with (mem s) in HxP.
  pose proof (cr_fresh _ _ _ _ _ _ _ Hc) as [_ Hreg _ _ _ _ Hx]. injection Hreg as R0 _ _ _ _ _ _ _ _ _ _ _.
  assert (Vmm.lookup_pa C stack_va v5 = Ret st v5) as E1.
  { rewrite (lookup_pa_eq C stack_va v5 F5 (fa_inv _ _ _ _ _ Hf)). destruct (Z.leb_spec MAXVA stack_va); [done|]. rewrite Hx, decide_True by done.
    rewrite entry_readable by done. cbn [orb]. f_equal. rewrite entry_pa by (done || lia). clear -S1. unfold ROUNDDOWN, PGSIZE in *. zlia. }
  assert (Vmm.lookup_pa P stack_va v5 = Ret (PTE2PA e) v5) as E2.
  { rewrite (lookup_pa_eq P stack_va v5 F5 HP), HxP, He, Hrw. destruct (Z.leb_spec MAXVA stack_va); [done|done]. }
  assert (exists m6, unit -> m6 = copy_words 512 st (PTE2PA e) (Pmm.mem v5)) as [m6 Em] by (eexists; intros _; reflexivity). exists m6.
  destruct (family_write (fun a => ROUNDDOWN a PGSIZE = st) v5 F5 m6 Hf) as [Hf6 Hch]; [left; assumption|intros q Hq; exact Hq| | |].
  { intros a ->. split; assumption. }
  { intros a Ha. rewrite (Em tt). apply copy_page_out; assumption. }
  split; [|split; [exact Hf6|split; [exact Hch|]]].
  - intros l Hlc Hlp. unfold Trap.fork_region. rewrite (get_proc_with ci c), (get_proc_with i p), load32_with by done.
    assert (region (Pmm.mem v5) (mapped_info p) 0 = (stack_va, 1, STACK_SEGMENT)) as Hr0.
    { apply (parent_region p c F (pmm s) (fo_info _ _ _ _ _ _ _ Hp) v5 F5 0 _ Hf); [lia|]. apply (fo_regions _ _ _ _ _ _ _ Hp 0). done. }
    injection Hr0 as Q1 _ Q3. rewrite Q3. change (STACK_SEGMENT =? CONTEXT_SEGMENT) with false. change (STACK_SEGMENT =? STACK_SEGMENT) with true. cbn iota.
    rewrite load_with. change STACK_SEGMENT with 0. rewrite R0.
    mstep (lift_with _ v5 l s _ _ E1). rewrite load_with, Q1.
    mstep (lift_with _ v5 l s _ _ E2). unfold Trap.copy_page. destruct (Z.eqb_spec st 0); [lia|]. destruct (Z.eqb_spec (PTE2PA e) 0); [congruence|]. cbn [orb]. rewrite update_mem_with, (Em tt). reflexivity.
  - intros x Hs. assert (0 <= x < MAXVA) as Hxr by (by apply stack_page_range).
    eapply (copied_inherits P C F (pmm s) child_words v5 F5 (Pmm.set_mem m6 v5) F5 st stack_perm stack_va e x);
      [exact Hf|exact S1|exact S2|exact S4| |exact S3|done| |intros a _; cbn [Pmm.mem Pmm.set_mem]; rewrite (Em tt); reflexivity|exact He|exact HeF| |exact Hs]; clear Em.
    + intros Ht. by destruct (ev_table _ _ _ _ _ _ _ Hch _ Ht).
    + intros a Ea [E|E]; congruence.
    + cbn [Pmm.mem Pmm.set_mem]. rewrite (ev_xlate _ _ _ _ _ _ _ Hch) by tauto. by rewrite Hx, decide_True.
Qed.

Lemma child_words_own a : child_words a -> ROUNDDOWN a PGSIZE ∈ own_pages c st /\ ~ is_table C (Pmm.mem v5) (ROUNDDOWN a PGSIZE).
Proof. destruct child_own as (A1 & A2 & _ & _ & _ & _ & _ & T2 & T3). by intros [->| ->]. Qed.

(** The state of the child along the loop, after the stack. *)
Record grown (m6 : memory) (X : Z -> Prop) (v : Pmm.state) (G : list Z) : Prop := {
  gr_family : family C F (pmm s) v G;
  gr_changes : changes C child_words X F5 m6 G (Pmm.mem v);
}.

Lemma grown_step m6 X Y v G v' G' : grown m6 X v G -> family C F (pmm s) v' G' -> changes C child_words Y G (Pmm.mem v) G' (Pmm.mem v') ->
  grown m6 (fun x => X x \/ Y x) v' G'.
Proof. intros [A1 A2] Hf Hch. split; [done|]. by eapply changes_trans. Qed.

Lemma grown_mono m6 (X Y : Z -> Prop) v G : (forall x, X x -> Y x) -> grown m6 X v G -> grown m6 Y v G.
Proof. intros HX [A1 A2]. split; [done|]. by apply (changes_mono C child_words child_words X). Qed.

(** Writing words of the child's trapframe and regions. *)
Lemma grown_write m6 X v G m' : (forall q, is_table C m6 q -> is_table C (Pmm.mem v5) q \/ q ∈ F5) -> grown m6 X v G ->
  (forall a, ~ child_words a -> ld64 m' a = ld64 (Pmm.mem v) a) ->
  grown m6 X (Pmm.set_mem m' v) G /\ changes C child_words (fun _ => False) G (Pmm.mem v) G m'.
Proof.
  intros Ht6 [A1 A2] Hm. destruct (family_write child_words v G m' A1) as [Hf Hch]; try done.
  - intros q Hq. destruct (ev_table _ _ _ _ _ _ _ A2 q Hq); auto.
  - intros q Hq. by apply (ev_free _ _ _ _ _ _ _ A2).
  - apply child_words_own.
  - split; [|done]. apply (grown_mono _ (fun x => X x \/ False)); [by intros x [?|[]]|]. by apply (grown_step m6 X (fun _ => False) v G).
Qed.

Lemma frame_words_out tf tf' m a : tf mod PGSIZE = 0 -> tf' mod PGSIZE = 0 -> tf <> tf' -> ROUNDDOWN a PGSIZE <> tf ->
  ld64 (copy_words trapframe_words tf tf' m) a = ld64 m a.
Proof.
  intros H1 H2 Hn Ha. rewrite ld64_copy_words, bool_decide_eq_false_2; [done| |unfold trapframe_words, PGSIZE in *; zlia].
  intros [Hr _]. apply Ha. unfold trapframe_words, ROUNDDOWN, PGSIZE in *. zlia.
Qed.

(** The trapframe: the child's is a copy of the parent's. *)
Lemma context_region m6 v : (forall q, is_table C m6 q -> is_table C (Pmm.mem v5) q \/ q ∈ F5) -> grown m6 (fun _ => False) v F5 ->
  exists v', (forall l, l !! ci = Some c -> l !! i = Some p -> Trap.fork_region uninit ci i 1 (kst v l) = Ret tt (kst v' l)) /\
  grown m6 (fun _ => False) v' F5 /\ 
  (forall k, 0 <= k < 35 -> ld64 (Pmm.mem v') (trapframe c + 8 * k) = ld64 (mem s) (trapframe p + 8 * k)) /\
  (forall a, ROUNDDOWN a PGSIZE = mapped_info c -> ld64 (Pmm.mem v') a = ld64 (Pmm.mem v) a).
Proof.
  intros Ht6 Hg. pose proof (gr_family _ _ _ _ Hg) as Hf. destruct child_own as (A1 & A2 & _ & _ & _ & N3 & _ & T2 & T3). destruct (child_pages _ A1) as (B1 & _ & B3 & _).
  destruct (fo_frame _ _ _ _ _ _ _ Hp) as [P1 P2]. assert (trapframe c <> trapframe p) as Hn by (intros E; apply P2; by rewrite <- E).
  assert (forall a, ROUNDDOWN a PGSIZE <> trapframe c -> ld64 (copy_words trapframe_words (trapframe c) (trapframe p) (Pmm.mem v)) a = ld64 (Pmm.mem v) a) as Hout
    by (intros a Ha; by apply frame_words_out).
  set (m' := copy_words _ _ _ _) in *. destruct (grown_write m6 (fun _ => False) v F5 m' Ht6 Hg) as [Hg' _].
  { intros a Ha. apply Hout. intros E. apply Ha. by left. }
  exists (Pmm.set_mem m' v). split; [|split; [exact Hg'|split]].
  - intros l Hlc Hlp. unfold Trap.fork_region. rewrite (get_proc_with ci c), (get_proc_with i p), load32_with by done.
    assert (region (Pmm.mem v) (mapped_info p) 1 = (trapframe p, 1, CONTEXT_SEGMENT)) as Hr0.
    { apply (parent_region p c F (pmm s) (fo_info _ _ _ _ _ _ _ Hp) v F5 1 _ Hf); [lia|]. apply (fo_regions _ _ _ _ _ _ _ Hp 1). done. }
    injection Hr0 as _ _ Q3. rewrite Q3. exact (update_mem_with (copy_words trapframe_words (trapframe c) (trapframe p)) v l s).
  - intros k Hk. unfold m'. cbn [Pmm.mem Pmm.set_mem]. rewrite ld64_copy_words by (clear -B1 P1 Hn; unfold trapframe_words, PGSIZE in *; zlia).
    rewrite bool_decide_eq_true_2 by (unfold trapframe_words; zlia). replace (trapframe c + 8 * k - trapframe c) with (8 * k) by lia.
    apply (fa_mem _ _ _ _ _ Hf). rewrite page_word; [done|done|unfold PGSIZE; lia].
  - intros a Ha. apply Hout. congruence.
Qed.

Lemma system_region v G l : family C F (pmm s) v G -> l !! ci = Some c -> l !! i = Some p -> Trap.fork_region uninit ci i 2 (kst v l) = Ret tt (kst v l).
Proof.
  intros Hf Hlc Hlp. unfold Trap.fork_region. rewrite (get_proc_with ci c), (get_proc_with i p), load32_with by done.
  assert (region (Pmm.mem v) (mapped_info p) 2 = (trap_sec_start, 1, SYSTEM_SEGMENT)) as Hr0.
  { apply (parent_region p c F (pmm s) (fo_info _ _ _ _ _ _ _ Hp) v G 2 _ Hf); [lia|]. apply (fo_regions _ _ _ _ _ _ _ Hp 2). done. }
  injection Hr0 as _ _ Q3. rewrite Q3. reflexivity.
Qed.

(** The heap. *)
Definition copied_heap (p' : process) : process := set_heap (heap_top p) (heap_bottom p) (free_pages_address p) (free_pages_count p) p'.

Lemma heap_range x : heap_block p 0 <= x < heap_block p n -> 0 <= x < MAXVA /\ x < stack_va.
Proof.
  destruct (fo_heap _ _ _ _ _ _ _ Hp) as (Hb & _ & Hn). unfold heap_block. rewrite Hb. change MAXVA with (2 ^ 38). change stack_va with 0x7fffe000.
  unfold USER_FREE_ADDRESS_START, PGSIZE. lia.
Qed.

Lemma heap_bounds : heap_bottom p mod PGSIZE = 0 /\ 0 <= heap_bottom p /\ heap_bottom p + PGSIZE * Z.of_nat n <= MAXVA.
Proof.
  destruct (fo_heap _ _ _ _ _ _ _ Hp) as (-> & _ & Hn). change MAXVA with (2 ^ 38). unfold USER_FREE_ADDRESS_START, PGSIZE. split_and!; [done|lia|lia].
Qed.

Lemma freed_filter : length uninit = 32%nat ->
  exists filter, (forall t, Trap.mark_free (heap_bottom p) (freed_list p)
    (replicate (Z.to_nat (MAX_HEAP_PAGES / 4)) 0 ++ drop (Z.to_nat (MAX_HEAP_PAGES / 4)) uninit) t = Ret filter t) /\
    forall j, (j < n)%nat -> exists w, filter !! j = Some w /\ skipped uninit p j = negb (w =? 0).
Proof.
  intros Hlen. destruct (fo_heap _ _ _ _ _ _ _ Hp) as (Hb & _ & Hn). destruct (fo_freed _ _ _ _ _ _ _ Hp) as (_ & _ & Hfr).
  change (Z.to_nat (MAX_HEAP_PAGES / 4)) with 8%nat. set (f0 := replicate 8 0 ++ drop 8 uninit).
  assert (length f0 = 32%nat) as Hf0 by (unfold f0; rewrite length_app, length_replicate, length_drop; lia).
  assert (0 <= heap_bottom p < 2 ^ 32) as Hbr by (rewrite Hb; done).
  destruct (mark_free_eq (heap_bottom p) Hbr _ f0 Hf0 Hfr) as (r & E & _ & Hr). exists r. split; [done|]. intros j Hj. rewrite Hr by lia.
  unfold skipped, freed. change (heap_bottom p + PGSIZE * Z.of_nat j) with (heap_block p j). destruct (decide _) as [Hin|Hin].
  { exists 1. by rewrite bool_decide_eq_true_2. }
  rewrite (bool_decide_eq_false_2 (heap_block p j ∈ _)) by done. unfold f0. destruct (decide (j < 8)%nat).
  - exists 0. rewrite bool_decide_eq_false_2 by lia. split; [|done].
    rewrite lookup_app_l by (rewrite length_replicate; lia). apply lookup_replicate_2. lia.
  - destruct (lookup_lt_is_Some_2 uninit j) as [w Hw]; [lia|]. exists w. rewrite bool_decide_eq_true_2 by lia.
    rewrite lookup_app_r, length_replicate, lookup_drop by (rewrite length_replicate; lia).
    replace (8 + (j - 8))%nat with j by lia. split; [done|]. by rewrite nth_lookup, Hw.
Qed.

Lemma heap_region l m6 v : l !! ci = Some c -> l !! i = Some p -> (forall q, is_table C m6 q -> is_table C (Pmm.mem v5) q \/ q ∈ F5) -> grown m6 (fun _ => False) v F5 ->
  (forall x, above (heap_bottom p) n 0 x -> xlate C (Pmm.mem v) x = None) ->
  length uninit = 32%nat -> (3 * n <= length F5)%nat ->
  exists v' G, Trap.fork_region uninit ci i 3 (kst v l) = Ret tt (kst v' (alter copied_heap ci l)) /\
  grown m6 (above (heap_bottom p) n 0) v' G /\ (length F5 <= length G + 3 * n)%nat /\
  (forall j, (j < n)%nat -> block_done p c F (pmm s) (heap_bottom p) (skipped uninit p) child_words G (Pmm.mem v') j) /\
  (forall a, ROUNDDOWN a PGSIZE = trapframe c -> ld64 (Pmm.mem v') a = ld64 (Pmm.mem v) a) /\
  region (Pmm.mem v') (mapped_info c) 3 = ((region (Pmm.mem v) (mapped_info c) 3).1.1, hn, (region (Pmm.mem v) (mapped_info c) 3).2) /\
  (forall j, 0 <= j < 256 -> j <> 3 -> region (Pmm.mem v') (mapped_info c) j = region (Pmm.mem v) (mapped_info c) j).
Proof.
  intros Hlc Hlp Ht6 Hg Hun Hlen Hroom. destruct (freed_filter Hlen) as (filter & Ef & Hfil).
  destruct (fo_heap _ _ _ _ _ _ _ Hp) as (Hb & Htop & Hn32). destruct (fo_freed _ _ _ _ _ _ _ Hp) as (Hfl & Hfc & _).
  destruct child_own as (A1 & A2 & _ & _ & _ & N3 & _ & T2 & T3). destruct (child_pages _ A1) as (B1 & _ & B3 & B4). destruct (child_pages _ A2) as (D1 & _ & D3 & D4).
  pose proof Hg as [Hf Hch].
  assert (forall q, is_table C (Pmm.mem v) q -> is_table C (Pmm.mem v5) q \/ q ∈ F5) as Ht by (intros q Hq; destruct (ev_table _ _ _ _ _ _ _ Hch q Hq); auto).
  pose proof heap_bounds as Hbot.
  destruct (copy_heap_ok p c F (pmm s) (fo_inv _ _ _ _ _ _ _ Hp) (heap_bottom p) n (skipped uninit p) filter child_words Hbot Hend Hfil)
    with (l := l) (s := s) (k := n) (j := O) (v := v) (F := F5) as (v1 & G & E1 & Hf1 & Hc1 & HG & Hd); try done.
  { intros j Hj [Hfr _]%orb_false_iff. destruct (fo_blocks _ _ _ _ _ _ _ Hp j Hj Hfr) as (Hr & e & He & Hrw & Hnz). exists e.
    destruct (fo_pages _ _ _ _ _ _ _ Hp _ e Hr He) as [HeF _]. done. }
  { intros a Ha Hin. destruct (child_words_own a Ha) as [Hq _]. by destruct (child_pages _ Hq) as (_ & _ & _ & ?). }
  assert (region (Pmm.mem v) (mapped_info p) 3 = (heap_bottom p, hn, HEAP_SEGMENT)) as Hr.
  { apply (parent_region p c F (pmm s) (fo_info _ _ _ _ _ _ _ Hp) v F5 3 _ Hf); [lia|]. apply (fo_regions _ _ _ _ _ _ _ Hp 3). done. }
  assert (region (Pmm.mem v1) (mapped_info p) 3 = (heap_bottom p, hn, HEAP_SEGMENT)) as Hr1.
  { apply (parent_region p c F (pmm s) (fo_info _ _ _ _ _ _ _ Hp) v1 G 3 _ Hf1); [lia|]. apply (fo_regions _ _ _ _ _ _ _ Hp 3). done. }
  assert (0 <= hn < 2 ^ 32) as Hhn by (pose proof (region_range (Pmm.mem v) (mapped_info p) 3) as Hrr; by rewrite Hr in Hrr).
  set (m' := st32 (Pmm.mem v1) (mr_npages (mapped_info c) 3) hn).
  assert (forall a, a <> mapped_info c + 16 * 3 + 8 -> ld64 m' a = ld64 (Pmm.mem v1) a) as Hm'.
  { intros a Ha. unfold m', st32, mr_npages. destruct (Z.eqb_spec ((mapped_info c + 16 * 3 + 8) mod 8) 0) as [|Hn]; [by apply ld64_st64_ne; congruence|].
    exfalso. apply Hn. clear -D1. unfold PGSIZE in *. zlia. }
  assert (grown m6 (above (heap_bottom p) n 0) v1 G) as Hg1.
  { apply (grown_mono m6 (fun x => False \/ above (heap_bottom p) n 0 x)); [tauto|]. apply (grown_step m6 (fun _ => False) _ v F5); [done|done|].
    by apply (changes_mono C (fun _ => False) child_words (above (heap_bottom p) n 0)). }
  destruct (region_word_page c 3 D1 ltac:(lia)) as [_ W3].
  destruct (grown_write m6 _ v1 G m' Ht6 Hg1) as [Hg2 Hc2].
  { intros a Ha. apply Hm'. intros ->. apply Ha. by right. }
  assert (forall a, ROUNDDOWN a PGSIZE = trapframe c \/ ROUNDDOWN a PGSIZE = mapped_info c -> ld64 (Pmm.mem v1) a = ld64 (Pmm.mem v) a) as Hown.
  { intros a Ha. apply (ev_frame _ _ _ _ _ _ _ Hc1); [|destruct Ha as [->| ->]; done|tauto].
    intros Hin. destruct Ha as [Ha|Ha]; rewrite Ha in Hin; destruct (Ht _ Hin); done. }
  exists (Pmm.set_mem m' v1), G. split; [|split; [exact Hg2|split; [exact HG|split; [|split; [|split]]]]].
  - injection Hr as _ _ Q3. injection Hr1 as _ Q2 _. destruct (fo_current _ _ _ _ _ _ _ Hp) as (Hcur & _).
    unfold Trap.fork_region. rewrite (get_proc_with ci c), (get_proc_with i p), load32_with, Q3 by done.
    change (HEAP_SEGMENT =? CONTEXT_SEGMENT) with false. change (HEAP_SEGMENT =? STACK_SEGMENT) with false. change (HEAP_SEGMENT =? HEAP_SEGMENT) with true. cbn iota zeta.
    unfold MAX_HEAP_PAGES at 1. destruct (Z.ltb_spec 32 (free_pages_count p)); [lia|]. mstep (Ef (kst v l)).
    assert (the_current (kst v l) = Ret i (kst v l)) as Ecur by (unfold the_current; cbn; by rewrite Hcur).
    mstep Ecur. rewrite (get_proc_with i p) by done.
    replace (Z.to_nat ((heap_top p - heap_bottom p + (PGSIZE - 1)) / PGSIZE)) with n by (rewrite Htop; unfold heap_block, PGSIZE; clear; zlia).
    replace (heap_bottom p) with (heap_va (heap_bottom p) 0) at 2 by (unfold heap_va; lia). rewrite Htop. mstep E1.
    rewrite load32_with. change HEAP_SEGMENT with 3. rewrite Q2. mstep (update_mem_with (fun m => st32 m (mr_npages (mapped_info c) 3) hn) v1 l s).
    rewrite upd_proc_with, <- Htop. reflexivity.
  - intros j Hj. apply (block_done_changes p c F (pmm s) (heap_bottom p) n (skipped uninit p) child_words Hbot (fun _ => False) G (Pmm.mem v1)); try done; [tauto|by apply Hd; lia].
  - intros a Ha. cbn [Pmm.mem Pmm.set_mem]. rewrite Hm'; [by apply Hown; left|]. intros ->. congruence.
  - cbn [Pmm.mem Pmm.set_mem]. unfold m'. assert (mapped_info c mod 8 = 0) as D8 by (clear -D1; unfold PGSIZE in *; zlia).
    rewrite region_npages by done.
    replace (region (Pmm.mem v1) (mapped_info c) 3) with (region (Pmm.mem v) (mapped_info c) 3); [done|]. symmetry. apply region_words; [done|].
    destruct (region_word_page c 3 D1 ltac:(lia)) as [X1 X2]. intros a [->| ->]; apply Hown; by right.
  - intros j Hj Hj3. cbn [Pmm.mem Pmm.set_mem]. assert (mapped_info c mod 8 = 0) as D8 by (clear -D1; unfold PGSIZE in *; zlia).
    apply region_words; [done|]. destruct (region_word_page c j D1 Hj) as [X1 X2]. intros a Ha. rewrite Hm' by (destruct Ha; lia).
    destruct Ha as [->| ->]; apply Hown; by right.
Qed.

(** What the loop over the regions leaves. *)
Definition code_segments : list segment := filter is_code segs.
Definition child_regions : list segment := [(stack_va, 1, STACK_SEGMENT); (trapframe c, 1, CONTEXT_SEGMENT); (trap_sec_start, 1, SYSTEM_SEGMENT);
  (USER_FREE_ADDRESS_START, hn, HEAP_SEGMENT)] ++ code_segments.
Definition in_heap (x : Z) : Prop := above (heap_bottom p) n 0 x.

Record space_copied (m : memory) (G : list Z) : Prop := {
  sc_stack : forall x, same_page stack_va x -> inherits P C (pmm s) child_words stack_perm (.∈ F) G m x;
  sc_heap : forall j, (j < n)%nat -> block_done p c F (pmm s) (heap_bottom p) (skipped uninit p) child_words G m j;
  sc_code : forall g, g ∈ code_segments -> shared p c (pmm s) child_words G m g;
  sc_rest : forall x, 0 <= x < MAXVA -> ~ same_page stack_va x -> ~ in_heap x -> ~ in_code segs x -> xlate C m x = xlate C (Pmm.mem v5) x;
  sc_regions : forall j g, child_regions !! j = Some g -> region m (mapped_info c) (Z.of_nat j) = g;
}.

Lemma created_unmapped_low x : 0 <= x -> x < stack_va -> xlate C (Pmm.mem v5) x = None.
Proof.
  intros. by apply (created_unmapped _ _ _ _ _ _ _ x Hc).
Qed.

Lemma code_shareable g : g ∈ segs -> is_code g /\ shareable p F (pmm s) g \/ g.2 = DATA_SEGMENT.
Proof.
  intros Hg. destruct (fo_segs _ _ _ _ _ _ _ Hp g Hg) as [|(Hcode & Ha & H0 & Hmax & _ & Hr & e & He & Hrw & Hnz)]; [by right|left]. split; [done|].
  destruct (fo_pages _ _ _ _ _ _ _ Hp _ e Hr He) as [HeF He64]. split.
  - split_and!; try done. change stack_va with 0x7fffe000 in Hmax. change MAXVA with (2 ^ 38). lia.
  - apply list_elem_of_lookup in Hg as [j Hj]. destruct (fo_total _ _ _ _ _ _ _ Hp) as [_ Ht].
    rewrite <- (fo_regions _ _ _ _ _ _ _ Hp (4 + j) g); [apply region_range|]. rewrite lookup_app_r by (cbn; lia). etransitivity; [|exact Hj]. f_equal. cbn. lia.
  - exists e. done.
Qed.

Lemma code_low g x : g ∈ code_segments -> same_page (seg_va g) x -> 0 <= x < stack_va /\ ~ in_heap x.
Proof.
  intros Hg Hs. apply list_elem_of_filter in Hg as [Hcode Hg]. destruct (fo_segs _ _ _ _ _ _ _ Hp g Hg) as [Hd|(_ & Ha & H0 & Hmax & Hh & _)].
  { unfold is_code in Hcode. by rewrite Hd in Hcode. }
  assert (seg_va g <= x < seg_va g + PGSIZE) as Hx by (clear -Ha Hs; unfold same_page, PGSIZE in *; zlia).
  destruct (fo_heap _ _ _ _ _ _ _ Hp) as (Hb & _). split; [lia|]. intros [Hh1 Hh2]. unfold heap_va, heap_block in *. destruct Hh; lia.
Qed.

Lemma heap_low x : in_heap x -> 0 <= x < stack_va.
Proof. intros Hx. destruct (heap_range x) as [? ?]; [|lia]. unfold in_heap, above, heap_va in Hx. unfold heap_block. exact Hx. Qed.
Lemma stack_high x : same_page stack_va x -> stack_va <= x.
Proof. change stack_va with 0x7fffe000. unfold same_page, PGSIZE. intros. zlia. Qed.

Lemma block_above j x : (j < n)%nat -> same_page (heap_va (heap_bottom p) j) x -> in_heap x.
Proof.
  intros Hj Hx. destruct (block_range (heap_bottom p) n heap_bounds j x Hj Hx) as [_ [H1 H2]]. split; [|done]. unfold heap_va, PGSIZE in *. lia.
Qed.

(** After the first four regions: stack, trapframe, trap code, and heap. *)
Record fixed_done (m6 : memory) (v8 : Pmm.state) (G8 : list Z) : Prop := {
  xd_written : changes C (fun a => ROUNDDOWN a PGSIZE = st) (fun _ => False) F5 (Pmm.mem v5) F5 m6;
  xd_grown : grown m6 in_heap v8 G8;
  xd_room : (length F5 <= length G8 + 3 * n)%nat;
  xd_stack : forall x, same_page stack_va x -> inherits P C (pmm s) child_words stack_perm (.∈ F) F5 m6 x;
  xd_heap : forall j, (j < n)%nat -> block_done p c F (pmm s) (heap_bottom p) (skipped uninit p) child_words G8 (Pmm.mem v8) j;
  xd_regions : forall j g, child_regions !! j = Some g -> (j < 4)%nat -> region (Pmm.mem v8) (mapped_info c) (Z.of_nat j) = g;
  xd_context : forall k, 0 <= k < 35 -> ld64 (Pmm.mem v8) (trapframe c + 8 * k) = ld64 (mem s) (trapframe p + 8 * k);
}.

Lemma fixed_tables m6 v8 G8 : fixed_done m6 v8 G8 ->
  (forall q, is_table C m6 q -> is_table C (Pmm.mem v5) q \/ q ∈ F5) /\ (forall q, is_table C (Pmm.mem v8) q -> is_table C (Pmm.mem v5) q \/ q ∈ F5).
Proof.
  intros [Hc6 Hg8 _ _ _ _ _]. split; [apply Hc6|]. intros q Hq.
  destruct (ev_table _ _ _ _ _ _ _ (gr_changes _ _ _ _ Hg8) q Hq); [by apply Hc6|by right].
Qed.

Lemma fixed_xlate m6 v8 G8 x : fixed_done m6 v8 G8 -> 0 <= x < MAXVA -> ~ in_heap x -> xlate C (Pmm.mem v8) x = xlate C (Pmm.mem v5) x.
Proof.
  intros [Hc6 Hg8 _ _ _ _ _] Hx Hnh. rewrite (ev_xlate _ _ _ _ _ _ _ (gr_changes _ _ _ _ Hg8)) by done. by rewrite (ev_xlate _ _ _ _ _ _ _ Hc6) by tauto.
Qed.

Lemma fixed_regions : length uninit = 32%nat -> (3 * n <= length F5)%nat ->
  exists m6 v8 G8, (forall k, Trap.fork_regions uninit ci i (4 + k) 0 (kst v5 (<[ci := c]> (procs s))) =
      Trap.fork_regions uninit ci i k 4 (kst v8 (<[ci := copied_heap c]> (procs s)))) /\ fixed_done m6 v8 G8.
Proof.
  intros Hlen Hroom. destruct (fo_current _ _ _ _ _ _ _ Hp) as (_ & Hpi & _).
  set (l := <[ci := c]> (procs s)). assert (l !! ci = Some c) as Hlc by (by apply list_lookup_insert_eq).
  assert (l !! i = Some p) as Hlp by (unfold l; by rewrite list_lookup_insert_ne).
  destruct child_own as (A1 & A2 & A3 & N1 & N2 & N3 & T1 & T2 & T3). destruct (child_pages _ A1) as (B1 & _). destruct (child_pages _ A2) as (D1 & _ & D3 & D4).
  assert (mapped_info c mod 8 = 0) as D8 by (clear -D1; unfold PGSIZE in *; zlia).
  (* the stack *)
  destruct stack_region as (m6 & E0 & Hf6 & Hc6 & Hst6).
  assert (forall q, is_table C m6 q -> is_table C (Pmm.mem v5) q \/ q ∈ F5) as Ht6 by (apply Hc6).
  assert (grown m6 (fun _ => False) (Pmm.set_mem m6 v5) F5) as Hg6 by (split; [done|apply changes_refl]).
  (* the trapframe *)
  destruct (context_region m6 (Pmm.set_mem m6 v5) Ht6 Hg6) as (v7 & E1 & Hg7 & Hctx & Hmi7).
  pose proof (system_region v7 F5 l (gr_family _ _ _ _ Hg7) Hlc Hlp) as E2.
  assert (forall x, 0 <= x < MAXVA -> xlate C (Pmm.mem v7) x = xlate C (Pmm.mem v5) x) as Hx7.
  { intros x Hx. rewrite (ev_xlate _ _ _ _ _ _ _ (gr_changes _ _ _ _ Hg7)) by tauto. by rewrite (ev_xlate _ _ _ _ _ _ _ Hc6) by tauto. }
  (* the heap *)
  destruct (heap_region l m6 v7 Hlc Hlp Ht6 Hg7) as (v8 & G8 & E3 & Hg8 & HG8 & Hd8 & Htf8 & Hr3 & Hro); [|done|lia|].
  { intros x Hx. destruct (heap_low x Hx). rewrite Hx7 by (change MAXVA with (2 ^ 38); change stack_va with 0x7fffe000 in *; lia). by apply created_unmapped_low. }
  exists m6, v8, G8. split; [|split; try done].
  - intros k. cbn [Nat.add Trap.fork_regions]. mstep (E0 l Hlc Hlp). mstep (E1 l Hlc Hlp). mstep E2. mstep E3.
    unfold l. by rewrite alter_insert_list.
  - pose proof (cr_fresh _ _ _ _ _ _ _ Hc) as [_ Hreg _ _ _ _ _]. injection Hreg as R0 R0' R0'' R1 R1' R1'' R2 R2' R2'' R3 R3' R3''.
    assert (forall j, 0 <= j < 256 -> region (Pmm.mem v7) (mapped_info c) j = region (Pmm.mem v5) (mapped_info c) j) as Hr7.
    { intros j Hj. apply region_words; [done|]. destruct (region_word_page c j D1 Hj) as [W1 W2]. intros a Ha.
      assert (ROUNDDOWN a PGSIZE = mapped_info c) as Wa by (destruct Ha as [->| ->]; done). rewrite (Hmi7 a Wa). cbn [Pmm.mem Pmm.set_mem].
      apply (ev_frame _ _ _ _ _ _ _ Hc6); rewrite Wa; [done|done|congruence]. }
    assert (region (Pmm.mem v8) (mapped_info c) 3 = (USER_FREE_ADDRESS_START, hn, HEAP_SEGMENT)) as Hreg3.
    { rewrite Hr3, (Hr7 3) by lia. unfold region. cbn [fst snd]. by rewrite R3, R3''. }
    intros [|[|[|[|j]]]] g Hg Hj; try lia; injection Hg as <-; [| | |exact Hreg3]; rewrite Hro, Hr7 by lia; unfold region;
      [change (Z.of_nat 0) with 0; by rewrite R0, R0', R0''|change (Z.of_nat 1) with 1; by rewrite R1, R1', R1''|change (Z.of_nat 2) with 2; by rewrite R2, R2', R2''].
  - intros k Hk. rewrite <- (Hctx k Hk). apply Htf8. apply page_word; [done|unfold PGSIZE; lia].
Qed.

Lemma fork_loop : length uninit = 32%nat ->
  (3 * n + 2 * length code_segments <= length F5)%nat ->
  exists m6 X v9 G, Trap.fork_regions uninit ci i (Z.to_nat (total_mapped_region p)) 0 (kst v5 (<[ci := c]> (procs s))) =
      Ret tt (kst v9 (<[ci := set_regions (4 + Z.of_nat (length code_segments)) (copied_heap c)]> (procs s))) /\
    (forall q, is_table C m6 q -> is_table C (Pmm.mem v5) q \/ q ∈ F5) /\ grown m6 X v9 G /\ space_copied (Pmm.mem v9) G /\
    (forall k, 0 <= k < 35 -> ld64 (Pmm.mem v9) (trapframe c + 8 * k) = ld64 (mem s) (trapframe p + 8 * k)) /\
    (forall a, ROUNDDOWN a PGSIZE = pfiles c -> ld64 (Pmm.mem v9) a = ld64 (Pmm.mem v5) a).
Proof.
  intros Hlen Hroom. destruct (fo_current _ _ _ _ _ _ _ Hp) as (_ & Hpi & _). destruct (fo_total _ _ _ _ _ _ _ Hp) as [Htot Ht256].
  destruct child_own as (A1 & A2 & A3 & N1 & N2 & N3 & T1 & T2 & T3). destruct (child_pages _ A1) as (B1 & _ & B3 & B4). destruct (child_pages _ A2) as (D1 & _ & D3 & D4).
  destruct fixed_regions as (m6 & v8 & G8 & E & Hx); [done|lia|]. destruct (fixed_tables _ _ _ Hx) as [Ht6 Ht8].
  pose proof (fun x => fixed_xlate _ _ _ x Hx) as Hx8. destruct Hx as [Hc6 Hg8 HG8 Hst6 Hd8 Hreg8 Hctx].
  assert (set_regions 4 (copied_heap c) = copied_heap c) as Ec4 by (rewrite (cr_fields _ _ _ _ _ _ _ Hc); done).
  destruct (code_loop p (copied_heap c) F (pmm s) (fo_inv _ _ _ _ _ _ _ Hp) uninit i ci (procs s) s Hpi Hne Hci (fo_info _ _ _ _ _ _ _ Hp) child_words
    D1 D3) with (segs := segs) (k := 4) (v := v8) (F := G8) (t := 4) as (v9 & G & E4 & [K1 K2 K3 K4 K5 K6]); try done; try lia.
  { intros a Ha. by right. }
  { apply child_words_free. }
  { apply Hg8. }
  { pose proof (length_filter is_code segs). lia. }
  { intros j g Hj. rewrite <- (fo_regions _ _ _ _ _ _ _ Hp (4 + j) g); [f_equal; lia|]. rewrite lookup_app_r by (cbn; lia).
    etransitivity; [|exact Hj]. f_equal. cbn. lia. }
  { apply code_shareable. }
  { apply Hp. }
  { fold code_segments. lia. }
  { intros g Hg. destruct (code_low g (seg_va g) Hg eq_refl) as [Hr Hnh]. rewrite Hx8;
      [apply created_unmapped_low; lia|change MAXVA with (2 ^ 38); change stack_va with 0x7fffe000 in *; lia|done]. }
  { intros Hin. by apply D4, (ev_free _ _ _ _ _ _ _ (gr_changes _ _ _ _ Hg8)). }
  { intros Hin. by destruct (Ht8 _ Hin). }
  fold code_segments in E4, K3, K4, K5.
  assert (changes C child_words (in_code segs) G8 (Pmm.mem v8) G (Pmm.mem v9)) as Hc9.
  { apply (changes_mono C (info_words (copied_heap c)) child_words (in_code segs)); [by right|done|exact K2]. }
  assert (grown m6 (fun x => in_heap x \/ in_code segs x) v9 G) as Hg9 by (by apply (grown_step m6 _ _ v8 G8)).
  assert (forall x, same_page stack_va x -> ~ in_heap x /\ ~ in_code segs x) as Hns.
  { intros x Hx%stack_high. split; [intros Hh%heap_low; lia|intros (g & Hg & Hx'); destruct (code_low g x Hg Hx'); lia]. }
  exists m6, (fun x => in_heap x \/ in_code segs x), v9, G. split; [|split; [exact Ht6|split; [exact Hg9|split; [split|split]]]].
  - rewrite Htot. replace (Z.to_nat (4 + Z.of_nat (length segs))) with (4 + length segs)%nat by lia. rewrite E, <- Ec4. exact E4.
  - intros x Hx. apply (inherits_changes P C (pmm s) child_words stack_perm _ (fun x => in_heap x \/ in_code segs x) F5 m6); [apply Hg9|by apply stack_page_range| |by apply Hst6].
    destruct (Hns x Hx). tauto.
  - intros j Hj. apply (block_done_changes p c F (pmm s) (heap_bottom p) n (skipped uninit p) child_words heap_bounds (in_code segs) G8 (Pmm.mem v8)); try done; [|by apply Hd8].
    intros x Hx (g & Hg & Hx'). destruct (code_low g x Hg Hx') as [_ Hnh]. by apply Hnh, (block_above j).
  - exact K4.
  - intros x Hx H1 H2 H3. rewrite (ev_xlate _ _ _ _ _ _ _ Hc9) by done. by apply Hx8.
  - intros j g Hg. destruct (decide (j < 4)%nat) as [Hj|Hj].
    + etransitivity; [exact (K6 (Z.of_nat j) ltac:(lia))|]. by apply Hreg8.
    + unfold child_regions in Hg. rewrite lookup_app_r in Hg by (cbn; lia). cbn in Hg. etransitivity; [|exact (K5 _ _ Hg)]. cbn. f_equal. lia.
  - intros k Hk. rewrite <- (Hctx k Hk).
    assert (ROUNDDOWN (trapframe c + 8 * k) PGSIZE = trapframe c) as W by (apply page_word; [done|unfold PGSIZE; lia]).
    apply (ev_frame _ _ _ _ _ _ _ K2); rewrite ?W.
    + intros Hin. by destruct (Ht8 _ Hin).
    + intros Hin. by apply B4, (ev_free _ _ _ _ _ _ _ (gr_changes _ _ _ _ Hg8)).
    + unfold info_words. rewrite W. exact N3.
  - intros a Ha. destruct child_files as (N5 & N6 & N7 & T4 & _ & B5). rewrite (ev_frame _ _ _ _ _ _ _ (gr_changes _ _ _ _ Hg9)); rewrite ?Ha; try done.
    + apply (ev_frame _ _ _ _ _ _ _ Hc6); rewrite ?Ha; done.
    + intros Hin. by destruct (Ht6 _ Hin).
    + intros [Hb|Hb]; congruence.
Qed.

(** The child sees 0 as the result of the call. *)
Lemma a0_cleared m6 X v9 G : let m := st64 (Pmm.mem v9) (trapframe c + tf_a0) 0 in
  (forall q, is_table C m6 q -> is_table C (Pmm.mem v5) q \/ q ∈ F5) -> grown m6 X v9 G -> space_copied (Pmm.mem v9) G ->
  (forall k, 0 <= k < 35 -> ld64 (Pmm.mem v9) (trapframe c + 8 * k) = ld64 (mem s) (trapframe p + 8 * k)) ->
  family C F (pmm s) (Pmm.set_mem m v9) G /\ space_copied m G /\
  (forall k, 0 <= k < 35 -> ld64 m (trapframe c + 8 * k) = if k =? 9 then 0 else ld64 (mem s) (trapframe p + 8 * k)) /\
  (forall a, ROUNDDOWN a PGSIZE <> trapframe c -> ld64 m a = ld64 (Pmm.mem v9) a).
Proof.
  intros m Ht6 Hg [S1 S2 S3 S4 S5] Hctx. destruct child_own as (A1 & A2 & _ & _ & _ & N3 & _). destruct (child_pages _ A1) as (B1 & _). destruct (child_pages _ A2) as (D1 & _).
  assert (ROUNDDOWN (trapframe c + tf_a0) PGSIZE = trapframe c) as W by (by apply page_word).
  assert (forall a, ROUNDDOWN a PGSIZE <> trapframe c -> ld64 m a = ld64 (Pmm.mem v9) a) as Hm by (intros a Ha; apply ld64_st64_ne; congruence).
  destruct (grown_write m6 X v9 G m Ht6 Hg) as [[Hf _] Hch].
  { intros a Ha. apply Hm. intros E. apply Ha. by left. }
  split; [done|]. split; [split|split; [|done]].
  - intros x Hx. apply (inherits_changes P C (pmm s) child_words stack_perm _ (fun _ => False) G (Pmm.mem v9)); [done|by apply stack_page_range|tauto|auto].
  - intros j Hj. apply (block_done_changes p c F (pmm s) (heap_bottom p) n (skipped uninit p) child_words heap_bounds (fun _ => False) G (Pmm.mem v9)); auto.
  - intros g Hg' x Hx. destruct (code_low g x Hg' Hx) as [Hr _].
    apply (inherits_changes P C (pmm s) child_words code_perm _ (fun _ => False) G (Pmm.mem v9)); [done| |tauto|by apply S3].
    change MAXVA with (2 ^ 38). change stack_va with 0x7fffe000 in Hr. lia.
  - intros x Hx H1 H2 H3. rewrite (ev_xlate _ _ _ _ _ _ _ Hch) by tauto. auto.
  - intros j g Hj. rewrite <- (S5 j g Hj). assert (0 <= Z.of_nat j < 256) as Hj'.
    { apply lookup_lt_Some in Hj. unfold child_regions, code_segments in Hj. rewrite length_app in Hj.
      change (length _) with 4%nat in Hj at 1. pose proof (length_filter is_code segs). destruct (fo_total _ _ _ _ _ _ _ Hp). lia. }
    apply region_words; [clear -D1; unfold PGSIZE in *; zlia|]. destruct (region_word_page c _ D1 Hj') as [W1 W2].
    intros a [->| ->]; apply Hm; rewrite ?W1, ?W2; congruence.
  - intros k Hk. unfold m. destruct (Z.eqb_spec k 9) as [->|Hk9]; [apply ld64_st64_eq|]. rewrite ld64_st64_ne by (unfold tf_a0; lia). auto.
Qed.
End steps.

(** ** What fork promises *)
Section fork.
Context `{KS : KernelSymbols}.

(** The child has at [x] a byte of the parent, in a page of its own. *)
Definition copied_byte (s : state) (F : list Z) (p : process) (s' : state) (c : process) (x : Z) : Prop :=
  exists b q, vbyte (pagetable p) (mem s) x = Some b /\ vbyte (pagetable c) (mem s') x = Some b /\
    xlate (pagetable c) (mem s') x = Some (entry q stack_perm) /\ q ∈ F.

Record forked (uninit : list Z) (s : state) (F : list Z) (i : nat) (p : process) (n : nat) (hn : Z) (segs : list segment) (ci : nat) (c0 : process) (q : list nat)
    (s' : state) (c : process) : Prop := {
  fd_child : procs s' !! ci = Some c /\ status c = READY /\ parent c = Some i /\ pid c = pid c0 /\
    total_mapped_region c = 4 + Z.of_nat (length (code_segments segs));
  fd_heap_fields : heap_top c = heap_top p /\ heap_bottom c = heap_bottom p /\ free_pages_address c = free_pages_address p /\
    free_pages_count c = free_pages_count p;
  fd_queue : Sched.queue s' (q ++ [ci]);
  fd_others : forall j r, j <> ci -> procs s !! j = Some r ->
    exists r', procs s' !! j = Some r' /\ Sched.same_but_queue r r' /\ status r' = status r;
  fd_kernel : current s' = current s /\ hart s' = hart s /\ g_ticks s' = g_ticks s;
  fd_inv : exists G, vm_inv (pagetable c) (pmm s') G /\ vm_inv (pagetable p) (pmm s') G;
  fd_mem : forall a, ROUNDDOWN a PGSIZE ∉ F -> ld64 (mem s') a = ld64 (mem s) a;
  fd_context : forall k, 0 <= k < 35 ->
    ld64 (mem s') (trapframe c + 8 * k) = if k =? 9 then 0 else ld64 (mem s) (trapframe p + 8 * k);
  fd_files : forall fd, 0 <= fd < MAX_FILES -> ld32 (mem s') (pf_status (pfiles c) fd) = FD_NONE;
  fd_stack : forall x, same_page stack_va x -> copied_byte s F p s' c x;
  fd_heap : forall j x, (j < n)%nat -> same_page (heap_block p j) x ->
    if skipped uninit p j then xlate (pagetable c) (mem s') x = None else copied_byte s F p s' c x;
  fd_code : forall g x, g ∈ code_segments segs -> same_page (seg_va g) x ->
    vbyte (pagetable c) (mem s') x = vbyte (pagetable p) (mem s) x /\
    exists e, xlate (pagetable p) (mem s) (seg_va g) = Some e /\ xlate (pagetable c) (mem s') x = Some (entry (PTE2PA e) code_perm);
  fd_rest : forall x, 0 <= x < MAXVA -> ~ same_page stack_va x -> ~ in_heap p n x -> ~ in_code segs x ->
    xlate (pagetable c) (mem s') x = if decide (same_page (trapframe c) x) then Some (entry (trapframe c) frame_perm)
      else if decide (same_page trap_sec_start x) then Some (entry trap_sec_start trap_perm) else None;
  fd_regions : forall j g, child_regions c hn segs !! j = Some g -> region (mem s') (mapped_info c) (Z.of_nat j) = g;
}.

(** C10: a fork of a running process with [n] pages of heap and the segments
    [segs] returns the new pid, and leaves a child that is ready, last in the
    queue and linked to its parent: its trapframe is the parent's but for a
    zero in a0, it reads the same bytes in its stack and in every heap page that
    is not [skipped], on pages of its own, and the same bytes in the first
    page of every code segment, on the parent's page; nothing else is mapped
    (so neither skipped heap pages nor data segments), no file is open, its
    regions are recorded, and the parent's address space and memory and the
    other processes are as they were.  [skipped] are the freed pages and, because
    [free_block_filter] is cleared only in part, those from the ninth on whose
    word of the uninitialised stack [uninit] is not zero. *)
Theorem fork_copies uninit s F i p n hn segs ci c0 q :
  forkable s F i p n hn segs -> layout (pmm s) -> Pmm.free_mem_end_addr (pmm s) + PGSIZE < 2 ^ 64 ->
  Process.first_free (procs s) = Some ci -> procs s !! ci = Some c0 -> Sched.queue s q -> (ci ∉ q) ->
  length uninit = 32%nat ->
  (12 + 3 * n + 2 * length (code_segments segs) <= length F)%nat ->
  exists s' c, Trap.do_fork uninit i s = Ret (i32 (pid c0)) s' /\ forked uninit s F i p n hn segs ci c0 q s' c.
Proof.
  intros Hp Hly Hend Hff Hci0 Hq Hciq Hlen Hroom.
  destruct (fo_current _ _ _ _ _ _ _ Hp) as (Hcur & Hpi & Hrun). pose proof (fo_inv _ _ _ _ _ _ _ Hp) as Hpinv. pose proof Hpinv as (Hrep & _ & _).
  destruct (alloc_process_ok s F ci c0 Hly Hrep ltac:(lia) Hff Hci0) as (v5 & F5 & c & st & E5 & Hc).
  assert (ci < length (procs s))%nat as Hlt by (by eapply lookup_lt_Some).
  assert (i <> ci) as Hne.
  { intros <-. unfold Process.first_free in Hff. apply fmap_Some in Hff as ([j r] & Hfind & ->). apply list_find_Some in Hfind as (Hj & Hfree & _). simpl in *. congruence. }
  destruct (fork_loop uninit s F i ci p c0 c n hn segs v5 F5 st Hp Hc Hly Hrep Hlt Hne Hend Hlen) as (m6 & X & v9 & G & E9 & Ht6 & Hg9 & Hsc & Hctx & Hpf).
  { destruct (cr_used _ _ _ _ _ _ _ Hc) as (used & HF & Hul & _). apply (f_equal length) in HF. rewrite length_app in HF. lia. }
  set (ch := set_regions (4 + Z.of_nat (length (code_segments segs))) (copied_heap p c)) in *.
  set (m10 := st64 (Pmm.mem v9) (trapframe c + tf_a0) 0).
  set (s10 := with_pmm (Pmm.set_mem m10 v9) (with_procs (<[ci := set_parent (Some i) (set_status READY ch)]> (procs s)) s)).
  destruct (Sched.insert_spec s10 q ci) as ([] & s' & E10 & Hq' & Hfr & Hst).
  { destruct Hq as [Hl Hnd]. split; [|done]. apply (Sched.linked_ext (procs s)); [|done]. intros j Hj. simpl. rewrite list_lookup_insert_ne; [done|congruence]. }
  { simpl. rewrite list_lookup_insert_eq by done. eauto. }
  assert (Trap.do_fork uninit i s = Ret (i32 (pid c0)) s') as E.
  { unfold Trap.do_fork. mstep E5. rewrite (get_proc_with i p) by (by rewrite list_lookup_insert_ne). mstep E9.
    mstep (upd_proc_with ci (set_status READY) v9 (<[ci := ch]> (procs s)) s). rewrite alter_insert_list.
    rewrite (get_proc_with ci (set_status READY ch)) by (by apply list_lookup_insert_eq).
    mstep (update_mem_with (fun m => st64 m (trapframe c + tf_a0) 0) v9 (<[ci := set_status READY ch]> (procs s)) s).
    mstep (upd_proc_with ci (set_parent (Some i)) (Pmm.set_mem m10 v9) (<[ci := set_status READY ch]> (procs s)) s). rewrite alter_insert_list.
    change (with_pmm _ _) with s10 at 1. mstep E10. cbn [pid set_status set_regions copied_heap set_heap ch]. 
    replace (pid c) with (pid c0); [done|]. rewrite (cr_fields _ _ _ _ _ _ _ Hc). done. }
  destruct (a0_cleared uninit s F i ci p c0 c n hn segs v5 F5 st Hp Hc Hrep Hlt Hne Hend m6 X v9 G Ht6 Hg9 Hsc Hctx) as (Hf & [S1 S2 S3 S4 S5] & Hctx' & Hm10).
  fold m10 in Hf, S1, S2, S3, S4, S5, Hctx', Hm10. destruct Hfr as (Fp & Fc & Fh & Ft & _ & Fps).
  assert (mem s' = m10) as Em by (unfold mem; rewrite Fp; done).
  assert (forall j r, procs s10 !! j = Some r -> exists r', procs s' !! j = Some r' /\ Sched.same_but_queue r r' /\ Sched.status_at s' j = Some (status r')) as Hps.
  { intros j r Hj. destruct (Forall2_lookup_l _ _ _ _ _ Fps Hj) as (r' & Hr' & Hs). exists r'. split_and!; try done. unfold Sched.status_at. by rewrite Hr'. }
  destruct (Hps ci (set_parent (Some i) (set_status READY ch))) as (c' & Hc' & Hsame & Hstc); [simpl; by apply list_lookup_insert_eq|].
  assert (status c' = READY) as Hready. { rewrite Hst, decide_True in Hstc by done. congruence. }
  assert (forall x perm Q, inherits (pagetable p) (pagetable c) (pmm s) (child_words c) perm Q G m10 x ->
    exists b q, vbyte (pagetable p) (mem s) x = Some b /\ vbyte (pagetable c) (mem s') x = Some b /\ xlate (pagetable c) (mem s') x = Some (entry q perm) /\ Q q) as Hinh.
  { intros x perm Q (b & r & Hb & [Hse _] & Hx & HQ). rewrite Em. exists b, r. done. }
  exists s', c'. split; [done|]. rewrite Hsame. split; cbn -[child_regions].
  - rewrite <- Hsame, (cr_fields _ _ _ _ _ _ _ Hc). done.
  - done.
  - unfold Sched.enqueue in Hq'. by rewrite bool_decide_eq_false_2 in Hq'.
  - intros j r Hj Hr. destruct (Hps j r) as (r' & Hr' & Hsr & Hstr); [simpl; by rewrite list_lookup_insert_ne|]. exists r'. split_and!; try done.
    rewrite Hst, decide_False in Hstr by tauto. unfold Sched.status_at in Hstr. simpl in Hstr. rewrite list_lookup_insert_ne, Hr in Hstr by done. simpl in Hstr. congruence.
  - done.
  - exists G. rewrite Fp. change (pmm s10) with (Pmm.set_mem m10 v9). split; [apply Hf|].
    by apply (family_parent (pagetable p) (pagetable c) F (pmm s) Hpinv).
  - intros a Ha. rewrite Em. by apply (fa_mem _ _ _ _ _ Hf).
  - intros k Hk. rewrite Em. by apply Hctx'.
  - intros fd Hfd. rewrite Em. etransitivity; [|exact (fp_closed _ _ _ _ (cr_fresh _ _ _ _ _ _ _ Hc) fd Hfd)]. apply ld32_words. intros a Ha.
    destruct (child_files s F i ci c0 c v5 F5 st Hc Hrep Hlt Hne Hend) as (_ & N & _ & _ & W & _). change MAX_FILES with 128 in Hfd.
    assert (ROUNDDOWN a PGSIZE = pfiles c) as Wa by (unfold pf_status in Ha; clear -Ha Hfd W; unfold ROUNDDOWN, PGSIZE in *; zlia).
    rewrite Hm10 by congruence. by apply Hpf.
  - intros x Hx. apply Hinh. by apply S1.
  - intros j x Hj Hx. specialize (S2 j Hj x Hx). cbn in S2. destruct (skipped uninit p j); [by rewrite Em|]. by apply Hinh.
  - intros g x Hg Hx. destruct (Hinh x code_perm _ (S3 g Hg x Hx)) as (b & r & H1 & H2 & H3 & e & He & ->). split; [congruence|]. by exists e.
  - intros x Hx H1 H2 H3. rewrite Em, S4, (fp_xlate _ _ _ _ (cr_fresh _ _ _ _ _ _ _ Hc)), decide_False by done. done.
  - intros j g Hj. rewrite Em. by apply S5.
Qed.
End fork.

(** ** A concrete parent
    A new process with a page of heap and a page of code. *)
#[local] Existing Instance fresh_symbols.
Definition demo_code : Z := 0x10000.
Definition demo_segs : list segment := [(demo_code, 1, CODE_SEGMENT)].
Definition demo_parent (c : process) : process :=
  set_status RUNNING (set_heap (USER_FREE_ADDRESS_START + PGSIZE) USER_FREE_ADDRESS_START (replicate 32 0) 0 (set_regions 5 c)).
Definition demo_regions (mi : Z) (m : memory) : memory :=
  region_mem mi 4 demo_code 1 CODE_SEGMENT (region_mem mi 3 USER_FREE_ADDRESS_START 1 HEAP_SEGMENT m).
Definition parent_kernel (v : Pmm.state) (c : process) : state :=
  mk_state v (<[0%nat := demo_parent c]> empty_pool) (Some 0%nat) None (mk_cpu 0 0 0 0 0 0 0 0 []) 0 0.

(** Its memory: a page more for the heap, one for the code, and the regions. *)
Record parent_memory (v1 : Pmm.state) (F1 : list Z) (c : process) (v : Pmm.state) (F : list Z) (q1 q2 : Z) : Prop := {
  dm_inv : vm_inv (pagetable c) v F;
  dm_changes : changes (pagetable c) (fun a => ROUNDDOWN a PGSIZE = mapped_info c)
    (fun x => same_page USER_FREE_ADDRESS_START x \/ same_page demo_code x) F1 (Pmm.mem v1) F (Pmm.mem v);
  dm_room : (length F1 <= length F + 6)%nat;
  dm_bounds : Pmm.free_mem_start_addr v = Pmm.free_mem_start_addr v1 /\ Pmm.free_mem_end_addr v = Pmm.free_mem_end_addr v1;
  dm_heap : forall x, same_page USER_FREE_ADDRESS_START x -> xlate (pagetable c) (Pmm.mem v) x = Some (entry q1 stack_perm);
  dm_code : forall x, same_page demo_code x -> xlate (pagetable c) (Pmm.mem v) x = Some (entry q2 code_perm);
  dm_pages : forall q, q = q1 \/ q = q2 -> q mod PGSIZE = 0 /\ 0 < q < Pmm.free_mem_end_addr v1 /\ (q ∉ F);
  dm_regions : map (region (Pmm.mem v) (mapped_info c)) [3; 4] = [(USER_FREE_ADDRESS_START, 1, HEAP_SEGMENT); (demo_code, 1, CODE_SEGMENT)];
  dm_low : forall j, 0 <= j < 3 -> region (Pmm.mem v) (mapped_info c) j = region (Pmm.mem v1) (mapped_info c) j;
}.

Lemma free_page_range x : same_page USER_FREE_ADDRESS_START x \/ same_page demo_code x -> 0 <= x < MAXVA /\ x < stack_va.
Proof. change USER_FREE_ADDRESS_START with 0x400000. change MAXVA with (2 ^ 38). change stack_va with 0x7fffe000. unfold same_page, demo_code, PGSIZE. intros. zlia. Qed.

Lemma build_parent v1 q1 F1 c :
  vm_inv (pagetable c) v1 (q1 :: F1) -> (6 <= length F1)%nat -> Pmm.free_mem_end_addr v1 + PGSIZE < 2 ^ 64 ->
  mapped_info c mod PGSIZE = 0 -> (mapped_info c ∉ q1 :: F1) -> ~ is_table (pagetable c) (Pmm.mem v1) (mapped_info c) ->
  (forall x, 0 <= x < stack_va -> xlate (pagetable c) (Pmm.mem v1) x = None) ->
  exists v F q2, parent_memory v1 (q1 :: F1) c v F q1 q2.
Proof.
  intros Hinv HF Hend Hmi HmF Hmt Hun. assert (mapped_info c mod 8 = 0) as Hmi8 by (clear -Hmi; unfold PGSIZE in *; zlia).
  destruct (map_own_page (pagetable c) v1 q1 F1 USER_FREE_ADDRESS_START stack_perm id) as (w1 & v2 & F2 & [A1 A2 A3 A4 A5 [A6 A6'] A7 A8 A9]); try done; [lia|by apply Hun|].
  destruct F2 as [|q2 F2]; [cbn in A5; lia|].
  assert (forall x, same_page USER_FREE_ADDRESS_START x -> ~ same_page demo_code x) as Hap.
  { change USER_FREE_ADDRESS_START with 0x400000. unfold same_page, demo_code, PGSIZE. intros. zlia. }
  destruct (map_own_page (pagetable c) v2 q2 F2 demo_code code_perm id) as (w2 & v3 & F3 & [B1 B2 B3 B4 B5 [B6 B6'] B7 B8 B9]); try done; [cbn in A5; lia|by rewrite A6'| |].
  { rewrite (ev_xlate _ _ _ _ _ _ _ A4); [by apply Hun|done|]. intros Hs. by apply (Hap demo_code Hs). }
  set (m := demo_regions (mapped_info c) (Pmm.mem v3)).
  assert (forall a, (forall j, j = 3 \/ j = 4 -> a <> mapped_info c + 16 * j /\ a <> mapped_info c + 16 * j + 8) -> ld64 m a = ld64 (Pmm.mem v3) a) as Hm.
  { intros a Ha. unfold m, demo_regions, ld64. destruct (Ha 3), (Ha 4); [tauto..|]. by rewrite !region_mem_words. }
  assert (forall q, is_table (pagetable c) (Pmm.mem v3) q -> is_table (pagetable c) (Pmm.mem v1) q \/ q ∈ q1 :: F1) as Ht3.
  { intros q Hq. destruct (ev_table _ _ _ _ _ _ _ B4 q Hq) as [Hq'|Hq']; [by apply (ev_table _ _ _ _ _ _ _ A4)|right; by apply (ev_free _ _ _ _ _ _ _ A4)]. }
  destruct (vm_inv_changes (pagetable c) (fun a => ROUNDDOWN a PGSIZE = mapped_info c) F3 v3 m B3) as [Hinv4 Hch].
  { intros a ->. split; [intros Hin; by destruct (Ht3 _ Hin)|]. intros Hin. by apply HmF, (ev_free _ _ _ _ _ _ _ A4), (ev_free _ _ _ _ _ _ _ B4). }
  { intros a Ha. apply Hm. intros j Hj. destruct (region_word_page c j Hmi ltac:(lia)) as [E1 E2]. split; intros ->; by apply Ha. }
  assert (changes (pagetable c) (fun _ => False) (fun x => same_page USER_FREE_ADDRESS_START x \/ same_page demo_code x) (q1 :: F1) (Pmm.mem v1) F3 (Pmm.mem v3)) as Hch3
    by (by eapply changes_trans).
  exists (Pmm.set_mem m v3), F3, q2. destruct A7 as (P1 & P2 & P3 & P4 & P5). destruct B7 as (Q1 & Q2 & Q3 & Q4 & Q5). split.
  - exact Hinv4.
  - apply (changes_mono (pagetable c) (fun a => ROUNDDOWN a PGSIZE = mapped_info c) _ (fun x => (same_page USER_FREE_ADDRESS_START x \/ same_page demo_code x) \/ False)); [done|tauto|].
    eapply changes_trans; [|exact Hch]. apply (changes_mono (pagetable c) (fun _ => False) _ (fun x => same_page USER_FREE_ADDRESS_START x \/ same_page demo_code x)); [tauto|done|exact Hch3].
  - cbn [length] in *. lia.
  - cbn [Pmm.free_mem_start_addr Pmm.free_mem_end_addr Pmm.set_mem]. split; congruence.
  - intros x Hx. destruct (free_page_range x (or_introl Hx)) as [Hr _]. rewrite (ev_xlate _ _ _ _ _ _ _ Hch), (ev_xlate _ _ _ _ _ _ _ B4) by (done || tauto || by apply Hap). by apply A9.
  - intros x Hx. destruct (free_page_range x (or_intror Hx)) as [Hr _]. rewrite (ev_xlate _ _ _ _ _ _ _ Hch) by (done || tauto). by apply B9.
  - intros q [->| ->]; split_and!; try done; try lia.
    intros Hin. apply P4. by apply (ev_free _ _ _ _ _ _ _ B4).
  - cbn [map Pmm.mem Pmm.set_mem]. f_equal; [|f_equal].
    + transitivity (region (region_mem (mapped_info c) 3 USER_FREE_ADDRESS_START 1 HEAP_SEGMENT (Pmm.mem v3)) (mapped_info c) 3).
      * apply region_words; [done|]. intros a Ha. unfold m, demo_regions, ld64. rewrite region_mem_words; [done|done|destruct Ha; lia..].
      * destruct (region_mem_read (mapped_info c) 3 USER_FREE_ADDRESS_START 1 HEAP_SEGMENT (Pmm.mem v3)) as (R1 & R2 & R3); try done. unfold region. by rewrite R1, R2, R3.
    + destruct (region_mem_read (mapped_info c) 4 demo_code 1 CODE_SEGMENT (region_mem (mapped_info c) 3 USER_FREE_ADDRESS_START 1 HEAP_SEGMENT (Pmm.mem v3))) as (R1 & R2 & R3); try done.
      unfold region, m, demo_regions. by rewrite R1, R2, R3.
  - intros j Hj. apply region_words; [done|]. destruct (region_word_page c j Hmi ltac:(lia)) as [E1 E2]. intros a Ha. cbn [Pmm.mem Pmm.set_mem].
    rewrite Hm by (intros j' Hj'; destruct Ha; lia). apply (ev_frame _ _ _ _ _ _ _ Hch3); [| |tauto]; destruct Ha as [->| ->]; by rewrite ?E1, ?E2.
Qed.

Lemma demo_forkable : exists s F p,
  forkable s F 0 p 1 1 demo_segs /\ layout (pmm s) /\ Pmm.free_mem_end_addr (pmm s) + PGSIZE < 2 ^ 64 /\ (30 <= length F)%nat /\
  (exists q, procs s = <[0%nat := q]> empty_pool /\ status q = RUNNING) /\ Sched.queue s [].
Proof.
  destruct fresh_memory as (v0 & F0 & Hrep & Hly & HF & Hs & He).
  destruct (alloc_process_ok (fresh_kernel v0) F0 0 (set_status FREE zero_process)) as (v1 & F1 & c & st & _ & Hc); [done|done|rewrite HF; lia|done|done|].
  pose proof (created_pages _ _ _ _ _ _ _ Hc Hrep) as Hown. change (pmm (fresh_kernel v0)) with v0 in Hown. rewrite Hs, He in Hown.
  destruct (child_own (fresh_kernel v0) F0 (set_status FREE zero_process) c v1 F1 st Hc) as (A1 & A2 & A3 & N1 & N2 & N3 & T1 & T2 & T3).
  pose proof Hc as [C1 [C2 C3] (used & HFu & Hul & _) _ _ [_ R _ _ _ _ Hx] Hfld]. change (pmm (fresh_kernel v0)) with v0 in C2, C3. rewrite Hs in C2. rewrite He in C3.
  apply (f_equal length) in HFu as HFl. rewrite length_app, HF in HFl. destruct F1 as [|q1 F1]; [cbn in HFl; lia|].
  destruct (Hown _ A1) as (B1 & B2 & B3 & _ & B5). destruct (Hown _ A2) as (D1 & D2 & D3 & _ & D5). destruct (Hown _ A3) as (S1 & S2 & S3 & _ & S5).
  destruct (build_parent v1 q1 F1 c) as (v & F & q2 & [P1 P2 P3 [P4 P4'] P5 P6 P7 P8 P9]); try done; [cbn in HFl; lia|by rewrite C3| |].
  { intros x Hxr. by apply (created_unmapped _ _ _ _ _ _ _ x Hc). }
  exists (parent_kernel v c), F, (demo_parent c).
  assert (forall q, q ∈ F -> 0x80010000 <= q < 0x80080000 /\ (q ∈ q1 :: F1)) as HFr.
  { intros q Hq. destruct P1 as (Hr & _). destruct (rep_pages_in _ _ _ Hr Hq) as (_ & _ & ?). rewrite P4, P4', C2, C3 in *. split; [done|]. by apply (ev_free _ _ _ _ _ _ _ P2). }
  assert (heap_block (demo_parent c) 0 = USER_FREE_ADDRESS_START) as Hb0 by done.
  assert (forall q perm, (q = q1 \/ q = q2) -> 0 <= perm < 2 ^ 10 -> PTE2PA (entry q perm) = q /\ (q ∉ F) /\ q + PGSIZE < 2 ^ 64 /\ q <> 0) as Hq12.
  { intros q perm Hq Hperm. destruct (P7 q Hq) as (? & ? & ?). unfold PGSIZE in *. split_and!; [apply entry_page; [done|lia|done]|done|lia|lia]. }
  split.
  - split; cbn -[demo_parent heap_block freed_list freed code_segments].
    + split_and!; done.
    + exact P1.
    + intros x e Hxr Hxe. change (pagetable (demo_parent c)) with (pagetable c) in Hxe. change (mem (parent_kernel v c)) with (Pmm.mem v) in Hxe.
      destruct (decide (same_page USER_FREE_ADDRESS_START x)) as [Hs1|Hs1].
      { rewrite P5 in Hxe by done. injection Hxe as <-. destruct (Hq12 q1 stack_perm) as (-> & ? & ? & _); [by left|done|done]. }
      destruct (decide (same_page demo_code x)) as [Hs2|Hs2].
      { rewrite P6 in Hxe by done. injection Hxe as <-. destruct (Hq12 q2 code_perm) as (-> & ? & ? & _); [by right|done|done]. }
      rewrite (ev_xlate _ _ _ _ _ _ _ P2), Hx in Hxe by (done || tauto).
      assert (forall q perm, q mod PGSIZE = 0 -> 0 <= q < 0x80080000 -> 0 <= perm < 2 ^ 10 -> (q ∉ F) -> (PTE2PA (entry q perm) ∉ F) /\ PTE2PA (entry q perm) + PGSIZE < 2 ^ 64) as Hg.
      { intros q perm Hq Hqr Hperm Hqf. rewrite entry_page by (done || lia). split; [done|]. unfold PGSIZE. lia. }
      repeat case_decide; try done; injection Hxe as <-; apply Hg; try done; try lia; try (cbn; lia).
      * intros Hin. by destruct (HFr _ Hin).
      * intros Hin. by destruct (HFr _ Hin).
      * intros Hin. destruct (HFr _ Hin) as [Hlo _]. cbn in Hlo. lia.
    + split; [done|]. intros Hin. by destruct (HFr _ Hin).
    + split; [done|]. intros Hin. by destruct (HFr _ Hin).
    + split; [done|lia].
    + injection R as R0 R0' R0'' R1 R1' R1'' R2 R2' R2'' _ _ _. injection P8 as E3 E3' E3'' E4 E4' E4''. change (mem (parent_kernel v c)) with (Pmm.mem v).
      change (mapped_info (demo_parent c)) with (mapped_info c).
      intros [|[|[|[|[|j]]]]] g Hg; try discriminate Hg; injection Hg as <-; [rewrite P9 by lia..| |]; unfold region.
      * change (Z.of_nat 0) with 0. by rewrite R0, R0', R0''.
      * change (Z.of_nat 1) with 1. by rewrite R1, R1', R1''.
      * change (Z.of_nat 2) with 2. by rewrite R2, R2', R2''.
      * change (Z.of_nat 3) with 3. by rewrite E3, E3', E3''.
      * change (Z.of_nat 4) with 4. by rewrite E4, E4', E4''.
    + split; [by change MAXVA with (2 ^ 38)|]. exists (entry st stack_perm). change (mem (parent_kernel v c)) with (Pmm.mem v).
      rewrite (ev_xlate _ _ _ _ _ _ _ P2); [|done|intros Hs'; destruct (free_page_range _ Hs'); lia].
      rewrite Hx, decide_True by done. rewrite entry_readable, entry_page by (done || lia). split_and!; [done|done|lia].
    + split_and!; [reflexivity|reflexivity|lia].
    + split_and!; [reflexivity|by apply Z.leb_le|by apply Z.leb_le|]. unfold freed_list. cbn. constructor.
    + intros [|j] Hj _; [|lia]. rewrite Hb0. split; [done|]. exists (entry q1 stack_perm). change (mem (parent_kernel v c)) with (Pmm.mem v). rewrite P5 by done.
      destruct (Hq12 q1 stack_perm) as (-> & _ & _ & ?); [by left|done|]. rewrite entry_readable by done. done.
    + intros g Hg. apply list_elem_of_singleton in Hg as ->. right. split_and!; try done; [left; by apply Z.leb_le|].
      split; [done|]. exists (entry q2 code_perm). change (mem (parent_kernel v c)) with (Pmm.mem v). rewrite P6 by done.
      destruct (Hq12 q2 code_perm) as (-> & _ & _ & ?); [by right|done|]. rewrite entry_readable by done. done.
    + apply NoDup_singleton.
  - destruct Hly as [L1 L2 L3 L4]. split_and!.
    + split; try done; cbn; rewrite ?P4, ?P4', ?C2, ?C3; try done.
    + cbn. by rewrite P4', C3.
    + cbn [length] in *. lia.
    + by exists (demo_parent c).
    + split; [done|constructor].
Qed.

Lemma fork_copies_witness : exists s s' F p q c,
  Trap.do_fork (replicate 32 0) 0 s = Ret 1 s' /\ forked (replicate 32 0) s F 0 p 1 1 demo_segs 1 q [] s' c.
Proof.
  destruct demo_forkable as (s & F & p & Hf & Hly & Hend & HF & (r & Hr & Hrun) & Hq).
  destruct (fork_copies (replicate 32 0) s F 0 p 1 1 demo_segs 1 (Process.set_pid 1 (set_status FREE zero_process)) []) as (s' & c & E & Hd).
  - exact Hf.
  - exact Hly.
  - exact Hend.
  - rewrite Hr. unfold Process.first_free, empty_pool. simpl. rewrite decide_False by (rewrite Hrun; discriminate). reflexivity.
  - rewrite Hr. reflexivity.
  - exact Hq.
  - apply not_elem_of_nil.
  - reflexivity.
  - change (length (code_segments demo_segs)) with 1%nat. lia.
  - exists s, s', F, p, (Process.set_pid 1 (set_status FREE zero_process)), c. split; [exact E|exact Hd].
Defined.

