(* ===== verification/Machine.v ===== *)
(** * [kernel/machine/minit.c], [kernel/machine/mtrap.c],
    [kernel/machine/mtrap_vector.S]: machine mode

    The start of the machine up to the jump into the supervisor kernel, and
    machine-mode traps with the timer.  The control and status registers follow
    the RISC-V privileged architecture: [sie] and [sip] are views of [mie] and
    [mip] through [mideleg], the delegation registers keep the bits the hart
    implements (parameters), a trap saves the interrupted mode in [mstatus] and
    [mret] returns to it.  The timer's registers are words of memory. *)

From stdpp Require Import base gmap list numbers strings.
From Stdlib Require Import ZArith Lia.
From S2P Require Import Prelude Pmm Vmm Bytes ByteMem Fdt Process SpikeFile Sched Trap TrapSpec.
Local Open Scope Z_scope.

(** ** Constants of [kernel/riscv.h] and [kernel/config.h] *)
Definition MSTATUS_MPP_MASK : Z := Z.shiftl 3 11.
Definition MSTATUS_MPP_S : Z := Z.shiftl 1 11.
Definition MSTATUS_MIE : Z := Z.shiftl 1 3.
Definition MSTATUS_MPIE : Z := Z.shiftl 1 7.
Definition IRQ_S_EXT : Z := 9.
Definition IRQ_S_TIMER : Z := 5.
Definition IRQ_S_SOFT : Z := 1.
Definition MIP_SEIP : Z := Z.shiftl 1 IRQ_S_EXT.
Definition MIP_SSIP : Z := Z.shiftl 1 IRQ_S_SOFT.
Definition MIP_STIP : Z := Z.shiftl 1 IRQ_S_TIMER.
Definition CAUSE_MISALIGNED_FETCH : Z := 0x0.
Definition CAUSE_FETCH_ACCESS : Z := 0x1.
Definition CAUSE_ILLEGAL_INSTRUCTION : Z := 0x2.
Definition CAUSE_BREAKPOINT : Z := 0x3.
Definition CAUSE_MISALIGNED_LOAD : Z := 0x4.
Definition CAUSE_LOAD_ACCESS : Z := 0x5.
Definition CAUSE_MISALIGNED_STORE : Z := 0x6.
Definition CAUSE_STORE_ACCESS : Z := 0x7.
Definition CAUSE_FETCH_PAGE_FAULT : Z := 0xc.
Definition CAUSE_MTIMER : Z := 0x8000000000000007.
Definition CLINT : Z := 0x2000000.
Definition CLINT_MTIMECMP (hartid : Z) : Z := CLINT + 0x4000 + 8 * hartid.
Definition CLINT_MTIME : Z := CLINT + 0xBFF8.
Definition SIE_SEIE : Z := Z.shiftl 1 9.
Definition SIE_STIE : Z := Z.shiftl 1 5.
Definition SIE_SSIE : Z := Z.shiftl 1 1.
Definition MIE_MTIE : Z := Z.shiftl 1 7.
Definition TIMER_INTERVAL : Z := 1000000.

Record csrs := mk_csrs {
  mstatus : Z; mepc : Z; mtvec : Z; mscratch : Z; mideleg : Z; medeleg : Z; mie : Z; mip : Z; mcause : Z; misa : Z;
  priv : Z;                    (** the current mode: 0 user, 1 supervisor, 3 machine *)
  pc : Z }.

(** The fields of [mstatus] a trap and [mret] use. *)
Definition get_mpp (x : Z) : Z := Z.land (Z.shiftr x 11) 3.
Definition set_mpp (p x : Z) : Z := Z.lor (Z.ldiff x MSTATUS_MPP_MASK) (Z.shiftl p 11).
Definition set_bit (b : Z) (v : bool) (x : Z) : Z := if v then Z.lor x b else Z.ldiff x b.

Module Machine.
Section ops.
Context {H : Type} `{FE : Frontend H}.
(** The implemented bits of the delegation registers; the addresses of
    [s_start], [mtrapvec] and [g_itrframe]; of the scan structure of
    [query_mem]. *)
Context (ideleg_mask edeleg_mask : Z) (s_start mtrapvec_addr g_itrframe : Z) (mem_self : Z).

Record state := mk {
  hw : csrs; regs : list Z; spike : Spike.state H; htif_ext : Fdt.htif_scan; mem_ext : Fdt.mem_scan }.

Definition memory_of (s : state) : memory := Spike.mem (spike s).
Definition upd_hw (f : csrs -> csrs) : M state unit := modify (fun s => mk (f (hw s)) (regs s) (spike s) (htif_ext s) (mem_ext s)).
Definition set_regs (l : list Z) : M state unit := modify (fun s => mk (hw s) l (spike s) (htif_ext s) (mem_ext s)).
Definition on_spike {A} (m : M (Spike.state H) A) : M state A :=
  zoom spike (fun t s => mk (hw s) (regs s) t (htif_ext s) (mem_ext s)) m.
Definition upd_mem (f : memory -> memory) : M state unit := on_spike (modify (fun t => Spike.set_mem (f (Spike.mem t)) t)).
Definition on_htif {A} (m : M (Fdt.state Fdt.htif_scan) A) : M state A :=
  zoom (fun s => Fdt.mk (memory_of s) (htif_ext s))
       (fun t s => mk (hw s) (regs s) (Spike.set_mem (Fdt.mem t) (spike s)) (Fdt.ext t) (mem_ext s)) m.
Definition on_memscan {A} (m : M (Fdt.state Fdt.mem_scan) A) : M state A :=
  zoom (fun s => Fdt.mk (memory_of s) (mem_ext s))
       (fun t s => mk (hw s) (regs s) (Spike.set_mem (Fdt.mem t) (spike s)) (htif_ext s) (Fdt.ext t)) m.

(** ** [write_csr] *)
Definition write_mstatus (v : Z) : M state unit := upd_hw (fun c =>
  mk_csrs v (mepc c) (mtvec c) (mscratch c) (mideleg c) (medeleg c) (mie c) (mip c) (mcause c) (misa c) (priv c) (pc c)).
Definition write_mepc (v : Z) : M state unit := upd_hw (fun c =>
  mk_csrs (mstatus c) v (mtvec c) (mscratch c) (mideleg c) (medeleg c) (mie c) (mip c) (mcause c) (misa c) (priv c) (pc c)).
Definition write_mtvec (v : Z) : M state unit := upd_hw (fun c =>
  mk_csrs (mstatus c) (mepc c) v (mscratch c) (mideleg c) (medeleg c) (mie c) (mip c) (mcause c) (misa c) (priv c) (pc c)).
Definition write_mscratch (v : Z) : M state unit := upd_hw (fun c =>
  mk_csrs (mstatus c) (mepc c) (mtvec c) v (mideleg c) (medeleg c) (mie c) (mip c) (mcause c) (misa c) (priv c) (pc c)).
Definition write_mideleg (v : Z) : M state unit := upd_hw (fun c =>
  mk_csrs (mstatus c) (mepc c) (mtvec c) (mscratch c) (Z.land v ideleg_mask) (medeleg c) (mie c) (mip c) (mcause c) (misa c) (priv c) (pc c)).
Definition write_medeleg (v : Z) : M state unit := upd_hw (fun c =>
  mk_csrs (mstatus c) (mepc c) (mtvec c) (mscratch c) (mideleg c) (Z.land v edeleg_mask) (mie c) (mip c) (mcause c) (misa c) (priv c) (pc c)).
Definition write_mie (v : Z) : M state unit := upd_hw (fun c =>
  mk_csrs (mstatus c) (mepc c) (mtvec c) (mscratch c) (mideleg c) (medeleg c) v (mip c) (mcause c) (misa c) (priv c) (pc c)).
Definition write_mip (v : Z) : M state unit := upd_hw (fun c =>
  mk_csrs (mstatus c) (mepc c) (mtvec c) (mscratch c) (mideleg c) (medeleg c) (mie c) v (mcause c) (misa c) (priv c) (pc c)).
Definition read_csr (f : csrs -> Z) : M state Z := gets (fun s => f (hw s)).

(** [sie] and [sip]: through [sip] only the software interrupt can be written. *)
Definition read_sie : M state Z := gets (fun s => Z.land (mie (hw s)) (mideleg (hw s))).
Definition write_sie (v : Z) : M state unit :=
  x <- read_csr mie ;; d <- read_csr mideleg ;; write_mie (Z.lor (Z.ldiff x d) (Z.land v d)).
Definition write_sip (v : Z) : M state unit :=
  x <- read_csr mip ;; d <- gets (fun s => Z.land (mideleg (hw s)) SIP_SSIP) ;; write_mip (Z.lor (Z.ldiff x d) (Z.land v d)).

(** [mret], and a trap into machine mode. *)
Definition mret : M state unit := upd_hw (fun c =>
  let x := mstatus c in
  let x' := set_mpp 0 (set_bit MSTATUS_MPIE true (set_bit MSTATUS_MIE (has x MSTATUS_MPIE) x)) in
  mk_csrs x' (mepc c) (mtvec c) (mscratch c) (mideleg c) (medeleg c) (mie c) (mip c) (mcause c) (misa c) (get_mpp x) (mepc c)).
Definition enter_machine (cause : Z) : M state unit := upd_hw (fun c =>
  let x := mstatus c in
  let x' := set_mpp (priv c) (set_bit MSTATUS_MIE false (set_bit MSTATUS_MPIE (has x MSTATUS_MIE) x)) in
  mk_csrs x' (pc c) (mtvec c) (mscratch c) (mideleg c) (medeleg c) (mie c) (mip c) cause (misa c) 3 (mtvec c)).

(** ** [kernel/machine/minit.c] *)
Definition supports_extension (ext : Z) : M state bool :=
  x <- read_csr misa ;; ret (negb (Z.land x (Z.shiftl 1 (ext - 65)) =? 0)).

Definition init_dtb (fuel : nat) (dtb : Z) : M state unit :=
  on_htif (Fdt.query_htif fuel dtb) ;;
  on_memscan (Fdt.query_mem mem_self fuel dtb) ;;
  ret tt.

Definition interrupts : Z := Z.lor (Z.lor MIP_SSIP MIP_STIP) MIP_SEIP.
Definition exceptions : Z :=
  Z.lor (Z.lor (Z.lor (Z.lor (Z.lor (Z.shiftl 1 CAUSE_MISALIGNED_FETCH) (Z.shiftl 1 CAUSE_FETCH_PAGE_FAULT))
    (Z.shiftl 1 CAUSE_BREAKPOINT)) (Z.shiftl 1 CAUSE_LOAD_PAGE_FAULT)) (Z.shiftl 1 CAUSE_STORE_PAGE_FAULT)) (Z.shiftl 1 CAUSE_USER_ECALL).

Definition delegate_traps : M state unit :=
  ok <- supports_extension 83 ;;
  if negb ok then ret tt
  else
    write_mideleg interrupts ;;
    write_medeleg exceptions ;;
    x <- read_csr mideleg ;;
    if negb (x =? interrupts) then panic "assertion failed: read_csr(mideleg) == interrupts"
    else
      x <- read_csr medeleg ;;
      if negb (x =? exceptions) then panic "assertion failed: read_csr(medeleg) == exceptions" else ret tt.

Definition timerinit (hartid : Z) : M state unit :=
  upd_mem (fun m => st64 m (CLINT_MTIMECMP hartid) (u64 (ld64 m CLINT_MTIME + TIMER_INTERVAL))) ;;
  x <- read_csr mie ;;
  write_mie (Z.lor x MIE_MTIE).

(** The part of [m_start] after the device tree has been read. *)
Definition m_setup (hartid : Z) : M state unit :=
  write_mscratch g_itrframe ;;
  x <- read_csr mstatus ;;
  write_mstatus (Z.lor (Z.ldiff x MSTATUS_MPP_MASK) MSTATUS_MPP_S) ;;
  write_mepc s_start ;;
  write_mtvec mtrapvec_addr ;;
  x <- read_csr mstatus ;;
  write_mstatus (Z.lor x MSTATUS_MIE) ;;
  delegate_traps ;;
  x <- read_sie ;;
  write_sie (Z.lor (Z.lor (Z.lor x SIE_SEIE) SIE_STIE) SIE_SSIE) ;;
  timerinit hartid ;;
  mret.

Definition m_start (fuel : nat) (hartid dtb : Z) : M state unit :=
  on_spike Spike.spike_file_init ;;
  init_dtb fuel dtb ;;
  m_setup hartid.

(** ** [kernel/machine/mtrap.c] *)
Definition handle_timer : M state unit :=
  upd_mem (fun m => st64 m (CLINT_MTIMECMP 0) (u64 (ld64 m (CLINT_MTIMECMP 0) + TIMER_INTERVAL))) ;;
  write_sip SIP_SSIP.

Definition handle_instruction_access_fault : M state unit := panic "Instruction access fault!".
Definition handle_load_access_fault : M state unit := panic "Load access fault!".
Definition handle_store_access_fault : M state unit := panic "Store/AMO access fault!".
Definition handle_illegal_instruction : M state unit := panic "Illegal instruction!".
Definition handle_misaligned_load : M state unit := panic "Misaligned Load!".
Definition handle_misaligned_store : M state unit := panic "Misaligned AMO!".

(** The case of [CAUSE_LOAD_ACCESS] falls through, after a panic. *)
Definition handle_mtrap : M state unit :=
  cause <- read_csr mcause ;;
  if cause =? CAUSE_MTIMER then handle_timer
  else if cause =? CAUSE_FETCH_ACCESS then handle_instruction_access_fault
  else if cause =? CAUSE_LOAD_ACCESS then handle_load_access_fault
  else if cause =? CAUSE_STORE_ACCESS then handle_store_access_fault
  else if cause =? CAUSE_ILLEGAL_INSTRUCTION then handle_illegal_instruction
  else if cause =? CAUSE_MISALIGNED_LOAD then handle_misaligned_load
  else if cause =? CAUSE_MISALIGNED_STORE then handle_misaligned_store
  else panic "unexpected exception happened in M-mode.".

(** [restore_all_registers] from the frame in [mscratch]. *)
Definition restore : M state unit :=
  frame <- read_csr mscratch ;;
  l <- gets (fun s => Process.saved_regs (memory_of s) frame) ;;
  set_regs l.

(** [mtrapvec]: [a0] is exchanged with [mscratch]; [t6] is overwritten with the
    frame's address before the registers are stored; the user's [a0] is stored
    from [mscratch], which gets the frame's address back; after the handler the
    registers are loaded from the frame. *)
Definition mtrapvec : M state unit :=
  frame <- read_csr mscratch ;;
  r <- gets regs ;;
  upd_mem (fun m => st64 (Trap.store_regs frame 0 (<[Trap.T6 := frame]> (<[Trap.A0 := frame]> r)) m) (frame + tf_a0) (nth Trap.A0 r 0)) ;;
  write_mscratch frame ;;
  handle_mtrap ;;
  restore ;;
  mret.

(** A trap that is taken in machine mode. *)
Definition machine_trap (cause : Z) : M state unit := enter_machine cause ;; mtrapvec.
End ops.
Arguments state H : clear implicits.
End Machine.

(** ** The fields of [mstatus] *)
Lemma get_set_mpp p x : 0 <= p < 4 -> get_mpp (set_mpp p x) = p.
Proof.
  intros Hp. unfold get_mpp, set_mpp, MSTATUS_MPP_MASK. apply Z.bits_inj'. intros n Hn.
  rewrite Z.land_spec, Z.shiftr_spec, Z.lor_spec, Z.ldiff_spec, !Z.shiftl_spec by lia.
  replace (n + 11 - 11) with n by lia. change 3 with (Z.ones 2).
  destruct (Z.lt_ge_cases n 2) as [Hl|Hl].
  - rewrite !Z.ones_spec_low by lia. cbn [negb]. by rewrite andb_false_r, andb_true_r.
  - rewrite !Z.ones_spec_high by lia. rewrite andb_false_r. symmetry.
    destruct (Z.eq_dec p 0) as [->|]; [apply Z.testbit_0_l|]. apply Z.bits_above_log2; [lia|].
    apply Z.log2_lt_pow2; [lia|]. apply Z.lt_le_trans with (2 ^ 2); [lia|]. apply Z.pow_le_mono_r; lia.
Qed.

Section machine.
Context {H : Type} `{FE : Frontend H}.
Context (ideleg_mask edeleg_mask : Z) (s_start mtrapvec_addr g_itrframe : Z) (mem_self : Z).
Implicit Types s : Machine.state H.
Notation delegated s := (mideleg (Machine.hw s)).

(** The start up to the device tree leaves the registers of the hart alone. *)
Definition bring_up (fuel : nat) (dtb : Z) : M (Machine.state H) unit :=
  Machine.on_spike Spike.spike_file_init ;; Machine.init_dtb mem_self fuel dtb.
Lemma bring_up_hw fuel dtb s s1 : bring_up fuel dtb s = Ret tt s1 -> Machine.hw s1 = Machine.hw s.
Proof.
  unfold bring_up, Machine.init_dtb. intros ([] & s2 & H1 & (u & s3 & H2 & (v & s4 & H3 & [= <-])%bind_inv_Ret)%bind_inv_Ret)%bind_inv_Ret.
  unfold Machine.on_spike, Machine.on_htif, Machine.on_memscan, zoom in *.
  repeat case_match; by simplify_eq/=.
Qed.

(** The hart implements what the kernel delegates. *)
Definition can_delegate (c : csrs) : Prop :=
  Z.testbit (misa c) 18 = true /\ Z.land Machine.interrupts ideleg_mask = Machine.interrupts /\
  Z.land Machine.exceptions edeleg_mask = Machine.exceptions.

Lemma supports_S c : Z.testbit (misa c) 18 = true -> (Z.land (misa c) (Z.shiftl 1 (83 - 65)) =? 0) = false.
Proof.
  intros Hb. apply Z.eqb_neq. intros E. assert (Z.testbit (Z.land (misa c) (Z.shiftl 1 (83 - 65))) 18 = true) as Hx
    by (rewrite Z.land_spec, Hb; done). rewrite E in Hx. by rewrite Z.testbit_0_l in Hx.
Qed.

(** What [m_start] has set up when it leaves machine mode. *)
Record in_supervisor (hartid : Z) (t : Z) s : Prop := {
  is_mode : priv (Machine.hw s) = 1 /\ pc (Machine.hw s) = s_start;
  is_traps : mtvec (Machine.hw s) = mtrapvec_addr /\ mscratch (Machine.hw s) = g_itrframe;
  is_delegated : delegated s = Machine.interrupts /\ medeleg (Machine.hw s) = Machine.exceptions;
  is_enabled : Forall (fun i => Z.testbit (mie (Machine.hw s)) i = true) [1; 5; 7; 9];
  is_timer : ld64 (Machine.memory_of s) (CLINT_MTIMECMP hartid) = u64 (t + TIMER_INTERVAL);
}.

Definition with_hw (c : csrs) s : Machine.state H :=
  Machine.mk c (Machine.regs s) (Machine.spike s) (Machine.htif_ext s) (Machine.mem_ext s).
Definition with_delegation (c : csrs) : csrs :=
  mk_csrs (mstatus c) (mepc c) (mtvec c) (mscratch c) Machine.interrupts Machine.exceptions (mie c) (mip c) (mcause c) (misa c) (priv c) (pc c).

Lemma delegate_traps_eq s : can_delegate (Machine.hw s) ->
  Machine.delegate_traps ideleg_mask edeleg_mask s = Ret tt (with_hw (with_delegation (Machine.hw s)) s).
Proof.
  intros (Hm & Hi & He). unfold Machine.delegate_traps.
  rewrite (bind_Ret _ _ _ true s) by (unfold Machine.supports_extension, Machine.read_csr; rewrite bind_gets; by rewrite (supports_S _ Hm)).
  cbn [negb]. unfold Machine.write_mideleg, Machine.write_medeleg, Machine.upd_hw. rewrite !bind_modify.
  cbn [Machine.hw Machine.regs Machine.spike Machine.htif_ext Machine.mem_ext mstatus mepc mtvec mscratch mideleg medeleg mie mip mcause misa priv pc].
  rewrite Hi, He. unfold Machine.read_csr. rewrite bind_gets. cbn [Machine.hw mideleg]. rewrite Z.eqb_refl. cbn [negb].
  rewrite bind_gets. cbn [Machine.hw medeleg]. rewrite Z.eqb_refl. done.
Qed.

(** The mode [mret] goes to. *)
Lemma mpp_supervisor x : get_mpp (Z.lor (Z.lor (Z.ldiff x MSTATUS_MPP_MASK) MSTATUS_MPP_S) MSTATUS_MIE) = 1.
Proof.
  unfold get_mpp. apply Z.bits_inj'. intros n Hn. rewrite Z.land_spec, Z.shiftr_spec, !Z.lor_spec, Z.ldiff_spec by lia.
  destruct (decide (n = 0)) as [->|]; [by rewrite andb_false_r|]. destruct (decide (n = 1)) as [->|]; [by rewrite andb_false_r|].
  change 3 with (Z.ones 2). rewrite (Z.ones_spec_high 2 n) by lia. rewrite andb_false_r.
  change 1 with (Z.ones 1). by rewrite Z.ones_spec_high by lia.
Qed.

Lemma enabled_bits x : Forall (fun i => Z.testbit
    (Z.lor (Z.lor (Z.ldiff x Machine.interrupts)
       (Z.land (Z.lor (Z.lor (Z.lor (Z.land x Machine.interrupts) SIE_SEIE) SIE_STIE) SIE_SSIE) Machine.interrupts)) MIE_MTIE) i = true) [1; 5; 7; 9].
Proof.
  repeat (apply Forall_cons; split; [rewrite !Z.lor_spec, Z.land_spec, !Z.lor_spec|]); [..|constructor];
    repeat match goal with |- context [Z.testbit ?c ?n] =>
      lazymatch c with context [x] => fail | _ => let b := eval vm_compute in (Z.testbit c n) in change (Z.testbit c n) with b end end;
    by rewrite ?orb_true_r.
Qed.

Lemma m_setup_ok hartid s : can_delegate (Machine.hw s) ->
  exists s', Machine.m_setup ideleg_mask edeleg_mask s_start mtrapvec_addr g_itrframe hartid s = Ret tt s' /\
    in_supervisor hartid (ld64 (Machine.memory_of s) CLINT_MTIME) s'.
Proof.
  intros Hd. destruct s as [[] r [] he me].
  set (x1 := Z.lor (Z.lor (Z.ldiff mstatus0 MSTATUS_MPP_MASK) MSTATUS_MPP_S) MSTATUS_MIE).
  set (s1 := Machine.mk (mk_csrs x1 s_start mtrapvec_addr g_itrframe mideleg0 medeleg0 mie0 mip0 mcause0 misa0 priv0 pc0) r
    (Spike.mk mem host spike_fds spike_files lock) he me).
  set (c2 := with_delegation (Machine.hw s1)). assert (Machine.delegate_traps ideleg_mask edeleg_mask s1 = Ret tt (with_hw c2 s1)) as Heq
    by (by apply delegate_traps_eq).
  set (x2 := Z.lor (Z.lor (Z.ldiff mie0 Machine.interrupts)
    (Z.land (Z.lor (Z.lor (Z.lor (Z.land mie0 Machine.interrupts) SIE_SEIE) SIE_STIE) SIE_SSIE) Machine.interrupts)) MIE_MTIE).
  set (s3 := Machine.mk (mk_csrs x1 s_start mtrapvec_addr g_itrframe Machine.interrupts Machine.exceptions x2 mip0 mcause0 misa0 priv0 pc0) r
    (Spike.mk (st64 mem (CLINT_MTIMECMP hartid) (u64 (ld64 mem CLINT_MTIME + TIMER_INTERVAL))) host spike_fds spike_files lock) he me).
  assert (Machine.m_setup ideleg_mask edeleg_mask s_start mtrapvec_addr g_itrframe hartid
    (Machine.mk (mk_csrs mstatus0 mepc0 mtvec0 mscratch0 mideleg0 medeleg0 mie0 mip0 mcause0 misa0 priv0 pc0) r
      (Spike.mk mem host spike_fds spike_files lock) he me) = Machine.mret s3) as ->.
  { transitivity ((Machine.delegate_traps ideleg_mask edeleg_mask ;;
      x <- Machine.read_sie ;; Machine.write_sie (Z.lor (Z.lor (Z.lor x SIE_SEIE) SIE_STIE) SIE_SSIE) ;;
      Machine.timerinit hartid ;; Machine.mret) s1); [reflexivity|]. mstep Heq. reflexivity. }
  eexists. split; [reflexivity|]. split; cbn [Machine.hw s3 priv pc mtvec mscratch mideleg medeleg mie mstatus].
  - split; [|done]. apply mpp_supervisor.
  - done.
  - done.
  - apply enabled_bits.
  - apply ld64_st64_eq.
Qed.

(** C26: [m_start], once the host files and the device tree have been read, leaves
    machine mode for the supervisor kernel: the hart is in supervisor mode at
    [s_start], machine traps go to [mtrapvec] with their frame in [mscratch],
    exactly the interrupts and exceptions of the code are delegated, the
    software, timer and external interrupts of the supervisor and the machine
    timer are enabled, and the timer fires one interval from now. *)
Theorem m_start_enters_supervisor fuel hartid dtb s s1 :
  bring_up fuel dtb s = Ret tt s1 -> can_delegate (Machine.hw s) ->
  exists s', Machine.m_start ideleg_mask edeleg_mask s_start mtrapvec_addr g_itrframe mem_self fuel hartid dtb s = Ret tt s' /\
    in_supervisor hartid (ld64 (Machine.memory_of s1) CLINT_MTIME) s'.
Proof.
  intros Hb Hd. rewrite <- (bring_up_hw _ _ _ _ Hb) in Hd. destruct (m_setup_ok hartid s1 Hd) as (s' & Heq & Hs).
  exists s'. split; [|done]. unfold bring_up in Hb. apply bind_inv_Ret in Hb as ([] & s0 & H0 & H1).
  unfold Machine.m_start. mstep H0. mstep H1. exact Heq.
Qed.

(** A machine that does not implement the delegation is stopped by the assertion. *)
Lemma delegate_traps_refused s : Z.testbit (misa (Machine.hw s)) 18 = true -> Z.land Machine.interrupts ideleg_mask <> Machine.interrupts ->
  Machine.delegate_traps ideleg_mask edeleg_mask s = Panic "assertion failed: read_csr(mideleg) == interrupts".
Proof.
  intros Hm Hi. unfold Machine.delegate_traps.
  rewrite (bind_Ret _ _ _ true s) by (unfold Machine.supports_extension, Machine.read_csr; rewrite bind_gets; by rewrite (supports_S _ Hm)).
  cbn [negb]. unfold Machine.write_mideleg, Machine.write_medeleg, Machine.upd_hw, Machine.read_csr. rewrite !bind_modify, bind_gets.
  cbn [Machine.hw mideleg]. by destruct (Z.eqb_spec (Z.land Machine.interrupts ideleg_mask) Machine.interrupts).
Qed.

(** ** Machine traps *)
(** The frame and the timer's registers are apart. *)
Definition frame_apart (frame : Z) : Prop := frame + 8 * 31 <= CLINT \/ CLINT_MTIME < frame.

(** The memory after the entry code, and after the timer has been set. *)
Definition frame_memory s : memory :=
  let frame := mscratch (Machine.hw s) in
  let r := Machine.regs s in
  st64 (Trap.store_regs frame 0 (<[Trap.T6 := frame]> (<[Trap.A0 := frame]> r)) (Machine.memory_of s)) (frame + tf_a0) (nth Trap.A0 r 0).
Definition timer_memory (m : memory) : memory :=
  st64 m (CLINT_MTIMECMP 0) (u64 (ld64 m (CLINT_MTIMECMP 0) + TIMER_INTERVAL)).

Lemma handle_timer_eq s : mcause (Machine.hw s) = CAUSE_MTIMER ->
  exists s', Machine.handle_mtrap s = Ret tt s' /\ s' =
    let c := Machine.hw s in
    let d := Z.land (mideleg c) SIP_SSIP in
    Machine.mk (mk_csrs (mstatus c) (mepc c) (mtvec c) (mscratch c) (mideleg c) (medeleg c) (mie c)
        (Z.lor (Z.ldiff (mip c) d) (Z.land SIP_SSIP d)) (mcause c) (misa c) (priv c) (pc c))
      (Machine.regs s) (Spike.set_mem (timer_memory (Machine.memory_of s)) (Machine.spike s)) (Machine.htif_ext s) (Machine.mem_ext s).
Proof.
  intros Hc. destruct s as [[] r [] he me]. cbn in Hc. subst. eexists. split; reflexivity.
Qed.

Lemma machine_timer_eq s : exists x,
  Machine.machine_trap CAUSE_MTIMER s =
  let c := Machine.hw s in
  let m := timer_memory (frame_memory s) in
  let d := Z.land (mideleg c) SIP_SSIP in
  let st := set_mpp (priv c) (set_bit MSTATUS_MIE false (set_bit MSTATUS_MPIE (has (mstatus c) MSTATUS_MIE) (mstatus c))) in
  Ret tt (Machine.mk
    (mk_csrs x (pc c) (mtvec c) (mscratch c) (mideleg c) (medeleg c) (mie c) (Z.lor (Z.ldiff (mip c) d) (Z.land SIP_SSIP d))
       CAUSE_MTIMER (misa c) (get_mpp st) (pc c))
    (Process.saved_regs m (mscratch c)) (Spike.set_mem m (Machine.spike s)) (Machine.htif_ext s) (Machine.mem_ext s)).
Proof.
  set (c := Machine.hw s). set (st := set_mpp (priv c) (set_bit MSTATUS_MIE false (set_bit MSTATUS_MPIE (has (mstatus c) MSTATUS_MIE) (mstatus c)))).
  set (c1 := mk_csrs st (pc c) (mtvec c) (mscratch c) (mideleg c) (medeleg c) (mie c) (mip c) CAUSE_MTIMER (misa c) 3 (mtvec c)).
  set (s2 := Machine.mk c1 (Machine.regs s) (Spike.set_mem (frame_memory s) (Machine.spike s)) (Machine.htif_ext s) (Machine.mem_ext s)).
  destruct (handle_timer_eq s2 eq_refl) as (s3 & Heq & Hs3).
  assert (Machine.machine_trap CAUSE_MTIMER s = (Machine.handle_mtrap ;; Machine.restore ;; Machine.mret) s2) as ->
    by (destruct s as [[] r [] he me]; reflexivity).
  mstep Heq. rewrite Hs3. eexists. reflexivity.
Qed.

(** C20: the machine timer interrupt is almost invisible to the code it interrupts:
    the hart returns to the same mode and instruction with the same registers,
    except that [t6] holds the address of the frame; the next timer interrupt is
    one interval after the last, the supervisor's software interrupt becomes
    pending if it is delegated, and no memory changes outside the frame and
    the timer's register. *)
Theorem machine_timer_returns s :
  let frame := mscratch (Machine.hw s) in
  length (Machine.regs s) = 31%nat -> 0 <= priv (Machine.hw s) < 4 -> frame_apart frame ->
  exists s', Machine.machine_trap CAUSE_MTIMER s = Ret tt s' /\
    priv (Machine.hw s') = priv (Machine.hw s) /\ pc (Machine.hw s') = pc (Machine.hw s) /\
    Machine.regs s' = <[Trap.T6 := frame]> (Machine.regs s) /\ mscratch (Machine.hw s') = frame /\
    ld64 (Machine.memory_of s') (CLINT_MTIMECMP 0) = u64 (ld64 (Machine.memory_of s) (CLINT_MTIMECMP 0) + TIMER_INTERVAL) /\
    (Z.testbit (delegated s) 1 = true -> Z.testbit (mip (Machine.hw s')) 1 = true) /\
    (forall a, ~ (frame <= a < frame + 8 * 31) -> a <> CLINT_MTIMECMP 0 -> ld64 (Machine.memory_of s') a = ld64 (Machine.memory_of s) a).
Proof.
  intros frame Hlen Hp Ha. destruct (machine_timer_eq s) as (x & Heq). set (m0 := Machine.memory_of s).
  assert (forall a, ~ (frame <= a < frame + 8 * 31) -> ld64 (frame_memory s) a = ld64 m0 a) as Hout.
  { intros a Hna. unfold frame_memory. fold frame. rewrite ld64_st64_ne by (unfold tf_a0; lia).
    rewrite ld64_store_regs, !length_insert, Hlen. rewrite bool_decide_eq_false_2 by lia. done. }
  assert (~ (frame <= CLINT_MTIMECMP 0 < frame + 8 * 31)) as Hcl
    by (unfold frame_apart, CLINT_MTIME, CLINT_MTIMECMP, CLINT in *; lia).
  eexists. split; [exact Heq|]. cbn [Machine.hw Machine.regs priv pc mscratch mip].
  split; [by apply get_set_mpp|]. split; [done|]. split; [|split; [done|split; [|split]]].
  - fold frame. etransitivity; [|exact (saved_frame m0 frame (Machine.regs s) Hlen)].
    apply saved_regs_ext. intros k Hk. unfold timer_memory. apply ld64_st64_ne. intros E. apply Hcl. lia.
  - change (Machine.memory_of _) with (timer_memory (frame_memory s)) at 1. unfold timer_memory. by rewrite ld64_st64_eq, (Hout _ Hcl).
  - intros Hb. rewrite Z.lor_spec, !Z.land_spec. change (Z.testbit SIP_SSIP 1) with true. by rewrite Hb, orb_true_r.
  - intros a Hna Hne. change (Machine.memory_of _) with (timer_memory (frame_memory s)) at 1. unfold timer_memory.
    rewrite ld64_st64_ne by done. by apply Hout.
Qed.

(** Exceptions that are not delegated stop the machine. *)
Lemma machine_trap_stops cause s : cause <> CAUSE_MTIMER -> exists msg, Machine.machine_trap cause s = Panic msg.
Proof.
  intros Hc. unfold Machine.machine_trap, Machine.mtrapvec, Machine.enter_machine, Machine.upd_hw. rewrite bind_modify.
  unfold Machine.read_csr at 1. rewrite !bind_gets. set (s1 := Machine.mk _ _ _ _ _).
  match goal with |- context [bind (Machine.upd_mem ?f) ?k s1] => rewrite (bind_Ret (Machine.upd_mem f) k s1 tt
    (Machine.mk (Machine.hw s1) (Machine.regs s1) (Spike.set_mem (f (Machine.memory_of s1)) (Machine.spike s1)) (Machine.htif_ext s1) (Machine.mem_ext s1))) by done end.
  set (s2 := Machine.mk _ _ _ _ _). unfold Machine.write_mscratch, Machine.upd_hw. rewrite bind_modify. set (s3 := Machine.mk _ _ _ _ _).
  assert (exists msg, Machine.handle_mtrap s3 = Panic msg) as [msg Hm].
  { unfold Machine.handle_mtrap, Machine.read_csr. rewrite bind_gets. change (mcause (Machine.hw s3)) with cause.
    destruct (Z.eqb_spec cause CAUSE_MTIMER); [done|]. repeat (destruct (_ =? _); [by eexists|]). by eexists. }
  exists msg. by rewrite (bind_Panic _ _ _ _ Hm).
Qed.

(** C32: where an exception goes after [m_start]: those with the codes 0, 3, 8, 12,
    13 and 15, among them system calls and data page faults, are delegated to
    the supervisor, and every other one stops the machine. *)
Theorem exceptions_routed c s hartid t s' :
  in_supervisor hartid t s -> 0 <= c < 64 ->
  (Z.testbit (medeleg (Machine.hw s)) c = true <-> c ∈ [0; 3; 8; 12; 13; 15]) /\
  (Z.testbit (medeleg (Machine.hw s)) c = false -> exists msg, Machine.machine_trap c s' = Panic msg).
Proof.
  intros Hs Hc. rewrite (proj2 (is_delegated _ _ _ Hs)). split.
  - assert (forallb (fun c => eqb (Z.testbit Machine.exceptions c) (bool_decide (c ∈ [0; 3; 8; 12; 13; 15]))) (seqZ 0 64) = true) as Hall
      by (by vm_compute).
    rewrite List.forallb_forall in Hall. specialize (Hall c). rewrite eqb_true_iff in Hall.
    rewrite Hall by (apply list_elem_of_In, elem_of_seqZ; lia). apply bool_decide_eq_true.
  - intros _. apply machine_trap_stops. unfold CAUSE_MTIMER. lia.
Qed.
End machine.

(** ** A machine that starts *)
Definition demo_csrs : csrs := mk_csrs 0xa00001880 0 0 0 0 0 0 0 0 (2 ^ 63 + 2 ^ 18 + 2 ^ 8) 3 0x1000.
Definition demo_machine : Machine.state SimHost.host :=
  Machine.mk demo_csrs (seqZ 100 31) (Spike.set_mem demo_dtb boot_files) (Fdt.mk_htif_scan false false) (Fdt.mk_mem_scan false 0 0 0).
Definition demo_up : Machine.state SimHost.host :=
  match bring_up 0x80001234 32 0x1000 demo_machine with Ret _ s => s | _ => demo_machine end.

Lemma m_start_enters_supervisor_witness : exists s',
  Machine.m_start 0xfff 0xffff 0x80002000 0x80003000 0x80004000 0x80001234 32 0 0x1000 demo_machine = Ret tt s' /\
  in_supervisor 0x80002000 0x80003000 0x80004000 0 (ld64 (Machine.memory_of demo_up) CLINT_MTIME) s'.
Proof.
  apply (m_start_enters_supervisor 0xfff 0xffff 0x80002000 0x80003000 0x80004000 0x80001234 32 0 0x1000 demo_machine demo_up).
  - by vm_compute.
  - split_and!; reflexivity.
Defined.

(** The same machine later, running the kernel. *)
Definition demo_running : Machine.state SimHost.host :=
  Machine.mk (mk_csrs 0xa00000080 0 0x80003000 0x80004000 0x222 0xb109 0x2a2 0 0 (2 ^ 63 + 2 ^ 18 + 2 ^ 8) 1 0x80002468) (seqZ 100 31)
    (Spike.set_mem ∅ boot_files) (Fdt.mk_htif_scan true true) (Fdt.mk_mem_scan false 0 0 0).

Lemma machine_timer_returns_witness : exists s',
  Machine.machine_trap CAUSE_MTIMER demo_running = Ret tt s' /\ pc (Machine.hw s') = 0x80002468 /\
  Machine.regs s' = seqZ 100 30 ++ [0x80004000] /\ Z.testbit (mip (Machine.hw s')) 1 = true.
Proof.
  destruct (machine_timer_returns demo_running) as (s' & Heq & _ & Hpc & Hr & _ & _ & Hp & _).
  - reflexivity.
  - cbn. lia.
  - right. reflexivity.
  - exists s'. split; [exact Heq|]. split; [exact Hpc|]. split; [rewrite Hr; by vm_compute|]. by apply Hp.
Defined.

Lemma exceptions_routed_witness : exists msg, Machine.machine_trap CAUSE_ILLEGAL_INSTRUCTION demo_running = Panic msg.
Proof.
  apply (exceptions_routed 0x80002000 0x80003000 0x80004000 CAUSE_ILLEGAL_INSTRUCTION
    (Machine.mk (mk_csrs 0 0 0x80003000 0x80004000 0x222 0xb109 0x2a2 0 0 0 1 0x80002000) []
      (Spike.set_mem {[ CLINT_MTIMECMP 0 := TIMER_INTERVAL ]} boot_files) (Fdt.mk_htif_scan true true) (Fdt.mk_mem_scan false 0 0 0)) 0 0).
  - split; [split; reflexivity|split; reflexivity|split; reflexivity|repeat constructor|by vm_compute].
  - unfold CAUSE_ILLEGAL_INSTRUCTION. lia.
  - reflexivity.
Defined.
