(* ===== verification/SysFile.v ===== *)
(** * [kernel/syscall.c]: the file system calls

    The calls run on the state of the processes and of the virtual file system,
    which share the pages: the class [KernelPages] says that an allocator state
    of the file systems contains the kernel's pages.  Path names, buffers and result structures are memory
    of the calling process: paths and structures are found with [user_va_to_pa],
    buffers page by page with [lookup_pa].  The table of open files of a process
    lies in the page [pfiles]; entries that no file operation has touched yet
    are decoded from that page. *)

From stdpp Require Import base gmap list numbers strings.
From Stdlib Require Import ZArith Lia.
From S2P Require Import Prelude Pmm Vmm Bytes ByteMem Rfs Vfs ProcFile Process Sched Trap.
Local Open Scope Z_scope.

Definition SYS_user_open : Z := SYS_user_base + 17.
Definition SYS_user_read : Z := SYS_user_base + 18.
Definition SYS_user_write : Z := SYS_user_base + 19.
Definition SYS_user_lseek : Z := SYS_user_base + 20.
Definition SYS_user_stat : Z := SYS_user_base + 21.
Definition SYS_user_disk_stat : Z := SYS_user_base + 22.
Definition SYS_user_close : Z := SYS_user_base + 23.
Definition SYS_user_opendir : Z := SYS_user_base + 24.
Definition SYS_user_readdir : Z := SYS_user_base + 25.
Definition SYS_user_mkdir : Z := SYS_user_base + 26.
Definition SYS_user_closedir : Z := SYS_user_base + 27.
Definition SYS_user_link : Z := SYS_user_base + 28.
Definition SYS_user_unlink : Z := SYS_user_base + 29.
Definition MAX_FILE_NAME_LEN : Z := 32.

(** An allocator state that contains the kernel's pages, and possibly more (the
    state of the host's files). *)
Class KernelPages (A : Type) `{PA : PageAllocator A} := {
  kp_get : A -> Pmm.state;
  kp_set : Pmm.state -> A -> A;
  kp_get_set : forall p a, kp_get (kp_set p a) = p;
  kp_set_get : forall a, kp_set (kp_get a) a = a;
  kp_set_set : forall p q a, kp_set p (kp_set q a) = kp_set p a;
  kp_alloc : forall a, pa_alloc a = zoom kp_get kp_set Pmm.alloc_page a;
  kp_free : forall p a, pa_free p a = zoom kp_get kp_set (Pmm.free_page p) a;
}.

#[global] Program Instance pmm_pages : KernelPages Pmm.state := {| kp_get := fun p => p; kp_set := fun p _ => p |}.
Next Obligation. done. Qed.
Next Obligation. done. Qed.
Next Obligation. done. Qed.
Next Obligation. intros a. unfold zoom. simpl. by destruct (Pmm.alloc_page a). Qed.
Next Obligation. intros p a. unfold zoom. simpl. by destruct (Pmm.free_page p a). Qed.

Module SysFile.
Section ops.
Context `{KernelSymbols} {A : Type} `{KP : KernelPages A}.
Context (i_ops : vinode_ops A).

Record state := mk { kernel : Process.state; vfs : Vfs.state A }.
Definition memory_of (s : state) : memory := mem (kernel s).
Definition on_kernel {R} (m : M Process.state R) : M state R := zoom kernel (fun k s => mk k (vfs s)) m.

(** [current->pagetable], [current->pfiles]. *)
Definition current_proc : M state process := on_kernel (i <- the_current ;; get_proc i).

(** An entry of the table in the page [pf], and the table. *)
Definition read_file (m : memory) (a : Z) : file :=
  mk_file (i32 (ld32 m a)) (i32 (ld32 m (a + 4))) (i32 (ld32 m (a + 8))) (i32 (ld32 m (a + 12))) (ld64 m (a + 16)).
Definition file_table (m : memory) (pf : Z) : gmap Z file :=
  list_to_map (map (fun fd => (ProcFile.opened_file pf fd, read_file m (ProcFile.opened_file pf fd))) (seqZ 0 MAX_FILES)).

(** The file operations' view of the state: the pages are those of the kernel,
    [nfiles] is a word of the table. *)
Definition file_state (pf : Z) (s : state) : ProcFile.state A :=
  let v := vfs s in
  ProcFile.mk
    (Vfs.set_files (Vfs.files v ∪ file_table (memory_of s) pf) (Vfs.set_fs (Rfs.set_pages (kp_set (pmm (kernel s)) (Rfs.pages (Vfs.fs v))) (Vfs.fs v)) v))
    (i32 (ld32 (memory_of s) (pf_nfiles pf))).
Definition set_file_state (pf : Z) (t : ProcFile.state A) (s : state) : state :=
  let p := kp_get (Rfs.pages (Vfs.fs (ProcFile.vfs t))) in
  let p := if ProcFile.nfiles t =? i32 (ld32 (memory_of s) (pf_nfiles pf)) then p
           else Pmm.set_mem (st32 (Pmm.mem p) (pf_nfiles pf) (u32 (ProcFile.nfiles t))) p in
  mk (with_pmm p (kernel s)) (ProcFile.vfs t).

(** An operation of [kernel/proc_file.c] for the current process. *)
Definition on_files {R} (m : Z -> M (ProcFile.state A) R) : M state R :=
  p <- current_proc ;;
  zoom (file_state (pfiles p)) (set_file_state (pfiles p)) (m (pfiles p)).

(** The physical address of a user pointer that is dereferenced. *)
Definition user_pointer (va : Z) : M state Z :=
  p <- current_proc ;;
  pa <- on_kernel (lift (Vmm.user_va_to_pa (pagetable p) va)) ;;
  if pa =? 0 then fault "NULL pointer of the user" else ret pa.

(** A path name.  A name of [MAX_PATH_LEN] or more characters is of no further
    interest, since its copy is a fault in [Vfs]. *)
Definition read_path (m : memory) (pa : Z) : list Z :=
  let l := load_bytes m pa MAX_PATH_LEN in default l (cstring l).
Definition user_path (va : Z) : M state (list Z) :=
  pa <- user_pointer va ;; gets (fun s => read_path (memory_of s) pa).

Definition write_bytes (a : Z) (bs : list Z) : M state unit :=
  on_kernel (update_mem (fun m => store_bytes m a bs)).

(** ** The calls *)
Definition sys_user_open (pathva flags : Z) : M state Z :=
  path <- user_path pathva ;;
  on_files (fun pf => ProcFile.do_open i_ops pf path (i32 flags)).

(** The loop of [sys_user_read] and [sys_user_write]; [op pa off len] is the
    file operation on [len] bytes at [pa + off].  [i] is an [int], which is
    converted to [uint64] in the comparison and in the sums. *)
Fixpoint page_loop (fuel : nat) (op : Z -> Z -> Z -> M state Z) (bufva i count : Z) : M state Z :=
  if u64 i <? count then
    match fuel with
    | O => fun _ => NoFuel
    | S fuel =>
        let addr := u64 (bufva + i) in
        p <- current_proc ;;
        pa <- on_kernel (lift (Vmm.lookup_pa (pagetable p) addr)) ;;
        let off := addr - ROUNDDOWN addr PGSIZE in
        let len := if u64 (count - i) <? PGSIZE - off then u64 (count - i) else PGSIZE - off in
        r <- op pa off len ;;
        let i := i32 (i + r) in
        if r <? len then ret i else page_loop fuel op bufva i count
    end
  else ret (i64 count).
Definition loop_fuel (count : Z) : nat := Z.to_nat (count / PGSIZE + 2).

(** [do_read(fd, (char * )pa + off, len)], with what the stack holds in its
    [buffer]; the string is copied to the user by [strcpy]. *)
Definition read_chunk (uninit : list Z) (fd pa off len : Z) : M state Z :=
  let* (r, bs) := on_files (fun pf => ProcFile.do_read i_ops pf uninit fd len) in
  if pa =? 0 then fault "NULL buffer of the user"
  else write_bytes (pa + off) bs ;; ret (u64 (i32 r)).
Definition sys_user_read (uninit : list Z) (fd bufva count : Z) : M state Z :=
  page_loop (loop_fuel count) (read_chunk uninit (i32 fd)) bufva 0 count.

(** [do_write(fd, (char * )pa + off, len)]. *)
Definition write_chunk (fd pa off len : Z) : M state Z :=
  if pa =? 0 then fault "NULL buffer of the user"
  else
    buf <- gets (fun s => load_bytes (memory_of s) (pa + off) len) ;;
    r <- on_files (fun pf => ProcFile.do_write i_ops pf fd buf len) ;;
    ret (u64 (i32 r)).
Definition sys_user_write (fd bufva count : Z) : M state Z :=
  page_loop (loop_fuel count) (write_chunk (i32 fd)) bufva 0 count.

Definition sys_user_lseek (fd offset whence : Z) : M state Z :=
  on_files (fun pf => ProcFile.do_lseek i_ops pf (i32 fd) (i32 offset) (i32 whence)).

(** The fields of [struct istat] in memory. *)
Definition istat_bytes (st : istat) : list Z :=
  ints_bytes [st_inum st; st_size st; st_type st; st_nlinks st; st_blocks st].
Definition sys_user_stat (fd istat : Z) : M state Z :=
  pistat <- user_pointer istat ;;
  let* (r, st) := on_files (fun pf => ProcFile.do_stat pf (i32 fd)) in
  write_bytes pistat (istat_bytes st) ;; ret r.
Definition sys_user_disk_stat (fd istat : Z) : M state Z :=
  pistat <- user_pointer istat ;;
  let* (r, st) := on_files (fun pf => ProcFile.do_disk_stat i_ops pf (i32 fd)) in
  (if r =? 0 then write_bytes pistat (istat_bytes st) else ret tt) ;; ret r.

Definition sys_user_close (fd : Z) : M state Z := on_files (fun pf => ProcFile.do_close i_ops pf (i32 fd)).

Definition sys_user_opendir (pathva : Z) : M state Z :=
  path <- user_path pathva ;; on_files (fun pf => ProcFile.do_opendir i_ops pf path).
Definition sys_user_readdir (fd vdir : Z) : M state Z :=
  pdir <- user_pointer vdir ;;
  let* (r, e) := on_files (fun pf => ProcFile.do_readdir i_ops pf (i32 fd)) in
  match e with
  | Some (name, inum) =>
      write_bytes pdir (name ++ [0]) ;;
      write_bytes (pdir + MAX_FILE_NAME_LEN) (ints_bytes [inum]) ;;
      ret r
  | None => ret r
  end.
Definition sys_user_mkdir (pathva : Z) : M state Z :=
  path <- user_path pathva ;; on_files (fun _ => ProcFile.do_mkdir i_ops path).
Definition sys_user_closedir (fd : Z) : M state Z := on_files (fun pf => ProcFile.do_closedir i_ops pf (i32 fd)).
Definition sys_user_link (vfn1 vfn2 : Z) : M state Z :=
  fn1 <- user_path vfn1 ;;
  fn2 <- user_path vfn2 ;;
  on_files (fun _ => ProcFile.do_link i_ops fn1 fn2).
Definition sys_user_unlink (vfn : Z) : M state Z :=
  fn <- user_path vfn ;; on_files (fun _ => ProcFile.do_unlink i_ops fn).

(** The whole [switch] of [do_syscall]; [filter] and [uninit] are what the
    stack holds in [free_block_filter] of [do_fork] and in [buffer] of
    [do_read]. *)
Definition do_syscall (filter uninit : list Z) (a0 a1 a2 a3 a4 a5 a6 a7 : Z) : M state Z :=
  if a0 =? SYS_user_open then sys_user_open a1 a2
  else if a0 =? SYS_user_read then sys_user_read uninit a1 a2 a3
  else if a0 =? SYS_user_write then sys_user_write a1 a2 a3
  else if a0 =? SYS_user_lseek then sys_user_lseek a1 a2 a3
  else if a0 =? SYS_user_stat then sys_user_stat a1 a2
  else if a0 =? SYS_user_disk_stat then sys_user_disk_stat a1 a2
  else if a0 =? SYS_user_close then sys_user_close a1
  else if a0 =? SYS_user_opendir then sys_user_opendir a1
  else if a0 =? SYS_user_readdir then sys_user_readdir a1 a2
  else if a0 =? SYS_user_mkdir then sys_user_mkdir a1
  else if a0 =? SYS_user_closedir then sys_user_closedir a1
  else if a0 =? SYS_user_link then sys_user_link a1 a2
  else if a0 =? SYS_user_unlink then sys_user_unlink a1
  else on_kernel (Trap.do_syscall (fun _ _ => panic "Unknown syscall") filter a0 a1 a2 a3 a4 a5 a6 a7).
End ops.
Arguments state : clear implicits.
End SysFile.
