(* ===== verification/KernelTypes.v ===== *)
(** * The shape of the kernel's state

    [kernel_typed] is what the declarations of [kernel/process.h] and
    [kernel/sched.h] say about the process pool: it has 32 entries, the [pid] of
    an entry is its index, process pointers point into the pool, the list of free
    heap pages has 32 entries of which at most 32 are in use, and the bounds of
    the managed memory do not change.  Where the code writes outside an array
    (the 33rd freed heap page) the model stops with a fault, so nothing is said
    about what follows.  Together with the shape of the file
    systems it is kept by every system call and every trap. *)

From stdpp Require Import base gmap list numbers strings.
From Stdlib Require Import ZArith Lia.
From S2P Require Import Prelude Keeps Pmm Vmm HashTable Bytes ByteMem Rfs RfsDisk Vfs ProcFile RfsTypes VfsTypes Process Sched Trap SysFile.
Local Open Scope Z_scope.

(** ** Physical and virtual memory *)
Section memory.
Context (lo hi : Z).

Definition bounds (a : Pmm.state) : Prop := Pmm.free_mem_start_addr a = lo /\ Pmm.free_mem_end_addr a = hi.

Lemma alloc_page_bounds : stays bounds Pmm.alloc_page anything.
Proof. intros s []. unfold Pmm.alloc_page. by destruct (_ =? 0). Qed.
Lemma free_page_bounds p : stays bounds (Pmm.free_page p) anything.
Proof. intros s []. unfold Pmm.free_page. by destruct (_ || _). Qed.
Lemma set_mem_bounds f : stays bounds (modify (fun s => Pmm.set_mem (f (Pmm.mem s)) s)) anything.
Proof. by apply keeps_modify. Qed.
Lemma vmm_write_bounds a v : stays bounds (Vmm.write a v) anything.
Proof. apply (set_mem_bounds (fun m => st64 m a v)). Qed.
Lemma vmm_read_bounds a : stays bounds (Vmm.read a) anything.
Proof. unfold Vmm.read. keeps_auto. Qed.
Lemma zero_page_bounds p : stays bounds (modify (fun s => Pmm.set_mem (Vmm.zero_page p (Pmm.mem s)) s)) anything.
Proof. apply set_mem_bounds. Qed.
Hint Resolve alloc_page_bounds free_page_bounds vmm_write_bounds vmm_read_bounds zero_page_bounds : keeps.

Lemma page_walk_loop_bounds n : forall pt va al, stays bounds (Vmm.page_walk_loop n pt va al) anything.
Proof. induction n as [|n IH]; intros; cbn [Vmm.page_walk_loop]; keeps_auto. Qed.
Hint Resolve page_walk_loop_bounds : keeps.
Lemma page_walk_bounds pt va al : stays bounds (Vmm.page_walk pt va al) anything.
Proof. unfold Vmm.page_walk. keeps_auto. Qed.
Hint Resolve page_walk_bounds : keeps.
Lemma map_pages_loop_bounds n : forall pt f l pa perm, stays bounds (Vmm.map_pages_loop n pt f l pa perm) anything.
Proof. induction n as [|n IH]; intros; cbn [Vmm.map_pages_loop]; keeps_auto. Qed.
Hint Resolve map_pages_loop_bounds : keeps.
Lemma user_vm_map_bounds pt va sz pa perm : stays bounds (Vmm.user_vm_map pt va sz pa perm) anything.
Proof. unfold Vmm.user_vm_map, Vmm.map_pages. keeps_auto. Qed.
Lemma user_vm_unmap_bounds pt va sz fr : stays bounds (Vmm.user_vm_unmap pt va sz fr) anything.
Proof. unfold Vmm.user_vm_unmap. keeps_auto. Qed.
Lemma lookup_pa_bounds pt va : stays bounds (Vmm.lookup_pa pt va) anything.
Proof. unfold Vmm.lookup_pa. keeps_auto. Qed.
Lemma user_va_to_pa_bounds pt va : stays bounds (Vmm.user_va_to_pa pt va) anything.
Proof. unfold Vmm.user_va_to_pa. keeps_auto. Qed.
End memory.
#[export] Hint Resolve alloc_page_bounds free_page_bounds user_vm_map_bounds user_vm_unmap_bounds lookup_pa_bounds user_va_to_pa_bounds : keeps.

(** ** Processes *)
(** A pointer into the pool, or NULL. *)
Definition pool_ptr (o : option nat) : Prop := match o with Some i => (i < 32)%nat | None => True end.

Record proc_typed (i : nat) (p : process) : Prop := {
  pt_pid : pid p = Z.of_nat i;
  pt_next : pool_ptr (queue_next p);
  pt_parent : pool_ptr (parent p);
  pt_heap : length (free_pages_address p) = 32%nat /\ 0 <= free_pages_count p <= MAX_HEAP_PAGES;
}.

(** What the fields of a process give. *)
Ltac proc_facts :=
  repeat match goal with Hp : proc_typed ?i ?p |- _ =>
    let a := fresh "Hpid" in let b := fresh "Hnext" in let c := fresh "Hparent" in let d := fresh "Hfree" in let e := fresh "Hcount" in
    destruct Hp as [a b c [d e]] end.

Section kernel.
Context `{KernelSymbols} (lo hi : Z).

Record kernel_typed (s : state) : Prop := {
  kt_length : length (procs s) = 32%nat;
  kt_procs : forall i p, procs s !! i = Some p -> proc_typed i p;
  kt_current : pool_ptr (current s);
  kt_head : pool_ptr (ready_queue_head s);
  kt_regs : length (regs (hart s)) = 31%nat;
  kt_bounds : bounds lo hi (pmm s);
}.

Lemma lift_typed {A} (m : M Pmm.state A) Q : stays (bounds lo hi) m Q -> keeps kernel_typed (lift m) Q.
Proof. intros Hm. apply (keeps_zoom_to _ _ (bounds lo hi) _ _ _ _ Hm); [by intros s []| |done]. intros s a [] Ha. by split. Qed.
Hint Extern 1 (keeps _ (lift _) _) => apply lift_typed : keeps.

Lemma update_mem_typed f : keeps kernel_typed (update_mem f) anything.
Proof. apply keeps_modify. intros s []. by split. Qed.
Hint Resolve update_mem_typed : keeps.
Lemma load_typed a : keeps kernel_typed (load a) anything.
Proof. unfold load. keeps_auto. Qed.
Lemma load32_typed a : keeps kernel_typed (load32 a) anything.
Proof. unfold load32. keeps_auto. Qed.
Lemma store_typed a v : keeps kernel_typed (store a v) anything.
Proof. apply update_mem_typed. Qed.
Lemma store32_typed a v : keeps kernel_typed (store32 a v) anything.
Proof. apply update_mem_typed. Qed.
Lemma nonnull_typed p w : keeps kernel_typed (nonnull p w) anything.
Proof. unfold nonnull. keeps_auto. Qed.
Lemma assert_typed b w : keeps kernel_typed (assert b w) anything.
Proof. unfold assert. keeps_auto. Qed.

Lemma get_proc_typed i : keeps kernel_typed (get_proc i) (proc_typed i).
Proof. apply keeps_of_option. intros s p [] E. by apply kt_procs0. Qed.
Lemma the_current_typed : keeps kernel_typed the_current (fun i => (i < 32)%nat).
Proof. apply keeps_of_option. intros s i [] E. by rewrite E in kt_current0. Qed.
Lemma gets_current_typed : keeps kernel_typed (gets current) pool_ptr.
Proof. apply keeps_gets. by intros s []. Qed.
Lemma gets_head_typed : keeps kernel_typed (gets ready_queue_head) pool_ptr.
Proof. apply keeps_gets. by intros s []. Qed.
Lemma with_current_typed c : pool_ptr c -> keeps kernel_typed (modify (with_current c)) anything.
Proof. intros Hc. apply keeps_modify. intros s []. by split. Qed.
Lemma with_head_typed c : pool_ptr c -> keeps kernel_typed (modify (with_head c)) anything.
Proof. intros Hc. apply keeps_modify. intros s []. by split. Qed.
Lemma with_ticks_typed (f : state -> Z) : keeps kernel_typed (modify (fun s => with_ticks (f s) s)) anything.
Proof. apply keeps_modify. intros s []. by split. Qed.

Lemma upd_proc_typed i f : (forall p, proc_typed i p -> proc_typed i (f p)) -> keeps kernel_typed (upd_proc i f) anything.
Proof.
  intros Hf. apply keeps_modify. intros s []. split; try done; simpl.
  - by rewrite length_alter.
  - intros j p. destruct (decide (i = j)) as [<-|Hne].
    + rewrite list_lookup_alter_eq, fmap_Some. intros (q & Hq & ->). by apply Hf, kt_procs0.
    + rewrite list_lookup_alter_ne by done. apply kt_procs0.
Qed.
Hint Resolve load_typed load32_typed store_typed store32_typed nonnull_typed assert_typed get_proc_typed the_current_typed
  gets_current_typed gets_head_typed with_current_typed with_head_typed with_ticks_typed : keeps.
(** Updates of the fields of which nothing is said. *)
Hint Extern 2 (keeps _ (upd_proc _ _) _) => apply upd_proc_typed; intros ? []; split; solve [assumption | simpl; lia] : keeps.

Lemma write_hart_typed (f : state -> cpu) : (forall s, length (regs (f s)) = length (regs (hart s))) ->
  keeps kernel_typed (modify (fun s => with_hart (f s) s)) anything.
Proof. intros Hf. apply keeps_modify. intros s []. split; try done. simpl. by rewrite Hf. Qed.
Hint Extern 1 (keeps _ (Process.write_stvec _) _) => apply write_hart_typed; done : keeps.
Hint Extern 1 (keeps _ (Process.write_sstatus _) _) => apply write_hart_typed; done : keeps.
Hint Extern 1 (keeps _ (Process.write_sepc _) _) => apply write_hart_typed; done : keeps.
Hint Extern 1 (keeps _ (Process.write_sip _) _) => apply write_hart_typed; done : keeps.

Lemma return_to_user_typed {A} tf sp : keeps kernel_typed (Process.return_to_user (A := A) tf sp) anything.
Proof. intros s []. by split. Qed.
Hint Resolve return_to_user_typed : keeps.

Lemma switch_to_typed {A} c : pool_ptr c -> keeps kernel_typed (Process.switch_to (A := A) c) anything.
Proof. intros Hc. unfold Process.switch_to. destruct c as [i|]; keeps_auto. Qed.
Hint Resolve switch_to_typed : keeps.

Lemma register_region_typed mi i va n seg : keeps kernel_typed (Process.register_region mi i va n seg) anything.
Proof. unfold Process.register_region. keeps_auto. Qed.
Lemma init_proc_file_management_typed : keeps kernel_typed Process.init_proc_file_management anything.
Proof. unfold Process.init_proc_file_management. keeps_auto. Qed.
Hint Resolve register_region_typed init_proc_file_management_typed : keeps.

Lemma first_free_typed : keeps kernel_typed (gets (fun s => Process.first_free (procs s))) pool_ptr.
Proof.
  apply keeps_gets. intros s []. unfold Process.first_free. destruct (list_find _ _) as [[i p]|] eqn:E; [|done]. simpl.
  apply list_find_Some in E as (E & _). apply lookup_lt_Some in E. lia.
Qed.
Hint Resolve first_free_typed : keeps.

Lemma alloc_process_typed : keeps kernel_typed Process.alloc_process (fun i => (i < 32)%nat).
Proof. unfold Process.alloc_process. keeps_auto. Qed.
Lemma free_process_typed i : keeps kernel_typed (Process.free_process i) anything.
Proof. unfold Process.free_process. keeps_auto. Qed.
Hint Resolve alloc_process_typed free_process_typed : keeps.

(** ** The ready queue *)
Lemma browse_typed n : forall p i, (p < 32)%nat -> keeps kernel_typed (Sched.browse n p i) pool_ptr.
Proof.
  induction n as [|n IH]; intros p i Hp; cbn [Sched.browse]; [keeps_auto|]. keeps_step. proc_facts. destruct (queue_next a) as [k|].
  - keeps_step; [by apply keeps_ret|]. by apply IH.
  - by apply keeps_ret.
Qed.

Lemma upd_next_typed i n : pool_ptr n -> keeps kernel_typed (upd_proc i (set_queue_next n)) anything.
Proof. intros Hn. apply upd_proc_typed. intros p []. by split. Qed.
Hint Resolve upd_next_typed browse_typed : keeps.

Lemma insert_to_ready_queue_typed i : (i < 32)%nat -> keeps kernel_typed (Sched.insert_to_ready_queue i) anything.
Proof.
  intros Hi. unfold Sched.insert_to_ready_queue. keeps_step. destruct a as [h|]; simpl in H0; keeps_auto.
Qed.
Hint Resolve insert_to_ready_queue_typed : keeps.

Lemma schedule_typed {A} : keeps kernel_typed (Sched.schedule (A := A)) anything.
Proof.
  unfold Sched.schedule. keeps_step. destruct a as [h|]; [|keeps_auto]. keeps_step. keeps_step. proc_facts.
  keeps_auto.
Qed.
Hint Resolve @schedule_typed : keeps.

(** ** Fork and the heap *)
Lemma mark_free_typed hb free : forall filter, keeps kernel_typed (Trap.mark_free hb free filter) anything.
Proof. induction free as [|va free IH]; intros; cbn [Trap.mark_free]; unfold Trap.set_filter; keeps_auto. Qed.
Lemma copy_page_typed d s : keeps kernel_typed (Trap.copy_page d s) anything.
Proof. unfold Trap.copy_page. keeps_auto. Qed.
Hint Resolve mark_free_typed copy_page_typed : keeps.
Lemma copy_heap_typed n : forall c p filter hb b top, keeps kernel_typed (Trap.copy_heap n c p filter hb b top) anything.
Proof. induction n as [|n IH]; intros; cbn [Trap.copy_heap]; keeps_auto. Qed.
Hint Resolve copy_heap_typed : keeps.

Lemma upd_heap_typed i top bot free n : length free = 32%nat -> 0 <= n <= MAX_HEAP_PAGES ->
  keeps kernel_typed (upd_proc i (set_heap top bot free n)) anything.
Proof. intros Hf Hn. apply upd_proc_typed. intros p []. by split. Qed.

Lemma fork_region_typed uninit c p i : keeps kernel_typed (Trap.fork_region uninit c p i) anything.
Proof.
  unfold Trap.fork_region. keeps_step. keeps_step. proc_facts. keeps_auto.
Qed.
Hint Resolve fork_region_typed : keeps.
Lemma fork_regions_typed uninit c p n : forall i, keeps kernel_typed (Trap.fork_regions uninit c p n i) anything.
Proof. induction n as [|n IH]; intros; cbn [Trap.fork_regions]; keeps_auto. Qed.
Hint Resolve fork_regions_typed : keeps.

Lemma upd_parent_typed i q : (q < 32)%nat -> keeps kernel_typed (upd_proc i (set_parent (Some q))) anything.
Proof. intros Hq. apply upd_proc_typed. intros p []. by split. Qed.
Hint Resolve upd_parent_typed : keeps.

Lemma do_fork_typed uninit p : (p < 32)%nat -> keeps kernel_typed (Trap.do_fork uninit p) anything.
Proof. intros Hp. unfold Trap.do_fork. keeps_auto. Qed.
Hint Resolve do_fork_typed : keeps.

Lemma sys_user_allocate_page_typed : keeps kernel_typed Trap.sys_user_allocate_page anything.
Proof.
  unfold Trap.sys_user_allocate_page. keeps_step. keeps_step. keeps_step. proc_facts. keeps_auto.
Qed.

Lemma sys_user_free_page_typed va : keeps kernel_typed (Trap.sys_user_free_page va) anything.
Proof.
  unfold Trap.sys_user_free_page. keeps_step. keeps_step. proc_facts. keeps_auto. apply upd_heap_typed; [by rewrite length_insert|lia].
Qed.
Lemma sys_user_print_typed b n : keeps kernel_typed (Trap.sys_user_print b n) anything.
Proof. unfold Trap.sys_user_print. keeps_auto. Qed.
Lemma sys_user_exit_typed c : keeps kernel_typed (Trap.sys_user_exit c) anything.
Proof. unfold Trap.sys_user_exit. keeps_auto. Qed.
Lemma sys_user_fork_typed u : keeps kernel_typed (Trap.sys_user_fork u) anything.
Proof. unfold Trap.sys_user_fork. keeps_auto. Qed.
Lemma sys_user_yield_typed : keeps kernel_typed Trap.sys_user_yield anything.
Proof. unfold Trap.sys_user_yield. keeps_auto. Qed.
Hint Resolve sys_user_allocate_page_typed sys_user_free_page_typed sys_user_print_typed sys_user_exit_typed sys_user_fork_typed
  sys_user_yield_typed : keeps.

Lemma process_syscall_typed file_syscall u a0 a1 a2 a3 a4 a5 a6 a7 :
  (forall n args, keeps kernel_typed (file_syscall n args) anything) ->
  keeps kernel_typed (Trap.do_syscall file_syscall u a0 a1 a2 a3 a4 a5 a6 a7) anything.
Proof. intros Hf. unfold Trap.do_syscall. keeps_auto. Qed.

(** ** Traps *)
Lemma smode_trap_vector_typed : keeps kernel_typed Trap.smode_trap_vector anything.
Proof. intros s []. split; [|done]. by split. Qed.
Lemma handle_mtimer_trap_typed : keeps kernel_typed Trap.handle_mtimer_trap anything.
Proof. unfold Trap.handle_mtimer_trap. keeps_auto. Qed.
Lemma handle_user_page_fault_typed c pc tv : keeps kernel_typed (Trap.handle_user_page_fault c pc tv) anything.
Proof. unfold Trap.handle_user_page_fault. keeps_auto. Qed.
Lemma rrsched_typed : keeps kernel_typed Trap.rrsched anything.
Proof. unfold Trap.rrsched. keeps_auto. Qed.
Hint Resolve smode_trap_vector_typed handle_mtimer_trap_typed handle_user_page_fault_typed rrsched_typed : keeps.
End kernel.
#[export] Hint Resolve get_proc_typed the_current_typed update_mem_typed sys_user_allocate_page_typed : keeps.

(** ** The system calls *)
Section calls.
Context `{KernelSymbols} (lo hi : Z) {A : Type} `{KP : KernelPages A} (i_ops : vinode_ops A).
(** The bounds of the kernel's pages inside an allocator state, and what is known
    of the rest of it. *)
Context (rest : A -> Prop) (Hrest : forall p a, rest a -> rest (kp_set p a)).
Definition pages_typed (a : A) : Prop := bounds lo hi (kp_get a) /\ rest a.
Notation fs_inv := (fs_typed pages_typed).
Context (Hops : ops_keep fs_inv i_ops).

Record sys_typed (s : SysFile.state A) : Prop := {
  st_kernel : kernel_typed lo hi (SysFile.kernel s);
  st_vfs : vfs_typed fs_inv (SysFile.vfs s);
}.

Lemma pa_alloc_typed : keeps pages_typed pa_alloc anything.
Proof.
  intros a [Ha Hr]. rewrite kp_alloc. pose proof (alloc_page_bounds lo hi (kp_get a) Ha) as Hk. unfold zoom.
  destruct (Pmm.alloc_page (kp_get a)); try done; unfold pages_typed; rewrite kp_get_set; intuition.
Qed.
Lemma pa_free_typed p : keeps pages_typed (pa_free p) anything.
Proof.
  intros a [Ha Hr]. rewrite kp_free. pose proof (free_page_bounds lo hi p (kp_get a) Ha) as Hk. unfold zoom.
  destruct (Pmm.free_page p (kp_get a)); try done; unfold pages_typed; rewrite kp_get_set; intuition.
Qed.

#[local] Instance fs_inv_invariant : RfsInvariant fs_inv pages_typed anything vinode_typed block_typed.
Proof. apply fs_shape_invariant; [apply map_typed_set|apply pa_alloc_typed|apply pa_free_typed]. Qed.

Lemma vfs_inv_keeps : vfs_keeps (vfs_typed fs_inv) i_ops.
Proof. by apply (vfs_all_typed _ _ _ _ _ (RI := fs_inv_invariant)). Qed.

Lemma set_files_typed fs (v : Vfs.state A) : vfs_typed fs_inv v -> vfs_typed fs_inv (Vfs.set_files fs v).
Proof. intros []. by split. Qed.

Lemma on_kernel_typed {R} (m : M Process.state R) Q :
  keeps (kernel_typed lo hi) m Q -> keeps sys_typed (SysFile.on_kernel m) Q.
Proof. intros Hm. apply (keeps_zoom _ (kernel_typed lo hi)); [done|by intros s []|]. intros s k [] Hk. by split. Qed.

Lemma current_proc_typed : keeps sys_typed SysFile.current_proc anything.
Proof. apply on_kernel_typed. keeps_auto. Qed.
Hint Resolve current_proc_typed : keeps.

(** A file operation works on the pages of the kernel and leaves its results
    there. *)
Lemma on_files_typed {R} (m : Z -> M (ProcFile.state A) R) :
  (forall pf, keeps (files_typed (vfs_typed fs_inv)) (m pf) anything) -> keeps sys_typed (SysFile.on_files m) anything.
Proof.
  intros Hm. unfold SysFile.on_files. keeps_step. apply (keeps_zoom _ (files_typed (vfs_typed fs_inv))); [apply Hm|..].
  - intros s [Hk [Hv1 Hv2 Hv3]]. split; [|done|done]. apply (ri_set_pages (I := fs_inv)); [done|]. unfold pages_typed. rewrite kp_get_set.
    split; [apply Hk|]. apply Hrest, (ft_pages _ _ _ Hv1).
  - intros s t [Hk _] Ht. pose proof (ft_pages _ _ _ (vt_fs _ _ Ht)) as [Hb _]. split; [|done]. destruct Hk. split; try done. simpl. by destruct (_ =? _).
Qed.

Lemma user_pointer_typed va : keeps sys_typed (SysFile.user_pointer va) anything.
Proof.
  unfold SysFile.user_pointer. keeps_step. keeps_step; [apply on_kernel_typed, lift_typed; keeps_auto|]. keeps_auto.
Qed.
Hint Resolve user_pointer_typed : keeps.
Lemma user_path_typed va : keeps sys_typed (SysFile.user_path va) anything.
Proof. unfold SysFile.user_path. keeps_auto. Qed.
Lemma write_bytes_typed a bs : keeps sys_typed (SysFile.write_bytes a bs) anything.
Proof. apply on_kernel_typed. keeps_auto. Qed.
Hint Resolve user_path_typed write_bytes_typed : keeps.

Ltac file_call := apply on_files_typed; intros ?; first
  [ eapply do_open_typed; [exact set_files_typed|exact vfs_inv_keeps] | eapply do_read_typed; exact vfs_inv_keeps
  | eapply do_write_typed; exact vfs_inv_keeps | eapply do_lseek_typed; exact vfs_inv_keeps | eapply do_stat_typed; exact vfs_inv_keeps
  | eapply do_disk_stat_typed; exact vfs_inv_keeps | eapply do_close_typed; exact vfs_inv_keeps
  | eapply do_opendir_typed; [exact set_files_typed|exact vfs_inv_keeps] | eapply do_readdir_typed; exact vfs_inv_keeps
  | eapply do_mkdir_typed; exact vfs_inv_keeps | eapply do_closedir_typed; exact vfs_inv_keeps
  | eapply do_link_typed; exact vfs_inv_keeps | eapply do_unlink_typed; exact vfs_inv_keeps ].
Hint Extern 1 (keeps _ (SysFile.on_files _) _) => file_call : keeps.

Lemma page_loop_typed n op : (forall pa off len, keeps sys_typed (op pa off len) anything) ->
  forall va i count, keeps sys_typed (SysFile.page_loop n op va i count) anything.
Proof.
  intros Hop. induction n as [|n IH]; intros va i count; cbn [SysFile.page_loop]; [keeps_auto|]. keeps_step; [|keeps_auto]. cbv zeta.
  keeps_step. keeps_step; [apply on_kernel_typed, lift_typed; keeps_auto|]. keeps_auto.
Qed.

Lemma sys_user_read_typed u fd va n : keeps sys_typed (SysFile.sys_user_read i_ops u fd va n) anything.
Proof. apply page_loop_typed. intros. unfold SysFile.read_chunk. keeps_auto. Qed.
Lemma sys_user_write_typed fd va n : keeps sys_typed (SysFile.sys_user_write i_ops fd va n) anything.
Proof. apply page_loop_typed. intros. unfold SysFile.write_chunk. keeps_auto. Qed.
Hint Resolve sys_user_read_typed sys_user_write_typed : keeps.

Lemma do_syscall_typed filter u a0 a1 a2 a3 a4 a5 a6 a7 :
  keeps sys_typed (SysFile.do_syscall i_ops filter u a0 a1 a2 a3 a4 a5 a6 a7) anything.
Proof.
  unfold SysFile.do_syscall, SysFile.sys_user_open, SysFile.sys_user_lseek, SysFile.sys_user_stat, SysFile.sys_user_disk_stat,
    SysFile.sys_user_close, SysFile.sys_user_opendir, SysFile.sys_user_readdir, SysFile.sys_user_mkdir, SysFile.sys_user_closedir,
    SysFile.sys_user_link, SysFile.sys_user_unlink.
  keeps_auto. apply on_kernel_typed, process_syscall_typed. intros. keeps_auto.
Qed.
End calls.
