(* ===== verification/Kernel.v ===== *)
(** * [kernel/kernel.c]: the start of the kernel, and the kernel as a whole

    The state puts the components together: the processes with the memory they
    share with everything else, the file systems, and what [kernel/vmm.c] and
    [kernel/pmm.c] keep in globals.  A component runs on its view of that state:
    the pages of the file systems are those of the kernel, the table of host
    files is the one of the file systems; the buffers that [kernel/hostfs.c]
    passes to the host lie on the kernel's stack, in a memory of their own.
    [s_start] is the entry from machine mode, [trap] the entry from user mode;
    both end by returning to user mode. *)

From stdpp Require Import base gmap list numbers strings.
From Stdlib Require Import ZArith Lia.
From S2P Require Import Prelude Pmm Vmm HashTable Bytes ByteMem Rfs Vfs ProcFile Process SpikeFile Hostfs Mount Elf Sched Trap SysFile.
Local Open Scope Z_scope.

(** The kernel's pages inside the allocator state of the file systems. *)
#[global] Instance host_pages {H : Type} : KernelPages (HostPages.state Pmm.state H).
Proof.
  refine {| kp_get := HostPages.alloc; kp_set := HostPages.set_alloc |}; try done. by intros [].
Defined.

Module Kernel.
Section ops.
Context `{KS : KernelSymbols} {H : Type} `{FE : Frontend H}.
(** The linker symbols [_etext] and [_end]. *)
Context (etext kend : Z).
(** The addresses of [spike_files] and of the local variables passed to the
    host: [ctx->ehdr], [ph_addr] and [arg_bug_msg] of the loader, [path], [buf] of
    [spike_file_stat] and the buffer of a transfer of the host file system. *)
Context (ehdr_addr ph_addr arg_addr spike_files_addr path_addr stat_addr buf_addr : Z).
(** What fresh pages hold where a vinode is allocated, and what the stack holds
    in [root_dinode.addrs], in [free_block_filter] of [do_fork] and in [buffer]
    of [do_read]. *)
Context (garbage : Z -> vinode) (uninit filter buffer : list Z).
Notation pages := (HostPages.state Pmm.state H).

Record state := mk {
  kernel : Process.state;
  mount : Mount.state Pmm.state H;
  g_mem_size : Z;
  g_kernel_pagetable : Z;
}.

Definition set_kernel (k : Process.state) (s : state) : state := mk k (mount s) (g_mem_size s) (g_kernel_pagetable s).
Definition set_mount (t : Mount.state Pmm.state H) (s : state) : state := mk (kernel s) t (g_mem_size s) (g_kernel_pagetable s).
Definition set_mem_size (n : Z) (s : state) : state := mk (kernel s) (mount s) n (g_kernel_pagetable s).
Definition set_pagetable (p : Z) (s : state) : state := mk (kernel s) (mount s) (g_mem_size s) p.

(** ** The views of the components *)
Definition on_kernel {A} (m : M Process.state A) : M state A := zoom kernel set_kernel m.
Definition on_pmm {A} (m : M Pmm.state A) : M state A := on_kernel (lift m).

Definition fs_pages (t : Mount.state Pmm.state H) : pages := Rfs.pages (Vfs.fs (Mount.vfs t)).
Definition with_fs_pages (p : pages) (t : Mount.state Pmm.state H) : Mount.state Pmm.state H :=
  Mount.set_vfs (Vfs.set_fs (Rfs.set_pages p (Vfs.fs (Mount.vfs t))) (Mount.vfs t)) t.
Definition set_root (d : Z) (k : Process.state) : Process.state :=
  mk_state (pmm k) (procs k) (current k) (ready_queue_head k) (hart k) (g_ticks k) d.

(** The file systems work on the kernel's pages, and [vfs_root_dentry] is seen by
    the processes. *)
Definition mount_view (s : state) : Mount.state Pmm.state H :=
  with_fs_pages (HostPages.set_alloc (pmm (kernel s)) (fs_pages (mount s))) (mount s).
Definition set_mount_view (t : Mount.state Pmm.state H) (s : state) : state :=
  set_mount t (set_kernel (set_root (Vfs.vfs_root_dentry (Mount.vfs t)) (with_pmm (HostPages.alloc (fs_pages t)) (kernel s))) s).
Definition on_mount {A} (m : M (Mount.state Pmm.state H) A) : M state A := zoom mount_view set_mount_view m.

(** The loader works on the memory of the kernel and on the table of host
    files. *)
Definition elf_view (s : state) : Elf.state H :=
  let t := HostPages.spike (fs_pages (mount s)) in
  Elf.mk (kernel s) (Spike.host t) (Spike.spike_fds t) (Spike.spike_files t) (Spike.lock t).
Definition set_elf_view (e : Elf.state H) (s : state) : state :=
  let p := fs_pages (mount s) in
  let t := Spike.mk (Spike.mem (HostPages.spike p)) (Elf.host e) (Elf.spike_fds e) (Elf.spike_files e) (Elf.lock e) in
  set_mount (with_fs_pages (HostPages.mk (HostPages.alloc p) t) (mount s)) (set_kernel (Elf.kernel e) s).
Definition on_elf {A} (m : M (Elf.state H) A) : M state A := zoom elf_view set_elf_view m.

(** The system calls work on the processes and on the virtual file system. *)
Definition sys_view (s : state) : SysFile.state pages := SysFile.mk (kernel s) (Mount.vfs (mount s)).
Definition set_sys_view (t : SysFile.state pages) (s : state) : state :=
  set_mount (Mount.set_vfs (SysFile.vfs t) (mount s)) (set_kernel (SysFile.kernel t) s).
Definition on_sys {A} (m : M (SysFile.state pages) A) : M state A := zoom sys_view set_sys_view m.

(** ** The start *)
Definition write_satp (v : Z) : M Process.state unit := modify (fun s =>
  let c := hart s in
  with_hart (mk_cpu (stvec c) v (sstatus c) (sepc c) (scause c) (stval c) (sip c) (sscratch c) (regs c)) s).

(** The model has no translation cache: [flush_tlb] is no step. *)
Definition enable_paging : M state unit :=
  root <- gets g_kernel_pagetable ;;
  on_kernel (write_satp (MAKE_SATP root)).

Definition load_user_program : M state nat :=
  proc <- on_kernel Process.alloc_process ;;
  on_elf (Elf.load_bincode_from_host_elf ehdr_addr ph_addr arg_addr proc) ;;
  ret proc.

(** The pages of the RAM disk hold what was in memory before. *)
Definition page_bytes (s : state) (p : Z) : list Z := load_bytes (mem (kernel s)) p PGSIZE.

Definition s_start : M state Z :=
  on_kernel (write_satp 0) ;;
  n <- gets g_mem_size ;;
  n <- on_pmm (Pmm.pmm_init kend n) ;;
  modify (set_mem_size n) ;;
  root <- on_pmm (Vmm.kern_vm_init etext) ;;
  modify (set_pagetable root) ;;
  enable_paging ;;
  on_kernel Process.init_proc_pool ;;
  raw <- gets page_bytes ;;
  on_mount (Mount.fs_init garbage raw uninit) ;;
  proc <- load_user_program ;;
  on_kernel (Sched.insert_to_ready_queue proc) ;;
  on_kernel (Sched.schedule (A := unit)) ;;
  ret 0.

(** ** Traps, with all system calls *)
(** [i_ops] of the inodes: the first super block is the host's. *)
Definition host_sb (s : state) : Z := nth 0 (Mount.vfs_sb_list (mount s)) 0.

Definition do_syscall (a0 a1 a2 a3 a4 a5 a6 a7 : Z) : M state Z :=
  sb <- gets host_sb ;;
  on_sys (SysFile.do_syscall (Hostfs.mounted_i_ops spike_files_addr path_addr stat_addr buf_addr garbage sb)
            filter buffer a0 a1 a2 a3 a4 a5 a6 a7).

Definition handle_syscall (tf : Z) : M state unit :=
  epc <- on_kernel (load (tf + tf_epc)) ;;
  on_kernel (store (tf + tf_epc) (u64 (epc + 4))) ;;
  a0 <- on_kernel (load (tf + tf_a0)) ;;
  a1 <- on_kernel (load (tf + tf_a0 + 8)) ;;
  a2 <- on_kernel (load (tf + tf_a0 + 16)) ;;
  a3 <- on_kernel (load (tf + tf_a0 + 24)) ;;
  a4 <- on_kernel (load (tf + tf_a0 + 32)) ;;
  a5 <- on_kernel (load (tf + tf_a0 + 40)) ;;
  a6 <- on_kernel (load (tf + tf_a0 + 48)) ;;
  a7 <- on_kernel (load (tf + tf_a0 + 56)) ;;
  r <- do_syscall a0 a1 a2 a3 a4 a5 a6 a7 ;;
  on_kernel (store (tf + tf_a0) (u64 r)).

Definition smode_trap_handler : M state unit :=
  x <- gets (fun s => sstatus (hart (kernel s))) ;;
  if has x SSTATUS_SPP then panic "usertrap: not from user mode"
  else
    c <- gets (fun s => current (kernel s)) ;;
    match c with
    | None => panic "assertion failed: current"
    | Some i =>
        p <- on_kernel (get_proc i) ;;
        pc <- gets (fun s => sepc (hart (kernel s))) ;;
        on_kernel (store (trapframe p + tf_epc) pc) ;;
        cause <- gets (fun s => scause (hart (kernel s))) ;;
        (if cause =? CAUSE_USER_ECALL then handle_syscall (trapframe p)
         else if cause =? CAUSE_MTIMER_S_TRAP then on_kernel Trap.handle_mtimer_trap ;; on_kernel Trap.rrsched
         else if (cause =? CAUSE_STORE_PAGE_FAULT) || (cause =? CAUSE_LOAD_PAGE_FAULT) then
           tv <- gets (fun s => stval (hart (kernel s))) ;;
           on_kernel (Trap.handle_user_page_fault cause pc tv)
         else panic "unexpected exception happened.") ;;
        cur <- gets (fun s => current (kernel s)) ;;
        on_kernel (Process.switch_to cur)
    end.

Definition trap : M state unit := on_kernel Trap.smode_trap_vector ;; smode_trap_handler.
End ops.
Arguments state H : clear implicits.
End Kernel.
