(* ===== verification/KernelSafe.v ===== *)
(** * The running kernel: every state between user mode and a trap is typed

    After [s_start] the machine alternates between user code and traps.  User
    code may change the registers and the memory it can write; a trap is
    [Kernel.trap].  The shape of the whole state, that of the processes and that
    of the file systems with the host's files below them, is kept by every trap,
    whatever the user did, whatever the arguments of a system call are and
    whatever the host answers. *)

From stdpp Require Import base gmap list numbers strings.
From Stdlib Require Import ZArith Lia.
From S2P Require Import Prelude Keeps Pmm Vmm HashTable Bytes ByteMem Rfs RfsDisk Vfs ProcFile RfsTypes VfsTypes Process SpikeFile.
From S2P Require Import Hostfs HostTypes Mount Elf Sched Trap SysFile KernelTypes Kernel.
Local Open Scope Z_scope.

Section run.
Context `{KS : KernelSymbols} {H : Type} `{FE : Frontend H}.
Context (spike_files_addr path_addr stat_addr buf_addr : Z).
Context (garbage : Z -> vinode) (filter buffer : list Z).
Notation trap := (Kernel.trap spike_files_addr path_addr stat_addr buf_addr garbage filter buffer).

(** ** User mode *)
(** A word that user code may write: its page is mapped with [PTE_U] and
    [PTE_W]. *)
Definition user_writable (root : Z) (m : memory) (a : Z) : Prop :=
  exists va e, 0 <= va < MAXVA /\ xlate root m va = Some e /\ has e PTE_U = true /\ has e PTE_W = true /\
    PTE2PA e = ROUNDDOWN a PGSIZE.

(** From the return to user mode to the next trap: the registers and the memory
    of the user change, and the hardware records the trap, which comes from user
    mode. *)
Record user_mode (s s' : Kernel.state H) : Prop := {
  um_state : exists m c, s' = Kernel.set_kernel (with_hart c (with_pmm (Pmm.set_mem m (pmm (Kernel.kernel s))) (Kernel.kernel s))) s;
  um_memory : forall root a, satp (hart (Kernel.kernel s)) = MAKE_SATP root ->
    ~ user_writable root (mem (Kernel.kernel s)) a -> ld64 (mem (Kernel.kernel s')) a = ld64 (mem (Kernel.kernel s)) a;
  um_regs : length (regs (hart (Kernel.kernel s'))) = 31%nat;
  um_hart : stvec (hart (Kernel.kernel s')) = stvec (hart (Kernel.kernel s)) /\
    satp (hart (Kernel.kernel s')) = satp (hart (Kernel.kernel s)) /\ sscratch (hart (Kernel.kernel s')) = sscratch (hart (Kernel.kernel s));
  um_mode : has (sstatus (hart (Kernel.kernel s'))) SSTATUS_SPP = false;
}.

(** The states at a return to user mode. *)
Inductive runs (s : Kernel.state H) : Kernel.state H -> Prop :=
| runs_start : runs s s
| runs_trap s1 s2 s3 : runs s s1 -> user_mode s1 s2 -> trap s2 = ToUser s3 -> runs s s3.

(** ** The shape of the state *)
Section typed.
Context (lo hi : Z).

Definition host_typed (a : HostPages.state Pmm.state H) : Prop := spike_typed (HostPages.spike a).
Notation pages_inv := (pages_typed lo hi host_typed).

Record whole_typed (s : Kernel.state H) : Prop := {
  wt_kernel : kernel_typed lo hi (Kernel.kernel s);
  wt_vfs : vfs_typed (fs_typed pages_inv) (Mount.vfs (Kernel.mount s));
}.

Context (Hgarbage : forall p, vinode_typed (garbage p)).

Lemma host_typed_set p a : host_typed a -> host_typed (kp_set p a).
Proof. done. Qed.

Lemma mounted_ops_typed sb : ops_keep (fs_typed pages_inv) (Hostfs.mounted_i_ops spike_files_addr path_addr stat_addr buf_addr garbage sb).
Proof.
  apply (mounted_i_ops_keep (fs_typed pages_inv) pages_inv vinode_typed block_typed
    (RI := fs_inv_invariant lo hi host_typed host_typed_set)); auto.
  - by intros a [].
  - intros a t [Ha _] Ht. by split.
Qed.

Lemma kernel_part_typed {R} (m : M Process.state R) Q :
  keeps (kernel_typed lo hi) m Q -> keeps whole_typed (Kernel.on_kernel m) Q.
Proof. intros Hm. apply (keeps_zoom _ (kernel_typed lo hi)); [done|by intros s []|]. intros s k [] Hk. by split. Qed.

Lemma whole_syscall_typed a0 a1 a2 a3 a4 a5 a6 a7 :
  keeps whole_typed (Kernel.do_syscall spike_files_addr path_addr stat_addr buf_addr garbage filter buffer a0 a1 a2 a3 a4 a5 a6 a7) anything.
Proof.
  unfold Kernel.do_syscall. apply (keeps_bind _ _ _ anything); [by apply keeps_gets|]. intros sb _. apply (keeps_zoom _ (sys_typed lo hi host_typed)).
  - apply do_syscall_typed; [exact host_typed_set|apply mounted_ops_typed].
  - intros s []. by split.
  - intros s t [] []. by split.
Qed.

Hint Resolve whole_syscall_typed smode_trap_vector_typed handle_mtimer_trap_typed handle_user_page_fault_typed rrsched_typed
  get_proc_typed update_mem_typed load_typed store_typed : keeps.
Hint Extern 1 (keeps _ (Kernel.on_kernel _) _) => apply kernel_part_typed : keeps.

Lemma trap_typed : keeps whole_typed trap anything.
Proof.
  unfold Kernel.trap, Kernel.smode_trap_handler, Kernel.handle_syscall. keeps_step. keeps_step; [keeps_auto|].
  keeps_step; [keeps_auto|]. keeps_step; [keeps_auto|]. destruct a1 as [i|]; [|keeps_auto].
  keeps_step. keeps_step; [keeps_auto|]. keeps_step. keeps_step; [keeps_auto|].
  apply (keeps_bind _ _ _ anything); [keeps_auto|]. intros _ _.
  apply (keeps_bind _ _ _ pool_ptr); [apply keeps_gets; by intros s [[]]|]. intros c Hc. by apply kernel_part_typed, switch_to_typed.
Qed.

Lemma user_mode_typed s s' : user_mode s s' -> whole_typed s -> whole_typed s'.
Proof. intros [(m & c & ->) _ Hr _ _] [[] Hv]. split; [|done]. by split. Qed.
End typed.

Lemma runs_typed lo hi s s' : (forall p, vinode_typed (garbage p)) -> whole_typed lo hi s -> runs s s' -> whole_typed lo hi s'.
Proof.
  intros Hg Hs Hrun. induction Hrun as [|s1 s2 s3 _ IH Hu Ht]; [done|].
  eapply (keeps_ToUser (whole_typed lo hi)); [by apply trap_typed| |exact Ht]. by eapply user_mode_typed.
Qed.

End run.
