(* ===== verification/Neutral.v ===== *)
(** * What the scheduler reads, and the routines that leave it alone

    The scheduling policy depends on the running process, the head of the ready
    queue, and the status, queue link, trapframe pointer and tick count of every
    process: the [footprint] of a state.  Memory management, the file systems,
    the file system calls and the copying done by [do_fork] do not change it,
    whatever their arguments are. *)

From stdpp Require Import base gmap list numbers strings.
From Stdlib Require Import ZArith Lia.
From S2P Require Import Prelude Keeps Pmm Vmm Vfs ProcFile Process Sched Trap SysFile KernelTypes.
Local Open Scope Z_scope.

Definition core (p : process) : proc_status * option nat * Z * Z :=
  (status p, queue_next p, trapframe p, tick_count p).

Definition footprint (s : state) : option nat * option nat * list (proc_status * option nat * Z * Z) :=
  (current s, ready_queue_head s, core <$> procs s).

(** The states with the footprint of [s0]. *)
Definition as_in (s0 s : state) : Prop := footprint s = footprint s0.

Lemma keeps_true {S A} (m : M S A) : keeps (fun _ => True) m anything.
Proof. intros s _. by destruct (m s). Qed.

Section neutral.
Context `{KernelSymbols} (s0 : state).
Notation neutral m := (stays (as_in s0) m anything).

(** Memory management never leaves for user mode. *)
Lemma lift_neutral {A} (m : M Pmm.state A) : (forall lo hi, stays (bounds lo hi) m anything) -> neutral (lift m).
Proof.
  intros Hm s Hs. specialize (Hm _ _ (pmm s) (conj eq_refl eq_refl)). unfold lift, zoom.
  by destruct (m (pmm s)).
Qed.
Hint Extern 1 (keeps_to _ _ (lift _) _) => apply lift_neutral; intros ? ? : keeps.
Lemma update_mem_neutral f : neutral (update_mem f).
Proof. by apply keeps_modify. Qed.
Lemma load_neutral a : neutral (load a).
Proof. unfold load. keeps_auto. Qed.
Lemma load32_neutral a : neutral (load32 a).
Proof. unfold load32. keeps_auto. Qed.
Lemma store_neutral a v : neutral (store a v).
Proof. apply update_mem_neutral. Qed.
Lemma store32_neutral a v : neutral (store32 a v).
Proof. apply update_mem_neutral. Qed.
Lemma nonnull_neutral p w : stays (as_in s0) (nonnull p w) (fun _ => p <> 0).
Proof. unfold nonnull. destruct (Z.eqb_spec p 0); [keeps_auto|]. by apply keeps_ret. Qed.
Lemma assert_neutral b w : neutral (assert b w).
Proof. unfold assert. keeps_auto. Qed.
Lemma get_proc_neutral i : neutral (get_proc i).
Proof. by apply keeps_of_option. Qed.
Lemma the_current_neutral : neutral the_current.
Proof. by apply keeps_of_option. Qed.
Lemma with_ticks_neutral (f : state -> Z) : neutral (modify (fun s => with_ticks (f s) s)).
Proof. by apply keeps_modify. Qed.
Lemma with_hart_neutral (f : state -> cpu) : neutral (modify (fun s => with_hart (f s) s)).
Proof. by apply keeps_modify. Qed.

Lemma upd_proc_neutral i f : (forall p, core (f p) = core p) -> neutral (upd_proc i f).
Proof.
  intros Hf. apply keeps_modify. unfold as_in, footprint. intros s Hs. cbn. rewrite <- Hs. f_equal.
  apply list_eq. intros j. rewrite !list_lookup_fmap. destruct (decide (i = j)) as [->|Hne].
  - rewrite list_lookup_alter_eq. destruct (procs s !! j); [|done]. simpl. by rewrite Hf.
  - by rewrite list_lookup_alter_ne.
Qed.

Hint Resolve update_mem_neutral load_neutral load32_neutral store_neutral store32_neutral nonnull_neutral assert_neutral
  get_proc_neutral the_current_neutral with_ticks_neutral : keeps.
Hint Extern 2 (keeps_to _ _ (upd_proc _ _) _) => apply upd_proc_neutral; intros []; reflexivity : keeps.
Hint Extern 1 (keeps_to _ _ (Process.write_sip _) _) => apply with_hart_neutral : keeps.

(** ** Processes *)
Lemma register_region_neutral mi i va n seg : neutral (Process.register_region mi i va n seg).
Proof. unfold Process.register_region. keeps_auto. Qed.
Lemma init_proc_file_management_neutral : neutral Process.init_proc_file_management.
Proof. unfold Process.init_proc_file_management. keeps_auto. Qed.
Hint Resolve register_region_neutral init_proc_file_management_neutral : keeps.

(** ** The copies of [do_fork] *)
Lemma mark_free_neutral hb free : forall filter, neutral (Trap.mark_free hb free filter).
Proof. induction free as [|va free IH]; intros; cbn [Trap.mark_free]; unfold Trap.set_filter; keeps_auto. Qed.
Lemma copy_page_neutral d p : neutral (Trap.copy_page d p).
Proof. unfold Trap.copy_page. keeps_auto. Qed.
Hint Resolve mark_free_neutral copy_page_neutral : keeps.
Lemma copy_heap_neutral n : forall c p filter hb b top, neutral (Trap.copy_heap n c p filter hb b top).
Proof. induction n as [|n IH]; intros; cbn [Trap.copy_heap]; keeps_auto. Qed.
Hint Resolve copy_heap_neutral : keeps.
Lemma fork_region_neutral uninit c p i : neutral (Trap.fork_region uninit c p i).
Proof. unfold Trap.fork_region. keeps_auto. Qed.
Hint Resolve fork_region_neutral : keeps.
Lemma fork_regions_neutral uninit c p n : forall i, neutral (Trap.fork_regions uninit c p n i).
Proof. induction n as [|n IH]; intros; cbn [Trap.fork_regions]; keeps_auto. Qed.

(** ** System calls and faults *)
Lemma sys_user_print_neutral b n : neutral (Trap.sys_user_print b n).
Proof. unfold Trap.sys_user_print. keeps_auto. Qed.
Lemma sys_user_allocate_page_neutral : neutral Trap.sys_user_allocate_page.
Proof. unfold Trap.sys_user_allocate_page. keeps_auto. Qed.
Lemma sys_user_free_page_neutral va : neutral (Trap.sys_user_free_page va).
Proof. unfold Trap.sys_user_free_page. keeps_auto. Qed.
Lemma handle_user_page_fault_neutral c pc tv : neutral (Trap.handle_user_page_fault c pc tv).
Proof. unfold Trap.handle_user_page_fault. keeps_auto. Qed.
Lemma handle_mtimer_trap_neutral : neutral Trap.handle_mtimer_trap.
Proof. unfold Trap.handle_mtimer_trap. keeps_auto. Qed.
Hint Resolve sys_user_print_neutral sys_user_allocate_page_neutral sys_user_free_page_neutral : keeps.

(** ** The file system calls *)
Section files.
Context {A : Type} `{KP : KernelPages A} (i_ops : vinode_ops A).
Definition kernel_as_in (s : SysFile.state A) : Prop := as_in s0 (SysFile.kernel s).
Notation silent m := (keeps kernel_as_in m anything).

Lemma on_kernel_silent {R} (m : M state R) : neutral m -> silent (SysFile.on_kernel m).
Proof. intros Hm. apply (keeps_zoom _ (as_in s0)); [by apply keeps_stays|done..]. Qed.
Lemma current_proc_silent : silent SysFile.current_proc.
Proof. apply on_kernel_silent. keeps_auto. Qed.
Hint Resolve current_proc_silent : keeps.

(** A file operation changes no more of the processes than the pages. *)
Lemma on_files_silent {R} (m : Z -> M (ProcFile.state A) R) : silent (SysFile.on_files m).
Proof.
  unfold SysFile.on_files. keeps_step. by apply (keeps_zoom _ (fun _ => True)); [apply keeps_true|..].
Qed.
Lemma user_pointer_silent va : silent (SysFile.user_pointer va).
Proof. unfold SysFile.user_pointer. keeps_step. keeps_step; [apply on_kernel_silent; keeps_auto|]. keeps_auto. Qed.
Hint Resolve on_files_silent user_pointer_silent : keeps.
Lemma user_path_silent va : silent (SysFile.user_path va).
Proof. unfold SysFile.user_path. keeps_auto. Qed.
Lemma write_bytes_silent a bs : silent (SysFile.write_bytes a bs).
Proof. apply on_kernel_silent. keeps_auto. Qed.
Hint Resolve user_path_silent write_bytes_silent : keeps.

Lemma page_loop_silent n op : (forall pa off len, silent (op pa off len)) ->
  forall va i count, silent (SysFile.page_loop n op va i count).
Proof.
  intros Hop. induction n as [|n IH]; intros va i count; cbn [SysFile.page_loop]; [keeps_auto|]. keeps_step; [|keeps_auto]. cbv zeta.
  keeps_step. keeps_step; [apply on_kernel_silent; keeps_auto|]. keeps_auto.
Qed.
Lemma sys_user_read_silent u fd va n : silent (SysFile.sys_user_read i_ops u fd va n).
Proof. apply page_loop_silent. intros. unfold SysFile.read_chunk. keeps_auto. Qed.
Lemma sys_user_write_silent fd va n : silent (SysFile.sys_user_write i_ops fd va n).
Proof. apply page_loop_silent. intros. unfold SysFile.write_chunk. keeps_auto. Qed.
Hint Resolve sys_user_read_silent sys_user_write_silent : keeps.

(** Every call but exit, fork and yield leaves the scheduler alone. *)
Definition scheduling_call (a0 : Z) : bool := (a0 =? SYS_user_exit) || (a0 =? SYS_user_fork) || (a0 =? SYS_user_yield).

Lemma process_syscall_neutral filter a0 a1 a2 a3 a4 a5 a6 a7 : scheduling_call a0 = false ->
  neutral (Trap.do_syscall (fun _ _ => panic "Unknown syscall") filter a0 a1 a2 a3 a4 a5 a6 a7).
Proof.
  unfold scheduling_call. intros [[E1 E2]%orb_false_iff E3]%orb_false_iff. unfold Trap.do_syscall. rewrite E1, E2, E3. keeps_auto.
Qed.

Lemma do_syscall_silent filter u a0 a1 a2 a3 a4 a5 a6 a7 : scheduling_call a0 = false ->
  silent (SysFile.do_syscall i_ops filter u a0 a1 a2 a3 a4 a5 a6 a7).
Proof.
  intros Hc.
  unfold SysFile.do_syscall, SysFile.sys_user_open, SysFile.sys_user_lseek, SysFile.sys_user_stat, SysFile.sys_user_disk_stat,
    SysFile.sys_user_close, SysFile.sys_user_opendir, SysFile.sys_user_readdir, SysFile.sys_user_mkdir, SysFile.sys_user_closedir,
    SysFile.sys_user_link, SysFile.sys_user_unlink.
  keeps_auto. by apply on_kernel_silent, process_syscall_neutral.
Qed.
End files.
End neutral.
#[export] Hint Resolve update_mem_neutral load_neutral store_neutral nonnull_neutral get_proc_neutral the_current_neutral
  register_region_neutral init_proc_file_management_neutral fork_regions_neutral handle_user_page_fault_neutral
  handle_mtimer_trap_neutral : keeps.
#[export] Hint Extern 1 (keeps_to _ (as_in _) (lift _) _) => apply lift_neutral; intros ? ? : keeps.
#[export] Hint Extern 2 (keeps_to _ (as_in _) (upd_proc _ _) _) => apply upd_proc_neutral; intros []; reflexivity : keeps.

(** ** What is read off a footprint *)
Lemma footprint_lookup s s' i p' : as_in s s' -> procs s' !! i = Some p' -> exists p, procs s !! i = Some p /\ core p' = core p.
Proof.
  unfold as_in, footprint. intros [= _ _ Hp] Hi.
  assert ((core <$> procs s') !! i = Some (core p')) as E by (by rewrite list_lookup_fmap, Hi).
  rewrite Hp, list_lookup_fmap in E. apply fmap_Some in E as (p & ? & ?). by exists p.
Qed.

Lemma footprint_status s s' i : as_in s s' -> Sched.status_at s' i = Sched.status_at s i.
Proof.
  unfold as_in, footprint, Sched.status_at. intros [= _ _ Hp].
  assert ((core <$> procs s') !! i = (core <$> procs s) !! i) as E by (by rewrite Hp).
  rewrite !list_lookup_fmap in E. destruct (procs s' !! i), (procs s !! i); try done. simpl. unfold core in E. simpl in E. by simplify_eq/=; f_equal.
Qed.

Lemma footprint_linked s s' q : as_in s s' -> forall h, Sched.linked (procs s) h q -> Sched.linked (procs s') h q.
Proof.
  unfold as_in, footprint. intros [= _ _ Hp] h. apply Sched.linked_ext. intros i _.
  assert ((core <$> procs s') !! i = (core <$> procs s) !! i) as E by (by rewrite Hp).
  rewrite !list_lookup_fmap in E. destruct (procs s' !! i), (procs s !! i); try done. simpl. unfold core in E. simpl in E. by simplify_eq/=; f_equal.
Qed.

Lemma footprint_view s s' c q : as_in s s' -> Sched.view s c q -> Sched.view s' c q.
Proof.
  intros Hs [[Hl Hnd] Hc Hr Hu Htf]. assert (current s' = current s /\ ready_queue_head s' = ready_queue_head s) as [E1 E2].
  { unfold as_in, footprint in Hs. by injection Hs. }
  split.
  - split; [|done]. rewrite E2. by apply (footprint_linked s).
  - congruence.
  - intros i. rewrite (footprint_status s s' i Hs). apply Hr.
  - intros i. rewrite (footprint_status s s' i Hs). apply Hu.
  - intros i p' Hp' Hi. destruct (footprint_lookup s s' i p' Hs Hp') as (p & Hp & Ec). injection Ec as _ _ -> _. by apply (Htf i p Hp).
Qed.
