(* ===== verification/Policy.v ===== *)
(** * The scheduling policy of the whole kernel

    The policy is an abstract machine: the running process, the ready queue in
    its order, and the number of ticks every process has used of its slice.  It
    moves on the events [Tick], [Yield], [Exit] and [Fork]; every other trap is
    [Silent].  [kernel_trap] below relates the trap path of the whole kernel to
    it: whatever the cause, the arguments and the state of the file systems are,
    a trap that returns to user mode makes exactly the move of its event, and
    timer and yield always return.  Fairness follows for every run of the kernel,
    with all its system calls and faults. *)

From stdpp Require Import base gmap list numbers strings.
From Stdlib Require Import ZArith Lia.
From S2P Require Import Prelude Keeps Pmm Vmm HashTable Vfs Process SpikeFile Hostfs Mount Elf Sched Trap TrapSpec SysFile Rfs.
From S2P Require Import KernelTypes Kernel KernelSafe Neutral.
Local Open Scope Z_scope.

(** ** The abstract machine *)
Record policy := mk_policy { run : nat; ready : list nat; spent : nat -> Z }.

Definition set_spent (f : nat -> Z) (i : nat) (v : Z) : nat -> Z := fun j => if decide (j = i) then v else f j.

Inductive event := Tick | Yield | Exit | Fork | Silent.
#[global] Instance event_eq_dec : EqDecision event.
Proof. solve_decision. Defined.

(** The event of a trap with the given cause and call number. *)
Definition event_of (cause number : Z) : event :=
  if cause =? CAUSE_USER_ECALL then
    if number =? SYS_user_yield then Yield
    else if number =? SYS_user_exit then Exit
    else if number =? SYS_user_fork then Fork
    else Silent
  else if cause =? CAUSE_MTIMER_S_TRAP then Tick else Silent.

(** The new running process and queue when the running process goes to the end. *)
Definition rotate (a : policy) (f : nat -> Z) : policy :=
  let next := Sched.preempt (run a) (ready a) in mk_policy next.1 next.2 f.

Inductive policy_step : event -> policy -> policy -> Prop :=
| step_silent a : policy_step Silent a a
| step_tick a : spent a (run a) + 1 < TIME_SLICE_LEN ->
    policy_step Tick a (mk_policy (run a) (ready a) (set_spent (spent a) (run a) (spent a (run a) + 1)))
| step_slice_end a : TIME_SLICE_LEN <= spent a (run a) + 1 -> policy_step Tick a (rotate a (set_spent (spent a) (run a) 0))
| step_yield a : policy_step Yield a (rotate a (spent a))
| step_exit c i q f : policy_step Exit (mk_policy c (i :: q) f) (mk_policy i q f)
| step_fork a i : i <> run a -> i ∉ ready a -> policy_step Fork a (mk_policy (run a) (ready a ++ [i]) (spent a)).

(** The state of the processes as the policy sees it. *)
Record follows (a : policy) (s : state) : Prop := {
  fo_view : Sched.view s (run a) (ready a);
  fo_spent : forall i, ticks s i = spent a i;
}.

(** ** States with the same footprint *)
Lemma footprint_ticks s s' i : as_in s s' -> ticks s' i = ticks s i.
Proof.
  unfold as_in, footprint, ticks. intros [= _ _ Hp].
  assert ((core <$> procs s') !! i = (core <$> procs s) !! i) as E by (by rewrite Hp).
  rewrite !list_lookup_fmap in E. destruct (procs s' !! i), (procs s !! i); try done. unfold core in E. simpl in E. by simplify_eq/=.
Qed.

Lemma follows_ext a s s' : as_in s s' -> follows a s -> follows a s'.
Proof.
  intros Hs [Hv Ht]. split; [by apply (footprint_view s)|]. intros i. by rewrite (footprint_ticks s s' i Hs).
Qed.

(** A move of the queue that leaves tick counts as they are. *)
Lemma follows_same_but_queue s s' c q f :
  Sched.view s' c q -> Forall2 Sched.same_but_queue (procs s) (procs s') -> (forall i, ticks s i = f i) ->
  follows (mk_policy c q f) s'.
Proof. intros Hv Hf Ht. split; [done|]. intros i. simpl. by rewrite (proj2 (same_frames_of_queue s s' Hf)). Qed.

(** ** The outcome of a handler *)
(** It may stop only where [total] does not forbid it; when it returns, or
    leaves for user mode, the policy has made the move [e]. *)
Definition moves {S R} (kernel_of : S -> state) (total : bool) (e : event) (a : policy) (o : outcome S R) : Prop :=
  match o with
  | Ret _ s' | ToUser s' => exists a', policy_step e a a' /\ follows a' (kernel_of s')
  | _ => total = false
  end.

Section process.
Context `{KernelSymbols}.

Lemma yield_moves a s : follows a s -> exists s', Trap.sys_user_yield s = ToUser s' /\ follows (rotate a (spent a)) s'.
Proof.
  intros [Hv Ht]. pose proof (Sched.give_up_cpu_spec s _ _ Hv) as Hg. unfold rotate. destruct (Sched.preempt _ _) as [c' q'].
  destruct Hg as (p & s' & Heq & _ & Hv' & _ & Hf). exists s'. split; [|by apply (follows_same_but_queue s)].
  unfold Trap.sys_user_yield, the_current. unfold bind at 1. rewrite (Sched.v_current _ _ _ Hv). apply Heq.
Qed.

Lemma exit_moves a code s : follows a s -> moves id false Exit a (Trap.sys_user_exit code s).
Proof.
  destruct a as [c q f]. intros [Hv Ht]. simpl in *. unfold Trap.sys_user_exit, the_current. unfold bind at 1.
  rewrite (Sched.v_current _ _ _ Hv). cbn [of_option ret]. destruct q as [|i q].
  - rewrite (Sched.exit_last s c Hv). by destruct (forallb _ _).
  - destruct (Sched.exit_spec s c i q Hv) as (p & s' & Heq & _ & Hv' & _ & _ & Hf).
    rewrite Heq. exists (mk_policy i q f). split; [constructor|]. by apply (follows_same_but_queue s).
Qed.

Lemma tick_moves a s : follows a s -> moves id true Tick a (Trap.rrsched s).
Proof.
  intros [Hv Ht]. destruct (Sched.view_current_lookup s _ _ Hv) as (p & Hp & _).
  assert (tick_count p = spent a (run a)) as Hc by (rewrite <- Ht; unfold ticks; by rewrite Hp).
  unfold Trap.rrsched, the_current. unfold bind at 1. rewrite (Sched.v_current _ _ _ Hv). cbn [of_option ret].
  unfold get_proc. unfold bind at 1. rewrite Hp. cbn [of_option ret]. rewrite Hc.
  destruct (tick_update s (run a) p (spent a (run a) + 1) Hp) as [_ Ht1].
  pose proof (view_tick s _ _ (run a) (spent a (run a) + 1) Hv) as Hv1.
  unfold upd_proc at 1. rewrite bind_modify. set (s1 := with_procs _ s) in *.
  destruct (Z.leb_spec TIME_SLICE_LEN (spent a (run a) + 1)) as [Hle|Hlt].
  - assert (procs s1 !! run a = Some (set_tick_count (spent a (run a) + 1) p)) as Hp1
      by (unfold s1; cbn; by rewrite list_lookup_alter_eq, Hp).
    destruct (tick_update s1 (run a) _ 0 Hp1) as [_ Ht2]. pose proof (view_tick s1 _ _ (run a) 0 Hv1) as Hv2.
    unfold upd_proc at 1. rewrite bind_modify. set (s2 := with_procs _ s1) in *.
    pose proof (Sched.give_up_cpu_spec s2 _ _ Hv2) as Hg. destruct (Sched.preempt _ _) as [c' q'] eqn:Epre.
    destruct Hg as (p' & s' & Heq & _ & Hv' & _ & Hf). unfold Sched.give_up_cpu in Heq. rewrite Heq.
    exists (rotate a (set_spent (spent a) (run a) 0)). split; [by constructor|]. unfold rotate. rewrite Epre.
    apply (follows_same_but_queue s2); [done..|]. intros i. rewrite Ht2, Ht1, Ht. unfold set_spent. by destruct (decide _).
  - eexists. split; [by constructor|]. split; [done|]. intros i. rewrite Ht1, Ht. done.
Qed.

(** ** Fork *)
(** A routine that does not leave, with its result and its state. *)
Definition takes {A} (P : state -> Prop) (m : M state A) (Q : A -> state -> Prop) : Prop :=
  forall s, P s -> match m s with Ret a s' => Q a s' | ToUser _ => False | _ => True end.

Lemma takes_bind {A B} P (m : M state A) (k : A -> M state B) R Q :
  takes P m R -> (forall a, takes (R a) (k a) Q) -> takes P (bind m k) Q.
Proof. intros Hm Hk s Hs. specialize (Hm s Hs). unfold bind. destruct (m s); try done. by apply Hk. Qed.

(** A step that leaves the footprint alone keeps what depends on it alone. *)
Lemma takes_neutral {A B} (P : state -> Prop) (m : M state A) (k : A -> M state B) R Q :
  (forall s s', as_in s s' -> P s -> P s') -> (forall s0, stays (as_in s0) m R) ->
  (forall a, R a -> takes P (k a) Q) -> takes P (bind m k) Q.
Proof.
  intros HP Hm Hk s Hs. specialize (Hm s s eq_refl). unfold bind. destruct (m s) as [a s'|s'|?|?|?|] eqn:E; try done.
  destruct Hm as [Hs' HR]. apply (Hk a HR). by apply (HP s).
Qed.

Lemma takes_update {B} (P R : state -> Prop) i f (k : unit -> M state B) Q :
  (forall s, P s -> R (with_procs (alter f i (procs s)) s)) -> takes R (k tt) Q -> takes P (bind (upd_proc i f) k) Q.
Proof. intros Hf Hk s Hs. unfold upd_proc. rewrite bind_modify. apply Hk. by apply Hf. Qed.

Lemma takes_ret {A} P (a : A) (Q : A -> state -> Prop) : (forall s, P s -> Q a s) -> takes P (ret a) Q.
Proof. intros HQ s Hs. by apply HQ. Qed.

(** The slot [i] is chosen for a child: it is free; then it has a trapframe. *)
Definition chosen (a : policy) (i : nat) (s : state) : Prop := follows a s /\ Sched.status_at s i = Some FREE.
Definition framed (a : policy) (i : nat) (s : state) : Prop :=
  chosen a i s /\ forall p, procs s !! i = Some p -> trapframe p <> 0.
(** The child is ready, and not yet queued. *)
Record child_ready (a : policy) (i : nat) (s : state) : Prop := {
  cr_queue : Sched.queue s (ready a);
  cr_current : current s = Some (run a);
  cr_status : forall j, j <> i -> (Sched.status_at s j = Some READY <-> j ∈ ready a) /\ (Sched.status_at s j = Some RUNNING <-> j = run a);
  cr_frame : forall j p, procs s !! j = Some p -> j = run a \/ j ∈ ready a \/ j = i -> trapframe p <> 0;
  cr_spent : forall j, ticks s j = spent a j;
  cr_child : i <> run a /\ i ∉ ready a /\ is_Some (procs s !! i);
}.

Lemma chosen_ext a i s s' : as_in s s' -> chosen a i s -> chosen a i s'.
Proof. intros Hs [Hf Hi]. split; [by apply (follows_ext a s)|]. by rewrite (footprint_status s s' i Hs). Qed.
Lemma framed_ext a i s s' : as_in s s' -> framed a i s -> framed a i s'.
Proof.
  intros Hs [Hc Hi]. split; [by apply (chosen_ext a i s)|]. intros p' Hp'.
  destruct (footprint_lookup s s' i p' Hs Hp') as (p & Hp & Ec). injection Ec as _ _ -> _. by apply Hi.
Qed.
Lemma child_ready_ext a i s s' : as_in s s' -> child_ready a i s -> child_ready a i s'.
Proof.
  intros Hs [[Hl Hnd] Hc Hst Htf Ht Hi]. assert (current s' = current s /\ ready_queue_head s' = ready_queue_head s) as [E1 E2].
  { unfold as_in, footprint in Hs. by injection Hs. }
  split.
  - split; [|done]. rewrite E2. by apply (footprint_linked s).
  - congruence.
  - intros j. rewrite !(footprint_status s s' j Hs). apply Hst.
  - intros j p' Hp'. destruct (footprint_lookup s s' j p' Hs Hp') as (p & Hp & Ec). injection Ec as _ _ -> _. by apply (Htf j p Hp).
  - intros j. by rewrite (footprint_ticks s s' j Hs).
  - destruct Hi as (Hi1 & Hi2 & [p Hp]). split_and!; [done..|]. pose proof (footprint_status s s' i Hs) as E.
    unfold Sched.status_at in E. rewrite Hp in E. destruct (procs s' !! i); [by eexists|done].
Qed.

Ltac neutral_step := eapply takes_neutral; [first [exact (chosen_ext _ _)|exact (framed_ext _ _)|exact (child_ready_ext _ _)]|intros ?; keeps_call|intros ? ?].

(** An update of the slot that leaves its status, link and ticks. *)
Lemma chosen_update a i s f : (forall p, status (f p) = status p /\ queue_next (f p) = queue_next p /\ tick_count (f p) = tick_count p) ->
  chosen a i s -> chosen a i (with_procs (alter f i (procs s)) s).
Proof.
  intros Hf [[[[Hl Hnd] Hc Hr Hu Htf] Ht] Hi].
  assert (forall j, Sched.status_at (with_procs (alter f i (procs s)) s) j = Sched.status_at s j) as Est.
  { intros j. unfold Sched.status_at. cbn. destruct (decide (i = j)) as [->|]; [|by rewrite list_lookup_alter_ne].
    rewrite list_lookup_alter_eq. destruct (procs s !! j) as [p|]; [|done]. simpl. f_equal. apply Hf. }
  split; [split; [split|]|].
  - split; [|done]. cbn. eapply Sched.linked_ext; [|exact Hl]. intros j _.
    destruct (decide (i = j)) as [->|]; [|by rewrite list_lookup_alter_ne].
    rewrite list_lookup_alter_eq. destruct (procs s !! j) as [p|]; [|done]. simpl. f_equal. apply Hf.
  - done.
  - intros j. rewrite Est. apply Hr.
  - intros j. rewrite Est. apply Hu.
  - intros j p. cbn. destruct (decide (i = j)) as [<-|Hne]; [|rewrite list_lookup_alter_ne by done; apply Htf].
    intros _ [E|Hj]; exfalso; [apply Hu in E|apply Hr in Hj]; congruence.
  - intros j. rewrite <- Ht. unfold ticks. cbn. destruct (decide (i = j)) as [->|]; [|by rewrite list_lookup_alter_ne].
    rewrite list_lookup_alter_eq. destruct (procs s !! j) as [p|]; [|done]. simpl. apply Hf.
  - by rewrite Est.
Qed.

Lemma alloc_process_takes a : takes (follows a) Process.alloc_process (framed a).
Proof.
  intros s Hs. unfold Process.alloc_process. rewrite bind_gets.
  destruct (Process.first_free (procs s)) as [i|] eqn:E; [|done].
  assert (chosen a i s) as Hc.
  { split; [done|]. unfold Process.first_free in E. apply fmap_Some in E as ([j p] & E & ->).
    apply list_find_Some in E as (Hp & Hst & _). unfold Sched.status_at. simpl. by rewrite Hp, <- Hst. }
  match goal with |- match bind ?m ?k s with _ => _ end =>
    enough (takes (chosen a i) (bind m k) (framed a)) as Ht; [exact (Ht s Hc)|] end.
  clear s Hs E Hc. neutral_step.
  eapply takes_neutral; [exact (chosen_ext _ _)|intros ?; apply nonnull_neutral|intros ? Htf].
  do 10 neutral_step. cbv zeta. eapply (takes_update _ (framed a i)).
  { intros s Hc. split; [by apply chosen_update|]. intros p. cbn. rewrite list_lookup_alter_eq.
    destruct (procs s !! i) as [q|]; [|done]. simpl. by intros [= <-]. }
  do 11 neutral_step. by apply takes_ret.
Qed.

(** The child becomes ready. *)
Lemma child_becomes_ready a i s : framed a i s -> child_ready a i (with_procs (alter (set_status READY) i (procs s)) s).
Proof.
  intros [[[[Hq Hc Hr Hu Htf] Ht] Hi] Hfr]. destruct (procs s !! i) as [p0|] eqn:Ep; [|unfold Sched.status_at in Hi; by rewrite Ep in Hi].
  assert (is_Some (procs s !! i)) as Hs by (by rewrite Ep). split.
  - by apply Sched.queue_upd_status.
  - done.
  - intros j Hj. rewrite Sched.status_at_upd, decide_False by done. by split.
  - intros j p. cbn. destruct (decide (i = j)) as [<-|Hne].
    + rewrite list_lookup_alter_eq, Ep. simpl. intros [= <-] _. exact (Hfr p0 eq_refl).
    + rewrite list_lookup_alter_ne by done. intros Hp Hj. apply (Htf j p Hp). naive_solver.
  - intros j. rewrite <- Ht. unfold ticks. cbn. destruct (decide (i = j)) as [<-|Hne]; [|by rewrite list_lookup_alter_ne].
    by rewrite list_lookup_alter_eq, Ep.
  - split_and!; [intros ->; rewrite (proj2 (Hu _) eq_refl) in Hi; done|intros Hin%Hr; congruence|].
    cbn. by rewrite list_lookup_alter_eq, Ep.
Qed.

(** The insertion of the child at the end of the queue. *)
Lemma insert_child a i : takes (child_ready a i) (Sched.insert_to_ready_queue i)
  (fun _ s => follows (mk_policy (run a) (ready a ++ [i]) (spent a)) s).
Proof.
  intros s [Hq Hc Hst Htf Ht (Hne & Hni & Hi)]. destruct (Sched.insert_spec s (ready a) i Hq Hi) as ([] & s' & -> & Hq' & Hf & Hs').
  unfold Sched.enqueue in Hq'. rewrite bool_decide_eq_false_2 in Hq' by done. destruct Hf as (_ & F2 & _ & _ & _ & F6).
  apply (follows_same_but_queue s); [split|done|done]; simpl; [done|congruence|..].
  - intros j. rewrite Hs', elem_of_app, list_elem_of_singleton. destruct (decide (j = i)) as [->|Hj].
    + rewrite decide_True by done. tauto.
    + rewrite decide_False by tauto. rewrite (proj1 (Hst j Hj)). tauto.
  - intros j. rewrite Hs'. destruct (decide (j = i)) as [->|Hj].
    + rewrite decide_True by done. split; [done|]. by intros ->.
    + rewrite decide_False by tauto. apply (Hst j Hj).
  - intros j p' Hp'. rewrite elem_of_app, list_elem_of_singleton. destruct (Sched.same_trapframe s s' j p' F6 Hp') as (p & Hp & ->).
    by apply (Htf j p Hp).
Qed.

Lemma fork_takes a uninit parent :
  takes (follows a) (Trap.do_fork uninit parent) (fun _ s => exists a', policy_step Fork a a' /\ follows a' s).
Proof.
  unfold Trap.do_fork. eapply takes_bind; [apply alloc_process_takes|]. intros i. do 2 neutral_step.
  eapply takes_update; [apply child_becomes_ready|]. do 3 neutral_step.
  intros s Hs. pose proof (insert_child a i s Hs) as Hin. destruct (cr_child _ _ _ Hs) as (Hne & Hni & _).
  unfold bind. destruct (Sched.insert_to_ready_queue i s); try done. eexists. split; [|exact Hin]. by constructor.
Qed.

Lemma fork_moves a uninit s : follows a s -> moves id false Fork a (Trap.sys_user_fork uninit s).
Proof.
  intros Hs. unfold Trap.sys_user_fork, the_current. unfold bind at 1. rewrite (Sched.v_current _ _ _ (fo_view _ _ Hs)). cbn [of_option ret].
  pose proof (fork_takes a uninit (run a) s Hs) as Hf. by destruct (Trap.do_fork uninit (run a) s).
Qed.
End process.

(** ** The whole kernel *)
Section kernel.
Context `{KS : KernelSymbols} {H : Type} `{FE : Frontend H}.
Context (spike_files_addr path_addr stat_addr buf_addr : Z).
Context (garbage : Z -> vinode) (filter buffer : list Z).
Notation kernel := Kernel.kernel.
Notation trap := (Kernel.trap spike_files_addr path_addr stat_addr buf_addr garbage filter buffer).
Notation do_syscall := (Kernel.do_syscall spike_files_addr path_addr stat_addr buf_addr garbage filter buffer).
Notation handle_syscall := (Kernel.handle_syscall spike_files_addr path_addr stat_addr buf_addr garbage filter buffer).
Implicit Types s : Kernel.state H.

Definition always_returns (e : event) : bool := bool_decide (e = Tick) || bool_decide (e = Yield).

Lemma on_kernel_moves {R} t e a (m : M state R) s : moves id t e a (m (kernel s)) -> moves kernel t e a (Kernel.on_kernel m s).
Proof. unfold Kernel.on_kernel, zoom. by destruct (m (kernel s)). Qed.
Lemma call_moves {R} t e a (m : M state R) s :
  moves id t e a (m (kernel s)) -> moves kernel t e a (Kernel.on_sys (SysFile.on_kernel m) s).
Proof. unfold Kernel.on_sys, SysFile.on_kernel, zoom. cbn. by destruct (m (kernel s)). Qed.

(** What follows a move. *)
Lemma moves_bind {A B} t e a (m : M (Kernel.state H) A) (k : A -> M (Kernel.state H) B) s :
  moves kernel t e a (m s) -> (forall a' r, policy_step e a a' -> keeps (fun s => follows a' (kernel s)) (k r) anything) ->
  (t = true -> forall a' r s1, policy_step e a a' -> follows a' (kernel s1) -> match k r s1 with Ret _ _ | ToUser _ => True | _ => False end) ->
  moves kernel t e a (bind m k s).
Proof.
  intros Hm Hk Ht. unfold bind. destruct (m s) as [r s1|s1| | | |]; try done. destruct Hm as (a' & Hstep & Hf).
  specialize (Hk a' r Hstep s1 Hf). destruct (k r s1) eqn:E; try (destruct t; [|done]; specialize (Ht eq_refl a' r s1 Hstep Hf); by rewrite E in Ht).
  - exists a'. split; [done|]. apply Hk.
  - by exists a'.
Qed.

Lemma yield_call ops a1 a2 a3 a4 a5 a6 a7 :
  SysFile.do_syscall (A := HostPages.state Pmm.state H) ops filter buffer SYS_user_yield a1 a2 a3 a4 a5 a6 a7 = SysFile.on_kernel Trap.sys_user_yield.
Proof. reflexivity. Qed.
Lemma exit_call ops a1 a2 a3 a4 a5 a6 a7 :
  SysFile.do_syscall (A := HostPages.state Pmm.state H) ops filter buffer SYS_user_exit a1 a2 a3 a4 a5 a6 a7 = SysFile.on_kernel (Trap.sys_user_exit a1).
Proof. reflexivity. Qed.
Lemma fork_call ops a1 a2 a3 a4 a5 a6 a7 :
  SysFile.do_syscall (A := HostPages.state Pmm.state H) ops filter buffer SYS_user_fork a1 a2 a3 a4 a5 a6 a7 = SysFile.on_kernel (Trap.sys_user_fork filter).
Proof. reflexivity. Qed.

(** A system call makes the move of its number. *)
Lemma syscall_moves a number a1 a2 a3 a4 a5 a6 a7 s : follows a (kernel s) ->
  let e := event_of CAUSE_USER_ECALL number in
  moves kernel (always_returns e) e a (do_syscall number a1 a2 a3 a4 a5 a6 a7 s).
Proof.
  intros Hf e. unfold Kernel.do_syscall. rewrite bind_gets. unfold e, event_of. rewrite Z.eqb_refl.
  destruct (Z.eqb_spec number SYS_user_yield) as [->|Hy].
  { rewrite yield_call. apply (call_moves true Yield a Trap.sys_user_yield). destruct (yield_moves a (kernel s) Hf) as (s' & -> & Hf').
    eexists. split; [constructor|done]. }
  destruct (Z.eqb_spec number SYS_user_exit) as [->|He].
  { rewrite exit_call. apply (call_moves false Exit a (Trap.sys_user_exit a1)). by apply exit_moves. }
  destruct (Z.eqb_spec number SYS_user_fork) as [->|Hk].
  { rewrite fork_call. apply (call_moves false Fork a (Trap.sys_user_fork filter)). by apply fork_moves. }
  assert (scheduling_call number = false) as Hc.
  { unfold scheduling_call. rewrite !(proj2 (Z.eqb_neq _ _)) by done. done. }
  pose proof (do_syscall_silent (kernel s) (Hostfs.mounted_i_ops spike_files_addr path_addr stat_addr buf_addr garbage (Kernel.host_sb s))
    filter buffer number a1 a2 a3 a4 a5 a6 a7 Hc (Kernel.sys_view s) eq_refl) as Hs.
  unfold Kernel.on_sys, zoom. unfold Kernel.host_sb in *.
  destruct (SysFile.do_syscall _ _ _ _ _ _ _ _ _ _ _ _); try done; (exists a; split; [constructor|]).
  - destruct Hs as [Hs _]. by apply (follows_ext a (kernel s)).
  - by apply (follows_ext a (kernel s)).
Qed.

Lemma load_step {B} x (k : Z -> M (Kernel.state H) B) s : bind (Kernel.on_kernel (load x)) k s = k (ld64 (mem (kernel s)) x) s.
Proof. by destruct s. Qed.
Definition stored (x v : Z) s : Kernel.state H :=
  Kernel.set_kernel (with_pmm (Pmm.set_mem (st64 (mem (kernel s)) x v) (pmm (kernel s))) (kernel s)) s.
Lemma store_step {B} x v (k : unit -> M (Kernel.state H) B) s : bind (Kernel.on_kernel (store x v)) k s = k tt (stored x v s).
Proof. done. Qed.
Lemma follows_stored a x v s : follows a (kernel s) -> follows a (kernel (stored x v s)).
Proof. by apply follows_ext. Qed.

Lemma handle_syscall_moves a tf s : follows a (kernel s) ->
  let e := event_of CAUSE_USER_ECALL (ld64 (mem (kernel s)) (tf + tf_a0)) in
  moves kernel (always_returns e) e a (handle_syscall tf s).
Proof.
  intros Hf e. unfold Kernel.handle_syscall. rewrite load_step, store_step. rewrite !load_step.
  assert (ld64 (mem (kernel (stored (tf + tf_epc) (u64 (ld64 (mem (kernel s)) (tf + tf_epc) + 4)) s))) (tf + tf_a0)
    = ld64 (mem (kernel s)) (tf + tf_a0)) as -> by (apply ld64_st64_ne; unfold tf_epc, tf_a0; lia).
  apply moves_bind.
  - apply syscall_moves. by apply follows_stored.
  - intros a' r _ s1 Hf1. split; [|done]. by apply (follows_ext a' (kernel s1)).
  - done.
Qed.

(** The branches of the handler. *)
Definition dispatch (cause tf pc : Z) : M (Kernel.state H) unit :=
  if cause =? CAUSE_USER_ECALL then handle_syscall tf
  else if cause =? CAUSE_MTIMER_S_TRAP then Kernel.on_kernel Trap.handle_mtimer_trap ;; Kernel.on_kernel Trap.rrsched
  else if (cause =? CAUSE_STORE_PAGE_FAULT) || (cause =? CAUSE_LOAD_PAGE_FAULT) then
    tv <- gets (fun s => stval (hart (kernel s))) ;;
    Kernel.on_kernel (Trap.handle_user_page_fault cause pc tv)
  else panic "unexpected exception happened.".

Lemma dispatch_moves a cause tf pc s : follows a (kernel s) ->
  let e := event_of cause (ld64 (mem (kernel s)) (tf + tf_a0)) in
  moves kernel (always_returns e) e a (dispatch cause tf pc s).
Proof.
  intros Hf e. unfold e, event_of, dispatch. destruct (Z.eqb_spec cause CAUSE_USER_ECALL) as [->|_]; [by apply handle_syscall_moves|].
  destruct (Z.eqb_spec cause CAUSE_MTIMER_S_TRAP) as [->|_].
  - change (moves kernel true Tick a ((Kernel.on_kernel Trap.handle_mtimer_trap ;; Kernel.on_kernel Trap.rrsched) s)).
    unfold bind. pose proof (handle_mtimer_trap_neutral (kernel s) (kernel s) eq_refl) as Hm.
    unfold Kernel.on_kernel at 1. unfold zoom. assert (exists k1, Trap.handle_mtimer_trap (kernel s) = Ret tt k1) as [k1 E] by (eexists; reflexivity).
    rewrite E in *. destruct Hm as [Hm _]. apply on_kernel_moves. apply tick_moves. by apply (follows_ext a (kernel s)).
  - destruct (_ || _); [|done]. rewrite bind_gets. apply (on_kernel_moves (R := unit) false Silent).
    pose proof (handle_user_page_fault_neutral (kernel s) cause pc (stval (hart (kernel s))) (kernel s) eq_refl) as Hm.
    destruct (Trap.handle_user_page_fault _ _ _ _); try done. exists a. split; [constructor|].
    apply (follows_ext a (kernel s)); [apply Hm|exact Hf].
Qed.

(** Switching to the running process. *)
Lemma switch_to_current a s : follows a (kernel s) ->
  exists s', (cur <- gets (fun s => current (kernel s)) ;; Kernel.on_kernel (Process.switch_to (A := unit) cur)) s = ToUser s' /\
    follows a (kernel s').
Proof.
  intros [Hv Ht]. destruct (Sched.view_current_lookup _ _ _ Hv) as (p & Hp & _).
  destruct (Sched.switch_to_spec (run a) p (kernel s) Hp) as (k' & Heq & Hres & Hps & Hrq).
  { apply (Sched.v_tf _ _ _ Hv _ _ Hp). by left. }
  exists (Kernel.set_kernel k' s). split.
  - rewrite bind_gets, (Sched.v_current _ _ _ Hv). unfold Kernel.on_kernel, zoom. by rewrite Heq.
  - split.
    + eapply view_ext; [exact Hv|done| |done]. simpl. by rewrite (Sched.rs_current _ _ _ _ Hres), (Sched.v_current _ _ _ Hv).
    + intros i. rewrite <- Ht. unfold ticks. simpl. by rewrite Hps.
Qed.

(** The number of the system call that a trap asks for: what the handler loads
    from the trapframe after the entry code has saved the registers. *)
Definition call_number (tf : Z) s : Z :=
  match Trap.smode_trap_vector (kernel s) with
  | Ret _ k => ld64 (mem k) (tf + tf_a0)
  | _ => 0
  end.

Lemma call_number_saved tf s :
  sscratch (hart (kernel s)) = tf -> call_number tf s = nth Trap.A0 (regs (hart (kernel s))) 0.
Proof. intros <-. apply ld64_st64_eq. Qed.

Lemma trap_moves a p s :
  follows a (kernel s) -> procs (kernel s) !! run a = Some p -> has (sstatus (hart (kernel s))) SSTATUS_SPP = false ->
  let e := event_of (scause (hart (kernel s))) (call_number (trapframe p) s) in
  moves kernel (always_returns e) e a (trap s).
Proof.
  intros Hf Hp Hspp e. unfold Kernel.trap.
  assert (exists k1, Trap.smode_trap_vector (kernel s) = Ret tt k1 /\ as_in (kernel s) k1 /\ procs k1 = procs (kernel s) /\
    current k1 = current (kernel s) /\ sstatus (hart k1) = sstatus (hart (kernel s)) /\ scause (hart k1) = scause (hart (kernel s)))
    as (k1 & E & Hk & Hps & Hc & Hst & Hca) by (by eexists).
  unfold bind at 1. unfold Kernel.on_kernel at 1. unfold zoom. rewrite E. unfold Kernel.smode_trap_handler.
  rewrite bind_gets. cbn [Kernel.kernel Kernel.set_kernel]. rewrite Hst, Hspp, bind_gets. cbn [Kernel.kernel Kernel.set_kernel].
  rewrite Hc, (Sched.v_current _ _ _ (fo_view _ _ Hf)).
  assert (forall B (k : process -> M (Kernel.state H) B), bind (Kernel.on_kernel (get_proc (run a))) k (Kernel.set_kernel k1 s) = k p (Kernel.set_kernel k1 s)) as Hg.
  { intros B k. unfold bind, Kernel.on_kernel, zoom, get_proc. cbn [Kernel.kernel Kernel.set_kernel]. by rewrite Hps, Hp. }
  rewrite Hg, bind_gets, store_step, bind_gets. set (s2 := stored _ _ _).
  assert (scause (hart (kernel s2)) = scause (hart (kernel s))) as -> by exact Hca.
  assert (call_number (trapframe p) s = ld64 (mem (kernel s2)) (trapframe p + tf_a0)) as En.
  { unfold call_number. rewrite E. symmetry. apply ld64_st64_ne. unfold tf_epc, tf_a0. lia. }
  unfold e. rewrite En. apply (moves_bind (A := unit) _ _ _ (dispatch _ _ _)).
  - apply dispatch_moves. apply follows_stored. by apply (follows_ext a (kernel s)).
  - intros a' r _ s3 Hf3. by destruct (switch_to_current a' s3 Hf3) as (s' & -> & ?).
  - intros _ a' r s3 _ Hf3. by destruct (switch_to_current a' s3 Hf3) as (s' & -> & ?).
Qed.

Lemma trap_leaves s s' : trap s <> Ret tt s'.
Proof.
  unfold Kernel.trap. intros (? & s1 & _ & E)%bind_inv_Ret. unfold Kernel.smode_trap_handler in E. rewrite bind_gets in E.
  destruct (has _ _); [done|]. rewrite bind_gets in E. destruct (current _) as [i|]; [|done].
  apply bind_inv_Ret in E as (p & s2 & _ & E). rewrite bind_gets, store_step, bind_gets in E.
  apply bind_inv_Ret in E as (? & s3 & _ & E). rewrite bind_gets in E. destruct (current _) as [j|]; [|done].
  unfold Kernel.on_kernel, zoom, Process.switch_to in E. rewrite bind_modify in E. unfold Process.write_stvec in E. rewrite bind_modify in E.
  unfold bind at 1, get_proc in E. destruct (procs _ !! j) as [q|]; [|done]. cbn [of_option ret] in E.
  unfold bind at 1, nonnull in E. by destruct (trapframe q =? 0).
Qed.

(** A trap that does not stop the kernel moves the policy; timer and yield do not
    stop it. *)
Lemma trap_policy a p s :
  follows a (kernel s) -> procs (kernel s) !! run a = Some p -> has (sstatus (hart (kernel s))) SSTATUS_SPP = false ->
  let e := event_of (scause (hart (kernel s))) (call_number (trapframe p) s) in
  (always_returns e = true -> exists s', trap s = ToUser s') /\
  (forall s', trap s = ToUser s' -> exists a', policy_step e a a' /\ follows a' (kernel s')).
Proof.
  intros Hf Hp Hspp e. pose proof (trap_moves a p s Hf Hp Hspp) as Hm. fold e in Hm. pose proof (trap_leaves s) as Hl.
  destruct (trap s) as [[] s1|s1|?|?|?|]; try (by destruct (Hl s1)); cbn in Hm; (split; [|by intros s' [= <-]]); intros He; eauto; congruence.
Qed.

(** ** Runs of the kernel *)
(** [history s n l s']: from [s] to [s'] user code and traps of any kind
    alternate; [n] of the traps are timer interrupts, and [l] are the processes
    that ran after each trap. *)
Inductive history s : nat -> list nat -> Kernel.state H -> Prop :=
| history_start : history s 0 [] s
| history_trap n l s1 s2 s3 c : history s n l s1 -> user_mode s1 s2 -> trap s2 = ToUser s3 -> current (kernel s3) = Some c ->
    history s (n + if scause (hart (kernel s2)) =? CAUSE_MTIMER_S_TRAP then 1 else 0) (l ++ [c]) s3.

Lemma user_mode_follows a s s' : user_mode s s' -> follows a (kernel s) -> follows a (kernel s').
Proof. intros [(m & c & ->) _ _ _ _]. by apply follows_ext. Qed.

Lemma event_tick cause number : event_of cause number = Tick <-> cause = CAUSE_MTIMER_S_TRAP.
Proof.
  unfold event_of. destruct (Z.eqb_spec cause CAUSE_USER_ECALL) as [->|_].
  - split; [|done]. by repeat destruct (_ =? _).
  - by destruct (Z.eqb_spec cause CAUSE_MTIMER_S_TRAP).
Qed.

(** The timer interrupts left to the running process. *)
Definition slice_left (a : policy) : nat := if 1 <=? spent a (run a) then 1 else 2.
Definition counted (a : policy) : Prop := forall i, 0 <= spent a i.

Lemma step_counted e a a' : policy_step e a a' -> counted a -> counted a'.
Proof.
  intros Hs Hc. destruct Hs; try done; intros j; specialize (Hc j) as Hj; cbn; unfold set_spent; destruct (decide _); try done.
  specialize (Hc (run a)). lia.
Qed.

Lemma rotate_waiting a f k i : ready a !! k = Some i ->
  run (rotate a f) = i \/ exists k', k = S k' /\ ready (rotate a f) !! k' = Some i.
Proof.
  unfold rotate. destruct (ready a) as [|j q]; [done|]. destruct k as [|k]; simpl.
  - intros [= ->]. by left.
  - intros Hk. right. exists k. split; [done|]. by apply lookup_app_l_Some.
Qed.

(** A waiting process comes closer to the processor with every timer interrupt,
    and no other event takes it farther away. *)
Lemma step_waiting e a a' k i : policy_step e a a' -> counted a -> ready a !! k = Some i ->
  run a' = i \/ exists k', ready a' !! k' = Some i /\
    (2 * k' + slice_left a' + (if decide (e = Tick) then 1 else 0) <= 2 * k + slice_left a)%nat.
Proof.
  assert (forall b, (1 <= slice_left b <= 2)%nat) as Hleft by (intros b; unfold slice_left; destruct (1 <=? _); lia).
  intros Hs Hc Hk. destruct Hs as [a|a Ht|a Ht|a|c j q f|a j Hj Hq].
  - right. exists k. split; [done|]. rewrite decide_False by done. lia.
  - right. exists k. split; [done|]. rewrite decide_True by done. specialize (Hc (run a)). unfold TIME_SLICE_LEN in Ht.
    unfold slice_left. cbn. unfold set_spent. rewrite decide_True by done.
    rewrite (proj2 (Z.leb_le 1 _)), (proj2 (Z.leb_gt 1 _)) by lia. lia.
  - destruct (rotate_waiting a (set_spent (spent a) (run a) 0) k i Hk) as [|(k' & -> & Hk')]; [by left|]. right. exists k'. split; [done|].
    rewrite decide_True by done. unfold TIME_SLICE_LEN in Ht. unfold slice_left at 2. rewrite (proj2 (Z.leb_le 1 _)) by lia.
    specialize (Hleft (rotate a (set_spent (spent a) (run a) 0))). lia.
  - destruct (rotate_waiting a (spent a) k i Hk) as [|(k' & -> & Hk')]; [by left|]. right. exists k'. split; [done|].
    rewrite decide_False by done. pose proof (Hleft (rotate a (spent a))). lia.
  - destruct k as [|k]; simpl in Hk; [left; by injection Hk|]. right. exists k. split; [done|]. rewrite decide_False by done.
    pose proof (Hleft (mk_policy j q f)). lia.
  - right. exists k. split; [by apply lookup_app_l_Some|]. rewrite decide_False by done. cbn. unfold slice_left. simpl. lia.
Qed.

Lemma history_policy s n l s' a k i :
  history s n l s' -> follows a (kernel s) -> counted a -> ready a !! k = Some i ->
  exists a', follows a' (kernel s') /\ counted a' /\
    (i ∈ l \/ exists k', ready a' !! k' = Some i /\ (n + 2 * k' + slice_left a' <= 2 * (k + 1))%nat).
Proof.
  intros Hh Hf Hc Hk. induction Hh as [|n l s1 s2 s3 c _ (a1 & Hf1 & Hc1 & Hw) Hu Ht Hcur].
  - exists a. split_and!; [done..|]. right. exists k. split; [done|]. unfold slice_left. destruct (1 <=? _); lia.
  - pose proof (user_mode_follows a1 s1 s2 Hu Hf1) as Hf2.
    destruct (Sched.view_current_lookup _ _ _ (fo_view _ _ Hf2)) as (p & Hp & _).
    destruct (trap_policy a1 p s2 Hf2 Hp (um_mode _ _ Hu)) as [_ Hm]. destruct (Hm s3 Ht) as (a3 & Hstep & Hf3).
    exists a3. split_and!; [done|by eapply step_counted|]. destruct Hw as [Hin|(k' & Hk' & Hle)]; [left; apply elem_of_app; by left|].
    destruct (step_waiting _ _ _ _ _ Hstep Hc1 Hk') as [Hr|(k'' & Hk'' & Hle'')].
    + left. apply elem_of_app. right. apply list_elem_of_singleton. rewrite (Sched.v_current _ _ _ (fo_view _ _ Hf3)) in Hcur. congruence.
    + right. exists k''. split; [done|]. rewrite (decide_ext _ _ 1%nat 0%nat (event_tick _ _)) in Hle''.
      destruct (Z.eqb_spec (scause (hart (kernel s2))) CAUSE_MTIMER_S_TRAP); [rewrite decide_True in Hle'' by done|rewrite decide_False in Hle'' by done]; lia.
Qed.
End kernel.

(** ** Properties *)
Section properties.
Context `{KS : KernelSymbols} {H : Type} `{FE : Frontend H}.
Context (spike_files_addr path_addr stat_addr buf_addr : Z).
Context (garbage : Z -> vinode) (filter buffer : list Z).
Notation kernel := Kernel.kernel.
Notation trap := (Kernel.trap spike_files_addr path_addr stat_addr buf_addr garbage filter buffer).

(** C2: the kernel implements the scheduling policy: a trap of the running
    process, with any cause, any system call and any arguments, moves the policy
    exactly as its event says when it returns to user mode.  A timer interrupt
    counts a tick, or ends the slice and rotates the queue; yield rotates the
    queue; exit leaves the processor to the head of the queue; fork appends a
    process to it that was neither running nor queued; every other system call,
    on files, memory or output, and every page fault leave running process,
    queue and tick counts as they are.  Timer interrupts and yield always
    return. *)
Theorem kernel_trap_follows_policy a p (s : Kernel.state H) :
  follows a (kernel s) -> procs (kernel s) !! run a = Some p ->
  has (sstatus (hart (kernel s))) SSTATUS_SPP = false -> sscratch (hart (kernel s)) = trapframe p ->
  let e := event_of (scause (hart (kernel s))) (nth Trap.A0 (regs (hart (kernel s))) 0) in
  (e = Tick \/ e = Yield -> exists s', trap s = ToUser s') /\
  (forall s', trap s = ToUser s' -> exists a', policy_step e a a' /\ follows a' (kernel s')).
Proof.
  intros Hf Hp Hspp Htf e.
  pose proof (trap_policy spike_files_addr path_addr stat_addr buf_addr garbage filter buffer a p s Hf Hp Hspp) as Hm.
  rewrite (call_number_saved _ s Htf) in Hm. cbv zeta in Hm. fold e in Hm. destruct Hm as [Hr Hm]. split; [|done].
  intros He. apply Hr. unfold always_returns. apply orb_true_iff. rewrite !bool_decide_eq_true. done.
Qed.

(** C17: round robin is fair, whatever the programs do: in every run of the
    kernel, in which user code alternates with timer interrupts, page faults and
    system calls of every kind, fork, yield and exit included, the process at
    position [k] of the ready queue has run before [2 * (k + 1)] timer interrupts
    are over, and at no point of the run does a timer interrupt stop the
    kernel. *)
Theorem round_robin_fair a (s : Kernel.state H) k i :
  follows a (kernel s) -> (forall j, 0 <= spent a j) -> ready a !! k = Some i ->
  forall n l s', history spike_files_addr path_addr stat_addr buf_addr garbage filter buffer s n l s' ->
    ((2 * (k + 1) <= n)%nat -> i ∈ l) /\
    (forall s2, user_mode s' s2 -> scause (hart (kernel s2)) = CAUSE_MTIMER_S_TRAP -> exists s3, trap s2 = ToUser s3).
Proof.
  intros Hf Hc Hk n l s' Hh. destruct (history_policy _ _ _ _ _ _ _ _ _ _ _ _ _ _ Hh Hf Hc Hk) as (a' & Hf' & _ & Hw). split.
  - intros Hn. destruct Hw as [|(k' & _ & Hle)]; [done|]. unfold slice_left in Hle. destruct (1 <=? _); lia.
  - intros s2 Hu Hca. pose proof (user_mode_follows a' s' s2 Hu Hf') as Hf2.
    destruct (Sched.view_current_lookup _ _ _ (fo_view _ _ Hf2)) as (p & Hp & _).
    destruct (trap_policy spike_files_addr path_addr stat_addr buf_addr garbage filter buffer a' p s2 Hf2 Hp (um_mode _ _ Hu)) as [Hr _].
    apply Hr. by rewrite Hca.
Qed.
End properties.

(** ** A concrete run: the pool of three processes, interrupted by the timer *)
#[local] Existing Instance demo_symbols.

Definition policy_vfs : Vfs.state (HostPages.state Pmm.state SimHost.host) :=
  Vfs.mk (Rfs.mk (replicate 128 (replicate 4096 0)) (replicate 4096 0) 100 (replicate 128 0) ∅ ∅ ∅ ∅
    (HostPages.mk (Pmm.mk ∅ 0x80100000 0x80200000 0) demo_files))
    (replicate 128 []) (replicate 128 []) ∅ 0.
Definition policy_state (cause : Z) (v : Vfs.state (HostPages.state Pmm.state SimHost.host)) : Kernel.state SimHost.host :=
  Kernel.mk (demo_pool cause) (Mount.mk v (replicate 10 0) ∅ (replicate 10 0) ∅ (replicate 10 0) (replicate 10 0) ∅) 0x8000000 0x80030000.
Definition policy_garbage (p : Z) : vinode := mk_vinode 0 0 0 0 0 0 (replicate 10 0) 0 0.
Notation demo_trap := (Kernel.trap 0x2000 0x1000 0x3000 0x4000 policy_garbage (replicate 32 0) (replicate 4096 0)).
Definition demo_policy : policy := mk_policy 0 [1%nat; 2%nat] (fun _ => 0).

(** The user computes, and is interrupted by the timer. *)
Definition busy (s : Kernel.state SimHost.host) : Kernel.state SimHost.host :=
  let k := Kernel.kernel s in let c := hart k in
  Kernel.set_kernel (with_hart (mk_cpu (stvec c) (satp c) 0 0x10020 CAUSE_MTIMER_S_TRAP 0 SIP_SSIP (sscratch c) (replicate 31 7))
    (with_pmm (Pmm.set_mem (mem k) (pmm k)) k)) s.
Definition after_trap (s : Kernel.state SimHost.host) : Kernel.state SimHost.host := match demo_trap s with ToUser s' => s' | _ => s end.

Lemma busy_user_mode s : user_mode s (busy s).
Proof. split; [eexists _, _; reflexivity|intros; reflexivity|reflexivity|split_and!; reflexivity|reflexivity]. Qed.

Lemma demo_follows cause v : follows demo_policy (Kernel.kernel (policy_state cause v)).
Proof.
  split; [apply demo_view|]. intros i. unfold ticks, policy_state. cbn [Kernel.kernel]. destruct (procs (demo_pool cause) !! i) as [p|] eqn:E; [|done].
  by apply demo_lookup in E as [[-> ->]|[[-> ->]|[[-> ->]|[Hi ->]]]].
Qed.

(** Two interrupts: the second ends the slice of process 0. *)
Lemma demo_traps v :
  let s1 := after_trap (busy (policy_state 0 v)) in
  demo_trap (busy (policy_state 0 v)) = ToUser s1 /\ current (Kernel.kernel s1) = Some 0%nat /\
  demo_trap (busy s1) = ToUser (after_trap (busy s1)) /\ current (Kernel.kernel (after_trap (busy s1))) = Some 1%nat.
Proof. split_and!; by vm_compute. Qed.

Lemma kernel_trap_follows_policy_witness :
  exists s' a', demo_trap (policy_state CAUSE_MTIMER_S_TRAP policy_vfs) = ToUser s' /\ policy_step Tick demo_policy a' /\ follows a' (Kernel.kernel s').
Proof.
  destruct (kernel_trap_follows_policy 0x2000 0x1000 0x3000 0x4000 policy_garbage (replicate 32 0) (replicate 4096 0)
    demo_policy (demo_process 0 RUNNING None) (policy_state CAUSE_MTIMER_S_TRAP policy_vfs)) as [Hr Hm].
  - apply demo_follows.
  - reflexivity.
  - reflexivity.
  - reflexivity.
  - destruct Hr as [s' Ht]; [left; reflexivity|]. destruct (Hm s' Ht) as (a' & Hstep & Hf). exists s', a'. split; [exact Ht|]. split; [exact Hstep|exact Hf].
Defined.

Lemma round_robin_fair_witness :
  exists l s', history 0x2000 0x1000 0x3000 0x4000 policy_garbage (replicate 32 0) (replicate 4096 0) (policy_state 0 policy_vfs) 2 l s' /\ 1%nat ∈ l.
Proof.
  destruct (demo_traps policy_vfs) as (T1 & C1 & T2 & C2).
  assert (history 0x2000 0x1000 0x3000 0x4000 policy_garbage (replicate 32 0) (replicate 4096 0) (policy_state 0 policy_vfs) 2 [0%nat; 1%nat]
    (after_trap (busy (after_trap (busy (policy_state 0 policy_vfs)))))) as Hh.
  { apply (history_trap _ _ _ _ _ _ _ _ 1 [0%nat] (after_trap (busy (policy_state 0 policy_vfs))) (busy (after_trap (busy (policy_state 0 policy_vfs)))));
      [|apply busy_user_mode|exact T2|exact C2].
    apply (history_trap _ _ _ _ _ _ _ _ 0 [] (policy_state 0 policy_vfs) (busy (policy_state 0 policy_vfs)));
      [apply history_start|apply busy_user_mode|exact T1|exact C1]. }
  exists [0%nat; 1%nat]. eexists. split; [exact Hh|].
  destruct (round_robin_fair 0x2000 0x1000 0x3000 0x4000 policy_garbage (replicate 32 0) (replicate 4096 0) demo_policy
    (policy_state 0 policy_vfs) 0 1 (demo_follows 0 policy_vfs) (fun _ => Z.le_refl 0) eq_refl 2 _ _ Hh) as [Hin _].
  apply Hin. lia.
Defined.
