(* ===== verification/KernelBoot.v ===== *)
(** * From power on to the first process

    [Kernel.s_start] runs every component once: the page allocator takes over
    the memory above the kernel, the kernel gets its page table, the file systems
    are built and mounted, a process is created and filled with the program that
    the host names, and the machine enters user mode at its entry point.  Here
    the theorems about those components are put together. *)

From stdpp Require Import base gmap list numbers strings.
From Stdlib Require Import ZArith Lia.
From S2P Require Import Prelude Keeps Pmm Vmm VmmSpec HashTable Bytes ByteMem UserMem Rfs RfsDisk RfsMount Vfs VfsSpec RfsTypes VfsTypes.
From S2P Require Import Process ProcessSpec SpikeFile Hostfs HostTypes Mount MountTypes MountSpec Elf ElfSpec AddrSpace ElfProgram Sched Trap SysFile KernelTypes Kernel KernelSafe.
Local Open Scope Z_scope.

(** ** The allocator, seen from the rest of memory *)
(** The pages handed out and taken back are pages of [F0], and memory outside of
    them stays as it was. *)
Section tracked.
Context (F0 : list Z) (v0 : Pmm.state).

Record tracked (a : Pmm.state) (l : list Z) : Prop := {
  tr_rep : Pmm.rep a l;
  tr_free : forall q, q ∈ l -> q ∈ F0;
  tr_mem : forall x, ROUNDDOWN x PGSIZE ∉ F0 -> ld64 (Pmm.mem a) x = ld64 (Pmm.mem v0) x;
  tr_bounds : Pmm.free_mem_start_addr a = Pmm.free_mem_start_addr v0 /\ Pmm.free_mem_end_addr a = Pmm.free_mem_end_addr v0;
}.

Lemma page_rounddown p : p mod PGSIZE = 0 -> ROUNDDOWN p PGSIZE = p.
Proof. unfold ROUNDDOWN, PGSIZE. intros. zlia. Qed.

#[local] Program Instance tracked_allocator : PageAllocator Pmm.state := {|
  pa_alloc := Pmm.alloc_page;
  pa_free := Pmm.free_page;
  pa_rep := tracked;
  pa_page := fun a p => 0 < p /\ Pmm.valid_page a p /\ p ∈ F0;
|}.
Next Obligation. intros a []. by apply Pmm.alloc_page_nil. Qed.
Next Obligation.
  intros a p l [R1 R2 R3 R4]. destruct (Pmm.alloc_page_cons a p l R1) as [E R]. eexists. split; [exact E|]. split; [|done].
  split; try done. intros q Hq. apply R2, elem_of_cons. by right.
Qed.
Next Obligation.
  intros a p l [R1 R2 R3 R4] (H0 & Hp & HF) Hni. destruct (Pmm.free_page_ok a p l R1 Hp Hni) as [E R]. eexists. split; [exact E|]. split; [|done].
  split; try done.
  - intros q [->|Hq]%elem_of_cons; auto.
  - intros x Hx. cbn [Pmm.mem Pmm.set_mem Pmm.set_head]. rewrite ld64_st64_ne; [by apply R3|]. intros <-. apply Hx.
    destruct Hp as [Ha _]. by rewrite page_rounddown.
Qed.
Next Obligation.
  intros a l [R1 R2 R3 R4]. destruct (Pmm.rep_pages a l R1) as [Hnd Hv]. split; [done|]. rewrite Forall_forall in *. intros p Hp.
  destruct (Hv p Hp) as [Ha Hr]. assert (0 < Pmm.free_mem_start_addr a) by apply R1. split_and!; [lia|done|auto].
Qed.
Next Obligation. by intros a p [? _]. Qed.
End tracked.

(** ** The pages in the order of the allocator *)
Lemma descending_app n k base : descending (n + k) base = descending n (base + PGSIZE * Z.of_nat k) ++ descending k base.
Proof. induction n as [|n IH]; [done|]. cbn [descending Nat.add app]. rewrite IH. f_equal. lia. Qed.

Lemma pages_descending n : forall p, rev (Pmm.pages_from p n) = descending n p.
Proof.
  induction n as [|n IH]; intros p; [done|]. cbn [Pmm.pages_from rev]. rewrite IH.
  assert (forall k q, descending k (q + PGSIZE) ++ [q] = descending (S k) q) as Hk.
  { induction k as [|k IHk]; intros q; [cbn; f_equal; lia|]. cbn [descending app] in IHk |- *. rewrite IHk. f_equal. lia. }
  apply Hk.
Qed.

Lemma descending_suffix n base (u l : list Z) : descending n base = u ++ l -> l = descending (length l) base.
Proof.
  revert u. induction n as [|n IH]; intros u E.
  - symmetry in E. apply app_nil in E as [-> ->]. done.
  - destruct u as [|x u]; [|injection E as _ E; by apply (IH u)]. simpl in E. rewrite <- E.
    assert (forall k, length (descending k base) = k) as Hl by (induction k; simpl; auto). rewrite length_cons, Hl. done.
Qed.
Lemma length_descending n base : length (descending n base) = n.
Proof. induction n; simpl; auto. Qed.

(** The pages [fs_init] takes when [147 + n] pages from [base] on are free. *)
Definition boot_pages_at (base : Z) (n : nat) : boot_pages :=
  let p i := base + PGSIZE * (Z.of_nat n + i) in
  mk_boot (p 146) (p 145) (p 144) (p 143) (p 142) (p 141) (p 140) (p 139) (p 11)
    (p 10) (p 9) (p 8) (p 7) (p 6) (p 5) (p 4) (p 3) (p 2) (p 1) (p 0).
Lemma boot_list_at base n : descending (147 + n) base = boot_list (boot_pages_at base n) ++ descending n base.
Proof.
  rewrite descending_app. f_equal. set (b := base + PGSIZE * Z.of_nat n).
  change 147%nat with (8 + (128 + 11))%nat. rewrite !descending_app. unfold boot_list, boot_pages_at. cbv zeta.
  cbn [b_ft b_hd b_hsb b_hino b_root b_k1 b_n1 b_rft b_base b_rdev b_iob b_dev b_sb b_ino b_rd b_bm b_k2 b_n2 b_k3 b_n3].
  f_equal; [|f_equal].
  - cbn [descending]. unfold b, PGSIZE. repeat (apply (f_equal2 cons); [lia|]). done.
  - f_equal. unfold b, PGSIZE. lia.
  - cbn [descending]. unfold b, PGSIZE. repeat (apply (f_equal2 cons); [lia|]). done.
Qed.

Section boot.
Context `{KS : KernelSymbols} {H : Type} `{HFiles : HostFiles H}.
Context (etext kend ehdr_addr ph_addr arg_addr : Z) (garbage : Z -> vinode) (uninit : list Z).
Notation state := (Kernel.state H).
Implicit Types s : state.

Lemma kernel_step {A} (m : M Process.state A) s r k : m (Kernel.kernel s) = Ret r k -> Kernel.on_kernel m s = Ret r (Kernel.set_kernel k s).
Proof. intros E. unfold Kernel.on_kernel, zoom. by rewrite E. Qed.
Lemma pmm_step {A} (m : M Pmm.state A) s r v : m (pmm (Kernel.kernel s)) = Ret r v ->
  Kernel.on_pmm m s = Ret r (Kernel.set_kernel (with_pmm v (Kernel.kernel s)) s).
Proof. intros E. apply kernel_step. unfold lift, zoom. by rewrite E. Qed.
Lemma mount_step {A} (m : M (Mount.state Pmm.state H) A) s r t : m (Kernel.mount_view s) = Ret r t ->
  Kernel.on_mount m s = Ret r (Kernel.set_mount_view t s).
Proof. intros E. unfold Kernel.on_mount, zoom. by rewrite E. Qed.
Lemma elf_step {A} (m : M (Elf.state H) A) s r e : m (Kernel.elf_view s) = Ret r e -> Kernel.on_elf m s = Ret r (Kernel.set_elf_view e s).
Proof. intros E. unfold Kernel.on_elf, zoom. by rewrite E. Qed.

(** ** The machine as it is handed over by machine mode *)
Definition ram (s : state) : Z := MIN PKE_MAX_ALLOWABLE_RAM (Kernel.g_mem_size s).
Definition first_page : Z := ROUNDUP kend PGSIZE.
(** The host's files. *)
Definition files_of s : Spike.state H := HostPages.spike (Kernel.fs_pages (Kernel.mount s)).

(** The arrays of the file systems and the host's tables have their declared
    sizes. *)
Record shaped s : Prop := {
  sh_vfs : vfs_typed (fs_shape (fun _ _ => True) anything) (Mount.vfs (Kernel.mount s));
  sh_types : Mount.fs_types (Kernel.mount s) = ∅;
  sh_files : spike_typed (files_of s);
  sh_garbage : forall p, vinode_typed (garbage p);
}.

Record powered s (name c : list Z) (i : nat) : Prop := {
  pw_text : KERN_BASE < etext < PHYS_TOP /\ etext mod PGSIZE = 0;
  pw_trap : trap_sec_start mod PGSIZE = 0 /\ USER_STACK_TOP <= trap_sec_start /\ trap_sec_start + PGSIZE <= kend;
  pw_memory : KERN_BASE < kend <= KERN_BASE + ram s;
  pw_room : (290 + pages_needed (load_segments c) <= Pmm.npages first_page (DRAM_BASE + ram s))%nat;
  pw_mount : nulls (Kernel.mount s);
  pw_queue : ready_queue_head (Kernel.kernel s) = None;
  pw_uninit : length uninit = 9%nat /\ Forall int_ok uninit;
  pw_buffers : forall b n, (b, n) ∈ [(ehdr_addr, sizeof_header); (ph_addr, sizeof_prog_header); (arg_addr, 8 * MAX_CMDLINE_ARGS)] ->
    b + n <= kend;
  pw_apart : arg_addr mod 8 = 0 /\ forall a, in_buffer ehdr_addr sizeof_header a -> ~ in_buffer ph_addr sizeof_prog_header a;
  pw_program : valid_program c /\ (length (load_segments c) <= 252)%nat /\ forall x, in_program c x -> x < stack_va;
  pw_host : boot_host (Spike.host (files_of s)) name c;
  pw_files : Spike.lock (files_of s) = 0 /\ Z.of_nat (length (Spike.spike_fds (files_of s))) = MAX_FDS /\
    Spike.free_entry (Spike.spike_files (files_of s)) = Some i /\ (FPtr i ∉ Spike.spike_fds (files_of s));
  pw_shape : shaped s;
}.

(** ** Memory *)
(** The kernel's page table at [root]: the direct map, in pages of its own. *)
Record paged (s : state) (v : Pmm.state) (root : Z) (n : nat) : Prop := {
  pg_inv : vm_inv root v (descending n first_page);
  pg_bounds : Pmm.free_mem_start_addr v = first_page /\ Pmm.free_mem_end_addr v = DRAM_BASE + ram s;
  pg_tables : forall q, is_table root (Pmm.mem v) q -> first_page <= q;
  pg_map : forall va, 0 <= va < MAXVA -> xlate root (Pmm.mem v) va =
    if decide (KERN_BASE <= va < PHYS_TOP) then Some (entry (ROUNDDOWN va PGSIZE) (kernel_perm etext va)) else None;
}.

Lemma boot_memory s name c i : powered s name c i ->
  exists v1 v2 root n, Pmm.pmm_init kend (Kernel.g_mem_size s) (pmm (Kernel.kernel s)) = Ret (ram s) v1 /\
    Vmm.kern_vm_init etext v1 = Ret root v2 /\ paged s v2 root n /\ (159 + pages_needed (load_segments c) <= n)%nat.
Proof.
  intros [W1 _ W2 W3 _ _ _ _ _ _ _ _ _]. destruct (pmm_init_ok kend (Kernel.g_mem_size s) (pmm (Kernel.kernel s)) W2) as (sz & v1 & E1 & -> & Hrep & B1 & B2).
  fold (ram s) first_page in *. rewrite pages_descending in Hrep. set (N := Pmm.npages first_page (DRAM_BASE + ram s)) in *.
  destruct N as [|n] eqn:EN; [lia|]. cbn [descending] in Hrep.
  assert (Pmm.free_mem_end_addr v1 <= 2 ^ 64) as He.
  { rewrite B2. unfold ram, MIN, DRAM_BASE, PKE_MAX_ALLOWABLE_RAM. destruct (Z.ltb_spec (128 * 1024 * 1024) (Kernel.g_mem_size s)); lia. }
  destruct (kern_vm_init_ok etext v1 (first_page + PGSIZE * Z.of_nat n) (descending n first_page) (proj1 W1) (proj2 W1) Hrep He)
    as (v2 & used & F' & E2 & HF & Hlen & Hinv & [B3 B4] & Htab & Hx); [rewrite length_descending; lia|].
  exists v1, v2, (first_page + PGSIZE * Z.of_nat n), (length F'). split_and!; try done.
  - split; try done.
    + by rewrite <- (descending_suffix n first_page used F' HF).
    + split; congruence.
    + intros q Hq. assert (q ∈ first_page + PGSIZE * Z.of_nat n :: descending n first_page) as Hin.
      { rewrite HF. apply elem_of_cons. destruct (Htab q Hq); [by left|]. right. apply elem_of_app. by left. }
      destruct (rep_pages_in v1 _ q Hrep Hin) as (_ & _ & Hr). lia.
  - pose proof (f_equal length HF) as Hl. rewrite length_app, length_descending in Hl. lia.
Qed.

(** ** The file systems *)
Definition start_shape (lo hi : Z) (sp : Spike.state H) : Rfs.state (HostPages.state Pmm.state H) -> Prop :=
  fs_shape (fun _ _ => True) (fun a => bounds lo hi (HostPages.alloc a) /\ HostPages.spike a = sp).

#[local] Instance start_shape_invariant lo hi sp :
  RfsInvariant (start_shape lo hi sp) (fun a => bounds lo hi (HostPages.alloc a) /\ HostPages.spike a = sp) anything vinode_typed block_typed.
Proof.
  apply fs_shape_invariant; [done|..].
  - intros [a t] [Hb Hs]. pose proof (alloc_page_bounds lo hi a Hb) as Hk. unfold pa_alloc, host_allocator, zoom. simpl in *.
    destruct (Pmm.alloc_page a); try done; simpl; tauto.
  - intros p [a t] [Hb Hs]. pose proof (free_page_bounds lo hi p a Hb) as Hk. unfold pa_free, host_allocator, zoom. simpl in *.
    destruct (Pmm.free_page p a); try done; simpl; tauto.
Qed.

Lemma start_super lo hi sp n fm : keeps (start_shape lo hi sp) (modify (Rfs.set_super n fm)) anything.
Proof. apply keeps_modify. intros s []. by split. Qed.
Lemma start_disk lo hi sp d b : length d = 128%nat -> Forall block_typed d -> block_typed b ->
  keeps (start_shape lo hi sp) (modify (fun f => Rfs.set_disk d (Rfs.set_iobuffer b f))) anything.
Proof. intros. apply keeps_modify. intros s []. by split. Qed.

(** The super blocks, the root and the RAM disk, as [fs_ready] names them. *)
Definition mounted_fs (t : Mount.state Pmm.state H) (n : nat) : Prop :=
  let b := boot_pages_at first_page n in
  fs_ready t (descending n first_page) (b_hsb b) (b_root b) (b_sb b) (b_ino b) (b_rd b).

Lemma boot_files_ok s s3 v2 root n name c i :
  powered s name c i -> paged s v2 root (147 + n) -> pmm (Kernel.kernel s3) = v2 -> Kernel.mount s3 = Kernel.mount s ->
  exists t, Mount.fs_init garbage (Kernel.page_bytes s3) uninit (Kernel.mount_view s3) = Ret tt t /\
    mounted_fs t n /\ tracked (descending (147 + n) first_page) v2 (HostPages.alloc (Kernel.fs_pages t)) (descending n first_page) /\
    HostPages.spike (Kernel.fs_pages t) = files_of s /\
    mount_typed (start_shape first_page (DRAM_BASE + ram s) (files_of s)) t.
Proof.
  intros [_ _ _ _ W1 _ [W2 W3] _ _ _ _ _ [S1 S2 S3 S4]] [P1 [P2 P3] _ _] Ev Em. pose proof P1 as (Hrep & _ & _).
  assert (forall p, length (Kernel.page_bytes s3 p) = 4096%nat) as Hraw by (intros p; unfold Kernel.page_bytes; by rewrite length_load_bytes).
  assert (nulls (Kernel.mount_view s3)) as Hn by (unfold Kernel.mount_view; rewrite Em; exact W1).
  assert (HostPages.alloc (pages_of (Kernel.mount_view s3)) = v2) as Ea by (unfold Kernel.mount_view; simpl; by rewrite Ev).
  destruct (fs_init_ok garbage (Kernel.page_bytes s3) uninit (Kernel.mount_view s3) (boot_pages_at first_page n) (descending n first_page) W2 W3 Hraw Hn)
    as (t & E & Hready).
  { unfold pa_rep, host_allocator. rewrite Ea, <- boot_list_at. exact Hrep. }
  assert (mount_typed (start_shape first_page (DRAM_BASE + ram s) (files_of s)) t) as Hty.
  { eapply (keeps_Ret (mount_typed (start_shape first_page (DRAM_BASE + ram s) (files_of s))) _ anything); [| |exact E].
    - eapply fs_init_typed; eauto using start_shape_invariant, start_super, start_disk.
    - unfold Kernel.mount_view. rewrite Em. split; [|intros p ty; simpl; by rewrite S2]. destruct S1 as [[A1 A2 A3 A4 A5] A6 A7]. split; try done.
      split; try done. split; [|done]. simpl. by rewrite Ev. }
  exists t. split_and!; try done.
  - destruct (fs_init_ok (PA := tracked_allocator (descending (147 + n) first_page) v2) garbage (Kernel.page_bytes s3) uninit
      (Kernel.mount_view s3) (boot_pages_at first_page n) (descending n first_page) W2 W3 Hraw Hn) as (t' & E' & Hready').
    { unfold pa_rep, host_allocator. rewrite Ea, <- boot_list_at. by split. }
    change (Mount.fs_init garbage (Kernel.page_bytes s3) uninit (Kernel.mount_view s3) = Ret tt t') in E'.
    rewrite E in E'. injection E' as <-. apply (caches_rep (PA := tracked_allocator (descending (147 + n) first_page) v2) t), (fr_pages _ _ _ _ _ _ _ Hready').
  - destruct Hty as [[[_ _ _ _ [_ Hsp]] _ _] _]. exact Hsp.
Qed.

(** ** The process and its program *)
Lemma init_pool k : Process.init_proc_pool k = Ret tt (with_procs empty_pool k).
Proof. done. Qed.

(** ** The first process runs *)
(** The ready queue holds the new process only, and it is resumed. *)
Lemma run_first k p : procs k !! 0%nat = Some p -> ready_queue_head k = None -> trapframe p <> 0 ->
  exists k1 k2, Sched.insert_to_ready_queue 0 k = Ret tt k1 /\ (forall A, Sched.schedule (A := A) k1 = ToUser k2) /\
    Sched.resumed 0 p k k2 /\ ready_queue_head k2 = None /\
    procs k2 = <[0%nat := set_status RUNNING (set_queue_next None (set_status READY p))]> (procs k).
Proof.
  intros Hp Hq Htf. set (p1 := set_queue_next None (set_status READY p)).
  set (k1 := with_head (Some 0%nat) (with_procs (<[0%nat := p1]> (procs k)) k)).
  assert (0 < length (procs k))%nat as Hlt by (by eapply lookup_lt_Some).
  assert (Sched.insert_to_ready_queue 0 k = Ret tt k1) as E1.
  { unfold Sched.insert_to_ready_queue. rewrite bind_gets, Hq. unfold upd_proc. rewrite !bind_modify. unfold modify, k1. f_equal. unfold with_head, with_procs. simpl.
    f_equal. apply list_eq. intros j. destruct (decide (j = 0%nat)) as [->|Hne].
    - rewrite !list_lookup_alter_eq, Hp, list_lookup_insert_eq by done. done.
    - by rewrite !list_lookup_alter_ne, list_lookup_insert_ne by done. }
  set (k1' := with_procs (alter (set_status RUNNING) 0%nat (procs k1)) (with_head None (with_current (Some 0%nat) k1))).
  destruct (Sched.switch_to_spec 0 (set_status RUNNING p1) k1') as (k2 & E2 & Hres & Hps & Hrq); [|done|].
  { unfold k1', k1. cbn. rewrite list_lookup_alter_eq, list_lookup_insert_eq by done. done. }
  exists k1, k2. split_and!; try done.
  - intros A. unfold Sched.schedule. rewrite bind_gets. cbn [ready_queue_head k1 with_head]. rewrite bind_modify.
    unfold get_proc. unfold bind at 1. cbn [procs with_current k1 with_head with_procs]. rewrite list_lookup_insert_eq by done. cbn [of_option].
    exact (E2 A).
  - destruct Hres. by split.
  - rewrite Hps. unfold k1', k1. cbn [procs with_procs with_head with_current]. apply list_eq. intros j. destruct (decide (j = 0%nat)) as [->|Hne].
    + rewrite list_lookup_alter_eq, !list_lookup_insert_eq by done. done.
    + by rewrite list_lookup_alter_ne, !list_lookup_insert_ne by done.
Qed.

(** ** All of [s_start] *)
Notation s_start := (Kernel.s_start etext kend ehdr_addr ph_addr arg_addr garbage uninit).

(** The state before the file systems are built. *)
Definition paged_kernel (k : Process.state) (v : Pmm.state) (root : Z) : Process.state :=
  let c := hart k in
  mk_state v empty_pool (current k) (ready_queue_head k)
    (mk_cpu (stvec c) (MAKE_SATP root) (sstatus c) (sepc c) (scause c) (stval c) (sip c) (sscratch c) (regs c)) (g_ticks k) (vfs_root_dentry k).
Definition paged_state s (v : Pmm.state) (root : Z) : state := Kernel.mk (paged_kernel (Kernel.kernel s) v root) (Kernel.mount s) (ram s) root.

(** The steps of the start with the intermediate states: [t] the mounted file
    systems, [p] the new process, [e] the loaded program. *)
Record boot_steps s (c : list Z) (i : nat) s' v2 root n t p st v5 F5 e F6 h' fd k2 : Prop := {
  bs_paged : paged s v2 root (147 + n);
  bs_fs : mounted_fs t n /\ HostPages.spike (Kernel.fs_pages t) = files_of s /\
    tracked (descending (147 + n) first_page) v2 (HostPages.alloc (Kernel.fs_pages t)) (descending n first_page) /\
    mount_typed (start_shape first_page (DRAM_BASE + ram s) (files_of s)) t;
  bs_created : created (Kernel.kernel (Kernel.set_mount_view t (paged_state s v2 root))) (descending n first_page)
    (Process.set_pid 0 (set_status FREE zero_process)) v5 F5 p st;
  bs_started : let s5 := Kernel.set_kernel (with_pmm v5 (with_procs (<[0%nat := p]> empty_pool)
      (Kernel.kernel (Kernel.set_mount_view t (paged_state s v2 root))))) (Kernel.set_mount_view t (paged_state s v2 root)) in
    program_started ehdr_addr ph_addr arg_addr 0 p (Kernel.elf_view s5) F5 c i e F6 h' fd /\
    s' = Kernel.set_kernel k2 (Kernel.set_elf_view e s5);
  bs_run : Sched.resumed 0 (set_regions (total_mapped_region p + Z.of_nat (length (load_segments c))) p) (Elf.kernel e) k2 /\
    ready_queue_head k2 = None /\
    procs k2 = <[0%nat := set_status RUNNING (set_queue_next None (set_status READY
      (set_regions (total_mapped_region p + Z.of_nat (length (load_segments c))) p)))]> (procs (Elf.kernel e));
}.

(** The managed memory lies above the kernel, and the new process has no page
    where the program goes. *)
Lemma powered_layout s name c i v : powered s name c i ->
  Pmm.free_mem_start_addr v = first_page -> Pmm.free_mem_end_addr v = DRAM_BASE + ram s ->
  layout v /\ kend <= first_page /\ Pmm.free_mem_end_addr v + PGSIZE < 2 ^ 64.
Proof.
  intros [_ (L1 & L2 & L3) W3 _ _ _ _ _ _ _ _ _ _] B1 B2.
  assert (DRAM_BASE + ram s <= PHYS_TOP) as Hram.
  { unfold ram, MIN, PHYS_TOP. destruct (Z.ltb_spec PKE_MAX_ALLOWABLE_RAM (Kernel.g_mem_size s)); lia. }
  assert (kend <= first_page) as Hkend.
  { unfold KERN_BASE in W3. destruct (Pmm.ROUNDUP_spec kend) as [_ Hr]; [lia|unfold PGSIZE, PHYS_TOP, DRAM_BASE, PKE_MAX_ALLOWABLE_RAM in *; lia|].
    unfold first_page. lia. }
  assert (PHYS_TOP <= MAXVA /\ PHYS_TOP + PGSIZE < 2 ^ 64) as [? ?] by done. split_and!; [split; [done|done|lia|lia]|done|lia].
Qed.

Lemma program_unmapped k F p0 v F' p st c x : created k F p0 v F' p st -> Pmm.rep (pmm k) F -> layout (pmm k) -> valid_program c ->
  in_program c x -> x < stack_va -> xlate (pagetable p) (Pmm.mem v) x = None.
Proof.
  intros Hc Hrep Hly Hv Hx Hlow. apply (created_unmapped _ _ _ _ _ _ _ x Hc Hrep Hly). split; [|done].
  destruct Hx as (ph & Hph & Hx). destruct (vp_fits _ Hv ph Hph) as [A1 A2 _ _]. destruct (seg_pages_eq ph) as (? & ? & _); [lia..|].
  unfold in_pages in Hx. lia.
Qed.

(** The calls of [s_start], one after the other. *)
Lemma s_start_run s v1 v2 root t k5 e k1 k2 :
  let s3 := paged_state s v2 root in let s4 := Kernel.set_mount_view t s3 in let s5 := Kernel.set_kernel k5 s4 in
  Pmm.pmm_init kend (Kernel.g_mem_size s) (pmm (Kernel.kernel s)) = Ret (ram s) v1 -> Vmm.kern_vm_init etext v1 = Ret root v2 ->
  Mount.fs_init garbage (Kernel.page_bytes s3) uninit (Kernel.mount_view s3) = Ret tt t ->
  Process.alloc_process (Kernel.kernel s4) = Ret 0%nat k5 ->
  Elf.load_bincode_from_host_elf ehdr_addr ph_addr arg_addr 0 (Kernel.elf_view s5) = Ret tt e ->
  Sched.insert_to_ready_queue 0 (Elf.kernel e) = Ret tt k1 -> (forall A, Sched.schedule (A := A) k1 = ToUser k2) ->
  s_start s = ToUser (Kernel.set_kernel k2 (Kernel.set_elf_view e s5)).
Proof.
  intros s3 s4 s5 E1 E2 E3 E4 E5 E6 E7. unfold Kernel.s_start.
  mstep (kernel_step (Kernel.write_satp 0) s tt _ eq_refl). rewrite bind_gets. 
  change (Kernel.g_mem_size (Kernel.set_kernel _ s)) with (Kernel.g_mem_size s).
  match goal with |- context [Kernel.set_kernel ?k s] => set (sa := Kernel.set_kernel k s) end.
  mstep (pmm_step (Pmm.pmm_init kend (Kernel.g_mem_size s)) sa _ _ E1). rewrite bind_modify.
  match goal with |- context [Kernel.set_mem_size ?a ?b] => set (sb := Kernel.set_mem_size a b) end.
  mstep (pmm_step (Vmm.kern_vm_init etext) sb _ _ E2). rewrite bind_modify.
  match goal with |- context [Kernel.set_pagetable ?a ?b] => set (sc := Kernel.set_pagetable a b) end.
  assert (Kernel.enable_paging sc = Ret tt (Kernel.set_kernel (with_hart (mk_cpu (stvec (hart (Kernel.kernel s))) (MAKE_SATP root) (sstatus (hart (Kernel.kernel s)))
    (sepc (hart (Kernel.kernel s))) (scause (hart (Kernel.kernel s))) (stval (hart (Kernel.kernel s))) (sip (hart (Kernel.kernel s)))
    (sscratch (hart (Kernel.kernel s))) (regs (hart (Kernel.kernel s)))) (Kernel.kernel sc)) sc)) as Ep by done.
  mstep Ep. match goal with |- context [Kernel.set_kernel ?k sc] => set (sd := Kernel.set_kernel k sc) end.
  mstep (kernel_step Process.init_proc_pool sd tt _ (init_pool _)). change (Kernel.set_kernel (with_procs empty_pool (Kernel.kernel sd)) sd) with s3.
  rewrite bind_gets. mstep (mount_step _ s3 tt t E3). fold s4.
  assert (Kernel.load_user_program ehdr_addr ph_addr arg_addr s4 = Ret 0%nat (Kernel.set_elf_view e s5)) as El.
  { unfold Kernel.load_user_program. mstep (kernel_step Process.alloc_process s4 _ _ E4). fold s5. by mstep (elf_step _ s5 tt e E5). }
  mstep El. mstep (kernel_step (Sched.insert_to_ready_queue 0) (Kernel.set_elf_view e s5) tt k1 E6).
  unfold bind, Kernel.on_kernel at 1, zoom. change (Kernel.kernel (Kernel.set_kernel k1 _)) with k1. by rewrite E7.
Qed.

Lemma s_start_steps s name c i : powered s name c i ->
  exists s' v2 root n t p st v5 F5 e F6 h' fd k2, s_start s = ToUser s' /\ boot_steps s c i s' v2 root n t p st v5 F5 e F6 h' fd k2.
Proof.
  intros W. destruct (boot_memory s name c i W) as (v1 & v2 & root & N & E1 & E2 & Hpg & HN).
  set (n := (N - 147)%nat). replace N with (147 + n)%nat in Hpg by lia. assert (12 + pages_needed (load_segments c) <= n)%nat as Hn by lia.
  set (s3 := paged_state s v2 root).
  destruct (boot_files_ok s s3 v2 root n name c i W Hpg eq_refl eq_refl) as (t & E3 & Hfs & Htr & Hsp & Hty).
  set (s4 := Kernel.set_mount_view t s3). set (k4 := Kernel.kernel s4).
  pose proof W as [W1 W2 W3 W4 _ W6 _ W8 [W9 W9'] (W10 & W11 & W12) W13 (W14 & W15 & W16 & W17) _].
  pose proof Hpg as [_ [B1 B2] _ _]. pose proof Htr as [T1 _ _ [T2 T3]].
  change (HostPages.alloc (Kernel.fs_pages t)) with (pmm k4) in T1, T2, T3.
  destruct (powered_layout s name c i (pmm k4) W) as (Hly & Hkend & Hend); [congruence..|].
  destruct (alloc_process_ok k4 (descending n first_page) 0 (Process.set_pid 0 (set_status FREE zero_process))) as (v5 & F5 & p & st & E4 & Hc); try done.
  { rewrite length_descending. lia. }
  set (k5 := with_pmm v5 (with_procs (<[0%nat := p]> (procs k4)) k4)) in *. set (s5 := Kernel.set_kernel k5 s4).
  assert (ready_process ehdr_addr ph_addr arg_addr 0 p (Kernel.elf_view s5) F5) as Hrp.
  { apply (ready_created ehdr_addr ph_addr arg_addr k4 (descending n first_page) (Process.set_pid 0 (set_status FREE zero_process)) v5 F5 p st); try done.
    - change (length (procs k4)) with 32%nat. lia.
    - intros b m Hin. specialize (W8 b m Hin). lia. }
  assert (total_mapped_region p = 4) as Hr4 by (rewrite (cr_fields _ _ _ _ _ _ _ Hc); done).
  destruct (free_entry_Some _ _ W16) as (f & Hf & _).
  assert (Spike.spike_files (files_of s) = Elf.spike_files (Kernel.elf_view s5) /\ Spike.spike_fds (files_of s) = Elf.spike_fds (Kernel.elf_view s5) /\
    Spike.host (files_of s) = Elf.host (Kernel.elf_view s5) /\ Spike.lock (files_of s) = Elf.lock (Kernel.elf_view s5)) as (G1 & G2 & G3 & G4)
    by (rewrite <- Hsp; done).
  rewrite G1 in W16, Hf. rewrite G2 in W15, W17. rewrite G3 in W13. rewrite G4 in W14.
  destruct (load_bincode_ok ehdr_addr ph_addr arg_addr 0 p (Kernel.elf_view s5) F5 c name i f) as (e & F6 & h' & fd & E5 & Hst); try done.
  { rewrite Hr4. lia. }
  { destruct (cr_used _ _ _ _ _ _ _ Hc) as (used & HF & Hlen & _). pose proof (f_equal length HF) as Hl. rewrite length_app, length_descending in Hl. lia. }
  { intros x Hx. by apply (program_unmapped _ _ _ _ _ _ _ c x Hc T1 Hly W10 Hx), W12. }
  set (p6 := set_regions (total_mapped_region p + Z.of_nat (length (load_segments c))) p).
  pose proof (ps_state _ _ _ _ _ _ _ _ _ _ _ _ _ Hst) as Ee.
  destruct (run_first (Elf.kernel e) p6) as (k1 & k2 & E6 & E7 & Hres & Hq & Hps).
  { rewrite Ee. done. }
  { rewrite Ee. exact W6. }
  { by destruct (rp_frame _ _ _ _ _ _ _ Hrp) as (_ & ? & _). }
  exists (Kernel.set_kernel k2 (Kernel.set_elf_view e s5)), v2, root, n, t, p, st, v5, F5, e, F6, h', fd, k2. split; [|by split].
  by apply (s_start_run s v1 v2 root t k5 e k1 k2).
Qed.

(** ** What the start promises *)
Definition memory_of s : memory := mem (Kernel.kernel s).

Record booted s (c : list Z) s' (p : process) (root : Z) : Prop := {
  bt_current : current (Kernel.kernel s') = Some 0%nat /\ procs (Kernel.kernel s') !! 0%nat = Some p /\ status p = RUNNING /\
    ready_queue_head (Kernel.kernel s') = None;
  bt_hart : let c' := hart (Kernel.kernel s') in
    satp c' = MAKE_SATP (pagetable p) /\ sepc c' = h_entry (elf_header_at c) /\ stvec c' = smode_trap_vector_addr /\
    sscratch c' = trapframe p /\ has (sstatus c') SSTATUS_SPP = false /\ has (sstatus c') SSTATUS_SPIE = true;
  bt_regs : regs (hart (Kernel.kernel s')) = map (fun k => if k =? 1 then USER_STACK_TOP else 0) (seqZ 0 31);
  bt_program : forall ph x, ph ∈ load_segments c -> in_segment ph x ->
    vbyte (pagetable p) (memory_of s') x = Some (segment_byte c ph x) /\
    exists pa, xlate (pagetable p) (memory_of s') x = Some (entry pa (seg_perm ph));
  bt_space : exists st, forall x, 0 <= x < MAXVA -> ~ in_program c x -> xlate (pagetable p) (memory_of s') x =
    if decide (same_page stack_va x) then Some (entry st stack_perm)
    else if decide (same_page (trapframe p) x) then Some (entry (trapframe p) frame_perm)
    else if decide (same_page trap_sec_start x) then Some (entry trap_sec_start trap_perm) else None;
  bt_kernel : forall va, 0 <= va < MAXVA -> xlate root (memory_of s') va =
    if decide (KERN_BASE <= va < PHYS_TOP) then Some (entry (ROUNDDOWN va PGSIZE) (kernel_perm etext va)) else None;
  bt_frame : ld64 (memory_of s') (trapframe p + tf_kernel_satp) = MAKE_SATP root /\
    ld64 (memory_of s') (trapframe p + tf_kernel_sp) = kstack p /\
    ld64 (memory_of s') (trapframe p + tf_kernel_trap) = smode_trap_handler_addr;
  bt_files : exists t n a, mounted_fs t n /\ Kernel.mount s' = Kernel.with_fs_pages a t;
  bt_typed : forall spike_files_addr path_addr stat_addr buf_addr filter buffer s'',
    runs spike_files_addr path_addr stat_addr buf_addr garbage filter buffer s' s'' -> whole_typed first_page (DRAM_BASE + ram s) s'';
}.

Section steps_facts.
Context s c i s' v2 root n t p st v5 F5 e F6 h' fd k2 (B : boot_steps s c i s' v2 root n t p st v5 F5 e F6 h' fd k2).
Context name (W : powered s name c i).
Notation k4 := (Kernel.kernel (Kernel.set_mount_view t (paged_state s v2 root))).

Lemma boot_rep : Pmm.rep (pmm k4) (descending n first_page).
Proof. destruct (bs_fs _ _ _ _ _ _ _ _ _ _ _ _ _ _ _ _ _ B) as (_ & _ & [T _ _ _] & _). exact T. Qed.

Lemma boot_own q : q ∈ own_pages p st -> q mod PGSIZE = 0 /\ 0 < q /\ first_page <= q /\ (q ∈ descending n first_page) /\ (q ∉ F5).
Proof.
  intros Hq. destruct (created_pages _ _ _ _ _ _ _ (bs_created _ _ _ _ _ _ _ _ _ _ _ _ _ _ _ _ _ B) boot_rep q Hq) as (A1 & A2 & A3 & A4 & A5).
  split_and!; try done. destruct (bs_fs _ _ _ _ _ _ _ _ _ _ _ _ _ _ _ _ _ B) as (_ & _ & [_ _ _ [T _]] & _).
  destruct (bs_paged _ _ _ _ _ _ _ _ _ _ _ _ _ _ _ _ _ B) as [_ [G _] _ _]. change (pmm k4) with (HostPages.alloc (Kernel.fs_pages t)) in A3. lia.
Qed.

(** The trapframe page is no table of the process, and not free. *)
Lemma boot_frame_page : trapframe p mod PGSIZE = 0 /\ trapframe p <> 0 /\ trapframe p <> mapped_info p /\
  ~ is_table (pagetable p) (Elf.memory_of e) (trapframe p) /\ (trapframe p ∉ F6) /\ ~ is_table (pagetable p) (Pmm.mem v5) (trapframe p).
Proof.
  destruct (boot_own (trapframe p)) as (A1 & A2 & A3 & A4 & A5); [apply elem_of_cons; by left|].
  pose proof (bs_created _ _ _ _ _ _ _ _ _ _ _ _ _ _ _ _ _ B) as Hc.
  pose proof (cr_own _ _ _ _ _ _ _ Hc) as [Nd _]. unfold own_pages in Nd. rewrite !NoDup_cons, !not_elem_of_cons in Nd. destruct Nd as ((N1 & _ & _ & N4 & _) & _).
  assert (~ is_table (pagetable p) (Pmm.mem v5) (trapframe p)) as Ht.
  { eapply created_not_table; [exact Hc|unfold own_pages; apply elem_of_cons; by left|done]. }
  destruct (bs_started _ _ _ _ _ _ _ _ _ _ _ _ _ _ _ _ _ B) as [[_ Hch _ _ _ _ _ _] _].
  split_and!; try done; try lia.
  - intros Ht'. by destruct (ev_table _ _ _ _ _ _ _ Hch _ Ht').
  - intros Hf. by apply A5, (ev_free _ _ _ _ _ _ _ Hch).
Qed.

(** What entering user mode writes. *)
Lemma boot_enter : Kernel.kernel s' = k2 /\ memory_of s' = st64 (st64 (st64 (Elf.memory_of e) (trapframe p + tf_kernel_sp) (kstack p))
    (trapframe p + tf_kernel_satp) (MAKE_SATP root)) (trapframe p + tf_kernel_trap) smode_trap_handler_addr /\
  changes (pagetable p) (frame_words p) (fun _ => False) F6 (Elf.memory_of e) F6 (memory_of s').
Proof.
  destruct (bs_started _ _ _ _ _ _ _ _ _ _ _ _ _ _ _ _ _ B) as [Hst Es]. destruct (bs_run _ _ _ _ _ _ _ _ _ _ _ _ _ _ _ _ _ B) as ([] & _ & _).
  assert (Kernel.kernel s' = k2) as Ek by (by rewrite Es). split; [done|].
  pose proof (ps_state _ _ _ _ _ _ _ _ _ _ _ _ _ Hst) as Ee. assert (satp (hart (Elf.kernel e)) = MAKE_SATP root) as Hs by (by rewrite Ee).
  assert (memory_of s' = st64 (st64 (st64 (Elf.memory_of e) (trapframe p + tf_kernel_sp) (kstack p))
    (trapframe p + tf_kernel_satp) (MAKE_SATP root)) (trapframe p + tf_kernel_trap) smode_trap_handler_addr) as Hm.
  { unfold memory_of, mem. rewrite Ek, rs_pmm, Hs. done. }
  split; [exact Hm|]. destruct boot_frame_page as (A1 & _ & _ & A4 & A5 & _).
  apply (vm_inv_changes (pagetable p) (frame_words p) F6 (vm e)).
  - apply Hst.
  - intros a ->. done.
  - intros a Ha. rewrite Hm. unfold frame_words in Ha. rewrite !store_page_out; done.
Qed.

Lemma boot_started : program_started ehdr_addr ph_addr arg_addr 0 p (Kernel.elf_view (Kernel.set_kernel (with_pmm v5 (with_procs (<[0%nat := p]> empty_pool) k4))
  (Kernel.set_mount_view t (paged_state s v2 root)))) F5 c i e F6 h' fd.
Proof. by destruct (bs_started _ _ _ _ _ _ _ _ _ _ _ _ _ _ _ _ _ B). Qed.

Lemma boot_bytes ph x : ph ∈ load_segments c -> in_segment ph x ->
  vbyte (pagetable p) (memory_of s') x = Some (segment_byte c ph x) /\
  exists pa, xlate (pagetable p) (memory_of s') x = Some (entry pa (seg_perm ph)).
Proof.
  intros Hph Hx. destruct boot_enter as (_ & _ & Hch). pose proof boot_started as Hst.
  destruct (pw_program _ _ _ _ W) as (Hv & _ & _). destruct (vp_fits _ Hv ph Hph) as [A1 A2 _ _].
  assert (0 <= x < MAXVA) as Hxr by (unfold in_segment in Hx; lia). split.
  - apply (se_byte (pagetable p) (frame_words p) F6). eapply sealed_changes; [exact Hch|done|tauto|]. by eapply ps_bytes.
  - rewrite (ev_xlate _ _ _ _ _ _ _ Hch) by (done || tauto). by eapply ps_perms.
Qed.

Lemma boot_space x : 0 <= x < MAXVA -> ~ in_program c x -> xlate (pagetable p) (memory_of s') x =
  if decide (same_page stack_va x) then Some (entry st stack_perm)
  else if decide (same_page (trapframe p) x) then Some (entry (trapframe p) frame_perm)
  else if decide (same_page trap_sec_start x) then Some (entry trap_sec_start trap_perm) else None.
Proof.
  intros Hx Hn. destruct boot_enter as (_ & _ & Hch). pose proof (ps_changes _ _ _ _ _ _ _ _ _ _ _ _ _ boot_started) as Hps.
  rewrite (ev_xlate _ _ _ _ _ _ _ Hch) by (done || tauto). rewrite (ev_xlate _ _ _ _ _ _ _ Hps) by done.
  apply (fp_xlate _ _ _ _ (cr_fresh _ _ _ _ _ _ _ (bs_created _ _ _ _ _ _ _ _ _ _ _ _ _ _ _ _ _ B))). done.
Qed.

Lemma boot_buffers b m a : (b, m) ∈ [(ehdr_addr, sizeof_header); (ph_addr, sizeof_prog_header); (arg_addr, 8 * MAX_CMDLINE_ARGS)] ->
  in_buffer b m a -> ROUNDDOWN a PGSIZE < first_page.
Proof.
  intros Hin Ha. pose proof (pw_buffers _ _ _ _ W b m Hin). pose proof (pw_memory _ _ _ _ W) as Hm. apply (below_page a b m); [done|].
  unfold first_page, KERN_BASE, ram, MIN in *. destruct (Pmm.ROUNDUP_spec kend) as [_ Hr]; [lia| |lia].
  unfold PKE_MAX_ALLOWABLE_RAM, PGSIZE in *. destruct (Z.ltb_spec (128 * 1024 * 1024) (Kernel.g_mem_size s)); lia.
Qed.

(** Words of the process besides its entry point are not changed by the loader. *)
Lemma boot_words a : first_page <= ROUNDDOWN a PGSIZE -> ~ is_table (pagetable p) (Pmm.mem v5) (ROUNDDOWN a PGSIZE) -> ROUNDDOWN a PGSIZE ∉ F5 ->
  ROUNDDOWN a PGSIZE <> mapped_info p -> a <> trapframe p + tf_epc -> ld64 (Elf.memory_of e) a = ld64 (Pmm.mem v5) a.
Proof.
  intros Hlo Ht Hf Hmi Hep. pose proof (ps_changes _ _ _ _ _ _ _ _ _ _ _ _ _ boot_started) as Hps.
  apply (ev_frame _ _ _ _ _ _ _ Hps); try done.
  intros [Hb|[[Hb|[Hb|Hb]]|Hb]]; try done; eapply (boot_buffers _ _ a) in Hb; try lia; rewrite !elem_of_cons; tauto.
Qed.

Lemma boot_kernel_map va : 0 <= va < MAXVA -> xlate root (memory_of s') va =
  if decide (KERN_BASE <= va < PHYS_TOP) then Some (entry (ROUNDDOWN va PGSIZE) (kernel_perm etext va)) else None.
Proof.
  intros Hva. pose proof (bs_paged _ _ _ _ _ _ _ _ _ _ _ _ _ _ _ _ _ B) as [P1 _ P3 P4]. rewrite <- P4 by done.
  apply (tables_frame root v2 (descending (147 + n) first_page)); [done|]. intros a Ha. pose proof (P3 _ Ha) as Hlo.
  assert (ROUNDDOWN a PGSIZE ∉ descending (147 + n) first_page) as Hni.
  { destruct Ha as (x & d & Hd & Hq). destruct P1 as (_ & _ & Hwf). by destruct (wf_page _ _ _ Hwf x d _ Hd Hq) as (_ & _ & ?). }
  assert (ROUNDDOWN a PGSIZE ∉ descending n first_page) as Hni' by (intros ?; apply Hni; rewrite descending_app; apply elem_of_app; by right).
  assert (forall q, q ∈ own_pages p st -> ROUNDDOWN a PGSIZE <> q) as Hq by (intros q Hq E; destruct (boot_own q Hq) as (_ & _ & _ & ? & _); congruence).
  pose proof (bs_created _ _ _ _ _ _ _ _ _ _ _ _ _ _ _ _ _ B) as Hc. destruct (bs_fs _ _ _ _ _ _ _ _ _ _ _ _ _ _ _ _ _ B) as (_ & _ & [_ _ T _] & _).
  assert (ROUNDDOWN a PGSIZE <> trapframe p) as Htf by (apply Hq; unfold own_pages; rewrite !elem_of_cons; tauto).
  destruct boot_enter as (_ & Hm & _). destruct boot_frame_page as (A1 & _). rewrite Hm, !store_page_out by done.
  rewrite boot_words; try done.
  - rewrite (cr_mem _ _ _ _ _ _ _ Hc) by done. by apply T.
  - intros Ht. by apply Hni', (created_table _ _ _ _ _ _ _ _ Hc).
  - intros Hf. apply Hni'. destruct (cr_used _ _ _ _ _ _ _ Hc) as (used & -> & _). apply elem_of_app. by right.
  - apply Hq. unfold own_pages. rewrite !elem_of_cons. tauto.
  - intros ->. by rewrite page_word in Htf.
Qed.

Lemma boot_registers : Process.saved_regs (Elf.memory_of e) (trapframe p) = map (fun k => if k =? 1 then USER_STACK_TOP else 0) (seqZ 0 31).
Proof.
  destruct boot_frame_page as (A1 & A2 & A3 & A4 & A5 & A6). destruct (boot_own (trapframe p)) as (_ & _ & Hlo & _ & Hn); [apply elem_of_cons; by left|].
  pose proof (bs_created _ _ _ _ _ _ _ _ _ _ _ _ _ _ _ _ _ B) as Hc. pose proof (fp_frame _ _ _ _ (cr_fresh _ _ _ _ _ _ _ Hc)) as Hf.
  transitivity (map (fun k => if Z.of_nat k =? 1 then USER_STACK_TOP else 0) (seq 0 31)); [|by vm_compute]. unfold Process.saved_regs.
  apply map_ext_in. intros k Hk%in_seq. rewrite <- Hf by lia.
  assert (ROUNDDOWN (trapframe p + 8 * Z.of_nat k) PGSIZE = trapframe p) as E by (apply page_word; [done|unfold PGSIZE; lia]).
  apply boot_words; rewrite ?E; try done; unfold tf_epc; lia.
Qed.

Lemma boot_procs_typed j q : procs k2 !! j = Some q -> proc_typed j q.
Proof.
  destruct (bs_run _ _ _ _ _ _ _ _ _ _ _ _ _ _ _ _ _ B) as (_ & _ & ->). rewrite (ps_state _ _ _ _ _ _ _ _ _ _ _ _ _ boot_started).
  intros Hq. change (procs _) with (<[0%nat := set_regions (total_mapped_region p + Z.of_nat (length (load_segments c))) p]> (<[0%nat := p]> empty_pool)) in Hq.
  rewrite !list_insert_insert_eq in Hq. apply list_lookup_insert_Some in Hq as [(<- & <- & _)|[_ Hq]].
  - rewrite (cr_fields _ _ _ _ _ _ _ (bs_created _ _ _ _ _ _ _ _ _ _ _ _ _ _ _ _ _ B)). repeat split; by simpl.
  - unfold empty_pool in Hq. rewrite list_lookup_imap in Hq. apply fmap_Some in Hq as (x & Hx & ->). apply lookup_replicate in Hx as [-> _]. repeat split; by simpl.
Qed.

Lemma boot_whole_typed : whole_typed first_page (DRAM_BASE + ram s) s'.
Proof.
  destruct boot_enter as (Ek & _ & _). pose proof boot_started as Hst. pose proof (ps_state _ _ _ _ _ _ _ _ _ _ _ _ _ Hst) as Ee.
  destruct (bs_fs _ _ _ _ _ _ _ _ _ _ _ _ _ _ _ _ _ B) as (Hfs & Hsp & [_ _ _ [T1 T2]] & [Hty _]).
  destruct (bs_paged _ _ _ _ _ _ _ _ _ _ _ _ _ _ _ _ _ B) as [_ [P1 P2] _ _].
  pose proof (cr_bounds _ _ _ _ _ _ _ (bs_created _ _ _ _ _ _ _ _ _ _ _ _ _ _ _ _ _ B)) as [C1 C2].
  change (pmm k4) with (HostPages.alloc (Kernel.fs_pages t)) in C1, C2. pose proof (ps_bounds _ _ _ _ _ _ _ _ _ _ _ _ _ Hst) as [D1 D2].
  change (vm (Kernel.elf_view _)) with v5 in D1, D2.
  destruct (bs_run _ _ _ _ _ _ _ _ _ _ _ _ _ _ _ _ _ B) as ([] & Hq & Hps). split; [rewrite Ek; split|].
  - rewrite Hps, Ee. by rewrite length_insert.
  - apply boot_procs_typed.
  - rewrite rs_current. simpl. lia.
  - by rewrite Hq.
  - rewrite rs_regs. done.
  - rewrite rs_pmm. change (pmm (Elf.kernel e)) with (vm e). split; simpl; congruence.
  - destruct (bs_started _ _ _ _ _ _ _ _ _ _ _ _ _ _ _ _ _ B) as [_ ->]. destruct Hty as [[F1 _ F3 F4 [F5' _]] V2 V3].
    split; [|exact V2|exact V3]. split; [exact F1| |exact F3|exact F4|].
    + destruct (fr_mounted _ _ _ _ _ _ _ Hfs) as [[_ _ [M1 M2] _] _]. simpl. unfold map_typed.
      change (Rfs.nblocks _) with (Rfs.nblocks (Vfs.fs (Mount.vfs t))). change (Rfs.freemap _) with (Rfs.freemap (Vfs.fs (Mount.vfs t))).
      rewrite M1, M2. split; [done|]. constructor; [by right|]. apply Forall_replicate. by left.
    + split; [exact F5'|]. destruct (sh_files _ (pw_shape _ _ _ _ W)) as [H1 H2]. rewrite Ee. unfold host_typed, spike_typed. simpl.
      rewrite length_insert, Hsp. done.
Qed.
End steps_facts.

(** C1: from power on to user mode: with the kernel in memory, at least 290 free
    pages besides those of the program, empty tables, and a host that names a
    valid ELF program, [s_start] ends by returning to user mode.  Process 0 is
    running, its page table is loaded, its program counter is the entry point of
    the ELF file, its registers are zero but for the stack pointer; it sees the
    bytes of every segment of the file with the permissions of the segment, its
    stack, and no other memory that is not the trap code or its trapframe; the
    kernel's page table is the direct map and is found by the next trap; the
    host's files are mounted as the root, with the formatted RAM disk below it;
    and the state is typed then and after any number of further traps. *)
Theorem kernel_boots s name c i : powered s name c i -> exists s' p root, s_start s = ToUser s' /\ booted s c s' p root.
Proof.
  intros W. destruct (s_start_steps s name c i W) as (s' & v2 & root & n & t & p & st & v5 & F5 & e & F6 & h' & fd & k2 & E & B).
  destruct (boot_enter s c i s' v2 root n t p st v5 F5 e F6 h' fd k2 B) as (Ek & Hm & _).
  pose proof (boot_registers s c i s' v2 root n t p st v5 F5 e F6 h' fd k2 B name W) as Hregs.
  pose proof (bs_run _ _ _ _ _ _ _ _ _ _ _ _ _ _ _ _ _ B) as ([] & Hq & Hps).
  set (p' := set_status RUNNING (set_queue_next None (set_status READY (set_regions (total_mapped_region p + Z.of_nat (length (load_segments c))) p)))) in *.
  exists s', p', root. split; [done|]. split; rewrite ?Ek.
  - split_and!; try done. rewrite Hps. rewrite (ps_state _ _ _ _ _ _ _ _ _ _ _ _ _ (boot_started s c i s' v2 root n t p st v5 F5 e F6 h' fd k2 B)). done.
  - cbv zeta. split_and!; try done. rewrite rs_sepc. exact (ps_entry _ _ _ _ _ _ _ _ _ _ _ _ _ (boot_started s c i s' v2 root n t p st v5 F5 e F6 h' fd k2 B)).
  - rewrite rs_regs. exact Hregs.
  - exact (boot_bytes s c i s' v2 root n t p st v5 F5 e F6 h' fd k2 B name W).
  - exists st. exact (boot_space s c i s' v2 root n t p st v5 F5 e F6 h' fd k2 B).
  - exact (boot_kernel_map s c i s' v2 root n t p st v5 F5 e F6 h' fd k2 B name W).
  - rewrite Hm. change (trapframe p') with (trapframe p). change (kstack p') with (kstack p). unfold tf_kernel_satp, tf_kernel_sp, tf_kernel_trap.
    split_and!; [rewrite ld64_st64_ne, ld64_st64_eq by lia; done|rewrite !ld64_st64_ne, ld64_st64_eq by lia; done|apply ld64_st64_eq].
  - destruct (bs_started _ _ _ _ _ _ _ _ _ _ _ _ _ _ _ _ _ B) as [_ ->]. destruct (bs_fs _ _ _ _ _ _ _ _ _ _ _ _ _ _ _ _ _ B) as (Hfs & _).
    eexists t, n, _. split; [exact Hfs|reflexivity].
  - intros ? ? ? ? ? ? s''. apply runs_typed; [apply (pw_shape _ _ _ _ W)|].
    exact (boot_whole_typed s c i s' v2 root n t p st v5 F5 e F6 h' fd k2 B name W).
Qed.
End boot.

(** ** A concrete machine *)
(** The kernel ends at 0x80010000, and machine mode has seen two megabytes. *)
#[local] Instance boot_symbols : KernelSymbols := {|
  trap_sec_start := 0x80004000; smode_trap_vector_addr := 0x80004000; smode_trap_handler_addr := 0x80000800 |}.
Definition boot_garbage (p : Z) : vinode := mk_vinode 0 0 0 0 0 0 (replicate 10 0) 0 0.
Definition boot_disk : list (list Z) := replicate 128 (replicate 4096 0).
Definition boot_vfs (d : list (list Z)) : Vfs.state (HostPages.state Pmm.state BootHost.host) :=
  Vfs.mk (Rfs.mk d (replicate 4096 0) 0 [] ∅ ∅ ∅ ∅
    (HostPages.mk (Pmm.mk ∅ 0 0 0) (Spike.mk ∅ boot_disk_host (replicate 128 FNull) (replicate 128 (mk_spike_file 0 0)) 0)))
    (replicate 128 []) (replicate 128 []) ∅ 0.
Definition boot_state (d : list (list Z)) : Kernel.state BootHost.host :=
  Kernel.mk (mk_state (Pmm.mk ∅ 0 0 0) [] None None (mk_cpu 0 0 0 0 0 0 0 0 (replicate 31 0)) 0 0)
    (Mount.mk (boot_vfs d) (replicate 10 0) ∅ (replicate 10 0) ∅ (replicate 10 0) (replicate 10 0) ∅) 0x200000 0.

Lemma boot_state_shaped : shaped boot_garbage (boot_state boot_disk).
Proof.
  split; [|reflexivity|split; reflexivity|intros p; reflexivity]. split; [|reflexivity..].
  split; [|done..]. split_and!; [reflexivity|by apply Forall_replicate|reflexivity].
Qed.

Lemma boot_state_powered :
  powered 0x80006000 0x80010000 0x80008000 0x80008100 0x80009000 boot_garbage (replicate 9 0) (boot_state boot_disk) [97] boot_program 0.
Proof.
  pose proof boot_state_shaped as Hs. pose proof boot_disk_host_ok as Hh. generalize dependent boot_disk. intros d Hs.
  split; [..|exact Hh| |exact Hs].
  - split; [split|]; reflexivity.
  - split_and!; [reflexivity|by apply Z.leb_le|by apply Z.leb_le].
  - split; [reflexivity|by apply Z.leb_le].
  - rewrite boot_program_segments. by apply Nat.leb_le.
  - split_and!; reflexivity.
  - reflexivity.
  - split; [reflexivity|]. by apply Forall_replicate.
  - intros b n. rewrite !elem_of_cons, elem_of_nil. intros [[= -> ->]|[[= -> ->]|[[= -> ->]|[]]]]; by apply Z.leb_le.
  - split; [reflexivity|]. intros a. unfold in_buffer. change sizeof_header with 64. change sizeof_prog_header with 56. lia.
  - split_and!; [exact boot_program_valid|rewrite boot_program_segments; simpl; lia|].
    intros x Hx. by apply boot_program_range.
  - split_and!; [reflexivity|reflexivity|reflexivity|]. intros Hin. apply elem_of_replicate_inv in Hin. discriminate Hin.
Qed.

Lemma kernel_boots_witness : exists (s' : Kernel.state BootHost.host) p root,
  Kernel.s_start 0x80006000 0x80010000 0x80008000 0x80008100 0x80009000 boot_garbage (replicate 9 0) (boot_state boot_disk) = ToUser s' /\
  booted 0x80006000 0x80010000 boot_garbage (boot_state boot_disk) boot_program s' p root.
Proof.
  apply (kernel_boots 0x80006000 0x80010000 0x80008000 0x80008100 0x80009000 boot_garbage (replicate 9 0) (boot_state boot_disk) [97] boot_program 0).
  apply boot_state_powered.
Defined.
