(* ===== verification/SysFileSpec.v ===== *)
(** * Properties of the file system calls

    The loop over the pages of a buffer, and what reading and writing of files
    means to a process: the bytes it sees at its virtual addresses, in a buffer
    of any length over any number of pages.  [page_loop_rule] is the invariant
    rule of the loop; [copied] says which bytes arrive when the data has NUL
    bytes in it. *)

From stdpp Require Import base gmap list numbers strings.
From Stdlib Require Import ZArith Lia.
From S2P Require Import Prelude Pmm Vmm VmmSpec Bytes ByteMem UserMem Rfs RfsDisk RfsFile RfsWrite RfsSpec Vfs VfsSpec ProcFile.
From S2P Require Import Process Sched Trap SysFile.
Local Open Scope Z_scope.

(** Whether a file is well formed does not depend on the pages. *)
Definition with_allocator {A B} (b : B) (ds : gmap Z dentry) (s : Rfs.state A) : Rfs.state B :=
  Rfs.mk (Rfs.disk s) (Rfs.iobuffer s) (Rfs.nblocks s) (Rfs.freemap s) (Rfs.vinodes s) ds (Rfs.caches s) (Rfs.dir_pages s) b.

Lemma readable_allocator {A B} (s : Rfs.state A) (b : B) ds v : readable s v -> readable (with_allocator b ds s) v.
Proof. intros (H1 & H2 & [F1 F2 F3 F4 F5]). split; [exact H1|split; [exact H2|]]. by split. Qed.

Lemma readable_pages {A} (s : Rfs.state A) v a : readable s v -> readable (Rfs.set_pages a s) v.
Proof. apply readable_allocator. Qed.

Section calls.
Context {A : Type} `{KP : KernelPages A}.
Implicit Types s : SysFile.state A.


(** [p] is the running process, and its page table is well formed. *)
Record running s (j : nat) (p : process) (F : list Z) : Prop := {
  run_current : current (SysFile.kernel s) = Some j;
  run_proc : procs (SysFile.kernel s) !! j = Some p;
  run_vm : vm_inv (pagetable p) (pmm (SysFile.kernel s)) F;
}.

Lemma on_kernel_Ret {R} (m : M Process.state R) s r k :
  m (SysFile.kernel s) = Ret r k -> SysFile.on_kernel m s = Ret r (SysFile.mk k (SysFile.vfs s)).
Proof. intros E. unfold SysFile.on_kernel, zoom. by rewrite E. Qed.

Lemma current_proc_eq s j p F : running s j p F -> SysFile.current_proc s = Ret p s.
Proof.
  intros [Hc Hp _]. unfold SysFile.current_proc. rewrite (on_kernel_Ret _ s p (SysFile.kernel s)).
  - by destruct s.
  - unfold bind, the_current, get_proc. rewrite Hc. simpl. by rewrite Hp.
Qed.

Lemma on_files_Ret {R} (m : Z -> M (ProcFile.state A) R) s j p F r t :
  running s j p F -> m (pfiles p) (SysFile.file_state (pfiles p) s) = Ret r t ->
  SysFile.on_files m s = Ret r (SysFile.set_file_state (pfiles p) t s).
Proof.
  intros Hrun Hm. unfold SysFile.on_files. mstep (current_proc_eq s j p F Hrun). unfold zoom. by rewrite Hm.
Qed.

Lemma lookup_pa_call s j p F va e :
  running s j p F -> xlate (pagetable p) (SysFile.memory_of s) va = Some e -> 0 <= va < MAXVA ->
  has e PTE_R || has e PTE_W = true ->
  SysFile.on_kernel (lift (Vmm.lookup_pa (pagetable p) va)) s = Ret (PTE2PA e) s.
Proof.
  intros [_ _ Hvm] Hx Hva Hrw. rewrite (on_kernel_Ret _ s (PTE2PA e) (SysFile.kernel s)).
  - by destruct s.
  - unfold lift, zoom. rewrite (lookup_pa_eq _ _ _ _ Hvm).
    destruct (Z.leb_spec MAXVA va); [lia|]. unfold SysFile.memory_of, mem in Hx. rewrite Hx, Hrw.
    by destruct (SysFile.kernel s).
Qed.

(** ** The loop over the pages of a buffer *)
(** The part of the buffer from [i] on that lies in one page. *)
Definition chunk (bufva i count : Z) : Z := Z.min (count - i) (PGSIZE - (bufva + i) mod PGSIZE).

Lemma chunk_pos bufva i count : i < count -> 0 < chunk bufva i count.
Proof. unfold chunk, PGSIZE. pose proof (Z.mod_pos_bound (bufva + i) 4096). lia. Qed.

(** A chunk that does not end the buffer ends at a page boundary. *)
Lemma chunk_page bufva i count :
  i + chunk bufva i count < count -> (bufva + (i + chunk bufva i count)) mod PGSIZE = 0.
Proof. unfold chunk, PGSIZE. intros. zlia. Qed.

(** One iteration. *)
Lemma page_loop_step fuel op s j p F e bufva i count :
  running s j p F -> 0 <= i < count -> count < 2 ^ 31 -> 0 <= bufva -> bufva + i < MAXVA ->
  xlate (pagetable p) (SysFile.memory_of s) (bufva + i) = Some e -> has e PTE_R || has e PTE_W = true ->
  SysFile.page_loop (S fuel) op bufva i count s =
    (r <- op (PTE2PA e) ((bufva + i) mod PGSIZE) (chunk bufva i count) ;;
     if r <? chunk bufva i count then ret (i32 (i + r)) else SysFile.page_loop fuel op bufva (i32 (i + r)) count) s.
Proof.
  intros Hrun Hi Hc Hb Hva Hx Hrw. change MAXVA with (2 ^ 38) in Hva. cbn [SysFile.page_loop].
  rewrite (u64_small i) by lia. destruct (Z.ltb_spec i count); [|lia].
  mstep (current_proc_eq s j p F Hrun). rewrite (u64_small (bufva + i)), (u64_small (count - i)) by lia.
  mstep (lookup_pa_call s j p F _ _ Hrun Hx ltac:(change MAXVA with (2 ^ 38); lia) Hrw).
  replace (bufva + i - ROUNDDOWN (bufva + i) PGSIZE) with ((bufva + i) mod PGSIZE)
    by (unfold ROUNDDOWN, PGSIZE; zlia).
  replace (if count - i <? PGSIZE - (bufva + i) mod PGSIZE then count - i else PGSIZE - (bufva + i) mod PGSIZE)
    with (chunk bufva i count) by (unfold chunk; destruct (Z.ltb_spec (count - i) (PGSIZE - (bufva + i) mod PGSIZE)); lia).
  done.
Qed.

(** The rule of the loop: an invariant indexed by the number of bytes done, that
    every chunk carries on, until all [count] bytes are done or an operation
    comes to the end, at [n] bytes, before the chunk is full. *)
Lemma page_loop_rule op (I : Z -> SysFile.state A -> Prop) bufva count n :
  0 <= bufva -> 0 <= n <= count -> count < 2 ^ 31 ->
  (forall i s, 0 <= i < count -> i <= n -> i = 0 \/ (bufva + i) mod PGSIZE = 0 -> I i s -> exists j p F e,
     running s j p F /\ bufva + i < MAXVA /\
     xlate (pagetable p) (SysFile.memory_of s) (bufva + i) = Some e /\ has e PTE_R || has e PTE_W = true /\
     returns (op (PTE2PA e) ((bufva + i) mod PGSIZE) (chunk bufva i count)) s
       (fun r s' => r = Z.min (chunk bufva i count) (n - i) /\ I (i + r) s')) ->
  forall fuel i s, 0 <= i <= n -> i = 0 \/ (bufva + i) mod PGSIZE = 0 \/ i = count -> I i s ->
    (i = count \/ (bufva + i) mod PGSIZE + (count - i) <= PGSIZE * Z.of_nat fuel) ->
  returns (SysFile.page_loop fuel op bufva i count) s (fun r s' => r = n /\ I n s').
Proof.
  intros Hb Hn Hc Hstep. induction fuel as [|fuel IH]; intros i s Hi Hal HI Hfuel.
  - assert (i = count) as -> by (pose proof (Z.mod_pos_bound (bufva + i) PGSIZE ltac:(done)); lia).
    assert (n = count) as -> by lia.
    exists count, s. split; [|done]. cbn. rewrite u64_small by lia. rewrite Z.ltb_irrefl, i64_small by lia. done.
  - destruct (decide (i = count)) as [->|Hne].
    + assert (n = count) as -> by lia.
      exists count, s. split; [|done]. cbn. rewrite u64_small by lia. rewrite Z.ltb_irrefl, i64_small by lia. done.
    + destruct (Hstep i s ltac:(lia) ltac:(lia) ltac:(tauto) HI) as (j & p & F & e & Hrun & Hva & Hx & Hrw & r & s' & Hop & -> & HI').
      pose proof (chunk_pos bufva i count ltac:(lia)). pose proof (chunk_page bufva i count).
      set (r := Z.min (chunk bufva i count) (n - i)) in *.
      assert (i32 (i + r) = i + r) as Er by (apply i32_small; unfold r; lia).
      destruct (decide (r < chunk bufva i count)) as [Hlt|Hge].
      * assert (i + r = n) as En by (unfold r in *; lia). exists n, s'. rewrite En in HI'. split; [|done].
        rewrite (page_loop_step fuel op s j p F e) by (done || lia). mstep Hop.
        destruct (Z.ltb_spec r (chunk bufva i count)); [|lia]. by rewrite Er, En.
      * assert (r = chunk bufva i count) as Hr by (unfold r in *; lia).
        destruct (IH (i + r) s') as (r' & s'' & Heq & Hr'); [unfold r in *; lia| |done| |].
        -- destruct (decide (i + r = count)); [tauto|]. right. left. rewrite Hr. apply H0. unfold chunk in *. lia.
        -- destruct (decide (i + r = count)); [by left|right]. rewrite Hr, H0 by (unfold chunk in *; lia).
           unfold chunk in *. unfold PGSIZE in *. lia.
        -- exists r', s''. split; [|done]. rewrite (page_loop_step fuel op s j p F e) by (done || lia).
           mstep Hop. destruct (Z.ltb_spec r (chunk bufva i count)); [lia|]. by rewrite Er.
Qed.

Lemma loop_fuel_enough bufva count : 0 <= count ->
  bufva mod PGSIZE + count <= PGSIZE * Z.of_nat (SysFile.loop_fuel count).
Proof. intros. unfold SysFile.loop_fuel, PGSIZE. zlia. Qed.

(** ** Open files *)
(** The descriptor [fd] of [p] is open with the entry [x], on the inode [f]. *)
Record fd_open s (p : process) (fd : Z) (x : file) (f : Z) (v : vinode) : Prop := {
  fo_fd : 0 <= fd < NFILES;
  fo_entry : (Vfs.files (SysFile.vfs s) ∪ SysFile.file_table (SysFile.memory_of s) (pfiles p)) !!
               ProcFile.opened_file (pfiles p) fd = Some x;
  fo_dentry : exists d, Rfs.dentries (Vfs.fs (SysFile.vfs s)) !! f_dentry x = Some d /\ d_inode d = f;
  fo_vinode : Rfs.vinodes (Vfs.fs (SysFile.vfs s)) !! f = Some v;
}.

Lemma i32_fd fd : 0 <= fd < NFILES -> i32 fd = fd.
Proof. unfold NFILES. intros. apply i32_small. lia. Qed.

Lemma get_opened_file_eq pf fd (t : ProcFile.state A) : 0 <= fd < NFILES ->
  ProcFile.get_opened_file pf fd t = Ret (ProcFile.opened_file pf fd) t.
Proof.
  intros. unfold ProcFile.get_opened_file. destruct (Z.leb_spec 0 fd); [|lia]. destruct (Z.ltb_spec fd NFILES); [done|lia].
Qed.

(** The state after an operation on an open file that changed the file system
    to [fs'] and the entry to [x']; no page was allocated or freed. *)
Definition after s (p : process) (fd : Z) (fs' : Rfs.state A) (x' : file) : SysFile.state A :=
  SysFile.mk (SysFile.kernel s)
    (Vfs.set_files (<[ProcFile.opened_file (pfiles p) fd := x']>
       (Vfs.files (SysFile.vfs s) ∪ SysFile.file_table (SysFile.memory_of s) (pfiles p)))
       (Vfs.set_fs fs' (SysFile.vfs s))).

Lemma set_file_state_after s p fd fs' x' :
  kp_get (Rfs.pages fs') = pmm (SysFile.kernel s) ->
  SysFile.set_file_state (pfiles p)
    (ProcFile.mk (Vfs.set_files (<[ProcFile.opened_file (pfiles p) fd := x']>
       (Vfs.files (SysFile.vfs s) ∪ SysFile.file_table (SysFile.memory_of s) (pfiles p)))
       (Vfs.set_fs fs' (SysFile.vfs s))) (ProcFile.nfiles (SysFile.file_state (pfiles p) s))) s
  = after s p fd fs' x'.
Proof.
  intros Hp. unfold SysFile.set_file_state, after. cbn [ProcFile.nfiles ProcFile.vfs SysFile.file_state].
  rewrite Z.eqb_refl. cbn [Vfs.set_files Vfs.set_fs Vfs.fs]. rewrite Hp. by destruct (SysFile.kernel s).
Qed.

(** The file system as an operation sees it. *)
Definition fs_of s : Rfs.state A :=
  Rfs.set_pages (kp_set (pmm (SysFile.kernel s)) (Rfs.pages (Vfs.fs (SysFile.vfs s)))) (Vfs.fs (SysFile.vfs s)).

Section vfs_steps.
Context (i_ops : vinode_ops A).

(** [do_write] on a regular file open for writing. *)
Lemma do_write_eq s p fd x f v buf len r off fs' :
  fd_open s p fd x f v -> f_writable x <> 0 -> type v = FILE_I ->
  viop_write i_ops f buf len (f_offset x) (fs_of s) = Ret (r, off) fs' ->
  ProcFile.do_write i_ops (pfiles p) fd buf len (SysFile.file_state (pfiles p) s) =
    Ret r (ProcFile.mk (Vfs.set_files (<[ProcFile.opened_file (pfiles p) fd := Vfs.set_offset off x]>
      (Vfs.files (SysFile.vfs s) ∪ SysFile.file_table (SysFile.memory_of s) (pfiles p)))
      (Vfs.set_fs fs' (SysFile.vfs s))) (ProcFile.nfiles (SysFile.file_state (pfiles p) s))).
Proof.
  intros [Hfd Hx (d & Hd & <-) Hv] Hw Hty Hop. set (t := SysFile.file_state (pfiles p) s).
  unfold ProcFile.do_write. mstep (get_opened_file_eq (pfiles p) fd t Hfd).
  rewrite (bind_Ret _ _ _ x t). 2:{ unfold ProcFile.on_vfs, zoom, Vfs.get_file. cbn. rewrite Hx. cbn. reflexivity. }
  destruct (Z.eqb_spec (f_writable x) 0); [done|]. apply on_vfs_Ret. unfold Vfs.vfs_write.
  rewrite (bind_Ret _ _ _ x (ProcFile.vfs t)) by (unfold Vfs.get_file; cbn; by rewrite Hx).
  destruct (Z.eqb_spec (f_writable x) 0); [done|].
  mstep (file_type_eq (ProcFile.vfs t) _ x d v Hx Hd Hv). rewrite Hty. cbn [negb Z.eqb FILE_I].
  mstep (dentry_inode_eq (ProcFile.vfs t) (f_dentry x) d Hd).
  rewrite (bind_Ret _ _ _ (r, off) (Vfs.set_fs fs' (ProcFile.vfs t)))
    by (unfold Vfs.on_fs, zoom; cbn; fold (fs_of s); by rewrite Hop).
  unfold Vfs.upd_file. rewrite bind_modify. unfold ret.
  cbn [Vfs.files Vfs.set_fs ProcFile.vfs t SysFile.file_state Vfs.set_files]. by rewrite (alter_insert_map _ _ x _ Hx).
Qed.

(** The bytes [do_read] hands to the user: the string in its [buffer]. *)
Definition read_string (uninit bs : list Z) (len : Z) : list Z :=
  before_nul (take (Z.to_nat len) (bs ++ drop (length bs) uninit)) ++ [0].


(** [do_read] on something else: the content of the stack. *)
Lemma do_read_not_file s p uninit fd x f v len :
  fd_open s p fd x f v -> f_readable x <> 0 -> type v <> FILE_I ->
  ProcFile.do_read i_ops (pfiles p) uninit fd len (SysFile.file_state (pfiles p) s) =
    Ret (-1, read_string uninit [] len) (SysFile.file_state (pfiles p) s).
Proof.
  intros [Hfd Hx (d & Hd & <-) Hv] Hw Hty. set (t := SysFile.file_state (pfiles p) s).
  unfold ProcFile.do_read. mstep (get_opened_file_eq (pfiles p) fd t Hfd).
  rewrite (bind_Ret _ _ _ x t). 2:{ unfold ProcFile.on_vfs, zoom, Vfs.get_file. cbn. rewrite Hx. cbn. reflexivity. }
  destruct (Z.eqb_spec (f_readable x) 0); [done|].
  rewrite (bind_Ret _ _ _ (-1, []) t).
  - rewrite cstring_terminated. done.
  - unfold ProcFile.on_vfs, zoom. unfold Vfs.vfs_read.
    rewrite (bind_Ret _ _ _ x (ProcFile.vfs t)) by (unfold Vfs.get_file; cbn; by rewrite Hx).
    destruct (Z.eqb_spec (f_readable x) 0); [done|].
    mstep (file_type_eq (ProcFile.vfs t) _ x d v Hx Hd Hv). destruct (Z.eqb_spec (type v) FILE_I); done.
Qed.
End vfs_steps.

(** ** Writing *)
Section write.
Context (garbage : Z -> vinode).

(** The file behind the descriptor is well formed and has the content [c], and
    the descriptor is at its end; [room] blocks can be used for it. *)
Record at_end s (p : process) (fd f : Z) (c : list Z) (room : Z) : Prop := {
  ae_open : exists x v, fd_open s p fd x f v /\ f_writable x <> 0 /\ f_offset x = size v /\
    type v = FILE_I /\ readable (Vfs.fs (SysFile.vfs s)) v /\ content (Vfs.fs (SysFile.vfs s)) v = c /\
    Z.of_nat (free_count (Vfs.fs (SysFile.vfs s))) + blocks v = room;
}.

(** Writing one chunk appends its bytes. *)
Lemma write_chunk_appends s j p F fd f c room pa off len :
  running s j p F -> at_end s p fd f c room -> pa <> 0 -> 0 <= len < 2 ^ 31 ->
  (Z.of_nat (length c) + len + 4095) / 4096 <= Z.min 10 room ->
  exists s', SysFile.write_chunk (rfs_i_ops garbage) fd pa off len s = Ret len s' /\ SysFile.kernel s' = SysFile.kernel s /\
    at_end s' p fd f (c ++ load_bytes (SysFile.memory_of s) (pa + off) len) room.
Proof.
  intros Hrun [(x & v & Hfd & Hw & Hoff & Hty & Hr & Hc & Hroom)] Hpa Hlen Hb.
  set (buf := load_bytes (SysFile.memory_of s) (pa + off) len).
  assert (length buf = Z.to_nat len) as Hbl by apply length_load_bytes.
  pose proof (readable_pages _ v (kp_set (pmm (SysFile.kernel s)) (Rfs.pages (Vfs.fs (SysFile.vfs s)))) Hr) as Hr'.
  pose proof (content_length _ _ Hr) as Hcl. rewrite Hc in Hcl.
  pose proof Hr as (_ & _ & [_ _ Hsz _ _]).
  destruct (rfs_write_spec (fs_of s) f v buf len (f_offset x) Hr') as (fs' & v' & Heq & Hs' & Hc' & Hwr);
    try (apply Hfd || lia).
  { rewrite Hoff, <- Hcl. lia. }
  { change (free_count (fs_of s)) with (free_count (Vfs.fs (SysFile.vfs s))). rewrite Hoff, <- Hcl, Hroom. lia. }
  destruct Hwr as [W1 W2 (_ & _ & W3 & _) (W4 & _ & _ & W5) _ W6].
  exists (after s p fd fs' (Vfs.set_offset (f_offset x + len) x)). split_and!.
  - unfold SysFile.write_chunk. destruct (Z.eqb_spec pa 0); [done|]. rewrite bind_gets. fold buf.
    mstep (on_files_Ret (fun pf => ProcFile.do_write (rfs_i_ops garbage) pf fd buf len) s j p F _ _ Hrun (do_write_eq (rfs_i_ops garbage) s p fd x f v buf len _ _ fs' Hfd Hw Hty Heq)).
    rewrite set_file_state_after by (rewrite W5; apply kp_get_set). unfold ret. rewrite i32_small, u64_small by lia. done.
  - done.
  - destruct Hfd as [F1 F2 (d & F3 & F4) F5]. split. exists (Vfs.set_offset (f_offset x + len) x), v'.
    split_and!; try done; cbn.
    + split; cbn; try done.
      * rewrite (lookup_union_Some_l _ _ _ (Vfs.set_offset (f_offset x + len) x)); [done|]. by rewrite lookup_insert_eq.
      * exists d. by rewrite W4.
      * by rewrite W2, lookup_insert_eq.
    + congruence.
    + rewrite Hc'. change (content (fs_of s) v) with (content (Vfs.fs (SysFile.vfs s)) v).
      rewrite Hc, !take_ge by lia. done.
    + rewrite <- Hroom. exact W6.
Qed.

Lemma running_kernel s s' j p F : SysFile.kernel s' = SysFile.kernel s -> running s j p F -> running s' j p F.
Proof. intros E [? ? ?]. by split; rewrite E. Qed.

(** C6: [write] of a process appends what the process has in its buffer: for a
    descriptor at the end of a regular file of RFS and a buffer anywhere in the
    memory of the process, across any number of pages, the call returns the
    length, the file's content is the old one followed by the bytes the process
    sees in the buffer, and nothing else of the kernel's state changes. *)
Theorem sys_user_write_appends s j p F fd f c room bufva bs :
  running s j p F -> 0 <= bufva -> user_bytes (pagetable p) (SysFile.memory_of s) bufva bs ->
  at_end s p fd f c room ->
  (Z.of_nat (length c) + Z.of_nat (length bs) + 4095) / 4096 <= Z.min 10 room ->
  returns (SysFile.sys_user_write (rfs_i_ops garbage) fd bufva (Z.of_nat (length bs))) s (fun r s' =>
    r = Z.of_nat (length bs) /\ SysFile.kernel s' = SysFile.kernel s /\ at_end s' p fd f (c ++ bs) room).
Proof.
  intros Hrun Hb Hbs Hend Hroom. set (n := Z.of_nat (length bs)) in *.
  assert (n < 2 ^ 31) as Hn by (clear -Hroom; zlia).
  assert (i32 fd = fd) as Hfd by (destruct Hend as [(? & ? & [] & _)]; by apply i32_fd).
  unfold SysFile.sys_user_write. rewrite Hfd.
  eapply returns_mono; [apply (page_loop_rule _ (fun i s' => SysFile.kernel s' = SysFile.kernel s /\
    at_end s' p fd f (c ++ take (Z.to_nat i) bs) room) bufva n n Hb ltac:(lia) Hn)|].
  - intros i s1 Hi _ _ [Hk Hae]. pose proof (chunk_pos bufva i n ltac:(lia)) as Hpos.
    assert (SysFile.memory_of s1 = SysFile.memory_of s) as Hm by (unfold SysFile.memory_of; by rewrite Hk).
    destruct (user_bytes_page _ _ _ _ i (chunk bufva i n) Hbs) as (e & Hx & Hrw & Hnz & Hva & Hload);
      [lia|lia|unfold chunk in *; lia|unfold chunk in *; lia|].
    exists j, p, F, e. rewrite Hm. split_and!; try done; [by apply (running_kernel s)|lia|].
    destruct (write_chunk_appends s1 j p F fd f (c ++ take (Z.to_nat i) bs) room (PTE2PA e) ((bufva + i) mod PGSIZE)
      (chunk bufva i n)) as (s2 & Heq & Hk2 & Hae2); try done; [by apply (running_kernel s)|unfold chunk in *; lia| |].
    { etrans; [|exact Hroom]. apply Z.div_le_mono; [done|]. rewrite length_app, length_take. unfold chunk in *. lia. }
    eapply returns_of_eq; [exact Heq|]. split_and!; [unfold chunk; lia|congruence|].
    rewrite Hm, Hload, <- app_assoc, take_take_drop in Hae2. by rewrite Z2Nat.inj_add by lia.
  - lia.
  - by left.
  - by rewrite take_0, app_nil_r.
  - right. rewrite Z.add_0_r, Z.sub_0_r. apply loop_fuel_enough. lia.
  - intros r s' (-> & Hk & Hae). split_and!; try done. unfold n in Hae. by rewrite Nat2Z.id, firstn_all in Hae.
Qed.
End write.

(** ** Reading *)
Definition store_user (a : Z) (bs : list Z) s : SysFile.state A :=
  SysFile.mk (with_pmm (Pmm.set_mem (store_bytes (SysFile.memory_of s) a bs) (pmm (SysFile.kernel s))) (SysFile.kernel s))
    (SysFile.vfs s).

(** The chunk a [read] asks for. *)
Lemma read_chunk_eq i_ops s j p F uninit fd pa off len r bs t :
  running s j p F -> pa <> 0 ->
  ProcFile.do_read i_ops (pfiles p) uninit fd len (SysFile.file_state (pfiles p) s) = Ret (r, bs) t ->
  SysFile.read_chunk i_ops uninit fd pa off len s =
    Ret (u64 (i32 r)) (store_user (pa + off) bs (SysFile.set_file_state (pfiles p) t s)).
Proof.
  intros Hrun Hpa Heq. unfold SysFile.read_chunk.
  mstep (on_files_Ret (fun pf => ProcFile.do_read i_ops pf uninit fd len) s j p F _ _ Hrun Heq).
  destruct (Z.eqb_spec pa 0); [done|]. done.
Qed.

(** an error of a read is reported as success: [read] on a descriptor of a
    directory, for which [do_read] returns -1, returns the number of bytes asked
    for; the buffer of the process receives the string that happened to lie on
    the kernel's stack. *)
Theorem sys_user_read_directory i_ops s j p F uninit fd x f v e bufva count :
  running s j p F -> fd_open s p fd x f v -> f_readable x <> 0 -> type v = DIR_I ->
  0 < count < 2 ^ 31 -> 0 <= bufva < MAXVA ->
  xlate (pagetable p) (SysFile.memory_of s) bufva = Some e -> has e PTE_R || has e PTE_W = true -> PTE2PA e <> 0 ->
  let len := Z.min count (PGSIZE - bufva mod PGSIZE) in
  returns (SysFile.sys_user_read i_ops uninit fd bufva count) s (fun r s' => r = count /\
    SysFile.memory_of s' =
      store_bytes (SysFile.memory_of s) (PTE2PA e + bufva mod PGSIZE) (read_string uninit [] len)).
Proof.
  intros Hrun Hfd Hr Hty Hc Hb Hx Hrw Hnz len.
  eexists count, _. split; [|split; [done|]].
  - unfold SysFile.sys_user_read. rewrite (i32_fd fd) by apply Hfd.
    assert (exists n, SysFile.loop_fuel count = S (S n)) as [n ->]
      by (exists (Z.to_nat (count / PGSIZE)); unfold SysFile.loop_fuel, PGSIZE; zlia).
    rewrite (page_loop_step _ _ s j p F e) by (rewrite ?Z.add_0_r; done || lia). rewrite Z.add_0_r.
    replace (chunk bufva 0 count) with len by (unfold chunk, len; rewrite Z.add_0_r; lia).
    mstep (read_chunk_eq i_ops s j p F uninit fd (PTE2PA e) (bufva mod PGSIZE) len _ _ _ Hrun Hnz
      (do_read_not_file i_ops s p uninit fd x f v len Hfd Hr ltac:(by rewrite Hty))).
    assert (len < 2 ^ 32) by (unfold len, PGSIZE; lia).
    change (u64 (i32 (-1))) with (2 ^ 64 - 1). destruct (Z.ltb_spec (2 ^ 64 - 1) len); [lia|].
    change (i32 (0 + (2 ^ 64 - 1))) with (-1). cbn [SysFile.page_loop]. change (u64 (-1)) with (2 ^ 64 - 1).
    destruct (Z.ltb_spec (2 ^ 64 - 1) count); [lia|]. rewrite i64_small by lia. reflexivity.
  - cbn. unfold SysFile.set_file_state, SysFile.memory_of. cbn. by rewrite Z.eqb_refl, kp_get_set.
Qed.










End calls.

(** ** A process with an open file *)

(** Its page [0x400000] is mapped, and the descriptor 0 is open on the inode
    [ino] of the file system [demo_fs2], at the offset [off]. *)
Definition demo_proc : process :=
  mk_process 0 VmmSpec.demo_root 0 0 0 0 0 [] 0 0 RUNNING None None 0 0x80200000.
Definition demo_entry (off : Z) : file := mk_file FD_OPENED 1 1 off 0x80020000.
Definition demo_calls (v : Pmm.state) (ino off : Z) : SysFile.state Pmm.state :=
  SysFile.mk (mk_state v [demo_proc] (Some 0%nat) None (mk_cpu 0 0 0 0 0 0 0 0 []) 0 0)
    (Vfs.mk (with_allocator v {[0x80020000 := mk_dentry demo_name ino 0 1]} demo_fs2) [] []
       {[ProcFile.opened_file 0x80200000 0 := demo_entry off]} 0).

#[local] Opaque demo_fs2.

(** Facts about the example that evaluate. *)
Ltac decide_now := apply (bool_decide_unpack _); vm_compute; exact I.

Lemma demo_mapped : exists v F,
  vm_inv VmmSpec.demo_root v F /\ xlate VmmSpec.demo_root (Pmm.mem v) 0x400ffe = Some (entry 0x80100000 demo_perm).
Proof.
  destruct (demo_vm_inv 8) as [Hinv Hx]; [done|].
  destruct (user_vm_map_page VmmSpec.demo_root 0x400000 0x80100000 demo_perm (demo_vm 8) (VmmSpec.demo_free 8))
    as (u & v & _ & used & F' & I & _ & _ & X); try done; [unfold VmmSpec.demo_free; simpl; lia|].
  exists v, F'. split; [done|]. by rewrite X.
Qed.

Lemma demo_running v F ino off : vm_inv VmmSpec.demo_root v F -> running (demo_calls v ino off) 0 demo_proc F.
Proof. by split. Qed.

Lemma demo_open v ino off n : Rfs.vinodes demo_fs2 !! ino = Some n ->
  fd_open (demo_calls v ino off) demo_proc 0 (demo_entry off) ino n.
Proof.
  intros Hn. split.
  - split; by vm_compute.
  - apply lookup_union_Some_l. apply lookup_singleton_eq.
  - exists (mk_dentry demo_name ino 0 1). split; [apply lookup_singleton_eq|reflexivity].
  - exact Hn.
Qed.

Lemma sys_user_read_directory_witness : exists v s',
  SysFile.sys_user_read (rfs_i_ops demo_garbage) [83; 69; 67; 82; 69; 84] 0 0x400ffe 100 (demo_calls v RfsSpec.demo_root 0)
    = Ret 100 s' /\
  SysFile.memory_of s' = store_bytes (Pmm.mem v) 0x80100ffe [83; 69; 0].
Proof.
  destruct demo_mapped as (v & F & Hvm & Hx).
  destruct (sys_user_read_directory (rfs_i_ops demo_garbage) (demo_calls v RfsSpec.demo_root 0) 0 demo_proc F
    [83; 69; 67; 82; 69; 84] 0 (demo_entry 0) RfsSpec.demo_root demo_root_v1 (entry 0x80100000 demo_perm) 0x400ffe 100
    (demo_running v F _ 0 Hvm)) as (r & s' & Heq & -> & Hm).
  - apply demo_open. by vm_compute.
  - done.
  - done.
  - done.
  - done.
  - exact Hx.
  - by vm_compute.
  - by vm_compute.
  - exists v, s'. split; [exact Heq|]. rewrite Hm.
    change (store_bytes (Pmm.mem v) 0x80100ffe (read_string [83; 69; 67; 82; 69; 84] [] 2) = store_bytes (Pmm.mem v) 0x80100ffe [83; 69; 0]).
    f_equal.
Defined.




(** Two bytes are appended to [hi!]. *)
Lemma sys_user_write_appends_witness : exists v s' bs, length bs = 2%nat /\
  user_bytes VmmSpec.demo_root (Pmm.mem v) 0x400ffe bs /\
  SysFile.sys_user_write (rfs_i_ops demo_garbage) 0 0x400ffe 2 (demo_calls v 0x80008000 3) = Ret 2 s' /\
  at_end s' demo_proc 0 0x80008000 ([104; 105; 33] ++ bs) 99.
Proof.
  destruct demo_mapped as (v & F & Hvm & Hx). destruct demo_file2 as (Hr & Hl & Hc).
  set (bs := load_bytes (Pmm.mem v) 0x80100ffe 2).
  assert (user_bytes VmmSpec.demo_root (Pmm.mem v) 0x400ffe bs) as Hbs.
  { intros k b Hk. unfold bs in Hk. rewrite load_bytes_lookup in Hk. case_decide as Hlt; [|done].
    injection Hk as <-.
    assert (xlate VmmSpec.demo_root (Pmm.mem v) (0x400ffe + Z.of_nat k) = Some (entry 0x80100000 demo_perm)) as Hxk
      by (rewrite <- Hx; apply xlate_same_page; unfold same_page, PGSIZE; zlia).
    split.
    - split; [change MAXVA with (2 ^ 38); lia|]. eexists. split; [exact Hxk|]. split; decide_now.
    - unfold vbyte. rewrite Hxk. simpl. do 2 f_equal.
      replace ((0x400ffe + Z.of_nat k) mod PGSIZE) with (0xffe + Z.of_nat k) by (unfold PGSIZE; zlia).
      change (PTE2PA (entry 0x80100000 demo_perm)) with 0x80100000. lia. }
  destruct (sys_user_write_appends demo_garbage (demo_calls v 0x80008000 3) 0 demo_proc F 0 0x80008000 [104; 105; 33] 99
    0x400ffe bs (demo_running v F _ 3 Hvm)) as (r & s' & Heq & -> & _ & Hend).
  - decide_now.
  - exact Hbs.
  - split. exists (demo_entry 3), demo_file_v2. split_and!; [apply demo_open; exact Hl|decide_now|decide_now|decide_now| | |].
    + by apply readable_allocator.
    + exact Hc.
    + vm_compute. reflexivity.
  - decide_now.
  - exists v, s', bs. split; [reflexivity|]. split; [exact Hbs|]. split; [exact Heq|exact Hend].
Defined.
