(* ===== verification/UserLib.v ===== *)
(** * [user/user_lib.c]: the system call wrappers of applications

    Each wrapper loads the call number and its arguments into the argument
    registers and executes [ecall]; the result is what the kernel leaves in
    [a0], of which [do_user_call] keeps 32 bits ([sw a0]).  [int] arguments are
    sign-extended into their registers.  The bytes of the program's own memory
    are read and written through its page table ([user_load8], [user_store8]);
    [printu] formats into a buffer of the program and passes its address. *)

From stdpp Require Import base gmap list numbers strings.
From Stdlib Require Import ZArith Lia.
From S2P Require Import Prelude Pmm Vmm VmmSpec Bytes ByteMem Rfs Vfs ProcFile Process Sched Trap TrapSpec SysFile Heap Printf.
Local Open Scope Z_scope.

Module UserLib.
Section ops.
Context `{KernelSymbols} {A : Type} `{KP : KernelPages A} (i_ops : vinode_ops A).
(** What the kernel's stack holds in the buffers of [do_fork] and [do_read]. *)
Context (filter uninit : list Z).
Notation state := (SysFile.state A).

Definition do_user_call (sysnum a1 a2 a3 a4 a5 a6 a7 : Z) : M state Z :=
  r <- SysFile.do_syscall i_ops filter uninit (u64 sysnum) (u64 a1) (u64 a2) (u64 a3) (u64 a4) (u64 a5) (u64 a6) (u64 a7) ;;
  ret (u64 (i32 r)).
(** [return do_user_call(...)] in a function that returns [int]. *)
Definition int_call (sysnum a1 a2 a3 : Z) : M state Z := r <- do_user_call sysnum a1 a2 a3 0 0 0 0 ;; ret (i32 r).

Definition exit (code : Z) : M state Z := int_call SYS_user_exit code 0 0.
Definition naive_malloc : M state Z := do_user_call SYS_user_allocate_page 0 0 0 0 0 0 0.
Definition naive_free (va : Z) : M state unit := do_user_call SYS_user_free_page va 0 0 0 0 0 0 ;; ret tt.
Definition fork : M state Z := int_call SYS_user_fork 0 0 0.
Definition yield : M state unit := do_user_call SYS_user_yield 0 0 0 0 0 0 0 ;; ret tt.
Definition open (pathname flags : Z) : M state Z := int_call SYS_user_open pathname flags 0.
Definition read_u (fd buf count : Z) : M state Z := int_call SYS_user_read fd buf count.
Definition write_u (fd buf count : Z) : M state Z := int_call SYS_user_write fd buf count.
Definition lseek_u (fd offset whence : Z) : M state Z := int_call SYS_user_lseek fd offset whence.
Definition stat_u (fd istat : Z) : M state Z := int_call SYS_user_stat fd istat 0.
Definition disk_stat_u (fd istat : Z) : M state Z := int_call SYS_user_disk_stat fd istat 0.
Definition opendir_u (dirname : Z) : M state Z := int_call SYS_user_opendir dirname 0 0.
Definition readdir_u (fd dir : Z) : M state Z := int_call SYS_user_readdir fd dir 0.
Definition mkdir_u (pathname : Z) : M state Z := int_call SYS_user_mkdir pathname 0 0.
Definition closedir_u (fd : Z) : M state Z := int_call SYS_user_closedir fd 0 0.
Definition link_u (fn1 fn2 : Z) : M state Z := int_call SYS_user_link fn1 fn2 0.
Definition unlink_u (fn : Z) : M state Z := int_call SYS_user_unlink fn 0 0.
Definition close (fd : Z) : M state Z := int_call SYS_user_close fd 0 0.

(** The memory of the program. *)
Definition user_load8 (va : Z) : M state Z := SysFile.on_kernel (a <- user_address PTE_R va ;; m <- gets mem ;; ret (ld8 m a)).
Definition user_store8 (va b : Z) : M state unit := SysFile.on_kernel (a <- user_address PTE_W va ;; update_mem (fun m => st8 m a b)).
Fixpoint user_load (va : Z) (n : nat) : M state (list Z) :=
  match n with
  | O => ret []
  | S n => b <- user_load8 va ;; bs <- user_load (va + 1) n ;; ret (b :: bs)
  end.
Fixpoint user_store (va : Z) (bs : list Z) : M state unit :=
  match bs with
  | [] => ret tt
  | b :: bs => user_store8 va b ;; user_store (va + 1) bs
  end.

(** [printu(s, ...)], whose local buffer is at [out]. *)
Definition printu (out : Z) (s : list Z) (vl : list va_value) : M state Z :=
  old <- user_load out 256 ;;
  match Printf.vsnprintf old 256 s vl with
  | None => fault "printu: read or write out of bounds"
  | Some (res, text) =>
      user_store out text ;;
      let n := if u64 res <? 256 then u64 res else 256 in
      int_call SYS_user_print out n 0
  end.
End ops.
End UserLib.

Section user.
Context `{KernelSymbols} {A : Type} `{KP : KernelPages A} (i_ops : vinode_ops A) (filter uninit : list Z).

Lemma i32_u64 x : i32 (u64 (i32 x)) = i32 x.
Proof. pose proof (i32_range x). unfold u64. unfold i32 at 1. destruct (Z.le_gt_cases 0 (i32 x)).
  - rewrite (Z.mod_small (i32 x)) by lia. rewrite Z.mod_small; lia.
  - replace (i32 x mod 2 ^ 64) with (i32 x + 2 ^ 64) by (rewrite <- (Z.mod_add (i32 x) 1 (2 ^ 64)), Z.mod_small; lia).
    replace (i32 x + 2 ^ 64 + 2 ^ 31) with (i32 x + 2 ^ 31 + 2 ^ 32 * 2 ^ 32) by lia. rewrite Z.mod_add by lia.
    rewrite Z.mod_small; lia.
Qed.

(** What an application gets back: the result of the kernel as an [int], and of
    the heap call the low half of the address, sign-extended. *)
Lemma int_call_eq sysnum a1 a2 a3 s r s' :
  SysFile.do_syscall i_ops filter uninit (u64 sysnum) (u64 a1) (u64 a2) (u64 a3) (u64 0) (u64 0) (u64 0) (u64 0) s = Ret r s' ->
  UserLib.int_call i_ops filter uninit sysnum a1 a2 a3 s = Ret (i32 r) s'.
Proof. intros Hs. unfold UserLib.int_call, UserLib.do_user_call, bind. rewrite Hs. unfold ret. by rewrite i32_u64. Qed.

Lemma int_call_range sysnum a1 a2 a3 s r s' :
  UserLib.int_call i_ops filter uninit sysnum a1 a2 a3 s = Ret r s' -> - 2 ^ 31 <= r < 2 ^ 31.
Proof.
  unfold UserLib.int_call. intros (r0 & s0 & _ & [= <- <-])%bind_inv_Ret. apply i32_range.
Qed.

(** [naive_malloc] hands the application the address the kernel mapped
    exactly when that address lies below 2 GiB: the wrapper keeps 32 bits of the
    result and sign-extends them. *)
Lemma naive_malloc_address s va s' :
  0 <= va < MAXVA -> SysFile.on_kernel Trap.sys_user_allocate_page s = Ret va s' ->
  exists p, UserLib.naive_malloc i_ops filter uninit s = Ret p s' /\ (p = va <-> va < 2 ^ 31).
Proof.
  intros Hva Hs. change MAXVA with (2 ^ 38) in Hva. exists (u64 (i32 va)). split.
  - unfold UserLib.naive_malloc, UserLib.do_user_call.
    rewrite (bind_Ret _ _ _ va s'); [done|]. exact Hs.
  - pose proof (i32_range va). split.
    + intros E. destruct (Z.lt_ge_cases va (2 ^ 31)) as [|Hge]; [done|exfalso].
      unfold u64 in E. destruct (Z.le_gt_cases 0 (i32 va)).
      * rewrite Z.mod_small in E; lia.
      * replace (i32 va mod 2 ^ 64) with (i32 va + 2 ^ 64) in E by (rewrite <- (Z.mod_add (i32 va) 1 (2 ^ 64)), Z.mod_small; lia). lia.
    + intros Hlt. rewrite i32_small by lia. apply u64_small. lia.
Qed.
End user.
