(* ===== verification/HardlinkApp.v ===== *)
(** * [user/app_hardlink.c]: the application that tests hard links

    The program as it calls the user library.  Its string literals and the
    variables whose address it passes on are at addresses that the compiler
    chose: [literal] and the fields of [frame].  A call of [exit] ends the
    program: the kernel makes the process a zombie and runs another one. *)

From stdpp Require Import base gmap list numbers strings pretty.
From Stdlib Require Import ZArith Lia Ascii.
From S2P Require Import Prelude Pmm Bytes ByteMem Rfs Vfs Process SysFile Printf UserLib.
Local Open Scope Z_scope.

Module HardlinkApp.
Record frame := mk_frame {
  out_addr : Z;   (** [out] of [printu] *)
  str_addr : Z;   (** [str], [buf] and [st] of [main] *)
  buf_addr : Z;
  st_addr : Z;
  dir_addr : Z;   (** [dir] of [ls] *)
}.

Definition st_nlinks_off : Z := 12.
(** A format that ends its line, and a quotation mark. *)
Definition line (s : string) : list Z := codes s ++ [10; 0].
Definition quote : list Z := [34].
Definition rule : list Z := line "------------------------------".

(** The array [name] of [ls] for a name shorter than its width: [memset], the
    last byte, [strcpy], and a blank over the NUL that [strcpy] wrote. *)
Definition padded (name : list Z) : list Z :=
  let width := 20%nat in
  <[length name := ch " "%char]> (over (name ++ [0]) (<[width := 0]> (replicate (S width) (ch " "%char)))).

Section ops.
Context `{KernelSymbols} {A : Type} `{KP : KernelPages A} (i_ops : vinode_ops A) (filter uninit : list Z).
Context (literal : list Z -> Z) (f : frame).
Notation state := (SysFile.state A).

Definition say (s : list Z) (vl : list va_value) : M state Z := UserLib.printu i_ops filter uninit (out_addr f) s vl.
Definition load_int (va : Z) : M state Z := bs <- UserLib.user_load va 4 ;; ret (i32 (le_value 4 bs)).

(** A string in the program's memory, with its NUL within [n] bytes. *)
Fixpoint load_string (n : nat) (va : Z) : M state (list Z) :=
  match n with
  | O => fault "string without end"
  | S n => b <- UserLib.user_load8 va ;; if b =? 0 then ret [] else bs <- load_string n (va + 1) ;; ret (b :: bs)
  end.

(** The loop of [ls] over the entries, at most [fuel] of them. *)
Fixpoint ls_loop (fuel : nat) (dir_fd : Z) : M state unit :=
  match fuel with
  | O => fun _ => NoFuel
  | S fuel =>
      r <- UserLib.readdir_u i_ops filter uninit dir_fd (dir_addr f) ;;
      if negb (r =? 0) then ret tt
      else
        name <- load_string (Z.to_nat MAX_FILE_NAME_LEN) (dir_addr f) ;;
        inum <- load_int (dir_addr f + MAX_FILE_NAME_LEN) ;;
        (if Z.of_nat (length name) <? 20 then say (line "%s %d") [VStr (padded name); VInt inum]
         else say (line "%s %d") [VStr (name ++ [0]); VInt inum]) ;;
        ls_loop fuel dir_fd
  end.

Definition ls (fuel : nat) (path : list Z) : M state unit :=
  dir_fd <- UserLib.opendir_u i_ops filter uninit (literal path) ;;
  say rule [] ;;
  say (codes "ls " ++ quote ++ codes "%s" ++ quote ++ line ":") [VStr path] ;;
  say (line "[name]               [inode_num]") [] ;;
  ls_loop fuel dir_fd ;;
  say rule [] ;;
  UserLib.closedir_u i_ops filter uninit dir_fd ;;
  ret tt.

(** The two names, and the check of the link count that [main] makes twice:
    it ends the program with [exit(-1)] when the count is not [n]. *)
Definition ramfile : list Z := codes "/RAMDISK0/ramfile" ++ [0].
Definition ramfile2 : list Z := codes "/RAMDISK0/ramfile2" ++ [0].
Definition check_links (fd n : Z) (report : list Z) (k : M state Z) : M state Z :=
  UserLib.disk_stat_u i_ops filter uninit fd (st_addr f) ;;
  links <- load_int (st_addr f + st_nlinks_off) ;;
  say report [VInt links] ;;
  if negb (links =? n) then
    say (line ("ERROR: the number of hard links to ramfile should be " ++ pretty n ++ ", but it is %d")) [VInt links] ;;
    UserLib.exit i_ops filter uninit (-1) ;;
    ret (-1)
  else k.

(** The result is the code the program exits with. *)
Definition main (fuel : nat) : M state Z :=
  let MAXBUF := 512 in
  let str := codes "hello world" in
  UserLib.user_store (str_addr f) (str ++ [0]) ;;
  say (10 :: line "======== establish the file ========") [] ;;
  fd1 <- UserLib.open i_ops filter uninit (literal ramfile) (Z.lor O_RDWR O_CREAT) ;;
  say (line "create file: /RAMDISK0/ramfile") [] ;;
  UserLib.close i_ops filter uninit fd1 ;;
  say (10 :: line "======== Test 1: hard link ========") [] ;;
  UserLib.link_u i_ops filter uninit (literal ramfile) (literal ramfile2) ;;
  say (line "create hard link: /RAMDISK0/ramfile2 -> /RAMDISK0/ramfile") [] ;;
  fd1 <- UserLib.open i_ops filter uninit (literal ramfile) O_RDWR ;;
  fd2 <- UserLib.open i_ops filter uninit (literal ramfile2) O_RDWR ;;
  say (line "file descriptor fd1 (ramfile): %d") [VInt fd1] ;;
  say (line "file descriptor fd2 (ramfile2): %d") [VInt fd2] ;;
  check_links fd1 2 (line "ramfile hard links: %d")
   (UserLib.write_u i_ops filter uninit fd1 (str_addr f) (Z.of_nat (length str)) ;;
    say (codes "/RAMDISK0/ramfile write content: " ++ 10 :: line "%s") [VStr (str ++ [0])] ;;
    UserLib.read_u i_ops filter uninit fd2 (buf_addr f) MAXBUF ;;
    content <- load_string (Z.to_nat MAXBUF) (buf_addr f) ;;
    say (codes "/RAMDISK0/ramfile2 read content: " ++ 10 :: line "%s") [VStr (content ++ [0])] ;;
    UserLib.close i_ops filter uninit fd1 ;;
    UserLib.close i_ops filter uninit fd2 ;;
    say (10 :: line "======== Test 2: unlink ========") [] ;;
    ls fuel (codes "/RAMDISK0" ++ [0]) ;;
    UserLib.unlink_u i_ops filter uninit (literal ramfile) ;;
    say (line "unlink: /RAMDISK0/ramfile") [] ;;
    ls fuel (codes "/RAMDISK0" ++ [0]) ;;
    fd2 <- UserLib.open i_ops filter uninit (literal ramfile2) O_RDWR ;;
    check_links fd2 1 (line "ramfile2 hard links: %d")
     (UserLib.close i_ops filter uninit fd2 ;;
      say (10 :: codes "All tests passed!" ++ [10; 10; 0]) [] ;;
      UserLib.exit i_ops filter uninit 0 ;;
      ret 0)).
End ops.
End HardlinkApp.

(** ** The verdict of the program *)
Section verdict.
Context `{KernelSymbols} {A : Type} `{KP : KernelPages A} (i_ops : vinode_ops A) (filter uninit : list Z).
Context (literal : list Z -> Z) (f : HardlinkApp.frame).
Notation check_links := (HardlinkApp.check_links i_ops filter uninit f).
Notation load_int := (HardlinkApp.load_int (A := A)).

(** The check goes on only when the field of [st] that the call filled in is the
    expected count, and otherwise the program has called [exit(-1)]. *)
Lemma check_links_result fd n report k s r s' : check_links fd n report k s = Ret r s' ->
  exists r1 s1 links s2 s3, UserLib.disk_stat_u i_ops filter uninit fd (HardlinkApp.st_addr f) s = Ret r1 s1 /\
    load_int (HardlinkApp.st_addr f + HardlinkApp.st_nlinks_off) s1 = Ret links s2 /\
    ((links = n /\ k s3 = Ret r s') \/ (links <> n /\ r = -1 /\ exists x, UserLib.exit i_ops filter uninit (-1) s3 = Ret x s')).
Proof.
  unfold HardlinkApp.check_links. intros (r1 & s1 & E1 & (links & s2 & E2 & (x & s3 & E3 & E)%bind_inv_Ret)%bind_inv_Ret)%bind_inv_Ret.
  destruct (Z.eqb_spec links n) as [->|Hne]; cbn [negb] in E.
  - exists r1, s1, n, s2, s3. split_and!; [done|done|by left].
  - apply bind_inv_Ret in E as (y & s4 & _ & (z & s5 & E5 & [= <- <-])%bind_inv_Ret). exists r1, s1, links, s2, s4. split_and!; [done|done|]. right. eauto.
Qed.

(** The program exits with 0 or with -1. *)
Lemma main_exit_code fuel s r s' : HardlinkApp.main i_ops filter uninit literal f fuel s = Ret r s' -> r = 0 \/ r = -1.
Proof.
  unfold HardlinkApp.main. intros E.
  repeat match type of E with bind _ _ _ = Ret _ _ => apply bind_inv_Ret in E as (? & ? & _ & E) end.
  apply check_links_result in E as (_ & s1 & n1 & s2 & s3 & _ & _ & [[_ E]|(_ & -> & _)]); [|by right].
  repeat match type of E with bind _ _ _ = Ret _ _ => apply bind_inv_Ret in E as (? & ? & _ & E) end.
  apply check_links_result in E as (_ & t1 & n2 & t2 & t3 & _ & _ & [[_ E]|(_ & -> & _)]); [|by right].
  repeat match type of E with bind _ _ _ = Ret _ _ => apply bind_inv_Ret in E as (? & ? & _ & E) end.
  injection E as <- _. by left.
Qed.
End verdict.
